(* ===== verification/_CoqProject ===== *)
-Q . S2P
Prelude.v
JsNum.v
JsMap.v
Types.v
ChatStore.v
ChatStoreProps.v
ProtoRuntime.v
ProtoLaws.v
ProtoDouble.v
ProtoSchema.v
ProtoMessages.v
ProtoPacket.v
ProtoWire.v
Topic.v
ProtoObjects.v
ProtoConvert.v
ProtoConvertLaws.v
ProtoSchemaConvert.v
ProtoCodecs.v
ProtoPacketProps.v
ProtoConvertProps.v
ApiAuth.v
ApiGroups.v
ApiPush.v
ApiCodecs.v
ApiClasses.v
ApiServices.v
DescHttp.v
DescOptions.v
DescProtos.v
DescCodecs.v
DescLevels.v
DescClasses.v
DescConvert.v
DescConvertOptions.v
DescConvertProtos.v
DescRuleObjects.v
DescConverters.v
DescObjects.v
Mentions.v
Realtime.v
RealtimeProps.v
Api.v
ApiCalls.v
AuthStore.v
Media.v
Session.v
Hooks.v
HooksProps.v
System.v
SystemProps.v
Composer.v
MessageView.v
Dialogs.v
Presence.v
Tab.v
TabProps.v
