(* ===== verification/Prelude.v ===== *)
(** * Verification of the nonoka-im web client

    nonoka-im is a messenger: a Go backend and a web client ([web/app], in
    TypeScript with a generated JavaScript protocol codec).  This library
    models the client's logic and proves what it promises.

    ** The program

    A user signs in over HTTP ([lib/api.ts], [stores/authStore.ts],
    [hooks/useAuth.ts]).  A WebSocket client ([lib/realtime.ts]) asks the
    backend for a gateway, authenticates, exchanges protobuf frames
    ([lib/proto/im.js]), reconnects when the connection is lost and dispatches
    events.  The hooks ([hooks/useRealtime.ts], [hooks/useConversation.ts],
    [hooks/useConversations.ts]) turn those events and the replies of the
    HTTP endpoints into actions of the chat store ([stores/chatStore.ts]),
    which the components show.  Topic names ([lib/topic.ts]), mentions
    ([lib/mentions.ts]) and media metadata ([lib/media.ts]) are pure helpers.

    Components ([components/chat/*.tsx], the pages) render that state and keep
    some of their own: the composer, the dialogs, the scroll position.

    ** The files

    - [Prelude]: results of code that may throw ([res], with its binding
      notation), tactics, the hint databases, lemmas on lists.
    - [JsNum]: the numbers of the client.  Fields typed [number] hold numbers
      or, when they come from proto-JSON, decimal strings; comparison,
      conversion and rounding to a double are those of the language.
    - [JsMap]: [Map] and [Set], in insertion order.
    - [Types]: the interfaces of [types/index.ts].
    - [ChatStore] and [ChatStoreProps]: every action of the chat store as a
      function on its state record, and its correctness.
    - [ProtoRuntime], [ProtoLaws], [ProtoWire]: the protobufjs runtime as a
      class of operations, its documented laws as a second class with the
      codec lemmas derived from them, and an executable instance that
      satisfies the laws.
    - [ProtoMessages]: the message classes that travel in a frame, each with
      its encoder and decoder as generated.
    - [ProtoPacket], [ProtoPacketProps]: the frame itself.
    - [ProtoObjects], [ProtoConvert], [ProtoConvertLaws]: plain objects, the
      [verify], [fromObject] and [toObject] of those classes, and the laws of
      the conversions they use; [ProtoConvertProps]: those of the frame.
    - [ProtoSchema], [ProtoSchemaConvert]: a class described by its list of
      fields.  That its generated functions follow the list is the content of
      the type classes [Codec] and [Converter]; the round trips, the
      termination of decoding and the agreement with [verify] are proved once,
      from the list.  [ProtoCodecs]: the instances for the frame's classes.
      [ProtoDouble]: the eight bytes of a double.
    - [ApiAuth], [ApiGroups], [ApiPush]: the classes of the HTTP and push
      interfaces; [ApiCodecs]: their instances; [ApiClasses]: the table of all
      classes and what holds for each of them; [ApiServices]: the services and
      their methods.
    - [DescHttp], [DescOptions], [DescProtos]: the thirty descriptor classes of
      google.api and google.protobuf, with explicit presence, required fields
      and classes that contain themselves; [DescCodecs], [DescLevels]: their
      schemas and how deep they nest; [DescClasses]: what holds for each.
      [DescConvert], [DescConvertOptions], [DescConvertProtos]: their
      conversions; [DescRuleObjects], [DescConverters]: the conversions as
      schemas; [DescObjects]: what holds for each.
    - [Topic], [Mentions], [Media]: the helpers of the same names; [Topic] also
      has the normalisation of topics of the backend ([internal/topic]), as
      the reference for the client.
    - [Realtime], [RealtimeProps]: [RealtimeClient] as a state machine.  The
      methods are actions on the record of the class's fields that emit
      outputs (frames, sockets, events, timers); [step] runs one callback to
      completion and then the promise reactions it enabled; [run] is any
      sequence of callbacks.
    - [Api], [ApiCalls], [AuthStore], [Session]: [request] with token refresh
      and retry, the endpoints and the upload; several requests at once, which
      share a refresh in flight, as a state machine over the answers of the
      server; the stored session, and [useAuth].
    - [Hooks], [HooksProps]: the three hooks as transformations of the chat
      store with the calls they make; an [await] splits an operation in two,
      so that other events can come between the halves.
    - [System], [SystemProps]: client, hooks and store as one state machine.
      The environment chooses the order of socket events, timers, replies and
      user actions; the effect of [useRealtime] subscribes the hooks to the
      client, whose [listeners] send read receipts while an event is
      dispatched.
    - [Composer]: [MessageInput.tsx] with its memo, caret and animation frames.
    - [MessageView]: the order of the conversation list, titles and badges,
      grouping by date, the scroll policy and the bodies of messages.
    - [Dialogs]: the searches with their debounce, group creation and the
      member dialog, with replies in any order.
    - [Presence]: [usePresence], the forms, the pages and client ids.
    - [Tab], [TabProps]: session, pages and chat as one state machine: the
      authentication store, the storage shared with other tabs, navigation, and
      which effects of [useAuth], the pages and [useRealtime] run when one of
      them changes.

    ** What is proved

    - Chat store: an invariant over every history of actions ([run_wf]);
      appending keeps the client ids and sequence numbers of a conversation
      unique, and so does merging a page that repeats none itself; late pushes
      are inserted in order; a page of older messages is merged in front of
      confirmed ones; appending is idempotent; what each action changes and
      what it leaves alone.
    - Wire codec: what is encoded is decoded back, for every payload and
      every lawful runtime; decoding any bytes terminates; a decoded frame
      has at most one payload; nesting is bounded.  [fromObject] reads back
      what [toObject] prints of a frame that arrived with its values in range,
      under options that keep 64-bit values exact, and under options that keep
      types [verify] accepts it exactly when the enumeration values are known.
      The round trips, termination, and that [verify] accepts known values hold
      for each of the sixty message classes; sequences of delimited messages
      are read back one by one.  The methods of the services are those of the
      [.proto] files ([api_methods_described]), and a call hands the transport
      the request and reads its answer ([rpc_exchange]).
    - Descriptor classes: the same round trips over bytes, objects and JSON,
      for messages with any bounded number of levels; the recursion limit is
      exact; whatever was decoded can be encoded again; a decoded name part has
      its required fields; a rule has one pattern, and [verify] insists on it.
    - Real-time client: an invariant of every reachable state; a closed client
      stays closed; frames are numbered in increasing order; one token refresh
      per connection; the back-off of reconnections; [disconnect] releases the
      socket, the requests and the timers the client has a hold of, and leaves
      nothing behind when it has lost none; pushes are acknowledged; dead
      connections are noticed.
    - System: a text typed in one client is shown and acknowledged by another
      ([text_delivered]); a message recalled in one is struck out in the other,
      and no other message of it ([recall_delivered]).
    - Tab: over every sequence of sign-ins, sign-outs, navigations, reloads and
      changes by other tabs the connection belongs to the session ([tab_inv]);
      a sign-out releases what the client has a hold of, and nothing short of a
      session in the storage or from the login page reconnects; a tab follows
      the storage it shares.
    - HTTP access: [request] refines a three-request specification; the retry
      carries the new token; a failed refresh ends the session; at most one
      refresh is in flight and every call that waits for it gets its outcome
      ([refresh_shared]); a call that is alone is [request] ([alone_refines]);
      login and restoration agree.
    - Hooks: a message sent from the open conversation appears once and ends up
      with its server ids in either order of receipt and echo, with the status
      each order gives; pushes raise the unread count; initial loads are not
      repeated; a list refresh lists all groups.
    - Mentions: the ids reported are, once each and in order, those of the last
      member with each name after an at sign at a word boundary, and the
      highlighted segments spell the text.
    - Topics: the backend accepts the name the client computes for a one-to-one
      topic and normalises it to the same name, unless both ids are texts of
      different lengths; the peer can be read from it.
    - Components: the invariant of the composer and what a completed mention
      yields; days are cut without loss; a new message moves its conversation
      to the top; when the list scrolls; what a bubble shows; who can be put in
      a group; whose presence is shown; whose names are shown.

    Several theorems describe behaviour the authors probably do not intend;
    they say so in their comments: a socket error that is never followed by a
    reconnection, a gateway lookup that outlives [disconnect], a close event of
    the old socket that opens a second connection after a change of the token, a
    socket that outlives [disconnect] and authenticates for a closed client, a
    refresh that fails offline and ends the session, an own message shown as
    read because its echo arrived, error frames that are dropped, unconfirmed messages that block paging,
    unread counters that miss or repeat a push, a page load that replaces
    pushed messages, topic names and read receipts compared as text, an upload
    that is not retried, a completion menu that swallows the next Enter, a
    stale menu index that throws, own messages shown as someone else's, search
    results of an older query, a spinner that stays, a restoration of the session
    that repeats for ever, conversations that outlive a sign-out.

    ** Bounds

    The loops of the decoders run on the number of bytes left: every
    iteration reads at least one, so [Packet_decode_terminates] holds for any
    input.  The loops of the mention scanners run on the length of the text.
    [request] calls itself through [refreshAuth], which uses a public path, so
    two levels are enough ([request_refinement] holds from two upwards).
    32-bit and 64-bit wire values keep their widths ([c_ok] in [ProtoSchema],
    from the kinds of the fields); numbers of the language are rounded to 53
    bits, and the doubles of the wire are IEEE numbers.

    Rules contain rules and message descriptors contain message descriptors.
    Their decoders and conversions are defined with as many levels as the
    recursion limit leaves; that they call themselves at every level is proved
    ([decode_nested_unfold], [convert_nested_unfold]).  The theorems about them
    are stated for messages with at most [n] levels, for every [n] the limit
    has room for.

    ** Not under [src/]

    The protobufjs runtime ([Runtime], [RuntimeLaws]; instance in [ProtoWire]),
    long.js and base64 ([Conversions], [ConversionLaws]; instance in
    [ProtoConvertProps]), [rpcCall] of a service, the server ([fetch]), [JSON],
    [encodeURIComponent], [atob], the text encoders, [trim], [toLowerCase], the
    parsing of numbers and the formatting of dates are variables of the sections
    that use them.

    ** Not modelled

    Markup and styling of the components and pages, the formatting of times,
    the clipboard.  In plain objects, an enumeration or a 64-bit field that is
    given a number with a fraction, and byte fields that are given objects with
    a length other than arrays and byte arrays; objects that are instances of
    the class already, which [fromObject] returns as they are.  In [System] the
    promise of [connect] may settle at any time, and the effects of
    [useConversation] are not part of [Tab].  The Go backend and the Go SDK are
    other programs, and the primitives of [components/ui] only pass their
    properties on.  JSON fields the HTTP code reads that are neither strings nor
    integers; the request that concurrent calls of [refreshConversations]
    share. *)

From stdpp Require Export base tactics numbers strings pretty sets sorting option list.

(** ** Results of code that may throw *)

(** The outcome of a JavaScript call: a value, an exception carrying its
    message, or, for the model of a loop, exhausted fuel. *)
Inductive res (A : Type) : Type :=
| Ok (a : A)
| Throw (msg : string)
| NoFuel.
Arguments Ok {_} _.
Arguments Throw {_} _.
Arguments NoFuel {_}.

Declare Scope js_scope.
Delimit Scope js_scope with js.

Definition res_bind {A B : Type} (r : res A) (k : A → res B) : res B :=
  match r with Ok a => k a | Throw e => Throw e | NoFuel => NoFuel end.

Notation "'let!' x := c 'in' k" := (res_bind c (λ x, k))
  (at level 10, x name, c at level 100, k at level 200,
   format "'[v' 'let!'  x  :=  c  'in' '/' k ']'") : js_scope.
Notation "'let!' ' p := c 'in' k" := (res_bind c (λ x, match x with p => k end))
  (at level 10, p pattern, c at level 100, k at level 200) : js_scope.
Open Scope js_scope.

(** ** Automation *)

Create HintDb nonoka.
Create Rewrite HintDb nonoka.

(** Split the innermost [match] of the goal, or of a hypothesis, and clean up. *)
Ltac split_match :=
  match goal with
  | |- context [match ?x with _ => _ end] =>
      lazymatch x with
      | context [match _ with _ => _ end] => fail
      | _ => destruct x eqn:?
      end
  end; simplify_eq/=.

Ltac split_match_in H :=
  match type of H with
  | context [match ?x with _ => _ end] =>
      lazymatch x with
      | context [match _ with _ => _ end] => fail
      | _ => destruct x eqn:?
      end
  end; simplify_eq/=.

(** Turn boolean comparisons on [Z] in the context into propositions. *)
Ltac bool_to_prop :=
  repeat match goal with
  | H : (_ <=? _)%Z = true |- _ => apply Z.leb_le in H
  | H : (_ <=? _)%Z = false |- _ => apply Z.leb_gt in H
  | H : (_ <? _)%Z = true |- _ => apply Z.ltb_lt in H
  | H : (_ <? _)%Z = false |- _ => apply Z.ltb_ge in H
  | H : (_ =? _)%Z = true |- _ => apply Z.eqb_eq in H
  | H : (_ =? _)%Z = false |- _ => apply Z.eqb_neq in H
  | H : andb _ _ = true |- _ => apply andb_true_iff in H; destruct H
  | H : orb _ _ = false |- _ => apply orb_false_iff in H; destruct H
  | H : negb _ = true |- _ => apply negb_true_iff in H
  | H : negb _ = false |- _ => apply negb_false_iff in H
  | H : bool_decide _ = true |- _ => apply bool_decide_eq_true in H
  | H : bool_decide _ = false |- _ => apply bool_decide_eq_false in H
  end.

(** ** Array methods of the source language *)

Section Arrays.
Context {A : Type}.
Implicit Types (p : A → bool) (l : list A).

(** [Array.prototype.findIndex]; [None] is the [-1] of the source. *)
Fixpoint findIndex p l : option nat :=
  match l with
  | [] => None
  | x :: l' => if p x then Some 0%nat else S <$> findIndex p l'
  end.

(** [Array.prototype.find]. *)
Fixpoint find p l : option A :=
  match l with
  | [] => None
  | x :: l' => if p x then Some x else find p l'
  end.

(** [Array.prototype.some]. *)
Definition some p l : bool := existsb p l.

(** [Array.prototype.sort] with the comparator [key a - key b]: the language
    fixes a stable sort, written here as an insertion sort. *)
Section Sort.
Context (key : A → Z).

Fixpoint insert_stable (x : A) l : list A :=
  match l with
  | [] => [x]
  | y :: l' => if (key x <=? key y)%Z then x :: l else y :: insert_stable x l'
  end.

Fixpoint sort_by l : list A :=
  match l with
  | [] => []
  | x :: l' => insert_stable x (sort_by l')
  end.

Definition key_le (x y : A) : Prop := (key x ≤ key y)%Z.

Lemma insert_stable_perm x l : insert_stable x l ≡ₚ x :: l.
Proof.
  induction l as [|y l IH]; simpl; [done|].
  destruct (_ <=? _)%Z; [done|]. rewrite IH. constructor.
Qed.

Lemma sort_by_perm l : sort_by l ≡ₚ l.
Proof. induction l as [|x l IH]; simpl; [done|]. by rewrite insert_stable_perm, IH. Qed.

Lemma insert_stable_sorted x l :
  StronglySorted key_le l → StronglySorted key_le (insert_stable x l).
Proof.
  induction 1 as [|y l Hs IH Hy]; simpl; [repeat constructor|].
  destruct (key x <=? key y)%Z eqn:E; bool_to_prop.
  - constructor; [by constructor|]. constructor; [done|].
    eapply Forall_impl; [exact Hy|]. unfold key_le; intros; lia.
  - constructor; [done|]. rewrite insert_stable_perm.
    constructor; [unfold key_le; lia|done].
Qed.

Lemma sort_by_sorted l : StronglySorted key_le (sort_by l).
Proof. induction l; simpl; [constructor|by apply insert_stable_sorted]. Qed.

(** Stability: an element goes before every element with the same key that
    followed it, so equal keys keep their order. *)
Lemma filter_insert_stable (k : Z) x l :
  StronglySorted key_le l →
  filter (λ y, key y = k) (insert_stable x l) = filter (λ y, key y = k) (x :: l).
Proof.
  induction 1 as [|y l Hs IH Hy]; simpl; [done|].
  destruct (key x <=? key y)%Z eqn:E; [done|]; bool_to_prop.
  rewrite !filter_cons in *. rewrite IH.
  destruct (decide (key x = k)), (decide (key y = k)); try done. lia.
Qed.

Lemma sort_by_stable (k : Z) l :
  filter (λ y, key y = k) (sort_by l) = filter (λ y, key y = k) l.
Proof.
  induction l as [|x l IH]; simpl; [done|].
  rewrite filter_insert_stable by apply sort_by_sorted.
  by rewrite !filter_cons, IH.
Qed.

(** Sorting a list that is already ascending changes nothing. *)
Lemma sort_by_id l : StronglySorted key_le l → sort_by l = l.
Proof.
  induction 1 as [|x l Hs IH Hx]; simpl; [done|]. rewrite IH.
  destruct Hx as [|y l Hxy _]; simpl; [done|].
  unfold key_le in Hxy. by rewrite (proj2 (Z.leb_le _ _)).
Qed.

End Sort.

Lemma findIndex_Some p l i :
  findIndex p l = Some i →
  ∃ l1 x l2, l = l1 ++ x :: l2 ∧ length l1 = i ∧ p x = true ∧
             Forall (λ y, p y = false) l1.
Proof.
  revert i. induction l as [|x l IH]; simpl; intros i; [done|].
  destruct (p x) eqn:Hx.
  - intros [= <-]. exists [], x, l. eauto.
  - destruct (findIndex p l) as [j|] eqn:Hj; simpl; intros [= <-].
    destruct (IH _ eq_refl) as (l1 & y & l2 & -> & <- & Hy & Hl).
    exists (x :: l1), y, l2. eauto.
Qed.

Lemma findIndex_None p l : findIndex p l = None ↔ Forall (λ y, p y = false) l.
Proof.
  induction l as [|x l IH]; simpl; [by split; constructor|].
  rewrite Forall_cons, <-IH. destruct (p x); [by split; [|intros []]|].
  by rewrite fmap_None; split; [|intros []].
Qed.

Lemma some_false p l : some p l = false ↔ Forall (λ y, p y = false) l.
Proof.
  unfold some. induction l as [|x l IH]; simpl; [by split; constructor|].
  rewrite Forall_cons, orb_false_iff, IH. done.
Qed.

Lemma find_Some p l x :
  find p l = Some x →
  ∃ l1 l2, l = l1 ++ x :: l2 ∧ p x = true ∧ Forall (λ y, p y = false) l1.
Proof.
  induction l as [|y l IH]; simpl; [done|].
  destruct (p y) eqn:Hy.
  - intros [= ->]. exists [], l. eauto.
  - intros H. destruct (IH H) as (l1 & l2 & -> & Hx & Hl). exists (y :: l1), l2. eauto.
Qed.

End Arrays.

(** [Array.prototype.at(-1)] style access [l[l.length - 1]] is stdpp's [last]. *)
Lemma last_app_cons {A} (l1 : list A) x l2 : last (l1 ++ x :: l2) = last (x :: l2).
Proof. by rewrite last_app_cons. Qed.

(** A filter that accepts every element changes nothing. *)
Lemma filter_accept_all {A} (P : A → Prop) `{∀ x, Decision (P x)} (l : list A) :
  (∀ x, x ∈ l → P x) → filter P l = l.
Proof.
  induction l as [|x l IH]; intros Hl; [done|]. rewrite filter_cons.
  rewrite decide_True by (apply Hl; left). f_equal. apply IH. intros y Hy. apply Hl. by right.
Qed.

(** ** Lists sorted by an optional key *)

Section OptionKeys.
Context {A : Type} (key : A → option Z).

(** The keyed elements appear in ascending order; elements without a key
    are ignored. *)
Definition keys_ascending (l : list A) : Prop := StronglySorted Z.le (omap key l).

Lemma keys_ascending_app l1 l2 :
  keys_ascending (l1 ++ l2) ↔
  keys_ascending l1 ∧ keys_ascending l2 ∧
  (∀ x y, x ∈ omap key l1 → y ∈ omap key l2 → (x ≤ y)%Z).
Proof.
  unfold keys_ascending. rewrite omap_app.
  induction (omap key l1) as [|k ks IH]; simpl.
  - split; [intros H; repeat split; [constructor|done|set_solver]|naive_solver].
  - split.
    + intros H. inversion H as [|? ? Hs Hf]; subst. apply Forall_app in Hf as [Hf1 Hf2].
      apply IH in Hs as (Hs1 & Hs2 & Hle).
      split; [by constructor|]. split; [done|].
      intros x y [->|Hx]%elem_of_cons Hy; [|eauto].
      rewrite Forall_forall in Hf2. by apply Hf2.
    + intros (Hs1 & Hs2 & Hle). inversion Hs1 as [|? ? Hs Hf]; subst.
      constructor; [apply IH; set_solver|].
      apply Forall_app; split; [done|]. apply Forall_forall. set_solver.
Qed.

Lemma keys_ascending_insert l1 x k l2 :
  key x = Some k →
  keys_ascending (l1 ++ l2) →
  (∀ y, y ∈ omap key l1 → (y ≤ k)%Z) → (∀ y, y ∈ omap key l2 → (k ≤ y)%Z) →
  keys_ascending (l1 ++ x :: l2).
Proof.
  intros Hk (H1 & H2 & H12)%keys_ascending_app Hl1 Hl2.
  apply keys_ascending_app. split; [done|]. split.
  - unfold keys_ascending. simpl. rewrite Hk. constructor; [done|].
    apply Forall_forall. set_solver.
  - simpl. rewrite Hk. set_solver.
Qed.

End OptionKeys.

(** ** Strings *)

(** [s.includes(p)]. *)
Fixpoint includes (p s : string) : bool :=
  String.prefix p s || match s with String _ s' => includes p s' | EmptyString => false end.
