(* ===== verification/JsNum.v ===== *)
(** * Numbers as the web client meets them

    The generated types say [number] for identifiers and sequence numbers,
    but at run time such a field holds either a JavaScript number (the
    WebSocket path applies [Number(...)]) or the decimal string that
    proto3 JSON uses for 64-bit integers (the HTTP path).  [jsnum] keeps the
    two apart: [Num z] is the number [z], [Dec z] is the string of the decimal
    digits of [z].  [Number], [<], [<=], [===] and string interpolation are
    those of the language; a JavaScript number is an IEEE double, so a
    64-bit integer is rounded to 53 bits of precision. *)

From S2P Require Import Prelude.
Open Scope Z_scope.

Inductive jsnum := Num (z : Z) | Dec (z : Z).

#[export] Instance jsnum_eq_dec : EqDecision jsnum.
Proof. solve_decision. Defined.

(** ** Rounding to a double *)

(** Round [z] to a multiple of [d], to the nearest, ties to the even quotient. *)
Definition round_half_even (z d : Z) : Z :=
  let q := z / d in
  let r := z mod d in
  (if 2 * r <? d then q
   else if d <? 2 * r then q + 1
   else if Z.even q then q else q + 1) * d.

(** The double nearest to the integer [z] (exponent range not exceeded). *)
Definition to_double (z : Z) : Z :=
  let e := Z.log2 (Z.abs z) - 52 in
  if e <=? 0 then z else round_half_even z (2 ^ e).

Definition safe_integer (z : Z) : Prop := - 2 ^ 53 < z < 2 ^ 53.

Lemma to_double_safe z : safe_integer z → to_double z = z.
Proof.
  unfold safe_integer, to_double. intros H.
  assert (Z.log2 (Z.abs z) < 53).
  { destruct (decide (z = 0)) as [->|]; [done|]. apply Z.log2_lt_pow2; lia. }
  by rewrite (proj2 (Z.leb_le _ _)) by lia.
Qed.

(** Two distinct 64-bit identifiers can round to the same number. *)
Example to_double_collision :
  to_double (2 ^ 60 + 1) = to_double (2 ^ 60 + 2).
Proof. reflexivity. Qed.

(** ** Coercion and comparison *)

(** [Number(x)]. *)
Definition Number (x : jsnum) : Z :=
  match x with Num z => z | Dec z => to_double z end.

(** [x === y]: no coercion, and a canonical decimal string determines its
    integer. *)
Definition strict_eq (x y : jsnum) : bool :=
  match x, y with
  | Num a, Num b => a =? b
  | Dec a, Dec b => a =? b
  | _, _ => false
  end.

Lemma strict_eq_true x y : strict_eq x y = true ↔ x = y.
Proof. destruct x, y; simpl; rewrite ?Z.eqb_eq; naive_solver. Qed.

(** [x <= y] and [x < y]: two strings compare lexicographically, anything else
    numerically. *)
Definition js_le (x y : jsnum) : bool :=
  match x, y with
  | Dec a, Dec b => String.leb (pretty a) (pretty b)
  | _, _ => Number x <=? Number y
  end.

Definition js_lt (x y : jsnum) : bool :=
  match x, y with
  | Dec a, Dec b => String.ltb (pretty a) (pretty b)
  | _, _ => Number x <? Number y
  end.

(** Truthiness: [0] and the empty string are falsy; a decimal string is never
    empty. *)
Definition truthy (x : jsnum) : bool :=
  match x with Num z => negb (z =? 0) | Dec _ => true end.

(** ** Interpolation of a number into a string *)

(** [Number::toString] prints the shortest digits that round back to the
    number, padded with zeros.  [shortest z k n] tries [k] zeros of padding
    down to none ([n] bounds the tries). *)
Fixpoint shortest (z : Z) (k : nat) : Z :=
  match k with
  | O => z
  | S k' =>
      let d := 10 ^ Z.of_nat k in
      let c := (z + d / 2) / d * d in
      if to_double c =? z then c else shortest z k'
  end.

(** At most 22 digits print without an exponent. *)
Definition number_to_string (z : Z) : string :=
  pretty (if z <? 0 then - shortest (- z) 21 else shortest z 21).

(** [`${x}`]. *)
Definition interpolate (x : jsnum) : string :=
  match x with Num z => number_to_string z | Dec z => pretty z end.

Example interpolate_large :
  number_to_string (2 ^ 60) = "1152921504606847000"%string.
Proof. vm_compute. reflexivity. Qed.

(** ** Monotonicity of rounding, on the non-negative integers *)

Lemma round_half_even_spec z d :
  0 < d → ∃ q, round_half_even z d = q * d ∧ - d ≤ 2 * (z - q * d) ≤ d.
Proof.
  intros Hd. unfold round_half_even.
  pose proof (Z.mod_pos_bound z d Hd). pose proof (Z.div_mod z d ltac:(lia)).
  destruct (2 * (z mod d) <? d) eqn:E1; bool_to_prop; [exists (z / d); lia|].
  destruct (d <? 2 * (z mod d)) eqn:E2; bool_to_prop; [exists (z / d + 1); lia|].
  destruct (Z.even (z / d)); [exists (z / d)|exists (z / d + 1)]; lia.
Qed.

Lemma round_half_even_mono x y d :
  0 < d → x ≤ y → round_half_even x d ≤ round_half_even y d.
Proof.
  intros Hd Hxy.
  assert (Hq : x / d ≤ y / d) by (apply Z.div_le_mono; lia).
  destruct (decide (x / d = y / d)) as [Heq|Hne].
  - unfold round_half_even.
    pose proof (Z.div_mod x d ltac:(lia)). pose proof (Z.div_mod y d ltac:(lia)).
    rewrite Heq in *. set (q := y / d) in *.
    assert (x mod d ≤ y mod d) by lia.
    apply Z.mul_le_mono_nonneg_r; [lia|].
    generalize dependent (x mod d). generalize dependent (y mod d). clearbody q.
    clear Heq Hq. intros r _ r' _ Hr.
    destruct (Z.even q), (Z.ltb_spec (2 * r) d), (Z.ltb_spec d (2 * r)),
      (Z.ltb_spec (2 * r') d), (Z.ltb_spec d (2 * r')); lia.
  - unfold round_half_even. apply Z.mul_le_mono_nonneg_r; [lia|].
    generalize dependent (x / d). generalize dependent (y / d). intros q q' Hq Hne.
    destruct (2 * (x mod d) <? d), (d <? 2 * (x mod d)), (2 * (y mod d) <? d),
      (d <? 2 * (y mod d)), (Z.even q), (Z.even q'); lia.
Qed.

Lemma round_half_even_exact q d : 0 < d → round_half_even (q * d) d = q * d.
Proof.
  intros Hd. unfold round_half_even.
  rewrite Z.mod_mul, Z.div_mul by lia. simpl.
  by rewrite (proj2 (Z.ltb_lt _ _)) by lia.
Qed.

Lemma log2_pos_inv z : 0 < Z.log2 z → 0 < z.
Proof. intros H. destruct (Z.le_gt_cases z 0) as [Hz|]; [rewrite Z.log2_nonpos in H by done; lia|done]. Qed.

(** A rounded number stays within the power of two above its argument. *)
Lemma to_double_upper z b :
  0 ≤ z < 2 ^ b → 53 ≤ b → to_double z ≤ 2 ^ b.
Proof.
  intros [Hz Hb] H53. unfold to_double. destruct (_ <=? 0) eqn:E; [lia|]; bool_to_prop.
  rewrite Z.abs_eq in * by lia. pose proof (log2_pos_inv z ltac:(lia)).
  set (e := Z.log2 z - 52) in *.
  assert (Z.log2 z < b) by (apply Z.log2_lt_pow2; lia).
  replace (2 ^ b) with (2 ^ (b - e) * 2 ^ e) at 1 by (rewrite <-Z.pow_add_r by lia; f_equal; lia).
  rewrite <-(round_half_even_exact (2 ^ (b - e)) (2 ^ e)) by (apply Z.pow_pos_nonneg; lia).
  apply round_half_even_mono; [apply Z.pow_pos_nonneg; lia|].
  rewrite <-Z.pow_add_r by lia. replace (b - e + e) with b by lia. lia.
Qed.

Lemma to_double_lower z b : 2 ^ b ≤ z → 0 ≤ b → 2 ^ b ≤ to_double z.
Proof.
  intros Hb H0. assert (0 < 2 ^ b) by (apply Z.pow_pos_nonneg; lia).
  unfold to_double. destruct (_ <=? 0) eqn:E; [lia|]; bool_to_prop.
  rewrite Z.abs_eq in * by lia. set (e := Z.log2 z - 52) in *.
  assert (Hl : 2 ^ Z.log2 z ≤ z) by (apply Z.log2_spec; lia).
  assert (b ≤ Z.log2 z) by (apply Z.log2_le_pow2; lia).
  transitivity (2 ^ Z.log2 z); [apply Z.pow_le_mono_r; lia|].
  replace (2 ^ Z.log2 z) with (2 ^ 52 * 2 ^ e) at 1 by (rewrite <-Z.pow_add_r by lia; f_equal; lia).
  rewrite <-(round_half_even_exact (2 ^ 52) (2 ^ e)) by (apply Z.pow_pos_nonneg; lia).
  apply round_half_even_mono; [apply Z.pow_pos_nonneg; lia|].
  rewrite <-Z.pow_add_r by lia. replace (52 + e) with (Z.log2 z) by lia. lia.
Qed.

(** [Number] of larger decimal strings is never smaller: orderings by
    [Number(seq)] agree with the orderings of the server's sequence numbers. *)
Lemma to_double_mono x y : 0 ≤ x ≤ y → to_double x ≤ to_double y.
Proof.
  intros [Hx Hxy]. destruct (decide (Z.log2 x = Z.log2 y)) as [Hl|Hl].
  - unfold to_double. rewrite !Z.abs_eq, Hl by lia.
    destruct (_ <=? 0) eqn:E; [lia|]; bool_to_prop.
    apply round_half_even_mono; [apply Z.pow_pos_nonneg|]; lia.
  - assert (Z.log2 x < Z.log2 y) by (pose proof (Z.log2_le_mono x y Hxy); lia).
    assert (Hy : 2 ^ Z.log2 y ≤ y) by (apply Z.log2_spec, log2_pos_inv; pose proof (Z.log2_nonneg x); lia).
    pose proof (Z.log2_nonneg x).
    destruct (decide (Z.log2 x < 53)).
    + assert (Hs : x < 2 ^ Z.log2 y).
      { destruct (decide (x = 0)) as [->|]; [apply Z.pow_pos_nonneg; lia|].
        apply Z.log2_lt_pow2; lia. }
      destruct (decide (x < 2 ^ 53)).
      * rewrite (to_double_safe x) by (unfold safe_integer; lia).
        pose proof (to_double_lower y (Z.log2 y) Hy). lia.
      * assert (53 ≤ Z.log2 x) by (apply Z.log2_le_pow2; lia). lia.
    + transitivity (2 ^ (Z.log2 x + 1)).
      * apply to_double_upper; [|lia]. split; [lia|].
        apply Z.log2_spec, log2_pos_inv; lia.
      * transitivity (2 ^ Z.log2 y); [apply Z.pow_le_mono_r; lia|].
        apply to_double_lower; lia.
Qed.

(** ** Interpolation of safe integers is the decimal expansion *)

Lemma to_double_eq_safe c z : 0 ≤ c → safe_integer z → to_double c = z → c = z.
Proof.
  intros Hc Hz Heq. destruct (decide (c < 2 ^ 53)).
  - by rewrite to_double_safe in Heq by (unfold safe_integer; lia).
  - pose proof (to_double_lower c 53 ltac:(lia) ltac:(lia)). unfold safe_integer in Hz. lia.
Qed.

Lemma shortest_safe z k : 0 ≤ z → safe_integer z → shortest z k = z.
Proof.
  intros Hz Hs. induction k as [|k IH]; simpl shortest; [done|].
  set (d := 10 ^ Z.of_nat (S k)). assert (0 < d) by (apply Z.pow_pos_nonneg; lia).
  destruct (_ =? z) eqn:E; [|done]; bool_to_prop.
  apply to_double_eq_safe in E; [done| |done].
  apply Z.mul_nonneg_nonneg; [apply Z.div_pos; [|lia]|lia].
  pose proof (Z.div_pos d 2). lia.
Qed.

Lemma number_to_string_safe z : safe_integer z → number_to_string z = pretty z.
Proof.
  intros Hs. unfold number_to_string. f_equal.
  destruct (z <? 0) eqn:E; bool_to_prop; rewrite shortest_safe; unfold safe_integer in *; lia.
Qed.

#[export] Hint Rewrite to_double_safe number_to_string_safe using (unfold safe_integer in *; lia) : nonoka.
