(* ===== verification/JsMap.v ===== *)
(** * [Map] and [Set] of the source language

    A JavaScript [Map] iterates in insertion order and a [set] on a present
    key keeps its position, so it is an association list; [Set] is the list of
    its members in insertion order.  The invariant is that keys do not repeat. *)

From S2P Require Import Prelude.

Section Maps.
Context {K V : Type} `{KDec : EqDecision K}.
Implicit Types (k : K) (v : V) (m : list (K * V)).

(** [m.get(k)]. *)
Fixpoint map_get k m : option V :=
  match m with
  | [] => None
  | (k', v) :: m' => if decide (k = k') then Some v else map_get k m'
  end.

(** [m.has(k)]. *)
Definition map_has k m : bool :=
  match map_get k m with Some _ => true | None => false end.

(** [m.set(k, v)]. *)
Fixpoint map_set k v m : list (K * V) :=
  match m with
  | [] => [(k, v)]
  | (k', v') :: m' => if decide (k = k') then (k', v) :: m' else (k', v') :: map_set k v m'
  end.

(** [m.delete(k)]. *)
Definition map_delete k m : list (K * V) := filter (λ kv, kv.1 ≠ k) m.

Definition map_keys m : list K := m.*1.
Definition map_values m : list V := m.*2.

Definition map_wf m : Prop := NoDup (map_keys m).

Lemma map_get_set_eq k v m : map_get k (map_set k v m) = Some v.
Proof.
  induction m as [|[k' v'] m IH]; simpl; [by rewrite decide_True|].
  destruct (decide (k = k')) as [->|]; simpl; [by rewrite decide_True|].
  by rewrite decide_False.
Qed.

Lemma map_get_set_ne k k' v m : k ≠ k' → map_get k' (map_set k v m) = map_get k' m.
Proof.
  intros Hk. induction m as [|[k1 v1] m IH]; simpl; [by rewrite decide_False|].
  destruct (decide (k = k1)) as [->|]; simpl; [by rewrite !decide_False|].
  by rewrite IH.
Qed.

Lemma map_get_set k k' v m :
  map_get k' (map_set k v m) = if decide (k = k') then Some v else map_get k' m.
Proof. case_decide; [subst; apply map_get_set_eq|by apply map_get_set_ne]. Qed.

Lemma map_get_elem k v m : map_get k m = Some v → (k, v) ∈ m.
Proof.
  induction m as [|[k' v'] m IH]; simpl; [done|].
  case_decide; intros ?; simplify_eq; [left|right; auto].
Qed.

Lemma map_get_keys k m : k ∈ map_keys m ↔ is_Some (map_get k m).
Proof.
  unfold map_keys. induction m as [|[k' v'] m IH]; simpl.
  - split; [by intros ?%elem_of_nil|by intros []].
  - rewrite elem_of_cons, IH. case_decide; [subst; naive_solver|naive_solver].
Qed.

Lemma map_get_None k m : map_get k m = None ↔ k ∉ map_keys m.
Proof. rewrite map_get_keys, eq_None_not_Some. done. Qed.

Lemma map_wf_get k v m : map_wf m → (k, v) ∈ m → map_get k m = Some v.
Proof.
  unfold map_wf, map_keys. induction m as [|[k' v'] m IH]; simpl.
  - by intros _ ?%elem_of_nil.
  - intros [Hk Hm]%NoDup_cons [[= -> ->]|Hin]%elem_of_cons; [by rewrite decide_True|].
    rewrite decide_False; [auto|]. intros ->. apply Hk, list_elem_of_fmap. by exists (k', v).
Qed.

Lemma map_keys_set k v m :
  map_keys (map_set k v m) = if decide (k ∈ map_keys m) then map_keys m else map_keys m ++ [k].
Proof.
  unfold map_keys. induction m as [|[k' v'] m IH]; [done|]. csimpl.
  destruct (decide (k = k')) as [->|Hk]; csimpl; [rewrite decide_True; [done|left]|].
  rewrite IH. destruct (decide (k ∈ m.*1)).
  - by rewrite decide_True by (by right).
  - rewrite decide_False; [done|]. by intros [?|?]%elem_of_cons.
Qed.

Lemma map_set_wf k v m : map_wf m → map_wf (map_set k v m).
Proof.
  unfold map_wf. rewrite map_keys_set. case_decide as Hk; [done|].
  intros Hm. apply NoDup_app. split; [done|]. split; [set_solver|apply NoDup_singleton].
Qed.

Lemma map_nil_wf : map_wf (@nil (K * V)).
Proof. constructor. Qed.

(** A property of every binding is kept by [set] when the new binding has it. *)
Lemma map_set_Forall (P : K * V → Prop) k v m :
  Forall P m → (∀ k' v', P (k', v') → k = k' → P (k', v)) → P (k, v) → Forall P (map_set k v m).
Proof.
  intros Hm Hk Hv. induction Hm as [|[k' v'] m Hx Hm IH]; simpl; [by constructor|].
  case_decide; constructor; eauto.
Qed.

Lemma map_has_true k m : map_has k m = true ↔ is_Some (map_get k m).
Proof. unfold map_has. destruct (map_get k m); split; naive_solver. Qed.

Lemma map_get_delete_eq k m : map_get k (map_delete k m) = None.
Proof.
  unfold map_delete. induction m as [|[k' v'] m IH]; [done|].
  rewrite filter_cons. case_decide; simpl in *; [by rewrite decide_False|done].
Qed.

Lemma map_get_delete_ne k k' m : k ≠ k' → map_get k' (map_delete k m) = map_get k' m.
Proof.
  intros Hk. unfold map_delete. induction m as [|[k1 v1] m IH]; [done|].
  rewrite filter_cons. simpl in *. case_decide as H1; simpl; [by rewrite IH|].
  rewrite IH, decide_False; [done|]. intros ->. naive_solver.
Qed.

Lemma map_delete_wf k m : map_wf m → map_wf (map_delete k m).
Proof.
  unfold map_wf, map_keys, map_delete. induction m as [|[k' v'] m IH]; [done|].
  simpl. intros [Hk Hm]%NoDup_cons. rewrite filter_cons. case_decide; simpl; [|auto].
  constructor; [|auto]. intros (x & ? & [_ Hx]%list_elem_of_filter)%list_elem_of_fmap.
  apply Hk, list_elem_of_fmap. eauto.
Qed.

Lemma map_delete_Forall (P : K * V → Prop) k m : Forall P m → Forall P (map_delete k m).
Proof.
  rewrite !Forall_forall. intros H x [_ Hx]%list_elem_of_filter. auto.
Qed.

(** A map built by successive [set]s holds every entry whose key is set once. *)
Lemma map_get_foldl_set {X} (kf : X → K) (vf : X → V) (l : list X) m x :
  NoDup (kf <$> l) → x ∈ l → map_get (kf x) (foldl (λ m x, map_set (kf x) (vf x) m) m l) = Some (vf x).
Proof.
  induction l as [|y l IH] using rev_ind; [by intros _ ?%elem_of_nil|].
  rewrite fmap_app, foldl_app. simpl. intros (Hnd & Hy & _)%NoDup_app [Hx|Hx%list_elem_of_singleton]%elem_of_app; [|subst x].
  - rewrite map_get_set_ne; [by apply IH|]. intros Heq. apply (Hy (kf x)); [by apply list_elem_of_fmap_2|].
    rewrite <-Heq. set_solver.
  - apply map_get_set_eq.
Qed.

(** ** Maps given by their keys and a function *)

Definition map_tabulate (f : K → V) (ks : list K) : list (K * V) := (λ k, (k, f k)) <$> ks.

Lemma map_keys_tabulate f ks : map_keys (map_tabulate f ks) = ks.
Proof. unfold map_keys, map_tabulate. induction ks as [|k ks IH]; csimpl; [done|]. by rewrite IH. Qed.

Lemma map_get_tabulate f k ks : map_get k (map_tabulate f ks) = if decide (k ∈ ks) then Some (f k) else None.
Proof.
  unfold map_tabulate. induction ks as [|k' ks IH]; csimpl; [done|]. rewrite IH.
  destruct (decide (k = k')) as [->|Hne]; [by rewrite decide_True by left|].
  destruct (decide (k ∈ ks)); [by rewrite decide_True by (by right)|].
  rewrite decide_False; [done|]. by intros [?|?]%elem_of_cons.
Qed.

Lemma map_set_tabulate f g k ks :
  NoDup ks → k ∈ ks → (∀ k', k' ∈ ks → k' ≠ k → g k' = f k') →
  map_set k (g k) (map_tabulate f ks) = map_tabulate g ks.
Proof.
  unfold map_tabulate. induction ks as [|k' ks IH]; intros Hnd Hin Hg; [by apply elem_of_nil in Hin|].
  apply NoDup_cons in Hnd as [Hn Hnd]. csimpl. destruct (decide (k = k')) as [->|Hne].
  - f_equal. apply list_fmap_ext. intros i x Hx%list_elem_of_lookup_2. f_equal. symmetry. apply Hg; [by right|]. by intros ->.
  - apply elem_of_cons in Hin as [?|Hin]; [done|]. rewrite (Hg k') by (set_solver). f_equal. apply IH; [done..|].
    intros x Hx Hxk. apply Hg; [by right|done].
Qed.

Lemma map_set_tabulate_new f v k ks :
  k ∉ ks → map_set k v (map_tabulate f ks) = map_tabulate f ks ++ [(k, v)].
Proof.
  unfold map_tabulate. induction ks as [|k' ks IH]; intros Hk; csimpl; [done|].
  rewrite decide_False by set_solver. rewrite IH by set_solver. done.
Qed.

End Maps.

Section Sets.
Context {K : Type} `{KDec : EqDecision K}.
Implicit Types (k : K) (s : list K).

Definition set_has k s : bool := bool_decide (k ∈ s).
Definition set_add k s : list K := if decide (k ∈ s) then s else s ++ [k].
Definition set_delete k s : list K := filter (λ x, x ≠ k) s.

(** [new Set(l)]. *)
Definition set_of (l : list K) : list K := foldl (λ s k, set_add k s) [] l.

Lemma elem_of_set_add k k' s : k' ∈ set_add k s ↔ k' = k ∨ k' ∈ s.
Proof. unfold set_add. case_decide; set_solver. Qed.

Lemma elem_of_set_delete k k' s : k' ∈ set_delete k s ↔ k' ≠ k ∧ k' ∈ s.
Proof. unfold set_delete. rewrite list_elem_of_filter. done. Qed.

Lemma set_add_NoDup k s : NoDup s → NoDup (set_add k s).
Proof.
  unfold set_add. case_decide; [done|]. intros Hs. apply NoDup_app.
  split; [done|]. split; [set_solver|apply NoDup_singleton].
Qed.

Lemma elem_of_set_of k l : k ∈ set_of l ↔ k ∈ l.
Proof.
  unfold set_of. enough (∀ s, k ∈ foldl (λ s k, set_add k s) s l ↔ k ∈ s ∨ k ∈ l) as ->; [set_solver|].
  induction l as [|x l IH]; simpl; intros s; [set_solver|].
  rewrite IH, elem_of_set_add, elem_of_cons. tauto.
Qed.

Lemma set_of_snoc l k : set_of (l ++ [k]) = set_add k (set_of l).
Proof. unfold set_of. by rewrite foldl_app. Qed.

Lemma set_of_NoDup l : NoDup (set_of l).
Proof.
  induction l as [|k l IH] using rev_ind; [constructor|]. rewrite set_of_snoc. by apply set_add_NoDup.
Qed.

Lemma set_of_cons k l : set_of (k :: l) = k :: base.filter (λ x, x ≠ k) (set_of l).
Proof.
  induction l as [|x l IH] using rev_ind.
  - done.
  - rewrite app_comm_cons, !set_of_snoc, IH. unfold set_add.
    destruct (decide (x = k)) as [->|Hx].
    + rewrite decide_True by left. case_decide; [done|]. rewrite filter_app, filter_cons, decide_False by naive_solver.
      by rewrite app_nil_r.
    + destruct (decide (x ∈ set_of l)) as [Hin|Hin].
      * rewrite decide_True; [done|]. right. by apply list_elem_of_filter.
      * rewrite decide_False.
        -- rewrite filter_app, filter_cons, decide_True by done. done.
        -- by intros [?|[_ ?]%list_elem_of_filter]%elem_of_cons.
Qed.

Lemma set_has_true k s : set_has k s = true ↔ k ∈ s.
Proof. apply bool_decide_eq_true. Qed.

End Sets.

#[export] Hint Resolve map_set_wf map_nil_wf map_delete_wf set_add_NoDup set_of_NoDup : nonoka.
#[export] Hint Rewrite @map_get_set_eq @map_get_delete_eq : nonoka.
#[export] Hint Rewrite @map_get_set_ne @map_get_delete_ne using done : nonoka.
