(* ===== verification/Types.v ===== *)
(** * Data model of the web client ([web/app/types/index.ts])

    One record per interface and one inductive per string union.  Fields the
    source types [number] but fills from 64-bit proto-JSON are [jsnum]; an
    optional field [f?] is an [option] whose [None] is [undefined]. *)

From S2P Require Import Prelude JsNum.

(** [interface User]. *)
Record User := mkUser { user_userId : jsnum; user_username : string }.

#[export] Instance User_eq_dec : EqDecision User.
Proof. solve_decision. Defined.

(** [interface Group]. *)
Record Group := mkGroup {
  group_groupId : string;
  group_topic : string;
  group_name : string;
  group_ownerId : jsnum;
  group_createdAt : jsnum;
}.

(** [interface GroupMember]. *)
Record GroupMember := mkGroupMember { member_userId : jsnum; member_username : string }.

(** [type MessageStatus]. *)
Inductive MessageStatus := sending | sent | delivered | read | failed | recalled_status.

#[export] Instance MessageStatus_eq_dec : EqDecision MessageStatus.
Proof. solve_decision. Defined.

(** Seconds since the epoch: a wire value, or [Date.now() / 1000] for the
    clock value [ms]. *)
Inductive timestamp := TsWire (x : jsnum) | TsNow (ms : Z).

#[export] Instance timestamp_eq_dec : EqDecision timestamp.
Proof. solve_decision. Defined.

(** The instant in milliseconds, which orders timestamps. *)
Definition ts_millis (t : timestamp) : Z :=
  match t with TsWire x => (1000 * Number x)%Z | TsNow ms => ms end.

(** [interface ChatMessage]. *)
Record ChatMessage := mkMsg {
  clientMsgId : string;
  msgId : option jsnum;
  msg_topic : string;
  senderId : jsnum;
  content : string;
  msgType : option Z;
  msg_timestamp : timestamp;
  topicSeq : option jsnum;
  status : MessageStatus;
  recalled : option bool;
}.

#[export] Instance ChatMessage_eq_dec : EqDecision ChatMessage.
Proof. solve_decision. Defined.

Inductive ConvType := p2p | group.

#[export] Instance ConvType_eq_dec : EqDecision ConvType.
Proof. solve_decision. Defined.

(** [interface Conversation]. *)
Record Conversation := mkConv {
  conv_topic : string;
  conv_type : ConvType;
  peerId : jsnum;
  peerUsername : string;
  conv_name : option string;
  lastMsgPreview : option string;
  lastMsgAt : option timestamp;
  lastSeq : jsnum;
  lastReadSeq : jsnum;
  unreadCount : Z;
  messages : list ChatMessage;
  hasMore : bool;
  isLoading : bool;
}.

(** [interface AuthState]. *)
Record AuthState := mkAuthState {
  auth_user : option User;
  auth_token : option string;
  isAuthenticated : bool;
}.

(** [type ConnectionState]. *)
Inductive ConnectionState := connecting | connected | authed | disconnected | reconnecting.

#[export] Instance ConnectionState_eq_dec : EqDecision ConnectionState.
Proof. solve_decision. Defined.

(** The numeric sequence of a message, [undefined] for an unconfirmed one. *)
Definition seq_of (m : ChatMessage) : option Z := Number <$> topicSeq m.

(** Truthiness of strings and of optional strings. *)
Definition nonempty (s : string) : bool := negb (String.eqb s "").
Definition opt_nonempty (s : option string) : bool :=
  match s with Some s => nonempty s | None => false end.

(** [a || b] on strings and optional strings. *)
Definition str_or (a b : string) : string := if nonempty a then a else b.
Definition opt_str_or (a : option string) (b : string) : string :=
  match a with Some s => str_or s b | None => b end.
Definition opt_or_opt (a b : option string) : option string :=
  if opt_nonempty a then a else b.
