(* ===== verification/ChatStore.v ===== *)
(** * The chat store ([web/app/stores/chatStore.ts])

    The store's state is a record of its [Map]s and [Set]s; every action of
    the source is a function from state to state ([set((state) => ...)]). *)

From S2P Require Import Prelude JsNum JsMap Types.

Module ChatStore.

(** The state part of [interface ChatStore]. *)
Record State := mkState {
  conversations : list (string * Conversation);
  activeTopic : option string;
  connectionState : ConnectionState;
  groups : list (string * Group);
  memberNames : list (string * list (Z * string));
  mentionedTopics : list string;
}.

Definition initialState : State := mkState [] None disconnected [] [] [].

(** ** Object spreads of the source *)

Definition set_conversations (m : list (string * Conversation)) (s : State) : State :=
  mkState m (activeTopic s) (connectionState s) (groups s) (memberNames s) (mentionedTopics s).

Definition with_messages (ms : list ChatMessage) (c : Conversation) : Conversation :=
  mkConv (conv_topic c) (conv_type c) (peerId c) (peerUsername c) (conv_name c)
    (lastMsgPreview c) (lastMsgAt c) (lastSeq c) (lastReadSeq c) (unreadCount c)
    ms (hasMore c) (isLoading c).

(** [Partial<Conversation> & { topic: string }]; [None] is an absent key. *)
Record ConvPatch := mkConvPatch {
  p_topic : string;
  p_type : option ConvType;
  p_peerId : option jsnum;
  p_peerUsername : option string;
  p_name : option string;
  p_lastMsgPreview : option string;
  p_lastMsgAt : option timestamp;
  p_lastSeq : option jsnum;
  p_lastReadSeq : option jsnum;
  p_unreadCount : option Z;
  p_messages : option (list ChatMessage);
  p_hasMore : option bool;
  p_isLoading : option bool;
}.

(** A patch that only names its conversation. *)
Definition empty_patch (topic : string) : ConvPatch :=
  mkConvPatch topic None None None None None None None None None None None None.

Definition keep {A} (patch : option A) (old : A) : A := default old patch.
Definition keep_opt {A} (patch old : option A) : option A :=
  match patch with Some _ => patch | None => old end.

(** [{ ...existing, ...conv }]. *)
Definition apply_conv_patch (p : ConvPatch) (c : Conversation) : Conversation :=
  mkConv (p_topic p) (keep (p_type p) (conv_type c)) (keep (p_peerId p) (peerId c))
    (keep (p_peerUsername p) (peerUsername c)) (keep_opt (p_name p) (conv_name c))
    (keep_opt (p_lastMsgPreview p) (lastMsgPreview c)) (keep_opt (p_lastMsgAt p) (lastMsgAt c))
    (keep (p_lastSeq p) (lastSeq c)) (keep (p_lastReadSeq p) (lastReadSeq c))
    (keep (p_unreadCount p) (unreadCount c)) (keep (p_messages p) (messages c))
    (keep (p_hasMore p) (hasMore c)) (keep (p_isLoading p) (isLoading c)).

(** [Partial<ChatMessage>]. *)
Record MsgPatch := mkMsgPatch {
  p_clientMsgId : option string;
  p_msgId : option jsnum;
  p_msg_topic : option string;
  p_senderId : option jsnum;
  p_content : option string;
  p_msgType : option Z;
  p_timestamp : option timestamp;
  p_topicSeq : option jsnum;
  p_status : option MessageStatus;
  p_recalled : option bool;
}.

Definition status_patch (st : MessageStatus) : MsgPatch :=
  mkMsgPatch None None None None None None None None (Some st) None.

(** [{ ...newMessages[idx], ...patch }]. *)
Definition apply_msg_patch (p : MsgPatch) (m : ChatMessage) : ChatMessage :=
  mkMsg (keep (p_clientMsgId p) (clientMsgId m)) (keep_opt (p_msgId p) (msgId m))
    (keep (p_msg_topic p) (msg_topic m)) (keep (p_senderId p) (senderId m))
    (keep (p_content p) (content m)) (keep_opt (p_msgType p) (msgType m))
    (keep (p_timestamp p) (msg_timestamp m)) (keep_opt (p_topicSeq p) (topicSeq m))
    (keep (p_status p) (status m)) (keep_opt (p_recalled p) (recalled m)).

(** [{ ...m, status }]. *)
Definition with_status (st : MessageStatus) (m : ChatMessage) : ChatMessage :=
  apply_msg_patch (status_patch st) m.

(** ** Helpers of the source *)

Definition new_conversation (topic : string) : Conversation :=
  mkConv topic (if String.prefix "p2p_" topic then p2p else group) (Num 0) "" None None None
    (Num 0) (Num 0) 0 [] true false.

(** [ensureConversation]: the existing conversation, or a fresh stub that is
    also put in the map. *)
Definition ensureConversation (map : list (string * Conversation)) (topic : string)
    : list (string * Conversation) * Conversation :=
  match map_get topic map with
  | Some existing => (map, existing)
  | None => let conv := new_conversation topic in (map_set topic conv map, conv)
  end.

(** [previewForMessage]. *)
Definition recalled_text : string := "This message was recalled".

Definition previewForMessage (msg : ChatMessage) : string :=
  if default false (recalled msg) then recalled_text
  else if bool_decide (msgType msg = Some 2%Z) then "[图片]"
  else if bool_decide (msgType msg = Some 3%Z) then "[文件]"
  else content msg.

(** [insertBySeq]. *)
Definition insertBySeq (msgs : list ChatMessage) (msg : ChatMessage) : list ChatMessage :=
  match seq_of msg with
  | None => msgs ++ [msg]
  | Some seq =>
      match last msgs with
      | None => msgs ++ [msg]
      | Some lst =>
          match topicSeq lst with
          | None => msgs ++ [msg]
          | Some lseq =>
              if (Number lseq <=? seq)%Z then msgs ++ [msg]
              else
                let idx := findIndex (λ m, match topicSeq m with
                                           | Some s => (seq <? Number s)%Z
                                           | None => false
                                           end) msgs in
                let at_ := match idx with None => length msgs | Some i => i end in
                take at_ msgs ++ msg :: drop at_ msgs
          end
      end
  end.

(** ** Actions *)

(** [setConversations]: the server's list wins for metadata, local messages and
    names survive, and conversations the server does not list are kept. *)
Definition merge_conversation (old : list (string * Conversation)) (conv : Conversation) : Conversation :=
  let existing := map_get (conv_topic conv) old in
  mkConv (conv_topic conv) (conv_type conv) (peerId conv)
    (str_or (peerUsername conv) (opt_str_or (peerUsername <$> existing) ""))
    (opt_or_opt (conv_name conv) (existing ≫= conv_name))
    (lastMsgPreview conv) (lastMsgAt conv) (lastSeq conv) (lastReadSeq conv) (unreadCount conv)
    (match existing with Some e => messages e | None => messages conv end)
    (hasMore conv) (isLoading conv).

Definition setConversations (list_ : list Conversation) (state : State) : State :=
  let map := foldl (λ map conv, map_set (conv_topic conv) (merge_conversation (conversations state) conv) map)
               [] list_ in
  let map := foldl (λ map '(topic, existing),
                 if map_has topic map then map else map_set topic existing map)
               map (conversations state) in
  set_conversations map state.

Definition upsertConversation (conv : ConvPatch) (state : State) : State :=
  let '(map, existing) := ensureConversation (conversations state) (p_topic conv) in
  set_conversations (map_set (p_topic conv) (apply_conv_patch conv existing) map) state.

Definition setActiveTopic (topic : option string) (s : State) : State :=
  mkState (conversations s) topic (connectionState s) (groups s) (memberNames s) (mentionedTopics s).

(** The duplicate test of [appendMessage]. *)
Definition same_message (msg m : ChatMessage) : bool :=
  String.eqb (clientMsgId m) (clientMsgId msg) ||
  match seq_of msg, seq_of m with
  | Some a, Some b => (b =? a)%Z
  | _, _ => false
  end.

(** The larger of [conv.lastSeq] and an optional sequence number. *)
Definition bump_lastSeq (seq : option Z) (old : jsnum) : jsnum :=
  match seq with
  | Some s => if (Number old <? s)%Z then Num s else old
  | None => old
  end.

Definition append_to (conv : Conversation) (msg : ChatMessage) : Conversation :=
  let exists_ := some (same_message msg) (messages conv) in
  let msgs := if exists_ then messages conv else insertBySeq (messages conv) msg in
  mkConv (conv_topic conv) (conv_type conv) (peerId conv) (peerUsername conv) (conv_name conv)
    (Some (previewForMessage msg)) (Some (msg_timestamp msg))
    (bump_lastSeq (seq_of msg) (lastSeq conv)) (lastReadSeq conv) (unreadCount conv)
    msgs (hasMore conv) (isLoading conv).

Definition appendMessage (topic : string) (msg : ChatMessage) (state : State) : State :=
  let '(map, conv) := ensureConversation (conversations state) topic in
  set_conversations (map_set topic (append_to conv msg) map) state.

Definition updateMessageStatus (topic : string) (cid : string) (patch : MsgPatch) (state : State) : State :=
  match map_get topic (conversations state) with
  | None => state
  | Some conv =>
      match findIndex (λ m, String.eqb (clientMsgId m) cid) (messages conv) with
      | Some idx =>
          let newMessages := alter (apply_msg_patch patch) idx (messages conv) in
          set_conversations (map_set topic (with_messages newMessages conv) (conversations state)) state
      | None => set_conversations (conversations state) state
      end
  end.

(** The [map] callback of [recallMessage]; [mid] is the optional [msgId]. *)
Definition recall_matches (seq : Z) (mid : option Z) (m : ChatMessage) : bool :=
  match topicSeq m with
  | None => false
  | Some s =>
      (Number s =? seq)%Z ||
      match mid, msgId m with
      | Some i, Some mi => negb (i =? 0)%Z && (Number mi =? i)%Z
      | _, _ => false
      end
  end.

Definition recall_one (m : ChatMessage) : ChatMessage :=
  mkMsg (clientMsgId m) (msgId m) (msg_topic m) (senderId m) recalled_text (msgType m)
    (msg_timestamp m) (topicSeq m) recalled_status (Some true).

Definition recallMessage (topic : string) (seq : Z) (mid : option Z) (state : State) : State :=
  match map_get topic (conversations state) with
  | None => state
  | Some conv =>
      let msgs := (λ m, if recall_matches seq mid m then recall_one m else m) <$> messages conv in
      let conv' := mkConv (conv_topic conv) (conv_type conv) (peerId conv) (peerUsername conv)
                     (conv_name conv) (Some recalled_text) (lastMsgAt conv) (lastSeq conv)
                     (lastReadSeq conv) (unreadCount conv) msgs (hasMore conv) (isLoading conv) in
      set_conversations (map_set topic conv' (conversations state)) state
  end.

Definition setMessagesLoading (topic : string) (flag : bool) (state : State) : State :=
  let '(map, c) := ensureConversation (conversations state) topic in
  set_conversations (map_set topic
    (mkConv (conv_topic c) (conv_type c) (peerId c) (peerUsername c) (conv_name c)
       (lastMsgPreview c) (lastMsgAt c) (lastSeq c) (lastReadSeq c) (unreadCount c)
       (messages c) (hasMore c) flag) map) state.

(** [Number(a.topicSeq) || 0], the sort key of [prependMessages]. *)
Definition sort_key (m : ChatMessage) : Z := default 0%Z (seq_of m).

(** The [filter] callback of [prependMessages]. *)
Definition is_new_message (old : list ChatMessage) (m : ChatMessage) : bool :=
  let existingSeqs := set_of (omap seq_of old) in
  let existingClientIds := set_of (filter (λ i, nonempty i = true) (clientMsgId <$> old)) in
  if match seq_of m with Some s => set_has s existingSeqs | None => false end then false
  else if set_has (clientMsgId m) existingClientIds then false
  else true.

Definition prepend_to (c : Conversation) (msgs : list ChatMessage) (more : bool) : Conversation :=
  let newMsgs := filter (λ m, is_new_message (messages c) m = true) msgs in
  let merged := sort_by sort_key (newMsgs ++ messages c) in
  mkConv (conv_topic c) (conv_type c) (peerId c) (peerUsername c) (conv_name c)
    (lastMsgPreview c) (lastMsgAt c) (bump_lastSeq (last newMsgs ≫= seq_of) (lastSeq c))
    (lastReadSeq c) (unreadCount c) merged more (isLoading c).

Definition prependMessages (topic : string) (msgs : list ChatMessage) (more : bool) (state : State) : State :=
  let '(map, conv) := ensureConversation (conversations state) topic in
  set_conversations (map_set topic (prepend_to conv msgs more) map) state.

(** The [map] callback of [markTopicRead]; no coercion is applied to
    [senderId], [peerId], [topicSeq] and [upToSeq]. *)
Definition mark_read_one (peer upToSeq : jsnum) (m : ChatMessage) : ChatMessage :=
  if negb (strict_eq (senderId m) peer) &&
     match topicSeq m with Some s => js_le s upToSeq | None => false end
  then with_status read m else m.

Definition markTopicRead (topic : string) (upToSeq : jsnum) (state : State) : State :=
  match map_get topic (conversations state) with
  | None => state
  | Some c =>
      let conv' := mkConv (conv_topic c) (conv_type c) (peerId c) (peerUsername c) (conv_name c)
                     (lastMsgPreview c) (lastMsgAt c) (lastSeq c)
                     (Num (Z.max (Number (lastReadSeq c)) (Number upToSeq))) 0
                     (mark_read_one (peerId c) upToSeq <$> messages c) (hasMore c) (isLoading c) in
      mkState (map_set topic conv' (conversations state)) (activeTopic state) (connectionState state)
        (groups state) (memberNames state) (set_delete topic (mentionedTopics state))
  end.

Definition updateConnectionState (cs : ConnectionState) (s : State) : State :=
  mkState (conversations s) (activeTopic s) cs (groups s) (memberNames s) (mentionedTopics s).

Definition setGroup (g : Group) (s : State) : State :=
  mkState (conversations s) (activeTopic s) (connectionState s)
    (map_set (group_topic g) g (groups s)) (memberNames s) (mentionedTopics s).

Definition setGroups (gs : list Group) (s : State) : State :=
  mkState (conversations s) (activeTopic s) (connectionState s)
    (foldl (λ map g, map_set (group_topic g) g map) [] gs) (memberNames s) (mentionedTopics s).

Definition setMemberNames (topic : string) (members : list GroupMember) (s : State) : State :=
  let names := foldl (λ names m, map_set (Number (member_userId m)) (member_username m) names) [] members in
  mkState (conversations s) (activeTopic s) (connectionState s) (groups s)
    (map_set topic names (memberNames s)) (mentionedTopics s).

Definition markTopicMentioned (topic : string) (s : State) : State :=
  if set_has topic (mentionedTopics s) then s
  else mkState (conversations s) (activeTopic s) (connectionState s) (groups s)
         (memberNames s) (set_add topic (mentionedTopics s)).

Definition reset (s : State) : State := initialState.

End ChatStore.
