(* ===== verification/ChatStoreProps.v ===== *)
(** * Correctness of the chat store

    The store's invariant over every sequence of actions, the ordering and
    deduplication of a conversation's messages, and the effect of each action
    on its own conversation and on the others. *)

From S2P Require Import Prelude JsNum JsMap Types ChatStore.
Import ChatStore.

(** ** Actions as data, so that histories can be quantified over *)

Inductive Action :=
| ASetConversations (l : list Conversation)
| AUpsert (p : ConvPatch)
| ASetActive (t : option string)
| AAppend (t : string) (m : ChatMessage)
| AUpdateStatus (t cid : string) (p : MsgPatch)
| ARecall (t : string) (seq : Z) (mid : option Z)
| ASetLoading (t : string) (b : bool)
| APrepend (t : string) (ms : list ChatMessage) (more : bool)
| AMarkRead (t : string) (upTo : jsnum)
| AConnection (c : ConnectionState)
| ASetGroup (g : Group)
| ASetGroups (gs : list Group)
| ASetMembers (t : string) (ms : list GroupMember)
| AMention (t : string)
| AReset.

Definition dispatch (a : Action) : State → State :=
  match a with
  | ASetConversations l => setConversations l
  | AUpsert p => upsertConversation p
  | ASetActive t => setActiveTopic t
  | AAppend t m => appendMessage t m
  | AUpdateStatus t cid p => updateMessageStatus t cid p
  | ARecall t seq mid => recallMessage t seq mid
  | ASetLoading t b => setMessagesLoading t b
  | APrepend t ms more => prependMessages t ms more
  | AMarkRead t u => markTopicRead t u
  | AConnection c => updateConnectionState c
  | ASetGroup g => setGroup g
  | ASetGroups gs => setGroups gs
  | ASetMembers t ms => setMemberNames t ms
  | AMention t => markTopicMentioned t
  | AReset => reset
  end.

(** The state after a history of actions, oldest first. *)
Definition run (acts : list Action) (s : State) : State := foldl (λ s a, dispatch a s) s acts.

(** ** The store invariant *)

Definition keyed {A} (key : A → string) (m : list (string * A)) : Prop :=
  map_wf m ∧ Forall (λ kv, key kv.2 = kv.1) m.

Definition wf (s : State) : Prop :=
  keyed conv_topic (conversations s) ∧ keyed group_topic (groups s) ∧
  map_wf (memberNames s) ∧ NoDup (mentionedTopics s).

Lemma keyed_set {A} (key : A → string) k v (m : list (string * A)) :
  keyed key m → key v = k → keyed key (map_set k v m).
Proof.
  intros [Hm Hk] Hv. split; [by apply map_set_wf|].
  apply map_set_Forall; [done| |done]. simpl. by intros ? ? _ <-.
Qed.

Lemma keyed_nil {A} (key : A → string) : keyed key [].
Proof. split; constructor. Qed.

Lemma keyed_get {A} (key : A → string) k v (m : list (string * A)) :
  keyed key m → map_get k m = Some v → key v = k.
Proof.
  intros [_ Hm] Hg%map_get_elem. rewrite Forall_forall in Hm. apply (Hm _ Hg).
Qed.

Lemma conv_keyed_set k c c' (m : list (string * Conversation)) :
  keyed conv_topic m → map_get k m = Some c → conv_topic c' = conv_topic c →
  keyed conv_topic (map_set k c' m).
Proof. intros Hm Hg Hc. apply keyed_set; [done|]. rewrite Hc. by eapply keyed_get. Qed.

Lemma keyed_foldl {A B} (key : A → string) (f : B → A) (l : list B) (m : list (string * A)) :
  keyed key m → keyed key (foldl (λ m b, map_set (key (f b)) (f b) m) m l).
Proof. revert m. induction l; simpl; intros m Hm; [done|]. by apply IHl, keyed_set. Qed.

Lemma keyed_merge {A} (key : A → string) (l m : list (string * A)) :
  Forall (λ kv, key kv.2 = kv.1) l → keyed key m →
  keyed key (foldl (λ m '(k, v), if map_has k m then m else map_set k v m) m l).
Proof.
  intros Hl. revert m. induction Hl as [|[k v] l Hk Hl IH]; simpl; intros m Hm; [done|].
  apply IH. destruct (map_has k m); [done|by apply keyed_set].
Qed.

#[local] Hint Resolve keyed_set keyed_nil conv_keyed_set : nonoka.

Lemma ensure_keyed map topic :
  keyed conv_topic map →
  keyed conv_topic (ensureConversation map topic).1 ∧
  conv_topic (ensureConversation map topic).2 = topic.
Proof.
  unfold ensureConversation. intros Hm. destruct (map_get topic map) eqn:E; simpl; [|auto with nonoka].
  split; [done|]. by eapply keyed_get.
Qed.

(** What the actions that go through [ensureConversation] do to the map. *)
Definition update_ensured (f : Conversation → Conversation) (topic : string) (s : State) : State :=
  let '(map, conv) := ensureConversation (conversations s) topic in
  set_conversations (map_set topic (f conv) map) s.

Lemma update_ensured_wf f topic s :
  (∀ c, conv_topic c = topic → conv_topic (f c) = topic) → wf s → wf (update_ensured f topic s).
Proof.
  unfold update_ensured. intros Hf (Hc & Hg & Hm & Hn).
  destruct (ensure_keyed _ topic Hc). destruct (ensureConversation _ _) as [m c]; simpl in *.
  split; simpl; auto with nonoka.
Qed.

Lemma set_conversations_wf m s : keyed conv_topic m → wf s → wf (set_conversations m s).
Proof. intros Hm (_ & Hg & Hn & Hx). done. Qed.

Lemma setConversations_wf l s : wf s → wf (setConversations l s).
Proof.
  intros Hs. apply set_conversations_wf; [|done]. destruct Hs as ([_ Hf] & _).
  apply keyed_merge; [done|].
  apply (keyed_foldl conv_topic (merge_conversation (conversations s)) l []). apply keyed_nil.
Qed.

Lemma dispatch_wf a s : wf s → wf (dispatch a s).
Proof.
  intros Hs. pose proof Hs as (Hc & Hg & Hm & Hn).
  destruct a; simpl; try done.
  - by apply setConversations_wf.
  - apply (update_ensured_wf (apply_conv_patch p) (p_topic p)); done.
  - apply (update_ensured_wf (λ c, append_to c m)); done.
  - unfold updateMessageStatus. destruct (map_get _ _) eqn:E; [|done].
    destruct (findIndex _ _); apply set_conversations_wf; simpl; eauto with nonoka.
  - unfold recallMessage. destruct (map_get _ _) eqn:E; [|done].
    apply set_conversations_wf; simpl; eauto with nonoka.
  - by apply (update_ensured_wf (λ c, mkConv (conv_topic c) (conv_type c) (peerId c) (peerUsername c)
      (conv_name c) (lastMsgPreview c) (lastMsgAt c) (lastSeq c) (lastReadSeq c) (unreadCount c)
      (messages c) (hasMore c) b)).
  - apply (update_ensured_wf (λ c, prepend_to c ms more)); done.
  - unfold markTopicRead. destruct (map_get _ _) eqn:E; [|done].
    split; simpl; [eauto with nonoka|]. split; [done|]. split; [done|]. by apply NoDup_filter.
  - split; simpl; [done|]. eauto with nonoka.
  - split; simpl; [done|]. split; [|done]. apply (keyed_foldl group_topic (λ g, g) gs []), keyed_nil.
  - split; simpl; [done|]. split; [done|]. eauto with nonoka.
  - unfold markTopicMentioned. destruct (set_has _ _); [done|].
    split; simpl; [done|]. eauto with nonoka.
  - split; [apply keyed_nil|]. split; [apply keyed_nil|]. repeat constructor.
Qed.

Lemma initial_wf : wf initialState.
Proof. repeat split; constructor. Qed.

Lemma run_keeps_wf acts s : wf s → wf (run acts s).
Proof. unfold run. revert s. induction acts as [|a acts IH]; simpl; intros s Hs; [done|]. by apply IH, dispatch_wf. Qed.

(** C1: whatever sequence of actions the hooks dispatch, the store stays well
    formed: every conversation and group is stored under its own topic, no
    topic has two entries, and no topic is listed twice as mentioned. *)
Theorem run_wf acts : wf (run acts initialState).
Proof. apply run_keeps_wf, initial_wf. Qed.

(** ** Ordering of a conversation's messages *)

(** The messages that carry a sequence number are in ascending order. *)
Definition ascending (l : list ChatMessage) : Prop := keys_ascending seq_of l.

(** The conversation does not end in a message without a sequence number. *)
Definition ends_confirmed (l : list ChatMessage) : Prop :=
  ∀ m, last l = Some m → is_Some (topicSeq m).

Lemma insertBySeq_perm l m : insertBySeq l m ≡ₚ m :: l.
Proof.
  assert (H : l ++ [m] ≡ₚ m :: l) by (symmetry; apply Permutation_cons_append).
  unfold insertBySeq. repeat case_match; try done.
  - rewrite <-Permutation_middle. by rewrite take_drop.
  - rewrite <-Permutation_middle. by rewrite take_drop.
Qed.

Lemma ascending_last l m s x :
  ascending l → last l = Some m → seq_of m = Some s → x ∈ omap seq_of l → (x ≤ s)%Z.
Proof.
  intros Hl Hm Hs. destruct (last_Some l m) as [[l' ->] _]; [done|].
  apply keys_ascending_app in Hl as (_ & _ & Hle). rewrite omap_app, elem_of_app. simpl. rewrite Hs.
  intros [Hx|Hx]; [|set_solver]. apply Hle; [done|]. simpl. rewrite Hs. left.
Qed.

Lemma before_index l seq :
  Forall (λ m, match topicSeq m with Some s => (seq <? Number s)%Z | None => false end = false) l →
  ∀ x, x ∈ omap seq_of l → (x ≤ seq)%Z.
Proof.
  rewrite Forall_forall. intros Hl x (m & Hm & Hx)%list_elem_of_omap.
  specialize (Hl m Hm). unfold seq_of in Hx. destruct (topicSeq m); simplify_eq/=. bool_to_prop. lia.
Qed.

(** C2: [insertBySeq] puts a pushed message where it belongs: if the sequence
    numbers of a conversation ascend and the conversation does not end in an
    unconfirmed message, they still ascend afterwards, and exactly the new
    message was added. *)
Theorem insertBySeq_ascending l m :
  ascending l → ends_confirmed l →
  ascending (insertBySeq l m) ∧ insertBySeq l m ≡ₚ m :: l.
Proof.
  intros Hl He. split; [|apply insertBySeq_perm]. unfold insertBySeq.
  assert (Happ : (∀ s, seq_of m = Some s → ∀ x, x ∈ omap seq_of l → (x ≤ s)%Z) → ascending (l ++ [m])).
  { intros Hle. apply keys_ascending_app. split; [done|]. split.
    - unfold keys_ascending. simpl. destruct (seq_of m); repeat constructor.
    - simpl. intros x y Hx. destruct (seq_of m) eqn:Hs; [|by intros ?%elem_of_nil].
      intros ->%list_elem_of_singleton. by apply (Hle _ eq_refl). }
  destruct (seq_of m) as [seq|] eqn:Hs; [|by apply Happ].
  destruct (last l) as [lm|] eqn:Hlast; [|apply Happ; intros s _ x; by rewrite (proj1 (last_None l) Hlast); intros ?%elem_of_nil].
  destruct (He _ Hlast) as [ls Hls]. rewrite Hls.
  assert (Hlm : seq_of lm = Some (Number ls)) by (unfold seq_of; by rewrite Hls).
  destruct (Number ls <=? seq)%Z eqn:Hle; bool_to_prop.
  - apply Happ. intros s [= <-] x Hx. pose proof (ascending_last _ _ _ _ Hl Hlast Hlm Hx). lia.
  - destruct (findIndex _ l) as [i|] eqn:Hi.
    + apply findIndex_Some in Hi as (l1 & y & l2 & -> & <- & Hy & Hl1).
      rewrite take_app_length, drop_app_length.
      apply (keys_ascending_insert seq_of l1 m seq); [done|done|by apply before_index|].
      apply keys_ascending_app in Hl as (_ & Hl2 & _). unfold keys_ascending in Hl2. simpl in *.
      unfold seq_of in *. destruct (topicSeq y) as [sy|] eqn:Hsy; [|done]; simpl in *. bool_to_prop.
      inversion Hl2 as [|? ? _ Hf]; subst. rewrite Forall_forall in Hf.
      intros x [->|Hx]%elem_of_cons; [lia|]. specialize (Hf x Hx). lia.
    + apply findIndex_None in Hi. pose proof (before_index _ _ Hi (Number ls)).
      destruct (last_Some l lm) as [[l' ->] _]; [done|].
      rewrite omap_app, elem_of_app in H. simpl in H. rewrite Hlm in H. set_solver by lia.
Qed.

(** Sample messages for the witnesses. *)
Definition sample (cid : string) (seq : option jsnum) : ChatMessage :=
  mkMsg cid (Some (Num 7)) "p2p_1_2" (Num 1) "hi" (Some 1%Z) (TsWire (Num 100)) seq delivered None.

Definition m3 := sample "c3" (Some (Num 3)).
Definition m5 := sample "c5" (Some (Dec 5)).
Definition m9 := sample "c9" (Some (Num 9)).
Definition pending := sample "cp" None.

Lemma insertBySeq_ascending_witness :
  ascending [m3; m9] ∧ ends_confirmed [m3; m9] ∧
  insertBySeq [m3; m9] m5 = [m3; m5; m9] ∧ ascending (insertBySeq [m3; m9] m5).
Proof.
  assert (Ha : ascending [m3; m9]) by (repeat constructor; discriminate).
  assert (He : ends_confirmed [m3; m9]) by (intros m [= <-]; by eexists).
  split; [exact Ha|]. split; [exact He|]. split; [reflexivity|].
  exact (proj1 (insertBySeq_ascending [m3; m9] m5 Ha He)).
Defined.

(** The condition on the last message is needed: when the conversation
    ends in a message that is still being sent, a late push is appended after
    it and the sequence numbers stop ascending. *)
Theorem insertBySeq_after_pending :
  ascending [m9; pending] ∧ insertBySeq [m9; pending] m3 = [m9; pending; m3] ∧
  ¬ ascending (insertBySeq [m9; pending] m3).
Proof.
  split; [repeat constructor|]. split; [reflexivity|].
  intros H. apply (keys_ascending_app seq_of [m9; pending] [m3]) in H as (_ & _ & H).
  specialize (H 9%Z 3%Z). simpl in H. unfold m9, m3, seq_of in H. simpl in H. set_solver by lia.
Qed.

(** ** No duplicates *)

(** No two messages share a client id, and no two share a sequence number. *)
Definition no_dups (l : list ChatMessage) : Prop :=
  NoDup (clientMsgId <$> l) ∧ NoDup (omap seq_of l).

#[local] Instance no_dups_perm : Proper ((≡ₚ) ==> iff) no_dups.
Proof. intros l l' Hl. unfold no_dups. by rewrite Hl. Qed.

Lemma no_dups_cons m l :
  no_dups (m :: l) ↔
  no_dups l ∧ (clientMsgId m ∉ clientMsgId <$> l) ∧ (∀ s, seq_of m = Some s → s ∉ omap seq_of l).
Proof.
  unfold no_dups. csimpl. rewrite NoDup_cons.
  destruct (seq_of m) as [s|] eqn:Hs; csimpl; [rewrite NoDup_cons|]; naive_solver.
Qed.

Lemma same_message_false m l :
  some (same_message m) l = false →
  (clientMsgId m ∉ clientMsgId <$> l) ∧ (∀ s, seq_of m = Some s → s ∉ omap seq_of l).
Proof.
  rewrite some_false, Forall_forall. intros Hl. split.
  - intros (x & Hx & Hin)%list_elem_of_fmap. specialize (Hl x Hin). unfold same_message in Hl.
    bool_to_prop. apply String.eqb_neq in H. congruence.
  - intros s Hs (x & Hin & Hx)%list_elem_of_omap. specialize (Hl x Hin). unfold same_message in Hl.
    rewrite Hs, Hx in Hl. bool_to_prop. done.
Qed.

(** C3: a message is stored at most once: appending keeps client ids and
    sequence numbers unique in the conversation. *)
Theorem append_no_dups c m :
  no_dups (messages c) → no_dups (messages (append_to c m)).
Proof.
  unfold append_to. simpl. destruct (some (same_message m) (messages c)) eqn:E; [done|].
  intros H. rewrite insertBySeq_perm, no_dups_cons. by split; [|apply same_message_false].
Qed.

Definition conv0 : Conversation := with_messages [m3; m9] (new_conversation "p2p_1_2").

Lemma append_no_dups_witness :
  no_dups (messages conv0) ∧ no_dups (messages (append_to conv0 m5)).
Proof.
  assert (H : no_dups (messages conv0)) by (split; apply (bool_decide_unpack _); vm_compute; exact I).
  split; [exact H|]. exact (append_no_dups conv0 m5 H).
Defined.

Lemma map_set_same {A} k v (m : list (string * A)) :
  map_get k m = Some v → map_set k v m = m.
Proof.
  induction m as [|[k' v'] m IH]; simpl; [done|].
  case_decide; intros ?; simplify_eq; [done|]. f_equal. auto.
Qed.

Lemma update_ensured_get f topic s :
  map_get topic (conversations (update_ensured f topic s)) =
  Some (f (default (new_conversation topic) (map_get topic (conversations s)))).
Proof.
  unfold update_ensured, ensureConversation. destruct (map_get topic (conversations s)); simpl;
    by rewrite map_get_set_eq.
Qed.

Lemma update_ensured_get_ne f topic t s :
  topic ≠ t → map_get t (conversations (update_ensured f topic s)) = map_get t (conversations s).
Proof.
  intros Hne. unfold update_ensured, ensureConversation.
  destruct (map_get topic (conversations s)); simpl; by autorewrite with nonoka.
Qed.

Lemma append_to_idem c m : append_to (append_to c m) m = append_to c m.
Proof.
  assert (H : some (same_message m) (messages (append_to c m)) = true).
  { unfold append_to; simpl. destruct (some (same_message m) (messages c)) eqn:E; [done|].
    apply not_false_iff_true. intros H%same_message_false. destruct H as [H _].
    apply H, list_elem_of_fmap. exists m. split; [done|]. rewrite insertBySeq_perm. left. }
  unfold append_to at 1. rewrite H. unfold append_to. simpl. f_equal. unfold bump_lastSeq.
  destruct (seq_of m) as [s|]; [|done].
  destruct (Number (lastSeq c) <? s)%Z eqn:E; simpl; [by rewrite Z.ltb_irrefl|by rewrite E].
Qed.

(** A message delivered twice (a push and its replay, or a push and the
    echo of an own message) changes the store once: appending is idempotent. *)
Theorem appendMessage_idempotent topic m s :
  appendMessage topic m (appendMessage topic m s) = appendMessage topic m s.
Proof.
  change (update_ensured (λ c, append_to c m) topic (update_ensured (λ c, append_to c m) topic s)
          = update_ensured (λ c, append_to c m) topic s).
  pose proof (update_ensured_get (λ c, append_to c m) topic s) as Hg.
  unfold update_ensured at 1, ensureConversation. rewrite Hg.
  rewrite append_to_idem, map_set_same by done. by destruct (update_ensured _ _ s).
Qed.

(** [appendMessage] sets the preview and time of its conversation, raises
    [lastSeq] to the message's sequence number if that is larger, keeps the
    read position, the unread counter and all other conversations. *)
Theorem appendMessage_spec topic m s :
  let c := default (new_conversation topic) (map_get topic (conversations s)) in
  (∃ c', map_get topic (conversations (appendMessage topic m s)) = Some c' ∧
     lastMsgPreview c' = Some (previewForMessage m) ∧ lastMsgAt c' = Some (msg_timestamp m) ∧
     Number (lastSeq c') = Z.max (Number (lastSeq c)) (default (Number (lastSeq c)) (seq_of m)) ∧
     lastReadSeq c' = lastReadSeq c ∧ unreadCount c' = unreadCount c ∧
     (messages c' = messages c ∨ messages c' ≡ₚ m :: messages c)) ∧
  (∀ t, topic ≠ t →
     map_get t (conversations (appendMessage topic m s)) = map_get t (conversations s)).
Proof.
  intros c. split.
  - exists (append_to c m). split; [exact (update_ensured_get (λ c, append_to c m) topic s)|].
    split; [done|]. split; [done|]. split; [|split; [done|]; split; [done|]].
    + simpl. unfold bump_lastSeq. destruct (seq_of m) as [q|]; simpl; [|lia].
      destruct (_ <? q)%Z eqn:E; bool_to_prop; simpl; lia.
    + simpl. destruct (some _ _); [by left|right; apply insertBySeq_perm].
  - intros t. apply (update_ensured_get_ne (λ c, append_to c m)).
Qed.

(** ** Loading older history *)

Lemma is_new_message_true old m :
  is_new_message old m = true ↔
  (∀ s, seq_of m = Some s → s ∉ omap seq_of old) ∧
  (nonempty (clientMsgId m) = true → clientMsgId m ∉ clientMsgId <$> old).
Proof.
  unfold is_new_message.
  assert (Hid : set_has (clientMsgId m) (set_of (filter (λ i, nonempty i = true) (clientMsgId <$> old))) = true
            ↔ nonempty (clientMsgId m) = true ∧ clientMsgId m ∈ clientMsgId <$> old)
    by (rewrite set_has_true, elem_of_set_of, list_elem_of_filter; done).
  destruct (set_has (clientMsgId m) _), (seq_of m) as [q|]; try naive_solver.
  all: assert (Hq : set_has q (set_of (omap seq_of old)) = true ↔ q ∈ omap seq_of old)
    by (by rewrite set_has_true, elem_of_set_of).
  all: destruct (set_has q _); naive_solver.
Qed.

Definition new_messages (c : Conversation) (msgs : list ChatMessage) : list ChatMessage :=
  filter (λ m, is_new_message (messages c) m = true) msgs.

(** [prependMessages] leaves the conversation sorted by sequence number,
    holding what it held plus exactly the page's messages that were not there
    yet; equal keys keep their order and [hasMore] is the server's. *)
Theorem prepend_sorted c msgs more :
  StronglySorted (key_le sort_key) (messages (prepend_to c msgs more)) ∧
  messages (prepend_to c msgs more) ≡ₚ new_messages c msgs ++ messages c ∧
  (∀ k, filter (λ m, sort_key m = k) (messages (prepend_to c msgs more)) =
        filter (λ m, sort_key m = k) (new_messages c msgs ++ messages c)) ∧
  hasMore (prepend_to c msgs more) = more.
Proof.
  unfold prepend_to. simpl. split; [apply sort_by_sorted|]. split; [apply sort_by_perm|].
  split; [intros k; apply sort_by_stable|done].
Qed.

Lemma no_dups_filter P `{∀ m, Decision (P m)} l : no_dups l → no_dups (filter P l).
Proof.
  induction l as [|m l IH]; [done|]. rewrite no_dups_cons, filter_cons. intros (Hl & Hi & Hs).
  assert (Hsub : filter P l ⊆ l) by (intros x; rewrite list_elem_of_filter; tauto).
  case_decide; [|auto]. apply no_dups_cons. split; [auto|]. split.
  - intros (x & Hx & Hin)%list_elem_of_fmap. apply Hi, list_elem_of_fmap. eauto.
  - intros q Hq (x & Hin & Hx)%list_elem_of_omap. apply (Hs q Hq), list_elem_of_omap. eauto.
Qed.

Lemma no_dups_app l l' :
  no_dups l → no_dups l' →
  (∀ m, m ∈ l → (clientMsgId m ∉ clientMsgId <$> l') ∧ (∀ s, seq_of m = Some s → s ∉ omap seq_of l')) →
  no_dups (l ++ l').
Proof.
  induction l as [|m l IH]; simpl; [done|]. rewrite !no_dups_cons.
  intros (Hl & Hi & Hs) Hl' Hd. destruct (Hd m) as [Hdi Hds]; [left|].
  split; [apply IH; [done|done|]; intros x Hx; apply Hd; by right|].
  rewrite fmap_app, omap_app. split; [rewrite elem_of_app; tauto|].
  intros q Hq. rewrite elem_of_app. intros [?|?]; [by eapply Hs|by eapply Hds].
Qed.

(** C4: merging a page into a conversation adds no duplicate of what is held: if
    the page by itself and the conversation by itself have unique client ids and
    sequence numbers, and no client id of the page is empty, the merged
    conversation has unique ones. *)
Theorem prepend_no_dups c msgs more :
  no_dups msgs → no_dups (messages c) →
  Forall (λ m, nonempty (clientMsgId m) = true) msgs →
  no_dups (messages (prepend_to c msgs more)).
Proof.
  intros Hm Hc Hne. cbn [messages prepend_to]. rewrite sort_by_perm.
  apply no_dups_app; [by apply no_dups_filter|done|].
  intros m [Hn Hin]%list_elem_of_filter. apply is_new_message_true in Hn as [Hs Hi].
  rewrite Forall_forall in Hne. split; [apply Hi, Hne, Hin|done].
Qed.

Lemma prepend_no_dups_witness :
  no_dups [m3; m5] ∧ no_dups (messages (prepend_to conv0 [m3; m5] true)).
Proof.
  assert (H : no_dups [m3; m5]) by (split; apply (bool_decide_unpack _); vm_compute; exact I).
  split; [exact H|].
  apply (prepend_no_dups conv0 [m3; m5] true H); [|repeat constructor].
  split; apply (bool_decide_unpack _); vm_compute; exact I.
Defined.

(** Only what is held is compared: a page that repeats a message keeps both. *)
Example prepend_repeated_page : messages (prepend_to (new_conversation "p2p_1_2") [m3; m3] true) = [m3; m3].
Proof. reflexivity. Qed.

(** A confirmed message: it has a positive sequence number. *)
Definition confirmed (m : ChatMessage) : Prop := ∃ s, seq_of m = Some s ∧ (0 < s)%Z.

Lemma confirmed_keys l : Forall confirmed l → omap seq_of l = sort_key <$> l.
Proof.
  induction 1 as [|m l (s & Hs & _) Hl IH]; csimpl; [done|].
  unfold sort_key at 1. by rewrite Hs, IH.
Qed.

Lemma sorted_keys_lt l :
  StronglySorted Z.lt (sort_key <$> l) → StronglySorted (key_le sort_key) l.
Proof.
  induction l as [|m l IH]; csimpl; intros H; [constructor|].
  inversion H as [|? ? Hs Hf]; subst. constructor; [auto|].
  rewrite Forall_fmap in Hf. eapply Forall_impl; [exact Hf|]. unfold key_le. simpl. intros; lia.
Qed.

(** C5: paging backwards reconstructs the history: when everything in the page
    and everything held is confirmed, the sequence numbers of the page followed
    by those held ascend strictly, and no client id of the page is held, the page
    ends up, unchanged and in order, in front of what was held. *)
Theorem prepend_older_page c page more :
  Forall confirmed (page ++ messages c) →
  StronglySorted Z.lt (omap seq_of (page ++ messages c)) →
  (∀ m, m ∈ page → clientMsgId m ∉ clientMsgId <$> messages c) →
  messages (prepend_to c page more) = page ++ messages c.
Proof.
  intros Hconf Hsort Hids.
  assert (new_messages c page = page) as Hnew.
  { unfold new_messages. apply filter_accept_all. intros m Hm. apply is_new_message_true.
    split; [|intros _; by apply Hids]. intros s Hs Hin.
    rewrite omap_app in Hsort. apply list_elem_of_split in Hm as (l1 & l2 & ->).
    rewrite omap_app in Hsort. simpl in Hsort. rewrite Hs, <-app_assoc in Hsort. simpl in Hsort.
    induction (omap seq_of l1); simpl in Hsort; inversion Hsort as [|? ? Ht Hf]; subst; [|auto].
    apply Forall_app in Hf as [_ Hf]. rewrite Forall_forall in Hf. specialize (Hf _ Hin). lia. }
  unfold prepend_to; simpl. fold (new_messages c page). rewrite Hnew.
  apply sort_by_id, sorted_keys_lt. by rewrite <-confirmed_keys.
Qed.

Lemma prepend_older_page_witness :
  messages (prepend_to (with_messages [m9] conv0) [m3; m5] true) = [m3; m5; m9].
Proof.
  apply (prepend_older_page (with_messages [m9] conv0) [m3; m5] true).
  - repeat constructor; eexists; (split; [reflexivity|]); reflexivity.
  - repeat constructor.
  - intros m Hm. apply (bool_decide_unpack _).
    apply elem_of_cons in Hm as [->|Hm]; [vm_compute; exact I|].
    apply elem_of_cons in Hm as [->|Hm]; [vm_compute; exact I|].
    apply elem_of_nil in Hm. destruct Hm.
Defined.

(** An unconfirmed message has sort key 0, so loading older history moves
    a message that is still being sent from the end to the front. *)
Theorem prepend_moves_pending :
  messages (prepend_to (with_messages [m9; pending] conv0) [m3] true) = [pending; m3; m9].
Proof. reflexivity. Qed.

(** ** Refreshing the conversation list *)

Lemma foldl_merge_get (old l m : list (string * Conversation)) t :
  Forall (λ kv, conv_topic kv.2 = kv.1) l →
  map_get t (foldl (λ m '(k, v), if map_has k m then m else map_set k v m) m l) =
  match map_get t m with Some c => Some c | None => map_get t l end.
Proof.
  intros Hl. revert m. induction Hl as [|[k v] l Hk Hl IH]; simpl; intros m; [by destruct (map_get t m)|].
  rewrite IH. unfold map_has. destruct (map_get k m) eqn:Hg.
  - case_decide; [subst; by rewrite Hg|done].
  - rewrite map_get_set. repeat case_decide; subst; try done. by rewrite Hg.
Qed.

Lemma foldl_set_get old (l : list Conversation) m t :
  map_get t (foldl (λ m c, map_set (conv_topic c) (merge_conversation old c) m) m l) =
  match last (filter (λ c, conv_topic c = t) l) with
  | Some c => Some (merge_conversation old c)
  | None => map_get t m
  end.
Proof.
  revert m. induction l as [|c l IH]; intros m; [done|]. simpl foldl. rewrite IH, filter_cons.
  destruct (decide (conv_topic c = t)) as [<-|Hne].
  - rewrite map_get_set_eq. destruct (filter _ l) eqn:E; [done|].
    rewrite last_cons_cons. by destruct (last _) eqn:El; [|by apply last_None in El].
  - rewrite map_get_set_ne by done. done.
Qed.

Lemma setConversations_lookup l s t :
  wf s →
  map_get t (conversations (setConversations l s)) =
  match last (filter (λ c, conv_topic c = t) l) with
  | Some c => Some (merge_conversation (conversations s) c)
  | None => map_get t (conversations s)
  end.
Proof.
  intros ([_ Hf] & _). unfold setConversations. simpl.
  rewrite (foldl_merge_get [] _ _ _ Hf), foldl_set_get. by destruct (last _).
Qed.

Lemma setConversations_messages l s t c :
  wf s → map_get t (conversations s) = Some c →
  ∃ c', map_get t (conversations (setConversations l s)) = Some c' ∧ messages c' = messages c.
Proof.
  intros Hw Hg. rewrite setConversations_lookup by done. destruct (last _) as [c'|] eqn:Hl; [|by eauto].
  eexists; split; [done|]. unfold merge_conversation; simpl.
  apply last_Some_elem_of, list_elem_of_filter in Hl as [-> _]. by rewrite Hg.
Qed.

(** After a refresh a topic shows the (last) server entry for it merged
    with what was known locally, and a topic the server does not list shows
    what it showed before. *)
Theorem setConversations_get l s t :
  wf s →
  map_get t (conversations (setConversations l s)) =
  match last (filter (λ c, conv_topic c = t) l) with
  | Some c => Some (merge_conversation (conversations s) c)
  | None => map_get t (conversations s)
  end.
Proof. apply setConversations_lookup. Qed.

Definition state0 : State := set_conversations [("p2p_1_2"%string, conv0)] initialState.

Lemma state0_wf : wf state0.
Proof.
  split; [exact (keyed_set conv_topic _ conv0 [] (keyed_nil _) eq_refl)|]. repeat split; constructor.
Qed.

Lemma setConversations_get_witness :
  map_get "p2p_1_2" (conversations (setConversations [new_conversation "grp_9"] state0)) = Some conv0.
Proof. rewrite (setConversations_get _ state0 _ state0_wf). reflexivity. Defined.

(** ** Read state *)

(** Marking a topic read clears its unread counter and its mention badge,
    never lowers the read position, keeps the messages' identities and order,
    and leaves every other topic alone. *)
Theorem markTopicRead_spec topic u s c :
  map_get topic (conversations s) = Some c →
  (∃ c', map_get topic (conversations (markTopicRead topic u s)) = Some c' ∧
     unreadCount c' = 0%Z ∧
     Number (lastReadSeq c') = Z.max (Number (lastReadSeq c)) (Number u) ∧
     clientMsgId <$> messages c' = clientMsgId <$> messages c ∧
     topicSeq <$> messages c' = topicSeq <$> messages c ∧
     Forall (λ m, status m = read ∨ m ∈ messages c) (messages c')) ∧
  (topic ∉ mentionedTopics (markTopicRead topic u s)) ∧
  (∀ t, topic ≠ t →
     map_get t (conversations (markTopicRead topic u s)) = map_get t (conversations s) ∧
     (t ∈ mentionedTopics (markTopicRead topic u s) ↔ t ∈ mentionedTopics s)).
Proof.
  intros Hg. unfold markTopicRead. rewrite Hg. split; [|split].
  - eexists. simpl. rewrite map_get_set_eq. split; [done|]. simpl.
    split; [done|]. split; [done|]. split; [|split].
    + rewrite <-list_fmap_compose. apply list_fmap_ext. intros i m _. unfold compose, mark_read_one. by case_match.
    + rewrite <-list_fmap_compose. apply list_fmap_ext. intros i m _. unfold compose, mark_read_one. by case_match.
    + apply Forall_fmap, Forall_forall. intros m Hm. unfold compose, mark_read_one.
      case_match; [by left|by right].
  - simpl. rewrite elem_of_set_delete. tauto.
  - intros t Ht. simpl. rewrite map_get_set_ne, elem_of_set_delete by done. naive_solver.
Qed.

Lemma markTopicRead_spec_witness :
  ∃ c', map_get "p2p_1_2" (conversations (markTopicRead "p2p_1_2" (Num 5) state0)) = Some c' ∧
        Number (lastReadSeq c') = 5%Z ∧ unreadCount c' = 0%Z.
Proof.
  destruct (proj1 (markTopicRead_spec "p2p_1_2" (Num 5) state0 conv0 eq_refl)) as (c' & H & Hu & Hl & _).
  exists c'. split; [exact H|]. split; [exact Hl|exact Hu].
Defined.

(** Marking read overwrites the status of a recalled message of another
    sender than the peer (its content and recall flag stay). *)
Theorem mark_read_hides_recalled peer u m s :
  topicSeq m = Some s → strict_eq (senderId m) peer = false → js_le s u = true →
  status (mark_read_one peer u (recall_one m)) = read ∧
  recalled (mark_read_one peer u (recall_one m)) = Some true.
Proof.
  intros Hs Hp Hle. unfold mark_read_one, recall_one. simpl. rewrite Hs, Hp, Hle. done.
Qed.

Lemma mark_read_hides_recalled_witness :
  status (mark_read_one (Num 2) (Num 9) (recall_one m3)) = read.
Proof. exact (proj1 (mark_read_hides_recalled (Num 2) (Num 9) m3 (Num 3) eq_refl eq_refl eq_refl)). Defined.

(** [topicSeq <= upToSeq] is numeric as soon as one side is a number, but
    two proto-JSON strings compare as text: sequence "9" is not marked read up
    to "12". *)
Theorem mark_read_string_seqs peer m a :
  topicSeq m = Some (Dec a) → strict_eq (senderId m) peer = false → safe_integer a →
  (∀ b, (a ≤ b)%Z → status (mark_read_one peer (Num b) m) = read) ∧
  (a = 9%Z → mark_read_one peer (Dec 12) m = m).
Proof.
  intros Hs Hp Ha. unfold mark_read_one. rewrite Hs, Hp. simpl.
  rewrite (to_double_safe a Ha). split.
  - intros b Hb. by rewrite (proj2 (Z.leb_le a b) Hb).
  - by intros ->.
Qed.

Lemma mark_read_string_seqs_witness :
  mark_read_one (Num 2) (Dec 12) (sample "c9" (Some (Dec 9))) = sample "c9" (Some (Dec 9)).
Proof.
  assert (Hs : safe_integer 9) by (split; reflexivity).
  exact (proj2 (mark_read_string_seqs (Num 2) (sample "c9" (Some (Dec 9))) 9 eq_refl eq_refl Hs) eq_refl).
Defined.

(** ** Recall and status updates *)

(** The message a recall turns [m] into. *)
Definition recalled_or_same (seq : Z) (mid : option Z) (m : ChatMessage) : ChatMessage :=
  if recall_matches seq mid m then recall_one m else m.

Lemma recall_matches_recall_one seq mid m :
  recall_matches seq mid (recall_one m) = recall_matches seq mid m.
Proof. done. Qed.

(** A recall replaces exactly the messages it matches by the recall
    placeholder, in place (ids, senders, sequence numbers and order stay), and
    a second recall notice for the same message changes nothing more. *)
Theorem recallMessage_spec topic seq mid s c :
  map_get topic (conversations s) = Some c →
  (∃ c', map_get topic (conversations (recallMessage topic seq mid s)) = Some c' ∧
     messages c' = recalled_or_same seq mid <$> messages c ∧
     lastMsgPreview c' = Some recalled_text) ∧
  recallMessage topic seq mid (recallMessage topic seq mid s) = recallMessage topic seq mid s ∧
  (∀ t, topic ≠ t →
     map_get t (conversations (recallMessage topic seq mid s)) = map_get t (conversations s)).
Proof.
  intros Hg. unfold recallMessage. rewrite Hg. split; [|split].
  - eexists. simpl. rewrite map_get_set_eq. done.
  - simpl. rewrite map_get_set_eq. simpl. unfold set_conversations; simpl. f_equal.
    rewrite map_set_same; [done|]. rewrite map_get_set_eq. do 2 f_equal.
    rewrite <-list_fmap_compose. apply list_fmap_ext. intros i m _. unfold compose.
    destruct (recall_matches seq mid m) eqn:E; [by rewrite recall_matches_recall_one, E|by rewrite E].
  - intros t Ht. simpl. by rewrite map_get_set_ne.
Qed.

Lemma recallMessage_spec_witness :
  ∃ c', map_get "p2p_1_2" (conversations (recallMessage "p2p_1_2" 3 (Some 7%Z) state0)) = Some c' ∧
        messages c' = recalled_or_same 3 (Some 7%Z) <$> [m3; m9].
Proof.
  destruct (proj1 (recallMessage_spec "p2p_1_2" 3 (Some 7%Z) state0 conv0 eq_refl)) as (c' & H & Hm & _).
  exists c'. split; [exact H|exact Hm].
Defined.

(** [msgId]s are 64-bit identifiers but are compared after [Number(...)]:
    whenever two identifiers round to the same double, the recall of one
    message also recalls the other, as [2^60+1] and [2^60+2] do. *)
Theorem recall_msgId_collision seq i j m s :
  to_double i = to_double j → to_double i ≠ 0%Z →
  topicSeq m = Some s → msgId m = Some (Dec j) →
  recall_matches seq (Some (to_double i)) m = true.
Proof.
  intros Hij Hnz Hs Hm. unfold recall_matches. rewrite Hs, Hm. simpl.
  rewrite <-Hij, Z.eqb_refl, (proj2 (Z.eqb_neq _ _) Hnz). apply orb_true_r.
Qed.

Definition m_wide : ChatMessage :=
  mkMsg "w" (Some (Dec (2 ^ 60 + 2))) "p2p_1_2" (Num 1) "hi" (Some 1%Z) (TsWire (Num 1)) (Some (Num 4)) sent None.

Lemma recall_msgId_collision_witness :
  recall_matches 3 (Some (to_double (2 ^ 60 + 1))) m_wide = true.
Proof.
  apply (recall_msgId_collision 3 (2 ^ 60 + 1) (2 ^ 60 + 2) m_wide (Num 4));
    [reflexivity|vm_compute; discriminate|reflexivity|reflexivity].
Defined.

(** [updateMessageStatus] patches the first message with the given client
    id and nothing else: the other messages, the conversation's metadata and
    all other topics stay; without such a message the conversations stay. *)
Theorem updateMessageStatus_spec topic cid patch s c :
  map_get topic (conversations s) = Some c →
  (∀ l1 m l2, messages c = l1 ++ m :: l2 → clientMsgId m = cid → cid ∉ (clientMsgId <$> l1) →
     map_get topic (conversations (updateMessageStatus topic cid patch s)) =
     Some (with_messages (l1 ++ apply_msg_patch patch m :: l2) c)) ∧
  (cid ∉ (clientMsgId <$> messages c) → updateMessageStatus topic cid patch s = s) ∧
  (∀ t, topic ≠ t →
     map_get t (conversations (updateMessageStatus topic cid patch s)) = map_get t (conversations s)).
Proof.
  intros Hg. unfold updateMessageStatus. rewrite Hg. split; [|split].
  - intros l1 m l2 Hm Hcid Hl1.
    assert (findIndex (λ m, String.eqb (clientMsgId m) cid) (messages c) = Some (length l1)) as ->.
    { rewrite Hm. clear Hm. induction l1 as [|x l1 IH]; simpl; [by rewrite (proj2 (String.eqb_eq _ _) Hcid)|].
      rewrite fmap_cons, not_elem_of_cons in Hl1. destruct Hl1 as [Hx Hl1].
      rewrite (proj2 (String.eqb_neq _ _)) by congruence. by rewrite IH. }
    simpl. rewrite map_get_set_eq, Hm. do 2 f_equal.
    replace (length l1) with (length l1 + 0)%nat by lia. by rewrite alter_app_r.
  - intros Hc. assert (findIndex (λ m, String.eqb (clientMsgId m) cid) (messages c) = None) as ->.
    { apply findIndex_None, Forall_forall. intros m Hm. apply String.eqb_neq. intros Heq.
      apply Hc, list_elem_of_fmap. eauto. }
    by destruct s.
  - intros t Ht. destruct (findIndex _ _); simpl; [by rewrite map_get_set_ne|done].
Qed.

Lemma updateMessageStatus_spec_witness :
  map_get "p2p_1_2" (conversations (updateMessageStatus "p2p_1_2" "c9" (status_patch read) state0)) =
  Some (with_messages [m3; with_status read m9] conv0).
Proof.
  apply (proj1 (updateMessageStatus_spec "p2p_1_2" "c9" (status_patch read) state0 conv0 eq_refl) [m3] m9 []);
    [reflexivity|reflexivity|]. apply (bool_decide_unpack _). vm_compute. exact I.
Defined.
