(* ===== verification/ProtoRuntime.v ===== *)
(** * The protobufjs runtime as an interface, and the shape of generated codecs

    [web/app/lib/proto/im.js] is written against [protobufjs/minimal.js],
    which is not part of the repository.  [Runtime] lists the operations of
    its [Writer], [Reader] and [util] the generated code calls; [RuntimeLaws],
    in [ProtoLaws], states the documented behaviour the codecs rely on: writers append, [fork]
    and [ldelim] bracket a length-prefixed region, every reading operation
    reads back what the writing operation of the same type wrote and moves
    forward.  Nothing is said about whole messages. *)

From S2P Require Import Prelude JsNum.
From Stdlib Require Import Strings.Byte.
From Stdlib Require Floats.SpecFloat.
Open Scope Z_scope.

Abbreviation bytes := (list byte).

(** [number | Long], the type of 64-bit fields. *)
Inductive long := LNum (z : Z) | LLong (low high : Z) (unsigned : bool).

#[export] Instance long_eq_dec : EqDecision long.
Proof. solve_decision. Defined.

Definition to_int32 (z : Z) : Z := (z + 2 ^ 31) mod 2 ^ 32 - 2 ^ 31.
Definition to_int64 (z : Z) : Z := (z + 2 ^ 63) mod 2 ^ 64 - 2 ^ 63.

(** A [number] that is not known to be an integer: zero, infinity, NaN or
    [± m * 2 ^ e]. *)
Abbreviation double := SpecFloat.spec_float.

(** The integer a [number | Long] denotes. *)
Definition long_val (l : long) : Z :=
  match l with
  | LNum z => z
  | LLong lo hi u =>
      let w := hi mod 2 ^ 32 * 2 ^ 32 + lo mod 2 ^ 32 in
      if u then w else to_int64 w
  end.

(** [typeof value === "object" ? value.low || value.high : value !== 0]. *)
Definition long_nonzero (l : long) : bool :=
  match l with
  | LNum z => negb (z =? 0)
  | LLong lo hi _ => negb (lo =? 0) || negb (hi =? 0)
  end.

Class Runtime := {
  (** [$util.Long] is available. *)
  has_Long : bool;
  util_recursionLimit : Z;
  Reader_recursionLimit : Z;
  (** The field names [util.oneOfSetter(fields)] deletes when [name] is set. *)
  oneOfSetter : list string → string → list string;

  Writer : Type;
  W_create : Writer;
  W_len : Writer → Z;
  W_uint32 : Z → Writer → Writer;
  W_int32 : Z → Writer → Writer;
  W_int64 : long → Writer → Writer;
  W_uint64 : long → Writer → Writer;
  W_bool : bool → Writer → Writer;
  W_string : string → Writer → Writer;
  W_bytes : bytes → Writer → Writer;
  W_double : double → Writer → Writer;
  W_raw : bytes → Writer → Writer;
  W_fork : Writer → Writer;
  W_ldelim : Writer → Writer;
  W_finish : Writer → bytes;

  Reader : Type;
  R_create : bytes → Reader;
  R_buf : Reader → bytes;
  R_pos : Reader → Z;
  R_len : Reader → Z;
  R_discardUnknown : Reader → bool;
  R_tag : Reader → res (Z * Reader);
  R_uint32 : Reader → res (Z * Reader);
  R_int32 : Reader → res (Z * Reader);
  R_int64 : Reader → res (long * Reader);
  R_uint64 : Reader → res (long * Reader);
  R_bool : Reader → res (bool * Reader);
  R_stringVerify : Reader → res (string * Reader);
  (** [string()] does not reject bytes that are not UTF-8. *)
  R_string : Reader → res (string * Reader);
  R_double : Reader → res (double * Reader);
  R_bytes : Reader → res (bytes * Reader);
  R_skipType : Z → Z → Z → Reader → res Reader;
  R_raw : Z → Z → Reader → bytes;
}.

Section Codec.
Context {RT : Runtime}.

(** What a reader returns for the 64-bit integer [v]. *)
Definition mk_long (unsigned : bool) (v : Z) : long :=
  if has_Long then LLong (to_int32 v) (to_int32 (v / 2 ^ 32)) unsigned
  else LNum (to_double v).

(** ** Pieces of generated [encode] functions *)

(** [if (message.f != null && hasOwnProperty.call(message, "f")) ...]: [None] is
    an absent field. *)
Definition own {V} (o : option V) (f : V → Writer → Writer) (w : Writer) : Writer :=
  match o with Some v => f v w | None => w end.

Definition own_msg {V} (o : option V) (f : V → Writer → res Writer) (w : Writer) : res Writer :=
  match o with Some v => f v w | None => Ok w end.

(** [X.encode(v, writer.uint32(tag).fork(), _depth + 1).ldelim()]. *)
Definition nested {V} (tag : Z) (enc : V → option Writer → option Z → res Writer) (depth : Z)
    (v : V) (w : Writer) : res Writer :=
  let! w' := enc v (Some (W_fork (W_uint32 tag w))) (Some (depth + 1)) in
  Ok (W_ldelim w').

(** The loop that encodes every element of a repeated message field. *)
Fixpoint nested_all {V} (tag : Z) (enc : V → option Writer → option Z → res Writer) (depth : Z)
    (vs : list V) (w : Writer) : res Writer :=
  match vs with
  | [] => Ok w
  | v :: vs' => let! w' := nested tag enc depth v w in nested_all tag enc depth vs' w'
  end.

(** [writer.uint32(tag).fork(); for (...) writer.int64(x[i]); writer.ldelim()]
    when the array is not empty; [put] writes one element. *)
Definition packed {V} (put : V → Writer → Writer) (tag : Z) (vs : list V) (w : Writer) : Writer :=
  match vs with
  | [] => w
  | _ => W_ldelim (foldl (λ w v, put v w) (W_fork (W_uint32 tag w)) vs)
  end.

Definition packed_int64 : Z → list long → Writer → Writer := packed W_int64.
Definition packed_int32 : Z → list Z → Writer → Writer := packed W_int32.

(** [for (...) writer.uint32(tag).string(x[i])], a repeated field that is not
    packed. *)
Definition each {V} (tag : Z) (put : V → Writer → Writer) (vs : list V) (w : Writer) : Writer :=
  foldl (λ w v, put v (W_uint32 tag w)) w vs.

(** [for (...) writer.raw(message.$unknowns[i])]. *)
Definition put_unknowns (u : option (list bytes)) (w : Writer) : Writer :=
  match u with Some l => foldl (λ w b, W_raw b w) w l | None => w end.

Definition depth_check {A} (limit : Z) (depth : Z) (k : res A) : res A :=
  if limit <? depth then Throw "max depth exceeded" else k.

(** [encodeDelimited]. *)
Definition delimited {V} (enc : V → option Writer → option Z → res Writer)
    (v : V) (writer : option Writer) : res Writer :=
  let w := match writer with
           | Some w => if negb (W_len w =? 0) then Some (W_fork w) else Some w
           | None => None
           end in
  let! w' := enc v w None in Ok (W_ldelim w').

(** ** Pieces of generated [decode] functions *)

(** One [case] of the [switch]: [None] is [break] on a wrong wire type. *)
Definition when_wire {M} (wire expected : Z) (c : res (M * Reader)) : option (res (M * Reader)) :=
  if wire =? expected then Some c else None.

(** Read a scalar, then set the field, or delete it when the value is the
    default. *)
Definition dec_opt {M V} (read : Reader → res (V * Reader)) (present : V → bool)
    (set : option V → M → M) (m : M) (r : Reader) : res (M * Reader) :=
  let! '(v, r') := read r in
  Ok (set (if present v then Some v else None) m, r').

(** [message.f = reader.x()]: the field is set whatever its value. *)
Definition dec_set {M V} (read : Reader → res (V * Reader)) (set : option V → M → M) (m : M) (r : Reader)
    : res (M * Reader) :=
  let! '(v, r') := read r in Ok (set (Some v) m, r').

Definition int32_present (z : Z) : bool := negb (z =? 0).
Definition bool_present (b : bool) : bool := b.
Definition string_present (s : string) : bool := negb (String.eqb s "").
Definition bytes_present (b : bytes) : bool := match b with [] => false | _ => true end.

(** The type of [X.decode(reader, length, _end, _depth, _target)]. *)
Definition decoder (M : Type) : Type :=
  Reader → option Z → option Z → option Z → option M → res (M * Reader).

(** [message.f = X.decode(reader, reader.uint32(), undefined, _depth + 1,
    message.f)]. *)
Definition dec_msg {M V} (dec : decoder V) (depth : Z) (get : M → option V)
    (set : V → M → M) (m : M) (r : Reader) : res (M * Reader) :=
  let! '(len, r1) := R_uint32 r in
  let! '(v, r2) := dec r1 (Some len) None (Some (depth + 1)) (get m) in
  Ok (set v m, r2).

(** [message.arr.push(X.decode(reader, reader.uint32(), undefined, _depth + 1))]. *)
Definition dec_push {M V} (dec : decoder V) (depth : Z) (get : M → list V)
    (set : list V → M → M) (m : M) (r : Reader) : res (M * Reader) :=
  let! '(len, r1) := R_uint32 r in
  let! '(v, r2) := dec r1 (Some len) None (Some (depth + 1)) None in
  Ok (set (get m ++ [v]) m, r2).

(** [message.arr.push(reader.stringVerify())]. *)
Definition dec_each {M V} (read : Reader → res (V * Reader)) (get : M → list V)
    (set : list V → M → M) (m : M) (r : Reader) : res (M * Reader) :=
  let! '(v, r') := read r in Ok (set (get m ++ [v]) m, r').

(** [while (reader.pos < end2) arr.push(reader.int64())]. *)
Fixpoint packed_loop {V} (read : Reader → res (V * Reader)) (fuel : nat) (end2 : Z) (acc : list V) (r : Reader)
    : res (list V * Reader) :=
  if R_pos r <? end2 then
    match fuel with
    | O => NoFuel
    | S fuel' => let! '(v, r') := read r in packed_loop read fuel' end2 (acc ++ [v]) r'
    end
  else Ok (acc, r).

(** The [case] of a repeated number: packed or one element. *)
Definition dec_numbers {M V} (read : Reader → res (V * Reader)) (wire : Z) (get : M → list V) (set : list V → M → M)
    (m : M) (r : Reader) : option (res (M * Reader)) :=
  if wire =? 2 then
    Some (let! '(len, r1) := R_uint32 r in
          let end2 := len + R_pos r1 in
          let! '(vs, r2) := packed_loop read (Z.to_nat (end2 - R_pos r1)) end2 (get m) r1 in
          Ok (set vs m, r2))
  else when_wire wire 0
    (let! '(v, r1) := read r in Ok (set (get m ++ [v]) m, r1)).

Definition dec_packed {M} : Z → (M → list long) → (list long → M → M) → M → Reader → option (res (M * Reader)) :=
  dec_numbers R_int64.

Section Loop.
Context {M : Type}.
(** The [switch]: [field wireType m r] is [None] when it falls out of the
    switch. *)
Context (switch : Z → Z → M → Reader → option (res (M * Reader))).
Context (push_unknown : bytes → M → M).
Context (depth : Z).

(** [while (reader.pos < end) { ... }], the missing-end-group check included.
    [_end] is the end-group tag looked for, if any. *)
Fixpoint decode_loop (fuel : nat) (end_ : Z) (_end : option Z) (m : M) (r : Reader) : res (M * Reader) :=
  if R_pos r <? end_ then
    match fuel with
    | O => NoFuel
    | S fuel' =>
        let start := R_pos r in
        let! '(tag, r1) := R_tag r in
        if bool_decide (Some tag = _end) then Ok (m, r1)
        else
          let wireType := Z.land tag 7 in
          let field := Z.shiftr tag 3 in
          match switch field wireType m r1 with
          | Some c => let! '(m', r') := c in decode_loop fuel' end_ _end m' r'
          | None =>
              let! r2 := R_skipType wireType depth field r1 in
              let m' := if R_discardUnknown r2 then m else push_unknown (R_raw start (R_pos r2) r2) m in
              decode_loop fuel' end_ _end m' r2
          end
    end
  else match _end with Some _ => Throw "missing end group" | None => Ok (m, r) end.

(** The whole generated function: every iteration reads a tag, so the bytes
    between [pos] and [end] bound the iterations. *)
Definition decode_with (new : M) (reader : Reader) (length : option Z) (_end : option Z)
    (_target : option M) : res (M * Reader) :=
  depth_check Reader_recursionLimit depth
    (let end_ := match length with None => R_len reader | Some l => R_pos reader + l end in
     decode_loop (Z.to_nat (end_ - R_pos reader)) end_ _end (default new _target) reader).
(** The loop of a class without fields: there is no [switch], and [skipType] is
    given the tag itself. *)
Fixpoint skip_loop (fuel : nat) (end_ : Z) (_end : option Z) (m : M) (r : Reader) : res (M * Reader) :=
  if R_pos r <? end_ then
    match fuel with
    | O => NoFuel
    | S fuel' =>
        let start := R_pos r in
        let! '(tag, r1) := R_tag r in
        if bool_decide (Some tag = _end) then Ok (m, r1)
        else
          let! r2 := R_skipType (Z.land tag 7) depth tag r1 in
          let m' := if R_discardUnknown r2 then m else push_unknown (R_raw start (R_pos r2) r2) m in
          skip_loop fuel' end_ _end m' r2
    end
  else match _end with Some _ => Throw "missing end group" | None => Ok (m, r) end.

Definition decode_skipping (new : M) (reader : Reader) (length : option Z) (_end : option Z)
    (_target : option M) : res (M * Reader) :=
  depth_check Reader_recursionLimit depth
    (let end_ := match length with None => R_len reader | Some l => R_pos reader + l end in
     skip_loop (Z.to_nat (end_ - R_pos reader)) end_ _end (default new _target) reader).
End Loop.

(** A class that contains itself: [body dec] is its [decode] with [dec] for the
    inner messages.  An inner message is one level deeper, and past the
    recursion limit [decode] refuses before it reads anything, so the levels
    left bound the recursion. *)
Fixpoint decode_levels {M} (body : decoder M → decoder M) (levels : nat) : decoder M :=
  match levels with
  | O => λ reader length _end _depth _target, depth_check Reader_recursionLimit (default 0 _depth) NoFuel
  | S levels' => body (decode_levels body levels')
  end.

Definition decode_nested {M} (body : decoder M → decoder M) : decoder M := λ reader length _end _depth _target,
  decode_levels body (Z.to_nat (Reader_recursionLimit + 1 - default 0 _depth)) reader length _end _depth _target.

(** [decodeDelimited]. *)
Definition decode_delimited {M} (dec : decoder M) (reader : Reader) : res (M * Reader) :=
  let! '(len, r1) := R_uint32 reader in dec r1 (Some len) None None None.

(** [X.decode(bytes)]: a buffer is wrapped in a reader first. *)
Definition decode_bytes {M} (dec : decoder M) (b : bytes) : res M :=
  let! '(m, r) := dec (R_create b) None None None None in Ok m.

End Codec.
