(* ===== verification/ProtoLaws.v ===== *)
(** * Laws of the protobufjs runtime, and the generic codec theorems

    [RuntimeLaws] is the contract between the generated code and
    [protobufjs/minimal.js].  From it the lemmas here derive, once for every
    generated message, that a decoder run on the fields an encoder wrote
    replays them, and that the decoding loops terminate on any input. *)

From S2P Require Import Prelude JsNum ProtoRuntime.
From Stdlib Require Import Strings.Byte.
Open Scope Z_scope.

Definition blen (b : bytes) : Z := Z.of_nat (length b).

Definition int64_ok (l : long) : Prop := - 2 ^ 63 ≤ long_val l < 2 ^ 63.
Definition uint64_ok (l : long) : Prop := 0 ≤ long_val l < 2 ^ 64.
Definition int32_ok (z : Z) : Prop := - 2 ^ 31 ≤ z < 2 ^ 31.
Definition len_ok (b : bytes) : Prop := blen b < 2 ^ 32.

(** Field number at least 1, wire type varint, 64 bits or length-delimited. *)
Definition tag_ok (t : Z) : Prop := 8 ≤ t < 2 ^ 32 ∧ (Z.land t 7 = 0 ∨ Z.land t 7 = 1 ∨ Z.land t 7 = 2).

(** A canonical IEEE double. *)
Definition double_ok (x : double) : Prop := SpecFloat.valid_binary 53 1024 x = true.

Section Reading.
Context `{RT : Runtime}.

(** The bytes a reader has not read yet. *)
Definition R_rest (r : Reader) : bytes := drop (Z.to_nat (R_pos r)) (R_buf r).

Definition moved (r r' : Reader) (n : Z) : Prop := R_buf r' = R_buf r ∧ R_pos r' = R_pos r + n.

(** The operation reads back [a] from the encoding [bs]. *)
Definition reads {A} (op : Reader → res (A * Reader)) (bs : bytes) (a : A) : Prop :=
  ∀ r rest, R_rest r = bs ++ rest → ∃ r', op r = Ok (a, r') ∧ moved r r' (blen bs).

(** Whatever it reads, the operation stays in its buffer and moves forward by
    at least [n] bytes. *)
Definition advances {A} (op : Reader → res (A * Reader)) (n : Z) : Prop :=
  ∀ r, match op r with
       | Ok (_, r') => R_buf r' = R_buf r ∧ R_pos r + n ≤ R_pos r'
       | Throw _ => True
       | NoFuel => False
       end.
End Reading.

Class RuntimeLaws `{RT : Runtime} := {
  (** Strings that have a UTF-8 encoding (no lone surrogates). *)
  str_ok : string → Prop;
  uint32_bytes : Z → bytes;
  int32_bytes : Z → bytes;
  int64_bytes : long → bytes;
  uint64_bytes : long → bytes;
  bool_bytes : bool → bytes;
  string_bytes : string → bytes;
  bytes_bytes : bytes → bytes;
  double_bytes : double → bytes;

  recursionLimits : 2 ≤ util_recursionLimit ∧ 2 ≤ Reader_recursionLimit;
  oneOfSetter_spec fields name f :
    f ∈ oneOfSetter fields name ↔ f ∈ fields ∧ f ≠ name;

  (** A writer's pending buffers, the innermost fork first. *)
  W_view : Writer → list bytes;
  W_create_view : W_view W_create = [[]];
  W_uint32_view v w b st : W_view w = b :: st → W_view (W_uint32 v w) = (b ++ uint32_bytes v) :: st;
  W_int32_view v w b st : W_view w = b :: st → W_view (W_int32 v w) = (b ++ int32_bytes v) :: st;
  W_int64_view v w b st : W_view w = b :: st → W_view (W_int64 v w) = (b ++ int64_bytes v) :: st;
  W_uint64_view v w b st : W_view w = b :: st → W_view (W_uint64 v w) = (b ++ uint64_bytes v) :: st;
  W_bool_view v w b st : W_view w = b :: st → W_view (W_bool v w) = (b ++ bool_bytes v) :: st;
  W_string_view v w b st : W_view w = b :: st → W_view (W_string v w) = (b ++ string_bytes v) :: st;
  W_bytes_view v w b st : W_view w = b :: st → W_view (W_bytes v w) = (b ++ bytes_bytes v) :: st;
  W_double_view v w b st : W_view w = b :: st → W_view (W_double v w) = (b ++ double_bytes v) :: st;
  W_fork_view w b st : W_view w = b :: st → W_view (W_fork w) = [] :: b :: st;
  W_ldelim_view w b b' st :
    W_view w = b :: b' :: st → W_view (W_ldelim w) = (b' ++ uint32_bytes (blen b) ++ b) :: st;
  (** Without a fork, [ldelim] delimits everything written so far. *)
  W_ldelim_top w b : W_view w = [b] → W_view (W_ldelim w) = [uint32_bytes (blen b) ++ b];
  W_len_view w b st : W_view w = b :: st → W_len w = blen b;
  W_finish_view w b : W_view w = [b] → W_finish w = b;

  R_create_buf b : R_buf (R_create b) = b;
  R_create_pos b : R_pos (R_create b) = 0;
  R_pos_nonneg r : 0 ≤ R_pos r;
  R_len_buf r : R_len r = blen (R_buf r);

  uint32_bytes_cons v : uint32_bytes v ≠ [];
  R_tag_reads t : tag_ok t → reads R_tag (uint32_bytes t) t;
  R_uint32_reads v : 0 ≤ v < 2 ^ 32 → reads R_uint32 (uint32_bytes v) v;
  R_int32_reads v : int32_ok v → reads R_int32 (int32_bytes v) v;
  R_int64_reads l : int64_ok l → reads R_int64 (int64_bytes l) (mk_long false (long_val l));
  R_uint64_reads l : uint64_ok l → reads R_uint64 (uint64_bytes l) (mk_long true (long_val l));
  R_bool_reads b : reads R_bool (bool_bytes b) b;
  R_string_reads s : str_ok s → reads R_stringVerify (string_bytes s) s;
  R_text_reads s : str_ok s → reads R_string (string_bytes s) s;
  R_bytes_reads b : len_ok b → reads R_bytes (bytes_bytes b) b;
  R_double_reads x : double_ok x → reads R_double (double_bytes x) x;

  R_tag_advances : advances R_tag 1;
  R_uint32_advances : advances R_uint32 1;
  R_int32_advances : advances R_int32 1;
  R_int64_advances : advances R_int64 1;
  R_uint64_advances : advances R_uint64 1;
  R_bool_advances : advances R_bool 1;
  R_string_advances : advances R_stringVerify 1;
  R_text_advances : advances R_string 1;
  R_bytes_advances : advances R_bytes 1;
  R_double_advances : advances R_double 1;
  R_skipType_advances w d t r :
    match R_skipType w d t r with
    | Ok r' => R_buf r' = R_buf r ∧ R_pos r ≤ R_pos r'
    | Throw _ => True
    | NoFuel => False
    end;
}.

Section Generic.
Context `{RL : RuntimeLaws}.

Lemma R_rest_moved r r' bs rest :
  R_rest r = bs ++ rest → moved r r' (blen bs) → R_rest r' = rest.
Proof.
  unfold R_rest, moved, blen. intros Hr [-> ->]. pose proof (R_pos_nonneg r).
  rewrite Z2Nat.inj_add, Nat2Z.id, <-drop_drop, Hr by lia. apply drop_app_length.
Qed.

Lemma blen_app b b' : blen (b ++ b') = blen b + blen b'.
Proof. unfold blen. rewrite length_app. lia. Qed.

Lemma blen_nonneg b : 0 ≤ blen b.
Proof. unfold blen. lia. Qed.

Lemma moved_trans r r' r'' n n' : moved r r' n → moved r' r'' n' → moved r r'' (n + n').
Proof. intros [H1 H2] [H3 H4]. split; [congruence|lia]. Qed.

(** ** Encoded fields and their effect *)

(** A field as bytes, with what decoding it does to the message. *)
Definition piece (M : Type) : Type := bytes * (M → M).

Definition pieces_bytes {M} (ps : list (piece M)) : bytes := concat ps.*1.
Definition pieces_run {M} (ps : list (piece M)) (m : M) : M := foldl (λ m p, p.2 m) m ps.

Lemma pieces_bytes_app {M} (ps qs : list (piece M)) :
  pieces_bytes (ps ++ qs) = pieces_bytes ps ++ pieces_bytes qs.
Proof. unfold pieces_bytes. by rewrite fmap_app, concat_app. Qed.

Lemma pieces_run_app {M} (ps qs : list (piece M)) m :
  pieces_run (ps ++ qs) m = pieces_run qs (pieces_run ps m).
Proof. apply foldl_app. Qed.

Section Pieces.
Context {M : Type} (switch : Z → Z → M → Reader → option (res (M * Reader))).

(** At state [m] one iteration of the loop consumes the piece and applies its
    effect. *)
Definition piece_ok (m : M) (p : piece M) : Prop :=
  p.1 ≠ [] ∧
  ∀ r rest, R_rest r = p.1 ++ rest →
    ∃ tag r1 r', R_tag r = Ok (tag, r1) ∧
      switch (Z.shiftr tag 3) (Z.land tag 7) m r1 = Some (Ok (p.2 m, r')) ∧
      moved r r' (blen p.1).

Fixpoint pieces_ok (m : M) (ps : list (piece M)) : Prop :=
  match ps with
  | [] => True
  | p :: ps' => piece_ok m p ∧ pieces_ok (p.2 m) ps'
  end.

Lemma pieces_ok_app m ps qs :
  pieces_ok m (ps ++ qs) ↔ pieces_ok m ps ∧ pieces_ok (pieces_run ps m) qs.
Proof.
  revert m. induction ps as [|p ps IH]; simpl; intros m; [tauto|]. rewrite IH. tauto.
Qed.

Lemma pieces_ok_length m ps : pieces_ok m ps → (length ps ≤ length (pieces_bytes ps))%nat.
Proof.
  unfold pieces_bytes. revert m. induction ps as [|[b f] ps IH]; intros m; csimpl; [lia|].
  intros [[Hne _] Hps]. specialize (IH _ Hps). simpl in Hne.
  destruct b as [|x b]; [done|]. csimpl. rewrite length_app. lia.
Qed.

(** The loop replays the pieces in order and stops at their end. *)
Lemma decode_loop_pieces push depth ps m fuel r rest :
  pieces_ok m ps → R_rest r = pieces_bytes ps ++ rest → (length ps ≤ fuel)%nat →
  ∃ r', decode_loop switch push depth fuel (R_pos r + blen (pieces_bytes ps)) None m r
        = Ok (pieces_run ps m, r') ∧ moved r r' (blen (pieces_bytes ps)).
Proof.
  revert m fuel r. induction ps as [|[b f] ps IH]; intros m fuel r Hok Hr Hf.
  - exists r. unfold pieces_bytes, moved, blen. simpl. split; [|split; [done|lia]].
    destruct fuel; simpl; by rewrite (proj2 (Z.ltb_ge _ _)) by lia.
  - destruct Hok as [[Hne Hp] Hok]. simpl in Hf. destruct fuel as [|fuel]; [lia|].
    unfold pieces_bytes in *. csimpl in *. rewrite <-app_assoc in Hr.
    destruct (Hp r _ Hr) as (tag & r1 & r2 & Ht & Hs & Hm). simpl in Hm.
    pose proof (R_rest_moved _ _ _ _ Hr Hm) as Hr2.
    destruct (IH _ fuel _ Hok Hr2) as (r' & Hl & Hm'); [lia|].
    exists r'. rewrite blen_app. split; [|by eapply moved_trans].
    assert (0 < blen b) by (destruct b; [done|unfold blen; simpl; lia]).
    rewrite (proj2 (Z.ltb_lt _ _)) by (pose proof (blen_nonneg (concat ps.*1)); lia).
    rewrite Ht. simpl. rewrite Hs. simpl. destruct Hm as [_ Hm]. rewrite Hm in Hl.
    replace (R_pos r + (blen b + blen (concat ps.*1))) with (R_pos r + blen b + blen (concat ps.*1)) by lia.
    exact Hl.
Qed.

Lemma decode_with_pieces push depth ps new target length r rest :
  depth ≤ Reader_recursionLimit →
  pieces_ok (default new target) ps →
  R_rest r = pieces_bytes ps ++ rest →
  match length with Some n => n | None => R_len r - R_pos r end = blen (pieces_bytes ps) →
  ∃ r', decode_with switch push depth new r length None target
        = Ok (pieces_run ps (default new target), r') ∧ moved r r' (blen (pieces_bytes ps)).
Proof.
  intros Hd Hok Hr Hlen. unfold decode_with, depth_check.
  rewrite (proj2 (Z.ltb_ge _ _)) by lia.
  assert (match length with None => R_len r | Some l => R_pos r + l end
          = R_pos r + blen (pieces_bytes ps)) as -> by (destruct length; lia).
  apply (decode_loop_pieces _ _ _ _ _ _ rest); [done|done|].
  replace (R_pos r + blen (pieces_bytes ps) - R_pos r) with (blen (pieces_bytes ps)) by lia.
  unfold blen. rewrite Nat2Z.id. by eapply pieces_ok_length.
Qed.

End Pieces.

(** ** Optional scalar fields *)

Definition norm_opt {V} (canon : V → V) (present : V → bool) (o : option V) : option V :=
  match o with
  | Some v => if present (canon v) then Some (canon v) else None
  | None => None
  end.

Definition opt_piece {M V} (tag : Z) (enc : V → bytes) (canon : V → V) (present : V → bool)
    (set : option V → M → M) (o : option V) : list (piece M) :=
  match o with
  | Some v => [(uint32_bytes tag ++ enc v, set (norm_opt canon present (Some v)))]
  | None => []
  end.

Lemma opt_piece_run {M V} tag enc canon present (set : option V → M → M) o m :
  set None m = m → pieces_run (opt_piece tag enc canon present set o) m = set (norm_opt canon present o) m.
Proof. intros H. destruct o; [done|]. by unfold pieces_run. Qed.

Lemma tagged_reads {A} tag (op : Reader → res (A * Reader)) bs a r rest :
  tag_ok tag → reads op bs a → R_rest r = (uint32_bytes tag ++ bs) ++ rest →
  ∃ r1 r', R_tag r = Ok (tag, r1) ∧ op r1 = Ok (a, r') ∧ moved r r' (blen (uint32_bytes tag ++ bs)).
Proof.
  intros Ht Hop Hr. rewrite <-app_assoc in Hr.
  destruct (R_tag_reads tag Ht r _ Hr) as (r1 & H1 & Hm1).
  pose proof (R_rest_moved _ _ _ _ Hr Hm1) as Hr1.
  destruct (Hop r1 _ Hr1) as (r' & H2 & Hm2).
  exists r1, r'. split; [done|]. split; [done|]. rewrite blen_app. by eapply moved_trans.
Qed.

Lemma tagged_cons tag (bs : bytes) : uint32_bytes tag ++ bs ≠ [].
Proof. pose proof (uint32_bytes_cons tag). by destruct (uint32_bytes tag). Qed.

Lemma opt_piece_ok {M V} switch tag (read : Reader → res (V * Reader)) enc canon present
    (ok : V → Prop) (set : option V → M → M) o m :
  tag_ok tag →
  (∀ v, ok v → reads read (enc v) (canon v)) →
  (∀ m r, switch (Z.shiftr tag 3) (Z.land tag 7) m r = Some (dec_opt read present set m r)) →
  (∀ v, o = Some v → ok v) →
  pieces_ok switch m (opt_piece tag enc canon present set o).
Proof.
  intros Ht Hread Hsw Hok. destruct o as [v|]; simpl; [|done]. split; [|done].
  split; [apply tagged_cons|]. intros r rest Hr. simpl in Hr.
  destruct (tagged_reads tag read (enc v) (canon v) r rest Ht (Hread v (Hok v eq_refl)) Hr)
    as (r1 & r' & H1 & H2 & Hm).
  exists tag, r1, r'. split; [done|]. split; [|done]. rewrite Hsw. unfold dec_opt. by rewrite H2.
Qed.
End Generic.

Section Composite.
Context `{RL : RuntimeLaws}.

(** ** Packed repeated fields *)

Section PackedField.
Context {V : Type} (read : Reader → res (V * Reader)) (bs : V → bytes) (canon : V → V) (ok : V → Prop).

Definition packed_payload (vs : list V) : bytes := concat (bs <$> vs).

Definition packed_piece {M} (tag : Z) (get : M → list V) (set : list V → M → M)
    (vs : list V) : list (piece M) :=
  match vs with
  | [] => []
  | _ => [(uint32_bytes tag ++ uint32_bytes (blen (packed_payload vs)) ++ packed_payload vs,
           λ m, set (get m ++ (canon <$> vs)) m)]
  end.

Lemma packed_piece_run {M} tag (get : M → list V) set vs m :
  get m = [] → set [] m = m →
  pieces_run (packed_piece tag get set vs) m = set (canon <$> vs) m.
Proof. intros Hg Hs. destruct vs; [done|]. unfold pieces_run. simpl. by rewrite Hg. Qed.

Lemma packed_payload_length vs :
  Forall (λ l, bs l ≠ []) vs → (length vs ≤ length (packed_payload vs))%nat.
Proof.
  unfold packed_payload. induction 1 as [|v vs Hv Hvs IH]; csimpl; [lia|].
  rewrite length_app. destruct (bs v); [done|]. simpl. lia.
Qed.

Lemma packed_piece_cons {M} tag (get : M → list V) set vs :
  vs ≠ [] →
  packed_piece tag get set vs =
  [(uint32_bytes tag ++ uint32_bytes (blen (packed_payload vs)) ++ packed_payload vs,
    λ m, set (get m ++ (canon <$> vs)) m)].
Proof. by destruct vs. Qed.

Context (Hreads : ∀ v, ok v → reads read (bs v) (canon v)) (Hadv : advances read 1).

(** What is read is not empty, since reading it moves forward. *)
Lemma element_cons v : ok v → bs v ≠ [].
Proof.
  intros Hl He. pose proof (Hreads v Hl (R_create []) []) as H.
  rewrite He in H. destruct H as (r' & H & Hm).
  { unfold R_rest. rewrite R_create_buf. by rewrite drop_nil. }
  pose proof (Hadv (R_create [])) as Ha. rewrite H in Ha.
  destruct Hm as [_ Hm], Ha as [_ Ha]. unfold blen in Hm. simpl in Hm. lia.
Qed.

Lemma packed_loop_reads vs : ∀ fuel acc r rest,
  Forall ok vs → R_rest r = packed_payload vs ++ rest → (length vs ≤ fuel)%nat →
  ∃ r', packed_loop read fuel (R_pos r + blen (packed_payload vs)) acc r
        = Ok (acc ++ (canon <$> vs), r') ∧
        moved r r' (blen (packed_payload vs)).
Proof.
  unfold packed_payload. induction vs as [|v vs IH]; intros fuel acc r rest Hok Hr Hf; csimpl in *.
  - exists r. unfold moved, blen; simpl. rewrite app_nil_r. split; [|split; [done|lia]].
    destruct fuel; simpl; by rewrite (proj2 (Z.ltb_ge _ _)) by lia.
  - destruct fuel as [|fuel]; [lia|]. simpl. apply Forall_cons in Hok as [Hv Hok].
    pose proof (element_cons v Hv) as Hnv. rewrite <-app_assoc in Hr.
    destruct (Hreads v Hv r _ Hr) as (r1 & H1 & Hm1).
    pose proof (R_rest_moved _ _ _ _ Hr Hm1) as Hr1.
    destruct (IH fuel (acc ++ [canon v]) r1 rest Hok Hr1) as (r' & H2 & Hm2); [lia|].
    exists r'. rewrite blen_app.
    assert (0 < blen (bs v)) by (destruct (bs v); [done|unfold blen; simpl; lia]).
    rewrite (proj2 (Z.ltb_lt _ _)) by (pose proof (blen_nonneg (concat (bs <$> vs))); lia).
    rewrite H1. simpl. split; [|by eapply moved_trans].
    destruct Hm1 as [_ Hp]. rewrite Hp in H2.
    rewrite Z.add_assoc, H2, <-app_assoc. done.
Qed.

Lemma packed_piece_ok {M} switch tag (get : M → list V) set vs m :
  tag_ok tag →
  (∀ m r, switch (Z.shiftr tag 3) (Z.land tag 7) m r = dec_numbers read 2 get set m r) →
  Forall ok vs → len_ok (packed_payload vs) →
  pieces_ok switch m (packed_piece tag get set vs).
Proof.
  intros Ht Hsw Hok Hlen. destruct (decide (vs = [])) as [->|Hvs]; [done|].
  rewrite packed_piece_cons by done. split; [|done]. split; [apply tagged_cons|]. intros r rest Hr. simpl in *. rewrite app_assoc in Hr.
  assert (Hne : Forall (λ l, bs l ≠ []) vs)
    by (eapply Forall_impl; [exact Hok|]; intros; by apply element_cons).
  rewrite <-app_assoc in Hr.
  destruct (tagged_reads tag R_uint32 (uint32_bytes (blen (packed_payload vs))) (blen (packed_payload vs))
              r (packed_payload vs ++ rest) Ht) as (r1 & r2 & H1 & H2 & Hm2).
  { apply R_uint32_reads. unfold len_ok in Hlen. pose proof (blen_nonneg (packed_payload vs)). lia. }
  { exact Hr. }
  pose proof (R_rest_moved _ _ _ _ Hr Hm2) as Hr2.
  destruct (packed_loop_reads vs (length (packed_payload vs)) (get m) r2 rest Hok Hr2) as (r' & H3 & Hm3);
    [by apply packed_payload_length|].
  exists tag, r1, r'. split; [done|]. split.
  - rewrite Hsw. unfold dec_numbers. simpl. rewrite H2. simpl.
    replace (blen (packed_payload vs) + R_pos r2 - R_pos r2) with (blen (packed_payload vs)) by lia.
    unfold blen at 1. rewrite Nat2Z.id, Z.add_comm, H3. done.
  - rewrite app_assoc, blen_app. by eapply moved_trans.
Qed.
End PackedField.

(** ** Nested messages *)

(** [payload] is decoded, from a fresh message, as [v'] at depth [d]. *)
Definition decodes {V} (dec : decoder V) (d : Z) (payload : bytes) (v' : V) : Prop :=
  ∀ r rest, R_rest r = payload ++ rest →
    ∃ r', dec r (Some (blen payload)) None (Some d) None = Ok (v', r') ∧ moved r r' (blen payload).

Definition msg_bytes (tag : Z) (payload : bytes) : bytes :=
  uint32_bytes tag ++ uint32_bytes (blen payload) ++ payload.

Lemma msg_bytes_ok {M V} switch tag (dec : decoder V) depth payload (v' : V) (f : M → M) m :
  tag_ok tag → len_ok payload → decodes dec (depth + 1) payload v' →
  (∀ r r2, (let! '(len, r1) := R_uint32 r in dec r1 (Some len) None (Some (depth + 1)) None) = Ok (v', r2) →
     switch (Z.shiftr tag 3) (Z.land tag 7) m r = Some (Ok (f m, r2))) →
  piece_ok switch m (msg_bytes tag payload, f).
Proof.
  intros Ht Hlen Hdec Hsw. split; [apply tagged_cons|]. intros r rest Hr. unfold msg_bytes in *. simpl in *.
  rewrite app_assoc, <-app_assoc in Hr.
  destruct (tagged_reads tag R_uint32 (uint32_bytes (blen payload)) (blen payload)
              r (payload ++ rest) Ht) as (r1 & r2 & H1 & H2 & Hm2).
  { apply R_uint32_reads. unfold len_ok in Hlen. pose proof (blen_nonneg payload). lia. }
  { exact Hr. }
  pose proof (R_rest_moved _ _ _ _ Hr Hm2) as Hr2.
  destruct (Hdec r2 rest Hr2) as (r' & H3 & Hm3).
  exists tag, r1, r'. split; [done|]. split.
  - apply Hsw. rewrite H2. simpl. done.
  - rewrite app_assoc, blen_app. by eapply moved_trans.
Qed.

(** ** Writers *)

(** [f] appends [bs] to the innermost buffer. *)
Definition appends (f : Writer → res Writer) (bs : bytes) : Prop :=
  ∀ w b st, W_view w = b :: st → ∃ w', f w = Ok w' ∧ W_view w' = (b ++ bs) :: st.

Lemma appends_bind f g bs bs' :
  appends f bs → appends g bs' → appends (λ w, let! w' := f w in g w') (bs ++ bs').
Proof.
  intros Hf Hg w b st Hw. destruct (Hf w b st Hw) as (w1 & H1 & Hv1).
  destruct (Hg w1 _ _ Hv1) as (w2 & H2 & Hv2). exists w2. rewrite H1, app_assoc. done.
Qed.

Lemma appends_nil : appends Ok [].
Proof. intros w b st Hw. exists w. by rewrite app_nil_r. Qed.

Lemma appends_own {M V} tag enc canon present (set : option V → M → M) (o : option V) (put : V → Writer → Writer) :
  (∀ v w b st, W_view w = b :: st → W_view (put v w) = (b ++ enc v) :: st) →
  appends (λ w, Ok (own o (λ v w, put v (W_uint32 tag w)) w))
    (pieces_bytes (opt_piece tag enc canon present set o)).
Proof.
  intros Hput. unfold pieces_bytes. destruct o as [v|]; simpl; [|apply appends_nil].
  intros w b st Hw. eexists. split; [done|]. rewrite app_nil_r.
  erewrite Hput by (by apply W_uint32_view). by rewrite app_assoc.
Qed.

Lemma appends_nested {V} tag enc depth (v : V) payload :
  appends (λ w, enc v (Some w) (Some (depth + 1))) payload →
  appends (nested tag enc depth v) (msg_bytes tag payload).
Proof.
  intros He w b st Hw. unfold nested, msg_bytes.
  destruct (He (W_fork (W_uint32 tag w)) [] ((b ++ uint32_bytes tag) :: st)) as (w' & H & Hv).
  { by apply W_fork_view, W_uint32_view. }
  rewrite H. simpl. eexists. split; [done|]. erewrite W_ldelim_view by done. by rewrite <-app_assoc.
Qed.

Section PackedWriter.
Context {V : Type} (put : V → Writer → Writer) (bs : V → bytes).
Context (Hput : ∀ v w b st, W_view w = b :: st → W_view (put v w) = (b ++ bs v) :: st).

Lemma foldl_put_view vs : ∀ w b st, W_view w = b :: st →
  W_view (foldl (λ w v, put v w) w vs) = (b ++ packed_payload bs vs) :: st.
Proof.
  unfold packed_payload. induction vs as [|v vs IH]; intros w b st Hw; csimpl; [by rewrite app_nil_r|].
  erewrite IH by (by apply Hput). by rewrite app_assoc.
Qed.

Lemma appends_packed {M} canon tag (get : M → list V) set vs :
  appends (λ w, Ok (packed put tag vs w)) (pieces_bytes (packed_piece bs canon tag get set vs)).
Proof.
  destruct (decide (vs = [])) as [->|Hvs]; [apply appends_nil|].
  rewrite packed_piece_cons by done. unfold pieces_bytes. simpl.
  assert (∀ w, packed put tag vs w = W_ldelim (foldl (λ w v, put v w) (W_fork (W_uint32 tag w)) vs))
    as Hp by (by destruct vs).
  intros w b st Hw. eexists. split; [by rewrite Hp|]. rewrite app_nil_r.
  erewrite W_ldelim_view; [by rewrite <-app_assoc|].
  erewrite foldl_put_view by (by apply W_fork_view, W_uint32_view). done.
Qed.
End PackedWriter.

(** ** Termination on arbitrary input *)

(** The computation ends, and a resulting reader is at [p] or later in the
    same buffer. *)
Definition safe {A} (r : Reader) (c : res (A * Reader)) : Prop :=
  match c with
  | Ok (_, r') => R_buf r' = R_buf r ∧ R_pos r ≤ R_pos r'
  | Throw _ => True
  | NoFuel => False
  end.

Lemma safe_bind {A B} r (c : res (A * Reader)) (k : A * Reader → res (B * Reader)) :
  safe r c → (∀ a r', R_buf r' = R_buf r → R_pos r ≤ R_pos r' → safe r' (k (a, r'))) → safe r (res_bind c k).
Proof.
  unfold safe at 1. destruct c as [[a r']| |]; simpl; [|done|done]. intros [Hb Hp] Hk.
  specialize (Hk a r' Hb Hp). unfold safe in *. destruct (k (a, r')) as [[? ?]| |]; [|done|done].
  destruct Hk. split; [congruence|lia].
Qed.

Lemma advances_safe {A} (op : Reader → res (A * Reader)) n r : 0 ≤ n → advances op n → safe r (op r).
Proof. intros Hn Ha. specialize (Ha r). unfold safe. destruct (op r) as [[? ?]| |]; naive_solver lia. Qed.

Lemma dec_opt_safe {M V} (read : Reader → res (V * Reader)) present (set : option V → M → M) m r :
  advances read 1 → safe r (dec_opt read present set m r).
Proof.
  intros Ha. apply safe_bind; [by eapply advances_safe; [|exact Ha]|]. intros. by split.
Qed.

Lemma dec_set_safe {M V} (read : Reader → res (V * Reader)) (set : option V → M → M) m r :
  advances read 1 → safe r (dec_set read set m r).
Proof. apply (dec_opt_safe read (λ _, true)). Qed.

Lemma packed_loop_safe {V} (read : Reader → res (V * Reader)) (Ha : advances read 1) fuel : ∀ end2 acc r,
  end2 - R_pos r ≤ Z.of_nat fuel → safe r (packed_loop read fuel end2 acc r).
Proof.
  induction fuel as [|fuel IH]; intros end2 acc r Hf; simpl.
  - by rewrite (proj2 (Z.ltb_ge _ _)) by lia.
  - destruct (_ <? _); [|by split].
    specialize (Ha r). destruct (read r) as [[v r']| |]; [|done|done].
    destruct Ha as [Hb Hp]. simpl. specialize (IH end2 (acc ++ [v]) r' ltac:(lia)).
    unfold safe in *. destruct (packed_loop _ _ _ _ _) as [[? ?]| |]; [|done|done].
    destruct IH. split; [congruence|lia].
Qed.

Definition switch_safe {M} (switch : Z → Z → M → Reader → option (res (M * Reader))) : Prop :=
  ∀ f w m r c, switch f w m r = Some c → safe r c.

Lemma decode_loop_safe {M} (switch : Z → Z → M → Reader → option (res (M * Reader))) push depth fuel :
  switch_safe switch → ∀ end_ e m r,
  end_ - R_pos r ≤ Z.of_nat fuel → safe r (decode_loop switch push depth fuel end_ e m r).
Proof.
  intros Hsw. induction fuel as [|fuel IH]; intros end_ e m r Hf; simpl.
  - rewrite (proj2 (Z.ltb_ge _ _)) by lia. by destruct e.
  - destruct (_ <? _); [|by destruct e].
    pose proof (R_tag_advances r) as Ha. destruct (R_tag r) as [[tag r1]| |]; [|done|done].
    destruct Ha as [Hb Hp]. simpl. case_bool_decide; [split; [done|lia]|].
    assert (Hgo : ∀ m' r', R_buf r' = R_buf r1 → R_pos r1 ≤ R_pos r' →
              safe r (decode_loop switch push depth fuel end_ e m' r')).
    { intros m' r' Hb' Hp'. specialize (IH end_ e m' r' ltac:(lia)). unfold safe in *.
      destruct (decode_loop _ _ _ _ _ _ _ _) as [[? ?]| |]; [|done|done]. destruct IH. split; [congruence|lia]. }
    destruct (switch _ _ m r1) as [c|] eqn:Hc.
    + specialize (Hsw _ _ _ _ _ Hc). destruct c as [[m' r']| |]; [|done|done]. destruct Hsw. by apply Hgo.
    + pose proof (R_skipType_advances (Z.land tag 7) depth (Z.shiftr tag 3) r1) as Hs.
      destruct (R_skipType _ _ _ r1) as [r2| |]; [|done|done]. destruct Hs. by apply Hgo.
Qed.

Lemma decode_with_safe {M} (switch : Z → Z → M → Reader → option (res (M * Reader))) push depth new r l e t :
  switch_safe switch → safe r (decode_with switch push depth new r l e t).
Proof.
  intros Hsw. unfold decode_with, depth_check. destruct (_ <? _); [done|]. apply decode_loop_safe; [done|].
  destruct (Z.le_gt_cases 0 (match l with None => R_len r | Some l => R_pos r + l end - R_pos r)); lia.
Qed.

Lemma dec_numbers_safe {M V} (read : Reader → res (V * Reader)) (Ha : advances read 1) wire
    (get : M → list V) set m r c :
  dec_numbers read wire get set m r = Some c → safe r c.
Proof.
  unfold dec_numbers, when_wire. destruct (wire =? 2).
  - intros [= <-]. apply safe_bind; [eapply advances_safe; [|apply R_uint32_advances]; lia|].
    intros len r1 Hb Hp. apply safe_bind; [apply packed_loop_safe; [done|lia]|]. intros. by split.
  - destruct (wire =? 0); intros [= <-].
    apply safe_bind; [eapply advances_safe; [|apply Ha]; lia|]. intros. by split.
Qed.

Definition decoder_safe {V} (dec : decoder V) : Prop :=
  ∀ r l e d t, safe r (dec r l e d t).

Lemma dec_msg_safe {M V} (dec : decoder V) depth (get : M → option V) set m r :
  decoder_safe dec → safe r (dec_msg dec depth get set m r).
Proof.
  intros Hd. apply safe_bind; [eapply advances_safe; [|apply R_uint32_advances]; lia|].
  intros len r1 Hb Hp. apply safe_bind; [apply Hd|]. intros. by split.
Qed.

(** ** Invariants of decoded messages *)

Lemma decode_loop_inv {M} (I : M → Prop) (switch : Z → Z → M → Reader → option (res (M * Reader))) push depth fuel :
  (∀ f w m r m' r', I m → switch f w m r = Some (Ok (m', r')) → I m') →
  (∀ b m, I m → I (push b m)) →
  ∀ end_ e m r m' r', I m → decode_loop switch push depth fuel end_ e m r = Ok (m', r') → I m'.
Proof.
  intros Hsw Hpush. induction fuel as [|fuel IH]; intros end_ e m r m' r' HI; simpl.
  - destruct (_ <? _); [done|]. destruct e; [done|]. by intros [= <- _].
  - destruct (_ <? _); [|by destruct e; [|intros [= <- _]]].
    destruct (R_tag r) as [[tag r1]| |]; [|done|done]. simpl. case_bool_decide; [by intros [= <- _]|].
    destruct (switch _ _ m r1) as [c|] eqn:Hc.
    + destruct c as [[m1 r2]| |]; [|done|done]. simpl. apply IH. by eapply Hsw.
    + destruct (R_skipType _ _ _ r1) as [r2| |]; [|done|done]. simpl. apply IH.
      destruct (R_discardUnknown r2); auto.
Qed.

End Composite.

(** ** Automation for the generated codecs *)

Section FieldLemmas.
Context `{RL : RuntimeLaws}.

(** The canonical value a reader returns for a 64-bit field. *)
Definition canon64 (unsigned : bool) (l : long) : long := mk_long unsigned (long_val l).

Definition opt_all {V} (P : V → Prop) (o : option V) : Prop := ∀ v, o = Some v → P v.

Definition opt_bytes {V} (tag : Z) (enc : V → bytes) (o : option V) : bytes :=
  match o with Some v => uint32_bytes tag ++ enc v | None => [] end.

Lemma opt_piece_bytes {M V} tag enc canon present (set : option V → M → M) o :
  pieces_bytes (opt_piece tag enc canon present set o) = opt_bytes tag enc o.
Proof. destruct o; [|done]. unfold pieces_bytes. simpl. by rewrite app_nil_r. Qed.

Lemma own_view {V} tag enc (o : option V) put w b st :
  (∀ v w b st, W_view w = b :: st → W_view (put v w) = (b ++ enc v) :: st) →
  W_view w = b :: st →
  W_view (own o (λ v w, put v (W_uint32 tag w)) w) = (b ++ opt_bytes tag enc o) :: st.
Proof.
  intros Hput Hw. destruct o as [v|]; simpl; [|by rewrite app_nil_r].
  erewrite Hput by (by apply W_uint32_view). by rewrite app_assoc.
Qed.

Lemma switch_when {M} wire e (c c' : res (M * Reader)) : when_wire wire e c = Some c' → c' = c.
Proof. unfold when_wire. destruct (wire =? e); congruence. Qed.

Lemma dec_push_safe {M V} (dec : decoder V) depth (get : M → list V) set m r :
  decoder_safe dec → safe r (dec_push dec depth get set m r).
Proof.
  intros Hd. apply safe_bind; [eapply advances_safe; [|apply R_uint32_advances]; lia|].
  intros len r1 Hb Hp. apply safe_bind; [apply Hd|]. intros. by split.
Qed.

End FieldLemmas.

#[export] Hint Resolve R_int32_advances R_int64_advances R_uint64_advances R_bool_advances
  R_string_advances R_text_advances R_bytes_advances R_double_advances : nonoka.
#[export] Hint Resolve R_int32_reads R_int64_reads R_uint64_reads R_bool_reads
  R_string_reads R_text_reads R_bytes_reads R_double_reads : nonoka.
#[export] Hint Resolve W_int32_view W_int64_view W_uint64_view W_bool_view
  W_string_view W_bytes_view W_double_view : nonoka.

(** The tag of a generated field is a concrete number. *)
Ltac solve_tag := split; [lia|vm_compute; auto].

(** [pieces_ok] of a message's optional fields, one goal per field. *)
Ltac solve_pieces :=
  repeat first
    [ split
    | eapply opt_piece_ok; [solve_tag|solve [eauto with nonoka]|reflexivity|eassumption] ].

(** The writer after a message's optional fields. *)
Ltac solve_view :=
  repeat first
    [ eapply own_view; [solve [eauto with nonoka]|]
    | eassumption ].
