(* ===== verification/ProtoDouble.v ===== *)
(** * IEEE doubles on the wire

    A double travels as its eight bytes, the least significant first.
    [double_bits] and [bits_double] go between the mathematical form of a
    double and its 64 bits; the round trip holds for every canonical double,
    subnormal numbers, infinities and NaN included. *)

From S2P Require Import Prelude JsNum ProtoRuntime ProtoLaws.
From Stdlib Require Import Strings.Byte.
From Stdlib Require Import Floats.SpecFloat.
Open Scope Z_scope.

Definition sign_bit (s : bool) : Z := if s then 2 ^ 63 else 0.

Definition double_bits (x : double) : Z :=
  match x with
  | S754_zero s => sign_bit s
  | S754_infinity s => sign_bit s + 2047 * 2 ^ 52
  | S754_nan => 2047 * 2 ^ 52 + 2 ^ 51
  | S754_finite s m e => sign_bit s + if Zpos m <? 2 ^ 52 then Zpos m else (e + 1075) * 2 ^ 52 + (Zpos m - 2 ^ 52)
  end.

(** A finite number from its fraction, zero when there is none. *)
Definition finite (s : bool) (f e : Z) : double :=
  match f with Zpos m => S754_finite s m e | _ => S754_zero s end.

(** The number without its sign. *)
Definition magnitude (s : bool) (b : Z) : double :=
  let e := b / 2 ^ 52 in
  let f := b mod 2 ^ 52 in
  if e =? 2047 then (if f =? 0 then S754_infinity s else S754_nan)
  else if e =? 0 then finite s f (-1074)
  else finite s (f + 2 ^ 52) (e - 1075).

Definition bits_double (b : Z) : double := magnitude (2 ^ 63 <=? b) (b mod 2 ^ 63).

(** ** Canonical doubles *)

Lemma digits2_pos_bound m : 2 ^ (Zpos (digits2_pos m) - 1) ≤ Zpos m < 2 ^ Zpos (digits2_pos m).
Proof.
  induction m as [m IH|m IH|]; cbn [digits2_pos]; [| |done];
    rewrite Pos2Z.inj_succ, Z.pow_succ_r by lia;
    replace (Z.succ (Zpos (digits2_pos m)) - 1) with (Z.succ (Zpos (digits2_pos m) - 1)) by lia;
    rewrite Z.pow_succ_r by lia; lia.
Qed.

(** The two ways to be canonical: a full 53-bit significand, or the least
    exponent. *)
Lemma finite_bounds s m e : double_ok (S754_finite s m e) →
  -1074 ≤ e ≤ 971 ∧ Zpos m < 2 ^ 53 ∧ (2 ^ 52 ≤ Zpos m ∨ e = -1074).
Proof.
  unfold double_ok. cbn [valid_binary]. unfold bounded, canonical_mantissa, fexp, SpecFloat.emin.
  intros [H1 H2]%andb_true_iff. bool_to_prop. pose proof (digits2_pos_bound m) as [Hlo Hhi].
  set (d := Zpos (digits2_pos m)) in *. assert (d ≤ 53) by lia.
  split; [lia|]. split.
  - eapply Z.lt_le_trans; [exact Hhi|]. apply Z.pow_le_mono_r; lia.
  - destruct (decide (e = -1074)); [by right|left].
    replace d with 53 in Hlo by lia. exact Hlo.
Qed.

Lemma magnitude_parts s e f : 0 ≤ f < 2 ^ 52 →
  magnitude s (e * 2 ^ 52 + f) =
  if e =? 2047 then (if f =? 0 then S754_infinity s else S754_nan)
  else if e =? 0 then finite s f (-1074) else finite s (f + 2 ^ 52) (e - 1075).
Proof.
  intros Hf. unfold magnitude. rewrite Z.div_add_l, Z.div_small, Z.add_0_r by lia.
  by rewrite Z.add_comm, Z.mod_add, Z.mod_small by lia.
Qed.

Lemma bits_double_sign s b : 0 ≤ b < 2 ^ 63 → bits_double (sign_bit s + b) = magnitude s b.
Proof.
  intros Hb. unfold bits_double, sign_bit. destruct s.
  - rewrite (proj2 (Z.leb_le _ _)) by lia.
    by rewrite (Z.add_comm (2 ^ 63)), <-(Z.mul_1_l (2 ^ 63)) at 1; rewrite Z.mod_add, Z.mod_small by lia.
  - rewrite (proj2 (Z.leb_gt _ _)) by lia. by rewrite Z.add_0_l, Z.mod_small by lia.
Qed.

(** The bits under the sign. *)
Definition magnitude_bits (x : double) : Z :=
  match x with
  | S754_zero _ => 0
  | S754_infinity _ => 2047 * 2 ^ 52
  | S754_nan => 2047 * 2 ^ 52 + 2 ^ 51
  | S754_finite _ m e => if Zpos m <? 2 ^ 52 then Zpos m else (e + 1075) * 2 ^ 52 + (Zpos m - 2 ^ 52)
  end.

Definition sign_of (x : double) : bool :=
  match x with S754_zero s | S754_infinity s | S754_finite s _ _ => s | S754_nan => false end.

Lemma double_bits_parts x : double_bits x = sign_bit (sign_of x) + magnitude_bits x.
Proof. destruct x; simpl; lia. Qed.

Lemma magnitude_bits_bound x : double_ok x → 0 ≤ magnitude_bits x < 2 ^ 63.
Proof.
  intros Hx. destruct x as [s|s| |s m e]; cbn [magnitude_bits]; try lia.
  destruct (finite_bounds s m e Hx) as (He & Hm & _). destruct (Z.ltb_spec (Zpos m) (2 ^ 52)); lia.
Qed.

Lemma magnitude_of_bits x : double_ok x → magnitude (sign_of x) (magnitude_bits x) = x.
Proof.
  intros Hx. destruct x as [s|s| |s m e]; cbn [magnitude_bits sign_of]; [done|done|done|].
  destruct (finite_bounds s m e Hx) as (He & Hm & Hc). destruct (Z.ltb_spec (Zpos m) (2 ^ 52)).
  - destruct Hc as [Hc| ->]; [lia|]. change (Zpos m) with (0 * 2 ^ 52 + Zpos m). by rewrite magnitude_parts by lia.
  - rewrite magnitude_parts by lia. rewrite (proj2 (Z.eqb_neq _ 2047)), (proj2 (Z.eqb_neq _ 0)) by lia.
    replace (Zpos m - 2 ^ 52 + 2 ^ 52) with (Zpos m) by lia. simpl. f_equal. lia.
Qed.

Lemma bits_double_bits x : double_ok x → bits_double (double_bits x) = x.
Proof.
  intros Hx. rewrite double_bits_parts, bits_double_sign by (by apply magnitude_bits_bound).
  by apply magnitude_of_bits.
Qed.

Lemma double_bits_bound x : double_ok x → 0 ≤ double_bits x < 2 ^ 64.
Proof.
  intros Hx. rewrite double_bits_parts. pose proof (magnitude_bits_bound x Hx). unfold sign_bit. destruct (sign_of x); lia.
Qed.

Example double_bits_half : double_bits (S754_finite false (2 ^ 52)%positive (-53)) = 0x3FE0000000000000.
Proof. reflexivity. Qed.
