(* ===== verification/ProtoSchema.v ===== *)
(** * Codecs from field descriptors

    A generated class reads and writes its fields one after another.  A [field]
    describes one of them: what [encode] writes, what the [case] of [decode]
    does, and which value a peer ends up with.  [schema_codec] turns the laws
    of the fields into the laws of the class, once for every class: its encoder
    and its decoder only have to be, by computation, those of its list of
    fields.  [Codec] is what one class promises to the classes that contain it
    as a field. *)

From S2P Require Import Prelude JsNum ProtoRuntime ProtoLaws.
Open Scope Z_scope.

Section Schema.
Context `{RL : RuntimeLaws}.

Lemma dec_each_safe {M V} (read : Reader → res (V * Reader)) (get : M → list V) set m r :
  advances read 1 → safe r (dec_each read get set m r).
Proof. intros Ha. apply safe_bind; [by eapply advances_safe; [|exact Ha]|]. intros. by split. Qed.

(** ** What a class promises *)

(** Encoding [v] appends [c_bytes v]; decoding those bytes gives [c_norm v],
    the message as a reader represents it; decoding terminates.  [c_height] is
    the number of levels of messages inside a message of the class. *)
Class Codec {V} (enc : V → option Writer → option Z → res Writer) (dec : decoder V) := {
  c_ok : V → Prop;
  c_bytes : V → bytes;
  c_norm : V → V;
  c_height : Z;
  c_appends v d : c_ok v → d + c_height ≤ util_recursionLimit →
    appends (λ w, enc v (Some w) (Some d)) (c_bytes v);
  c_decodes v d : c_ok v → d + c_height ≤ Reader_recursionLimit →
    decodes dec d (c_bytes v) (c_norm v);
  c_whole v : c_ok v → c_height ≤ Reader_recursionLimit →
    ∃ r, dec (R_create (c_bytes v)) None None None None = Ok (c_norm v, r);
  c_safe : decoder_safe dec;
  (** The defaults of the optional parameters. *)
  c_encode_default v w d : enc v w d = enc v (Some (default W_create w)) (Some (default 0 d));
  c_decode_default r l e d t : dec r l e d t = dec r l e (Some (default 0 d)) t;
}.

(** ** Scalar types *)

Record kind (V : Type) := Kind {
  k_put : V → Writer → Writer;
  k_read : Reader → res (V * Reader);
  k_bytes : V → bytes;
  k_canon : V → V;
  k_present : V → bool;
  k_ok : V → Prop;
}.
#[global] Arguments Kind {V}.
#[global] Arguments k_put {V}.
#[global] Arguments k_read {V}.
#[global] Arguments k_bytes {V}.
#[global] Arguments k_canon {V}.
#[global] Arguments k_present {V}.
#[global] Arguments k_ok {V}.

Record kind_laws {V} (k : kind V) : Prop := {
  k_view v w b st : W_view w = b :: st → W_view (k_put k v w) = (b ++ k_bytes k v) :: st;
  k_reads v : k_ok k v → reads (k_read k) (k_bytes k v) (k_canon k v);
  k_advances : advances (k_read k) 1;
}.

Definition kString := Kind W_string R_stringVerify string_bytes id string_present str_ok.
Definition kBytes := Kind W_bytes R_bytes bytes_bytes id bytes_present len_ok.
Definition kBool := Kind W_bool R_bool bool_bytes id bool_present (λ _, True).
Definition kInt32 := Kind W_int32 R_int32 int32_bytes id int32_present int32_ok.
Definition kInt64 := Kind W_int64 R_int64 int64_bytes (canon64 false) long_nonzero int64_ok.
Definition kUint64 := Kind W_uint64 R_uint64 uint64_bytes (canon64 true) long_nonzero uint64_ok.

(** [reader.string()] instead of [reader.stringVerify()]. *)
Definition kText := Kind W_string R_string string_bytes id string_present str_ok.
Definition kDouble := Kind W_double R_double double_bytes id (λ _, true) double_ok.

(** The same type in a field that keeps track of its presence. *)
Definition explicit {V} (k : kind V) : kind V :=
  Kind (k_put k) (k_read k) (k_bytes k) (k_canon k) (λ _, true) (k_ok k).

Lemma kText_laws : kind_laws kText.
Proof. split; simpl; eauto with nonoka. Qed.
Lemma kDouble_laws : kind_laws kDouble.
Proof. split; simpl; eauto with nonoka. Qed.
Lemma explicit_laws {V} (k : kind V) : kind_laws k → kind_laws (explicit k).
Proof. intros []. by split. Qed.
Lemma kString_laws : kind_laws kString.
Proof. split; simpl; eauto with nonoka. Qed.
Lemma kBytes_laws : kind_laws kBytes.
Proof. split; simpl; eauto with nonoka. Qed.
Lemma kBool_laws : kind_laws kBool.
Proof. split; simpl; eauto with nonoka. Qed.
Lemma kInt32_laws : kind_laws kInt32.
Proof. split; simpl; eauto with nonoka. Qed.
Lemma kInt64_laws : kind_laws kInt64.
Proof. split; simpl; unfold canon64; eauto with nonoka. Qed.
Lemma kUint64_laws : kind_laws kUint64.
Proof. split; simpl; unfold canon64; eauto with nonoka. Qed.

(** ** Fields *)

Record field (M : Type) := Field {
  f_tag : Z;
  (** The statement of [encode], at a depth. *)
  f_put : Z → M → Writer → res Writer;
  (** The [case] of [decode], at a depth and a wire type. *)
  f_case : Z → Z → M → Reader → option (res (M * Reader));
  f_ok : M → Prop;
  f_pieces : M → list (piece M);
  (** The field is still as the constructor left it. *)
  f_ready : M → Prop;
  (** Give the second message the field of the first, as a reader represents it. *)
  f_norm : M → M → M;
  f_height : Z;
}.
#[global] Arguments Field {M}.
#[global] Arguments f_tag {M}.
#[global] Arguments f_put {M}.
#[global] Arguments f_case {M}.
#[global] Arguments f_ok {M}.
#[global] Arguments f_pieces {M}.
#[global] Arguments f_ready {M}.
#[global] Arguments f_norm {M}.
#[global] Arguments f_height {M}.

(** The [switch] of the class has the [case] of the field. *)
Definition handles {M} (switch : Z → Z → M → Reader → option (res (M * Reader))) (d : Z) (f : field M) : Prop :=
  ∀ m r, switch (Z.shiftr (f_tag f) 3) (Z.land (f_tag f) 7) m r = f_case f d (Z.land (f_tag f) 7) m r.

Record field_laws {M} (f : field M) : Prop := {
  f_appends v d : f_ok f v → d + f_height f ≤ util_recursionLimit →
    appends (f_put f d v) (pieces_bytes (f_pieces f v));
  f_reads switch d v m : handles switch d f → f_ok f v → f_ready f m → d + f_height f ≤ Reader_recursionLimit →
    pieces_ok switch m (f_pieces f v);
  f_run v m : f_ready f m → pieces_run (f_pieces f v) m = f_norm f v m;
}.

(** A property of the message: what is set is read, the last value set counts. *)
Record lens {M A} (get : M → A) (set : A → M → M) : Prop := {
  get_set a m : get (set a m) = a;
  set_set a b m : set a (set b m) = set a m;
  set_get m : set (get m) m = m;
}.

Section Fields.
Context {M : Type} (tag : Z) (Htag : tag_ok tag).

(** *** An optional scalar *)
Section Optional.
Context {V : Type} (k : kind V) (get : M → option V) (set : option V → M → M).

Definition opt_field : field M := {|
  f_tag := tag;
  f_put d v w := Ok (own (get v) (λ x w, k_put k x (W_uint32 tag w)) w);
  f_case d wire m r := when_wire wire (Z.land tag 7) (dec_opt (k_read k) (k_present k) set m r);
  f_ok v := opt_all (k_ok k) (get v);
  f_pieces v := opt_piece tag (k_bytes k) (k_canon k) (k_present k) set (get v);
  f_ready m := get m = None;
  f_norm v := set (norm_opt (k_canon k) (k_present k) (get v));
  f_height := 0;
|}.

Lemma opt_field_laws : kind_laws k → lens get set → field_laws opt_field.
Proof.
  intros Hk Hl. split; simpl.
  - intros v d _ _. apply appends_own, k_view, Hk.
  - intros switch d v m Hsw Hok _ _. eapply opt_piece_ok; [done|apply Hk| |exact Hok].
    intros m' r'. etransitivity; [apply Hsw|]. simpl. unfold when_wire. by rewrite Z.eqb_refl.
  - intros v m Hm. apply opt_piece_run. rewrite <-Hm. apply Hl.
Qed.
(** A required scalar: [encode] writes it in any case, the default of the
    prototype when it was not set. *)
Section Required.
Context (dflt : V).

Definition req_field : field M := {|
  f_tag := tag;
  f_put d v w := Ok (k_put k (default dflt (get v)) (W_uint32 tag w));
  f_case d wire m r := when_wire wire (Z.land tag 7) (dec_set (k_read k) set m r);
  f_ok v := k_ok k (default dflt (get v));
  f_pieces v := opt_piece tag (k_bytes k) (k_canon k) (λ _, true) set (Some (default dflt (get v)));
  f_ready m := True;
  f_norm v := set (Some (k_canon k (default dflt (get v))));
  f_height := 0;
|}.

Lemma req_field_laws : kind_laws k → field_laws req_field.
Proof.
  intros Hk. split; cbn [req_field f_put f_pieces f_ok f_norm].
  - intros v d _ _. apply (appends_own _ _ (k_canon k) (λ _, true) set (Some _) (k_put k)), k_view, Hk.
  - intros switch d v m Hsw Hok _ _. eapply opt_piece_ok; [done|apply Hk| |by intros x [= <-]].
    intros m' r'. etransitivity; [apply Hsw|]. simpl. unfold when_wire. by rewrite Z.eqb_refl.
  - done.
Qed.
End Required.

(** A scalar member of a oneof: [case] sets it, then [clear] deletes the other
    members. *)
Section Member.
Context (clear : M → M).

Definition oneof_field : field M := {|
  f_tag := tag;
  f_put d v w := Ok (own (get v) (λ x w, k_put k x (W_uint32 tag w)) w);
  f_case d wire m r := when_wire wire (Z.land tag 7) (dec_set (k_read k) (λ o m, clear (set o m)) m r);
  f_ok v := opt_all (k_ok k) (get v);
  f_pieces v := opt_piece tag (k_bytes k) (k_canon k) (λ _, true) (λ o m, clear (set o m)) (get v);
  f_ready m := True;
  f_norm v m := match get v with Some x => clear (set (Some (k_canon k x)) m) | None => m end;
  f_height := 0;
|}.

Lemma oneof_field_laws : kind_laws k → field_laws oneof_field.
Proof.
  intros Hk. split; simpl.
  - intros v d _ _. apply appends_own, k_view, Hk.
  - intros switch d v m Hsw Hok _ _. eapply opt_piece_ok; [done|apply Hk| |exact Hok].
    intros m' r'. etransitivity; [apply Hsw|]. simpl. unfold when_wire. by rewrite Z.eqb_refl.
  - intros v m _. by destruct (get v).
Qed.
End Member.
End Optional.

(** *** Repeated fields, one tag per element *)
Section Repeated.
Context {V : Type} (bs : V → bytes) (canon : V → V) (get : M → list V) (set : list V → M → M).

Definition rep_pieces (xs : list V) : list (piece M) :=
  (λ x, (uint32_bytes tag ++ bs x, λ m, set (get m ++ [canon x]) m)) <$> xs.

Lemma rep_pieces_bytes xs : pieces_bytes (rep_pieces xs) = concat ((λ x, uint32_bytes tag ++ bs x) <$> xs).
Proof. unfold pieces_bytes, rep_pieces. f_equal. by rewrite <-list_fmap_compose. Qed.

Lemma rep_pieces_run xs m : lens get set → pieces_run (rep_pieces xs) m = set (get m ++ (canon <$> xs)) m.
Proof.
  intros Hl. revert m. induction xs as [|x xs IH]; intros m; csimpl.
  - rewrite app_nil_r. symmetry. apply Hl.
  - unfold pieces_run in *. simpl. rewrite IH, (get_set _ _ Hl), (set_set _ _ Hl). by rewrite <-app_assoc.
Qed.

Lemma rep_pieces_ok switch xs m :
  (∀ x m, x ∈ xs → piece_ok switch m (uint32_bytes tag ++ bs x, λ m, set (get m ++ [canon x]) m)) →
  pieces_ok switch m (rep_pieces xs).
Proof.
  intros Hx. revert m. induction xs as [|x xs IH]; intros m; [done|]. csimpl. split.
  - apply Hx. left.
  - apply IH. intros y m' Hy. apply Hx. by right.
Qed.
End Repeated.

Section RepeatedScalar.
Context {V : Type} (k : kind V) (get : M → list V) (set : list V → M → M).

Definition rep_field : field M := {|
  f_tag := tag;
  f_put d v w := Ok (each tag (k_put k) (get v) w);
  f_case d wire m r := when_wire wire (Z.land tag 7) (dec_each (k_read k) get set m r);
  f_ok v := Forall (k_ok k) (get v);
  f_pieces v := rep_pieces (k_bytes k) (k_canon k) get set (get v);
  f_ready m := get m = [];
  f_norm v := set (k_canon k <$> get v);
  f_height := 0;
|}.

Lemma each_view vs : kind_laws k → ∀ w b st, W_view w = b :: st →
  W_view (each tag (k_put k) vs w) = (b ++ concat ((λ x, uint32_bytes tag ++ k_bytes k x) <$> vs)) :: st.
Proof.
  intros Hk. unfold each. induction vs as [|v vs IH]; intros w b st Hw; csimpl; [by rewrite app_nil_r|].
  erewrite IH by (apply (k_view _ Hk), W_uint32_view, Hw). by rewrite !app_assoc.
Qed.

Lemma rep_field_appends d v : kind_laws k →
  appends (f_put rep_field d v) (pieces_bytes (f_pieces rep_field v)).
Proof. intros Hk w b st Hw. eexists. split; [done|]. simpl. rewrite rep_pieces_bytes. by apply each_view. Qed.

(** Each element is read by a [case] that pushes it. *)
Lemma rep_field_reads switch v m : kind_laws k →
  (∀ m r x r', k_read k r = Ok (x, r') →
    switch (Z.shiftr tag 3) (Z.land tag 7) m r = Some (Ok (set (get m ++ [x]) m, r'))) →
  f_ok rep_field v → pieces_ok switch m (f_pieces rep_field v).
Proof.
  simpl. intros Hk Hsw Hok. apply rep_pieces_ok. intros x m' Hx. rewrite Forall_forall in Hok.
  split; [apply tagged_cons|]. intros r rest Hr.
  destruct (tagged_reads tag _ _ _ r rest Htag (k_reads _ Hk x (Hok x Hx)) Hr) as (r1 & r' & H1 & H2 & Hm).
  exists tag, r1, r'. split; [done|]. split; [|done]. by apply Hsw.
Qed.

Lemma rep_field_run v m : lens get set → f_ready rep_field m →
  pieces_run (f_pieces rep_field v) m = f_norm rep_field v m.
Proof. simpl. intros Hl Hm. rewrite rep_pieces_run by done. by rewrite Hm. Qed.

Lemma rep_field_laws : kind_laws k → lens get set → field_laws rep_field.
Proof.
  intros Hk Hl. split.
  - intros v d _ _. by apply rep_field_appends.
  - intros switch d v m Hsw Hok _ _. apply rep_field_reads; [done| |done]. intros m' r x r' Hx.
    etransitivity; [apply Hsw|]. simpl. unfold when_wire, dec_each. by rewrite Z.eqb_refl, Hx.
  - intros v m. by apply rep_field_run.
Qed.

(** The same for a number, whose [case] also accepts the packed form. *)
Definition nums_field : field M := {|
  f_tag := tag;
  f_put := f_put rep_field;
  f_case d wire m r := dec_numbers (k_read k) wire get set m r;
  f_ok := f_ok rep_field;
  f_pieces := f_pieces rep_field;
  f_ready := f_ready rep_field;
  f_norm := f_norm rep_field;
  f_height := 0;
|}.

Lemma nums_field_laws : Z.land tag 7 = 0 → kind_laws k → lens get set → field_laws nums_field.
Proof.
  intros Hw Hk Hl. split.
  - intros v d _ _. by apply rep_field_appends.
  - intros switch d v m Hsw Hok _ _. apply rep_field_reads; [done| |done]. intros m' r x r' Hx.
    etransitivity; [apply Hsw|]. simpl. rewrite Hw. unfold dec_numbers, when_wire. simpl. by rewrite Hx.
  - intros v m. by apply rep_field_run.
Qed.
End RepeatedScalar.

(** *** A repeated number, packed *)
Section Packed.
Context {V : Type} (k : kind V) (get : M → list V) (set : list V → M → M).

Definition packed_field : field M := {|
  f_tag := tag;
  f_put d v w := Ok (packed (k_put k) tag (get v) w);
  f_case d wire m r := dec_numbers (k_read k) wire get set m r;
  f_ok v := Forall (k_ok k) (get v) ∧ len_ok (packed_payload (k_bytes k) (get v));
  f_pieces v := packed_piece (k_bytes k) (k_canon k) tag get set (get v);
  f_ready m := get m = [];
  f_norm v := set (k_canon k <$> get v);
  f_height := 0;
|}.

Lemma packed_field_laws : Z.land tag 7 = 2 → kind_laws k → lens get set → field_laws packed_field.
Proof.
  intros Hw Hk Hl. split; simpl.
  - intros v d _ _. apply appends_packed, Hk.
  - intros switch d v m Hsw [Hok Hlen] _ _. eapply packed_piece_ok; [apply Hk|apply Hk|done| |done|done].
    intros m' r'. etransitivity; [apply Hsw|]. simpl. by rewrite Hw.
  - intros v m Hm. apply packed_piece_run; [done|]. rewrite <-Hm. apply Hl.
Qed.
End Packed.

(** *** Messages *)
Section Messages.
Context {V : Type} (enc : V → option Writer → option Z → res Writer) (dec : decoder V) {C : Codec enc dec}.

Definition msg_ok (x : V) : Prop := c_ok x ∧ len_ok (c_bytes x).

Lemma msg_appends d x : msg_ok x → d + (1 + c_height) ≤ util_recursionLimit →
  appends (nested tag enc d x) (msg_bytes tag (c_bytes x)).
Proof. intros [Hx _] Hd. apply appends_nested, c_appends; [done|lia]. Qed.

Lemma msg_piece_ok switch d x (f : M → M) m :
  msg_ok x → d + (1 + c_height) ≤ Reader_recursionLimit →
  (∀ r r2, (let! '(len, r1) := R_uint32 r in dec r1 (Some len) None (Some (d + 1)) None) = Ok (c_norm x, r2) →
     switch (Z.shiftr tag 3) (Z.land tag 7) m r = Some (Ok (f m, r2))) →
  piece_ok switch m (msg_bytes tag (c_bytes x), f).
Proof. intros [Hx Hlen] Hd. apply msg_bytes_ok; [done|done|]. apply c_decodes; [done|lia]. Qed.

Lemma when_self {A} (c : res (A * Reader)) : when_wire (Z.land tag 7) (Z.land tag 7) c = Some c.
Proof. unfold when_wire. by rewrite Z.eqb_refl. Qed.

(** An optional message: the decoder merges into the one that is there. *)
Section One.
Context (get : M → option V) (set : option V → M → M).

Definition msg_field : field M := {|
  f_tag := tag;
  f_put d v w := own_msg (get v) (nested tag enc d) w;
  f_case d wire m r := when_wire wire (Z.land tag 7) (dec_msg dec d get (λ x, set (Some x)) m r);
  f_ok v := opt_all msg_ok (get v);
  f_pieces v := match get v with Some x => [(msg_bytes tag (c_bytes x), set (Some (c_norm x)))] | None => [] end;
  f_ready m := get m = None;
  f_norm v := set (c_norm <$> get v);
  f_height := 1 + c_height;
|}.

Lemma dec_msg_absent put d m r x r2 : get m = None →
  (let! '(len, r1) := R_uint32 r in dec r1 (Some len) None (Some (d + 1)) None) = Ok (x, r2) →
  dec_msg dec d get put m r = Ok (put x m, r2).
Proof.
  intros Hg. unfold dec_msg. rewrite Hg. destruct (R_uint32 r) as [[len r1]| |]; simpl; [|done|done].
  by intros ->.
Qed.

Lemma msg_put_appends v d (f : V → M → M) : opt_all msg_ok (get v) → d + (1 + c_height) ≤ util_recursionLimit →
  appends (own_msg (get v) (nested tag enc d))
    (pieces_bytes (match get v with Some x => [(msg_bytes tag (c_bytes x), f x)] | None => [] end)).
Proof.
  intros Hok Hd. unfold own_msg. destruct (get v) as [x|]; [|apply appends_nil].
  unfold pieces_bytes. simpl. rewrite app_nil_r. apply msg_appends; [by apply Hok|done].
Qed.

Lemma msg_field_laws : lens get set → field_laws msg_field.
Proof.
  intros Hl. split; simpl.
  - intros v d Hok Hd. by apply msg_put_appends.
  - intros switch d v m Hsw Hok Hm Hd. destruct (get v) as [x|] eqn:Hx; [|done]. split; [|done].
    apply (msg_piece_ok _ d); [by apply Hok|done|]. intros r r2 Hr.
    etransitivity; [apply Hsw|]. simpl. rewrite when_self. f_equal. by apply (dec_msg_absent (λ x, set (Some x))).
  - intros v m Hm. destruct (get v) as [x|]; [done|]. simpl. rewrite <-Hm. symmetry. apply Hl.
Qed.
(** A message that is a member of a oneof. *)
Section Member.
Context (clear : M → M).

Definition oneof_msg_field : field M := {|
  f_tag := tag;
  f_put d v w := own_msg (get v) (nested tag enc d) w;
  f_case d wire m r := when_wire wire (Z.land tag 7) (dec_msg dec d get (λ x m, clear (set (Some x) m)) m r);
  f_ok v := opt_all msg_ok (get v);
  f_pieces v := match get v with
                | Some x => [(msg_bytes tag (c_bytes x), λ m, clear (set (Some (c_norm x)) m))]
                | None => []
                end;
  f_ready m := get m = None;
  f_norm v m := match get v with Some x => clear (set (Some (c_norm x)) m) | None => m end;
  f_height := 1 + c_height;
|}.

Lemma oneof_msg_field_laws : field_laws oneof_msg_field.
Proof.
  split; simpl.
  - intros v d Hok Hd. by apply msg_put_appends.
  - intros switch d v m Hsw Hok Hm Hd. destruct (get v) as [x|] eqn:Hx; [|done]. split; [|done].
    apply (msg_piece_ok _ d); [by apply Hok|done|]. intros r r2 Hr.
    etransitivity; [apply Hsw|]. simpl. rewrite when_self. f_equal.
    by apply (dec_msg_absent (λ x m, clear (set (Some x) m))).
  - intros v m _. by destruct (get v).
Qed.
End Member.
End One.

(** A repeated message. *)
Section Many.
Context (get : M → list V) (set : list V → M → M).

Definition msgs_field : field M := {|
  f_tag := tag;
  f_put d v w := nested_all tag enc d (get v) w;
  f_case d wire m r := when_wire wire (Z.land tag 7) (dec_push dec d get set m r);
  f_ok v := Forall msg_ok (get v);
  f_pieces v := rep_pieces (λ x, uint32_bytes (blen (c_bytes x)) ++ c_bytes x) c_norm get set (get v);
  f_ready m := get m = [];
  f_norm v := set (c_norm <$> get v);
  f_height := 1 + c_height;
|}.

Lemma nested_all_appends d xs : Forall msg_ok xs → d + (1 + c_height) ≤ util_recursionLimit →
  appends (nested_all tag enc d xs) (concat ((λ x, msg_bytes tag (c_bytes x)) <$> xs)).
Proof.
  intros Hxs Hd. induction Hxs as [|x xs Hx Hxs IH]; csimpl; [apply appends_nil|].
  apply appends_bind; [by apply msg_appends|done].
Qed.

Lemma msgs_field_laws : lens get set → field_laws msgs_field.
Proof.
  intros Hl. split; simpl.
  - intros v d Hok Hd. rewrite rep_pieces_bytes. by apply nested_all_appends.
  - intros switch d v m Hsw Hok _ Hd. apply rep_pieces_ok. intros x m' Hx. rewrite Forall_forall in Hok.
    apply (msg_piece_ok _ d); [by apply Hok|done|]. intros r r2 Hr.
    etransitivity; [apply Hsw|]. simpl. rewrite when_self. f_equal. unfold dec_push.
    destruct (R_uint32 r) as [[len r1]| |]; simpl in *; [|done|done]. by rewrite Hr.
  - intros v m Hm. rewrite rep_pieces_run by done. by rewrite Hm.
Qed.
End Many.
End Messages.
End Fields.

(** ** Classes *)

Fixpoint schema_put {M} (fs : list (field M)) (d : Z) (v : M) (w : Writer) : res Writer :=
  match fs with
  | [] => Ok w
  | f :: fs' => let! w' := f_put f d v w in schema_put fs' d v w'
  end.

(** The same, with what [encode] does afterwards. *)
Fixpoint schema_then {M} (fs : list (field M)) (d : Z) (v : M) (k : Writer → res Writer) (w : Writer) : res Writer :=
  match fs with
  | [] => k w
  | f :: fs' => let! w' := f_put f d v w in schema_then fs' d v k w'
  end.

Lemma schema_then_put {M} (fs : list (field M)) d v k w w' :
  schema_put fs d v w = Ok w' → schema_then fs d v k w = k w'.
Proof.
  revert w. induction fs as [|f fs IH]; intros w; simpl; [by intros [= ->]|].
  destruct (f_put f d v w); simpl; [apply IH|done|done].
Qed.

Definition schema_ok {M} (fs : list (field M)) (v : M) : Prop := Forall (λ f, f_ok f v) fs.
Definition schema_pieces {M} (fs : list (field M)) (v : M) : list (piece M) := concat ((λ f, f_pieces f v) <$> fs).
Definition schema_norm {M} (fs : list (field M)) (v m : M) : M := foldl (λ m f, f_norm f v m) m fs.
Definition schema_height {M} (fs : list (field M)) : Z := foldr (λ f h, Z.max (f_height f) h) 0 fs.

(** Every field is untouched when its turn comes. *)
Fixpoint schema_ready {M} (fs : list (field M)) (v m : M) : Prop :=
  match fs with
  | [] => True
  | f :: fs' => f_ready f m ∧ schema_ready fs' v (f_norm f v m)
  end.

Section Class.
Context {M : Type} (fs : list (field M)).

Lemma schema_height_field f : f ∈ fs → f_height f ≤ schema_height fs.
Proof. unfold schema_height. induction 1; simpl; lia. Qed.

Lemma schema_height_nonneg : 0 ≤ schema_height fs.
Proof. unfold schema_height. induction fs; simpl; lia. Qed.
End Class.

Lemma schema_appends {M} (fs : list (field M)) v d :
  Forall field_laws fs → schema_ok fs v → d + schema_height fs ≤ util_recursionLimit →
  appends (schema_put fs d v) (pieces_bytes (schema_pieces fs v)).
Proof.
  unfold schema_pieces. intros Hl Hok. revert Hok. induction Hl as [|f fs Hf Hl IH]; intros Hok Hd; csimpl.
  - apply appends_nil.
  - apply Forall_cons in Hok as [Hv Hok]. rewrite pieces_bytes_app. unfold schema_height in *. simpl in Hd.
    apply appends_bind; [apply (f_appends _ Hf v d); [done|lia]|]. apply IH; [done|lia].
Qed.

Lemma schema_reads {M} (fs : list (field M)) switch v d : Forall field_laws fs → ∀ m,
  Forall (handles switch d) fs → schema_ok fs v → schema_ready fs v m → d + schema_height fs ≤ Reader_recursionLimit →
  pieces_ok switch m (schema_pieces fs v) ∧ pieces_run (schema_pieces fs v) m = schema_norm fs v m.
Proof.
  unfold schema_pieces. induction 1 as [|f fs Hf Hl IH]; intros m Hsw Hok Hr Hd; csimpl; [done|].
  apply Forall_cons in Hok as [Hv Hok]. apply Forall_cons in Hsw as [Hsf Hsw]. destruct Hr as [Hrf Hr].
  unfold schema_height in *. simpl in Hd. rewrite pieces_ok_app, pieces_run_app, (f_run _ Hf) by done.
  destruct (IH (f_norm f v m) Hsw Hok Hr ltac:(lia)) as [H1 H2]. split; [|done]. split; [|done].
  apply (f_reads _ Hf _ d); [done|done|done|lia].
Qed.

(** The promise of a class with fields: its code is that of its fields. *)
Section Build.
Context {M : Type} (enc : M → option Writer → option Z → res Writer) (dec : decoder M).
Context (fs : list (field M)) (new : M) (unknowns : M → option (list bytes)) (push : bytes → M → M).
Context (switch : Z → Z → Z → M → Reader → option (res (M * Reader))).
Context (Henc : ∀ v w d, enc v w d = depth_check util_recursionLimit (default 0 d)
  (schema_then fs (default 0 d) v (λ w, Ok (put_unknowns (unknowns v) w)) (default W_create w))).
Context (Hdec : ∀ r l e d t, dec r l e d t =
  decode_with (switch (default 0 d)) push (default 0 d) new r l e t).
Context (Hlaws : Forall field_laws fs).
Context (Hcases : ∀ d, Forall (handles (switch d) d) fs).
Context (Hready : ∀ v, schema_ready fs v new).
Context (Hsafe : ∀ d, switch_safe (switch d)).

Definition class_ok (v : M) : Prop := schema_ok fs v ∧ unknowns v = None.

Lemma class_appends v d : class_ok v → d + schema_height fs ≤ util_recursionLimit →
  appends (λ w, enc v (Some w) (Some d)) (pieces_bytes (schema_pieces fs v)).
Proof.
  intros [Hok Hu] Hd w b st Hw. pose proof (schema_height_nonneg fs).
  rewrite Henc. unfold depth_check. cbn [from_option id]. rewrite (proj2 (Z.ltb_ge _ _)) by lia.
  destruct (schema_appends fs v d Hlaws Hok Hd w b st Hw) as (w' & H1 & Hv).
  exists w'. erewrite schema_then_put by done. by rewrite Hu.
Qed.

Lemma class_reads v d length r rest : class_ok v → default 0 d + schema_height fs ≤ Reader_recursionLimit →
  R_rest r = pieces_bytes (schema_pieces fs v) ++ rest →
  match length with Some n => n | None => R_len r - R_pos r end = blen (pieces_bytes (schema_pieces fs v)) →
  ∃ r', dec r length None d None = Ok (schema_norm fs v new, r') ∧ moved r r' (blen (pieces_bytes (schema_pieces fs v))).
Proof.
  intros [Hok _] Hd Hr Hlen. pose proof (schema_height_nonneg fs).
  destruct (schema_reads fs (switch (default 0 d)) v (default 0 d) Hlaws new (Hcases _) Hok (Hready v) Hd) as [Hps Hrun].
  rewrite Hdec, <-Hrun. eapply (decode_with_pieces _ _ _ _ _ None); [lia|done|exact Hr|exact Hlen].
Qed.

Lemma class_decodes v d : class_ok v → d + schema_height fs ≤ Reader_recursionLimit →
  decodes dec d (pieces_bytes (schema_pieces fs v)) (schema_norm fs v new).
Proof. intros Hv Hd r rest Hr. by eapply class_reads. Qed.

Lemma class_whole v : class_ok v → schema_height fs ≤ Reader_recursionLimit →
  ∃ r, dec (R_create (pieces_bytes (schema_pieces fs v))) None None None None = Ok (schema_norm fs v new, r).
Proof.
  intros Hv Hd. destruct (class_reads v None None (R_create (pieces_bytes (schema_pieces fs v))) []) as (r' & H & _);
    [done|simpl; lia| | |by exists r'].
  - unfold R_rest. by rewrite R_create_pos, R_create_buf, app_nil_r.
  - rewrite R_len_buf, R_create_pos, R_create_buf. lia.
Qed.

Lemma class_safe : decoder_safe dec.
Proof. intros r l e d t. rewrite Hdec. apply decode_with_safe, Hsafe. Qed.

Lemma class_encode_default v w d : enc v w d = enc v (Some (default W_create w)) (Some (default 0 d)).
Proof. by rewrite !Henc. Qed.

Lemma class_decode_default r l e d t : dec r l e d t = dec r l e (Some (default 0 d)) t.
Proof. by rewrite !Hdec. Qed.

Definition schema_codec : Codec enc dec := {|
  c_ok := class_ok;
  c_bytes v := pieces_bytes (schema_pieces fs v);
  c_norm v := schema_norm fs v new;
  c_height := schema_height fs;
  c_appends := class_appends;
  c_decodes := class_decodes;
  c_whole := class_whole;
  c_safe := class_safe;
  c_encode_default := class_encode_default;
  c_decode_default := class_decode_default;
|}.
End Build.

(** *** Classes without fields *)

Lemma skip_loop_safe {M} (push : bytes → M → M) depth fuel : ∀ end_ e m r,
  end_ - R_pos r ≤ Z.of_nat fuel → safe r (skip_loop push depth fuel end_ e m r).
Proof.
  induction fuel as [|fuel IH]; intros end_ e m r Hf; simpl.
  - rewrite (proj2 (Z.ltb_ge _ _)) by lia. by destruct e.
  - destruct (_ <? _); [|by destruct e].
    pose proof (R_tag_advances r) as Ha. destruct (R_tag r) as [[tag r1]| |]; [|done|done].
    destruct Ha as [Hb Hp]. simpl. case_bool_decide; [split; [done|lia]|].
    pose proof (R_skipType_advances (Z.land tag 7) depth tag r1) as Hs.
    destruct (R_skipType _ _ _ r1) as [r2| |]; [|done|done]. destruct Hs as [Hb' Hp']. simpl.
    match goal with |- context [skip_loop _ _ _ _ _ ?m' r2] => specialize (IH end_ e m' r2 ltac:(lia)) end.
    unfold safe in *. destruct (skip_loop _ _ _ _ _ _ _) as [[? ?]| |]; [|done|done]. destruct IH. split; [congruence|lia].
Qed.

Lemma decode_skipping_safe {M} (push : bytes → M → M) depth new r l e t :
  safe r (decode_skipping push depth new r l e t).
Proof. unfold decode_skipping, depth_check. destruct (_ <? _); [done|]. apply skip_loop_safe. lia. Qed.

Section Empty.
Context {M : Type} (enc : M → option Writer → option Z → res Writer) (dec : decoder M).
Context (new : M) (unknowns : M → option (list bytes)) (push : bytes → M → M).
Context (Henc : ∀ v w d, enc v w d = depth_check util_recursionLimit (default 0 d)
  (Ok (put_unknowns (unknowns v) (default W_create w)))).
Context (Hdec : ∀ r l e d t, dec r l e d t = decode_skipping push (default 0 d) new r l e t).

Lemma empty_appends v d : unknowns v = None → d + 0 ≤ util_recursionLimit →
  appends (λ w, enc v (Some w) (Some d)) [].
Proof.
  intros Hu Hd w b st Hw. rewrite Henc, Hu. unfold depth_check. cbn [from_option id]. rewrite (proj2 (Z.ltb_ge _ _)) by lia.
  exists w. by rewrite app_nil_r.
Qed.

Lemma skip_nothing r l d : default 0 d ≤ Reader_recursionLimit → default (R_len r) ((λ n, R_pos r + n) <$> l) = R_pos r →
  dec r l None d None = Ok (new, r).
Proof.
  intros Hd Hl. rewrite Hdec. unfold decode_skipping, depth_check. rewrite (proj2 (Z.ltb_ge _ _)) by lia.
  replace (match l with Some l => R_pos r + l | None => R_len r end) with (R_pos r) by (by destruct l).
  rewrite Z.sub_diag. simpl. by rewrite Z.ltb_irrefl.
Qed.

Lemma empty_decodes v d : unknowns v = None → d + 0 ≤ Reader_recursionLimit → decodes dec d [] new.
Proof.
  intros _ Hd r rest _. exists r. split; [|split; [done|unfold blen; simpl; lia]].
  apply skip_nothing; simpl; [lia|unfold blen; simpl; lia].
Qed.

Lemma empty_whole v : unknowns v = None → 0 ≤ Reader_recursionLimit →
  ∃ r, dec (R_create []) None None None None = Ok (new, r).
Proof.
  intros _ Hd. eexists. apply skip_nothing; simpl; [lia|]. by rewrite R_len_buf, R_create_pos, R_create_buf.
Qed.

Lemma empty_safe : decoder_safe dec.
Proof. intros r l e d t. rewrite Hdec. apply decode_skipping_safe. Qed.

Lemma empty_encode_default v w d : enc v w d = enc v (Some (default W_create w)) (Some (default 0 d)).
Proof. by rewrite !Henc. Qed.

Lemma empty_decode_default r l e d t : dec r l e d t = dec r l e (Some (default 0 d)) t.
Proof. by rewrite !Hdec. Qed.

Definition empty_codec : Codec enc dec := {|
  c_ok v := unknowns v = None;
  c_bytes _ := [];
  c_norm _ := new;
  c_height := 0;
  c_appends := empty_appends;
  c_decodes := empty_decodes;
  c_whole := empty_whole;
  c_safe := empty_safe;
  c_encode_default := empty_encode_default;
  c_decode_default := empty_decode_default;
|}.
End Empty.

(** *** Classes with required fields *)

(** [decode] runs the loop of [dec0] and then rejects a message some required
    field of which was not set. *)
Section Checked.
Context {M : Type} (enc : M → option Writer → option Z → res Writer) (dec0 dec : decoder M) (C : Codec enc dec0).
Context (missing : M → option string).
Context (Hdec : ∀ r l e d t, dec r l e d t =
  let! '(m, r') := dec0 r l e d t in match missing m with Some err => Throw err | None => Ok (m, r') end).
Context (Hset : ∀ v, missing (c_norm v) = None).

Lemma checked_decodes v d : c_ok v → d + c_height ≤ Reader_recursionLimit → decodes dec d (c_bytes v) (c_norm v).
Proof.
  intros Hv Hd r rest Hr. destruct (c_decodes v d Hv Hd r rest Hr) as (r' & H & Hm).
  exists r'. split; [|done]. rewrite Hdec, H. simpl. by rewrite Hset.
Qed.

Lemma checked_whole v : c_ok v → c_height ≤ Reader_recursionLimit →
  ∃ r, dec (R_create (c_bytes v)) None None None None = Ok (c_norm v, r).
Proof.
  intros Hv Hd. destruct (c_whole v Hv Hd) as (r & H). exists r. rewrite Hdec, H. simpl. by rewrite Hset.
Qed.

Lemma checked_safe : decoder_safe dec.
Proof.
  intros r l e d t. rewrite Hdec. apply safe_bind; [apply c_safe|]. intros m r' _ _.
  by destruct (missing m).
Qed.

Lemma checked_decode_default r l e d t : dec r l e d t = dec r l e (Some (default 0 d)) t.
Proof. by rewrite !Hdec, c_decode_default. Qed.

Definition checked_codec : Codec enc dec := {|
  c_ok := c_ok;
  c_bytes := c_bytes;
  c_norm := c_norm;
  c_height := c_height;
  c_appends := c_appends;
  c_decodes := checked_decodes;
  c_whole := checked_whole;
  c_safe := checked_safe;
  c_encode_default := c_encode_default;
  c_decode_default := checked_decode_default;
|}.
End Checked.

(** *** Classes that contain themselves *)

Lemma decode_loop_ext {M} (switch switch' : Z → Z → M → Reader → option (res (M * Reader))) push depth fuel :
  (∀ f w m r, switch f w m r = switch' f w m r) → ∀ end_ e m r,
  decode_loop switch push depth fuel end_ e m r = decode_loop switch' push depth fuel end_ e m r.
Proof.
  intros Hsw. induction fuel as [|fuel IH]; intros end_ e m r; simpl; [done|]. destruct (_ <? _); [|done].
  destruct (R_tag r) as [[tag r1]| |]; simpl; [|done|done]. destruct (bool_decide _); [done|]. rewrite Hsw.
  destruct (switch' _ _ m r1) as [c|].
  - destruct c as [[m' r']| |]; simpl; [apply IH|done|done].
  - destruct (R_skipType _ _ _ r1); simpl; [apply IH|done|done].
Qed.

Lemma decode_with_ext {M} (switch switch' : Z → Z → M → Reader → option (res (M * Reader))) push depth new r l e t :
  (∀ f w m r, switch f w m r = switch' f w m r) →
  decode_with switch push depth new r l e t = decode_with switch' push depth new r l e t.
Proof. intros Hsw. unfold decode_with. f_equal. by apply decode_loop_ext. Qed.

Lemma dec_push_ext {M V} (dec dec' : decoder V) depth (get : M → list V) set m r :
  (∀ r l e t, dec r l e (Some (depth + 1)) t = dec' r l e (Some (depth + 1)) t) →
  dec_push dec depth get set m r = dec_push dec' depth get set m r.
Proof. intros H. unfold dec_push. destruct (R_uint32 r) as [[len r1]| |]; simpl; [|done|done]. by rewrite H. Qed.

Section Nested.
Context {M : Type} (new : M) (push : bytes → M → M).
Context (switch : decoder M → Z → Z → Z → M → Reader → option (res (M * Reader))).
(** The inner messages are decoded one level deeper. *)
Context (Hext : ∀ dec dec' d f w m r,
  (∀ r l e t, dec r l e (Some (d + 1)) t = dec' r l e (Some (d + 1)) t) →
  switch dec d f w m r = switch dec' d f w m r).
Context (Hsafe : ∀ dec d, decoder_safe dec → switch_safe (switch dec d)).

Definition nested_body (dec : decoder M) : decoder M := λ reader length _end _depth _target,
  decode_with (switch dec (default 0 _depth)) push (default 0 _depth) new reader length _end _target.

(** The recursion limit is enough: [decode] calls itself for the inner
    messages, at every level. *)
Lemma decode_nested_unfold r l e d t :
  decode_nested nested_body r l e d t = nested_body (decode_nested nested_body) r l e d t.
Proof.
  unfold decode_nested at 1. destruct (Z.ltb_spec Reader_recursionLimit (default 0 d)) as [Hd|Hd].
  - replace (Z.to_nat _) with O by lia. simpl. unfold nested_body, decode_with, depth_check.
    by rewrite (proj2 (Z.ltb_lt _ _)).
  - replace (Z.to_nat (Reader_recursionLimit + 1 - default 0 d))
      with (S (Z.to_nat (Reader_recursionLimit + 1 - (default 0 d + 1)))) by lia.
    cbn [decode_levels]. unfold nested_body at 1 3. apply decode_with_ext. intros f w m r'. by apply Hext.
Qed.

Lemma decode_nested_safe : decoder_safe (decode_nested nested_body).
Proof.
  assert (H : ∀ (n : nat) r l e d t, Reader_recursionLimit + 1 - default 0 d ≤ Z.of_nat n →
    safe r (decode_nested nested_body r l e d t)).
  2: { intros r l e d t. apply (H (Z.to_nat (Reader_recursionLimit + 1 - default 0 d))). lia. }
  induction n as [|n IH]; intros r l e d t Hn; rewrite decode_nested_unfold; unfold nested_body at 1.
  - unfold decode_with, depth_check. by rewrite (proj2 (Z.ltb_lt _ _)) by lia.
  - destruct (Z.ltb_spec Reader_recursionLimit (default 0 d)) as [Hd|Hd].
    + unfold decode_with, depth_check. by rewrite (proj2 (Z.ltb_lt _ _)) by lia.
    + rewrite (decode_with_ext _ (switch (λ r l e d' t, if default 0 d <? default 0 d' then decode_nested nested_body r l e d' t
        else Throw "") (default 0 d))).
      * apply decode_with_safe, Hsafe. intros r' l' e' d' t'. destruct (Z.ltb_spec (default 0 d) (default 0 d')); [|done].
        apply IH. lia.
      * intros f w m r'. apply Hext. intros. cbn [from_option id]. by rewrite (proj2 (Z.ltb_lt _ _)) by lia.
Qed.
End Nested.

(** The codec for messages with no level left: there are none. *)
Definition void_codec {M} (enc : M → option Writer → option Z → res Writer) (dec : decoder M)
    (Hsafe : decoder_safe dec)
    (Henc : ∀ v w d, enc v w d = enc v (Some (default W_create w)) (Some (default 0 d)))
    (Hdec : ∀ r l e d t, dec r l e d t = dec r l e (Some (default 0 d)) t) : Codec enc dec := {|
  c_ok _ := False;
  c_bytes _ := [];
  c_norm v := v;
  c_height := 0;
  c_appends _ _ H := match H with end;
  c_decodes _ _ H := match H with end;
  c_whole _ H := match H with end;
  c_safe := Hsafe;
  c_encode_default := Henc;
  c_decode_default := Hdec;
|}.

(** ** Round trips *)

(** [X.encode(v).finish()]. *)
Definition to_wire {V} (enc : V → option Writer → option Z → res Writer) (v : V) : res bytes :=
  let! w := enc v None None in Ok (W_finish w).

(** Write messages one after another with [encodeDelimited], on one writer. *)
Fixpoint write_stream {V} (encodeDelimited : V → option Writer → res Writer) (vs : list V) (w : Writer) : res Writer :=
  match vs with
  | [] => Ok w
  | v :: vs' => let! w' := encodeDelimited v (Some w) in write_stream encodeDelimited vs' w'
  end.

(** Read [n] messages one after another with [decodeDelimited], on one reader. *)
Fixpoint read_stream {V} (decodeDelimited : Reader → res (V * Reader)) (n : nat) (r : Reader) : res (list V * Reader) :=
  match n with
  | O => Ok ([], r)
  | S n' => let! '(v, r1) := decodeDelimited r in
            let! '(vs, r2) := read_stream decodeDelimited n' r1 in Ok (v :: vs, r2)
  end.

Section Roundtrip.
Context {V : Type} (enc : V → option Writer → option Z → res Writer) (dec : decoder V) {C : Codec enc dec}.
Context (Hu : c_height ≤ util_recursionLimit) (Hr : c_height ≤ Reader_recursionLimit).

Lemma codec_roundtrip v : c_ok v → ∃ b, to_wire enc v = Ok b ∧ decode_bytes dec b = Ok (c_norm v).
Proof.
  intros Hv. unfold to_wire, decode_bytes. rewrite c_encode_default.
  destruct (c_appends v 0 Hv Hu W_create [] [] W_create_view) as (w & Hw & Hview). simpl in Hview |- *. rewrite Hw. simpl.
  eexists. split; [done|]. rewrite (W_finish_view _ _ Hview). destruct (c_whole v Hv Hr) as (r & ->). done.
Qed.

Lemma codec_terminates b : decode_bytes dec b ≠ NoFuel.
Proof.
  unfold decode_bytes. pose proof (c_safe (R_create b) None None None None) as H.
  unfold safe in H. by destruct (dec _ _ _ _ _) as [[? ?]| |].
Qed.

(** The bytes of one message of a stream. *)
Definition frame_bytes (v : V) : bytes := uint32_bytes (blen (c_bytes v)) ++ c_bytes v.

Lemma delimited_appends v : c_ok v → ∀ w b, W_view w = [b] →
  ∃ w', delimited enc v (Some w) = Ok w' ∧ W_view w' = [b ++ frame_bytes v].
Proof.
  intros Hv w b Hw. unfold delimited, frame_bytes. rewrite (W_len_view _ _ _ Hw).
  destruct (Z.eqb_spec (blen b) 0) as [Hb|Hb]; cbn [negb]; rewrite c_encode_default; cbn [from_option id].
  - destruct b; [|unfold blen in Hb; simpl in Hb; lia].
    destruct (c_appends v 0 Hv Hu _ _ _ Hw) as (w1 & -> & H1). simpl. eexists. split; [done|]. by apply W_ldelim_top.
  - destruct (c_appends v 0 Hv Hu _ _ _ (W_fork_view _ _ _ Hw)) as (w1 & -> & H1). simpl. eexists. split; [done|].
    by erewrite W_ldelim_view.
Qed.

Lemma stream_appends vs : Forall c_ok vs → ∀ w b, W_view w = [b] →
  ∃ w', write_stream (delimited enc) vs w = Ok w' ∧ W_view w' = [b ++ concat (frame_bytes <$> vs)].
Proof.
  induction 1 as [|v vs Hv Hvs IH]; intros w b Hw; csimpl; [exists w; by rewrite app_nil_r|].
  destruct (delimited_appends v Hv w b Hw) as (w1 & -> & H1). simpl.
  destruct (IH w1 _ H1) as (w2 & H2 & Hv2). exists w2. by rewrite app_assoc.
Qed.

Lemma delimited_reads v r rest : msg_ok enc dec v → R_rest r = frame_bytes v ++ rest →
  ∃ r', decode_delimited dec r = Ok (c_norm v, r') ∧ R_rest r' = rest.
Proof.
  intros [Hv Hlen] Hrest. unfold decode_delimited, frame_bytes in *. rewrite <-app_assoc in Hrest.
  destruct (R_uint32_reads (blen (c_bytes v))) with (r := r) (rest := c_bytes v ++ rest) as (r1 & -> & Hm1); [|done|].
  { pose proof (blen_nonneg (c_bytes v)). unfold len_ok in Hlen. lia. }
  simpl. rewrite c_decode_default. cbn [from_option id]. pose proof (R_rest_moved _ _ _ _ Hrest Hm1) as Hr1.
  destruct (c_decodes v 0 Hv Hr r1 rest Hr1) as (r' & H & Hm). exists r'. split; [done|]. by eapply R_rest_moved.
Qed.

Lemma stream_reads vs : Forall (msg_ok enc dec) vs → ∀ r rest, R_rest r = concat (frame_bytes <$> vs) ++ rest →
  ∃ r', read_stream (decode_delimited dec) (length vs) r = Ok (c_norm <$> vs, r') ∧ R_rest r' = rest.
Proof.
  induction 1 as [|v vs Hv Hvs IH]; intros r rest Hrest; csimpl in *; [by exists r|]. rewrite <-app_assoc in Hrest.
  destruct (delimited_reads v r _ Hv Hrest) as (r1 & -> & Hr1). simpl.
  destruct (IH r1 rest Hr1) as (r2 & -> & Hr2). simpl. by exists r2.
Qed.

(** What [encodeDelimited] writes, [decodeDelimited] reads back in order. *)
Lemma stream_roundtrip vs : Forall (msg_ok enc dec) vs →
  ∃ w r, write_stream (delimited enc) vs W_create = Ok w ∧
    read_stream (decode_delimited dec) (length vs) (R_create (W_finish w)) = Ok (c_norm <$> vs, r) ∧ R_rest r = [].
Proof.
  intros Hvs. destruct (stream_appends vs) with (w := W_create) (b := @nil Byte.byte) as (w & H1 & Hw).
  { eapply Forall_impl; [exact Hvs|]. by intros v []. }
  { apply W_create_view. }
  destruct (stream_reads vs Hvs (R_create (W_finish w)) []) as (r & H2 & Hr2); [|by exists w, r].
  unfold R_rest. by rewrite (W_finish_view _ _ Hw), R_create_buf, R_create_pos, app_nil_r.
Qed.
End Roundtrip.

End Schema.

#[export] Hint Resolve kString_laws kBytes_laws kBool_laws kInt32_laws kInt64_laws kUint64_laws
  kText_laws kDouble_laws explicit_laws : nonoka.
#[export] Hint Resolve c_safe : nonoka.

(** A generated setter. *)
Ltac solve_lens := split; [reflexivity|reflexivity|by intros []].

(** The laws of one field of a schema. *)
Ltac solve_field :=
  first
    [ apply opt_field_laws; [solve_tag|solve [eauto with nonoka]|solve_lens]
    | apply rep_field_laws; [solve_tag|solve [eauto with nonoka]|solve_lens]
    | apply packed_field_laws; [solve_tag|reflexivity|solve [eauto with nonoka]|solve_lens]
    | apply nums_field_laws; [solve_tag|reflexivity|solve [eauto with nonoka]|solve_lens]
    | apply req_field_laws; [solve_tag|solve [eauto with nonoka]]
    | apply oneof_field_laws; [solve_tag|solve [eauto with nonoka]]
    | apply oneof_msg_field_laws; solve_tag
    | apply msg_field_laws; [solve_tag|solve_lens]
    | apply msgs_field_laws; [solve_tag|solve_lens] ].

(** The obligations of [schema_codec] for a class whose code is that of its
    fields. *)
Ltac solve_fields := repeat (apply Forall_cons; split); try apply Forall_nil_2; solve_field.
Ltac solve_cases := intros d; repeat (apply Forall_cons; split); try apply Forall_nil_2; intros m r; reflexivity.
Ltac solve_ready := intros v; repeat split.
Ltac solve_switch :=
  intros f w m r c;
  repeat match goal with
  | |- context [match ?x with _ => _ end] => destruct x; try discriminate
  end;
  first
    [ intros ->%switch_when; apply dec_opt_safe; solve [eauto with nonoka]
    | apply dec_numbers_safe; solve [eauto with nonoka]
    | intros ->%switch_when; apply dec_set_safe; solve [eauto with nonoka]
    | intros ->%switch_when; apply dec_each_safe; solve [eauto with nonoka]
    | intros ->%switch_when; first [apply dec_push_safe | apply dec_msg_safe]; first [assumption | apply c_safe] ].
