(* ===== verification/ProtoMessages.v ===== *)
(** * Generated message codecs ([web/app/lib/proto/im.js])

    One record per message class that travels inside a packet, and per class
    its [encode], [encodeDelimited], [decode] and [decodeDelimited].  A field
    is [Some v] when the object has it as an own property that is not null
    and [None] when reads fall through to the prototype's default; a repeated
    field is the array the constructor creates.  [$unknowns] is the last
    field. *)

From S2P Require Import Prelude JsNum ProtoRuntime.
Open Scope Z_scope.

Section Messages.
Context `{RT : Runtime}.

(** ** [SendMessageRequest] *)

Record SendMessageRequest := mkSendMessageRequest {
  SendMessageRequest_topic : option string;
  SendMessageRequest_msgType : option Z;
  SendMessageRequest_content : option bytes;
  SendMessageRequest_clientMsgId : option string;
  SendMessageRequest_mentionedUserIds : list long;
  SendMessageRequest_unknowns : option (list bytes);
}.

Definition SendMessageRequest_new : SendMessageRequest :=
  mkSendMessageRequest None None None None [] None.

Definition set_SendMessageRequest_topic (v : option string) (m : SendMessageRequest) : SendMessageRequest :=
  mkSendMessageRequest v (SendMessageRequest_msgType m) (SendMessageRequest_content m) (SendMessageRequest_clientMsgId m) (SendMessageRequest_mentionedUserIds m) (SendMessageRequest_unknowns m).
Definition set_SendMessageRequest_msgType (v : option Z) (m : SendMessageRequest) : SendMessageRequest :=
  mkSendMessageRequest (SendMessageRequest_topic m) v (SendMessageRequest_content m) (SendMessageRequest_clientMsgId m) (SendMessageRequest_mentionedUserIds m) (SendMessageRequest_unknowns m).
Definition set_SendMessageRequest_content (v : option bytes) (m : SendMessageRequest) : SendMessageRequest :=
  mkSendMessageRequest (SendMessageRequest_topic m) (SendMessageRequest_msgType m) v (SendMessageRequest_clientMsgId m) (SendMessageRequest_mentionedUserIds m) (SendMessageRequest_unknowns m).
Definition set_SendMessageRequest_clientMsgId (v : option string) (m : SendMessageRequest) : SendMessageRequest :=
  mkSendMessageRequest (SendMessageRequest_topic m) (SendMessageRequest_msgType m) (SendMessageRequest_content m) v (SendMessageRequest_mentionedUserIds m) (SendMessageRequest_unknowns m).
Definition set_SendMessageRequest_mentionedUserIds (v : list long) (m : SendMessageRequest) : SendMessageRequest :=
  mkSendMessageRequest (SendMessageRequest_topic m) (SendMessageRequest_msgType m) (SendMessageRequest_content m) (SendMessageRequest_clientMsgId m) v (SendMessageRequest_unknowns m).
Definition SendMessageRequest_push_unknown (b : bytes) (m : SendMessageRequest) : SendMessageRequest :=
  mkSendMessageRequest (SendMessageRequest_topic m) (SendMessageRequest_msgType m) (SendMessageRequest_content m) (SendMessageRequest_clientMsgId m) (SendMessageRequest_mentionedUserIds m)
    (Some (default [] (SendMessageRequest_unknowns m) ++ [b])).

Definition SendMessageRequest_encode (message : SendMessageRequest) (writer : option Writer) (_depth : option Z) : res Writer :=
  let writer := default W_create writer in
  let _depth := default 0 _depth in
  depth_check util_recursionLimit _depth (
    let writer := own (SendMessageRequest_topic message) (λ v w, W_string v (W_uint32 10 w)) writer in
    let writer := own (SendMessageRequest_msgType message) (λ v w, W_int32 v (W_uint32 16 w)) writer in
    let writer := own (SendMessageRequest_content message) (λ v w, W_bytes v (W_uint32 26 w)) writer in
    let writer := own (SendMessageRequest_clientMsgId message) (λ v w, W_string v (W_uint32 34 w)) writer in
    let writer := packed_int64 42 (SendMessageRequest_mentionedUserIds message) writer in
    Ok (put_unknowns (SendMessageRequest_unknowns message) writer)).

Definition SendMessageRequest_encodeDelimited (message : SendMessageRequest) (writer : option Writer) : res Writer :=
  delimited SendMessageRequest_encode message writer.

(** The [switch] of [SendMessageRequest.decode]. *)
Definition SendMessageRequest_switch (_depth field wireType : Z) (message : SendMessageRequest) (reader : Reader)
    : option (res (SendMessageRequest * Reader)) :=
  match field with
  | 1 => when_wire wireType 2 (dec_opt R_stringVerify string_present set_SendMessageRequest_topic message reader)
  | 2 => when_wire wireType 0 (dec_opt R_int32 int32_present set_SendMessageRequest_msgType message reader)
  | 3 => when_wire wireType 2 (dec_opt R_bytes bytes_present set_SendMessageRequest_content message reader)
  | 4 => when_wire wireType 2 (dec_opt R_stringVerify string_present set_SendMessageRequest_clientMsgId message reader)
  | 5 => dec_packed wireType SendMessageRequest_mentionedUserIds set_SendMessageRequest_mentionedUserIds message reader
  | _ => None
  end.

Definition SendMessageRequest_decode : decoder SendMessageRequest := λ reader length _end _depth _target,
  let _depth := default 0 _depth in
  decode_with (SendMessageRequest_switch _depth) SendMessageRequest_push_unknown _depth SendMessageRequest_new reader length _end _target.

Definition SendMessageRequest_decodeDelimited (reader : Reader) : res (SendMessageRequest * Reader) :=
  decode_delimited SendMessageRequest_decode reader.

(** ** [SendMessageReply] *)

Record SendMessageReply := mkSendMessageReply {
  SendMessageReply_clientMsgId : option string;
  SendMessageReply_msgId : option long;
  SendMessageReply_timestamp : option long;
  SendMessageReply_topicSeq : option long;
  SendMessageReply_unknowns : option (list bytes);
}.

Definition SendMessageReply_new : SendMessageReply :=
  mkSendMessageReply None None None None None.

Definition set_SendMessageReply_clientMsgId (v : option string) (m : SendMessageReply) : SendMessageReply :=
  mkSendMessageReply v (SendMessageReply_msgId m) (SendMessageReply_timestamp m) (SendMessageReply_topicSeq m) (SendMessageReply_unknowns m).
Definition set_SendMessageReply_msgId (v : option long) (m : SendMessageReply) : SendMessageReply :=
  mkSendMessageReply (SendMessageReply_clientMsgId m) v (SendMessageReply_timestamp m) (SendMessageReply_topicSeq m) (SendMessageReply_unknowns m).
Definition set_SendMessageReply_timestamp (v : option long) (m : SendMessageReply) : SendMessageReply :=
  mkSendMessageReply (SendMessageReply_clientMsgId m) (SendMessageReply_msgId m) v (SendMessageReply_topicSeq m) (SendMessageReply_unknowns m).
Definition set_SendMessageReply_topicSeq (v : option long) (m : SendMessageReply) : SendMessageReply :=
  mkSendMessageReply (SendMessageReply_clientMsgId m) (SendMessageReply_msgId m) (SendMessageReply_timestamp m) v (SendMessageReply_unknowns m).
Definition SendMessageReply_push_unknown (b : bytes) (m : SendMessageReply) : SendMessageReply :=
  mkSendMessageReply (SendMessageReply_clientMsgId m) (SendMessageReply_msgId m) (SendMessageReply_timestamp m) (SendMessageReply_topicSeq m)
    (Some (default [] (SendMessageReply_unknowns m) ++ [b])).

Definition SendMessageReply_encode (message : SendMessageReply) (writer : option Writer) (_depth : option Z) : res Writer :=
  let writer := default W_create writer in
  let _depth := default 0 _depth in
  depth_check util_recursionLimit _depth (
    let writer := own (SendMessageReply_clientMsgId message) (λ v w, W_string v (W_uint32 10 w)) writer in
    let writer := own (SendMessageReply_msgId message) (λ v w, W_int64 v (W_uint32 16 w)) writer in
    let writer := own (SendMessageReply_timestamp message) (λ v w, W_int64 v (W_uint32 24 w)) writer in
    let writer := own (SendMessageReply_topicSeq message) (λ v w, W_uint64 v (W_uint32 32 w)) writer in
    Ok (put_unknowns (SendMessageReply_unknowns message) writer)).

Definition SendMessageReply_encodeDelimited (message : SendMessageReply) (writer : option Writer) : res Writer :=
  delimited SendMessageReply_encode message writer.

(** The [switch] of [SendMessageReply.decode]. *)
Definition SendMessageReply_switch (_depth field wireType : Z) (message : SendMessageReply) (reader : Reader)
    : option (res (SendMessageReply * Reader)) :=
  match field with
  | 1 => when_wire wireType 2 (dec_opt R_stringVerify string_present set_SendMessageReply_clientMsgId message reader)
  | 2 => when_wire wireType 0 (dec_opt R_int64 long_nonzero set_SendMessageReply_msgId message reader)
  | 3 => when_wire wireType 0 (dec_opt R_int64 long_nonzero set_SendMessageReply_timestamp message reader)
  | 4 => when_wire wireType 0 (dec_opt R_uint64 long_nonzero set_SendMessageReply_topicSeq message reader)
  | _ => None
  end.

Definition SendMessageReply_decode : decoder SendMessageReply := λ reader length _end _depth _target,
  let _depth := default 0 _depth in
  decode_with (SendMessageReply_switch _depth) SendMessageReply_push_unknown _depth SendMessageReply_new reader length _end _target.

Definition SendMessageReply_decodeDelimited (reader : Reader) : res (SendMessageReply * Reader) :=
  decode_delimited SendMessageReply_decode reader.

(** ** [MessagePush] *)

Record MessagePush := mkMessagePush {
  MessagePush_msgId : option long;
  MessagePush_topic : option string;
  MessagePush_senderId : option long;
  MessagePush_msgType : option Z;
  MessagePush_content : option bytes;
  MessagePush_timestamp : option long;
  MessagePush_topicSeq : option long;
  MessagePush_clientMsgId : option string;
  MessagePush_recalled : option bool;
  MessagePush_mentionedUserIds : list long;
  MessagePush_unknowns : option (list bytes);
}.

Definition MessagePush_new : MessagePush :=
  mkMessagePush None None None None None None None None None [] None.

Definition set_MessagePush_msgId (v : option long) (m : MessagePush) : MessagePush :=
  mkMessagePush v (MessagePush_topic m) (MessagePush_senderId m) (MessagePush_msgType m) (MessagePush_content m) (MessagePush_timestamp m) (MessagePush_topicSeq m) (MessagePush_clientMsgId m) (MessagePush_recalled m) (MessagePush_mentionedUserIds m) (MessagePush_unknowns m).
Definition set_MessagePush_topic (v : option string) (m : MessagePush) : MessagePush :=
  mkMessagePush (MessagePush_msgId m) v (MessagePush_senderId m) (MessagePush_msgType m) (MessagePush_content m) (MessagePush_timestamp m) (MessagePush_topicSeq m) (MessagePush_clientMsgId m) (MessagePush_recalled m) (MessagePush_mentionedUserIds m) (MessagePush_unknowns m).
Definition set_MessagePush_senderId (v : option long) (m : MessagePush) : MessagePush :=
  mkMessagePush (MessagePush_msgId m) (MessagePush_topic m) v (MessagePush_msgType m) (MessagePush_content m) (MessagePush_timestamp m) (MessagePush_topicSeq m) (MessagePush_clientMsgId m) (MessagePush_recalled m) (MessagePush_mentionedUserIds m) (MessagePush_unknowns m).
Definition set_MessagePush_msgType (v : option Z) (m : MessagePush) : MessagePush :=
  mkMessagePush (MessagePush_msgId m) (MessagePush_topic m) (MessagePush_senderId m) v (MessagePush_content m) (MessagePush_timestamp m) (MessagePush_topicSeq m) (MessagePush_clientMsgId m) (MessagePush_recalled m) (MessagePush_mentionedUserIds m) (MessagePush_unknowns m).
Definition set_MessagePush_content (v : option bytes) (m : MessagePush) : MessagePush :=
  mkMessagePush (MessagePush_msgId m) (MessagePush_topic m) (MessagePush_senderId m) (MessagePush_msgType m) v (MessagePush_timestamp m) (MessagePush_topicSeq m) (MessagePush_clientMsgId m) (MessagePush_recalled m) (MessagePush_mentionedUserIds m) (MessagePush_unknowns m).
Definition set_MessagePush_timestamp (v : option long) (m : MessagePush) : MessagePush :=
  mkMessagePush (MessagePush_msgId m) (MessagePush_topic m) (MessagePush_senderId m) (MessagePush_msgType m) (MessagePush_content m) v (MessagePush_topicSeq m) (MessagePush_clientMsgId m) (MessagePush_recalled m) (MessagePush_mentionedUserIds m) (MessagePush_unknowns m).
Definition set_MessagePush_topicSeq (v : option long) (m : MessagePush) : MessagePush :=
  mkMessagePush (MessagePush_msgId m) (MessagePush_topic m) (MessagePush_senderId m) (MessagePush_msgType m) (MessagePush_content m) (MessagePush_timestamp m) v (MessagePush_clientMsgId m) (MessagePush_recalled m) (MessagePush_mentionedUserIds m) (MessagePush_unknowns m).
Definition set_MessagePush_clientMsgId (v : option string) (m : MessagePush) : MessagePush :=
  mkMessagePush (MessagePush_msgId m) (MessagePush_topic m) (MessagePush_senderId m) (MessagePush_msgType m) (MessagePush_content m) (MessagePush_timestamp m) (MessagePush_topicSeq m) v (MessagePush_recalled m) (MessagePush_mentionedUserIds m) (MessagePush_unknowns m).
Definition set_MessagePush_recalled (v : option bool) (m : MessagePush) : MessagePush :=
  mkMessagePush (MessagePush_msgId m) (MessagePush_topic m) (MessagePush_senderId m) (MessagePush_msgType m) (MessagePush_content m) (MessagePush_timestamp m) (MessagePush_topicSeq m) (MessagePush_clientMsgId m) v (MessagePush_mentionedUserIds m) (MessagePush_unknowns m).
Definition set_MessagePush_mentionedUserIds (v : list long) (m : MessagePush) : MessagePush :=
  mkMessagePush (MessagePush_msgId m) (MessagePush_topic m) (MessagePush_senderId m) (MessagePush_msgType m) (MessagePush_content m) (MessagePush_timestamp m) (MessagePush_topicSeq m) (MessagePush_clientMsgId m) (MessagePush_recalled m) v (MessagePush_unknowns m).
Definition MessagePush_push_unknown (b : bytes) (m : MessagePush) : MessagePush :=
  mkMessagePush (MessagePush_msgId m) (MessagePush_topic m) (MessagePush_senderId m) (MessagePush_msgType m) (MessagePush_content m) (MessagePush_timestamp m) (MessagePush_topicSeq m) (MessagePush_clientMsgId m) (MessagePush_recalled m) (MessagePush_mentionedUserIds m)
    (Some (default [] (MessagePush_unknowns m) ++ [b])).

Definition MessagePush_encode (message : MessagePush) (writer : option Writer) (_depth : option Z) : res Writer :=
  let writer := default W_create writer in
  let _depth := default 0 _depth in
  depth_check util_recursionLimit _depth (
    let writer := own (MessagePush_msgId message) (λ v w, W_int64 v (W_uint32 8 w)) writer in
    let writer := own (MessagePush_topic message) (λ v w, W_string v (W_uint32 18 w)) writer in
    let writer := own (MessagePush_senderId message) (λ v w, W_int64 v (W_uint32 24 w)) writer in
    let writer := own (MessagePush_msgType message) (λ v w, W_int32 v (W_uint32 32 w)) writer in
    let writer := own (MessagePush_content message) (λ v w, W_bytes v (W_uint32 42 w)) writer in
    let writer := own (MessagePush_timestamp message) (λ v w, W_int64 v (W_uint32 48 w)) writer in
    let writer := own (MessagePush_topicSeq message) (λ v w, W_uint64 v (W_uint32 56 w)) writer in
    let writer := own (MessagePush_clientMsgId message) (λ v w, W_string v (W_uint32 66 w)) writer in
    let writer := own (MessagePush_recalled message) (λ v w, W_bool v (W_uint32 72 w)) writer in
    let writer := packed_int64 82 (MessagePush_mentionedUserIds message) writer in
    Ok (put_unknowns (MessagePush_unknowns message) writer)).

Definition MessagePush_encodeDelimited (message : MessagePush) (writer : option Writer) : res Writer :=
  delimited MessagePush_encode message writer.

(** The [switch] of [MessagePush.decode]. *)
Definition MessagePush_switch (_depth field wireType : Z) (message : MessagePush) (reader : Reader)
    : option (res (MessagePush * Reader)) :=
  match field with
  | 1 => when_wire wireType 0 (dec_opt R_int64 long_nonzero set_MessagePush_msgId message reader)
  | 2 => when_wire wireType 2 (dec_opt R_stringVerify string_present set_MessagePush_topic message reader)
  | 3 => when_wire wireType 0 (dec_opt R_int64 long_nonzero set_MessagePush_senderId message reader)
  | 4 => when_wire wireType 0 (dec_opt R_int32 int32_present set_MessagePush_msgType message reader)
  | 5 => when_wire wireType 2 (dec_opt R_bytes bytes_present set_MessagePush_content message reader)
  | 6 => when_wire wireType 0 (dec_opt R_int64 long_nonzero set_MessagePush_timestamp message reader)
  | 7 => when_wire wireType 0 (dec_opt R_uint64 long_nonzero set_MessagePush_topicSeq message reader)
  | 8 => when_wire wireType 2 (dec_opt R_stringVerify string_present set_MessagePush_clientMsgId message reader)
  | 9 => when_wire wireType 0 (dec_opt R_bool bool_present set_MessagePush_recalled message reader)
  | 10 => dec_packed wireType MessagePush_mentionedUserIds set_MessagePush_mentionedUserIds message reader
  | _ => None
  end.

Definition MessagePush_decode : decoder MessagePush := λ reader length _end _depth _target,
  let _depth := default 0 _depth in
  decode_with (MessagePush_switch _depth) MessagePush_push_unknown _depth MessagePush_new reader length _end _target.

Definition MessagePush_decodeDelimited (reader : Reader) : res (MessagePush * Reader) :=
  decode_delimited MessagePush_decode reader.

(** ** [PullRequest] *)

Record PullRequest := mkPullRequest {
  PullRequest_topic : option string;
  PullRequest_lastSeq : option long;
  PullRequest_limit : option Z;
  PullRequest_endSeq : option long;
  PullRequest_unknowns : option (list bytes);
}.

Definition PullRequest_new : PullRequest :=
  mkPullRequest None None None None None.

Definition set_PullRequest_topic (v : option string) (m : PullRequest) : PullRequest :=
  mkPullRequest v (PullRequest_lastSeq m) (PullRequest_limit m) (PullRequest_endSeq m) (PullRequest_unknowns m).
Definition set_PullRequest_lastSeq (v : option long) (m : PullRequest) : PullRequest :=
  mkPullRequest (PullRequest_topic m) v (PullRequest_limit m) (PullRequest_endSeq m) (PullRequest_unknowns m).
Definition set_PullRequest_limit (v : option Z) (m : PullRequest) : PullRequest :=
  mkPullRequest (PullRequest_topic m) (PullRequest_lastSeq m) v (PullRequest_endSeq m) (PullRequest_unknowns m).
Definition set_PullRequest_endSeq (v : option long) (m : PullRequest) : PullRequest :=
  mkPullRequest (PullRequest_topic m) (PullRequest_lastSeq m) (PullRequest_limit m) v (PullRequest_unknowns m).
Definition PullRequest_push_unknown (b : bytes) (m : PullRequest) : PullRequest :=
  mkPullRequest (PullRequest_topic m) (PullRequest_lastSeq m) (PullRequest_limit m) (PullRequest_endSeq m)
    (Some (default [] (PullRequest_unknowns m) ++ [b])).

Definition PullRequest_encode (message : PullRequest) (writer : option Writer) (_depth : option Z) : res Writer :=
  let writer := default W_create writer in
  let _depth := default 0 _depth in
  depth_check util_recursionLimit _depth (
    let writer := own (PullRequest_topic message) (λ v w, W_string v (W_uint32 10 w)) writer in
    let writer := own (PullRequest_lastSeq message) (λ v w, W_uint64 v (W_uint32 16 w)) writer in
    let writer := own (PullRequest_limit message) (λ v w, W_int32 v (W_uint32 24 w)) writer in
    let writer := own (PullRequest_endSeq message) (λ v w, W_uint64 v (W_uint32 32 w)) writer in
    Ok (put_unknowns (PullRequest_unknowns message) writer)).

Definition PullRequest_encodeDelimited (message : PullRequest) (writer : option Writer) : res Writer :=
  delimited PullRequest_encode message writer.

(** The [switch] of [PullRequest.decode]. *)
Definition PullRequest_switch (_depth field wireType : Z) (message : PullRequest) (reader : Reader)
    : option (res (PullRequest * Reader)) :=
  match field with
  | 1 => when_wire wireType 2 (dec_opt R_stringVerify string_present set_PullRequest_topic message reader)
  | 2 => when_wire wireType 0 (dec_opt R_uint64 long_nonzero set_PullRequest_lastSeq message reader)
  | 3 => when_wire wireType 0 (dec_opt R_int32 int32_present set_PullRequest_limit message reader)
  | 4 => when_wire wireType 0 (dec_opt R_uint64 long_nonzero set_PullRequest_endSeq message reader)
  | _ => None
  end.

Definition PullRequest_decode : decoder PullRequest := λ reader length _end _depth _target,
  let _depth := default 0 _depth in
  decode_with (PullRequest_switch _depth) PullRequest_push_unknown _depth PullRequest_new reader length _end _target.

Definition PullRequest_decodeDelimited (reader : Reader) : res (PullRequest * Reader) :=
  decode_delimited PullRequest_decode reader.

(** ** [PullMessage] *)

Record PullMessage := mkPullMessage {
  PullMessage_msgId : option long;
  PullMessage_topic : option string;
  PullMessage_senderId : option long;
  PullMessage_msgType : option Z;
  PullMessage_content : option bytes;
  PullMessage_timestamp : option long;
  PullMessage_topicSeq : option long;
  PullMessage_clientMsgId : option string;
  PullMessage_recalled : option bool;
  PullMessage_unknowns : option (list bytes);
}.

Definition PullMessage_new : PullMessage :=
  mkPullMessage None None None None None None None None None None.

Definition set_PullMessage_msgId (v : option long) (m : PullMessage) : PullMessage :=
  mkPullMessage v (PullMessage_topic m) (PullMessage_senderId m) (PullMessage_msgType m) (PullMessage_content m) (PullMessage_timestamp m) (PullMessage_topicSeq m) (PullMessage_clientMsgId m) (PullMessage_recalled m) (PullMessage_unknowns m).
Definition set_PullMessage_topic (v : option string) (m : PullMessage) : PullMessage :=
  mkPullMessage (PullMessage_msgId m) v (PullMessage_senderId m) (PullMessage_msgType m) (PullMessage_content m) (PullMessage_timestamp m) (PullMessage_topicSeq m) (PullMessage_clientMsgId m) (PullMessage_recalled m) (PullMessage_unknowns m).
Definition set_PullMessage_senderId (v : option long) (m : PullMessage) : PullMessage :=
  mkPullMessage (PullMessage_msgId m) (PullMessage_topic m) v (PullMessage_msgType m) (PullMessage_content m) (PullMessage_timestamp m) (PullMessage_topicSeq m) (PullMessage_clientMsgId m) (PullMessage_recalled m) (PullMessage_unknowns m).
Definition set_PullMessage_msgType (v : option Z) (m : PullMessage) : PullMessage :=
  mkPullMessage (PullMessage_msgId m) (PullMessage_topic m) (PullMessage_senderId m) v (PullMessage_content m) (PullMessage_timestamp m) (PullMessage_topicSeq m) (PullMessage_clientMsgId m) (PullMessage_recalled m) (PullMessage_unknowns m).
Definition set_PullMessage_content (v : option bytes) (m : PullMessage) : PullMessage :=
  mkPullMessage (PullMessage_msgId m) (PullMessage_topic m) (PullMessage_senderId m) (PullMessage_msgType m) v (PullMessage_timestamp m) (PullMessage_topicSeq m) (PullMessage_clientMsgId m) (PullMessage_recalled m) (PullMessage_unknowns m).
Definition set_PullMessage_timestamp (v : option long) (m : PullMessage) : PullMessage :=
  mkPullMessage (PullMessage_msgId m) (PullMessage_topic m) (PullMessage_senderId m) (PullMessage_msgType m) (PullMessage_content m) v (PullMessage_topicSeq m) (PullMessage_clientMsgId m) (PullMessage_recalled m) (PullMessage_unknowns m).
Definition set_PullMessage_topicSeq (v : option long) (m : PullMessage) : PullMessage :=
  mkPullMessage (PullMessage_msgId m) (PullMessage_topic m) (PullMessage_senderId m) (PullMessage_msgType m) (PullMessage_content m) (PullMessage_timestamp m) v (PullMessage_clientMsgId m) (PullMessage_recalled m) (PullMessage_unknowns m).
Definition set_PullMessage_clientMsgId (v : option string) (m : PullMessage) : PullMessage :=
  mkPullMessage (PullMessage_msgId m) (PullMessage_topic m) (PullMessage_senderId m) (PullMessage_msgType m) (PullMessage_content m) (PullMessage_timestamp m) (PullMessage_topicSeq m) v (PullMessage_recalled m) (PullMessage_unknowns m).
Definition set_PullMessage_recalled (v : option bool) (m : PullMessage) : PullMessage :=
  mkPullMessage (PullMessage_msgId m) (PullMessage_topic m) (PullMessage_senderId m) (PullMessage_msgType m) (PullMessage_content m) (PullMessage_timestamp m) (PullMessage_topicSeq m) (PullMessage_clientMsgId m) v (PullMessage_unknowns m).
Definition PullMessage_push_unknown (b : bytes) (m : PullMessage) : PullMessage :=
  mkPullMessage (PullMessage_msgId m) (PullMessage_topic m) (PullMessage_senderId m) (PullMessage_msgType m) (PullMessage_content m) (PullMessage_timestamp m) (PullMessage_topicSeq m) (PullMessage_clientMsgId m) (PullMessage_recalled m)
    (Some (default [] (PullMessage_unknowns m) ++ [b])).

Definition PullMessage_encode (message : PullMessage) (writer : option Writer) (_depth : option Z) : res Writer :=
  let writer := default W_create writer in
  let _depth := default 0 _depth in
  depth_check util_recursionLimit _depth (
    let writer := own (PullMessage_msgId message) (λ v w, W_int64 v (W_uint32 8 w)) writer in
    let writer := own (PullMessage_topic message) (λ v w, W_string v (W_uint32 18 w)) writer in
    let writer := own (PullMessage_senderId message) (λ v w, W_int64 v (W_uint32 24 w)) writer in
    let writer := own (PullMessage_msgType message) (λ v w, W_int32 v (W_uint32 32 w)) writer in
    let writer := own (PullMessage_content message) (λ v w, W_bytes v (W_uint32 42 w)) writer in
    let writer := own (PullMessage_timestamp message) (λ v w, W_int64 v (W_uint32 48 w)) writer in
    let writer := own (PullMessage_topicSeq message) (λ v w, W_uint64 v (W_uint32 56 w)) writer in
    let writer := own (PullMessage_clientMsgId message) (λ v w, W_string v (W_uint32 66 w)) writer in
    let writer := own (PullMessage_recalled message) (λ v w, W_bool v (W_uint32 72 w)) writer in
    Ok (put_unknowns (PullMessage_unknowns message) writer)).

Definition PullMessage_encodeDelimited (message : PullMessage) (writer : option Writer) : res Writer :=
  delimited PullMessage_encode message writer.

(** The [switch] of [PullMessage.decode]. *)
Definition PullMessage_switch (_depth field wireType : Z) (message : PullMessage) (reader : Reader)
    : option (res (PullMessage * Reader)) :=
  match field with
  | 1 => when_wire wireType 0 (dec_opt R_int64 long_nonzero set_PullMessage_msgId message reader)
  | 2 => when_wire wireType 2 (dec_opt R_stringVerify string_present set_PullMessage_topic message reader)
  | 3 => when_wire wireType 0 (dec_opt R_int64 long_nonzero set_PullMessage_senderId message reader)
  | 4 => when_wire wireType 0 (dec_opt R_int32 int32_present set_PullMessage_msgType message reader)
  | 5 => when_wire wireType 2 (dec_opt R_bytes bytes_present set_PullMessage_content message reader)
  | 6 => when_wire wireType 0 (dec_opt R_int64 long_nonzero set_PullMessage_timestamp message reader)
  | 7 => when_wire wireType 0 (dec_opt R_uint64 long_nonzero set_PullMessage_topicSeq message reader)
  | 8 => when_wire wireType 2 (dec_opt R_stringVerify string_present set_PullMessage_clientMsgId message reader)
  | 9 => when_wire wireType 0 (dec_opt R_bool bool_present set_PullMessage_recalled message reader)
  | _ => None
  end.

Definition PullMessage_decode : decoder PullMessage := λ reader length _end _depth _target,
  let _depth := default 0 _depth in
  decode_with (PullMessage_switch _depth) PullMessage_push_unknown _depth PullMessage_new reader length _end _target.

Definition PullMessage_decodeDelimited (reader : Reader) : res (PullMessage * Reader) :=
  decode_delimited PullMessage_decode reader.

(** ** [PullReply] *)

Record PullReply := mkPullReply {
  PullReply_messages : list PullMessage;
  PullReply_hasMore : option bool;
  PullReply_nextSeq : option long;
  PullReply_unknowns : option (list bytes);
}.

Definition PullReply_new : PullReply :=
  mkPullReply [] None None None.

Definition set_PullReply_messages (v : list PullMessage) (m : PullReply) : PullReply :=
  mkPullReply v (PullReply_hasMore m) (PullReply_nextSeq m) (PullReply_unknowns m).
Definition set_PullReply_hasMore (v : option bool) (m : PullReply) : PullReply :=
  mkPullReply (PullReply_messages m) v (PullReply_nextSeq m) (PullReply_unknowns m).
Definition set_PullReply_nextSeq (v : option long) (m : PullReply) : PullReply :=
  mkPullReply (PullReply_messages m) (PullReply_hasMore m) v (PullReply_unknowns m).
Definition PullReply_push_unknown (b : bytes) (m : PullReply) : PullReply :=
  mkPullReply (PullReply_messages m) (PullReply_hasMore m) (PullReply_nextSeq m)
    (Some (default [] (PullReply_unknowns m) ++ [b])).

Definition PullReply_encode (message : PullReply) (writer : option Writer) (_depth : option Z) : res Writer :=
  let writer := default W_create writer in
  let _depth := default 0 _depth in
  depth_check util_recursionLimit _depth (
    let! writer := nested_all 10 PullMessage_encode _depth (PullReply_messages message) writer in
    let writer := own (PullReply_hasMore message) (λ v w, W_bool v (W_uint32 16 w)) writer in
    let writer := own (PullReply_nextSeq message) (λ v w, W_uint64 v (W_uint32 24 w)) writer in
    Ok (put_unknowns (PullReply_unknowns message) writer)).

Definition PullReply_encodeDelimited (message : PullReply) (writer : option Writer) : res Writer :=
  delimited PullReply_encode message writer.

(** The [switch] of [PullReply.decode]. *)
Definition PullReply_switch (_depth field wireType : Z) (message : PullReply) (reader : Reader)
    : option (res (PullReply * Reader)) :=
  match field with
  | 1 => when_wire wireType 2 (dec_push PullMessage_decode _depth PullReply_messages set_PullReply_messages message reader)
  | 2 => when_wire wireType 0 (dec_opt R_bool bool_present set_PullReply_hasMore message reader)
  | 3 => when_wire wireType 0 (dec_opt R_uint64 long_nonzero set_PullReply_nextSeq message reader)
  | _ => None
  end.

Definition PullReply_decode : decoder PullReply := λ reader length _end _depth _target,
  let _depth := default 0 _depth in
  decode_with (PullReply_switch _depth) PullReply_push_unknown _depth PullReply_new reader length _end _target.

Definition PullReply_decodeDelimited (reader : Reader) : res (PullReply * Reader) :=
  decode_delimited PullReply_decode reader.

(** ** [AuthRequest] *)

Record AuthRequest := mkAuthRequest {
  AuthRequest_token : option string;
  AuthRequest_deviceId : option string;
  AuthRequest_unknowns : option (list bytes);
}.

Definition AuthRequest_new : AuthRequest :=
  mkAuthRequest None None None.

Definition set_AuthRequest_token (v : option string) (m : AuthRequest) : AuthRequest :=
  mkAuthRequest v (AuthRequest_deviceId m) (AuthRequest_unknowns m).
Definition set_AuthRequest_deviceId (v : option string) (m : AuthRequest) : AuthRequest :=
  mkAuthRequest (AuthRequest_token m) v (AuthRequest_unknowns m).
Definition AuthRequest_push_unknown (b : bytes) (m : AuthRequest) : AuthRequest :=
  mkAuthRequest (AuthRequest_token m) (AuthRequest_deviceId m)
    (Some (default [] (AuthRequest_unknowns m) ++ [b])).

Definition AuthRequest_encode (message : AuthRequest) (writer : option Writer) (_depth : option Z) : res Writer :=
  let writer := default W_create writer in
  let _depth := default 0 _depth in
  depth_check util_recursionLimit _depth (
    let writer := own (AuthRequest_token message) (λ v w, W_string v (W_uint32 10 w)) writer in
    let writer := own (AuthRequest_deviceId message) (λ v w, W_string v (W_uint32 18 w)) writer in
    Ok (put_unknowns (AuthRequest_unknowns message) writer)).

Definition AuthRequest_encodeDelimited (message : AuthRequest) (writer : option Writer) : res Writer :=
  delimited AuthRequest_encode message writer.

(** The [switch] of [AuthRequest.decode]. *)
Definition AuthRequest_switch (_depth field wireType : Z) (message : AuthRequest) (reader : Reader)
    : option (res (AuthRequest * Reader)) :=
  match field with
  | 1 => when_wire wireType 2 (dec_opt R_stringVerify string_present set_AuthRequest_token message reader)
  | 2 => when_wire wireType 2 (dec_opt R_stringVerify string_present set_AuthRequest_deviceId message reader)
  | _ => None
  end.

Definition AuthRequest_decode : decoder AuthRequest := λ reader length _end _depth _target,
  let _depth := default 0 _depth in
  decode_with (AuthRequest_switch _depth) AuthRequest_push_unknown _depth AuthRequest_new reader length _end _target.

Definition AuthRequest_decodeDelimited (reader : Reader) : res (AuthRequest * Reader) :=
  decode_delimited AuthRequest_decode reader.

(** ** [AuthResponse] *)

Record AuthResponse := mkAuthResponse {
  AuthResponse_success : option bool;
  AuthResponse_userId : option long;
  AuthResponse_deviceId : option string;
  AuthResponse_unknowns : option (list bytes);
}.

Definition AuthResponse_new : AuthResponse :=
  mkAuthResponse None None None None.

Definition set_AuthResponse_success (v : option bool) (m : AuthResponse) : AuthResponse :=
  mkAuthResponse v (AuthResponse_userId m) (AuthResponse_deviceId m) (AuthResponse_unknowns m).
Definition set_AuthResponse_userId (v : option long) (m : AuthResponse) : AuthResponse :=
  mkAuthResponse (AuthResponse_success m) v (AuthResponse_deviceId m) (AuthResponse_unknowns m).
Definition set_AuthResponse_deviceId (v : option string) (m : AuthResponse) : AuthResponse :=
  mkAuthResponse (AuthResponse_success m) (AuthResponse_userId m) v (AuthResponse_unknowns m).
Definition AuthResponse_push_unknown (b : bytes) (m : AuthResponse) : AuthResponse :=
  mkAuthResponse (AuthResponse_success m) (AuthResponse_userId m) (AuthResponse_deviceId m)
    (Some (default [] (AuthResponse_unknowns m) ++ [b])).

Definition AuthResponse_encode (message : AuthResponse) (writer : option Writer) (_depth : option Z) : res Writer :=
  let writer := default W_create writer in
  let _depth := default 0 _depth in
  depth_check util_recursionLimit _depth (
    let writer := own (AuthResponse_success message) (λ v w, W_bool v (W_uint32 8 w)) writer in
    let writer := own (AuthResponse_userId message) (λ v w, W_int64 v (W_uint32 16 w)) writer in
    let writer := own (AuthResponse_deviceId message) (λ v w, W_string v (W_uint32 26 w)) writer in
    Ok (put_unknowns (AuthResponse_unknowns message) writer)).

Definition AuthResponse_encodeDelimited (message : AuthResponse) (writer : option Writer) : res Writer :=
  delimited AuthResponse_encode message writer.

(** The [switch] of [AuthResponse.decode]. *)
Definition AuthResponse_switch (_depth field wireType : Z) (message : AuthResponse) (reader : Reader)
    : option (res (AuthResponse * Reader)) :=
  match field with
  | 1 => when_wire wireType 0 (dec_opt R_bool bool_present set_AuthResponse_success message reader)
  | 2 => when_wire wireType 0 (dec_opt R_int64 long_nonzero set_AuthResponse_userId message reader)
  | 3 => when_wire wireType 2 (dec_opt R_stringVerify string_present set_AuthResponse_deviceId message reader)
  | _ => None
  end.

Definition AuthResponse_decode : decoder AuthResponse := λ reader length _end _depth _target,
  let _depth := default 0 _depth in
  decode_with (AuthResponse_switch _depth) AuthResponse_push_unknown _depth AuthResponse_new reader length _end _target.

Definition AuthResponse_decodeDelimited (reader : Reader) : res (AuthResponse * Reader) :=
  decode_delimited AuthResponse_decode reader.

(** ** [AckRequest] *)

Record AckRequest := mkAckRequest {
  AckRequest_msgId : option long;
  AckRequest_topic : option string;
  AckRequest_topicSeq : option long;
  AckRequest_unknowns : option (list bytes);
}.

Definition AckRequest_new : AckRequest :=
  mkAckRequest None None None None.

Definition set_AckRequest_msgId (v : option long) (m : AckRequest) : AckRequest :=
  mkAckRequest v (AckRequest_topic m) (AckRequest_topicSeq m) (AckRequest_unknowns m).
Definition set_AckRequest_topic (v : option string) (m : AckRequest) : AckRequest :=
  mkAckRequest (AckRequest_msgId m) v (AckRequest_topicSeq m) (AckRequest_unknowns m).
Definition set_AckRequest_topicSeq (v : option long) (m : AckRequest) : AckRequest :=
  mkAckRequest (AckRequest_msgId m) (AckRequest_topic m) v (AckRequest_unknowns m).
Definition AckRequest_push_unknown (b : bytes) (m : AckRequest) : AckRequest :=
  mkAckRequest (AckRequest_msgId m) (AckRequest_topic m) (AckRequest_topicSeq m)
    (Some (default [] (AckRequest_unknowns m) ++ [b])).

Definition AckRequest_encode (message : AckRequest) (writer : option Writer) (_depth : option Z) : res Writer :=
  let writer := default W_create writer in
  let _depth := default 0 _depth in
  depth_check util_recursionLimit _depth (
    let writer := own (AckRequest_msgId message) (λ v w, W_int64 v (W_uint32 8 w)) writer in
    let writer := own (AckRequest_topic message) (λ v w, W_string v (W_uint32 18 w)) writer in
    let writer := own (AckRequest_topicSeq message) (λ v w, W_uint64 v (W_uint32 24 w)) writer in
    Ok (put_unknowns (AckRequest_unknowns message) writer)).

Definition AckRequest_encodeDelimited (message : AckRequest) (writer : option Writer) : res Writer :=
  delimited AckRequest_encode message writer.

(** The [switch] of [AckRequest.decode]. *)
Definition AckRequest_switch (_depth field wireType : Z) (message : AckRequest) (reader : Reader)
    : option (res (AckRequest * Reader)) :=
  match field with
  | 1 => when_wire wireType 0 (dec_opt R_int64 long_nonzero set_AckRequest_msgId message reader)
  | 2 => when_wire wireType 2 (dec_opt R_stringVerify string_present set_AckRequest_topic message reader)
  | 3 => when_wire wireType 0 (dec_opt R_uint64 long_nonzero set_AckRequest_topicSeq message reader)
  | _ => None
  end.

Definition AckRequest_decode : decoder AckRequest := λ reader length _end _depth _target,
  let _depth := default 0 _depth in
  decode_with (AckRequest_switch _depth) AckRequest_push_unknown _depth AckRequest_new reader length _end _target.

Definition AckRequest_decodeDelimited (reader : Reader) : res (AckRequest * Reader) :=
  decode_delimited AckRequest_decode reader.

(** ** [ErrorResponse] *)

Record ErrorResponse := mkErrorResponse {
  ErrorResponse_code : option Z;
  ErrorResponse_message : option string;
  ErrorResponse_retryable : option bool;
  ErrorResponse_retryAfterMs : option long;
  ErrorResponse_unknowns : option (list bytes);
}.

Definition ErrorResponse_new : ErrorResponse :=
  mkErrorResponse None None None None None.

Definition set_ErrorResponse_code (v : option Z) (m : ErrorResponse) : ErrorResponse :=
  mkErrorResponse v (ErrorResponse_message m) (ErrorResponse_retryable m) (ErrorResponse_retryAfterMs m) (ErrorResponse_unknowns m).
Definition set_ErrorResponse_message (v : option string) (m : ErrorResponse) : ErrorResponse :=
  mkErrorResponse (ErrorResponse_code m) v (ErrorResponse_retryable m) (ErrorResponse_retryAfterMs m) (ErrorResponse_unknowns m).
Definition set_ErrorResponse_retryable (v : option bool) (m : ErrorResponse) : ErrorResponse :=
  mkErrorResponse (ErrorResponse_code m) (ErrorResponse_message m) v (ErrorResponse_retryAfterMs m) (ErrorResponse_unknowns m).
Definition set_ErrorResponse_retryAfterMs (v : option long) (m : ErrorResponse) : ErrorResponse :=
  mkErrorResponse (ErrorResponse_code m) (ErrorResponse_message m) (ErrorResponse_retryable m) v (ErrorResponse_unknowns m).
Definition ErrorResponse_push_unknown (b : bytes) (m : ErrorResponse) : ErrorResponse :=
  mkErrorResponse (ErrorResponse_code m) (ErrorResponse_message m) (ErrorResponse_retryable m) (ErrorResponse_retryAfterMs m)
    (Some (default [] (ErrorResponse_unknowns m) ++ [b])).

Definition ErrorResponse_encode (message : ErrorResponse) (writer : option Writer) (_depth : option Z) : res Writer :=
  let writer := default W_create writer in
  let _depth := default 0 _depth in
  depth_check util_recursionLimit _depth (
    let writer := own (ErrorResponse_code message) (λ v w, W_int32 v (W_uint32 8 w)) writer in
    let writer := own (ErrorResponse_message message) (λ v w, W_string v (W_uint32 18 w)) writer in
    let writer := own (ErrorResponse_retryable message) (λ v w, W_bool v (W_uint32 24 w)) writer in
    let writer := own (ErrorResponse_retryAfterMs message) (λ v w, W_uint64 v (W_uint32 32 w)) writer in
    Ok (put_unknowns (ErrorResponse_unknowns message) writer)).

Definition ErrorResponse_encodeDelimited (message : ErrorResponse) (writer : option Writer) : res Writer :=
  delimited ErrorResponse_encode message writer.

(** The [switch] of [ErrorResponse.decode]. *)
Definition ErrorResponse_switch (_depth field wireType : Z) (message : ErrorResponse) (reader : Reader)
    : option (res (ErrorResponse * Reader)) :=
  match field with
  | 1 => when_wire wireType 0 (dec_opt R_int32 int32_present set_ErrorResponse_code message reader)
  | 2 => when_wire wireType 2 (dec_opt R_stringVerify string_present set_ErrorResponse_message message reader)
  | 3 => when_wire wireType 0 (dec_opt R_bool bool_present set_ErrorResponse_retryable message reader)
  | 4 => when_wire wireType 0 (dec_opt R_uint64 long_nonzero set_ErrorResponse_retryAfterMs message reader)
  | _ => None
  end.

Definition ErrorResponse_decode : decoder ErrorResponse := λ reader length _end _depth _target,
  let _depth := default 0 _depth in
  decode_with (ErrorResponse_switch _depth) ErrorResponse_push_unknown _depth ErrorResponse_new reader length _end _target.

Definition ErrorResponse_decodeDelimited (reader : Reader) : res (ErrorResponse * Reader) :=
  decode_delimited ErrorResponse_decode reader.

(** ** [ReadReceipt] *)

Record ReadReceipt := mkReadReceipt {
  ReadReceipt_topic : option string;
  ReadReceipt_upToSeq : option long;
  ReadReceipt_readerId : option long;
  ReadReceipt_unknowns : option (list bytes);
}.

Definition ReadReceipt_new : ReadReceipt :=
  mkReadReceipt None None None None.

Definition set_ReadReceipt_topic (v : option string) (m : ReadReceipt) : ReadReceipt :=
  mkReadReceipt v (ReadReceipt_upToSeq m) (ReadReceipt_readerId m) (ReadReceipt_unknowns m).
Definition set_ReadReceipt_upToSeq (v : option long) (m : ReadReceipt) : ReadReceipt :=
  mkReadReceipt (ReadReceipt_topic m) v (ReadReceipt_readerId m) (ReadReceipt_unknowns m).
Definition set_ReadReceipt_readerId (v : option long) (m : ReadReceipt) : ReadReceipt :=
  mkReadReceipt (ReadReceipt_topic m) (ReadReceipt_upToSeq m) v (ReadReceipt_unknowns m).
Definition ReadReceipt_push_unknown (b : bytes) (m : ReadReceipt) : ReadReceipt :=
  mkReadReceipt (ReadReceipt_topic m) (ReadReceipt_upToSeq m) (ReadReceipt_readerId m)
    (Some (default [] (ReadReceipt_unknowns m) ++ [b])).

Definition ReadReceipt_encode (message : ReadReceipt) (writer : option Writer) (_depth : option Z) : res Writer :=
  let writer := default W_create writer in
  let _depth := default 0 _depth in
  depth_check util_recursionLimit _depth (
    let writer := own (ReadReceipt_topic message) (λ v w, W_string v (W_uint32 10 w)) writer in
    let writer := own (ReadReceipt_upToSeq message) (λ v w, W_uint64 v (W_uint32 16 w)) writer in
    let writer := own (ReadReceipt_readerId message) (λ v w, W_int64 v (W_uint32 24 w)) writer in
    Ok (put_unknowns (ReadReceipt_unknowns message) writer)).

Definition ReadReceipt_encodeDelimited (message : ReadReceipt) (writer : option Writer) : res Writer :=
  delimited ReadReceipt_encode message writer.

(** The [switch] of [ReadReceipt.decode]. *)
Definition ReadReceipt_switch (_depth field wireType : Z) (message : ReadReceipt) (reader : Reader)
    : option (res (ReadReceipt * Reader)) :=
  match field with
  | 1 => when_wire wireType 2 (dec_opt R_stringVerify string_present set_ReadReceipt_topic message reader)
  | 2 => when_wire wireType 0 (dec_opt R_uint64 long_nonzero set_ReadReceipt_upToSeq message reader)
  | 3 => when_wire wireType 0 (dec_opt R_int64 long_nonzero set_ReadReceipt_readerId message reader)
  | _ => None
  end.

Definition ReadReceipt_decode : decoder ReadReceipt := λ reader length _end _depth _target,
  let _depth := default 0 _depth in
  decode_with (ReadReceipt_switch _depth) ReadReceipt_push_unknown _depth ReadReceipt_new reader length _end _target.

Definition ReadReceipt_decodeDelimited (reader : Reader) : res (ReadReceipt * Reader) :=
  decode_delimited ReadReceipt_decode reader.

(** ** [DeliveryReceipt] *)

Record DeliveryReceipt := mkDeliveryReceipt {
  DeliveryReceipt_topic : option string;
  DeliveryReceipt_topicSeq : option long;
  DeliveryReceipt_msgId : option long;
  DeliveryReceipt_unknowns : option (list bytes);
}.

Definition DeliveryReceipt_new : DeliveryReceipt :=
  mkDeliveryReceipt None None None None.

Definition set_DeliveryReceipt_topic (v : option string) (m : DeliveryReceipt) : DeliveryReceipt :=
  mkDeliveryReceipt v (DeliveryReceipt_topicSeq m) (DeliveryReceipt_msgId m) (DeliveryReceipt_unknowns m).
Definition set_DeliveryReceipt_topicSeq (v : option long) (m : DeliveryReceipt) : DeliveryReceipt :=
  mkDeliveryReceipt (DeliveryReceipt_topic m) v (DeliveryReceipt_msgId m) (DeliveryReceipt_unknowns m).
Definition set_DeliveryReceipt_msgId (v : option long) (m : DeliveryReceipt) : DeliveryReceipt :=
  mkDeliveryReceipt (DeliveryReceipt_topic m) (DeliveryReceipt_topicSeq m) v (DeliveryReceipt_unknowns m).
Definition DeliveryReceipt_push_unknown (b : bytes) (m : DeliveryReceipt) : DeliveryReceipt :=
  mkDeliveryReceipt (DeliveryReceipt_topic m) (DeliveryReceipt_topicSeq m) (DeliveryReceipt_msgId m)
    (Some (default [] (DeliveryReceipt_unknowns m) ++ [b])).

Definition DeliveryReceipt_encode (message : DeliveryReceipt) (writer : option Writer) (_depth : option Z) : res Writer :=
  let writer := default W_create writer in
  let _depth := default 0 _depth in
  depth_check util_recursionLimit _depth (
    let writer := own (DeliveryReceipt_topic message) (λ v w, W_string v (W_uint32 10 w)) writer in
    let writer := own (DeliveryReceipt_topicSeq message) (λ v w, W_uint64 v (W_uint32 16 w)) writer in
    let writer := own (DeliveryReceipt_msgId message) (λ v w, W_int64 v (W_uint32 24 w)) writer in
    Ok (put_unknowns (DeliveryReceipt_unknowns message) writer)).

Definition DeliveryReceipt_encodeDelimited (message : DeliveryReceipt) (writer : option Writer) : res Writer :=
  delimited DeliveryReceipt_encode message writer.

(** The [switch] of [DeliveryReceipt.decode]. *)
Definition DeliveryReceipt_switch (_depth field wireType : Z) (message : DeliveryReceipt) (reader : Reader)
    : option (res (DeliveryReceipt * Reader)) :=
  match field with
  | 1 => when_wire wireType 2 (dec_opt R_stringVerify string_present set_DeliveryReceipt_topic message reader)
  | 2 => when_wire wireType 0 (dec_opt R_uint64 long_nonzero set_DeliveryReceipt_topicSeq message reader)
  | 3 => when_wire wireType 0 (dec_opt R_int64 long_nonzero set_DeliveryReceipt_msgId message reader)
  | _ => None
  end.

Definition DeliveryReceipt_decode : decoder DeliveryReceipt := λ reader length _end _depth _target,
  let _depth := default 0 _depth in
  decode_with (DeliveryReceipt_switch _depth) DeliveryReceipt_push_unknown _depth DeliveryReceipt_new reader length _end _target.

Definition DeliveryReceipt_decodeDelimited (reader : Reader) : res (DeliveryReceipt * Reader) :=
  decode_delimited DeliveryReceipt_decode reader.

(** ** [SendReceipt] *)

Record SendReceipt := mkSendReceipt {
  SendReceipt_clientMsgId : option string;
  SendReceipt_msgId : option long;
  SendReceipt_topic : option string;
  SendReceipt_topicSeq : option long;
  SendReceipt_timestamp : option long;
  SendReceipt_unknowns : option (list bytes);
}.

Definition SendReceipt_new : SendReceipt :=
  mkSendReceipt None None None None None None.

Definition set_SendReceipt_clientMsgId (v : option string) (m : SendReceipt) : SendReceipt :=
  mkSendReceipt v (SendReceipt_msgId m) (SendReceipt_topic m) (SendReceipt_topicSeq m) (SendReceipt_timestamp m) (SendReceipt_unknowns m).
Definition set_SendReceipt_msgId (v : option long) (m : SendReceipt) : SendReceipt :=
  mkSendReceipt (SendReceipt_clientMsgId m) v (SendReceipt_topic m) (SendReceipt_topicSeq m) (SendReceipt_timestamp m) (SendReceipt_unknowns m).
Definition set_SendReceipt_topic (v : option string) (m : SendReceipt) : SendReceipt :=
  mkSendReceipt (SendReceipt_clientMsgId m) (SendReceipt_msgId m) v (SendReceipt_topicSeq m) (SendReceipt_timestamp m) (SendReceipt_unknowns m).
Definition set_SendReceipt_topicSeq (v : option long) (m : SendReceipt) : SendReceipt :=
  mkSendReceipt (SendReceipt_clientMsgId m) (SendReceipt_msgId m) (SendReceipt_topic m) v (SendReceipt_timestamp m) (SendReceipt_unknowns m).
Definition set_SendReceipt_timestamp (v : option long) (m : SendReceipt) : SendReceipt :=
  mkSendReceipt (SendReceipt_clientMsgId m) (SendReceipt_msgId m) (SendReceipt_topic m) (SendReceipt_topicSeq m) v (SendReceipt_unknowns m).
Definition SendReceipt_push_unknown (b : bytes) (m : SendReceipt) : SendReceipt :=
  mkSendReceipt (SendReceipt_clientMsgId m) (SendReceipt_msgId m) (SendReceipt_topic m) (SendReceipt_topicSeq m) (SendReceipt_timestamp m)
    (Some (default [] (SendReceipt_unknowns m) ++ [b])).

Definition SendReceipt_encode (message : SendReceipt) (writer : option Writer) (_depth : option Z) : res Writer :=
  let writer := default W_create writer in
  let _depth := default 0 _depth in
  depth_check util_recursionLimit _depth (
    let writer := own (SendReceipt_clientMsgId message) (λ v w, W_string v (W_uint32 10 w)) writer in
    let writer := own (SendReceipt_msgId message) (λ v w, W_int64 v (W_uint32 16 w)) writer in
    let writer := own (SendReceipt_topic message) (λ v w, W_string v (W_uint32 26 w)) writer in
    let writer := own (SendReceipt_topicSeq message) (λ v w, W_uint64 v (W_uint32 32 w)) writer in
    let writer := own (SendReceipt_timestamp message) (λ v w, W_int64 v (W_uint32 40 w)) writer in
    Ok (put_unknowns (SendReceipt_unknowns message) writer)).

Definition SendReceipt_encodeDelimited (message : SendReceipt) (writer : option Writer) : res Writer :=
  delimited SendReceipt_encode message writer.

(** The [switch] of [SendReceipt.decode]. *)
Definition SendReceipt_switch (_depth field wireType : Z) (message : SendReceipt) (reader : Reader)
    : option (res (SendReceipt * Reader)) :=
  match field with
  | 1 => when_wire wireType 2 (dec_opt R_stringVerify string_present set_SendReceipt_clientMsgId message reader)
  | 2 => when_wire wireType 0 (dec_opt R_int64 long_nonzero set_SendReceipt_msgId message reader)
  | 3 => when_wire wireType 2 (dec_opt R_stringVerify string_present set_SendReceipt_topic message reader)
  | 4 => when_wire wireType 0 (dec_opt R_uint64 long_nonzero set_SendReceipt_topicSeq message reader)
  | 5 => when_wire wireType 0 (dec_opt R_int64 long_nonzero set_SendReceipt_timestamp message reader)
  | _ => None
  end.

Definition SendReceipt_decode : decoder SendReceipt := λ reader length _end _depth _target,
  let _depth := default 0 _depth in
  decode_with (SendReceipt_switch _depth) SendReceipt_push_unknown _depth SendReceipt_new reader length _end _target.

Definition SendReceipt_decodeDelimited (reader : Reader) : res (SendReceipt * Reader) :=
  decode_delimited SendReceipt_decode reader.

(** ** [RecallRequest] *)

Record RecallRequest := mkRecallRequest {
  RecallRequest_topic : option string;
  RecallRequest_topicSeq : option long;
  RecallRequest_msgId : option long;
  RecallRequest_unknowns : option (list bytes);
}.

Definition RecallRequest_new : RecallRequest :=
  mkRecallRequest None None None None.

Definition set_RecallRequest_topic (v : option string) (m : RecallRequest) : RecallRequest :=
  mkRecallRequest v (RecallRequest_topicSeq m) (RecallRequest_msgId m) (RecallRequest_unknowns m).
Definition set_RecallRequest_topicSeq (v : option long) (m : RecallRequest) : RecallRequest :=
  mkRecallRequest (RecallRequest_topic m) v (RecallRequest_msgId m) (RecallRequest_unknowns m).
Definition set_RecallRequest_msgId (v : option long) (m : RecallRequest) : RecallRequest :=
  mkRecallRequest (RecallRequest_topic m) (RecallRequest_topicSeq m) v (RecallRequest_unknowns m).
Definition RecallRequest_push_unknown (b : bytes) (m : RecallRequest) : RecallRequest :=
  mkRecallRequest (RecallRequest_topic m) (RecallRequest_topicSeq m) (RecallRequest_msgId m)
    (Some (default [] (RecallRequest_unknowns m) ++ [b])).

Definition RecallRequest_encode (message : RecallRequest) (writer : option Writer) (_depth : option Z) : res Writer :=
  let writer := default W_create writer in
  let _depth := default 0 _depth in
  depth_check util_recursionLimit _depth (
    let writer := own (RecallRequest_topic message) (λ v w, W_string v (W_uint32 10 w)) writer in
    let writer := own (RecallRequest_topicSeq message) (λ v w, W_uint64 v (W_uint32 16 w)) writer in
    let writer := own (RecallRequest_msgId message) (λ v w, W_int64 v (W_uint32 24 w)) writer in
    Ok (put_unknowns (RecallRequest_unknowns message) writer)).

Definition RecallRequest_encodeDelimited (message : RecallRequest) (writer : option Writer) : res Writer :=
  delimited RecallRequest_encode message writer.

(** The [switch] of [RecallRequest.decode]. *)
Definition RecallRequest_switch (_depth field wireType : Z) (message : RecallRequest) (reader : Reader)
    : option (res (RecallRequest * Reader)) :=
  match field with
  | 1 => when_wire wireType 2 (dec_opt R_stringVerify string_present set_RecallRequest_topic message reader)
  | 2 => when_wire wireType 0 (dec_opt R_uint64 long_nonzero set_RecallRequest_topicSeq message reader)
  | 3 => when_wire wireType 0 (dec_opt R_int64 long_nonzero set_RecallRequest_msgId message reader)
  | _ => None
  end.

Definition RecallRequest_decode : decoder RecallRequest := λ reader length _end _depth _target,
  let _depth := default 0 _depth in
  decode_with (RecallRequest_switch _depth) RecallRequest_push_unknown _depth RecallRequest_new reader length _end _target.

Definition RecallRequest_decodeDelimited (reader : Reader) : res (RecallRequest * Reader) :=
  decode_delimited RecallRequest_decode reader.

(** ** [RecallNotice] *)

Record RecallNotice := mkRecallNotice {
  RecallNotice_topic : option string;
  RecallNotice_topicSeq : option long;
  RecallNotice_msgId : option long;
  RecallNotice_senderId : option long;
  RecallNotice_recalledAt : option long;
  RecallNotice_unknowns : option (list bytes);
}.

Definition RecallNotice_new : RecallNotice :=
  mkRecallNotice None None None None None None.

Definition set_RecallNotice_topic (v : option string) (m : RecallNotice) : RecallNotice :=
  mkRecallNotice v (RecallNotice_topicSeq m) (RecallNotice_msgId m) (RecallNotice_senderId m) (RecallNotice_recalledAt m) (RecallNotice_unknowns m).
Definition set_RecallNotice_topicSeq (v : option long) (m : RecallNotice) : RecallNotice :=
  mkRecallNotice (RecallNotice_topic m) v (RecallNotice_msgId m) (RecallNotice_senderId m) (RecallNotice_recalledAt m) (RecallNotice_unknowns m).
Definition set_RecallNotice_msgId (v : option long) (m : RecallNotice) : RecallNotice :=
  mkRecallNotice (RecallNotice_topic m) (RecallNotice_topicSeq m) v (RecallNotice_senderId m) (RecallNotice_recalledAt m) (RecallNotice_unknowns m).
Definition set_RecallNotice_senderId (v : option long) (m : RecallNotice) : RecallNotice :=
  mkRecallNotice (RecallNotice_topic m) (RecallNotice_topicSeq m) (RecallNotice_msgId m) v (RecallNotice_recalledAt m) (RecallNotice_unknowns m).
Definition set_RecallNotice_recalledAt (v : option long) (m : RecallNotice) : RecallNotice :=
  mkRecallNotice (RecallNotice_topic m) (RecallNotice_topicSeq m) (RecallNotice_msgId m) (RecallNotice_senderId m) v (RecallNotice_unknowns m).
Definition RecallNotice_push_unknown (b : bytes) (m : RecallNotice) : RecallNotice :=
  mkRecallNotice (RecallNotice_topic m) (RecallNotice_topicSeq m) (RecallNotice_msgId m) (RecallNotice_senderId m) (RecallNotice_recalledAt m)
    (Some (default [] (RecallNotice_unknowns m) ++ [b])).

Definition RecallNotice_encode (message : RecallNotice) (writer : option Writer) (_depth : option Z) : res Writer :=
  let writer := default W_create writer in
  let _depth := default 0 _depth in
  depth_check util_recursionLimit _depth (
    let writer := own (RecallNotice_topic message) (λ v w, W_string v (W_uint32 10 w)) writer in
    let writer := own (RecallNotice_topicSeq message) (λ v w, W_uint64 v (W_uint32 16 w)) writer in
    let writer := own (RecallNotice_msgId message) (λ v w, W_int64 v (W_uint32 24 w)) writer in
    let writer := own (RecallNotice_senderId message) (λ v w, W_int64 v (W_uint32 32 w)) writer in
    let writer := own (RecallNotice_recalledAt message) (λ v w, W_int64 v (W_uint32 40 w)) writer in
    Ok (put_unknowns (RecallNotice_unknowns message) writer)).

Definition RecallNotice_encodeDelimited (message : RecallNotice) (writer : option Writer) : res Writer :=
  delimited RecallNotice_encode message writer.

(** The [switch] of [RecallNotice.decode]. *)
Definition RecallNotice_switch (_depth field wireType : Z) (message : RecallNotice) (reader : Reader)
    : option (res (RecallNotice * Reader)) :=
  match field with
  | 1 => when_wire wireType 2 (dec_opt R_stringVerify string_present set_RecallNotice_topic message reader)
  | 2 => when_wire wireType 0 (dec_opt R_uint64 long_nonzero set_RecallNotice_topicSeq message reader)
  | 3 => when_wire wireType 0 (dec_opt R_int64 long_nonzero set_RecallNotice_msgId message reader)
  | 4 => when_wire wireType 0 (dec_opt R_int64 long_nonzero set_RecallNotice_senderId message reader)
  | 5 => when_wire wireType 0 (dec_opt R_int64 long_nonzero set_RecallNotice_recalledAt message reader)
  | _ => None
  end.

Definition RecallNotice_decode : decoder RecallNotice := λ reader length _end _depth _target,
  let _depth := default 0 _depth in
  decode_with (RecallNotice_switch _depth) RecallNotice_push_unknown _depth RecallNotice_new reader length _end _target.

Definition RecallNotice_decodeDelimited (reader : Reader) : res (RecallNotice * Reader) :=
  decode_delimited RecallNotice_decode reader.

(** ** [UpstreamMessage] *)

Record UpstreamMessage := mkUpstreamMessage {
  UpstreamMessage_senderId : option long;
  UpstreamMessage_topic : option string;
  UpstreamMessage_msgType : option Z;
  UpstreamMessage_content : option bytes;
  UpstreamMessage_clientMsgId : option string;
  UpstreamMessage_timestamp : option long;
  UpstreamMessage_mentionedUserIds : list long;
  UpstreamMessage_unknowns : option (list bytes);
}.

Definition UpstreamMessage_new : UpstreamMessage :=
  mkUpstreamMessage None None None None None None [] None.

Definition set_UpstreamMessage_senderId (v : option long) (m : UpstreamMessage) : UpstreamMessage :=
  mkUpstreamMessage v (UpstreamMessage_topic m) (UpstreamMessage_msgType m) (UpstreamMessage_content m) (UpstreamMessage_clientMsgId m) (UpstreamMessage_timestamp m) (UpstreamMessage_mentionedUserIds m) (UpstreamMessage_unknowns m).
Definition set_UpstreamMessage_topic (v : option string) (m : UpstreamMessage) : UpstreamMessage :=
  mkUpstreamMessage (UpstreamMessage_senderId m) v (UpstreamMessage_msgType m) (UpstreamMessage_content m) (UpstreamMessage_clientMsgId m) (UpstreamMessage_timestamp m) (UpstreamMessage_mentionedUserIds m) (UpstreamMessage_unknowns m).
Definition set_UpstreamMessage_msgType (v : option Z) (m : UpstreamMessage) : UpstreamMessage :=
  mkUpstreamMessage (UpstreamMessage_senderId m) (UpstreamMessage_topic m) v (UpstreamMessage_content m) (UpstreamMessage_clientMsgId m) (UpstreamMessage_timestamp m) (UpstreamMessage_mentionedUserIds m) (UpstreamMessage_unknowns m).
Definition set_UpstreamMessage_content (v : option bytes) (m : UpstreamMessage) : UpstreamMessage :=
  mkUpstreamMessage (UpstreamMessage_senderId m) (UpstreamMessage_topic m) (UpstreamMessage_msgType m) v (UpstreamMessage_clientMsgId m) (UpstreamMessage_timestamp m) (UpstreamMessage_mentionedUserIds m) (UpstreamMessage_unknowns m).
Definition set_UpstreamMessage_clientMsgId (v : option string) (m : UpstreamMessage) : UpstreamMessage :=
  mkUpstreamMessage (UpstreamMessage_senderId m) (UpstreamMessage_topic m) (UpstreamMessage_msgType m) (UpstreamMessage_content m) v (UpstreamMessage_timestamp m) (UpstreamMessage_mentionedUserIds m) (UpstreamMessage_unknowns m).
Definition set_UpstreamMessage_timestamp (v : option long) (m : UpstreamMessage) : UpstreamMessage :=
  mkUpstreamMessage (UpstreamMessage_senderId m) (UpstreamMessage_topic m) (UpstreamMessage_msgType m) (UpstreamMessage_content m) (UpstreamMessage_clientMsgId m) v (UpstreamMessage_mentionedUserIds m) (UpstreamMessage_unknowns m).
Definition set_UpstreamMessage_mentionedUserIds (v : list long) (m : UpstreamMessage) : UpstreamMessage :=
  mkUpstreamMessage (UpstreamMessage_senderId m) (UpstreamMessage_topic m) (UpstreamMessage_msgType m) (UpstreamMessage_content m) (UpstreamMessage_clientMsgId m) (UpstreamMessage_timestamp m) v (UpstreamMessage_unknowns m).
Definition UpstreamMessage_push_unknown (b : bytes) (m : UpstreamMessage) : UpstreamMessage :=
  mkUpstreamMessage (UpstreamMessage_senderId m) (UpstreamMessage_topic m) (UpstreamMessage_msgType m) (UpstreamMessage_content m) (UpstreamMessage_clientMsgId m) (UpstreamMessage_timestamp m) (UpstreamMessage_mentionedUserIds m)
    (Some (default [] (UpstreamMessage_unknowns m) ++ [b])).

Definition UpstreamMessage_encode (message : UpstreamMessage) (writer : option Writer) (_depth : option Z) : res Writer :=
  let writer := default W_create writer in
  let _depth := default 0 _depth in
  depth_check util_recursionLimit _depth (
    let writer := own (UpstreamMessage_senderId message) (λ v w, W_int64 v (W_uint32 8 w)) writer in
    let writer := own (UpstreamMessage_topic message) (λ v w, W_string v (W_uint32 18 w)) writer in
    let writer := own (UpstreamMessage_msgType message) (λ v w, W_int32 v (W_uint32 24 w)) writer in
    let writer := own (UpstreamMessage_content message) (λ v w, W_bytes v (W_uint32 34 w)) writer in
    let writer := own (UpstreamMessage_clientMsgId message) (λ v w, W_string v (W_uint32 42 w)) writer in
    let writer := own (UpstreamMessage_timestamp message) (λ v w, W_int64 v (W_uint32 48 w)) writer in
    let writer := packed_int64 58 (UpstreamMessage_mentionedUserIds message) writer in
    Ok (put_unknowns (UpstreamMessage_unknowns message) writer)).

Definition UpstreamMessage_encodeDelimited (message : UpstreamMessage) (writer : option Writer) : res Writer :=
  delimited UpstreamMessage_encode message writer.

(** The [switch] of [UpstreamMessage.decode]. *)
Definition UpstreamMessage_switch (_depth field wireType : Z) (message : UpstreamMessage) (reader : Reader)
    : option (res (UpstreamMessage * Reader)) :=
  match field with
  | 1 => when_wire wireType 0 (dec_opt R_int64 long_nonzero set_UpstreamMessage_senderId message reader)
  | 2 => when_wire wireType 2 (dec_opt R_stringVerify string_present set_UpstreamMessage_topic message reader)
  | 3 => when_wire wireType 0 (dec_opt R_int32 int32_present set_UpstreamMessage_msgType message reader)
  | 4 => when_wire wireType 2 (dec_opt R_bytes bytes_present set_UpstreamMessage_content message reader)
  | 5 => when_wire wireType 2 (dec_opt R_stringVerify string_present set_UpstreamMessage_clientMsgId message reader)
  | 6 => when_wire wireType 0 (dec_opt R_int64 long_nonzero set_UpstreamMessage_timestamp message reader)
  | 7 => dec_packed wireType UpstreamMessage_mentionedUserIds set_UpstreamMessage_mentionedUserIds message reader
  | _ => None
  end.

Definition UpstreamMessage_decode : decoder UpstreamMessage := λ reader length _end _depth _target,
  let _depth := default 0 _depth in
  decode_with (UpstreamMessage_switch _depth) UpstreamMessage_push_unknown _depth UpstreamMessage_new reader length _end _target.

Definition UpstreamMessage_decodeDelimited (reader : Reader) : res (UpstreamMessage * Reader) :=
  decode_delimited UpstreamMessage_decode reader.

End Messages.
