(* ===== verification/ProtoPacket.v ===== *)
(** * The [Packet] codec ([web/app/lib/proto/im.js])

    The frame every WebSocket message carries: a command, a sequence number
    and one of fourteen payloads, and the enumerations [Command] and
    [MsgType]. *)

From S2P Require Import Prelude JsNum ProtoRuntime ProtoMessages.
Open Scope Z_scope.

(** [enum Command]. *)
Definition CMD_UNKNOWN : Z := 0.
Definition CMD_HEARTBEAT : Z := 1.
Definition CMD_AUTH : Z := 2.
Definition CMD_PUBLISH : Z := 3.
Definition CMD_ACK : Z := 4.
Definition CMD_PULL : Z := 5.
Definition CMD_NOTIFY : Z := 6.
Definition CMD_READ_RECEIPT : Z := 7.
Definition CMD_DELIVERY_RECEIPT : Z := 8.
Definition CMD_SEND_RECEIPT : Z := 9.
Definition CMD_RECALL : Z := 10.

(** [enum MsgType]. *)
Definition MSG_TYPE_UNSPECIFIED : Z := 0.
Definition MSG_TYPE_TEXT : Z := 1.
Definition MSG_TYPE_IMAGE : Z := 2.
Definition MSG_TYPE_FILE : Z := 3.
Definition MSG_TYPE_VOICE : Z := 4.

Section Packet.
Context `{RT : Runtime}.

(** ** [Packet] *)

Record Packet := mkPacket {
  Packet_cmd : option Z;
  Packet_seq : option long;
  Packet_authReq : option AuthRequest;
  Packet_authResp : option AuthResponse;
  Packet_sendReq : option SendMessageRequest;
  Packet_sendReply : option SendMessageReply;
  Packet_pullReq : option PullRequest;
  Packet_pullReply : option PullReply;
  Packet_ackReq : option AckRequest;
  Packet_notify : option MessagePush;
  Packet_readReceipt : option ReadReceipt;
  Packet_deliveryReceipt : option DeliveryReceipt;
  Packet_sendReceipt : option SendReceipt;
  Packet_recallReq : option RecallRequest;
  Packet_error : option ErrorResponse;
  Packet_recallNotice : option RecallNotice;
  Packet_unknowns : option (list bytes);
}.

Definition Packet_new : Packet :=
  mkPacket None None None None None None None None None None None None None None None None None.

Definition set_Packet_cmd (v : option Z) (m : Packet) : Packet :=
  mkPacket v (Packet_seq m) (Packet_authReq m) (Packet_authResp m) (Packet_sendReq m) (Packet_sendReply m) (Packet_pullReq m) (Packet_pullReply m) (Packet_ackReq m) (Packet_notify m) (Packet_readReceipt m) (Packet_deliveryReceipt m) (Packet_sendReceipt m) (Packet_recallReq m) (Packet_error m) (Packet_recallNotice m) (Packet_unknowns m).
Definition set_Packet_seq (v : option long) (m : Packet) : Packet :=
  mkPacket (Packet_cmd m) v (Packet_authReq m) (Packet_authResp m) (Packet_sendReq m) (Packet_sendReply m) (Packet_pullReq m) (Packet_pullReply m) (Packet_ackReq m) (Packet_notify m) (Packet_readReceipt m) (Packet_deliveryReceipt m) (Packet_sendReceipt m) (Packet_recallReq m) (Packet_error m) (Packet_recallNotice m) (Packet_unknowns m).
Definition set_Packet_authReq (v : option AuthRequest) (m : Packet) : Packet :=
  mkPacket (Packet_cmd m) (Packet_seq m) v (Packet_authResp m) (Packet_sendReq m) (Packet_sendReply m) (Packet_pullReq m) (Packet_pullReply m) (Packet_ackReq m) (Packet_notify m) (Packet_readReceipt m) (Packet_deliveryReceipt m) (Packet_sendReceipt m) (Packet_recallReq m) (Packet_error m) (Packet_recallNotice m) (Packet_unknowns m).
Definition set_Packet_authResp (v : option AuthResponse) (m : Packet) : Packet :=
  mkPacket (Packet_cmd m) (Packet_seq m) (Packet_authReq m) v (Packet_sendReq m) (Packet_sendReply m) (Packet_pullReq m) (Packet_pullReply m) (Packet_ackReq m) (Packet_notify m) (Packet_readReceipt m) (Packet_deliveryReceipt m) (Packet_sendReceipt m) (Packet_recallReq m) (Packet_error m) (Packet_recallNotice m) (Packet_unknowns m).
Definition set_Packet_sendReq (v : option SendMessageRequest) (m : Packet) : Packet :=
  mkPacket (Packet_cmd m) (Packet_seq m) (Packet_authReq m) (Packet_authResp m) v (Packet_sendReply m) (Packet_pullReq m) (Packet_pullReply m) (Packet_ackReq m) (Packet_notify m) (Packet_readReceipt m) (Packet_deliveryReceipt m) (Packet_sendReceipt m) (Packet_recallReq m) (Packet_error m) (Packet_recallNotice m) (Packet_unknowns m).
Definition set_Packet_sendReply (v : option SendMessageReply) (m : Packet) : Packet :=
  mkPacket (Packet_cmd m) (Packet_seq m) (Packet_authReq m) (Packet_authResp m) (Packet_sendReq m) v (Packet_pullReq m) (Packet_pullReply m) (Packet_ackReq m) (Packet_notify m) (Packet_readReceipt m) (Packet_deliveryReceipt m) (Packet_sendReceipt m) (Packet_recallReq m) (Packet_error m) (Packet_recallNotice m) (Packet_unknowns m).
Definition set_Packet_pullReq (v : option PullRequest) (m : Packet) : Packet :=
  mkPacket (Packet_cmd m) (Packet_seq m) (Packet_authReq m) (Packet_authResp m) (Packet_sendReq m) (Packet_sendReply m) v (Packet_pullReply m) (Packet_ackReq m) (Packet_notify m) (Packet_readReceipt m) (Packet_deliveryReceipt m) (Packet_sendReceipt m) (Packet_recallReq m) (Packet_error m) (Packet_recallNotice m) (Packet_unknowns m).
Definition set_Packet_pullReply (v : option PullReply) (m : Packet) : Packet :=
  mkPacket (Packet_cmd m) (Packet_seq m) (Packet_authReq m) (Packet_authResp m) (Packet_sendReq m) (Packet_sendReply m) (Packet_pullReq m) v (Packet_ackReq m) (Packet_notify m) (Packet_readReceipt m) (Packet_deliveryReceipt m) (Packet_sendReceipt m) (Packet_recallReq m) (Packet_error m) (Packet_recallNotice m) (Packet_unknowns m).
Definition set_Packet_ackReq (v : option AckRequest) (m : Packet) : Packet :=
  mkPacket (Packet_cmd m) (Packet_seq m) (Packet_authReq m) (Packet_authResp m) (Packet_sendReq m) (Packet_sendReply m) (Packet_pullReq m) (Packet_pullReply m) v (Packet_notify m) (Packet_readReceipt m) (Packet_deliveryReceipt m) (Packet_sendReceipt m) (Packet_recallReq m) (Packet_error m) (Packet_recallNotice m) (Packet_unknowns m).
Definition set_Packet_notify (v : option MessagePush) (m : Packet) : Packet :=
  mkPacket (Packet_cmd m) (Packet_seq m) (Packet_authReq m) (Packet_authResp m) (Packet_sendReq m) (Packet_sendReply m) (Packet_pullReq m) (Packet_pullReply m) (Packet_ackReq m) v (Packet_readReceipt m) (Packet_deliveryReceipt m) (Packet_sendReceipt m) (Packet_recallReq m) (Packet_error m) (Packet_recallNotice m) (Packet_unknowns m).
Definition set_Packet_readReceipt (v : option ReadReceipt) (m : Packet) : Packet :=
  mkPacket (Packet_cmd m) (Packet_seq m) (Packet_authReq m) (Packet_authResp m) (Packet_sendReq m) (Packet_sendReply m) (Packet_pullReq m) (Packet_pullReply m) (Packet_ackReq m) (Packet_notify m) v (Packet_deliveryReceipt m) (Packet_sendReceipt m) (Packet_recallReq m) (Packet_error m) (Packet_recallNotice m) (Packet_unknowns m).
Definition set_Packet_deliveryReceipt (v : option DeliveryReceipt) (m : Packet) : Packet :=
  mkPacket (Packet_cmd m) (Packet_seq m) (Packet_authReq m) (Packet_authResp m) (Packet_sendReq m) (Packet_sendReply m) (Packet_pullReq m) (Packet_pullReply m) (Packet_ackReq m) (Packet_notify m) (Packet_readReceipt m) v (Packet_sendReceipt m) (Packet_recallReq m) (Packet_error m) (Packet_recallNotice m) (Packet_unknowns m).
Definition set_Packet_sendReceipt (v : option SendReceipt) (m : Packet) : Packet :=
  mkPacket (Packet_cmd m) (Packet_seq m) (Packet_authReq m) (Packet_authResp m) (Packet_sendReq m) (Packet_sendReply m) (Packet_pullReq m) (Packet_pullReply m) (Packet_ackReq m) (Packet_notify m) (Packet_readReceipt m) (Packet_deliveryReceipt m) v (Packet_recallReq m) (Packet_error m) (Packet_recallNotice m) (Packet_unknowns m).
Definition set_Packet_recallReq (v : option RecallRequest) (m : Packet) : Packet :=
  mkPacket (Packet_cmd m) (Packet_seq m) (Packet_authReq m) (Packet_authResp m) (Packet_sendReq m) (Packet_sendReply m) (Packet_pullReq m) (Packet_pullReply m) (Packet_ackReq m) (Packet_notify m) (Packet_readReceipt m) (Packet_deliveryReceipt m) (Packet_sendReceipt m) v (Packet_error m) (Packet_recallNotice m) (Packet_unknowns m).
Definition set_Packet_error (v : option ErrorResponse) (m : Packet) : Packet :=
  mkPacket (Packet_cmd m) (Packet_seq m) (Packet_authReq m) (Packet_authResp m) (Packet_sendReq m) (Packet_sendReply m) (Packet_pullReq m) (Packet_pullReply m) (Packet_ackReq m) (Packet_notify m) (Packet_readReceipt m) (Packet_deliveryReceipt m) (Packet_sendReceipt m) (Packet_recallReq m) v (Packet_recallNotice m) (Packet_unknowns m).
Definition set_Packet_recallNotice (v : option RecallNotice) (m : Packet) : Packet :=
  mkPacket (Packet_cmd m) (Packet_seq m) (Packet_authReq m) (Packet_authResp m) (Packet_sendReq m) (Packet_sendReply m) (Packet_pullReq m) (Packet_pullReply m) (Packet_ackReq m) (Packet_notify m) (Packet_readReceipt m) (Packet_deliveryReceipt m) (Packet_sendReceipt m) (Packet_recallReq m) (Packet_error m) v (Packet_unknowns m).
Definition Packet_push_unknown (b : bytes) (m : Packet) : Packet :=
  mkPacket (Packet_cmd m) (Packet_seq m) (Packet_authReq m) (Packet_authResp m) (Packet_sendReq m) (Packet_sendReply m) (Packet_pullReq m) (Packet_pullReply m) (Packet_ackReq m) (Packet_notify m) (Packet_readReceipt m) (Packet_deliveryReceipt m) (Packet_sendReceipt m) (Packet_recallReq m) (Packet_error m) (Packet_recallNotice m)
    (Some (default [] (Packet_unknowns m) ++ [b])).

Definition Packet_encode (message : Packet) (writer : option Writer) (_depth : option Z) : res Writer :=
  let writer := default W_create writer in
  let _depth := default 0 _depth in
  depth_check util_recursionLimit _depth (
    let writer := own (Packet_cmd message) (λ v w, W_int32 v (W_uint32 8 w)) writer in
    let writer := own (Packet_seq message) (λ v w, W_uint64 v (W_uint32 16 w)) writer in
    let! writer := own_msg (Packet_authReq message) (nested 82 AuthRequest_encode _depth) writer in
    let! writer := own_msg (Packet_authResp message) (nested 90 AuthResponse_encode _depth) writer in
    let! writer := own_msg (Packet_sendReq message) (nested 162 SendMessageRequest_encode _depth) writer in
    let! writer := own_msg (Packet_sendReply message) (nested 170 SendMessageReply_encode _depth) writer in
    let! writer := own_msg (Packet_pullReq message) (nested 242 PullRequest_encode _depth) writer in
    let! writer := own_msg (Packet_pullReply message) (nested 250 PullReply_encode _depth) writer in
    let! writer := own_msg (Packet_ackReq message) (nested 322 AckRequest_encode _depth) writer in
    let! writer := own_msg (Packet_notify message) (nested 402 MessagePush_encode _depth) writer in
    let! writer := own_msg (Packet_readReceipt message) (nested 482 ReadReceipt_encode _depth) writer in
    let! writer := own_msg (Packet_deliveryReceipt message) (nested 562 DeliveryReceipt_encode _depth) writer in
    let! writer := own_msg (Packet_sendReceipt message) (nested 642 SendReceipt_encode _depth) writer in
    let! writer := own_msg (Packet_recallReq message) (nested 722 RecallRequest_encode _depth) writer in
    let! writer := own_msg (Packet_error message) (nested 794 ErrorResponse_encode _depth) writer in
    let! writer := own_msg (Packet_recallNotice message) (nested 802 RecallNotice_encode _depth) writer in
    Ok (put_unknowns (Packet_unknowns message) writer)).

Definition Packet_encodeDelimited (message : Packet) (writer : option Writer) : res Writer :=
  delimited Packet_encode message writer.

(** The field names of the oneof [payload]. *)
Definition Packet_oneOfFields : list string :=
  ["authReq"%string; "authResp"%string; "sendReq"%string; "sendReply"%string; "pullReq"%string; "pullReply"%string; "ackReq"%string; "notify"%string; "readReceipt"%string; "deliveryReceipt"%string; "sendReceipt"%string; "recallReq"%string; "recallNotice"%string; "error"%string].

(** [delete message[f]]. *)
Definition Packet_delete (f : string) (m : Packet) : Packet :=
  if String.eqb f "authReq" then set_Packet_authReq None m
  else if String.eqb f "authResp" then set_Packet_authResp None m
  else if String.eqb f "sendReq" then set_Packet_sendReq None m
  else if String.eqb f "sendReply" then set_Packet_sendReply None m
  else if String.eqb f "pullReq" then set_Packet_pullReq None m
  else if String.eqb f "pullReply" then set_Packet_pullReply None m
  else if String.eqb f "ackReq" then set_Packet_ackReq None m
  else if String.eqb f "notify" then set_Packet_notify None m
  else if String.eqb f "readReceipt" then set_Packet_readReceipt None m
  else if String.eqb f "deliveryReceipt" then set_Packet_deliveryReceipt None m
  else if String.eqb f "sendReceipt" then set_Packet_sendReceipt None m
  else if String.eqb f "recallReq" then set_Packet_recallReq None m
  else if String.eqb f "error" then set_Packet_error None m
  else if String.eqb f "recallNotice" then set_Packet_recallNotice None m
  else m.

(** [message.payload = name]. *)
Definition Packet_set_payload (name : string) (m : Packet) : Packet :=
  foldl (λ m f, Packet_delete f m) m (oneOfSetter Packet_oneOfFields name).

(** The [switch] of [Packet.decode]. *)
Definition Packet_switch (_depth field wireType : Z) (message : Packet) (reader : Reader)
    : option (res (Packet * Reader)) :=
  match field with
  | 1 => when_wire wireType 0 (dec_opt R_int32 int32_present set_Packet_cmd message reader)
  | 2 => when_wire wireType 0 (dec_opt R_uint64 long_nonzero set_Packet_seq message reader)
  | 10 => when_wire wireType 2 (dec_msg AuthRequest_decode _depth Packet_authReq
             (λ v m, Packet_set_payload "authReq" (set_Packet_authReq (Some v) m)) message reader)
  | 11 => when_wire wireType 2 (dec_msg AuthResponse_decode _depth Packet_authResp
             (λ v m, Packet_set_payload "authResp" (set_Packet_authResp (Some v) m)) message reader)
  | 20 => when_wire wireType 2 (dec_msg SendMessageRequest_decode _depth Packet_sendReq
             (λ v m, Packet_set_payload "sendReq" (set_Packet_sendReq (Some v) m)) message reader)
  | 21 => when_wire wireType 2 (dec_msg SendMessageReply_decode _depth Packet_sendReply
             (λ v m, Packet_set_payload "sendReply" (set_Packet_sendReply (Some v) m)) message reader)
  | 30 => when_wire wireType 2 (dec_msg PullRequest_decode _depth Packet_pullReq
             (λ v m, Packet_set_payload "pullReq" (set_Packet_pullReq (Some v) m)) message reader)
  | 31 => when_wire wireType 2 (dec_msg PullReply_decode _depth Packet_pullReply
             (λ v m, Packet_set_payload "pullReply" (set_Packet_pullReply (Some v) m)) message reader)
  | 40 => when_wire wireType 2 (dec_msg AckRequest_decode _depth Packet_ackReq
             (λ v m, Packet_set_payload "ackReq" (set_Packet_ackReq (Some v) m)) message reader)
  | 50 => when_wire wireType 2 (dec_msg MessagePush_decode _depth Packet_notify
             (λ v m, Packet_set_payload "notify" (set_Packet_notify (Some v) m)) message reader)
  | 60 => when_wire wireType 2 (dec_msg ReadReceipt_decode _depth Packet_readReceipt
             (λ v m, Packet_set_payload "readReceipt" (set_Packet_readReceipt (Some v) m)) message reader)
  | 70 => when_wire wireType 2 (dec_msg DeliveryReceipt_decode _depth Packet_deliveryReceipt
             (λ v m, Packet_set_payload "deliveryReceipt" (set_Packet_deliveryReceipt (Some v) m)) message reader)
  | 80 => when_wire wireType 2 (dec_msg SendReceipt_decode _depth Packet_sendReceipt
             (λ v m, Packet_set_payload "sendReceipt" (set_Packet_sendReceipt (Some v) m)) message reader)
  | 90 => when_wire wireType 2 (dec_msg RecallRequest_decode _depth Packet_recallReq
             (λ v m, Packet_set_payload "recallReq" (set_Packet_recallReq (Some v) m)) message reader)
  | 100 => when_wire wireType 2 (dec_msg RecallNotice_decode _depth Packet_recallNotice
             (λ v m, Packet_set_payload "recallNotice" (set_Packet_recallNotice (Some v) m)) message reader)
  | 99 => when_wire wireType 2 (dec_msg ErrorResponse_decode _depth Packet_error
             (λ v m, Packet_set_payload "error" (set_Packet_error (Some v) m)) message reader)
  | _ => None
  end.

Definition Packet_decode : decoder Packet := λ reader length _end _depth _target,
  let _depth := default 0 _depth in
  decode_with (Packet_switch _depth) Packet_push_unknown _depth Packet_new reader length _end _target.

Definition Packet_decodeDelimited (reader : Reader) : res (Packet * Reader) :=
  decode_delimited Packet_decode reader.

End Packet.
