(* ===== verification/ProtoWire.v ===== *)
(** * A runtime for the codecs

    An executable [Runtime]: varints, length-delimited fields, a stack of
    buffers for [fork]/[ldelim], doubles, strings checked for UTF-8 on reading.  It
    satisfies [RuntimeLaws], so the theorems stated over any lawful runtime can
    be evaluated on concrete packets. *)

From S2P Require Import Prelude JsNum ProtoRuntime ProtoLaws ProtoDouble.
From Stdlib Require Import Strings.Byte.
From Stdlib Require Strings.String.
Open Scope Z_scope.

(** ** Varints *)

Definition byte_val (b : byte) : Z := Z.of_N (Byte.to_N b).
Definition byte_of (z : Z) : byte := default x00 (Byte.of_N (Z.to_N z)).

Fixpoint varint (fuel : nat) (z : Z) : bytes :=
  match fuel with
  | O => []
  | S f => if z <? 128 then [byte_of z] else byte_of (z mod 128 + 128) :: varint f (z / 128)
  end.

Fixpoint read_varint (fuel : nat) (bs : bytes) : option (Z * nat) :=
  match fuel, bs with
  | S f, b :: bs' =>
      if byte_val b <? 128 then Some (byte_val b, 1%nat)
      else match read_varint f bs' with
           | Some (v, n) => Some (byte_val b - 128 + 128 * v, S n)
           | None => None
           end
  | _, _ => None
  end.

Lemma byte_val_of z : 0 ≤ z < 256 → byte_val (byte_of z) = z.
Proof.
  intros Hz. unfold byte_val, byte_of. destruct (Byte.of_N (Z.to_N z)) as [b|] eqn:Hb; simpl.
  - apply Byte.to_of_N in Hb. rewrite Hb. lia.
  - apply Byte.of_N_None_iff in Hb. lia.
Qed.

Lemma byte_val_bound b : 0 ≤ byte_val b < 256.
Proof. unfold byte_val. pose proof (Byte.to_N_bounded b). lia. Qed.

Lemma read_varint_varint fuel : ∀ z rest,
  0 ≤ z < 128 ^ Z.of_nat fuel → fuel ≠ 0%nat →
  read_varint fuel (varint fuel z ++ rest) = Some (z, length (varint fuel z)).
Proof.
  induction fuel as [|fuel IH]; intros z rest Hz Hf; [done|]. cbn [varint].
  destruct (Z.ltb_spec z 128) as [Hlt|Hge].
  - cbn [app read_varint]. rewrite byte_val_of by lia. by rewrite (proj2 (Z.ltb_lt _ _)).
  - rewrite Nat2Z.inj_succ, Z.pow_succ_r in Hz by lia.
    pose proof (Z.mod_pos_bound z 128 ltac:(lia)). pose proof (Z_div_mod_eq_full z 128).
    destruct fuel as [|fuel']; [simpl in Hz; lia|]. set (fuel := S fuel') in *.
    cbn [app read_varint]. rewrite byte_val_of, (proj2 (Z.ltb_ge _ _)) by lia.
    rewrite IH; [|split; [apply Z.div_pos; lia|apply Z.div_lt_upper_bound; lia]|done].
    cbn [length]. do 2 f_equal. lia.
Qed.

Lemma read_varint_advances fuel bs v n : read_varint fuel bs = Some (v, n) → (1 ≤ n)%nat.
Proof.
  revert bs v n. induction fuel as [|fuel IH]; intros [|b bs] v n; simpl; try done.
  destruct (_ <? _); [intros [= _ <-]; lia|].
  destruct (read_varint fuel bs) as [[v' n']|]; [|done]. intros [= _ <-]. lia.
Qed.

Lemma read_varint_more f g bs x : (f ≤ g)%nat → read_varint f bs = Some x → read_varint g bs = Some x.
Proof.
  revert g bs x. induction f as [|f IH]; intros g bs x Hle; [by destruct bs|].
  destruct g as [|g]; [lia|]. destruct bs as [|b bs]; [done|]. cbn [read_varint].
  destruct (_ <? _); [done|]. destruct (read_varint f bs) as [[v n]|] eqn:Hr; [|done].
  by rewrite (IH g bs _ ltac:(lia) Hr).
Qed.

(** ** UTF-8 *)

(** The continuation bytes the lead byte asks for, and whether the sequence is
    well formed (no overlong forms, surrogates or values past U+10FFFF). *)
Fixpoint utf8_ok (fuel : nat) (bs : list Z) : bool :=
  match fuel with
  | O => match bs with [] => true | _ => false end
  | S f =>
      let cont c := (128 <=? c) && (c <? 192) in
      match bs with
      | [] => true
      | a :: r1 =>
          if a <? 128 then utf8_ok f r1
          else match r1 with
          | b :: r2 =>
              if (194 <=? a) && (a <? 224) then cont b && utf8_ok f r2
              else match r2 with
              | c :: r3 =>
                  if (224 <=? a) && (a <? 240) then
                    cont b && cont c && negb ((a =? 224) && (b <? 160)) && negb ((a =? 237) && (160 <=? b)) && utf8_ok f r3
                  else match r3 with
                  | d :: r4 =>
                      (240 <=? a) && (a <? 245) && cont b && cont c && cont d
                      && negb ((a =? 240) && (b <? 144)) && negb ((a =? 244) && (144 <=? b)) && utf8_ok f r4
                  | [] => false
                  end
              | [] => false
              end
          | [] => false
          end
      end
  end.

(** ** Fixed-width integers *)

Fixpoint le_bytes (n : nat) (z : Z) : bytes :=
  match n with O => [] | S n' => byte_of (z mod 256) :: le_bytes n' (z / 256) end.

Fixpoint le_val (bs : bytes) : Z :=
  match bs with [] => 0 | b :: bs' => byte_val b + 256 * le_val bs' end.

Lemma le_bytes_length n z : length (le_bytes n z) = n.
Proof. revert z. induction n as [|n IH]; intros z; simpl; [done|by rewrite IH]. Qed.

Lemma le_val_bytes n z : 0 ≤ z < 256 ^ Z.of_nat n → le_val (le_bytes n z) = z.
Proof.
  revert z. induction n as [|n IH]; intros z Hz; cbn [le_bytes le_val]; [simpl in Hz; lia|].
  rewrite Nat2Z.inj_succ, Z.pow_succ_r in Hz by lia.
  pose proof (Z.mod_pos_bound z 256 ltac:(lia)). pose proof (Z_div_mod_eq_full z 256).
  rewrite byte_val_of by lia.
  rewrite IH; [lia|]. split; [apply Z.div_pos; lia|apply Z.div_lt_upper_bound; lia].
Qed.

(** ** Writer *)

Definition wire_bytes (s : string) : bytes := String.list_byte_of_string s.

Definition u32 (v : Z) : bytes := varint 5 (v mod 2 ^ 32).
Definition u64 (v : Z) : bytes := varint 10 (v mod 2 ^ 64).

Definition put (bs : bytes) (w : list bytes) : list bytes :=
  match w with b :: st => (b ++ bs) :: st | [] => [bs] end.

Definition delim (bs : bytes) : bytes := u32 (blen bs) ++ bs.

(** ** Reader *)

Record wire_reader := mkReader { rd_buf : bytes; rd_pos : nat; rd_discard : bool }.

Definition rd_rest (r : wire_reader) : bytes := drop (rd_pos r) (rd_buf r).
Definition rd_skip (n : nat) (r : wire_reader) : wire_reader := mkReader (rd_buf r) (rd_pos r + n) (rd_discard r).

Definition rd_varint {A} (f : Z → A) (r : wire_reader) : res (A * wire_reader) :=
  match read_varint 10 (rd_rest r) with
  | Some (v, n) => Ok (f v, rd_skip n r)
  | None => Throw "index out of range"
  end.

Definition rd_tag (r : wire_reader) : res (Z * wire_reader) :=
  let! '(t, r') := rd_varint (λ v, v mod 2 ^ 32) r in
  if t <? 8 then Throw "illegal tag" else Ok (t, r').

Definition rd_take (n : Z) (r : wire_reader) : res (bytes * wire_reader) :=
  if blen (rd_rest r) <? n then Throw "index out of range"
  else Ok (take (Z.to_nat n) (rd_rest r), rd_skip (Z.to_nat n) r).

Definition rd_bytes (r : wire_reader) : res (bytes * wire_reader) :=
  let! '(n, r') := rd_varint (λ v, v mod 2 ^ 32) r in rd_take n r'.

Definition rd_string (r : wire_reader) : res (string * wire_reader) :=
  let! '(b, r') := rd_bytes r in
  if utf8_ok (length b) (byte_val <$> b) then Ok (String.string_of_list_byte b, r') else Throw "invalid UTF-8".

(** Without the check: a string that is not UTF-8 keeps its ASCII characters,
    the other bytes become replacement characters. *)
Definition lenient (b : bytes) : bytes :=
  if utf8_ok (length b) (byte_val <$> b) then b
  else concat ((λ x, if byte_val x <? 128 then [x] else [xef; xbf; xbd]) <$> b).

Definition rd_text (r : wire_reader) : res (string * wire_reader) :=
  let! '(b, r') := rd_bytes r in Ok (String.string_of_list_byte (lenient b), r').

Definition rd_double (r : wire_reader) : res (double * wire_reader) :=
  let! '(b, r') := rd_take 8 r in Ok (bits_double (le_val b), r').

(** One step of skipping: a scalar field, or entering or leaving a group;
    [open] counts the groups entered so far. *)
Definition rd_skip_step (wire depth open : Z) (r : wire_reader) : res (Z * wire_reader) :=
  match wire with
  | 0 => let! '(_, r') := rd_varint id r in Ok (open, r')
  | 1 => let! '(_, r') := rd_take 8 r in Ok (open, r')
  | 2 => let! '(_, r') := rd_bytes r in Ok (open, r')
  | 3 => if 100 <? depth + open + 1 then Throw "max depth exceeded" else Ok (open + 1, r)
  | 4 => if open =? 0 then Throw "invalid end group" else Ok (open - 1, r)
  | 5 => let! '(_, r') := rd_take 4 r in Ok (open, r')
  | _ => Throw "invalid wire type"
  end.

(** Skip one field, the members of a group included. *)
Fixpoint rd_skip_type (fuel : nat) (wire depth open : Z) (r : wire_reader) : res wire_reader :=
  let! '(open', r1) := rd_skip_step wire depth open r in
  if open' =? 0 then Ok r1
  else match fuel with
       | O => Throw "index out of range"
       | S f => let! '(t, r2) := rd_tag r1 in rd_skip_type f (Z.land t 7) depth open' r2
       end.

Definition wire_long (unsigned : bool) (v : Z) : long :=
  LLong (to_int32 v) (to_int32 (v / 2 ^ 32)) unsigned.

Definition wire : Runtime := {|
  has_Long := true;
  util_recursionLimit := 100;
  Reader_recursionLimit := 100;
  oneOfSetter fields name := base.filter (λ f, f ≠ name) fields;
  Writer := list bytes;
  W_create := [[]];
  W_len w := match w with b :: _ => blen b | [] => 0 end;
  W_uint32 v := put (u32 v);
  W_int32 v := put (u64 v);
  W_int64 l := put (u64 (long_val l));
  W_uint64 l := put (u64 (long_val l));
  W_bool b := put [if b then x01 else x00];
  W_string s := put (delim (wire_bytes s));
  W_bytes b := put (delim b);
  W_double x := put (le_bytes 8 (double_bits x));
  W_raw b := put b;
  W_fork w := [] :: w;
  W_ldelim w := match w with b :: b' :: st => (b' ++ delim b) :: st | b :: [] => [delim b] | [] => [] end;
  W_finish w := match w with b :: _ => b | [] => [] end;
  Reader := wire_reader;
  R_create b := mkReader b 0 false;
  R_buf := rd_buf;
  R_pos r := Z.of_nat (rd_pos r);
  R_len r := blen (rd_buf r);
  R_discardUnknown := rd_discard;
  R_tag := rd_tag;
  R_uint32 := rd_varint (λ v, v mod 2 ^ 32);
  R_int32 := rd_varint to_int32;
  R_int64 := rd_varint (λ v, wire_long false (to_int64 v));
  R_uint64 := rd_varint (λ v, wire_long true (v mod 2 ^ 64));
  R_bool := rd_varint (λ v, negb (v mod 2 ^ 64 =? 0));
  R_stringVerify := rd_string;
  R_string := rd_text;
  R_double := rd_double;
  R_bytes := rd_bytes;
  R_skipType w d t r := rd_skip_type (length (rd_buf r)) w d 0 r;
  R_raw from to_ r := take (Z.to_nat (to_ - from)) (drop (Z.to_nat from) (rd_buf r));
|}.

(** ** The laws *)

Section WireLaws.
#[local] Existing Instance wire.

(** Reading a varint that was written. *)
Lemma rd_varint_reads {A} (f : Z → A) k z a :
  (k = 5 ∨ k = 10)%nat → 0 ≤ z < 128 ^ Z.of_nat k → f z = a → reads (rd_varint f) (varint k z) a.
Proof.
  intros Hk Hz <- r rest Hr. unfold rd_varint.
  assert (Hrest : rd_rest r = varint k z ++ rest) by (unfold R_rest in Hr; simpl in Hr; by rewrite Nat2Z.id in Hr).
  rewrite Hrest. exists (rd_skip (length (varint k z)) r).
  assert (read_varint 10 (varint k z ++ rest) = Some (z, length (varint k z))) as ->.
  { destruct Hk as [->| ->]; [|by apply read_varint_varint].
    apply (read_varint_more 5); [lia|]. by apply read_varint_varint. }
  split; [done|]. split; simpl; [done|]. unfold blen. lia.
Qed.

Lemma rd_varint_advances {A} (f : Z → A) : advances (rd_varint f) 1.
Proof.
  intros r. unfold rd_varint. destruct (read_varint _ _) as [[v n]|] eqn:Hr; [|done].
  apply read_varint_advances in Hr. simpl. split; [done|lia].
Qed.

Lemma u32_reads (f : Z → Z) v : 0 ≤ v < 2 ^ 32 → f v = v → reads (rd_varint f) (u32 v) v.
Proof.
  intros Hv Hf. unfold u32. rewrite Z.mod_small by lia.
  apply rd_varint_reads; [by left|split; [lia|]|done]. change (128 ^ Z.of_nat 5) with (2 ^ 35). lia.
Qed.

Lemma u64_reads {A} (f : Z → A) v a : f (v mod 2 ^ 64) = a → reads (rd_varint f) (u64 v) a.
Proof.
  intros Hf. apply rd_varint_reads; [by right| |done]. change (128 ^ Z.of_nat 10) with (2 ^ 70).
  pose proof (Z.mod_pos_bound v (2 ^ 64) ltac:(lia)). lia.
Qed.

Lemma rd_take_reads bs : reads (rd_take (blen bs)) bs bs.
Proof.
  intros r rest Hr. unfold R_rest in Hr. simpl in Hr. rewrite Nat2Z.id in Hr.
  change (drop (rd_pos r) (rd_buf r)) with (rd_rest r) in Hr.
  unfold rd_take. rewrite Hr. rewrite (proj2 (Z.ltb_ge _ _)) by (unfold blen; rewrite length_app; lia).
  unfold blen. rewrite Nat2Z.id, take_app_length. eexists. split; [done|]. split; simpl; [done|lia].
Qed.

Lemma reads_bind {A B} (op : Reader → res (A * Reader)) (k : A → Reader → res (B * Reader)) bs bs' a b :
  (∀ r, 0 ≤ R_pos r) → reads op bs a → reads (k a) bs' b →
  reads (λ r, let! '(x, r') := op r in k x r') (bs ++ bs') b.
Proof.
  intros Hpos Hop Hk r rest Hr. rewrite <-app_assoc in Hr. destruct (Hop r _ Hr) as (r1 & H1 & Hm1).
  assert (Hr1 : R_rest r1 = bs' ++ rest).
  { unfold R_rest in *. destruct Hm1 as [-> ->]. pose proof (Hpos r). unfold blen.
    rewrite Z2Nat.inj_add, Nat2Z.id, <-drop_drop, Hr by lia. apply drop_app_length. }
  destruct (Hk r1 _ Hr1) as (r2 & H2 & Hm2). exists r2. rewrite H1. simpl. split; [done|].
  destruct Hm1, Hm2. split; [congruence|]. unfold blen in *. rewrite length_app. lia.
Qed.

Lemma rd_bytes_reads bs : len_ok bs → reads rd_bytes (delim bs) bs.
Proof.
  intros Hlen. unfold len_ok, blen in Hlen. unfold delim.
  apply (reads_bind (rd_varint (λ v, v mod 2 ^ 32)) rd_take _ _ (blen bs)).
  - intros r. simpl. lia.
  - apply u32_reads; [unfold blen; lia|]. apply Z.mod_small. unfold blen. lia.
  - apply rd_take_reads.
Qed.

Lemma rd_take_advances n : advances (rd_take n) 0.
Proof. intros r. unfold rd_take. destruct (_ <? _); [done|]. simpl. split; [done|lia]. Qed.

Lemma rd_bytes_advances : advances rd_bytes 1.
Proof.
  intros r. unfold rd_bytes. pose proof (rd_varint_advances (λ v, v mod 2 ^ 32) r) as H1.
  destruct (rd_varint _ r) as [[n r1]| |]; simpl; [|done|done].
  pose proof (rd_take_advances n r1) as H2. destruct (rd_take n r1) as [[b r2]| |]; [|done|done].
  destruct H1 as [H1 ?], H2 as [H2 ?]. simpl in *. split; [congruence|lia].
Qed.

Lemma rd_tag_advances : advances rd_tag 1.
Proof.
  intros r. unfold rd_tag. pose proof (rd_varint_advances (λ v, v mod 2 ^ 32) r) as H1.
  destruct (rd_varint _ r) as [[n r1]| |]; simpl; [|done|done]. by destruct (_ <? _).
Qed.

Lemma rd_string_advances : advances rd_string 1.
Proof.
  intros r. unfold rd_string. pose proof (rd_bytes_advances r) as H1.
  destruct (rd_bytes r) as [[b r1]| |]; simpl; [|done|done]. by destruct (utf8_ok _ _).
Qed.

(** The strings a JavaScript string without lone surrogates encodes to. *)
Definition wire_str_ok (s : string) : Prop :=
  len_ok (wire_bytes s) ∧ utf8_ok (length (wire_bytes s)) (byte_val <$> wire_bytes s) = true.

Lemma rd_string_reads s : wire_str_ok s → reads rd_string (delim (wire_bytes s)) s.
Proof.
  intros [Hlen Hutf] r rest Hr. destruct (rd_bytes_reads _ Hlen r rest Hr) as (r' & H & Hm).
  exists r'. split; [|done]. unfold rd_string. rewrite H. simpl. rewrite Hutf.
  unfold wire_bytes. by rewrite String.string_of_list_byte_of_string.
Qed.

Lemma rd_text_advances : advances rd_text 1.
Proof.
  intros r. unfold rd_text. pose proof (rd_bytes_advances r) as H1. by destruct (rd_bytes r) as [[b r1]| |].
Qed.

Lemma rd_text_reads s : wire_str_ok s → reads rd_text (delim (wire_bytes s)) s.
Proof.
  intros [Hlen Hutf] r rest Hr. destruct (rd_bytes_reads _ Hlen r rest Hr) as (r' & H & Hm).
  exists r'. split; [|done]. unfold rd_text. rewrite H. simpl. unfold lenient. rewrite Hutf.
  unfold wire_bytes. by rewrite String.string_of_list_byte_of_string.
Qed.

Lemma rd_double_reads x : double_ok x → reads rd_double (le_bytes 8 (double_bits x)) x.
Proof.
  intros Hx r rest Hr. destruct (rd_take_reads _ r rest Hr) as (r' & H & Hm).
  unfold blen in H. rewrite le_bytes_length in H.
  exists r'. split; [|done]. unfold rd_double. change 8 with (Z.of_nat 8). rewrite H. cbn [res_bind].
  rewrite le_val_bytes by (apply double_bits_bound, Hx). by rewrite bits_double_bits.
Qed.

Lemma rd_double_advances : advances rd_double 1.
Proof.
  intros r. unfold rd_double, rd_take. destruct (_ <? _); [done|]. simpl. split; [done|lia].
Qed.

Lemma rd_skip_step_advances w d open : advances (rd_skip_step w d open) 0.
Proof.
  assert (Hb : ∀ A (op : Reader → res (A * Reader)), advances op 0 →
    advances (λ r, let! '(_, r') := op r in Ok (open, r')) 0).
  { intros A op H r. specialize (H r). by destruct (op r) as [[? ?]| |]. }
  assert (Hw : ∀ A (op : Reader → res (A * Reader)), advances op 1 → advances op 0).
  { intros A op H r. specialize (H r). destruct (op r) as [[? ?]| |]; naive_solver lia. }
  intros r. unfold rd_skip_step.
  repeat match goal with |- context [match ?x with _ => _ end] => is_var x; destruct x end; try done;
    first [ destruct (_ <? _); simpl; [done|split; [done|lia]]
          | destruct (open =? 0); simpl; [done|split; [done|lia]]
          | apply (Hb _ (rd_varint id)), Hw, rd_varint_advances
          | apply (Hb _ (rd_take _)), rd_take_advances
          | apply (Hb _ rd_bytes), Hw, rd_bytes_advances ].
Qed.

Lemma rd_skip_type_advances fuel w d open :
  advances (λ r, let! r' := rd_skip_type fuel w d open r in Ok ((), r')) 0.
Proof.
  revert w open. induction fuel as [|fuel IH]; intros w open r; cbn [rd_skip_type];
    pose proof (rd_skip_step_advances w d open r) as H1;
    (destruct (rd_skip_step w d open r) as [[open' r1]| |]; simpl in *; [|done|done]);
    (destruct (open' =? 0); [done|]); [done|].
  pose proof (rd_tag_advances r1) as H2. destruct (rd_tag r1) as [[t r2]| |]; simpl in *; [|done|done].
  specialize (IH (Z.land t 7) open' r2). revert IH. simpl. destruct (rd_skip_type fuel (Z.land t 7) d open' r2) as [r3| |]; simpl; [|done|done]. intros IH.
  destruct H1, H2, IH. split; [congruence|lia].
Qed.

Lemma to_int64_mod v : - 2 ^ 63 ≤ v < 2 ^ 63 → to_int64 (v mod 2 ^ 64) = v.
Proof.
  intros Hv. unfold to_int64. rewrite Z.add_mod_idemp_l, Z.mod_small by lia. lia.
Qed.

Lemma to_int32_mod v : - 2 ^ 31 ≤ v < 2 ^ 31 → to_int32 (v mod 2 ^ 64) = v.
Proof.
  intros Hv. unfold to_int32. pose proof (Z.mod_pos_bound v (2 ^ 64) ltac:(lia)).
  pose proof (Z_div_mod_eq_full v (2 ^ 64)) as Hdm. set (q := v / 2 ^ 64) in *.
  replace (v mod 2 ^ 64 + 2 ^ 31) with (v + 2 ^ 31 + (- q * 2 ^ 32) * 2 ^ 32) by lia.
  rewrite Z.mod_add, Z.mod_small by lia. lia.
Qed.

Lemma rd_tag_reads t : tag_ok t → reads R_tag (u32 t) t.
Proof.
  intros [Ht _] r rest Hr.
  destruct (u32_reads (λ v, v mod 2 ^ 32) t ltac:(lia) ltac:(apply Z.mod_small; lia) r rest Hr) as (r' & H & Hm).
  exists r'. split; [|done]. simpl. unfold rd_tag. rewrite H. simpl. by rewrite (proj2 (Z.ltb_ge _ _)) by lia.
Qed.

Lemma rd_bool_reads (b : bool) : reads R_bool [if b then x01 else x00] b.
Proof.
  replace [if b then x01 else x00] with (varint 10 (if b then 1 else 0)) by (by destruct b).
  apply rd_varint_reads; [by right|by destruct b|by destruct b].
Qed.

(** The laws about writing and about moving forward. *)
Ltac wire_law := solve
  [ done | by intros ? ? ? ? -> | by intros ? ? ? -> | by intros ? ? ->
  | apply rd_tag_reads | apply rd_bool_reads | apply rd_string_reads | apply rd_bytes_reads
  | apply rd_text_reads | apply rd_double_reads | apply rd_text_advances | apply rd_double_advances
  | apply rd_tag_advances | apply rd_varint_advances | apply rd_string_advances | apply rd_bytes_advances ].

Definition wire_laws : @RuntimeLaws wire.
Proof.
  refine {|
    str_ok := wire_str_ok;
    uint32_bytes := u32;
    int32_bytes := u64;
    int64_bytes l := u64 (long_val l);
    uint64_bytes l := u64 (long_val l);
    bool_bytes b := [if b then x01 else x00];
    string_bytes s := delim (wire_bytes s);
    bytes_bytes := delim;
    double_bytes x := le_bytes 8 (double_bits x);
    W_view := λ w : @Writer wire, w
  |}; try wire_law.
  - intros fields name f. simpl. rewrite list_elem_of_filter. tauto.
  - intros r. simpl. lia.
  - intros v. unfold u32. cbn [varint]. by destruct (_ <? _).
  - intros v Hv. apply u32_reads; [done|]. by apply Z.mod_small.
  - intros v Hv. apply u64_reads. by apply to_int32_mod.
  - intros l Hl. apply u64_reads. unfold mk_long, wire_long. simpl. by rewrite to_int64_mod.
  - intros l Hl. apply u64_reads. unfold mk_long, wire_long. simpl. unfold uint64_ok in Hl.
    by rewrite Zmod_mod, Z.mod_small.
  - intros w d t r. pose proof (rd_skip_type_advances (length (rd_buf r)) w d 0 r) as H.
    simpl in *. destruct (rd_skip_type _ _ _ _ r); simpl in *; [|done|done]. destruct H. split; [done|lia].
Defined.

End WireLaws.
