(* ===== verification/Topic.v ===== *)
(** * Topic names ([web/app/lib/topic.ts])

    The name of a one-to-one conversation is computed on both sides: the
    client builds it from two user ids, the backend parses a name and puts the
    ids it finds in ascending order ([internal/topic/topic.go],
    [NormalizeTopic]).  The theorems relate the two. *)

From S2P Require Import Prelude JsNum.
From Stdlib Require Import Ascii.
Open Scope Z_scope.

Module Topic.

Inductive TopicType := Tp2p | Tgroup | Tunknown.

(** [getP2PTopic]. *)
Definition getP2PTopic (userId1 userId2 : jsnum) : string :=
  let '(a, b) := if js_lt userId1 userId2 then (userId1, userId2) else (userId2, userId1) in
  ("p2p_" +:+ interpolate a +:+ "_" +:+ interpolate b)%string.

(** [topicType]. *)
Definition topicType (topic : string) : TopicType :=
  if String.prefix "p2p_" topic then Tp2p
  else if String.prefix "grp_" topic then Tgroup
  else Tunknown.

(** ** The regular expression [/^p2p_(\d+)_(\d+)$/] *)

Definition is_digit (c : ascii) : bool :=
  (48 <=? N_of_ascii c)%N && (N_of_ascii c <=? 57)%N.

(** The longest prefix of digits, and the rest. *)
Fixpoint span_digits (s : string) : string * string :=
  match s with
  | String c s' => if is_digit c then let '(d, r) := span_digits s' in (String c d, r) else (EmptyString, s)
  | EmptyString => (EmptyString, EmptyString)
  end.

Definition strip_prefix (p s : string) : option string :=
  if String.prefix p s then Some (String.substring (String.length p) (String.length s - String.length p) s) else None.

Definition match_p2p (topic : string) : option (string * string) :=
  match strip_prefix "p2p_" topic with
  | Some s =>
      let '(d1, r) := span_digits s in
      match d1, r with
      | String _ _, String "_" r' =>
          let '(d2, r2) := span_digits r' in
          match d2, r2 with String _ _, EmptyString => Some (d1, d2) | _, _ => None end
      | _, _ => None
      end
  | None => None
  end.

(** The number the digits denote, from the accumulator [n]. *)
Fixpoint digits_val (n : N) (s : string) : N :=
  match s with
  | String c s' => digits_val (10 * n + (N_of_ascii c - 48)) s'
  | EmptyString => n
  end.

(** [parseInt(s, 10)] of a string of digits. *)
Definition parseInt (s : string) : Z := to_double (Z.of_N (digits_val 0 s)).

(** [extractPeerIdFromP2PTopic]. *)
Definition extractPeerIdFromP2PTopic (topic : string) (currentUserId : jsnum) : Z :=
  match match_p2p topic with
  | None => 0
  | Some (m1, m2) =>
      let id1 := parseInt m1 in
      let id2 := parseInt m2 in
      if strict_eq (Num id1) currentUserId then id2 else id1
  end.

(** ** The backend ([internal/topic/topic.go]) *)

(** [ParseType]. *)
Inductive BackendType := TypeUnknown | TypeP2P | TypeGroup | TypeSystem.

Definition ParseType (topic : string) : BackendType :=
  if String.prefix "p2p_" topic then TypeP2P
  else if String.prefix "grp_" topic then TypeGroup
  else if String.prefix "sys_" topic then TypeSystem
  else TypeUnknown.

(** [strings.Split(s, "_")]. *)
Fixpoint Split (s : string) : list string :=
  match s with
  | EmptyString => [EmptyString]
  | String c s' =>
      if Ascii.eqb c "_" then EmptyString :: Split s'
      else match Split s' with
           | p :: ps => String c p :: ps
           | [] => [String c EmptyString]
           end
  end.

(** The verb [%d] of [fmt.Sscanf] for an [int64]: spaces are skipped, a sign may
    precede the digits, the number must be in range; the rest of the input is
    left.  [None] is an error. *)
Definition is_blank (c : ascii) : bool := bool_decide (c ∈ [" "%char; "009"%char; "011"%char; "012"%char; "013"%char]).

Fixpoint skip_blanks (s : string) : string :=
  match s with String c s' => if is_blank c then skip_blanks s' else s | EmptyString => EmptyString end.

Definition int64_range (z : Z) : bool := (- 2 ^ 63 <=? z) && (z <? 2 ^ 63).

Definition scan_int (s : string) : option (Z * string) :=
  let s := skip_blanks s in
  let '(sign, s) := match s with
                    | String c s' => if Ascii.eqb c "-" then (-1, s') else if Ascii.eqb c "+" then (1, s') else (1, s)
                    | EmptyString => (1, s)
                    end in
  match span_digits s with
  | (EmptyString, _) => None
  | (d, rest) => let z := sign * Z.of_N (digits_val 0 d) in if int64_range z then Some (z, rest) else None
  end.

(** [fmt.Sscanf(s, "%d %d", &uid1, &uid2)]: the space of the format asks for one
    in the input. *)
Definition Sscanf_2 (s : string) : option (Z * Z) :=
  match scan_int s with
  | Some (uid1, String c rest) =>
      if is_blank c then match scan_int rest with Some (uid2, _) => Some (uid1, uid2) | None => None end else None
  | _ => None
  end.

(** [ExtractUserIDsFromP2PTopic]; [None] is an error. *)
Definition ExtractUserIDsFromP2PTopic (topic : string) : option (Z * Z) :=
  match Split topic with
  | [_; p1; p2] => Sscanf_2 (p1 +:+ " " +:+ p2)%string
  | _ => None
  end.

(** [fmt.Sprintf("p2p_%d_%d", uid1, uid2)]. *)
Definition p2p_name (uid1 uid2 : Z) : string := ("p2p_" +:+ pretty uid1 +:+ "_" +:+ pretty uid2)%string.

(** [NormalizeTopic]; [None] is an error. *)
Definition NormalizeTopic (topic : string) : option string :=
  match ParseType topic with
  | TypeP2P =>
      match ExtractUserIDsFromP2PTopic topic with
      | Some (uid1, uid2) => Some (if uid2 <? uid1 then p2p_name uid2 uid1 else p2p_name uid1 uid2)
      | None => None
      end
  | TypeGroup | TypeSystem => Some topic
  | TypeUnknown => None
  end.

(** ** Decimal digits *)

Fixpoint all_digits (s : string) : bool :=
  match s with String c s' => is_digit c && all_digits s' | EmptyString => true end.

Lemma pretty_N_char_digit x : (x < 10)%N →
  is_digit (pretty_N_char x) = true ∧ (N_of_ascii (pretty_N_char x) - 48 = x)%N.
Proof.
  intros Hx. destruct x as [|p]; [by vm_compute|].
  do 4 (try destruct p as [p|p|]); first [lia|by vm_compute].
Qed.

Lemma pretty_N_go_val x s :
  digits_val 0 (pretty_N_go x s) = digits_val x s ∧ all_digits (pretty_N_go x s) = all_digits s.
Proof.
  revert s. induction (N.lt_wf_0 x) as [x _ IH]. intros s.
  destruct (decide (x = 0)%N) as [->|Hx]; [by rewrite pretty_N_go_0|].
  rewrite pretty_N_go_step by lia.
  destruct (IH (x `div` 10)%N (N.div_lt x 10 ltac:(lia) ltac:(lia)) (String (pretty_N_char (x `mod` 10)) s)) as [-> ->].
  destruct (pretty_N_char_digit (x `mod` 10)) as [Hd Hv]; [apply N.mod_lt; lia|].
  cbn [digits_val all_digits]. rewrite Hd, Hv. split; [|done]. f_equal.
  symmetry. apply N.div_mod. lia.
Qed.

Lemma pretty_Z_val z : 0 ≤ z →
  Z.of_N (digits_val 0 (pretty z)) = z ∧ all_digits (pretty z) = true ∧ pretty z ≠ EmptyString.
Proof.
  intros Hz. destruct z as [|p|p]; [done| |lia].
  change (pretty (Z.pos p)) with (pretty_N_go (N.pos p) "").
  destruct (pretty_N_go_val (N.pos p) "") as [Hv Hd]. rewrite Hv, Hd. split; [done|]. split; [done|].
  intros He. rewrite He in Hv. done.
Qed.

Lemma span_digits_app d r :
  all_digits d = true → match r with String c _ => is_digit c = false | EmptyString => True end →
  span_digits (d +:+ r) = (d, r).
Proof.
  induction d as [|c d IH]; simpl; intros Hd Hr.
  - destruct r as [|c r]; simpl; [done|]. by rewrite Hr.
  - apply andb_true_iff in Hd as [-> Hd]. by rewrite IH.
Qed.

Lemma string_app_nil_r s : (s +:+ "")%string = s.
Proof. induction s as [|c s IH]; [done|]. exact (f_equal (String c) IH). Qed.

Lemma substring_all s : String.substring 0 (String.length s) s = s.
Proof. induction s as [|c s IH]; simpl; [done|]. by rewrite IH. Qed.

Lemma strip_p2p s : strip_prefix "p2p_" ("p2p_" +:+ s) = Some s.
Proof.
  unfold strip_prefix. simpl. rewrite Nat.sub_0_r, substring_all. by destruct s.
Qed.

Lemma topicType_p2p s : topicType ("p2p_" +:+ s) = Tp2p.
Proof. unfold topicType. simpl. by destruct s. Qed.

Lemma match_p2p_pretty a b : 0 ≤ a → 0 ≤ b →
  match_p2p ("p2p_" +:+ pretty a +:+ "_" +:+ pretty b) = Some (pretty a, pretty b).
Proof.
  intros Ha Hb. destruct (pretty_Z_val a Ha) as (_ & Hda & Hna), (pretty_Z_val b Hb) as (_ & Hdb & Hnb).
  unfold match_p2p. rewrite strip_p2p, span_digits_app by first [done|reflexivity].
  destruct (pretty a) as [|c1 s1]; [done|].
  change (("_" +:+ pretty b)%string) with (String "_" (pretty b)). cbv iota beta.
  rewrite <-(string_app_nil_r (pretty b)) at 1. rewrite span_digits_app by done.
  by destruct (pretty b).
Qed.

(** Extracted digits are the number, up to rounding to a double. *)
Lemma parseInt_pretty z : 0 ≤ z → parseInt (pretty z) = to_double z.
Proof. intros Hz. unfold parseInt. by destruct (pretty_Z_val z Hz) as [-> _]. Qed.

(** ** What the backend makes of a name *)

Lemma digit_not c d : is_digit c = true → is_digit d = false → Ascii.eqb c d = false.
Proof. intros Hc Hd. destruct (Ascii.eqb_spec c d); [congruence|done]. Qed.

Lemma Split_digits d s : all_digits d = true → Split (d +:+ String "_" s)%string = d :: Split s.
Proof.
  induction d as [|c d IH]; intros H; [done|]. cbn [all_digits] in H. apply andb_true_iff in H as [Hc Hd].
  change (Split (String c d +:+ String "_" s)%string) with
    (if Ascii.eqb c "_" then EmptyString :: Split (d +:+ String "_" s)%string
     else match Split (d +:+ String "_" s)%string with p :: ps => String c p :: ps | [] => [String c EmptyString] end).
  by rewrite (digit_not c "_") by done; rewrite IH.
Qed.

Lemma Split_last d : all_digits d = true → Split d = [d].
Proof.
  induction d as [|c d IH]; intros H; [done|]. cbn [all_digits] in H. apply andb_true_iff in H as [Hc Hd].
  cbn [Split]. by rewrite (digit_not c "_") by done; rewrite IH.
Qed.

Lemma scan_pretty z rest : 0 ≤ z < 2 ^ 63 →
  match rest with String c _ => is_digit c = false | EmptyString => True end →
  scan_int (pretty z +:+ rest) = Some (z, rest).
Proof.
  intros Hz Hr. destruct (pretty_Z_val z ltac:(lia)) as (Hv & Hd & Hn).
  assert (Hs : span_digits (pretty z +:+ rest) = (pretty z, rest)) by (by apply span_digits_app).
  assert (Hi : int64_range z = true) by (unfold int64_range; apply andb_true_iff; split; [apply Z.leb_le|apply Z.ltb_lt]; lia).
  unfold scan_int. destruct (pretty z) as [|c d] eqn:Hp; [done|]. cbn [all_digits] in Hd. apply andb_true_iff in Hd as [Hc _].
  assert (Hb : skip_blanks (String c d +:+ rest) = (String c d +:+ rest)%string).
  { change ((if is_blank c then skip_blanks (d +:+ rest) else String c d +:+ rest) = String c d +:+ rest)%string.
    assert (is_blank c = false) as ->; [|done]. apply bool_decide_eq_false. intros Hin.
    repeat (apply elem_of_cons in Hin as [->|Hin]; [done|]). by apply elem_of_nil in Hin. }
  rewrite Hb. cbv zeta. change (String c d +:+ rest)%string with (String c (d +:+ rest)%string) in *. cbv iota.
  rewrite (digit_not c "-"), (digit_not c "+") by done. rewrite Hs, Hv, Z.mul_1_l. by rewrite Hi.
Qed.


(** The backend reads the ids of a name back and puts them in order. *)
Lemma NormalizeTopic_p2p a b : 0 ≤ a < 2 ^ 63 → 0 ≤ b < 2 ^ 63 →
  NormalizeTopic (p2p_name a b) = Some (p2p_name (Z.min a b) (Z.max a b)).
Proof.
  intros Ha Hb. destruct (pretty_Z_val a ltac:(lia)) as (_ & Hda & _), (pretty_Z_val b ltac:(lia)) as (_ & Hdb & _).
  assert (He : ExtractUserIDsFromP2PTopic (p2p_name a b) = Some (a, b)).
  { unfold ExtractUserIDsFromP2PTopic, p2p_name.
    change (Split ("p2p_" +:+ pretty a +:+ "_" +:+ pretty b)%string) with ("p2p"%string :: Split (pretty a +:+ String "_" (pretty b))%string).
    rewrite Split_digits, Split_last by done. unfold Sscanf_2.
    rewrite (scan_pretty a (" " +:+ pretty b)) by done. change (" " +:+ pretty b)%string with (String " " (pretty b)). cbv iota.
    change (is_blank " ") with true. cbv iota. rewrite <-(string_app_nil_r (pretty b)), scan_pretty by done. done. }
  assert (Ht : ParseType (p2p_name a b) = TypeP2P).
  { unfold ParseType, p2p_name. by destruct (pretty a +:+ "_" +:+ pretty b)%string. }
  unfold NormalizeTopic. rewrite Ht, He. f_equal.
  destruct (Z.ltb_spec b a); [rewrite Z.min_r, Z.max_l by lia|rewrite Z.min_l, Z.max_r by lia]; done.
Qed.

(** ** The two orders *)

(** A user id as it reaches the client: a number, which is a safe integer, or
    the decimal text of a 64-bit integer. *)
Definition id_of (x : jsnum) : Z := match x with Num z | Dec z => z end.
Definition wire_id (x : jsnum) : Prop :=
  match x with Num z => 0 ≤ z < 2 ^ 53 | Dec z => 0 ≤ z < 2 ^ 63 end.

Lemma interpolate_wire x : wire_id x → interpolate x = pretty (id_of x).
Proof. destruct x; simpl; [|done]. intros H. apply number_to_string_safe. unfold safe_integer. lia. Qed.

(** At least one id is a number, so that [<] compares numerically. *)
Definition numeric_pair (x y : jsnum) : Prop :=
  match x, y with Dec _, Dec _ => False | _, _ => True end.

#[export] Instance numeric_pair_dec x y : Decision (numeric_pair x y).
Proof. destruct x, y; simpl; apply _. Defined.

(** Rounding keeps the order to a safe integer. *)
Lemma to_double_lt a b : 0 ≤ a < 2 ^ 53 → 0 ≤ b → ((a <? to_double b) = (a <? b)) ∧ ((to_double b <? a) = (b <? a)).
Proof.
  intros Ha Hb. destruct (decide (b < 2 ^ 53)).
  - by rewrite to_double_safe by (unfold safe_integer; lia).
  - pose proof (to_double_lower b 53 ltac:(lia) ltac:(lia)).
    split; [rewrite !(proj2 (Z.ltb_lt _ _)) by lia|rewrite !(proj2 (Z.ltb_ge _ _)) by lia]; done.
Qed.

Lemma js_lt_numeric x y : numeric_pair x y → wire_id x → wire_id y → js_lt x y = (id_of x <? id_of y).
Proof. intros Hn Hx Hy. destruct x as [a|a], y as [b|b]; try done; simpl in *; apply to_double_lt; lia. Qed.

(** Decimal texts of the same length compare as their numbers. *)
Lemma digit_val c : is_digit c = true → (48 ≤ N_of_ascii c ≤ 57)%N.
Proof. intros [H1%N.leb_le H2%N.leb_le]%andb_true_iff. lia. Qed.

Lemma digits_val_lt s : ∀ t n m, all_digits s = true → all_digits t = true → String.length s = String.length t →
  (n < m → digits_val n s < digits_val m t)%N.
Proof.
  induction s as [|c s IH]; intros [|d t] n m Hs Ht Hl Hnm; try done. cbn [all_digits String.length digits_val] in *.
  apply andb_true_iff in Hs as [Hc%digit_val Hs], Ht as [Hd%digit_val Ht]. apply IH; [done|done|lia|lia].
Qed.

Lemma compare_digits s : ∀ t n, all_digits s = true → all_digits t = true → String.length s = String.length t →
  String.compare s t = (digits_val n s ?= digits_val n t)%N.
Proof.
  induction s as [|c s IH]; intros [|d t] n Hs Ht Hl; try done; [by rewrite N.compare_refl|].
  cbn [all_digits String.length digits_val String.compare] in *.
  apply andb_true_iff in Hs as [Hc%digit_val Hs], Ht as [Hd%digit_val Ht]. unfold Ascii.compare.
  destruct (N.compare_spec (N_of_ascii c) (N_of_ascii d)) as [He|Hlt|Hgt].
  - rewrite He. apply IH; [done|done|lia].
  - symmetry. apply N.compare_lt_iff, digits_val_lt; [done|done|lia|lia].
  - symmetry. apply N.compare_gt_iff, digits_val_lt; [done|done|lia|lia].
Qed.

Lemma ltb_pretty a b : 0 ≤ a → 0 ≤ b → String.length (pretty a) = String.length (pretty b) →
  String.ltb (pretty a) (pretty b) = (a <? b).
Proof.
  intros Ha Hb Hl. destruct (pretty_Z_val a Ha) as (Hva & Hda & _), (pretty_Z_val b Hb) as (Hvb & Hdb & _).
  transitivity (Z.of_N (digits_val 0 (pretty a)) <? Z.of_N (digits_val 0 (pretty b))); [|by rewrite Hva, Hvb].
  unfold String.ltb. rewrite (compare_digits _ _ 0%N) by done.
  destruct (N.compare_spec (digits_val 0 (pretty a)) (digits_val 0 (pretty b))); symmetry; first [apply Z.ltb_lt; lia|apply Z.ltb_ge; lia].
Qed.

Lemma ltb_antisym s t : String.ltb s t = false → String.ltb t s = false → s = t.
Proof.
  unfold String.ltb. rewrite (String.compare_antisym t s). destruct (String.compare s t) eqn:E; [|done|done].
  intros _ _. by apply String.compare_eq_iff.
Qed.

Lemma ltb_asym s t : String.ltb s t = true → String.ltb t s = false.
Proof. unfold String.ltb. rewrite (String.compare_antisym t s). by destruct (String.compare s t). Qed.

(** The client's name, by the order it finds. *)
Lemma getP2PTopic_name x y : wire_id x → wire_id y →
  getP2PTopic x y = if js_lt x y then p2p_name (id_of x) (id_of y) else p2p_name (id_of y) (id_of x).
Proof. intros Hx Hy. unfold getP2PTopic. destruct (js_lt x y); by rewrite !interpolate_wire. Qed.

Lemma js_lt_flip x y : wire_id x → wire_id y → js_lt x y = js_lt y x → id_of x = id_of y.
Proof.
  intros Hx Hy. destruct (decide (numeric_pair x y)) as [Hn|Hn].
  - assert (Hn' : numeric_pair y x) by (by destruct x, y). rewrite !js_lt_numeric by done.
    destruct (Z.ltb_spec (id_of x) (id_of y)), (Z.ltb_spec (id_of y) (id_of x)); try done; lia.
  - destruct x as [a|a], y as [b|b]; try (by destruct Hn). simpl in *.
    destruct (String.ltb (pretty a) (pretty b)) eqn:E; [by rewrite (ltb_asym _ _ E)|]. intros E'%eq_sym.
    pose proof (ltb_antisym _ _ E E') as Heq.
    destruct (pretty_Z_val a ltac:(lia)) as (<- & _), (pretty_Z_val b ltac:(lia)) as (<- & _). by rewrite Heq.
Qed.

(** C39: for two user ids as they reach the client (safe numbers, or the text of
    64-bit integers) both participants get the same name, and the backend
    normalises it to the name with the ids in ascending order.  It already is
    that name unless both ids are texts of different length: then the texts are
    compared, not the numbers. *)
Theorem getP2PTopic_agrees x y :
  wire_id x → wire_id y →
  let normal := p2p_name (Z.min (id_of x) (id_of y)) (Z.max (id_of x) (id_of y)) in
  getP2PTopic x y = getP2PTopic y x ∧ NormalizeTopic (getP2PTopic x y) = Some normal ∧
  (numeric_pair x y ∨ String.length (pretty (id_of x)) = String.length (pretty (id_of y)) → getP2PTopic x y = normal).
Proof.
  intros Hx Hy normal.
  assert (Hrx : 0 ≤ id_of x < 2 ^ 63) by (destruct x; simpl in *; lia).
  assert (Hry : 0 ≤ id_of y < 2 ^ 63) by (destruct y; simpl in *; lia). split; [|split].
  - rewrite !getP2PTopic_name by done. pose proof (js_lt_flip x y Hx Hy) as Hf.
    destruct (js_lt x y), (js_lt y x); try done; by rewrite Hf.
  - rewrite getP2PTopic_name by done. destruct (js_lt x y); rewrite NormalizeTopic_p2p by done; [done|].
    unfold normal. by rewrite Z.min_comm, Z.max_comm.
  - intros Hcase. assert (Hlt : js_lt x y = (id_of x <? id_of y)).
    { destruct (decide (numeric_pair x y)) as [Hn|Hn]; [by apply js_lt_numeric|]. destruct Hcase as [Hc|Hc]; [done|].
      destruct x as [a|a], y as [b|b]; try (by destruct Hn). apply ltb_pretty; simpl in *; [lia|lia|done]. }
    rewrite getP2PTopic_name, Hlt by done. unfold normal.
    destruct (Z.ltb_spec (id_of x) (id_of y)); [rewrite Z.min_l, Z.max_r by lia|rewrite Z.min_r, Z.max_l by lia]; done.
Qed.

(** The ids of the dialog that starts a chat are two texts. *)
Lemma getP2PTopic_agrees_witness :
  getP2PTopic (Dec 12) (Dec 34) = "p2p_12_34"%string ∧ NormalizeTopic (getP2PTopic (Dec 10) (Dec 9)) = Some "p2p_9_10"%string.
Proof.
  split.
  - refine (proj2 (proj2 (getP2PTopic_agrees (Dec 12) (Dec 34) _ _)) _); [simpl; lia|simpl; lia|right; reflexivity].
  - refine (proj1 (proj2 (getP2PTopic_agrees (Dec 10) (Dec 9) _ _))); simpl; lia.
Defined.

(** With two string ids of different length the names can diverge: the ids
    compare as text, and users 9 and 10 get a name the backend never uses. *)
Theorem getP2PTopic_string_ids :
  getP2PTopic (Dec 9) (Dec 10) = "p2p_10_9"%string ∧
  NormalizeTopic (getP2PTopic (Dec 9) (Dec 10)) = Some "p2p_9_10"%string.
Proof. split; vm_compute; reflexivity. Qed.

(** Names the backend refuses. *)
Example NormalizeTopic_errors :
  NormalizeTopic "p2p_9" = None ∧ NormalizeTopic "p2p_9_x" = None ∧ NormalizeTopic "p2p_1_2_3" = None ∧
  NormalizeTopic "p2p_1_9223372036854775808" = None ∧ NormalizeTopic "chat_1" = None ∧ NormalizeTopic "grp_1" = Some "grp_1"%string.
Proof. repeat split; vm_compute; reflexivity. Qed.

(** Parsing a one-to-one topic gives the other participant back, for each
    of the two participants. *)
Theorem extractPeerId_getP2PTopic a b :
  0 ≤ a → 0 ≤ b → safe_integer a → safe_integer b →
  extractPeerIdFromP2PTopic (getP2PTopic (Num a) (Num b)) (Num a) = b ∧
  topicType (getP2PTopic (Num a) (Num b)) = Tp2p.
Proof.
  intros Ha Hb Hsa Hsb. unfold safe_integer in *.
  rewrite getP2PTopic_name, js_lt_numeric by (simpl; lia || done). cbn [id_of].
  assert (Hx : ∀ c d, 0 ≤ c < 2 ^ 53 → 0 ≤ d < 2 ^ 53 →
    extractPeerIdFromP2PTopic (p2p_name c d) (Num a) = (if c =? a then d else c) ∧ topicType (p2p_name c d) = Tp2p).
  { intros c d Hc Hd. split; [|apply topicType_p2p]. unfold extractPeerIdFromP2PTopic, p2p_name.
    rewrite match_p2p_pretty, !parseInt_pretty by lia. rewrite !to_double_safe by (unfold safe_integer; lia). done. }
  destruct (Z.ltb_spec a b); (destruct (Hx a b), (Hx b a); [lia..|]); split; try done;
    match goal with H : extractPeerIdFromP2PTopic _ _ = _ |- extractPeerIdFromP2PTopic _ _ = _ => rewrite H end;
    match goal with |- context [?c =? a] => destruct (Z.eqb_spec c a) end; lia.
Qed.

Lemma extractPeerId_getP2PTopic_witness :
  safe_integer 7 ∧ extractPeerIdFromP2PTopic (getP2PTopic (Num 7) (Num 42)) (Num 7) = 42.
Proof.
  assert (H7 : safe_integer 7) by (unfold safe_integer; lia).
  split; [exact H7|].
  apply (extractPeerId_getP2PTopic 7 42); [lia|lia|exact H7|unfold safe_integer; lia].
Defined.

End Topic.
