(* ===== verification/ProtoObjects.v ===== *)
(** * Plain objects and the generated conversions ([web/app/lib/proto/im.js])

    The values a plain object can hold, and the pieces from which the generated
    [verify], [fromObject] and [toObject] functions are made.  A number is an
    integer or, where a field of type double is involved, a double; a property
    whose value is null or undefined counts as absent, which is how the
    generated code tests every field. *)

From S2P Require Import Prelude JsNum JsMap ProtoRuntime.
From Stdlib Require Floats.SpecFloat.
Open Scope Z_scope.

(** ** Doubles as numbers *)

Definition signed (s : bool) (z : Z) : Z := if s then - z else z.

(** The integer a double is, if it is one. *)
Definition double_int (x : double) : option Z :=
  match x with
  | SpecFloat.S754_zero _ => Some 0
  | SpecFloat.S754_finite s m e =>
      if 0 <=? e then Some (signed s (Zpos m * 2 ^ e))
      else if Zpos m mod 2 ^ (- e) =? 0 then Some (signed s (Zpos m / 2 ^ (- e))) else None
  | _ => None
  end.

(** The integer part; an infinity counts as a number past all others, NaN as
    zero. *)
Definition double_trunc (x : double) : Z :=
  match x with
  | SpecFloat.S754_zero _ | SpecFloat.S754_nan => 0
  | SpecFloat.S754_infinity s => signed s (2 ^ 1024)
  | SpecFloat.S754_finite s m e => signed s (if 0 <=? e then Zpos m * 2 ^ e else Zpos m / 2 ^ (- e))
  end.

Definition double_zero (x : double) : bool := match x with SpecFloat.S754_zero _ => true | _ => false end.
Definition double_nan (x : double) : bool := match x with SpecFloat.S754_nan => true | _ => false end.
Definition isFinite (x : double) : bool :=
  match x with SpecFloat.S754_zero _ | SpecFloat.S754_finite _ _ _ => true | _ => false end.

(** The double nearest to an integer. *)
Definition double_of_Z (z : Z) : double := SpecFloat.binary_normalize 53 1024 z 0 false.

(** ** Values *)

Inductive jsval :=
| VNull
| VBool (b : bool)
| VNum (z : Z)
| VDouble (x : double)
| VBigInt (z : Z)
| VStr (s : string)
| VBytes (b : bytes)
| VLong (low high : Z) (unsigned : bool)
| VArr (l : list jsval)
| VObj (fields : list (string * jsval)).

(** [v && typeof v === "object"], [$util.isObject]. *)
Definition isObject (v : jsval) : bool :=
  match v with VBytes _ | VLong _ _ _ | VArr _ | VObj _ => true | _ => false end.

(** [typeof v === "number"]. *)
Definition isNumber (v : jsval) : bool := match v with VNum _ | VDouble _ => true | _ => false end.

Definition isInteger (v : jsval) : bool :=
  match v with VNum _ => true | VDouble x => bool_decide (is_Some (double_int x)) | _ => false end.
Definition isString (v : jsval) : bool := match v with VStr _ => true | _ => false end.
Definition isBoolean (v : jsval) : bool := match v with VBool _ => true | _ => false end.

Definition js_truthy (v : jsval) : bool :=
  match v with
  | VNull => false
  | VBool b => b
  | VNum z | VBigInt z => negb (z =? 0)
  | VDouble x => negb (double_zero x || double_nan x)
  | VStr s => string_present s
  | _ => true
  end.

(** [v.f], when it is neither null nor undefined. *)
Definition prop (v : jsval) (f : string) : option jsval :=
  match v with
  | VObj fields => match map_get f fields with Some VNull | None => None | Some x => Some x end
  | VLong low high u =>
      if String.eqb f "low" then Some (VNum low)
      else if String.eqb f "high" then Some (VNum high)
      else if String.eqb f "unsigned" then Some (VBool u) else None
  | VStr s => if String.eqb f "length" then Some (VNum (Z.of_nat (String.length s))) else None
  | VBytes b => if String.eqb f "length" then Some (VNum (Z.of_nat (length b))) else None
  | VArr l => if String.eqb f "length" then Some (VNum (Z.of_nat (length l))) else None
  | _ => None
  end.

(** [join(",")] of printed elements. *)
Fixpoint join_comma (l : list string) : string :=
  match l with
  | [] => ""
  | [s] => s
  | s :: l' => s +:+ "," +:+ join_comma l'
  end.

Definition byte_num (b : Byte.byte) : Z := Z.of_N (Byte.to_N b).

(** ** Functions of the platform and of long.js

    [Number_str s] is [Number(s)] when that is an integer ([None]: a fraction
    or not a number), [Number_int32 s] is [Number(s) | 0], [parseInt10 s] is
    [parseInt(s, 10)]; [Long_fromValue] is that of long.js on a string or a
    number, [Long_toString] its decimal printing; [base64] is [$util.base64];
    [Number_double s] is [Number(s)], [Number_toString] prints a number that is
    not an integer. *)
Class Conversions := {
  Number_str : string → option Z;
  Number_int32 : string → Z;
  Number_double : string → double;
  Number_toString : double → string;
  parseInt10 : string → option Z;
  Long_fromString : string → bool → res long;
  Long_fromNumber : Z → bool → long;
  Long_toString : long → string;
  base64_encode : bytes → string;
  base64_decode : string → res bytes;
}.

Section Pieces.
Context {RT : Runtime} {CV : Conversions}.

(** [String(v)]. *)
Fixpoint js_String (v : jsval) : string :=
  match v with
  | VNull => "null"
  | VBool b => if b then "true" else "false"
  | VNum z => number_to_string z
  | VDouble x => match double_int x with Some z => number_to_string z | None => Number_toString x end
  | VBigInt z => pretty z
  | VStr s => s
  | VBytes b => join_comma ((λ x, pretty (byte_num x)) <$> b)
  | VLong low high u => pretty (long_val (LLong low high u))
  | VArr l => join_comma ((λ x, match x with VNull => "" | _ => js_String x end) <$> l)
  | VObj _ => "[object Object]"
  end.

(** [Number(v) !== 0]. *)
Definition Number_nonzero (v : jsval) : bool :=
  match v with
  | VNum z | VBigInt z => negb (z =? 0)
  | VDouble x => negb (double_zero x)
  | VBool b => b
  | VNull => false
  | _ => negb (bool_decide (Number_str (js_String v) = Some 0))
  end.

(** [v | 0]; on a bigint it throws. *)
Definition ToInt32 (v : jsval) : res Z :=
  match v with
  | VNum z => Ok (to_int32 z)
  | VDouble x => Ok (to_int32 (double_trunc x))
  | VBigInt _ => Throw "TypeError: Cannot mix BigInt and other types"
  | VBool b => Ok (if b then 1 else 0)
  | VNull => Ok 0
  | _ => Ok (Number_int32 (js_String v))
  end.

(** [v >>> 0] of an integer. *)
Definition to_uint32 (z : Z) : Z := z mod 2 ^ 32.

(** [v.low] as a number; anything else counts as zero. *)
Definition num_prop (v : jsval) (f : string) : Z :=
  match prop v f with Some (VNum z) => z | _ => 0 end.

(** ** [verify] *)

Definition verify_object (message : jsval) (_depth : option Z) (k : Z → option string) : option string :=
  if negb (isObject message) then Some "object expected"%string
  else if util_recursionLimit <? default 0 _depth then Some "max depth exceeded"%string
  else k (default 0 _depth).

(** [if (message.f != null && hasOwnProperty.call(message, "f")) { ... }]. *)
Definition check (message : jsval) (f : string) (test : jsval → option string) (rest : option string) : option string :=
  match message with
  | VObj _ => match prop message f with
              | Some v => match test v with Some err => Some err | None => rest end
              | None => rest
              end
  | _ => rest
  end.

Definition expect (ok : jsval → bool) (err : string) (v : jsval) : option string :=
  if ok v then None else Some err.

(** [$util.isInteger(v) || v && $util.isInteger(v.low) && $util.isInteger(v.high)]. *)
Definition isLongLike (v : jsval) : bool :=
  isInteger v ||
  js_truthy v && match prop v "low", prop v "high" with Some l, Some h => isInteger l && isInteger h | _, _ => false end.

(** [v && typeof v.length === "number" || $util.isString(v)]. *)
Definition isBuffer (v : jsval) : bool :=
  js_truthy v && match prop v "length" with Some l => isInteger l | None => false end || isString v.

(** The [switch] over the values of an enumeration. *)
Definition isEnum (table : list (Z * string)) (v : jsval) : bool :=
  match v with
  | VNum z => bool_decide (z ∈ table.*1)
  | VDouble x => match double_int x with Some z => bool_decide (z ∈ table.*1) | None => false end
  | _ => false
  end.

(** A required field: the test applies whether it is there or not. *)
Definition check_required (message : jsval) (f : string) (ok : jsval → bool) (err : string) (rest : option string) : option string :=
  match prop message f with
  | Some v => if ok v then rest else Some err
  | None => Some err
  end.

(** A member of the oneof [group]; [seen] is [properties.group === 1]. *)
Definition check_member (message : jsval) (group f : string) (test : jsval → option string) (seen : bool)
    (rest : bool → option string) : option string :=
  match message, prop message f with
  | VObj _, Some v =>
      if seen then Some (group +:+ ": multiple values")
      else match test v with Some err => Some err | None => rest true end
  | _, _ => rest seen
  end.

(** [Array.isArray], then every element. *)
Fixpoint check_all (test : jsval → option string) (l : list jsval) : option string :=
  match l with
  | [] => None
  | v :: l' => match test v with Some err => Some err | None => check_all test l' end
  end.

Definition expect_array (f : string) (test : jsval → option string) (v : jsval) : option string :=
  match v with
  | VArr l => check_all test l
  | _ => Some (f +:+ ": array expected")
  end.

(** [let error = X.verify(v, _depth + 1); if (error) return "f." + error]. *)
Definition verify_nested (f : string) (verify : jsval → option Z → option string) (depth : Z) (v : jsval) : option string :=
  match verify v (Some (depth + 1)) with
  | Some err => Some (f +:+ "." +:+ err)
  | None => None
  end.

(** ** [fromObject] *)

Definition from_object {M} (name : string) (object : jsval) (_depth : option Z) (k : Z → res M) : res M :=
  if negb (isObject object) then Throw (name +:+ ": object expected")
  else depth_check util_recursionLimit (default 0 _depth) (k (default 0 _depth)).

(** One field of [fromObject]: nothing happens when it is absent. *)
Definition from_field {M V} (object : jsval) (f : string) (conv : jsval → res (option V)) (set : option V → M → M) (m : M) : res M :=
  match prop object f with
  | None => Ok m
  | Some v => let! o := conv v in
              match o with Some x => Ok (set (Some x) m) | None => Ok m end
  end.

Definition from_string (v : jsval) : res (option string) :=
  match v with
  | VStr s => Ok (if string_present s then Some s else None)
  | _ => Ok (Some (js_String v))
  end.

Definition from_bool (v : jsval) : res (option bool) := Ok (if js_truthy v then Some true else None).

Definition from_int32 (v : jsval) : res (option Z) :=
  if Number_nonzero v then let! z := ToInt32 v in Ok (Some z) else Ok None.

(** An enumeration: a known name or any integer, except the default. *)
Definition enum_of_name (table : list (Z * string)) (s : string) : option Z :=
  fst <$> find (λ kv, String.eqb kv.2 s) table.

Definition from_enum (table : list (Z * string)) (v : jsval) : res (option Z) :=
  Ok (match v with
      | VNum z => if z =? 0 then None else Some z
      | VDouble x => match double_int x with Some 0 => None | o => o end
      | VStr s => match enum_of_name table s with
                  | Some 0 => None
                  | o => o
                  end
      | _ => None
      end).

(** [$util.Long.fromValue(v, unsigned)]. *)
Definition Long_fromValue (v : jsval) (unsigned : bool) : res long :=
  match v with
  | VNum z => Ok (Long_fromNumber z unsigned)
  | VDouble x => Ok (Long_fromNumber (double_trunc x) unsigned)
  | VStr s => Long_fromString s unsigned
  | _ => Ok (LLong (to_int32 (num_prop v "low")) (to_int32 (num_prop v "high")) unsigned)
  end.

(** [new $util.LongBits(low >>> 0, high >>> 0).toNumber(unsigned)]. *)
Definition LongBits_toNumber (low high : Z) (unsigned : bool) : Z :=
  to_double (long_val (LLong (to_uint32 low) (to_uint32 high) unsigned)).

(** The conversion of one 64-bit value; [None] when no branch applies, or when
    [parseInt] gives no number. *)
Definition long_of (unsigned : bool) (v : jsval) : res (option long) :=
  if has_Long then let! l := Long_fromValue v unsigned in Ok (Some l)
  else match v with
       | VStr s => Ok (LNum <$> parseInt10 s)
       | VNum z => Ok (Some (LNum z))
       | VDouble x => Ok (LNum <$> double_int x)
       | VBool _ | VBigInt _ | VNull => Ok None
       | _ => Ok (Some (LNum (LongBits_toNumber (num_prop v "low") (num_prop v "high") unsigned)))
       end.

Definition from_long (unsigned : bool) (v : jsval) : res (option long) :=
  if (if isObject v then negb (num_prop v "low" =? 0) || negb (num_prop v "high" =? 0) else Number_nonzero v)
  then long_of unsigned v else Ok None.

(** The elements of an array are bytes modulo 256, as the encoder writes
    them. *)
Definition num_byte (v : jsval) : Byte.byte :=
  match v with
  | VNum z => default Byte.x00 (Byte.of_N (Z.to_N (z mod 256)))
  | VDouble x => default Byte.x00 (Byte.of_N (Z.to_N (double_trunc x mod 256)))
  | _ => Byte.x00
  end.

(** A byte field, from a base64 string, a byte array or an array; other objects
    with a length are not supported. *)
Definition from_bytes (v : jsval) : res (option bytes) :=
  match v with
  | VStr s => if string_present s then let! b := base64_decode s in Ok (Some b) else Ok None
  | VBytes b => Ok (if bytes_present b then Some b else None)
  | VArr l => Ok (match l with [] => None | _ => Some (num_byte <$> l) end)
  | _ => Ok None
  end.

(** *** Fields with explicit presence

    What is there is kept, the default included. *)

Definition from_text (v : jsval) : res (option string) := Ok (Some (js_String v)).
Definition from_flag (v : jsval) : res (option bool) := Ok (Some (js_truthy v)).
Definition from_int (v : jsval) : res (option Z) := let! z := ToInt32 v in Ok (Some z).

Definition from_value (table : list (Z * string)) (v : jsval) : res (option Z) :=
  Ok (match v with
      | VNum z => Some z
      | VDouble x => double_int x
      | VStr s => enum_of_name table s
      | _ => None
      end).

Definition from_buffer (v : jsval) : res (option bytes) :=
  match v with
  | VStr s => let! b := base64_decode s in Ok (Some b)
  | VBytes b => Ok (Some b)
  | VArr l => Ok (Some (num_byte <$> l))
  | _ => Ok None
  end.

(** [Number(v)]. *)
Definition Number_value (v : jsval) : double :=
  match v with
  | VNum z | VBigInt z => double_of_Z z
  | VDouble x => x
  | VBool b => double_of_Z (if b then 1 else 0)
  | VNull => double_of_Z 0
  | _ => Number_double (js_String v)
  end.

Definition from_double (v : jsval) : res (option double) := Ok (Some (Number_value v)).

Fixpoint from_all {V} (conv : jsval → res V) (l : list jsval) : res (list V) :=
  match l with
  | [] => Ok []
  | v :: l' => let! x := conv v in let! xs := from_all conv l' in Ok (x :: xs)
  end.

(** A repeated field: [if (object.f) { if (!Array.isArray(...)) throw ... }]. *)
Definition from_array {M V} (name : string) (object : jsval) (f : string) (conv : jsval → res V) (set : list V → M → M) (m : M)
    : res M :=
  match prop object f with
  | None => Ok m
  | Some v =>
      if js_truthy v then
        match v with
        | VArr l => let! xs := from_all conv l in Ok (set xs m)
        | _ => Throw (name +:+ "." +:+ f +:+ ": array expected")
        end
      else Ok m
  end.

(** An element of a repeated 64-bit field; a hole in the array counts as
    zero. *)
Definition from_long_element (unsigned : bool) (v : jsval) : res long :=
  let! o := long_of unsigned v in Ok (default (LNum 0) o).

(** An element of a repeated string: [String(object.f[i])]. *)
Definition from_string_element (v : jsval) : res string := Ok (js_String v).

(** An element of a repeated 32-bit integer: [object.f[i] | 0]. *)
Definition from_int_element (v : jsval) : res Z := ToInt32 v.

(** A message field or element. *)
Definition from_nested {V} (name f : string) (fromObject : jsval → option Z → res V) (depth : Z) (v : jsval) : res V :=
  if negb (isObject v) then Throw (name +:+ "." +:+ f +:+ ": object expected")
  else fromObject v (Some (depth + 1)).

Definition from_message {V} (name f : string) (fromObject : jsval → option Z → res V) (depth : Z) (v : jsval) : res (option V) :=
  let! x := from_nested name f fromObject depth v in Ok (Some x).

(** ** [toObject] *)

Inductive Longs := LongsKeep | LongsString | LongsNumber | LongsBigInt.
Inductive BytesAs := BytesKeep | BytesString | BytesArray.

(** [IConversionOptions]. *)
Record Options := mkOptions {
  longs : Longs;
  enums_String : bool;
  bytes_as : BytesAs;
  defaults : bool;
  arrays : bool;
  oneofs : bool;
  json : bool;
}.

Definition no_options : Options := mkOptions LongsKeep false BytesKeep false false false false.

(** [$protobuf.util.toJSONOptions]. *)
Definition toJSONOptions : Options := mkOptions LongsString true BytesString false false false true.

Definition to_object (_depth : option Z) (k : Z → res (list (string * jsval))) : res jsval :=
  depth_check util_recursionLimit (default 0 _depth) (let! fields := k (default 0 _depth) in Ok (VObj fields)).

(** [object.f = v]. *)
Definition put (f : string) (v : jsval) (object : list (string * jsval)) : list (string * jsval) := map_set f v object.

(** [if (message.f != null && hasOwnProperty.call(message, "f")) object.f = ...]. *)
Definition put_own {V} (f : string) (conv : V → jsval) (o : option V) (object : list (string * jsval)) : list (string * jsval) :=
  match o with Some x => put f (conv x) object | None => object end.

Definition jsval_of_long (l : long) : jsval :=
  match l with LNum z => VNum z | LLong low high u => VLong low high u end.

(** A 64-bit field under the option [longs]. *)
Definition to_long (o : Options) (unsigned : bool) (l : long) : jsval :=
  match longs o, l with
  | LongsBigInt, LNum z => VBigInt z
  | LongsBigInt, LLong low high _ => VBigInt (long_val (LLong (to_uint32 low) (to_uint32 high) unsigned))
  | LongsString, LNum z => VStr (number_to_string z)
  | LongsString, _ => VStr (Long_toString l)
  | LongsNumber, LLong low high _ => VNum (LongBits_toNumber low high unsigned)
  | _, _ => jsval_of_long l
  end.

Definition long_default (o : Options) (unsigned : bool) : jsval :=
  match longs o with
  | LongsString => VStr "0"
  | LongsNumber => VNum 0
  | LongsBigInt => VBigInt 0
  | LongsKeep => if has_Long then VLong 0 0 unsigned else VNum 0
  end.

Definition to_enum (o : Options) (table : list (Z * string)) (z : Z) : jsval :=
  if enums_String o then match map_get z table with Some name => VStr name | None => VNum z end else VNum z.

Definition enum_default (o : Options) (name : string) : jsval := if enums_String o then VStr name else VNum 0.

(** The default of a proto2 enumeration need not be zero. *)
Definition value_default (o : Options) (z : Z) (name : string) : jsval := if enums_String o then VStr name else VNum z.

(** [options.json && !isFinite(x) ? String(x) : x]. *)
Definition to_number (o : Options) (x : double) : jsval :=
  if json o && negb (isFinite x) then VStr (Number_toString x) else VDouble x.

Definition to_bytes (o : Options) (b : bytes) : jsval :=
  match bytes_as o with
  | BytesString => VStr (base64_encode b)
  | BytesArray => VArr ((λ x, VNum (byte_num x)) <$> b)
  | BytesKeep => VBytes b
  end.

Definition bytes_default (o : Options) : jsval :=
  match bytes_as o with BytesString => VStr "" | BytesArray => VArr [] | BytesKeep => VBytes [] end.

(** A repeated field that is not empty. *)
Definition put_array (f : string) (l : list jsval) (object : list (string * jsval)) : list (string * jsval) :=
  match l with [] => object | _ => put f (VArr l) object end.

Fixpoint to_all {V} (conv : V → res jsval) (l : list V) : res (list jsval) :=
  match l with
  | [] => Ok []
  | x :: l' => let! v := conv x in let! vs := to_all conv l' in Ok (v :: vs)
  end.

(** A message field that is not in a oneof. *)
Definition put_msg {V} (o : Options) (f : string) (toObject : V → Options → option Z → res jsval) (depth : Z)
    (x : option V) (object : list (string * jsval)) : res (list (string * jsval)) :=
  match x with
  | None => Ok object
  | Some x => let! v := toObject x o (Some (depth + 1)) in Ok (put f v object)
  end.

(** A repeated message field. *)
Definition put_msgs {V} (o : Options) (f : string) (toObject : V → Options → option Z → res jsval) (depth : Z)
    (xs : list V) (object : list (string * jsval)) : res (list (string * jsval)) :=
  let! vs := to_all (λ x, toObject x o (Some (depth + 1))) xs in Ok (put_array f vs object).

(** A scalar field, with the name of its oneof group. *)
Definition put_member {V} (o : Options) (group f : string) (conv : V → jsval) (x : option V)
    (object : list (string * jsval)) : list (string * jsval) :=
  match x with
  | None => object
  | Some x => let object := put f (conv x) object in if oneofs o then put group (VStr f) object else object
  end.

(** A message field, with the name of its oneof group. *)
Definition put_nested {V} (o : Options) (group f : string) (toObject : V → Options → option Z → res jsval) (depth : Z)
    (x : option V) (object : list (string * jsval)) : res (list (string * jsval)) :=
  match x with
  | None => Ok object
  | Some x =>
      let! v := toObject x o (Some (depth + 1)) in
      let object := put f v object in
      Ok (if oneofs o then put group (VStr f) object else object)
  end.

(** ** Classes that contain themselves *)

(** [body rec] is [verify] or [fromObject] with [rec] for the inner objects,
    which are one level deeper; past the recursion limit there is no inner
    call, so the levels left bound the recursion.  [stop] is never reached. *)
Fixpoint convert_levels {B} (body : (jsval → option Z → B) → jsval → option Z → B) (stop : B) (levels : nat)
    : jsval → option Z → B :=
  match levels with
  | O => λ _ _, stop
  | S levels' => body (convert_levels body stop levels')
  end.

Definition convert_nested {B} (body : (jsval → option Z → B) → jsval → option Z → B) (stop : B) : jsval → option Z → B :=
  λ object _depth, convert_levels body stop (S (Z.to_nat (util_recursionLimit + 1 - default 0 _depth))) object _depth.

End Pieces.
