(* ===== verification/ProtoConvert.v ===== *)
(** * The generated conversions of the packet classes ([web/app/lib/proto/im.js])

    Per message class its [verify], [fromObject], [toObject], [toJSON] and
    [getTypeUrl], on plain objects (an instance that [fromObject] receives is returned as it is; that
    branch is not repeated here). *)

From S2P Require Import Prelude JsNum JsMap ProtoRuntime ProtoMessages ProtoPacket ProtoObjects.
Open Scope Z_scope.

Section Convert.
Context {RT : Runtime} {CV : Conversions}.

(** The enumerations, by value. *)
Definition MsgType : list (Z * string) :=
  [(0, "MSG_TYPE_UNSPECIFIED"); (1, "MSG_TYPE_TEXT"); (2, "MSG_TYPE_IMAGE"); (3, "MSG_TYPE_FILE"); (4, "MSG_TYPE_VOICE")]%string.

Definition Command_values : list (Z * string) :=
  [(0, "CMD_UNKNOWN"); (1, "CMD_HEARTBEAT"); (2, "CMD_AUTH"); (3, "CMD_PUBLISH"); (4, "CMD_ACK"); (5, "CMD_PULL");
   (6, "CMD_NOTIFY"); (7, "CMD_READ_RECEIPT"); (8, "CMD_DELIVERY_RECEIPT"); (9, "CMD_SEND_RECEIPT"); (10, "CMD_RECALL")]%string.

(** The members of the oneof: [seen] is [properties.payload === 1]. *)
Fixpoint verify_payloads (message : jsval) (seen : bool) (tests : list (string * (jsval → option string))) : option string :=
  match tests with
  | [] => None
  | (f, test) :: tests' =>
      match message, prop message f with
      | VObj _, Some v =>
          if seen then Some "payload: multiple values"%string
          else match test v with Some err => Some err | None => verify_payloads message true tests' end
      | _, _ => verify_payloads message seen tests'
      end
  end.

(** ** [SendMessageRequest] *)

Definition SendMessageRequest_verify (message : jsval) (_depth : option Z) : option string :=
  verify_object message _depth (λ depth,
  check message "topic" (expect isString "topic: string expected") (
  check message "msgType" (expect (isEnum MsgType) "msgType: enum value expected") (
  check message "content" (expect isBuffer "content: buffer expected") (
  check message "clientMsgId" (expect isString "clientMsgId: string expected") (
  check message "mentionedUserIds" (expect_array "mentionedUserIds" (expect isLongLike "mentionedUserIds: integer|Long[] expected")) (
  None)))))).

Definition SendMessageRequest_fromObject (object : jsval) (_depth : option Z) : res SendMessageRequest :=
  from_object ".api.im.v1.SendMessageRequest" object _depth (λ depth,
  let message := SendMessageRequest_new in
  let! message := from_field object "topic" from_string set_SendMessageRequest_topic message in
  let! message := from_field object "msgType" (from_enum MsgType) set_SendMessageRequest_msgType message in
  let! message := from_field object "content" from_bytes set_SendMessageRequest_content message in
  let! message := from_field object "clientMsgId" from_string set_SendMessageRequest_clientMsgId message in
  let! message := from_array ".api.im.v1.SendMessageRequest" object "mentionedUserIds" (from_long_element false) set_SendMessageRequest_mentionedUserIds message in
  Ok message).

Definition SendMessageRequest_toObject (message : SendMessageRequest) (options : Options) (_depth : option Z) : res jsval :=
  to_object _depth (λ depth,
  let object := [] in
  let object := if arrays options || defaults options then put "mentionedUserIds" (VArr []) object else object in
  let object := if defaults options then
      put "clientMsgId" (VStr "") (put "content" (bytes_default options) (put "msgType" (enum_default options "MSG_TYPE_UNSPECIFIED") (put "topic" (VStr "") object)))
    else object in
  let object := put_own "topic" VStr (SendMessageRequest_topic message) object in
  let object := put_own "msgType" (to_enum options MsgType) (SendMessageRequest_msgType message) object in
  let object := put_own "content" (to_bytes options) (SendMessageRequest_content message) object in
  let object := put_own "clientMsgId" VStr (SendMessageRequest_clientMsgId message) object in
  let object := put_array "mentionedUserIds" (to_long options false <$> SendMessageRequest_mentionedUserIds message) object in
  Ok object).

(** ** [SendMessageReply] *)

Definition SendMessageReply_verify (message : jsval) (_depth : option Z) : option string :=
  verify_object message _depth (λ depth,
  check message "clientMsgId" (expect isString "clientMsgId: string expected") (
  check message "msgId" (expect isLongLike "msgId: integer|Long expected") (
  check message "timestamp" (expect isLongLike "timestamp: integer|Long expected") (
  check message "topicSeq" (expect isLongLike "topicSeq: integer|Long expected") (
  None))))).

Definition SendMessageReply_fromObject (object : jsval) (_depth : option Z) : res SendMessageReply :=
  from_object ".api.im.v1.SendMessageReply" object _depth (λ depth,
  let message := SendMessageReply_new in
  let! message := from_field object "clientMsgId" from_string set_SendMessageReply_clientMsgId message in
  let! message := from_field object "msgId" (from_long false) set_SendMessageReply_msgId message in
  let! message := from_field object "timestamp" (from_long false) set_SendMessageReply_timestamp message in
  let! message := from_field object "topicSeq" (from_long true) set_SendMessageReply_topicSeq message in
  Ok message).

Definition SendMessageReply_toObject (message : SendMessageReply) (options : Options) (_depth : option Z) : res jsval :=
  to_object _depth (λ depth,
  let object := [] in
  let object := if defaults options then
      put "topicSeq" (long_default options true) (put "timestamp" (long_default options false) (put "msgId" (long_default options false) (put "clientMsgId" (VStr "") object)))
    else object in
  let object := put_own "clientMsgId" VStr (SendMessageReply_clientMsgId message) object in
  let object := put_own "msgId" (to_long options false) (SendMessageReply_msgId message) object in
  let object := put_own "timestamp" (to_long options false) (SendMessageReply_timestamp message) object in
  let object := put_own "topicSeq" (to_long options true) (SendMessageReply_topicSeq message) object in
  Ok object).

(** ** [MessagePush] *)

Definition MessagePush_verify (message : jsval) (_depth : option Z) : option string :=
  verify_object message _depth (λ depth,
  check message "msgId" (expect isLongLike "msgId: integer|Long expected") (
  check message "topic" (expect isString "topic: string expected") (
  check message "senderId" (expect isLongLike "senderId: integer|Long expected") (
  check message "msgType" (expect isInteger "msgType: integer expected") (
  check message "content" (expect isBuffer "content: buffer expected") (
  check message "timestamp" (expect isLongLike "timestamp: integer|Long expected") (
  check message "topicSeq" (expect isLongLike "topicSeq: integer|Long expected") (
  check message "clientMsgId" (expect isString "clientMsgId: string expected") (
  check message "recalled" (expect isBoolean "recalled: boolean expected") (
  check message "mentionedUserIds" (expect_array "mentionedUserIds" (expect isLongLike "mentionedUserIds: integer|Long[] expected")) (
  None))))))))))).

Definition MessagePush_fromObject (object : jsval) (_depth : option Z) : res MessagePush :=
  from_object ".api.im.v1.MessagePush" object _depth (λ depth,
  let message := MessagePush_new in
  let! message := from_field object "msgId" (from_long false) set_MessagePush_msgId message in
  let! message := from_field object "topic" from_string set_MessagePush_topic message in
  let! message := from_field object "senderId" (from_long false) set_MessagePush_senderId message in
  let! message := from_field object "msgType" from_int32 set_MessagePush_msgType message in
  let! message := from_field object "content" from_bytes set_MessagePush_content message in
  let! message := from_field object "timestamp" (from_long false) set_MessagePush_timestamp message in
  let! message := from_field object "topicSeq" (from_long true) set_MessagePush_topicSeq message in
  let! message := from_field object "clientMsgId" from_string set_MessagePush_clientMsgId message in
  let! message := from_field object "recalled" from_bool set_MessagePush_recalled message in
  let! message := from_array ".api.im.v1.MessagePush" object "mentionedUserIds" (from_long_element false) set_MessagePush_mentionedUserIds message in
  Ok message).

Definition MessagePush_toObject (message : MessagePush) (options : Options) (_depth : option Z) : res jsval :=
  to_object _depth (λ depth,
  let object := [] in
  let object := if arrays options || defaults options then put "mentionedUserIds" (VArr []) object else object in
  let object := if defaults options then
      put "recalled" (VBool false) (put "clientMsgId" (VStr "") (put "topicSeq" (long_default options true) (put "timestamp" (long_default options false) (put "content" (bytes_default options) (put "msgType" (VNum 0) (put "senderId" (long_default options false) (put "topic" (VStr "") (put "msgId" (long_default options false) object))))))))
    else object in
  let object := put_own "msgId" (to_long options false) (MessagePush_msgId message) object in
  let object := put_own "topic" VStr (MessagePush_topic message) object in
  let object := put_own "senderId" (to_long options false) (MessagePush_senderId message) object in
  let object := put_own "msgType" VNum (MessagePush_msgType message) object in
  let object := put_own "content" (to_bytes options) (MessagePush_content message) object in
  let object := put_own "timestamp" (to_long options false) (MessagePush_timestamp message) object in
  let object := put_own "topicSeq" (to_long options true) (MessagePush_topicSeq message) object in
  let object := put_own "clientMsgId" VStr (MessagePush_clientMsgId message) object in
  let object := put_own "recalled" VBool (MessagePush_recalled message) object in
  let object := put_array "mentionedUserIds" (to_long options false <$> MessagePush_mentionedUserIds message) object in
  Ok object).

(** ** [PullRequest] *)

Definition PullRequest_verify (message : jsval) (_depth : option Z) : option string :=
  verify_object message _depth (λ depth,
  check message "topic" (expect isString "topic: string expected") (
  check message "lastSeq" (expect isLongLike "lastSeq: integer|Long expected") (
  check message "limit" (expect isInteger "limit: integer expected") (
  check message "endSeq" (expect isLongLike "endSeq: integer|Long expected") (
  None))))).

Definition PullRequest_fromObject (object : jsval) (_depth : option Z) : res PullRequest :=
  from_object ".api.im.v1.PullRequest" object _depth (λ depth,
  let message := PullRequest_new in
  let! message := from_field object "topic" from_string set_PullRequest_topic message in
  let! message := from_field object "lastSeq" (from_long true) set_PullRequest_lastSeq message in
  let! message := from_field object "limit" from_int32 set_PullRequest_limit message in
  let! message := from_field object "endSeq" (from_long true) set_PullRequest_endSeq message in
  Ok message).

Definition PullRequest_toObject (message : PullRequest) (options : Options) (_depth : option Z) : res jsval :=
  to_object _depth (λ depth,
  let object := [] in
  let object := if defaults options then
      put "endSeq" (long_default options true) (put "limit" (VNum 0) (put "lastSeq" (long_default options true) (put "topic" (VStr "") object)))
    else object in
  let object := put_own "topic" VStr (PullRequest_topic message) object in
  let object := put_own "lastSeq" (to_long options true) (PullRequest_lastSeq message) object in
  let object := put_own "limit" VNum (PullRequest_limit message) object in
  let object := put_own "endSeq" (to_long options true) (PullRequest_endSeq message) object in
  Ok object).

(** ** [PullMessage] *)

Definition PullMessage_verify (message : jsval) (_depth : option Z) : option string :=
  verify_object message _depth (λ depth,
  check message "msgId" (expect isLongLike "msgId: integer|Long expected") (
  check message "topic" (expect isString "topic: string expected") (
  check message "senderId" (expect isLongLike "senderId: integer|Long expected") (
  check message "msgType" (expect isInteger "msgType: integer expected") (
  check message "content" (expect isBuffer "content: buffer expected") (
  check message "timestamp" (expect isLongLike "timestamp: integer|Long expected") (
  check message "topicSeq" (expect isLongLike "topicSeq: integer|Long expected") (
  check message "clientMsgId" (expect isString "clientMsgId: string expected") (
  check message "recalled" (expect isBoolean "recalled: boolean expected") (
  None)))))))))).

Definition PullMessage_fromObject (object : jsval) (_depth : option Z) : res PullMessage :=
  from_object ".api.im.v1.PullMessage" object _depth (λ depth,
  let message := PullMessage_new in
  let! message := from_field object "msgId" (from_long false) set_PullMessage_msgId message in
  let! message := from_field object "topic" from_string set_PullMessage_topic message in
  let! message := from_field object "senderId" (from_long false) set_PullMessage_senderId message in
  let! message := from_field object "msgType" from_int32 set_PullMessage_msgType message in
  let! message := from_field object "content" from_bytes set_PullMessage_content message in
  let! message := from_field object "timestamp" (from_long false) set_PullMessage_timestamp message in
  let! message := from_field object "topicSeq" (from_long true) set_PullMessage_topicSeq message in
  let! message := from_field object "clientMsgId" from_string set_PullMessage_clientMsgId message in
  let! message := from_field object "recalled" from_bool set_PullMessage_recalled message in
  Ok message).

Definition PullMessage_toObject (message : PullMessage) (options : Options) (_depth : option Z) : res jsval :=
  to_object _depth (λ depth,
  let object := [] in
  let object := if defaults options then
      put "recalled" (VBool false) (put "clientMsgId" (VStr "") (put "topicSeq" (long_default options true) (put "timestamp" (long_default options false) (put "content" (bytes_default options) (put "msgType" (VNum 0) (put "senderId" (long_default options false) (put "topic" (VStr "") (put "msgId" (long_default options false) object))))))))
    else object in
  let object := put_own "msgId" (to_long options false) (PullMessage_msgId message) object in
  let object := put_own "topic" VStr (PullMessage_topic message) object in
  let object := put_own "senderId" (to_long options false) (PullMessage_senderId message) object in
  let object := put_own "msgType" VNum (PullMessage_msgType message) object in
  let object := put_own "content" (to_bytes options) (PullMessage_content message) object in
  let object := put_own "timestamp" (to_long options false) (PullMessage_timestamp message) object in
  let object := put_own "topicSeq" (to_long options true) (PullMessage_topicSeq message) object in
  let object := put_own "clientMsgId" VStr (PullMessage_clientMsgId message) object in
  let object := put_own "recalled" VBool (PullMessage_recalled message) object in
  Ok object).

(** ** [PullReply] *)

Definition PullReply_verify (message : jsval) (_depth : option Z) : option string :=
  verify_object message _depth (λ depth,
  check message "messages" (expect_array "messages" (verify_nested "messages" PullMessage_verify depth)) (
  check message "hasMore" (expect isBoolean "hasMore: boolean expected") (
  check message "nextSeq" (expect isLongLike "nextSeq: integer|Long expected") (
  None)))).

Definition PullReply_fromObject (object : jsval) (_depth : option Z) : res PullReply :=
  from_object ".api.im.v1.PullReply" object _depth (λ depth,
  let message := PullReply_new in
  let! message := from_array ".api.im.v1.PullReply" object "messages" (from_nested ".api.im.v1.PullReply" "messages" PullMessage_fromObject depth) set_PullReply_messages message in
  let! message := from_field object "hasMore" from_bool set_PullReply_hasMore message in
  let! message := from_field object "nextSeq" (from_long true) set_PullReply_nextSeq message in
  Ok message).

Definition PullReply_toObject (message : PullReply) (options : Options) (_depth : option Z) : res jsval :=
  to_object _depth (λ depth,
  let object := [] in
  let object := if arrays options || defaults options then put "messages" (VArr []) object else object in
  let object := if defaults options then
      put "nextSeq" (long_default options true) (put "hasMore" (VBool false) object)
    else object in
  let! object := put_msgs options "messages" PullMessage_toObject depth (PullReply_messages message) object in
  let object := put_own "hasMore" VBool (PullReply_hasMore message) object in
  let object := put_own "nextSeq" (to_long options true) (PullReply_nextSeq message) object in
  Ok object).

(** ** [AuthRequest] *)

Definition AuthRequest_verify (message : jsval) (_depth : option Z) : option string :=
  verify_object message _depth (λ depth,
  check message "token" (expect isString "token: string expected") (
  check message "deviceId" (expect isString "deviceId: string expected") (
  None))).

Definition AuthRequest_fromObject (object : jsval) (_depth : option Z) : res AuthRequest :=
  from_object ".api.im.v1.AuthRequest" object _depth (λ depth,
  let message := AuthRequest_new in
  let! message := from_field object "token" from_string set_AuthRequest_token message in
  let! message := from_field object "deviceId" from_string set_AuthRequest_deviceId message in
  Ok message).

Definition AuthRequest_toObject (message : AuthRequest) (options : Options) (_depth : option Z) : res jsval :=
  to_object _depth (λ depth,
  let object := [] in
  let object := if defaults options then
      put "deviceId" (VStr "") (put "token" (VStr "") object)
    else object in
  let object := put_own "token" VStr (AuthRequest_token message) object in
  let object := put_own "deviceId" VStr (AuthRequest_deviceId message) object in
  Ok object).

(** ** [AuthResponse] *)

Definition AuthResponse_verify (message : jsval) (_depth : option Z) : option string :=
  verify_object message _depth (λ depth,
  check message "success" (expect isBoolean "success: boolean expected") (
  check message "userId" (expect isLongLike "userId: integer|Long expected") (
  check message "deviceId" (expect isString "deviceId: string expected") (
  None)))).

Definition AuthResponse_fromObject (object : jsval) (_depth : option Z) : res AuthResponse :=
  from_object ".api.im.v1.AuthResponse" object _depth (λ depth,
  let message := AuthResponse_new in
  let! message := from_field object "success" from_bool set_AuthResponse_success message in
  let! message := from_field object "userId" (from_long false) set_AuthResponse_userId message in
  let! message := from_field object "deviceId" from_string set_AuthResponse_deviceId message in
  Ok message).

Definition AuthResponse_toObject (message : AuthResponse) (options : Options) (_depth : option Z) : res jsval :=
  to_object _depth (λ depth,
  let object := [] in
  let object := if defaults options then
      put "deviceId" (VStr "") (put "userId" (long_default options false) (put "success" (VBool false) object))
    else object in
  let object := put_own "success" VBool (AuthResponse_success message) object in
  let object := put_own "userId" (to_long options false) (AuthResponse_userId message) object in
  let object := put_own "deviceId" VStr (AuthResponse_deviceId message) object in
  Ok object).

(** ** [AckRequest] *)

Definition AckRequest_verify (message : jsval) (_depth : option Z) : option string :=
  verify_object message _depth (λ depth,
  check message "msgId" (expect isLongLike "msgId: integer|Long expected") (
  check message "topic" (expect isString "topic: string expected") (
  check message "topicSeq" (expect isLongLike "topicSeq: integer|Long expected") (
  None)))).

Definition AckRequest_fromObject (object : jsval) (_depth : option Z) : res AckRequest :=
  from_object ".api.im.v1.AckRequest" object _depth (λ depth,
  let message := AckRequest_new in
  let! message := from_field object "msgId" (from_long false) set_AckRequest_msgId message in
  let! message := from_field object "topic" from_string set_AckRequest_topic message in
  let! message := from_field object "topicSeq" (from_long true) set_AckRequest_topicSeq message in
  Ok message).

Definition AckRequest_toObject (message : AckRequest) (options : Options) (_depth : option Z) : res jsval :=
  to_object _depth (λ depth,
  let object := [] in
  let object := if defaults options then
      put "topicSeq" (long_default options true) (put "topic" (VStr "") (put "msgId" (long_default options false) object))
    else object in
  let object := put_own "msgId" (to_long options false) (AckRequest_msgId message) object in
  let object := put_own "topic" VStr (AckRequest_topic message) object in
  let object := put_own "topicSeq" (to_long options true) (AckRequest_topicSeq message) object in
  Ok object).

(** ** [ErrorResponse] *)

Definition ErrorResponse_verify (message : jsval) (_depth : option Z) : option string :=
  verify_object message _depth (λ depth,
  check message "code" (expect isInteger "code: integer expected") (
  check message "message" (expect isString "message: string expected") (
  check message "retryable" (expect isBoolean "retryable: boolean expected") (
  check message "retryAfterMs" (expect isLongLike "retryAfterMs: integer|Long expected") (
  None))))).

Definition ErrorResponse_fromObject (object : jsval) (_depth : option Z) : res ErrorResponse :=
  from_object ".api.im.v1.ErrorResponse" object _depth (λ depth,
  let message := ErrorResponse_new in
  let! message := from_field object "code" from_int32 set_ErrorResponse_code message in
  let! message := from_field object "message" from_string set_ErrorResponse_message message in
  let! message := from_field object "retryable" from_bool set_ErrorResponse_retryable message in
  let! message := from_field object "retryAfterMs" (from_long true) set_ErrorResponse_retryAfterMs message in
  Ok message).

Definition ErrorResponse_toObject (message : ErrorResponse) (options : Options) (_depth : option Z) : res jsval :=
  to_object _depth (λ depth,
  let object := [] in
  let object := if defaults options then
      put "retryAfterMs" (long_default options true) (put "retryable" (VBool false) (put "message" (VStr "") (put "code" (VNum 0) object)))
    else object in
  let object := put_own "code" VNum (ErrorResponse_code message) object in
  let object := put_own "message" VStr (ErrorResponse_message message) object in
  let object := put_own "retryable" VBool (ErrorResponse_retryable message) object in
  let object := put_own "retryAfterMs" (to_long options true) (ErrorResponse_retryAfterMs message) object in
  Ok object).

(** ** [ReadReceipt] *)

Definition ReadReceipt_verify (message : jsval) (_depth : option Z) : option string :=
  verify_object message _depth (λ depth,
  check message "topic" (expect isString "topic: string expected") (
  check message "upToSeq" (expect isLongLike "upToSeq: integer|Long expected") (
  check message "readerId" (expect isLongLike "readerId: integer|Long expected") (
  None)))).

Definition ReadReceipt_fromObject (object : jsval) (_depth : option Z) : res ReadReceipt :=
  from_object ".api.im.v1.ReadReceipt" object _depth (λ depth,
  let message := ReadReceipt_new in
  let! message := from_field object "topic" from_string set_ReadReceipt_topic message in
  let! message := from_field object "upToSeq" (from_long true) set_ReadReceipt_upToSeq message in
  let! message := from_field object "readerId" (from_long false) set_ReadReceipt_readerId message in
  Ok message).

Definition ReadReceipt_toObject (message : ReadReceipt) (options : Options) (_depth : option Z) : res jsval :=
  to_object _depth (λ depth,
  let object := [] in
  let object := if defaults options then
      put "readerId" (long_default options false) (put "upToSeq" (long_default options true) (put "topic" (VStr "") object))
    else object in
  let object := put_own "topic" VStr (ReadReceipt_topic message) object in
  let object := put_own "upToSeq" (to_long options true) (ReadReceipt_upToSeq message) object in
  let object := put_own "readerId" (to_long options false) (ReadReceipt_readerId message) object in
  Ok object).

(** ** [DeliveryReceipt] *)

Definition DeliveryReceipt_verify (message : jsval) (_depth : option Z) : option string :=
  verify_object message _depth (λ depth,
  check message "topic" (expect isString "topic: string expected") (
  check message "topicSeq" (expect isLongLike "topicSeq: integer|Long expected") (
  check message "msgId" (expect isLongLike "msgId: integer|Long expected") (
  None)))).

Definition DeliveryReceipt_fromObject (object : jsval) (_depth : option Z) : res DeliveryReceipt :=
  from_object ".api.im.v1.DeliveryReceipt" object _depth (λ depth,
  let message := DeliveryReceipt_new in
  let! message := from_field object "topic" from_string set_DeliveryReceipt_topic message in
  let! message := from_field object "topicSeq" (from_long true) set_DeliveryReceipt_topicSeq message in
  let! message := from_field object "msgId" (from_long false) set_DeliveryReceipt_msgId message in
  Ok message).

Definition DeliveryReceipt_toObject (message : DeliveryReceipt) (options : Options) (_depth : option Z) : res jsval :=
  to_object _depth (λ depth,
  let object := [] in
  let object := if defaults options then
      put "msgId" (long_default options false) (put "topicSeq" (long_default options true) (put "topic" (VStr "") object))
    else object in
  let object := put_own "topic" VStr (DeliveryReceipt_topic message) object in
  let object := put_own "topicSeq" (to_long options true) (DeliveryReceipt_topicSeq message) object in
  let object := put_own "msgId" (to_long options false) (DeliveryReceipt_msgId message) object in
  Ok object).

(** ** [SendReceipt] *)

Definition SendReceipt_verify (message : jsval) (_depth : option Z) : option string :=
  verify_object message _depth (λ depth,
  check message "clientMsgId" (expect isString "clientMsgId: string expected") (
  check message "msgId" (expect isLongLike "msgId: integer|Long expected") (
  check message "topic" (expect isString "topic: string expected") (
  check message "topicSeq" (expect isLongLike "topicSeq: integer|Long expected") (
  check message "timestamp" (expect isLongLike "timestamp: integer|Long expected") (
  None)))))).

Definition SendReceipt_fromObject (object : jsval) (_depth : option Z) : res SendReceipt :=
  from_object ".api.im.v1.SendReceipt" object _depth (λ depth,
  let message := SendReceipt_new in
  let! message := from_field object "clientMsgId" from_string set_SendReceipt_clientMsgId message in
  let! message := from_field object "msgId" (from_long false) set_SendReceipt_msgId message in
  let! message := from_field object "topic" from_string set_SendReceipt_topic message in
  let! message := from_field object "topicSeq" (from_long true) set_SendReceipt_topicSeq message in
  let! message := from_field object "timestamp" (from_long false) set_SendReceipt_timestamp message in
  Ok message).

Definition SendReceipt_toObject (message : SendReceipt) (options : Options) (_depth : option Z) : res jsval :=
  to_object _depth (λ depth,
  let object := [] in
  let object := if defaults options then
      put "timestamp" (long_default options false) (put "topicSeq" (long_default options true) (put "topic" (VStr "") (put "msgId" (long_default options false) (put "clientMsgId" (VStr "") object))))
    else object in
  let object := put_own "clientMsgId" VStr (SendReceipt_clientMsgId message) object in
  let object := put_own "msgId" (to_long options false) (SendReceipt_msgId message) object in
  let object := put_own "topic" VStr (SendReceipt_topic message) object in
  let object := put_own "topicSeq" (to_long options true) (SendReceipt_topicSeq message) object in
  let object := put_own "timestamp" (to_long options false) (SendReceipt_timestamp message) object in
  Ok object).

(** ** [RecallRequest] *)

Definition RecallRequest_verify (message : jsval) (_depth : option Z) : option string :=
  verify_object message _depth (λ depth,
  check message "topic" (expect isString "topic: string expected") (
  check message "topicSeq" (expect isLongLike "topicSeq: integer|Long expected") (
  check message "msgId" (expect isLongLike "msgId: integer|Long expected") (
  None)))).

Definition RecallRequest_fromObject (object : jsval) (_depth : option Z) : res RecallRequest :=
  from_object ".api.im.v1.RecallRequest" object _depth (λ depth,
  let message := RecallRequest_new in
  let! message := from_field object "topic" from_string set_RecallRequest_topic message in
  let! message := from_field object "topicSeq" (from_long true) set_RecallRequest_topicSeq message in
  let! message := from_field object "msgId" (from_long false) set_RecallRequest_msgId message in
  Ok message).

Definition RecallRequest_toObject (message : RecallRequest) (options : Options) (_depth : option Z) : res jsval :=
  to_object _depth (λ depth,
  let object := [] in
  let object := if defaults options then
      put "msgId" (long_default options false) (put "topicSeq" (long_default options true) (put "topic" (VStr "") object))
    else object in
  let object := put_own "topic" VStr (RecallRequest_topic message) object in
  let object := put_own "topicSeq" (to_long options true) (RecallRequest_topicSeq message) object in
  let object := put_own "msgId" (to_long options false) (RecallRequest_msgId message) object in
  Ok object).

(** ** [RecallNotice] *)

Definition RecallNotice_verify (message : jsval) (_depth : option Z) : option string :=
  verify_object message _depth (λ depth,
  check message "topic" (expect isString "topic: string expected") (
  check message "topicSeq" (expect isLongLike "topicSeq: integer|Long expected") (
  check message "msgId" (expect isLongLike "msgId: integer|Long expected") (
  check message "senderId" (expect isLongLike "senderId: integer|Long expected") (
  check message "recalledAt" (expect isLongLike "recalledAt: integer|Long expected") (
  None)))))).

Definition RecallNotice_fromObject (object : jsval) (_depth : option Z) : res RecallNotice :=
  from_object ".api.im.v1.RecallNotice" object _depth (λ depth,
  let message := RecallNotice_new in
  let! message := from_field object "topic" from_string set_RecallNotice_topic message in
  let! message := from_field object "topicSeq" (from_long true) set_RecallNotice_topicSeq message in
  let! message := from_field object "msgId" (from_long false) set_RecallNotice_msgId message in
  let! message := from_field object "senderId" (from_long false) set_RecallNotice_senderId message in
  let! message := from_field object "recalledAt" (from_long false) set_RecallNotice_recalledAt message in
  Ok message).

Definition RecallNotice_toObject (message : RecallNotice) (options : Options) (_depth : option Z) : res jsval :=
  to_object _depth (λ depth,
  let object := [] in
  let object := if defaults options then
      put "recalledAt" (long_default options false) (put "senderId" (long_default options false) (put "msgId" (long_default options false) (put "topicSeq" (long_default options true) (put "topic" (VStr "") object))))
    else object in
  let object := put_own "topic" VStr (RecallNotice_topic message) object in
  let object := put_own "topicSeq" (to_long options true) (RecallNotice_topicSeq message) object in
  let object := put_own "msgId" (to_long options false) (RecallNotice_msgId message) object in
  let object := put_own "senderId" (to_long options false) (RecallNotice_senderId message) object in
  let object := put_own "recalledAt" (to_long options false) (RecallNotice_recalledAt message) object in
  Ok object).

(** ** [Packet] *)

Definition Packet_verify (message : jsval) (_depth : option Z) : option string :=
  verify_object message _depth (λ depth,
  check message "cmd" (expect (isEnum Command_values) "cmd: enum value expected") (
  check message "seq" (expect isLongLike "seq: integer|Long expected") (
  verify_payloads message false [
    ("authReq", verify_nested "authReq" AuthRequest_verify depth);
    ("authResp", verify_nested "authResp" AuthResponse_verify depth);
    ("sendReq", verify_nested "sendReq" SendMessageRequest_verify depth);
    ("sendReply", verify_nested "sendReply" SendMessageReply_verify depth);
    ("pullReq", verify_nested "pullReq" PullRequest_verify depth);
    ("pullReply", verify_nested "pullReply" PullReply_verify depth);
    ("ackReq", verify_nested "ackReq" AckRequest_verify depth);
    ("notify", verify_nested "notify" MessagePush_verify depth);
    ("readReceipt", verify_nested "readReceipt" ReadReceipt_verify depth);
    ("deliveryReceipt", verify_nested "deliveryReceipt" DeliveryReceipt_verify depth);
    ("sendReceipt", verify_nested "sendReceipt" SendReceipt_verify depth);
    ("recallReq", verify_nested "recallReq" RecallRequest_verify depth);
    ("recallNotice", verify_nested "recallNotice" RecallNotice_verify depth);
    ("error", verify_nested "error" ErrorResponse_verify depth)
  ]))).

Definition Packet_fromObject (object : jsval) (_depth : option Z) : res Packet :=
  from_object ".api.im.v1.Packet" object _depth (λ depth,
  let message := Packet_new in
  let! message := from_field object "cmd" (from_enum Command_values) set_Packet_cmd message in
  let! message := from_field object "seq" (from_long true) set_Packet_seq message in
  let! message := from_field object "authReq" (from_message ".api.im.v1.Packet" "authReq" AuthRequest_fromObject depth) set_Packet_authReq message in
  let! message := from_field object "authResp" (from_message ".api.im.v1.Packet" "authResp" AuthResponse_fromObject depth) set_Packet_authResp message in
  let! message := from_field object "sendReq" (from_message ".api.im.v1.Packet" "sendReq" SendMessageRequest_fromObject depth) set_Packet_sendReq message in
  let! message := from_field object "sendReply" (from_message ".api.im.v1.Packet" "sendReply" SendMessageReply_fromObject depth) set_Packet_sendReply message in
  let! message := from_field object "pullReq" (from_message ".api.im.v1.Packet" "pullReq" PullRequest_fromObject depth) set_Packet_pullReq message in
  let! message := from_field object "pullReply" (from_message ".api.im.v1.Packet" "pullReply" PullReply_fromObject depth) set_Packet_pullReply message in
  let! message := from_field object "ackReq" (from_message ".api.im.v1.Packet" "ackReq" AckRequest_fromObject depth) set_Packet_ackReq message in
  let! message := from_field object "notify" (from_message ".api.im.v1.Packet" "notify" MessagePush_fromObject depth) set_Packet_notify message in
  let! message := from_field object "readReceipt" (from_message ".api.im.v1.Packet" "readReceipt" ReadReceipt_fromObject depth) set_Packet_readReceipt message in
  let! message := from_field object "deliveryReceipt" (from_message ".api.im.v1.Packet" "deliveryReceipt" DeliveryReceipt_fromObject depth) set_Packet_deliveryReceipt message in
  let! message := from_field object "sendReceipt" (from_message ".api.im.v1.Packet" "sendReceipt" SendReceipt_fromObject depth) set_Packet_sendReceipt message in
  let! message := from_field object "recallReq" (from_message ".api.im.v1.Packet" "recallReq" RecallRequest_fromObject depth) set_Packet_recallReq message in
  let! message := from_field object "recallNotice" (from_message ".api.im.v1.Packet" "recallNotice" RecallNotice_fromObject depth) set_Packet_recallNotice message in
  let! message := from_field object "error" (from_message ".api.im.v1.Packet" "error" ErrorResponse_fromObject depth) set_Packet_error message in
  Ok message).

Definition Packet_toObject (message : Packet) (options : Options) (_depth : option Z) : res jsval :=
  to_object _depth (λ depth,
  let object := [] in
  let object := if defaults options then
      put "seq" (long_default options true) (put "cmd" (enum_default options "CMD_UNKNOWN") object)
    else object in
  let object := put_own "cmd" (to_enum options Command_values) (Packet_cmd message) object in
  let object := put_own "seq" (to_long options true) (Packet_seq message) object in
  let! object := put_nested options "payload" "authReq" AuthRequest_toObject depth (Packet_authReq message) object in
  let! object := put_nested options "payload" "authResp" AuthResponse_toObject depth (Packet_authResp message) object in
  let! object := put_nested options "payload" "sendReq" SendMessageRequest_toObject depth (Packet_sendReq message) object in
  let! object := put_nested options "payload" "sendReply" SendMessageReply_toObject depth (Packet_sendReply message) object in
  let! object := put_nested options "payload" "pullReq" PullRequest_toObject depth (Packet_pullReq message) object in
  let! object := put_nested options "payload" "pullReply" PullReply_toObject depth (Packet_pullReply message) object in
  let! object := put_nested options "payload" "ackReq" AckRequest_toObject depth (Packet_ackReq message) object in
  let! object := put_nested options "payload" "notify" MessagePush_toObject depth (Packet_notify message) object in
  let! object := put_nested options "payload" "readReceipt" ReadReceipt_toObject depth (Packet_readReceipt message) object in
  let! object := put_nested options "payload" "deliveryReceipt" DeliveryReceipt_toObject depth (Packet_deliveryReceipt message) object in
  let! object := put_nested options "payload" "sendReceipt" SendReceipt_toObject depth (Packet_sendReceipt message) object in
  let! object := put_nested options "payload" "recallReq" RecallRequest_toObject depth (Packet_recallReq message) object in
  let! object := put_nested options "payload" "error" ErrorResponse_toObject depth (Packet_error message) object in
  let! object := put_nested options "payload" "recallNotice" RecallNotice_toObject depth (Packet_recallNotice message) object in
  Ok object).

(** ** [UpstreamMessage] *)

Definition UpstreamMessage_verify (message : jsval) (_depth : option Z) : option string :=
  verify_object message _depth (λ depth,
  check message "senderId" (expect isLongLike "senderId: integer|Long expected") (
  check message "topic" (expect isString "topic: string expected") (
  check message "msgType" (expect isInteger "msgType: integer expected") (
  check message "content" (expect isBuffer "content: buffer expected") (
  check message "clientMsgId" (expect isString "clientMsgId: string expected") (
  check message "timestamp" (expect isLongLike "timestamp: integer|Long expected") (
  check message "mentionedUserIds" (expect_array "mentionedUserIds" (expect isLongLike "mentionedUserIds: integer|Long[] expected")) (
  None)))))))).

Definition UpstreamMessage_fromObject (object : jsval) (_depth : option Z) : res UpstreamMessage :=
  from_object ".api.im.v1.UpstreamMessage" object _depth (λ depth,
  let message := UpstreamMessage_new in
  let! message := from_field object "senderId" (from_long false) set_UpstreamMessage_senderId message in
  let! message := from_field object "topic" from_string set_UpstreamMessage_topic message in
  let! message := from_field object "msgType" from_int32 set_UpstreamMessage_msgType message in
  let! message := from_field object "content" from_bytes set_UpstreamMessage_content message in
  let! message := from_field object "clientMsgId" from_string set_UpstreamMessage_clientMsgId message in
  let! message := from_field object "timestamp" (from_long false) set_UpstreamMessage_timestamp message in
  let! message := from_array ".api.im.v1.UpstreamMessage" object "mentionedUserIds" (from_long_element false) set_UpstreamMessage_mentionedUserIds message in
  Ok message).

Definition UpstreamMessage_toObject (message : UpstreamMessage) (options : Options) (_depth : option Z) : res jsval :=
  to_object _depth (λ depth,
  let object := [] in
  let object := if arrays options || defaults options then put "mentionedUserIds" (VArr []) object else object in
  let object := if defaults options then
      put "timestamp" (long_default options false) (put "clientMsgId" (VStr "") (put "content" (bytes_default options) (put "msgType" (VNum 0) (put "topic" (VStr "") (put "senderId" (long_default options false) object)))))
    else object in
  let object := put_own "senderId" (to_long options false) (UpstreamMessage_senderId message) object in
  let object := put_own "topic" VStr (UpstreamMessage_topic message) object in
  let object := put_own "msgType" VNum (UpstreamMessage_msgType message) object in
  let object := put_own "content" (to_bytes options) (UpstreamMessage_content message) object in
  let object := put_own "clientMsgId" VStr (UpstreamMessage_clientMsgId message) object in
  let object := put_own "timestamp" (to_long options false) (UpstreamMessage_timestamp message) object in
  let object := put_array "mentionedUserIds" (to_long options false <$> UpstreamMessage_mentionedUserIds message) object in
  Ok object).

Definition UpstreamMessage_toJSON (message : UpstreamMessage) : res jsval := UpstreamMessage_toObject message toJSONOptions None.

Definition UpstreamMessage_getTypeUrl (prefix : option string) : string :=
  default "type.googleapis.com"%string prefix +:+ "/api.im.v1.UpstreamMessage".


(** ** [toJSON] and [getTypeUrl] of the packet classes *)

Definition SendMessageRequest_toJSON (message : SendMessageRequest) : res jsval := SendMessageRequest_toObject message toJSONOptions None.

Definition SendMessageRequest_getTypeUrl (prefix : option string) : string :=
  default "type.googleapis.com"%string prefix +:+ "/api.im.v1.SendMessageRequest".

Definition SendMessageReply_toJSON (message : SendMessageReply) : res jsval := SendMessageReply_toObject message toJSONOptions None.

Definition SendMessageReply_getTypeUrl (prefix : option string) : string :=
  default "type.googleapis.com"%string prefix +:+ "/api.im.v1.SendMessageReply".

Definition MessagePush_toJSON (message : MessagePush) : res jsval := MessagePush_toObject message toJSONOptions None.

Definition MessagePush_getTypeUrl (prefix : option string) : string :=
  default "type.googleapis.com"%string prefix +:+ "/api.im.v1.MessagePush".

Definition PullRequest_toJSON (message : PullRequest) : res jsval := PullRequest_toObject message toJSONOptions None.

Definition PullRequest_getTypeUrl (prefix : option string) : string :=
  default "type.googleapis.com"%string prefix +:+ "/api.im.v1.PullRequest".

Definition PullMessage_toJSON (message : PullMessage) : res jsval := PullMessage_toObject message toJSONOptions None.

Definition PullMessage_getTypeUrl (prefix : option string) : string :=
  default "type.googleapis.com"%string prefix +:+ "/api.im.v1.PullMessage".

Definition PullReply_toJSON (message : PullReply) : res jsval := PullReply_toObject message toJSONOptions None.

Definition PullReply_getTypeUrl (prefix : option string) : string :=
  default "type.googleapis.com"%string prefix +:+ "/api.im.v1.PullReply".

Definition AuthRequest_toJSON (message : AuthRequest) : res jsval := AuthRequest_toObject message toJSONOptions None.

Definition AuthRequest_getTypeUrl (prefix : option string) : string :=
  default "type.googleapis.com"%string prefix +:+ "/api.im.v1.AuthRequest".

Definition AuthResponse_toJSON (message : AuthResponse) : res jsval := AuthResponse_toObject message toJSONOptions None.

Definition AuthResponse_getTypeUrl (prefix : option string) : string :=
  default "type.googleapis.com"%string prefix +:+ "/api.im.v1.AuthResponse".

Definition AckRequest_toJSON (message : AckRequest) : res jsval := AckRequest_toObject message toJSONOptions None.

Definition AckRequest_getTypeUrl (prefix : option string) : string :=
  default "type.googleapis.com"%string prefix +:+ "/api.im.v1.AckRequest".

Definition ErrorResponse_toJSON (message : ErrorResponse) : res jsval := ErrorResponse_toObject message toJSONOptions None.

Definition ErrorResponse_getTypeUrl (prefix : option string) : string :=
  default "type.googleapis.com"%string prefix +:+ "/api.im.v1.ErrorResponse".

Definition ReadReceipt_toJSON (message : ReadReceipt) : res jsval := ReadReceipt_toObject message toJSONOptions None.

Definition ReadReceipt_getTypeUrl (prefix : option string) : string :=
  default "type.googleapis.com"%string prefix +:+ "/api.im.v1.ReadReceipt".

Definition DeliveryReceipt_toJSON (message : DeliveryReceipt) : res jsval := DeliveryReceipt_toObject message toJSONOptions None.

Definition DeliveryReceipt_getTypeUrl (prefix : option string) : string :=
  default "type.googleapis.com"%string prefix +:+ "/api.im.v1.DeliveryReceipt".

Definition SendReceipt_toJSON (message : SendReceipt) : res jsval := SendReceipt_toObject message toJSONOptions None.

Definition SendReceipt_getTypeUrl (prefix : option string) : string :=
  default "type.googleapis.com"%string prefix +:+ "/api.im.v1.SendReceipt".

Definition RecallRequest_toJSON (message : RecallRequest) : res jsval := RecallRequest_toObject message toJSONOptions None.

Definition RecallRequest_getTypeUrl (prefix : option string) : string :=
  default "type.googleapis.com"%string prefix +:+ "/api.im.v1.RecallRequest".

Definition RecallNotice_toJSON (message : RecallNotice) : res jsval := RecallNotice_toObject message toJSONOptions None.

Definition RecallNotice_getTypeUrl (prefix : option string) : string :=
  default "type.googleapis.com"%string prefix +:+ "/api.im.v1.RecallNotice".

Definition Packet_toJSON (message : Packet) : res jsval := Packet_toObject message toJSONOptions None.

Definition Packet_getTypeUrl (prefix : option string) : string :=
  default "type.googleapis.com"%string prefix +:+ "/api.im.v1.Packet".

End Convert.
