(* ===== verification/ProtoConvertLaws.v ===== *)
(** * Laws of the conversions

    [ConversionLaws] is what the generated conversions rely on from long.js and
    the platform.  From it the lemmas here derive, per scalar type, that
    [fromObject] reads what [toObject] prints and that [verify] accepts it. *)

From S2P Require Import Prelude JsNum JsMap ProtoRuntime ProtoLaws ProtoObjects ProtoConvert.
Open Scope Z_scope.

(** What the code relies on: decimal strings are read as the integers they
    print, and base64 as the bytes. *)
Class ConversionLaws `{CV : Conversions} := {
  Number_str_pretty z : Number_str (pretty z) = Some 0 ↔ z = 0;
  Long_fromString_pretty z (u : bool) :
    (if u then 0 ≤ z < 2 ^ 64 else - 2 ^ 63 ≤ z < 2 ^ 63) →
    Long_fromString (pretty z) u = Ok (LLong (to_int32 z) (to_int32 (z / 2 ^ 32)) u);
  Long_toString_pretty l : Long_toString l = pretty (long_val l);
  base64_roundtrip b : base64_decode (base64_encode b) = Ok b;
  Number_double_toString x : isFinite x = false → Number_double (Number_toString x) = x;
  base64_present b : bytes_present b = true → string_present (base64_encode b) = true;
}.

(** ** Two-word integers *)

Lemma to_int32_idem z : to_int32 (to_int32 z) = to_int32 z.
Proof.
  unfold to_int32. pose proof (Z.mod_pos_bound (z + 2 ^ 31) (2 ^ 32) ltac:(lia)).
  rewrite Z.sub_add, (Z.mod_small (_ mod _)); lia.
Qed.

Lemma to_int32_id z : int32_ok z → to_int32 z = z.
Proof. unfold int32_ok, to_int32. intros H. rewrite Z.mod_small; lia. Qed.

Lemma to_int32_mod32 z : to_int32 z mod 2 ^ 32 = z mod 2 ^ 32.
Proof. unfold to_int32. by rewrite Zminus_mod, Zmod_mod, <-Zminus_mod, Z.add_simpl_r. Qed.

Lemma to_int32_congr x y : x mod 2 ^ 32 = y mod 2 ^ 32 → to_int32 x = to_int32 y.
Proof. intros H. unfold to_int32. by rewrite (Zplus_mod x), (Zplus_mod y), H. Qed.

(** The words of a value determine it modulo 2^64. *)
Lemma words_mod v : to_int32 (v / 2 ^ 32) mod 2 ^ 32 * 2 ^ 32 + to_int32 v mod 2 ^ 32 = v mod 2 ^ 64.
Proof.
  rewrite !to_int32_mod32. rewrite (Z.mul_comm _ (2 ^ 32)), Z.add_comm.
  change (2 ^ 64) with (2 ^ 32 * 2 ^ 32). rewrite Z.rem_mul_r; lia.
Qed.

Lemma long_val_words v u :
  let w := long_val (LLong (to_int32 v) (to_int32 (v / 2 ^ 32)) u) in
  w mod 2 ^ 64 = v mod 2 ^ 64 ∧ (if u then 0 ≤ w < 2 ^ 64 else - 2 ^ 63 ≤ w < 2 ^ 63).
Proof.
  cbv zeta. unfold long_val. rewrite words_mod. pose proof (Z.mod_pos_bound v (2 ^ 64) ltac:(lia)).
  destruct u; [rewrite Zmod_mod; lia|]. unfold to_int64.
  pose proof (Z.mod_pos_bound (v mod 2 ^ 64 + 2 ^ 63) (2 ^ 64) ltac:(lia)). split; [|lia].
  by rewrite Zminus_mod, Zmod_mod, <-Zminus_mod, Z.add_simpl_r, Zmod_mod.
Qed.

Lemma words_congr v w : w mod 2 ^ 64 = v mod 2 ^ 64 →
  to_int32 w = to_int32 v ∧ to_int32 (w / 2 ^ 32) = to_int32 (v / 2 ^ 32).
Proof.
  intros H. change (2 ^ 64) with (2 ^ 32 * 2 ^ 32) in H. rewrite !Z.rem_mul_r in H by lia.
  pose proof (Z.mod_pos_bound w (2 ^ 32) ltac:(lia)). pose proof (Z.mod_pos_bound v (2 ^ 32) ltac:(lia)).
  split; apply to_int32_congr; lia.
Qed.

(** ** Reading an object back *)

Section Reading.

Lemma prop_put_eq f v l : v ≠ VNull → prop (VObj (put f v l)) f = Some v.
Proof. intros Hv. unfold prop, put. rewrite map_get_set_eq. by destruct v. Qed.

Lemma prop_put_ne f g v l : g ≠ f → prop (VObj (put g v l)) f = prop (VObj l) f.
Proof. intros H. unfold prop, put. by rewrite map_get_set_ne. Qed.

Lemma prop_own_eq {V} f (conv : V → jsval) o l : (∀ x, conv x ≠ VNull) →
  prop (VObj (put_own f conv o l)) f = match o with Some x => Some (conv x) | None => prop (VObj l) f end.
Proof. intros H. destruct o; [by apply prop_put_eq|done]. Qed.

Lemma prop_own_ne {V} f g (conv : V → jsval) o l : g ≠ f → prop (VObj (put_own g conv o l)) f = prop (VObj l) f.
Proof. intros H. destruct o; [by apply prop_put_ne|done]. Qed.

Lemma prop_array_eq f vs l :
  prop (VObj (put_array f vs l)) f = match vs with [] => prop (VObj l) f | _ => Some (VArr vs) end.
Proof. destruct vs; [done|]. by apply prop_put_eq. Qed.

Lemma prop_array_ne f g vs l : g ≠ f → prop (VObj (put_array g vs l)) f = prop (VObj l) f.
Proof. intros H. destruct vs; [done|]. by apply prop_put_ne. Qed.

Lemma prop_if (b : bool) l1 l2 f :
  prop (VObj (if b then l1 else l2)) f = if b then prop (VObj l1) f else prop (VObj l2) f.
Proof. by destruct b. Qed.

(** Naming the member of a oneof does not touch the members. *)
Lemma prop_oneof (b : bool) f g v l : g ≠ f → prop (VObj (if b then put g v l else l)) f = prop (VObj l) f.
Proof. intros H. destruct b; [by apply prop_put_ne|done]. Qed.

End Reading.

(** No conversion gives null. *)
Ltac not_null := intros; unfold to_long, to_enum, to_bytes, jsval_of_long, long_default, enum_default, bytes_default;
  repeat case_match; discriminate.

(** The value of a field of an object built by [toObject]. *)
Ltac prop_walk :=
  repeat first
    [ rewrite prop_own_ne by discriminate
    | rewrite prop_own_eq by not_null
    | rewrite prop_array_ne by discriminate
    | rewrite prop_array_eq
    | rewrite prop_put_ne by discriminate
    | rewrite prop_put_eq by not_null
    | rewrite prop_oneof by discriminate
    | rewrite prop_if ].

Section Fields.
Context `{RL : RuntimeLaws} `{CL : ConversionLaws}.

(** The value under [f], and the default printed when the field is absent. *)
Definition printed {V} (object : jsval) (f : string) (conv : V → jsval) (o : option V) (dflt : option jsval) : Prop :=
  prop object f = match o with Some x => Some (conv x) | None => dflt end.

Lemma from_field_printed {M V} object f conv (o : option V) dflt from (set : option V → M → M) m :
  printed object f conv o dflt →
  (∀ x, o = Some x → from (conv x) = Ok (Some x)) → (∀ y, dflt = Some y → from y = Ok None) →
  set None m = m → from_field object f from set m = Ok (set o m).
Proof.
  intros Hp Hx Hd Hs. unfold from_field. rewrite Hp. destruct o as [x|].
  - by rewrite (Hx x eq_refl).
  - destruct dflt as [y|]; [rewrite (Hd y eq_refl)|]; simpl; by rewrite Hs.
Qed.

Lemma check_printed {V} l f (conv : V → jsval) o dflt test rest :
  printed (VObj l) f conv o dflt →
  (∀ x, o = Some x → test (conv x) = None) → (∀ y, dflt = Some y → test y = None) →
  check (VObj l) f test rest = rest.
Proof.
  intros Hp Hx Hd. unfold check. rewrite Hp. destruct o as [x|]; [by rewrite Hx|].
  destruct dflt; [by rewrite Hd|done].
Qed.

(** What decoders return. *)
Definition long_normal (u : bool) (l : long) : Prop := ∃ v, l = mk_long u v.

Lemma norm_present {V} canon (present : V → bool) o x : norm_opt canon present o = Some x → present x = true.
Proof. destruct o; simpl; [|done]. destruct (present (canon _)) eqn:E; congruence. Qed.

Lemma norm_canon {V} canon (present : V → bool) o x : norm_opt canon present o = Some x → ∃ y, o = Some y ∧ x = canon y.
Proof. destruct o; simpl; [|done]. destruct (present (canon _)); [|done]. intros [= <-]. eauto. Qed.

(** The options that lose nothing. *)
Definition exact_options (o : Options) : Prop :=
  longs o = LongsKeep ∨ longs o = LongsString ∧ has_Long = true.

(** The options whose output is typed like the message. *)
Definition typed_options (o : Options) : Prop :=
  enums_String o = false ∧ json o = false ∧ (longs o = LongsKeep ∨ longs o = LongsNumber).

Lemma from_string_back s : string_present s = true → from_string (VStr s) = Ok (Some s).
Proof. intros H. simpl. by rewrite H. Qed.

Lemma from_bool_back b : bool_present b = true → from_bool (VBool b) = Ok (Some b).
Proof. by destruct b. Qed.

Lemma from_int32_back z : int32_ok z → int32_present z = true → from_int32 (VNum z) = Ok (Some z).
Proof. intros Hz Hp. unfold from_int32. simpl. unfold int32_present in Hp. rewrite Hp. by rewrite to_int32_id. Qed.

Lemma byte_back b : num_byte (VNum (byte_num b)) = b.
Proof. by destruct b. Qed.

Lemma bytes_back (b : bytes) : num_byte <$> ((λ x, VNum (byte_num x)) <$> b) = b.
Proof. induction b as [|y b IH]; [done|]. rewrite !fmap_cons. by rewrite byte_back, IH. Qed.

Lemma from_bytes_back o b : bytes_present b = true → from_bytes (to_bytes o b) = Ok (Some b).
Proof.
  intros Hb. unfold to_bytes. destruct (bytes_as o); simpl.
  - by rewrite Hb.
  - by rewrite base64_present, base64_roundtrip.
  - destruct b as [|x b]; [done|]. rewrite <-(bytes_back (x :: b)) at 2. done.
Qed.

Lemma long_of_back o u l : exact_options o → long_normal u l → long_of u (to_long o u l) = Ok (Some l).
Proof.
  intros Ho [v ->]. unfold long_of, to_long, mk_long, jsval_of_long. destruct Ho as [Hk|[Hk HL]]; rewrite Hk.
  - destruct has_Long; [|done]. cbn [Long_fromValue res_bind].
    change (num_prop (VLong ?a ?b u) "low") with a. change (num_prop (VLong ?a ?b u) "high") with b.
    by rewrite !to_int32_idem.
  - rewrite HL. cbn [Long_fromValue]. rewrite Long_toString_pretty. destruct (long_val_words v u) as [Hw Hr].
    rewrite Long_fromString_pretty by done. cbn [res_bind]. by destruct (words_congr _ _ Hw) as [-> ->].
Qed.

Lemma long_nonzero_val v u : long_nonzero (LLong (to_int32 v) (to_int32 (v / 2 ^ 32)) u) = true →
  long_val (LLong (to_int32 v) (to_int32 (v / 2 ^ 32)) u) ≠ 0.
Proof.
  intros Hn H0. destruct (long_val_words v u) as [Hw _]. rewrite H0 in Hw.
  destruct (words_congr v 0 Hw) as [Hlo Hhi]. cbn [long_nonzero] in Hn. rewrite <-Hlo, <-Hhi in Hn. done.
Qed.

Lemma from_long_back o u l :
  exact_options o → long_normal u l → long_nonzero l = true → from_long u (to_long o u l) = Ok (Some l).
Proof.
  intros Ho Hl Hn. unfold from_long. rewrite long_of_back by done.
  assert (H : (if isObject (to_long o u l)
    then negb (num_prop (to_long o u l) "low" =? 0) || negb (num_prop (to_long o u l) "high" =? 0)
    else Number_nonzero (to_long o u l)) = true); [|by rewrite H].
  destruct Hl as [v ->]. unfold to_long, mk_long, jsval_of_long in *. destruct Ho as [Hk|[Hk HL]]; rewrite Hk.
  - by destruct has_Long.
  - rewrite HL in *. cbn [isObject Number_nonzero js_String]. rewrite Long_toString_pretty. apply negb_true_iff, bool_decide_eq_false.
    rewrite Number_str_pretty. by apply long_nonzero_val.
Qed.

Lemma long_default_back o u : exact_options o → from_long u (long_default o u) = Ok None.
Proof.
  intros Ho. unfold long_default, from_long. destruct Ho as [Hk|[Hk HL]]; rewrite Hk; [by destruct has_Long|].
  simpl. rewrite bool_decide_eq_true_2; [done|]. change "0"%string with (pretty 0). by apply Number_str_pretty.
Qed.

(** An enumeration whose names are distinct and whose first is the default. *)
Definition enum_ok (table : list (Z * string)) : Prop :=
  Forall (λ kv, enum_of_name table kv.2 = Some kv.1) table.

Lemma from_enum_back o table z : enum_ok table → int32_present z = true → from_enum table (to_enum o table z) = Ok (Some z).
Proof.
  intros Ht Hz. unfold to_enum, int32_present in *. apply negb_true_iff, Z.eqb_neq in Hz.
  destruct (enums_String o); [|by destruct z].
  destruct (map_get z table) as [name|] eqn:E; [|by destruct z].
  unfold enum_ok in Ht. rewrite Forall_forall in Ht. apply map_get_elem in E. specialize (Ht _ E). cbn [fst snd] in Ht. unfold from_enum. rewrite Ht.
  by destruct z.
Qed.

(** *** Explicit presence *)

Lemma from_value_back o table z : enum_ok table → from_value table (to_enum o table z) = Ok (Some z).
Proof.
  intros Ht. unfold to_enum. destruct (enums_String o); [|done]. destruct (map_get z table) as [name|] eqn:E; [|done].
  unfold enum_ok in Ht. rewrite Forall_forall in Ht. apply map_get_elem in E.
  specialize (Ht _ E). cbn [fst snd] in Ht. unfold from_value. by rewrite Ht.
Qed.

Lemma from_buffer_back o b : from_buffer (to_bytes o b) = Ok (Some b).
Proof.
  unfold to_bytes. destruct (bytes_as o); [done| |].
  - unfold from_buffer. by rewrite base64_roundtrip.
  - unfold from_buffer. by rewrite bytes_back.
Qed.

Lemma from_double_back o x : from_double (to_number o x) = Ok (Some x).
Proof.
  unfold to_number, from_double. destruct (json o); [|done]. destruct (isFinite x) eqn:E; [done|]. simpl.
  by rewrite Number_double_toString.
Qed.

Lemma isLongLike_typed o u l : typed_options o → isLongLike (to_long o u l) = true.
Proof. intros [_ [_ [H|H]]]; unfold to_long; rewrite H; by destruct l. Qed.

Lemma isLongLike_default o u : typed_options o → isLongLike (long_default o u) = true.
Proof. intros [_ [_ [H|H]]]; unfold long_default; rewrite H; [by destruct has_Long|done]. Qed.

Lemma isEnum_typed o table z : typed_options o → z ∈ table.*1 → isEnum table (to_enum o table z) = true.
Proof. intros [He _] Hz. unfold to_enum. rewrite He. by apply bool_decide_eq_true_2. Qed.

Lemma isEnum_default o table name : typed_options o → 0 ∈ table.*1 → isEnum table (enum_default o name) = true.
Proof. intros [He _] Hz. unfold enum_default. rewrite He. by apply bool_decide_eq_true_2. Qed.

Lemma isBuffer_back o b : isBuffer (to_bytes o b) = true.
Proof. unfold to_bytes. destruct (bytes_as o); [done| |done]. unfold isBuffer. apply orb_true_r. Qed.

Lemma isBuffer_default o : isBuffer (bytes_default o) = true.
Proof. unfold bytes_default. by destruct (bytes_as o). Qed.

Lemma from_array_printed {M V} name object f vs (xs : list V) dflt from (set : list V → M → M) m :
  prop object f = match vs with [] => dflt | _ => Some (VArr vs) end →
  from_all from vs = Ok xs → (dflt = None ∨ dflt = Some (VArr [])) → set [] m = m →
  from_array name object f from set m = Ok (set xs m).
Proof.
  intros Hp Hx Hd Hs. unfold from_array. rewrite Hp. destruct vs as [|v vs].
  - injection Hx as <-. destruct Hd as [-> | ->]; simpl; by rewrite Hs.
  - cbn [js_truthy]. by rewrite Hx.
Qed.

Lemma check_array_printed l f vs dflt test rest :
  prop (VObj l) f = match vs with [] => dflt | _ => Some (VArr vs) end →
  check_all test vs = None → (dflt = None ∨ dflt = Some (VArr [])) →
  check (VObj l) f (expect_array f test) rest = rest.
Proof.
  intros Hp Hx Hd. unfold check. rewrite Hp. destruct vs as [|v vs].
  - by destruct Hd as [-> | ->].
  - cbn [expect_array]. by rewrite Hx.
Qed.

Lemma from_longs_back o u xs :
  exact_options o → from_all (from_long_element u) (to_long o u <$> (canon64 u <$> xs)) = Ok (canon64 u <$> xs).
Proof.
  intros Ho. induction xs as [|x xs IH]; [done|]. rewrite !fmap_cons. cbn [from_all]. unfold from_long_element at 1.
  rewrite long_of_back by (done || (by exists (long_val x))). cbn [res_bind]. by rewrite IH.
Qed.

Lemma check_longs o u err xs : typed_options o → check_all (expect isLongLike err) (to_long o u <$> xs) = None.
Proof.
  intros Ho. induction xs as [|x xs IH]; [done|]. rewrite fmap_cons. cbn [check_all]. unfold expect at 1.
  by rewrite isLongLike_typed.
Qed.

Lemma norm_ok {V} (P : V → Prop) present o x : norm_opt id present o = Some x → opt_all P o → P x.
Proof. intros (y & Hy & ->)%norm_canon H. by apply H. Qed.

Lemma norm_long u present o x : norm_opt (canon64 u) present o = Some x → long_normal u x.
Proof. intros (y & _ & ->)%norm_canon. by exists (long_val y). Qed.

Lemma MsgType_ok : enum_ok MsgType.
Proof. repeat constructor. Qed.

Lemma Command_ok : enum_ok Command_values.
Proof. repeat constructor. Qed.

Lemma enum_default_back o table name : enum_of_name table name = Some 0 → from_enum table (enum_default o name) = Ok None.
Proof. intros H. unfold enum_default, from_enum. destruct (enums_String o); [by rewrite H|done]. Qed.

Lemma bytes_default_back o : from_bytes (bytes_default o) = Ok None.
Proof. unfold bytes_default. by destruct (bytes_as o). Qed.

(** The entry checks of the three functions. *)
Lemma from_object_enter {M} name l d (k : Z → res M) :
  d ≤ util_recursionLimit → from_object name (VObj l) (Some d) k = k d.
Proof. intros Hd. unfold from_object, depth_check. cbn. by rewrite (proj2 (Z.ltb_ge _ _)). Qed.

Lemma to_object_enter d k :
  d ≤ util_recursionLimit → to_object (Some d) k = let! l := k d in Ok (VObj l).
Proof. intros Hd. unfold to_object, depth_check. cbn. by rewrite (proj2 (Z.ltb_ge _ _)). Qed.

Lemma verify_object_enter l d k : d ≤ util_recursionLimit → verify_object (VObj l) (Some d) k = k d.
Proof. intros Hd. unfold verify_object. cbn. by rewrite (proj2 (Z.ltb_ge _ _)). Qed.

(** The three conversions fit together on [m]. *)
Definition converts {M} (toObject : M → Options → option Z → res jsval) (fromObject : jsval → option Z → res M)
    (verify : jsval → option Z → option string) (o : Options) (d : Z) (m : M) (known : Prop) : Prop :=
  ∃ l, toObject m o (Some d) = Ok (VObj l) ∧ (exact_options o → fromObject (VObj l) (Some d) = Ok m) ∧
    (typed_options o → known → verify (VObj l) (Some d) = None).

End Fields.

Ltac back_field :=
  let x := fresh in let Hx := fresh in intros x Hx;
  first
    [ apply from_string_back; by eapply norm_present
    | apply from_bool_back; by eapply norm_present
    | apply from_int32_back; [by eapply norm_ok|by eapply norm_present]
    | apply from_bytes_back; by eapply norm_present
    | apply from_long_back; [assumption|by eapply norm_long|by eapply norm_present]
    | apply from_enum_back; [apply MsgType_ok || apply Command_ok|by eapply norm_present] ].

Ltac back_default :=
  let y := fresh in intros y; repeat match goal with |- context [defaults ?o] => destruct (defaults o) | |- context [arrays ?o] => destruct (arrays o) end; cbn;
  try discriminate; intros [= <-];
  first [reflexivity | by apply long_default_back | by apply enum_default_back | apply bytes_default_back].

Ltac array_default := destruct (arrays _), (defaults _); simpl; auto.

(** One step of [fromObject]. *)
Ltac from_step :=
  first
    [ erewrite from_field_printed; [|unfold printed; prop_walk; reflexivity|back_field|back_default|reflexivity]
    | erewrite from_array_printed; [|prop_walk; reflexivity|by apply from_longs_back|array_default|reflexivity] ];
  cbn [res_bind].

(** One step of [verify]. *)
Ltac typed_field :=
  let x := fresh in let Hx := fresh in intros x Hx; unfold expect;
  first
    [ reflexivity
    | by rewrite isLongLike_typed
    | by rewrite isBuffer_back
    | by rewrite isEnum_typed by (done || by eapply (norm_ok (λ z, z ∈ _))) ].

Ltac typed_default :=
  let y := fresh in intros y; repeat match goal with |- context [defaults ?o] => destruct (defaults o) | |- context [arrays ?o] => destruct (arrays o) end; cbn;
  try discriminate; intros [= <-]; unfold expect;
  first [reflexivity | by rewrite isLongLike_default | by rewrite isBuffer_default
    | by rewrite isEnum_default by (done || by left)].

Ltac verify_step :=
  first
    [ erewrite check_array_printed; [|prop_walk; reflexivity|by apply check_longs|array_default]
    | erewrite check_printed; [|unfold printed; prop_walk; reflexivity|typed_field|typed_default] ].
