(* ===== verification/ProtoSchemaConvert.v ===== *)
(** * Conversions from field descriptors

    The counterpart of [ProtoSchema] for [verify], [fromObject] and [toObject].
    A [cfield] describes what the three functions do with one field;
    [schema_converter] derives that they fit together on every message a
    decoder returns.  [Converter] is what a class promises to the classes that
    contain it. *)

From S2P Require Import Prelude JsNum JsMap ProtoRuntime ProtoLaws ProtoObjects ProtoConvertLaws ProtoSchema.
Open Scope Z_scope.

#[local] Arguments prop : simpl never.

Abbreviation object := (list (string * jsval)).

(** ** Options under which nothing is lost *)

(** A class may need more than [exact_options]: where presence is explicit, a
    printed default would be read back as a value. *)
Class Exact `{RT : Runtime} (exact : Options → Prop) : Prop := exact_sub o : exact o → exact_options o.

Definition exact_explicit `{RT : Runtime} (o : Options) : Prop := exact_options o ∧ defaults o = false.

#[export] Instance exact_options_exact `{RT : Runtime} : Exact exact_options.
Proof. by intros o. Qed.
#[export] Instance exact_explicit_exact `{RT : Runtime} : Exact exact_explicit.
Proof. by intros o []. Qed.

Class Explicit `{RT : Runtime} (exact : Options → Prop) : Prop := explicit_sub o : exact o → defaults o = false.

#[export] Instance exact_explicit_explicit `{RT : Runtime} : Explicit exact_explicit.
Proof. by intros o []. Qed.

Section Schema.
Context `{RL : RuntimeLaws} `{CL : ConversionLaws}.

(** ** What a class promises *)
Class ConverterOn (exact : Options → Prop) {V} {enc : V → option Writer → option Z → res Writer} {dec : decoder V} (C : Codec enc dec)
    (toObject : V → Options → option Z → res jsval) (fromObject : jsval → option Z → res V)
    (verify : jsval → option Z → option string) (known : V → Prop) : Prop := {
  conv_ok v o d : c_ok v → d + c_height ≤ util_recursionLimit →
    ∃ l, toObject (c_norm v) o (Some d) = Ok (VObj l) ∧
      (exact o → fromObject (VObj l) (Some d) = Ok (c_norm v)) ∧
      (typed_options o → known v → verify (VObj l) (Some d) = None);
  conv_to_default m o : toObject m o None = toObject m o (Some 0);
  conv_from_default x : fromObject x None = fromObject x (Some 0);
  conv_verify_default x : verify x None = verify x (Some 0);
}.

Context (exact : Options → Prop).

(** ** Fields *)

Record cfield (M : Type) := CField {
  cf_name : string;
  (** The oneof it is a member of. *)
  cf_group : option string;
  cf_array : bool;
  cf_default : Options → jsval;
  (** What [verify] does with the field of an object, before it goes on. *)
  cf_check : jsval → Z → option string → option string;
  cf_from : string → jsval → Z → M → res M;
  cf_put : Options → Z → M → object → res object;
  (** The field has a value a decoder returns. *)
  cf_normal : M → Prop;
  (** Its enumeration values are known. *)
  cf_known : M → Prop;
  cf_ready : M → Prop;
  (** Give the second message the field of the first. *)
  cf_copy : M → M → M;
  cf_height : Z;
}.
#[global] Arguments CField {M}.
#[global] Arguments cf_name {M}.
#[global] Arguments cf_group {M}.
#[global] Arguments cf_array {M}.
#[global] Arguments cf_default {M}.
#[global] Arguments cf_check {M}.
#[global] Arguments cf_from {M}.
#[global] Arguments cf_put {M}.
#[global] Arguments cf_normal {M}.
#[global] Arguments cf_known {M}.
#[global] Arguments cf_ready {M}.
#[global] Arguments cf_copy {M}.
#[global] Arguments cf_height {M}.

(** The value under the name of the field: the one [toObject] put there, or
    possibly the default. *)
Definition shows {M} (f : cfield M) (o : Options) (r : option jsval) (l : object) : Prop :=
  match r with
  | Some v => prop (VObj l) (cf_name f) = Some v
  | None => prop (VObj l) (cf_name f) = None ∨
      prop (VObj l) (cf_name f) = Some (cf_default f o) ∧ (cf_array f = true ∨ defaults o = true)
  end.

(** The object after the field was printed: only its name, and that of its
    oneof, may have changed. *)
Definition printed_as {M} (f : cfield M) (r : option jsval) (l l' : object) : Prop :=
  prop (VObj l') (cf_name f) = match r with Some v => Some v | None => prop (VObj l) (cf_name f) end ∧
  ∀ n, n ≠ cf_name f → cf_group f ≠ Some n → prop (VObj l') n = prop (VObj l) n.

(** [toObject] puts [r], which [fromObject] reads back and [verify] accepts. *)
Record field_fits {M} (f : cfield M) (o : Options) (d : Z) (m : M) (r : option jsval) : Prop := {
  ff_put l : ∃ l', cf_put f o d m l = Ok l' ∧ printed_as f r l l';
  ff_from l name m' : shows f o r l → exact o → cf_ready f m' →
    cf_from f name (VObj l) d m' = Ok (cf_copy f m m');
  ff_test l rest : shows f o r l → typed_options o → cf_known f m → cf_check f (VObj l) d rest = rest;
}.

Lemma printed_put {M} (f : cfield M) r l :
  r ≠ Some VNull → printed_as f r l (match r with Some v => put (cf_name f) v l | None => l end).
Proof.
  intros Hr. split; destruct r as [v|]; [apply prop_put_eq; congruence|done| |done].
  intros n Hn _. by apply prop_put_ne.
Qed.

(** A field that is printed under its name. *)
Lemma put_fits {M} (f : cfield M) o d m r :
  (∀ l, cf_put f o d m l = Ok (match r with Some v => put (cf_name f) v l | None => l end)) → r ≠ Some VNull →
  (∀ l name m', shows f o r l → exact o → cf_ready f m' → cf_from f name (VObj l) d m' = Ok (cf_copy f m m')) →
  (∀ l rest, shows f o r l → typed_options o → cf_known f m → cf_check f (VObj l) d rest = rest) →
  field_fits f o d m r.
Proof. intros Hp Hr Hf Ht. split; [|done|done]. intros l. eexists. split; [apply Hp|by apply printed_put]. Qed.

Definition cfield_laws {M} (f : cfield M) : Prop :=
  ∀ o d m, cf_normal f m → d + cf_height f ≤ util_recursionLimit → ∃ r, field_fits f o d m r.

(** *** Scalars *)

Record ckind (V : Type) := CKind {
  ck_to : Options → V → jsval;
  ck_from : jsval → res (option V);
  ck_test : jsval → bool;
  ck_type : string;
  ck_default : Options → jsval;
  ck_normal : V → Prop;
  ck_known : V → Prop;
}.
#[global] Arguments CKind {V}.
#[global] Arguments ck_to {V}.
#[global] Arguments ck_from {V}.
#[global] Arguments ck_test {V}.
#[global] Arguments ck_type {V}.
#[global] Arguments ck_default {V}.
#[global] Arguments ck_normal {V}.
#[global] Arguments ck_known {V}.

Record ckind_laws {V} (k : ckind V) : Prop := {
  ck_not_null o x : ck_to k o x ≠ VNull;
  ck_back o x : exact o → ck_normal k x → ck_from k (ck_to k o x) = Ok (Some x);
  ck_default_back o : exact o → defaults o = true → ck_from k (ck_default k o) = Ok None;
  ck_typed o x : typed_options o → ck_known k x → ck_test k (ck_to k o x) = true;
  ck_default_typed o : typed_options o → ck_test k (ck_default k o) = true;
}.

(** What is left of the laws where no default is printed. *)
Record ckind_bare {V} (k : ckind V) : Prop := {
  cb_not_null o x : ck_to k o x ≠ VNull;
  cb_back o x : exact o → ck_normal k x → ck_from k (ck_to k o x) = Ok (Some x);
  cb_typed o x : typed_options o → ck_known k x → ck_test k (ck_to k o x) = true;
}.

Definition cString : ckind string :=
  CKind (λ _, VStr) from_string isString "string" (λ _, VStr "") (λ s, string_present s = true) (λ _, True).
Definition cBool : ckind bool :=
  CKind (λ _, VBool) from_bool isBoolean "boolean" (λ _, VBool false) (λ b, bool_present b = true) (λ _, True).
Definition cInt32 : ckind Z :=
  CKind (λ _, VNum) from_int32 isInteger "integer" (λ _, VNum 0) (λ z, int32_ok z ∧ int32_present z = true) (λ _, True).
Definition cBytes : ckind bytes :=
  CKind to_bytes from_bytes isBuffer "buffer" bytes_default (λ b, bytes_present b = true) (λ _, True).
Definition cLong (u : bool) : ckind long :=
  CKind (λ o, to_long o u) (from_long u) isLongLike "integer|Long" (λ o, long_default o u)
    (λ l, long_normal u l ∧ long_nonzero l = true) (λ _, True).
Definition cEnum (table : list (Z * string)) (first : string) : ckind Z :=
  CKind (λ o, to_enum o table) (from_enum table) (isEnum table) "enum value" (λ o, enum_default o first)
    (λ z, int32_present z = true) (λ z, z ∈ table.*1).

(** Where presence is explicit. *)
Definition cText : ckind string := CKind (λ _, VStr) from_text isString "string" (λ _, VStr "") (λ _, True) (λ _, True).
Definition cFlag (dflt : bool) : ckind bool :=
  CKind (λ _, VBool) from_flag isBoolean "boolean" (λ _, VBool dflt) (λ _, True) (λ _, True).
Definition cInt (dflt : Z) : ckind Z := CKind (λ _, VNum) from_int isInteger "integer" (λ _, VNum dflt) int32_ok (λ _, True).
Definition cBuffer : ckind bytes := CKind to_bytes from_buffer isBuffer "buffer" bytes_default (λ _, True) (λ _, True).
Definition cNumber : ckind double := CKind to_number from_double isNumber "number" (λ _, VNum 0) (λ _, True) (λ _, True).
Definition cWide (u : bool) : ckind long :=
  CKind (λ o, to_long o u) (long_of u) isLongLike "integer|Long" (λ o, long_default o u) (long_normal u) (λ _, True).
Definition cValue (table : list (Z * string)) (dflt : Z) (name : string) : ckind Z :=
  CKind (λ o, to_enum o table) (from_value table) (isEnum table) "enum value" (λ o, value_default o dflt name)
    (λ _, True) (λ z, z ∈ table.*1).

Lemma cText_bare : ckind_bare cText.
Proof. by split. Qed.

Section Kinds.
Context {HE : Exact exact}.

Lemma cString_laws : ckind_laws cString.
Proof. split; simpl; [done| |done..]. by intros o x _ ->. Qed.
Lemma cBool_laws : ckind_laws cBool.
Proof. split; simpl; [done| |done..]. intros o x _. apply from_bool_back. Qed.
Lemma cInt32_laws : ckind_laws cInt32.
Proof. split; simpl; [done| |done..]. intros o x _ []. by apply from_int32_back. Qed.
Lemma cBytes_laws : ckind_laws cBytes.
Proof.
  split; simpl; [not_null| | | |].
  - intros o x _. apply from_bytes_back.
  - intros o _ _. apply bytes_default_back.
  - intros o x _ _. apply isBuffer_back.
  - intros o _. apply isBuffer_default.
Qed.
Lemma cLong_laws u : ckind_laws (cLong u).
Proof.
  split; simpl; [not_null| | | |].
  - intros o x Ho%exact_sub []. by apply from_long_back.
  - intros o Ho%exact_sub _. by apply long_default_back.
  - intros o x ? _. by apply isLongLike_typed.
  - intros o. apply isLongLike_default.
Qed.

Lemma cEnum_laws table first :
  enum_ok table → enum_of_name table first = Some 0 → 0 ∈ table.*1 → ckind_laws (cEnum table first).
Proof.
  intros Ht Hf H0. split; simpl; [not_null| | | |].
  - intros o x _. by apply from_enum_back.
  - intros o _ _. by apply enum_default_back.
  - intros o x. apply isEnum_typed.
  - intros o ?. by apply isEnum_default.
Qed.

Context {HX : Explicit exact}.

(** No default is printed. *)
Lemma no_default (P : Options → Prop) o : exact o → defaults o = true → P o.
Proof. intros Ho%explicit_sub. congruence. Qed.

Lemma cText_laws : ckind_laws cText.
Proof. split; simpl; [done|done|apply no_default|done|done]. Qed.
Lemma cFlag_laws b : ckind_laws (cFlag b).
Proof. split; simpl; [done|by intros o []|apply no_default|done|done]. Qed.
Lemma cInt_laws z : ckind_laws (cInt z).
Proof. split; simpl; [done| |apply no_default|done|done]. intros o x _ Hx. unfold from_int. simpl. by rewrite to_int32_id. Qed.
Lemma cBuffer_laws : ckind_laws cBuffer.
Proof.
  split; simpl; [not_null| |apply no_default| |].
  - intros o x _ _. apply from_buffer_back.
  - intros o x _ _. apply isBuffer_back.
  - intros o _. apply isBuffer_default.
Qed.
Lemma cNumber_laws : ckind_laws cNumber.
Proof.
  split; simpl; [intros o x; unfold to_number; by destruct (_ && _)| |apply no_default| |done].
  - intros o x _ _. apply from_double_back.
  - intros o x (_ & Hj & _) _. unfold to_number. by rewrite Hj.
Qed.
Lemma cWide_laws u : ckind_laws (cWide u).
Proof.
  split; simpl; [not_null| |apply no_default| |].
  - intros o x Ho%exact_sub. by apply long_of_back.
  - intros o x ? _. by apply isLongLike_typed.
  - intros o. apply isLongLike_default.
Qed.

Lemma cValue_laws table dflt name : enum_ok table → dflt ∈ table.*1 → ckind_laws (cValue table dflt name).
Proof.
  intros Ht Hd. split; simpl; [not_null| |apply no_default| |].
  - intros o x _ _. by apply from_value_back.
  - intros o x. apply isEnum_typed.
  - intros o (He & _). unfold value_default. rewrite He. by apply bool_decide_eq_true_2.
Qed.
End Kinds.

(** An optional scalar. *)
Section Optional.
Context {M V : Type} (f : string) (k : ckind V) (get : M → option V) (set : option V → M → M).

Definition copt : cfield M := {|
  cf_name := f;
  cf_group := None;
  cf_array := false;
  cf_default := ck_default k;
  cf_check obj _ rest := check obj f (expect (ck_test k) (f +:+ ": " +:+ ck_type k +:+ " expected")) rest;
  cf_from _ obj _ m := from_field obj f (ck_from k) set m;
  cf_put o _ m l := Ok (put_own f (ck_to k o) (get m) l);
  cf_normal m := opt_all (ck_normal k) (get m);
  cf_known m := opt_all (ck_known k) (get m);
  cf_ready m := set None m = m;
  cf_copy m := set (get m);
  cf_height := 0;
|}.

Lemma copt_fits o d m : ckind_laws k → opt_all (ck_normal k) (get m) → field_fits copt o d m (ck_to k o <$> get m).
Proof.
  intros Hk Hn. apply put_fits; simpl in *.
  - intros l. unfold put_own. by destruct (get m).
  - destruct (get m); [|done]. intros [= H]. by apply (ck_not_null _ Hk o) in H.
  - intros l _ m' Hs Ho Hr. unfold from_field, shows in *. simpl in Hs. destruct (get m) as [x|]; simpl in Hs.
    + rewrite Hs, (ck_back _ Hk) by auto. done.
    + destruct Hs as [-> |[-> [[=]|Hd]]]; [by rewrite Hr|]. rewrite (ck_default_back _ Hk) by done. simpl. by rewrite Hr.
  - intros l rest Hs Ho Hk'. unfold check, expect, shows in *. simpl in Hs. destruct (get m) as [x|]; simpl in Hs.
    + rewrite Hs, (ck_typed _ Hk); auto.
    + destruct Hs as [-> |[-> _]]; [done|]. by rewrite (ck_default_typed _ Hk).
Qed.

Lemma copt_laws : ckind_laws k → cfield_laws copt.
Proof. intros Hk o d m Hn _. eexists. by apply copt_fits. Qed.

(** A required scalar: [verify] insists on it. *)
Definition creq : cfield M := {|
  cf_name := f;
  cf_group := None;
  cf_array := false;
  cf_default := ck_default k;
  cf_check obj _ rest := check_required obj f (ck_test k) (f +:+ ": " +:+ ck_type k +:+ " expected") rest;
  cf_from := cf_from copt;
  cf_put := cf_put copt;
  cf_normal m := ∃ x, get m = Some x ∧ ck_normal k x;
  cf_known m := opt_all (ck_known k) (get m);
  cf_ready := cf_ready copt;
  cf_copy := cf_copy copt;
  cf_height := 0;
|}.

Lemma creq_laws : ckind_laws k → cfield_laws creq.
Proof.
  intros Hk o d m (x & Hx & Hn) _. exists (ck_to k o <$> get m).
  destruct (copt_fits o d m Hk) as [H1 H2 _]; [rewrite Hx; by intros y [= <-]|]. split; [done|done|].
  intros l rest Hs Ho Hk'. unfold shows in Hs. simpl in *. rewrite Hx in Hs. simpl in Hs. unfold check_required.
  rewrite Hs, (ck_typed _ Hk); auto.
Qed.
End Optional.

(** *** Members of a oneof *)

(** A field that also names its oneof in the object; it has no default. *)
Section Member.
Context {M : Type} (group : string) (has : M → bool) (c : cfield M).

Definition cin : cfield M := {|
  cf_name := cf_name c;
  cf_group := Some group;
  cf_array := false;
  cf_default _ := VNull;
  cf_check := cf_check c;
  cf_from := cf_from c;
  cf_put o d m l := let! l' := cf_put c o d m l in Ok (if has m && oneofs o then put group (VStr (cf_name c)) l' else l');
  cf_normal := cf_normal c;
  cf_known := cf_known c;
  cf_ready := cf_ready c;
  cf_copy := cf_copy c;
  cf_height := cf_height c;
|}.

Lemma prop_not_null l n : prop (VObj l) n ≠ Some VNull.
Proof. unfold prop. destruct (map_get n l) as [[]|]; discriminate. Qed.

(** The field fits as long as no default is printed. *)
Record field_bare (o : Options) (d : Z) (m : M) (r : option jsval) : Prop := {
  fb_put l : ∃ l', cf_put c o d m l = Ok l' ∧ printed_as c r l l';
  fb_from l name m' : prop (VObj l) (cf_name c) = r → exact o → cf_ready c m' →
    cf_from c name (VObj l) d m' = Ok (cf_copy c m m');
  fb_test l rest : prop (VObj l) (cf_name c) = r → typed_options o → cf_known c m → cf_check c (VObj l) d rest = rest;
}.

Lemma fits_bare o d m r : field_fits c o d m r → field_bare o d m r.
Proof.
  assert (Hs : ∀ l, prop (VObj l) (cf_name c) = r → shows c o r l) by (intros l Hl; destruct r; [done|by left]).
  intros [H1 H2 H3]. split; [done| |]; intros; [apply H2|apply H3]; auto.
Qed.

Lemma cin_shows o r l : shows cin o r l → prop (VObj l) (cf_name c) = r.
Proof. unfold shows. simpl. destruct r; [done|]. intros [H|[H _]]; [done|by apply prop_not_null in H]. Qed.

Lemma cin_laws : cf_group c = None → group ≠ cf_name c →
  (∀ o d m, cf_normal c m → d + cf_height c ≤ util_recursionLimit → ∃ r, field_bare o d m r) → cfield_laws cin.
Proof.
  intros Hg Hne Hc o d m Hn Hd. destruct (Hc o d m Hn Hd) as [r [H1 H2 H3]]. exists r. split; simpl.
  - intros l. destruct (H1 l) as (l' & -> & Hr & Ho). simpl. eexists. split; [done|]. split; simpl.
    + destruct (_ && _); [|done]. by rewrite prop_put_ne.
    + intros n Hn1 Hn2. rewrite <-Ho by (done || (by rewrite Hg)). destruct (_ && _); [|done]. apply prop_put_ne. congruence.
  - intros l name m' Hs%cin_shows. by apply H2.
  - intros l rest Hs%cin_shows. by apply H3.
Qed.

Lemma cin_laws_of : cf_group c = None → group ≠ cf_name c → cfield_laws c → cfield_laws cin.
Proof. intros Hg Hne Hc. apply cin_laws; [done|done|]. intros o d m Hn Hd. destruct (Hc o d m Hn Hd) as [r Hr]. exists r. by apply fits_bare. Qed.

(** A member that is not there is not printed. *)
Lemma cin_absent o d m l : has m = false → (∀ l, cf_put c o d m l = Ok l) →
  ∀ r, field_fits cin o d m r → shows cin o r l → prop (VObj l) (cf_name c) = None.
Proof.
  intros Hh Hp r Hf Hs. destruct (ff_put _ _ _ _ _ Hf []) as (l' & Hl & Hr & _). simpl in *. rewrite Hp, Hh in Hl.
  injection Hl as <-. destruct r as [v|]; [by compute in Hr|]. destruct Hs as [Hs|[Hs _]]; [done|by apply prop_not_null in Hs].
Qed.
End Member.

Lemma copt_bare {M V} f (k : ckind V) (get : M → option V) set o d m :
  ckind_bare k → opt_all (ck_normal k) (get m) → field_bare (copt f k get set) o d m (ck_to k o <$> get m).
Proof.
  intros Hk Hn. split; simpl in *.
  - intros l. eexists. split; [done|]. unfold put_own.
    replace (match get m with Some x => put f (ck_to k o x) l | None => l end)
      with (match ck_to k o <$> get m with Some v => put f v l | None => l end) by (by destruct (get m)).
    apply (printed_put (copt f k get set)). destruct (get m); [|done]. intros [= H]. by apply (cb_not_null _ Hk o) in H.
  - intros l _ m' Hs Ho Hr. unfold from_field. rewrite Hs. destruct (get m) as [x|]; simpl; [|by rewrite Hr].
    rewrite (cb_back _ Hk) by auto. done.
  - intros l rest Hs Ho Hk'. unfold check, expect. rewrite Hs. destruct (get m) as [x|]; simpl; [|done].
    rewrite (cb_typed _ Hk); auto.
Qed.

(** *** Arrays *)
Section Array.
Context {M V : Type} (f : string) (get : M → list V) (set : list V → M → M).
Context (to : Options → Z → V → res jsval) (from : string → Z → jsval → res V) (test : Z → jsval → option string).
Context (normal known : V → Prop) (height : Z).

(** One element under the three functions. *)
Definition element_laws : Prop := ∀ o d x, normal x → d + height ≤ util_recursionLimit →
  ∃ v, to o d x = Ok v ∧ (exact o → ∀ name, from name d v = Ok x) ∧ (typed_options o → known x → test d v = None).

Definition carray (put_all : Options → Z → list V → object → res object) : cfield M := {|
  cf_name := f;
  cf_group := None;
  cf_array := true;
  cf_default _ := VArr [];
  cf_check obj d rest := check obj f (expect_array f (test d)) rest;
  cf_from name obj d m := from_array name obj f (from name d) set m;
  cf_put o d m l := put_all o d (get m) l;
  cf_normal m := Forall normal (get m);
  cf_known m := Forall known (get m);
  cf_ready m := set [] m = m;
  cf_copy m := set (get m);
  cf_height := height;
|}.

Lemma elements o d xs : element_laws → Forall normal xs → d + height ≤ util_recursionLimit →
  ∃ vs, to_all (to o d) xs = Ok vs ∧ (exact o → ∀ name, from_all (from name d) vs = Ok xs) ∧
    (typed_options o → Forall known xs → check_all (test d) vs = None).
Proof.
  intros He Hxs Hd. induction Hxs as [|x xs Hx _ (vs & H1 & H2 & H3)]; [by exists []|].
  destruct (He o d x Hx Hd) as (v & G1 & G2 & G3). exists (v :: vs). cbn [to_all from_all check_all].
  rewrite G1. cbn [res_bind]. rewrite H1. split; [done|]. split.
  - intros Ho name. rewrite (G2 Ho). cbn [res_bind]. by rewrite (H2 Ho).
  - intros Ho [Hk Hks]%Forall_cons. rewrite (G3 Ho Hk). by apply H3.
Qed.

Lemma carray_laws put_all :
  (∀ o d xs l, put_all o d xs l = let! vs := to_all (to o d) xs in Ok (put_array f vs l)) →
  element_laws → cfield_laws (carray put_all).
Proof.
  intros Hput He o d m Hn Hd. destruct (elements o d (get m) He Hn Hd) as (vs & H1 & H2 & H3).
  exists (match vs with [] => None | _ => Some (VArr vs) end). apply put_fits; simpl.
  - intros l. rewrite Hput, H1. simpl. by destruct vs.
  - by destruct vs.
  - intros l name m' Hs Ho Hr.
    apply (from_array_printed _ _ _ vs _ (match vs with [] => prop (VObj l) f | _ => None end));
      [by destruct vs|by apply H2| |done].
    destruct vs; [|by left]. destruct Hs as [Hs|[Hs _]]; auto.
  - intros l rest Hs Ho Hk.
    apply (check_array_printed _ _ vs (match vs with [] => prop (VObj l) f | _ => None end));
      [by destruct vs|by apply H3|].
    destruct vs; [|by left]. destruct Hs as [Hs|[Hs _]]; auto.
Qed.
End Array.

(** A repeated 64-bit integer. *)
Definition clongs {M} (f : string) (u : bool) (get : M → list long) (set : list long → M → M) : cfield M :=
  carray f get set (λ _ _, from_long_element u) (λ _, expect isLongLike (f +:+ ": integer|Long[] expected"))
    (long_normal u) (λ _, True) 0 (λ o _ xs l, Ok (put_array f (to_long o u <$> xs) l)).

Lemma to_all_pure {V} (to : V → jsval) xs : to_all (λ x, Ok (to x)) xs = Ok (to <$> xs).
Proof. induction xs as [|x xs IH]; [done|]. csimpl. by rewrite IH. Qed.

Lemma clongs_laws {HE : Exact exact} {M} f u (get : M → list long) set : cfield_laws (clongs f u get set).
Proof.
  apply (carray_laws f get set (λ o _ x, Ok (to_long o u x))).
  - intros o d xs l. by rewrite to_all_pure.
  - intros o d x Hx _. exists (to_long o u x). split; [done|]. split.
    + intros Ho%exact_sub _. unfold from_long_element. by rewrite long_of_back.
    + intros Ho _. unfold expect. by rewrite isLongLike_typed.
Qed.

(** A repeated string. *)
Definition cstrings {M} (f : string) (get : M → list string) (set : list string → M → M) : cfield M :=
  carray f get set (λ _ _, from_string_element) (λ _, expect isString (f +:+ ": string[] expected"))
    (λ _, True) (λ _, True) 0 (λ o _ xs l, Ok (put_array f (VStr <$> xs) l)).

Lemma cstrings_laws {M} f (get : M → list string) set : cfield_laws (cstrings f get set).
Proof.
  apply (carray_laws f get set (λ o _ x, Ok (VStr x))).
  - intros o d xs l. by rewrite to_all_pure.
  - intros o d x _ _. by exists (VStr x).
Qed.

(** A repeated 32-bit integer. *)
Definition cints {M} (f : string) (get : M → list Z) (set : list Z → M → M) : cfield M :=
  carray f get set (λ _ _, from_int_element) (λ _, expect isInteger (f +:+ ": integer[] expected"))
    int32_ok (λ _, True) 0 (λ o _ xs l, Ok (put_array f (VNum <$> xs) l)).

Lemma cints_laws {M} f (get : M → list Z) set : cfield_laws (cints f get set).
Proof.
  apply (carray_laws f get set (λ o _ x, Ok (VNum x))).
  - intros o d xs l. by rewrite to_all_pure.
  - intros o d x Hx _. exists (VNum x). split; [done|]. split; [|done].
    intros _ _. unfold from_int_element. simpl. by rewrite to_int32_id.
Qed.

(** *** Messages *)
Section Messages.
Context {M V : Type} (f : string).
Context {enc : V → option Writer → option Z → res Writer} {dec : decoder V} {C : Codec enc dec}.
Context (toObject : V → Options → option Z → res jsval) (fromObject : jsval → option Z → res V)
  (verify : jsval → option Z → option string).

(** A message its decoder returns, and one with known enumeration values. *)
Definition arrives (x : V) : Prop := ∃ v, c_ok v ∧ x = c_norm v.
Definition arrives_known (known : V → Prop) (x : V) : Prop := ∃ v, c_ok v ∧ known v ∧ x = c_norm v.

Section One.
Context (known : V → Prop) (get : M → option V) (set : option V → M → M).

Definition cmsg : cfield M := {|
  cf_name := f;
  cf_group := None;
  cf_array := false;
  cf_default _ := VNull;
  cf_check obj d rest := check obj f (verify_nested f verify d) rest;
  cf_from name obj d m := from_field obj f (from_message name f fromObject d) set m;
  cf_put o d m l := put_msg o f toObject d (get m) l;
  cf_normal m := opt_all arrives (get m);
  cf_known m := opt_all (arrives_known known) (get m);
  cf_ready m := set None m = m;
  cf_copy m := set (get m);
  cf_height := 1 + c_height;
|}.
End One.

Definition cmsgs (known : V → Prop) (get : M → list V) (set : list V → M → M) : cfield M :=
  carray f get set (λ name d, from_nested name f fromObject d) (λ d, verify_nested f verify d) arrives (arrives_known known)
    (1 + c_height) (λ o d xs l, put_msgs o f toObject d xs l).

(** The inner class may read back under more options. *)
Context (exact' : Options → Prop) (Hexact : ∀ o, exact o → exact' o).
Context (known : V → Prop) {CC : ConverterOn exact' C toObject fromObject verify known}.

Lemma nested_converts o d x : arrives x → d + (1 + c_height) ≤ util_recursionLimit →
  ∃ l, toObject x o (Some (d + 1)) = Ok (VObj l) ∧
    (exact o → ∀ name, from_nested name f fromObject d (VObj l) = Ok x) ∧
    (typed_options o → arrives_known known x → verify_nested f verify d (VObj l) = None).
Proof.
  intros (v & Hv & ->) Hd. destruct (conv_ok v o (d + 1) Hv) as (l & H1 & H2 & H3); [lia|].
  exists l. split; [done|]. split.
  - intros Ho name. unfold from_nested. simpl. by apply H2, Hexact.
  - intros Ho (v' & Hv' & Hk & He). destruct (conv_ok v' o (d + 1) Hv') as (l' & G1 & _ & G3); [lia|].
    rewrite He, G1 in H1. injection H1 as ->. unfold verify_nested. by rewrite G3.
Qed.

Lemma cmsg_laws get set : cfield_laws (cmsg known get set).
Proof.
  intros o d m Hn Hd. simpl in *. destruct (get m) as [x|] eqn:Hx.
  - destruct (nested_converts o d x) as (l' & H1 & H2 & H3); [by apply Hn|done|].
    exists (Some (VObj l')). apply put_fits; simpl; rewrite ?Hx; [by intros l; simpl; rewrite H1|done| |].
    + intros l name m' Hs Ho Hr. unfold shows in Hs. simpl in Hs. unfold from_field, from_message.
      by rewrite Hs, (H2 Ho name).
    + intros l rest Hs Ho Hk. unfold shows in Hs. simpl in Hs. unfold check. by rewrite Hs, (H3 Ho (Hk x eq_refl)).
  - exists None. apply put_fits; simpl; rewrite ?Hx; [done|done| |].
    + intros l name m' Hs Ho Hr. unfold shows in Hs. simpl in Hs. unfold from_field.
      destruct Hs as [-> |[Hs _]]; [by rewrite Hr|by apply prop_not_null in Hs].
    + intros l rest Hs Ho _. unfold shows in Hs. simpl in Hs. unfold check.
      destruct Hs as [-> |[Hs _]]; [done|by apply prop_not_null in Hs].
Qed.

Lemma cmsgs_laws get set : cfield_laws (cmsgs known get set).
Proof.
  apply (carray_laws f get set (λ o d x, toObject x o (Some (d + 1)))); [done|].
  intros o d x Hx Hd. destruct (nested_converts o d x Hx Hd) as (l & H1 & H2 & H3). by exists (VObj l).
Qed.
End Messages.

(** ** Classes *)

Fixpoint schema_put_all {M} (fs : list (cfield M)) (o : Options) (d : Z) (m : M) (l : object) : res object :=
  match fs with
  | [] => Ok l
  | f :: fs' => let! l' := cf_put f o d m l in schema_put_all fs' o d m l'
  end.

Definition put_defaults {M} (fs : list (cfield M)) (o : Options) (l : object) : object :=
  foldl (λ l f, put (cf_name f) (cf_default f o) l) l fs.

(** The object before the fields are printed: empty arrays, then defaults. *)
Definition schema_base {M} (fs : list (cfield M)) (o : Options) : object :=
  let l := match List.filter cf_array fs with
           | [] => []
           | fs' => if arrays o || defaults o then put_defaults fs' o [] else []
           end in
  match List.filter (λ f, negb (cf_array f) && match cf_group f with None => true | Some _ => false end) fs with
  | [] => l
  | fs' => if defaults o then put_defaults fs' o l else l
  end.

Fixpoint schema_from {M} (fs : list (cfield M)) (name : string) (obj : jsval) (d : Z) (m : M) : res M :=
  match fs with
  | [] => Ok m
  | f :: fs' => let! m' := cf_from f name obj d m in schema_from fs' name obj d m'
  end.

Definition schema_verify {M} (fs : list (cfield M)) (d : Z) (message : jsval) : option string :=
  foldr (λ f rest, cf_check f message d rest) None fs.

Definition schema_copy {M} (fs : list (cfield M)) (m m' : M) : M := foldl (λ m' f, cf_copy f m m') m' fs.

Fixpoint schema_untouched {M} (fs : list (cfield M)) (m m' : M) : Prop :=
  match fs with
  | [] => True
  | f :: fs' => cf_ready f m' ∧ schema_untouched fs' m (cf_copy f m m')
  end.

Lemma names_inj {M} (fs : list (cfield M)) f g :
  NoDup (cf_name <$> fs) → f ∈ fs → g ∈ fs → cf_name f = cf_name g → f = g.
Proof.
  induction fs as [|h fs IH]; csimpl; [by intros _ ?%not_elem_of_nil|].
  intros [Hh Hnd]%NoDup_cons Hf Hg He. apply elem_of_cons in Hf as [->|Hf], Hg as [->|Hg]; [done| | |by apply IH].
  - destruct Hh. rewrite He. by apply list_elem_of_fmap_2.
  - destruct Hh. rewrite <-He. by apply list_elem_of_fmap_2.
Qed.

Section Objects.
Context {M : Type} (fs : list (cfield M)) (o : Options) (Hnames : NoDup (cf_name <$> fs)).

(** Only defaults so far. *)
Definition only_defaults (l : object) : Prop := ∀ f, f ∈ fs → shows f o None l.

Lemma only_defaults_put l gs : (∀ g, g ∈ gs → g ∈ fs ∧ (cf_array g = true ∨ defaults o = true)) →
  only_defaults l → only_defaults (put_defaults gs o l).
Proof.
  unfold put_defaults. revert l. induction gs as [|g gs IH]; intros l Hgs Hl; [done|]. simpl.
  apply IH; [set_solver|]. intros f Hf. unfold shows. destruct (Hgs g) as [Hg Hd]; [set_solver|].
  destruct (decide (cf_name g = cf_name f)) as [He|Hne].
  - assert (g = f) as -> by (by apply (names_inj fs)).
    destruct (cf_default f o) eqn:Hz; [left; unfold prop, put; by rewrite map_get_set_eq|right..];
      (split; [by apply prop_put_eq|done]).
  - rewrite prop_put_ne by done. by apply Hl.
Qed.

Lemma base_defaults : only_defaults (schema_base fs o).
Proof.
  assert (Hf : ∀ P g, g ∈ List.filter P fs → g ∈ fs ∧ P g = true) by (intros P g; rewrite !list_elem_of_In; apply filter_In).
  assert (H0 : only_defaults []) by (intros f _; by left).
  unfold schema_base.
  assert (H1 : only_defaults (match List.filter cf_array fs with
    | [] => [] | fs' => if arrays o || defaults o then put_defaults fs' o [] else [] end)).
  { specialize (Hf cf_array). destruct (List.filter cf_array fs); [done|].
    destruct (_ || _); [|done]. apply only_defaults_put; [|done]. intros g [Hg Ha]%Hf. auto. }
  specialize (Hf (λ f, negb (cf_array f) && match cf_group f with None => true | Some _ => false end)).
  destruct (List.filter _ fs); [done|].
  destruct (defaults o) eqn:Hd; [|done]. apply only_defaults_put; [|done]. intros g [Hg _]%Hf. auto.
Qed.
End Objects.

(** No field has the name of the oneof of another. *)
Definition groups_apart {M} (fs : list (cfield M)) : Prop :=
  Forall (λ f, ∀ g, cf_group f = Some g → g ∉ cf_name <$> fs) fs.

(** The fields are printed one after another, each under its own name. *)
Lemma fields_printed {M} (fs : list (cfield M)) o d m rs : Forall2 (λ f r, field_fits f o d m r) fs rs →
  NoDup (cf_name <$> fs) → groups_apart fs → ∀ l, only_defaults fs o l →
  ∃ l', schema_put_all fs o d m l = Ok l' ∧ Forall2 (λ f r, field_fits f o d m r ∧ shows f o r l') fs rs ∧
    ∀ n, n ∉ cf_name <$> fs → (∀ f, f ∈ fs → cf_group f ≠ Some n) → prop (VObj l') n = prop (VObj l) n.
Proof.
  induction 1 as [|f r fs rs Hf Hfs IH]; intros Hnd Hg l Hl; [by exists l|].
  rewrite fmap_cons in Hnd. apply NoDup_cons in Hnd as [Hin Hnd]. unfold groups_apart in Hg. rewrite fmap_cons in Hg.
  apply Forall_cons in Hg as [Hgf Hg]. destruct (ff_put _ _ _ _ _ Hf l) as (l1 & Hput & Hr & Ho).
  destruct (IH Hnd) with (l := l1) as (l' & Hall & Hshow & Hrest).
  - eapply Forall_impl; [exact Hg|]. intros g H n Hn Hn'. apply (H n Hn). by apply elem_of_cons; right.
  - intros g Hgin. unfold shows. rewrite Ho; [by apply Hl; right| |].
    + intros He. apply Hin. rewrite <-He. by apply list_elem_of_fmap_2.
    + intros He. apply (Hgf _ He). apply elem_of_cons; right. by apply list_elem_of_fmap_2.
  - rewrite Forall_forall in Hg. exists l'. split; [simpl; by rewrite Hput|]. split.
    + constructor; [|done]. split; [done|]. specialize (Hl f ltac:(by left)). unfold shows in *.
      rewrite Hrest; [|done|]. { rewrite Hr. by destruct r. }
      intros g Hgin He. apply (Hg g Hgin _ He). by left.
    + intros n Hn Hn'. rewrite fmap_cons in Hn. apply not_elem_of_cons in Hn as [Hne Hn].
      rewrite Hrest by (done || (intros g ?; apply Hn'; by right)). apply Ho; [done|]. apply Hn'. by left.
Qed.

Lemma all_fit {M} (fs : list (cfield M)) o d m h : Forall cfield_laws fs →
  Forall (λ f, cf_normal f m) fs → Forall (λ f, cf_height f ≤ h) fs → d + h ≤ util_recursionLimit →
  ∃ rs, Forall2 (λ f r, field_fits f o d m r) fs rs.
Proof.
  intros Hl Hn Hh Hd. induction Hl as [|f fs Hf _ IH]; [by exists []|].
  apply Forall_cons in Hh as [Hh1 Hh], Hn as [Hn1 Hn]. destruct (Hf o d m Hn1 ltac:(lia)) as [r Hr].
  destruct (IH Hn Hh) as [rs Hrs]. exists (r :: rs). by constructor.
Qed.

(** The object shows the field as it was printed. *)
Definition displays {M} (o : Options) (d : Z) (m : M) (l : object) (f : cfield M) : Prop :=
  ∃ r, field_fits f o d m r ∧ shows f o r l.

Lemma schema_reads_back {M} (fs : list (cfield M)) o d m l name : exact o →
  Forall (displays o d m l) fs → ∀ m', schema_untouched fs m m' →
  schema_from fs name (VObj l) d m' = Ok (schema_copy fs m m').
Proof.
  intros Ho. induction 1 as [|f fs (r & Hf & Hs) _ IH]; intros m' Hu; [done|]. destruct Hu as [Hr Hu]. simpl.
  rewrite (ff_from _ _ _ _ _ Hf) by done. simpl. by apply IH.
Qed.

Lemma schema_accepts {M} (fs : list (cfield M)) o d m l : typed_options o →
  Forall (displays o d m l) fs → Forall (λ f, cf_known f m) fs → schema_verify fs d (VObj l) = None.
Proof.
  intros Ho. unfold schema_verify. induction 1 as [|f fs (r & Hf & Hs) _ IH]; [done|]. intros [Hk Hks]%Forall_cons.
  cbn [foldr]. rewrite (ff_test _ _ _ _ _ Hf) by done. by apply IH.
Qed.

(** [verify] and [fromObject] go through the fields in the order [fs] of their
    declaration, [toObject] in the order [ts] of their numbers. *)
Section Build.
Context {M : Type} {enc : M → option Writer → option Z → res Writer} {dec : decoder M} (C : Codec enc dec).
Context (toObject : M → Options → option Z → res jsval) (fromObject : jsval → option Z → res M)
  (verify : jsval → option Z → option string).
Context (known : M → Prop) (name : string) (fs ts : list (cfield M)) (new : M) (unknowns : M → option (list bytes)).
Context (Hto : ∀ m o d, toObject m o d = to_object d (λ depth, schema_put_all ts o depth m (schema_base ts o))).
Context (Hfrom : ∀ obj d, fromObject obj d = from_object name obj d (λ depth, schema_from fs name obj depth new)).
Context (Hver : ∀ x, verify x None = verify x (Some 0)).
Context (Haccept : ∀ v o d l, c_ok v → d ≤ util_recursionLimit → typed_options o → known v →
  Forall (displays o d (c_norm v) l) fs → Forall (λ f, cf_known f (c_norm v)) fs → verify (VObj l) (Some d) = None).
Context (Hsame : Forall (λ f, f ∈ ts) fs).
Context (Hnames : NoDup (cf_name <$> ts) ∧ groups_apart ts).
Context (Hlaws : Forall cfield_laws ts).
Context (Hready : ∀ m, schema_untouched fs m new).
Context (Hheight : 0 ≤ c_height ∧ Forall (λ f, cf_height f ≤ c_height) ts).
Context (Hnormal : ∀ v, c_ok v → Forall (λ f, cf_normal f (c_norm v)) ts).
Context (Hknown : ∀ v, c_ok v → known v → Forall (λ f, cf_known f (c_norm v)) fs).
Context (Hcopy : ∀ m, unknowns m = None → schema_copy fs m new = m).
Context (Hnone : ∀ v, unknowns (c_norm v) = None).

(** What [toObject] prints shows every field. *)
Lemma schema_prints v o d : c_ok v → d + c_height ≤ util_recursionLimit →
  ∃ l, schema_put_all ts o d (c_norm v) (schema_base ts o) = Ok l ∧ Forall (displays o d (c_norm v) l) fs.
Proof.
  intros Hv Hd. destruct Hheight as [Hpos Hh].
  assert (∃ rs, Forall2 (λ f r, field_fits f o d (c_norm v) r) ts rs) as [rs Hrs].
  { eapply all_fit; [exact Hlaws|by apply Hnormal|exact Hh|exact Hd]. }
  destruct (fields_printed ts o d _ rs Hrs (proj1 Hnames) (proj2 Hnames) (schema_base ts o)) as (l & Hl & Hshow & _);
    [by apply base_defaults, Hnames|]. exists l. split; [done|].
  assert (Hts : Forall (displays o d (c_norm v) l) ts).
  { clear -Hshow. induction Hshow as [|f r ts' rs' Hf _ IH]; constructor; [by exists r|done]. }
  rewrite Forall_forall in Hts. eapply Forall_impl; [exact Hsame|]. done.
Qed.

Lemma schema_converts v o d : c_ok v → d + c_height ≤ util_recursionLimit →
  ∃ l, toObject (c_norm v) o (Some d) = Ok (VObj l) ∧
    (exact o → fromObject (VObj l) (Some d) = Ok (c_norm v)) ∧
    (typed_options o → known v → verify (VObj l) (Some d) = None).
Proof.
  intros Hv Hd. destruct Hheight as [Hpos _]. destruct (schema_prints v o d Hv Hd) as (l & Hl & Hshow).
  exists l. split; [|split].
  - rewrite Hto, to_object_enter by lia. by rewrite Hl.
  - intros Ho. rewrite Hfrom, from_object_enter by lia. erewrite schema_reads_back by done. by rewrite Hcopy.
  - intros Ho Hk. eapply Haccept; [done|lia|done|done|done|by apply Hknown].
Qed.

Lemma schema_converter_with : ConverterOn exact C toObject fromObject verify known.
Proof. split; [exact schema_converts|intros; by rewrite !Hto|intros; by rewrite !Hfrom|exact Hver]. Qed.
End Build.

(** [verify] is that of the fields. *)
Lemma schema_converter_on {M} {enc : M → option Writer → option Z → res Writer} {dec : decoder M} (C : Codec enc dec)
    toObject fromObject verify known name (fs ts : list (cfield M)) new (unknowns : M → option (list bytes)) :
  (∀ m o d, toObject m o d = to_object d (λ depth, schema_put_all ts o depth m (schema_base ts o))) →
  (∀ obj d, fromObject obj d = from_object name obj d (λ depth, schema_from fs name obj depth new)) →
  (∀ obj d, verify obj d = verify_object obj d (λ depth, schema_verify fs depth obj)) →
  Forall (λ f, f ∈ ts) fs → NoDup (cf_name <$> ts) ∧ groups_apart ts → Forall cfield_laws ts → (∀ m, schema_untouched fs m new) →
  0 ≤ c_height ∧ Forall (λ f, cf_height f ≤ c_height) ts →
  (∀ v, c_ok v → Forall (λ f, cf_normal f (c_norm v)) ts) →
  (∀ v, c_ok v → known v → Forall (λ f, cf_known f (c_norm v)) fs) →
  (∀ m, unknowns m = None → schema_copy fs m new = m) → (∀ v, unknowns (c_norm v) = None) →
  ConverterOn exact C toObject fromObject verify known.
Proof.
  intros Hto Hfrom Hver. intros. eapply (schema_converter_with C _ _ _ _ name fs ts new unknowns); try done.
  - intros x. by rewrite !Hver.
  - intros v o d l Hv Hd Ho Hk Hl Hks. rewrite Hver, verify_object_enter by done. by eapply schema_accepts.
Qed.

(** *** Classes without fields *)
Section Empty.
Context {M : Type} {enc : M → option Writer → option Z → res Writer} {dec : decoder M} (C : Codec enc dec).
Context (toObject : M → Options → option Z → res jsval) (fromObject : jsval → option Z → res M)
  (verify : jsval → option Z → option string).
Context (name : string) (new : M).
Context (Hto : ∀ m o d, toObject m o d = Ok (VObj [])).
Context (Hfrom : ∀ obj d, fromObject obj d = from_object name obj d (λ _, Ok new)).
Context (Hver : ∀ obj d, verify obj d = verify_object obj d (λ _, None)).
Context (Hnorm : ∀ v, c_norm v = new).
Context (Hheight : c_height = 0).

Lemma empty_converter : ConverterOn exact C toObject fromObject verify (λ _, True).
Proof.
  split; [|intros; by rewrite !Hto|intros; by rewrite !Hfrom|intros; by rewrite !Hver].
  intros v o d Hv Hd. exists []. rewrite Hto, Hfrom, Hver, Hnorm, from_object_enter, verify_object_enter by lia. done.
Qed.
End Empty.

(** ** The values decoders return are normal *)
Section Normal.
Context {M : Type} (f : string).

Lemma normal_string (get : M → option string) set m x :
  get m = norm_opt id string_present x → cf_normal (copt f cString get set) m.
Proof. simpl. intros -> y. apply norm_present. Qed.

Lemma normal_enum table first (get : M → option Z) set m x :
  get m = norm_opt id int32_present x → cf_normal (copt f (cEnum table first) get set) m.
Proof. simpl. intros -> y. apply norm_present. Qed.

Lemma known_enum table first (get : M → option Z) set m x :
  get m = norm_opt id int32_present x → opt_all (λ z, z ∈ table.*1) x → cf_known (copt f (cEnum table first) get set) m.
Proof. simpl. intros -> Hx y Hy. by apply (norm_ok (λ z, z ∈ table.*1) _ _ _ Hy). Qed.

Lemma normal_bool (get : M → option bool) set m x :
  get m = norm_opt id bool_present x → cf_normal (copt f cBool get set) m.
Proof. simpl. intros -> y. apply norm_present. Qed.

Lemma normal_bytes (get : M → option bytes) set m x :
  get m = norm_opt id bytes_present x → cf_normal (copt f cBytes get set) m.
Proof. simpl. intros -> y. apply norm_present. Qed.

Lemma normal_int32 (get : M → option Z) set m x :
  get m = norm_opt id int32_present x → opt_all int32_ok x → cf_normal (copt f cInt32 get set) m.
Proof. simpl. intros -> Hx y Hy. split; [by eapply norm_ok|by eapply norm_present]. Qed.

Lemma normal_long u (get : M → option long) set m x :
  get m = norm_opt (canon64 u) long_nonzero x → cf_normal (copt f (cLong u) get set) m.
Proof. simpl. intros -> y Hy. split; [by eapply norm_long|by eapply norm_present]. Qed.

Lemma normal_longs u (get : M → list long) set m xs :
  get m = canon64 u <$> xs → cf_normal (clongs f u get set) m.
Proof. simpl. intros ->. apply Forall_fmap, Forall_true. intros x. by exists (long_val x). Qed.

(** With explicit presence. *)
Lemma normal_int dflt present (get : M → option Z) set m x :
  get m = norm_opt id present x → opt_all int32_ok x → cf_normal (copt f (cInt dflt) get set) m.
Proof. simpl. intros -> Hx y Hy. by eapply norm_ok. Qed.

Lemma normal_wide u present (get : M → option long) set m x :
  get m = norm_opt (canon64 u) present x → cf_normal (copt f (cWide u) get set) m.
Proof. simpl. intros -> y Hy. by eapply norm_long. Qed.

Lemma known_kind table dflt name present (get : M → option Z) set m x :
  get m = norm_opt id present x → opt_all (λ z, z ∈ table.*1) x → cf_known (copt f (cValue table dflt name) get set) m.
Proof. simpl. intros -> Hx y Hy. by apply (norm_ok (λ z, z ∈ table.*1) _ _ _ Hy). Qed.

Lemma normal_ints (get : M → list Z) set m xs :
  get m = id <$> xs → Forall int32_ok xs → cf_normal (cints f get set) m.
Proof. simpl. intros ->. by rewrite list_fmap_id. Qed.

Lemma normal_strings (get : M → list string) set m : cf_normal (cstrings f get set) m.
Proof. simpl. by apply Forall_true. Qed.

Context {V : Type} {enc : V → option Writer → option Z → res Writer} {dec : decoder V} {C : Codec enc dec}.
Context (toObject : V → Options → option Z → res jsval) (fromObject : jsval → option Z → res V)
  (verify : jsval → option Z → option string) (known : V → Prop).

Lemma normal_msg (get : M → option V) set m x :
  get m = c_norm <$> x → opt_all (msg_ok enc dec) x → cf_normal (cmsg f toObject fromObject verify known get set) m.
Proof.
  simpl. intros -> Hx y (z & -> & Hz)%fmap_Some. exists z. split; [by destruct (Hx z eq_refl)|done].
Qed.

Lemma normal_msgs (get : M → list V) set m xs :
  get m = c_norm <$> xs → Forall (msg_ok enc dec) xs → cf_normal (cmsgs f toObject fromObject verify known get set) m.
Proof.
  simpl. intros -> Hx. apply Forall_fmap. eapply Forall_impl; [exact Hx|]. intros z [Hz _]. by exists z.
Qed.

Lemma known_msg (get : M → option V) set m x :
  get m = c_norm <$> x → opt_all (msg_ok enc dec) x → opt_all known x →
  cf_known (cmsg f toObject fromObject verify known get set) m.
Proof.
  simpl. intros -> Hx Hk y (z & -> & Hz)%fmap_Some. exists z. destruct (Hx z eq_refl). split; [done|]. split; [by apply Hk|done].
Qed.

Lemma known_msgs (get : M → list V) set m xs :
  get m = c_norm <$> xs → Forall (msg_ok enc dec) xs → Forall known xs →
  cf_known (cmsgs f toObject fromObject verify known get set) m.
Proof.
  simpl. intros -> Hx Hk. apply Forall_fmap. rewrite Forall_forall in *. intros z Hz. exists z.
  destruct (Hx z Hz). split; [done|]. split; [by apply Hk|done].
Qed.
End Normal.

(** ** Heights from the fields of the codec *)
Lemma schema_heights {M} (fs : list (field M)) (ts : list (cfield M)) :
  Forall2 (λ f t, cf_height t = f_height f) fs ts →
  0 ≤ schema_height fs ∧ Forall (λ t, cf_height t ≤ schema_height fs) ts.
Proof.
  intros H. split; [apply schema_height_nonneg|]. rewrite Forall_forall. intros t Ht.
  destruct (list_elem_of_lookup_1 _ _ Ht) as [i Hi]. destruct (Forall2_lookup_r _ _ _ _ _ H Hi) as (f & Hf & ->).
  apply schema_height_field. by eapply list_elem_of_lookup_2.
Qed.

(** ** Classes that contain themselves *)

(** The conversion of the inner objects matters only one level deeper. *)
Definition deeper {B} (body : (jsval → option Z → B) → jsval → option Z → B) : Prop :=
  ∀ rec rec' x d, (∀ y, rec y (Some (default 0 d + 1)) = rec' y (Some (default 0 d + 1))) → body rec x d = body rec' x d.

(** Past the limit there are no inner objects. *)
Definition bottoms {B} (body : (jsval → option Z → B) → jsval → option Z → B) : Prop :=
  ∀ rec rec' x d, util_recursionLimit < default 0 d → body rec x d = body rec' x d.

(** The limit is enough: the conversion calls itself at every level. *)
Lemma convert_nested_unfold {B} (body : (jsval → option Z → B) → jsval → option Z → B) stop x d :
  deeper body → bottoms body → convert_nested body stop x d = body (convert_nested body stop) x d.
Proof.
  intros Hdeep Hbot. unfold convert_nested at 1. cbn [convert_levels].
  destruct (Z.ltb_spec util_recursionLimit (default 0 d)) as [Hd|Hd]; [by apply Hbot|].
  apply Hdeep. intros y. unfold convert_nested. cbn [from_option id].
  by replace (Z.to_nat (util_recursionLimit + 1 - default 0 d))
    with (S (Z.to_nat (util_recursionLimit + 1 - (default 0 d + 1)))) by lia.
Qed.

Lemma verify_object_ext x d k k' : k (default 0 d) = k' (default 0 d) → verify_object x d k = verify_object x d k'.
Proof. intros H. unfold verify_object. by rewrite H. Qed.
Lemma verify_object_deep x d k k' : util_recursionLimit < default 0 d → verify_object x d k = verify_object x d k'.
Proof. intros H. unfold verify_object. by rewrite (proj2 (Z.ltb_lt _ _) H). Qed.
Lemma from_object_ext {M} name x d (k k' : Z → res M) : k (default 0 d) = k' (default 0 d) → from_object name x d k = from_object name x d k'.
Proof. intros H. unfold from_object. by rewrite H. Qed.
Lemma from_object_deep {M} name x d (k k' : Z → res M) : util_recursionLimit < default 0 d → from_object name x d k = from_object name x d k'.
Proof. intros H. unfold from_object, depth_check. by rewrite (proj2 (Z.ltb_lt _ _) H). Qed.

Lemma check_ext x f t t' r r' : (∀ v, t v = t' v) → r = r' → check x f t r = check x f t' r'.
Proof. intros Ht ->. unfold check. destruct x; try done. destruct (prop _ f); [by rewrite Ht|done]. Qed.
Lemma check_member_ext x g f t b r r' : (∀ b, r b = r' b) → check_member x g f t b r = check_member x g f t b r'.
Proof. intros Hr. unfold check_member. destruct x; try done. destruct (prop _ f); [|done]. destruct b; [done|]. by destruct (t _). Qed.
Lemma expect_array_ext f t t' v : (∀ v, t v = t' v) → expect_array f t v = expect_array f t' v.
Proof. intros Ht. destruct v as [| | | | | | | |l|]; try done. simpl. induction l as [|v l IH]; [done|]. simpl. by rewrite Ht, IH. Qed.
Lemma from_array_ext {M V} name x f (c c' : jsval → res V) (set : list V → M → M) m :
  (∀ v, c v = c' v) → from_array name x f c set m = from_array name x f c' set m.
Proof.
  intros Hc. unfold from_array. destruct (prop x f) as [v|]; [|done]. destruct (js_truthy v); [|done]. destruct v as [| | | | | | | |l|]; try done.
  assert (H : from_all c l = from_all c' l); [|by rewrite H]. induction l as [|v l IH]; [done|]. simpl. by rewrite Hc, IH.
Qed.
Lemma bind_ext {A B} (c c' : res A) (k k' : A → res B) : c = c' → (∀ a, k a = k' a) → res_bind c k = res_bind c' k'.
Proof. intros -> Hk. destruct c'; [apply Hk|done|done]. Qed.

End Schema.

Abbreviation Converter C toObject fromObject verify known :=
  (ConverterOn exact_options C toObject fromObject verify known).

(** A class whose three functions go through the fields in the same order. *)
Lemma schema_converter `{RL : RuntimeLaws} `{CL : ConversionLaws} {M} {enc : M → option Writer → option Z → res Writer} {dec : decoder M}
    (C : Codec enc dec) toObject fromObject verify known name (fs : list (cfield M)) new (unknowns : M → option (list bytes)) :
  (∀ m o d, toObject m o d = to_object d (λ depth, schema_put_all fs o depth m (schema_base fs o))) →
  (∀ obj d, fromObject obj d = from_object name obj d (λ depth, schema_from fs name obj depth new)) →
  (∀ obj d, verify obj d = verify_object obj d (λ depth, schema_verify fs depth obj)) →
  NoDup (cf_name <$> fs) ∧ groups_apart fs → Forall (cfield_laws exact_options) fs → (∀ m, schema_untouched fs m new) →
  0 ≤ c_height ∧ Forall (λ f, cf_height f ≤ c_height) fs →
  (∀ v, c_ok v → Forall (λ f, cf_normal f (c_norm v)) fs) →
  (∀ v, c_ok v → known v → Forall (λ f, cf_known f (c_norm v)) fs) →
  (∀ m, unknowns m = None → schema_copy fs m new = m) → (∀ v, unknowns (c_norm v) = None) →
  Converter C toObject fromObject verify known.
Proof.
  intros. eapply (schema_converter_on exact_options C _ _ _ _ name fs fs new unknowns); try done.
  by apply Forall_forall.
Qed.

(** When the conversions of a class are compared with those of its fields, the
    descriptors are unfolded first. *)
Strategy -10 [copt creq cin carray cmsg cmsgs clongs cstrings cints schema_verify foldr cf_check].
Strategy 10 [check check_required expect expect_array].

Ltac solve_cfield :=
  first
    [ apply copt_laws; first [refine (cText_laws _) | refine (cFlag_laws _ _) | refine (cInt_laws _ _)
        | refine (cValue_laws _ _ _ _ _ _); [repeat constructor|refine (bool_decide_unpack _ _); vm_compute; exact I]
        | refine (cWide_laws _ _) | refine (cBuffer_laws _) | refine (cNumber_laws _) ]
    | apply creq_laws; first [refine (cText_laws _) | refine (cFlag_laws _ _)]
    | apply copt_laws; first [apply cString_laws | apply cBool_laws | apply cInt32_laws | apply cBytes_laws | refine (cLong_laws _ _)
        | apply cEnum_laws; [repeat constructor|reflexivity|left] ]
    | refine (clongs_laws _ _ _ _ _) | apply cstrings_laws | apply cints_laws
    | eapply cmsg_laws; [intros ? Ho; exact Ho|exact _] | eapply cmsgs_laws; [intros ? Ho; exact Ho|exact _]
    | eapply cmsg_laws; [intros ? Ho; exact (exact_sub _ Ho)|exact _] | eapply cmsgs_laws; [intros ? Ho; exact (exact_sub _ Ho)|exact _] ].

Ltac solve_normal :=
  first
    [ eapply normal_string; reflexivity | eapply normal_bool; reflexivity | eapply normal_bytes; reflexivity
    | eapply normal_int32; [reflexivity|assumption] | eapply normal_long; reflexivity
    | eapply normal_enum; reflexivity | eapply normal_longs; reflexivity | apply normal_strings
    | eapply normal_msg; [reflexivity|assumption] | eapply normal_msgs; [reflexivity|assumption]
    | intros ? _; exact I | eapply normal_int; [reflexivity|assumption] | eapply normal_wide; reflexivity
    | eapply normal_ints; [reflexivity|first [assumption | match goal with H : f_ok _ _ |- _ => exact (proj1 H) end]] | eexists; split; [reflexivity|exact I] ].

Ltac each_field t := repeat (apply Forall_cons; split); try apply Forall_nil_2; t.

(** The obligations of [schema_converter] for a class whose conversions are those
    of its fields. *)
Ltac solve_names := split;
  [refine (bool_decide_unpack _ _); vm_compute; exact I
  |each_field ltac:(first [discriminate | intros ? [= <-]; refine (bool_decide_unpack _ _); vm_compute; exact I])].
Ltac solve_cfields := each_field solve_cfield.
Ltac solve_untouched := intros []; vm_compute; repeat split.
Ltac solve_order := each_field ltac:(repeat first [apply list_elem_of_here | apply list_elem_of_further]).
Ltac solve_heights_of fields := apply (schema_heights fields); repeat (apply Forall2_cons; split); [reflexivity..|apply Forall2_nil; done].
Ltac solve_heights := split; [|each_field idtac]; vm_compute; discriminate.
Ltac solve_normals := intros Hok; rewrite ?Forall_cons in Hok; destruct_and? Hok; each_field solve_normal.
Ltac solve_copy := intros []; cbn; by intros ->.
Ltac solve_known :=
  intros v [Hok _] Hv; hnf in Hok; repeat (apply Forall_cons in Hok as [? Hok]);
  each_field ltac:(first
    [ exact I | eapply known_enum; [reflexivity|exact Hv] | intros x _; exact I | apply Forall_true; done
    | eapply known_msg; [reflexivity|assumption|done] | eapply known_msgs; [reflexivity|assumption|by apply Forall_true] ]).
