(* ===== verification/ProtoCodecs.v ===== *)
(** * The packet classes as schemas

    The fields of the classes of [ProtoMessages], for the codec and for the
    conversions, with what the classes promise to those that contain them. *)

From S2P Require Import Prelude JsNum JsMap ProtoRuntime ProtoLaws ProtoMessages ProtoObjects ProtoConvert ProtoConvertLaws.
From S2P Require Import ProtoSchema ProtoSchemaConvert.
Open Scope Z_scope.

Section Classes.
Context `{RL : RuntimeLaws} `{CL : ConversionLaws}.

(** ** [SendMessageRequest] *)

Definition SendMessageRequest_fields : list (field SendMessageRequest) := [
    opt_field 10 kString SendMessageRequest_topic set_SendMessageRequest_topic;
    opt_field 16 kInt32 SendMessageRequest_msgType set_SendMessageRequest_msgType;
    opt_field 26 kBytes SendMessageRequest_content set_SendMessageRequest_content;
    opt_field 34 kString SendMessageRequest_clientMsgId set_SendMessageRequest_clientMsgId;
    packed_field 42 kInt64 SendMessageRequest_mentionedUserIds set_SendMessageRequest_mentionedUserIds].

#[export] Instance SendMessageRequest_codec : Codec SendMessageRequest_encode SendMessageRequest_decode.
Proof. refine (schema_codec _ _ SendMessageRequest_fields SendMessageRequest_new SendMessageRequest_unknowns SendMessageRequest_push_unknown SendMessageRequest_switch _ _ _ _ _ _);
  [reflexivity|reflexivity|solve_fields|solve_cases|solve_ready|intros d; unfold SendMessageRequest_switch; solve_switch]. Defined.

Definition SendMessageRequest_cfields : list (cfield SendMessageRequest) := [
    copt "topic" cString SendMessageRequest_topic set_SendMessageRequest_topic;
    copt "msgType" (cEnum MsgType "MSG_TYPE_UNSPECIFIED") SendMessageRequest_msgType set_SendMessageRequest_msgType;
    copt "content" cBytes SendMessageRequest_content set_SendMessageRequest_content;
    copt "clientMsgId" cString SendMessageRequest_clientMsgId set_SendMessageRequest_clientMsgId;
    clongs "mentionedUserIds" false SendMessageRequest_mentionedUserIds set_SendMessageRequest_mentionedUserIds].

#[export] Instance SendMessageRequest_converter : Converter SendMessageRequest_codec SendMessageRequest_toObject SendMessageRequest_fromObject SendMessageRequest_verify (λ v, opt_all (λ z, z ∈ MsgType.*1) (SendMessageRequest_msgType v)).
Proof. apply (schema_converter _ _ _ _ _ ".api.im.v1.SendMessageRequest" SendMessageRequest_cfields SendMessageRequest_new SendMessageRequest_unknowns);
  [reflexivity..|solve_names|solve_cfields|solve_untouched|solve_heights|intros v [Hok _]; revert Hok; unfold schema_ok, SendMessageRequest_fields; solve_normals|solve_known|solve_copy|reflexivity]. Qed.

(** ** [SendMessageReply] *)

Definition SendMessageReply_fields : list (field SendMessageReply) := [
    opt_field 10 kString SendMessageReply_clientMsgId set_SendMessageReply_clientMsgId;
    opt_field 16 kInt64 SendMessageReply_msgId set_SendMessageReply_msgId;
    opt_field 24 kInt64 SendMessageReply_timestamp set_SendMessageReply_timestamp;
    opt_field 32 kUint64 SendMessageReply_topicSeq set_SendMessageReply_topicSeq].

#[export] Instance SendMessageReply_codec : Codec SendMessageReply_encode SendMessageReply_decode.
Proof. refine (schema_codec _ _ SendMessageReply_fields SendMessageReply_new SendMessageReply_unknowns SendMessageReply_push_unknown SendMessageReply_switch _ _ _ _ _ _);
  [reflexivity|reflexivity|solve_fields|solve_cases|solve_ready|intros d; unfold SendMessageReply_switch; solve_switch]. Defined.

Definition SendMessageReply_cfields : list (cfield SendMessageReply) := [
    copt "clientMsgId" cString SendMessageReply_clientMsgId set_SendMessageReply_clientMsgId;
    copt "msgId" (cLong false) SendMessageReply_msgId set_SendMessageReply_msgId;
    copt "timestamp" (cLong false) SendMessageReply_timestamp set_SendMessageReply_timestamp;
    copt "topicSeq" (cLong true) SendMessageReply_topicSeq set_SendMessageReply_topicSeq].

#[export] Instance SendMessageReply_converter : Converter SendMessageReply_codec SendMessageReply_toObject SendMessageReply_fromObject SendMessageReply_verify (λ _, True).
Proof. apply (schema_converter _ _ _ _ _ ".api.im.v1.SendMessageReply" SendMessageReply_cfields SendMessageReply_new SendMessageReply_unknowns);
  [reflexivity..|solve_names|solve_cfields|solve_untouched|solve_heights|intros v [Hok _]; revert Hok; unfold schema_ok, SendMessageReply_fields; solve_normals|solve_known|solve_copy|reflexivity]. Qed.

(** ** [MessagePush] *)

Definition MessagePush_fields : list (field MessagePush) := [
    opt_field 8 kInt64 MessagePush_msgId set_MessagePush_msgId;
    opt_field 18 kString MessagePush_topic set_MessagePush_topic;
    opt_field 24 kInt64 MessagePush_senderId set_MessagePush_senderId;
    opt_field 32 kInt32 MessagePush_msgType set_MessagePush_msgType;
    opt_field 42 kBytes MessagePush_content set_MessagePush_content;
    opt_field 48 kInt64 MessagePush_timestamp set_MessagePush_timestamp;
    opt_field 56 kUint64 MessagePush_topicSeq set_MessagePush_topicSeq;
    opt_field 66 kString MessagePush_clientMsgId set_MessagePush_clientMsgId;
    opt_field 72 kBool MessagePush_recalled set_MessagePush_recalled;
    packed_field 82 kInt64 MessagePush_mentionedUserIds set_MessagePush_mentionedUserIds].

#[export] Instance MessagePush_codec : Codec MessagePush_encode MessagePush_decode.
Proof. refine (schema_codec _ _ MessagePush_fields MessagePush_new MessagePush_unknowns MessagePush_push_unknown MessagePush_switch _ _ _ _ _ _);
  [reflexivity|reflexivity|solve_fields|solve_cases|solve_ready|intros d; unfold MessagePush_switch; solve_switch]. Defined.

Definition MessagePush_cfields : list (cfield MessagePush) := [
    copt "msgId" (cLong false) MessagePush_msgId set_MessagePush_msgId;
    copt "topic" cString MessagePush_topic set_MessagePush_topic;
    copt "senderId" (cLong false) MessagePush_senderId set_MessagePush_senderId;
    copt "msgType" cInt32 MessagePush_msgType set_MessagePush_msgType;
    copt "content" cBytes MessagePush_content set_MessagePush_content;
    copt "timestamp" (cLong false) MessagePush_timestamp set_MessagePush_timestamp;
    copt "topicSeq" (cLong true) MessagePush_topicSeq set_MessagePush_topicSeq;
    copt "clientMsgId" cString MessagePush_clientMsgId set_MessagePush_clientMsgId;
    copt "recalled" cBool MessagePush_recalled set_MessagePush_recalled;
    clongs "mentionedUserIds" false MessagePush_mentionedUserIds set_MessagePush_mentionedUserIds].

#[export] Instance MessagePush_converter : Converter MessagePush_codec MessagePush_toObject MessagePush_fromObject MessagePush_verify (λ _, True).
Proof. apply (schema_converter _ _ _ _ _ ".api.im.v1.MessagePush" MessagePush_cfields MessagePush_new MessagePush_unknowns);
  [reflexivity..|solve_names|solve_cfields|solve_untouched|solve_heights|intros v [Hok _]; revert Hok; unfold schema_ok, MessagePush_fields; solve_normals|solve_known|solve_copy|reflexivity]. Qed.

(** ** [PullRequest] *)

Definition PullRequest_fields : list (field PullRequest) := [
    opt_field 10 kString PullRequest_topic set_PullRequest_topic;
    opt_field 16 kUint64 PullRequest_lastSeq set_PullRequest_lastSeq;
    opt_field 24 kInt32 PullRequest_limit set_PullRequest_limit;
    opt_field 32 kUint64 PullRequest_endSeq set_PullRequest_endSeq].

#[export] Instance PullRequest_codec : Codec PullRequest_encode PullRequest_decode.
Proof. refine (schema_codec _ _ PullRequest_fields PullRequest_new PullRequest_unknowns PullRequest_push_unknown PullRequest_switch _ _ _ _ _ _);
  [reflexivity|reflexivity|solve_fields|solve_cases|solve_ready|intros d; unfold PullRequest_switch; solve_switch]. Defined.

Definition PullRequest_cfields : list (cfield PullRequest) := [
    copt "topic" cString PullRequest_topic set_PullRequest_topic;
    copt "lastSeq" (cLong true) PullRequest_lastSeq set_PullRequest_lastSeq;
    copt "limit" cInt32 PullRequest_limit set_PullRequest_limit;
    copt "endSeq" (cLong true) PullRequest_endSeq set_PullRequest_endSeq].

#[export] Instance PullRequest_converter : Converter PullRequest_codec PullRequest_toObject PullRequest_fromObject PullRequest_verify (λ _, True).
Proof. apply (schema_converter _ _ _ _ _ ".api.im.v1.PullRequest" PullRequest_cfields PullRequest_new PullRequest_unknowns);
  [reflexivity..|solve_names|solve_cfields|solve_untouched|solve_heights|intros v [Hok _]; revert Hok; unfold schema_ok, PullRequest_fields; solve_normals|solve_known|solve_copy|reflexivity]. Qed.

(** ** [PullMessage] *)

Definition PullMessage_fields : list (field PullMessage) := [
    opt_field 8 kInt64 PullMessage_msgId set_PullMessage_msgId;
    opt_field 18 kString PullMessage_topic set_PullMessage_topic;
    opt_field 24 kInt64 PullMessage_senderId set_PullMessage_senderId;
    opt_field 32 kInt32 PullMessage_msgType set_PullMessage_msgType;
    opt_field 42 kBytes PullMessage_content set_PullMessage_content;
    opt_field 48 kInt64 PullMessage_timestamp set_PullMessage_timestamp;
    opt_field 56 kUint64 PullMessage_topicSeq set_PullMessage_topicSeq;
    opt_field 66 kString PullMessage_clientMsgId set_PullMessage_clientMsgId;
    opt_field 72 kBool PullMessage_recalled set_PullMessage_recalled].

#[export] Instance PullMessage_codec : Codec PullMessage_encode PullMessage_decode.
Proof. refine (schema_codec _ _ PullMessage_fields PullMessage_new PullMessage_unknowns PullMessage_push_unknown PullMessage_switch _ _ _ _ _ _);
  [reflexivity|reflexivity|solve_fields|solve_cases|solve_ready|intros d; unfold PullMessage_switch; solve_switch]. Defined.

Definition PullMessage_cfields : list (cfield PullMessage) := [
    copt "msgId" (cLong false) PullMessage_msgId set_PullMessage_msgId;
    copt "topic" cString PullMessage_topic set_PullMessage_topic;
    copt "senderId" (cLong false) PullMessage_senderId set_PullMessage_senderId;
    copt "msgType" cInt32 PullMessage_msgType set_PullMessage_msgType;
    copt "content" cBytes PullMessage_content set_PullMessage_content;
    copt "timestamp" (cLong false) PullMessage_timestamp set_PullMessage_timestamp;
    copt "topicSeq" (cLong true) PullMessage_topicSeq set_PullMessage_topicSeq;
    copt "clientMsgId" cString PullMessage_clientMsgId set_PullMessage_clientMsgId;
    copt "recalled" cBool PullMessage_recalled set_PullMessage_recalled].

#[export] Instance PullMessage_converter : Converter PullMessage_codec PullMessage_toObject PullMessage_fromObject PullMessage_verify (λ _, True).
Proof. apply (schema_converter _ _ _ _ _ ".api.im.v1.PullMessage" PullMessage_cfields PullMessage_new PullMessage_unknowns);
  [reflexivity..|solve_names|solve_cfields|solve_untouched|solve_heights|intros v [Hok _]; revert Hok; unfold schema_ok, PullMessage_fields; solve_normals|solve_known|solve_copy|reflexivity]. Qed.

(** ** [PullReply] *)

Definition PullReply_fields : list (field PullReply) := [
    msgs_field 10 PullMessage_encode PullMessage_decode PullReply_messages set_PullReply_messages;
    opt_field 16 kBool PullReply_hasMore set_PullReply_hasMore;
    opt_field 24 kUint64 PullReply_nextSeq set_PullReply_nextSeq].

#[export] Instance PullReply_codec : Codec PullReply_encode PullReply_decode.
Proof. refine (schema_codec _ _ PullReply_fields PullReply_new PullReply_unknowns PullReply_push_unknown PullReply_switch _ _ _ _ _ _);
  [reflexivity|reflexivity|solve_fields|solve_cases|solve_ready|intros d; unfold PullReply_switch; solve_switch]. Defined.

Definition PullReply_cfields : list (cfield PullReply) := [
    cmsgs "messages" PullMessage_toObject PullMessage_fromObject PullMessage_verify (λ _, True) PullReply_messages set_PullReply_messages;
    copt "hasMore" cBool PullReply_hasMore set_PullReply_hasMore;
    copt "nextSeq" (cLong true) PullReply_nextSeq set_PullReply_nextSeq].

#[export] Instance PullReply_converter : Converter PullReply_codec PullReply_toObject PullReply_fromObject PullReply_verify (λ _, True).
Proof. apply (schema_converter _ _ _ _ _ ".api.im.v1.PullReply" PullReply_cfields PullReply_new PullReply_unknowns);
  [reflexivity..|solve_names|solve_cfields|solve_untouched|solve_heights|intros v [Hok _]; revert Hok; unfold schema_ok, PullReply_fields; solve_normals|solve_known|solve_copy|reflexivity]. Qed.

(** ** [AuthRequest] *)

Definition AuthRequest_fields : list (field AuthRequest) := [
    opt_field 10 kString AuthRequest_token set_AuthRequest_token;
    opt_field 18 kString AuthRequest_deviceId set_AuthRequest_deviceId].

#[export] Instance AuthRequest_codec : Codec AuthRequest_encode AuthRequest_decode.
Proof. refine (schema_codec _ _ AuthRequest_fields AuthRequest_new AuthRequest_unknowns AuthRequest_push_unknown AuthRequest_switch _ _ _ _ _ _);
  [reflexivity|reflexivity|solve_fields|solve_cases|solve_ready|intros d; unfold AuthRequest_switch; solve_switch]. Defined.

Definition AuthRequest_cfields : list (cfield AuthRequest) := [
    copt "token" cString AuthRequest_token set_AuthRequest_token;
    copt "deviceId" cString AuthRequest_deviceId set_AuthRequest_deviceId].

#[export] Instance AuthRequest_converter : Converter AuthRequest_codec AuthRequest_toObject AuthRequest_fromObject AuthRequest_verify (λ _, True).
Proof. apply (schema_converter _ _ _ _ _ ".api.im.v1.AuthRequest" AuthRequest_cfields AuthRequest_new AuthRequest_unknowns);
  [reflexivity..|solve_names|solve_cfields|solve_untouched|solve_heights|intros v [Hok _]; revert Hok; unfold schema_ok, AuthRequest_fields; solve_normals|solve_known|solve_copy|reflexivity]. Qed.

(** ** [AuthResponse] *)

Definition AuthResponse_fields : list (field AuthResponse) := [
    opt_field 8 kBool AuthResponse_success set_AuthResponse_success;
    opt_field 16 kInt64 AuthResponse_userId set_AuthResponse_userId;
    opt_field 26 kString AuthResponse_deviceId set_AuthResponse_deviceId].

#[export] Instance AuthResponse_codec : Codec AuthResponse_encode AuthResponse_decode.
Proof. refine (schema_codec _ _ AuthResponse_fields AuthResponse_new AuthResponse_unknowns AuthResponse_push_unknown AuthResponse_switch _ _ _ _ _ _);
  [reflexivity|reflexivity|solve_fields|solve_cases|solve_ready|intros d; unfold AuthResponse_switch; solve_switch]. Defined.

Definition AuthResponse_cfields : list (cfield AuthResponse) := [
    copt "success" cBool AuthResponse_success set_AuthResponse_success;
    copt "userId" (cLong false) AuthResponse_userId set_AuthResponse_userId;
    copt "deviceId" cString AuthResponse_deviceId set_AuthResponse_deviceId].

#[export] Instance AuthResponse_converter : Converter AuthResponse_codec AuthResponse_toObject AuthResponse_fromObject AuthResponse_verify (λ _, True).
Proof. apply (schema_converter _ _ _ _ _ ".api.im.v1.AuthResponse" AuthResponse_cfields AuthResponse_new AuthResponse_unknowns);
  [reflexivity..|solve_names|solve_cfields|solve_untouched|solve_heights|intros v [Hok _]; revert Hok; unfold schema_ok, AuthResponse_fields; solve_normals|solve_known|solve_copy|reflexivity]. Qed.

(** ** [AckRequest] *)

Definition AckRequest_fields : list (field AckRequest) := [
    opt_field 8 kInt64 AckRequest_msgId set_AckRequest_msgId;
    opt_field 18 kString AckRequest_topic set_AckRequest_topic;
    opt_field 24 kUint64 AckRequest_topicSeq set_AckRequest_topicSeq].

#[export] Instance AckRequest_codec : Codec AckRequest_encode AckRequest_decode.
Proof. refine (schema_codec _ _ AckRequest_fields AckRequest_new AckRequest_unknowns AckRequest_push_unknown AckRequest_switch _ _ _ _ _ _);
  [reflexivity|reflexivity|solve_fields|solve_cases|solve_ready|intros d; unfold AckRequest_switch; solve_switch]. Defined.

Definition AckRequest_cfields : list (cfield AckRequest) := [
    copt "msgId" (cLong false) AckRequest_msgId set_AckRequest_msgId;
    copt "topic" cString AckRequest_topic set_AckRequest_topic;
    copt "topicSeq" (cLong true) AckRequest_topicSeq set_AckRequest_topicSeq].

#[export] Instance AckRequest_converter : Converter AckRequest_codec AckRequest_toObject AckRequest_fromObject AckRequest_verify (λ _, True).
Proof. apply (schema_converter _ _ _ _ _ ".api.im.v1.AckRequest" AckRequest_cfields AckRequest_new AckRequest_unknowns);
  [reflexivity..|solve_names|solve_cfields|solve_untouched|solve_heights|intros v [Hok _]; revert Hok; unfold schema_ok, AckRequest_fields; solve_normals|solve_known|solve_copy|reflexivity]. Qed.

(** ** [ErrorResponse] *)

Definition ErrorResponse_fields : list (field ErrorResponse) := [
    opt_field 8 kInt32 ErrorResponse_code set_ErrorResponse_code;
    opt_field 18 kString ErrorResponse_message set_ErrorResponse_message;
    opt_field 24 kBool ErrorResponse_retryable set_ErrorResponse_retryable;
    opt_field 32 kUint64 ErrorResponse_retryAfterMs set_ErrorResponse_retryAfterMs].

#[export] Instance ErrorResponse_codec : Codec ErrorResponse_encode ErrorResponse_decode.
Proof. refine (schema_codec _ _ ErrorResponse_fields ErrorResponse_new ErrorResponse_unknowns ErrorResponse_push_unknown ErrorResponse_switch _ _ _ _ _ _);
  [reflexivity|reflexivity|solve_fields|solve_cases|solve_ready|intros d; unfold ErrorResponse_switch; solve_switch]. Defined.

Definition ErrorResponse_cfields : list (cfield ErrorResponse) := [
    copt "code" cInt32 ErrorResponse_code set_ErrorResponse_code;
    copt "message" cString ErrorResponse_message set_ErrorResponse_message;
    copt "retryable" cBool ErrorResponse_retryable set_ErrorResponse_retryable;
    copt "retryAfterMs" (cLong true) ErrorResponse_retryAfterMs set_ErrorResponse_retryAfterMs].

#[export] Instance ErrorResponse_converter : Converter ErrorResponse_codec ErrorResponse_toObject ErrorResponse_fromObject ErrorResponse_verify (λ _, True).
Proof. apply (schema_converter _ _ _ _ _ ".api.im.v1.ErrorResponse" ErrorResponse_cfields ErrorResponse_new ErrorResponse_unknowns);
  [reflexivity..|solve_names|solve_cfields|solve_untouched|solve_heights|intros v [Hok _]; revert Hok; unfold schema_ok, ErrorResponse_fields; solve_normals|solve_known|solve_copy|reflexivity]. Qed.

(** ** [ReadReceipt] *)

Definition ReadReceipt_fields : list (field ReadReceipt) := [
    opt_field 10 kString ReadReceipt_topic set_ReadReceipt_topic;
    opt_field 16 kUint64 ReadReceipt_upToSeq set_ReadReceipt_upToSeq;
    opt_field 24 kInt64 ReadReceipt_readerId set_ReadReceipt_readerId].

#[export] Instance ReadReceipt_codec : Codec ReadReceipt_encode ReadReceipt_decode.
Proof. refine (schema_codec _ _ ReadReceipt_fields ReadReceipt_new ReadReceipt_unknowns ReadReceipt_push_unknown ReadReceipt_switch _ _ _ _ _ _);
  [reflexivity|reflexivity|solve_fields|solve_cases|solve_ready|intros d; unfold ReadReceipt_switch; solve_switch]. Defined.

Definition ReadReceipt_cfields : list (cfield ReadReceipt) := [
    copt "topic" cString ReadReceipt_topic set_ReadReceipt_topic;
    copt "upToSeq" (cLong true) ReadReceipt_upToSeq set_ReadReceipt_upToSeq;
    copt "readerId" (cLong false) ReadReceipt_readerId set_ReadReceipt_readerId].

#[export] Instance ReadReceipt_converter : Converter ReadReceipt_codec ReadReceipt_toObject ReadReceipt_fromObject ReadReceipt_verify (λ _, True).
Proof. apply (schema_converter _ _ _ _ _ ".api.im.v1.ReadReceipt" ReadReceipt_cfields ReadReceipt_new ReadReceipt_unknowns);
  [reflexivity..|solve_names|solve_cfields|solve_untouched|solve_heights|intros v [Hok _]; revert Hok; unfold schema_ok, ReadReceipt_fields; solve_normals|solve_known|solve_copy|reflexivity]. Qed.

(** ** [DeliveryReceipt] *)

Definition DeliveryReceipt_fields : list (field DeliveryReceipt) := [
    opt_field 10 kString DeliveryReceipt_topic set_DeliveryReceipt_topic;
    opt_field 16 kUint64 DeliveryReceipt_topicSeq set_DeliveryReceipt_topicSeq;
    opt_field 24 kInt64 DeliveryReceipt_msgId set_DeliveryReceipt_msgId].

#[export] Instance DeliveryReceipt_codec : Codec DeliveryReceipt_encode DeliveryReceipt_decode.
Proof. refine (schema_codec _ _ DeliveryReceipt_fields DeliveryReceipt_new DeliveryReceipt_unknowns DeliveryReceipt_push_unknown DeliveryReceipt_switch _ _ _ _ _ _);
  [reflexivity|reflexivity|solve_fields|solve_cases|solve_ready|intros d; unfold DeliveryReceipt_switch; solve_switch]. Defined.

Definition DeliveryReceipt_cfields : list (cfield DeliveryReceipt) := [
    copt "topic" cString DeliveryReceipt_topic set_DeliveryReceipt_topic;
    copt "topicSeq" (cLong true) DeliveryReceipt_topicSeq set_DeliveryReceipt_topicSeq;
    copt "msgId" (cLong false) DeliveryReceipt_msgId set_DeliveryReceipt_msgId].

#[export] Instance DeliveryReceipt_converter : Converter DeliveryReceipt_codec DeliveryReceipt_toObject DeliveryReceipt_fromObject DeliveryReceipt_verify (λ _, True).
Proof. apply (schema_converter _ _ _ _ _ ".api.im.v1.DeliveryReceipt" DeliveryReceipt_cfields DeliveryReceipt_new DeliveryReceipt_unknowns);
  [reflexivity..|solve_names|solve_cfields|solve_untouched|solve_heights|intros v [Hok _]; revert Hok; unfold schema_ok, DeliveryReceipt_fields; solve_normals|solve_known|solve_copy|reflexivity]. Qed.

(** ** [SendReceipt] *)

Definition SendReceipt_fields : list (field SendReceipt) := [
    opt_field 10 kString SendReceipt_clientMsgId set_SendReceipt_clientMsgId;
    opt_field 16 kInt64 SendReceipt_msgId set_SendReceipt_msgId;
    opt_field 26 kString SendReceipt_topic set_SendReceipt_topic;
    opt_field 32 kUint64 SendReceipt_topicSeq set_SendReceipt_topicSeq;
    opt_field 40 kInt64 SendReceipt_timestamp set_SendReceipt_timestamp].

#[export] Instance SendReceipt_codec : Codec SendReceipt_encode SendReceipt_decode.
Proof. refine (schema_codec _ _ SendReceipt_fields SendReceipt_new SendReceipt_unknowns SendReceipt_push_unknown SendReceipt_switch _ _ _ _ _ _);
  [reflexivity|reflexivity|solve_fields|solve_cases|solve_ready|intros d; unfold SendReceipt_switch; solve_switch]. Defined.

Definition SendReceipt_cfields : list (cfield SendReceipt) := [
    copt "clientMsgId" cString SendReceipt_clientMsgId set_SendReceipt_clientMsgId;
    copt "msgId" (cLong false) SendReceipt_msgId set_SendReceipt_msgId;
    copt "topic" cString SendReceipt_topic set_SendReceipt_topic;
    copt "topicSeq" (cLong true) SendReceipt_topicSeq set_SendReceipt_topicSeq;
    copt "timestamp" (cLong false) SendReceipt_timestamp set_SendReceipt_timestamp].

#[export] Instance SendReceipt_converter : Converter SendReceipt_codec SendReceipt_toObject SendReceipt_fromObject SendReceipt_verify (λ _, True).
Proof. apply (schema_converter _ _ _ _ _ ".api.im.v1.SendReceipt" SendReceipt_cfields SendReceipt_new SendReceipt_unknowns);
  [reflexivity..|solve_names|solve_cfields|solve_untouched|solve_heights|intros v [Hok _]; revert Hok; unfold schema_ok, SendReceipt_fields; solve_normals|solve_known|solve_copy|reflexivity]. Qed.

(** ** [RecallRequest] *)

Definition RecallRequest_fields : list (field RecallRequest) := [
    opt_field 10 kString RecallRequest_topic set_RecallRequest_topic;
    opt_field 16 kUint64 RecallRequest_topicSeq set_RecallRequest_topicSeq;
    opt_field 24 kInt64 RecallRequest_msgId set_RecallRequest_msgId].

#[export] Instance RecallRequest_codec : Codec RecallRequest_encode RecallRequest_decode.
Proof. refine (schema_codec _ _ RecallRequest_fields RecallRequest_new RecallRequest_unknowns RecallRequest_push_unknown RecallRequest_switch _ _ _ _ _ _);
  [reflexivity|reflexivity|solve_fields|solve_cases|solve_ready|intros d; unfold RecallRequest_switch; solve_switch]. Defined.

Definition RecallRequest_cfields : list (cfield RecallRequest) := [
    copt "topic" cString RecallRequest_topic set_RecallRequest_topic;
    copt "topicSeq" (cLong true) RecallRequest_topicSeq set_RecallRequest_topicSeq;
    copt "msgId" (cLong false) RecallRequest_msgId set_RecallRequest_msgId].

#[export] Instance RecallRequest_converter : Converter RecallRequest_codec RecallRequest_toObject RecallRequest_fromObject RecallRequest_verify (λ _, True).
Proof. apply (schema_converter _ _ _ _ _ ".api.im.v1.RecallRequest" RecallRequest_cfields RecallRequest_new RecallRequest_unknowns);
  [reflexivity..|solve_names|solve_cfields|solve_untouched|solve_heights|intros v [Hok _]; revert Hok; unfold schema_ok, RecallRequest_fields; solve_normals|solve_known|solve_copy|reflexivity]. Qed.

(** ** [RecallNotice] *)

Definition RecallNotice_fields : list (field RecallNotice) := [
    opt_field 10 kString RecallNotice_topic set_RecallNotice_topic;
    opt_field 16 kUint64 RecallNotice_topicSeq set_RecallNotice_topicSeq;
    opt_field 24 kInt64 RecallNotice_msgId set_RecallNotice_msgId;
    opt_field 32 kInt64 RecallNotice_senderId set_RecallNotice_senderId;
    opt_field 40 kInt64 RecallNotice_recalledAt set_RecallNotice_recalledAt].

#[export] Instance RecallNotice_codec : Codec RecallNotice_encode RecallNotice_decode.
Proof. refine (schema_codec _ _ RecallNotice_fields RecallNotice_new RecallNotice_unknowns RecallNotice_push_unknown RecallNotice_switch _ _ _ _ _ _);
  [reflexivity|reflexivity|solve_fields|solve_cases|solve_ready|intros d; unfold RecallNotice_switch; solve_switch]. Defined.

Definition RecallNotice_cfields : list (cfield RecallNotice) := [
    copt "topic" cString RecallNotice_topic set_RecallNotice_topic;
    copt "topicSeq" (cLong true) RecallNotice_topicSeq set_RecallNotice_topicSeq;
    copt "msgId" (cLong false) RecallNotice_msgId set_RecallNotice_msgId;
    copt "senderId" (cLong false) RecallNotice_senderId set_RecallNotice_senderId;
    copt "recalledAt" (cLong false) RecallNotice_recalledAt set_RecallNotice_recalledAt].

#[export] Instance RecallNotice_converter : Converter RecallNotice_codec RecallNotice_toObject RecallNotice_fromObject RecallNotice_verify (λ _, True).
Proof. apply (schema_converter _ _ _ _ _ ".api.im.v1.RecallNotice" RecallNotice_cfields RecallNotice_new RecallNotice_unknowns);
  [reflexivity..|solve_names|solve_cfields|solve_untouched|solve_heights|intros v [Hok _]; revert Hok; unfold schema_ok, RecallNotice_fields; solve_normals|solve_known|solve_copy|reflexivity]. Qed.

(** ** [UpstreamMessage] *)

Definition UpstreamMessage_fields : list (field UpstreamMessage) := [
    opt_field 8 kInt64 UpstreamMessage_senderId set_UpstreamMessage_senderId;
    opt_field 18 kString UpstreamMessage_topic set_UpstreamMessage_topic;
    opt_field 24 kInt32 UpstreamMessage_msgType set_UpstreamMessage_msgType;
    opt_field 34 kBytes UpstreamMessage_content set_UpstreamMessage_content;
    opt_field 42 kString UpstreamMessage_clientMsgId set_UpstreamMessage_clientMsgId;
    opt_field 48 kInt64 UpstreamMessage_timestamp set_UpstreamMessage_timestamp;
    packed_field 58 kInt64 UpstreamMessage_mentionedUserIds set_UpstreamMessage_mentionedUserIds].

#[export] Instance UpstreamMessage_codec : Codec UpstreamMessage_encode UpstreamMessage_decode.
Proof. refine (schema_codec _ _ UpstreamMessage_fields UpstreamMessage_new UpstreamMessage_unknowns UpstreamMessage_push_unknown UpstreamMessage_switch _ _ _ _ _ _);
  [reflexivity|reflexivity|solve_fields|solve_cases|solve_ready|intros d; unfold UpstreamMessage_switch; solve_switch]. Defined.

Definition UpstreamMessage_cfields : list (cfield UpstreamMessage) := [
    copt "senderId" (cLong false) UpstreamMessage_senderId set_UpstreamMessage_senderId;
    copt "topic" cString UpstreamMessage_topic set_UpstreamMessage_topic;
    copt "msgType" cInt32 UpstreamMessage_msgType set_UpstreamMessage_msgType;
    copt "content" cBytes UpstreamMessage_content set_UpstreamMessage_content;
    copt "clientMsgId" cString UpstreamMessage_clientMsgId set_UpstreamMessage_clientMsgId;
    copt "timestamp" (cLong false) UpstreamMessage_timestamp set_UpstreamMessage_timestamp;
    clongs "mentionedUserIds" false UpstreamMessage_mentionedUserIds set_UpstreamMessage_mentionedUserIds].

#[export] Instance UpstreamMessage_converter : Converter UpstreamMessage_codec UpstreamMessage_toObject UpstreamMessage_fromObject UpstreamMessage_verify (λ _, True).
Proof. apply (schema_converter _ _ _ _ _ ".api.im.v1.UpstreamMessage" UpstreamMessage_cfields UpstreamMessage_new UpstreamMessage_unknowns);
  [reflexivity..|solve_names|solve_cfields|solve_untouched|solve_heights|intros v [Hok _]; revert Hok; unfold schema_ok, UpstreamMessage_fields; solve_normals|solve_known|solve_copy|reflexivity]. Qed.

End Classes.
