(* ===== verification/ProtoPacketProps.v ===== *)
(** * The [Packet] codec is correct

    The fourteen payloads of a packet as a sum type, and the theorems about
    the frame: what is sent is what is received, decoding any byte sequence
    terminates, a decoded packet carries at most one payload, and the nesting
    depth is bounded. *)

From Stdlib Require Strings.Byte.
From S2P Require Import Prelude JsNum ProtoRuntime ProtoLaws ProtoSchema ProtoMessages ProtoCodecs ProtoPacket ProtoWire.
Open Scope Z_scope.

(** ** The payload of a packet *)

Inductive Payload :=
| P_authReq (v : AuthRequest)
| P_authResp (v : AuthResponse)
| P_sendReq (v : SendMessageRequest)
| P_sendReply (v : SendMessageReply)
| P_pullReq (v : PullRequest)
| P_pullReply (v : PullReply)
| P_ackReq (v : AckRequest)
| P_notify (v : MessagePush)
| P_readReceipt (v : ReadReceipt)
| P_deliveryReceipt (v : DeliveryReceipt)
| P_sendReceipt (v : SendReceipt)
| P_recallReq (v : RecallRequest)
| P_recallNotice (v : RecallNotice)
| P_error (v : ErrorResponse).

Definition payload_name (p : Payload) : string :=
  match p with
  | P_authReq v => "authReq"
  | P_authResp v => "authResp"
  | P_sendReq v => "sendReq"
  | P_sendReply v => "sendReply"
  | P_pullReq v => "pullReq"
  | P_pullReply v => "pullReply"
  | P_ackReq v => "ackReq"
  | P_notify v => "notify"
  | P_readReceipt v => "readReceipt"
  | P_deliveryReceipt v => "deliveryReceipt"
  | P_sendReceipt v => "sendReceipt"
  | P_recallReq v => "recallReq"
  | P_recallNotice v => "recallNotice"
  | P_error v => "error"
  end%string.

Definition payload_tag (p : Payload) : Z :=
  match p with
  | P_authReq v => 82
  | P_authResp v => 90
  | P_sendReq v => 162
  | P_sendReply v => 170
  | P_pullReq v => 242
  | P_pullReply v => 250
  | P_ackReq v => 322
  | P_notify v => 402
  | P_readReceipt v => 482
  | P_deliveryReceipt v => 562
  | P_sendReceipt v => 642
  | P_recallReq v => 722
  | P_recallNotice v => 802
  | P_error v => 794
  end.

(** [message.x = v]. *)
Definition payload_set (p : Payload) (m : Packet) : Packet :=
  match p with
  | P_authReq v => set_Packet_authReq (Some v) m
  | P_authResp v => set_Packet_authResp (Some v) m
  | P_sendReq v => set_Packet_sendReq (Some v) m
  | P_sendReply v => set_Packet_sendReply (Some v) m
  | P_pullReq v => set_Packet_pullReq (Some v) m
  | P_pullReply v => set_Packet_pullReply (Some v) m
  | P_ackReq v => set_Packet_ackReq (Some v) m
  | P_notify v => set_Packet_notify (Some v) m
  | P_readReceipt v => set_Packet_readReceipt (Some v) m
  | P_deliveryReceipt v => set_Packet_deliveryReceipt (Some v) m
  | P_sendReceipt v => set_Packet_sendReceipt (Some v) m
  | P_recallReq v => set_Packet_recallReq (Some v) m
  | P_recallNotice v => set_Packet_recallNotice (Some v) m
  | P_error v => set_Packet_error (Some v) m
  end.

(** [Packet.create({cmd, seq, x: v})], as [RealtimeClient] builds packets. *)
Definition packet_of (cmd : option Z) (seq : option long) (p : option Payload) : Packet :=
  let m := mkPacket cmd seq None None None None None None None None None None None None None None None in
  match p with Some p => payload_set p m | None => m end.

(** Is the field [f] of the oneof set? *)
Definition Packet_has (f : string) (m : Packet) : bool :=
  if String.eqb f "authReq" then bool_decide (is_Some (Packet_authReq m))
  else if String.eqb f "authResp" then bool_decide (is_Some (Packet_authResp m))
  else if String.eqb f "sendReq" then bool_decide (is_Some (Packet_sendReq m))
  else if String.eqb f "sendReply" then bool_decide (is_Some (Packet_sendReply m))
  else if String.eqb f "pullReq" then bool_decide (is_Some (Packet_pullReq m))
  else if String.eqb f "pullReply" then bool_decide (is_Some (Packet_pullReply m))
  else if String.eqb f "ackReq" then bool_decide (is_Some (Packet_ackReq m))
  else if String.eqb f "notify" then bool_decide (is_Some (Packet_notify m))
  else if String.eqb f "readReceipt" then bool_decide (is_Some (Packet_readReceipt m))
  else if String.eqb f "deliveryReceipt" then bool_decide (is_Some (Packet_deliveryReceipt m))
  else if String.eqb f "sendReceipt" then bool_decide (is_Some (Packet_sendReceipt m))
  else if String.eqb f "recallReq" then bool_decide (is_Some (Packet_recallReq m))
  else if String.eqb f "recallNotice" then bool_decide (is_Some (Packet_recallNotice m))
  else if String.eqb f "error" then bool_decide (is_Some (Packet_error m))
  else false.

(** The payload fields that are set. *)
Definition Packet_payloads (m : Packet) : list string :=
  base.filter (λ f, Packet_has f m = true) Packet_oneOfFields.

(** A payload is at most two levels of messages. *)
Ltac payload_height := match goal with H : 2 ≤ ?l |- _ ≤ ?l => transitivity 2; [vm_compute; discriminate|exact H] end.

Section Packet.
Context `{RL : RuntimeLaws}.

(** Values in the ranges of their wire types, and a payload a length prefix
    can describe. *)
Definition payload_bytes (p : Payload) : bytes :=
  match p with
  | P_authReq v => c_bytes v
  | P_authResp v => c_bytes v
  | P_sendReq v => c_bytes v
  | P_sendReply v => c_bytes v
  | P_pullReq v => c_bytes v
  | P_pullReply v => c_bytes v
  | P_ackReq v => c_bytes v
  | P_notify v => c_bytes v
  | P_readReceipt v => c_bytes v
  | P_deliveryReceipt v => c_bytes v
  | P_sendReceipt v => c_bytes v
  | P_recallReq v => c_bytes v
  | P_recallNotice v => c_bytes v
  | P_error v => c_bytes v
  end.

Definition payload_ok (p : Payload) : Prop :=
  len_ok (payload_bytes p) ∧
  match p with
  | P_authReq v => c_ok v
  | P_authResp v => c_ok v
  | P_sendReq v => c_ok v
  | P_sendReply v => c_ok v
  | P_pullReq v => c_ok v
  | P_pullReply v => c_ok v
  | P_ackReq v => c_ok v
  | P_notify v => c_ok v
  | P_readReceipt v => c_ok v
  | P_deliveryReceipt v => c_ok v
  | P_sendReceipt v => c_ok v
  | P_recallReq v => c_ok v
  | P_recallNotice v => c_ok v
  | P_error v => c_ok v
  end.

Definition payload_norm (p : Payload) : Payload :=
  match p with
  | P_authReq v => P_authReq (c_norm v)
  | P_authResp v => P_authResp (c_norm v)
  | P_sendReq v => P_sendReq (c_norm v)
  | P_sendReply v => P_sendReply (c_norm v)
  | P_pullReq v => P_pullReq (c_norm v)
  | P_pullReply v => P_pullReply (c_norm v)
  | P_ackReq v => P_ackReq (c_norm v)
  | P_notify v => P_notify (c_norm v)
  | P_readReceipt v => P_readReceipt (c_norm v)
  | P_deliveryReceipt v => P_deliveryReceipt (c_norm v)
  | P_sendReceipt v => P_sendReceipt (c_norm v)
  | P_recallReq v => P_recallReq (c_norm v)
  | P_recallNotice v => P_recallNotice (c_norm v)
  | P_error v => P_error (c_norm v)
  end.

Definition packet_ok (cmd : option Z) (seq : option long) (p : option Payload) : Prop :=
  opt_all int32_ok cmd ∧ opt_all uint64_ok seq ∧ opt_all payload_ok p.

Definition payload_piece (p : Payload) : piece Packet :=
  (msg_bytes (payload_tag p) (payload_bytes p),
   λ m, Packet_set_payload (payload_name p) (payload_set (payload_norm p) m)).

Definition packet_pieces (cmd : option Z) (seq : option long) (p : option Payload) : list (piece Packet) :=
  opt_piece 8 int32_bytes id int32_present set_Packet_cmd cmd ++
  opt_piece 16 uint64_bytes (canon64 true) long_nonzero set_Packet_seq seq ++
  match p with Some p => [payload_piece p] | None => [] end.

(** ** The oneof *)

Lemma Packet_has_delete f g m :
  Packet_has g (Packet_delete f m) = Packet_has g m && negb (String.eqb f g).
Proof.
  unfold Packet_has, Packet_delete.
  repeat match goal with
  | |- context [String.eqb g ?s] => destruct (String.eqb_spec g s) as [->|?]
  end; (repeat match goal with |- context [String.eqb f ?s] => destruct (String.eqb_spec f s) as [->|?] end;
    simpl; by rewrite ?andb_true_r, ?andb_false_r).
Qed.

Lemma Packet_has_clear l g m :
  Packet_has g (foldl (λ m f, Packet_delete f m) m l) = Packet_has g m && negb (bool_decide (g ∈ l)).
Proof.
  revert m. induction l as [|f l IH]; intros m; csimpl; [by rewrite andb_true_r|].
  rewrite IH, Packet_has_delete, <-andb_assoc. f_equal.
  destruct (String.eqb_spec f g) as [->|Hne]; simpl.
  - rewrite bool_decide_eq_true_2 by set_solver. done.
  - f_equal. apply bool_decide_ext. set_solver.
Qed.

(** Setting a payload leaves no other payload. *)
Lemma Packet_set_payload_has name g m :
  g ∈ Packet_oneOfFields → g ≠ name → Packet_has g (Packet_set_payload name m) = false.
Proof.
  intros Hg Hne. unfold Packet_set_payload. rewrite Packet_has_clear, bool_decide_eq_true_2; [apply andb_false_r|].
  by apply oneOfSetter_spec.
Qed.

Definition one_payload (m : Packet) : Prop :=
  ∃ name, ∀ g, g ∈ Packet_oneOfFields → g ≠ name → Packet_has g m = false.

Lemma set_payload_one name m : one_payload (Packet_set_payload name m).
Proof. exists name. intros g. apply Packet_set_payload_has. Qed.

Lemma one_payload_length m : one_payload m → (length (Packet_payloads m) ≤ 1)%nat.
Proof.
  intros [name H]. unfold Packet_payloads.
  assert (Hnd : NoDup Packet_oneOfFields) by (apply (bool_decide_unpack _); vm_compute; exact I).
  apply (NoDup_filter (λ f, Packet_has f m = true)) in Hnd.
  assert (∀ g, g ∈ base.filter (λ f, Packet_has f m = true) Packet_oneOfFields → g = name) as Hall.
  { intros g [Hg1 Hg2]%list_elem_of_filter. destruct (decide (g = name)); [done|]. by rewrite H in Hg1. }
  destruct (base.filter _ _) as [|a [|b l]]; simpl; [lia|lia|]. exfalso.
  apply NoDup_cons in Hnd as [Hn _]. apply Hn. rewrite (Hall a), (Hall b) by set_solver. set_solver.
Qed.

(** The payload set last survives the clearing of the others. *)
Lemma Packet_set_payload_keeps cmd seq p :
  Packet_set_payload (payload_name p) (packet_of cmd seq (Some p)) = packet_of cmd seq (Some p).
Proof.
  unfold Packet_set_payload.
  assert (∀ l, (∀ f, f ∈ l → f ∈ Packet_oneOfFields ∧ f ≠ payload_name p) →
    foldl (λ m f, Packet_delete f m) (packet_of cmd seq (Some p)) l = packet_of cmd seq (Some p)) as H.
  { induction l as [|f l IH]; intros Hl; [done|]. cbn [foldl].
    replace (Packet_delete f (packet_of cmd seq (Some p))) with (packet_of cmd seq (Some p)).
    - apply IH. set_solver.
    - destruct (Hl f ltac:(set_solver)) as [Hf Hne]. unfold Packet_oneOfFields in Hf.
      repeat (apply elem_of_cons in Hf as [->|Hf]; [destruct p; first [reflexivity|exfalso; apply Hne; reflexivity]|]). inversion Hf. }
  apply H. intros f. apply oneOfSetter_spec.
Qed.

(** ** Encoding and decoding a frame *)

(** The bytes of the payload field, as [Packet.encode] writes them. *)
Definition payload_encode (p : Payload) : Z → Writer → res Writer :=
  match p with
  | P_authReq v => λ d, nested 82 AuthRequest_encode d v
  | P_authResp v => λ d, nested 90 AuthResponse_encode d v
  | P_sendReq v => λ d, nested 162 SendMessageRequest_encode d v
  | P_sendReply v => λ d, nested 170 SendMessageReply_encode d v
  | P_pullReq v => λ d, nested 242 PullRequest_encode d v
  | P_pullReply v => λ d, nested 250 PullReply_encode d v
  | P_ackReq v => λ d, nested 322 AckRequest_encode d v
  | P_notify v => λ d, nested 402 MessagePush_encode d v
  | P_readReceipt v => λ d, nested 482 ReadReceipt_encode d v
  | P_deliveryReceipt v => λ d, nested 562 DeliveryReceipt_encode d v
  | P_sendReceipt v => λ d, nested 642 SendReceipt_encode d v
  | P_recallReq v => λ d, nested 722 RecallRequest_encode d v
  | P_recallNotice v => λ d, nested 802 RecallNotice_encode d v
  | P_error v => λ d, nested 794 ErrorResponse_encode d v
  end.

Lemma payload_appends p : payload_ok p →
  appends (payload_encode p 0) (msg_bytes (payload_tag p) (payload_bytes p)).
Proof.
  intros [Hlen Hok]. destruct recursionLimits as [Hlim _].
  destruct p; (apply msg_appends; [by split|payload_height]).
Qed.

(** [Packet.encode] writes the command, the sequence number, then the payload. *)
Lemma Packet_encode_eq cmd seq p w :
  Packet_encode (packet_of cmd seq p) (Some w) None =
  (let w := own seq (λ v w, W_uint64 v (W_uint32 16 w)) (own cmd (λ v w, W_int32 v (W_uint32 8 w)) w) in
   match p with Some p => payload_encode p 0 w | None => Ok w end).
Proof.
  destruct recursionLimits as [Hlim _]. unfold Packet_encode, depth_check. cbn [from_option id].
  rewrite (proj2 (Z.ltb_ge _ _)) by lia.
  destruct p as [[]|]; cbn -[nested own Z.add]; try done; by destruct (nested _ _ _ _ _).
Qed.

Lemma packet_appends cmd seq p :
  packet_ok cmd seq p →
  appends (λ w, Packet_encode (packet_of cmd seq p) (Some w) None) (pieces_bytes (packet_pieces cmd seq p)).
Proof.
  intros (_ & _ & Hp) w b st Hw. rewrite Packet_encode_eq. unfold packet_pieces.
  rewrite !pieces_bytes_app, !opt_piece_bytes, !app_assoc. cbv zeta.
  assert (Hv : W_view (own seq (λ v w, W_uint64 v (W_uint32 16 w)) (own cmd (λ v w, W_int32 v (W_uint32 8 w)) w))
    = ((b ++ opt_bytes 8 int32_bytes cmd) ++ opt_bytes 16 uint64_bytes seq) :: st) by solve_view.
  destruct p as [p|].
  - destruct (payload_appends p (Hp p eq_refl) _ _ _ Hv) as (w' & -> & Hv').
    exists w'. split; [done|]. rewrite Hv'. unfold pieces_bytes. simpl. by rewrite app_nil_r.
  - rewrite app_nil_r. by eexists.
Qed.

Lemma dec_msg_fresh {M V} (dec : decoder V) depth get (set : V → M → M) m r v r2 :
  get m = None →
  (let! '(len, r1) := R_uint32 r in dec r1 (Some len) None (Some (depth + 1)) None) = Ok (v, r2) →
  dec_msg dec depth get set m r = Ok (set v m, r2).
Proof.
  intros Hg. unfold dec_msg. rewrite Hg. destruct (R_uint32 r) as [[len r1]| |]; simpl; [|done|done].
  by intros ->.
Qed.

Lemma payload_piece_ok p cmd seq :
  payload_ok p → piece_ok (Packet_switch 0) (packet_of cmd seq None) (payload_piece p).
Proof.
  intros [Hlen Hok]. destruct recursionLimits as [_ Hlim].
  destruct p as [v|v|v|v|v|v|v|v|v|v|v|v|v|v]; simpl in Hok;
    unfold payload_piece; cbn [payload_tag payload_bytes];
    (eapply (msg_bytes_ok _ _ _ 0); [solve_tag|exact Hlen|apply c_decodes; [exact Hok|payload_height]|]);
    intros r r2 Hr; (etransitivity;
    [refine (f_equal Some (dec_msg_fresh _ 0 _ _ _ _ _ _ _ Hr)); reflexivity|reflexivity]).
Qed.

Lemma packet_pieces_ok cmd seq p :
  packet_ok cmd seq p → pieces_ok (Packet_switch 0) Packet_new (packet_pieces cmd seq p).
Proof.
  intros (Hc & Hs & Hp). unfold packet_pieces. rewrite !pieces_ok_app. split; [solve_pieces|]. split; [solve_pieces|].
  rewrite (opt_piece_run 8), (opt_piece_run 16) by reflexivity.
  destruct p as [p|]; [|done]. split; [|done]. exact (payload_piece_ok p _ _ (Hp p eq_refl)).
Qed.

(** The packet a peer's decoder returns: default values are absent, 64-bit
    values in the runtime's representation. *)
Definition packet_norm (cmd : option Z) (seq : option long) (p : option Payload) : Packet :=
  packet_of (norm_opt id int32_present cmd) (norm_opt (canon64 true) long_nonzero seq) (payload_norm <$> p).

Lemma packet_pieces_run cmd seq p :
  pieces_run (packet_pieces cmd seq p) Packet_new = packet_norm cmd seq p.
Proof.
  unfold packet_pieces. rewrite !pieces_run_app, (opt_piece_run 8), (opt_piece_run 16) by reflexivity.
  destruct p as [p|]; [|done]. unfold packet_norm. cbn [fmap option_fmap option_map].
  rewrite <-Packet_set_payload_keeps. by destruct p.
Qed.

Lemma packet_survives cmd seq p :
  packet_ok cmd seq p →
  ∃ w, Packet_encode (packet_of cmd seq p) None None = Ok w ∧
       decode_bytes Packet_decode (W_finish w) = Ok (packet_norm cmd seq p).
Proof.
  intros Hok. destruct (packet_appends cmd seq p Hok W_create [] [] W_create_view) as (w & Hw & Hv).
  exists w. split; [exact Hw|]. rewrite (W_finish_view _ _ Hv). simpl. unfold decode_bytes, Packet_decode.
  destruct recursionLimits as [_ Hlim].
  set (bs := pieces_bytes (packet_pieces cmd seq p)).
  destruct (decode_with_pieces (Packet_switch 0) Packet_push_unknown 0 (packet_pieces cmd seq p)
    Packet_new None None (R_create bs) []) as (r' & H & _).
  - lia.
  - by apply packet_pieces_ok.
  - unfold R_rest. by rewrite R_create_buf, R_create_pos, app_nil_r.
  - rewrite R_len_buf, R_create_buf, R_create_pos. unfold bs. lia.
  - cbn [from_option id] in *. rewrite H. simpl. by rewrite packet_pieces_run.
Qed.

(** C6: a packet built by the client survives the wire: encoding succeeds, and
    decoding the finished buffer gives the normalised packet back. *)
Theorem Packet_roundtrip cmd seq p :
  packet_ok cmd seq p →
  ∃ w, Packet_encode (packet_of cmd seq p) None None = Ok w ∧
       decode_bytes Packet_decode (W_finish w) = Ok (packet_norm cmd seq p).
Proof. apply packet_survives. Qed.

Lemma Packet_decode_safe : decoder_safe Packet_decode.
Proof.
  intros r0 l0 e0 d0 t0. apply decode_with_safe. unfold Packet_switch. solve_switch.
Qed.

(** C7: decoding a frame terminates, whatever bytes arrive. *)
Theorem Packet_decode_terminates b : decode_bytes Packet_decode b ≠ NoFuel.
Proof.
  unfold decode_bytes. pose proof (Packet_decode_safe (R_create b) None None None None) as H.
  unfold safe in H. by destruct (Packet_decode _ _ _ _ _) as [[? ?]| |].
Qed.

Lemma dec_msg_inv {M V} (I : M → Prop) (dec : decoder V) depth get (set : V → M → M) m r m' r' :
  (∀ v, I (set v m)) → dec_msg dec depth get set m r = Ok (m', r') → I m'.
Proof.
  intros HI. unfold dec_msg. destruct (R_uint32 r) as [[len r1]| |]; simpl; [|done|done].
  destruct (dec _ _ _ _ _) as [[v r2]| |]; simpl; [|done|done]. by intros [= <- _].
Qed.

Lemma Packet_switch_one_payload d f w m r m' r' :
  one_payload m → Packet_switch d f w m r = Some (Ok (m', r')) → one_payload m'.
Proof.
  intros Hm. unfold Packet_switch.
  repeat match goal with
  | |- context [match ?x with _ => _ end] => destruct x; try discriminate
  end;
  intros Heq%switch_when%eq_sym;
  first
  [ refine (dec_msg_inv one_payload _ _ _ _ _ _ _ _ _ Heq); intros v; apply set_payload_one
  | unfold dec_opt in Heq; match type of Heq with res_bind ?c _ = _ => destruct c as [[? ?]| |] end;
      [|discriminate Heq|discriminate Heq]; injection Heq as <- _; destruct Hm as [name Hm]; exists name; exact Hm ].
Qed.

(** C8: a decoded packet has at most one payload, whatever bytes arrive: a later
    member of the oneof replaces an earlier one. *)
Theorem Packet_decode_one_payload b m :
  decode_bytes Packet_decode b = Ok m → (length (Packet_payloads m) ≤ 1)%nat.
Proof.
  unfold decode_bytes. destruct (Packet_decode _ _ _ _ _) as [[m' r']| |] eqn:Heq; simpl; [|done|done].
  intros [= <-]. apply one_payload_length. unfold Packet_decode, decode_with, depth_check in Heq.
  destruct (_ <? _); [done|]. cbn [from_option id] in Heq.
  refine (decode_loop_inv one_payload _ _ _ _ _ _ _ _ _ _ _ _ _ Heq).
  - intros f w m r m1 r1. apply Packet_switch_one_payload.
  - intros bs m [name Hm]. exists name. exact Hm.
  - exists ""%string. intros g _ _. unfold Packet_has. by repeat (destruct (String.eqb g _); [done|]).
Qed.

(** Nesting deeper than the limit is refused by encoder and decoder. *)
Theorem Packet_depth_limit v w d r l e t :
  (util_recursionLimit < d → Packet_encode v w (Some d) = Throw "max depth exceeded") ∧
  (Reader_recursionLimit < d → Packet_decode r l e (Some d) t = Throw "max depth exceeded").
Proof.
  split; intros Hd.
  - unfold Packet_encode, depth_check. cbn [from_option id]. by rewrite (proj2 (Z.ltb_lt _ _)).
  - unfold Packet_decode, decode_with, depth_check. cbn [from_option id]. by rewrite (proj2 (Z.ltb_lt _ _)).
Qed.

End Packet.

(** ** The theorems at a concrete packet and the executable runtime *)

(** The values of a concrete message are in range. *)
Ltac in_range :=
  first [exact I | vm_compute; congruence | split; vm_compute; congruence].

Ltac concrete_field :=
  first
    [ intros ? [=]; subst; in_range
    | split; [repeat (apply Forall_cons; split); try apply Forall_nil_2; in_range|vm_compute; reflexivity]
    | repeat (apply Forall_cons; split); try apply Forall_nil_2; in_range ].

Ltac concrete_message :=
  split; [repeat (apply Forall_cons; split); try apply Forall_nil_2; concrete_field|reflexivity].

Section Example.
#[local] Existing Instance wire.
#[local] Existing Instance wire_laws.

(** A text message that mentions user 5, at the largest sequence number. *)
Definition example_send : Payload :=
  P_sendReq (mkSendMessageRequest (Some "p2p_1_2"%string) (Some 1) (Some [Byte.x68; Byte.x69])
    (Some "c-1"%string) [LNum 5; LNum (- 1)] None).

Definition example_seq : long := LLong (- 1) (- 1) true.

Lemma Packet_roundtrip_witness :
  packet_ok (Some CMD_PUBLISH) (Some example_seq) (Some example_send) ∧
  ∃ w, Packet_encode (packet_of (Some CMD_PUBLISH) (Some example_seq) (Some example_send)) None None = Ok w ∧
       decode_bytes Packet_decode (W_finish w) = Ok (packet_norm (Some CMD_PUBLISH) (Some example_seq) (Some example_send)).
Proof.
  assert (Hok : packet_ok (Some CMD_PUBLISH) (Some example_seq) (Some example_send)).
  { split; [intros v [= <-]; vm_compute; split; congruence|].
    split; [intros v [= <-]; vm_compute; split; congruence|].
    intros v [= <-]. split; [vm_compute; reflexivity|concrete_message]. }
  split; [exact Hok|]. apply (Packet_roundtrip _ _ _ Hok).
Defined.

(** A length that runs past the end of the frame is an error, not a loop. *)
Lemma Packet_decode_terminates_witness :
  decode_bytes Packet_decode [Byte.xc2; Byte.x02; Byte.x7f] ≠ NoFuel.
Proof. apply Packet_decode_terminates. Defined.

(** Two payloads on the wire: an acknowledgement, then an error. *)
Definition example_two : bytes :=
  [Byte.xc2; Byte.x02; Byte.x00; Byte.x9a; Byte.x06; Byte.x00].

Lemma Packet_decode_one_payload_witness :
  ∃ m, decode_bytes Packet_decode example_two = Ok m ∧ Packet_payloads m = ["error"%string] ∧
       (length (Packet_payloads m) ≤ 1)%nat.
Proof.
  eexists. split; [vm_compute; reflexivity|]. split; [vm_compute; reflexivity|].
  apply (Packet_decode_one_payload example_two). vm_compute. reflexivity.
Defined.
End Example.
