(* ===== verification/ProtoConvertProps.v ===== *)
(** * The conversions between packets and plain objects are correct

    What [toObject] prints, [verify] accepts and [fromObject] reads back, for
    every packet a decoder can return. *)

From S2P Require Import Prelude JsNum JsMap ProtoRuntime ProtoLaws ProtoMessages ProtoPacket ProtoWire Topic.
From S2P Require Import ProtoObjects ProtoConvert ProtoConvertLaws ProtoSchema ProtoSchemaConvert ProtoCodecs ProtoPacketProps.
From Stdlib Require Import Ascii.
Open Scope Z_scope.

Section Classes.
Context `{RL : RuntimeLaws} `{CL : ConversionLaws}.

(** The enumeration values of a packet are known. *)
Definition payload_known (p : Payload) : Prop :=
  match p with P_sendReq v => opt_all (λ z, z ∈ MsgType.*1) (SendMessageRequest_msgType v) | _ => True end.

Definition packet_known (cmd : option Z) (p : option Payload) : Prop :=
  opt_all (λ z, z ∈ Command_values.*1) cmd ∧ opt_all payload_known p.

(** ** [Packet] *)

Lemma from_field_absent {M V} object f from (set : option V → M → M) m :
  prop object f = None → from_field object f from set m = Ok m.
Proof. intros H. unfold from_field. by rewrite H. Qed.

Lemma from_field_message {M V} object name f (fromObject : jsval → option Z → res V) depth (set : option V → M → M) m l x :
  prop object f = Some (VObj l) → fromObject (VObj l) (Some (depth + 1)) = Ok x →
  from_field object f (from_message name f fromObject depth) set m = Ok (set (Some x) m).
Proof. intros H Hx. unfold from_field, from_message, from_nested. rewrite H. cbn [isObject negb]. by rewrite Hx. Qed.

Lemma payloads_absent l seen f test tests :
  prop (VObj l) f = None → verify_payloads (VObj l) seen ((f, test) :: tests) = verify_payloads (VObj l) seen tests.
Proof. intros H. cbn [verify_payloads]. by rewrite H. Qed.

Lemma payloads_present l f v test tests :
  prop (VObj l) f = Some v → test v = None →
  verify_payloads (VObj l) false ((f, test) :: tests) = verify_payloads (VObj l) true tests.
Proof. intros H Ht. cbn [verify_payloads]. by rewrite H, Ht. Qed.

Lemma nested_accepts f (verify : jsval → option Z → option string) d v :
  verify v (Some (d + 1)) = None → verify_nested f verify d v = None.
Proof. intros H. unfold verify_nested. by rewrite H. Qed.

End Classes.

Ltac absent := prop_walk; try (destruct (defaults _)); reflexivity.

(** The fields of a concrete packet. *)
Ltac packet_fields :=
  cbn [fmap option_fmap option_map Packet_cmd Packet_seq Packet_authReq Packet_authResp Packet_sendReq Packet_sendReply Packet_pullReq
       Packet_pullReply Packet_ackReq Packet_notify Packet_readReceipt Packet_deliveryReceipt Packet_sendReceipt Packet_recallReq
       Packet_recallNotice Packet_error put_nested res_bind set_Packet_authReq set_Packet_authResp set_Packet_sendReq
       set_Packet_sendReply set_Packet_pullReq set_Packet_pullReply set_Packet_ackReq set_Packet_notify set_Packet_readReceipt
       set_Packet_deliveryReceipt set_Packet_sendReceipt set_Packet_recallReq set_Packet_recallNotice set_Packet_error].

(** The packet whose payload is converted by [H]. *)
Ltac packet_case H :=
  let l := fresh "l" in let H1 := fresh in let H2 := fresh in let H3 := fresh in
  destruct H as (l & H1 & H2 & H3);
  unfold converts, Packet_toObject; rewrite to_object_enter by done;
  unfold packet_norm, packet_of, payload_norm, payload_set;
  packet_fields;
  rewrite H1; cbn [res_bind]; eexists; split; [reflexivity|]; split;
  [ intros Ho; unfold Packet_fromObject; rewrite from_object_enter by done; cbv zeta;
    do 2 from_step;
    repeat first
      [ erewrite from_field_message; [|prop_walk; reflexivity|by apply H2]; cbn [res_bind]
      | rewrite from_field_absent by absent; cbn [res_bind] ];
    reflexivity
  | intros Ho [Hc Hp]; unfold Packet_verify; rewrite verify_object_enter by done;
    do 2 verify_step;
    repeat first
      [ rewrite payloads_absent by absent
      | erewrite payloads_present; [|prop_walk; reflexivity|apply nested_accepts, H3; [exact Ho|first [exact I|exact (Hp _ eq_refl)]]] ];
    reflexivity ].

Section Packet.
Context `{RL : RuntimeLaws} `{CL : ConversionLaws}.

(** A packet without payload. *)
Lemma packet_bare cmd seq o : 0 ≤ util_recursionLimit →
  converts Packet_toObject Packet_fromObject Packet_verify o 0 (packet_norm cmd seq None) (packet_known cmd None).
Proof.
  intros Hd. unfold converts, Packet_toObject. rewrite to_object_enter by done.
  unfold packet_norm, packet_of. packet_fields. eexists. split; [reflexivity|]. split.
  - intros Ho. unfold Packet_fromObject. rewrite from_object_enter by done. cbv zeta. do 2 from_step.
    repeat (rewrite from_field_absent by absent; cbn [res_bind]). reflexivity.
  - intros Ho [Hc _]. unfold Packet_verify. rewrite verify_object_enter by done. do 2 verify_step.
    repeat rewrite payloads_absent by absent. reflexivity.
Qed.

Lemma packet_converts cmd seq p o : 2 ≤ util_recursionLimit → packet_ok cmd seq p →
  converts Packet_toObject Packet_fromObject Packet_verify o 0 (packet_norm cmd seq p) (packet_known cmd p).
Proof.
  intros Hlim (Hcmd & Hseq & Hpay). assert (Hd : 0 ≤ util_recursionLimit) by lia.
  destruct p as [p|]; [|by apply packet_bare]. destruct (Hpay p eq_refl) as [_ Hok]. destruct p as [v|v|v|v|v|v|v|v|v|v|v|v|v|v].
  all: cbv iota in Hok; packet_case (conv_ok _ o (0 + 1) Hok ltac:(payload_height)).
Qed.

Lemma object_inj l l' : Ok (VObj l) = Ok (VObj l') → l = l'.
Proof. by intros [= ->]. Qed.

(** What an accepted object looks like. *)
Lemma check_accepts l f test rest v :
  check (VObj l) f test rest = None → (prop (VObj l) f = Some v → test v = None) ∧ rest = None.
Proof. unfold check. destruct (prop (VObj l) f) as [x|]; [|done]. destruct (test x) eqn:E; [done|]. intros ->. naive_solver. Qed.

Lemma payloads_accept l seen tests f test v :
  verify_payloads (VObj l) seen tests = None → (f, test) ∈ tests → prop (VObj l) f = Some v → test v = None.
Proof.
  revert seen. induction tests as [|[g t] tests IH]; intros seen H Hin Hp; [by apply elem_of_nil in Hin|]. cbn [verify_payloads] in H.
  apply elem_of_cons in Hin as [[= -> ->]|Hin].
  - rewrite Hp in H. destruct seen; [done|]. by destruct (t v).
  - destruct (prop (VObj l) g); [|by eapply IH]. destruct seen; [done|]. destruct (t j); [done|]. by eapply IH.
Qed.

Lemma enum_known o table f err dflt l (e : option Z) :
  typed_options o → 0 ∈ table.*1 → printed (VObj l) f (to_enum o table) (norm_opt id int32_present e) dflt →
  (∀ v, prop (VObj l) f = Some v → expect (isEnum table) err v = None) → opt_all (λ z, z ∈ table.*1) e.
Proof.
  intros [He _] H0 Hp Ht z ->. destruct (decide (z = 0)) as [->|Hz]; [done|].
  assert (Hn : norm_opt id int32_present (Some z) = Some z).
  { simpl. unfold int32_present. by rewrite (proj2 (Z.eqb_neq z 0) Hz). }
  unfold printed in Hp. rewrite Hn in Hp. specialize (Ht _ Hp). unfold expect, to_enum in Ht. rewrite He in Ht.
  cbn [isEnum] in Ht. by case_bool_decide.
Qed.

Lemma send_request_known v o d l : d ≤ util_recursionLimit → typed_options o →
  SendMessageRequest_toObject (c_norm v) o (Some d) = Ok (VObj l) →
  SendMessageRequest_verify (VObj l) (Some d) = None → payload_known (P_sendReq v).
Proof.
  intros Hd Ho. unfold SendMessageRequest_toObject. rewrite to_object_enter by done. cbn [res_bind]. intros <-%object_inj.
  unfold SendMessageRequest_verify. rewrite verify_object_enter by done. intros Hv.
  match type of Hv with check (VObj ?l) _ _ _ = None => eapply (enum_known o MsgType "msgType" _ _ l) end; [done|by left| |].
  - unfold printed. prop_walk. reflexivity.
  - intros x. destruct (check_accepts _ _ _ _ x Hv) as [_ Hv1]. exact (proj1 (check_accepts _ _ _ _ x Hv1)).
Qed.

Lemma bind_ok {A B} (r : res A) (k : A → res B) y : res_bind r k = Ok y → ∃ x, r = Ok x ∧ k x = Ok y.
Proof. destruct r; [eauto|done..]. Qed.

(** Adding a message field leaves the others alone. *)
Lemma nested_others {V} o group f (toObject : V → Options → option Z → res jsval) d x l l' k :
  put_nested o group f toObject d x l = Ok l' → f ≠ k → group ≠ k → prop (VObj l') k = prop (VObj l) k.
Proof.
  intros H Hf Hg. destruct x as [x|]; [|by injection H as <-]. cbn [put_nested] in H.
  apply bind_ok in H as (v & _ & [= <-]). rewrite prop_oneof by done. by apply prop_put_ne.
Qed.

Lemma nested_own {V} o group f (toObject : V → Options → option Z → res jsval) d x l l' :
  put_nested o group f toObject d (Some x) l = Ok l' → group ≠ f → ∃ v, toObject x o (Some (d + 1)) = Ok v ∧
    (v ≠ VNull → prop (VObj l') f = Some v).
Proof.
  intros H Hg. cbn [put_nested] in H. apply bind_ok in H as (v & Hv & [= <-]). exists v. split; [done|].
  intros Hn. rewrite prop_oneof by done. by apply prop_put_eq.
Qed.

(** The fields of the object of a packet. *)
Lemma packet_object m o l : 0 ≤ util_recursionLimit → Packet_toObject m o (Some 0) = Ok (VObj l) →
  (∃ dflt, printed (VObj l) "cmd" (to_enum o Command_values) (Packet_cmd m) dflt) ∧
  (∀ rq, Packet_sendReq m = Some rq → ∃ v, SendMessageRequest_toObject rq o (Some (0 + 1)) = Ok v ∧
     (v ≠ VNull → prop (VObj l) "sendReq" = Some v)).
Proof.
  intros Hd. unfold Packet_toObject. rewrite to_object_enter by done. cbv zeta. intros (l' & Ht & <-%object_inj)%bind_ok.
  apply bind_ok in Ht as (l1 & H1 & Ht). apply bind_ok in Ht as (l2 & H2 & Ht).
  apply bind_ok in Ht as (l3 & H3 & Ht). apply bind_ok in Ht as (l4 & H4 & Ht). apply bind_ok in Ht as (l5 & H5 & Ht).
  apply bind_ok in Ht as (l6 & H6 & Ht). apply bind_ok in Ht as (l7 & H7 & Ht). apply bind_ok in Ht as (l8 & H8 & Ht).
  apply bind_ok in Ht as (l9 & H9 & Ht). apply bind_ok in Ht as (l10 & H10 & Ht). apply bind_ok in Ht as (l11 & H11 & Ht).
  apply bind_ok in Ht as (l12 & H12 & Ht). apply bind_ok in Ht as (l13 & H13 & Ht). apply bind_ok in Ht as (l14 & H14 & Ht).
  injection Ht as <-.
  assert (Hlast : ∀ k, k ≠ "payload"%string → k ∈ ["cmd"; "sendReq"]%string → prop (VObj l14) k = prop (VObj l3) k).
  { intros k Hk Hin. 
    rewrite (nested_others _ _ _ _ _ _ _ _ k H14), (nested_others _ _ _ _ _ _ _ _ k H13), (nested_others _ _ _ _ _ _ _ _ k H12),
      (nested_others _ _ _ _ _ _ _ _ k H11), (nested_others _ _ _ _ _ _ _ _ k H10), (nested_others _ _ _ _ _ _ _ _ k H9),
      (nested_others _ _ _ _ _ _ _ _ k H8), (nested_others _ _ _ _ _ _ _ _ k H7), (nested_others _ _ _ _ _ _ _ _ k H6),
      (nested_others _ _ _ _ _ _ _ _ k H5), (nested_others _ _ _ _ _ _ _ _ k H4); [done|set_solver..]. }
  split.
  - eexists. unfold printed. rewrite Hlast by (done || set_solver).
    rewrite (nested_others _ _ _ _ _ _ _ _ _ H3), (nested_others _ _ _ _ _ _ _ _ _ H2), (nested_others _ _ _ _ _ _ _ _ _ H1) by done.
    prop_walk. reflexivity.
  - intros rq Hrq. rewrite Hrq in H3. destruct (nested_own _ _ _ _ _ _ _ _ H3) as (v & Hv & Hp); [done|].
    exists v. split; [done|]. rewrite Hlast by (done || set_solver). done.
Qed.

Lemma packet_accepted cmd seq p o l : 2 ≤ util_recursionLimit → packet_ok cmd seq p → typed_options o →
  Packet_toObject (packet_norm cmd seq p) o (Some 0) = Ok (VObj l) → Packet_verify (VObj l) (Some 0) = None → packet_known cmd p.
Proof.
  intros Hlim (_ & _ & Hok) Ho Ht Hv. unfold Packet_verify in Hv. rewrite verify_object_enter in Hv by lia.
  destruct (packet_object _ o l ltac:(lia) Ht) as [[dflt Hc] Hs].
  pose proof (λ x, proj1 (check_accepts _ _ _ _ x Hv)) as Hcmd.
  apply (check_accepts _ _ _ _ VNull) in Hv as [_ Hv]. apply (check_accepts _ _ _ _ VNull) in Hv as [_ Hv].
  assert (Hc' : printed (VObj l) "cmd" (to_enum o Command_values) (norm_opt id int32_present cmd) dflt)
    by (by destruct p as [[]|]).
  split; [eapply (enum_known o Command_values "cmd" _ _ l); [done|by left|exact Hc'|exact Hcmd]|].
  intros q ->. destruct q as [| |v| | | | | | | | | | |]; try exact I.
  destruct (Hs _ eq_refl) as (x & Hx & Hp).
  assert (Hd1 : 0 + 1 ≤ util_recursionLimit) by lia.
  destruct (Hok _ eq_refl) as [_ Hv']. destruct (conv_ok v o (0 + 1) Hv' ltac:(payload_height)) as (l' & Hl' & _).
  rewrite Hl' in Hx. injection Hx as <-. specialize (Hp ltac:(discriminate)).
  apply (send_request_known v o (0 + 1) l' Hd1 Ho Hl').
  assert (Hn : verify_nested "sendReq" SendMessageRequest_verify 0 (VObj l') = None).
  { eapply payloads_accept; [exact Hv| |exact Hp]. do 2 right. left. }
  unfold verify_nested in Hn. by destruct (SendMessageRequest_verify (VObj l') (Some (0 + 1))).
Qed.

(** C31: what [toObject] makes of the packet a decoder returns for the encoding
    of a command, a sequence number and a payload in range, [fromObject] turns
    back into the same packet, under the options that keep 64-bit values exact
    ([exact_options]); enumerations as names or numbers, bytes as base64, arrays
    or buffers, with or without defaults. *)
Theorem packet_object_roundtrip cmd seq p o :
  packet_ok cmd seq p → exact_options o →
  ∃ v, Packet_toObject (packet_norm cmd seq p) o None = Ok v ∧ Packet_fromObject v None = Ok (packet_norm cmd seq p).
Proof.
  intros Hok Ho. destruct recursionLimits as [Hlim _].
  destruct (packet_converts cmd seq p o Hlim Hok) as (l & H1 & H2 & _). exists (VObj l). split; [exact H1|exact (H2 Ho)].
Qed.

(** C30: [verify] is the type check of plain objects: under the options that keep
    every field at its own type ([typed_options]), it accepts the object of the
    packet decoded from fields in range exactly when the values of its
    enumerations are known ones. *)
Theorem packet_verify_known cmd seq p o :
  packet_ok cmd seq p → typed_options o →
  ∃ v, Packet_toObject (packet_norm cmd seq p) o None = Ok v ∧ (Packet_verify v None = None ↔ packet_known cmd p).
Proof.
  intros Hok Ho. destruct recursionLimits as [Hlim _].
  destruct (packet_converts cmd seq p o Hlim Hok) as (l & H1 & _ & H3). exists (VObj l). split; [exact H1|].
  split; [|exact (H3 Ho)]. by apply (packet_accepted cmd seq p o l).
Qed.

End Packet.

(** ** The theorems at concrete packets *)

Section Example.
#[local] Existing Instance wire.
#[local] Existing Instance wire_laws.

Definition parse_dec (s : string) : Z :=
  match s with
  | String "-"%char s' => - Z.of_N (Topic.digits_val 0 s')
  | _ => Z.of_N (Topic.digits_val 0 s)
  end.

Lemma parse_dec_pretty z : parse_dec (pretty z) = z.
Proof.
  destruct (Z_lt_le_dec z 0) as [Hz|Hz].
  - destruct z as [|p|p]; [lia|lia|]. change (pretty (Z.neg p)) with ("-" +:+ pretty (Z.pos p))%string.
    change (- Z.of_N (Topic.digits_val 0 (pretty (Z.pos p))) = Z.neg p).
    destruct (Topic.pretty_Z_val (Z.pos p) ltac:(lia)) as [-> _]. done.
  - destruct (Topic.pretty_Z_val z Hz) as (Hv & Hd & Hne). unfold parse_dec.
    destruct (pretty z) as [|[[] [] [] [] [] [] [] []] s]; try exact Hv; done.
Qed.

(** The names of the numbers that are not finite; fractions are not printed. *)
Definition print_special (x : double) : string :=
  match x with
  | SpecFloat.S754_infinity false => "Infinity"
  | SpecFloat.S754_infinity true => "-Infinity"
  | SpecFloat.S754_nan => "NaN"
  | _ => ""
  end.

Definition parse_special (s : string) : double :=
  if String.eqb s "NaN" then SpecFloat.S754_nan
  else if String.eqb s "Infinity" then SpecFloat.S754_infinity false
  else if String.eqb s "-Infinity" then SpecFloat.S754_infinity true
  else double_of_Z (parse_dec s).

(** Decimal strings, and the bytes themselves in place of base64. *)
#[local] Instance plain : Conversions := {
  Number_str s := Some (parse_dec s);
  Number_int32 s := to_int32 (parse_dec s);
  Number_double s := parse_special s;
  Number_toString := print_special;
  parseInt10 s := Some (parse_dec s);
  Long_fromString s u := Ok (LLong (to_int32 (parse_dec s)) (to_int32 (parse_dec s / 2 ^ 32)) u);
  Long_fromNumber z u := LLong (to_int32 z) (to_int32 (z / 2 ^ 32)) u;
  Long_toString l := pretty (long_val l);
  base64_encode b := String.string_of_list_byte b;
  base64_decode s := Ok (String.list_byte_of_string s);
}.

#[local] Instance plain_laws : ConversionLaws.
Proof.
  split; cbn [Number_str Number_double Number_toString Long_fromString Long_toString base64_encode base64_decode plain].
  - intros z. rewrite parse_dec_pretty. naive_solver.
  - intros z u _. by rewrite parse_dec_pretty.
  - done.
  - intros b. by rewrite String.list_byte_of_string_of_list_byte.
  - by intros [|[]| |].
  - intros [|x b] Hb; done.
Qed.

Definition ex_ack : Payload := P_ackReq (mkAckRequest (Some (LNum 5)) (Some "grp_1"%string) (Some (LNum 3)) None).

Lemma ex_ack_ok : packet_ok (Some CMD_ACK) (Some (LNum 9)) (Some ex_ack).
Proof.
  split; [concrete_field|]. split; [concrete_field|].
  intros v [= <-]. split; [vm_compute; reflexivity|concrete_message].
Qed.

Lemma packet_object_roundtrip_witness :
  let m := packet_norm (Some CMD_ACK) (Some (LNum 9)) (Some ex_ack) in
  ∃ v, Packet_toObject m toJSONOptions None = Ok v ∧ Packet_fromObject v None = Ok m.
Proof. apply (packet_object_roundtrip _ _ _ _ ex_ack_ok). right. split; reflexivity. Defined.

Lemma packet_verify_known_witness :
  ∃ v, Packet_toObject (packet_norm (Some CMD_ACK) (Some (LNum 9)) (Some ex_ack)) no_options None = Ok v ∧
    (Packet_verify v None = None ↔ packet_known (Some CMD_ACK) (Some ex_ack)).
Proof. apply (packet_verify_known _ _ _ _ ex_ack_ok). split; [reflexivity|split; [reflexivity|by left]]. Defined.

(** A command the client does not know is rejected by name. *)
Example unknown_command :
  Packet_verify (VObj [("cmd", VNum 77)]%string) None = Some "cmd: enum value expected"%string.
Proof. reflexivity. Qed.

End Example.
