(* ===== verification/ApiAuth.v ===== *)
(** * The authentication, dispatch and user classes ([web/app/lib/proto/im.js])

    The classes of [auth.proto], [dispatch.proto] and [user.proto]: per class the record of its
    fields, [encode], [decode] and their delimited forms, [verify],
    [fromObject], [toObject], [toJSON] and [getTypeUrl].  The conventions are
    those of [ProtoMessages] and [ProtoConvert]. *)

From S2P Require Import Prelude JsNum JsMap ProtoRuntime ProtoObjects.
Open Scope Z_scope.

Section Messages.
Context {RT : Runtime} {CV : Conversions}.

(** ** [RegisterRequest] *)

Record RegisterRequest := mkRegisterRequest {
  RegisterRequest_username : option string;
  RegisterRequest_password : option string;
  RegisterRequest_unknowns : option (list bytes);
}.

Definition RegisterRequest_new : RegisterRequest :=
  mkRegisterRequest None None None.

Definition set_RegisterRequest_username (v : option string) (m : RegisterRequest) : RegisterRequest :=
  mkRegisterRequest v (RegisterRequest_password m) (RegisterRequest_unknowns m).
Definition set_RegisterRequest_password (v : option string) (m : RegisterRequest) : RegisterRequest :=
  mkRegisterRequest (RegisterRequest_username m) v (RegisterRequest_unknowns m).
Definition RegisterRequest_push_unknown (b : bytes) (m : RegisterRequest) : RegisterRequest :=
  mkRegisterRequest (RegisterRequest_username m) (RegisterRequest_password m) (Some (default [] (RegisterRequest_unknowns m) ++ [b])).

Definition RegisterRequest_encode (message : RegisterRequest) (writer : option Writer) (_depth : option Z) : res Writer :=
  let writer := default W_create writer in
  let _depth := default 0 _depth in
  depth_check util_recursionLimit _depth (
    let writer := own (RegisterRequest_username message) (λ v w, W_string v (W_uint32 10 w)) writer in
    let writer := own (RegisterRequest_password message) (λ v w, W_string v (W_uint32 18 w)) writer in
    Ok (put_unknowns (RegisterRequest_unknowns message) writer)).

Definition RegisterRequest_encodeDelimited (message : RegisterRequest) (writer : option Writer) : res Writer :=
  delimited RegisterRequest_encode message writer.

Definition RegisterRequest_switch (_depth field wireType : Z) (message : RegisterRequest) (reader : Reader)
    : option (res (RegisterRequest * Reader)) :=
  match field with
  | 1 => when_wire wireType 2 (dec_opt R_stringVerify string_present set_RegisterRequest_username message reader)
  | 2 => when_wire wireType 2 (dec_opt R_stringVerify string_present set_RegisterRequest_password message reader)
  | _ => None
  end.

Definition RegisterRequest_decode : decoder RegisterRequest := λ reader length _end _depth _target,
  let _depth := default 0 _depth in
  decode_with (RegisterRequest_switch _depth) RegisterRequest_push_unknown _depth RegisterRequest_new reader length _end _target.

Definition RegisterRequest_decodeDelimited (reader : Reader) : res (RegisterRequest * Reader) :=
  decode_delimited RegisterRequest_decode reader.

Definition RegisterRequest_verify (message : jsval) (_depth : option Z) : option string :=
  verify_object message _depth (λ depth,
  check message "username" (expect isString "username: string expected") (
  check message "password" (expect isString "password: string expected") (
  None))).

Definition RegisterRequest_fromObject (object : jsval) (_depth : option Z) : res RegisterRequest :=
  from_object ".api.im.v1.RegisterRequest" object _depth (λ depth,
  let message := RegisterRequest_new in
  let! message := from_field object "username" from_string set_RegisterRequest_username message in
  let! message := from_field object "password" from_string set_RegisterRequest_password message in
  Ok message).

Definition RegisterRequest_toObject (message : RegisterRequest) (options : Options) (_depth : option Z) : res jsval :=
  to_object _depth (λ depth,
  let object := [] in
  let object := if defaults options then
      put "password" (VStr "") (put "username" (VStr "") object)
    else object in
  let object := put_own "username" VStr (RegisterRequest_username message) object in
  let object := put_own "password" VStr (RegisterRequest_password message) object in
  Ok object).

Definition RegisterRequest_toJSON (message : RegisterRequest) : res jsval := RegisterRequest_toObject message toJSONOptions None.

Definition RegisterRequest_getTypeUrl (prefix : option string) : string :=
  default "type.googleapis.com"%string prefix +:+ "/api.im.v1.RegisterRequest".

(** ** [RegisterReply] *)

Record RegisterReply := mkRegisterReply {
  RegisterReply_userId : option long;
  RegisterReply_unknowns : option (list bytes);
}.

Definition RegisterReply_new : RegisterReply :=
  mkRegisterReply None None.

Definition set_RegisterReply_userId (v : option long) (m : RegisterReply) : RegisterReply :=
  mkRegisterReply v (RegisterReply_unknowns m).
Definition RegisterReply_push_unknown (b : bytes) (m : RegisterReply) : RegisterReply :=
  mkRegisterReply (RegisterReply_userId m) (Some (default [] (RegisterReply_unknowns m) ++ [b])).

Definition RegisterReply_encode (message : RegisterReply) (writer : option Writer) (_depth : option Z) : res Writer :=
  let writer := default W_create writer in
  let _depth := default 0 _depth in
  depth_check util_recursionLimit _depth (
    let writer := own (RegisterReply_userId message) (λ v w, W_int64 v (W_uint32 8 w)) writer in
    Ok (put_unknowns (RegisterReply_unknowns message) writer)).

Definition RegisterReply_encodeDelimited (message : RegisterReply) (writer : option Writer) : res Writer :=
  delimited RegisterReply_encode message writer.

Definition RegisterReply_switch (_depth field wireType : Z) (message : RegisterReply) (reader : Reader)
    : option (res (RegisterReply * Reader)) :=
  match field with
  | 1 => when_wire wireType 0 (dec_opt R_int64 long_nonzero set_RegisterReply_userId message reader)
  | _ => None
  end.

Definition RegisterReply_decode : decoder RegisterReply := λ reader length _end _depth _target,
  let _depth := default 0 _depth in
  decode_with (RegisterReply_switch _depth) RegisterReply_push_unknown _depth RegisterReply_new reader length _end _target.

Definition RegisterReply_decodeDelimited (reader : Reader) : res (RegisterReply * Reader) :=
  decode_delimited RegisterReply_decode reader.

Definition RegisterReply_verify (message : jsval) (_depth : option Z) : option string :=
  verify_object message _depth (λ depth,
  check message "userId" (expect isLongLike "userId: integer|Long expected") (
  None)).

Definition RegisterReply_fromObject (object : jsval) (_depth : option Z) : res RegisterReply :=
  from_object ".api.im.v1.RegisterReply" object _depth (λ depth,
  let message := RegisterReply_new in
  let! message := from_field object "userId" (from_long false) set_RegisterReply_userId message in
  Ok message).

Definition RegisterReply_toObject (message : RegisterReply) (options : Options) (_depth : option Z) : res jsval :=
  to_object _depth (λ depth,
  let object := [] in
  let object := if defaults options then
      put "userId" (long_default options false) object
    else object in
  let object := put_own "userId" (to_long options false) (RegisterReply_userId message) object in
  Ok object).

Definition RegisterReply_toJSON (message : RegisterReply) : res jsval := RegisterReply_toObject message toJSONOptions None.

Definition RegisterReply_getTypeUrl (prefix : option string) : string :=
  default "type.googleapis.com"%string prefix +:+ "/api.im.v1.RegisterReply".

(** ** [LoginRequest] *)

Record LoginRequest := mkLoginRequest {
  LoginRequest_username : option string;
  LoginRequest_password : option string;
  LoginRequest_deviceId : option string;
  LoginRequest_unknowns : option (list bytes);
}.

Definition LoginRequest_new : LoginRequest :=
  mkLoginRequest None None None None.

Definition set_LoginRequest_username (v : option string) (m : LoginRequest) : LoginRequest :=
  mkLoginRequest v (LoginRequest_password m) (LoginRequest_deviceId m) (LoginRequest_unknowns m).
Definition set_LoginRequest_password (v : option string) (m : LoginRequest) : LoginRequest :=
  mkLoginRequest (LoginRequest_username m) v (LoginRequest_deviceId m) (LoginRequest_unknowns m).
Definition set_LoginRequest_deviceId (v : option string) (m : LoginRequest) : LoginRequest :=
  mkLoginRequest (LoginRequest_username m) (LoginRequest_password m) v (LoginRequest_unknowns m).
Definition LoginRequest_push_unknown (b : bytes) (m : LoginRequest) : LoginRequest :=
  mkLoginRequest (LoginRequest_username m) (LoginRequest_password m) (LoginRequest_deviceId m) (Some (default [] (LoginRequest_unknowns m) ++ [b])).

Definition LoginRequest_encode (message : LoginRequest) (writer : option Writer) (_depth : option Z) : res Writer :=
  let writer := default W_create writer in
  let _depth := default 0 _depth in
  depth_check util_recursionLimit _depth (
    let writer := own (LoginRequest_username message) (λ v w, W_string v (W_uint32 10 w)) writer in
    let writer := own (LoginRequest_password message) (λ v w, W_string v (W_uint32 18 w)) writer in
    let writer := own (LoginRequest_deviceId message) (λ v w, W_string v (W_uint32 26 w)) writer in
    Ok (put_unknowns (LoginRequest_unknowns message) writer)).

Definition LoginRequest_encodeDelimited (message : LoginRequest) (writer : option Writer) : res Writer :=
  delimited LoginRequest_encode message writer.

Definition LoginRequest_switch (_depth field wireType : Z) (message : LoginRequest) (reader : Reader)
    : option (res (LoginRequest * Reader)) :=
  match field with
  | 1 => when_wire wireType 2 (dec_opt R_stringVerify string_present set_LoginRequest_username message reader)
  | 2 => when_wire wireType 2 (dec_opt R_stringVerify string_present set_LoginRequest_password message reader)
  | 3 => when_wire wireType 2 (dec_opt R_stringVerify string_present set_LoginRequest_deviceId message reader)
  | _ => None
  end.

Definition LoginRequest_decode : decoder LoginRequest := λ reader length _end _depth _target,
  let _depth := default 0 _depth in
  decode_with (LoginRequest_switch _depth) LoginRequest_push_unknown _depth LoginRequest_new reader length _end _target.

Definition LoginRequest_decodeDelimited (reader : Reader) : res (LoginRequest * Reader) :=
  decode_delimited LoginRequest_decode reader.

Definition LoginRequest_verify (message : jsval) (_depth : option Z) : option string :=
  verify_object message _depth (λ depth,
  check message "username" (expect isString "username: string expected") (
  check message "password" (expect isString "password: string expected") (
  check message "deviceId" (expect isString "deviceId: string expected") (
  None)))).

Definition LoginRequest_fromObject (object : jsval) (_depth : option Z) : res LoginRequest :=
  from_object ".api.im.v1.LoginRequest" object _depth (λ depth,
  let message := LoginRequest_new in
  let! message := from_field object "username" from_string set_LoginRequest_username message in
  let! message := from_field object "password" from_string set_LoginRequest_password message in
  let! message := from_field object "deviceId" from_string set_LoginRequest_deviceId message in
  Ok message).

Definition LoginRequest_toObject (message : LoginRequest) (options : Options) (_depth : option Z) : res jsval :=
  to_object _depth (λ depth,
  let object := [] in
  let object := if defaults options then
      put "deviceId" (VStr "") (put "password" (VStr "") (put "username" (VStr "") object))
    else object in
  let object := put_own "username" VStr (LoginRequest_username message) object in
  let object := put_own "password" VStr (LoginRequest_password message) object in
  let object := put_own "deviceId" VStr (LoginRequest_deviceId message) object in
  Ok object).

Definition LoginRequest_toJSON (message : LoginRequest) : res jsval := LoginRequest_toObject message toJSONOptions None.

Definition LoginRequest_getTypeUrl (prefix : option string) : string :=
  default "type.googleapis.com"%string prefix +:+ "/api.im.v1.LoginRequest".

(** ** [LoginReply] *)

Record LoginReply := mkLoginReply {
  LoginReply_userId : option long;
  LoginReply_token : option string;
  LoginReply_refreshToken : option string;
  LoginReply_unknowns : option (list bytes);
}.

Definition LoginReply_new : LoginReply :=
  mkLoginReply None None None None.

Definition set_LoginReply_userId (v : option long) (m : LoginReply) : LoginReply :=
  mkLoginReply v (LoginReply_token m) (LoginReply_refreshToken m) (LoginReply_unknowns m).
Definition set_LoginReply_token (v : option string) (m : LoginReply) : LoginReply :=
  mkLoginReply (LoginReply_userId m) v (LoginReply_refreshToken m) (LoginReply_unknowns m).
Definition set_LoginReply_refreshToken (v : option string) (m : LoginReply) : LoginReply :=
  mkLoginReply (LoginReply_userId m) (LoginReply_token m) v (LoginReply_unknowns m).
Definition LoginReply_push_unknown (b : bytes) (m : LoginReply) : LoginReply :=
  mkLoginReply (LoginReply_userId m) (LoginReply_token m) (LoginReply_refreshToken m) (Some (default [] (LoginReply_unknowns m) ++ [b])).

Definition LoginReply_encode (message : LoginReply) (writer : option Writer) (_depth : option Z) : res Writer :=
  let writer := default W_create writer in
  let _depth := default 0 _depth in
  depth_check util_recursionLimit _depth (
    let writer := own (LoginReply_userId message) (λ v w, W_int64 v (W_uint32 8 w)) writer in
    let writer := own (LoginReply_token message) (λ v w, W_string v (W_uint32 18 w)) writer in
    let writer := own (LoginReply_refreshToken message) (λ v w, W_string v (W_uint32 26 w)) writer in
    Ok (put_unknowns (LoginReply_unknowns message) writer)).

Definition LoginReply_encodeDelimited (message : LoginReply) (writer : option Writer) : res Writer :=
  delimited LoginReply_encode message writer.

Definition LoginReply_switch (_depth field wireType : Z) (message : LoginReply) (reader : Reader)
    : option (res (LoginReply * Reader)) :=
  match field with
  | 1 => when_wire wireType 0 (dec_opt R_int64 long_nonzero set_LoginReply_userId message reader)
  | 2 => when_wire wireType 2 (dec_opt R_stringVerify string_present set_LoginReply_token message reader)
  | 3 => when_wire wireType 2 (dec_opt R_stringVerify string_present set_LoginReply_refreshToken message reader)
  | _ => None
  end.

Definition LoginReply_decode : decoder LoginReply := λ reader length _end _depth _target,
  let _depth := default 0 _depth in
  decode_with (LoginReply_switch _depth) LoginReply_push_unknown _depth LoginReply_new reader length _end _target.

Definition LoginReply_decodeDelimited (reader : Reader) : res (LoginReply * Reader) :=
  decode_delimited LoginReply_decode reader.

Definition LoginReply_verify (message : jsval) (_depth : option Z) : option string :=
  verify_object message _depth (λ depth,
  check message "userId" (expect isLongLike "userId: integer|Long expected") (
  check message "token" (expect isString "token: string expected") (
  check message "refreshToken" (expect isString "refreshToken: string expected") (
  None)))).

Definition LoginReply_fromObject (object : jsval) (_depth : option Z) : res LoginReply :=
  from_object ".api.im.v1.LoginReply" object _depth (λ depth,
  let message := LoginReply_new in
  let! message := from_field object "userId" (from_long false) set_LoginReply_userId message in
  let! message := from_field object "token" from_string set_LoginReply_token message in
  let! message := from_field object "refreshToken" from_string set_LoginReply_refreshToken message in
  Ok message).

Definition LoginReply_toObject (message : LoginReply) (options : Options) (_depth : option Z) : res jsval :=
  to_object _depth (λ depth,
  let object := [] in
  let object := if defaults options then
      put "refreshToken" (VStr "") (put "token" (VStr "") (put "userId" (long_default options false) object))
    else object in
  let object := put_own "userId" (to_long options false) (LoginReply_userId message) object in
  let object := put_own "token" VStr (LoginReply_token message) object in
  let object := put_own "refreshToken" VStr (LoginReply_refreshToken message) object in
  Ok object).

Definition LoginReply_toJSON (message : LoginReply) : res jsval := LoginReply_toObject message toJSONOptions None.

Definition LoginReply_getTypeUrl (prefix : option string) : string :=
  default "type.googleapis.com"%string prefix +:+ "/api.im.v1.LoginReply".

(** ** [RefreshTokenRequest] *)

Record RefreshTokenRequest := mkRefreshTokenRequest {
  RefreshTokenRequest_userId : option long;
  RefreshTokenRequest_deviceId : option string;
  RefreshTokenRequest_refreshToken : option string;
  RefreshTokenRequest_unknowns : option (list bytes);
}.

Definition RefreshTokenRequest_new : RefreshTokenRequest :=
  mkRefreshTokenRequest None None None None.

Definition set_RefreshTokenRequest_userId (v : option long) (m : RefreshTokenRequest) : RefreshTokenRequest :=
  mkRefreshTokenRequest v (RefreshTokenRequest_deviceId m) (RefreshTokenRequest_refreshToken m) (RefreshTokenRequest_unknowns m).
Definition set_RefreshTokenRequest_deviceId (v : option string) (m : RefreshTokenRequest) : RefreshTokenRequest :=
  mkRefreshTokenRequest (RefreshTokenRequest_userId m) v (RefreshTokenRequest_refreshToken m) (RefreshTokenRequest_unknowns m).
Definition set_RefreshTokenRequest_refreshToken (v : option string) (m : RefreshTokenRequest) : RefreshTokenRequest :=
  mkRefreshTokenRequest (RefreshTokenRequest_userId m) (RefreshTokenRequest_deviceId m) v (RefreshTokenRequest_unknowns m).
Definition RefreshTokenRequest_push_unknown (b : bytes) (m : RefreshTokenRequest) : RefreshTokenRequest :=
  mkRefreshTokenRequest (RefreshTokenRequest_userId m) (RefreshTokenRequest_deviceId m) (RefreshTokenRequest_refreshToken m) (Some (default [] (RefreshTokenRequest_unknowns m) ++ [b])).

Definition RefreshTokenRequest_encode (message : RefreshTokenRequest) (writer : option Writer) (_depth : option Z) : res Writer :=
  let writer := default W_create writer in
  let _depth := default 0 _depth in
  depth_check util_recursionLimit _depth (
    let writer := own (RefreshTokenRequest_userId message) (λ v w, W_int64 v (W_uint32 8 w)) writer in
    let writer := own (RefreshTokenRequest_deviceId message) (λ v w, W_string v (W_uint32 18 w)) writer in
    let writer := own (RefreshTokenRequest_refreshToken message) (λ v w, W_string v (W_uint32 26 w)) writer in
    Ok (put_unknowns (RefreshTokenRequest_unknowns message) writer)).

Definition RefreshTokenRequest_encodeDelimited (message : RefreshTokenRequest) (writer : option Writer) : res Writer :=
  delimited RefreshTokenRequest_encode message writer.

Definition RefreshTokenRequest_switch (_depth field wireType : Z) (message : RefreshTokenRequest) (reader : Reader)
    : option (res (RefreshTokenRequest * Reader)) :=
  match field with
  | 1 => when_wire wireType 0 (dec_opt R_int64 long_nonzero set_RefreshTokenRequest_userId message reader)
  | 2 => when_wire wireType 2 (dec_opt R_stringVerify string_present set_RefreshTokenRequest_deviceId message reader)
  | 3 => when_wire wireType 2 (dec_opt R_stringVerify string_present set_RefreshTokenRequest_refreshToken message reader)
  | _ => None
  end.

Definition RefreshTokenRequest_decode : decoder RefreshTokenRequest := λ reader length _end _depth _target,
  let _depth := default 0 _depth in
  decode_with (RefreshTokenRequest_switch _depth) RefreshTokenRequest_push_unknown _depth RefreshTokenRequest_new reader length _end _target.

Definition RefreshTokenRequest_decodeDelimited (reader : Reader) : res (RefreshTokenRequest * Reader) :=
  decode_delimited RefreshTokenRequest_decode reader.

Definition RefreshTokenRequest_verify (message : jsval) (_depth : option Z) : option string :=
  verify_object message _depth (λ depth,
  check message "userId" (expect isLongLike "userId: integer|Long expected") (
  check message "deviceId" (expect isString "deviceId: string expected") (
  check message "refreshToken" (expect isString "refreshToken: string expected") (
  None)))).

Definition RefreshTokenRequest_fromObject (object : jsval) (_depth : option Z) : res RefreshTokenRequest :=
  from_object ".api.im.v1.RefreshTokenRequest" object _depth (λ depth,
  let message := RefreshTokenRequest_new in
  let! message := from_field object "userId" (from_long false) set_RefreshTokenRequest_userId message in
  let! message := from_field object "deviceId" from_string set_RefreshTokenRequest_deviceId message in
  let! message := from_field object "refreshToken" from_string set_RefreshTokenRequest_refreshToken message in
  Ok message).

Definition RefreshTokenRequest_toObject (message : RefreshTokenRequest) (options : Options) (_depth : option Z) : res jsval :=
  to_object _depth (λ depth,
  let object := [] in
  let object := if defaults options then
      put "refreshToken" (VStr "") (put "deviceId" (VStr "") (put "userId" (long_default options false) object))
    else object in
  let object := put_own "userId" (to_long options false) (RefreshTokenRequest_userId message) object in
  let object := put_own "deviceId" VStr (RefreshTokenRequest_deviceId message) object in
  let object := put_own "refreshToken" VStr (RefreshTokenRequest_refreshToken message) object in
  Ok object).

Definition RefreshTokenRequest_toJSON (message : RefreshTokenRequest) : res jsval := RefreshTokenRequest_toObject message toJSONOptions None.

Definition RefreshTokenRequest_getTypeUrl (prefix : option string) : string :=
  default "type.googleapis.com"%string prefix +:+ "/api.im.v1.RefreshTokenRequest".

(** ** [LogoutRequest] *)

Record LogoutRequest := mkLogoutRequest {
  LogoutRequest_unknowns : option (list bytes);
}.

Definition LogoutRequest_new : LogoutRequest :=
  mkLogoutRequest None.

Definition LogoutRequest_push_unknown (b : bytes) (m : LogoutRequest) : LogoutRequest :=
  mkLogoutRequest (Some (default [] (LogoutRequest_unknowns m) ++ [b])).

Definition LogoutRequest_encode (message : LogoutRequest) (writer : option Writer) (_depth : option Z) : res Writer :=
  let writer := default W_create writer in
  let _depth := default 0 _depth in
  depth_check util_recursionLimit _depth (
    Ok (put_unknowns (LogoutRequest_unknowns message) writer)).

Definition LogoutRequest_encodeDelimited (message : LogoutRequest) (writer : option Writer) : res Writer :=
  delimited LogoutRequest_encode message writer.

Definition LogoutRequest_decode : decoder LogoutRequest := λ reader length _end _depth _target,
  decode_skipping LogoutRequest_push_unknown (default 0 _depth) LogoutRequest_new reader length _end _target.

Definition LogoutRequest_decodeDelimited (reader : Reader) : res (LogoutRequest * Reader) :=
  decode_delimited LogoutRequest_decode reader.

Definition LogoutRequest_verify (message : jsval) (_depth : option Z) : option string :=
  verify_object message _depth (λ depth,
  None).

Definition LogoutRequest_fromObject (object : jsval) (_depth : option Z) : res LogoutRequest :=
  from_object ".api.im.v1.LogoutRequest" object _depth (λ depth,
  let message := LogoutRequest_new in
  Ok message).

Definition LogoutRequest_toObject (message : LogoutRequest) (options : Options) (_depth : option Z) : res jsval := Ok (VObj []).

Definition LogoutRequest_toJSON (message : LogoutRequest) : res jsval := LogoutRequest_toObject message toJSONOptions None.

Definition LogoutRequest_getTypeUrl (prefix : option string) : string :=
  default "type.googleapis.com"%string prefix +:+ "/api.im.v1.LogoutRequest".

(** ** [LogoutReply] *)

Record LogoutReply := mkLogoutReply {
  LogoutReply_success : option bool;
  LogoutReply_unknowns : option (list bytes);
}.

Definition LogoutReply_new : LogoutReply :=
  mkLogoutReply None None.

Definition set_LogoutReply_success (v : option bool) (m : LogoutReply) : LogoutReply :=
  mkLogoutReply v (LogoutReply_unknowns m).
Definition LogoutReply_push_unknown (b : bytes) (m : LogoutReply) : LogoutReply :=
  mkLogoutReply (LogoutReply_success m) (Some (default [] (LogoutReply_unknowns m) ++ [b])).

Definition LogoutReply_encode (message : LogoutReply) (writer : option Writer) (_depth : option Z) : res Writer :=
  let writer := default W_create writer in
  let _depth := default 0 _depth in
  depth_check util_recursionLimit _depth (
    let writer := own (LogoutReply_success message) (λ v w, W_bool v (W_uint32 8 w)) writer in
    Ok (put_unknowns (LogoutReply_unknowns message) writer)).

Definition LogoutReply_encodeDelimited (message : LogoutReply) (writer : option Writer) : res Writer :=
  delimited LogoutReply_encode message writer.

Definition LogoutReply_switch (_depth field wireType : Z) (message : LogoutReply) (reader : Reader)
    : option (res (LogoutReply * Reader)) :=
  match field with
  | 1 => when_wire wireType 0 (dec_opt R_bool bool_present set_LogoutReply_success message reader)
  | _ => None
  end.

Definition LogoutReply_decode : decoder LogoutReply := λ reader length _end _depth _target,
  let _depth := default 0 _depth in
  decode_with (LogoutReply_switch _depth) LogoutReply_push_unknown _depth LogoutReply_new reader length _end _target.

Definition LogoutReply_decodeDelimited (reader : Reader) : res (LogoutReply * Reader) :=
  decode_delimited LogoutReply_decode reader.

Definition LogoutReply_verify (message : jsval) (_depth : option Z) : option string :=
  verify_object message _depth (λ depth,
  check message "success" (expect isBoolean "success: boolean expected") (
  None)).

Definition LogoutReply_fromObject (object : jsval) (_depth : option Z) : res LogoutReply :=
  from_object ".api.im.v1.LogoutReply" object _depth (λ depth,
  let message := LogoutReply_new in
  let! message := from_field object "success" from_bool set_LogoutReply_success message in
  Ok message).

Definition LogoutReply_toObject (message : LogoutReply) (options : Options) (_depth : option Z) : res jsval :=
  to_object _depth (λ depth,
  let object := [] in
  let object := if defaults options then
      put "success" (VBool false) object
    else object in
  let object := put_own "success" VBool (LogoutReply_success message) object in
  Ok object).

Definition LogoutReply_toJSON (message : LogoutReply) : res jsval := LogoutReply_toObject message toJSONOptions None.

Definition LogoutReply_getTypeUrl (prefix : option string) : string :=
  default "type.googleapis.com"%string prefix +:+ "/api.im.v1.LogoutReply".

(** ** [GetGatewayRequest] *)

Record GetGatewayRequest := mkGetGatewayRequest {
  GetGatewayRequest_userId : option long;
  GetGatewayRequest_unknowns : option (list bytes);
}.

Definition GetGatewayRequest_new : GetGatewayRequest :=
  mkGetGatewayRequest None None.

Definition set_GetGatewayRequest_userId (v : option long) (m : GetGatewayRequest) : GetGatewayRequest :=
  mkGetGatewayRequest v (GetGatewayRequest_unknowns m).
Definition GetGatewayRequest_push_unknown (b : bytes) (m : GetGatewayRequest) : GetGatewayRequest :=
  mkGetGatewayRequest (GetGatewayRequest_userId m) (Some (default [] (GetGatewayRequest_unknowns m) ++ [b])).

Definition GetGatewayRequest_encode (message : GetGatewayRequest) (writer : option Writer) (_depth : option Z) : res Writer :=
  let writer := default W_create writer in
  let _depth := default 0 _depth in
  depth_check util_recursionLimit _depth (
    let writer := own (GetGatewayRequest_userId message) (λ v w, W_int64 v (W_uint32 8 w)) writer in
    Ok (put_unknowns (GetGatewayRequest_unknowns message) writer)).

Definition GetGatewayRequest_encodeDelimited (message : GetGatewayRequest) (writer : option Writer) : res Writer :=
  delimited GetGatewayRequest_encode message writer.

Definition GetGatewayRequest_switch (_depth field wireType : Z) (message : GetGatewayRequest) (reader : Reader)
    : option (res (GetGatewayRequest * Reader)) :=
  match field with
  | 1 => when_wire wireType 0 (dec_opt R_int64 long_nonzero set_GetGatewayRequest_userId message reader)
  | _ => None
  end.

Definition GetGatewayRequest_decode : decoder GetGatewayRequest := λ reader length _end _depth _target,
  let _depth := default 0 _depth in
  decode_with (GetGatewayRequest_switch _depth) GetGatewayRequest_push_unknown _depth GetGatewayRequest_new reader length _end _target.

Definition GetGatewayRequest_decodeDelimited (reader : Reader) : res (GetGatewayRequest * Reader) :=
  decode_delimited GetGatewayRequest_decode reader.

Definition GetGatewayRequest_verify (message : jsval) (_depth : option Z) : option string :=
  verify_object message _depth (λ depth,
  check message "userId" (expect isLongLike "userId: integer|Long expected") (
  None)).

Definition GetGatewayRequest_fromObject (object : jsval) (_depth : option Z) : res GetGatewayRequest :=
  from_object ".api.im.v1.GetGatewayRequest" object _depth (λ depth,
  let message := GetGatewayRequest_new in
  let! message := from_field object "userId" (from_long false) set_GetGatewayRequest_userId message in
  Ok message).

Definition GetGatewayRequest_toObject (message : GetGatewayRequest) (options : Options) (_depth : option Z) : res jsval :=
  to_object _depth (λ depth,
  let object := [] in
  let object := if defaults options then
      put "userId" (long_default options false) object
    else object in
  let object := put_own "userId" (to_long options false) (GetGatewayRequest_userId message) object in
  Ok object).

Definition GetGatewayRequest_toJSON (message : GetGatewayRequest) : res jsval := GetGatewayRequest_toObject message toJSONOptions None.

Definition GetGatewayRequest_getTypeUrl (prefix : option string) : string :=
  default "type.googleapis.com"%string prefix +:+ "/api.im.v1.GetGatewayRequest".

(** ** [GetGatewayReply] *)

Record GetGatewayReply := mkGetGatewayReply {
  GetGatewayReply_gatewayUrl : option string;
  GetGatewayReply_gatewayUrls : list string;
  GetGatewayReply_unknowns : option (list bytes);
}.

Definition GetGatewayReply_new : GetGatewayReply :=
  mkGetGatewayReply None [] None.

Definition set_GetGatewayReply_gatewayUrl (v : option string) (m : GetGatewayReply) : GetGatewayReply :=
  mkGetGatewayReply v (GetGatewayReply_gatewayUrls m) (GetGatewayReply_unknowns m).
Definition set_GetGatewayReply_gatewayUrls (v : list string) (m : GetGatewayReply) : GetGatewayReply :=
  mkGetGatewayReply (GetGatewayReply_gatewayUrl m) v (GetGatewayReply_unknowns m).
Definition GetGatewayReply_push_unknown (b : bytes) (m : GetGatewayReply) : GetGatewayReply :=
  mkGetGatewayReply (GetGatewayReply_gatewayUrl m) (GetGatewayReply_gatewayUrls m) (Some (default [] (GetGatewayReply_unknowns m) ++ [b])).

Definition GetGatewayReply_encode (message : GetGatewayReply) (writer : option Writer) (_depth : option Z) : res Writer :=
  let writer := default W_create writer in
  let _depth := default 0 _depth in
  depth_check util_recursionLimit _depth (
    let writer := own (GetGatewayReply_gatewayUrl message) (λ v w, W_string v (W_uint32 10 w)) writer in
    let writer := each 18 W_string (GetGatewayReply_gatewayUrls message) writer in
    Ok (put_unknowns (GetGatewayReply_unknowns message) writer)).

Definition GetGatewayReply_encodeDelimited (message : GetGatewayReply) (writer : option Writer) : res Writer :=
  delimited GetGatewayReply_encode message writer.

Definition GetGatewayReply_switch (_depth field wireType : Z) (message : GetGatewayReply) (reader : Reader)
    : option (res (GetGatewayReply * Reader)) :=
  match field with
  | 1 => when_wire wireType 2 (dec_opt R_stringVerify string_present set_GetGatewayReply_gatewayUrl message reader)
  | 2 => when_wire wireType 2 (dec_each R_stringVerify GetGatewayReply_gatewayUrls set_GetGatewayReply_gatewayUrls message reader)
  | _ => None
  end.

Definition GetGatewayReply_decode : decoder GetGatewayReply := λ reader length _end _depth _target,
  let _depth := default 0 _depth in
  decode_with (GetGatewayReply_switch _depth) GetGatewayReply_push_unknown _depth GetGatewayReply_new reader length _end _target.

Definition GetGatewayReply_decodeDelimited (reader : Reader) : res (GetGatewayReply * Reader) :=
  decode_delimited GetGatewayReply_decode reader.

Definition GetGatewayReply_verify (message : jsval) (_depth : option Z) : option string :=
  verify_object message _depth (λ depth,
  check message "gatewayUrl" (expect isString "gatewayUrl: string expected") (
  check message "gatewayUrls" (expect_array "gatewayUrls" (expect isString "gatewayUrls: string[] expected")) (
  None))).

Definition GetGatewayReply_fromObject (object : jsval) (_depth : option Z) : res GetGatewayReply :=
  from_object ".api.im.v1.GetGatewayReply" object _depth (λ depth,
  let message := GetGatewayReply_new in
  let! message := from_field object "gatewayUrl" from_string set_GetGatewayReply_gatewayUrl message in
  let! message := from_array ".api.im.v1.GetGatewayReply" object "gatewayUrls" from_string_element set_GetGatewayReply_gatewayUrls message in
  Ok message).

Definition GetGatewayReply_toObject (message : GetGatewayReply) (options : Options) (_depth : option Z) : res jsval :=
  to_object _depth (λ depth,
  let object := [] in
  let object := if arrays options || defaults options then put "gatewayUrls" (VArr []) object else object in
  let object := if defaults options then
      put "gatewayUrl" (VStr "") object
    else object in
  let object := put_own "gatewayUrl" VStr (GetGatewayReply_gatewayUrl message) object in
  let object := put_array "gatewayUrls" (VStr <$> GetGatewayReply_gatewayUrls message) object in
  Ok object).

Definition GetGatewayReply_toJSON (message : GetGatewayReply) : res jsval := GetGatewayReply_toObject message toJSONOptions None.

Definition GetGatewayReply_getTypeUrl (prefix : option string) : string :=
  default "type.googleapis.com"%string prefix +:+ "/api.im.v1.GetGatewayReply".

(** ** [SearchUsersRequest] *)

Record SearchUsersRequest := mkSearchUsersRequest {
  SearchUsersRequest_username : option string;
  SearchUsersRequest_limit : option Z;
  SearchUsersRequest_unknowns : option (list bytes);
}.

Definition SearchUsersRequest_new : SearchUsersRequest :=
  mkSearchUsersRequest None None None.

Definition set_SearchUsersRequest_username (v : option string) (m : SearchUsersRequest) : SearchUsersRequest :=
  mkSearchUsersRequest v (SearchUsersRequest_limit m) (SearchUsersRequest_unknowns m).
Definition set_SearchUsersRequest_limit (v : option Z) (m : SearchUsersRequest) : SearchUsersRequest :=
  mkSearchUsersRequest (SearchUsersRequest_username m) v (SearchUsersRequest_unknowns m).
Definition SearchUsersRequest_push_unknown (b : bytes) (m : SearchUsersRequest) : SearchUsersRequest :=
  mkSearchUsersRequest (SearchUsersRequest_username m) (SearchUsersRequest_limit m) (Some (default [] (SearchUsersRequest_unknowns m) ++ [b])).

Definition SearchUsersRequest_encode (message : SearchUsersRequest) (writer : option Writer) (_depth : option Z) : res Writer :=
  let writer := default W_create writer in
  let _depth := default 0 _depth in
  depth_check util_recursionLimit _depth (
    let writer := own (SearchUsersRequest_username message) (λ v w, W_string v (W_uint32 10 w)) writer in
    let writer := own (SearchUsersRequest_limit message) (λ v w, W_int32 v (W_uint32 16 w)) writer in
    Ok (put_unknowns (SearchUsersRequest_unknowns message) writer)).

Definition SearchUsersRequest_encodeDelimited (message : SearchUsersRequest) (writer : option Writer) : res Writer :=
  delimited SearchUsersRequest_encode message writer.

Definition SearchUsersRequest_switch (_depth field wireType : Z) (message : SearchUsersRequest) (reader : Reader)
    : option (res (SearchUsersRequest * Reader)) :=
  match field with
  | 1 => when_wire wireType 2 (dec_opt R_stringVerify string_present set_SearchUsersRequest_username message reader)
  | 2 => when_wire wireType 0 (dec_opt R_int32 int32_present set_SearchUsersRequest_limit message reader)
  | _ => None
  end.

Definition SearchUsersRequest_decode : decoder SearchUsersRequest := λ reader length _end _depth _target,
  let _depth := default 0 _depth in
  decode_with (SearchUsersRequest_switch _depth) SearchUsersRequest_push_unknown _depth SearchUsersRequest_new reader length _end _target.

Definition SearchUsersRequest_decodeDelimited (reader : Reader) : res (SearchUsersRequest * Reader) :=
  decode_delimited SearchUsersRequest_decode reader.

Definition SearchUsersRequest_verify (message : jsval) (_depth : option Z) : option string :=
  verify_object message _depth (λ depth,
  check message "username" (expect isString "username: string expected") (
  check message "limit" (expect isInteger "limit: integer expected") (
  None))).

Definition SearchUsersRequest_fromObject (object : jsval) (_depth : option Z) : res SearchUsersRequest :=
  from_object ".api.im.v1.SearchUsersRequest" object _depth (λ depth,
  let message := SearchUsersRequest_new in
  let! message := from_field object "username" from_string set_SearchUsersRequest_username message in
  let! message := from_field object "limit" from_int32 set_SearchUsersRequest_limit message in
  Ok message).

Definition SearchUsersRequest_toObject (message : SearchUsersRequest) (options : Options) (_depth : option Z) : res jsval :=
  to_object _depth (λ depth,
  let object := [] in
  let object := if defaults options then
      put "limit" (VNum 0) (put "username" (VStr "") object)
    else object in
  let object := put_own "username" VStr (SearchUsersRequest_username message) object in
  let object := put_own "limit" VNum (SearchUsersRequest_limit message) object in
  Ok object).

Definition SearchUsersRequest_toJSON (message : SearchUsersRequest) : res jsval := SearchUsersRequest_toObject message toJSONOptions None.

Definition SearchUsersRequest_getTypeUrl (prefix : option string) : string :=
  default "type.googleapis.com"%string prefix +:+ "/api.im.v1.SearchUsersRequest".

(** ** [User] *)

Record User := mkUser {
  User_userId : option long;
  User_username : option string;
  User_unknowns : option (list bytes);
}.

Definition User_new : User :=
  mkUser None None None.

Definition set_User_userId (v : option long) (m : User) : User :=
  mkUser v (User_username m) (User_unknowns m).
Definition set_User_username (v : option string) (m : User) : User :=
  mkUser (User_userId m) v (User_unknowns m).
Definition User_push_unknown (b : bytes) (m : User) : User :=
  mkUser (User_userId m) (User_username m) (Some (default [] (User_unknowns m) ++ [b])).

Definition User_encode (message : User) (writer : option Writer) (_depth : option Z) : res Writer :=
  let writer := default W_create writer in
  let _depth := default 0 _depth in
  depth_check util_recursionLimit _depth (
    let writer := own (User_userId message) (λ v w, W_int64 v (W_uint32 8 w)) writer in
    let writer := own (User_username message) (λ v w, W_string v (W_uint32 18 w)) writer in
    Ok (put_unknowns (User_unknowns message) writer)).

Definition User_encodeDelimited (message : User) (writer : option Writer) : res Writer :=
  delimited User_encode message writer.

Definition User_switch (_depth field wireType : Z) (message : User) (reader : Reader)
    : option (res (User * Reader)) :=
  match field with
  | 1 => when_wire wireType 0 (dec_opt R_int64 long_nonzero set_User_userId message reader)
  | 2 => when_wire wireType 2 (dec_opt R_stringVerify string_present set_User_username message reader)
  | _ => None
  end.

Definition User_decode : decoder User := λ reader length _end _depth _target,
  let _depth := default 0 _depth in
  decode_with (User_switch _depth) User_push_unknown _depth User_new reader length _end _target.

Definition User_decodeDelimited (reader : Reader) : res (User * Reader) :=
  decode_delimited User_decode reader.

Definition User_verify (message : jsval) (_depth : option Z) : option string :=
  verify_object message _depth (λ depth,
  check message "userId" (expect isLongLike "userId: integer|Long expected") (
  check message "username" (expect isString "username: string expected") (
  None))).

Definition User_fromObject (object : jsval) (_depth : option Z) : res User :=
  from_object ".api.im.v1.User" object _depth (λ depth,
  let message := User_new in
  let! message := from_field object "userId" (from_long false) set_User_userId message in
  let! message := from_field object "username" from_string set_User_username message in
  Ok message).

Definition User_toObject (message : User) (options : Options) (_depth : option Z) : res jsval :=
  to_object _depth (λ depth,
  let object := [] in
  let object := if defaults options then
      put "username" (VStr "") (put "userId" (long_default options false) object)
    else object in
  let object := put_own "userId" (to_long options false) (User_userId message) object in
  let object := put_own "username" VStr (User_username message) object in
  Ok object).

Definition User_toJSON (message : User) : res jsval := User_toObject message toJSONOptions None.

Definition User_getTypeUrl (prefix : option string) : string :=
  default "type.googleapis.com"%string prefix +:+ "/api.im.v1.User".

(** ** [SearchUsersReply] *)

Record SearchUsersReply := mkSearchUsersReply {
  SearchUsersReply_users : list User;
  SearchUsersReply_unknowns : option (list bytes);
}.

Definition SearchUsersReply_new : SearchUsersReply :=
  mkSearchUsersReply [] None.

Definition set_SearchUsersReply_users (v : list User) (m : SearchUsersReply) : SearchUsersReply :=
  mkSearchUsersReply v (SearchUsersReply_unknowns m).
Definition SearchUsersReply_push_unknown (b : bytes) (m : SearchUsersReply) : SearchUsersReply :=
  mkSearchUsersReply (SearchUsersReply_users m) (Some (default [] (SearchUsersReply_unknowns m) ++ [b])).

Definition SearchUsersReply_encode (message : SearchUsersReply) (writer : option Writer) (_depth : option Z) : res Writer :=
  let writer := default W_create writer in
  let _depth := default 0 _depth in
  depth_check util_recursionLimit _depth (
    let! writer := nested_all 10 User_encode _depth (SearchUsersReply_users message) writer in
    Ok (put_unknowns (SearchUsersReply_unknowns message) writer)).

Definition SearchUsersReply_encodeDelimited (message : SearchUsersReply) (writer : option Writer) : res Writer :=
  delimited SearchUsersReply_encode message writer.

Definition SearchUsersReply_switch (_depth field wireType : Z) (message : SearchUsersReply) (reader : Reader)
    : option (res (SearchUsersReply * Reader)) :=
  match field with
  | 1 => when_wire wireType 2 (dec_push User_decode _depth SearchUsersReply_users set_SearchUsersReply_users message reader)
  | _ => None
  end.

Definition SearchUsersReply_decode : decoder SearchUsersReply := λ reader length _end _depth _target,
  let _depth := default 0 _depth in
  decode_with (SearchUsersReply_switch _depth) SearchUsersReply_push_unknown _depth SearchUsersReply_new reader length _end _target.

Definition SearchUsersReply_decodeDelimited (reader : Reader) : res (SearchUsersReply * Reader) :=
  decode_delimited SearchUsersReply_decode reader.

Definition SearchUsersReply_verify (message : jsval) (_depth : option Z) : option string :=
  verify_object message _depth (λ depth,
  check message "users" (expect_array "users" (verify_nested "users" User_verify depth)) (
  None)).

Definition SearchUsersReply_fromObject (object : jsval) (_depth : option Z) : res SearchUsersReply :=
  from_object ".api.im.v1.SearchUsersReply" object _depth (λ depth,
  let message := SearchUsersReply_new in
  let! message := from_array ".api.im.v1.SearchUsersReply" object "users" (from_nested ".api.im.v1.SearchUsersReply" "users" User_fromObject depth) set_SearchUsersReply_users message in
  Ok message).

Definition SearchUsersReply_toObject (message : SearchUsersReply) (options : Options) (_depth : option Z) : res jsval :=
  to_object _depth (λ depth,
  let object := [] in
  let object := if arrays options || defaults options then put "users" (VArr []) object else object in
  let! object := put_msgs options "users" User_toObject depth (SearchUsersReply_users message) object in
  Ok object).

Definition SearchUsersReply_toJSON (message : SearchUsersReply) : res jsval := SearchUsersReply_toObject message toJSONOptions None.

Definition SearchUsersReply_getTypeUrl (prefix : option string) : string :=
  default "type.googleapis.com"%string prefix +:+ "/api.im.v1.SearchUsersReply".

(** ** [GetUserPresenceRequest] *)

Record GetUserPresenceRequest := mkGetUserPresenceRequest {
  GetUserPresenceRequest_userId : option long;
  GetUserPresenceRequest_unknowns : option (list bytes);
}.

Definition GetUserPresenceRequest_new : GetUserPresenceRequest :=
  mkGetUserPresenceRequest None None.

Definition set_GetUserPresenceRequest_userId (v : option long) (m : GetUserPresenceRequest) : GetUserPresenceRequest :=
  mkGetUserPresenceRequest v (GetUserPresenceRequest_unknowns m).
Definition GetUserPresenceRequest_push_unknown (b : bytes) (m : GetUserPresenceRequest) : GetUserPresenceRequest :=
  mkGetUserPresenceRequest (GetUserPresenceRequest_userId m) (Some (default [] (GetUserPresenceRequest_unknowns m) ++ [b])).

Definition GetUserPresenceRequest_encode (message : GetUserPresenceRequest) (writer : option Writer) (_depth : option Z) : res Writer :=
  let writer := default W_create writer in
  let _depth := default 0 _depth in
  depth_check util_recursionLimit _depth (
    let writer := own (GetUserPresenceRequest_userId message) (λ v w, W_int64 v (W_uint32 8 w)) writer in
    Ok (put_unknowns (GetUserPresenceRequest_unknowns message) writer)).

Definition GetUserPresenceRequest_encodeDelimited (message : GetUserPresenceRequest) (writer : option Writer) : res Writer :=
  delimited GetUserPresenceRequest_encode message writer.

Definition GetUserPresenceRequest_switch (_depth field wireType : Z) (message : GetUserPresenceRequest) (reader : Reader)
    : option (res (GetUserPresenceRequest * Reader)) :=
  match field with
  | 1 => when_wire wireType 0 (dec_opt R_int64 long_nonzero set_GetUserPresenceRequest_userId message reader)
  | _ => None
  end.

Definition GetUserPresenceRequest_decode : decoder GetUserPresenceRequest := λ reader length _end _depth _target,
  let _depth := default 0 _depth in
  decode_with (GetUserPresenceRequest_switch _depth) GetUserPresenceRequest_push_unknown _depth GetUserPresenceRequest_new reader length _end _target.

Definition GetUserPresenceRequest_decodeDelimited (reader : Reader) : res (GetUserPresenceRequest * Reader) :=
  decode_delimited GetUserPresenceRequest_decode reader.

Definition GetUserPresenceRequest_verify (message : jsval) (_depth : option Z) : option string :=
  verify_object message _depth (λ depth,
  check message "userId" (expect isLongLike "userId: integer|Long expected") (
  None)).

Definition GetUserPresenceRequest_fromObject (object : jsval) (_depth : option Z) : res GetUserPresenceRequest :=
  from_object ".api.im.v1.GetUserPresenceRequest" object _depth (λ depth,
  let message := GetUserPresenceRequest_new in
  let! message := from_field object "userId" (from_long false) set_GetUserPresenceRequest_userId message in
  Ok message).

Definition GetUserPresenceRequest_toObject (message : GetUserPresenceRequest) (options : Options) (_depth : option Z) : res jsval :=
  to_object _depth (λ depth,
  let object := [] in
  let object := if defaults options then
      put "userId" (long_default options false) object
    else object in
  let object := put_own "userId" (to_long options false) (GetUserPresenceRequest_userId message) object in
  Ok object).

Definition GetUserPresenceRequest_toJSON (message : GetUserPresenceRequest) : res jsval := GetUserPresenceRequest_toObject message toJSONOptions None.

Definition GetUserPresenceRequest_getTypeUrl (prefix : option string) : string :=
  default "type.googleapis.com"%string prefix +:+ "/api.im.v1.GetUserPresenceRequest".

(** ** [GetUserPresenceReply] *)

Record GetUserPresenceReply := mkGetUserPresenceReply {
  GetUserPresenceReply_userId : option long;
  GetUserPresenceReply_online : option bool;
  GetUserPresenceReply_unknowns : option (list bytes);
}.

Definition GetUserPresenceReply_new : GetUserPresenceReply :=
  mkGetUserPresenceReply None None None.

Definition set_GetUserPresenceReply_userId (v : option long) (m : GetUserPresenceReply) : GetUserPresenceReply :=
  mkGetUserPresenceReply v (GetUserPresenceReply_online m) (GetUserPresenceReply_unknowns m).
Definition set_GetUserPresenceReply_online (v : option bool) (m : GetUserPresenceReply) : GetUserPresenceReply :=
  mkGetUserPresenceReply (GetUserPresenceReply_userId m) v (GetUserPresenceReply_unknowns m).
Definition GetUserPresenceReply_push_unknown (b : bytes) (m : GetUserPresenceReply) : GetUserPresenceReply :=
  mkGetUserPresenceReply (GetUserPresenceReply_userId m) (GetUserPresenceReply_online m) (Some (default [] (GetUserPresenceReply_unknowns m) ++ [b])).

Definition GetUserPresenceReply_encode (message : GetUserPresenceReply) (writer : option Writer) (_depth : option Z) : res Writer :=
  let writer := default W_create writer in
  let _depth := default 0 _depth in
  depth_check util_recursionLimit _depth (
    let writer := own (GetUserPresenceReply_userId message) (λ v w, W_int64 v (W_uint32 8 w)) writer in
    let writer := own (GetUserPresenceReply_online message) (λ v w, W_bool v (W_uint32 16 w)) writer in
    Ok (put_unknowns (GetUserPresenceReply_unknowns message) writer)).

Definition GetUserPresenceReply_encodeDelimited (message : GetUserPresenceReply) (writer : option Writer) : res Writer :=
  delimited GetUserPresenceReply_encode message writer.

Definition GetUserPresenceReply_switch (_depth field wireType : Z) (message : GetUserPresenceReply) (reader : Reader)
    : option (res (GetUserPresenceReply * Reader)) :=
  match field with
  | 1 => when_wire wireType 0 (dec_opt R_int64 long_nonzero set_GetUserPresenceReply_userId message reader)
  | 2 => when_wire wireType 0 (dec_opt R_bool bool_present set_GetUserPresenceReply_online message reader)
  | _ => None
  end.

Definition GetUserPresenceReply_decode : decoder GetUserPresenceReply := λ reader length _end _depth _target,
  let _depth := default 0 _depth in
  decode_with (GetUserPresenceReply_switch _depth) GetUserPresenceReply_push_unknown _depth GetUserPresenceReply_new reader length _end _target.

Definition GetUserPresenceReply_decodeDelimited (reader : Reader) : res (GetUserPresenceReply * Reader) :=
  decode_delimited GetUserPresenceReply_decode reader.

Definition GetUserPresenceReply_verify (message : jsval) (_depth : option Z) : option string :=
  verify_object message _depth (λ depth,
  check message "userId" (expect isLongLike "userId: integer|Long expected") (
  check message "online" (expect isBoolean "online: boolean expected") (
  None))).

Definition GetUserPresenceReply_fromObject (object : jsval) (_depth : option Z) : res GetUserPresenceReply :=
  from_object ".api.im.v1.GetUserPresenceReply" object _depth (λ depth,
  let message := GetUserPresenceReply_new in
  let! message := from_field object "userId" (from_long false) set_GetUserPresenceReply_userId message in
  let! message := from_field object "online" from_bool set_GetUserPresenceReply_online message in
  Ok message).

Definition GetUserPresenceReply_toObject (message : GetUserPresenceReply) (options : Options) (_depth : option Z) : res jsval :=
  to_object _depth (λ depth,
  let object := [] in
  let object := if defaults options then
      put "online" (VBool false) (put "userId" (long_default options false) object)
    else object in
  let object := put_own "userId" (to_long options false) (GetUserPresenceReply_userId message) object in
  let object := put_own "online" VBool (GetUserPresenceReply_online message) object in
  Ok object).

Definition GetUserPresenceReply_toJSON (message : GetUserPresenceReply) : res jsval := GetUserPresenceReply_toObject message toJSONOptions None.

Definition GetUserPresenceReply_getTypeUrl (prefix : option string) : string :=
  default "type.googleapis.com"%string prefix +:+ "/api.im.v1.GetUserPresenceReply".

End Messages.
