(* ===== verification/ApiGroups.v ===== *)
(** * The conversation, file and group classes ([web/app/lib/proto/im.js])

    The classes of [conversation.proto], [file.proto] and [group.proto]: per class the record of its
    fields, [encode], [decode] and their delimited forms, [verify],
    [fromObject], [toObject], [toJSON] and [getTypeUrl].  The conventions are
    those of [ProtoMessages] and [ProtoConvert]. *)

From S2P Require Import Prelude JsNum JsMap ProtoRuntime ProtoObjects.
Open Scope Z_scope.

Section Messages.
Context {RT : Runtime} {CV : Conversions}.

(** ** [ListConversationsRequest] *)

Record ListConversationsRequest := mkListConversationsRequest {
  ListConversationsRequest_limit : option Z;
  ListConversationsRequest_offset : option long;
  ListConversationsRequest_unknowns : option (list bytes);
}.

Definition ListConversationsRequest_new : ListConversationsRequest :=
  mkListConversationsRequest None None None.

Definition set_ListConversationsRequest_limit (v : option Z) (m : ListConversationsRequest) : ListConversationsRequest :=
  mkListConversationsRequest v (ListConversationsRequest_offset m) (ListConversationsRequest_unknowns m).
Definition set_ListConversationsRequest_offset (v : option long) (m : ListConversationsRequest) : ListConversationsRequest :=
  mkListConversationsRequest (ListConversationsRequest_limit m) v (ListConversationsRequest_unknowns m).
Definition ListConversationsRequest_push_unknown (b : bytes) (m : ListConversationsRequest) : ListConversationsRequest :=
  mkListConversationsRequest (ListConversationsRequest_limit m) (ListConversationsRequest_offset m) (Some (default [] (ListConversationsRequest_unknowns m) ++ [b])).

Definition ListConversationsRequest_encode (message : ListConversationsRequest) (writer : option Writer) (_depth : option Z) : res Writer :=
  let writer := default W_create writer in
  let _depth := default 0 _depth in
  depth_check util_recursionLimit _depth (
    let writer := own (ListConversationsRequest_limit message) (λ v w, W_int32 v (W_uint32 8 w)) writer in
    let writer := own (ListConversationsRequest_offset message) (λ v w, W_int64 v (W_uint32 16 w)) writer in
    Ok (put_unknowns (ListConversationsRequest_unknowns message) writer)).

Definition ListConversationsRequest_encodeDelimited (message : ListConversationsRequest) (writer : option Writer) : res Writer :=
  delimited ListConversationsRequest_encode message writer.

Definition ListConversationsRequest_switch (_depth field wireType : Z) (message : ListConversationsRequest) (reader : Reader)
    : option (res (ListConversationsRequest * Reader)) :=
  match field with
  | 1 => when_wire wireType 0 (dec_opt R_int32 int32_present set_ListConversationsRequest_limit message reader)
  | 2 => when_wire wireType 0 (dec_opt R_int64 long_nonzero set_ListConversationsRequest_offset message reader)
  | _ => None
  end.

Definition ListConversationsRequest_decode : decoder ListConversationsRequest := λ reader length _end _depth _target,
  let _depth := default 0 _depth in
  decode_with (ListConversationsRequest_switch _depth) ListConversationsRequest_push_unknown _depth ListConversationsRequest_new reader length _end _target.

Definition ListConversationsRequest_decodeDelimited (reader : Reader) : res (ListConversationsRequest * Reader) :=
  decode_delimited ListConversationsRequest_decode reader.

Definition ListConversationsRequest_verify (message : jsval) (_depth : option Z) : option string :=
  verify_object message _depth (λ depth,
  check message "limit" (expect isInteger "limit: integer expected") (
  check message "offset" (expect isLongLike "offset: integer|Long expected") (
  None))).

Definition ListConversationsRequest_fromObject (object : jsval) (_depth : option Z) : res ListConversationsRequest :=
  from_object ".api.im.v1.ListConversationsRequest" object _depth (λ depth,
  let message := ListConversationsRequest_new in
  let! message := from_field object "limit" from_int32 set_ListConversationsRequest_limit message in
  let! message := from_field object "offset" (from_long false) set_ListConversationsRequest_offset message in
  Ok message).

Definition ListConversationsRequest_toObject (message : ListConversationsRequest) (options : Options) (_depth : option Z) : res jsval :=
  to_object _depth (λ depth,
  let object := [] in
  let object := if defaults options then
      put "offset" (long_default options false) (put "limit" (VNum 0) object)
    else object in
  let object := put_own "limit" VNum (ListConversationsRequest_limit message) object in
  let object := put_own "offset" (to_long options false) (ListConversationsRequest_offset message) object in
  Ok object).

Definition ListConversationsRequest_toJSON (message : ListConversationsRequest) : res jsval := ListConversationsRequest_toObject message toJSONOptions None.

Definition ListConversationsRequest_getTypeUrl (prefix : option string) : string :=
  default "type.googleapis.com"%string prefix +:+ "/api.im.v1.ListConversationsRequest".

(** ** [Conversation] *)

Record Conversation := mkConversation {
  Conversation_topic : option string;
  Conversation_type : option string;
  Conversation_peerId : option long;
  Conversation_peerUsername : option string;
  Conversation_lastMsgPreview : option string;
  Conversation_lastMsgAt : option long;
  Conversation_lastSeq : option long;
  Conversation_lastReadSeq : option long;
  Conversation_unreadCount : option Z;
  Conversation_unknowns : option (list bytes);
}.

Definition Conversation_new : Conversation :=
  mkConversation None None None None None None None None None None.

Definition set_Conversation_topic (v : option string) (m : Conversation) : Conversation :=
  mkConversation v (Conversation_type m) (Conversation_peerId m) (Conversation_peerUsername m) (Conversation_lastMsgPreview m) (Conversation_lastMsgAt m) (Conversation_lastSeq m) (Conversation_lastReadSeq m) (Conversation_unreadCount m) (Conversation_unknowns m).
Definition set_Conversation_type (v : option string) (m : Conversation) : Conversation :=
  mkConversation (Conversation_topic m) v (Conversation_peerId m) (Conversation_peerUsername m) (Conversation_lastMsgPreview m) (Conversation_lastMsgAt m) (Conversation_lastSeq m) (Conversation_lastReadSeq m) (Conversation_unreadCount m) (Conversation_unknowns m).
Definition set_Conversation_peerId (v : option long) (m : Conversation) : Conversation :=
  mkConversation (Conversation_topic m) (Conversation_type m) v (Conversation_peerUsername m) (Conversation_lastMsgPreview m) (Conversation_lastMsgAt m) (Conversation_lastSeq m) (Conversation_lastReadSeq m) (Conversation_unreadCount m) (Conversation_unknowns m).
Definition set_Conversation_peerUsername (v : option string) (m : Conversation) : Conversation :=
  mkConversation (Conversation_topic m) (Conversation_type m) (Conversation_peerId m) v (Conversation_lastMsgPreview m) (Conversation_lastMsgAt m) (Conversation_lastSeq m) (Conversation_lastReadSeq m) (Conversation_unreadCount m) (Conversation_unknowns m).
Definition set_Conversation_lastMsgPreview (v : option string) (m : Conversation) : Conversation :=
  mkConversation (Conversation_topic m) (Conversation_type m) (Conversation_peerId m) (Conversation_peerUsername m) v (Conversation_lastMsgAt m) (Conversation_lastSeq m) (Conversation_lastReadSeq m) (Conversation_unreadCount m) (Conversation_unknowns m).
Definition set_Conversation_lastMsgAt (v : option long) (m : Conversation) : Conversation :=
  mkConversation (Conversation_topic m) (Conversation_type m) (Conversation_peerId m) (Conversation_peerUsername m) (Conversation_lastMsgPreview m) v (Conversation_lastSeq m) (Conversation_lastReadSeq m) (Conversation_unreadCount m) (Conversation_unknowns m).
Definition set_Conversation_lastSeq (v : option long) (m : Conversation) : Conversation :=
  mkConversation (Conversation_topic m) (Conversation_type m) (Conversation_peerId m) (Conversation_peerUsername m) (Conversation_lastMsgPreview m) (Conversation_lastMsgAt m) v (Conversation_lastReadSeq m) (Conversation_unreadCount m) (Conversation_unknowns m).
Definition set_Conversation_lastReadSeq (v : option long) (m : Conversation) : Conversation :=
  mkConversation (Conversation_topic m) (Conversation_type m) (Conversation_peerId m) (Conversation_peerUsername m) (Conversation_lastMsgPreview m) (Conversation_lastMsgAt m) (Conversation_lastSeq m) v (Conversation_unreadCount m) (Conversation_unknowns m).
Definition set_Conversation_unreadCount (v : option Z) (m : Conversation) : Conversation :=
  mkConversation (Conversation_topic m) (Conversation_type m) (Conversation_peerId m) (Conversation_peerUsername m) (Conversation_lastMsgPreview m) (Conversation_lastMsgAt m) (Conversation_lastSeq m) (Conversation_lastReadSeq m) v (Conversation_unknowns m).
Definition Conversation_push_unknown (b : bytes) (m : Conversation) : Conversation :=
  mkConversation (Conversation_topic m) (Conversation_type m) (Conversation_peerId m) (Conversation_peerUsername m) (Conversation_lastMsgPreview m) (Conversation_lastMsgAt m) (Conversation_lastSeq m) (Conversation_lastReadSeq m) (Conversation_unreadCount m) (Some (default [] (Conversation_unknowns m) ++ [b])).

Definition Conversation_encode (message : Conversation) (writer : option Writer) (_depth : option Z) : res Writer :=
  let writer := default W_create writer in
  let _depth := default 0 _depth in
  depth_check util_recursionLimit _depth (
    let writer := own (Conversation_topic message) (λ v w, W_string v (W_uint32 10 w)) writer in
    let writer := own (Conversation_type message) (λ v w, W_string v (W_uint32 18 w)) writer in
    let writer := own (Conversation_peerId message) (λ v w, W_int64 v (W_uint32 24 w)) writer in
    let writer := own (Conversation_peerUsername message) (λ v w, W_string v (W_uint32 34 w)) writer in
    let writer := own (Conversation_lastMsgPreview message) (λ v w, W_string v (W_uint32 42 w)) writer in
    let writer := own (Conversation_lastMsgAt message) (λ v w, W_int64 v (W_uint32 48 w)) writer in
    let writer := own (Conversation_lastSeq message) (λ v w, W_uint64 v (W_uint32 56 w)) writer in
    let writer := own (Conversation_lastReadSeq message) (λ v w, W_uint64 v (W_uint32 64 w)) writer in
    let writer := own (Conversation_unreadCount message) (λ v w, W_int32 v (W_uint32 72 w)) writer in
    Ok (put_unknowns (Conversation_unknowns message) writer)).

Definition Conversation_encodeDelimited (message : Conversation) (writer : option Writer) : res Writer :=
  delimited Conversation_encode message writer.

Definition Conversation_switch (_depth field wireType : Z) (message : Conversation) (reader : Reader)
    : option (res (Conversation * Reader)) :=
  match field with
  | 1 => when_wire wireType 2 (dec_opt R_stringVerify string_present set_Conversation_topic message reader)
  | 2 => when_wire wireType 2 (dec_opt R_stringVerify string_present set_Conversation_type message reader)
  | 3 => when_wire wireType 0 (dec_opt R_int64 long_nonzero set_Conversation_peerId message reader)
  | 4 => when_wire wireType 2 (dec_opt R_stringVerify string_present set_Conversation_peerUsername message reader)
  | 5 => when_wire wireType 2 (dec_opt R_stringVerify string_present set_Conversation_lastMsgPreview message reader)
  | 6 => when_wire wireType 0 (dec_opt R_int64 long_nonzero set_Conversation_lastMsgAt message reader)
  | 7 => when_wire wireType 0 (dec_opt R_uint64 long_nonzero set_Conversation_lastSeq message reader)
  | 8 => when_wire wireType 0 (dec_opt R_uint64 long_nonzero set_Conversation_lastReadSeq message reader)
  | 9 => when_wire wireType 0 (dec_opt R_int32 int32_present set_Conversation_unreadCount message reader)
  | _ => None
  end.

Definition Conversation_decode : decoder Conversation := λ reader length _end _depth _target,
  let _depth := default 0 _depth in
  decode_with (Conversation_switch _depth) Conversation_push_unknown _depth Conversation_new reader length _end _target.

Definition Conversation_decodeDelimited (reader : Reader) : res (Conversation * Reader) :=
  decode_delimited Conversation_decode reader.

Definition Conversation_verify (message : jsval) (_depth : option Z) : option string :=
  verify_object message _depth (λ depth,
  check message "topic" (expect isString "topic: string expected") (
  check message "type" (expect isString "type: string expected") (
  check message "peerId" (expect isLongLike "peerId: integer|Long expected") (
  check message "peerUsername" (expect isString "peerUsername: string expected") (
  check message "lastMsgPreview" (expect isString "lastMsgPreview: string expected") (
  check message "lastMsgAt" (expect isLongLike "lastMsgAt: integer|Long expected") (
  check message "lastSeq" (expect isLongLike "lastSeq: integer|Long expected") (
  check message "lastReadSeq" (expect isLongLike "lastReadSeq: integer|Long expected") (
  check message "unreadCount" (expect isInteger "unreadCount: integer expected") (
  None)))))))))).

Definition Conversation_fromObject (object : jsval) (_depth : option Z) : res Conversation :=
  from_object ".api.im.v1.Conversation" object _depth (λ depth,
  let message := Conversation_new in
  let! message := from_field object "topic" from_string set_Conversation_topic message in
  let! message := from_field object "type" from_string set_Conversation_type message in
  let! message := from_field object "peerId" (from_long false) set_Conversation_peerId message in
  let! message := from_field object "peerUsername" from_string set_Conversation_peerUsername message in
  let! message := from_field object "lastMsgPreview" from_string set_Conversation_lastMsgPreview message in
  let! message := from_field object "lastMsgAt" (from_long false) set_Conversation_lastMsgAt message in
  let! message := from_field object "lastSeq" (from_long true) set_Conversation_lastSeq message in
  let! message := from_field object "lastReadSeq" (from_long true) set_Conversation_lastReadSeq message in
  let! message := from_field object "unreadCount" from_int32 set_Conversation_unreadCount message in
  Ok message).

Definition Conversation_toObject (message : Conversation) (options : Options) (_depth : option Z) : res jsval :=
  to_object _depth (λ depth,
  let object := [] in
  let object := if defaults options then
      put "unreadCount" (VNum 0) (put "lastReadSeq" (long_default options true) (put "lastSeq" (long_default options true) (put "lastMsgAt" (long_default options false) (put "lastMsgPreview" (VStr "") (put "peerUsername" (VStr "") (put "peerId" (long_default options false) (put "type" (VStr "") (put "topic" (VStr "") object))))))))
    else object in
  let object := put_own "topic" VStr (Conversation_topic message) object in
  let object := put_own "type" VStr (Conversation_type message) object in
  let object := put_own "peerId" (to_long options false) (Conversation_peerId message) object in
  let object := put_own "peerUsername" VStr (Conversation_peerUsername message) object in
  let object := put_own "lastMsgPreview" VStr (Conversation_lastMsgPreview message) object in
  let object := put_own "lastMsgAt" (to_long options false) (Conversation_lastMsgAt message) object in
  let object := put_own "lastSeq" (to_long options true) (Conversation_lastSeq message) object in
  let object := put_own "lastReadSeq" (to_long options true) (Conversation_lastReadSeq message) object in
  let object := put_own "unreadCount" VNum (Conversation_unreadCount message) object in
  Ok object).

Definition Conversation_toJSON (message : Conversation) : res jsval := Conversation_toObject message toJSONOptions None.

Definition Conversation_getTypeUrl (prefix : option string) : string :=
  default "type.googleapis.com"%string prefix +:+ "/api.im.v1.Conversation".

(** ** [ListConversationsReply] *)

Record ListConversationsReply := mkListConversationsReply {
  ListConversationsReply_conversations : list Conversation;
  ListConversationsReply_hasMore : option bool;
  ListConversationsReply_unknowns : option (list bytes);
}.

Definition ListConversationsReply_new : ListConversationsReply :=
  mkListConversationsReply [] None None.

Definition set_ListConversationsReply_conversations (v : list Conversation) (m : ListConversationsReply) : ListConversationsReply :=
  mkListConversationsReply v (ListConversationsReply_hasMore m) (ListConversationsReply_unknowns m).
Definition set_ListConversationsReply_hasMore (v : option bool) (m : ListConversationsReply) : ListConversationsReply :=
  mkListConversationsReply (ListConversationsReply_conversations m) v (ListConversationsReply_unknowns m).
Definition ListConversationsReply_push_unknown (b : bytes) (m : ListConversationsReply) : ListConversationsReply :=
  mkListConversationsReply (ListConversationsReply_conversations m) (ListConversationsReply_hasMore m) (Some (default [] (ListConversationsReply_unknowns m) ++ [b])).

Definition ListConversationsReply_encode (message : ListConversationsReply) (writer : option Writer) (_depth : option Z) : res Writer :=
  let writer := default W_create writer in
  let _depth := default 0 _depth in
  depth_check util_recursionLimit _depth (
    let! writer := nested_all 10 Conversation_encode _depth (ListConversationsReply_conversations message) writer in
    let writer := own (ListConversationsReply_hasMore message) (λ v w, W_bool v (W_uint32 16 w)) writer in
    Ok (put_unknowns (ListConversationsReply_unknowns message) writer)).

Definition ListConversationsReply_encodeDelimited (message : ListConversationsReply) (writer : option Writer) : res Writer :=
  delimited ListConversationsReply_encode message writer.

Definition ListConversationsReply_switch (_depth field wireType : Z) (message : ListConversationsReply) (reader : Reader)
    : option (res (ListConversationsReply * Reader)) :=
  match field with
  | 1 => when_wire wireType 2 (dec_push Conversation_decode _depth ListConversationsReply_conversations set_ListConversationsReply_conversations message reader)
  | 2 => when_wire wireType 0 (dec_opt R_bool bool_present set_ListConversationsReply_hasMore message reader)
  | _ => None
  end.

Definition ListConversationsReply_decode : decoder ListConversationsReply := λ reader length _end _depth _target,
  let _depth := default 0 _depth in
  decode_with (ListConversationsReply_switch _depth) ListConversationsReply_push_unknown _depth ListConversationsReply_new reader length _end _target.

Definition ListConversationsReply_decodeDelimited (reader : Reader) : res (ListConversationsReply * Reader) :=
  decode_delimited ListConversationsReply_decode reader.

Definition ListConversationsReply_verify (message : jsval) (_depth : option Z) : option string :=
  verify_object message _depth (λ depth,
  check message "conversations" (expect_array "conversations" (verify_nested "conversations" Conversation_verify depth)) (
  check message "hasMore" (expect isBoolean "hasMore: boolean expected") (
  None))).

Definition ListConversationsReply_fromObject (object : jsval) (_depth : option Z) : res ListConversationsReply :=
  from_object ".api.im.v1.ListConversationsReply" object _depth (λ depth,
  let message := ListConversationsReply_new in
  let! message := from_array ".api.im.v1.ListConversationsReply" object "conversations" (from_nested ".api.im.v1.ListConversationsReply" "conversations" Conversation_fromObject depth) set_ListConversationsReply_conversations message in
  let! message := from_field object "hasMore" from_bool set_ListConversationsReply_hasMore message in
  Ok message).

Definition ListConversationsReply_toObject (message : ListConversationsReply) (options : Options) (_depth : option Z) : res jsval :=
  to_object _depth (λ depth,
  let object := [] in
  let object := if arrays options || defaults options then put "conversations" (VArr []) object else object in
  let object := if defaults options then
      put "hasMore" (VBool false) object
    else object in
  let! object := put_msgs options "conversations" Conversation_toObject depth (ListConversationsReply_conversations message) object in
  let object := put_own "hasMore" VBool (ListConversationsReply_hasMore message) object in
  Ok object).

Definition ListConversationsReply_toJSON (message : ListConversationsReply) : res jsval := ListConversationsReply_toObject message toJSONOptions None.

Definition ListConversationsReply_getTypeUrl (prefix : option string) : string :=
  default "type.googleapis.com"%string prefix +:+ "/api.im.v1.ListConversationsReply".

(** ** [MarkConversationReadRequest] *)

Record MarkConversationReadRequest := mkMarkConversationReadRequest {
  MarkConversationReadRequest_topic : option string;
  MarkConversationReadRequest_unknowns : option (list bytes);
}.

Definition MarkConversationReadRequest_new : MarkConversationReadRequest :=
  mkMarkConversationReadRequest None None.

Definition set_MarkConversationReadRequest_topic (v : option string) (m : MarkConversationReadRequest) : MarkConversationReadRequest :=
  mkMarkConversationReadRequest v (MarkConversationReadRequest_unknowns m).
Definition MarkConversationReadRequest_push_unknown (b : bytes) (m : MarkConversationReadRequest) : MarkConversationReadRequest :=
  mkMarkConversationReadRequest (MarkConversationReadRequest_topic m) (Some (default [] (MarkConversationReadRequest_unknowns m) ++ [b])).

Definition MarkConversationReadRequest_encode (message : MarkConversationReadRequest) (writer : option Writer) (_depth : option Z) : res Writer :=
  let writer := default W_create writer in
  let _depth := default 0 _depth in
  depth_check util_recursionLimit _depth (
    let writer := own (MarkConversationReadRequest_topic message) (λ v w, W_string v (W_uint32 10 w)) writer in
    Ok (put_unknowns (MarkConversationReadRequest_unknowns message) writer)).

Definition MarkConversationReadRequest_encodeDelimited (message : MarkConversationReadRequest) (writer : option Writer) : res Writer :=
  delimited MarkConversationReadRequest_encode message writer.

Definition MarkConversationReadRequest_switch (_depth field wireType : Z) (message : MarkConversationReadRequest) (reader : Reader)
    : option (res (MarkConversationReadRequest * Reader)) :=
  match field with
  | 1 => when_wire wireType 2 (dec_opt R_stringVerify string_present set_MarkConversationReadRequest_topic message reader)
  | _ => None
  end.

Definition MarkConversationReadRequest_decode : decoder MarkConversationReadRequest := λ reader length _end _depth _target,
  let _depth := default 0 _depth in
  decode_with (MarkConversationReadRequest_switch _depth) MarkConversationReadRequest_push_unknown _depth MarkConversationReadRequest_new reader length _end _target.

Definition MarkConversationReadRequest_decodeDelimited (reader : Reader) : res (MarkConversationReadRequest * Reader) :=
  decode_delimited MarkConversationReadRequest_decode reader.

Definition MarkConversationReadRequest_verify (message : jsval) (_depth : option Z) : option string :=
  verify_object message _depth (λ depth,
  check message "topic" (expect isString "topic: string expected") (
  None)).

Definition MarkConversationReadRequest_fromObject (object : jsval) (_depth : option Z) : res MarkConversationReadRequest :=
  from_object ".api.im.v1.MarkConversationReadRequest" object _depth (λ depth,
  let message := MarkConversationReadRequest_new in
  let! message := from_field object "topic" from_string set_MarkConversationReadRequest_topic message in
  Ok message).

Definition MarkConversationReadRequest_toObject (message : MarkConversationReadRequest) (options : Options) (_depth : option Z) : res jsval :=
  to_object _depth (λ depth,
  let object := [] in
  let object := if defaults options then
      put "topic" (VStr "") object
    else object in
  let object := put_own "topic" VStr (MarkConversationReadRequest_topic message) object in
  Ok object).

Definition MarkConversationReadRequest_toJSON (message : MarkConversationReadRequest) : res jsval := MarkConversationReadRequest_toObject message toJSONOptions None.

Definition MarkConversationReadRequest_getTypeUrl (prefix : option string) : string :=
  default "type.googleapis.com"%string prefix +:+ "/api.im.v1.MarkConversationReadRequest".

(** ** [UploadFileRequest] *)

Record UploadFileRequest := mkUploadFileRequest {
  UploadFileRequest_data : option bytes;
  UploadFileRequest_name : option string;
  UploadFileRequest_mime : option string;
  UploadFileRequest_unknowns : option (list bytes);
}.

Definition UploadFileRequest_new : UploadFileRequest :=
  mkUploadFileRequest None None None None.

Definition set_UploadFileRequest_data (v : option bytes) (m : UploadFileRequest) : UploadFileRequest :=
  mkUploadFileRequest v (UploadFileRequest_name m) (UploadFileRequest_mime m) (UploadFileRequest_unknowns m).
Definition set_UploadFileRequest_name (v : option string) (m : UploadFileRequest) : UploadFileRequest :=
  mkUploadFileRequest (UploadFileRequest_data m) v (UploadFileRequest_mime m) (UploadFileRequest_unknowns m).
Definition set_UploadFileRequest_mime (v : option string) (m : UploadFileRequest) : UploadFileRequest :=
  mkUploadFileRequest (UploadFileRequest_data m) (UploadFileRequest_name m) v (UploadFileRequest_unknowns m).
Definition UploadFileRequest_push_unknown (b : bytes) (m : UploadFileRequest) : UploadFileRequest :=
  mkUploadFileRequest (UploadFileRequest_data m) (UploadFileRequest_name m) (UploadFileRequest_mime m) (Some (default [] (UploadFileRequest_unknowns m) ++ [b])).

Definition UploadFileRequest_encode (message : UploadFileRequest) (writer : option Writer) (_depth : option Z) : res Writer :=
  let writer := default W_create writer in
  let _depth := default 0 _depth in
  depth_check util_recursionLimit _depth (
    let writer := own (UploadFileRequest_data message) (λ v w, W_bytes v (W_uint32 10 w)) writer in
    let writer := own (UploadFileRequest_name message) (λ v w, W_string v (W_uint32 18 w)) writer in
    let writer := own (UploadFileRequest_mime message) (λ v w, W_string v (W_uint32 26 w)) writer in
    Ok (put_unknowns (UploadFileRequest_unknowns message) writer)).

Definition UploadFileRequest_encodeDelimited (message : UploadFileRequest) (writer : option Writer) : res Writer :=
  delimited UploadFileRequest_encode message writer.

Definition UploadFileRequest_switch (_depth field wireType : Z) (message : UploadFileRequest) (reader : Reader)
    : option (res (UploadFileRequest * Reader)) :=
  match field with
  | 1 => when_wire wireType 2 (dec_opt R_bytes bytes_present set_UploadFileRequest_data message reader)
  | 2 => when_wire wireType 2 (dec_opt R_stringVerify string_present set_UploadFileRequest_name message reader)
  | 3 => when_wire wireType 2 (dec_opt R_stringVerify string_present set_UploadFileRequest_mime message reader)
  | _ => None
  end.

Definition UploadFileRequest_decode : decoder UploadFileRequest := λ reader length _end _depth _target,
  let _depth := default 0 _depth in
  decode_with (UploadFileRequest_switch _depth) UploadFileRequest_push_unknown _depth UploadFileRequest_new reader length _end _target.

Definition UploadFileRequest_decodeDelimited (reader : Reader) : res (UploadFileRequest * Reader) :=
  decode_delimited UploadFileRequest_decode reader.

Definition UploadFileRequest_verify (message : jsval) (_depth : option Z) : option string :=
  verify_object message _depth (λ depth,
  check message "data" (expect isBuffer "data: buffer expected") (
  check message "name" (expect isString "name: string expected") (
  check message "mime" (expect isString "mime: string expected") (
  None)))).

Definition UploadFileRequest_fromObject (object : jsval) (_depth : option Z) : res UploadFileRequest :=
  from_object ".api.im.v1.UploadFileRequest" object _depth (λ depth,
  let message := UploadFileRequest_new in
  let! message := from_field object "data" from_bytes set_UploadFileRequest_data message in
  let! message := from_field object "name" from_string set_UploadFileRequest_name message in
  let! message := from_field object "mime" from_string set_UploadFileRequest_mime message in
  Ok message).

Definition UploadFileRequest_toObject (message : UploadFileRequest) (options : Options) (_depth : option Z) : res jsval :=
  to_object _depth (λ depth,
  let object := [] in
  let object := if defaults options then
      put "mime" (VStr "") (put "name" (VStr "") (put "data" (bytes_default options) object))
    else object in
  let object := put_own "data" (to_bytes options) (UploadFileRequest_data message) object in
  let object := put_own "name" VStr (UploadFileRequest_name message) object in
  let object := put_own "mime" VStr (UploadFileRequest_mime message) object in
  Ok object).

Definition UploadFileRequest_toJSON (message : UploadFileRequest) : res jsval := UploadFileRequest_toObject message toJSONOptions None.

Definition UploadFileRequest_getTypeUrl (prefix : option string) : string :=
  default "type.googleapis.com"%string prefix +:+ "/api.im.v1.UploadFileRequest".

(** ** [UploadFileReply] *)

Record UploadFileReply := mkUploadFileReply {
  UploadFileReply_fileId : option string;
  UploadFileReply_url : option string;
  UploadFileReply_name : option string;
  UploadFileReply_size : option long;
  UploadFileReply_mime : option string;
  UploadFileReply_unknowns : option (list bytes);
}.

Definition UploadFileReply_new : UploadFileReply :=
  mkUploadFileReply None None None None None None.

Definition set_UploadFileReply_fileId (v : option string) (m : UploadFileReply) : UploadFileReply :=
  mkUploadFileReply v (UploadFileReply_url m) (UploadFileReply_name m) (UploadFileReply_size m) (UploadFileReply_mime m) (UploadFileReply_unknowns m).
Definition set_UploadFileReply_url (v : option string) (m : UploadFileReply) : UploadFileReply :=
  mkUploadFileReply (UploadFileReply_fileId m) v (UploadFileReply_name m) (UploadFileReply_size m) (UploadFileReply_mime m) (UploadFileReply_unknowns m).
Definition set_UploadFileReply_name (v : option string) (m : UploadFileReply) : UploadFileReply :=
  mkUploadFileReply (UploadFileReply_fileId m) (UploadFileReply_url m) v (UploadFileReply_size m) (UploadFileReply_mime m) (UploadFileReply_unknowns m).
Definition set_UploadFileReply_size (v : option long) (m : UploadFileReply) : UploadFileReply :=
  mkUploadFileReply (UploadFileReply_fileId m) (UploadFileReply_url m) (UploadFileReply_name m) v (UploadFileReply_mime m) (UploadFileReply_unknowns m).
Definition set_UploadFileReply_mime (v : option string) (m : UploadFileReply) : UploadFileReply :=
  mkUploadFileReply (UploadFileReply_fileId m) (UploadFileReply_url m) (UploadFileReply_name m) (UploadFileReply_size m) v (UploadFileReply_unknowns m).
Definition UploadFileReply_push_unknown (b : bytes) (m : UploadFileReply) : UploadFileReply :=
  mkUploadFileReply (UploadFileReply_fileId m) (UploadFileReply_url m) (UploadFileReply_name m) (UploadFileReply_size m) (UploadFileReply_mime m) (Some (default [] (UploadFileReply_unknowns m) ++ [b])).

Definition UploadFileReply_encode (message : UploadFileReply) (writer : option Writer) (_depth : option Z) : res Writer :=
  let writer := default W_create writer in
  let _depth := default 0 _depth in
  depth_check util_recursionLimit _depth (
    let writer := own (UploadFileReply_fileId message) (λ v w, W_string v (W_uint32 10 w)) writer in
    let writer := own (UploadFileReply_url message) (λ v w, W_string v (W_uint32 18 w)) writer in
    let writer := own (UploadFileReply_name message) (λ v w, W_string v (W_uint32 26 w)) writer in
    let writer := own (UploadFileReply_size message) (λ v w, W_int64 v (W_uint32 32 w)) writer in
    let writer := own (UploadFileReply_mime message) (λ v w, W_string v (W_uint32 42 w)) writer in
    Ok (put_unknowns (UploadFileReply_unknowns message) writer)).

Definition UploadFileReply_encodeDelimited (message : UploadFileReply) (writer : option Writer) : res Writer :=
  delimited UploadFileReply_encode message writer.

Definition UploadFileReply_switch (_depth field wireType : Z) (message : UploadFileReply) (reader : Reader)
    : option (res (UploadFileReply * Reader)) :=
  match field with
  | 1 => when_wire wireType 2 (dec_opt R_stringVerify string_present set_UploadFileReply_fileId message reader)
  | 2 => when_wire wireType 2 (dec_opt R_stringVerify string_present set_UploadFileReply_url message reader)
  | 3 => when_wire wireType 2 (dec_opt R_stringVerify string_present set_UploadFileReply_name message reader)
  | 4 => when_wire wireType 0 (dec_opt R_int64 long_nonzero set_UploadFileReply_size message reader)
  | 5 => when_wire wireType 2 (dec_opt R_stringVerify string_present set_UploadFileReply_mime message reader)
  | _ => None
  end.

Definition UploadFileReply_decode : decoder UploadFileReply := λ reader length _end _depth _target,
  let _depth := default 0 _depth in
  decode_with (UploadFileReply_switch _depth) UploadFileReply_push_unknown _depth UploadFileReply_new reader length _end _target.

Definition UploadFileReply_decodeDelimited (reader : Reader) : res (UploadFileReply * Reader) :=
  decode_delimited UploadFileReply_decode reader.

Definition UploadFileReply_verify (message : jsval) (_depth : option Z) : option string :=
  verify_object message _depth (λ depth,
  check message "fileId" (expect isString "fileId: string expected") (
  check message "url" (expect isString "url: string expected") (
  check message "name" (expect isString "name: string expected") (
  check message "size" (expect isLongLike "size: integer|Long expected") (
  check message "mime" (expect isString "mime: string expected") (
  None)))))).

Definition UploadFileReply_fromObject (object : jsval) (_depth : option Z) : res UploadFileReply :=
  from_object ".api.im.v1.UploadFileReply" object _depth (λ depth,
  let message := UploadFileReply_new in
  let! message := from_field object "fileId" from_string set_UploadFileReply_fileId message in
  let! message := from_field object "url" from_string set_UploadFileReply_url message in
  let! message := from_field object "name" from_string set_UploadFileReply_name message in
  let! message := from_field object "size" (from_long false) set_UploadFileReply_size message in
  let! message := from_field object "mime" from_string set_UploadFileReply_mime message in
  Ok message).

Definition UploadFileReply_toObject (message : UploadFileReply) (options : Options) (_depth : option Z) : res jsval :=
  to_object _depth (λ depth,
  let object := [] in
  let object := if defaults options then
      put "mime" (VStr "") (put "size" (long_default options false) (put "name" (VStr "") (put "url" (VStr "") (put "fileId" (VStr "") object))))
    else object in
  let object := put_own "fileId" VStr (UploadFileReply_fileId message) object in
  let object := put_own "url" VStr (UploadFileReply_url message) object in
  let object := put_own "name" VStr (UploadFileReply_name message) object in
  let object := put_own "size" (to_long options false) (UploadFileReply_size message) object in
  let object := put_own "mime" VStr (UploadFileReply_mime message) object in
  Ok object).

Definition UploadFileReply_toJSON (message : UploadFileReply) : res jsval := UploadFileReply_toObject message toJSONOptions None.

Definition UploadFileReply_getTypeUrl (prefix : option string) : string :=
  default "type.googleapis.com"%string prefix +:+ "/api.im.v1.UploadFileReply".

(** ** [DownloadFileRequest] *)

Record DownloadFileRequest := mkDownloadFileRequest {
  DownloadFileRequest_fileId : option string;
  DownloadFileRequest_unknowns : option (list bytes);
}.

Definition DownloadFileRequest_new : DownloadFileRequest :=
  mkDownloadFileRequest None None.

Definition set_DownloadFileRequest_fileId (v : option string) (m : DownloadFileRequest) : DownloadFileRequest :=
  mkDownloadFileRequest v (DownloadFileRequest_unknowns m).
Definition DownloadFileRequest_push_unknown (b : bytes) (m : DownloadFileRequest) : DownloadFileRequest :=
  mkDownloadFileRequest (DownloadFileRequest_fileId m) (Some (default [] (DownloadFileRequest_unknowns m) ++ [b])).

Definition DownloadFileRequest_encode (message : DownloadFileRequest) (writer : option Writer) (_depth : option Z) : res Writer :=
  let writer := default W_create writer in
  let _depth := default 0 _depth in
  depth_check util_recursionLimit _depth (
    let writer := own (DownloadFileRequest_fileId message) (λ v w, W_string v (W_uint32 10 w)) writer in
    Ok (put_unknowns (DownloadFileRequest_unknowns message) writer)).

Definition DownloadFileRequest_encodeDelimited (message : DownloadFileRequest) (writer : option Writer) : res Writer :=
  delimited DownloadFileRequest_encode message writer.

Definition DownloadFileRequest_switch (_depth field wireType : Z) (message : DownloadFileRequest) (reader : Reader)
    : option (res (DownloadFileRequest * Reader)) :=
  match field with
  | 1 => when_wire wireType 2 (dec_opt R_stringVerify string_present set_DownloadFileRequest_fileId message reader)
  | _ => None
  end.

Definition DownloadFileRequest_decode : decoder DownloadFileRequest := λ reader length _end _depth _target,
  let _depth := default 0 _depth in
  decode_with (DownloadFileRequest_switch _depth) DownloadFileRequest_push_unknown _depth DownloadFileRequest_new reader length _end _target.

Definition DownloadFileRequest_decodeDelimited (reader : Reader) : res (DownloadFileRequest * Reader) :=
  decode_delimited DownloadFileRequest_decode reader.

Definition DownloadFileRequest_verify (message : jsval) (_depth : option Z) : option string :=
  verify_object message _depth (λ depth,
  check message "fileId" (expect isString "fileId: string expected") (
  None)).

Definition DownloadFileRequest_fromObject (object : jsval) (_depth : option Z) : res DownloadFileRequest :=
  from_object ".api.im.v1.DownloadFileRequest" object _depth (λ depth,
  let message := DownloadFileRequest_new in
  let! message := from_field object "fileId" from_string set_DownloadFileRequest_fileId message in
  Ok message).

Definition DownloadFileRequest_toObject (message : DownloadFileRequest) (options : Options) (_depth : option Z) : res jsval :=
  to_object _depth (λ depth,
  let object := [] in
  let object := if defaults options then
      put "fileId" (VStr "") object
    else object in
  let object := put_own "fileId" VStr (DownloadFileRequest_fileId message) object in
  Ok object).

Definition DownloadFileRequest_toJSON (message : DownloadFileRequest) : res jsval := DownloadFileRequest_toObject message toJSONOptions None.

Definition DownloadFileRequest_getTypeUrl (prefix : option string) : string :=
  default "type.googleapis.com"%string prefix +:+ "/api.im.v1.DownloadFileRequest".

(** ** [DownloadFileReply] *)

Record DownloadFileReply := mkDownloadFileReply {
  DownloadFileReply_data : option bytes;
  DownloadFileReply_name : option string;
  DownloadFileReply_mime : option string;
  DownloadFileReply_unknowns : option (list bytes);
}.

Definition DownloadFileReply_new : DownloadFileReply :=
  mkDownloadFileReply None None None None.

Definition set_DownloadFileReply_data (v : option bytes) (m : DownloadFileReply) : DownloadFileReply :=
  mkDownloadFileReply v (DownloadFileReply_name m) (DownloadFileReply_mime m) (DownloadFileReply_unknowns m).
Definition set_DownloadFileReply_name (v : option string) (m : DownloadFileReply) : DownloadFileReply :=
  mkDownloadFileReply (DownloadFileReply_data m) v (DownloadFileReply_mime m) (DownloadFileReply_unknowns m).
Definition set_DownloadFileReply_mime (v : option string) (m : DownloadFileReply) : DownloadFileReply :=
  mkDownloadFileReply (DownloadFileReply_data m) (DownloadFileReply_name m) v (DownloadFileReply_unknowns m).
Definition DownloadFileReply_push_unknown (b : bytes) (m : DownloadFileReply) : DownloadFileReply :=
  mkDownloadFileReply (DownloadFileReply_data m) (DownloadFileReply_name m) (DownloadFileReply_mime m) (Some (default [] (DownloadFileReply_unknowns m) ++ [b])).

Definition DownloadFileReply_encode (message : DownloadFileReply) (writer : option Writer) (_depth : option Z) : res Writer :=
  let writer := default W_create writer in
  let _depth := default 0 _depth in
  depth_check util_recursionLimit _depth (
    let writer := own (DownloadFileReply_data message) (λ v w, W_bytes v (W_uint32 10 w)) writer in
    let writer := own (DownloadFileReply_name message) (λ v w, W_string v (W_uint32 18 w)) writer in
    let writer := own (DownloadFileReply_mime message) (λ v w, W_string v (W_uint32 26 w)) writer in
    Ok (put_unknowns (DownloadFileReply_unknowns message) writer)).

Definition DownloadFileReply_encodeDelimited (message : DownloadFileReply) (writer : option Writer) : res Writer :=
  delimited DownloadFileReply_encode message writer.

Definition DownloadFileReply_switch (_depth field wireType : Z) (message : DownloadFileReply) (reader : Reader)
    : option (res (DownloadFileReply * Reader)) :=
  match field with
  | 1 => when_wire wireType 2 (dec_opt R_bytes bytes_present set_DownloadFileReply_data message reader)
  | 2 => when_wire wireType 2 (dec_opt R_stringVerify string_present set_DownloadFileReply_name message reader)
  | 3 => when_wire wireType 2 (dec_opt R_stringVerify string_present set_DownloadFileReply_mime message reader)
  | _ => None
  end.

Definition DownloadFileReply_decode : decoder DownloadFileReply := λ reader length _end _depth _target,
  let _depth := default 0 _depth in
  decode_with (DownloadFileReply_switch _depth) DownloadFileReply_push_unknown _depth DownloadFileReply_new reader length _end _target.

Definition DownloadFileReply_decodeDelimited (reader : Reader) : res (DownloadFileReply * Reader) :=
  decode_delimited DownloadFileReply_decode reader.

Definition DownloadFileReply_verify (message : jsval) (_depth : option Z) : option string :=
  verify_object message _depth (λ depth,
  check message "data" (expect isBuffer "data: buffer expected") (
  check message "name" (expect isString "name: string expected") (
  check message "mime" (expect isString "mime: string expected") (
  None)))).

Definition DownloadFileReply_fromObject (object : jsval) (_depth : option Z) : res DownloadFileReply :=
  from_object ".api.im.v1.DownloadFileReply" object _depth (λ depth,
  let message := DownloadFileReply_new in
  let! message := from_field object "data" from_bytes set_DownloadFileReply_data message in
  let! message := from_field object "name" from_string set_DownloadFileReply_name message in
  let! message := from_field object "mime" from_string set_DownloadFileReply_mime message in
  Ok message).

Definition DownloadFileReply_toObject (message : DownloadFileReply) (options : Options) (_depth : option Z) : res jsval :=
  to_object _depth (λ depth,
  let object := [] in
  let object := if defaults options then
      put "mime" (VStr "") (put "name" (VStr "") (put "data" (bytes_default options) object))
    else object in
  let object := put_own "data" (to_bytes options) (DownloadFileReply_data message) object in
  let object := put_own "name" VStr (DownloadFileReply_name message) object in
  let object := put_own "mime" VStr (DownloadFileReply_mime message) object in
  Ok object).

Definition DownloadFileReply_toJSON (message : DownloadFileReply) : res jsval := DownloadFileReply_toObject message toJSONOptions None.

Definition DownloadFileReply_getTypeUrl (prefix : option string) : string :=
  default "type.googleapis.com"%string prefix +:+ "/api.im.v1.DownloadFileReply".

(** ** [CreateGroupRequest] *)

Record CreateGroupRequest := mkCreateGroupRequest {
  CreateGroupRequest_name : option string;
  CreateGroupRequest_memberIds : list long;
  CreateGroupRequest_unknowns : option (list bytes);
}.

Definition CreateGroupRequest_new : CreateGroupRequest :=
  mkCreateGroupRequest None [] None.

Definition set_CreateGroupRequest_name (v : option string) (m : CreateGroupRequest) : CreateGroupRequest :=
  mkCreateGroupRequest v (CreateGroupRequest_memberIds m) (CreateGroupRequest_unknowns m).
Definition set_CreateGroupRequest_memberIds (v : list long) (m : CreateGroupRequest) : CreateGroupRequest :=
  mkCreateGroupRequest (CreateGroupRequest_name m) v (CreateGroupRequest_unknowns m).
Definition CreateGroupRequest_push_unknown (b : bytes) (m : CreateGroupRequest) : CreateGroupRequest :=
  mkCreateGroupRequest (CreateGroupRequest_name m) (CreateGroupRequest_memberIds m) (Some (default [] (CreateGroupRequest_unknowns m) ++ [b])).

Definition CreateGroupRequest_encode (message : CreateGroupRequest) (writer : option Writer) (_depth : option Z) : res Writer :=
  let writer := default W_create writer in
  let _depth := default 0 _depth in
  depth_check util_recursionLimit _depth (
    let writer := own (CreateGroupRequest_name message) (λ v w, W_string v (W_uint32 10 w)) writer in
    let writer := packed_int64 18 (CreateGroupRequest_memberIds message) writer in
    Ok (put_unknowns (CreateGroupRequest_unknowns message) writer)).

Definition CreateGroupRequest_encodeDelimited (message : CreateGroupRequest) (writer : option Writer) : res Writer :=
  delimited CreateGroupRequest_encode message writer.

Definition CreateGroupRequest_switch (_depth field wireType : Z) (message : CreateGroupRequest) (reader : Reader)
    : option (res (CreateGroupRequest * Reader)) :=
  match field with
  | 1 => when_wire wireType 2 (dec_opt R_stringVerify string_present set_CreateGroupRequest_name message reader)
  | 2 => dec_packed wireType CreateGroupRequest_memberIds set_CreateGroupRequest_memberIds message reader
  | _ => None
  end.

Definition CreateGroupRequest_decode : decoder CreateGroupRequest := λ reader length _end _depth _target,
  let _depth := default 0 _depth in
  decode_with (CreateGroupRequest_switch _depth) CreateGroupRequest_push_unknown _depth CreateGroupRequest_new reader length _end _target.

Definition CreateGroupRequest_decodeDelimited (reader : Reader) : res (CreateGroupRequest * Reader) :=
  decode_delimited CreateGroupRequest_decode reader.

Definition CreateGroupRequest_verify (message : jsval) (_depth : option Z) : option string :=
  verify_object message _depth (λ depth,
  check message "name" (expect isString "name: string expected") (
  check message "memberIds" (expect_array "memberIds" (expect isLongLike "memberIds: integer|Long[] expected")) (
  None))).

Definition CreateGroupRequest_fromObject (object : jsval) (_depth : option Z) : res CreateGroupRequest :=
  from_object ".api.im.v1.CreateGroupRequest" object _depth (λ depth,
  let message := CreateGroupRequest_new in
  let! message := from_field object "name" from_string set_CreateGroupRequest_name message in
  let! message := from_array ".api.im.v1.CreateGroupRequest" object "memberIds" (from_long_element false) set_CreateGroupRequest_memberIds message in
  Ok message).

Definition CreateGroupRequest_toObject (message : CreateGroupRequest) (options : Options) (_depth : option Z) : res jsval :=
  to_object _depth (λ depth,
  let object := [] in
  let object := if arrays options || defaults options then put "memberIds" (VArr []) object else object in
  let object := if defaults options then
      put "name" (VStr "") object
    else object in
  let object := put_own "name" VStr (CreateGroupRequest_name message) object in
  let object := put_array "memberIds" (to_long options false <$> CreateGroupRequest_memberIds message) object in
  Ok object).

Definition CreateGroupRequest_toJSON (message : CreateGroupRequest) : res jsval := CreateGroupRequest_toObject message toJSONOptions None.

Definition CreateGroupRequest_getTypeUrl (prefix : option string) : string :=
  default "type.googleapis.com"%string prefix +:+ "/api.im.v1.CreateGroupRequest".

(** ** [CreateGroupReply] *)

Record CreateGroupReply := mkCreateGroupReply {
  CreateGroupReply_groupId : option string;
  CreateGroupReply_topic : option string;
  CreateGroupReply_unknowns : option (list bytes);
}.

Definition CreateGroupReply_new : CreateGroupReply :=
  mkCreateGroupReply None None None.

Definition set_CreateGroupReply_groupId (v : option string) (m : CreateGroupReply) : CreateGroupReply :=
  mkCreateGroupReply v (CreateGroupReply_topic m) (CreateGroupReply_unknowns m).
Definition set_CreateGroupReply_topic (v : option string) (m : CreateGroupReply) : CreateGroupReply :=
  mkCreateGroupReply (CreateGroupReply_groupId m) v (CreateGroupReply_unknowns m).
Definition CreateGroupReply_push_unknown (b : bytes) (m : CreateGroupReply) : CreateGroupReply :=
  mkCreateGroupReply (CreateGroupReply_groupId m) (CreateGroupReply_topic m) (Some (default [] (CreateGroupReply_unknowns m) ++ [b])).

Definition CreateGroupReply_encode (message : CreateGroupReply) (writer : option Writer) (_depth : option Z) : res Writer :=
  let writer := default W_create writer in
  let _depth := default 0 _depth in
  depth_check util_recursionLimit _depth (
    let writer := own (CreateGroupReply_groupId message) (λ v w, W_string v (W_uint32 10 w)) writer in
    let writer := own (CreateGroupReply_topic message) (λ v w, W_string v (W_uint32 18 w)) writer in
    Ok (put_unknowns (CreateGroupReply_unknowns message) writer)).

Definition CreateGroupReply_encodeDelimited (message : CreateGroupReply) (writer : option Writer) : res Writer :=
  delimited CreateGroupReply_encode message writer.

Definition CreateGroupReply_switch (_depth field wireType : Z) (message : CreateGroupReply) (reader : Reader)
    : option (res (CreateGroupReply * Reader)) :=
  match field with
  | 1 => when_wire wireType 2 (dec_opt R_stringVerify string_present set_CreateGroupReply_groupId message reader)
  | 2 => when_wire wireType 2 (dec_opt R_stringVerify string_present set_CreateGroupReply_topic message reader)
  | _ => None
  end.

Definition CreateGroupReply_decode : decoder CreateGroupReply := λ reader length _end _depth _target,
  let _depth := default 0 _depth in
  decode_with (CreateGroupReply_switch _depth) CreateGroupReply_push_unknown _depth CreateGroupReply_new reader length _end _target.

Definition CreateGroupReply_decodeDelimited (reader : Reader) : res (CreateGroupReply * Reader) :=
  decode_delimited CreateGroupReply_decode reader.

Definition CreateGroupReply_verify (message : jsval) (_depth : option Z) : option string :=
  verify_object message _depth (λ depth,
  check message "groupId" (expect isString "groupId: string expected") (
  check message "topic" (expect isString "topic: string expected") (
  None))).

Definition CreateGroupReply_fromObject (object : jsval) (_depth : option Z) : res CreateGroupReply :=
  from_object ".api.im.v1.CreateGroupReply" object _depth (λ depth,
  let message := CreateGroupReply_new in
  let! message := from_field object "groupId" from_string set_CreateGroupReply_groupId message in
  let! message := from_field object "topic" from_string set_CreateGroupReply_topic message in
  Ok message).

Definition CreateGroupReply_toObject (message : CreateGroupReply) (options : Options) (_depth : option Z) : res jsval :=
  to_object _depth (λ depth,
  let object := [] in
  let object := if defaults options then
      put "topic" (VStr "") (put "groupId" (VStr "") object)
    else object in
  let object := put_own "groupId" VStr (CreateGroupReply_groupId message) object in
  let object := put_own "topic" VStr (CreateGroupReply_topic message) object in
  Ok object).

Definition CreateGroupReply_toJSON (message : CreateGroupReply) : res jsval := CreateGroupReply_toObject message toJSONOptions None.

Definition CreateGroupReply_getTypeUrl (prefix : option string) : string :=
  default "type.googleapis.com"%string prefix +:+ "/api.im.v1.CreateGroupReply".

(** ** [Group] *)

Record Group := mkGroup {
  Group_groupId : option string;
  Group_topic : option string;
  Group_name : option string;
  Group_ownerId : option long;
  Group_createdAt : option long;
  Group_unknowns : option (list bytes);
}.

Definition Group_new : Group :=
  mkGroup None None None None None None.

Definition set_Group_groupId (v : option string) (m : Group) : Group :=
  mkGroup v (Group_topic m) (Group_name m) (Group_ownerId m) (Group_createdAt m) (Group_unknowns m).
Definition set_Group_topic (v : option string) (m : Group) : Group :=
  mkGroup (Group_groupId m) v (Group_name m) (Group_ownerId m) (Group_createdAt m) (Group_unknowns m).
Definition set_Group_name (v : option string) (m : Group) : Group :=
  mkGroup (Group_groupId m) (Group_topic m) v (Group_ownerId m) (Group_createdAt m) (Group_unknowns m).
Definition set_Group_ownerId (v : option long) (m : Group) : Group :=
  mkGroup (Group_groupId m) (Group_topic m) (Group_name m) v (Group_createdAt m) (Group_unknowns m).
Definition set_Group_createdAt (v : option long) (m : Group) : Group :=
  mkGroup (Group_groupId m) (Group_topic m) (Group_name m) (Group_ownerId m) v (Group_unknowns m).
Definition Group_push_unknown (b : bytes) (m : Group) : Group :=
  mkGroup (Group_groupId m) (Group_topic m) (Group_name m) (Group_ownerId m) (Group_createdAt m) (Some (default [] (Group_unknowns m) ++ [b])).

Definition Group_encode (message : Group) (writer : option Writer) (_depth : option Z) : res Writer :=
  let writer := default W_create writer in
  let _depth := default 0 _depth in
  depth_check util_recursionLimit _depth (
    let writer := own (Group_groupId message) (λ v w, W_string v (W_uint32 10 w)) writer in
    let writer := own (Group_topic message) (λ v w, W_string v (W_uint32 18 w)) writer in
    let writer := own (Group_name message) (λ v w, W_string v (W_uint32 26 w)) writer in
    let writer := own (Group_ownerId message) (λ v w, W_int64 v (W_uint32 32 w)) writer in
    let writer := own (Group_createdAt message) (λ v w, W_int64 v (W_uint32 40 w)) writer in
    Ok (put_unknowns (Group_unknowns message) writer)).

Definition Group_encodeDelimited (message : Group) (writer : option Writer) : res Writer :=
  delimited Group_encode message writer.

Definition Group_switch (_depth field wireType : Z) (message : Group) (reader : Reader)
    : option (res (Group * Reader)) :=
  match field with
  | 1 => when_wire wireType 2 (dec_opt R_stringVerify string_present set_Group_groupId message reader)
  | 2 => when_wire wireType 2 (dec_opt R_stringVerify string_present set_Group_topic message reader)
  | 3 => when_wire wireType 2 (dec_opt R_stringVerify string_present set_Group_name message reader)
  | 4 => when_wire wireType 0 (dec_opt R_int64 long_nonzero set_Group_ownerId message reader)
  | 5 => when_wire wireType 0 (dec_opt R_int64 long_nonzero set_Group_createdAt message reader)
  | _ => None
  end.

Definition Group_decode : decoder Group := λ reader length _end _depth _target,
  let _depth := default 0 _depth in
  decode_with (Group_switch _depth) Group_push_unknown _depth Group_new reader length _end _target.

Definition Group_decodeDelimited (reader : Reader) : res (Group * Reader) :=
  decode_delimited Group_decode reader.

Definition Group_verify (message : jsval) (_depth : option Z) : option string :=
  verify_object message _depth (λ depth,
  check message "groupId" (expect isString "groupId: string expected") (
  check message "topic" (expect isString "topic: string expected") (
  check message "name" (expect isString "name: string expected") (
  check message "ownerId" (expect isLongLike "ownerId: integer|Long expected") (
  check message "createdAt" (expect isLongLike "createdAt: integer|Long expected") (
  None)))))).

Definition Group_fromObject (object : jsval) (_depth : option Z) : res Group :=
  from_object ".api.im.v1.Group" object _depth (λ depth,
  let message := Group_new in
  let! message := from_field object "groupId" from_string set_Group_groupId message in
  let! message := from_field object "topic" from_string set_Group_topic message in
  let! message := from_field object "name" from_string set_Group_name message in
  let! message := from_field object "ownerId" (from_long false) set_Group_ownerId message in
  let! message := from_field object "createdAt" (from_long false) set_Group_createdAt message in
  Ok message).

Definition Group_toObject (message : Group) (options : Options) (_depth : option Z) : res jsval :=
  to_object _depth (λ depth,
  let object := [] in
  let object := if defaults options then
      put "createdAt" (long_default options false) (put "ownerId" (long_default options false) (put "name" (VStr "") (put "topic" (VStr "") (put "groupId" (VStr "") object))))
    else object in
  let object := put_own "groupId" VStr (Group_groupId message) object in
  let object := put_own "topic" VStr (Group_topic message) object in
  let object := put_own "name" VStr (Group_name message) object in
  let object := put_own "ownerId" (to_long options false) (Group_ownerId message) object in
  let object := put_own "createdAt" (to_long options false) (Group_createdAt message) object in
  Ok object).

Definition Group_toJSON (message : Group) : res jsval := Group_toObject message toJSONOptions None.

Definition Group_getTypeUrl (prefix : option string) : string :=
  default "type.googleapis.com"%string prefix +:+ "/api.im.v1.Group".

(** ** [ListGroupsReply] *)

Record ListGroupsReply := mkListGroupsReply {
  ListGroupsReply_groups : list Group;
  ListGroupsReply_unknowns : option (list bytes);
}.

Definition ListGroupsReply_new : ListGroupsReply :=
  mkListGroupsReply [] None.

Definition set_ListGroupsReply_groups (v : list Group) (m : ListGroupsReply) : ListGroupsReply :=
  mkListGroupsReply v (ListGroupsReply_unknowns m).
Definition ListGroupsReply_push_unknown (b : bytes) (m : ListGroupsReply) : ListGroupsReply :=
  mkListGroupsReply (ListGroupsReply_groups m) (Some (default [] (ListGroupsReply_unknowns m) ++ [b])).

Definition ListGroupsReply_encode (message : ListGroupsReply) (writer : option Writer) (_depth : option Z) : res Writer :=
  let writer := default W_create writer in
  let _depth := default 0 _depth in
  depth_check util_recursionLimit _depth (
    let! writer := nested_all 10 Group_encode _depth (ListGroupsReply_groups message) writer in
    Ok (put_unknowns (ListGroupsReply_unknowns message) writer)).

Definition ListGroupsReply_encodeDelimited (message : ListGroupsReply) (writer : option Writer) : res Writer :=
  delimited ListGroupsReply_encode message writer.

Definition ListGroupsReply_switch (_depth field wireType : Z) (message : ListGroupsReply) (reader : Reader)
    : option (res (ListGroupsReply * Reader)) :=
  match field with
  | 1 => when_wire wireType 2 (dec_push Group_decode _depth ListGroupsReply_groups set_ListGroupsReply_groups message reader)
  | _ => None
  end.

Definition ListGroupsReply_decode : decoder ListGroupsReply := λ reader length _end _depth _target,
  let _depth := default 0 _depth in
  decode_with (ListGroupsReply_switch _depth) ListGroupsReply_push_unknown _depth ListGroupsReply_new reader length _end _target.

Definition ListGroupsReply_decodeDelimited (reader : Reader) : res (ListGroupsReply * Reader) :=
  decode_delimited ListGroupsReply_decode reader.

Definition ListGroupsReply_verify (message : jsval) (_depth : option Z) : option string :=
  verify_object message _depth (λ depth,
  check message "groups" (expect_array "groups" (verify_nested "groups" Group_verify depth)) (
  None)).

Definition ListGroupsReply_fromObject (object : jsval) (_depth : option Z) : res ListGroupsReply :=
  from_object ".api.im.v1.ListGroupsReply" object _depth (λ depth,
  let message := ListGroupsReply_new in
  let! message := from_array ".api.im.v1.ListGroupsReply" object "groups" (from_nested ".api.im.v1.ListGroupsReply" "groups" Group_fromObject depth) set_ListGroupsReply_groups message in
  Ok message).

Definition ListGroupsReply_toObject (message : ListGroupsReply) (options : Options) (_depth : option Z) : res jsval :=
  to_object _depth (λ depth,
  let object := [] in
  let object := if arrays options || defaults options then put "groups" (VArr []) object else object in
  let! object := put_msgs options "groups" Group_toObject depth (ListGroupsReply_groups message) object in
  Ok object).

Definition ListGroupsReply_toJSON (message : ListGroupsReply) : res jsval := ListGroupsReply_toObject message toJSONOptions None.

Definition ListGroupsReply_getTypeUrl (prefix : option string) : string :=
  default "type.googleapis.com"%string prefix +:+ "/api.im.v1.ListGroupsReply".

(** ** [GetGroupRequest] *)

Record GetGroupRequest := mkGetGroupRequest {
  GetGroupRequest_groupId : option string;
  GetGroupRequest_unknowns : option (list bytes);
}.

Definition GetGroupRequest_new : GetGroupRequest :=
  mkGetGroupRequest None None.

Definition set_GetGroupRequest_groupId (v : option string) (m : GetGroupRequest) : GetGroupRequest :=
  mkGetGroupRequest v (GetGroupRequest_unknowns m).
Definition GetGroupRequest_push_unknown (b : bytes) (m : GetGroupRequest) : GetGroupRequest :=
  mkGetGroupRequest (GetGroupRequest_groupId m) (Some (default [] (GetGroupRequest_unknowns m) ++ [b])).

Definition GetGroupRequest_encode (message : GetGroupRequest) (writer : option Writer) (_depth : option Z) : res Writer :=
  let writer := default W_create writer in
  let _depth := default 0 _depth in
  depth_check util_recursionLimit _depth (
    let writer := own (GetGroupRequest_groupId message) (λ v w, W_string v (W_uint32 10 w)) writer in
    Ok (put_unknowns (GetGroupRequest_unknowns message) writer)).

Definition GetGroupRequest_encodeDelimited (message : GetGroupRequest) (writer : option Writer) : res Writer :=
  delimited GetGroupRequest_encode message writer.

Definition GetGroupRequest_switch (_depth field wireType : Z) (message : GetGroupRequest) (reader : Reader)
    : option (res (GetGroupRequest * Reader)) :=
  match field with
  | 1 => when_wire wireType 2 (dec_opt R_stringVerify string_present set_GetGroupRequest_groupId message reader)
  | _ => None
  end.

Definition GetGroupRequest_decode : decoder GetGroupRequest := λ reader length _end _depth _target,
  let _depth := default 0 _depth in
  decode_with (GetGroupRequest_switch _depth) GetGroupRequest_push_unknown _depth GetGroupRequest_new reader length _end _target.

Definition GetGroupRequest_decodeDelimited (reader : Reader) : res (GetGroupRequest * Reader) :=
  decode_delimited GetGroupRequest_decode reader.

Definition GetGroupRequest_verify (message : jsval) (_depth : option Z) : option string :=
  verify_object message _depth (λ depth,
  check message "groupId" (expect isString "groupId: string expected") (
  None)).

Definition GetGroupRequest_fromObject (object : jsval) (_depth : option Z) : res GetGroupRequest :=
  from_object ".api.im.v1.GetGroupRequest" object _depth (λ depth,
  let message := GetGroupRequest_new in
  let! message := from_field object "groupId" from_string set_GetGroupRequest_groupId message in
  Ok message).

Definition GetGroupRequest_toObject (message : GetGroupRequest) (options : Options) (_depth : option Z) : res jsval :=
  to_object _depth (λ depth,
  let object := [] in
  let object := if defaults options then
      put "groupId" (VStr "") object
    else object in
  let object := put_own "groupId" VStr (GetGroupRequest_groupId message) object in
  Ok object).

Definition GetGroupRequest_toJSON (message : GetGroupRequest) : res jsval := GetGroupRequest_toObject message toJSONOptions None.

Definition GetGroupRequest_getTypeUrl (prefix : option string) : string :=
  default "type.googleapis.com"%string prefix +:+ "/api.im.v1.GetGroupRequest".

(** ** [AddGroupMemberRequest] *)

Record AddGroupMemberRequest := mkAddGroupMemberRequest {
  AddGroupMemberRequest_groupId : option string;
  AddGroupMemberRequest_userId : option long;
  AddGroupMemberRequest_unknowns : option (list bytes);
}.

Definition AddGroupMemberRequest_new : AddGroupMemberRequest :=
  mkAddGroupMemberRequest None None None.

Definition set_AddGroupMemberRequest_groupId (v : option string) (m : AddGroupMemberRequest) : AddGroupMemberRequest :=
  mkAddGroupMemberRequest v (AddGroupMemberRequest_userId m) (AddGroupMemberRequest_unknowns m).
Definition set_AddGroupMemberRequest_userId (v : option long) (m : AddGroupMemberRequest) : AddGroupMemberRequest :=
  mkAddGroupMemberRequest (AddGroupMemberRequest_groupId m) v (AddGroupMemberRequest_unknowns m).
Definition AddGroupMemberRequest_push_unknown (b : bytes) (m : AddGroupMemberRequest) : AddGroupMemberRequest :=
  mkAddGroupMemberRequest (AddGroupMemberRequest_groupId m) (AddGroupMemberRequest_userId m) (Some (default [] (AddGroupMemberRequest_unknowns m) ++ [b])).

Definition AddGroupMemberRequest_encode (message : AddGroupMemberRequest) (writer : option Writer) (_depth : option Z) : res Writer :=
  let writer := default W_create writer in
  let _depth := default 0 _depth in
  depth_check util_recursionLimit _depth (
    let writer := own (AddGroupMemberRequest_groupId message) (λ v w, W_string v (W_uint32 10 w)) writer in
    let writer := own (AddGroupMemberRequest_userId message) (λ v w, W_int64 v (W_uint32 16 w)) writer in
    Ok (put_unknowns (AddGroupMemberRequest_unknowns message) writer)).

Definition AddGroupMemberRequest_encodeDelimited (message : AddGroupMemberRequest) (writer : option Writer) : res Writer :=
  delimited AddGroupMemberRequest_encode message writer.

Definition AddGroupMemberRequest_switch (_depth field wireType : Z) (message : AddGroupMemberRequest) (reader : Reader)
    : option (res (AddGroupMemberRequest * Reader)) :=
  match field with
  | 1 => when_wire wireType 2 (dec_opt R_stringVerify string_present set_AddGroupMemberRequest_groupId message reader)
  | 2 => when_wire wireType 0 (dec_opt R_int64 long_nonzero set_AddGroupMemberRequest_userId message reader)
  | _ => None
  end.

Definition AddGroupMemberRequest_decode : decoder AddGroupMemberRequest := λ reader length _end _depth _target,
  let _depth := default 0 _depth in
  decode_with (AddGroupMemberRequest_switch _depth) AddGroupMemberRequest_push_unknown _depth AddGroupMemberRequest_new reader length _end _target.

Definition AddGroupMemberRequest_decodeDelimited (reader : Reader) : res (AddGroupMemberRequest * Reader) :=
  decode_delimited AddGroupMemberRequest_decode reader.

Definition AddGroupMemberRequest_verify (message : jsval) (_depth : option Z) : option string :=
  verify_object message _depth (λ depth,
  check message "groupId" (expect isString "groupId: string expected") (
  check message "userId" (expect isLongLike "userId: integer|Long expected") (
  None))).

Definition AddGroupMemberRequest_fromObject (object : jsval) (_depth : option Z) : res AddGroupMemberRequest :=
  from_object ".api.im.v1.AddGroupMemberRequest" object _depth (λ depth,
  let message := AddGroupMemberRequest_new in
  let! message := from_field object "groupId" from_string set_AddGroupMemberRequest_groupId message in
  let! message := from_field object "userId" (from_long false) set_AddGroupMemberRequest_userId message in
  Ok message).

Definition AddGroupMemberRequest_toObject (message : AddGroupMemberRequest) (options : Options) (_depth : option Z) : res jsval :=
  to_object _depth (λ depth,
  let object := [] in
  let object := if defaults options then
      put "userId" (long_default options false) (put "groupId" (VStr "") object)
    else object in
  let object := put_own "groupId" VStr (AddGroupMemberRequest_groupId message) object in
  let object := put_own "userId" (to_long options false) (AddGroupMemberRequest_userId message) object in
  Ok object).

Definition AddGroupMemberRequest_toJSON (message : AddGroupMemberRequest) : res jsval := AddGroupMemberRequest_toObject message toJSONOptions None.

Definition AddGroupMemberRequest_getTypeUrl (prefix : option string) : string :=
  default "type.googleapis.com"%string prefix +:+ "/api.im.v1.AddGroupMemberRequest".

(** ** [RemoveGroupMemberRequest] *)

Record RemoveGroupMemberRequest := mkRemoveGroupMemberRequest {
  RemoveGroupMemberRequest_groupId : option string;
  RemoveGroupMemberRequest_userId : option long;
  RemoveGroupMemberRequest_unknowns : option (list bytes);
}.

Definition RemoveGroupMemberRequest_new : RemoveGroupMemberRequest :=
  mkRemoveGroupMemberRequest None None None.

Definition set_RemoveGroupMemberRequest_groupId (v : option string) (m : RemoveGroupMemberRequest) : RemoveGroupMemberRequest :=
  mkRemoveGroupMemberRequest v (RemoveGroupMemberRequest_userId m) (RemoveGroupMemberRequest_unknowns m).
Definition set_RemoveGroupMemberRequest_userId (v : option long) (m : RemoveGroupMemberRequest) : RemoveGroupMemberRequest :=
  mkRemoveGroupMemberRequest (RemoveGroupMemberRequest_groupId m) v (RemoveGroupMemberRequest_unknowns m).
Definition RemoveGroupMemberRequest_push_unknown (b : bytes) (m : RemoveGroupMemberRequest) : RemoveGroupMemberRequest :=
  mkRemoveGroupMemberRequest (RemoveGroupMemberRequest_groupId m) (RemoveGroupMemberRequest_userId m) (Some (default [] (RemoveGroupMemberRequest_unknowns m) ++ [b])).

Definition RemoveGroupMemberRequest_encode (message : RemoveGroupMemberRequest) (writer : option Writer) (_depth : option Z) : res Writer :=
  let writer := default W_create writer in
  let _depth := default 0 _depth in
  depth_check util_recursionLimit _depth (
    let writer := own (RemoveGroupMemberRequest_groupId message) (λ v w, W_string v (W_uint32 10 w)) writer in
    let writer := own (RemoveGroupMemberRequest_userId message) (λ v w, W_int64 v (W_uint32 16 w)) writer in
    Ok (put_unknowns (RemoveGroupMemberRequest_unknowns message) writer)).

Definition RemoveGroupMemberRequest_encodeDelimited (message : RemoveGroupMemberRequest) (writer : option Writer) : res Writer :=
  delimited RemoveGroupMemberRequest_encode message writer.

Definition RemoveGroupMemberRequest_switch (_depth field wireType : Z) (message : RemoveGroupMemberRequest) (reader : Reader)
    : option (res (RemoveGroupMemberRequest * Reader)) :=
  match field with
  | 1 => when_wire wireType 2 (dec_opt R_stringVerify string_present set_RemoveGroupMemberRequest_groupId message reader)
  | 2 => when_wire wireType 0 (dec_opt R_int64 long_nonzero set_RemoveGroupMemberRequest_userId message reader)
  | _ => None
  end.

Definition RemoveGroupMemberRequest_decode : decoder RemoveGroupMemberRequest := λ reader length _end _depth _target,
  let _depth := default 0 _depth in
  decode_with (RemoveGroupMemberRequest_switch _depth) RemoveGroupMemberRequest_push_unknown _depth RemoveGroupMemberRequest_new reader length _end _target.

Definition RemoveGroupMemberRequest_decodeDelimited (reader : Reader) : res (RemoveGroupMemberRequest * Reader) :=
  decode_delimited RemoveGroupMemberRequest_decode reader.

Definition RemoveGroupMemberRequest_verify (message : jsval) (_depth : option Z) : option string :=
  verify_object message _depth (λ depth,
  check message "groupId" (expect isString "groupId: string expected") (
  check message "userId" (expect isLongLike "userId: integer|Long expected") (
  None))).

Definition RemoveGroupMemberRequest_fromObject (object : jsval) (_depth : option Z) : res RemoveGroupMemberRequest :=
  from_object ".api.im.v1.RemoveGroupMemberRequest" object _depth (λ depth,
  let message := RemoveGroupMemberRequest_new in
  let! message := from_field object "groupId" from_string set_RemoveGroupMemberRequest_groupId message in
  let! message := from_field object "userId" (from_long false) set_RemoveGroupMemberRequest_userId message in
  Ok message).

Definition RemoveGroupMemberRequest_toObject (message : RemoveGroupMemberRequest) (options : Options) (_depth : option Z) : res jsval :=
  to_object _depth (λ depth,
  let object := [] in
  let object := if defaults options then
      put "userId" (long_default options false) (put "groupId" (VStr "") object)
    else object in
  let object := put_own "groupId" VStr (RemoveGroupMemberRequest_groupId message) object in
  let object := put_own "userId" (to_long options false) (RemoveGroupMemberRequest_userId message) object in
  Ok object).

Definition RemoveGroupMemberRequest_toJSON (message : RemoveGroupMemberRequest) : res jsval := RemoveGroupMemberRequest_toObject message toJSONOptions None.

Definition RemoveGroupMemberRequest_getTypeUrl (prefix : option string) : string :=
  default "type.googleapis.com"%string prefix +:+ "/api.im.v1.RemoveGroupMemberRequest".

(** ** [ListGroupMembersRequest] *)

Record ListGroupMembersRequest := mkListGroupMembersRequest {
  ListGroupMembersRequest_groupId : option string;
  ListGroupMembersRequest_unknowns : option (list bytes);
}.

Definition ListGroupMembersRequest_new : ListGroupMembersRequest :=
  mkListGroupMembersRequest None None.

Definition set_ListGroupMembersRequest_groupId (v : option string) (m : ListGroupMembersRequest) : ListGroupMembersRequest :=
  mkListGroupMembersRequest v (ListGroupMembersRequest_unknowns m).
Definition ListGroupMembersRequest_push_unknown (b : bytes) (m : ListGroupMembersRequest) : ListGroupMembersRequest :=
  mkListGroupMembersRequest (ListGroupMembersRequest_groupId m) (Some (default [] (ListGroupMembersRequest_unknowns m) ++ [b])).

Definition ListGroupMembersRequest_encode (message : ListGroupMembersRequest) (writer : option Writer) (_depth : option Z) : res Writer :=
  let writer := default W_create writer in
  let _depth := default 0 _depth in
  depth_check util_recursionLimit _depth (
    let writer := own (ListGroupMembersRequest_groupId message) (λ v w, W_string v (W_uint32 10 w)) writer in
    Ok (put_unknowns (ListGroupMembersRequest_unknowns message) writer)).

Definition ListGroupMembersRequest_encodeDelimited (message : ListGroupMembersRequest) (writer : option Writer) : res Writer :=
  delimited ListGroupMembersRequest_encode message writer.

Definition ListGroupMembersRequest_switch (_depth field wireType : Z) (message : ListGroupMembersRequest) (reader : Reader)
    : option (res (ListGroupMembersRequest * Reader)) :=
  match field with
  | 1 => when_wire wireType 2 (dec_opt R_stringVerify string_present set_ListGroupMembersRequest_groupId message reader)
  | _ => None
  end.

Definition ListGroupMembersRequest_decode : decoder ListGroupMembersRequest := λ reader length _end _depth _target,
  let _depth := default 0 _depth in
  decode_with (ListGroupMembersRequest_switch _depth) ListGroupMembersRequest_push_unknown _depth ListGroupMembersRequest_new reader length _end _target.

Definition ListGroupMembersRequest_decodeDelimited (reader : Reader) : res (ListGroupMembersRequest * Reader) :=
  decode_delimited ListGroupMembersRequest_decode reader.

Definition ListGroupMembersRequest_verify (message : jsval) (_depth : option Z) : option string :=
  verify_object message _depth (λ depth,
  check message "groupId" (expect isString "groupId: string expected") (
  None)).

Definition ListGroupMembersRequest_fromObject (object : jsval) (_depth : option Z) : res ListGroupMembersRequest :=
  from_object ".api.im.v1.ListGroupMembersRequest" object _depth (λ depth,
  let message := ListGroupMembersRequest_new in
  let! message := from_field object "groupId" from_string set_ListGroupMembersRequest_groupId message in
  Ok message).

Definition ListGroupMembersRequest_toObject (message : ListGroupMembersRequest) (options : Options) (_depth : option Z) : res jsval :=
  to_object _depth (λ depth,
  let object := [] in
  let object := if defaults options then
      put "groupId" (VStr "") object
    else object in
  let object := put_own "groupId" VStr (ListGroupMembersRequest_groupId message) object in
  Ok object).

Definition ListGroupMembersRequest_toJSON (message : ListGroupMembersRequest) : res jsval := ListGroupMembersRequest_toObject message toJSONOptions None.

Definition ListGroupMembersRequest_getTypeUrl (prefix : option string) : string :=
  default "type.googleapis.com"%string prefix +:+ "/api.im.v1.ListGroupMembersRequest".

(** ** [GroupMember] *)

Record GroupMember := mkGroupMember {
  GroupMember_userId : option long;
  GroupMember_username : option string;
  GroupMember_unknowns : option (list bytes);
}.

Definition GroupMember_new : GroupMember :=
  mkGroupMember None None None.

Definition set_GroupMember_userId (v : option long) (m : GroupMember) : GroupMember :=
  mkGroupMember v (GroupMember_username m) (GroupMember_unknowns m).
Definition set_GroupMember_username (v : option string) (m : GroupMember) : GroupMember :=
  mkGroupMember (GroupMember_userId m) v (GroupMember_unknowns m).
Definition GroupMember_push_unknown (b : bytes) (m : GroupMember) : GroupMember :=
  mkGroupMember (GroupMember_userId m) (GroupMember_username m) (Some (default [] (GroupMember_unknowns m) ++ [b])).

Definition GroupMember_encode (message : GroupMember) (writer : option Writer) (_depth : option Z) : res Writer :=
  let writer := default W_create writer in
  let _depth := default 0 _depth in
  depth_check util_recursionLimit _depth (
    let writer := own (GroupMember_userId message) (λ v w, W_int64 v (W_uint32 8 w)) writer in
    let writer := own (GroupMember_username message) (λ v w, W_string v (W_uint32 18 w)) writer in
    Ok (put_unknowns (GroupMember_unknowns message) writer)).

Definition GroupMember_encodeDelimited (message : GroupMember) (writer : option Writer) : res Writer :=
  delimited GroupMember_encode message writer.

Definition GroupMember_switch (_depth field wireType : Z) (message : GroupMember) (reader : Reader)
    : option (res (GroupMember * Reader)) :=
  match field with
  | 1 => when_wire wireType 0 (dec_opt R_int64 long_nonzero set_GroupMember_userId message reader)
  | 2 => when_wire wireType 2 (dec_opt R_stringVerify string_present set_GroupMember_username message reader)
  | _ => None
  end.

Definition GroupMember_decode : decoder GroupMember := λ reader length _end _depth _target,
  let _depth := default 0 _depth in
  decode_with (GroupMember_switch _depth) GroupMember_push_unknown _depth GroupMember_new reader length _end _target.

Definition GroupMember_decodeDelimited (reader : Reader) : res (GroupMember * Reader) :=
  decode_delimited GroupMember_decode reader.

Definition GroupMember_verify (message : jsval) (_depth : option Z) : option string :=
  verify_object message _depth (λ depth,
  check message "userId" (expect isLongLike "userId: integer|Long expected") (
  check message "username" (expect isString "username: string expected") (
  None))).

Definition GroupMember_fromObject (object : jsval) (_depth : option Z) : res GroupMember :=
  from_object ".api.im.v1.GroupMember" object _depth (λ depth,
  let message := GroupMember_new in
  let! message := from_field object "userId" (from_long false) set_GroupMember_userId message in
  let! message := from_field object "username" from_string set_GroupMember_username message in
  Ok message).

Definition GroupMember_toObject (message : GroupMember) (options : Options) (_depth : option Z) : res jsval :=
  to_object _depth (λ depth,
  let object := [] in
  let object := if defaults options then
      put "username" (VStr "") (put "userId" (long_default options false) object)
    else object in
  let object := put_own "userId" (to_long options false) (GroupMember_userId message) object in
  let object := put_own "username" VStr (GroupMember_username message) object in
  Ok object).

Definition GroupMember_toJSON (message : GroupMember) : res jsval := GroupMember_toObject message toJSONOptions None.

Definition GroupMember_getTypeUrl (prefix : option string) : string :=
  default "type.googleapis.com"%string prefix +:+ "/api.im.v1.GroupMember".

(** ** [ListGroupMembersReply] *)

Record ListGroupMembersReply := mkListGroupMembersReply {
  ListGroupMembersReply_members : list GroupMember;
  ListGroupMembersReply_unknowns : option (list bytes);
}.

Definition ListGroupMembersReply_new : ListGroupMembersReply :=
  mkListGroupMembersReply [] None.

Definition set_ListGroupMembersReply_members (v : list GroupMember) (m : ListGroupMembersReply) : ListGroupMembersReply :=
  mkListGroupMembersReply v (ListGroupMembersReply_unknowns m).
Definition ListGroupMembersReply_push_unknown (b : bytes) (m : ListGroupMembersReply) : ListGroupMembersReply :=
  mkListGroupMembersReply (ListGroupMembersReply_members m) (Some (default [] (ListGroupMembersReply_unknowns m) ++ [b])).

Definition ListGroupMembersReply_encode (message : ListGroupMembersReply) (writer : option Writer) (_depth : option Z) : res Writer :=
  let writer := default W_create writer in
  let _depth := default 0 _depth in
  depth_check util_recursionLimit _depth (
    let! writer := nested_all 10 GroupMember_encode _depth (ListGroupMembersReply_members message) writer in
    Ok (put_unknowns (ListGroupMembersReply_unknowns message) writer)).

Definition ListGroupMembersReply_encodeDelimited (message : ListGroupMembersReply) (writer : option Writer) : res Writer :=
  delimited ListGroupMembersReply_encode message writer.

Definition ListGroupMembersReply_switch (_depth field wireType : Z) (message : ListGroupMembersReply) (reader : Reader)
    : option (res (ListGroupMembersReply * Reader)) :=
  match field with
  | 1 => when_wire wireType 2 (dec_push GroupMember_decode _depth ListGroupMembersReply_members set_ListGroupMembersReply_members message reader)
  | _ => None
  end.

Definition ListGroupMembersReply_decode : decoder ListGroupMembersReply := λ reader length _end _depth _target,
  let _depth := default 0 _depth in
  decode_with (ListGroupMembersReply_switch _depth) ListGroupMembersReply_push_unknown _depth ListGroupMembersReply_new reader length _end _target.

Definition ListGroupMembersReply_decodeDelimited (reader : Reader) : res (ListGroupMembersReply * Reader) :=
  decode_delimited ListGroupMembersReply_decode reader.

Definition ListGroupMembersReply_verify (message : jsval) (_depth : option Z) : option string :=
  verify_object message _depth (λ depth,
  check message "members" (expect_array "members" (verify_nested "members" GroupMember_verify depth)) (
  None)).

Definition ListGroupMembersReply_fromObject (object : jsval) (_depth : option Z) : res ListGroupMembersReply :=
  from_object ".api.im.v1.ListGroupMembersReply" object _depth (λ depth,
  let message := ListGroupMembersReply_new in
  let! message := from_array ".api.im.v1.ListGroupMembersReply" object "members" (from_nested ".api.im.v1.ListGroupMembersReply" "members" GroupMember_fromObject depth) set_ListGroupMembersReply_members message in
  Ok message).

Definition ListGroupMembersReply_toObject (message : ListGroupMembersReply) (options : Options) (_depth : option Z) : res jsval :=
  to_object _depth (λ depth,
  let object := [] in
  let object := if arrays options || defaults options then put "members" (VArr []) object else object in
  let! object := put_msgs options "members" GroupMember_toObject depth (ListGroupMembersReply_members message) object in
  Ok object).

Definition ListGroupMembersReply_toJSON (message : ListGroupMembersReply) : res jsval := ListGroupMembersReply_toObject message toJSONOptions None.

Definition ListGroupMembersReply_getTypeUrl (prefix : option string) : string :=
  default "type.googleapis.com"%string prefix +:+ "/api.im.v1.ListGroupMembersReply".

End Messages.
