(* ===== verification/ApiPush.v ===== *)
(** * The push classes ([web/app/lib/proto/im.js])

    The classes of [push.proto] and [google.protobuf.Empty]: per class the record of its
    fields, [encode], [decode] and their delimited forms, [verify],
    [fromObject], [toObject], [toJSON] and [getTypeUrl].  The conventions are
    those of [ProtoMessages] and [ProtoConvert]. *)

From S2P Require Import Prelude JsNum JsMap ProtoRuntime ProtoObjects ProtoMessages ProtoConvert.
Open Scope Z_scope.

Section Messages.
Context {RT : Runtime} {CV : Conversions}.

(** ** [PushToUserRequest] *)

Record PushToUserRequest := mkPushToUserRequest {
  PushToUserRequest_userId : option long;
  PushToUserRequest_message : option MessagePush;
  PushToUserRequest_unknowns : option (list bytes);
}.

Definition PushToUserRequest_new : PushToUserRequest :=
  mkPushToUserRequest None None None.

Definition set_PushToUserRequest_userId (v : option long) (m : PushToUserRequest) : PushToUserRequest :=
  mkPushToUserRequest v (PushToUserRequest_message m) (PushToUserRequest_unknowns m).
Definition set_PushToUserRequest_message (v : option MessagePush) (m : PushToUserRequest) : PushToUserRequest :=
  mkPushToUserRequest (PushToUserRequest_userId m) v (PushToUserRequest_unknowns m).
Definition PushToUserRequest_push_unknown (b : bytes) (m : PushToUserRequest) : PushToUserRequest :=
  mkPushToUserRequest (PushToUserRequest_userId m) (PushToUserRequest_message m) (Some (default [] (PushToUserRequest_unknowns m) ++ [b])).

Definition PushToUserRequest_encode (message : PushToUserRequest) (writer : option Writer) (_depth : option Z) : res Writer :=
  let writer := default W_create writer in
  let _depth := default 0 _depth in
  depth_check util_recursionLimit _depth (
    let writer := own (PushToUserRequest_userId message) (λ v w, W_int64 v (W_uint32 8 w)) writer in
    let! writer := own_msg (PushToUserRequest_message message) (nested 18 MessagePush_encode _depth) writer in
    Ok (put_unknowns (PushToUserRequest_unknowns message) writer)).

Definition PushToUserRequest_encodeDelimited (message : PushToUserRequest) (writer : option Writer) : res Writer :=
  delimited PushToUserRequest_encode message writer.

Definition PushToUserRequest_switch (_depth field wireType : Z) (message : PushToUserRequest) (reader : Reader)
    : option (res (PushToUserRequest * Reader)) :=
  match field with
  | 1 => when_wire wireType 0 (dec_opt R_int64 long_nonzero set_PushToUserRequest_userId message reader)
  | 2 => when_wire wireType 2 (dec_msg MessagePush_decode _depth PushToUserRequest_message (λ v, set_PushToUserRequest_message (Some v)) message reader)
  | _ => None
  end.

Definition PushToUserRequest_decode : decoder PushToUserRequest := λ reader length _end _depth _target,
  let _depth := default 0 _depth in
  decode_with (PushToUserRequest_switch _depth) PushToUserRequest_push_unknown _depth PushToUserRequest_new reader length _end _target.

Definition PushToUserRequest_decodeDelimited (reader : Reader) : res (PushToUserRequest * Reader) :=
  decode_delimited PushToUserRequest_decode reader.

Definition PushToUserRequest_verify (message : jsval) (_depth : option Z) : option string :=
  verify_object message _depth (λ depth,
  check message "userId" (expect isLongLike "userId: integer|Long expected") (
  check message "message" (verify_nested "message" MessagePush_verify depth) (
  None))).

Definition PushToUserRequest_fromObject (object : jsval) (_depth : option Z) : res PushToUserRequest :=
  from_object ".api.im.v1.PushToUserRequest" object _depth (λ depth,
  let message := PushToUserRequest_new in
  let! message := from_field object "userId" (from_long false) set_PushToUserRequest_userId message in
  let! message := from_field object "message" (from_message ".api.im.v1.PushToUserRequest" "message" MessagePush_fromObject depth) set_PushToUserRequest_message message in
  Ok message).

Definition PushToUserRequest_toObject (message : PushToUserRequest) (options : Options) (_depth : option Z) : res jsval :=
  to_object _depth (λ depth,
  let object := [] in
  let object := if defaults options then
      put "message" VNull (put "userId" (long_default options false) object)
    else object in
  let object := put_own "userId" (to_long options false) (PushToUserRequest_userId message) object in
  let! object := put_msg options "message" MessagePush_toObject depth (PushToUserRequest_message message) object in
  Ok object).

Definition PushToUserRequest_toJSON (message : PushToUserRequest) : res jsval := PushToUserRequest_toObject message toJSONOptions None.

Definition PushToUserRequest_getTypeUrl (prefix : option string) : string :=
  default "type.googleapis.com"%string prefix +:+ "/api.im.v1.PushToUserRequest".

(** ** [PushToUserReply] *)

Record PushToUserReply := mkPushToUserReply {
  PushToUserReply_success : option bool;
  PushToUserReply_deliveredCount : option Z;
  PushToUserReply_unknowns : option (list bytes);
}.

Definition PushToUserReply_new : PushToUserReply :=
  mkPushToUserReply None None None.

Definition set_PushToUserReply_success (v : option bool) (m : PushToUserReply) : PushToUserReply :=
  mkPushToUserReply v (PushToUserReply_deliveredCount m) (PushToUserReply_unknowns m).
Definition set_PushToUserReply_deliveredCount (v : option Z) (m : PushToUserReply) : PushToUserReply :=
  mkPushToUserReply (PushToUserReply_success m) v (PushToUserReply_unknowns m).
Definition PushToUserReply_push_unknown (b : bytes) (m : PushToUserReply) : PushToUserReply :=
  mkPushToUserReply (PushToUserReply_success m) (PushToUserReply_deliveredCount m) (Some (default [] (PushToUserReply_unknowns m) ++ [b])).

Definition PushToUserReply_encode (message : PushToUserReply) (writer : option Writer) (_depth : option Z) : res Writer :=
  let writer := default W_create writer in
  let _depth := default 0 _depth in
  depth_check util_recursionLimit _depth (
    let writer := own (PushToUserReply_success message) (λ v w, W_bool v (W_uint32 8 w)) writer in
    let writer := own (PushToUserReply_deliveredCount message) (λ v w, W_int32 v (W_uint32 16 w)) writer in
    Ok (put_unknowns (PushToUserReply_unknowns message) writer)).

Definition PushToUserReply_encodeDelimited (message : PushToUserReply) (writer : option Writer) : res Writer :=
  delimited PushToUserReply_encode message writer.

Definition PushToUserReply_switch (_depth field wireType : Z) (message : PushToUserReply) (reader : Reader)
    : option (res (PushToUserReply * Reader)) :=
  match field with
  | 1 => when_wire wireType 0 (dec_opt R_bool bool_present set_PushToUserReply_success message reader)
  | 2 => when_wire wireType 0 (dec_opt R_int32 int32_present set_PushToUserReply_deliveredCount message reader)
  | _ => None
  end.

Definition PushToUserReply_decode : decoder PushToUserReply := λ reader length _end _depth _target,
  let _depth := default 0 _depth in
  decode_with (PushToUserReply_switch _depth) PushToUserReply_push_unknown _depth PushToUserReply_new reader length _end _target.

Definition PushToUserReply_decodeDelimited (reader : Reader) : res (PushToUserReply * Reader) :=
  decode_delimited PushToUserReply_decode reader.

Definition PushToUserReply_verify (message : jsval) (_depth : option Z) : option string :=
  verify_object message _depth (λ depth,
  check message "success" (expect isBoolean "success: boolean expected") (
  check message "deliveredCount" (expect isInteger "deliveredCount: integer expected") (
  None))).

Definition PushToUserReply_fromObject (object : jsval) (_depth : option Z) : res PushToUserReply :=
  from_object ".api.im.v1.PushToUserReply" object _depth (λ depth,
  let message := PushToUserReply_new in
  let! message := from_field object "success" from_bool set_PushToUserReply_success message in
  let! message := from_field object "deliveredCount" from_int32 set_PushToUserReply_deliveredCount message in
  Ok message).

Definition PushToUserReply_toObject (message : PushToUserReply) (options : Options) (_depth : option Z) : res jsval :=
  to_object _depth (λ depth,
  let object := [] in
  let object := if defaults options then
      put "deliveredCount" (VNum 0) (put "success" (VBool false) object)
    else object in
  let object := put_own "success" VBool (PushToUserReply_success message) object in
  let object := put_own "deliveredCount" VNum (PushToUserReply_deliveredCount message) object in
  Ok object).

Definition PushToUserReply_toJSON (message : PushToUserReply) : res jsval := PushToUserReply_toObject message toJSONOptions None.

Definition PushToUserReply_getTypeUrl (prefix : option string) : string :=
  default "type.googleapis.com"%string prefix +:+ "/api.im.v1.PushToUserReply".

(** ** [BatchPushToUsersRequest] *)

Record BatchPushToUsersRequest := mkBatchPushToUsersRequest {
  BatchPushToUsersRequest_userIds : list long;
  BatchPushToUsersRequest_message : option MessagePush;
  BatchPushToUsersRequest_unknowns : option (list bytes);
}.

Definition BatchPushToUsersRequest_new : BatchPushToUsersRequest :=
  mkBatchPushToUsersRequest [] None None.

Definition set_BatchPushToUsersRequest_userIds (v : list long) (m : BatchPushToUsersRequest) : BatchPushToUsersRequest :=
  mkBatchPushToUsersRequest v (BatchPushToUsersRequest_message m) (BatchPushToUsersRequest_unknowns m).
Definition set_BatchPushToUsersRequest_message (v : option MessagePush) (m : BatchPushToUsersRequest) : BatchPushToUsersRequest :=
  mkBatchPushToUsersRequest (BatchPushToUsersRequest_userIds m) v (BatchPushToUsersRequest_unknowns m).
Definition BatchPushToUsersRequest_push_unknown (b : bytes) (m : BatchPushToUsersRequest) : BatchPushToUsersRequest :=
  mkBatchPushToUsersRequest (BatchPushToUsersRequest_userIds m) (BatchPushToUsersRequest_message m) (Some (default [] (BatchPushToUsersRequest_unknowns m) ++ [b])).

Definition BatchPushToUsersRequest_encode (message : BatchPushToUsersRequest) (writer : option Writer) (_depth : option Z) : res Writer :=
  let writer := default W_create writer in
  let _depth := default 0 _depth in
  depth_check util_recursionLimit _depth (
    let writer := packed_int64 10 (BatchPushToUsersRequest_userIds message) writer in
    let! writer := own_msg (BatchPushToUsersRequest_message message) (nested 18 MessagePush_encode _depth) writer in
    Ok (put_unknowns (BatchPushToUsersRequest_unknowns message) writer)).

Definition BatchPushToUsersRequest_encodeDelimited (message : BatchPushToUsersRequest) (writer : option Writer) : res Writer :=
  delimited BatchPushToUsersRequest_encode message writer.

Definition BatchPushToUsersRequest_switch (_depth field wireType : Z) (message : BatchPushToUsersRequest) (reader : Reader)
    : option (res (BatchPushToUsersRequest * Reader)) :=
  match field with
  | 1 => dec_packed wireType BatchPushToUsersRequest_userIds set_BatchPushToUsersRequest_userIds message reader
  | 2 => when_wire wireType 2 (dec_msg MessagePush_decode _depth BatchPushToUsersRequest_message (λ v, set_BatchPushToUsersRequest_message (Some v)) message reader)
  | _ => None
  end.

Definition BatchPushToUsersRequest_decode : decoder BatchPushToUsersRequest := λ reader length _end _depth _target,
  let _depth := default 0 _depth in
  decode_with (BatchPushToUsersRequest_switch _depth) BatchPushToUsersRequest_push_unknown _depth BatchPushToUsersRequest_new reader length _end _target.

Definition BatchPushToUsersRequest_decodeDelimited (reader : Reader) : res (BatchPushToUsersRequest * Reader) :=
  decode_delimited BatchPushToUsersRequest_decode reader.

Definition BatchPushToUsersRequest_verify (message : jsval) (_depth : option Z) : option string :=
  verify_object message _depth (λ depth,
  check message "userIds" (expect_array "userIds" (expect isLongLike "userIds: integer|Long[] expected")) (
  check message "message" (verify_nested "message" MessagePush_verify depth) (
  None))).

Definition BatchPushToUsersRequest_fromObject (object : jsval) (_depth : option Z) : res BatchPushToUsersRequest :=
  from_object ".api.im.v1.BatchPushToUsersRequest" object _depth (λ depth,
  let message := BatchPushToUsersRequest_new in
  let! message := from_array ".api.im.v1.BatchPushToUsersRequest" object "userIds" (from_long_element false) set_BatchPushToUsersRequest_userIds message in
  let! message := from_field object "message" (from_message ".api.im.v1.BatchPushToUsersRequest" "message" MessagePush_fromObject depth) set_BatchPushToUsersRequest_message message in
  Ok message).

Definition BatchPushToUsersRequest_toObject (message : BatchPushToUsersRequest) (options : Options) (_depth : option Z) : res jsval :=
  to_object _depth (λ depth,
  let object := [] in
  let object := if arrays options || defaults options then put "userIds" (VArr []) object else object in
  let object := if defaults options then
      put "message" VNull object
    else object in
  let object := put_array "userIds" (to_long options false <$> BatchPushToUsersRequest_userIds message) object in
  let! object := put_msg options "message" MessagePush_toObject depth (BatchPushToUsersRequest_message message) object in
  Ok object).

Definition BatchPushToUsersRequest_toJSON (message : BatchPushToUsersRequest) : res jsval := BatchPushToUsersRequest_toObject message toJSONOptions None.

Definition BatchPushToUsersRequest_getTypeUrl (prefix : option string) : string :=
  default "type.googleapis.com"%string prefix +:+ "/api.im.v1.BatchPushToUsersRequest".

(** ** [BatchPushToUsersReply] *)

Record BatchPushToUsersReply := mkBatchPushToUsersReply {
  BatchPushToUsersReply_totalDelivered : option Z;
  BatchPushToUsersReply_failedUserIds : list long;
  BatchPushToUsersReply_unknowns : option (list bytes);
}.

Definition BatchPushToUsersReply_new : BatchPushToUsersReply :=
  mkBatchPushToUsersReply None [] None.

Definition set_BatchPushToUsersReply_totalDelivered (v : option Z) (m : BatchPushToUsersReply) : BatchPushToUsersReply :=
  mkBatchPushToUsersReply v (BatchPushToUsersReply_failedUserIds m) (BatchPushToUsersReply_unknowns m).
Definition set_BatchPushToUsersReply_failedUserIds (v : list long) (m : BatchPushToUsersReply) : BatchPushToUsersReply :=
  mkBatchPushToUsersReply (BatchPushToUsersReply_totalDelivered m) v (BatchPushToUsersReply_unknowns m).
Definition BatchPushToUsersReply_push_unknown (b : bytes) (m : BatchPushToUsersReply) : BatchPushToUsersReply :=
  mkBatchPushToUsersReply (BatchPushToUsersReply_totalDelivered m) (BatchPushToUsersReply_failedUserIds m) (Some (default [] (BatchPushToUsersReply_unknowns m) ++ [b])).

Definition BatchPushToUsersReply_encode (message : BatchPushToUsersReply) (writer : option Writer) (_depth : option Z) : res Writer :=
  let writer := default W_create writer in
  let _depth := default 0 _depth in
  depth_check util_recursionLimit _depth (
    let writer := own (BatchPushToUsersReply_totalDelivered message) (λ v w, W_int32 v (W_uint32 8 w)) writer in
    let writer := packed_int64 18 (BatchPushToUsersReply_failedUserIds message) writer in
    Ok (put_unknowns (BatchPushToUsersReply_unknowns message) writer)).

Definition BatchPushToUsersReply_encodeDelimited (message : BatchPushToUsersReply) (writer : option Writer) : res Writer :=
  delimited BatchPushToUsersReply_encode message writer.

Definition BatchPushToUsersReply_switch (_depth field wireType : Z) (message : BatchPushToUsersReply) (reader : Reader)
    : option (res (BatchPushToUsersReply * Reader)) :=
  match field with
  | 1 => when_wire wireType 0 (dec_opt R_int32 int32_present set_BatchPushToUsersReply_totalDelivered message reader)
  | 2 => dec_packed wireType BatchPushToUsersReply_failedUserIds set_BatchPushToUsersReply_failedUserIds message reader
  | _ => None
  end.

Definition BatchPushToUsersReply_decode : decoder BatchPushToUsersReply := λ reader length _end _depth _target,
  let _depth := default 0 _depth in
  decode_with (BatchPushToUsersReply_switch _depth) BatchPushToUsersReply_push_unknown _depth BatchPushToUsersReply_new reader length _end _target.

Definition BatchPushToUsersReply_decodeDelimited (reader : Reader) : res (BatchPushToUsersReply * Reader) :=
  decode_delimited BatchPushToUsersReply_decode reader.

Definition BatchPushToUsersReply_verify (message : jsval) (_depth : option Z) : option string :=
  verify_object message _depth (λ depth,
  check message "totalDelivered" (expect isInteger "totalDelivered: integer expected") (
  check message "failedUserIds" (expect_array "failedUserIds" (expect isLongLike "failedUserIds: integer|Long[] expected")) (
  None))).

Definition BatchPushToUsersReply_fromObject (object : jsval) (_depth : option Z) : res BatchPushToUsersReply :=
  from_object ".api.im.v1.BatchPushToUsersReply" object _depth (λ depth,
  let message := BatchPushToUsersReply_new in
  let! message := from_field object "totalDelivered" from_int32 set_BatchPushToUsersReply_totalDelivered message in
  let! message := from_array ".api.im.v1.BatchPushToUsersReply" object "failedUserIds" (from_long_element false) set_BatchPushToUsersReply_failedUserIds message in
  Ok message).

Definition BatchPushToUsersReply_toObject (message : BatchPushToUsersReply) (options : Options) (_depth : option Z) : res jsval :=
  to_object _depth (λ depth,
  let object := [] in
  let object := if arrays options || defaults options then put "failedUserIds" (VArr []) object else object in
  let object := if defaults options then
      put "totalDelivered" (VNum 0) object
    else object in
  let object := put_own "totalDelivered" VNum (BatchPushToUsersReply_totalDelivered message) object in
  let object := put_array "failedUserIds" (to_long options false <$> BatchPushToUsersReply_failedUserIds message) object in
  Ok object).

Definition BatchPushToUsersReply_toJSON (message : BatchPushToUsersReply) : res jsval := BatchPushToUsersReply_toObject message toJSONOptions None.

Definition BatchPushToUsersReply_getTypeUrl (prefix : option string) : string :=
  default "type.googleapis.com"%string prefix +:+ "/api.im.v1.BatchPushToUsersReply".

(** ** [PushReceiptToUserRequest] *)

Record PushReceiptToUserRequest := mkPushReceiptToUserRequest {
  PushReceiptToUserRequest_userId : option long;
  PushReceiptToUserRequest_receipt : option SendReceipt;
  PushReceiptToUserRequest_unknowns : option (list bytes);
}.

Definition PushReceiptToUserRequest_new : PushReceiptToUserRequest :=
  mkPushReceiptToUserRequest None None None.

Definition set_PushReceiptToUserRequest_userId (v : option long) (m : PushReceiptToUserRequest) : PushReceiptToUserRequest :=
  mkPushReceiptToUserRequest v (PushReceiptToUserRequest_receipt m) (PushReceiptToUserRequest_unknowns m).
Definition set_PushReceiptToUserRequest_receipt (v : option SendReceipt) (m : PushReceiptToUserRequest) : PushReceiptToUserRequest :=
  mkPushReceiptToUserRequest (PushReceiptToUserRequest_userId m) v (PushReceiptToUserRequest_unknowns m).
Definition PushReceiptToUserRequest_push_unknown (b : bytes) (m : PushReceiptToUserRequest) : PushReceiptToUserRequest :=
  mkPushReceiptToUserRequest (PushReceiptToUserRequest_userId m) (PushReceiptToUserRequest_receipt m) (Some (default [] (PushReceiptToUserRequest_unknowns m) ++ [b])).

Definition PushReceiptToUserRequest_encode (message : PushReceiptToUserRequest) (writer : option Writer) (_depth : option Z) : res Writer :=
  let writer := default W_create writer in
  let _depth := default 0 _depth in
  depth_check util_recursionLimit _depth (
    let writer := own (PushReceiptToUserRequest_userId message) (λ v w, W_int64 v (W_uint32 8 w)) writer in
    let! writer := own_msg (PushReceiptToUserRequest_receipt message) (nested 18 SendReceipt_encode _depth) writer in
    Ok (put_unknowns (PushReceiptToUserRequest_unknowns message) writer)).

Definition PushReceiptToUserRequest_encodeDelimited (message : PushReceiptToUserRequest) (writer : option Writer) : res Writer :=
  delimited PushReceiptToUserRequest_encode message writer.

Definition PushReceiptToUserRequest_switch (_depth field wireType : Z) (message : PushReceiptToUserRequest) (reader : Reader)
    : option (res (PushReceiptToUserRequest * Reader)) :=
  match field with
  | 1 => when_wire wireType 0 (dec_opt R_int64 long_nonzero set_PushReceiptToUserRequest_userId message reader)
  | 2 => when_wire wireType 2 (dec_msg SendReceipt_decode _depth PushReceiptToUserRequest_receipt (λ v, set_PushReceiptToUserRequest_receipt (Some v)) message reader)
  | _ => None
  end.

Definition PushReceiptToUserRequest_decode : decoder PushReceiptToUserRequest := λ reader length _end _depth _target,
  let _depth := default 0 _depth in
  decode_with (PushReceiptToUserRequest_switch _depth) PushReceiptToUserRequest_push_unknown _depth PushReceiptToUserRequest_new reader length _end _target.

Definition PushReceiptToUserRequest_decodeDelimited (reader : Reader) : res (PushReceiptToUserRequest * Reader) :=
  decode_delimited PushReceiptToUserRequest_decode reader.

Definition PushReceiptToUserRequest_verify (message : jsval) (_depth : option Z) : option string :=
  verify_object message _depth (λ depth,
  check message "userId" (expect isLongLike "userId: integer|Long expected") (
  check message "receipt" (verify_nested "receipt" SendReceipt_verify depth) (
  None))).

Definition PushReceiptToUserRequest_fromObject (object : jsval) (_depth : option Z) : res PushReceiptToUserRequest :=
  from_object ".api.im.v1.PushReceiptToUserRequest" object _depth (λ depth,
  let message := PushReceiptToUserRequest_new in
  let! message := from_field object "userId" (from_long false) set_PushReceiptToUserRequest_userId message in
  let! message := from_field object "receipt" (from_message ".api.im.v1.PushReceiptToUserRequest" "receipt" SendReceipt_fromObject depth) set_PushReceiptToUserRequest_receipt message in
  Ok message).

Definition PushReceiptToUserRequest_toObject (message : PushReceiptToUserRequest) (options : Options) (_depth : option Z) : res jsval :=
  to_object _depth (λ depth,
  let object := [] in
  let object := if defaults options then
      put "receipt" VNull (put "userId" (long_default options false) object)
    else object in
  let object := put_own "userId" (to_long options false) (PushReceiptToUserRequest_userId message) object in
  let! object := put_msg options "receipt" SendReceipt_toObject depth (PushReceiptToUserRequest_receipt message) object in
  Ok object).

Definition PushReceiptToUserRequest_toJSON (message : PushReceiptToUserRequest) : res jsval := PushReceiptToUserRequest_toObject message toJSONOptions None.

Definition PushReceiptToUserRequest_getTypeUrl (prefix : option string) : string :=
  default "type.googleapis.com"%string prefix +:+ "/api.im.v1.PushReceiptToUserRequest".

(** ** [PushReceiptToUserReply] *)

Record PushReceiptToUserReply := mkPushReceiptToUserReply {
  PushReceiptToUserReply_success : option bool;
  PushReceiptToUserReply_deliveredCount : option Z;
  PushReceiptToUserReply_unknowns : option (list bytes);
}.

Definition PushReceiptToUserReply_new : PushReceiptToUserReply :=
  mkPushReceiptToUserReply None None None.

Definition set_PushReceiptToUserReply_success (v : option bool) (m : PushReceiptToUserReply) : PushReceiptToUserReply :=
  mkPushReceiptToUserReply v (PushReceiptToUserReply_deliveredCount m) (PushReceiptToUserReply_unknowns m).
Definition set_PushReceiptToUserReply_deliveredCount (v : option Z) (m : PushReceiptToUserReply) : PushReceiptToUserReply :=
  mkPushReceiptToUserReply (PushReceiptToUserReply_success m) v (PushReceiptToUserReply_unknowns m).
Definition PushReceiptToUserReply_push_unknown (b : bytes) (m : PushReceiptToUserReply) : PushReceiptToUserReply :=
  mkPushReceiptToUserReply (PushReceiptToUserReply_success m) (PushReceiptToUserReply_deliveredCount m) (Some (default [] (PushReceiptToUserReply_unknowns m) ++ [b])).

Definition PushReceiptToUserReply_encode (message : PushReceiptToUserReply) (writer : option Writer) (_depth : option Z) : res Writer :=
  let writer := default W_create writer in
  let _depth := default 0 _depth in
  depth_check util_recursionLimit _depth (
    let writer := own (PushReceiptToUserReply_success message) (λ v w, W_bool v (W_uint32 8 w)) writer in
    let writer := own (PushReceiptToUserReply_deliveredCount message) (λ v w, W_int32 v (W_uint32 16 w)) writer in
    Ok (put_unknowns (PushReceiptToUserReply_unknowns message) writer)).

Definition PushReceiptToUserReply_encodeDelimited (message : PushReceiptToUserReply) (writer : option Writer) : res Writer :=
  delimited PushReceiptToUserReply_encode message writer.

Definition PushReceiptToUserReply_switch (_depth field wireType : Z) (message : PushReceiptToUserReply) (reader : Reader)
    : option (res (PushReceiptToUserReply * Reader)) :=
  match field with
  | 1 => when_wire wireType 0 (dec_opt R_bool bool_present set_PushReceiptToUserReply_success message reader)
  | 2 => when_wire wireType 0 (dec_opt R_int32 int32_present set_PushReceiptToUserReply_deliveredCount message reader)
  | _ => None
  end.

Definition PushReceiptToUserReply_decode : decoder PushReceiptToUserReply := λ reader length _end _depth _target,
  let _depth := default 0 _depth in
  decode_with (PushReceiptToUserReply_switch _depth) PushReceiptToUserReply_push_unknown _depth PushReceiptToUserReply_new reader length _end _target.

Definition PushReceiptToUserReply_decodeDelimited (reader : Reader) : res (PushReceiptToUserReply * Reader) :=
  decode_delimited PushReceiptToUserReply_decode reader.

Definition PushReceiptToUserReply_verify (message : jsval) (_depth : option Z) : option string :=
  verify_object message _depth (λ depth,
  check message "success" (expect isBoolean "success: boolean expected") (
  check message "deliveredCount" (expect isInteger "deliveredCount: integer expected") (
  None))).

Definition PushReceiptToUserReply_fromObject (object : jsval) (_depth : option Z) : res PushReceiptToUserReply :=
  from_object ".api.im.v1.PushReceiptToUserReply" object _depth (λ depth,
  let message := PushReceiptToUserReply_new in
  let! message := from_field object "success" from_bool set_PushReceiptToUserReply_success message in
  let! message := from_field object "deliveredCount" from_int32 set_PushReceiptToUserReply_deliveredCount message in
  Ok message).

Definition PushReceiptToUserReply_toObject (message : PushReceiptToUserReply) (options : Options) (_depth : option Z) : res jsval :=
  to_object _depth (λ depth,
  let object := [] in
  let object := if defaults options then
      put "deliveredCount" (VNum 0) (put "success" (VBool false) object)
    else object in
  let object := put_own "success" VBool (PushReceiptToUserReply_success message) object in
  let object := put_own "deliveredCount" VNum (PushReceiptToUserReply_deliveredCount message) object in
  Ok object).

Definition PushReceiptToUserReply_toJSON (message : PushReceiptToUserReply) : res jsval := PushReceiptToUserReply_toObject message toJSONOptions None.

Definition PushReceiptToUserReply_getTypeUrl (prefix : option string) : string :=
  default "type.googleapis.com"%string prefix +:+ "/api.im.v1.PushReceiptToUserReply".

(** ** [BatchPushReceiptToUsersRequest] *)

Record BatchPushReceiptToUsersRequest := mkBatchPushReceiptToUsersRequest {
  BatchPushReceiptToUsersRequest_userIds : list long;
  BatchPushReceiptToUsersRequest_receipt : option SendReceipt;
  BatchPushReceiptToUsersRequest_unknowns : option (list bytes);
}.

Definition BatchPushReceiptToUsersRequest_new : BatchPushReceiptToUsersRequest :=
  mkBatchPushReceiptToUsersRequest [] None None.

Definition set_BatchPushReceiptToUsersRequest_userIds (v : list long) (m : BatchPushReceiptToUsersRequest) : BatchPushReceiptToUsersRequest :=
  mkBatchPushReceiptToUsersRequest v (BatchPushReceiptToUsersRequest_receipt m) (BatchPushReceiptToUsersRequest_unknowns m).
Definition set_BatchPushReceiptToUsersRequest_receipt (v : option SendReceipt) (m : BatchPushReceiptToUsersRequest) : BatchPushReceiptToUsersRequest :=
  mkBatchPushReceiptToUsersRequest (BatchPushReceiptToUsersRequest_userIds m) v (BatchPushReceiptToUsersRequest_unknowns m).
Definition BatchPushReceiptToUsersRequest_push_unknown (b : bytes) (m : BatchPushReceiptToUsersRequest) : BatchPushReceiptToUsersRequest :=
  mkBatchPushReceiptToUsersRequest (BatchPushReceiptToUsersRequest_userIds m) (BatchPushReceiptToUsersRequest_receipt m) (Some (default [] (BatchPushReceiptToUsersRequest_unknowns m) ++ [b])).

Definition BatchPushReceiptToUsersRequest_encode (message : BatchPushReceiptToUsersRequest) (writer : option Writer) (_depth : option Z) : res Writer :=
  let writer := default W_create writer in
  let _depth := default 0 _depth in
  depth_check util_recursionLimit _depth (
    let writer := packed_int64 10 (BatchPushReceiptToUsersRequest_userIds message) writer in
    let! writer := own_msg (BatchPushReceiptToUsersRequest_receipt message) (nested 18 SendReceipt_encode _depth) writer in
    Ok (put_unknowns (BatchPushReceiptToUsersRequest_unknowns message) writer)).

Definition BatchPushReceiptToUsersRequest_encodeDelimited (message : BatchPushReceiptToUsersRequest) (writer : option Writer) : res Writer :=
  delimited BatchPushReceiptToUsersRequest_encode message writer.

Definition BatchPushReceiptToUsersRequest_switch (_depth field wireType : Z) (message : BatchPushReceiptToUsersRequest) (reader : Reader)
    : option (res (BatchPushReceiptToUsersRequest * Reader)) :=
  match field with
  | 1 => dec_packed wireType BatchPushReceiptToUsersRequest_userIds set_BatchPushReceiptToUsersRequest_userIds message reader
  | 2 => when_wire wireType 2 (dec_msg SendReceipt_decode _depth BatchPushReceiptToUsersRequest_receipt (λ v, set_BatchPushReceiptToUsersRequest_receipt (Some v)) message reader)
  | _ => None
  end.

Definition BatchPushReceiptToUsersRequest_decode : decoder BatchPushReceiptToUsersRequest := λ reader length _end _depth _target,
  let _depth := default 0 _depth in
  decode_with (BatchPushReceiptToUsersRequest_switch _depth) BatchPushReceiptToUsersRequest_push_unknown _depth BatchPushReceiptToUsersRequest_new reader length _end _target.

Definition BatchPushReceiptToUsersRequest_decodeDelimited (reader : Reader) : res (BatchPushReceiptToUsersRequest * Reader) :=
  decode_delimited BatchPushReceiptToUsersRequest_decode reader.

Definition BatchPushReceiptToUsersRequest_verify (message : jsval) (_depth : option Z) : option string :=
  verify_object message _depth (λ depth,
  check message "userIds" (expect_array "userIds" (expect isLongLike "userIds: integer|Long[] expected")) (
  check message "receipt" (verify_nested "receipt" SendReceipt_verify depth) (
  None))).

Definition BatchPushReceiptToUsersRequest_fromObject (object : jsval) (_depth : option Z) : res BatchPushReceiptToUsersRequest :=
  from_object ".api.im.v1.BatchPushReceiptToUsersRequest" object _depth (λ depth,
  let message := BatchPushReceiptToUsersRequest_new in
  let! message := from_array ".api.im.v1.BatchPushReceiptToUsersRequest" object "userIds" (from_long_element false) set_BatchPushReceiptToUsersRequest_userIds message in
  let! message := from_field object "receipt" (from_message ".api.im.v1.BatchPushReceiptToUsersRequest" "receipt" SendReceipt_fromObject depth) set_BatchPushReceiptToUsersRequest_receipt message in
  Ok message).

Definition BatchPushReceiptToUsersRequest_toObject (message : BatchPushReceiptToUsersRequest) (options : Options) (_depth : option Z) : res jsval :=
  to_object _depth (λ depth,
  let object := [] in
  let object := if arrays options || defaults options then put "userIds" (VArr []) object else object in
  let object := if defaults options then
      put "receipt" VNull object
    else object in
  let object := put_array "userIds" (to_long options false <$> BatchPushReceiptToUsersRequest_userIds message) object in
  let! object := put_msg options "receipt" SendReceipt_toObject depth (BatchPushReceiptToUsersRequest_receipt message) object in
  Ok object).

Definition BatchPushReceiptToUsersRequest_toJSON (message : BatchPushReceiptToUsersRequest) : res jsval := BatchPushReceiptToUsersRequest_toObject message toJSONOptions None.

Definition BatchPushReceiptToUsersRequest_getTypeUrl (prefix : option string) : string :=
  default "type.googleapis.com"%string prefix +:+ "/api.im.v1.BatchPushReceiptToUsersRequest".

(** ** [BatchPushReceiptToUsersReply] *)

Record BatchPushReceiptToUsersReply := mkBatchPushReceiptToUsersReply {
  BatchPushReceiptToUsersReply_totalDelivered : option Z;
  BatchPushReceiptToUsersReply_failedUserIds : list long;
  BatchPushReceiptToUsersReply_unknowns : option (list bytes);
}.

Definition BatchPushReceiptToUsersReply_new : BatchPushReceiptToUsersReply :=
  mkBatchPushReceiptToUsersReply None [] None.

Definition set_BatchPushReceiptToUsersReply_totalDelivered (v : option Z) (m : BatchPushReceiptToUsersReply) : BatchPushReceiptToUsersReply :=
  mkBatchPushReceiptToUsersReply v (BatchPushReceiptToUsersReply_failedUserIds m) (BatchPushReceiptToUsersReply_unknowns m).
Definition set_BatchPushReceiptToUsersReply_failedUserIds (v : list long) (m : BatchPushReceiptToUsersReply) : BatchPushReceiptToUsersReply :=
  mkBatchPushReceiptToUsersReply (BatchPushReceiptToUsersReply_totalDelivered m) v (BatchPushReceiptToUsersReply_unknowns m).
Definition BatchPushReceiptToUsersReply_push_unknown (b : bytes) (m : BatchPushReceiptToUsersReply) : BatchPushReceiptToUsersReply :=
  mkBatchPushReceiptToUsersReply (BatchPushReceiptToUsersReply_totalDelivered m) (BatchPushReceiptToUsersReply_failedUserIds m) (Some (default [] (BatchPushReceiptToUsersReply_unknowns m) ++ [b])).

Definition BatchPushReceiptToUsersReply_encode (message : BatchPushReceiptToUsersReply) (writer : option Writer) (_depth : option Z) : res Writer :=
  let writer := default W_create writer in
  let _depth := default 0 _depth in
  depth_check util_recursionLimit _depth (
    let writer := own (BatchPushReceiptToUsersReply_totalDelivered message) (λ v w, W_int32 v (W_uint32 8 w)) writer in
    let writer := packed_int64 18 (BatchPushReceiptToUsersReply_failedUserIds message) writer in
    Ok (put_unknowns (BatchPushReceiptToUsersReply_unknowns message) writer)).

Definition BatchPushReceiptToUsersReply_encodeDelimited (message : BatchPushReceiptToUsersReply) (writer : option Writer) : res Writer :=
  delimited BatchPushReceiptToUsersReply_encode message writer.

Definition BatchPushReceiptToUsersReply_switch (_depth field wireType : Z) (message : BatchPushReceiptToUsersReply) (reader : Reader)
    : option (res (BatchPushReceiptToUsersReply * Reader)) :=
  match field with
  | 1 => when_wire wireType 0 (dec_opt R_int32 int32_present set_BatchPushReceiptToUsersReply_totalDelivered message reader)
  | 2 => dec_packed wireType BatchPushReceiptToUsersReply_failedUserIds set_BatchPushReceiptToUsersReply_failedUserIds message reader
  | _ => None
  end.

Definition BatchPushReceiptToUsersReply_decode : decoder BatchPushReceiptToUsersReply := λ reader length _end _depth _target,
  let _depth := default 0 _depth in
  decode_with (BatchPushReceiptToUsersReply_switch _depth) BatchPushReceiptToUsersReply_push_unknown _depth BatchPushReceiptToUsersReply_new reader length _end _target.

Definition BatchPushReceiptToUsersReply_decodeDelimited (reader : Reader) : res (BatchPushReceiptToUsersReply * Reader) :=
  decode_delimited BatchPushReceiptToUsersReply_decode reader.

Definition BatchPushReceiptToUsersReply_verify (message : jsval) (_depth : option Z) : option string :=
  verify_object message _depth (λ depth,
  check message "totalDelivered" (expect isInteger "totalDelivered: integer expected") (
  check message "failedUserIds" (expect_array "failedUserIds" (expect isLongLike "failedUserIds: integer|Long[] expected")) (
  None))).

Definition BatchPushReceiptToUsersReply_fromObject (object : jsval) (_depth : option Z) : res BatchPushReceiptToUsersReply :=
  from_object ".api.im.v1.BatchPushReceiptToUsersReply" object _depth (λ depth,
  let message := BatchPushReceiptToUsersReply_new in
  let! message := from_field object "totalDelivered" from_int32 set_BatchPushReceiptToUsersReply_totalDelivered message in
  let! message := from_array ".api.im.v1.BatchPushReceiptToUsersReply" object "failedUserIds" (from_long_element false) set_BatchPushReceiptToUsersReply_failedUserIds message in
  Ok message).

Definition BatchPushReceiptToUsersReply_toObject (message : BatchPushReceiptToUsersReply) (options : Options) (_depth : option Z) : res jsval :=
  to_object _depth (λ depth,
  let object := [] in
  let object := if arrays options || defaults options then put "failedUserIds" (VArr []) object else object in
  let object := if defaults options then
      put "totalDelivered" (VNum 0) object
    else object in
  let object := put_own "totalDelivered" VNum (BatchPushReceiptToUsersReply_totalDelivered message) object in
  let object := put_array "failedUserIds" (to_long options false <$> BatchPushReceiptToUsersReply_failedUserIds message) object in
  Ok object).

Definition BatchPushReceiptToUsersReply_toJSON (message : BatchPushReceiptToUsersReply) : res jsval := BatchPushReceiptToUsersReply_toObject message toJSONOptions None.

Definition BatchPushReceiptToUsersReply_getTypeUrl (prefix : option string) : string :=
  default "type.googleapis.com"%string prefix +:+ "/api.im.v1.BatchPushReceiptToUsersReply".

(** ** [ReceiptBatchItem] *)

Record ReceiptBatchItem := mkReceiptBatchItem {
  ReceiptBatchItem_userId : option long;
  ReceiptBatchItem_receipt : option SendReceipt;
  ReceiptBatchItem_unknowns : option (list bytes);
}.

Definition ReceiptBatchItem_new : ReceiptBatchItem :=
  mkReceiptBatchItem None None None.

Definition set_ReceiptBatchItem_userId (v : option long) (m : ReceiptBatchItem) : ReceiptBatchItem :=
  mkReceiptBatchItem v (ReceiptBatchItem_receipt m) (ReceiptBatchItem_unknowns m).
Definition set_ReceiptBatchItem_receipt (v : option SendReceipt) (m : ReceiptBatchItem) : ReceiptBatchItem :=
  mkReceiptBatchItem (ReceiptBatchItem_userId m) v (ReceiptBatchItem_unknowns m).
Definition ReceiptBatchItem_push_unknown (b : bytes) (m : ReceiptBatchItem) : ReceiptBatchItem :=
  mkReceiptBatchItem (ReceiptBatchItem_userId m) (ReceiptBatchItem_receipt m) (Some (default [] (ReceiptBatchItem_unknowns m) ++ [b])).

Definition ReceiptBatchItem_encode (message : ReceiptBatchItem) (writer : option Writer) (_depth : option Z) : res Writer :=
  let writer := default W_create writer in
  let _depth := default 0 _depth in
  depth_check util_recursionLimit _depth (
    let writer := own (ReceiptBatchItem_userId message) (λ v w, W_int64 v (W_uint32 8 w)) writer in
    let! writer := own_msg (ReceiptBatchItem_receipt message) (nested 18 SendReceipt_encode _depth) writer in
    Ok (put_unknowns (ReceiptBatchItem_unknowns message) writer)).

Definition ReceiptBatchItem_encodeDelimited (message : ReceiptBatchItem) (writer : option Writer) : res Writer :=
  delimited ReceiptBatchItem_encode message writer.

Definition ReceiptBatchItem_switch (_depth field wireType : Z) (message : ReceiptBatchItem) (reader : Reader)
    : option (res (ReceiptBatchItem * Reader)) :=
  match field with
  | 1 => when_wire wireType 0 (dec_opt R_int64 long_nonzero set_ReceiptBatchItem_userId message reader)
  | 2 => when_wire wireType 2 (dec_msg SendReceipt_decode _depth ReceiptBatchItem_receipt (λ v, set_ReceiptBatchItem_receipt (Some v)) message reader)
  | _ => None
  end.

Definition ReceiptBatchItem_decode : decoder ReceiptBatchItem := λ reader length _end _depth _target,
  let _depth := default 0 _depth in
  decode_with (ReceiptBatchItem_switch _depth) ReceiptBatchItem_push_unknown _depth ReceiptBatchItem_new reader length _end _target.

Definition ReceiptBatchItem_decodeDelimited (reader : Reader) : res (ReceiptBatchItem * Reader) :=
  decode_delimited ReceiptBatchItem_decode reader.

Definition ReceiptBatchItem_verify (message : jsval) (_depth : option Z) : option string :=
  verify_object message _depth (λ depth,
  check message "userId" (expect isLongLike "userId: integer|Long expected") (
  check message "receipt" (verify_nested "receipt" SendReceipt_verify depth) (
  None))).

Definition ReceiptBatchItem_fromObject (object : jsval) (_depth : option Z) : res ReceiptBatchItem :=
  from_object ".api.im.v1.ReceiptBatchItem" object _depth (λ depth,
  let message := ReceiptBatchItem_new in
  let! message := from_field object "userId" (from_long false) set_ReceiptBatchItem_userId message in
  let! message := from_field object "receipt" (from_message ".api.im.v1.ReceiptBatchItem" "receipt" SendReceipt_fromObject depth) set_ReceiptBatchItem_receipt message in
  Ok message).

Definition ReceiptBatchItem_toObject (message : ReceiptBatchItem) (options : Options) (_depth : option Z) : res jsval :=
  to_object _depth (λ depth,
  let object := [] in
  let object := if defaults options then
      put "receipt" VNull (put "userId" (long_default options false) object)
    else object in
  let object := put_own "userId" (to_long options false) (ReceiptBatchItem_userId message) object in
  let! object := put_msg options "receipt" SendReceipt_toObject depth (ReceiptBatchItem_receipt message) object in
  Ok object).

Definition ReceiptBatchItem_toJSON (message : ReceiptBatchItem) : res jsval := ReceiptBatchItem_toObject message toJSONOptions None.

Definition ReceiptBatchItem_getTypeUrl (prefix : option string) : string :=
  default "type.googleapis.com"%string prefix +:+ "/api.im.v1.ReceiptBatchItem".

(** ** [BatchPushReceiptsToUsersRequest] *)

Record BatchPushReceiptsToUsersRequest := mkBatchPushReceiptsToUsersRequest {
  BatchPushReceiptsToUsersRequest_items : list ReceiptBatchItem;
  BatchPushReceiptsToUsersRequest_unknowns : option (list bytes);
}.

Definition BatchPushReceiptsToUsersRequest_new : BatchPushReceiptsToUsersRequest :=
  mkBatchPushReceiptsToUsersRequest [] None.

Definition set_BatchPushReceiptsToUsersRequest_items (v : list ReceiptBatchItem) (m : BatchPushReceiptsToUsersRequest) : BatchPushReceiptsToUsersRequest :=
  mkBatchPushReceiptsToUsersRequest v (BatchPushReceiptsToUsersRequest_unknowns m).
Definition BatchPushReceiptsToUsersRequest_push_unknown (b : bytes) (m : BatchPushReceiptsToUsersRequest) : BatchPushReceiptsToUsersRequest :=
  mkBatchPushReceiptsToUsersRequest (BatchPushReceiptsToUsersRequest_items m) (Some (default [] (BatchPushReceiptsToUsersRequest_unknowns m) ++ [b])).

Definition BatchPushReceiptsToUsersRequest_encode (message : BatchPushReceiptsToUsersRequest) (writer : option Writer) (_depth : option Z) : res Writer :=
  let writer := default W_create writer in
  let _depth := default 0 _depth in
  depth_check util_recursionLimit _depth (
    let! writer := nested_all 10 ReceiptBatchItem_encode _depth (BatchPushReceiptsToUsersRequest_items message) writer in
    Ok (put_unknowns (BatchPushReceiptsToUsersRequest_unknowns message) writer)).

Definition BatchPushReceiptsToUsersRequest_encodeDelimited (message : BatchPushReceiptsToUsersRequest) (writer : option Writer) : res Writer :=
  delimited BatchPushReceiptsToUsersRequest_encode message writer.

Definition BatchPushReceiptsToUsersRequest_switch (_depth field wireType : Z) (message : BatchPushReceiptsToUsersRequest) (reader : Reader)
    : option (res (BatchPushReceiptsToUsersRequest * Reader)) :=
  match field with
  | 1 => when_wire wireType 2 (dec_push ReceiptBatchItem_decode _depth BatchPushReceiptsToUsersRequest_items set_BatchPushReceiptsToUsersRequest_items message reader)
  | _ => None
  end.

Definition BatchPushReceiptsToUsersRequest_decode : decoder BatchPushReceiptsToUsersRequest := λ reader length _end _depth _target,
  let _depth := default 0 _depth in
  decode_with (BatchPushReceiptsToUsersRequest_switch _depth) BatchPushReceiptsToUsersRequest_push_unknown _depth BatchPushReceiptsToUsersRequest_new reader length _end _target.

Definition BatchPushReceiptsToUsersRequest_decodeDelimited (reader : Reader) : res (BatchPushReceiptsToUsersRequest * Reader) :=
  decode_delimited BatchPushReceiptsToUsersRequest_decode reader.

Definition BatchPushReceiptsToUsersRequest_verify (message : jsval) (_depth : option Z) : option string :=
  verify_object message _depth (λ depth,
  check message "items" (expect_array "items" (verify_nested "items" ReceiptBatchItem_verify depth)) (
  None)).

Definition BatchPushReceiptsToUsersRequest_fromObject (object : jsval) (_depth : option Z) : res BatchPushReceiptsToUsersRequest :=
  from_object ".api.im.v1.BatchPushReceiptsToUsersRequest" object _depth (λ depth,
  let message := BatchPushReceiptsToUsersRequest_new in
  let! message := from_array ".api.im.v1.BatchPushReceiptsToUsersRequest" object "items" (from_nested ".api.im.v1.BatchPushReceiptsToUsersRequest" "items" ReceiptBatchItem_fromObject depth) set_BatchPushReceiptsToUsersRequest_items message in
  Ok message).

Definition BatchPushReceiptsToUsersRequest_toObject (message : BatchPushReceiptsToUsersRequest) (options : Options) (_depth : option Z) : res jsval :=
  to_object _depth (λ depth,
  let object := [] in
  let object := if arrays options || defaults options then put "items" (VArr []) object else object in
  let! object := put_msgs options "items" ReceiptBatchItem_toObject depth (BatchPushReceiptsToUsersRequest_items message) object in
  Ok object).

Definition BatchPushReceiptsToUsersRequest_toJSON (message : BatchPushReceiptsToUsersRequest) : res jsval := BatchPushReceiptsToUsersRequest_toObject message toJSONOptions None.

Definition BatchPushReceiptsToUsersRequest_getTypeUrl (prefix : option string) : string :=
  default "type.googleapis.com"%string prefix +:+ "/api.im.v1.BatchPushReceiptsToUsersRequest".

(** ** [BatchPushReceiptsToUsersReply] *)

Record BatchPushReceiptsToUsersReply := mkBatchPushReceiptsToUsersReply {
  BatchPushReceiptsToUsersReply_totalDelivered : option Z;
  BatchPushReceiptsToUsersReply_failedItems : list ReceiptBatchItem;
  BatchPushReceiptsToUsersReply_unknowns : option (list bytes);
}.

Definition BatchPushReceiptsToUsersReply_new : BatchPushReceiptsToUsersReply :=
  mkBatchPushReceiptsToUsersReply None [] None.

Definition set_BatchPushReceiptsToUsersReply_totalDelivered (v : option Z) (m : BatchPushReceiptsToUsersReply) : BatchPushReceiptsToUsersReply :=
  mkBatchPushReceiptsToUsersReply v (BatchPushReceiptsToUsersReply_failedItems m) (BatchPushReceiptsToUsersReply_unknowns m).
Definition set_BatchPushReceiptsToUsersReply_failedItems (v : list ReceiptBatchItem) (m : BatchPushReceiptsToUsersReply) : BatchPushReceiptsToUsersReply :=
  mkBatchPushReceiptsToUsersReply (BatchPushReceiptsToUsersReply_totalDelivered m) v (BatchPushReceiptsToUsersReply_unknowns m).
Definition BatchPushReceiptsToUsersReply_push_unknown (b : bytes) (m : BatchPushReceiptsToUsersReply) : BatchPushReceiptsToUsersReply :=
  mkBatchPushReceiptsToUsersReply (BatchPushReceiptsToUsersReply_totalDelivered m) (BatchPushReceiptsToUsersReply_failedItems m) (Some (default [] (BatchPushReceiptsToUsersReply_unknowns m) ++ [b])).

Definition BatchPushReceiptsToUsersReply_encode (message : BatchPushReceiptsToUsersReply) (writer : option Writer) (_depth : option Z) : res Writer :=
  let writer := default W_create writer in
  let _depth := default 0 _depth in
  depth_check util_recursionLimit _depth (
    let writer := own (BatchPushReceiptsToUsersReply_totalDelivered message) (λ v w, W_int32 v (W_uint32 8 w)) writer in
    let! writer := nested_all 18 ReceiptBatchItem_encode _depth (BatchPushReceiptsToUsersReply_failedItems message) writer in
    Ok (put_unknowns (BatchPushReceiptsToUsersReply_unknowns message) writer)).

Definition BatchPushReceiptsToUsersReply_encodeDelimited (message : BatchPushReceiptsToUsersReply) (writer : option Writer) : res Writer :=
  delimited BatchPushReceiptsToUsersReply_encode message writer.

Definition BatchPushReceiptsToUsersReply_switch (_depth field wireType : Z) (message : BatchPushReceiptsToUsersReply) (reader : Reader)
    : option (res (BatchPushReceiptsToUsersReply * Reader)) :=
  match field with
  | 1 => when_wire wireType 0 (dec_opt R_int32 int32_present set_BatchPushReceiptsToUsersReply_totalDelivered message reader)
  | 2 => when_wire wireType 2 (dec_push ReceiptBatchItem_decode _depth BatchPushReceiptsToUsersReply_failedItems set_BatchPushReceiptsToUsersReply_failedItems message reader)
  | _ => None
  end.

Definition BatchPushReceiptsToUsersReply_decode : decoder BatchPushReceiptsToUsersReply := λ reader length _end _depth _target,
  let _depth := default 0 _depth in
  decode_with (BatchPushReceiptsToUsersReply_switch _depth) BatchPushReceiptsToUsersReply_push_unknown _depth BatchPushReceiptsToUsersReply_new reader length _end _target.

Definition BatchPushReceiptsToUsersReply_decodeDelimited (reader : Reader) : res (BatchPushReceiptsToUsersReply * Reader) :=
  decode_delimited BatchPushReceiptsToUsersReply_decode reader.

Definition BatchPushReceiptsToUsersReply_verify (message : jsval) (_depth : option Z) : option string :=
  verify_object message _depth (λ depth,
  check message "totalDelivered" (expect isInteger "totalDelivered: integer expected") (
  check message "failedItems" (expect_array "failedItems" (verify_nested "failedItems" ReceiptBatchItem_verify depth)) (
  None))).

Definition BatchPushReceiptsToUsersReply_fromObject (object : jsval) (_depth : option Z) : res BatchPushReceiptsToUsersReply :=
  from_object ".api.im.v1.BatchPushReceiptsToUsersReply" object _depth (λ depth,
  let message := BatchPushReceiptsToUsersReply_new in
  let! message := from_field object "totalDelivered" from_int32 set_BatchPushReceiptsToUsersReply_totalDelivered message in
  let! message := from_array ".api.im.v1.BatchPushReceiptsToUsersReply" object "failedItems" (from_nested ".api.im.v1.BatchPushReceiptsToUsersReply" "failedItems" ReceiptBatchItem_fromObject depth) set_BatchPushReceiptsToUsersReply_failedItems message in
  Ok message).

Definition BatchPushReceiptsToUsersReply_toObject (message : BatchPushReceiptsToUsersReply) (options : Options) (_depth : option Z) : res jsval :=
  to_object _depth (λ depth,
  let object := [] in
  let object := if arrays options || defaults options then put "failedItems" (VArr []) object else object in
  let object := if defaults options then
      put "totalDelivered" (VNum 0) object
    else object in
  let object := put_own "totalDelivered" VNum (BatchPushReceiptsToUsersReply_totalDelivered message) object in
  let! object := put_msgs options "failedItems" ReceiptBatchItem_toObject depth (BatchPushReceiptsToUsersReply_failedItems message) object in
  Ok object).

Definition BatchPushReceiptsToUsersReply_toJSON (message : BatchPushReceiptsToUsersReply) : res jsval := BatchPushReceiptsToUsersReply_toObject message toJSONOptions None.

Definition BatchPushReceiptsToUsersReply_getTypeUrl (prefix : option string) : string :=
  default "type.googleapis.com"%string prefix +:+ "/api.im.v1.BatchPushReceiptsToUsersReply".

(** ** [Empty] *)

Record Empty := mkEmpty {
  Empty_unknowns : option (list bytes);
}.

Definition Empty_new : Empty :=
  mkEmpty None.

Definition Empty_push_unknown (b : bytes) (m : Empty) : Empty :=
  mkEmpty (Some (default [] (Empty_unknowns m) ++ [b])).

Definition Empty_encode (message : Empty) (writer : option Writer) (_depth : option Z) : res Writer :=
  let writer := default W_create writer in
  let _depth := default 0 _depth in
  depth_check util_recursionLimit _depth (
    Ok (put_unknowns (Empty_unknowns message) writer)).

Definition Empty_encodeDelimited (message : Empty) (writer : option Writer) : res Writer :=
  delimited Empty_encode message writer.

Definition Empty_decode : decoder Empty := λ reader length _end _depth _target,
  decode_skipping Empty_push_unknown (default 0 _depth) Empty_new reader length _end _target.

Definition Empty_decodeDelimited (reader : Reader) : res (Empty * Reader) :=
  decode_delimited Empty_decode reader.

Definition Empty_verify (message : jsval) (_depth : option Z) : option string :=
  verify_object message _depth (λ depth,
  None).

Definition Empty_fromObject (object : jsval) (_depth : option Z) : res Empty :=
  from_object ".google.protobuf.Empty" object _depth (λ depth,
  let message := Empty_new in
  Ok message).

Definition Empty_toObject (message : Empty) (options : Options) (_depth : option Z) : res jsval := Ok (VObj []).

Definition Empty_toJSON (message : Empty) : res jsval := Empty_toObject message toJSONOptions None.

Definition Empty_getTypeUrl (prefix : option string) : string :=
  default "type.googleapis.com"%string prefix +:+ "/google.protobuf.Empty".

End Messages.
