(* ===== verification/ApiCodecs.v ===== *)
(** * The interface classes as schemas

    The fields of the classes of [ApiAuth], [ApiGroups] and [ApiPush], for the
    codec and for the conversions.  That the generated functions are those of
    the fields is checked by computation; their correctness follows. *)

From S2P Require Import Prelude JsNum JsMap ProtoRuntime ProtoLaws ProtoMessages ProtoObjects ProtoConvert ProtoConvertLaws.
From S2P Require Import ProtoSchema ProtoSchemaConvert ProtoCodecs ApiAuth ApiGroups ApiPush.
Open Scope Z_scope.

Section Classes.
Context `{RL : RuntimeLaws} `{CL : ConversionLaws}.

(** ** [RegisterRequest] *)

Definition RegisterRequest_fields : list (field RegisterRequest) := [
    opt_field 10 kString RegisterRequest_username set_RegisterRequest_username;
    opt_field 18 kString RegisterRequest_password set_RegisterRequest_password].

#[export] Instance RegisterRequest_codec : Codec RegisterRequest_encode RegisterRequest_decode.
Proof. refine (schema_codec _ _ RegisterRequest_fields RegisterRequest_new RegisterRequest_unknowns RegisterRequest_push_unknown RegisterRequest_switch _ _ _ _ _ _);
  [reflexivity|reflexivity|solve_fields|solve_cases|solve_ready|intros d; unfold RegisterRequest_switch; solve_switch]. Defined.

Definition RegisterRequest_cfields : list (cfield RegisterRequest) := [
    copt "username" cString RegisterRequest_username set_RegisterRequest_username;
    copt "password" cString RegisterRequest_password set_RegisterRequest_password].

#[export] Instance RegisterRequest_converter : Converter RegisterRequest_codec RegisterRequest_toObject RegisterRequest_fromObject RegisterRequest_verify (λ _, True).
Proof. apply (schema_converter _ _ _ _ _ ".api.im.v1.RegisterRequest" RegisterRequest_cfields RegisterRequest_new RegisterRequest_unknowns);
  [reflexivity..|solve_names|solve_cfields|solve_untouched|solve_heights|intros v [Hok _]; revert Hok; unfold schema_ok, RegisterRequest_fields; solve_normals|solve_known|solve_copy|reflexivity]. Qed.

(** ** [RegisterReply] *)

Definition RegisterReply_fields : list (field RegisterReply) := [
    opt_field 8 kInt64 RegisterReply_userId set_RegisterReply_userId].

#[export] Instance RegisterReply_codec : Codec RegisterReply_encode RegisterReply_decode.
Proof. refine (schema_codec _ _ RegisterReply_fields RegisterReply_new RegisterReply_unknowns RegisterReply_push_unknown RegisterReply_switch _ _ _ _ _ _);
  [reflexivity|reflexivity|solve_fields|solve_cases|solve_ready|intros d; unfold RegisterReply_switch; solve_switch]. Defined.

Definition RegisterReply_cfields : list (cfield RegisterReply) := [
    copt "userId" (cLong false) RegisterReply_userId set_RegisterReply_userId].

#[export] Instance RegisterReply_converter : Converter RegisterReply_codec RegisterReply_toObject RegisterReply_fromObject RegisterReply_verify (λ _, True).
Proof. apply (schema_converter _ _ _ _ _ ".api.im.v1.RegisterReply" RegisterReply_cfields RegisterReply_new RegisterReply_unknowns);
  [reflexivity..|solve_names|solve_cfields|solve_untouched|solve_heights|intros v [Hok _]; revert Hok; unfold schema_ok, RegisterReply_fields; solve_normals|solve_known|solve_copy|reflexivity]. Qed.

(** ** [LoginRequest] *)

Definition LoginRequest_fields : list (field LoginRequest) := [
    opt_field 10 kString LoginRequest_username set_LoginRequest_username;
    opt_field 18 kString LoginRequest_password set_LoginRequest_password;
    opt_field 26 kString LoginRequest_deviceId set_LoginRequest_deviceId].

#[export] Instance LoginRequest_codec : Codec LoginRequest_encode LoginRequest_decode.
Proof. refine (schema_codec _ _ LoginRequest_fields LoginRequest_new LoginRequest_unknowns LoginRequest_push_unknown LoginRequest_switch _ _ _ _ _ _);
  [reflexivity|reflexivity|solve_fields|solve_cases|solve_ready|intros d; unfold LoginRequest_switch; solve_switch]. Defined.

Definition LoginRequest_cfields : list (cfield LoginRequest) := [
    copt "username" cString LoginRequest_username set_LoginRequest_username;
    copt "password" cString LoginRequest_password set_LoginRequest_password;
    copt "deviceId" cString LoginRequest_deviceId set_LoginRequest_deviceId].

#[export] Instance LoginRequest_converter : Converter LoginRequest_codec LoginRequest_toObject LoginRequest_fromObject LoginRequest_verify (λ _, True).
Proof. apply (schema_converter _ _ _ _ _ ".api.im.v1.LoginRequest" LoginRequest_cfields LoginRequest_new LoginRequest_unknowns);
  [reflexivity..|solve_names|solve_cfields|solve_untouched|solve_heights|intros v [Hok _]; revert Hok; unfold schema_ok, LoginRequest_fields; solve_normals|solve_known|solve_copy|reflexivity]. Qed.

(** ** [LoginReply] *)

Definition LoginReply_fields : list (field LoginReply) := [
    opt_field 8 kInt64 LoginReply_userId set_LoginReply_userId;
    opt_field 18 kString LoginReply_token set_LoginReply_token;
    opt_field 26 kString LoginReply_refreshToken set_LoginReply_refreshToken].

#[export] Instance LoginReply_codec : Codec LoginReply_encode LoginReply_decode.
Proof. refine (schema_codec _ _ LoginReply_fields LoginReply_new LoginReply_unknowns LoginReply_push_unknown LoginReply_switch _ _ _ _ _ _);
  [reflexivity|reflexivity|solve_fields|solve_cases|solve_ready|intros d; unfold LoginReply_switch; solve_switch]. Defined.

Definition LoginReply_cfields : list (cfield LoginReply) := [
    copt "userId" (cLong false) LoginReply_userId set_LoginReply_userId;
    copt "token" cString LoginReply_token set_LoginReply_token;
    copt "refreshToken" cString LoginReply_refreshToken set_LoginReply_refreshToken].

#[export] Instance LoginReply_converter : Converter LoginReply_codec LoginReply_toObject LoginReply_fromObject LoginReply_verify (λ _, True).
Proof. apply (schema_converter _ _ _ _ _ ".api.im.v1.LoginReply" LoginReply_cfields LoginReply_new LoginReply_unknowns);
  [reflexivity..|solve_names|solve_cfields|solve_untouched|solve_heights|intros v [Hok _]; revert Hok; unfold schema_ok, LoginReply_fields; solve_normals|solve_known|solve_copy|reflexivity]. Qed.

(** ** [RefreshTokenRequest] *)

Definition RefreshTokenRequest_fields : list (field RefreshTokenRequest) := [
    opt_field 8 kInt64 RefreshTokenRequest_userId set_RefreshTokenRequest_userId;
    opt_field 18 kString RefreshTokenRequest_deviceId set_RefreshTokenRequest_deviceId;
    opt_field 26 kString RefreshTokenRequest_refreshToken set_RefreshTokenRequest_refreshToken].

#[export] Instance RefreshTokenRequest_codec : Codec RefreshTokenRequest_encode RefreshTokenRequest_decode.
Proof. refine (schema_codec _ _ RefreshTokenRequest_fields RefreshTokenRequest_new RefreshTokenRequest_unknowns RefreshTokenRequest_push_unknown RefreshTokenRequest_switch _ _ _ _ _ _);
  [reflexivity|reflexivity|solve_fields|solve_cases|solve_ready|intros d; unfold RefreshTokenRequest_switch; solve_switch]. Defined.

Definition RefreshTokenRequest_cfields : list (cfield RefreshTokenRequest) := [
    copt "userId" (cLong false) RefreshTokenRequest_userId set_RefreshTokenRequest_userId;
    copt "deviceId" cString RefreshTokenRequest_deviceId set_RefreshTokenRequest_deviceId;
    copt "refreshToken" cString RefreshTokenRequest_refreshToken set_RefreshTokenRequest_refreshToken].

#[export] Instance RefreshTokenRequest_converter : Converter RefreshTokenRequest_codec RefreshTokenRequest_toObject RefreshTokenRequest_fromObject RefreshTokenRequest_verify (λ _, True).
Proof. apply (schema_converter _ _ _ _ _ ".api.im.v1.RefreshTokenRequest" RefreshTokenRequest_cfields RefreshTokenRequest_new RefreshTokenRequest_unknowns);
  [reflexivity..|solve_names|solve_cfields|solve_untouched|solve_heights|intros v [Hok _]; revert Hok; unfold schema_ok, RefreshTokenRequest_fields; solve_normals|solve_known|solve_copy|reflexivity]. Qed.

(** ** [LogoutRequest] *)

#[export] Instance LogoutRequest_codec : Codec LogoutRequest_encode LogoutRequest_decode.
Proof. refine (empty_codec _ _ LogoutRequest_new LogoutRequest_unknowns LogoutRequest_push_unknown _ _); reflexivity. Defined.

#[export] Instance LogoutRequest_converter : Converter LogoutRequest_codec LogoutRequest_toObject LogoutRequest_fromObject LogoutRequest_verify (λ _, True).
Proof. apply (empty_converter _ _ _ _ _ ".api.im.v1.LogoutRequest" LogoutRequest_new); reflexivity. Qed.

(** ** [LogoutReply] *)

Definition LogoutReply_fields : list (field LogoutReply) := [
    opt_field 8 kBool LogoutReply_success set_LogoutReply_success].

#[export] Instance LogoutReply_codec : Codec LogoutReply_encode LogoutReply_decode.
Proof. refine (schema_codec _ _ LogoutReply_fields LogoutReply_new LogoutReply_unknowns LogoutReply_push_unknown LogoutReply_switch _ _ _ _ _ _);
  [reflexivity|reflexivity|solve_fields|solve_cases|solve_ready|intros d; unfold LogoutReply_switch; solve_switch]. Defined.

Definition LogoutReply_cfields : list (cfield LogoutReply) := [
    copt "success" cBool LogoutReply_success set_LogoutReply_success].

#[export] Instance LogoutReply_converter : Converter LogoutReply_codec LogoutReply_toObject LogoutReply_fromObject LogoutReply_verify (λ _, True).
Proof. apply (schema_converter _ _ _ _ _ ".api.im.v1.LogoutReply" LogoutReply_cfields LogoutReply_new LogoutReply_unknowns);
  [reflexivity..|solve_names|solve_cfields|solve_untouched|solve_heights|intros v [Hok _]; revert Hok; unfold schema_ok, LogoutReply_fields; solve_normals|solve_known|solve_copy|reflexivity]. Qed.

(** ** [GetGatewayRequest] *)

Definition GetGatewayRequest_fields : list (field GetGatewayRequest) := [
    opt_field 8 kInt64 GetGatewayRequest_userId set_GetGatewayRequest_userId].

#[export] Instance GetGatewayRequest_codec : Codec GetGatewayRequest_encode GetGatewayRequest_decode.
Proof. refine (schema_codec _ _ GetGatewayRequest_fields GetGatewayRequest_new GetGatewayRequest_unknowns GetGatewayRequest_push_unknown GetGatewayRequest_switch _ _ _ _ _ _);
  [reflexivity|reflexivity|solve_fields|solve_cases|solve_ready|intros d; unfold GetGatewayRequest_switch; solve_switch]. Defined.

Definition GetGatewayRequest_cfields : list (cfield GetGatewayRequest) := [
    copt "userId" (cLong false) GetGatewayRequest_userId set_GetGatewayRequest_userId].

#[export] Instance GetGatewayRequest_converter : Converter GetGatewayRequest_codec GetGatewayRequest_toObject GetGatewayRequest_fromObject GetGatewayRequest_verify (λ _, True).
Proof. apply (schema_converter _ _ _ _ _ ".api.im.v1.GetGatewayRequest" GetGatewayRequest_cfields GetGatewayRequest_new GetGatewayRequest_unknowns);
  [reflexivity..|solve_names|solve_cfields|solve_untouched|solve_heights|intros v [Hok _]; revert Hok; unfold schema_ok, GetGatewayRequest_fields; solve_normals|solve_known|solve_copy|reflexivity]. Qed.

(** ** [GetGatewayReply] *)

Definition GetGatewayReply_fields : list (field GetGatewayReply) := [
    opt_field 10 kString GetGatewayReply_gatewayUrl set_GetGatewayReply_gatewayUrl;
    rep_field 18 kString GetGatewayReply_gatewayUrls set_GetGatewayReply_gatewayUrls].

#[export] Instance GetGatewayReply_codec : Codec GetGatewayReply_encode GetGatewayReply_decode.
Proof. refine (schema_codec _ _ GetGatewayReply_fields GetGatewayReply_new GetGatewayReply_unknowns GetGatewayReply_push_unknown GetGatewayReply_switch _ _ _ _ _ _);
  [reflexivity|reflexivity|solve_fields|solve_cases|solve_ready|intros d; unfold GetGatewayReply_switch; solve_switch]. Defined.

Definition GetGatewayReply_cfields : list (cfield GetGatewayReply) := [
    copt "gatewayUrl" cString GetGatewayReply_gatewayUrl set_GetGatewayReply_gatewayUrl;
    cstrings "gatewayUrls" GetGatewayReply_gatewayUrls set_GetGatewayReply_gatewayUrls].

#[export] Instance GetGatewayReply_converter : Converter GetGatewayReply_codec GetGatewayReply_toObject GetGatewayReply_fromObject GetGatewayReply_verify (λ _, True).
Proof. apply (schema_converter _ _ _ _ _ ".api.im.v1.GetGatewayReply" GetGatewayReply_cfields GetGatewayReply_new GetGatewayReply_unknowns);
  [reflexivity..|solve_names|solve_cfields|solve_untouched|solve_heights|intros v [Hok _]; revert Hok; unfold schema_ok, GetGatewayReply_fields; solve_normals|solve_known|solve_copy|reflexivity]. Qed.

(** ** [SearchUsersRequest] *)

Definition SearchUsersRequest_fields : list (field SearchUsersRequest) := [
    opt_field 10 kString SearchUsersRequest_username set_SearchUsersRequest_username;
    opt_field 16 kInt32 SearchUsersRequest_limit set_SearchUsersRequest_limit].

#[export] Instance SearchUsersRequest_codec : Codec SearchUsersRequest_encode SearchUsersRequest_decode.
Proof. refine (schema_codec _ _ SearchUsersRequest_fields SearchUsersRequest_new SearchUsersRequest_unknowns SearchUsersRequest_push_unknown SearchUsersRequest_switch _ _ _ _ _ _);
  [reflexivity|reflexivity|solve_fields|solve_cases|solve_ready|intros d; unfold SearchUsersRequest_switch; solve_switch]. Defined.

Definition SearchUsersRequest_cfields : list (cfield SearchUsersRequest) := [
    copt "username" cString SearchUsersRequest_username set_SearchUsersRequest_username;
    copt "limit" cInt32 SearchUsersRequest_limit set_SearchUsersRequest_limit].

#[export] Instance SearchUsersRequest_converter : Converter SearchUsersRequest_codec SearchUsersRequest_toObject SearchUsersRequest_fromObject SearchUsersRequest_verify (λ _, True).
Proof. apply (schema_converter _ _ _ _ _ ".api.im.v1.SearchUsersRequest" SearchUsersRequest_cfields SearchUsersRequest_new SearchUsersRequest_unknowns);
  [reflexivity..|solve_names|solve_cfields|solve_untouched|solve_heights|intros v [Hok _]; revert Hok; unfold schema_ok, SearchUsersRequest_fields; solve_normals|solve_known|solve_copy|reflexivity]. Qed.

(** ** [User] *)

Definition User_fields : list (field User) := [
    opt_field 8 kInt64 User_userId set_User_userId;
    opt_field 18 kString User_username set_User_username].

#[export] Instance User_codec : Codec User_encode User_decode.
Proof. refine (schema_codec _ _ User_fields User_new User_unknowns User_push_unknown User_switch _ _ _ _ _ _);
  [reflexivity|reflexivity|solve_fields|solve_cases|solve_ready|intros d; unfold User_switch; solve_switch]. Defined.

Definition User_cfields : list (cfield User) := [
    copt "userId" (cLong false) User_userId set_User_userId;
    copt "username" cString User_username set_User_username].

#[export] Instance User_converter : Converter User_codec User_toObject User_fromObject User_verify (λ _, True).
Proof. apply (schema_converter _ _ _ _ _ ".api.im.v1.User" User_cfields User_new User_unknowns);
  [reflexivity..|solve_names|solve_cfields|solve_untouched|solve_heights|intros v [Hok _]; revert Hok; unfold schema_ok, User_fields; solve_normals|solve_known|solve_copy|reflexivity]. Qed.

(** ** [SearchUsersReply] *)

Definition SearchUsersReply_fields : list (field SearchUsersReply) := [
    msgs_field 10 User_encode User_decode SearchUsersReply_users set_SearchUsersReply_users].

#[export] Instance SearchUsersReply_codec : Codec SearchUsersReply_encode SearchUsersReply_decode.
Proof. refine (schema_codec _ _ SearchUsersReply_fields SearchUsersReply_new SearchUsersReply_unknowns SearchUsersReply_push_unknown SearchUsersReply_switch _ _ _ _ _ _);
  [reflexivity|reflexivity|solve_fields|solve_cases|solve_ready|intros d; unfold SearchUsersReply_switch; solve_switch]. Defined.

Definition SearchUsersReply_cfields : list (cfield SearchUsersReply) := [
    cmsgs "users" User_toObject User_fromObject User_verify (λ _, True) SearchUsersReply_users set_SearchUsersReply_users].

#[export] Instance SearchUsersReply_converter : Converter SearchUsersReply_codec SearchUsersReply_toObject SearchUsersReply_fromObject SearchUsersReply_verify (λ _, True).
Proof. apply (schema_converter _ _ _ _ _ ".api.im.v1.SearchUsersReply" SearchUsersReply_cfields SearchUsersReply_new SearchUsersReply_unknowns);
  [reflexivity..|solve_names|solve_cfields|solve_untouched|solve_heights|intros v [Hok _]; revert Hok; unfold schema_ok, SearchUsersReply_fields; solve_normals|solve_known|solve_copy|reflexivity]. Qed.

(** ** [GetUserPresenceRequest] *)

Definition GetUserPresenceRequest_fields : list (field GetUserPresenceRequest) := [
    opt_field 8 kInt64 GetUserPresenceRequest_userId set_GetUserPresenceRequest_userId].

#[export] Instance GetUserPresenceRequest_codec : Codec GetUserPresenceRequest_encode GetUserPresenceRequest_decode.
Proof. refine (schema_codec _ _ GetUserPresenceRequest_fields GetUserPresenceRequest_new GetUserPresenceRequest_unknowns GetUserPresenceRequest_push_unknown GetUserPresenceRequest_switch _ _ _ _ _ _);
  [reflexivity|reflexivity|solve_fields|solve_cases|solve_ready|intros d; unfold GetUserPresenceRequest_switch; solve_switch]. Defined.

Definition GetUserPresenceRequest_cfields : list (cfield GetUserPresenceRequest) := [
    copt "userId" (cLong false) GetUserPresenceRequest_userId set_GetUserPresenceRequest_userId].

#[export] Instance GetUserPresenceRequest_converter : Converter GetUserPresenceRequest_codec GetUserPresenceRequest_toObject GetUserPresenceRequest_fromObject GetUserPresenceRequest_verify (λ _, True).
Proof. apply (schema_converter _ _ _ _ _ ".api.im.v1.GetUserPresenceRequest" GetUserPresenceRequest_cfields GetUserPresenceRequest_new GetUserPresenceRequest_unknowns);
  [reflexivity..|solve_names|solve_cfields|solve_untouched|solve_heights|intros v [Hok _]; revert Hok; unfold schema_ok, GetUserPresenceRequest_fields; solve_normals|solve_known|solve_copy|reflexivity]. Qed.

(** ** [GetUserPresenceReply] *)

Definition GetUserPresenceReply_fields : list (field GetUserPresenceReply) := [
    opt_field 8 kInt64 GetUserPresenceReply_userId set_GetUserPresenceReply_userId;
    opt_field 16 kBool GetUserPresenceReply_online set_GetUserPresenceReply_online].

#[export] Instance GetUserPresenceReply_codec : Codec GetUserPresenceReply_encode GetUserPresenceReply_decode.
Proof. refine (schema_codec _ _ GetUserPresenceReply_fields GetUserPresenceReply_new GetUserPresenceReply_unknowns GetUserPresenceReply_push_unknown GetUserPresenceReply_switch _ _ _ _ _ _);
  [reflexivity|reflexivity|solve_fields|solve_cases|solve_ready|intros d; unfold GetUserPresenceReply_switch; solve_switch]. Defined.

Definition GetUserPresenceReply_cfields : list (cfield GetUserPresenceReply) := [
    copt "userId" (cLong false) GetUserPresenceReply_userId set_GetUserPresenceReply_userId;
    copt "online" cBool GetUserPresenceReply_online set_GetUserPresenceReply_online].

#[export] Instance GetUserPresenceReply_converter : Converter GetUserPresenceReply_codec GetUserPresenceReply_toObject GetUserPresenceReply_fromObject GetUserPresenceReply_verify (λ _, True).
Proof. apply (schema_converter _ _ _ _ _ ".api.im.v1.GetUserPresenceReply" GetUserPresenceReply_cfields GetUserPresenceReply_new GetUserPresenceReply_unknowns);
  [reflexivity..|solve_names|solve_cfields|solve_untouched|solve_heights|intros v [Hok _]; revert Hok; unfold schema_ok, GetUserPresenceReply_fields; solve_normals|solve_known|solve_copy|reflexivity]. Qed.

(** ** [ListConversationsRequest] *)

Definition ListConversationsRequest_fields : list (field ListConversationsRequest) := [
    opt_field 8 kInt32 ListConversationsRequest_limit set_ListConversationsRequest_limit;
    opt_field 16 kInt64 ListConversationsRequest_offset set_ListConversationsRequest_offset].

#[export] Instance ListConversationsRequest_codec : Codec ListConversationsRequest_encode ListConversationsRequest_decode.
Proof. refine (schema_codec _ _ ListConversationsRequest_fields ListConversationsRequest_new ListConversationsRequest_unknowns ListConversationsRequest_push_unknown ListConversationsRequest_switch _ _ _ _ _ _);
  [reflexivity|reflexivity|solve_fields|solve_cases|solve_ready|intros d; unfold ListConversationsRequest_switch; solve_switch]. Defined.

Definition ListConversationsRequest_cfields : list (cfield ListConversationsRequest) := [
    copt "limit" cInt32 ListConversationsRequest_limit set_ListConversationsRequest_limit;
    copt "offset" (cLong false) ListConversationsRequest_offset set_ListConversationsRequest_offset].

#[export] Instance ListConversationsRequest_converter : Converter ListConversationsRequest_codec ListConversationsRequest_toObject ListConversationsRequest_fromObject ListConversationsRequest_verify (λ _, True).
Proof. apply (schema_converter _ _ _ _ _ ".api.im.v1.ListConversationsRequest" ListConversationsRequest_cfields ListConversationsRequest_new ListConversationsRequest_unknowns);
  [reflexivity..|solve_names|solve_cfields|solve_untouched|solve_heights|intros v [Hok _]; revert Hok; unfold schema_ok, ListConversationsRequest_fields; solve_normals|solve_known|solve_copy|reflexivity]. Qed.

(** ** [Conversation] *)

Definition Conversation_fields : list (field Conversation) := [
    opt_field 10 kString Conversation_topic set_Conversation_topic;
    opt_field 18 kString Conversation_type set_Conversation_type;
    opt_field 24 kInt64 Conversation_peerId set_Conversation_peerId;
    opt_field 34 kString Conversation_peerUsername set_Conversation_peerUsername;
    opt_field 42 kString Conversation_lastMsgPreview set_Conversation_lastMsgPreview;
    opt_field 48 kInt64 Conversation_lastMsgAt set_Conversation_lastMsgAt;
    opt_field 56 kUint64 Conversation_lastSeq set_Conversation_lastSeq;
    opt_field 64 kUint64 Conversation_lastReadSeq set_Conversation_lastReadSeq;
    opt_field 72 kInt32 Conversation_unreadCount set_Conversation_unreadCount].

#[export] Instance Conversation_codec : Codec Conversation_encode Conversation_decode.
Proof. refine (schema_codec _ _ Conversation_fields Conversation_new Conversation_unknowns Conversation_push_unknown Conversation_switch _ _ _ _ _ _);
  [reflexivity|reflexivity|solve_fields|solve_cases|solve_ready|intros d; unfold Conversation_switch; solve_switch]. Defined.

Definition Conversation_cfields : list (cfield Conversation) := [
    copt "topic" cString Conversation_topic set_Conversation_topic;
    copt "type" cString Conversation_type set_Conversation_type;
    copt "peerId" (cLong false) Conversation_peerId set_Conversation_peerId;
    copt "peerUsername" cString Conversation_peerUsername set_Conversation_peerUsername;
    copt "lastMsgPreview" cString Conversation_lastMsgPreview set_Conversation_lastMsgPreview;
    copt "lastMsgAt" (cLong false) Conversation_lastMsgAt set_Conversation_lastMsgAt;
    copt "lastSeq" (cLong true) Conversation_lastSeq set_Conversation_lastSeq;
    copt "lastReadSeq" (cLong true) Conversation_lastReadSeq set_Conversation_lastReadSeq;
    copt "unreadCount" cInt32 Conversation_unreadCount set_Conversation_unreadCount].

#[export] Instance Conversation_converter : Converter Conversation_codec Conversation_toObject Conversation_fromObject Conversation_verify (λ _, True).
Proof. apply (schema_converter _ _ _ _ _ ".api.im.v1.Conversation" Conversation_cfields Conversation_new Conversation_unknowns);
  [reflexivity..|solve_names|solve_cfields|solve_untouched|solve_heights|intros v [Hok _]; revert Hok; unfold schema_ok, Conversation_fields; solve_normals|solve_known|solve_copy|reflexivity]. Qed.

(** ** [ListConversationsReply] *)

Definition ListConversationsReply_fields : list (field ListConversationsReply) := [
    msgs_field 10 Conversation_encode Conversation_decode ListConversationsReply_conversations set_ListConversationsReply_conversations;
    opt_field 16 kBool ListConversationsReply_hasMore set_ListConversationsReply_hasMore].

#[export] Instance ListConversationsReply_codec : Codec ListConversationsReply_encode ListConversationsReply_decode.
Proof. refine (schema_codec _ _ ListConversationsReply_fields ListConversationsReply_new ListConversationsReply_unknowns ListConversationsReply_push_unknown ListConversationsReply_switch _ _ _ _ _ _);
  [reflexivity|reflexivity|solve_fields|solve_cases|solve_ready|intros d; unfold ListConversationsReply_switch; solve_switch]. Defined.

Definition ListConversationsReply_cfields : list (cfield ListConversationsReply) := [
    cmsgs "conversations" Conversation_toObject Conversation_fromObject Conversation_verify (λ _, True) ListConversationsReply_conversations set_ListConversationsReply_conversations;
    copt "hasMore" cBool ListConversationsReply_hasMore set_ListConversationsReply_hasMore].

#[export] Instance ListConversationsReply_converter : Converter ListConversationsReply_codec ListConversationsReply_toObject ListConversationsReply_fromObject ListConversationsReply_verify (λ _, True).
Proof. apply (schema_converter _ _ _ _ _ ".api.im.v1.ListConversationsReply" ListConversationsReply_cfields ListConversationsReply_new ListConversationsReply_unknowns);
  [reflexivity..|solve_names|solve_cfields|solve_untouched|solve_heights|intros v [Hok _]; revert Hok; unfold schema_ok, ListConversationsReply_fields; solve_normals|solve_known|solve_copy|reflexivity]. Qed.

(** ** [MarkConversationReadRequest] *)

Definition MarkConversationReadRequest_fields : list (field MarkConversationReadRequest) := [
    opt_field 10 kString MarkConversationReadRequest_topic set_MarkConversationReadRequest_topic].

#[export] Instance MarkConversationReadRequest_codec : Codec MarkConversationReadRequest_encode MarkConversationReadRequest_decode.
Proof. refine (schema_codec _ _ MarkConversationReadRequest_fields MarkConversationReadRequest_new MarkConversationReadRequest_unknowns MarkConversationReadRequest_push_unknown MarkConversationReadRequest_switch _ _ _ _ _ _);
  [reflexivity|reflexivity|solve_fields|solve_cases|solve_ready|intros d; unfold MarkConversationReadRequest_switch; solve_switch]. Defined.

Definition MarkConversationReadRequest_cfields : list (cfield MarkConversationReadRequest) := [
    copt "topic" cString MarkConversationReadRequest_topic set_MarkConversationReadRequest_topic].

#[export] Instance MarkConversationReadRequest_converter : Converter MarkConversationReadRequest_codec MarkConversationReadRequest_toObject MarkConversationReadRequest_fromObject MarkConversationReadRequest_verify (λ _, True).
Proof. apply (schema_converter _ _ _ _ _ ".api.im.v1.MarkConversationReadRequest" MarkConversationReadRequest_cfields MarkConversationReadRequest_new MarkConversationReadRequest_unknowns);
  [reflexivity..|solve_names|solve_cfields|solve_untouched|solve_heights|intros v [Hok _]; revert Hok; unfold schema_ok, MarkConversationReadRequest_fields; solve_normals|solve_known|solve_copy|reflexivity]. Qed.

(** ** [UploadFileRequest] *)

Definition UploadFileRequest_fields : list (field UploadFileRequest) := [
    opt_field 10 kBytes UploadFileRequest_data set_UploadFileRequest_data;
    opt_field 18 kString UploadFileRequest_name set_UploadFileRequest_name;
    opt_field 26 kString UploadFileRequest_mime set_UploadFileRequest_mime].

#[export] Instance UploadFileRequest_codec : Codec UploadFileRequest_encode UploadFileRequest_decode.
Proof. refine (schema_codec _ _ UploadFileRequest_fields UploadFileRequest_new UploadFileRequest_unknowns UploadFileRequest_push_unknown UploadFileRequest_switch _ _ _ _ _ _);
  [reflexivity|reflexivity|solve_fields|solve_cases|solve_ready|intros d; unfold UploadFileRequest_switch; solve_switch]. Defined.

Definition UploadFileRequest_cfields : list (cfield UploadFileRequest) := [
    copt "data" cBytes UploadFileRequest_data set_UploadFileRequest_data;
    copt "name" cString UploadFileRequest_name set_UploadFileRequest_name;
    copt "mime" cString UploadFileRequest_mime set_UploadFileRequest_mime].

#[export] Instance UploadFileRequest_converter : Converter UploadFileRequest_codec UploadFileRequest_toObject UploadFileRequest_fromObject UploadFileRequest_verify (λ _, True).
Proof. apply (schema_converter _ _ _ _ _ ".api.im.v1.UploadFileRequest" UploadFileRequest_cfields UploadFileRequest_new UploadFileRequest_unknowns);
  [reflexivity..|solve_names|solve_cfields|solve_untouched|solve_heights|intros v [Hok _]; revert Hok; unfold schema_ok, UploadFileRequest_fields; solve_normals|solve_known|solve_copy|reflexivity]. Qed.

(** ** [UploadFileReply] *)

Definition UploadFileReply_fields : list (field UploadFileReply) := [
    opt_field 10 kString UploadFileReply_fileId set_UploadFileReply_fileId;
    opt_field 18 kString UploadFileReply_url set_UploadFileReply_url;
    opt_field 26 kString UploadFileReply_name set_UploadFileReply_name;
    opt_field 32 kInt64 UploadFileReply_size set_UploadFileReply_size;
    opt_field 42 kString UploadFileReply_mime set_UploadFileReply_mime].

#[export] Instance UploadFileReply_codec : Codec UploadFileReply_encode UploadFileReply_decode.
Proof. refine (schema_codec _ _ UploadFileReply_fields UploadFileReply_new UploadFileReply_unknowns UploadFileReply_push_unknown UploadFileReply_switch _ _ _ _ _ _);
  [reflexivity|reflexivity|solve_fields|solve_cases|solve_ready|intros d; unfold UploadFileReply_switch; solve_switch]. Defined.

Definition UploadFileReply_cfields : list (cfield UploadFileReply) := [
    copt "fileId" cString UploadFileReply_fileId set_UploadFileReply_fileId;
    copt "url" cString UploadFileReply_url set_UploadFileReply_url;
    copt "name" cString UploadFileReply_name set_UploadFileReply_name;
    copt "size" (cLong false) UploadFileReply_size set_UploadFileReply_size;
    copt "mime" cString UploadFileReply_mime set_UploadFileReply_mime].

#[export] Instance UploadFileReply_converter : Converter UploadFileReply_codec UploadFileReply_toObject UploadFileReply_fromObject UploadFileReply_verify (λ _, True).
Proof. apply (schema_converter _ _ _ _ _ ".api.im.v1.UploadFileReply" UploadFileReply_cfields UploadFileReply_new UploadFileReply_unknowns);
  [reflexivity..|solve_names|solve_cfields|solve_untouched|solve_heights|intros v [Hok _]; revert Hok; unfold schema_ok, UploadFileReply_fields; solve_normals|solve_known|solve_copy|reflexivity]. Qed.

(** ** [DownloadFileRequest] *)

Definition DownloadFileRequest_fields : list (field DownloadFileRequest) := [
    opt_field 10 kString DownloadFileRequest_fileId set_DownloadFileRequest_fileId].

#[export] Instance DownloadFileRequest_codec : Codec DownloadFileRequest_encode DownloadFileRequest_decode.
Proof. refine (schema_codec _ _ DownloadFileRequest_fields DownloadFileRequest_new DownloadFileRequest_unknowns DownloadFileRequest_push_unknown DownloadFileRequest_switch _ _ _ _ _ _);
  [reflexivity|reflexivity|solve_fields|solve_cases|solve_ready|intros d; unfold DownloadFileRequest_switch; solve_switch]. Defined.

Definition DownloadFileRequest_cfields : list (cfield DownloadFileRequest) := [
    copt "fileId" cString DownloadFileRequest_fileId set_DownloadFileRequest_fileId].

#[export] Instance DownloadFileRequest_converter : Converter DownloadFileRequest_codec DownloadFileRequest_toObject DownloadFileRequest_fromObject DownloadFileRequest_verify (λ _, True).
Proof. apply (schema_converter _ _ _ _ _ ".api.im.v1.DownloadFileRequest" DownloadFileRequest_cfields DownloadFileRequest_new DownloadFileRequest_unknowns);
  [reflexivity..|solve_names|solve_cfields|solve_untouched|solve_heights|intros v [Hok _]; revert Hok; unfold schema_ok, DownloadFileRequest_fields; solve_normals|solve_known|solve_copy|reflexivity]. Qed.

(** ** [DownloadFileReply] *)

Definition DownloadFileReply_fields : list (field DownloadFileReply) := [
    opt_field 10 kBytes DownloadFileReply_data set_DownloadFileReply_data;
    opt_field 18 kString DownloadFileReply_name set_DownloadFileReply_name;
    opt_field 26 kString DownloadFileReply_mime set_DownloadFileReply_mime].

#[export] Instance DownloadFileReply_codec : Codec DownloadFileReply_encode DownloadFileReply_decode.
Proof. refine (schema_codec _ _ DownloadFileReply_fields DownloadFileReply_new DownloadFileReply_unknowns DownloadFileReply_push_unknown DownloadFileReply_switch _ _ _ _ _ _);
  [reflexivity|reflexivity|solve_fields|solve_cases|solve_ready|intros d; unfold DownloadFileReply_switch; solve_switch]. Defined.

Definition DownloadFileReply_cfields : list (cfield DownloadFileReply) := [
    copt "data" cBytes DownloadFileReply_data set_DownloadFileReply_data;
    copt "name" cString DownloadFileReply_name set_DownloadFileReply_name;
    copt "mime" cString DownloadFileReply_mime set_DownloadFileReply_mime].

#[export] Instance DownloadFileReply_converter : Converter DownloadFileReply_codec DownloadFileReply_toObject DownloadFileReply_fromObject DownloadFileReply_verify (λ _, True).
Proof. apply (schema_converter _ _ _ _ _ ".api.im.v1.DownloadFileReply" DownloadFileReply_cfields DownloadFileReply_new DownloadFileReply_unknowns);
  [reflexivity..|solve_names|solve_cfields|solve_untouched|solve_heights|intros v [Hok _]; revert Hok; unfold schema_ok, DownloadFileReply_fields; solve_normals|solve_known|solve_copy|reflexivity]. Qed.

(** ** [CreateGroupRequest] *)

Definition CreateGroupRequest_fields : list (field CreateGroupRequest) := [
    opt_field 10 kString CreateGroupRequest_name set_CreateGroupRequest_name;
    packed_field 18 kInt64 CreateGroupRequest_memberIds set_CreateGroupRequest_memberIds].

#[export] Instance CreateGroupRequest_codec : Codec CreateGroupRequest_encode CreateGroupRequest_decode.
Proof. refine (schema_codec _ _ CreateGroupRequest_fields CreateGroupRequest_new CreateGroupRequest_unknowns CreateGroupRequest_push_unknown CreateGroupRequest_switch _ _ _ _ _ _);
  [reflexivity|reflexivity|solve_fields|solve_cases|solve_ready|intros d; unfold CreateGroupRequest_switch; solve_switch]. Defined.

Definition CreateGroupRequest_cfields : list (cfield CreateGroupRequest) := [
    copt "name" cString CreateGroupRequest_name set_CreateGroupRequest_name;
    clongs "memberIds" false CreateGroupRequest_memberIds set_CreateGroupRequest_memberIds].

#[export] Instance CreateGroupRequest_converter : Converter CreateGroupRequest_codec CreateGroupRequest_toObject CreateGroupRequest_fromObject CreateGroupRequest_verify (λ _, True).
Proof. apply (schema_converter _ _ _ _ _ ".api.im.v1.CreateGroupRequest" CreateGroupRequest_cfields CreateGroupRequest_new CreateGroupRequest_unknowns);
  [reflexivity..|solve_names|solve_cfields|solve_untouched|solve_heights|intros v [Hok _]; revert Hok; unfold schema_ok, CreateGroupRequest_fields; solve_normals|solve_known|solve_copy|reflexivity]. Qed.

(** ** [CreateGroupReply] *)

Definition CreateGroupReply_fields : list (field CreateGroupReply) := [
    opt_field 10 kString CreateGroupReply_groupId set_CreateGroupReply_groupId;
    opt_field 18 kString CreateGroupReply_topic set_CreateGroupReply_topic].

#[export] Instance CreateGroupReply_codec : Codec CreateGroupReply_encode CreateGroupReply_decode.
Proof. refine (schema_codec _ _ CreateGroupReply_fields CreateGroupReply_new CreateGroupReply_unknowns CreateGroupReply_push_unknown CreateGroupReply_switch _ _ _ _ _ _);
  [reflexivity|reflexivity|solve_fields|solve_cases|solve_ready|intros d; unfold CreateGroupReply_switch; solve_switch]. Defined.

Definition CreateGroupReply_cfields : list (cfield CreateGroupReply) := [
    copt "groupId" cString CreateGroupReply_groupId set_CreateGroupReply_groupId;
    copt "topic" cString CreateGroupReply_topic set_CreateGroupReply_topic].

#[export] Instance CreateGroupReply_converter : Converter CreateGroupReply_codec CreateGroupReply_toObject CreateGroupReply_fromObject CreateGroupReply_verify (λ _, True).
Proof. apply (schema_converter _ _ _ _ _ ".api.im.v1.CreateGroupReply" CreateGroupReply_cfields CreateGroupReply_new CreateGroupReply_unknowns);
  [reflexivity..|solve_names|solve_cfields|solve_untouched|solve_heights|intros v [Hok _]; revert Hok; unfold schema_ok, CreateGroupReply_fields; solve_normals|solve_known|solve_copy|reflexivity]. Qed.

(** ** [Group] *)

Definition Group_fields : list (field Group) := [
    opt_field 10 kString Group_groupId set_Group_groupId;
    opt_field 18 kString Group_topic set_Group_topic;
    opt_field 26 kString Group_name set_Group_name;
    opt_field 32 kInt64 Group_ownerId set_Group_ownerId;
    opt_field 40 kInt64 Group_createdAt set_Group_createdAt].

#[export] Instance Group_codec : Codec Group_encode Group_decode.
Proof. refine (schema_codec _ _ Group_fields Group_new Group_unknowns Group_push_unknown Group_switch _ _ _ _ _ _);
  [reflexivity|reflexivity|solve_fields|solve_cases|solve_ready|intros d; unfold Group_switch; solve_switch]. Defined.

Definition Group_cfields : list (cfield Group) := [
    copt "groupId" cString Group_groupId set_Group_groupId;
    copt "topic" cString Group_topic set_Group_topic;
    copt "name" cString Group_name set_Group_name;
    copt "ownerId" (cLong false) Group_ownerId set_Group_ownerId;
    copt "createdAt" (cLong false) Group_createdAt set_Group_createdAt].

#[export] Instance Group_converter : Converter Group_codec Group_toObject Group_fromObject Group_verify (λ _, True).
Proof. apply (schema_converter _ _ _ _ _ ".api.im.v1.Group" Group_cfields Group_new Group_unknowns);
  [reflexivity..|solve_names|solve_cfields|solve_untouched|solve_heights|intros v [Hok _]; revert Hok; unfold schema_ok, Group_fields; solve_normals|solve_known|solve_copy|reflexivity]. Qed.

(** ** [ListGroupsReply] *)

Definition ListGroupsReply_fields : list (field ListGroupsReply) := [
    msgs_field 10 Group_encode Group_decode ListGroupsReply_groups set_ListGroupsReply_groups].

#[export] Instance ListGroupsReply_codec : Codec ListGroupsReply_encode ListGroupsReply_decode.
Proof. refine (schema_codec _ _ ListGroupsReply_fields ListGroupsReply_new ListGroupsReply_unknowns ListGroupsReply_push_unknown ListGroupsReply_switch _ _ _ _ _ _);
  [reflexivity|reflexivity|solve_fields|solve_cases|solve_ready|intros d; unfold ListGroupsReply_switch; solve_switch]. Defined.

Definition ListGroupsReply_cfields : list (cfield ListGroupsReply) := [
    cmsgs "groups" Group_toObject Group_fromObject Group_verify (λ _, True) ListGroupsReply_groups set_ListGroupsReply_groups].

#[export] Instance ListGroupsReply_converter : Converter ListGroupsReply_codec ListGroupsReply_toObject ListGroupsReply_fromObject ListGroupsReply_verify (λ _, True).
Proof. apply (schema_converter _ _ _ _ _ ".api.im.v1.ListGroupsReply" ListGroupsReply_cfields ListGroupsReply_new ListGroupsReply_unknowns);
  [reflexivity..|solve_names|solve_cfields|solve_untouched|solve_heights|intros v [Hok _]; revert Hok; unfold schema_ok, ListGroupsReply_fields; solve_normals|solve_known|solve_copy|reflexivity]. Qed.

(** ** [GetGroupRequest] *)

Definition GetGroupRequest_fields : list (field GetGroupRequest) := [
    opt_field 10 kString GetGroupRequest_groupId set_GetGroupRequest_groupId].

#[export] Instance GetGroupRequest_codec : Codec GetGroupRequest_encode GetGroupRequest_decode.
Proof. refine (schema_codec _ _ GetGroupRequest_fields GetGroupRequest_new GetGroupRequest_unknowns GetGroupRequest_push_unknown GetGroupRequest_switch _ _ _ _ _ _);
  [reflexivity|reflexivity|solve_fields|solve_cases|solve_ready|intros d; unfold GetGroupRequest_switch; solve_switch]. Defined.

Definition GetGroupRequest_cfields : list (cfield GetGroupRequest) := [
    copt "groupId" cString GetGroupRequest_groupId set_GetGroupRequest_groupId].

#[export] Instance GetGroupRequest_converter : Converter GetGroupRequest_codec GetGroupRequest_toObject GetGroupRequest_fromObject GetGroupRequest_verify (λ _, True).
Proof. apply (schema_converter _ _ _ _ _ ".api.im.v1.GetGroupRequest" GetGroupRequest_cfields GetGroupRequest_new GetGroupRequest_unknowns);
  [reflexivity..|solve_names|solve_cfields|solve_untouched|solve_heights|intros v [Hok _]; revert Hok; unfold schema_ok, GetGroupRequest_fields; solve_normals|solve_known|solve_copy|reflexivity]. Qed.

(** ** [AddGroupMemberRequest] *)

Definition AddGroupMemberRequest_fields : list (field AddGroupMemberRequest) := [
    opt_field 10 kString AddGroupMemberRequest_groupId set_AddGroupMemberRequest_groupId;
    opt_field 16 kInt64 AddGroupMemberRequest_userId set_AddGroupMemberRequest_userId].

#[export] Instance AddGroupMemberRequest_codec : Codec AddGroupMemberRequest_encode AddGroupMemberRequest_decode.
Proof. refine (schema_codec _ _ AddGroupMemberRequest_fields AddGroupMemberRequest_new AddGroupMemberRequest_unknowns AddGroupMemberRequest_push_unknown AddGroupMemberRequest_switch _ _ _ _ _ _);
  [reflexivity|reflexivity|solve_fields|solve_cases|solve_ready|intros d; unfold AddGroupMemberRequest_switch; solve_switch]. Defined.

Definition AddGroupMemberRequest_cfields : list (cfield AddGroupMemberRequest) := [
    copt "groupId" cString AddGroupMemberRequest_groupId set_AddGroupMemberRequest_groupId;
    copt "userId" (cLong false) AddGroupMemberRequest_userId set_AddGroupMemberRequest_userId].

#[export] Instance AddGroupMemberRequest_converter : Converter AddGroupMemberRequest_codec AddGroupMemberRequest_toObject AddGroupMemberRequest_fromObject AddGroupMemberRequest_verify (λ _, True).
Proof. apply (schema_converter _ _ _ _ _ ".api.im.v1.AddGroupMemberRequest" AddGroupMemberRequest_cfields AddGroupMemberRequest_new AddGroupMemberRequest_unknowns);
  [reflexivity..|solve_names|solve_cfields|solve_untouched|solve_heights|intros v [Hok _]; revert Hok; unfold schema_ok, AddGroupMemberRequest_fields; solve_normals|solve_known|solve_copy|reflexivity]. Qed.

(** ** [RemoveGroupMemberRequest] *)

Definition RemoveGroupMemberRequest_fields : list (field RemoveGroupMemberRequest) := [
    opt_field 10 kString RemoveGroupMemberRequest_groupId set_RemoveGroupMemberRequest_groupId;
    opt_field 16 kInt64 RemoveGroupMemberRequest_userId set_RemoveGroupMemberRequest_userId].

#[export] Instance RemoveGroupMemberRequest_codec : Codec RemoveGroupMemberRequest_encode RemoveGroupMemberRequest_decode.
Proof. refine (schema_codec _ _ RemoveGroupMemberRequest_fields RemoveGroupMemberRequest_new RemoveGroupMemberRequest_unknowns RemoveGroupMemberRequest_push_unknown RemoveGroupMemberRequest_switch _ _ _ _ _ _);
  [reflexivity|reflexivity|solve_fields|solve_cases|solve_ready|intros d; unfold RemoveGroupMemberRequest_switch; solve_switch]. Defined.

Definition RemoveGroupMemberRequest_cfields : list (cfield RemoveGroupMemberRequest) := [
    copt "groupId" cString RemoveGroupMemberRequest_groupId set_RemoveGroupMemberRequest_groupId;
    copt "userId" (cLong false) RemoveGroupMemberRequest_userId set_RemoveGroupMemberRequest_userId].

#[export] Instance RemoveGroupMemberRequest_converter : Converter RemoveGroupMemberRequest_codec RemoveGroupMemberRequest_toObject RemoveGroupMemberRequest_fromObject RemoveGroupMemberRequest_verify (λ _, True).
Proof. apply (schema_converter _ _ _ _ _ ".api.im.v1.RemoveGroupMemberRequest" RemoveGroupMemberRequest_cfields RemoveGroupMemberRequest_new RemoveGroupMemberRequest_unknowns);
  [reflexivity..|solve_names|solve_cfields|solve_untouched|solve_heights|intros v [Hok _]; revert Hok; unfold schema_ok, RemoveGroupMemberRequest_fields; solve_normals|solve_known|solve_copy|reflexivity]. Qed.

(** ** [ListGroupMembersRequest] *)

Definition ListGroupMembersRequest_fields : list (field ListGroupMembersRequest) := [
    opt_field 10 kString ListGroupMembersRequest_groupId set_ListGroupMembersRequest_groupId].

#[export] Instance ListGroupMembersRequest_codec : Codec ListGroupMembersRequest_encode ListGroupMembersRequest_decode.
Proof. refine (schema_codec _ _ ListGroupMembersRequest_fields ListGroupMembersRequest_new ListGroupMembersRequest_unknowns ListGroupMembersRequest_push_unknown ListGroupMembersRequest_switch _ _ _ _ _ _);
  [reflexivity|reflexivity|solve_fields|solve_cases|solve_ready|intros d; unfold ListGroupMembersRequest_switch; solve_switch]. Defined.

Definition ListGroupMembersRequest_cfields : list (cfield ListGroupMembersRequest) := [
    copt "groupId" cString ListGroupMembersRequest_groupId set_ListGroupMembersRequest_groupId].

#[export] Instance ListGroupMembersRequest_converter : Converter ListGroupMembersRequest_codec ListGroupMembersRequest_toObject ListGroupMembersRequest_fromObject ListGroupMembersRequest_verify (λ _, True).
Proof. apply (schema_converter _ _ _ _ _ ".api.im.v1.ListGroupMembersRequest" ListGroupMembersRequest_cfields ListGroupMembersRequest_new ListGroupMembersRequest_unknowns);
  [reflexivity..|solve_names|solve_cfields|solve_untouched|solve_heights|intros v [Hok _]; revert Hok; unfold schema_ok, ListGroupMembersRequest_fields; solve_normals|solve_known|solve_copy|reflexivity]. Qed.

(** ** [GroupMember] *)

Definition GroupMember_fields : list (field GroupMember) := [
    opt_field 8 kInt64 GroupMember_userId set_GroupMember_userId;
    opt_field 18 kString GroupMember_username set_GroupMember_username].

#[export] Instance GroupMember_codec : Codec GroupMember_encode GroupMember_decode.
Proof. refine (schema_codec _ _ GroupMember_fields GroupMember_new GroupMember_unknowns GroupMember_push_unknown GroupMember_switch _ _ _ _ _ _);
  [reflexivity|reflexivity|solve_fields|solve_cases|solve_ready|intros d; unfold GroupMember_switch; solve_switch]. Defined.

Definition GroupMember_cfields : list (cfield GroupMember) := [
    copt "userId" (cLong false) GroupMember_userId set_GroupMember_userId;
    copt "username" cString GroupMember_username set_GroupMember_username].

#[export] Instance GroupMember_converter : Converter GroupMember_codec GroupMember_toObject GroupMember_fromObject GroupMember_verify (λ _, True).
Proof. apply (schema_converter _ _ _ _ _ ".api.im.v1.GroupMember" GroupMember_cfields GroupMember_new GroupMember_unknowns);
  [reflexivity..|solve_names|solve_cfields|solve_untouched|solve_heights|intros v [Hok _]; revert Hok; unfold schema_ok, GroupMember_fields; solve_normals|solve_known|solve_copy|reflexivity]. Qed.

(** ** [ListGroupMembersReply] *)

Definition ListGroupMembersReply_fields : list (field ListGroupMembersReply) := [
    msgs_field 10 GroupMember_encode GroupMember_decode ListGroupMembersReply_members set_ListGroupMembersReply_members].

#[export] Instance ListGroupMembersReply_codec : Codec ListGroupMembersReply_encode ListGroupMembersReply_decode.
Proof. refine (schema_codec _ _ ListGroupMembersReply_fields ListGroupMembersReply_new ListGroupMembersReply_unknowns ListGroupMembersReply_push_unknown ListGroupMembersReply_switch _ _ _ _ _ _);
  [reflexivity|reflexivity|solve_fields|solve_cases|solve_ready|intros d; unfold ListGroupMembersReply_switch; solve_switch]. Defined.

Definition ListGroupMembersReply_cfields : list (cfield ListGroupMembersReply) := [
    cmsgs "members" GroupMember_toObject GroupMember_fromObject GroupMember_verify (λ _, True) ListGroupMembersReply_members set_ListGroupMembersReply_members].

#[export] Instance ListGroupMembersReply_converter : Converter ListGroupMembersReply_codec ListGroupMembersReply_toObject ListGroupMembersReply_fromObject ListGroupMembersReply_verify (λ _, True).
Proof. apply (schema_converter _ _ _ _ _ ".api.im.v1.ListGroupMembersReply" ListGroupMembersReply_cfields ListGroupMembersReply_new ListGroupMembersReply_unknowns);
  [reflexivity..|solve_names|solve_cfields|solve_untouched|solve_heights|intros v [Hok _]; revert Hok; unfold schema_ok, ListGroupMembersReply_fields; solve_normals|solve_known|solve_copy|reflexivity]. Qed.

(** ** [PushToUserRequest] *)

Definition PushToUserRequest_fields : list (field PushToUserRequest) := [
    opt_field 8 kInt64 PushToUserRequest_userId set_PushToUserRequest_userId;
    msg_field 18 MessagePush_encode MessagePush_decode PushToUserRequest_message set_PushToUserRequest_message].

#[export] Instance PushToUserRequest_codec : Codec PushToUserRequest_encode PushToUserRequest_decode.
Proof. refine (schema_codec _ _ PushToUserRequest_fields PushToUserRequest_new PushToUserRequest_unknowns PushToUserRequest_push_unknown PushToUserRequest_switch _ _ _ _ _ _);
  [reflexivity|reflexivity|solve_fields|solve_cases|solve_ready|intros d; unfold PushToUserRequest_switch; solve_switch]. Defined.

Definition PushToUserRequest_cfields : list (cfield PushToUserRequest) := [
    copt "userId" (cLong false) PushToUserRequest_userId set_PushToUserRequest_userId;
    cmsg "message" MessagePush_toObject MessagePush_fromObject MessagePush_verify (λ _, True) PushToUserRequest_message set_PushToUserRequest_message].

#[export] Instance PushToUserRequest_converter : Converter PushToUserRequest_codec PushToUserRequest_toObject PushToUserRequest_fromObject PushToUserRequest_verify (λ _, True).
Proof. apply (schema_converter _ _ _ _ _ ".api.im.v1.PushToUserRequest" PushToUserRequest_cfields PushToUserRequest_new PushToUserRequest_unknowns);
  [reflexivity..|solve_names|solve_cfields|solve_untouched|solve_heights|intros v [Hok _]; revert Hok; unfold schema_ok, PushToUserRequest_fields; solve_normals|solve_known|solve_copy|reflexivity]. Qed.

(** ** [PushToUserReply] *)

Definition PushToUserReply_fields : list (field PushToUserReply) := [
    opt_field 8 kBool PushToUserReply_success set_PushToUserReply_success;
    opt_field 16 kInt32 PushToUserReply_deliveredCount set_PushToUserReply_deliveredCount].

#[export] Instance PushToUserReply_codec : Codec PushToUserReply_encode PushToUserReply_decode.
Proof. refine (schema_codec _ _ PushToUserReply_fields PushToUserReply_new PushToUserReply_unknowns PushToUserReply_push_unknown PushToUserReply_switch _ _ _ _ _ _);
  [reflexivity|reflexivity|solve_fields|solve_cases|solve_ready|intros d; unfold PushToUserReply_switch; solve_switch]. Defined.

Definition PushToUserReply_cfields : list (cfield PushToUserReply) := [
    copt "success" cBool PushToUserReply_success set_PushToUserReply_success;
    copt "deliveredCount" cInt32 PushToUserReply_deliveredCount set_PushToUserReply_deliveredCount].

#[export] Instance PushToUserReply_converter : Converter PushToUserReply_codec PushToUserReply_toObject PushToUserReply_fromObject PushToUserReply_verify (λ _, True).
Proof. apply (schema_converter _ _ _ _ _ ".api.im.v1.PushToUserReply" PushToUserReply_cfields PushToUserReply_new PushToUserReply_unknowns);
  [reflexivity..|solve_names|solve_cfields|solve_untouched|solve_heights|intros v [Hok _]; revert Hok; unfold schema_ok, PushToUserReply_fields; solve_normals|solve_known|solve_copy|reflexivity]. Qed.

(** ** [BatchPushToUsersRequest] *)

Definition BatchPushToUsersRequest_fields : list (field BatchPushToUsersRequest) := [
    packed_field 10 kInt64 BatchPushToUsersRequest_userIds set_BatchPushToUsersRequest_userIds;
    msg_field 18 MessagePush_encode MessagePush_decode BatchPushToUsersRequest_message set_BatchPushToUsersRequest_message].

#[export] Instance BatchPushToUsersRequest_codec : Codec BatchPushToUsersRequest_encode BatchPushToUsersRequest_decode.
Proof. refine (schema_codec _ _ BatchPushToUsersRequest_fields BatchPushToUsersRequest_new BatchPushToUsersRequest_unknowns BatchPushToUsersRequest_push_unknown BatchPushToUsersRequest_switch _ _ _ _ _ _);
  [reflexivity|reflexivity|solve_fields|solve_cases|solve_ready|intros d; unfold BatchPushToUsersRequest_switch; solve_switch]. Defined.

Definition BatchPushToUsersRequest_cfields : list (cfield BatchPushToUsersRequest) := [
    clongs "userIds" false BatchPushToUsersRequest_userIds set_BatchPushToUsersRequest_userIds;
    cmsg "message" MessagePush_toObject MessagePush_fromObject MessagePush_verify (λ _, True) BatchPushToUsersRequest_message set_BatchPushToUsersRequest_message].

#[export] Instance BatchPushToUsersRequest_converter : Converter BatchPushToUsersRequest_codec BatchPushToUsersRequest_toObject BatchPushToUsersRequest_fromObject BatchPushToUsersRequest_verify (λ _, True).
Proof. apply (schema_converter _ _ _ _ _ ".api.im.v1.BatchPushToUsersRequest" BatchPushToUsersRequest_cfields BatchPushToUsersRequest_new BatchPushToUsersRequest_unknowns);
  [reflexivity..|solve_names|solve_cfields|solve_untouched|solve_heights|intros v [Hok _]; revert Hok; unfold schema_ok, BatchPushToUsersRequest_fields; solve_normals|solve_known|solve_copy|reflexivity]. Qed.

(** ** [BatchPushToUsersReply] *)

Definition BatchPushToUsersReply_fields : list (field BatchPushToUsersReply) := [
    opt_field 8 kInt32 BatchPushToUsersReply_totalDelivered set_BatchPushToUsersReply_totalDelivered;
    packed_field 18 kInt64 BatchPushToUsersReply_failedUserIds set_BatchPushToUsersReply_failedUserIds].

#[export] Instance BatchPushToUsersReply_codec : Codec BatchPushToUsersReply_encode BatchPushToUsersReply_decode.
Proof. refine (schema_codec _ _ BatchPushToUsersReply_fields BatchPushToUsersReply_new BatchPushToUsersReply_unknowns BatchPushToUsersReply_push_unknown BatchPushToUsersReply_switch _ _ _ _ _ _);
  [reflexivity|reflexivity|solve_fields|solve_cases|solve_ready|intros d; unfold BatchPushToUsersReply_switch; solve_switch]. Defined.

Definition BatchPushToUsersReply_cfields : list (cfield BatchPushToUsersReply) := [
    copt "totalDelivered" cInt32 BatchPushToUsersReply_totalDelivered set_BatchPushToUsersReply_totalDelivered;
    clongs "failedUserIds" false BatchPushToUsersReply_failedUserIds set_BatchPushToUsersReply_failedUserIds].

#[export] Instance BatchPushToUsersReply_converter : Converter BatchPushToUsersReply_codec BatchPushToUsersReply_toObject BatchPushToUsersReply_fromObject BatchPushToUsersReply_verify (λ _, True).
Proof. apply (schema_converter _ _ _ _ _ ".api.im.v1.BatchPushToUsersReply" BatchPushToUsersReply_cfields BatchPushToUsersReply_new BatchPushToUsersReply_unknowns);
  [reflexivity..|solve_names|solve_cfields|solve_untouched|solve_heights|intros v [Hok _]; revert Hok; unfold schema_ok, BatchPushToUsersReply_fields; solve_normals|solve_known|solve_copy|reflexivity]. Qed.

(** ** [PushReceiptToUserRequest] *)

Definition PushReceiptToUserRequest_fields : list (field PushReceiptToUserRequest) := [
    opt_field 8 kInt64 PushReceiptToUserRequest_userId set_PushReceiptToUserRequest_userId;
    msg_field 18 SendReceipt_encode SendReceipt_decode PushReceiptToUserRequest_receipt set_PushReceiptToUserRequest_receipt].

#[export] Instance PushReceiptToUserRequest_codec : Codec PushReceiptToUserRequest_encode PushReceiptToUserRequest_decode.
Proof. refine (schema_codec _ _ PushReceiptToUserRequest_fields PushReceiptToUserRequest_new PushReceiptToUserRequest_unknowns PushReceiptToUserRequest_push_unknown PushReceiptToUserRequest_switch _ _ _ _ _ _);
  [reflexivity|reflexivity|solve_fields|solve_cases|solve_ready|intros d; unfold PushReceiptToUserRequest_switch; solve_switch]. Defined.

Definition PushReceiptToUserRequest_cfields : list (cfield PushReceiptToUserRequest) := [
    copt "userId" (cLong false) PushReceiptToUserRequest_userId set_PushReceiptToUserRequest_userId;
    cmsg "receipt" SendReceipt_toObject SendReceipt_fromObject SendReceipt_verify (λ _, True) PushReceiptToUserRequest_receipt set_PushReceiptToUserRequest_receipt].

#[export] Instance PushReceiptToUserRequest_converter : Converter PushReceiptToUserRequest_codec PushReceiptToUserRequest_toObject PushReceiptToUserRequest_fromObject PushReceiptToUserRequest_verify (λ _, True).
Proof. apply (schema_converter _ _ _ _ _ ".api.im.v1.PushReceiptToUserRequest" PushReceiptToUserRequest_cfields PushReceiptToUserRequest_new PushReceiptToUserRequest_unknowns);
  [reflexivity..|solve_names|solve_cfields|solve_untouched|solve_heights|intros v [Hok _]; revert Hok; unfold schema_ok, PushReceiptToUserRequest_fields; solve_normals|solve_known|solve_copy|reflexivity]. Qed.

(** ** [PushReceiptToUserReply] *)

Definition PushReceiptToUserReply_fields : list (field PushReceiptToUserReply) := [
    opt_field 8 kBool PushReceiptToUserReply_success set_PushReceiptToUserReply_success;
    opt_field 16 kInt32 PushReceiptToUserReply_deliveredCount set_PushReceiptToUserReply_deliveredCount].

#[export] Instance PushReceiptToUserReply_codec : Codec PushReceiptToUserReply_encode PushReceiptToUserReply_decode.
Proof. refine (schema_codec _ _ PushReceiptToUserReply_fields PushReceiptToUserReply_new PushReceiptToUserReply_unknowns PushReceiptToUserReply_push_unknown PushReceiptToUserReply_switch _ _ _ _ _ _);
  [reflexivity|reflexivity|solve_fields|solve_cases|solve_ready|intros d; unfold PushReceiptToUserReply_switch; solve_switch]. Defined.

Definition PushReceiptToUserReply_cfields : list (cfield PushReceiptToUserReply) := [
    copt "success" cBool PushReceiptToUserReply_success set_PushReceiptToUserReply_success;
    copt "deliveredCount" cInt32 PushReceiptToUserReply_deliveredCount set_PushReceiptToUserReply_deliveredCount].

#[export] Instance PushReceiptToUserReply_converter : Converter PushReceiptToUserReply_codec PushReceiptToUserReply_toObject PushReceiptToUserReply_fromObject PushReceiptToUserReply_verify (λ _, True).
Proof. apply (schema_converter _ _ _ _ _ ".api.im.v1.PushReceiptToUserReply" PushReceiptToUserReply_cfields PushReceiptToUserReply_new PushReceiptToUserReply_unknowns);
  [reflexivity..|solve_names|solve_cfields|solve_untouched|solve_heights|intros v [Hok _]; revert Hok; unfold schema_ok, PushReceiptToUserReply_fields; solve_normals|solve_known|solve_copy|reflexivity]. Qed.

(** ** [BatchPushReceiptToUsersRequest] *)

Definition BatchPushReceiptToUsersRequest_fields : list (field BatchPushReceiptToUsersRequest) := [
    packed_field 10 kInt64 BatchPushReceiptToUsersRequest_userIds set_BatchPushReceiptToUsersRequest_userIds;
    msg_field 18 SendReceipt_encode SendReceipt_decode BatchPushReceiptToUsersRequest_receipt set_BatchPushReceiptToUsersRequest_receipt].

#[export] Instance BatchPushReceiptToUsersRequest_codec : Codec BatchPushReceiptToUsersRequest_encode BatchPushReceiptToUsersRequest_decode.
Proof. refine (schema_codec _ _ BatchPushReceiptToUsersRequest_fields BatchPushReceiptToUsersRequest_new BatchPushReceiptToUsersRequest_unknowns BatchPushReceiptToUsersRequest_push_unknown BatchPushReceiptToUsersRequest_switch _ _ _ _ _ _);
  [reflexivity|reflexivity|solve_fields|solve_cases|solve_ready|intros d; unfold BatchPushReceiptToUsersRequest_switch; solve_switch]. Defined.

Definition BatchPushReceiptToUsersRequest_cfields : list (cfield BatchPushReceiptToUsersRequest) := [
    clongs "userIds" false BatchPushReceiptToUsersRequest_userIds set_BatchPushReceiptToUsersRequest_userIds;
    cmsg "receipt" SendReceipt_toObject SendReceipt_fromObject SendReceipt_verify (λ _, True) BatchPushReceiptToUsersRequest_receipt set_BatchPushReceiptToUsersRequest_receipt].

#[export] Instance BatchPushReceiptToUsersRequest_converter : Converter BatchPushReceiptToUsersRequest_codec BatchPushReceiptToUsersRequest_toObject BatchPushReceiptToUsersRequest_fromObject BatchPushReceiptToUsersRequest_verify (λ _, True).
Proof. apply (schema_converter _ _ _ _ _ ".api.im.v1.BatchPushReceiptToUsersRequest" BatchPushReceiptToUsersRequest_cfields BatchPushReceiptToUsersRequest_new BatchPushReceiptToUsersRequest_unknowns);
  [reflexivity..|solve_names|solve_cfields|solve_untouched|solve_heights|intros v [Hok _]; revert Hok; unfold schema_ok, BatchPushReceiptToUsersRequest_fields; solve_normals|solve_known|solve_copy|reflexivity]. Qed.

(** ** [BatchPushReceiptToUsersReply] *)

Definition BatchPushReceiptToUsersReply_fields : list (field BatchPushReceiptToUsersReply) := [
    opt_field 8 kInt32 BatchPushReceiptToUsersReply_totalDelivered set_BatchPushReceiptToUsersReply_totalDelivered;
    packed_field 18 kInt64 BatchPushReceiptToUsersReply_failedUserIds set_BatchPushReceiptToUsersReply_failedUserIds].

#[export] Instance BatchPushReceiptToUsersReply_codec : Codec BatchPushReceiptToUsersReply_encode BatchPushReceiptToUsersReply_decode.
Proof. refine (schema_codec _ _ BatchPushReceiptToUsersReply_fields BatchPushReceiptToUsersReply_new BatchPushReceiptToUsersReply_unknowns BatchPushReceiptToUsersReply_push_unknown BatchPushReceiptToUsersReply_switch _ _ _ _ _ _);
  [reflexivity|reflexivity|solve_fields|solve_cases|solve_ready|intros d; unfold BatchPushReceiptToUsersReply_switch; solve_switch]. Defined.

Definition BatchPushReceiptToUsersReply_cfields : list (cfield BatchPushReceiptToUsersReply) := [
    copt "totalDelivered" cInt32 BatchPushReceiptToUsersReply_totalDelivered set_BatchPushReceiptToUsersReply_totalDelivered;
    clongs "failedUserIds" false BatchPushReceiptToUsersReply_failedUserIds set_BatchPushReceiptToUsersReply_failedUserIds].

#[export] Instance BatchPushReceiptToUsersReply_converter : Converter BatchPushReceiptToUsersReply_codec BatchPushReceiptToUsersReply_toObject BatchPushReceiptToUsersReply_fromObject BatchPushReceiptToUsersReply_verify (λ _, True).
Proof. apply (schema_converter _ _ _ _ _ ".api.im.v1.BatchPushReceiptToUsersReply" BatchPushReceiptToUsersReply_cfields BatchPushReceiptToUsersReply_new BatchPushReceiptToUsersReply_unknowns);
  [reflexivity..|solve_names|solve_cfields|solve_untouched|solve_heights|intros v [Hok _]; revert Hok; unfold schema_ok, BatchPushReceiptToUsersReply_fields; solve_normals|solve_known|solve_copy|reflexivity]. Qed.

(** ** [ReceiptBatchItem] *)

Definition ReceiptBatchItem_fields : list (field ReceiptBatchItem) := [
    opt_field 8 kInt64 ReceiptBatchItem_userId set_ReceiptBatchItem_userId;
    msg_field 18 SendReceipt_encode SendReceipt_decode ReceiptBatchItem_receipt set_ReceiptBatchItem_receipt].

#[export] Instance ReceiptBatchItem_codec : Codec ReceiptBatchItem_encode ReceiptBatchItem_decode.
Proof. refine (schema_codec _ _ ReceiptBatchItem_fields ReceiptBatchItem_new ReceiptBatchItem_unknowns ReceiptBatchItem_push_unknown ReceiptBatchItem_switch _ _ _ _ _ _);
  [reflexivity|reflexivity|solve_fields|solve_cases|solve_ready|intros d; unfold ReceiptBatchItem_switch; solve_switch]. Defined.

Definition ReceiptBatchItem_cfields : list (cfield ReceiptBatchItem) := [
    copt "userId" (cLong false) ReceiptBatchItem_userId set_ReceiptBatchItem_userId;
    cmsg "receipt" SendReceipt_toObject SendReceipt_fromObject SendReceipt_verify (λ _, True) ReceiptBatchItem_receipt set_ReceiptBatchItem_receipt].

#[export] Instance ReceiptBatchItem_converter : Converter ReceiptBatchItem_codec ReceiptBatchItem_toObject ReceiptBatchItem_fromObject ReceiptBatchItem_verify (λ _, True).
Proof. apply (schema_converter _ _ _ _ _ ".api.im.v1.ReceiptBatchItem" ReceiptBatchItem_cfields ReceiptBatchItem_new ReceiptBatchItem_unknowns);
  [reflexivity..|solve_names|solve_cfields|solve_untouched|solve_heights|intros v [Hok _]; revert Hok; unfold schema_ok, ReceiptBatchItem_fields; solve_normals|solve_known|solve_copy|reflexivity]. Qed.

(** ** [BatchPushReceiptsToUsersRequest] *)

Definition BatchPushReceiptsToUsersRequest_fields : list (field BatchPushReceiptsToUsersRequest) := [
    msgs_field 10 ReceiptBatchItem_encode ReceiptBatchItem_decode BatchPushReceiptsToUsersRequest_items set_BatchPushReceiptsToUsersRequest_items].

#[export] Instance BatchPushReceiptsToUsersRequest_codec : Codec BatchPushReceiptsToUsersRequest_encode BatchPushReceiptsToUsersRequest_decode.
Proof. refine (schema_codec _ _ BatchPushReceiptsToUsersRequest_fields BatchPushReceiptsToUsersRequest_new BatchPushReceiptsToUsersRequest_unknowns BatchPushReceiptsToUsersRequest_push_unknown BatchPushReceiptsToUsersRequest_switch _ _ _ _ _ _);
  [reflexivity|reflexivity|solve_fields|solve_cases|solve_ready|intros d; unfold BatchPushReceiptsToUsersRequest_switch; solve_switch]. Defined.

Definition BatchPushReceiptsToUsersRequest_cfields : list (cfield BatchPushReceiptsToUsersRequest) := [
    cmsgs "items" ReceiptBatchItem_toObject ReceiptBatchItem_fromObject ReceiptBatchItem_verify (λ _, True) BatchPushReceiptsToUsersRequest_items set_BatchPushReceiptsToUsersRequest_items].

#[export] Instance BatchPushReceiptsToUsersRequest_converter : Converter BatchPushReceiptsToUsersRequest_codec BatchPushReceiptsToUsersRequest_toObject BatchPushReceiptsToUsersRequest_fromObject BatchPushReceiptsToUsersRequest_verify (λ _, True).
Proof. apply (schema_converter _ _ _ _ _ ".api.im.v1.BatchPushReceiptsToUsersRequest" BatchPushReceiptsToUsersRequest_cfields BatchPushReceiptsToUsersRequest_new BatchPushReceiptsToUsersRequest_unknowns);
  [reflexivity..|solve_names|solve_cfields|solve_untouched|solve_heights|intros v [Hok _]; revert Hok; unfold schema_ok, BatchPushReceiptsToUsersRequest_fields; solve_normals|solve_known|solve_copy|reflexivity]. Qed.

(** ** [BatchPushReceiptsToUsersReply] *)

Definition BatchPushReceiptsToUsersReply_fields : list (field BatchPushReceiptsToUsersReply) := [
    opt_field 8 kInt32 BatchPushReceiptsToUsersReply_totalDelivered set_BatchPushReceiptsToUsersReply_totalDelivered;
    msgs_field 18 ReceiptBatchItem_encode ReceiptBatchItem_decode BatchPushReceiptsToUsersReply_failedItems set_BatchPushReceiptsToUsersReply_failedItems].

#[export] Instance BatchPushReceiptsToUsersReply_codec : Codec BatchPushReceiptsToUsersReply_encode BatchPushReceiptsToUsersReply_decode.
Proof. refine (schema_codec _ _ BatchPushReceiptsToUsersReply_fields BatchPushReceiptsToUsersReply_new BatchPushReceiptsToUsersReply_unknowns BatchPushReceiptsToUsersReply_push_unknown BatchPushReceiptsToUsersReply_switch _ _ _ _ _ _);
  [reflexivity|reflexivity|solve_fields|solve_cases|solve_ready|intros d; unfold BatchPushReceiptsToUsersReply_switch; solve_switch]. Defined.

Definition BatchPushReceiptsToUsersReply_cfields : list (cfield BatchPushReceiptsToUsersReply) := [
    copt "totalDelivered" cInt32 BatchPushReceiptsToUsersReply_totalDelivered set_BatchPushReceiptsToUsersReply_totalDelivered;
    cmsgs "failedItems" ReceiptBatchItem_toObject ReceiptBatchItem_fromObject ReceiptBatchItem_verify (λ _, True) BatchPushReceiptsToUsersReply_failedItems set_BatchPushReceiptsToUsersReply_failedItems].

#[export] Instance BatchPushReceiptsToUsersReply_converter : Converter BatchPushReceiptsToUsersReply_codec BatchPushReceiptsToUsersReply_toObject BatchPushReceiptsToUsersReply_fromObject BatchPushReceiptsToUsersReply_verify (λ _, True).
Proof. apply (schema_converter _ _ _ _ _ ".api.im.v1.BatchPushReceiptsToUsersReply" BatchPushReceiptsToUsersReply_cfields BatchPushReceiptsToUsersReply_new BatchPushReceiptsToUsersReply_unknowns);
  [reflexivity..|solve_names|solve_cfields|solve_untouched|solve_heights|intros v [Hok _]; revert Hok; unfold schema_ok, BatchPushReceiptsToUsersReply_fields; solve_normals|solve_known|solve_copy|reflexivity]. Qed.

(** ** [Empty] *)

#[export] Instance Empty_codec : Codec Empty_encode Empty_decode.
Proof. refine (empty_codec _ _ Empty_new Empty_unknowns Empty_push_unknown _ _); reflexivity. Defined.

#[export] Instance Empty_converter : Converter Empty_codec Empty_toObject Empty_fromObject Empty_verify (λ _, True).
Proof. apply (empty_converter _ _ _ _ _ ".google.protobuf.Empty" Empty_new); reflexivity. Qed.

End Classes.
