(* ===== verification/ApiClasses.v ===== *)
(** * The message classes together

    Every generated message class of the protocol, except [Packet], as a value:
    its operations with what its schema proves of them.  [api_classes] lists
    them all, and the theorems here hold for each of its members: round trips
    of single messages and of delimited streams, termination of decoding,
    round trips through plain objects, distinct type URLs. *)

From S2P Require Import Prelude JsNum JsMap ProtoRuntime ProtoLaws ProtoMessages ProtoWire ProtoObjects ProtoConvert ProtoConvertLaws.
From S2P Require Import ProtoSchema ProtoSchemaConvert ProtoCodecs ApiAuth ApiGroups ApiPush ApiCodecs ProtoPacketProps ProtoConvertProps.
Open Scope Z_scope.

(** No class has more than two levels of messages inside. *)
Ltac solve_levels := vm_compute; discriminate.

Section Classes.
Context `{RL : RuntimeLaws} `{CL : ConversionLaws}.

Record message_class := MessageClass {
  mc_name : string;
  mc_type : Type;
  mc_encode : mc_type → option Writer → option Z → res Writer;
  mc_encodeDelimited : mc_type → option Writer → res Writer;
  mc_decode : decoder mc_type;
  mc_decodeDelimited : Reader → res (mc_type * Reader);
  mc_verify : jsval → option Z → option string;
  mc_fromObject : jsval → option Z → res mc_type;
  mc_toObject : mc_type → Options → option Z → res jsval;
  mc_getTypeUrl : option string → string;
  (** The enumeration values of a message are known. *)
  mc_known : mc_type → Prop;
  mc_codec : Codec mc_encode mc_decode;
  mc_converter : Converter mc_codec mc_toObject mc_fromObject mc_verify mc_known;
  mc_levels : c_height ≤ 2;
  mc_delimited : mc_encodeDelimited = delimited mc_encode ∧ mc_decodeDelimited = decode_delimited mc_decode;
}.

Definition SendMessageRequest_class : message_class :=
  MessageClass "api.im.v1.SendMessageRequest" SendMessageRequest SendMessageRequest_encode SendMessageRequest_encodeDelimited SendMessageRequest_decode SendMessageRequest_decodeDelimited SendMessageRequest_verify SendMessageRequest_fromObject SendMessageRequest_toObject
    SendMessageRequest_getTypeUrl (λ v, opt_all (λ z, z ∈ MsgType.*1) (SendMessageRequest_msgType v)) SendMessageRequest_codec SendMessageRequest_converter ltac:(solve_levels) (conj eq_refl eq_refl).
Definition SendMessageReply_class : message_class :=
  MessageClass "api.im.v1.SendMessageReply" SendMessageReply SendMessageReply_encode SendMessageReply_encodeDelimited SendMessageReply_decode SendMessageReply_decodeDelimited SendMessageReply_verify SendMessageReply_fromObject SendMessageReply_toObject
    SendMessageReply_getTypeUrl (λ _, True) SendMessageReply_codec SendMessageReply_converter ltac:(solve_levels) (conj eq_refl eq_refl).
Definition MessagePush_class : message_class :=
  MessageClass "api.im.v1.MessagePush" MessagePush MessagePush_encode MessagePush_encodeDelimited MessagePush_decode MessagePush_decodeDelimited MessagePush_verify MessagePush_fromObject MessagePush_toObject
    MessagePush_getTypeUrl (λ _, True) MessagePush_codec MessagePush_converter ltac:(solve_levels) (conj eq_refl eq_refl).
Definition PullRequest_class : message_class :=
  MessageClass "api.im.v1.PullRequest" PullRequest PullRequest_encode PullRequest_encodeDelimited PullRequest_decode PullRequest_decodeDelimited PullRequest_verify PullRequest_fromObject PullRequest_toObject
    PullRequest_getTypeUrl (λ _, True) PullRequest_codec PullRequest_converter ltac:(solve_levels) (conj eq_refl eq_refl).
Definition PullMessage_class : message_class :=
  MessageClass "api.im.v1.PullMessage" PullMessage PullMessage_encode PullMessage_encodeDelimited PullMessage_decode PullMessage_decodeDelimited PullMessage_verify PullMessage_fromObject PullMessage_toObject
    PullMessage_getTypeUrl (λ _, True) PullMessage_codec PullMessage_converter ltac:(solve_levels) (conj eq_refl eq_refl).
Definition PullReply_class : message_class :=
  MessageClass "api.im.v1.PullReply" PullReply PullReply_encode PullReply_encodeDelimited PullReply_decode PullReply_decodeDelimited PullReply_verify PullReply_fromObject PullReply_toObject
    PullReply_getTypeUrl (λ _, True) PullReply_codec PullReply_converter ltac:(solve_levels) (conj eq_refl eq_refl).
Definition AuthRequest_class : message_class :=
  MessageClass "api.im.v1.AuthRequest" AuthRequest AuthRequest_encode AuthRequest_encodeDelimited AuthRequest_decode AuthRequest_decodeDelimited AuthRequest_verify AuthRequest_fromObject AuthRequest_toObject
    AuthRequest_getTypeUrl (λ _, True) AuthRequest_codec AuthRequest_converter ltac:(solve_levels) (conj eq_refl eq_refl).
Definition AuthResponse_class : message_class :=
  MessageClass "api.im.v1.AuthResponse" AuthResponse AuthResponse_encode AuthResponse_encodeDelimited AuthResponse_decode AuthResponse_decodeDelimited AuthResponse_verify AuthResponse_fromObject AuthResponse_toObject
    AuthResponse_getTypeUrl (λ _, True) AuthResponse_codec AuthResponse_converter ltac:(solve_levels) (conj eq_refl eq_refl).
Definition AckRequest_class : message_class :=
  MessageClass "api.im.v1.AckRequest" AckRequest AckRequest_encode AckRequest_encodeDelimited AckRequest_decode AckRequest_decodeDelimited AckRequest_verify AckRequest_fromObject AckRequest_toObject
    AckRequest_getTypeUrl (λ _, True) AckRequest_codec AckRequest_converter ltac:(solve_levels) (conj eq_refl eq_refl).
Definition ErrorResponse_class : message_class :=
  MessageClass "api.im.v1.ErrorResponse" ErrorResponse ErrorResponse_encode ErrorResponse_encodeDelimited ErrorResponse_decode ErrorResponse_decodeDelimited ErrorResponse_verify ErrorResponse_fromObject ErrorResponse_toObject
    ErrorResponse_getTypeUrl (λ _, True) ErrorResponse_codec ErrorResponse_converter ltac:(solve_levels) (conj eq_refl eq_refl).
Definition ReadReceipt_class : message_class :=
  MessageClass "api.im.v1.ReadReceipt" ReadReceipt ReadReceipt_encode ReadReceipt_encodeDelimited ReadReceipt_decode ReadReceipt_decodeDelimited ReadReceipt_verify ReadReceipt_fromObject ReadReceipt_toObject
    ReadReceipt_getTypeUrl (λ _, True) ReadReceipt_codec ReadReceipt_converter ltac:(solve_levels) (conj eq_refl eq_refl).
Definition DeliveryReceipt_class : message_class :=
  MessageClass "api.im.v1.DeliveryReceipt" DeliveryReceipt DeliveryReceipt_encode DeliveryReceipt_encodeDelimited DeliveryReceipt_decode DeliveryReceipt_decodeDelimited DeliveryReceipt_verify DeliveryReceipt_fromObject DeliveryReceipt_toObject
    DeliveryReceipt_getTypeUrl (λ _, True) DeliveryReceipt_codec DeliveryReceipt_converter ltac:(solve_levels) (conj eq_refl eq_refl).
Definition SendReceipt_class : message_class :=
  MessageClass "api.im.v1.SendReceipt" SendReceipt SendReceipt_encode SendReceipt_encodeDelimited SendReceipt_decode SendReceipt_decodeDelimited SendReceipt_verify SendReceipt_fromObject SendReceipt_toObject
    SendReceipt_getTypeUrl (λ _, True) SendReceipt_codec SendReceipt_converter ltac:(solve_levels) (conj eq_refl eq_refl).
Definition RecallRequest_class : message_class :=
  MessageClass "api.im.v1.RecallRequest" RecallRequest RecallRequest_encode RecallRequest_encodeDelimited RecallRequest_decode RecallRequest_decodeDelimited RecallRequest_verify RecallRequest_fromObject RecallRequest_toObject
    RecallRequest_getTypeUrl (λ _, True) RecallRequest_codec RecallRequest_converter ltac:(solve_levels) (conj eq_refl eq_refl).
Definition RecallNotice_class : message_class :=
  MessageClass "api.im.v1.RecallNotice" RecallNotice RecallNotice_encode RecallNotice_encodeDelimited RecallNotice_decode RecallNotice_decodeDelimited RecallNotice_verify RecallNotice_fromObject RecallNotice_toObject
    RecallNotice_getTypeUrl (λ _, True) RecallNotice_codec RecallNotice_converter ltac:(solve_levels) (conj eq_refl eq_refl).
Definition UpstreamMessage_class : message_class :=
  MessageClass "api.im.v1.UpstreamMessage" UpstreamMessage UpstreamMessage_encode UpstreamMessage_encodeDelimited UpstreamMessage_decode UpstreamMessage_decodeDelimited UpstreamMessage_verify UpstreamMessage_fromObject UpstreamMessage_toObject
    UpstreamMessage_getTypeUrl (λ _, True) UpstreamMessage_codec UpstreamMessage_converter ltac:(solve_levels) (conj eq_refl eq_refl).
Definition RegisterRequest_class : message_class :=
  MessageClass "api.im.v1.RegisterRequest" RegisterRequest RegisterRequest_encode RegisterRequest_encodeDelimited RegisterRequest_decode RegisterRequest_decodeDelimited RegisterRequest_verify RegisterRequest_fromObject RegisterRequest_toObject
    RegisterRequest_getTypeUrl (λ _, True) RegisterRequest_codec RegisterRequest_converter ltac:(solve_levels) (conj eq_refl eq_refl).
Definition RegisterReply_class : message_class :=
  MessageClass "api.im.v1.RegisterReply" RegisterReply RegisterReply_encode RegisterReply_encodeDelimited RegisterReply_decode RegisterReply_decodeDelimited RegisterReply_verify RegisterReply_fromObject RegisterReply_toObject
    RegisterReply_getTypeUrl (λ _, True) RegisterReply_codec RegisterReply_converter ltac:(solve_levels) (conj eq_refl eq_refl).
Definition LoginRequest_class : message_class :=
  MessageClass "api.im.v1.LoginRequest" LoginRequest LoginRequest_encode LoginRequest_encodeDelimited LoginRequest_decode LoginRequest_decodeDelimited LoginRequest_verify LoginRequest_fromObject LoginRequest_toObject
    LoginRequest_getTypeUrl (λ _, True) LoginRequest_codec LoginRequest_converter ltac:(solve_levels) (conj eq_refl eq_refl).
Definition LoginReply_class : message_class :=
  MessageClass "api.im.v1.LoginReply" LoginReply LoginReply_encode LoginReply_encodeDelimited LoginReply_decode LoginReply_decodeDelimited LoginReply_verify LoginReply_fromObject LoginReply_toObject
    LoginReply_getTypeUrl (λ _, True) LoginReply_codec LoginReply_converter ltac:(solve_levels) (conj eq_refl eq_refl).
Definition RefreshTokenRequest_class : message_class :=
  MessageClass "api.im.v1.RefreshTokenRequest" RefreshTokenRequest RefreshTokenRequest_encode RefreshTokenRequest_encodeDelimited RefreshTokenRequest_decode RefreshTokenRequest_decodeDelimited RefreshTokenRequest_verify RefreshTokenRequest_fromObject RefreshTokenRequest_toObject
    RefreshTokenRequest_getTypeUrl (λ _, True) RefreshTokenRequest_codec RefreshTokenRequest_converter ltac:(solve_levels) (conj eq_refl eq_refl).
Definition LogoutRequest_class : message_class :=
  MessageClass "api.im.v1.LogoutRequest" LogoutRequest LogoutRequest_encode LogoutRequest_encodeDelimited LogoutRequest_decode LogoutRequest_decodeDelimited LogoutRequest_verify LogoutRequest_fromObject LogoutRequest_toObject
    LogoutRequest_getTypeUrl (λ _, True) LogoutRequest_codec LogoutRequest_converter ltac:(solve_levels) (conj eq_refl eq_refl).
Definition LogoutReply_class : message_class :=
  MessageClass "api.im.v1.LogoutReply" LogoutReply LogoutReply_encode LogoutReply_encodeDelimited LogoutReply_decode LogoutReply_decodeDelimited LogoutReply_verify LogoutReply_fromObject LogoutReply_toObject
    LogoutReply_getTypeUrl (λ _, True) LogoutReply_codec LogoutReply_converter ltac:(solve_levels) (conj eq_refl eq_refl).
Definition GetGatewayRequest_class : message_class :=
  MessageClass "api.im.v1.GetGatewayRequest" GetGatewayRequest GetGatewayRequest_encode GetGatewayRequest_encodeDelimited GetGatewayRequest_decode GetGatewayRequest_decodeDelimited GetGatewayRequest_verify GetGatewayRequest_fromObject GetGatewayRequest_toObject
    GetGatewayRequest_getTypeUrl (λ _, True) GetGatewayRequest_codec GetGatewayRequest_converter ltac:(solve_levels) (conj eq_refl eq_refl).
Definition GetGatewayReply_class : message_class :=
  MessageClass "api.im.v1.GetGatewayReply" GetGatewayReply GetGatewayReply_encode GetGatewayReply_encodeDelimited GetGatewayReply_decode GetGatewayReply_decodeDelimited GetGatewayReply_verify GetGatewayReply_fromObject GetGatewayReply_toObject
    GetGatewayReply_getTypeUrl (λ _, True) GetGatewayReply_codec GetGatewayReply_converter ltac:(solve_levels) (conj eq_refl eq_refl).
Definition SearchUsersRequest_class : message_class :=
  MessageClass "api.im.v1.SearchUsersRequest" SearchUsersRequest SearchUsersRequest_encode SearchUsersRequest_encodeDelimited SearchUsersRequest_decode SearchUsersRequest_decodeDelimited SearchUsersRequest_verify SearchUsersRequest_fromObject SearchUsersRequest_toObject
    SearchUsersRequest_getTypeUrl (λ _, True) SearchUsersRequest_codec SearchUsersRequest_converter ltac:(solve_levels) (conj eq_refl eq_refl).
Definition User_class : message_class :=
  MessageClass "api.im.v1.User" User User_encode User_encodeDelimited User_decode User_decodeDelimited User_verify User_fromObject User_toObject
    User_getTypeUrl (λ _, True) User_codec User_converter ltac:(solve_levels) (conj eq_refl eq_refl).
Definition SearchUsersReply_class : message_class :=
  MessageClass "api.im.v1.SearchUsersReply" SearchUsersReply SearchUsersReply_encode SearchUsersReply_encodeDelimited SearchUsersReply_decode SearchUsersReply_decodeDelimited SearchUsersReply_verify SearchUsersReply_fromObject SearchUsersReply_toObject
    SearchUsersReply_getTypeUrl (λ _, True) SearchUsersReply_codec SearchUsersReply_converter ltac:(solve_levels) (conj eq_refl eq_refl).
Definition GetUserPresenceRequest_class : message_class :=
  MessageClass "api.im.v1.GetUserPresenceRequest" GetUserPresenceRequest GetUserPresenceRequest_encode GetUserPresenceRequest_encodeDelimited GetUserPresenceRequest_decode GetUserPresenceRequest_decodeDelimited GetUserPresenceRequest_verify GetUserPresenceRequest_fromObject GetUserPresenceRequest_toObject
    GetUserPresenceRequest_getTypeUrl (λ _, True) GetUserPresenceRequest_codec GetUserPresenceRequest_converter ltac:(solve_levels) (conj eq_refl eq_refl).
Definition GetUserPresenceReply_class : message_class :=
  MessageClass "api.im.v1.GetUserPresenceReply" GetUserPresenceReply GetUserPresenceReply_encode GetUserPresenceReply_encodeDelimited GetUserPresenceReply_decode GetUserPresenceReply_decodeDelimited GetUserPresenceReply_verify GetUserPresenceReply_fromObject GetUserPresenceReply_toObject
    GetUserPresenceReply_getTypeUrl (λ _, True) GetUserPresenceReply_codec GetUserPresenceReply_converter ltac:(solve_levels) (conj eq_refl eq_refl).
Definition ListConversationsRequest_class : message_class :=
  MessageClass "api.im.v1.ListConversationsRequest" ListConversationsRequest ListConversationsRequest_encode ListConversationsRequest_encodeDelimited ListConversationsRequest_decode ListConversationsRequest_decodeDelimited ListConversationsRequest_verify ListConversationsRequest_fromObject ListConversationsRequest_toObject
    ListConversationsRequest_getTypeUrl (λ _, True) ListConversationsRequest_codec ListConversationsRequest_converter ltac:(solve_levels) (conj eq_refl eq_refl).
Definition Conversation_class : message_class :=
  MessageClass "api.im.v1.Conversation" Conversation Conversation_encode Conversation_encodeDelimited Conversation_decode Conversation_decodeDelimited Conversation_verify Conversation_fromObject Conversation_toObject
    Conversation_getTypeUrl (λ _, True) Conversation_codec Conversation_converter ltac:(solve_levels) (conj eq_refl eq_refl).
Definition ListConversationsReply_class : message_class :=
  MessageClass "api.im.v1.ListConversationsReply" ListConversationsReply ListConversationsReply_encode ListConversationsReply_encodeDelimited ListConversationsReply_decode ListConversationsReply_decodeDelimited ListConversationsReply_verify ListConversationsReply_fromObject ListConversationsReply_toObject
    ListConversationsReply_getTypeUrl (λ _, True) ListConversationsReply_codec ListConversationsReply_converter ltac:(solve_levels) (conj eq_refl eq_refl).
Definition MarkConversationReadRequest_class : message_class :=
  MessageClass "api.im.v1.MarkConversationReadRequest" MarkConversationReadRequest MarkConversationReadRequest_encode MarkConversationReadRequest_encodeDelimited MarkConversationReadRequest_decode MarkConversationReadRequest_decodeDelimited MarkConversationReadRequest_verify MarkConversationReadRequest_fromObject MarkConversationReadRequest_toObject
    MarkConversationReadRequest_getTypeUrl (λ _, True) MarkConversationReadRequest_codec MarkConversationReadRequest_converter ltac:(solve_levels) (conj eq_refl eq_refl).
Definition UploadFileRequest_class : message_class :=
  MessageClass "api.im.v1.UploadFileRequest" UploadFileRequest UploadFileRequest_encode UploadFileRequest_encodeDelimited UploadFileRequest_decode UploadFileRequest_decodeDelimited UploadFileRequest_verify UploadFileRequest_fromObject UploadFileRequest_toObject
    UploadFileRequest_getTypeUrl (λ _, True) UploadFileRequest_codec UploadFileRequest_converter ltac:(solve_levels) (conj eq_refl eq_refl).
Definition UploadFileReply_class : message_class :=
  MessageClass "api.im.v1.UploadFileReply" UploadFileReply UploadFileReply_encode UploadFileReply_encodeDelimited UploadFileReply_decode UploadFileReply_decodeDelimited UploadFileReply_verify UploadFileReply_fromObject UploadFileReply_toObject
    UploadFileReply_getTypeUrl (λ _, True) UploadFileReply_codec UploadFileReply_converter ltac:(solve_levels) (conj eq_refl eq_refl).
Definition DownloadFileRequest_class : message_class :=
  MessageClass "api.im.v1.DownloadFileRequest" DownloadFileRequest DownloadFileRequest_encode DownloadFileRequest_encodeDelimited DownloadFileRequest_decode DownloadFileRequest_decodeDelimited DownloadFileRequest_verify DownloadFileRequest_fromObject DownloadFileRequest_toObject
    DownloadFileRequest_getTypeUrl (λ _, True) DownloadFileRequest_codec DownloadFileRequest_converter ltac:(solve_levels) (conj eq_refl eq_refl).
Definition DownloadFileReply_class : message_class :=
  MessageClass "api.im.v1.DownloadFileReply" DownloadFileReply DownloadFileReply_encode DownloadFileReply_encodeDelimited DownloadFileReply_decode DownloadFileReply_decodeDelimited DownloadFileReply_verify DownloadFileReply_fromObject DownloadFileReply_toObject
    DownloadFileReply_getTypeUrl (λ _, True) DownloadFileReply_codec DownloadFileReply_converter ltac:(solve_levels) (conj eq_refl eq_refl).
Definition CreateGroupRequest_class : message_class :=
  MessageClass "api.im.v1.CreateGroupRequest" CreateGroupRequest CreateGroupRequest_encode CreateGroupRequest_encodeDelimited CreateGroupRequest_decode CreateGroupRequest_decodeDelimited CreateGroupRequest_verify CreateGroupRequest_fromObject CreateGroupRequest_toObject
    CreateGroupRequest_getTypeUrl (λ _, True) CreateGroupRequest_codec CreateGroupRequest_converter ltac:(solve_levels) (conj eq_refl eq_refl).
Definition CreateGroupReply_class : message_class :=
  MessageClass "api.im.v1.CreateGroupReply" CreateGroupReply CreateGroupReply_encode CreateGroupReply_encodeDelimited CreateGroupReply_decode CreateGroupReply_decodeDelimited CreateGroupReply_verify CreateGroupReply_fromObject CreateGroupReply_toObject
    CreateGroupReply_getTypeUrl (λ _, True) CreateGroupReply_codec CreateGroupReply_converter ltac:(solve_levels) (conj eq_refl eq_refl).
Definition Group_class : message_class :=
  MessageClass "api.im.v1.Group" Group Group_encode Group_encodeDelimited Group_decode Group_decodeDelimited Group_verify Group_fromObject Group_toObject
    Group_getTypeUrl (λ _, True) Group_codec Group_converter ltac:(solve_levels) (conj eq_refl eq_refl).
Definition ListGroupsReply_class : message_class :=
  MessageClass "api.im.v1.ListGroupsReply" ListGroupsReply ListGroupsReply_encode ListGroupsReply_encodeDelimited ListGroupsReply_decode ListGroupsReply_decodeDelimited ListGroupsReply_verify ListGroupsReply_fromObject ListGroupsReply_toObject
    ListGroupsReply_getTypeUrl (λ _, True) ListGroupsReply_codec ListGroupsReply_converter ltac:(solve_levels) (conj eq_refl eq_refl).
Definition GetGroupRequest_class : message_class :=
  MessageClass "api.im.v1.GetGroupRequest" GetGroupRequest GetGroupRequest_encode GetGroupRequest_encodeDelimited GetGroupRequest_decode GetGroupRequest_decodeDelimited GetGroupRequest_verify GetGroupRequest_fromObject GetGroupRequest_toObject
    GetGroupRequest_getTypeUrl (λ _, True) GetGroupRequest_codec GetGroupRequest_converter ltac:(solve_levels) (conj eq_refl eq_refl).
Definition AddGroupMemberRequest_class : message_class :=
  MessageClass "api.im.v1.AddGroupMemberRequest" AddGroupMemberRequest AddGroupMemberRequest_encode AddGroupMemberRequest_encodeDelimited AddGroupMemberRequest_decode AddGroupMemberRequest_decodeDelimited AddGroupMemberRequest_verify AddGroupMemberRequest_fromObject AddGroupMemberRequest_toObject
    AddGroupMemberRequest_getTypeUrl (λ _, True) AddGroupMemberRequest_codec AddGroupMemberRequest_converter ltac:(solve_levels) (conj eq_refl eq_refl).
Definition RemoveGroupMemberRequest_class : message_class :=
  MessageClass "api.im.v1.RemoveGroupMemberRequest" RemoveGroupMemberRequest RemoveGroupMemberRequest_encode RemoveGroupMemberRequest_encodeDelimited RemoveGroupMemberRequest_decode RemoveGroupMemberRequest_decodeDelimited RemoveGroupMemberRequest_verify RemoveGroupMemberRequest_fromObject RemoveGroupMemberRequest_toObject
    RemoveGroupMemberRequest_getTypeUrl (λ _, True) RemoveGroupMemberRequest_codec RemoveGroupMemberRequest_converter ltac:(solve_levels) (conj eq_refl eq_refl).
Definition ListGroupMembersRequest_class : message_class :=
  MessageClass "api.im.v1.ListGroupMembersRequest" ListGroupMembersRequest ListGroupMembersRequest_encode ListGroupMembersRequest_encodeDelimited ListGroupMembersRequest_decode ListGroupMembersRequest_decodeDelimited ListGroupMembersRequest_verify ListGroupMembersRequest_fromObject ListGroupMembersRequest_toObject
    ListGroupMembersRequest_getTypeUrl (λ _, True) ListGroupMembersRequest_codec ListGroupMembersRequest_converter ltac:(solve_levels) (conj eq_refl eq_refl).
Definition GroupMember_class : message_class :=
  MessageClass "api.im.v1.GroupMember" GroupMember GroupMember_encode GroupMember_encodeDelimited GroupMember_decode GroupMember_decodeDelimited GroupMember_verify GroupMember_fromObject GroupMember_toObject
    GroupMember_getTypeUrl (λ _, True) GroupMember_codec GroupMember_converter ltac:(solve_levels) (conj eq_refl eq_refl).
Definition ListGroupMembersReply_class : message_class :=
  MessageClass "api.im.v1.ListGroupMembersReply" ListGroupMembersReply ListGroupMembersReply_encode ListGroupMembersReply_encodeDelimited ListGroupMembersReply_decode ListGroupMembersReply_decodeDelimited ListGroupMembersReply_verify ListGroupMembersReply_fromObject ListGroupMembersReply_toObject
    ListGroupMembersReply_getTypeUrl (λ _, True) ListGroupMembersReply_codec ListGroupMembersReply_converter ltac:(solve_levels) (conj eq_refl eq_refl).
Definition PushToUserRequest_class : message_class :=
  MessageClass "api.im.v1.PushToUserRequest" PushToUserRequest PushToUserRequest_encode PushToUserRequest_encodeDelimited PushToUserRequest_decode PushToUserRequest_decodeDelimited PushToUserRequest_verify PushToUserRequest_fromObject PushToUserRequest_toObject
    PushToUserRequest_getTypeUrl (λ _, True) PushToUserRequest_codec PushToUserRequest_converter ltac:(solve_levels) (conj eq_refl eq_refl).
Definition PushToUserReply_class : message_class :=
  MessageClass "api.im.v1.PushToUserReply" PushToUserReply PushToUserReply_encode PushToUserReply_encodeDelimited PushToUserReply_decode PushToUserReply_decodeDelimited PushToUserReply_verify PushToUserReply_fromObject PushToUserReply_toObject
    PushToUserReply_getTypeUrl (λ _, True) PushToUserReply_codec PushToUserReply_converter ltac:(solve_levels) (conj eq_refl eq_refl).
Definition BatchPushToUsersRequest_class : message_class :=
  MessageClass "api.im.v1.BatchPushToUsersRequest" BatchPushToUsersRequest BatchPushToUsersRequest_encode BatchPushToUsersRequest_encodeDelimited BatchPushToUsersRequest_decode BatchPushToUsersRequest_decodeDelimited BatchPushToUsersRequest_verify BatchPushToUsersRequest_fromObject BatchPushToUsersRequest_toObject
    BatchPushToUsersRequest_getTypeUrl (λ _, True) BatchPushToUsersRequest_codec BatchPushToUsersRequest_converter ltac:(solve_levels) (conj eq_refl eq_refl).
Definition BatchPushToUsersReply_class : message_class :=
  MessageClass "api.im.v1.BatchPushToUsersReply" BatchPushToUsersReply BatchPushToUsersReply_encode BatchPushToUsersReply_encodeDelimited BatchPushToUsersReply_decode BatchPushToUsersReply_decodeDelimited BatchPushToUsersReply_verify BatchPushToUsersReply_fromObject BatchPushToUsersReply_toObject
    BatchPushToUsersReply_getTypeUrl (λ _, True) BatchPushToUsersReply_codec BatchPushToUsersReply_converter ltac:(solve_levels) (conj eq_refl eq_refl).
Definition PushReceiptToUserRequest_class : message_class :=
  MessageClass "api.im.v1.PushReceiptToUserRequest" PushReceiptToUserRequest PushReceiptToUserRequest_encode PushReceiptToUserRequest_encodeDelimited PushReceiptToUserRequest_decode PushReceiptToUserRequest_decodeDelimited PushReceiptToUserRequest_verify PushReceiptToUserRequest_fromObject PushReceiptToUserRequest_toObject
    PushReceiptToUserRequest_getTypeUrl (λ _, True) PushReceiptToUserRequest_codec PushReceiptToUserRequest_converter ltac:(solve_levels) (conj eq_refl eq_refl).
Definition PushReceiptToUserReply_class : message_class :=
  MessageClass "api.im.v1.PushReceiptToUserReply" PushReceiptToUserReply PushReceiptToUserReply_encode PushReceiptToUserReply_encodeDelimited PushReceiptToUserReply_decode PushReceiptToUserReply_decodeDelimited PushReceiptToUserReply_verify PushReceiptToUserReply_fromObject PushReceiptToUserReply_toObject
    PushReceiptToUserReply_getTypeUrl (λ _, True) PushReceiptToUserReply_codec PushReceiptToUserReply_converter ltac:(solve_levels) (conj eq_refl eq_refl).
Definition BatchPushReceiptToUsersRequest_class : message_class :=
  MessageClass "api.im.v1.BatchPushReceiptToUsersRequest" BatchPushReceiptToUsersRequest BatchPushReceiptToUsersRequest_encode BatchPushReceiptToUsersRequest_encodeDelimited BatchPushReceiptToUsersRequest_decode BatchPushReceiptToUsersRequest_decodeDelimited BatchPushReceiptToUsersRequest_verify BatchPushReceiptToUsersRequest_fromObject BatchPushReceiptToUsersRequest_toObject
    BatchPushReceiptToUsersRequest_getTypeUrl (λ _, True) BatchPushReceiptToUsersRequest_codec BatchPushReceiptToUsersRequest_converter ltac:(solve_levels) (conj eq_refl eq_refl).
Definition BatchPushReceiptToUsersReply_class : message_class :=
  MessageClass "api.im.v1.BatchPushReceiptToUsersReply" BatchPushReceiptToUsersReply BatchPushReceiptToUsersReply_encode BatchPushReceiptToUsersReply_encodeDelimited BatchPushReceiptToUsersReply_decode BatchPushReceiptToUsersReply_decodeDelimited BatchPushReceiptToUsersReply_verify BatchPushReceiptToUsersReply_fromObject BatchPushReceiptToUsersReply_toObject
    BatchPushReceiptToUsersReply_getTypeUrl (λ _, True) BatchPushReceiptToUsersReply_codec BatchPushReceiptToUsersReply_converter ltac:(solve_levels) (conj eq_refl eq_refl).
Definition ReceiptBatchItem_class : message_class :=
  MessageClass "api.im.v1.ReceiptBatchItem" ReceiptBatchItem ReceiptBatchItem_encode ReceiptBatchItem_encodeDelimited ReceiptBatchItem_decode ReceiptBatchItem_decodeDelimited ReceiptBatchItem_verify ReceiptBatchItem_fromObject ReceiptBatchItem_toObject
    ReceiptBatchItem_getTypeUrl (λ _, True) ReceiptBatchItem_codec ReceiptBatchItem_converter ltac:(solve_levels) (conj eq_refl eq_refl).
Definition BatchPushReceiptsToUsersRequest_class : message_class :=
  MessageClass "api.im.v1.BatchPushReceiptsToUsersRequest" BatchPushReceiptsToUsersRequest BatchPushReceiptsToUsersRequest_encode BatchPushReceiptsToUsersRequest_encodeDelimited BatchPushReceiptsToUsersRequest_decode BatchPushReceiptsToUsersRequest_decodeDelimited BatchPushReceiptsToUsersRequest_verify BatchPushReceiptsToUsersRequest_fromObject BatchPushReceiptsToUsersRequest_toObject
    BatchPushReceiptsToUsersRequest_getTypeUrl (λ _, True) BatchPushReceiptsToUsersRequest_codec BatchPushReceiptsToUsersRequest_converter ltac:(solve_levels) (conj eq_refl eq_refl).
Definition BatchPushReceiptsToUsersReply_class : message_class :=
  MessageClass "api.im.v1.BatchPushReceiptsToUsersReply" BatchPushReceiptsToUsersReply BatchPushReceiptsToUsersReply_encode BatchPushReceiptsToUsersReply_encodeDelimited BatchPushReceiptsToUsersReply_decode BatchPushReceiptsToUsersReply_decodeDelimited BatchPushReceiptsToUsersReply_verify BatchPushReceiptsToUsersReply_fromObject BatchPushReceiptsToUsersReply_toObject
    BatchPushReceiptsToUsersReply_getTypeUrl (λ _, True) BatchPushReceiptsToUsersReply_codec BatchPushReceiptsToUsersReply_converter ltac:(solve_levels) (conj eq_refl eq_refl).
Definition Empty_class : message_class :=
  MessageClass "google.protobuf.Empty" Empty Empty_encode Empty_encodeDelimited Empty_decode Empty_decodeDelimited Empty_verify Empty_fromObject Empty_toObject
    Empty_getTypeUrl (λ _, True) Empty_codec Empty_converter ltac:(solve_levels) (conj eq_refl eq_refl).

Definition api_classes : list message_class :=
  [SendMessageRequest_class; SendMessageReply_class; MessagePush_class; PullRequest_class; PullMessage_class;
   PullReply_class; AuthRequest_class; AuthResponse_class; AckRequest_class; ErrorResponse_class;
   ReadReceipt_class; DeliveryReceipt_class; SendReceipt_class; RecallRequest_class; RecallNotice_class;
   UpstreamMessage_class; RegisterRequest_class; RegisterReply_class; LoginRequest_class; LoginReply_class;
   RefreshTokenRequest_class; LogoutRequest_class; LogoutReply_class; GetGatewayRequest_class;
   GetGatewayReply_class; SearchUsersRequest_class; User_class; SearchUsersReply_class;
   GetUserPresenceRequest_class; GetUserPresenceReply_class; ListConversationsRequest_class; Conversation_class;
   ListConversationsReply_class; MarkConversationReadRequest_class; UploadFileRequest_class;
   UploadFileReply_class; DownloadFileRequest_class; DownloadFileReply_class; CreateGroupRequest_class;
   CreateGroupReply_class; Group_class; ListGroupsReply_class; GetGroupRequest_class;
   AddGroupMemberRequest_class; RemoveGroupMemberRequest_class; ListGroupMembersRequest_class; GroupMember_class;
   ListGroupMembersReply_class; PushToUserRequest_class; PushToUserReply_class; BatchPushToUsersRequest_class;
   BatchPushToUsersReply_class; PushReceiptToUserRequest_class; PushReceiptToUserReply_class;
   BatchPushReceiptToUsersRequest_class; BatchPushReceiptToUsersReply_class; ReceiptBatchItem_class;
   BatchPushReceiptsToUsersRequest_class; BatchPushReceiptsToUsersReply_class; Empty_class].

(** ** What holds for every class *)

(** The values of a message are in the ranges of their types. *)
Definition valid (c : message_class) (v : mc_type c) : Prop := c_ok (Codec := mc_codec c) v.

(** The message as the decoder of a peer returns it: defaults are absent, 64-bit
    values are in the representation of the runtime. *)
Definition received (c : message_class) (v : mc_type c) : mc_type c := c_norm (Codec := mc_codec c) v.

(** A length prefix can describe the message. *)
Definition fits (c : message_class) (v : mc_type c) : Prop := len_ok (c_bytes (Codec := mc_codec c) v).

Lemma levels_encode c : c_height (Codec := mc_codec c) ≤ util_recursionLimit.
Proof. pose proof (mc_levels c). destruct recursionLimits. lia. Qed.

Lemma levels_decode c : c_height (Codec := mc_codec c) ≤ Reader_recursionLimit.
Proof. pose proof (mc_levels c). destruct recursionLimits. lia. Qed.

Lemma class_roundtrip c v : valid c v →
  ∃ b, to_wire (mc_encode c) v = Ok b ∧ decode_bytes (mc_decode c) b = Ok (received c v).
Proof. apply codec_roundtrip; [apply levels_encode|apply levels_decode]. Qed.

Lemma class_stream c vs : Forall (λ v, valid c v ∧ fits c v) vs →
  ∃ w r, write_stream (mc_encodeDelimited c) vs W_create = Ok w ∧
    read_stream (mc_decodeDelimited c) (length vs) (R_create (W_finish w)) = Ok (received c <$> vs, r) ∧ R_rest r = [].
Proof.
  destruct (mc_delimited c) as [-> ->]. apply (stream_roundtrip (mc_encode c) (mc_decode c));
    [apply levels_encode|apply levels_decode].
Qed.

(** Without a writer, [encodeDelimited] creates one. *)
Lemma class_delimited_none c v : mc_encodeDelimited c v None = mc_encodeDelimited c v (Some W_create).
Proof.
  destruct (mc_delimited c) as [-> _]. unfold delimited. rewrite (W_len_view _ _ _ W_create_view). simpl.
  by rewrite (c_encode_default (Codec := mc_codec c) v None None), (c_encode_default (Codec := mc_codec c) v (Some W_create) None).
Qed.

Lemma class_converts c v o : valid c v → ∃ x, mc_toObject c (received c v) o None = Ok x ∧
  (exact_options o → mc_fromObject c x None = Ok (received c v)) ∧
  (typed_options o → mc_known c v → mc_verify c x None = None).
Proof.
  intros Hv. pose proof (mc_converter c) as H. pose proof (levels_encode c).
  destruct (conv_ok (ConverterOn := H) v o 0 Hv ltac:(lia)) as (l & H1 & H2 & H3).
  exists (VObj l). rewrite (conv_to_default (ConverterOn := H)), (conv_from_default (ConverterOn := H)), (conv_verify_default (ConverterOn := H)).
  done.
Qed.

(** C9: every message class survives the wire: encoding a message with values
    in range succeeds, and decoding the bytes gives the message back, in the
    representation of the reader. *)
Theorem api_roundtrip c v : c ∈ api_classes → valid c v →
  ∃ b, to_wire (mc_encode c) v = Ok b ∧ decode_bytes (mc_decode c) b = Ok (received c v).
Proof. intros _. apply class_roundtrip. Qed.

(** Messages written one after another with [encodeDelimited] on one writer
    are read back in order with [decodeDelimited], and nothing is left over. *)
Theorem api_stream c vs : c ∈ api_classes → Forall (λ v, valid c v ∧ fits c v) vs →
  ∃ w r, write_stream (mc_encodeDelimited c) vs W_create = Ok w ∧
    read_stream (mc_decodeDelimited c) (length vs) (R_create (W_finish w)) = Ok (received c <$> vs, r) ∧ R_rest r = [].
Proof. intros _. apply class_stream. Qed.

(** Decoding any bytes as any class terminates. *)
Theorem api_decode_terminates c b : c ∈ api_classes → decode_bytes (mc_decode c) b ≠ NoFuel.
Proof. intros _. apply (codec_terminates (mc_encode c) (mc_decode c) (C := mc_codec c)). Qed.

(** C32: through plain objects: what [toObject] prints of a message that arrived
    with its values in range, [fromObject] reads back under the options that keep
    64-bit values exact ([exact_options]), and [verify] accepts under the options
    that keep types ([typed_options]) when the enumeration values are known. *)
Theorem api_objects c v o : c ∈ api_classes → valid c v →
  ∃ x, mc_toObject c (received c v) o None = Ok x ∧
    (exact_options o → mc_fromObject c x None = Ok (received c v)) ∧
    (typed_options o → mc_known c v → mc_verify c x None = None).
Proof. intros _. apply class_converts. Qed.

(** ** Type URLs *)

Lemma class_url c p : c ∈ api_classes → mc_getTypeUrl c p = default "type.googleapis.com"%string p +:+ "/" +:+ mc_name c.
Proof.
  intros Hc. assert (H : Forall (λ c, mc_getTypeUrl c p = default "type.googleapis.com"%string p +:+ "/" +:+ mc_name c) api_classes)
    by (repeat (apply Forall_cons; split; [reflexivity|]); apply Forall_nil_2).
  rewrite Forall_forall in H. by apply H.
Qed.

Lemma api_names : NoDup (mc_name <$> api_classes).
Proof. refine (bool_decide_unpack _ _). vm_compute. exact I. Qed.

(** The type URL names the class: no two classes share one. *)
Theorem api_type_urls p : NoDup ((λ c, mc_getTypeUrl c p) <$> api_classes).
Proof.
  assert (H : (λ c, mc_getTypeUrl c p) <$> api_classes =
    (λ n, default "type.googleapis.com"%string p +:+ "/" +:+ n) <$> (mc_name <$> api_classes)).
  { rewrite <-list_fmap_compose. apply list_fmap_ext. intros i c Hc. simpl. apply class_url. by eapply list_elem_of_lookup_2. }
  rewrite H. apply NoDup_fmap; [|apply api_names].
  intros n n' Hn. apply (String.app_inj (default "type.googleapis.com"%string p)) in Hn. by injection Hn.
Qed.

End Classes.

(** ** The theorems at concrete messages *)

Section Example.
#[local] Existing Instance wire.
#[local] Existing Instance wire_laws.
#[local] Existing Instance plain.
#[local] Existing Instance plain_laws.

Definition ex_login : LoginReply := mkLoginReply (Some (LNum 42)) (Some "a.b.c"%string) (Some ""%string) None.

Lemma ex_login_valid : valid LoginReply_class ex_login.
Proof. concrete_message. Qed.

Lemma ex_login_member : LoginReply_class ∈ api_classes.
Proof. apply (list_elem_of_lookup_2 _ 19%nat). reflexivity. Qed.

(** The empty refresh token is not sent. *)
Example ex_login_received : received LoginReply_class ex_login = mkLoginReply (Some (LLong 42 0 false)) (Some "a.b.c"%string) None None.
Proof. reflexivity. Qed.

Lemma api_roundtrip_witness : ∃ b, to_wire LoginReply_encode ex_login = Ok b ∧
  decode_bytes LoginReply_decode b = Ok (received LoginReply_class ex_login).
Proof. apply (api_roundtrip LoginReply_class ex_login ex_login_member ex_login_valid). Defined.

Lemma api_stream_witness : ∃ w r, write_stream LoginReply_encodeDelimited [ex_login; ex_login] W_create = Ok w ∧
  read_stream LoginReply_decodeDelimited 2 (R_create (W_finish w)) =
    Ok ([received LoginReply_class ex_login; received LoginReply_class ex_login], r) ∧ R_rest r = [].
Proof.
  apply (api_stream LoginReply_class [ex_login; ex_login] ex_login_member).
  do 2 (constructor; [split; [exact ex_login_valid|vm_compute; reflexivity]|]). constructor.
Defined.

Lemma api_objects_witness : ∃ x, LoginReply_toObject (received LoginReply_class ex_login) toJSONOptions None = Ok x ∧
  LoginReply_fromObject x None = Ok (received LoginReply_class ex_login).
Proof.
  destruct (api_objects LoginReply_class ex_login toJSONOptions ex_login_member ex_login_valid) as (x & H1 & H2 & _).
  exists x. split; [exact H1|]. apply H2. right. split; reflexivity.
Defined.

(** As JSON the user id of a reply is a string of digits. *)
Example ex_login_json : LoginReply_toJSON (received LoginReply_class ex_login) =
  Ok (VObj [("userId", VStr "42"); ("token", VStr "a.b.c")]%string).
Proof. reflexivity. Qed.

End Example.
