(* ===== verification/ApiServices.v ===== *)
(** * The generated services ([web/app/lib/proto/im.js])

    A service is an [rpc.Service] of protobufjs, and each of its methods a call
    of [rpcCall] with the two message classes and the description of the method.
    [rpcCall] is not part of the repository: it is a variable of the section,
    with its documented behaviour as a hypothesis.  The theorems say that the
    methods are those the [.proto] files of the backend ([api/im/v1/*.proto])
    declare, with their paths and classes, and what a call sends and returns
    over any transport. *)

From S2P Require Import Prelude JsNum JsMap ProtoRuntime ProtoLaws ProtoMessages ProtoWire ProtoObjects ProtoConvert ProtoConvertLaws.
From S2P Require Import ProtoSchema ProtoSchemaConvert ProtoCodecs ApiAuth ApiGroups ApiPush ApiCodecs ProtoPacketProps ProtoConvertProps ApiClasses.
Open Scope Z_scope.

(** The properties defined on a method; none of them streams. *)
Record Method := mkMethod {
  method_name : string;
  path : string;
  requestType : string;
  responseType : string;
}.

Section Services.
Context `{RL : RuntimeLaws} `{CL : ConversionLaws}.

(** [RPCImpl]: sends the bytes of a request, and gives those of the response or
    an error. *)
Definition RPCImpl : Type := Method → bytes → res bytes.

Record Service := mkService {
  rpcImpl : RPCImpl;
  requestDelimited : bool;
  responseDelimited : bool;
}.

Definition AuthService (rpcImpl : RPCImpl) (requestDelimited responseDelimited : bool) : Service :=
  mkService rpcImpl requestDelimited responseDelimited.
Definition AuthService_create (rpcImpl : RPCImpl) (requestDelimited responseDelimited : bool) : Service :=
  AuthService rpcImpl requestDelimited responseDelimited.

Definition ConversationService (rpcImpl : RPCImpl) (requestDelimited responseDelimited : bool) : Service :=
  mkService rpcImpl requestDelimited responseDelimited.
Definition ConversationService_create (rpcImpl : RPCImpl) (requestDelimited responseDelimited : bool) : Service :=
  ConversationService rpcImpl requestDelimited responseDelimited.

Definition DispatchService (rpcImpl : RPCImpl) (requestDelimited responseDelimited : bool) : Service :=
  mkService rpcImpl requestDelimited responseDelimited.
Definition DispatchService_create (rpcImpl : RPCImpl) (requestDelimited responseDelimited : bool) : Service :=
  DispatchService rpcImpl requestDelimited responseDelimited.

Definition FileService (rpcImpl : RPCImpl) (requestDelimited responseDelimited : bool) : Service :=
  mkService rpcImpl requestDelimited responseDelimited.
Definition FileService_create (rpcImpl : RPCImpl) (requestDelimited responseDelimited : bool) : Service :=
  FileService rpcImpl requestDelimited responseDelimited.

Definition GroupService (rpcImpl : RPCImpl) (requestDelimited responseDelimited : bool) : Service :=
  mkService rpcImpl requestDelimited responseDelimited.
Definition GroupService_create (rpcImpl : RPCImpl) (requestDelimited responseDelimited : bool) : Service :=
  GroupService rpcImpl requestDelimited responseDelimited.

Definition MessageService (rpcImpl : RPCImpl) (requestDelimited responseDelimited : bool) : Service :=
  mkService rpcImpl requestDelimited responseDelimited.
Definition MessageService_create (rpcImpl : RPCImpl) (requestDelimited responseDelimited : bool) : Service :=
  MessageService rpcImpl requestDelimited responseDelimited.

Definition PushService (rpcImpl : RPCImpl) (requestDelimited responseDelimited : bool) : Service :=
  mkService rpcImpl requestDelimited responseDelimited.
Definition PushService_create (rpcImpl : RPCImpl) (requestDelimited responseDelimited : bool) : Service :=
  PushService rpcImpl requestDelimited responseDelimited.

Definition UserService (rpcImpl : RPCImpl) (requestDelimited responseDelimited : bool) : Service :=
  mkService rpcImpl requestDelimited responseDelimited.
Definition UserService_create (rpcImpl : RPCImpl) (requestDelimited responseDelimited : bool) : Service :=
  UserService rpcImpl requestDelimited responseDelimited.

(** A method with its request and response classes. *)
Record rpc := Rpc {
  rpc_method : Method;
  rpc_request : message_class;
  rpc_response : message_class;
}.

(** ** The methods *)

(** *** [AuthService] *)

Definition AuthService_register : rpc :=
  Rpc (mkMethod "Register" "/api.im.v1.AuthService/Register" "RegisterRequest" "RegisterReply") RegisterRequest_class RegisterReply_class.
Definition AuthService_login : rpc :=
  Rpc (mkMethod "Login" "/api.im.v1.AuthService/Login" "LoginRequest" "LoginReply") LoginRequest_class LoginReply_class.
Definition AuthService_refreshToken : rpc :=
  Rpc (mkMethod "RefreshToken" "/api.im.v1.AuthService/RefreshToken" "RefreshTokenRequest" "LoginReply") RefreshTokenRequest_class LoginReply_class.
Definition AuthService_logout : rpc :=
  Rpc (mkMethod "Logout" "/api.im.v1.AuthService/Logout" "LogoutRequest" "LogoutReply") LogoutRequest_class LogoutReply_class.

(** *** [ConversationService] *)

Definition ConversationService_listConversations : rpc :=
  Rpc (mkMethod "ListConversations" "/api.im.v1.ConversationService/ListConversations" "ListConversationsRequest" "ListConversationsReply") ListConversationsRequest_class ListConversationsReply_class.
Definition ConversationService_markConversationRead : rpc :=
  Rpc (mkMethod "MarkConversationRead" "/api.im.v1.ConversationService/MarkConversationRead" "MarkConversationReadRequest" "google.protobuf.Empty") MarkConversationReadRequest_class Empty_class.

(** *** [DispatchService] *)

Definition DispatchService_gateway : rpc :=
  Rpc (mkMethod "Gateway" "/api.im.v1.DispatchService/Gateway" "GetGatewayRequest" "GetGatewayReply") GetGatewayRequest_class GetGatewayReply_class.

(** *** [FileService] *)

Definition FileService_uploadFile : rpc :=
  Rpc (mkMethod "UploadFile" "/api.im.v1.FileService/UploadFile" "UploadFileRequest" "UploadFileReply") UploadFileRequest_class UploadFileReply_class.
Definition FileService_downloadFile : rpc :=
  Rpc (mkMethod "DownloadFile" "/api.im.v1.FileService/DownloadFile" "DownloadFileRequest" "DownloadFileReply") DownloadFileRequest_class DownloadFileReply_class.

(** *** [GroupService] *)

Definition GroupService_createGroup : rpc :=
  Rpc (mkMethod "CreateGroup" "/api.im.v1.GroupService/CreateGroup" "CreateGroupRequest" "CreateGroupReply") CreateGroupRequest_class CreateGroupReply_class.
Definition GroupService_listMyGroups : rpc :=
  Rpc (mkMethod "ListMyGroups" "/api.im.v1.GroupService/ListMyGroups" "google.protobuf.Empty" "ListGroupsReply") Empty_class ListGroupsReply_class.
Definition GroupService_getGroup : rpc :=
  Rpc (mkMethod "GetGroup" "/api.im.v1.GroupService/GetGroup" "GetGroupRequest" "Group") GetGroupRequest_class Group_class.
Definition GroupService_addGroupMember : rpc :=
  Rpc (mkMethod "AddGroupMember" "/api.im.v1.GroupService/AddGroupMember" "AddGroupMemberRequest" "google.protobuf.Empty") AddGroupMemberRequest_class Empty_class.
Definition GroupService_removeGroupMember : rpc :=
  Rpc (mkMethod "RemoveGroupMember" "/api.im.v1.GroupService/RemoveGroupMember" "RemoveGroupMemberRequest" "google.protobuf.Empty") RemoveGroupMemberRequest_class Empty_class.
Definition GroupService_listGroupMembers : rpc :=
  Rpc (mkMethod "ListGroupMembers" "/api.im.v1.GroupService/ListGroupMembers" "ListGroupMembersRequest" "ListGroupMembersReply") ListGroupMembersRequest_class ListGroupMembersReply_class.

(** *** [MessageService] *)

Definition MessageService_sendMessage : rpc :=
  Rpc (mkMethod "SendMessage" "/api.im.v1.MessageService/SendMessage" "SendMessageRequest" "SendMessageReply") SendMessageRequest_class SendMessageReply_class.
Definition MessageService_pullMessages : rpc :=
  Rpc (mkMethod "PullMessages" "/api.im.v1.MessageService/PullMessages" "PullRequest" "PullReply") PullRequest_class PullReply_class.

(** *** [PushService] *)

Definition PushService_pushToUser : rpc :=
  Rpc (mkMethod "PushToUser" "/api.im.v1.PushService/PushToUser" "PushToUserRequest" "PushToUserReply") PushToUserRequest_class PushToUserReply_class.
Definition PushService_batchPushToUsers : rpc :=
  Rpc (mkMethod "BatchPushToUsers" "/api.im.v1.PushService/BatchPushToUsers" "BatchPushToUsersRequest" "BatchPushToUsersReply") BatchPushToUsersRequest_class BatchPushToUsersReply_class.
Definition PushService_pushReceiptToUser : rpc :=
  Rpc (mkMethod "PushReceiptToUser" "/api.im.v1.PushService/PushReceiptToUser" "PushReceiptToUserRequest" "PushReceiptToUserReply") PushReceiptToUserRequest_class PushReceiptToUserReply_class.
Definition PushService_batchPushReceiptToUsers : rpc :=
  Rpc (mkMethod "BatchPushReceiptToUsers" "/api.im.v1.PushService/BatchPushReceiptToUsers" "BatchPushReceiptToUsersRequest" "BatchPushReceiptToUsersReply") BatchPushReceiptToUsersRequest_class BatchPushReceiptToUsersReply_class.
Definition PushService_batchPushReceiptsToUsers : rpc :=
  Rpc (mkMethod "BatchPushReceiptsToUsers" "/api.im.v1.PushService/BatchPushReceiptsToUsers" "BatchPushReceiptsToUsersRequest" "BatchPushReceiptsToUsersReply") BatchPushReceiptsToUsersRequest_class BatchPushReceiptsToUsersReply_class.

(** *** [UserService] *)

Definition UserService_searchUsers : rpc :=
  Rpc (mkMethod "SearchUsers" "/api.im.v1.UserService/SearchUsers" "SearchUsersRequest" "SearchUsersReply") SearchUsersRequest_class SearchUsersReply_class.
Definition UserService_getUserPresence : rpc :=
  Rpc (mkMethod "GetUserPresence" "/api.im.v1.UserService/GetUserPresence" "GetUserPresenceRequest" "GetUserPresenceReply") GetUserPresenceRequest_class GetUserPresenceReply_class.

Definition api_methods : list rpc :=
  [AuthService_register; AuthService_login; AuthService_refreshToken; AuthService_logout;
   ConversationService_listConversations; ConversationService_markConversationRead;
   DispatchService_gateway;
   FileService_uploadFile; FileService_downloadFile;
   GroupService_createGroup; GroupService_listMyGroups; GroupService_getGroup; GroupService_addGroupMember; GroupService_removeGroupMember; GroupService_listGroupMembers;
   MessageService_sendMessage; MessageService_pullMessages;
   PushService_pushToUser; PushService_batchPushToUsers; PushService_pushReceiptToUser; PushService_batchPushReceiptToUsers; PushService_batchPushReceiptsToUsers;
   UserService_searchUsers; UserService_getUserPresence].

Section Calls.

(** [requestCtor[delimited ? "encodeDelimited" : "encode"](request).finish()]. *)
Definition send_as (c : message_class) (delimited : bool) (v : mc_type c) : res bytes :=
  let! w := (if delimited then mc_encodeDelimited c v None else mc_encode c v None None) in Ok (W_finish w).

(** [responseCtor[delimited ? "decodeDelimited" : "decode"](response)]. *)
Definition read_as (c : message_class) (delimited : bool) (b : bytes) : res (mc_type c) :=
  if delimited then let! '(m, r) := mc_decodeDelimited c (R_create b) in Ok m else decode_bytes (mc_decode c) b.

Context (rpcCall : ∀ rq rs : message_class, Service → Method → mc_type rq → res (mc_type rs)).

(** The documented behaviour of [rpcCall]: encode the request, hand it to the
    implementation, decode the response; errors are passed on. *)
Hypothesis rpcCall_spec : ∀ rq rs service m request,
  rpcCall rq rs service m request =
  let! b := send_as rq (requestDelimited service) request in
  let! b' := rpcImpl service m b in
  read_as rs (responseDelimited service) b'.

(** [Service.prototype.m(request)]. *)
Definition call (r : rpc) (service : Service) (request : mc_type (rpc_request r)) : res (mc_type (rpc_response r)) :=
  rpcCall (rpc_request r) (rpc_response r) service (rpc_method r) request.

(** ** What a call sends and returns *)

Lemma transfer c d v : valid c v → fits c v → ∃ b, send_as c d v = Ok b ∧ read_as c d b = Ok (received c v).
Proof.
  intros Hv Hf. unfold send_as, read_as. destruct d.
  - destruct (class_stream c [v]) as (w & r & H1 & H2 & _); [by constructor|]. simpl in H1, H2.
    rewrite (class_delimited_none c). destruct (mc_encodeDelimited c v (Some W_create)) as [w1| |]; simpl in *; [|done|done].
    injection H1 as ->. exists (W_finish w). split; [done|].
    destruct (mc_decodeDelimited c _) as [[m r1]| |]; simpl in *; [|done|done]. by injection H2 as -> _.
  - destruct (class_roundtrip c v Hv) as (b & H1 & H2). by exists b.
Qed.

(** The transport gets the description of the method and bytes in which a reader
    of the request class finds the request; the call gives what the response
    class reads in the answer, and passes an error of the transport on. *)
Theorem rpc_exchange r service request :
  valid (rpc_request r) request → fits (rpc_request r) request →
  ∃ b, read_as (rpc_request r) (requestDelimited service) b = Ok (received (rpc_request r) request) ∧
    call r service request =
      let! b' := rpcImpl service (rpc_method r) b in read_as (rpc_response r) (responseDelimited service) b'.
Proof.
  intros Hv Hf. unfold call. rewrite rpcCall_spec.
  destruct (transfer _ (requestDelimited service) request Hv Hf) as (b & -> & Hb). by exists b.
Qed.

(** The class a method names: a full name, or one of the package. *)
Definition names_class (type : string) (c : message_class) : bool :=
  String.eqb (mc_name c) type || String.eqb (mc_name c) ("api.im.v1." +:+ type).

(** The services of [api/im/v1/*.proto]: their methods, with the request and
    response types. *)
Definition proto_services : list (string * list (string * string * string)) :=
  [("AuthService", [("Register", "RegisterRequest", "RegisterReply"); ("Login", "LoginRequest", "LoginReply");
      ("RefreshToken", "RefreshTokenRequest", "LoginReply"); ("Logout", "LogoutRequest", "LogoutReply")]);
   ("ConversationService", [("ListConversations", "ListConversationsRequest", "ListConversationsReply");
      ("MarkConversationRead", "MarkConversationReadRequest", "google.protobuf.Empty")]);
   ("DispatchService", [("Gateway", "GetGatewayRequest", "GetGatewayReply")]);
   ("FileService", [("UploadFile", "UploadFileRequest", "UploadFileReply"); ("DownloadFile", "DownloadFileRequest", "DownloadFileReply")]);
   ("GroupService", [("CreateGroup", "CreateGroupRequest", "CreateGroupReply"); ("ListMyGroups", "google.protobuf.Empty", "ListGroupsReply");
      ("GetGroup", "GetGroupRequest", "Group"); ("AddGroupMember", "AddGroupMemberRequest", "google.protobuf.Empty");
      ("RemoveGroupMember", "RemoveGroupMemberRequest", "google.protobuf.Empty");
      ("ListGroupMembers", "ListGroupMembersRequest", "ListGroupMembersReply")]);
   ("MessageService", [("SendMessage", "SendMessageRequest", "SendMessageReply"); ("PullMessages", "PullRequest", "PullReply")]);
   ("PushService", [("PushToUser", "PushToUserRequest", "PushToUserReply"); ("BatchPushToUsers", "BatchPushToUsersRequest", "BatchPushToUsersReply");
      ("PushReceiptToUser", "PushReceiptToUserRequest", "PushReceiptToUserReply");
      ("BatchPushReceiptToUsers", "BatchPushReceiptToUsersRequest", "BatchPushReceiptToUsersReply");
      ("BatchPushReceiptsToUsers", "BatchPushReceiptsToUsersRequest", "BatchPushReceiptsToUsersReply")]);
   ("UserService", [("SearchUsers", "SearchUsersRequest", "SearchUsersReply"); ("GetUserPresence", "GetUserPresenceRequest", "GetUserPresenceReply")])]%string.

(** The methods they describe: the path is made of the package, the service and
    the method. *)
Definition proto_methods : list Method :=
  concat (List.map (λ x : string * list (string * string * string),
    List.map (λ y : string * string * string,
      mkMethod y.1.1 ("/api.im.v1." +:+ x.1 +:+ "/" +:+ y.1.1) y.1.2 y.2) x.2) proto_services).

(** The generated methods are those of the [.proto] files, in order, and each
    encodes and decodes with the classes of the types it declares. *)
Theorem api_methods_described :
  rpc_method <$> api_methods = proto_methods ∧
  Forall (λ r, names_class (requestType (rpc_method r)) (rpc_request r) = true ∧
    names_class (responseType (rpc_method r)) (rpc_response r) = true) api_methods.
Proof.
  split; [reflexivity|]. repeat (apply Forall_cons; split; [split; reflexivity|]). apply Forall_nil_2.
Qed.

End Calls.
End Services.

(** ** The theorem at a concrete call *)

Section Example.
#[local] Existing Instance wire.
#[local] Existing Instance wire_laws.
#[local] Existing Instance plain.
#[local] Existing Instance plain_laws.

(** [rpcCall] itself, as documented. *)
Definition plain_call (rq rs : message_class) (service : Service) (m : Method) (request : mc_type rq) : res (mc_type rs) :=
  let! b := send_as rq (requestDelimited service) request in
  let! b' := rpcImpl service m b in
  read_as rs (responseDelimited service) b'.

(** A transport whose answers are empty. *)
Definition ex_service : Service := AuthService_create (λ _ _, Ok []) true false.
Definition ex_request : LoginRequest := mkLoginRequest (Some "bob"%string) (Some "secret"%string) None None.

Lemma rpc_exchange_witness :
  ∃ b, read_as LoginRequest_class true b = Ok (received LoginRequest_class ex_request) ∧
    call plain_call AuthService_login ex_service ex_request = Ok LoginReply_new.
Proof.
  destruct (rpc_exchange plain_call (λ _ _ _ _ _, eq_refl) AuthService_login ex_service ex_request) as (b & H1 & H2).
  - concrete_message.
  - vm_compute. reflexivity.
  - exists b. split; [exact H1|]. rewrite H2. vm_compute. reflexivity.
Defined.
End Example.
