(* ===== verification/DescHttp.v ===== *)
(** * The HTTP annotation classes ([web/app/lib/proto/im.js])

    The classes of [google/api/http.proto]: a rule contains further rules,
    and its pattern is a oneof of five strings and a message.  Per class the
    record of its fields, [encode], [decode], their delimited forms and
    [getTypeUrl], with the conventions of [ProtoMessages]. *)

From S2P Require Import Prelude JsNum ProtoRuntime.
Open Scope Z_scope.

Section Messages.
Context {RT : Runtime}.

(** ** [CustomHttpPattern] *)

Record CustomHttpPattern := mkCustomHttpPattern {
  CustomHttpPattern_kind : option string;
  CustomHttpPattern_path : option string;
  CustomHttpPattern_unknowns : option (list bytes);
}.

Definition CustomHttpPattern_new : CustomHttpPattern :=
  mkCustomHttpPattern None None None.

Definition set_CustomHttpPattern_kind (v : option string) (m : CustomHttpPattern) : CustomHttpPattern :=
  mkCustomHttpPattern v (CustomHttpPattern_path m) (CustomHttpPattern_unknowns m).
Definition set_CustomHttpPattern_path (v : option string) (m : CustomHttpPattern) : CustomHttpPattern :=
  mkCustomHttpPattern (CustomHttpPattern_kind m) v (CustomHttpPattern_unknowns m).
Definition CustomHttpPattern_push_unknown (b : bytes) (m : CustomHttpPattern) : CustomHttpPattern :=
  mkCustomHttpPattern (CustomHttpPattern_kind m) (CustomHttpPattern_path m) (Some (default [] (CustomHttpPattern_unknowns m) ++ [b])).

Definition CustomHttpPattern_encode (message : CustomHttpPattern) (writer : option Writer) (_depth : option Z) : res Writer :=
  let writer := default W_create writer in
  let _depth := default 0 _depth in
  depth_check util_recursionLimit _depth (
    let writer := own (CustomHttpPattern_kind message) (λ v w, W_string v (W_uint32 10 w)) writer in
    let writer := own (CustomHttpPattern_path message) (λ v w, W_string v (W_uint32 18 w)) writer in
    Ok (put_unknowns (CustomHttpPattern_unknowns message) writer)).

Definition CustomHttpPattern_encodeDelimited (message : CustomHttpPattern) (writer : option Writer) : res Writer :=
  delimited CustomHttpPattern_encode message writer.

Definition CustomHttpPattern_switch (_depth field wireType : Z) (message : CustomHttpPattern) (reader : Reader)
    : option (res (CustomHttpPattern * Reader)) :=
  match field with
  | 1 => when_wire wireType 2 (dec_opt R_stringVerify string_present set_CustomHttpPattern_kind message reader)
  | 2 => when_wire wireType 2 (dec_opt R_stringVerify string_present set_CustomHttpPattern_path message reader)
  | _ => None
  end.

Definition CustomHttpPattern_decode : decoder CustomHttpPattern := λ reader length _end _depth _target,
  let _depth := default 0 _depth in
  decode_with (CustomHttpPattern_switch _depth) CustomHttpPattern_push_unknown _depth CustomHttpPattern_new reader length _end _target.

Definition CustomHttpPattern_decodeDelimited (reader : Reader) : res (CustomHttpPattern * Reader) :=
  decode_delimited CustomHttpPattern_decode reader.

Definition CustomHttpPattern_getTypeUrl (prefix : option string) : string :=
  default "type.googleapis.com"%string prefix +:+ "/google.api.CustomHttpPattern".

(** ** [HttpRule] *)

Inductive HttpRule := mkHttpRule {
  HttpRule_selector : option string;
  HttpRule_get : option string;
  HttpRule_put : option string;
  HttpRule_post : option string;
  HttpRule_delete : option string;
  HttpRule_patch : option string;
  HttpRule_custom : option CustomHttpPattern;
  HttpRule_body : option string;
  HttpRule_responseBody : option string;
  HttpRule_additionalBindings : list HttpRule;
  HttpRule_unknowns : option (list bytes);
}.

Definition HttpRule_new : HttpRule :=
  mkHttpRule None None None None None None None None None [] None.

Definition set_HttpRule_selector (v : option string) (m : HttpRule) : HttpRule :=
  mkHttpRule v (HttpRule_get m) (HttpRule_put m) (HttpRule_post m) (HttpRule_delete m) (HttpRule_patch m) (HttpRule_custom m) (HttpRule_body m) (HttpRule_responseBody m) (HttpRule_additionalBindings m) (HttpRule_unknowns m).
Definition set_HttpRule_get (v : option string) (m : HttpRule) : HttpRule :=
  mkHttpRule (HttpRule_selector m) v (HttpRule_put m) (HttpRule_post m) (HttpRule_delete m) (HttpRule_patch m) (HttpRule_custom m) (HttpRule_body m) (HttpRule_responseBody m) (HttpRule_additionalBindings m) (HttpRule_unknowns m).
Definition set_HttpRule_put (v : option string) (m : HttpRule) : HttpRule :=
  mkHttpRule (HttpRule_selector m) (HttpRule_get m) v (HttpRule_post m) (HttpRule_delete m) (HttpRule_patch m) (HttpRule_custom m) (HttpRule_body m) (HttpRule_responseBody m) (HttpRule_additionalBindings m) (HttpRule_unknowns m).
Definition set_HttpRule_post (v : option string) (m : HttpRule) : HttpRule :=
  mkHttpRule (HttpRule_selector m) (HttpRule_get m) (HttpRule_put m) v (HttpRule_delete m) (HttpRule_patch m) (HttpRule_custom m) (HttpRule_body m) (HttpRule_responseBody m) (HttpRule_additionalBindings m) (HttpRule_unknowns m).
Definition set_HttpRule_delete (v : option string) (m : HttpRule) : HttpRule :=
  mkHttpRule (HttpRule_selector m) (HttpRule_get m) (HttpRule_put m) (HttpRule_post m) v (HttpRule_patch m) (HttpRule_custom m) (HttpRule_body m) (HttpRule_responseBody m) (HttpRule_additionalBindings m) (HttpRule_unknowns m).
Definition set_HttpRule_patch (v : option string) (m : HttpRule) : HttpRule :=
  mkHttpRule (HttpRule_selector m) (HttpRule_get m) (HttpRule_put m) (HttpRule_post m) (HttpRule_delete m) v (HttpRule_custom m) (HttpRule_body m) (HttpRule_responseBody m) (HttpRule_additionalBindings m) (HttpRule_unknowns m).
Definition set_HttpRule_custom (v : option CustomHttpPattern) (m : HttpRule) : HttpRule :=
  mkHttpRule (HttpRule_selector m) (HttpRule_get m) (HttpRule_put m) (HttpRule_post m) (HttpRule_delete m) (HttpRule_patch m) v (HttpRule_body m) (HttpRule_responseBody m) (HttpRule_additionalBindings m) (HttpRule_unknowns m).
Definition set_HttpRule_body (v : option string) (m : HttpRule) : HttpRule :=
  mkHttpRule (HttpRule_selector m) (HttpRule_get m) (HttpRule_put m) (HttpRule_post m) (HttpRule_delete m) (HttpRule_patch m) (HttpRule_custom m) v (HttpRule_responseBody m) (HttpRule_additionalBindings m) (HttpRule_unknowns m).
Definition set_HttpRule_responseBody (v : option string) (m : HttpRule) : HttpRule :=
  mkHttpRule (HttpRule_selector m) (HttpRule_get m) (HttpRule_put m) (HttpRule_post m) (HttpRule_delete m) (HttpRule_patch m) (HttpRule_custom m) (HttpRule_body m) v (HttpRule_additionalBindings m) (HttpRule_unknowns m).
Definition set_HttpRule_additionalBindings (v : list HttpRule) (m : HttpRule) : HttpRule :=
  mkHttpRule (HttpRule_selector m) (HttpRule_get m) (HttpRule_put m) (HttpRule_post m) (HttpRule_delete m) (HttpRule_patch m) (HttpRule_custom m) (HttpRule_body m) (HttpRule_responseBody m) v (HttpRule_unknowns m).
Definition HttpRule_push_unknown (b : bytes) (m : HttpRule) : HttpRule :=
  mkHttpRule (HttpRule_selector m) (HttpRule_get m) (HttpRule_put m) (HttpRule_post m) (HttpRule_delete m) (HttpRule_patch m) (HttpRule_custom m) (HttpRule_body m) (HttpRule_responseBody m) (HttpRule_additionalBindings m) (Some (default [] (HttpRule_unknowns m) ++ [b])).

Fixpoint HttpRule_encode (message : HttpRule) (writer : option Writer) (_depth : option Z) {struct message} : res Writer :=
  let writer := default W_create writer in
  let _depth := default 0 _depth in
  depth_check util_recursionLimit _depth (
    let writer := own (HttpRule_selector message) (λ v w, W_string v (W_uint32 10 w)) writer in
    let writer := own (HttpRule_get message) (λ v w, W_string v (W_uint32 18 w)) writer in
    let writer := own (HttpRule_put message) (λ v w, W_string v (W_uint32 26 w)) writer in
    let writer := own (HttpRule_post message) (λ v w, W_string v (W_uint32 34 w)) writer in
    let writer := own (HttpRule_delete message) (λ v w, W_string v (W_uint32 42 w)) writer in
    let writer := own (HttpRule_patch message) (λ v w, W_string v (W_uint32 50 w)) writer in
    let writer := own (HttpRule_body message) (λ v w, W_string v (W_uint32 58 w)) writer in
    let! writer := own_msg (HttpRule_custom message) (nested 66 CustomHttpPattern_encode _depth) writer in
    let! writer := nested_all 90 HttpRule_encode _depth (HttpRule_additionalBindings message) writer in
    let writer := own (HttpRule_responseBody message) (λ v w, W_string v (W_uint32 98 w)) writer in
    Ok (put_unknowns (HttpRule_unknowns message) writer)).

Definition HttpRule_encodeDelimited (message : HttpRule) (writer : option Writer) : res Writer :=
  delimited HttpRule_encode message writer.

(** The field names of the oneof [pattern]. *)
Definition HttpRule_oneOfFields : list string :=
  ["get"%string; "put"%string; "post"%string; "delete"%string; "patch"%string; "custom"%string].

(** [delete message[f]]. *)
Definition HttpRule_remove (f : string) (m : HttpRule) : HttpRule :=
  if String.eqb f "get" then set_HttpRule_get None m
  else if String.eqb f "put" then set_HttpRule_put None m
  else if String.eqb f "post" then set_HttpRule_post None m
  else if String.eqb f "delete" then set_HttpRule_delete None m
  else if String.eqb f "patch" then set_HttpRule_patch None m
  else if String.eqb f "custom" then set_HttpRule_custom None m
  else m.

(** [message.pattern = name]. *)
Definition HttpRule_set_pattern (name : string) (m : HttpRule) : HttpRule :=
  foldl (λ m f, HttpRule_remove f m) m (oneOfSetter HttpRule_oneOfFields name).

Definition HttpRule_switch (decode : decoder HttpRule) (_depth field wireType : Z) (message : HttpRule) (reader : Reader)
    : option (res (HttpRule * Reader)) :=
  match field with
  | 1 => when_wire wireType 2 (dec_opt R_stringVerify string_present set_HttpRule_selector message reader)
  | 2 => when_wire wireType 2 (dec_set R_stringVerify (λ v m, HttpRule_set_pattern "get" (set_HttpRule_get v m)) message reader)
  | 3 => when_wire wireType 2 (dec_set R_stringVerify (λ v m, HttpRule_set_pattern "put" (set_HttpRule_put v m)) message reader)
  | 4 => when_wire wireType 2 (dec_set R_stringVerify (λ v m, HttpRule_set_pattern "post" (set_HttpRule_post v m)) message reader)
  | 5 => when_wire wireType 2 (dec_set R_stringVerify (λ v m, HttpRule_set_pattern "delete" (set_HttpRule_delete v m)) message reader)
  | 6 => when_wire wireType 2 (dec_set R_stringVerify (λ v m, HttpRule_set_pattern "patch" (set_HttpRule_patch v m)) message reader)
  | 8 => when_wire wireType 2 (dec_msg CustomHttpPattern_decode _depth HttpRule_custom (λ v m, HttpRule_set_pattern "custom" (set_HttpRule_custom (Some v) m)) message reader)
  | 7 => when_wire wireType 2 (dec_opt R_stringVerify string_present set_HttpRule_body message reader)
  | 12 => when_wire wireType 2 (dec_opt R_stringVerify string_present set_HttpRule_responseBody message reader)
  | 11 => when_wire wireType 2 (dec_push decode _depth HttpRule_additionalBindings set_HttpRule_additionalBindings message reader)
  | _ => None
  end.

Definition HttpRule_decode : decoder HttpRule := decode_nested (λ decode reader length _end _depth _target,
  let _depth := default 0 _depth in
  decode_with (HttpRule_switch decode _depth) HttpRule_push_unknown _depth HttpRule_new reader length _end _target).

Definition HttpRule_decodeDelimited (reader : Reader) : res (HttpRule * Reader) :=
  decode_delimited HttpRule_decode reader.

Definition HttpRule_getTypeUrl (prefix : option string) : string :=
  default "type.googleapis.com"%string prefix +:+ "/google.api.HttpRule".

(** ** [Http] *)

Record Http := mkHttp {
  Http_rules : list HttpRule;
  Http_fullyDecodeReservedExpansion : option bool;
  Http_unknowns : option (list bytes);
}.

Definition Http_new : Http :=
  mkHttp [] None None.

Definition set_Http_rules (v : list HttpRule) (m : Http) : Http :=
  mkHttp v (Http_fullyDecodeReservedExpansion m) (Http_unknowns m).
Definition set_Http_fullyDecodeReservedExpansion (v : option bool) (m : Http) : Http :=
  mkHttp (Http_rules m) v (Http_unknowns m).
Definition Http_push_unknown (b : bytes) (m : Http) : Http :=
  mkHttp (Http_rules m) (Http_fullyDecodeReservedExpansion m) (Some (default [] (Http_unknowns m) ++ [b])).

Definition Http_encode (message : Http) (writer : option Writer) (_depth : option Z) : res Writer :=
  let writer := default W_create writer in
  let _depth := default 0 _depth in
  depth_check util_recursionLimit _depth (
    let! writer := nested_all 10 HttpRule_encode _depth (Http_rules message) writer in
    let writer := own (Http_fullyDecodeReservedExpansion message) (λ v w, W_bool v (W_uint32 16 w)) writer in
    Ok (put_unknowns (Http_unknowns message) writer)).

Definition Http_encodeDelimited (message : Http) (writer : option Writer) : res Writer :=
  delimited Http_encode message writer.

Definition Http_switch (_depth field wireType : Z) (message : Http) (reader : Reader)
    : option (res (Http * Reader)) :=
  match field with
  | 1 => when_wire wireType 2 (dec_push HttpRule_decode _depth Http_rules set_Http_rules message reader)
  | 2 => when_wire wireType 0 (dec_opt R_bool bool_present set_Http_fullyDecodeReservedExpansion message reader)
  | _ => None
  end.

Definition Http_decode : decoder Http := λ reader length _end _depth _target,
  let _depth := default 0 _depth in
  decode_with (Http_switch _depth) Http_push_unknown _depth Http_new reader length _end _target.

Definition Http_decodeDelimited (reader : Reader) : res (Http * Reader) :=
  decode_delimited Http_decode reader.

Definition Http_getTypeUrl (prefix : option string) : string :=
  default "type.googleapis.com"%string prefix +:+ "/google.api.Http".

End Messages.
