(* ===== verification/DescOptions.v ===== *)
(** * The option classes of the descriptors ([web/app/lib/proto/im.js])

    The option classes of [google/protobuf/descriptor.proto].  They are
    proto2: a field that is present keeps its value even when it is the
    default, strings are read without the UTF-8 check, and a name part has
    required fields.  Per class the record of its fields, [encode],
    [decode], their delimited forms and [getTypeUrl], with the conventions
    of [ProtoMessages]. *)

From S2P Require Import Prelude JsNum ProtoRuntime DescHttp.
Open Scope Z_scope.

Section Messages.
Context {RT : Runtime}.

(** ** [NamePart] *)

Record NamePart := mkNamePart {
  NamePart_namePart : option string;
  NamePart_isExtension : option bool;
  NamePart_unknowns : option (list bytes);
}.

Definition NamePart_new : NamePart :=
  mkNamePart None None None.

Definition set_NamePart_namePart (v : option string) (m : NamePart) : NamePart :=
  mkNamePart v (NamePart_isExtension m) (NamePart_unknowns m).
Definition set_NamePart_isExtension (v : option bool) (m : NamePart) : NamePart :=
  mkNamePart (NamePart_namePart m) v (NamePart_unknowns m).
Definition NamePart_push_unknown (b : bytes) (m : NamePart) : NamePart :=
  mkNamePart (NamePart_namePart m) (NamePart_isExtension m) (Some (default [] (NamePart_unknowns m) ++ [b])).

Definition NamePart_encode (message : NamePart) (writer : option Writer) (_depth : option Z) : res Writer :=
  let writer := default W_create writer in
  let _depth := default 0 _depth in
  depth_check util_recursionLimit _depth (
    let writer := W_string (default "" (NamePart_namePart message)) (W_uint32 10 writer) in
    let writer := W_bool (default false (NamePart_isExtension message)) (W_uint32 16 writer) in
    Ok (put_unknowns (NamePart_unknowns message) writer)).

Definition NamePart_encodeDelimited (message : NamePart) (writer : option Writer) : res Writer :=
  delimited NamePart_encode message writer.

Definition NamePart_switch (_depth field wireType : Z) (message : NamePart) (reader : Reader)
    : option (res (NamePart * Reader)) :=
  match field with
  | 1 => when_wire wireType 2 (dec_set R_string set_NamePart_namePart message reader)
  | 2 => when_wire wireType 0 (dec_set R_bool set_NamePart_isExtension message reader)
  | _ => None
  end.

(** The required field that is missing, if any. *)
Definition NamePart_missing (message : NamePart) : option string :=
  match NamePart_namePart message with None => Some "missing required 'namePart'"%string | Some _ =>
  match NamePart_isExtension message with None => Some "missing required 'isExtension'"%string | Some _ =>
  None end end.

Definition NamePart_loop : decoder NamePart := λ reader length _end _depth _target,
  let _depth := default 0 _depth in
  decode_with (NamePart_switch _depth) NamePart_push_unknown _depth NamePart_new reader length _end _target.

Definition NamePart_decode : decoder NamePart := λ reader length _end _depth _target,
  let! '(message, reader) := NamePart_loop reader length _end _depth _target in
  match NamePart_missing message with Some err => Throw err | None => Ok (message, reader) end.

Definition NamePart_decodeDelimited (reader : Reader) : res (NamePart * Reader) :=
  decode_delimited NamePart_decode reader.

Definition NamePart_getTypeUrl (prefix : option string) : string :=
  default "type.googleapis.com"%string prefix +:+ "/google.protobuf.UninterpretedOption.NamePart".

(** ** [UninterpretedOption] *)

Record UninterpretedOption := mkUninterpretedOption {
  UninterpretedOption_name : list NamePart;
  UninterpretedOption_identifierValue : option string;
  UninterpretedOption_positiveIntValue : option long;
  UninterpretedOption_negativeIntValue : option long;
  UninterpretedOption_doubleValue : option double;
  UninterpretedOption_stringValue : option bytes;
  UninterpretedOption_aggregateValue : option string;
  UninterpretedOption_unknowns : option (list bytes);
}.

Definition UninterpretedOption_new : UninterpretedOption :=
  mkUninterpretedOption [] None None None None None None None.

Definition set_UninterpretedOption_name (v : list NamePart) (m : UninterpretedOption) : UninterpretedOption :=
  mkUninterpretedOption v (UninterpretedOption_identifierValue m) (UninterpretedOption_positiveIntValue m) (UninterpretedOption_negativeIntValue m) (UninterpretedOption_doubleValue m) (UninterpretedOption_stringValue m) (UninterpretedOption_aggregateValue m) (UninterpretedOption_unknowns m).
Definition set_UninterpretedOption_identifierValue (v : option string) (m : UninterpretedOption) : UninterpretedOption :=
  mkUninterpretedOption (UninterpretedOption_name m) v (UninterpretedOption_positiveIntValue m) (UninterpretedOption_negativeIntValue m) (UninterpretedOption_doubleValue m) (UninterpretedOption_stringValue m) (UninterpretedOption_aggregateValue m) (UninterpretedOption_unknowns m).
Definition set_UninterpretedOption_positiveIntValue (v : option long) (m : UninterpretedOption) : UninterpretedOption :=
  mkUninterpretedOption (UninterpretedOption_name m) (UninterpretedOption_identifierValue m) v (UninterpretedOption_negativeIntValue m) (UninterpretedOption_doubleValue m) (UninterpretedOption_stringValue m) (UninterpretedOption_aggregateValue m) (UninterpretedOption_unknowns m).
Definition set_UninterpretedOption_negativeIntValue (v : option long) (m : UninterpretedOption) : UninterpretedOption :=
  mkUninterpretedOption (UninterpretedOption_name m) (UninterpretedOption_identifierValue m) (UninterpretedOption_positiveIntValue m) v (UninterpretedOption_doubleValue m) (UninterpretedOption_stringValue m) (UninterpretedOption_aggregateValue m) (UninterpretedOption_unknowns m).
Definition set_UninterpretedOption_doubleValue (v : option double) (m : UninterpretedOption) : UninterpretedOption :=
  mkUninterpretedOption (UninterpretedOption_name m) (UninterpretedOption_identifierValue m) (UninterpretedOption_positiveIntValue m) (UninterpretedOption_negativeIntValue m) v (UninterpretedOption_stringValue m) (UninterpretedOption_aggregateValue m) (UninterpretedOption_unknowns m).
Definition set_UninterpretedOption_stringValue (v : option bytes) (m : UninterpretedOption) : UninterpretedOption :=
  mkUninterpretedOption (UninterpretedOption_name m) (UninterpretedOption_identifierValue m) (UninterpretedOption_positiveIntValue m) (UninterpretedOption_negativeIntValue m) (UninterpretedOption_doubleValue m) v (UninterpretedOption_aggregateValue m) (UninterpretedOption_unknowns m).
Definition set_UninterpretedOption_aggregateValue (v : option string) (m : UninterpretedOption) : UninterpretedOption :=
  mkUninterpretedOption (UninterpretedOption_name m) (UninterpretedOption_identifierValue m) (UninterpretedOption_positiveIntValue m) (UninterpretedOption_negativeIntValue m) (UninterpretedOption_doubleValue m) (UninterpretedOption_stringValue m) v (UninterpretedOption_unknowns m).
Definition UninterpretedOption_push_unknown (b : bytes) (m : UninterpretedOption) : UninterpretedOption :=
  mkUninterpretedOption (UninterpretedOption_name m) (UninterpretedOption_identifierValue m) (UninterpretedOption_positiveIntValue m) (UninterpretedOption_negativeIntValue m) (UninterpretedOption_doubleValue m) (UninterpretedOption_stringValue m) (UninterpretedOption_aggregateValue m) (Some (default [] (UninterpretedOption_unknowns m) ++ [b])).

Definition UninterpretedOption_encode (message : UninterpretedOption) (writer : option Writer) (_depth : option Z) : res Writer :=
  let writer := default W_create writer in
  let _depth := default 0 _depth in
  depth_check util_recursionLimit _depth (
    let! writer := nested_all 18 NamePart_encode _depth (UninterpretedOption_name message) writer in
    let writer := own (UninterpretedOption_identifierValue message) (λ v w, W_string v (W_uint32 26 w)) writer in
    let writer := own (UninterpretedOption_positiveIntValue message) (λ v w, W_uint64 v (W_uint32 32 w)) writer in
    let writer := own (UninterpretedOption_negativeIntValue message) (λ v w, W_int64 v (W_uint32 40 w)) writer in
    let writer := own (UninterpretedOption_doubleValue message) (λ v w, W_double v (W_uint32 49 w)) writer in
    let writer := own (UninterpretedOption_stringValue message) (λ v w, W_bytes v (W_uint32 58 w)) writer in
    let writer := own (UninterpretedOption_aggregateValue message) (λ v w, W_string v (W_uint32 66 w)) writer in
    Ok (put_unknowns (UninterpretedOption_unknowns message) writer)).

Definition UninterpretedOption_encodeDelimited (message : UninterpretedOption) (writer : option Writer) : res Writer :=
  delimited UninterpretedOption_encode message writer.

Definition UninterpretedOption_switch (_depth field wireType : Z) (message : UninterpretedOption) (reader : Reader)
    : option (res (UninterpretedOption * Reader)) :=
  match field with
  | 2 => when_wire wireType 2 (dec_push NamePart_decode _depth UninterpretedOption_name set_UninterpretedOption_name message reader)
  | 3 => when_wire wireType 2 (dec_set R_string set_UninterpretedOption_identifierValue message reader)
  | 4 => when_wire wireType 0 (dec_set R_uint64 set_UninterpretedOption_positiveIntValue message reader)
  | 5 => when_wire wireType 0 (dec_set R_int64 set_UninterpretedOption_negativeIntValue message reader)
  | 6 => when_wire wireType 1 (dec_set R_double set_UninterpretedOption_doubleValue message reader)
  | 7 => when_wire wireType 2 (dec_set R_bytes set_UninterpretedOption_stringValue message reader)
  | 8 => when_wire wireType 2 (dec_set R_string set_UninterpretedOption_aggregateValue message reader)
  | _ => None
  end.

Definition UninterpretedOption_decode : decoder UninterpretedOption := λ reader length _end _depth _target,
  let _depth := default 0 _depth in
  decode_with (UninterpretedOption_switch _depth) UninterpretedOption_push_unknown _depth UninterpretedOption_new reader length _end _target.

Definition UninterpretedOption_decodeDelimited (reader : Reader) : res (UninterpretedOption * Reader) :=
  decode_delimited UninterpretedOption_decode reader.

Definition UninterpretedOption_getTypeUrl (prefix : option string) : string :=
  default "type.googleapis.com"%string prefix +:+ "/google.protobuf.UninterpretedOption".

(** ** [ExtensionRangeOptions] *)

Record ExtensionRangeOptions := mkExtensionRangeOptions {
  ExtensionRangeOptions_uninterpretedOption : list UninterpretedOption;
  ExtensionRangeOptions_unknowns : option (list bytes);
}.

Definition ExtensionRangeOptions_new : ExtensionRangeOptions :=
  mkExtensionRangeOptions [] None.

Definition set_ExtensionRangeOptions_uninterpretedOption (v : list UninterpretedOption) (m : ExtensionRangeOptions) : ExtensionRangeOptions :=
  mkExtensionRangeOptions v (ExtensionRangeOptions_unknowns m).
Definition ExtensionRangeOptions_push_unknown (b : bytes) (m : ExtensionRangeOptions) : ExtensionRangeOptions :=
  mkExtensionRangeOptions (ExtensionRangeOptions_uninterpretedOption m) (Some (default [] (ExtensionRangeOptions_unknowns m) ++ [b])).

Definition ExtensionRangeOptions_encode (message : ExtensionRangeOptions) (writer : option Writer) (_depth : option Z) : res Writer :=
  let writer := default W_create writer in
  let _depth := default 0 _depth in
  depth_check util_recursionLimit _depth (
    let! writer := nested_all 7994 UninterpretedOption_encode _depth (ExtensionRangeOptions_uninterpretedOption message) writer in
    Ok (put_unknowns (ExtensionRangeOptions_unknowns message) writer)).

Definition ExtensionRangeOptions_encodeDelimited (message : ExtensionRangeOptions) (writer : option Writer) : res Writer :=
  delimited ExtensionRangeOptions_encode message writer.

Definition ExtensionRangeOptions_switch (_depth field wireType : Z) (message : ExtensionRangeOptions) (reader : Reader)
    : option (res (ExtensionRangeOptions * Reader)) :=
  match field with
  | 999 => when_wire wireType 2 (dec_push UninterpretedOption_decode _depth ExtensionRangeOptions_uninterpretedOption set_ExtensionRangeOptions_uninterpretedOption message reader)
  | _ => None
  end.

Definition ExtensionRangeOptions_decode : decoder ExtensionRangeOptions := λ reader length _end _depth _target,
  let _depth := default 0 _depth in
  decode_with (ExtensionRangeOptions_switch _depth) ExtensionRangeOptions_push_unknown _depth ExtensionRangeOptions_new reader length _end _target.

Definition ExtensionRangeOptions_decodeDelimited (reader : Reader) : res (ExtensionRangeOptions * Reader) :=
  decode_delimited ExtensionRangeOptions_decode reader.

Definition ExtensionRangeOptions_getTypeUrl (prefix : option string) : string :=
  default "type.googleapis.com"%string prefix +:+ "/google.protobuf.ExtensionRangeOptions".

(** ** [FileOptions] *)

Record FileOptions := mkFileOptions {
  FileOptions_javaPackage : option string;
  FileOptions_javaOuterClassname : option string;
  FileOptions_javaMultipleFiles : option bool;
  FileOptions_javaGenerateEqualsAndHash : option bool;
  FileOptions_javaStringCheckUtf8 : option bool;
  FileOptions_optimizeFor : option Z;
  FileOptions_goPackage : option string;
  FileOptions_ccGenericServices : option bool;
  FileOptions_javaGenericServices : option bool;
  FileOptions_pyGenericServices : option bool;
  FileOptions_phpGenericServices : option bool;
  FileOptions_deprecated : option bool;
  FileOptions_ccEnableArenas : option bool;
  FileOptions_objcClassPrefix : option string;
  FileOptions_csharpNamespace : option string;
  FileOptions_swiftPrefix : option string;
  FileOptions_phpClassPrefix : option string;
  FileOptions_phpNamespace : option string;
  FileOptions_phpMetadataNamespace : option string;
  FileOptions_rubyPackage : option string;
  FileOptions_uninterpretedOption : list UninterpretedOption;
  FileOptions_unknowns : option (list bytes);
}.

Definition FileOptions_new : FileOptions :=
  mkFileOptions None None None None None None None None None None None None None None None None None None None None [] None.

Definition set_FileOptions_javaPackage (v : option string) (m : FileOptions) : FileOptions :=
  mkFileOptions v (FileOptions_javaOuterClassname m) (FileOptions_javaMultipleFiles m) (FileOptions_javaGenerateEqualsAndHash m) (FileOptions_javaStringCheckUtf8 m) (FileOptions_optimizeFor m) (FileOptions_goPackage m) (FileOptions_ccGenericServices m) (FileOptions_javaGenericServices m) (FileOptions_pyGenericServices m) (FileOptions_phpGenericServices m) (FileOptions_deprecated m) (FileOptions_ccEnableArenas m) (FileOptions_objcClassPrefix m) (FileOptions_csharpNamespace m) (FileOptions_swiftPrefix m) (FileOptions_phpClassPrefix m) (FileOptions_phpNamespace m) (FileOptions_phpMetadataNamespace m) (FileOptions_rubyPackage m) (FileOptions_uninterpretedOption m) (FileOptions_unknowns m).
Definition set_FileOptions_javaOuterClassname (v : option string) (m : FileOptions) : FileOptions :=
  mkFileOptions (FileOptions_javaPackage m) v (FileOptions_javaMultipleFiles m) (FileOptions_javaGenerateEqualsAndHash m) (FileOptions_javaStringCheckUtf8 m) (FileOptions_optimizeFor m) (FileOptions_goPackage m) (FileOptions_ccGenericServices m) (FileOptions_javaGenericServices m) (FileOptions_pyGenericServices m) (FileOptions_phpGenericServices m) (FileOptions_deprecated m) (FileOptions_ccEnableArenas m) (FileOptions_objcClassPrefix m) (FileOptions_csharpNamespace m) (FileOptions_swiftPrefix m) (FileOptions_phpClassPrefix m) (FileOptions_phpNamespace m) (FileOptions_phpMetadataNamespace m) (FileOptions_rubyPackage m) (FileOptions_uninterpretedOption m) (FileOptions_unknowns m).
Definition set_FileOptions_javaMultipleFiles (v : option bool) (m : FileOptions) : FileOptions :=
  mkFileOptions (FileOptions_javaPackage m) (FileOptions_javaOuterClassname m) v (FileOptions_javaGenerateEqualsAndHash m) (FileOptions_javaStringCheckUtf8 m) (FileOptions_optimizeFor m) (FileOptions_goPackage m) (FileOptions_ccGenericServices m) (FileOptions_javaGenericServices m) (FileOptions_pyGenericServices m) (FileOptions_phpGenericServices m) (FileOptions_deprecated m) (FileOptions_ccEnableArenas m) (FileOptions_objcClassPrefix m) (FileOptions_csharpNamespace m) (FileOptions_swiftPrefix m) (FileOptions_phpClassPrefix m) (FileOptions_phpNamespace m) (FileOptions_phpMetadataNamespace m) (FileOptions_rubyPackage m) (FileOptions_uninterpretedOption m) (FileOptions_unknowns m).
Definition set_FileOptions_javaGenerateEqualsAndHash (v : option bool) (m : FileOptions) : FileOptions :=
  mkFileOptions (FileOptions_javaPackage m) (FileOptions_javaOuterClassname m) (FileOptions_javaMultipleFiles m) v (FileOptions_javaStringCheckUtf8 m) (FileOptions_optimizeFor m) (FileOptions_goPackage m) (FileOptions_ccGenericServices m) (FileOptions_javaGenericServices m) (FileOptions_pyGenericServices m) (FileOptions_phpGenericServices m) (FileOptions_deprecated m) (FileOptions_ccEnableArenas m) (FileOptions_objcClassPrefix m) (FileOptions_csharpNamespace m) (FileOptions_swiftPrefix m) (FileOptions_phpClassPrefix m) (FileOptions_phpNamespace m) (FileOptions_phpMetadataNamespace m) (FileOptions_rubyPackage m) (FileOptions_uninterpretedOption m) (FileOptions_unknowns m).
Definition set_FileOptions_javaStringCheckUtf8 (v : option bool) (m : FileOptions) : FileOptions :=
  mkFileOptions (FileOptions_javaPackage m) (FileOptions_javaOuterClassname m) (FileOptions_javaMultipleFiles m) (FileOptions_javaGenerateEqualsAndHash m) v (FileOptions_optimizeFor m) (FileOptions_goPackage m) (FileOptions_ccGenericServices m) (FileOptions_javaGenericServices m) (FileOptions_pyGenericServices m) (FileOptions_phpGenericServices m) (FileOptions_deprecated m) (FileOptions_ccEnableArenas m) (FileOptions_objcClassPrefix m) (FileOptions_csharpNamespace m) (FileOptions_swiftPrefix m) (FileOptions_phpClassPrefix m) (FileOptions_phpNamespace m) (FileOptions_phpMetadataNamespace m) (FileOptions_rubyPackage m) (FileOptions_uninterpretedOption m) (FileOptions_unknowns m).
Definition set_FileOptions_optimizeFor (v : option Z) (m : FileOptions) : FileOptions :=
  mkFileOptions (FileOptions_javaPackage m) (FileOptions_javaOuterClassname m) (FileOptions_javaMultipleFiles m) (FileOptions_javaGenerateEqualsAndHash m) (FileOptions_javaStringCheckUtf8 m) v (FileOptions_goPackage m) (FileOptions_ccGenericServices m) (FileOptions_javaGenericServices m) (FileOptions_pyGenericServices m) (FileOptions_phpGenericServices m) (FileOptions_deprecated m) (FileOptions_ccEnableArenas m) (FileOptions_objcClassPrefix m) (FileOptions_csharpNamespace m) (FileOptions_swiftPrefix m) (FileOptions_phpClassPrefix m) (FileOptions_phpNamespace m) (FileOptions_phpMetadataNamespace m) (FileOptions_rubyPackage m) (FileOptions_uninterpretedOption m) (FileOptions_unknowns m).
Definition set_FileOptions_goPackage (v : option string) (m : FileOptions) : FileOptions :=
  mkFileOptions (FileOptions_javaPackage m) (FileOptions_javaOuterClassname m) (FileOptions_javaMultipleFiles m) (FileOptions_javaGenerateEqualsAndHash m) (FileOptions_javaStringCheckUtf8 m) (FileOptions_optimizeFor m) v (FileOptions_ccGenericServices m) (FileOptions_javaGenericServices m) (FileOptions_pyGenericServices m) (FileOptions_phpGenericServices m) (FileOptions_deprecated m) (FileOptions_ccEnableArenas m) (FileOptions_objcClassPrefix m) (FileOptions_csharpNamespace m) (FileOptions_swiftPrefix m) (FileOptions_phpClassPrefix m) (FileOptions_phpNamespace m) (FileOptions_phpMetadataNamespace m) (FileOptions_rubyPackage m) (FileOptions_uninterpretedOption m) (FileOptions_unknowns m).
Definition set_FileOptions_ccGenericServices (v : option bool) (m : FileOptions) : FileOptions :=
  mkFileOptions (FileOptions_javaPackage m) (FileOptions_javaOuterClassname m) (FileOptions_javaMultipleFiles m) (FileOptions_javaGenerateEqualsAndHash m) (FileOptions_javaStringCheckUtf8 m) (FileOptions_optimizeFor m) (FileOptions_goPackage m) v (FileOptions_javaGenericServices m) (FileOptions_pyGenericServices m) (FileOptions_phpGenericServices m) (FileOptions_deprecated m) (FileOptions_ccEnableArenas m) (FileOptions_objcClassPrefix m) (FileOptions_csharpNamespace m) (FileOptions_swiftPrefix m) (FileOptions_phpClassPrefix m) (FileOptions_phpNamespace m) (FileOptions_phpMetadataNamespace m) (FileOptions_rubyPackage m) (FileOptions_uninterpretedOption m) (FileOptions_unknowns m).
Definition set_FileOptions_javaGenericServices (v : option bool) (m : FileOptions) : FileOptions :=
  mkFileOptions (FileOptions_javaPackage m) (FileOptions_javaOuterClassname m) (FileOptions_javaMultipleFiles m) (FileOptions_javaGenerateEqualsAndHash m) (FileOptions_javaStringCheckUtf8 m) (FileOptions_optimizeFor m) (FileOptions_goPackage m) (FileOptions_ccGenericServices m) v (FileOptions_pyGenericServices m) (FileOptions_phpGenericServices m) (FileOptions_deprecated m) (FileOptions_ccEnableArenas m) (FileOptions_objcClassPrefix m) (FileOptions_csharpNamespace m) (FileOptions_swiftPrefix m) (FileOptions_phpClassPrefix m) (FileOptions_phpNamespace m) (FileOptions_phpMetadataNamespace m) (FileOptions_rubyPackage m) (FileOptions_uninterpretedOption m) (FileOptions_unknowns m).
Definition set_FileOptions_pyGenericServices (v : option bool) (m : FileOptions) : FileOptions :=
  mkFileOptions (FileOptions_javaPackage m) (FileOptions_javaOuterClassname m) (FileOptions_javaMultipleFiles m) (FileOptions_javaGenerateEqualsAndHash m) (FileOptions_javaStringCheckUtf8 m) (FileOptions_optimizeFor m) (FileOptions_goPackage m) (FileOptions_ccGenericServices m) (FileOptions_javaGenericServices m) v (FileOptions_phpGenericServices m) (FileOptions_deprecated m) (FileOptions_ccEnableArenas m) (FileOptions_objcClassPrefix m) (FileOptions_csharpNamespace m) (FileOptions_swiftPrefix m) (FileOptions_phpClassPrefix m) (FileOptions_phpNamespace m) (FileOptions_phpMetadataNamespace m) (FileOptions_rubyPackage m) (FileOptions_uninterpretedOption m) (FileOptions_unknowns m).
Definition set_FileOptions_phpGenericServices (v : option bool) (m : FileOptions) : FileOptions :=
  mkFileOptions (FileOptions_javaPackage m) (FileOptions_javaOuterClassname m) (FileOptions_javaMultipleFiles m) (FileOptions_javaGenerateEqualsAndHash m) (FileOptions_javaStringCheckUtf8 m) (FileOptions_optimizeFor m) (FileOptions_goPackage m) (FileOptions_ccGenericServices m) (FileOptions_javaGenericServices m) (FileOptions_pyGenericServices m) v (FileOptions_deprecated m) (FileOptions_ccEnableArenas m) (FileOptions_objcClassPrefix m) (FileOptions_csharpNamespace m) (FileOptions_swiftPrefix m) (FileOptions_phpClassPrefix m) (FileOptions_phpNamespace m) (FileOptions_phpMetadataNamespace m) (FileOptions_rubyPackage m) (FileOptions_uninterpretedOption m) (FileOptions_unknowns m).
Definition set_FileOptions_deprecated (v : option bool) (m : FileOptions) : FileOptions :=
  mkFileOptions (FileOptions_javaPackage m) (FileOptions_javaOuterClassname m) (FileOptions_javaMultipleFiles m) (FileOptions_javaGenerateEqualsAndHash m) (FileOptions_javaStringCheckUtf8 m) (FileOptions_optimizeFor m) (FileOptions_goPackage m) (FileOptions_ccGenericServices m) (FileOptions_javaGenericServices m) (FileOptions_pyGenericServices m) (FileOptions_phpGenericServices m) v (FileOptions_ccEnableArenas m) (FileOptions_objcClassPrefix m) (FileOptions_csharpNamespace m) (FileOptions_swiftPrefix m) (FileOptions_phpClassPrefix m) (FileOptions_phpNamespace m) (FileOptions_phpMetadataNamespace m) (FileOptions_rubyPackage m) (FileOptions_uninterpretedOption m) (FileOptions_unknowns m).
Definition set_FileOptions_ccEnableArenas (v : option bool) (m : FileOptions) : FileOptions :=
  mkFileOptions (FileOptions_javaPackage m) (FileOptions_javaOuterClassname m) (FileOptions_javaMultipleFiles m) (FileOptions_javaGenerateEqualsAndHash m) (FileOptions_javaStringCheckUtf8 m) (FileOptions_optimizeFor m) (FileOptions_goPackage m) (FileOptions_ccGenericServices m) (FileOptions_javaGenericServices m) (FileOptions_pyGenericServices m) (FileOptions_phpGenericServices m) (FileOptions_deprecated m) v (FileOptions_objcClassPrefix m) (FileOptions_csharpNamespace m) (FileOptions_swiftPrefix m) (FileOptions_phpClassPrefix m) (FileOptions_phpNamespace m) (FileOptions_phpMetadataNamespace m) (FileOptions_rubyPackage m) (FileOptions_uninterpretedOption m) (FileOptions_unknowns m).
Definition set_FileOptions_objcClassPrefix (v : option string) (m : FileOptions) : FileOptions :=
  mkFileOptions (FileOptions_javaPackage m) (FileOptions_javaOuterClassname m) (FileOptions_javaMultipleFiles m) (FileOptions_javaGenerateEqualsAndHash m) (FileOptions_javaStringCheckUtf8 m) (FileOptions_optimizeFor m) (FileOptions_goPackage m) (FileOptions_ccGenericServices m) (FileOptions_javaGenericServices m) (FileOptions_pyGenericServices m) (FileOptions_phpGenericServices m) (FileOptions_deprecated m) (FileOptions_ccEnableArenas m) v (FileOptions_csharpNamespace m) (FileOptions_swiftPrefix m) (FileOptions_phpClassPrefix m) (FileOptions_phpNamespace m) (FileOptions_phpMetadataNamespace m) (FileOptions_rubyPackage m) (FileOptions_uninterpretedOption m) (FileOptions_unknowns m).
Definition set_FileOptions_csharpNamespace (v : option string) (m : FileOptions) : FileOptions :=
  mkFileOptions (FileOptions_javaPackage m) (FileOptions_javaOuterClassname m) (FileOptions_javaMultipleFiles m) (FileOptions_javaGenerateEqualsAndHash m) (FileOptions_javaStringCheckUtf8 m) (FileOptions_optimizeFor m) (FileOptions_goPackage m) (FileOptions_ccGenericServices m) (FileOptions_javaGenericServices m) (FileOptions_pyGenericServices m) (FileOptions_phpGenericServices m) (FileOptions_deprecated m) (FileOptions_ccEnableArenas m) (FileOptions_objcClassPrefix m) v (FileOptions_swiftPrefix m) (FileOptions_phpClassPrefix m) (FileOptions_phpNamespace m) (FileOptions_phpMetadataNamespace m) (FileOptions_rubyPackage m) (FileOptions_uninterpretedOption m) (FileOptions_unknowns m).
Definition set_FileOptions_swiftPrefix (v : option string) (m : FileOptions) : FileOptions :=
  mkFileOptions (FileOptions_javaPackage m) (FileOptions_javaOuterClassname m) (FileOptions_javaMultipleFiles m) (FileOptions_javaGenerateEqualsAndHash m) (FileOptions_javaStringCheckUtf8 m) (FileOptions_optimizeFor m) (FileOptions_goPackage m) (FileOptions_ccGenericServices m) (FileOptions_javaGenericServices m) (FileOptions_pyGenericServices m) (FileOptions_phpGenericServices m) (FileOptions_deprecated m) (FileOptions_ccEnableArenas m) (FileOptions_objcClassPrefix m) (FileOptions_csharpNamespace m) v (FileOptions_phpClassPrefix m) (FileOptions_phpNamespace m) (FileOptions_phpMetadataNamespace m) (FileOptions_rubyPackage m) (FileOptions_uninterpretedOption m) (FileOptions_unknowns m).
Definition set_FileOptions_phpClassPrefix (v : option string) (m : FileOptions) : FileOptions :=
  mkFileOptions (FileOptions_javaPackage m) (FileOptions_javaOuterClassname m) (FileOptions_javaMultipleFiles m) (FileOptions_javaGenerateEqualsAndHash m) (FileOptions_javaStringCheckUtf8 m) (FileOptions_optimizeFor m) (FileOptions_goPackage m) (FileOptions_ccGenericServices m) (FileOptions_javaGenericServices m) (FileOptions_pyGenericServices m) (FileOptions_phpGenericServices m) (FileOptions_deprecated m) (FileOptions_ccEnableArenas m) (FileOptions_objcClassPrefix m) (FileOptions_csharpNamespace m) (FileOptions_swiftPrefix m) v (FileOptions_phpNamespace m) (FileOptions_phpMetadataNamespace m) (FileOptions_rubyPackage m) (FileOptions_uninterpretedOption m) (FileOptions_unknowns m).
Definition set_FileOptions_phpNamespace (v : option string) (m : FileOptions) : FileOptions :=
  mkFileOptions (FileOptions_javaPackage m) (FileOptions_javaOuterClassname m) (FileOptions_javaMultipleFiles m) (FileOptions_javaGenerateEqualsAndHash m) (FileOptions_javaStringCheckUtf8 m) (FileOptions_optimizeFor m) (FileOptions_goPackage m) (FileOptions_ccGenericServices m) (FileOptions_javaGenericServices m) (FileOptions_pyGenericServices m) (FileOptions_phpGenericServices m) (FileOptions_deprecated m) (FileOptions_ccEnableArenas m) (FileOptions_objcClassPrefix m) (FileOptions_csharpNamespace m) (FileOptions_swiftPrefix m) (FileOptions_phpClassPrefix m) v (FileOptions_phpMetadataNamespace m) (FileOptions_rubyPackage m) (FileOptions_uninterpretedOption m) (FileOptions_unknowns m).
Definition set_FileOptions_phpMetadataNamespace (v : option string) (m : FileOptions) : FileOptions :=
  mkFileOptions (FileOptions_javaPackage m) (FileOptions_javaOuterClassname m) (FileOptions_javaMultipleFiles m) (FileOptions_javaGenerateEqualsAndHash m) (FileOptions_javaStringCheckUtf8 m) (FileOptions_optimizeFor m) (FileOptions_goPackage m) (FileOptions_ccGenericServices m) (FileOptions_javaGenericServices m) (FileOptions_pyGenericServices m) (FileOptions_phpGenericServices m) (FileOptions_deprecated m) (FileOptions_ccEnableArenas m) (FileOptions_objcClassPrefix m) (FileOptions_csharpNamespace m) (FileOptions_swiftPrefix m) (FileOptions_phpClassPrefix m) (FileOptions_phpNamespace m) v (FileOptions_rubyPackage m) (FileOptions_uninterpretedOption m) (FileOptions_unknowns m).
Definition set_FileOptions_rubyPackage (v : option string) (m : FileOptions) : FileOptions :=
  mkFileOptions (FileOptions_javaPackage m) (FileOptions_javaOuterClassname m) (FileOptions_javaMultipleFiles m) (FileOptions_javaGenerateEqualsAndHash m) (FileOptions_javaStringCheckUtf8 m) (FileOptions_optimizeFor m) (FileOptions_goPackage m) (FileOptions_ccGenericServices m) (FileOptions_javaGenericServices m) (FileOptions_pyGenericServices m) (FileOptions_phpGenericServices m) (FileOptions_deprecated m) (FileOptions_ccEnableArenas m) (FileOptions_objcClassPrefix m) (FileOptions_csharpNamespace m) (FileOptions_swiftPrefix m) (FileOptions_phpClassPrefix m) (FileOptions_phpNamespace m) (FileOptions_phpMetadataNamespace m) v (FileOptions_uninterpretedOption m) (FileOptions_unknowns m).
Definition set_FileOptions_uninterpretedOption (v : list UninterpretedOption) (m : FileOptions) : FileOptions :=
  mkFileOptions (FileOptions_javaPackage m) (FileOptions_javaOuterClassname m) (FileOptions_javaMultipleFiles m) (FileOptions_javaGenerateEqualsAndHash m) (FileOptions_javaStringCheckUtf8 m) (FileOptions_optimizeFor m) (FileOptions_goPackage m) (FileOptions_ccGenericServices m) (FileOptions_javaGenericServices m) (FileOptions_pyGenericServices m) (FileOptions_phpGenericServices m) (FileOptions_deprecated m) (FileOptions_ccEnableArenas m) (FileOptions_objcClassPrefix m) (FileOptions_csharpNamespace m) (FileOptions_swiftPrefix m) (FileOptions_phpClassPrefix m) (FileOptions_phpNamespace m) (FileOptions_phpMetadataNamespace m) (FileOptions_rubyPackage m) v (FileOptions_unknowns m).
Definition FileOptions_push_unknown (b : bytes) (m : FileOptions) : FileOptions :=
  mkFileOptions (FileOptions_javaPackage m) (FileOptions_javaOuterClassname m) (FileOptions_javaMultipleFiles m) (FileOptions_javaGenerateEqualsAndHash m) (FileOptions_javaStringCheckUtf8 m) (FileOptions_optimizeFor m) (FileOptions_goPackage m) (FileOptions_ccGenericServices m) (FileOptions_javaGenericServices m) (FileOptions_pyGenericServices m) (FileOptions_phpGenericServices m) (FileOptions_deprecated m) (FileOptions_ccEnableArenas m) (FileOptions_objcClassPrefix m) (FileOptions_csharpNamespace m) (FileOptions_swiftPrefix m) (FileOptions_phpClassPrefix m) (FileOptions_phpNamespace m) (FileOptions_phpMetadataNamespace m) (FileOptions_rubyPackage m) (FileOptions_uninterpretedOption m) (Some (default [] (FileOptions_unknowns m) ++ [b])).

Definition FileOptions_encode (message : FileOptions) (writer : option Writer) (_depth : option Z) : res Writer :=
  let writer := default W_create writer in
  let _depth := default 0 _depth in
  depth_check util_recursionLimit _depth (
    let writer := own (FileOptions_javaPackage message) (λ v w, W_string v (W_uint32 10 w)) writer in
    let writer := own (FileOptions_javaOuterClassname message) (λ v w, W_string v (W_uint32 66 w)) writer in
    let writer := own (FileOptions_optimizeFor message) (λ v w, W_int32 v (W_uint32 72 w)) writer in
    let writer := own (FileOptions_javaMultipleFiles message) (λ v w, W_bool v (W_uint32 80 w)) writer in
    let writer := own (FileOptions_goPackage message) (λ v w, W_string v (W_uint32 90 w)) writer in
    let writer := own (FileOptions_ccGenericServices message) (λ v w, W_bool v (W_uint32 128 w)) writer in
    let writer := own (FileOptions_javaGenericServices message) (λ v w, W_bool v (W_uint32 136 w)) writer in
    let writer := own (FileOptions_pyGenericServices message) (λ v w, W_bool v (W_uint32 144 w)) writer in
    let writer := own (FileOptions_javaGenerateEqualsAndHash message) (λ v w, W_bool v (W_uint32 160 w)) writer in
    let writer := own (FileOptions_deprecated message) (λ v w, W_bool v (W_uint32 184 w)) writer in
    let writer := own (FileOptions_javaStringCheckUtf8 message) (λ v w, W_bool v (W_uint32 216 w)) writer in
    let writer := own (FileOptions_ccEnableArenas message) (λ v w, W_bool v (W_uint32 248 w)) writer in
    let writer := own (FileOptions_objcClassPrefix message) (λ v w, W_string v (W_uint32 290 w)) writer in
    let writer := own (FileOptions_csharpNamespace message) (λ v w, W_string v (W_uint32 298 w)) writer in
    let writer := own (FileOptions_swiftPrefix message) (λ v w, W_string v (W_uint32 314 w)) writer in
    let writer := own (FileOptions_phpClassPrefix message) (λ v w, W_string v (W_uint32 322 w)) writer in
    let writer := own (FileOptions_phpNamespace message) (λ v w, W_string v (W_uint32 330 w)) writer in
    let writer := own (FileOptions_phpGenericServices message) (λ v w, W_bool v (W_uint32 336 w)) writer in
    let writer := own (FileOptions_phpMetadataNamespace message) (λ v w, W_string v (W_uint32 354 w)) writer in
    let writer := own (FileOptions_rubyPackage message) (λ v w, W_string v (W_uint32 362 w)) writer in
    let! writer := nested_all 7994 UninterpretedOption_encode _depth (FileOptions_uninterpretedOption message) writer in
    Ok (put_unknowns (FileOptions_unknowns message) writer)).

Definition FileOptions_encodeDelimited (message : FileOptions) (writer : option Writer) : res Writer :=
  delimited FileOptions_encode message writer.

Definition FileOptions_switch (_depth field wireType : Z) (message : FileOptions) (reader : Reader)
    : option (res (FileOptions * Reader)) :=
  match field with
  | 1 => when_wire wireType 2 (dec_set R_string set_FileOptions_javaPackage message reader)
  | 8 => when_wire wireType 2 (dec_set R_string set_FileOptions_javaOuterClassname message reader)
  | 10 => when_wire wireType 0 (dec_set R_bool set_FileOptions_javaMultipleFiles message reader)
  | 20 => when_wire wireType 0 (dec_set R_bool set_FileOptions_javaGenerateEqualsAndHash message reader)
  | 27 => when_wire wireType 0 (dec_set R_bool set_FileOptions_javaStringCheckUtf8 message reader)
  | 9 => when_wire wireType 0 (dec_set R_int32 set_FileOptions_optimizeFor message reader)
  | 11 => when_wire wireType 2 (dec_set R_string set_FileOptions_goPackage message reader)
  | 16 => when_wire wireType 0 (dec_set R_bool set_FileOptions_ccGenericServices message reader)
  | 17 => when_wire wireType 0 (dec_set R_bool set_FileOptions_javaGenericServices message reader)
  | 18 => when_wire wireType 0 (dec_set R_bool set_FileOptions_pyGenericServices message reader)
  | 42 => when_wire wireType 0 (dec_set R_bool set_FileOptions_phpGenericServices message reader)
  | 23 => when_wire wireType 0 (dec_set R_bool set_FileOptions_deprecated message reader)
  | 31 => when_wire wireType 0 (dec_set R_bool set_FileOptions_ccEnableArenas message reader)
  | 36 => when_wire wireType 2 (dec_set R_string set_FileOptions_objcClassPrefix message reader)
  | 37 => when_wire wireType 2 (dec_set R_string set_FileOptions_csharpNamespace message reader)
  | 39 => when_wire wireType 2 (dec_set R_string set_FileOptions_swiftPrefix message reader)
  | 40 => when_wire wireType 2 (dec_set R_string set_FileOptions_phpClassPrefix message reader)
  | 41 => when_wire wireType 2 (dec_set R_string set_FileOptions_phpNamespace message reader)
  | 44 => when_wire wireType 2 (dec_set R_string set_FileOptions_phpMetadataNamespace message reader)
  | 45 => when_wire wireType 2 (dec_set R_string set_FileOptions_rubyPackage message reader)
  | 999 => when_wire wireType 2 (dec_push UninterpretedOption_decode _depth FileOptions_uninterpretedOption set_FileOptions_uninterpretedOption message reader)
  | _ => None
  end.

Definition FileOptions_decode : decoder FileOptions := λ reader length _end _depth _target,
  let _depth := default 0 _depth in
  decode_with (FileOptions_switch _depth) FileOptions_push_unknown _depth FileOptions_new reader length _end _target.

Definition FileOptions_decodeDelimited (reader : Reader) : res (FileOptions * Reader) :=
  decode_delimited FileOptions_decode reader.

Definition FileOptions_getTypeUrl (prefix : option string) : string :=
  default "type.googleapis.com"%string prefix +:+ "/google.protobuf.FileOptions".

(** ** [MessageOptions] *)

Record MessageOptions := mkMessageOptions {
  MessageOptions_messageSetWireFormat : option bool;
  MessageOptions_noStandardDescriptorAccessor : option bool;
  MessageOptions_deprecated : option bool;
  MessageOptions_mapEntry : option bool;
  MessageOptions_uninterpretedOption : list UninterpretedOption;
  MessageOptions_unknowns : option (list bytes);
}.

Definition MessageOptions_new : MessageOptions :=
  mkMessageOptions None None None None [] None.

Definition set_MessageOptions_messageSetWireFormat (v : option bool) (m : MessageOptions) : MessageOptions :=
  mkMessageOptions v (MessageOptions_noStandardDescriptorAccessor m) (MessageOptions_deprecated m) (MessageOptions_mapEntry m) (MessageOptions_uninterpretedOption m) (MessageOptions_unknowns m).
Definition set_MessageOptions_noStandardDescriptorAccessor (v : option bool) (m : MessageOptions) : MessageOptions :=
  mkMessageOptions (MessageOptions_messageSetWireFormat m) v (MessageOptions_deprecated m) (MessageOptions_mapEntry m) (MessageOptions_uninterpretedOption m) (MessageOptions_unknowns m).
Definition set_MessageOptions_deprecated (v : option bool) (m : MessageOptions) : MessageOptions :=
  mkMessageOptions (MessageOptions_messageSetWireFormat m) (MessageOptions_noStandardDescriptorAccessor m) v (MessageOptions_mapEntry m) (MessageOptions_uninterpretedOption m) (MessageOptions_unknowns m).
Definition set_MessageOptions_mapEntry (v : option bool) (m : MessageOptions) : MessageOptions :=
  mkMessageOptions (MessageOptions_messageSetWireFormat m) (MessageOptions_noStandardDescriptorAccessor m) (MessageOptions_deprecated m) v (MessageOptions_uninterpretedOption m) (MessageOptions_unknowns m).
Definition set_MessageOptions_uninterpretedOption (v : list UninterpretedOption) (m : MessageOptions) : MessageOptions :=
  mkMessageOptions (MessageOptions_messageSetWireFormat m) (MessageOptions_noStandardDescriptorAccessor m) (MessageOptions_deprecated m) (MessageOptions_mapEntry m) v (MessageOptions_unknowns m).
Definition MessageOptions_push_unknown (b : bytes) (m : MessageOptions) : MessageOptions :=
  mkMessageOptions (MessageOptions_messageSetWireFormat m) (MessageOptions_noStandardDescriptorAccessor m) (MessageOptions_deprecated m) (MessageOptions_mapEntry m) (MessageOptions_uninterpretedOption m) (Some (default [] (MessageOptions_unknowns m) ++ [b])).

Definition MessageOptions_encode (message : MessageOptions) (writer : option Writer) (_depth : option Z) : res Writer :=
  let writer := default W_create writer in
  let _depth := default 0 _depth in
  depth_check util_recursionLimit _depth (
    let writer := own (MessageOptions_messageSetWireFormat message) (λ v w, W_bool v (W_uint32 8 w)) writer in
    let writer := own (MessageOptions_noStandardDescriptorAccessor message) (λ v w, W_bool v (W_uint32 16 w)) writer in
    let writer := own (MessageOptions_deprecated message) (λ v w, W_bool v (W_uint32 24 w)) writer in
    let writer := own (MessageOptions_mapEntry message) (λ v w, W_bool v (W_uint32 56 w)) writer in
    let! writer := nested_all 7994 UninterpretedOption_encode _depth (MessageOptions_uninterpretedOption message) writer in
    Ok (put_unknowns (MessageOptions_unknowns message) writer)).

Definition MessageOptions_encodeDelimited (message : MessageOptions) (writer : option Writer) : res Writer :=
  delimited MessageOptions_encode message writer.

Definition MessageOptions_switch (_depth field wireType : Z) (message : MessageOptions) (reader : Reader)
    : option (res (MessageOptions * Reader)) :=
  match field with
  | 1 => when_wire wireType 0 (dec_set R_bool set_MessageOptions_messageSetWireFormat message reader)
  | 2 => when_wire wireType 0 (dec_set R_bool set_MessageOptions_noStandardDescriptorAccessor message reader)
  | 3 => when_wire wireType 0 (dec_set R_bool set_MessageOptions_deprecated message reader)
  | 7 => when_wire wireType 0 (dec_set R_bool set_MessageOptions_mapEntry message reader)
  | 999 => when_wire wireType 2 (dec_push UninterpretedOption_decode _depth MessageOptions_uninterpretedOption set_MessageOptions_uninterpretedOption message reader)
  | _ => None
  end.

Definition MessageOptions_decode : decoder MessageOptions := λ reader length _end _depth _target,
  let _depth := default 0 _depth in
  decode_with (MessageOptions_switch _depth) MessageOptions_push_unknown _depth MessageOptions_new reader length _end _target.

Definition MessageOptions_decodeDelimited (reader : Reader) : res (MessageOptions * Reader) :=
  decode_delimited MessageOptions_decode reader.

Definition MessageOptions_getTypeUrl (prefix : option string) : string :=
  default "type.googleapis.com"%string prefix +:+ "/google.protobuf.MessageOptions".

(** ** [FieldOptions] *)

Record FieldOptions := mkFieldOptions {
  FieldOptions_ctype : option Z;
  FieldOptions_packed : option bool;
  FieldOptions_jstype : option Z;
  FieldOptions_lazy : option bool;
  FieldOptions_unverifiedLazy : option bool;
  FieldOptions_deprecated : option bool;
  FieldOptions_weak : option bool;
  FieldOptions_uninterpretedOption : list UninterpretedOption;
  FieldOptions_unknowns : option (list bytes);
}.

Definition FieldOptions_new : FieldOptions :=
  mkFieldOptions None None None None None None None [] None.

Definition set_FieldOptions_ctype (v : option Z) (m : FieldOptions) : FieldOptions :=
  mkFieldOptions v (FieldOptions_packed m) (FieldOptions_jstype m) (FieldOptions_lazy m) (FieldOptions_unverifiedLazy m) (FieldOptions_deprecated m) (FieldOptions_weak m) (FieldOptions_uninterpretedOption m) (FieldOptions_unknowns m).
Definition set_FieldOptions_packed (v : option bool) (m : FieldOptions) : FieldOptions :=
  mkFieldOptions (FieldOptions_ctype m) v (FieldOptions_jstype m) (FieldOptions_lazy m) (FieldOptions_unverifiedLazy m) (FieldOptions_deprecated m) (FieldOptions_weak m) (FieldOptions_uninterpretedOption m) (FieldOptions_unknowns m).
Definition set_FieldOptions_jstype (v : option Z) (m : FieldOptions) : FieldOptions :=
  mkFieldOptions (FieldOptions_ctype m) (FieldOptions_packed m) v (FieldOptions_lazy m) (FieldOptions_unverifiedLazy m) (FieldOptions_deprecated m) (FieldOptions_weak m) (FieldOptions_uninterpretedOption m) (FieldOptions_unknowns m).
Definition set_FieldOptions_lazy (v : option bool) (m : FieldOptions) : FieldOptions :=
  mkFieldOptions (FieldOptions_ctype m) (FieldOptions_packed m) (FieldOptions_jstype m) v (FieldOptions_unverifiedLazy m) (FieldOptions_deprecated m) (FieldOptions_weak m) (FieldOptions_uninterpretedOption m) (FieldOptions_unknowns m).
Definition set_FieldOptions_unverifiedLazy (v : option bool) (m : FieldOptions) : FieldOptions :=
  mkFieldOptions (FieldOptions_ctype m) (FieldOptions_packed m) (FieldOptions_jstype m) (FieldOptions_lazy m) v (FieldOptions_deprecated m) (FieldOptions_weak m) (FieldOptions_uninterpretedOption m) (FieldOptions_unknowns m).
Definition set_FieldOptions_deprecated (v : option bool) (m : FieldOptions) : FieldOptions :=
  mkFieldOptions (FieldOptions_ctype m) (FieldOptions_packed m) (FieldOptions_jstype m) (FieldOptions_lazy m) (FieldOptions_unverifiedLazy m) v (FieldOptions_weak m) (FieldOptions_uninterpretedOption m) (FieldOptions_unknowns m).
Definition set_FieldOptions_weak (v : option bool) (m : FieldOptions) : FieldOptions :=
  mkFieldOptions (FieldOptions_ctype m) (FieldOptions_packed m) (FieldOptions_jstype m) (FieldOptions_lazy m) (FieldOptions_unverifiedLazy m) (FieldOptions_deprecated m) v (FieldOptions_uninterpretedOption m) (FieldOptions_unknowns m).
Definition set_FieldOptions_uninterpretedOption (v : list UninterpretedOption) (m : FieldOptions) : FieldOptions :=
  mkFieldOptions (FieldOptions_ctype m) (FieldOptions_packed m) (FieldOptions_jstype m) (FieldOptions_lazy m) (FieldOptions_unverifiedLazy m) (FieldOptions_deprecated m) (FieldOptions_weak m) v (FieldOptions_unknowns m).
Definition FieldOptions_push_unknown (b : bytes) (m : FieldOptions) : FieldOptions :=
  mkFieldOptions (FieldOptions_ctype m) (FieldOptions_packed m) (FieldOptions_jstype m) (FieldOptions_lazy m) (FieldOptions_unverifiedLazy m) (FieldOptions_deprecated m) (FieldOptions_weak m) (FieldOptions_uninterpretedOption m) (Some (default [] (FieldOptions_unknowns m) ++ [b])).

Definition FieldOptions_encode (message : FieldOptions) (writer : option Writer) (_depth : option Z) : res Writer :=
  let writer := default W_create writer in
  let _depth := default 0 _depth in
  depth_check util_recursionLimit _depth (
    let writer := own (FieldOptions_ctype message) (λ v w, W_int32 v (W_uint32 8 w)) writer in
    let writer := own (FieldOptions_packed message) (λ v w, W_bool v (W_uint32 16 w)) writer in
    let writer := own (FieldOptions_deprecated message) (λ v w, W_bool v (W_uint32 24 w)) writer in
    let writer := own (FieldOptions_lazy message) (λ v w, W_bool v (W_uint32 40 w)) writer in
    let writer := own (FieldOptions_jstype message) (λ v w, W_int32 v (W_uint32 48 w)) writer in
    let writer := own (FieldOptions_weak message) (λ v w, W_bool v (W_uint32 80 w)) writer in
    let writer := own (FieldOptions_unverifiedLazy message) (λ v w, W_bool v (W_uint32 120 w)) writer in
    let! writer := nested_all 7994 UninterpretedOption_encode _depth (FieldOptions_uninterpretedOption message) writer in
    Ok (put_unknowns (FieldOptions_unknowns message) writer)).

Definition FieldOptions_encodeDelimited (message : FieldOptions) (writer : option Writer) : res Writer :=
  delimited FieldOptions_encode message writer.

Definition FieldOptions_switch (_depth field wireType : Z) (message : FieldOptions) (reader : Reader)
    : option (res (FieldOptions * Reader)) :=
  match field with
  | 1 => when_wire wireType 0 (dec_set R_int32 set_FieldOptions_ctype message reader)
  | 2 => when_wire wireType 0 (dec_set R_bool set_FieldOptions_packed message reader)
  | 6 => when_wire wireType 0 (dec_set R_int32 set_FieldOptions_jstype message reader)
  | 5 => when_wire wireType 0 (dec_set R_bool set_FieldOptions_lazy message reader)
  | 15 => when_wire wireType 0 (dec_set R_bool set_FieldOptions_unverifiedLazy message reader)
  | 3 => when_wire wireType 0 (dec_set R_bool set_FieldOptions_deprecated message reader)
  | 10 => when_wire wireType 0 (dec_set R_bool set_FieldOptions_weak message reader)
  | 999 => when_wire wireType 2 (dec_push UninterpretedOption_decode _depth FieldOptions_uninterpretedOption set_FieldOptions_uninterpretedOption message reader)
  | _ => None
  end.

Definition FieldOptions_decode : decoder FieldOptions := λ reader length _end _depth _target,
  let _depth := default 0 _depth in
  decode_with (FieldOptions_switch _depth) FieldOptions_push_unknown _depth FieldOptions_new reader length _end _target.

Definition FieldOptions_decodeDelimited (reader : Reader) : res (FieldOptions * Reader) :=
  decode_delimited FieldOptions_decode reader.

Definition FieldOptions_getTypeUrl (prefix : option string) : string :=
  default "type.googleapis.com"%string prefix +:+ "/google.protobuf.FieldOptions".

(** ** [OneofOptions] *)

Record OneofOptions := mkOneofOptions {
  OneofOptions_uninterpretedOption : list UninterpretedOption;
  OneofOptions_unknowns : option (list bytes);
}.

Definition OneofOptions_new : OneofOptions :=
  mkOneofOptions [] None.

Definition set_OneofOptions_uninterpretedOption (v : list UninterpretedOption) (m : OneofOptions) : OneofOptions :=
  mkOneofOptions v (OneofOptions_unknowns m).
Definition OneofOptions_push_unknown (b : bytes) (m : OneofOptions) : OneofOptions :=
  mkOneofOptions (OneofOptions_uninterpretedOption m) (Some (default [] (OneofOptions_unknowns m) ++ [b])).

Definition OneofOptions_encode (message : OneofOptions) (writer : option Writer) (_depth : option Z) : res Writer :=
  let writer := default W_create writer in
  let _depth := default 0 _depth in
  depth_check util_recursionLimit _depth (
    let! writer := nested_all 7994 UninterpretedOption_encode _depth (OneofOptions_uninterpretedOption message) writer in
    Ok (put_unknowns (OneofOptions_unknowns message) writer)).

Definition OneofOptions_encodeDelimited (message : OneofOptions) (writer : option Writer) : res Writer :=
  delimited OneofOptions_encode message writer.

Definition OneofOptions_switch (_depth field wireType : Z) (message : OneofOptions) (reader : Reader)
    : option (res (OneofOptions * Reader)) :=
  match field with
  | 999 => when_wire wireType 2 (dec_push UninterpretedOption_decode _depth OneofOptions_uninterpretedOption set_OneofOptions_uninterpretedOption message reader)
  | _ => None
  end.

Definition OneofOptions_decode : decoder OneofOptions := λ reader length _end _depth _target,
  let _depth := default 0 _depth in
  decode_with (OneofOptions_switch _depth) OneofOptions_push_unknown _depth OneofOptions_new reader length _end _target.

Definition OneofOptions_decodeDelimited (reader : Reader) : res (OneofOptions * Reader) :=
  decode_delimited OneofOptions_decode reader.

Definition OneofOptions_getTypeUrl (prefix : option string) : string :=
  default "type.googleapis.com"%string prefix +:+ "/google.protobuf.OneofOptions".

(** ** [EnumOptions] *)

Record EnumOptions := mkEnumOptions {
  EnumOptions_allowAlias : option bool;
  EnumOptions_deprecated : option bool;
  EnumOptions_uninterpretedOption : list UninterpretedOption;
  EnumOptions_unknowns : option (list bytes);
}.

Definition EnumOptions_new : EnumOptions :=
  mkEnumOptions None None [] None.

Definition set_EnumOptions_allowAlias (v : option bool) (m : EnumOptions) : EnumOptions :=
  mkEnumOptions v (EnumOptions_deprecated m) (EnumOptions_uninterpretedOption m) (EnumOptions_unknowns m).
Definition set_EnumOptions_deprecated (v : option bool) (m : EnumOptions) : EnumOptions :=
  mkEnumOptions (EnumOptions_allowAlias m) v (EnumOptions_uninterpretedOption m) (EnumOptions_unknowns m).
Definition set_EnumOptions_uninterpretedOption (v : list UninterpretedOption) (m : EnumOptions) : EnumOptions :=
  mkEnumOptions (EnumOptions_allowAlias m) (EnumOptions_deprecated m) v (EnumOptions_unknowns m).
Definition EnumOptions_push_unknown (b : bytes) (m : EnumOptions) : EnumOptions :=
  mkEnumOptions (EnumOptions_allowAlias m) (EnumOptions_deprecated m) (EnumOptions_uninterpretedOption m) (Some (default [] (EnumOptions_unknowns m) ++ [b])).

Definition EnumOptions_encode (message : EnumOptions) (writer : option Writer) (_depth : option Z) : res Writer :=
  let writer := default W_create writer in
  let _depth := default 0 _depth in
  depth_check util_recursionLimit _depth (
    let writer := own (EnumOptions_allowAlias message) (λ v w, W_bool v (W_uint32 16 w)) writer in
    let writer := own (EnumOptions_deprecated message) (λ v w, W_bool v (W_uint32 24 w)) writer in
    let! writer := nested_all 7994 UninterpretedOption_encode _depth (EnumOptions_uninterpretedOption message) writer in
    Ok (put_unknowns (EnumOptions_unknowns message) writer)).

Definition EnumOptions_encodeDelimited (message : EnumOptions) (writer : option Writer) : res Writer :=
  delimited EnumOptions_encode message writer.

Definition EnumOptions_switch (_depth field wireType : Z) (message : EnumOptions) (reader : Reader)
    : option (res (EnumOptions * Reader)) :=
  match field with
  | 2 => when_wire wireType 0 (dec_set R_bool set_EnumOptions_allowAlias message reader)
  | 3 => when_wire wireType 0 (dec_set R_bool set_EnumOptions_deprecated message reader)
  | 999 => when_wire wireType 2 (dec_push UninterpretedOption_decode _depth EnumOptions_uninterpretedOption set_EnumOptions_uninterpretedOption message reader)
  | _ => None
  end.

Definition EnumOptions_decode : decoder EnumOptions := λ reader length _end _depth _target,
  let _depth := default 0 _depth in
  decode_with (EnumOptions_switch _depth) EnumOptions_push_unknown _depth EnumOptions_new reader length _end _target.

Definition EnumOptions_decodeDelimited (reader : Reader) : res (EnumOptions * Reader) :=
  decode_delimited EnumOptions_decode reader.

Definition EnumOptions_getTypeUrl (prefix : option string) : string :=
  default "type.googleapis.com"%string prefix +:+ "/google.protobuf.EnumOptions".

(** ** [EnumValueOptions] *)

Record EnumValueOptions := mkEnumValueOptions {
  EnumValueOptions_deprecated : option bool;
  EnumValueOptions_uninterpretedOption : list UninterpretedOption;
  EnumValueOptions_unknowns : option (list bytes);
}.

Definition EnumValueOptions_new : EnumValueOptions :=
  mkEnumValueOptions None [] None.

Definition set_EnumValueOptions_deprecated (v : option bool) (m : EnumValueOptions) : EnumValueOptions :=
  mkEnumValueOptions v (EnumValueOptions_uninterpretedOption m) (EnumValueOptions_unknowns m).
Definition set_EnumValueOptions_uninterpretedOption (v : list UninterpretedOption) (m : EnumValueOptions) : EnumValueOptions :=
  mkEnumValueOptions (EnumValueOptions_deprecated m) v (EnumValueOptions_unknowns m).
Definition EnumValueOptions_push_unknown (b : bytes) (m : EnumValueOptions) : EnumValueOptions :=
  mkEnumValueOptions (EnumValueOptions_deprecated m) (EnumValueOptions_uninterpretedOption m) (Some (default [] (EnumValueOptions_unknowns m) ++ [b])).

Definition EnumValueOptions_encode (message : EnumValueOptions) (writer : option Writer) (_depth : option Z) : res Writer :=
  let writer := default W_create writer in
  let _depth := default 0 _depth in
  depth_check util_recursionLimit _depth (
    let writer := own (EnumValueOptions_deprecated message) (λ v w, W_bool v (W_uint32 8 w)) writer in
    let! writer := nested_all 7994 UninterpretedOption_encode _depth (EnumValueOptions_uninterpretedOption message) writer in
    Ok (put_unknowns (EnumValueOptions_unknowns message) writer)).

Definition EnumValueOptions_encodeDelimited (message : EnumValueOptions) (writer : option Writer) : res Writer :=
  delimited EnumValueOptions_encode message writer.

Definition EnumValueOptions_switch (_depth field wireType : Z) (message : EnumValueOptions) (reader : Reader)
    : option (res (EnumValueOptions * Reader)) :=
  match field with
  | 1 => when_wire wireType 0 (dec_set R_bool set_EnumValueOptions_deprecated message reader)
  | 999 => when_wire wireType 2 (dec_push UninterpretedOption_decode _depth EnumValueOptions_uninterpretedOption set_EnumValueOptions_uninterpretedOption message reader)
  | _ => None
  end.

Definition EnumValueOptions_decode : decoder EnumValueOptions := λ reader length _end _depth _target,
  let _depth := default 0 _depth in
  decode_with (EnumValueOptions_switch _depth) EnumValueOptions_push_unknown _depth EnumValueOptions_new reader length _end _target.

Definition EnumValueOptions_decodeDelimited (reader : Reader) : res (EnumValueOptions * Reader) :=
  decode_delimited EnumValueOptions_decode reader.

Definition EnumValueOptions_getTypeUrl (prefix : option string) : string :=
  default "type.googleapis.com"%string prefix +:+ "/google.protobuf.EnumValueOptions".

(** ** [ServiceOptions] *)

Record ServiceOptions := mkServiceOptions {
  ServiceOptions_deprecated : option bool;
  ServiceOptions_uninterpretedOption : list UninterpretedOption;
  ServiceOptions_unknowns : option (list bytes);
}.

Definition ServiceOptions_new : ServiceOptions :=
  mkServiceOptions None [] None.

Definition set_ServiceOptions_deprecated (v : option bool) (m : ServiceOptions) : ServiceOptions :=
  mkServiceOptions v (ServiceOptions_uninterpretedOption m) (ServiceOptions_unknowns m).
Definition set_ServiceOptions_uninterpretedOption (v : list UninterpretedOption) (m : ServiceOptions) : ServiceOptions :=
  mkServiceOptions (ServiceOptions_deprecated m) v (ServiceOptions_unknowns m).
Definition ServiceOptions_push_unknown (b : bytes) (m : ServiceOptions) : ServiceOptions :=
  mkServiceOptions (ServiceOptions_deprecated m) (ServiceOptions_uninterpretedOption m) (Some (default [] (ServiceOptions_unknowns m) ++ [b])).

Definition ServiceOptions_encode (message : ServiceOptions) (writer : option Writer) (_depth : option Z) : res Writer :=
  let writer := default W_create writer in
  let _depth := default 0 _depth in
  depth_check util_recursionLimit _depth (
    let writer := own (ServiceOptions_deprecated message) (λ v w, W_bool v (W_uint32 264 w)) writer in
    let! writer := nested_all 7994 UninterpretedOption_encode _depth (ServiceOptions_uninterpretedOption message) writer in
    Ok (put_unknowns (ServiceOptions_unknowns message) writer)).

Definition ServiceOptions_encodeDelimited (message : ServiceOptions) (writer : option Writer) : res Writer :=
  delimited ServiceOptions_encode message writer.

Definition ServiceOptions_switch (_depth field wireType : Z) (message : ServiceOptions) (reader : Reader)
    : option (res (ServiceOptions * Reader)) :=
  match field with
  | 33 => when_wire wireType 0 (dec_set R_bool set_ServiceOptions_deprecated message reader)
  | 999 => when_wire wireType 2 (dec_push UninterpretedOption_decode _depth ServiceOptions_uninterpretedOption set_ServiceOptions_uninterpretedOption message reader)
  | _ => None
  end.

Definition ServiceOptions_decode : decoder ServiceOptions := λ reader length _end _depth _target,
  let _depth := default 0 _depth in
  decode_with (ServiceOptions_switch _depth) ServiceOptions_push_unknown _depth ServiceOptions_new reader length _end _target.

Definition ServiceOptions_decodeDelimited (reader : Reader) : res (ServiceOptions * Reader) :=
  decode_delimited ServiceOptions_decode reader.

Definition ServiceOptions_getTypeUrl (prefix : option string) : string :=
  default "type.googleapis.com"%string prefix +:+ "/google.protobuf.ServiceOptions".

(** ** [MethodOptions] *)

Record MethodOptions := mkMethodOptions {
  MethodOptions_deprecated : option bool;
  MethodOptions_idempotencyLevel : option Z;
  MethodOptions_uninterpretedOption : list UninterpretedOption;
  MethodOptions_google_api_http : option HttpRule;
  MethodOptions_unknowns : option (list bytes);
}.

Definition MethodOptions_new : MethodOptions :=
  mkMethodOptions None None [] None None.

Definition set_MethodOptions_deprecated (v : option bool) (m : MethodOptions) : MethodOptions :=
  mkMethodOptions v (MethodOptions_idempotencyLevel m) (MethodOptions_uninterpretedOption m) (MethodOptions_google_api_http m) (MethodOptions_unknowns m).
Definition set_MethodOptions_idempotencyLevel (v : option Z) (m : MethodOptions) : MethodOptions :=
  mkMethodOptions (MethodOptions_deprecated m) v (MethodOptions_uninterpretedOption m) (MethodOptions_google_api_http m) (MethodOptions_unknowns m).
Definition set_MethodOptions_uninterpretedOption (v : list UninterpretedOption) (m : MethodOptions) : MethodOptions :=
  mkMethodOptions (MethodOptions_deprecated m) (MethodOptions_idempotencyLevel m) v (MethodOptions_google_api_http m) (MethodOptions_unknowns m).
Definition set_MethodOptions_google_api_http (v : option HttpRule) (m : MethodOptions) : MethodOptions :=
  mkMethodOptions (MethodOptions_deprecated m) (MethodOptions_idempotencyLevel m) (MethodOptions_uninterpretedOption m) v (MethodOptions_unknowns m).
Definition MethodOptions_push_unknown (b : bytes) (m : MethodOptions) : MethodOptions :=
  mkMethodOptions (MethodOptions_deprecated m) (MethodOptions_idempotencyLevel m) (MethodOptions_uninterpretedOption m) (MethodOptions_google_api_http m) (Some (default [] (MethodOptions_unknowns m) ++ [b])).

Definition MethodOptions_encode (message : MethodOptions) (writer : option Writer) (_depth : option Z) : res Writer :=
  let writer := default W_create writer in
  let _depth := default 0 _depth in
  depth_check util_recursionLimit _depth (
    let writer := own (MethodOptions_deprecated message) (λ v w, W_bool v (W_uint32 264 w)) writer in
    let writer := own (MethodOptions_idempotencyLevel message) (λ v w, W_int32 v (W_uint32 272 w)) writer in
    let! writer := nested_all 7994 UninterpretedOption_encode _depth (MethodOptions_uninterpretedOption message) writer in
    let! writer := own_msg (MethodOptions_google_api_http message) (nested 578365826 HttpRule_encode _depth) writer in
    Ok (put_unknowns (MethodOptions_unknowns message) writer)).

Definition MethodOptions_encodeDelimited (message : MethodOptions) (writer : option Writer) : res Writer :=
  delimited MethodOptions_encode message writer.

Definition MethodOptions_switch (_depth field wireType : Z) (message : MethodOptions) (reader : Reader)
    : option (res (MethodOptions * Reader)) :=
  match field with
  | 33 => when_wire wireType 0 (dec_set R_bool set_MethodOptions_deprecated message reader)
  | 34 => when_wire wireType 0 (dec_set R_int32 set_MethodOptions_idempotencyLevel message reader)
  | 999 => when_wire wireType 2 (dec_push UninterpretedOption_decode _depth MethodOptions_uninterpretedOption set_MethodOptions_uninterpretedOption message reader)
  | 72295728 => when_wire wireType 2 (dec_msg HttpRule_decode _depth MethodOptions_google_api_http (λ v, set_MethodOptions_google_api_http (Some v)) message reader)
  | _ => None
  end.

Definition MethodOptions_decode : decoder MethodOptions := λ reader length _end _depth _target,
  let _depth := default 0 _depth in
  decode_with (MethodOptions_switch _depth) MethodOptions_push_unknown _depth MethodOptions_new reader length _end _target.

Definition MethodOptions_decodeDelimited (reader : Reader) : res (MethodOptions * Reader) :=
  decode_delimited MethodOptions_decode reader.

Definition MethodOptions_getTypeUrl (prefix : option string) : string :=
  default "type.googleapis.com"%string prefix +:+ "/google.protobuf.MethodOptions".

End Messages.
