(* ===== verification/DescProtos.v ===== *)
(** * The descriptor classes ([web/app/lib/proto/im.js])

    The descriptors of [google/protobuf/descriptor.proto], from the ranges
    of an enumeration to a set of files; a message descriptor contains
    message descriptors.  Per class the record of its fields, [encode],
    [decode], their delimited forms and [getTypeUrl], with the conventions
    of [ProtoMessages]. *)

From S2P Require Import Prelude JsNum ProtoRuntime DescHttp DescOptions.
Open Scope Z_scope.

Section Messages.
Context {RT : Runtime}.

(** ** [ExtensionRange] *)

Record ExtensionRange := mkExtensionRange {
  ExtensionRange_start : option Z;
  ExtensionRange_end : option Z;
  ExtensionRange_options : option ExtensionRangeOptions;
  ExtensionRange_unknowns : option (list bytes);
}.

Definition ExtensionRange_new : ExtensionRange :=
  mkExtensionRange None None None None.

Definition set_ExtensionRange_start (v : option Z) (m : ExtensionRange) : ExtensionRange :=
  mkExtensionRange v (ExtensionRange_end m) (ExtensionRange_options m) (ExtensionRange_unknowns m).
Definition set_ExtensionRange_end (v : option Z) (m : ExtensionRange) : ExtensionRange :=
  mkExtensionRange (ExtensionRange_start m) v (ExtensionRange_options m) (ExtensionRange_unknowns m).
Definition set_ExtensionRange_options (v : option ExtensionRangeOptions) (m : ExtensionRange) : ExtensionRange :=
  mkExtensionRange (ExtensionRange_start m) (ExtensionRange_end m) v (ExtensionRange_unknowns m).
Definition ExtensionRange_push_unknown (b : bytes) (m : ExtensionRange) : ExtensionRange :=
  mkExtensionRange (ExtensionRange_start m) (ExtensionRange_end m) (ExtensionRange_options m) (Some (default [] (ExtensionRange_unknowns m) ++ [b])).

Definition ExtensionRange_encode (message : ExtensionRange) (writer : option Writer) (_depth : option Z) : res Writer :=
  let writer := default W_create writer in
  let _depth := default 0 _depth in
  depth_check util_recursionLimit _depth (
    let writer := own (ExtensionRange_start message) (λ v w, W_int32 v (W_uint32 8 w)) writer in
    let writer := own (ExtensionRange_end message) (λ v w, W_int32 v (W_uint32 16 w)) writer in
    let! writer := own_msg (ExtensionRange_options message) (nested 26 ExtensionRangeOptions_encode _depth) writer in
    Ok (put_unknowns (ExtensionRange_unknowns message) writer)).

Definition ExtensionRange_encodeDelimited (message : ExtensionRange) (writer : option Writer) : res Writer :=
  delimited ExtensionRange_encode message writer.

Definition ExtensionRange_switch (_depth field wireType : Z) (message : ExtensionRange) (reader : Reader)
    : option (res (ExtensionRange * Reader)) :=
  match field with
  | 1 => when_wire wireType 0 (dec_set R_int32 set_ExtensionRange_start message reader)
  | 2 => when_wire wireType 0 (dec_set R_int32 set_ExtensionRange_end message reader)
  | 3 => when_wire wireType 2 (dec_msg ExtensionRangeOptions_decode _depth ExtensionRange_options (λ v, set_ExtensionRange_options (Some v)) message reader)
  | _ => None
  end.

Definition ExtensionRange_decode : decoder ExtensionRange := λ reader length _end _depth _target,
  let _depth := default 0 _depth in
  decode_with (ExtensionRange_switch _depth) ExtensionRange_push_unknown _depth ExtensionRange_new reader length _end _target.

Definition ExtensionRange_decodeDelimited (reader : Reader) : res (ExtensionRange * Reader) :=
  decode_delimited ExtensionRange_decode reader.

Definition ExtensionRange_getTypeUrl (prefix : option string) : string :=
  default "type.googleapis.com"%string prefix +:+ "/google.protobuf.DescriptorProto.ExtensionRange".

(** ** [ReservedRange] *)

Record ReservedRange := mkReservedRange {
  ReservedRange_start : option Z;
  ReservedRange_end : option Z;
  ReservedRange_unknowns : option (list bytes);
}.

Definition ReservedRange_new : ReservedRange :=
  mkReservedRange None None None.

Definition set_ReservedRange_start (v : option Z) (m : ReservedRange) : ReservedRange :=
  mkReservedRange v (ReservedRange_end m) (ReservedRange_unknowns m).
Definition set_ReservedRange_end (v : option Z) (m : ReservedRange) : ReservedRange :=
  mkReservedRange (ReservedRange_start m) v (ReservedRange_unknowns m).
Definition ReservedRange_push_unknown (b : bytes) (m : ReservedRange) : ReservedRange :=
  mkReservedRange (ReservedRange_start m) (ReservedRange_end m) (Some (default [] (ReservedRange_unknowns m) ++ [b])).

Definition ReservedRange_encode (message : ReservedRange) (writer : option Writer) (_depth : option Z) : res Writer :=
  let writer := default W_create writer in
  let _depth := default 0 _depth in
  depth_check util_recursionLimit _depth (
    let writer := own (ReservedRange_start message) (λ v w, W_int32 v (W_uint32 8 w)) writer in
    let writer := own (ReservedRange_end message) (λ v w, W_int32 v (W_uint32 16 w)) writer in
    Ok (put_unknowns (ReservedRange_unknowns message) writer)).

Definition ReservedRange_encodeDelimited (message : ReservedRange) (writer : option Writer) : res Writer :=
  delimited ReservedRange_encode message writer.

Definition ReservedRange_switch (_depth field wireType : Z) (message : ReservedRange) (reader : Reader)
    : option (res (ReservedRange * Reader)) :=
  match field with
  | 1 => when_wire wireType 0 (dec_set R_int32 set_ReservedRange_start message reader)
  | 2 => when_wire wireType 0 (dec_set R_int32 set_ReservedRange_end message reader)
  | _ => None
  end.

Definition ReservedRange_decode : decoder ReservedRange := λ reader length _end _depth _target,
  let _depth := default 0 _depth in
  decode_with (ReservedRange_switch _depth) ReservedRange_push_unknown _depth ReservedRange_new reader length _end _target.

Definition ReservedRange_decodeDelimited (reader : Reader) : res (ReservedRange * Reader) :=
  decode_delimited ReservedRange_decode reader.

Definition ReservedRange_getTypeUrl (prefix : option string) : string :=
  default "type.googleapis.com"%string prefix +:+ "/google.protobuf.DescriptorProto.ReservedRange".

(** ** [FieldDescriptorProto] *)

Record FieldDescriptorProto := mkFieldDescriptorProto {
  FieldDescriptorProto_name : option string;
  FieldDescriptorProto_number : option Z;
  FieldDescriptorProto_label : option Z;
  FieldDescriptorProto_type : option Z;
  FieldDescriptorProto_typeName : option string;
  FieldDescriptorProto_extendee : option string;
  FieldDescriptorProto_defaultValue : option string;
  FieldDescriptorProto_oneofIndex : option Z;
  FieldDescriptorProto_jsonName : option string;
  FieldDescriptorProto_options : option FieldOptions;
  FieldDescriptorProto_proto3Optional : option bool;
  FieldDescriptorProto_unknowns : option (list bytes);
}.

Definition FieldDescriptorProto_new : FieldDescriptorProto :=
  mkFieldDescriptorProto None None None None None None None None None None None None.

Definition set_FieldDescriptorProto_name (v : option string) (m : FieldDescriptorProto) : FieldDescriptorProto :=
  mkFieldDescriptorProto v (FieldDescriptorProto_number m) (FieldDescriptorProto_label m) (FieldDescriptorProto_type m) (FieldDescriptorProto_typeName m) (FieldDescriptorProto_extendee m) (FieldDescriptorProto_defaultValue m) (FieldDescriptorProto_oneofIndex m) (FieldDescriptorProto_jsonName m) (FieldDescriptorProto_options m) (FieldDescriptorProto_proto3Optional m) (FieldDescriptorProto_unknowns m).
Definition set_FieldDescriptorProto_number (v : option Z) (m : FieldDescriptorProto) : FieldDescriptorProto :=
  mkFieldDescriptorProto (FieldDescriptorProto_name m) v (FieldDescriptorProto_label m) (FieldDescriptorProto_type m) (FieldDescriptorProto_typeName m) (FieldDescriptorProto_extendee m) (FieldDescriptorProto_defaultValue m) (FieldDescriptorProto_oneofIndex m) (FieldDescriptorProto_jsonName m) (FieldDescriptorProto_options m) (FieldDescriptorProto_proto3Optional m) (FieldDescriptorProto_unknowns m).
Definition set_FieldDescriptorProto_label (v : option Z) (m : FieldDescriptorProto) : FieldDescriptorProto :=
  mkFieldDescriptorProto (FieldDescriptorProto_name m) (FieldDescriptorProto_number m) v (FieldDescriptorProto_type m) (FieldDescriptorProto_typeName m) (FieldDescriptorProto_extendee m) (FieldDescriptorProto_defaultValue m) (FieldDescriptorProto_oneofIndex m) (FieldDescriptorProto_jsonName m) (FieldDescriptorProto_options m) (FieldDescriptorProto_proto3Optional m) (FieldDescriptorProto_unknowns m).
Definition set_FieldDescriptorProto_type (v : option Z) (m : FieldDescriptorProto) : FieldDescriptorProto :=
  mkFieldDescriptorProto (FieldDescriptorProto_name m) (FieldDescriptorProto_number m) (FieldDescriptorProto_label m) v (FieldDescriptorProto_typeName m) (FieldDescriptorProto_extendee m) (FieldDescriptorProto_defaultValue m) (FieldDescriptorProto_oneofIndex m) (FieldDescriptorProto_jsonName m) (FieldDescriptorProto_options m) (FieldDescriptorProto_proto3Optional m) (FieldDescriptorProto_unknowns m).
Definition set_FieldDescriptorProto_typeName (v : option string) (m : FieldDescriptorProto) : FieldDescriptorProto :=
  mkFieldDescriptorProto (FieldDescriptorProto_name m) (FieldDescriptorProto_number m) (FieldDescriptorProto_label m) (FieldDescriptorProto_type m) v (FieldDescriptorProto_extendee m) (FieldDescriptorProto_defaultValue m) (FieldDescriptorProto_oneofIndex m) (FieldDescriptorProto_jsonName m) (FieldDescriptorProto_options m) (FieldDescriptorProto_proto3Optional m) (FieldDescriptorProto_unknowns m).
Definition set_FieldDescriptorProto_extendee (v : option string) (m : FieldDescriptorProto) : FieldDescriptorProto :=
  mkFieldDescriptorProto (FieldDescriptorProto_name m) (FieldDescriptorProto_number m) (FieldDescriptorProto_label m) (FieldDescriptorProto_type m) (FieldDescriptorProto_typeName m) v (FieldDescriptorProto_defaultValue m) (FieldDescriptorProto_oneofIndex m) (FieldDescriptorProto_jsonName m) (FieldDescriptorProto_options m) (FieldDescriptorProto_proto3Optional m) (FieldDescriptorProto_unknowns m).
Definition set_FieldDescriptorProto_defaultValue (v : option string) (m : FieldDescriptorProto) : FieldDescriptorProto :=
  mkFieldDescriptorProto (FieldDescriptorProto_name m) (FieldDescriptorProto_number m) (FieldDescriptorProto_label m) (FieldDescriptorProto_type m) (FieldDescriptorProto_typeName m) (FieldDescriptorProto_extendee m) v (FieldDescriptorProto_oneofIndex m) (FieldDescriptorProto_jsonName m) (FieldDescriptorProto_options m) (FieldDescriptorProto_proto3Optional m) (FieldDescriptorProto_unknowns m).
Definition set_FieldDescriptorProto_oneofIndex (v : option Z) (m : FieldDescriptorProto) : FieldDescriptorProto :=
  mkFieldDescriptorProto (FieldDescriptorProto_name m) (FieldDescriptorProto_number m) (FieldDescriptorProto_label m) (FieldDescriptorProto_type m) (FieldDescriptorProto_typeName m) (FieldDescriptorProto_extendee m) (FieldDescriptorProto_defaultValue m) v (FieldDescriptorProto_jsonName m) (FieldDescriptorProto_options m) (FieldDescriptorProto_proto3Optional m) (FieldDescriptorProto_unknowns m).
Definition set_FieldDescriptorProto_jsonName (v : option string) (m : FieldDescriptorProto) : FieldDescriptorProto :=
  mkFieldDescriptorProto (FieldDescriptorProto_name m) (FieldDescriptorProto_number m) (FieldDescriptorProto_label m) (FieldDescriptorProto_type m) (FieldDescriptorProto_typeName m) (FieldDescriptorProto_extendee m) (FieldDescriptorProto_defaultValue m) (FieldDescriptorProto_oneofIndex m) v (FieldDescriptorProto_options m) (FieldDescriptorProto_proto3Optional m) (FieldDescriptorProto_unknowns m).
Definition set_FieldDescriptorProto_options (v : option FieldOptions) (m : FieldDescriptorProto) : FieldDescriptorProto :=
  mkFieldDescriptorProto (FieldDescriptorProto_name m) (FieldDescriptorProto_number m) (FieldDescriptorProto_label m) (FieldDescriptorProto_type m) (FieldDescriptorProto_typeName m) (FieldDescriptorProto_extendee m) (FieldDescriptorProto_defaultValue m) (FieldDescriptorProto_oneofIndex m) (FieldDescriptorProto_jsonName m) v (FieldDescriptorProto_proto3Optional m) (FieldDescriptorProto_unknowns m).
Definition set_FieldDescriptorProto_proto3Optional (v : option bool) (m : FieldDescriptorProto) : FieldDescriptorProto :=
  mkFieldDescriptorProto (FieldDescriptorProto_name m) (FieldDescriptorProto_number m) (FieldDescriptorProto_label m) (FieldDescriptorProto_type m) (FieldDescriptorProto_typeName m) (FieldDescriptorProto_extendee m) (FieldDescriptorProto_defaultValue m) (FieldDescriptorProto_oneofIndex m) (FieldDescriptorProto_jsonName m) (FieldDescriptorProto_options m) v (FieldDescriptorProto_unknowns m).
Definition FieldDescriptorProto_push_unknown (b : bytes) (m : FieldDescriptorProto) : FieldDescriptorProto :=
  mkFieldDescriptorProto (FieldDescriptorProto_name m) (FieldDescriptorProto_number m) (FieldDescriptorProto_label m) (FieldDescriptorProto_type m) (FieldDescriptorProto_typeName m) (FieldDescriptorProto_extendee m) (FieldDescriptorProto_defaultValue m) (FieldDescriptorProto_oneofIndex m) (FieldDescriptorProto_jsonName m) (FieldDescriptorProto_options m) (FieldDescriptorProto_proto3Optional m) (Some (default [] (FieldDescriptorProto_unknowns m) ++ [b])).

Definition FieldDescriptorProto_encode (message : FieldDescriptorProto) (writer : option Writer) (_depth : option Z) : res Writer :=
  let writer := default W_create writer in
  let _depth := default 0 _depth in
  depth_check util_recursionLimit _depth (
    let writer := own (FieldDescriptorProto_name message) (λ v w, W_string v (W_uint32 10 w)) writer in
    let writer := own (FieldDescriptorProto_extendee message) (λ v w, W_string v (W_uint32 18 w)) writer in
    let writer := own (FieldDescriptorProto_number message) (λ v w, W_int32 v (W_uint32 24 w)) writer in
    let writer := own (FieldDescriptorProto_label message) (λ v w, W_int32 v (W_uint32 32 w)) writer in
    let writer := own (FieldDescriptorProto_type message) (λ v w, W_int32 v (W_uint32 40 w)) writer in
    let writer := own (FieldDescriptorProto_typeName message) (λ v w, W_string v (W_uint32 50 w)) writer in
    let writer := own (FieldDescriptorProto_defaultValue message) (λ v w, W_string v (W_uint32 58 w)) writer in
    let! writer := own_msg (FieldDescriptorProto_options message) (nested 66 FieldOptions_encode _depth) writer in
    let writer := own (FieldDescriptorProto_oneofIndex message) (λ v w, W_int32 v (W_uint32 72 w)) writer in
    let writer := own (FieldDescriptorProto_jsonName message) (λ v w, W_string v (W_uint32 82 w)) writer in
    let writer := own (FieldDescriptorProto_proto3Optional message) (λ v w, W_bool v (W_uint32 136 w)) writer in
    Ok (put_unknowns (FieldDescriptorProto_unknowns message) writer)).

Definition FieldDescriptorProto_encodeDelimited (message : FieldDescriptorProto) (writer : option Writer) : res Writer :=
  delimited FieldDescriptorProto_encode message writer.

Definition FieldDescriptorProto_switch (_depth field wireType : Z) (message : FieldDescriptorProto) (reader : Reader)
    : option (res (FieldDescriptorProto * Reader)) :=
  match field with
  | 1 => when_wire wireType 2 (dec_set R_string set_FieldDescriptorProto_name message reader)
  | 3 => when_wire wireType 0 (dec_set R_int32 set_FieldDescriptorProto_number message reader)
  | 4 => when_wire wireType 0 (dec_set R_int32 set_FieldDescriptorProto_label message reader)
  | 5 => when_wire wireType 0 (dec_set R_int32 set_FieldDescriptorProto_type message reader)
  | 6 => when_wire wireType 2 (dec_set R_string set_FieldDescriptorProto_typeName message reader)
  | 2 => when_wire wireType 2 (dec_set R_string set_FieldDescriptorProto_extendee message reader)
  | 7 => when_wire wireType 2 (dec_set R_string set_FieldDescriptorProto_defaultValue message reader)
  | 9 => when_wire wireType 0 (dec_set R_int32 set_FieldDescriptorProto_oneofIndex message reader)
  | 10 => when_wire wireType 2 (dec_set R_string set_FieldDescriptorProto_jsonName message reader)
  | 8 => when_wire wireType 2 (dec_msg FieldOptions_decode _depth FieldDescriptorProto_options (λ v, set_FieldDescriptorProto_options (Some v)) message reader)
  | 17 => when_wire wireType 0 (dec_set R_bool set_FieldDescriptorProto_proto3Optional message reader)
  | _ => None
  end.

Definition FieldDescriptorProto_decode : decoder FieldDescriptorProto := λ reader length _end _depth _target,
  let _depth := default 0 _depth in
  decode_with (FieldDescriptorProto_switch _depth) FieldDescriptorProto_push_unknown _depth FieldDescriptorProto_new reader length _end _target.

Definition FieldDescriptorProto_decodeDelimited (reader : Reader) : res (FieldDescriptorProto * Reader) :=
  decode_delimited FieldDescriptorProto_decode reader.

Definition FieldDescriptorProto_getTypeUrl (prefix : option string) : string :=
  default "type.googleapis.com"%string prefix +:+ "/google.protobuf.FieldDescriptorProto".

(** ** [OneofDescriptorProto] *)

Record OneofDescriptorProto := mkOneofDescriptorProto {
  OneofDescriptorProto_name : option string;
  OneofDescriptorProto_options : option OneofOptions;
  OneofDescriptorProto_unknowns : option (list bytes);
}.

Definition OneofDescriptorProto_new : OneofDescriptorProto :=
  mkOneofDescriptorProto None None None.

Definition set_OneofDescriptorProto_name (v : option string) (m : OneofDescriptorProto) : OneofDescriptorProto :=
  mkOneofDescriptorProto v (OneofDescriptorProto_options m) (OneofDescriptorProto_unknowns m).
Definition set_OneofDescriptorProto_options (v : option OneofOptions) (m : OneofDescriptorProto) : OneofDescriptorProto :=
  mkOneofDescriptorProto (OneofDescriptorProto_name m) v (OneofDescriptorProto_unknowns m).
Definition OneofDescriptorProto_push_unknown (b : bytes) (m : OneofDescriptorProto) : OneofDescriptorProto :=
  mkOneofDescriptorProto (OneofDescriptorProto_name m) (OneofDescriptorProto_options m) (Some (default [] (OneofDescriptorProto_unknowns m) ++ [b])).

Definition OneofDescriptorProto_encode (message : OneofDescriptorProto) (writer : option Writer) (_depth : option Z) : res Writer :=
  let writer := default W_create writer in
  let _depth := default 0 _depth in
  depth_check util_recursionLimit _depth (
    let writer := own (OneofDescriptorProto_name message) (λ v w, W_string v (W_uint32 10 w)) writer in
    let! writer := own_msg (OneofDescriptorProto_options message) (nested 18 OneofOptions_encode _depth) writer in
    Ok (put_unknowns (OneofDescriptorProto_unknowns message) writer)).

Definition OneofDescriptorProto_encodeDelimited (message : OneofDescriptorProto) (writer : option Writer) : res Writer :=
  delimited OneofDescriptorProto_encode message writer.

Definition OneofDescriptorProto_switch (_depth field wireType : Z) (message : OneofDescriptorProto) (reader : Reader)
    : option (res (OneofDescriptorProto * Reader)) :=
  match field with
  | 1 => when_wire wireType 2 (dec_set R_string set_OneofDescriptorProto_name message reader)
  | 2 => when_wire wireType 2 (dec_msg OneofOptions_decode _depth OneofDescriptorProto_options (λ v, set_OneofDescriptorProto_options (Some v)) message reader)
  | _ => None
  end.

Definition OneofDescriptorProto_decode : decoder OneofDescriptorProto := λ reader length _end _depth _target,
  let _depth := default 0 _depth in
  decode_with (OneofDescriptorProto_switch _depth) OneofDescriptorProto_push_unknown _depth OneofDescriptorProto_new reader length _end _target.

Definition OneofDescriptorProto_decodeDelimited (reader : Reader) : res (OneofDescriptorProto * Reader) :=
  decode_delimited OneofDescriptorProto_decode reader.

Definition OneofDescriptorProto_getTypeUrl (prefix : option string) : string :=
  default "type.googleapis.com"%string prefix +:+ "/google.protobuf.OneofDescriptorProto".

(** ** [EnumReservedRange] *)

Record EnumReservedRange := mkEnumReservedRange {
  EnumReservedRange_start : option Z;
  EnumReservedRange_end : option Z;
  EnumReservedRange_unknowns : option (list bytes);
}.

Definition EnumReservedRange_new : EnumReservedRange :=
  mkEnumReservedRange None None None.

Definition set_EnumReservedRange_start (v : option Z) (m : EnumReservedRange) : EnumReservedRange :=
  mkEnumReservedRange v (EnumReservedRange_end m) (EnumReservedRange_unknowns m).
Definition set_EnumReservedRange_end (v : option Z) (m : EnumReservedRange) : EnumReservedRange :=
  mkEnumReservedRange (EnumReservedRange_start m) v (EnumReservedRange_unknowns m).
Definition EnumReservedRange_push_unknown (b : bytes) (m : EnumReservedRange) : EnumReservedRange :=
  mkEnumReservedRange (EnumReservedRange_start m) (EnumReservedRange_end m) (Some (default [] (EnumReservedRange_unknowns m) ++ [b])).

Definition EnumReservedRange_encode (message : EnumReservedRange) (writer : option Writer) (_depth : option Z) : res Writer :=
  let writer := default W_create writer in
  let _depth := default 0 _depth in
  depth_check util_recursionLimit _depth (
    let writer := own (EnumReservedRange_start message) (λ v w, W_int32 v (W_uint32 8 w)) writer in
    let writer := own (EnumReservedRange_end message) (λ v w, W_int32 v (W_uint32 16 w)) writer in
    Ok (put_unknowns (EnumReservedRange_unknowns message) writer)).

Definition EnumReservedRange_encodeDelimited (message : EnumReservedRange) (writer : option Writer) : res Writer :=
  delimited EnumReservedRange_encode message writer.

Definition EnumReservedRange_switch (_depth field wireType : Z) (message : EnumReservedRange) (reader : Reader)
    : option (res (EnumReservedRange * Reader)) :=
  match field with
  | 1 => when_wire wireType 0 (dec_set R_int32 set_EnumReservedRange_start message reader)
  | 2 => when_wire wireType 0 (dec_set R_int32 set_EnumReservedRange_end message reader)
  | _ => None
  end.

Definition EnumReservedRange_decode : decoder EnumReservedRange := λ reader length _end _depth _target,
  let _depth := default 0 _depth in
  decode_with (EnumReservedRange_switch _depth) EnumReservedRange_push_unknown _depth EnumReservedRange_new reader length _end _target.

Definition EnumReservedRange_decodeDelimited (reader : Reader) : res (EnumReservedRange * Reader) :=
  decode_delimited EnumReservedRange_decode reader.

Definition EnumReservedRange_getTypeUrl (prefix : option string) : string :=
  default "type.googleapis.com"%string prefix +:+ "/google.protobuf.EnumDescriptorProto.EnumReservedRange".

(** ** [EnumValueDescriptorProto] *)

Record EnumValueDescriptorProto := mkEnumValueDescriptorProto {
  EnumValueDescriptorProto_name : option string;
  EnumValueDescriptorProto_number : option Z;
  EnumValueDescriptorProto_options : option EnumValueOptions;
  EnumValueDescriptorProto_unknowns : option (list bytes);
}.

Definition EnumValueDescriptorProto_new : EnumValueDescriptorProto :=
  mkEnumValueDescriptorProto None None None None.

Definition set_EnumValueDescriptorProto_name (v : option string) (m : EnumValueDescriptorProto) : EnumValueDescriptorProto :=
  mkEnumValueDescriptorProto v (EnumValueDescriptorProto_number m) (EnumValueDescriptorProto_options m) (EnumValueDescriptorProto_unknowns m).
Definition set_EnumValueDescriptorProto_number (v : option Z) (m : EnumValueDescriptorProto) : EnumValueDescriptorProto :=
  mkEnumValueDescriptorProto (EnumValueDescriptorProto_name m) v (EnumValueDescriptorProto_options m) (EnumValueDescriptorProto_unknowns m).
Definition set_EnumValueDescriptorProto_options (v : option EnumValueOptions) (m : EnumValueDescriptorProto) : EnumValueDescriptorProto :=
  mkEnumValueDescriptorProto (EnumValueDescriptorProto_name m) (EnumValueDescriptorProto_number m) v (EnumValueDescriptorProto_unknowns m).
Definition EnumValueDescriptorProto_push_unknown (b : bytes) (m : EnumValueDescriptorProto) : EnumValueDescriptorProto :=
  mkEnumValueDescriptorProto (EnumValueDescriptorProto_name m) (EnumValueDescriptorProto_number m) (EnumValueDescriptorProto_options m) (Some (default [] (EnumValueDescriptorProto_unknowns m) ++ [b])).

Definition EnumValueDescriptorProto_encode (message : EnumValueDescriptorProto) (writer : option Writer) (_depth : option Z) : res Writer :=
  let writer := default W_create writer in
  let _depth := default 0 _depth in
  depth_check util_recursionLimit _depth (
    let writer := own (EnumValueDescriptorProto_name message) (λ v w, W_string v (W_uint32 10 w)) writer in
    let writer := own (EnumValueDescriptorProto_number message) (λ v w, W_int32 v (W_uint32 16 w)) writer in
    let! writer := own_msg (EnumValueDescriptorProto_options message) (nested 26 EnumValueOptions_encode _depth) writer in
    Ok (put_unknowns (EnumValueDescriptorProto_unknowns message) writer)).

Definition EnumValueDescriptorProto_encodeDelimited (message : EnumValueDescriptorProto) (writer : option Writer) : res Writer :=
  delimited EnumValueDescriptorProto_encode message writer.

Definition EnumValueDescriptorProto_switch (_depth field wireType : Z) (message : EnumValueDescriptorProto) (reader : Reader)
    : option (res (EnumValueDescriptorProto * Reader)) :=
  match field with
  | 1 => when_wire wireType 2 (dec_set R_string set_EnumValueDescriptorProto_name message reader)
  | 2 => when_wire wireType 0 (dec_set R_int32 set_EnumValueDescriptorProto_number message reader)
  | 3 => when_wire wireType 2 (dec_msg EnumValueOptions_decode _depth EnumValueDescriptorProto_options (λ v, set_EnumValueDescriptorProto_options (Some v)) message reader)
  | _ => None
  end.

Definition EnumValueDescriptorProto_decode : decoder EnumValueDescriptorProto := λ reader length _end _depth _target,
  let _depth := default 0 _depth in
  decode_with (EnumValueDescriptorProto_switch _depth) EnumValueDescriptorProto_push_unknown _depth EnumValueDescriptorProto_new reader length _end _target.

Definition EnumValueDescriptorProto_decodeDelimited (reader : Reader) : res (EnumValueDescriptorProto * Reader) :=
  decode_delimited EnumValueDescriptorProto_decode reader.

Definition EnumValueDescriptorProto_getTypeUrl (prefix : option string) : string :=
  default "type.googleapis.com"%string prefix +:+ "/google.protobuf.EnumValueDescriptorProto".

(** ** [EnumDescriptorProto] *)

Record EnumDescriptorProto := mkEnumDescriptorProto {
  EnumDescriptorProto_name : option string;
  EnumDescriptorProto_value : list EnumValueDescriptorProto;
  EnumDescriptorProto_options : option EnumOptions;
  EnumDescriptorProto_reservedRange : list EnumReservedRange;
  EnumDescriptorProto_reservedName : list string;
  EnumDescriptorProto_unknowns : option (list bytes);
}.

Definition EnumDescriptorProto_new : EnumDescriptorProto :=
  mkEnumDescriptorProto None [] None [] [] None.

Definition set_EnumDescriptorProto_name (v : option string) (m : EnumDescriptorProto) : EnumDescriptorProto :=
  mkEnumDescriptorProto v (EnumDescriptorProto_value m) (EnumDescriptorProto_options m) (EnumDescriptorProto_reservedRange m) (EnumDescriptorProto_reservedName m) (EnumDescriptorProto_unknowns m).
Definition set_EnumDescriptorProto_value (v : list EnumValueDescriptorProto) (m : EnumDescriptorProto) : EnumDescriptorProto :=
  mkEnumDescriptorProto (EnumDescriptorProto_name m) v (EnumDescriptorProto_options m) (EnumDescriptorProto_reservedRange m) (EnumDescriptorProto_reservedName m) (EnumDescriptorProto_unknowns m).
Definition set_EnumDescriptorProto_options (v : option EnumOptions) (m : EnumDescriptorProto) : EnumDescriptorProto :=
  mkEnumDescriptorProto (EnumDescriptorProto_name m) (EnumDescriptorProto_value m) v (EnumDescriptorProto_reservedRange m) (EnumDescriptorProto_reservedName m) (EnumDescriptorProto_unknowns m).
Definition set_EnumDescriptorProto_reservedRange (v : list EnumReservedRange) (m : EnumDescriptorProto) : EnumDescriptorProto :=
  mkEnumDescriptorProto (EnumDescriptorProto_name m) (EnumDescriptorProto_value m) (EnumDescriptorProto_options m) v (EnumDescriptorProto_reservedName m) (EnumDescriptorProto_unknowns m).
Definition set_EnumDescriptorProto_reservedName (v : list string) (m : EnumDescriptorProto) : EnumDescriptorProto :=
  mkEnumDescriptorProto (EnumDescriptorProto_name m) (EnumDescriptorProto_value m) (EnumDescriptorProto_options m) (EnumDescriptorProto_reservedRange m) v (EnumDescriptorProto_unknowns m).
Definition EnumDescriptorProto_push_unknown (b : bytes) (m : EnumDescriptorProto) : EnumDescriptorProto :=
  mkEnumDescriptorProto (EnumDescriptorProto_name m) (EnumDescriptorProto_value m) (EnumDescriptorProto_options m) (EnumDescriptorProto_reservedRange m) (EnumDescriptorProto_reservedName m) (Some (default [] (EnumDescriptorProto_unknowns m) ++ [b])).

Definition EnumDescriptorProto_encode (message : EnumDescriptorProto) (writer : option Writer) (_depth : option Z) : res Writer :=
  let writer := default W_create writer in
  let _depth := default 0 _depth in
  depth_check util_recursionLimit _depth (
    let writer := own (EnumDescriptorProto_name message) (λ v w, W_string v (W_uint32 10 w)) writer in
    let! writer := nested_all 18 EnumValueDescriptorProto_encode _depth (EnumDescriptorProto_value message) writer in
    let! writer := own_msg (EnumDescriptorProto_options message) (nested 26 EnumOptions_encode _depth) writer in
    let! writer := nested_all 34 EnumReservedRange_encode _depth (EnumDescriptorProto_reservedRange message) writer in
    let writer := each 42 W_string (EnumDescriptorProto_reservedName message) writer in
    Ok (put_unknowns (EnumDescriptorProto_unknowns message) writer)).

Definition EnumDescriptorProto_encodeDelimited (message : EnumDescriptorProto) (writer : option Writer) : res Writer :=
  delimited EnumDescriptorProto_encode message writer.

Definition EnumDescriptorProto_switch (_depth field wireType : Z) (message : EnumDescriptorProto) (reader : Reader)
    : option (res (EnumDescriptorProto * Reader)) :=
  match field with
  | 1 => when_wire wireType 2 (dec_set R_string set_EnumDescriptorProto_name message reader)
  | 2 => when_wire wireType 2 (dec_push EnumValueDescriptorProto_decode _depth EnumDescriptorProto_value set_EnumDescriptorProto_value message reader)
  | 3 => when_wire wireType 2 (dec_msg EnumOptions_decode _depth EnumDescriptorProto_options (λ v, set_EnumDescriptorProto_options (Some v)) message reader)
  | 4 => when_wire wireType 2 (dec_push EnumReservedRange_decode _depth EnumDescriptorProto_reservedRange set_EnumDescriptorProto_reservedRange message reader)
  | 5 => when_wire wireType 2 (dec_each R_string EnumDescriptorProto_reservedName set_EnumDescriptorProto_reservedName message reader)
  | _ => None
  end.

Definition EnumDescriptorProto_decode : decoder EnumDescriptorProto := λ reader length _end _depth _target,
  let _depth := default 0 _depth in
  decode_with (EnumDescriptorProto_switch _depth) EnumDescriptorProto_push_unknown _depth EnumDescriptorProto_new reader length _end _target.

Definition EnumDescriptorProto_decodeDelimited (reader : Reader) : res (EnumDescriptorProto * Reader) :=
  decode_delimited EnumDescriptorProto_decode reader.

Definition EnumDescriptorProto_getTypeUrl (prefix : option string) : string :=
  default "type.googleapis.com"%string prefix +:+ "/google.protobuf.EnumDescriptorProto".

(** ** [DescriptorProto] *)

Inductive DescriptorProto := mkDescriptorProto {
  DescriptorProto_name : option string;
  DescriptorProto_field : list FieldDescriptorProto;
  DescriptorProto_extension : list FieldDescriptorProto;
  DescriptorProto_nestedType : list DescriptorProto;
  DescriptorProto_enumType : list EnumDescriptorProto;
  DescriptorProto_extensionRange : list ExtensionRange;
  DescriptorProto_oneofDecl : list OneofDescriptorProto;
  DescriptorProto_options : option MessageOptions;
  DescriptorProto_reservedRange : list ReservedRange;
  DescriptorProto_reservedName : list string;
  DescriptorProto_unknowns : option (list bytes);
}.

Definition DescriptorProto_new : DescriptorProto :=
  mkDescriptorProto None [] [] [] [] [] [] None [] [] None.

Definition set_DescriptorProto_name (v : option string) (m : DescriptorProto) : DescriptorProto :=
  mkDescriptorProto v (DescriptorProto_field m) (DescriptorProto_extension m) (DescriptorProto_nestedType m) (DescriptorProto_enumType m) (DescriptorProto_extensionRange m) (DescriptorProto_oneofDecl m) (DescriptorProto_options m) (DescriptorProto_reservedRange m) (DescriptorProto_reservedName m) (DescriptorProto_unknowns m).
Definition set_DescriptorProto_field (v : list FieldDescriptorProto) (m : DescriptorProto) : DescriptorProto :=
  mkDescriptorProto (DescriptorProto_name m) v (DescriptorProto_extension m) (DescriptorProto_nestedType m) (DescriptorProto_enumType m) (DescriptorProto_extensionRange m) (DescriptorProto_oneofDecl m) (DescriptorProto_options m) (DescriptorProto_reservedRange m) (DescriptorProto_reservedName m) (DescriptorProto_unknowns m).
Definition set_DescriptorProto_extension (v : list FieldDescriptorProto) (m : DescriptorProto) : DescriptorProto :=
  mkDescriptorProto (DescriptorProto_name m) (DescriptorProto_field m) v (DescriptorProto_nestedType m) (DescriptorProto_enumType m) (DescriptorProto_extensionRange m) (DescriptorProto_oneofDecl m) (DescriptorProto_options m) (DescriptorProto_reservedRange m) (DescriptorProto_reservedName m) (DescriptorProto_unknowns m).
Definition set_DescriptorProto_nestedType (v : list DescriptorProto) (m : DescriptorProto) : DescriptorProto :=
  mkDescriptorProto (DescriptorProto_name m) (DescriptorProto_field m) (DescriptorProto_extension m) v (DescriptorProto_enumType m) (DescriptorProto_extensionRange m) (DescriptorProto_oneofDecl m) (DescriptorProto_options m) (DescriptorProto_reservedRange m) (DescriptorProto_reservedName m) (DescriptorProto_unknowns m).
Definition set_DescriptorProto_enumType (v : list EnumDescriptorProto) (m : DescriptorProto) : DescriptorProto :=
  mkDescriptorProto (DescriptorProto_name m) (DescriptorProto_field m) (DescriptorProto_extension m) (DescriptorProto_nestedType m) v (DescriptorProto_extensionRange m) (DescriptorProto_oneofDecl m) (DescriptorProto_options m) (DescriptorProto_reservedRange m) (DescriptorProto_reservedName m) (DescriptorProto_unknowns m).
Definition set_DescriptorProto_extensionRange (v : list ExtensionRange) (m : DescriptorProto) : DescriptorProto :=
  mkDescriptorProto (DescriptorProto_name m) (DescriptorProto_field m) (DescriptorProto_extension m) (DescriptorProto_nestedType m) (DescriptorProto_enumType m) v (DescriptorProto_oneofDecl m) (DescriptorProto_options m) (DescriptorProto_reservedRange m) (DescriptorProto_reservedName m) (DescriptorProto_unknowns m).
Definition set_DescriptorProto_oneofDecl (v : list OneofDescriptorProto) (m : DescriptorProto) : DescriptorProto :=
  mkDescriptorProto (DescriptorProto_name m) (DescriptorProto_field m) (DescriptorProto_extension m) (DescriptorProto_nestedType m) (DescriptorProto_enumType m) (DescriptorProto_extensionRange m) v (DescriptorProto_options m) (DescriptorProto_reservedRange m) (DescriptorProto_reservedName m) (DescriptorProto_unknowns m).
Definition set_DescriptorProto_options (v : option MessageOptions) (m : DescriptorProto) : DescriptorProto :=
  mkDescriptorProto (DescriptorProto_name m) (DescriptorProto_field m) (DescriptorProto_extension m) (DescriptorProto_nestedType m) (DescriptorProto_enumType m) (DescriptorProto_extensionRange m) (DescriptorProto_oneofDecl m) v (DescriptorProto_reservedRange m) (DescriptorProto_reservedName m) (DescriptorProto_unknowns m).
Definition set_DescriptorProto_reservedRange (v : list ReservedRange) (m : DescriptorProto) : DescriptorProto :=
  mkDescriptorProto (DescriptorProto_name m) (DescriptorProto_field m) (DescriptorProto_extension m) (DescriptorProto_nestedType m) (DescriptorProto_enumType m) (DescriptorProto_extensionRange m) (DescriptorProto_oneofDecl m) (DescriptorProto_options m) v (DescriptorProto_reservedName m) (DescriptorProto_unknowns m).
Definition set_DescriptorProto_reservedName (v : list string) (m : DescriptorProto) : DescriptorProto :=
  mkDescriptorProto (DescriptorProto_name m) (DescriptorProto_field m) (DescriptorProto_extension m) (DescriptorProto_nestedType m) (DescriptorProto_enumType m) (DescriptorProto_extensionRange m) (DescriptorProto_oneofDecl m) (DescriptorProto_options m) (DescriptorProto_reservedRange m) v (DescriptorProto_unknowns m).
Definition DescriptorProto_push_unknown (b : bytes) (m : DescriptorProto) : DescriptorProto :=
  mkDescriptorProto (DescriptorProto_name m) (DescriptorProto_field m) (DescriptorProto_extension m) (DescriptorProto_nestedType m) (DescriptorProto_enumType m) (DescriptorProto_extensionRange m) (DescriptorProto_oneofDecl m) (DescriptorProto_options m) (DescriptorProto_reservedRange m) (DescriptorProto_reservedName m) (Some (default [] (DescriptorProto_unknowns m) ++ [b])).

Fixpoint DescriptorProto_encode (message : DescriptorProto) (writer : option Writer) (_depth : option Z) {struct message} : res Writer :=
  let writer := default W_create writer in
  let _depth := default 0 _depth in
  depth_check util_recursionLimit _depth (
    let writer := own (DescriptorProto_name message) (λ v w, W_string v (W_uint32 10 w)) writer in
    let! writer := nested_all 18 FieldDescriptorProto_encode _depth (DescriptorProto_field message) writer in
    let! writer := nested_all 26 DescriptorProto_encode _depth (DescriptorProto_nestedType message) writer in
    let! writer := nested_all 34 EnumDescriptorProto_encode _depth (DescriptorProto_enumType message) writer in
    let! writer := nested_all 42 ExtensionRange_encode _depth (DescriptorProto_extensionRange message) writer in
    let! writer := nested_all 50 FieldDescriptorProto_encode _depth (DescriptorProto_extension message) writer in
    let! writer := own_msg (DescriptorProto_options message) (nested 58 MessageOptions_encode _depth) writer in
    let! writer := nested_all 66 OneofDescriptorProto_encode _depth (DescriptorProto_oneofDecl message) writer in
    let! writer := nested_all 74 ReservedRange_encode _depth (DescriptorProto_reservedRange message) writer in
    let writer := each 82 W_string (DescriptorProto_reservedName message) writer in
    Ok (put_unknowns (DescriptorProto_unknowns message) writer)).

Definition DescriptorProto_encodeDelimited (message : DescriptorProto) (writer : option Writer) : res Writer :=
  delimited DescriptorProto_encode message writer.

Definition DescriptorProto_switch (decode : decoder DescriptorProto) (_depth field wireType : Z) (message : DescriptorProto) (reader : Reader)
    : option (res (DescriptorProto * Reader)) :=
  match field with
  | 1 => when_wire wireType 2 (dec_set R_string set_DescriptorProto_name message reader)
  | 2 => when_wire wireType 2 (dec_push FieldDescriptorProto_decode _depth DescriptorProto_field set_DescriptorProto_field message reader)
  | 6 => when_wire wireType 2 (dec_push FieldDescriptorProto_decode _depth DescriptorProto_extension set_DescriptorProto_extension message reader)
  | 3 => when_wire wireType 2 (dec_push decode _depth DescriptorProto_nestedType set_DescriptorProto_nestedType message reader)
  | 4 => when_wire wireType 2 (dec_push EnumDescriptorProto_decode _depth DescriptorProto_enumType set_DescriptorProto_enumType message reader)
  | 5 => when_wire wireType 2 (dec_push ExtensionRange_decode _depth DescriptorProto_extensionRange set_DescriptorProto_extensionRange message reader)
  | 8 => when_wire wireType 2 (dec_push OneofDescriptorProto_decode _depth DescriptorProto_oneofDecl set_DescriptorProto_oneofDecl message reader)
  | 7 => when_wire wireType 2 (dec_msg MessageOptions_decode _depth DescriptorProto_options (λ v, set_DescriptorProto_options (Some v)) message reader)
  | 9 => when_wire wireType 2 (dec_push ReservedRange_decode _depth DescriptorProto_reservedRange set_DescriptorProto_reservedRange message reader)
  | 10 => when_wire wireType 2 (dec_each R_string DescriptorProto_reservedName set_DescriptorProto_reservedName message reader)
  | _ => None
  end.

Definition DescriptorProto_decode : decoder DescriptorProto := decode_nested (λ decode reader length _end _depth _target,
  let _depth := default 0 _depth in
  decode_with (DescriptorProto_switch decode _depth) DescriptorProto_push_unknown _depth DescriptorProto_new reader length _end _target).

Definition DescriptorProto_decodeDelimited (reader : Reader) : res (DescriptorProto * Reader) :=
  decode_delimited DescriptorProto_decode reader.

Definition DescriptorProto_getTypeUrl (prefix : option string) : string :=
  default "type.googleapis.com"%string prefix +:+ "/google.protobuf.DescriptorProto".

(** ** [MethodDescriptorProto] *)

Record MethodDescriptorProto := mkMethodDescriptorProto {
  MethodDescriptorProto_name : option string;
  MethodDescriptorProto_inputType : option string;
  MethodDescriptorProto_outputType : option string;
  MethodDescriptorProto_options : option MethodOptions;
  MethodDescriptorProto_clientStreaming : option bool;
  MethodDescriptorProto_serverStreaming : option bool;
  MethodDescriptorProto_unknowns : option (list bytes);
}.

Definition MethodDescriptorProto_new : MethodDescriptorProto :=
  mkMethodDescriptorProto None None None None None None None.

Definition set_MethodDescriptorProto_name (v : option string) (m : MethodDescriptorProto) : MethodDescriptorProto :=
  mkMethodDescriptorProto v (MethodDescriptorProto_inputType m) (MethodDescriptorProto_outputType m) (MethodDescriptorProto_options m) (MethodDescriptorProto_clientStreaming m) (MethodDescriptorProto_serverStreaming m) (MethodDescriptorProto_unknowns m).
Definition set_MethodDescriptorProto_inputType (v : option string) (m : MethodDescriptorProto) : MethodDescriptorProto :=
  mkMethodDescriptorProto (MethodDescriptorProto_name m) v (MethodDescriptorProto_outputType m) (MethodDescriptorProto_options m) (MethodDescriptorProto_clientStreaming m) (MethodDescriptorProto_serverStreaming m) (MethodDescriptorProto_unknowns m).
Definition set_MethodDescriptorProto_outputType (v : option string) (m : MethodDescriptorProto) : MethodDescriptorProto :=
  mkMethodDescriptorProto (MethodDescriptorProto_name m) (MethodDescriptorProto_inputType m) v (MethodDescriptorProto_options m) (MethodDescriptorProto_clientStreaming m) (MethodDescriptorProto_serverStreaming m) (MethodDescriptorProto_unknowns m).
Definition set_MethodDescriptorProto_options (v : option MethodOptions) (m : MethodDescriptorProto) : MethodDescriptorProto :=
  mkMethodDescriptorProto (MethodDescriptorProto_name m) (MethodDescriptorProto_inputType m) (MethodDescriptorProto_outputType m) v (MethodDescriptorProto_clientStreaming m) (MethodDescriptorProto_serverStreaming m) (MethodDescriptorProto_unknowns m).
Definition set_MethodDescriptorProto_clientStreaming (v : option bool) (m : MethodDescriptorProto) : MethodDescriptorProto :=
  mkMethodDescriptorProto (MethodDescriptorProto_name m) (MethodDescriptorProto_inputType m) (MethodDescriptorProto_outputType m) (MethodDescriptorProto_options m) v (MethodDescriptorProto_serverStreaming m) (MethodDescriptorProto_unknowns m).
Definition set_MethodDescriptorProto_serverStreaming (v : option bool) (m : MethodDescriptorProto) : MethodDescriptorProto :=
  mkMethodDescriptorProto (MethodDescriptorProto_name m) (MethodDescriptorProto_inputType m) (MethodDescriptorProto_outputType m) (MethodDescriptorProto_options m) (MethodDescriptorProto_clientStreaming m) v (MethodDescriptorProto_unknowns m).
Definition MethodDescriptorProto_push_unknown (b : bytes) (m : MethodDescriptorProto) : MethodDescriptorProto :=
  mkMethodDescriptorProto (MethodDescriptorProto_name m) (MethodDescriptorProto_inputType m) (MethodDescriptorProto_outputType m) (MethodDescriptorProto_options m) (MethodDescriptorProto_clientStreaming m) (MethodDescriptorProto_serverStreaming m) (Some (default [] (MethodDescriptorProto_unknowns m) ++ [b])).

Definition MethodDescriptorProto_encode (message : MethodDescriptorProto) (writer : option Writer) (_depth : option Z) : res Writer :=
  let writer := default W_create writer in
  let _depth := default 0 _depth in
  depth_check util_recursionLimit _depth (
    let writer := own (MethodDescriptorProto_name message) (λ v w, W_string v (W_uint32 10 w)) writer in
    let writer := own (MethodDescriptorProto_inputType message) (λ v w, W_string v (W_uint32 18 w)) writer in
    let writer := own (MethodDescriptorProto_outputType message) (λ v w, W_string v (W_uint32 26 w)) writer in
    let! writer := own_msg (MethodDescriptorProto_options message) (nested 34 MethodOptions_encode _depth) writer in
    let writer := own (MethodDescriptorProto_clientStreaming message) (λ v w, W_bool v (W_uint32 40 w)) writer in
    let writer := own (MethodDescriptorProto_serverStreaming message) (λ v w, W_bool v (W_uint32 48 w)) writer in
    Ok (put_unknowns (MethodDescriptorProto_unknowns message) writer)).

Definition MethodDescriptorProto_encodeDelimited (message : MethodDescriptorProto) (writer : option Writer) : res Writer :=
  delimited MethodDescriptorProto_encode message writer.

Definition MethodDescriptorProto_switch (_depth field wireType : Z) (message : MethodDescriptorProto) (reader : Reader)
    : option (res (MethodDescriptorProto * Reader)) :=
  match field with
  | 1 => when_wire wireType 2 (dec_set R_string set_MethodDescriptorProto_name message reader)
  | 2 => when_wire wireType 2 (dec_set R_string set_MethodDescriptorProto_inputType message reader)
  | 3 => when_wire wireType 2 (dec_set R_string set_MethodDescriptorProto_outputType message reader)
  | 4 => when_wire wireType 2 (dec_msg MethodOptions_decode _depth MethodDescriptorProto_options (λ v, set_MethodDescriptorProto_options (Some v)) message reader)
  | 5 => when_wire wireType 0 (dec_set R_bool set_MethodDescriptorProto_clientStreaming message reader)
  | 6 => when_wire wireType 0 (dec_set R_bool set_MethodDescriptorProto_serverStreaming message reader)
  | _ => None
  end.

Definition MethodDescriptorProto_decode : decoder MethodDescriptorProto := λ reader length _end _depth _target,
  let _depth := default 0 _depth in
  decode_with (MethodDescriptorProto_switch _depth) MethodDescriptorProto_push_unknown _depth MethodDescriptorProto_new reader length _end _target.

Definition MethodDescriptorProto_decodeDelimited (reader : Reader) : res (MethodDescriptorProto * Reader) :=
  decode_delimited MethodDescriptorProto_decode reader.

Definition MethodDescriptorProto_getTypeUrl (prefix : option string) : string :=
  default "type.googleapis.com"%string prefix +:+ "/google.protobuf.MethodDescriptorProto".

(** ** [ServiceDescriptorProto] *)

Record ServiceDescriptorProto := mkServiceDescriptorProto {
  ServiceDescriptorProto_name : option string;
  ServiceDescriptorProto_method : list MethodDescriptorProto;
  ServiceDescriptorProto_options : option ServiceOptions;
  ServiceDescriptorProto_unknowns : option (list bytes);
}.

Definition ServiceDescriptorProto_new : ServiceDescriptorProto :=
  mkServiceDescriptorProto None [] None None.

Definition set_ServiceDescriptorProto_name (v : option string) (m : ServiceDescriptorProto) : ServiceDescriptorProto :=
  mkServiceDescriptorProto v (ServiceDescriptorProto_method m) (ServiceDescriptorProto_options m) (ServiceDescriptorProto_unknowns m).
Definition set_ServiceDescriptorProto_method (v : list MethodDescriptorProto) (m : ServiceDescriptorProto) : ServiceDescriptorProto :=
  mkServiceDescriptorProto (ServiceDescriptorProto_name m) v (ServiceDescriptorProto_options m) (ServiceDescriptorProto_unknowns m).
Definition set_ServiceDescriptorProto_options (v : option ServiceOptions) (m : ServiceDescriptorProto) : ServiceDescriptorProto :=
  mkServiceDescriptorProto (ServiceDescriptorProto_name m) (ServiceDescriptorProto_method m) v (ServiceDescriptorProto_unknowns m).
Definition ServiceDescriptorProto_push_unknown (b : bytes) (m : ServiceDescriptorProto) : ServiceDescriptorProto :=
  mkServiceDescriptorProto (ServiceDescriptorProto_name m) (ServiceDescriptorProto_method m) (ServiceDescriptorProto_options m) (Some (default [] (ServiceDescriptorProto_unknowns m) ++ [b])).

Definition ServiceDescriptorProto_encode (message : ServiceDescriptorProto) (writer : option Writer) (_depth : option Z) : res Writer :=
  let writer := default W_create writer in
  let _depth := default 0 _depth in
  depth_check util_recursionLimit _depth (
    let writer := own (ServiceDescriptorProto_name message) (λ v w, W_string v (W_uint32 10 w)) writer in
    let! writer := nested_all 18 MethodDescriptorProto_encode _depth (ServiceDescriptorProto_method message) writer in
    let! writer := own_msg (ServiceDescriptorProto_options message) (nested 26 ServiceOptions_encode _depth) writer in
    Ok (put_unknowns (ServiceDescriptorProto_unknowns message) writer)).

Definition ServiceDescriptorProto_encodeDelimited (message : ServiceDescriptorProto) (writer : option Writer) : res Writer :=
  delimited ServiceDescriptorProto_encode message writer.

Definition ServiceDescriptorProto_switch (_depth field wireType : Z) (message : ServiceDescriptorProto) (reader : Reader)
    : option (res (ServiceDescriptorProto * Reader)) :=
  match field with
  | 1 => when_wire wireType 2 (dec_set R_string set_ServiceDescriptorProto_name message reader)
  | 2 => when_wire wireType 2 (dec_push MethodDescriptorProto_decode _depth ServiceDescriptorProto_method set_ServiceDescriptorProto_method message reader)
  | 3 => when_wire wireType 2 (dec_msg ServiceOptions_decode _depth ServiceDescriptorProto_options (λ v, set_ServiceDescriptorProto_options (Some v)) message reader)
  | _ => None
  end.

Definition ServiceDescriptorProto_decode : decoder ServiceDescriptorProto := λ reader length _end _depth _target,
  let _depth := default 0 _depth in
  decode_with (ServiceDescriptorProto_switch _depth) ServiceDescriptorProto_push_unknown _depth ServiceDescriptorProto_new reader length _end _target.

Definition ServiceDescriptorProto_decodeDelimited (reader : Reader) : res (ServiceDescriptorProto * Reader) :=
  decode_delimited ServiceDescriptorProto_decode reader.

Definition ServiceDescriptorProto_getTypeUrl (prefix : option string) : string :=
  default "type.googleapis.com"%string prefix +:+ "/google.protobuf.ServiceDescriptorProto".

(** ** [Location] *)

Record Location := mkLocation {
  Location_path : list Z;
  Location_span : list Z;
  Location_leadingComments : option string;
  Location_trailingComments : option string;
  Location_leadingDetachedComments : list string;
  Location_unknowns : option (list bytes);
}.

Definition Location_new : Location :=
  mkLocation [] [] None None [] None.

Definition set_Location_path (v : list Z) (m : Location) : Location :=
  mkLocation v (Location_span m) (Location_leadingComments m) (Location_trailingComments m) (Location_leadingDetachedComments m) (Location_unknowns m).
Definition set_Location_span (v : list Z) (m : Location) : Location :=
  mkLocation (Location_path m) v (Location_leadingComments m) (Location_trailingComments m) (Location_leadingDetachedComments m) (Location_unknowns m).
Definition set_Location_leadingComments (v : option string) (m : Location) : Location :=
  mkLocation (Location_path m) (Location_span m) v (Location_trailingComments m) (Location_leadingDetachedComments m) (Location_unknowns m).
Definition set_Location_trailingComments (v : option string) (m : Location) : Location :=
  mkLocation (Location_path m) (Location_span m) (Location_leadingComments m) v (Location_leadingDetachedComments m) (Location_unknowns m).
Definition set_Location_leadingDetachedComments (v : list string) (m : Location) : Location :=
  mkLocation (Location_path m) (Location_span m) (Location_leadingComments m) (Location_trailingComments m) v (Location_unknowns m).
Definition Location_push_unknown (b : bytes) (m : Location) : Location :=
  mkLocation (Location_path m) (Location_span m) (Location_leadingComments m) (Location_trailingComments m) (Location_leadingDetachedComments m) (Some (default [] (Location_unknowns m) ++ [b])).

Definition Location_encode (message : Location) (writer : option Writer) (_depth : option Z) : res Writer :=
  let writer := default W_create writer in
  let _depth := default 0 _depth in
  depth_check util_recursionLimit _depth (
    let writer := packed_int32 10 (Location_path message) writer in
    let writer := packed_int32 18 (Location_span message) writer in
    let writer := own (Location_leadingComments message) (λ v w, W_string v (W_uint32 26 w)) writer in
    let writer := own (Location_trailingComments message) (λ v w, W_string v (W_uint32 34 w)) writer in
    let writer := each 50 W_string (Location_leadingDetachedComments message) writer in
    Ok (put_unknowns (Location_unknowns message) writer)).

Definition Location_encodeDelimited (message : Location) (writer : option Writer) : res Writer :=
  delimited Location_encode message writer.

Definition Location_switch (_depth field wireType : Z) (message : Location) (reader : Reader)
    : option (res (Location * Reader)) :=
  match field with
  | 1 => dec_numbers R_int32 wireType Location_path set_Location_path message reader
  | 2 => dec_numbers R_int32 wireType Location_span set_Location_span message reader
  | 3 => when_wire wireType 2 (dec_set R_string set_Location_leadingComments message reader)
  | 4 => when_wire wireType 2 (dec_set R_string set_Location_trailingComments message reader)
  | 6 => when_wire wireType 2 (dec_each R_string Location_leadingDetachedComments set_Location_leadingDetachedComments message reader)
  | _ => None
  end.

Definition Location_decode : decoder Location := λ reader length _end _depth _target,
  let _depth := default 0 _depth in
  decode_with (Location_switch _depth) Location_push_unknown _depth Location_new reader length _end _target.

Definition Location_decodeDelimited (reader : Reader) : res (Location * Reader) :=
  decode_delimited Location_decode reader.

Definition Location_getTypeUrl (prefix : option string) : string :=
  default "type.googleapis.com"%string prefix +:+ "/google.protobuf.SourceCodeInfo.Location".

(** ** [SourceCodeInfo] *)

Record SourceCodeInfo := mkSourceCodeInfo {
  SourceCodeInfo_location : list Location;
  SourceCodeInfo_unknowns : option (list bytes);
}.

Definition SourceCodeInfo_new : SourceCodeInfo :=
  mkSourceCodeInfo [] None.

Definition set_SourceCodeInfo_location (v : list Location) (m : SourceCodeInfo) : SourceCodeInfo :=
  mkSourceCodeInfo v (SourceCodeInfo_unknowns m).
Definition SourceCodeInfo_push_unknown (b : bytes) (m : SourceCodeInfo) : SourceCodeInfo :=
  mkSourceCodeInfo (SourceCodeInfo_location m) (Some (default [] (SourceCodeInfo_unknowns m) ++ [b])).

Definition SourceCodeInfo_encode (message : SourceCodeInfo) (writer : option Writer) (_depth : option Z) : res Writer :=
  let writer := default W_create writer in
  let _depth := default 0 _depth in
  depth_check util_recursionLimit _depth (
    let! writer := nested_all 10 Location_encode _depth (SourceCodeInfo_location message) writer in
    Ok (put_unknowns (SourceCodeInfo_unknowns message) writer)).

Definition SourceCodeInfo_encodeDelimited (message : SourceCodeInfo) (writer : option Writer) : res Writer :=
  delimited SourceCodeInfo_encode message writer.

Definition SourceCodeInfo_switch (_depth field wireType : Z) (message : SourceCodeInfo) (reader : Reader)
    : option (res (SourceCodeInfo * Reader)) :=
  match field with
  | 1 => when_wire wireType 2 (dec_push Location_decode _depth SourceCodeInfo_location set_SourceCodeInfo_location message reader)
  | _ => None
  end.

Definition SourceCodeInfo_decode : decoder SourceCodeInfo := λ reader length _end _depth _target,
  let _depth := default 0 _depth in
  decode_with (SourceCodeInfo_switch _depth) SourceCodeInfo_push_unknown _depth SourceCodeInfo_new reader length _end _target.

Definition SourceCodeInfo_decodeDelimited (reader : Reader) : res (SourceCodeInfo * Reader) :=
  decode_delimited SourceCodeInfo_decode reader.

Definition SourceCodeInfo_getTypeUrl (prefix : option string) : string :=
  default "type.googleapis.com"%string prefix +:+ "/google.protobuf.SourceCodeInfo".

(** ** [Annotation] *)

Record Annotation := mkAnnotation {
  Annotation_path : list Z;
  Annotation_sourceFile : option string;
  Annotation_begin : option Z;
  Annotation_end : option Z;
  Annotation_unknowns : option (list bytes);
}.

Definition Annotation_new : Annotation :=
  mkAnnotation [] None None None None.

Definition set_Annotation_path (v : list Z) (m : Annotation) : Annotation :=
  mkAnnotation v (Annotation_sourceFile m) (Annotation_begin m) (Annotation_end m) (Annotation_unknowns m).
Definition set_Annotation_sourceFile (v : option string) (m : Annotation) : Annotation :=
  mkAnnotation (Annotation_path m) v (Annotation_begin m) (Annotation_end m) (Annotation_unknowns m).
Definition set_Annotation_begin (v : option Z) (m : Annotation) : Annotation :=
  mkAnnotation (Annotation_path m) (Annotation_sourceFile m) v (Annotation_end m) (Annotation_unknowns m).
Definition set_Annotation_end (v : option Z) (m : Annotation) : Annotation :=
  mkAnnotation (Annotation_path m) (Annotation_sourceFile m) (Annotation_begin m) v (Annotation_unknowns m).
Definition Annotation_push_unknown (b : bytes) (m : Annotation) : Annotation :=
  mkAnnotation (Annotation_path m) (Annotation_sourceFile m) (Annotation_begin m) (Annotation_end m) (Some (default [] (Annotation_unknowns m) ++ [b])).

Definition Annotation_encode (message : Annotation) (writer : option Writer) (_depth : option Z) : res Writer :=
  let writer := default W_create writer in
  let _depth := default 0 _depth in
  depth_check util_recursionLimit _depth (
    let writer := packed_int32 10 (Annotation_path message) writer in
    let writer := own (Annotation_sourceFile message) (λ v w, W_string v (W_uint32 18 w)) writer in
    let writer := own (Annotation_begin message) (λ v w, W_int32 v (W_uint32 24 w)) writer in
    let writer := own (Annotation_end message) (λ v w, W_int32 v (W_uint32 32 w)) writer in
    Ok (put_unknowns (Annotation_unknowns message) writer)).

Definition Annotation_encodeDelimited (message : Annotation) (writer : option Writer) : res Writer :=
  delimited Annotation_encode message writer.

Definition Annotation_switch (_depth field wireType : Z) (message : Annotation) (reader : Reader)
    : option (res (Annotation * Reader)) :=
  match field with
  | 1 => dec_numbers R_int32 wireType Annotation_path set_Annotation_path message reader
  | 2 => when_wire wireType 2 (dec_set R_string set_Annotation_sourceFile message reader)
  | 3 => when_wire wireType 0 (dec_set R_int32 set_Annotation_begin message reader)
  | 4 => when_wire wireType 0 (dec_set R_int32 set_Annotation_end message reader)
  | _ => None
  end.

Definition Annotation_decode : decoder Annotation := λ reader length _end _depth _target,
  let _depth := default 0 _depth in
  decode_with (Annotation_switch _depth) Annotation_push_unknown _depth Annotation_new reader length _end _target.

Definition Annotation_decodeDelimited (reader : Reader) : res (Annotation * Reader) :=
  decode_delimited Annotation_decode reader.

Definition Annotation_getTypeUrl (prefix : option string) : string :=
  default "type.googleapis.com"%string prefix +:+ "/google.protobuf.GeneratedCodeInfo.Annotation".

(** ** [GeneratedCodeInfo] *)

Record GeneratedCodeInfo := mkGeneratedCodeInfo {
  GeneratedCodeInfo_annotation : list Annotation;
  GeneratedCodeInfo_unknowns : option (list bytes);
}.

Definition GeneratedCodeInfo_new : GeneratedCodeInfo :=
  mkGeneratedCodeInfo [] None.

Definition set_GeneratedCodeInfo_annotation (v : list Annotation) (m : GeneratedCodeInfo) : GeneratedCodeInfo :=
  mkGeneratedCodeInfo v (GeneratedCodeInfo_unknowns m).
Definition GeneratedCodeInfo_push_unknown (b : bytes) (m : GeneratedCodeInfo) : GeneratedCodeInfo :=
  mkGeneratedCodeInfo (GeneratedCodeInfo_annotation m) (Some (default [] (GeneratedCodeInfo_unknowns m) ++ [b])).

Definition GeneratedCodeInfo_encode (message : GeneratedCodeInfo) (writer : option Writer) (_depth : option Z) : res Writer :=
  let writer := default W_create writer in
  let _depth := default 0 _depth in
  depth_check util_recursionLimit _depth (
    let! writer := nested_all 10 Annotation_encode _depth (GeneratedCodeInfo_annotation message) writer in
    Ok (put_unknowns (GeneratedCodeInfo_unknowns message) writer)).

Definition GeneratedCodeInfo_encodeDelimited (message : GeneratedCodeInfo) (writer : option Writer) : res Writer :=
  delimited GeneratedCodeInfo_encode message writer.

Definition GeneratedCodeInfo_switch (_depth field wireType : Z) (message : GeneratedCodeInfo) (reader : Reader)
    : option (res (GeneratedCodeInfo * Reader)) :=
  match field with
  | 1 => when_wire wireType 2 (dec_push Annotation_decode _depth GeneratedCodeInfo_annotation set_GeneratedCodeInfo_annotation message reader)
  | _ => None
  end.

Definition GeneratedCodeInfo_decode : decoder GeneratedCodeInfo := λ reader length _end _depth _target,
  let _depth := default 0 _depth in
  decode_with (GeneratedCodeInfo_switch _depth) GeneratedCodeInfo_push_unknown _depth GeneratedCodeInfo_new reader length _end _target.

Definition GeneratedCodeInfo_decodeDelimited (reader : Reader) : res (GeneratedCodeInfo * Reader) :=
  decode_delimited GeneratedCodeInfo_decode reader.

Definition GeneratedCodeInfo_getTypeUrl (prefix : option string) : string :=
  default "type.googleapis.com"%string prefix +:+ "/google.protobuf.GeneratedCodeInfo".

(** ** [FileDescriptorProto] *)

Record FileDescriptorProto := mkFileDescriptorProto {
  FileDescriptorProto_name : option string;
  FileDescriptorProto_package : option string;
  FileDescriptorProto_dependency : list string;
  FileDescriptorProto_publicDependency : list Z;
  FileDescriptorProto_weakDependency : list Z;
  FileDescriptorProto_messageType : list DescriptorProto;
  FileDescriptorProto_enumType : list EnumDescriptorProto;
  FileDescriptorProto_service : list ServiceDescriptorProto;
  FileDescriptorProto_extension : list FieldDescriptorProto;
  FileDescriptorProto_options : option FileOptions;
  FileDescriptorProto_sourceCodeInfo : option SourceCodeInfo;
  FileDescriptorProto_syntax : option string;
  FileDescriptorProto_unknowns : option (list bytes);
}.

Definition FileDescriptorProto_new : FileDescriptorProto :=
  mkFileDescriptorProto None None [] [] [] [] [] [] [] None None None None.

Definition set_FileDescriptorProto_name (v : option string) (m : FileDescriptorProto) : FileDescriptorProto :=
  mkFileDescriptorProto v (FileDescriptorProto_package m) (FileDescriptorProto_dependency m) (FileDescriptorProto_publicDependency m) (FileDescriptorProto_weakDependency m) (FileDescriptorProto_messageType m) (FileDescriptorProto_enumType m) (FileDescriptorProto_service m) (FileDescriptorProto_extension m) (FileDescriptorProto_options m) (FileDescriptorProto_sourceCodeInfo m) (FileDescriptorProto_syntax m) (FileDescriptorProto_unknowns m).
Definition set_FileDescriptorProto_package (v : option string) (m : FileDescriptorProto) : FileDescriptorProto :=
  mkFileDescriptorProto (FileDescriptorProto_name m) v (FileDescriptorProto_dependency m) (FileDescriptorProto_publicDependency m) (FileDescriptorProto_weakDependency m) (FileDescriptorProto_messageType m) (FileDescriptorProto_enumType m) (FileDescriptorProto_service m) (FileDescriptorProto_extension m) (FileDescriptorProto_options m) (FileDescriptorProto_sourceCodeInfo m) (FileDescriptorProto_syntax m) (FileDescriptorProto_unknowns m).
Definition set_FileDescriptorProto_dependency (v : list string) (m : FileDescriptorProto) : FileDescriptorProto :=
  mkFileDescriptorProto (FileDescriptorProto_name m) (FileDescriptorProto_package m) v (FileDescriptorProto_publicDependency m) (FileDescriptorProto_weakDependency m) (FileDescriptorProto_messageType m) (FileDescriptorProto_enumType m) (FileDescriptorProto_service m) (FileDescriptorProto_extension m) (FileDescriptorProto_options m) (FileDescriptorProto_sourceCodeInfo m) (FileDescriptorProto_syntax m) (FileDescriptorProto_unknowns m).
Definition set_FileDescriptorProto_publicDependency (v : list Z) (m : FileDescriptorProto) : FileDescriptorProto :=
  mkFileDescriptorProto (FileDescriptorProto_name m) (FileDescriptorProto_package m) (FileDescriptorProto_dependency m) v (FileDescriptorProto_weakDependency m) (FileDescriptorProto_messageType m) (FileDescriptorProto_enumType m) (FileDescriptorProto_service m) (FileDescriptorProto_extension m) (FileDescriptorProto_options m) (FileDescriptorProto_sourceCodeInfo m) (FileDescriptorProto_syntax m) (FileDescriptorProto_unknowns m).
Definition set_FileDescriptorProto_weakDependency (v : list Z) (m : FileDescriptorProto) : FileDescriptorProto :=
  mkFileDescriptorProto (FileDescriptorProto_name m) (FileDescriptorProto_package m) (FileDescriptorProto_dependency m) (FileDescriptorProto_publicDependency m) v (FileDescriptorProto_messageType m) (FileDescriptorProto_enumType m) (FileDescriptorProto_service m) (FileDescriptorProto_extension m) (FileDescriptorProto_options m) (FileDescriptorProto_sourceCodeInfo m) (FileDescriptorProto_syntax m) (FileDescriptorProto_unknowns m).
Definition set_FileDescriptorProto_messageType (v : list DescriptorProto) (m : FileDescriptorProto) : FileDescriptorProto :=
  mkFileDescriptorProto (FileDescriptorProto_name m) (FileDescriptorProto_package m) (FileDescriptorProto_dependency m) (FileDescriptorProto_publicDependency m) (FileDescriptorProto_weakDependency m) v (FileDescriptorProto_enumType m) (FileDescriptorProto_service m) (FileDescriptorProto_extension m) (FileDescriptorProto_options m) (FileDescriptorProto_sourceCodeInfo m) (FileDescriptorProto_syntax m) (FileDescriptorProto_unknowns m).
Definition set_FileDescriptorProto_enumType (v : list EnumDescriptorProto) (m : FileDescriptorProto) : FileDescriptorProto :=
  mkFileDescriptorProto (FileDescriptorProto_name m) (FileDescriptorProto_package m) (FileDescriptorProto_dependency m) (FileDescriptorProto_publicDependency m) (FileDescriptorProto_weakDependency m) (FileDescriptorProto_messageType m) v (FileDescriptorProto_service m) (FileDescriptorProto_extension m) (FileDescriptorProto_options m) (FileDescriptorProto_sourceCodeInfo m) (FileDescriptorProto_syntax m) (FileDescriptorProto_unknowns m).
Definition set_FileDescriptorProto_service (v : list ServiceDescriptorProto) (m : FileDescriptorProto) : FileDescriptorProto :=
  mkFileDescriptorProto (FileDescriptorProto_name m) (FileDescriptorProto_package m) (FileDescriptorProto_dependency m) (FileDescriptorProto_publicDependency m) (FileDescriptorProto_weakDependency m) (FileDescriptorProto_messageType m) (FileDescriptorProto_enumType m) v (FileDescriptorProto_extension m) (FileDescriptorProto_options m) (FileDescriptorProto_sourceCodeInfo m) (FileDescriptorProto_syntax m) (FileDescriptorProto_unknowns m).
Definition set_FileDescriptorProto_extension (v : list FieldDescriptorProto) (m : FileDescriptorProto) : FileDescriptorProto :=
  mkFileDescriptorProto (FileDescriptorProto_name m) (FileDescriptorProto_package m) (FileDescriptorProto_dependency m) (FileDescriptorProto_publicDependency m) (FileDescriptorProto_weakDependency m) (FileDescriptorProto_messageType m) (FileDescriptorProto_enumType m) (FileDescriptorProto_service m) v (FileDescriptorProto_options m) (FileDescriptorProto_sourceCodeInfo m) (FileDescriptorProto_syntax m) (FileDescriptorProto_unknowns m).
Definition set_FileDescriptorProto_options (v : option FileOptions) (m : FileDescriptorProto) : FileDescriptorProto :=
  mkFileDescriptorProto (FileDescriptorProto_name m) (FileDescriptorProto_package m) (FileDescriptorProto_dependency m) (FileDescriptorProto_publicDependency m) (FileDescriptorProto_weakDependency m) (FileDescriptorProto_messageType m) (FileDescriptorProto_enumType m) (FileDescriptorProto_service m) (FileDescriptorProto_extension m) v (FileDescriptorProto_sourceCodeInfo m) (FileDescriptorProto_syntax m) (FileDescriptorProto_unknowns m).
Definition set_FileDescriptorProto_sourceCodeInfo (v : option SourceCodeInfo) (m : FileDescriptorProto) : FileDescriptorProto :=
  mkFileDescriptorProto (FileDescriptorProto_name m) (FileDescriptorProto_package m) (FileDescriptorProto_dependency m) (FileDescriptorProto_publicDependency m) (FileDescriptorProto_weakDependency m) (FileDescriptorProto_messageType m) (FileDescriptorProto_enumType m) (FileDescriptorProto_service m) (FileDescriptorProto_extension m) (FileDescriptorProto_options m) v (FileDescriptorProto_syntax m) (FileDescriptorProto_unknowns m).
Definition set_FileDescriptorProto_syntax (v : option string) (m : FileDescriptorProto) : FileDescriptorProto :=
  mkFileDescriptorProto (FileDescriptorProto_name m) (FileDescriptorProto_package m) (FileDescriptorProto_dependency m) (FileDescriptorProto_publicDependency m) (FileDescriptorProto_weakDependency m) (FileDescriptorProto_messageType m) (FileDescriptorProto_enumType m) (FileDescriptorProto_service m) (FileDescriptorProto_extension m) (FileDescriptorProto_options m) (FileDescriptorProto_sourceCodeInfo m) v (FileDescriptorProto_unknowns m).
Definition FileDescriptorProto_push_unknown (b : bytes) (m : FileDescriptorProto) : FileDescriptorProto :=
  mkFileDescriptorProto (FileDescriptorProto_name m) (FileDescriptorProto_package m) (FileDescriptorProto_dependency m) (FileDescriptorProto_publicDependency m) (FileDescriptorProto_weakDependency m) (FileDescriptorProto_messageType m) (FileDescriptorProto_enumType m) (FileDescriptorProto_service m) (FileDescriptorProto_extension m) (FileDescriptorProto_options m) (FileDescriptorProto_sourceCodeInfo m) (FileDescriptorProto_syntax m) (Some (default [] (FileDescriptorProto_unknowns m) ++ [b])).

Definition FileDescriptorProto_encode (message : FileDescriptorProto) (writer : option Writer) (_depth : option Z) : res Writer :=
  let writer := default W_create writer in
  let _depth := default 0 _depth in
  depth_check util_recursionLimit _depth (
    let writer := own (FileDescriptorProto_name message) (λ v w, W_string v (W_uint32 10 w)) writer in
    let writer := own (FileDescriptorProto_package message) (λ v w, W_string v (W_uint32 18 w)) writer in
    let writer := each 26 W_string (FileDescriptorProto_dependency message) writer in
    let! writer := nested_all 34 DescriptorProto_encode _depth (FileDescriptorProto_messageType message) writer in
    let! writer := nested_all 42 EnumDescriptorProto_encode _depth (FileDescriptorProto_enumType message) writer in
    let! writer := nested_all 50 ServiceDescriptorProto_encode _depth (FileDescriptorProto_service message) writer in
    let! writer := nested_all 58 FieldDescriptorProto_encode _depth (FileDescriptorProto_extension message) writer in
    let! writer := own_msg (FileDescriptorProto_options message) (nested 66 FileOptions_encode _depth) writer in
    let! writer := own_msg (FileDescriptorProto_sourceCodeInfo message) (nested 74 SourceCodeInfo_encode _depth) writer in
    let writer := each 80 W_int32 (FileDescriptorProto_publicDependency message) writer in
    let writer := each 88 W_int32 (FileDescriptorProto_weakDependency message) writer in
    let writer := own (FileDescriptorProto_syntax message) (λ v w, W_string v (W_uint32 98 w)) writer in
    Ok (put_unknowns (FileDescriptorProto_unknowns message) writer)).

Definition FileDescriptorProto_encodeDelimited (message : FileDescriptorProto) (writer : option Writer) : res Writer :=
  delimited FileDescriptorProto_encode message writer.

Definition FileDescriptorProto_switch (_depth field wireType : Z) (message : FileDescriptorProto) (reader : Reader)
    : option (res (FileDescriptorProto * Reader)) :=
  match field with
  | 1 => when_wire wireType 2 (dec_set R_string set_FileDescriptorProto_name message reader)
  | 2 => when_wire wireType 2 (dec_set R_string set_FileDescriptorProto_package message reader)
  | 3 => when_wire wireType 2 (dec_each R_string FileDescriptorProto_dependency set_FileDescriptorProto_dependency message reader)
  | 10 => dec_numbers R_int32 wireType FileDescriptorProto_publicDependency set_FileDescriptorProto_publicDependency message reader
  | 11 => dec_numbers R_int32 wireType FileDescriptorProto_weakDependency set_FileDescriptorProto_weakDependency message reader
  | 4 => when_wire wireType 2 (dec_push DescriptorProto_decode _depth FileDescriptorProto_messageType set_FileDescriptorProto_messageType message reader)
  | 5 => when_wire wireType 2 (dec_push EnumDescriptorProto_decode _depth FileDescriptorProto_enumType set_FileDescriptorProto_enumType message reader)
  | 6 => when_wire wireType 2 (dec_push ServiceDescriptorProto_decode _depth FileDescriptorProto_service set_FileDescriptorProto_service message reader)
  | 7 => when_wire wireType 2 (dec_push FieldDescriptorProto_decode _depth FileDescriptorProto_extension set_FileDescriptorProto_extension message reader)
  | 8 => when_wire wireType 2 (dec_msg FileOptions_decode _depth FileDescriptorProto_options (λ v, set_FileDescriptorProto_options (Some v)) message reader)
  | 9 => when_wire wireType 2 (dec_msg SourceCodeInfo_decode _depth FileDescriptorProto_sourceCodeInfo (λ v, set_FileDescriptorProto_sourceCodeInfo (Some v)) message reader)
  | 12 => when_wire wireType 2 (dec_set R_string set_FileDescriptorProto_syntax message reader)
  | _ => None
  end.

Definition FileDescriptorProto_decode : decoder FileDescriptorProto := λ reader length _end _depth _target,
  let _depth := default 0 _depth in
  decode_with (FileDescriptorProto_switch _depth) FileDescriptorProto_push_unknown _depth FileDescriptorProto_new reader length _end _target.

Definition FileDescriptorProto_decodeDelimited (reader : Reader) : res (FileDescriptorProto * Reader) :=
  decode_delimited FileDescriptorProto_decode reader.

Definition FileDescriptorProto_getTypeUrl (prefix : option string) : string :=
  default "type.googleapis.com"%string prefix +:+ "/google.protobuf.FileDescriptorProto".

(** ** [FileDescriptorSet] *)

Record FileDescriptorSet := mkFileDescriptorSet {
  FileDescriptorSet_file : list FileDescriptorProto;
  FileDescriptorSet_unknowns : option (list bytes);
}.

Definition FileDescriptorSet_new : FileDescriptorSet :=
  mkFileDescriptorSet [] None.

Definition set_FileDescriptorSet_file (v : list FileDescriptorProto) (m : FileDescriptorSet) : FileDescriptorSet :=
  mkFileDescriptorSet v (FileDescriptorSet_unknowns m).
Definition FileDescriptorSet_push_unknown (b : bytes) (m : FileDescriptorSet) : FileDescriptorSet :=
  mkFileDescriptorSet (FileDescriptorSet_file m) (Some (default [] (FileDescriptorSet_unknowns m) ++ [b])).

Definition FileDescriptorSet_encode (message : FileDescriptorSet) (writer : option Writer) (_depth : option Z) : res Writer :=
  let writer := default W_create writer in
  let _depth := default 0 _depth in
  depth_check util_recursionLimit _depth (
    let! writer := nested_all 10 FileDescriptorProto_encode _depth (FileDescriptorSet_file message) writer in
    Ok (put_unknowns (FileDescriptorSet_unknowns message) writer)).

Definition FileDescriptorSet_encodeDelimited (message : FileDescriptorSet) (writer : option Writer) : res Writer :=
  delimited FileDescriptorSet_encode message writer.

Definition FileDescriptorSet_switch (_depth field wireType : Z) (message : FileDescriptorSet) (reader : Reader)
    : option (res (FileDescriptorSet * Reader)) :=
  match field with
  | 1 => when_wire wireType 2 (dec_push FileDescriptorProto_decode _depth FileDescriptorSet_file set_FileDescriptorSet_file message reader)
  | _ => None
  end.

Definition FileDescriptorSet_decode : decoder FileDescriptorSet := λ reader length _end _depth _target,
  let _depth := default 0 _depth in
  decode_with (FileDescriptorSet_switch _depth) FileDescriptorSet_push_unknown _depth FileDescriptorSet_new reader length _end _target.

Definition FileDescriptorSet_decodeDelimited (reader : Reader) : res (FileDescriptorSet * Reader) :=
  decode_delimited FileDescriptorSet_decode reader.

Definition FileDescriptorSet_getTypeUrl (prefix : option string) : string :=
  default "type.googleapis.com"%string prefix +:+ "/google.protobuf.FileDescriptorSet".

End Messages.
