(* ===== verification/DescCodecs.v ===== *)
(** * The descriptor classes as schemas

    The fields of the classes of [DescHttp], [DescOptions] and [DescProtos].
    That the generated functions are those of the fields is checked by
    computation; their correctness follows.  A rule contains rules and a message
    descriptor contains message descriptors: [HttpRule_codec n] and
    [DescriptorProto_codec n] are the codecs of the messages with at most [n]
    levels, each built from the one below. *)

From S2P Require Import Prelude JsNum ProtoRuntime ProtoLaws ProtoSchema DescHttp DescOptions DescProtos.
Open Scope Z_scope.

Section Classes.
Context `{RL : RuntimeLaws}.

(** ** [CustomHttpPattern] *)

Definition CustomHttpPattern_fields : list (field CustomHttpPattern) := [
    opt_field 10 kString CustomHttpPattern_kind set_CustomHttpPattern_kind;
    opt_field 18 kString CustomHttpPattern_path set_CustomHttpPattern_path].

#[export] Instance CustomHttpPattern_codec : Codec CustomHttpPattern_encode CustomHttpPattern_decode.
Proof. refine (schema_codec _ _ CustomHttpPattern_fields CustomHttpPattern_new CustomHttpPattern_unknowns CustomHttpPattern_push_unknown CustomHttpPattern_switch _ _ _ _ _ _);
  [reflexivity|reflexivity|solve_fields|solve_cases|solve_ready|intros d; unfold CustomHttpPattern_switch; solve_switch]. Defined.

(** ** [HttpRule] *)

(** [message.pattern = name] only touches the members of the oneof. *)
Lemma HttpRule_set_pattern_keeps (P : HttpRule → Prop) name m :
  (∀ f m, P m → P (HttpRule_remove f m)) → P m → P (HttpRule_set_pattern name m).
Proof.
  intros Hf. unfold HttpRule_set_pattern. generalize (oneOfSetter HttpRule_oneOfFields name). intros l.
  revert m. induction l as [|f l IH]; intros m Hm; simpl; [done|]. by apply IH, Hf.
Qed.

(** What the fields outside the oneof, and [custom] until its turn, look like
    while a rule is decoded. *)
Definition HttpRule_rest (m : HttpRule) : Prop :=
  HttpRule_body m = None ∧ HttpRule_custom m = None ∧ HttpRule_additionalBindings m = [] ∧ HttpRule_responseBody m = None.

Lemma HttpRule_remove_rest f m : HttpRule_rest m → HttpRule_rest (HttpRule_remove f m).
Proof. unfold HttpRule_remove. intros (? & ? & ? & ?). by repeat case_match. Qed.

Lemma HttpRule_member_rest {A} tag (k : kind A) get set name v m :
  (∀ x m, HttpRule_rest m → HttpRule_rest (set x m)) → HttpRule_rest m →
  HttpRule_rest (f_norm (oneof_field tag k get set (HttpRule_set_pattern name)) v m).
Proof.
  intros Hset Hm. simpl. destruct (get v) as [x|]; [|done]. apply HttpRule_set_pattern_keeps; [|by apply Hset].
  intros f m'. apply HttpRule_remove_rest.
Qed.

Definition HttpRule_fields (C : Codec HttpRule_encode HttpRule_decode) : list (field HttpRule) := [
    opt_field 10 kString HttpRule_selector set_HttpRule_selector;
    oneof_field 18 kString HttpRule_get set_HttpRule_get (HttpRule_set_pattern "get");
    oneof_field 26 kString HttpRule_put set_HttpRule_put (HttpRule_set_pattern "put");
    oneof_field 34 kString HttpRule_post set_HttpRule_post (HttpRule_set_pattern "post");
    oneof_field 42 kString HttpRule_delete set_HttpRule_delete (HttpRule_set_pattern "delete");
    oneof_field 50 kString HttpRule_patch set_HttpRule_patch (HttpRule_set_pattern "patch");
    opt_field 58 kString HttpRule_body set_HttpRule_body;
    oneof_msg_field 66 CustomHttpPattern_encode CustomHttpPattern_decode HttpRule_custom set_HttpRule_custom (HttpRule_set_pattern "custom");
    msgs_field 90 HttpRule_encode HttpRule_decode (C := C) HttpRule_additionalBindings set_HttpRule_additionalBindings;
    opt_field 98 kString HttpRule_responseBody set_HttpRule_responseBody].

Lemma HttpRule_untouched C v : schema_ready (HttpRule_fields C) v HttpRule_new.
Proof.
  unfold HttpRule_fields. do 6 (split; [done|]).
  match goal with |- schema_ready _ _ ?m => assert (Hm : HttpRule_rest m) end.
  { do 5 (apply HttpRule_member_rest; [by intros x m' (? & ? & ? & ?)|]). done. }
  destruct Hm as (Hb & Hc & Ha & Hr). split; [done|]. split; [done|].
  assert (Hkeep : ∀ (o : option CustomHttpPattern) m, HttpRule_additionalBindings m = [] ∧ HttpRule_responseBody m = None →
    HttpRule_additionalBindings (match o with Some x => HttpRule_set_pattern "custom" (set_HttpRule_custom (Some (c_norm x)) m) | None => m end) = [] ∧
    HttpRule_responseBody (match o with Some x => HttpRule_set_pattern "custom" (set_HttpRule_custom (Some (c_norm x)) m) | None => m end) = None).
  { intros [x|] m' Hm'; [|done].
    apply (HttpRule_set_pattern_keeps (λ m, HttpRule_additionalBindings m = [] ∧ HttpRule_responseBody m = None)); [|done].
    intros f m''. unfold HttpRule_remove. simpl. intros. by repeat case_match. }
  simpl. edestruct Hkeep as [H1 H2]; [|split; [exact H1|split; [exact H2|done]]]. done.
Qed.

Lemma HttpRule_switch_ext dec dec' d f w m r :
  (∀ r l e t, dec r l e (Some (d + 1)) t = dec' r l e (Some (d + 1)) t) →
  HttpRule_switch dec d f w m r = HttpRule_switch dec' d f w m r.
Proof.
  intros H. unfold HttpRule_switch. repeat case_match; try done. f_equal. by apply dec_push_ext.
Qed.

Lemma HttpRule_switch_safe dec d : decoder_safe dec → switch_safe (HttpRule_switch dec d).
Proof. intros Hdec. unfold HttpRule_switch. solve_switch. Qed.

Lemma HttpRule_decode_unfold r l e d t : HttpRule_decode r l e d t =
  decode_with (HttpRule_switch HttpRule_decode (default 0 d)) HttpRule_push_unknown (default 0 d) HttpRule_new r l e t.
Proof. apply (decode_nested_unfold HttpRule_new HttpRule_push_unknown HttpRule_switch), HttpRule_switch_ext. Qed.

Lemma HttpRule_decode_safe : decoder_safe HttpRule_decode.
Proof.
  apply (decode_nested_safe HttpRule_new HttpRule_push_unknown HttpRule_switch); [apply HttpRule_switch_ext|apply HttpRule_switch_safe].
Qed.

Lemma HttpRule_encode_default v w d :
  HttpRule_encode v w d = HttpRule_encode v (Some (default W_create w)) (Some (default 0 d)).
Proof. by destruct v. Qed.

(** The codec with one more level. *)
Definition HttpRule_step (C : Codec HttpRule_encode HttpRule_decode) : Codec HttpRule_encode HttpRule_decode.
Proof. refine (schema_codec _ _ (HttpRule_fields C) HttpRule_new HttpRule_unknowns HttpRule_push_unknown (HttpRule_switch HttpRule_decode) _ _ _ _ _ _);
  [by intros []|apply HttpRule_decode_unfold|solve_fields|solve_cases|apply HttpRule_untouched|intros d; apply HttpRule_switch_safe, HttpRule_decode_safe]. Defined.

Fixpoint HttpRule_codec (n : nat) : Codec HttpRule_encode HttpRule_decode :=
  match n with
  | O => void_codec _ _ HttpRule_decode_safe HttpRule_encode_default (λ r l e d t, eq_trans (HttpRule_decode_unfold r l e d t) (eq_sym (HttpRule_decode_unfold r l e (Some (default 0 d)) t)))
  | S n' => HttpRule_step (HttpRule_codec n')
  end.

(** The messages considered below have at most this many levels of rules, and
    of message descriptors. *)
Context (levels : nat).

#[export] Instance HttpRule_at : Codec HttpRule_encode HttpRule_decode := HttpRule_codec levels.

(** ** [Http] *)

Definition Http_fields : list (field Http) := [
    msgs_field 10 HttpRule_encode HttpRule_decode Http_rules set_Http_rules;
    opt_field 16 kBool Http_fullyDecodeReservedExpansion set_Http_fullyDecodeReservedExpansion].

#[export] Instance Http_codec : Codec Http_encode Http_decode.
Proof. refine (schema_codec _ _ Http_fields Http_new Http_unknowns Http_push_unknown Http_switch _ _ _ _ _ _);
  [reflexivity|reflexivity|solve_fields|solve_cases|solve_ready|intros d; unfold Http_switch; solve_switch]. Defined.

(** ** [NamePart] *)

Definition NamePart_fields : list (field NamePart) := [
    req_field 10 kText NamePart_namePart set_NamePart_namePart "";
    req_field 16 kBool NamePart_isExtension set_NamePart_isExtension false].

#[export] Instance NamePart_loop_codec : Codec NamePart_encode NamePart_loop.
Proof. refine (schema_codec _ _ NamePart_fields NamePart_new NamePart_unknowns NamePart_push_unknown NamePart_switch _ _ _ _ _ _);
  [reflexivity|reflexivity|solve_fields|solve_cases|solve_ready|intros d; unfold NamePart_switch; solve_switch]. Defined.

#[export] Instance NamePart_codec : Codec NamePart_encode NamePart_decode :=
  checked_codec _ _ _ NamePart_loop_codec NamePart_missing (λ _ _ _ _ _, eq_refl) (λ _, eq_refl).

(** ** [UninterpretedOption] *)

Definition UninterpretedOption_fields : list (field UninterpretedOption) := [
    msgs_field 18 NamePart_encode NamePart_decode UninterpretedOption_name set_UninterpretedOption_name;
    opt_field 26 (explicit kText) UninterpretedOption_identifierValue set_UninterpretedOption_identifierValue;
    opt_field 32 (explicit kUint64) UninterpretedOption_positiveIntValue set_UninterpretedOption_positiveIntValue;
    opt_field 40 (explicit kInt64) UninterpretedOption_negativeIntValue set_UninterpretedOption_negativeIntValue;
    opt_field 49 (explicit kDouble) UninterpretedOption_doubleValue set_UninterpretedOption_doubleValue;
    opt_field 58 (explicit kBytes) UninterpretedOption_stringValue set_UninterpretedOption_stringValue;
    opt_field 66 (explicit kText) UninterpretedOption_aggregateValue set_UninterpretedOption_aggregateValue].

#[export] Instance UninterpretedOption_codec : Codec UninterpretedOption_encode UninterpretedOption_decode.
Proof. refine (schema_codec _ _ UninterpretedOption_fields UninterpretedOption_new UninterpretedOption_unknowns UninterpretedOption_push_unknown UninterpretedOption_switch _ _ _ _ _ _);
  [reflexivity|reflexivity|solve_fields|solve_cases|solve_ready|intros d; unfold UninterpretedOption_switch; solve_switch]. Defined.

(** ** [ExtensionRangeOptions] *)

Definition ExtensionRangeOptions_fields : list (field ExtensionRangeOptions) := [
    msgs_field 7994 UninterpretedOption_encode UninterpretedOption_decode ExtensionRangeOptions_uninterpretedOption set_ExtensionRangeOptions_uninterpretedOption].

#[export] Instance ExtensionRangeOptions_codec : Codec ExtensionRangeOptions_encode ExtensionRangeOptions_decode.
Proof. refine (schema_codec _ _ ExtensionRangeOptions_fields ExtensionRangeOptions_new ExtensionRangeOptions_unknowns ExtensionRangeOptions_push_unknown ExtensionRangeOptions_switch _ _ _ _ _ _);
  [reflexivity|reflexivity|solve_fields|solve_cases|solve_ready|intros d; unfold ExtensionRangeOptions_switch; solve_switch]. Defined.

(** ** [FileOptions] *)

Definition FileOptions_fields : list (field FileOptions) := [
    opt_field 10 (explicit kText) FileOptions_javaPackage set_FileOptions_javaPackage;
    opt_field 66 (explicit kText) FileOptions_javaOuterClassname set_FileOptions_javaOuterClassname;
    opt_field 72 (explicit kInt32) FileOptions_optimizeFor set_FileOptions_optimizeFor;
    opt_field 80 (explicit kBool) FileOptions_javaMultipleFiles set_FileOptions_javaMultipleFiles;
    opt_field 90 (explicit kText) FileOptions_goPackage set_FileOptions_goPackage;
    opt_field 128 (explicit kBool) FileOptions_ccGenericServices set_FileOptions_ccGenericServices;
    opt_field 136 (explicit kBool) FileOptions_javaGenericServices set_FileOptions_javaGenericServices;
    opt_field 144 (explicit kBool) FileOptions_pyGenericServices set_FileOptions_pyGenericServices;
    opt_field 160 (explicit kBool) FileOptions_javaGenerateEqualsAndHash set_FileOptions_javaGenerateEqualsAndHash;
    opt_field 184 (explicit kBool) FileOptions_deprecated set_FileOptions_deprecated;
    opt_field 216 (explicit kBool) FileOptions_javaStringCheckUtf8 set_FileOptions_javaStringCheckUtf8;
    opt_field 248 (explicit kBool) FileOptions_ccEnableArenas set_FileOptions_ccEnableArenas;
    opt_field 290 (explicit kText) FileOptions_objcClassPrefix set_FileOptions_objcClassPrefix;
    opt_field 298 (explicit kText) FileOptions_csharpNamespace set_FileOptions_csharpNamespace;
    opt_field 314 (explicit kText) FileOptions_swiftPrefix set_FileOptions_swiftPrefix;
    opt_field 322 (explicit kText) FileOptions_phpClassPrefix set_FileOptions_phpClassPrefix;
    opt_field 330 (explicit kText) FileOptions_phpNamespace set_FileOptions_phpNamespace;
    opt_field 336 (explicit kBool) FileOptions_phpGenericServices set_FileOptions_phpGenericServices;
    opt_field 354 (explicit kText) FileOptions_phpMetadataNamespace set_FileOptions_phpMetadataNamespace;
    opt_field 362 (explicit kText) FileOptions_rubyPackage set_FileOptions_rubyPackage;
    msgs_field 7994 UninterpretedOption_encode UninterpretedOption_decode FileOptions_uninterpretedOption set_FileOptions_uninterpretedOption].

#[export] Instance FileOptions_codec : Codec FileOptions_encode FileOptions_decode.
Proof. refine (schema_codec _ _ FileOptions_fields FileOptions_new FileOptions_unknowns FileOptions_push_unknown FileOptions_switch _ _ _ _ _ _);
  [reflexivity|reflexivity|solve_fields|solve_cases|solve_ready|intros d; unfold FileOptions_switch; solve_switch]. Defined.

(** ** [MessageOptions] *)

Definition MessageOptions_fields : list (field MessageOptions) := [
    opt_field 8 (explicit kBool) MessageOptions_messageSetWireFormat set_MessageOptions_messageSetWireFormat;
    opt_field 16 (explicit kBool) MessageOptions_noStandardDescriptorAccessor set_MessageOptions_noStandardDescriptorAccessor;
    opt_field 24 (explicit kBool) MessageOptions_deprecated set_MessageOptions_deprecated;
    opt_field 56 (explicit kBool) MessageOptions_mapEntry set_MessageOptions_mapEntry;
    msgs_field 7994 UninterpretedOption_encode UninterpretedOption_decode MessageOptions_uninterpretedOption set_MessageOptions_uninterpretedOption].

#[export] Instance MessageOptions_codec : Codec MessageOptions_encode MessageOptions_decode.
Proof. refine (schema_codec _ _ MessageOptions_fields MessageOptions_new MessageOptions_unknowns MessageOptions_push_unknown MessageOptions_switch _ _ _ _ _ _);
  [reflexivity|reflexivity|solve_fields|solve_cases|solve_ready|intros d; unfold MessageOptions_switch; solve_switch]. Defined.

(** ** [FieldOptions] *)

Definition FieldOptions_fields : list (field FieldOptions) := [
    opt_field 8 (explicit kInt32) FieldOptions_ctype set_FieldOptions_ctype;
    opt_field 16 (explicit kBool) FieldOptions_packed set_FieldOptions_packed;
    opt_field 24 (explicit kBool) FieldOptions_deprecated set_FieldOptions_deprecated;
    opt_field 40 (explicit kBool) FieldOptions_lazy set_FieldOptions_lazy;
    opt_field 48 (explicit kInt32) FieldOptions_jstype set_FieldOptions_jstype;
    opt_field 80 (explicit kBool) FieldOptions_weak set_FieldOptions_weak;
    opt_field 120 (explicit kBool) FieldOptions_unverifiedLazy set_FieldOptions_unverifiedLazy;
    msgs_field 7994 UninterpretedOption_encode UninterpretedOption_decode FieldOptions_uninterpretedOption set_FieldOptions_uninterpretedOption].

#[export] Instance FieldOptions_codec : Codec FieldOptions_encode FieldOptions_decode.
Proof. refine (schema_codec _ _ FieldOptions_fields FieldOptions_new FieldOptions_unknowns FieldOptions_push_unknown FieldOptions_switch _ _ _ _ _ _);
  [reflexivity|reflexivity|solve_fields|solve_cases|solve_ready|intros d; unfold FieldOptions_switch; solve_switch]. Defined.

(** ** [OneofOptions] *)

Definition OneofOptions_fields : list (field OneofOptions) := [
    msgs_field 7994 UninterpretedOption_encode UninterpretedOption_decode OneofOptions_uninterpretedOption set_OneofOptions_uninterpretedOption].

#[export] Instance OneofOptions_codec : Codec OneofOptions_encode OneofOptions_decode.
Proof. refine (schema_codec _ _ OneofOptions_fields OneofOptions_new OneofOptions_unknowns OneofOptions_push_unknown OneofOptions_switch _ _ _ _ _ _);
  [reflexivity|reflexivity|solve_fields|solve_cases|solve_ready|intros d; unfold OneofOptions_switch; solve_switch]. Defined.

(** ** [EnumOptions] *)

Definition EnumOptions_fields : list (field EnumOptions) := [
    opt_field 16 (explicit kBool) EnumOptions_allowAlias set_EnumOptions_allowAlias;
    opt_field 24 (explicit kBool) EnumOptions_deprecated set_EnumOptions_deprecated;
    msgs_field 7994 UninterpretedOption_encode UninterpretedOption_decode EnumOptions_uninterpretedOption set_EnumOptions_uninterpretedOption].

#[export] Instance EnumOptions_codec : Codec EnumOptions_encode EnumOptions_decode.
Proof. refine (schema_codec _ _ EnumOptions_fields EnumOptions_new EnumOptions_unknowns EnumOptions_push_unknown EnumOptions_switch _ _ _ _ _ _);
  [reflexivity|reflexivity|solve_fields|solve_cases|solve_ready|intros d; unfold EnumOptions_switch; solve_switch]. Defined.

(** ** [EnumValueOptions] *)

Definition EnumValueOptions_fields : list (field EnumValueOptions) := [
    opt_field 8 (explicit kBool) EnumValueOptions_deprecated set_EnumValueOptions_deprecated;
    msgs_field 7994 UninterpretedOption_encode UninterpretedOption_decode EnumValueOptions_uninterpretedOption set_EnumValueOptions_uninterpretedOption].

#[export] Instance EnumValueOptions_codec : Codec EnumValueOptions_encode EnumValueOptions_decode.
Proof. refine (schema_codec _ _ EnumValueOptions_fields EnumValueOptions_new EnumValueOptions_unknowns EnumValueOptions_push_unknown EnumValueOptions_switch _ _ _ _ _ _);
  [reflexivity|reflexivity|solve_fields|solve_cases|solve_ready|intros d; unfold EnumValueOptions_switch; solve_switch]. Defined.

(** ** [ServiceOptions] *)

Definition ServiceOptions_fields : list (field ServiceOptions) := [
    opt_field 264 (explicit kBool) ServiceOptions_deprecated set_ServiceOptions_deprecated;
    msgs_field 7994 UninterpretedOption_encode UninterpretedOption_decode ServiceOptions_uninterpretedOption set_ServiceOptions_uninterpretedOption].

#[export] Instance ServiceOptions_codec : Codec ServiceOptions_encode ServiceOptions_decode.
Proof. refine (schema_codec _ _ ServiceOptions_fields ServiceOptions_new ServiceOptions_unknowns ServiceOptions_push_unknown ServiceOptions_switch _ _ _ _ _ _);
  [reflexivity|reflexivity|solve_fields|solve_cases|solve_ready|intros d; unfold ServiceOptions_switch; solve_switch]. Defined.

(** ** [MethodOptions] *)

Definition MethodOptions_fields : list (field MethodOptions) := [
    opt_field 264 (explicit kBool) MethodOptions_deprecated set_MethodOptions_deprecated;
    opt_field 272 (explicit kInt32) MethodOptions_idempotencyLevel set_MethodOptions_idempotencyLevel;
    msgs_field 7994 UninterpretedOption_encode UninterpretedOption_decode MethodOptions_uninterpretedOption set_MethodOptions_uninterpretedOption;
    msg_field 578365826 HttpRule_encode HttpRule_decode MethodOptions_google_api_http set_MethodOptions_google_api_http].

#[export] Instance MethodOptions_codec : Codec MethodOptions_encode MethodOptions_decode.
Proof. refine (schema_codec _ _ MethodOptions_fields MethodOptions_new MethodOptions_unknowns MethodOptions_push_unknown MethodOptions_switch _ _ _ _ _ _);
  [reflexivity|reflexivity|solve_fields|solve_cases|solve_ready|intros d; unfold MethodOptions_switch; solve_switch]. Defined.

(** ** [ExtensionRange] *)

Definition ExtensionRange_fields : list (field ExtensionRange) := [
    opt_field 8 (explicit kInt32) ExtensionRange_start set_ExtensionRange_start;
    opt_field 16 (explicit kInt32) ExtensionRange_end set_ExtensionRange_end;
    msg_field 26 ExtensionRangeOptions_encode ExtensionRangeOptions_decode ExtensionRange_options set_ExtensionRange_options].

#[export] Instance ExtensionRange_codec : Codec ExtensionRange_encode ExtensionRange_decode.
Proof. refine (schema_codec _ _ ExtensionRange_fields ExtensionRange_new ExtensionRange_unknowns ExtensionRange_push_unknown ExtensionRange_switch _ _ _ _ _ _);
  [reflexivity|reflexivity|solve_fields|solve_cases|solve_ready|intros d; unfold ExtensionRange_switch; solve_switch]. Defined.

(** ** [ReservedRange] *)

Definition ReservedRange_fields : list (field ReservedRange) := [
    opt_field 8 (explicit kInt32) ReservedRange_start set_ReservedRange_start;
    opt_field 16 (explicit kInt32) ReservedRange_end set_ReservedRange_end].

#[export] Instance ReservedRange_codec : Codec ReservedRange_encode ReservedRange_decode.
Proof. refine (schema_codec _ _ ReservedRange_fields ReservedRange_new ReservedRange_unknowns ReservedRange_push_unknown ReservedRange_switch _ _ _ _ _ _);
  [reflexivity|reflexivity|solve_fields|solve_cases|solve_ready|intros d; unfold ReservedRange_switch; solve_switch]. Defined.

(** ** [FieldDescriptorProto] *)

Definition FieldDescriptorProto_fields : list (field FieldDescriptorProto) := [
    opt_field 10 (explicit kText) FieldDescriptorProto_name set_FieldDescriptorProto_name;
    opt_field 18 (explicit kText) FieldDescriptorProto_extendee set_FieldDescriptorProto_extendee;
    opt_field 24 (explicit kInt32) FieldDescriptorProto_number set_FieldDescriptorProto_number;
    opt_field 32 (explicit kInt32) FieldDescriptorProto_label set_FieldDescriptorProto_label;
    opt_field 40 (explicit kInt32) FieldDescriptorProto_type set_FieldDescriptorProto_type;
    opt_field 50 (explicit kText) FieldDescriptorProto_typeName set_FieldDescriptorProto_typeName;
    opt_field 58 (explicit kText) FieldDescriptorProto_defaultValue set_FieldDescriptorProto_defaultValue;
    msg_field 66 FieldOptions_encode FieldOptions_decode FieldDescriptorProto_options set_FieldDescriptorProto_options;
    opt_field 72 (explicit kInt32) FieldDescriptorProto_oneofIndex set_FieldDescriptorProto_oneofIndex;
    opt_field 82 (explicit kText) FieldDescriptorProto_jsonName set_FieldDescriptorProto_jsonName;
    opt_field 136 (explicit kBool) FieldDescriptorProto_proto3Optional set_FieldDescriptorProto_proto3Optional].

#[export] Instance FieldDescriptorProto_codec : Codec FieldDescriptorProto_encode FieldDescriptorProto_decode.
Proof. refine (schema_codec _ _ FieldDescriptorProto_fields FieldDescriptorProto_new FieldDescriptorProto_unknowns FieldDescriptorProto_push_unknown FieldDescriptorProto_switch _ _ _ _ _ _);
  [reflexivity|reflexivity|solve_fields|solve_cases|solve_ready|intros d; unfold FieldDescriptorProto_switch; solve_switch]. Defined.

(** ** [OneofDescriptorProto] *)

Definition OneofDescriptorProto_fields : list (field OneofDescriptorProto) := [
    opt_field 10 (explicit kText) OneofDescriptorProto_name set_OneofDescriptorProto_name;
    msg_field 18 OneofOptions_encode OneofOptions_decode OneofDescriptorProto_options set_OneofDescriptorProto_options].

#[export] Instance OneofDescriptorProto_codec : Codec OneofDescriptorProto_encode OneofDescriptorProto_decode.
Proof. refine (schema_codec _ _ OneofDescriptorProto_fields OneofDescriptorProto_new OneofDescriptorProto_unknowns OneofDescriptorProto_push_unknown OneofDescriptorProto_switch _ _ _ _ _ _);
  [reflexivity|reflexivity|solve_fields|solve_cases|solve_ready|intros d; unfold OneofDescriptorProto_switch; solve_switch]. Defined.

(** ** [EnumReservedRange] *)

Definition EnumReservedRange_fields : list (field EnumReservedRange) := [
    opt_field 8 (explicit kInt32) EnumReservedRange_start set_EnumReservedRange_start;
    opt_field 16 (explicit kInt32) EnumReservedRange_end set_EnumReservedRange_end].

#[export] Instance EnumReservedRange_codec : Codec EnumReservedRange_encode EnumReservedRange_decode.
Proof. refine (schema_codec _ _ EnumReservedRange_fields EnumReservedRange_new EnumReservedRange_unknowns EnumReservedRange_push_unknown EnumReservedRange_switch _ _ _ _ _ _);
  [reflexivity|reflexivity|solve_fields|solve_cases|solve_ready|intros d; unfold EnumReservedRange_switch; solve_switch]. Defined.

(** ** [EnumValueDescriptorProto] *)

Definition EnumValueDescriptorProto_fields : list (field EnumValueDescriptorProto) := [
    opt_field 10 (explicit kText) EnumValueDescriptorProto_name set_EnumValueDescriptorProto_name;
    opt_field 16 (explicit kInt32) EnumValueDescriptorProto_number set_EnumValueDescriptorProto_number;
    msg_field 26 EnumValueOptions_encode EnumValueOptions_decode EnumValueDescriptorProto_options set_EnumValueDescriptorProto_options].

#[export] Instance EnumValueDescriptorProto_codec : Codec EnumValueDescriptorProto_encode EnumValueDescriptorProto_decode.
Proof. refine (schema_codec _ _ EnumValueDescriptorProto_fields EnumValueDescriptorProto_new EnumValueDescriptorProto_unknowns EnumValueDescriptorProto_push_unknown EnumValueDescriptorProto_switch _ _ _ _ _ _);
  [reflexivity|reflexivity|solve_fields|solve_cases|solve_ready|intros d; unfold EnumValueDescriptorProto_switch; solve_switch]. Defined.

(** ** [EnumDescriptorProto] *)

Definition EnumDescriptorProto_fields : list (field EnumDescriptorProto) := [
    opt_field 10 (explicit kText) EnumDescriptorProto_name set_EnumDescriptorProto_name;
    msgs_field 18 EnumValueDescriptorProto_encode EnumValueDescriptorProto_decode EnumDescriptorProto_value set_EnumDescriptorProto_value;
    msg_field 26 EnumOptions_encode EnumOptions_decode EnumDescriptorProto_options set_EnumDescriptorProto_options;
    msgs_field 34 EnumReservedRange_encode EnumReservedRange_decode EnumDescriptorProto_reservedRange set_EnumDescriptorProto_reservedRange;
    rep_field 42 kText EnumDescriptorProto_reservedName set_EnumDescriptorProto_reservedName].

#[export] Instance EnumDescriptorProto_codec : Codec EnumDescriptorProto_encode EnumDescriptorProto_decode.
Proof. refine (schema_codec _ _ EnumDescriptorProto_fields EnumDescriptorProto_new EnumDescriptorProto_unknowns EnumDescriptorProto_push_unknown EnumDescriptorProto_switch _ _ _ _ _ _);
  [reflexivity|reflexivity|solve_fields|solve_cases|solve_ready|intros d; unfold EnumDescriptorProto_switch; solve_switch]. Defined.

(** ** [DescriptorProto] *)


Definition DescriptorProto_fields (C : Codec DescriptorProto_encode DescriptorProto_decode) : list (field DescriptorProto) := [
    opt_field 10 (explicit kText) DescriptorProto_name set_DescriptorProto_name;
    msgs_field 18 FieldDescriptorProto_encode FieldDescriptorProto_decode DescriptorProto_field set_DescriptorProto_field;
    msgs_field 26 DescriptorProto_encode DescriptorProto_decode (C := C) DescriptorProto_nestedType set_DescriptorProto_nestedType;
    msgs_field 34 EnumDescriptorProto_encode EnumDescriptorProto_decode DescriptorProto_enumType set_DescriptorProto_enumType;
    msgs_field 42 ExtensionRange_encode ExtensionRange_decode DescriptorProto_extensionRange set_DescriptorProto_extensionRange;
    msgs_field 50 FieldDescriptorProto_encode FieldDescriptorProto_decode DescriptorProto_extension set_DescriptorProto_extension;
    msg_field 58 MessageOptions_encode MessageOptions_decode DescriptorProto_options set_DescriptorProto_options;
    msgs_field 66 OneofDescriptorProto_encode OneofDescriptorProto_decode DescriptorProto_oneofDecl set_DescriptorProto_oneofDecl;
    msgs_field 74 ReservedRange_encode ReservedRange_decode DescriptorProto_reservedRange set_DescriptorProto_reservedRange;
    rep_field 82 kText DescriptorProto_reservedName set_DescriptorProto_reservedName].

Lemma DescriptorProto_switch_ext dec dec' d f w m r :
  (∀ r l e t, dec r l e (Some (d + 1)) t = dec' r l e (Some (d + 1)) t) →
  DescriptorProto_switch dec d f w m r = DescriptorProto_switch dec' d f w m r.
Proof.
  intros H. unfold DescriptorProto_switch. repeat case_match; try done. f_equal. by apply dec_push_ext.
Qed.

Lemma DescriptorProto_switch_safe dec d : decoder_safe dec → switch_safe (DescriptorProto_switch dec d).
Proof. intros Hdec. unfold DescriptorProto_switch. solve_switch. Qed.

Lemma DescriptorProto_decode_unfold r l e d t : DescriptorProto_decode r l e d t =
  decode_with (DescriptorProto_switch DescriptorProto_decode (default 0 d)) DescriptorProto_push_unknown (default 0 d) DescriptorProto_new r l e t.
Proof. apply (decode_nested_unfold DescriptorProto_new DescriptorProto_push_unknown DescriptorProto_switch), DescriptorProto_switch_ext. Qed.

Lemma DescriptorProto_decode_safe : decoder_safe DescriptorProto_decode.
Proof.
  apply (decode_nested_safe DescriptorProto_new DescriptorProto_push_unknown DescriptorProto_switch); [apply DescriptorProto_switch_ext|apply DescriptorProto_switch_safe].
Qed.

Lemma DescriptorProto_encode_default v w d :
  DescriptorProto_encode v w d = DescriptorProto_encode v (Some (default W_create w)) (Some (default 0 d)).
Proof. by destruct v. Qed.

(** The codec with one more level. *)
Definition DescriptorProto_step (C : Codec DescriptorProto_encode DescriptorProto_decode) : Codec DescriptorProto_encode DescriptorProto_decode.
Proof. refine (schema_codec _ _ (DescriptorProto_fields C) DescriptorProto_new DescriptorProto_unknowns DescriptorProto_push_unknown (DescriptorProto_switch DescriptorProto_decode) _ _ _ _ _ _);
  [by intros []|apply DescriptorProto_decode_unfold|solve_fields|solve_cases|solve_ready|intros d; apply DescriptorProto_switch_safe, DescriptorProto_decode_safe]. Defined.

Fixpoint DescriptorProto_codec (n : nat) : Codec DescriptorProto_encode DescriptorProto_decode :=
  match n with
  | O => void_codec _ _ DescriptorProto_decode_safe DescriptorProto_encode_default (λ r l e d t, eq_trans (DescriptorProto_decode_unfold r l e d t) (eq_sym (DescriptorProto_decode_unfold r l e (Some (default 0 d)) t)))
  | S n' => DescriptorProto_step (DescriptorProto_codec n')
  end.

#[export] Instance DescriptorProto_at : Codec DescriptorProto_encode DescriptorProto_decode := DescriptorProto_codec levels.

(** ** [MethodDescriptorProto] *)

Definition MethodDescriptorProto_fields : list (field MethodDescriptorProto) := [
    opt_field 10 (explicit kText) MethodDescriptorProto_name set_MethodDescriptorProto_name;
    opt_field 18 (explicit kText) MethodDescriptorProto_inputType set_MethodDescriptorProto_inputType;
    opt_field 26 (explicit kText) MethodDescriptorProto_outputType set_MethodDescriptorProto_outputType;
    msg_field 34 MethodOptions_encode MethodOptions_decode MethodDescriptorProto_options set_MethodDescriptorProto_options;
    opt_field 40 (explicit kBool) MethodDescriptorProto_clientStreaming set_MethodDescriptorProto_clientStreaming;
    opt_field 48 (explicit kBool) MethodDescriptorProto_serverStreaming set_MethodDescriptorProto_serverStreaming].

#[export] Instance MethodDescriptorProto_codec : Codec MethodDescriptorProto_encode MethodDescriptorProto_decode.
Proof. refine (schema_codec _ _ MethodDescriptorProto_fields MethodDescriptorProto_new MethodDescriptorProto_unknowns MethodDescriptorProto_push_unknown MethodDescriptorProto_switch _ _ _ _ _ _);
  [reflexivity|reflexivity|solve_fields|solve_cases|solve_ready|intros d; unfold MethodDescriptorProto_switch; solve_switch]. Defined.

(** ** [ServiceDescriptorProto] *)

Definition ServiceDescriptorProto_fields : list (field ServiceDescriptorProto) := [
    opt_field 10 (explicit kText) ServiceDescriptorProto_name set_ServiceDescriptorProto_name;
    msgs_field 18 MethodDescriptorProto_encode MethodDescriptorProto_decode ServiceDescriptorProto_method set_ServiceDescriptorProto_method;
    msg_field 26 ServiceOptions_encode ServiceOptions_decode ServiceDescriptorProto_options set_ServiceDescriptorProto_options].

#[export] Instance ServiceDescriptorProto_codec : Codec ServiceDescriptorProto_encode ServiceDescriptorProto_decode.
Proof. refine (schema_codec _ _ ServiceDescriptorProto_fields ServiceDescriptorProto_new ServiceDescriptorProto_unknowns ServiceDescriptorProto_push_unknown ServiceDescriptorProto_switch _ _ _ _ _ _);
  [reflexivity|reflexivity|solve_fields|solve_cases|solve_ready|intros d; unfold ServiceDescriptorProto_switch; solve_switch]. Defined.

(** ** [Location] *)

Definition Location_fields : list (field Location) := [
    packed_field 10 kInt32 Location_path set_Location_path;
    packed_field 18 kInt32 Location_span set_Location_span;
    opt_field 26 (explicit kText) Location_leadingComments set_Location_leadingComments;
    opt_field 34 (explicit kText) Location_trailingComments set_Location_trailingComments;
    rep_field 50 kText Location_leadingDetachedComments set_Location_leadingDetachedComments].

#[export] Instance Location_codec : Codec Location_encode Location_decode.
Proof. refine (schema_codec _ _ Location_fields Location_new Location_unknowns Location_push_unknown Location_switch _ _ _ _ _ _);
  [reflexivity|reflexivity|solve_fields|solve_cases|solve_ready|intros d; unfold Location_switch; solve_switch]. Defined.

(** ** [SourceCodeInfo] *)

Definition SourceCodeInfo_fields : list (field SourceCodeInfo) := [
    msgs_field 10 Location_encode Location_decode SourceCodeInfo_location set_SourceCodeInfo_location].

#[export] Instance SourceCodeInfo_codec : Codec SourceCodeInfo_encode SourceCodeInfo_decode.
Proof. refine (schema_codec _ _ SourceCodeInfo_fields SourceCodeInfo_new SourceCodeInfo_unknowns SourceCodeInfo_push_unknown SourceCodeInfo_switch _ _ _ _ _ _);
  [reflexivity|reflexivity|solve_fields|solve_cases|solve_ready|intros d; unfold SourceCodeInfo_switch; solve_switch]. Defined.

(** ** [Annotation] *)

Definition Annotation_fields : list (field Annotation) := [
    packed_field 10 kInt32 Annotation_path set_Annotation_path;
    opt_field 18 (explicit kText) Annotation_sourceFile set_Annotation_sourceFile;
    opt_field 24 (explicit kInt32) Annotation_begin set_Annotation_begin;
    opt_field 32 (explicit kInt32) Annotation_end set_Annotation_end].

#[export] Instance Annotation_codec : Codec Annotation_encode Annotation_decode.
Proof. refine (schema_codec _ _ Annotation_fields Annotation_new Annotation_unknowns Annotation_push_unknown Annotation_switch _ _ _ _ _ _);
  [reflexivity|reflexivity|solve_fields|solve_cases|solve_ready|intros d; unfold Annotation_switch; solve_switch]. Defined.

(** ** [GeneratedCodeInfo] *)

Definition GeneratedCodeInfo_fields : list (field GeneratedCodeInfo) := [
    msgs_field 10 Annotation_encode Annotation_decode GeneratedCodeInfo_annotation set_GeneratedCodeInfo_annotation].

#[export] Instance GeneratedCodeInfo_codec : Codec GeneratedCodeInfo_encode GeneratedCodeInfo_decode.
Proof. refine (schema_codec _ _ GeneratedCodeInfo_fields GeneratedCodeInfo_new GeneratedCodeInfo_unknowns GeneratedCodeInfo_push_unknown GeneratedCodeInfo_switch _ _ _ _ _ _);
  [reflexivity|reflexivity|solve_fields|solve_cases|solve_ready|intros d; unfold GeneratedCodeInfo_switch; solve_switch]. Defined.

(** ** [FileDescriptorProto] *)

Definition FileDescriptorProto_fields : list (field FileDescriptorProto) := [
    opt_field 10 (explicit kText) FileDescriptorProto_name set_FileDescriptorProto_name;
    opt_field 18 (explicit kText) FileDescriptorProto_package set_FileDescriptorProto_package;
    rep_field 26 kText FileDescriptorProto_dependency set_FileDescriptorProto_dependency;
    msgs_field 34 DescriptorProto_encode DescriptorProto_decode FileDescriptorProto_messageType set_FileDescriptorProto_messageType;
    msgs_field 42 EnumDescriptorProto_encode EnumDescriptorProto_decode FileDescriptorProto_enumType set_FileDescriptorProto_enumType;
    msgs_field 50 ServiceDescriptorProto_encode ServiceDescriptorProto_decode FileDescriptorProto_service set_FileDescriptorProto_service;
    msgs_field 58 FieldDescriptorProto_encode FieldDescriptorProto_decode FileDescriptorProto_extension set_FileDescriptorProto_extension;
    msg_field 66 FileOptions_encode FileOptions_decode FileDescriptorProto_options set_FileDescriptorProto_options;
    msg_field 74 SourceCodeInfo_encode SourceCodeInfo_decode FileDescriptorProto_sourceCodeInfo set_FileDescriptorProto_sourceCodeInfo;
    nums_field 80 kInt32 FileDescriptorProto_publicDependency set_FileDescriptorProto_publicDependency;
    nums_field 88 kInt32 FileDescriptorProto_weakDependency set_FileDescriptorProto_weakDependency;
    opt_field 98 (explicit kText) FileDescriptorProto_syntax set_FileDescriptorProto_syntax].

#[export] Instance FileDescriptorProto_codec : Codec FileDescriptorProto_encode FileDescriptorProto_decode.
Proof. refine (schema_codec _ _ FileDescriptorProto_fields FileDescriptorProto_new FileDescriptorProto_unknowns FileDescriptorProto_push_unknown FileDescriptorProto_switch _ _ _ _ _ _);
  [reflexivity|reflexivity|solve_fields|solve_cases|solve_ready|intros d; unfold FileDescriptorProto_switch; solve_switch]. Defined.

(** ** [FileDescriptorSet] *)

Definition FileDescriptorSet_fields : list (field FileDescriptorSet) := [
    msgs_field 10 FileDescriptorProto_encode FileDescriptorProto_decode FileDescriptorSet_file set_FileDescriptorSet_file].

#[export] Instance FileDescriptorSet_codec : Codec FileDescriptorSet_encode FileDescriptorSet_decode.
Proof. refine (schema_codec _ _ FileDescriptorSet_fields FileDescriptorSet_new FileDescriptorSet_unknowns FileDescriptorSet_push_unknown FileDescriptorSet_switch _ _ _ _ _ _);
  [reflexivity|reflexivity|solve_fields|solve_cases|solve_ready|intros d; unfold FileDescriptorSet_switch; solve_switch]. Defined.

End Classes.
