(* ===== verification/DescLevels.v ===== *)
(** * How deep descriptor messages go

    Encoding and decoding both count the levels of messages and refuse to go
    past a limit.  [X_level m] is the number of levels of messages inside [m];
    [Levels] states the two sides: [encode] throws exactly when the levels
    exceed [util.recursionLimit], and a message [decode] returns has at most
    the levels [Reader.recursionLimit] allows. *)

From S2P Require Import Prelude JsNum ProtoRuntime ProtoLaws ProtoSchema DescHttp DescOptions DescProtos DescCodecs.
Open Scope Z_scope.

(** The levels an optional or a repeated message adds. *)
Definition h_opt {V} (level : V → Z) (o : option V) : Z := match o with Some x => 1 + level x | None => 0 end.
Definition h_all {V} (level : V → Z) (xs : list V) : Z := foldr (λ x h, Z.max (1 + level x) h) 0 xs.

Lemma h_all_app {V} (level : V → Z) xs ys : h_all level (xs ++ ys) = Z.max (h_all level xs) (h_all level ys).
Proof.
  unfold h_all. induction xs as [|x xs IH]; simpl; [|by rewrite IH, Z.max_assoc].
  induction ys as [|y ys IH]; simpl; lia.
Qed.

Lemma h_all_nonneg {V} (level : V → Z) xs : 0 ≤ h_all level xs.
Proof. unfold h_all. induction xs; simpl; lia. Qed.

Lemma h_all_one {V} (level : V → Z) x : h_all level [x] = Z.max (1 + level x) 0.
Proof. done. Qed.

#[global] Arguments h_all : simpl never.

Section Levels.
Context `{RL : RuntimeLaws}.

(** [c] succeeds when the [h] levels below depth [d] are allowed, and throws
    otherwise. *)
Definition levelled (d h : Z) (c : Writer → res Writer) : Prop := ∀ w,
  (d + h ≤ util_recursionLimit → ∃ w', c w = Ok w') ∧
  (util_recursionLimit < d + h → c w = Throw "max depth exceeded").

Class Levels {V} (enc : V → option Writer → option Z → res Writer) (dec : decoder V) (level : V → Z) : Prop := {
  lv_nonneg v : 0 ≤ level v;
  lv_encode v d : levelled d (level v) (λ w, enc v (Some w) (Some d));
  lv_decode r l e d t m r' : dec r l e (Some d) t = Ok (m, r') →
    (∀ x, t = Some x → d + level x ≤ Reader_recursionLimit) → d + level m ≤ Reader_recursionLimit;
}.

(** ** Encoding *)

(** A statement of [encode], once the depth of the message itself is allowed. *)
Definition runs (d h : Z) (c : Writer → res Writer) : Prop := d ≤ util_recursionLimit → levelled d h c.

Lemma runs_pure d (f : Writer → Writer) : runs d 0 (λ w, Ok (f w)).
Proof. intros Hd w. split; [by eexists|lia]. Qed.

Lemma nested_levelled {V} tag (enc : V → option Writer → option Z → res Writer) d x h :
  levelled (d + 1) h (λ w, enc x (Some w) (Some (d + 1))) → levelled d (1 + h) (nested tag enc d x).
Proof.
  intros Hx w. destruct (Hx (W_fork (W_uint32 tag w))) as [Hok Hdeep]. unfold nested. split; intros Hd.
  - destruct Hok as [w' ->]; [lia|]. by eexists.
  - by rewrite Hdeep by lia.
Qed.

Lemma own_msg_runs {V} tag enc d (level : V → Z) o :
  (∀ x d, levelled d (level x) (λ w, enc x (Some w) (Some d))) → runs d (h_opt level o) (own_msg o (nested tag enc d)).
Proof. intros Hx Hd. destruct o as [x|]; [by apply nested_levelled|]. by apply (runs_pure d id). Qed.

Lemma nested_all_runs {V} tag enc d (level : V → Z) xs :
  Forall (λ x, ∀ d, levelled d (level x) (λ w, enc x (Some w) (Some d))) xs → runs d (h_all level xs) (nested_all tag enc d xs).
Proof.
  intros Hxs Hd. induction Hxs as [|x xs Hx _ IH]; [by apply (runs_pure d id)|]. intros w. simpl.
  destruct (nested_levelled tag enc d x (level x) (Hx _) w) as [Hok Hdeep]. unfold h_all in *. simpl. split; intros Hl.
  - destruct Hok as [w' ->]; [lia|]. destruct (IH w') as [Hok' _]. apply Hok'. lia.
  - destruct (Z.le_gt_cases (d + (1 + level x)) util_recursionLimit) as [Hle|Hgt]; [|by rewrite Hdeep by lia].
    destruct Hok as [w' ->]; [lia|]. destruct (IH w') as [_ Hdeep']. apply Hdeep'. lia.
Qed.

Fixpoint schema_levels {M} (hs : list (M → Z)) (v : M) : Z :=
  match hs with [] => 0 | h :: hs' => Z.max (h v) (schema_levels hs' v) end.

Lemma schema_then_runs {M} (fs : list (field M)) (hs : list (M → Z)) v d u :
  Forall2 (λ f h, runs d (h v) (f_put f d v)) fs hs →
  runs d (schema_levels hs v) (schema_then fs d v (λ w, Ok (put_unknowns u w))).
Proof.
  intros Hfs Hd. induction Hfs as [|f h fs hs Hf _ IH]; [by apply runs_pure|]. intros w. simpl.
  destruct (Hf Hd w) as [Hok Hdeep]. split; intros Hl.
  - destruct Hok as [w' ->]; [lia|]. destruct (IH w') as [Hok' _]. apply Hok'. lia.
  - destruct (Z.le_gt_cases (d + h v) util_recursionLimit) as [Hle|Hgt]; [|by rewrite Hdeep by lia].
    destruct Hok as [w' ->]; [lia|]. destruct (IH w') as [_ Hdeep']. apply Hdeep'. lia.
Qed.

Lemma depth_check_levelled d h c : 0 ≤ h → runs d h c → levelled d h (λ w, depth_check util_recursionLimit d (c w)).
Proof.
  intros Hh Hc w. unfold depth_check. destruct (Z.ltb_spec util_recursionLimit d) as [Hd|Hd]; [|by apply Hc].
  split; [lia|done].
Qed.

(** The levels of [encode], from those of its fields. *)
Lemma encode_levelled {M} (enc : M → option Writer → option Z → res Writer) fs hs level unknowns v d :
  (∀ v w d, enc v w d = depth_check util_recursionLimit (default 0 d)
    (schema_then fs (default 0 d) v (λ w, Ok (put_unknowns (unknowns v) w)) (default W_create w))) →
  Forall2 (λ f h, runs d (h v) (f_put f d v)) fs hs → level v = schema_levels hs v → 0 ≤ level v →
  levelled d (level v) (λ w, enc v (Some w) (Some d)).
Proof.
  intros Henc Hfs Hl Hp w. rewrite Henc. cbn [from_option id].
  apply (depth_check_levelled d (level v) _ Hp). rewrite Hl. by apply schema_then_runs.
Qed.

(** ** Decoding *)

Section Decoding.
Context {M : Type} (level : M → Z) (d : Z).

(** The levels stay allowed. *)
Definition allowed (m : M) : Prop := d + level m ≤ Reader_recursionLimit.
Definition keeps (m : M) (c : res (M * Reader)) : Prop := ∀ m' r', c = Ok (m', r') → allowed m → allowed m'.

Lemma decode_with_allowed switch push new r l e t m r' :
  (∀ f w m r c, switch f w m r = Some c → keeps m c) → (∀ b m, level (push b m) = level m) → level new = 0 →
  decode_with switch push d new r l e t = Ok (m, r') → (∀ x, t = Some x → allowed x) → allowed m.
Proof.
  unfold decode_with, depth_check. intros Hsw Hpush Hnew. destruct (Z.ltb_spec Reader_recursionLimit d) as [Hd|Hd]; [done|].
  intros H Ht. revert H. apply (decode_loop_inv allowed).
  - intros f w m1 r1 m2 r2 HI Hc. by eapply (Hsw f w m1 r1).
  - intros b m1. unfold allowed. by rewrite Hpush.
  - destruct t as [x|]; [by apply Ht|]. unfold allowed. simpl. lia.
Qed.

Lemma keeps_when wire e (c c' : res (M * Reader)) m : when_wire wire e c = Some c' → keeps m c → keeps m c'.
Proof. by intros ->%switch_when. Qed.

Lemma dec_opt_keeps {V} (read : Reader → res (V * Reader)) present (set : option V → M → M) m r :
  (∀ v, level (set v m) ≤ level m) → keeps m (dec_opt read present set m r).
Proof.
  intros Hs m' r'. unfold dec_opt, allowed. destruct (read r) as [[v r1]| |]; simpl; [|done|done].
  intros [= <- <-]. specialize (Hs (if present v then Some v else None)). lia.
Qed.

Lemma dec_set_keeps {V} (read : Reader → res (V * Reader)) (set : option V → M → M) m r :
  (∀ v, level (set v m) ≤ level m) → keeps m (dec_set read set m r).
Proof. apply (dec_opt_keeps read (λ _, true)). Qed.

Lemma dec_each_keeps {V} (read : Reader → res (V * Reader)) (get : M → list V) set m r :
  (∀ v, level (set v m) ≤ level m) → keeps m (dec_each read get set m r).
Proof.
  intros Hs m' r'. unfold dec_each, allowed. destruct (read r) as [[v r1]| |]; simpl; [|done|done].
  intros [= <- <-]. specialize (Hs (get m ++ [v])). lia.
Qed.

Lemma dec_numbers_keeps {V} (read : Reader → res (V * Reader)) wire (get : M → list V) set m r c :
  (∀ v, level (set v m) ≤ level m) → dec_numbers read wire get set m r = Some c → keeps m c.
Proof.
  intros Hs. unfold dec_numbers. destruct (wire =? 2); [intros [= <-]|intros ->%switch_when]; intros m' r'; unfold allowed.
  - destruct (R_uint32 r) as [[n r1]| |]; simpl; [|done|done]. destruct (packed_loop _ _ _ _ _) as [[vs r2]| |]; simpl; [|done|done].
    intros [= <- <-]. specialize (Hs vs). lia.
  - destruct (read r) as [[v r1]| |]; simpl; [|done|done]. intros [= <- <-]. specialize (Hs (get m ++ [v])). lia.
Qed.

Context {V : Type} (dec : decoder V) (lv : V → Z).
Context (Hdec : ∀ r l e t m r', dec r l e (Some (d + 1)) t = Ok (m, r') →
    (∀ x, t = Some x → d + 1 + lv x ≤ Reader_recursionLimit) → d + 1 + lv m ≤ Reader_recursionLimit).

Lemma dec_push_keeps (get : M → list V) set m r :
  (∀ x, level (set (get m ++ [x]) m) ≤ Z.max (level m) (1 + lv x)) → keeps m (dec_push dec d get set m r).
Proof.
  intros Hs m' r'. unfold dec_push, allowed. destruct (R_uint32 r) as [[n r1]| |]; simpl; [|done|done].
  destruct (dec _ _ _ _ _) as [[x r2]| |] eqn:Hx; simpl; [|done|done]. intros [= <- <-] Hm.
  apply Hdec in Hx; [|done]. specialize (Hs x). lia.
Qed.

Lemma dec_msg_keeps (get : M → option V) set m r :
  (∀ x, get m = Some x → 1 + lv x ≤ level m) →
  (∀ x, level (set x m) ≤ Z.max (level m) (1 + lv x)) → keeps m (dec_msg dec d get set m r).
Proof.
  intros Hg Hs m' r'. unfold dec_msg, allowed. destruct (R_uint32 r) as [[n r1]| |]; simpl; [|done|done].
  destruct (dec _ _ _ _ _) as [[x r2]| |] eqn:Hx; simpl; [|done|done]. intros [= <- <-] Hm.
  apply Hdec in Hx; [|intros y Hy%Hg; lia]. specialize (Hs x). lia.
Qed.
End Decoding.

End Levels.

(** An inequality between maxima whose terms on the left occur on the right. *)
Ltac max_le :=
  first
    [ apply Z.le_refl
    | apply Z.max_lub; max_le
    | etrans; [|apply Z.le_max_l]; max_le
    | etrans; [|apply Z.le_max_r]; max_le ].

(** The scalar fields add no level. *)
Ltac level_zeros := cbn [schema_levels]; repeat rewrite (Z.max_r 0) by max_le; reflexivity.

(** The levels of a message with one field changed. *)
Ltac level_bound := intros; cbn in *; simplify_eq; unfold h_opt; rewrite ?h_all_app, ?h_all_one; max_le.

(** The [case]s of a [switch] keep the levels allowed. *)
Ltac solve_keeps_with bound :=
  let f := fresh in let w := fresh in let m := fresh in let r := fresh in let c := fresh in
  intros f w m r c; destruct m;
  repeat match goal with
  | |- context [match ?x with _ => _ end] => is_var x; destruct x; try discriminate
  end;
  first
    [ eapply dec_numbers_keeps; bound
    | let H := fresh in intros H; eapply keeps_when; [exact H|];
      first
        [ apply dec_opt_keeps; bound
        | apply dec_set_keeps; bound
        | apply dec_each_keeps; bound
        | eapply dec_push_keeps; [eassumption|bound]
        | eapply dec_push_keeps; [intros; by eapply lv_decode|bound]
        | eapply dec_msg_keeps; [intros; by eapply lv_decode|bound|bound] ] ].
Ltac solve_keeps := solve_keeps_with level_bound.

(** The fields of [encode]. *)
Ltac solve_runs :=
  repeat (apply Forall2_cons; split);
  try first
    [ apply Forall2_nil; done
    | apply runs_pure
    | apply own_msg_runs; intros; apply lv_encode
    | apply nested_all_runs; apply Forall_true; intros; apply lv_encode
    | apply nested_all_runs; assumption ].

Section Instances.
Context `{RL : RuntimeLaws}.

(** ** [CustomHttpPattern] *)

Definition CustomHttpPattern_level (m : CustomHttpPattern) : Z := 0.

#[export] Instance CustomHttpPattern_levels : Levels CustomHttpPattern_encode CustomHttpPattern_decode CustomHttpPattern_level.
Proof.
  assert (Hp : ∀ v, 0 ≤ CustomHttpPattern_level v) by (intros; unfold CustomHttpPattern_level; max_le). split; [done| |].
  - intros v d. apply (encode_levelled _ CustomHttpPattern_fields [λ _, 0; λ _, 0] CustomHttpPattern_level CustomHttpPattern_unknowns);
      [reflexivity|solve_runs|unfold CustomHttpPattern_level; level_zeros|done].
  - intros r l e d t m r'. apply (decode_with_allowed CustomHttpPattern_level d (CustomHttpPattern_switch d)); [unfold CustomHttpPattern_switch, CustomHttpPattern_level; solve_keeps|done|done].
Qed.

(** ** [HttpRule] *)

Fixpoint HttpRule_level (m : HttpRule) : Z := Z.max (h_opt CustomHttpPattern_level (HttpRule_custom m)) (Z.max (h_all HttpRule_level (HttpRule_additionalBindings m)) 0).

Lemma HttpRule_deep_ind (P : HttpRule → Prop) :
  (∀ m, Forall P (HttpRule_additionalBindings m) → P m) → ∀ m, P m.
Proof.
  intros H. fix IH 1. intros m. apply H. destruct m. simpl.
  match goal with |- Forall P ?l => induction l; constructor; [apply IH|assumption] end.
Qed.

Lemma HttpRule_level_unfold m : HttpRule_level m = Z.max (h_opt CustomHttpPattern_level (HttpRule_custom m)) (Z.max (h_all HttpRule_level (HttpRule_additionalBindings m)) 0).
Proof. by destruct m. Qed.

Lemma HttpRule_level_nonneg m : 0 ≤ HttpRule_level m.
Proof. rewrite HttpRule_level_unfold. max_le. Qed.

(** Deleting the other members of the oneof adds no level. *)
Lemma HttpRule_set_pattern_level name m : HttpRule_level (HttpRule_set_pattern name m) ≤ HttpRule_level m.
Proof.
  apply (HttpRule_set_pattern_keeps (λ m', HttpRule_level m' ≤ HttpRule_level m)); [|done].
  intros f m' Hm'. etrans; [|exact Hm']. unfold HttpRule_remove. destruct m'. repeat (case_match; [level_bound|]). done.
Qed.

Lemma HttpRule_encode_levelled v : ∀ d, levelled d (HttpRule_level v) (λ w, HttpRule_encode v (Some w) (Some d)).
Proof.
  induction v as [v Hv] using HttpRule_deep_ind. intros d.
  apply (encode_levelled _ (HttpRule_fields (HttpRule_codec O)) [λ _, 0; λ _, 0; λ _, 0; λ _, 0; λ _, 0; λ _, 0; λ _, 0; λ m, h_opt CustomHttpPattern_level (HttpRule_custom m); λ m, h_all HttpRule_level (HttpRule_additionalBindings m); λ _, 0] HttpRule_level HttpRule_unknowns);
    [by intros []|solve_runs|rewrite HttpRule_level_unfold; level_zeros|apply HttpRule_level_nonneg].
Qed.

Lemma HttpRule_decode_allowed (n : nat) : ∀ r l e d t m r', Reader_recursionLimit + 1 - d ≤ Z.of_nat n →
  HttpRule_decode r l e (Some d) t = Ok (m, r') →
  (∀ x, t = Some x → d + HttpRule_level x ≤ Reader_recursionLimit) → d + HttpRule_level m ≤ Reader_recursionLimit.
Proof.
  induction n as [|n IH]; intros r l e d t m r' Hn; rewrite HttpRule_decode_unfold; cbn [from_option id].
  - unfold decode_with, depth_check. by rewrite (proj2 (Z.ltb_lt _ _)) by lia.
  - assert (IH' : ∀ r l e t m r', HttpRule_decode r l e (Some (d + 1)) t = Ok (m, r') →
      (∀ x, t = Some x → d + 1 + HttpRule_level x ≤ Reader_recursionLimit) → d + 1 + HttpRule_level m ≤ Reader_recursionLimit)
      by (intros; eapply IH; [|done|done]; lia).
    apply (decode_with_allowed HttpRule_level d (HttpRule_switch HttpRule_decode d)); [|by intros b []|done].
    unfold HttpRule_switch. solve_keeps_with ltac:(intros; try (etrans; [apply HttpRule_set_pattern_level|]); level_bound).
Qed.

#[export] Instance HttpRule_levels : Levels HttpRule_encode HttpRule_decode HttpRule_level.
Proof.
  split; [apply HttpRule_level_nonneg|apply HttpRule_encode_levelled|].
  intros r l e d t m r'. apply (HttpRule_decode_allowed (Z.to_nat (Reader_recursionLimit + 1 - d))). lia.
Qed.

(** ** [Http] *)

Definition Http_level (m : Http) : Z := Z.max (h_all HttpRule_level (Http_rules m)) 0.

#[export] Instance Http_levels : Levels Http_encode Http_decode Http_level.
Proof.
  assert (Hp : ∀ v, 0 ≤ Http_level v) by (intros; unfold Http_level; max_le). split; [done| |].
  - intros v d. apply (encode_levelled _ (Http_fields O) [λ m, h_all HttpRule_level (Http_rules m); λ _, 0] Http_level Http_unknowns);
      [reflexivity|solve_runs|unfold Http_level; level_zeros|done].
  - intros r l e d t m r'. apply (decode_with_allowed Http_level d (Http_switch d)); [unfold Http_switch, Http_level; solve_keeps|done|done].
Qed.

(** ** [NamePart] *)

Definition NamePart_level (m : NamePart) : Z := 0.

#[export] Instance NamePart_levels : Levels NamePart_encode NamePart_decode NamePart_level.
Proof.
  assert (Hp : ∀ v, 0 ≤ NamePart_level v) by (intros; unfold NamePart_level; max_le). split; [done| |].
  - intros v d. apply (encode_levelled _ NamePart_fields [λ _, 0; λ _, 0] NamePart_level NamePart_unknowns);
      [reflexivity|solve_runs|unfold NamePart_level; level_zeros|done].
  - intros r l e d t m r'. unfold NamePart_decode. destruct (NamePart_loop _ _ _ _ _) as [[m1 r1]| |] eqn:H; simpl; [|done|done].
    destruct (NamePart_missing m1); [done|]. intros [= <- <-]. revert H. apply (decode_with_allowed NamePart_level d (NamePart_switch d)); [unfold NamePart_switch, NamePart_level; solve_keeps|done|done].
Qed.

(** ** [UninterpretedOption] *)

Definition UninterpretedOption_level (m : UninterpretedOption) : Z := Z.max (h_all NamePart_level (UninterpretedOption_name m)) 0.

#[export] Instance UninterpretedOption_levels : Levels UninterpretedOption_encode UninterpretedOption_decode UninterpretedOption_level.
Proof.
  assert (Hp : ∀ v, 0 ≤ UninterpretedOption_level v) by (intros; unfold UninterpretedOption_level; max_le). split; [done| |].
  - intros v d. apply (encode_levelled _ UninterpretedOption_fields [λ m, h_all NamePart_level (UninterpretedOption_name m); λ _, 0; λ _, 0; λ _, 0; λ _, 0; λ _, 0; λ _, 0] UninterpretedOption_level UninterpretedOption_unknowns);
      [reflexivity|solve_runs|unfold UninterpretedOption_level; level_zeros|done].
  - intros r l e d t m r'. apply (decode_with_allowed UninterpretedOption_level d (UninterpretedOption_switch d)); [unfold UninterpretedOption_switch, UninterpretedOption_level; solve_keeps|done|done].
Qed.

(** ** [ExtensionRangeOptions] *)

Definition ExtensionRangeOptions_level (m : ExtensionRangeOptions) : Z := Z.max (h_all UninterpretedOption_level (ExtensionRangeOptions_uninterpretedOption m)) 0.

#[export] Instance ExtensionRangeOptions_levels : Levels ExtensionRangeOptions_encode ExtensionRangeOptions_decode ExtensionRangeOptions_level.
Proof.
  assert (Hp : ∀ v, 0 ≤ ExtensionRangeOptions_level v) by (intros; unfold ExtensionRangeOptions_level; max_le). split; [done| |].
  - intros v d. apply (encode_levelled _ ExtensionRangeOptions_fields [λ m, h_all UninterpretedOption_level (ExtensionRangeOptions_uninterpretedOption m)] ExtensionRangeOptions_level ExtensionRangeOptions_unknowns);
      [reflexivity|solve_runs|unfold ExtensionRangeOptions_level; level_zeros|done].
  - intros r l e d t m r'. apply (decode_with_allowed ExtensionRangeOptions_level d (ExtensionRangeOptions_switch d)); [unfold ExtensionRangeOptions_switch, ExtensionRangeOptions_level; solve_keeps|done|done].
Qed.

(** ** [FileOptions] *)

Definition FileOptions_level (m : FileOptions) : Z := Z.max (h_all UninterpretedOption_level (FileOptions_uninterpretedOption m)) 0.

#[export] Instance FileOptions_levels : Levels FileOptions_encode FileOptions_decode FileOptions_level.
Proof.
  assert (Hp : ∀ v, 0 ≤ FileOptions_level v) by (intros; unfold FileOptions_level; max_le). split; [done| |].
  - intros v d. apply (encode_levelled _ FileOptions_fields [λ _, 0; λ _, 0; λ _, 0; λ _, 0; λ _, 0; λ _, 0; λ _, 0; λ _, 0; λ _, 0; λ _, 0; λ _, 0; λ _, 0; λ _, 0; λ _, 0; λ _, 0; λ _, 0; λ _, 0; λ _, 0; λ _, 0; λ _, 0; λ m, h_all UninterpretedOption_level (FileOptions_uninterpretedOption m)] FileOptions_level FileOptions_unknowns);
      [reflexivity|solve_runs|unfold FileOptions_level; level_zeros|done].
  - intros r l e d t m r'. apply (decode_with_allowed FileOptions_level d (FileOptions_switch d)); [unfold FileOptions_switch, FileOptions_level; solve_keeps|done|done].
Qed.

(** ** [MessageOptions] *)

Definition MessageOptions_level (m : MessageOptions) : Z := Z.max (h_all UninterpretedOption_level (MessageOptions_uninterpretedOption m)) 0.

#[export] Instance MessageOptions_levels : Levels MessageOptions_encode MessageOptions_decode MessageOptions_level.
Proof.
  assert (Hp : ∀ v, 0 ≤ MessageOptions_level v) by (intros; unfold MessageOptions_level; max_le). split; [done| |].
  - intros v d. apply (encode_levelled _ MessageOptions_fields [λ _, 0; λ _, 0; λ _, 0; λ _, 0; λ m, h_all UninterpretedOption_level (MessageOptions_uninterpretedOption m)] MessageOptions_level MessageOptions_unknowns);
      [reflexivity|solve_runs|unfold MessageOptions_level; level_zeros|done].
  - intros r l e d t m r'. apply (decode_with_allowed MessageOptions_level d (MessageOptions_switch d)); [unfold MessageOptions_switch, MessageOptions_level; solve_keeps|done|done].
Qed.

(** ** [FieldOptions] *)

Definition FieldOptions_level (m : FieldOptions) : Z := Z.max (h_all UninterpretedOption_level (FieldOptions_uninterpretedOption m)) 0.

#[export] Instance FieldOptions_levels : Levels FieldOptions_encode FieldOptions_decode FieldOptions_level.
Proof.
  assert (Hp : ∀ v, 0 ≤ FieldOptions_level v) by (intros; unfold FieldOptions_level; max_le). split; [done| |].
  - intros v d. apply (encode_levelled _ FieldOptions_fields [λ _, 0; λ _, 0; λ _, 0; λ _, 0; λ _, 0; λ _, 0; λ _, 0; λ m, h_all UninterpretedOption_level (FieldOptions_uninterpretedOption m)] FieldOptions_level FieldOptions_unknowns);
      [reflexivity|solve_runs|unfold FieldOptions_level; level_zeros|done].
  - intros r l e d t m r'. apply (decode_with_allowed FieldOptions_level d (FieldOptions_switch d)); [unfold FieldOptions_switch, FieldOptions_level; solve_keeps|done|done].
Qed.

(** ** [OneofOptions] *)

Definition OneofOptions_level (m : OneofOptions) : Z := Z.max (h_all UninterpretedOption_level (OneofOptions_uninterpretedOption m)) 0.

#[export] Instance OneofOptions_levels : Levels OneofOptions_encode OneofOptions_decode OneofOptions_level.
Proof.
  assert (Hp : ∀ v, 0 ≤ OneofOptions_level v) by (intros; unfold OneofOptions_level; max_le). split; [done| |].
  - intros v d. apply (encode_levelled _ OneofOptions_fields [λ m, h_all UninterpretedOption_level (OneofOptions_uninterpretedOption m)] OneofOptions_level OneofOptions_unknowns);
      [reflexivity|solve_runs|unfold OneofOptions_level; level_zeros|done].
  - intros r l e d t m r'. apply (decode_with_allowed OneofOptions_level d (OneofOptions_switch d)); [unfold OneofOptions_switch, OneofOptions_level; solve_keeps|done|done].
Qed.

(** ** [EnumOptions] *)

Definition EnumOptions_level (m : EnumOptions) : Z := Z.max (h_all UninterpretedOption_level (EnumOptions_uninterpretedOption m)) 0.

#[export] Instance EnumOptions_levels : Levels EnumOptions_encode EnumOptions_decode EnumOptions_level.
Proof.
  assert (Hp : ∀ v, 0 ≤ EnumOptions_level v) by (intros; unfold EnumOptions_level; max_le). split; [done| |].
  - intros v d. apply (encode_levelled _ EnumOptions_fields [λ _, 0; λ _, 0; λ m, h_all UninterpretedOption_level (EnumOptions_uninterpretedOption m)] EnumOptions_level EnumOptions_unknowns);
      [reflexivity|solve_runs|unfold EnumOptions_level; level_zeros|done].
  - intros r l e d t m r'. apply (decode_with_allowed EnumOptions_level d (EnumOptions_switch d)); [unfold EnumOptions_switch, EnumOptions_level; solve_keeps|done|done].
Qed.

(** ** [EnumValueOptions] *)

Definition EnumValueOptions_level (m : EnumValueOptions) : Z := Z.max (h_all UninterpretedOption_level (EnumValueOptions_uninterpretedOption m)) 0.

#[export] Instance EnumValueOptions_levels : Levels EnumValueOptions_encode EnumValueOptions_decode EnumValueOptions_level.
Proof.
  assert (Hp : ∀ v, 0 ≤ EnumValueOptions_level v) by (intros; unfold EnumValueOptions_level; max_le). split; [done| |].
  - intros v d. apply (encode_levelled _ EnumValueOptions_fields [λ _, 0; λ m, h_all UninterpretedOption_level (EnumValueOptions_uninterpretedOption m)] EnumValueOptions_level EnumValueOptions_unknowns);
      [reflexivity|solve_runs|unfold EnumValueOptions_level; level_zeros|done].
  - intros r l e d t m r'. apply (decode_with_allowed EnumValueOptions_level d (EnumValueOptions_switch d)); [unfold EnumValueOptions_switch, EnumValueOptions_level; solve_keeps|done|done].
Qed.

(** ** [ServiceOptions] *)

Definition ServiceOptions_level (m : ServiceOptions) : Z := Z.max (h_all UninterpretedOption_level (ServiceOptions_uninterpretedOption m)) 0.

#[export] Instance ServiceOptions_levels : Levels ServiceOptions_encode ServiceOptions_decode ServiceOptions_level.
Proof.
  assert (Hp : ∀ v, 0 ≤ ServiceOptions_level v) by (intros; unfold ServiceOptions_level; max_le). split; [done| |].
  - intros v d. apply (encode_levelled _ ServiceOptions_fields [λ _, 0; λ m, h_all UninterpretedOption_level (ServiceOptions_uninterpretedOption m)] ServiceOptions_level ServiceOptions_unknowns);
      [reflexivity|solve_runs|unfold ServiceOptions_level; level_zeros|done].
  - intros r l e d t m r'. apply (decode_with_allowed ServiceOptions_level d (ServiceOptions_switch d)); [unfold ServiceOptions_switch, ServiceOptions_level; solve_keeps|done|done].
Qed.

(** ** [MethodOptions] *)

Definition MethodOptions_level (m : MethodOptions) : Z := Z.max (h_all UninterpretedOption_level (MethodOptions_uninterpretedOption m)) (Z.max (h_opt HttpRule_level (MethodOptions_google_api_http m)) 0).

#[export] Instance MethodOptions_levels : Levels MethodOptions_encode MethodOptions_decode MethodOptions_level.
Proof.
  assert (Hp : ∀ v, 0 ≤ MethodOptions_level v) by (intros; unfold MethodOptions_level; max_le). split; [done| |].
  - intros v d. apply (encode_levelled _ (MethodOptions_fields O) [λ _, 0; λ _, 0; λ m, h_all UninterpretedOption_level (MethodOptions_uninterpretedOption m); λ m, h_opt HttpRule_level (MethodOptions_google_api_http m)] MethodOptions_level MethodOptions_unknowns);
      [reflexivity|solve_runs|unfold MethodOptions_level; level_zeros|done].
  - intros r l e d t m r'. apply (decode_with_allowed MethodOptions_level d (MethodOptions_switch d)); [unfold MethodOptions_switch, MethodOptions_level; solve_keeps|done|done].
Qed.

(** ** [ExtensionRange] *)

Definition ExtensionRange_level (m : ExtensionRange) : Z := Z.max (h_opt ExtensionRangeOptions_level (ExtensionRange_options m)) 0.

#[export] Instance ExtensionRange_levels : Levels ExtensionRange_encode ExtensionRange_decode ExtensionRange_level.
Proof.
  assert (Hp : ∀ v, 0 ≤ ExtensionRange_level v) by (intros; unfold ExtensionRange_level; max_le). split; [done| |].
  - intros v d. apply (encode_levelled _ ExtensionRange_fields [λ _, 0; λ _, 0; λ m, h_opt ExtensionRangeOptions_level (ExtensionRange_options m)] ExtensionRange_level ExtensionRange_unknowns);
      [reflexivity|solve_runs|unfold ExtensionRange_level; level_zeros|done].
  - intros r l e d t m r'. apply (decode_with_allowed ExtensionRange_level d (ExtensionRange_switch d)); [unfold ExtensionRange_switch, ExtensionRange_level; solve_keeps|done|done].
Qed.

(** ** [ReservedRange] *)

Definition ReservedRange_level (m : ReservedRange) : Z := 0.

#[export] Instance ReservedRange_levels : Levels ReservedRange_encode ReservedRange_decode ReservedRange_level.
Proof.
  assert (Hp : ∀ v, 0 ≤ ReservedRange_level v) by (intros; unfold ReservedRange_level; max_le). split; [done| |].
  - intros v d. apply (encode_levelled _ ReservedRange_fields [λ _, 0; λ _, 0] ReservedRange_level ReservedRange_unknowns);
      [reflexivity|solve_runs|unfold ReservedRange_level; level_zeros|done].
  - intros r l e d t m r'. apply (decode_with_allowed ReservedRange_level d (ReservedRange_switch d)); [unfold ReservedRange_switch, ReservedRange_level; solve_keeps|done|done].
Qed.

(** ** [FieldDescriptorProto] *)

Definition FieldDescriptorProto_level (m : FieldDescriptorProto) : Z := Z.max (h_opt FieldOptions_level (FieldDescriptorProto_options m)) 0.

#[export] Instance FieldDescriptorProto_levels : Levels FieldDescriptorProto_encode FieldDescriptorProto_decode FieldDescriptorProto_level.
Proof.
  assert (Hp : ∀ v, 0 ≤ FieldDescriptorProto_level v) by (intros; unfold FieldDescriptorProto_level; max_le). split; [done| |].
  - intros v d. apply (encode_levelled _ FieldDescriptorProto_fields [λ _, 0; λ _, 0; λ _, 0; λ _, 0; λ _, 0; λ _, 0; λ _, 0; λ m, h_opt FieldOptions_level (FieldDescriptorProto_options m); λ _, 0; λ _, 0; λ _, 0] FieldDescriptorProto_level FieldDescriptorProto_unknowns);
      [reflexivity|solve_runs|unfold FieldDescriptorProto_level; level_zeros|done].
  - intros r l e d t m r'. apply (decode_with_allowed FieldDescriptorProto_level d (FieldDescriptorProto_switch d)); [unfold FieldDescriptorProto_switch, FieldDescriptorProto_level; solve_keeps|done|done].
Qed.

(** ** [OneofDescriptorProto] *)

Definition OneofDescriptorProto_level (m : OneofDescriptorProto) : Z := Z.max (h_opt OneofOptions_level (OneofDescriptorProto_options m)) 0.

#[export] Instance OneofDescriptorProto_levels : Levels OneofDescriptorProto_encode OneofDescriptorProto_decode OneofDescriptorProto_level.
Proof.
  assert (Hp : ∀ v, 0 ≤ OneofDescriptorProto_level v) by (intros; unfold OneofDescriptorProto_level; max_le). split; [done| |].
  - intros v d. apply (encode_levelled _ OneofDescriptorProto_fields [λ _, 0; λ m, h_opt OneofOptions_level (OneofDescriptorProto_options m)] OneofDescriptorProto_level OneofDescriptorProto_unknowns);
      [reflexivity|solve_runs|unfold OneofDescriptorProto_level; level_zeros|done].
  - intros r l e d t m r'. apply (decode_with_allowed OneofDescriptorProto_level d (OneofDescriptorProto_switch d)); [unfold OneofDescriptorProto_switch, OneofDescriptorProto_level; solve_keeps|done|done].
Qed.

(** ** [EnumReservedRange] *)

Definition EnumReservedRange_level (m : EnumReservedRange) : Z := 0.

#[export] Instance EnumReservedRange_levels : Levels EnumReservedRange_encode EnumReservedRange_decode EnumReservedRange_level.
Proof.
  assert (Hp : ∀ v, 0 ≤ EnumReservedRange_level v) by (intros; unfold EnumReservedRange_level; max_le). split; [done| |].
  - intros v d. apply (encode_levelled _ EnumReservedRange_fields [λ _, 0; λ _, 0] EnumReservedRange_level EnumReservedRange_unknowns);
      [reflexivity|solve_runs|unfold EnumReservedRange_level; level_zeros|done].
  - intros r l e d t m r'. apply (decode_with_allowed EnumReservedRange_level d (EnumReservedRange_switch d)); [unfold EnumReservedRange_switch, EnumReservedRange_level; solve_keeps|done|done].
Qed.

(** ** [EnumValueDescriptorProto] *)

Definition EnumValueDescriptorProto_level (m : EnumValueDescriptorProto) : Z := Z.max (h_opt EnumValueOptions_level (EnumValueDescriptorProto_options m)) 0.

#[export] Instance EnumValueDescriptorProto_levels : Levels EnumValueDescriptorProto_encode EnumValueDescriptorProto_decode EnumValueDescriptorProto_level.
Proof.
  assert (Hp : ∀ v, 0 ≤ EnumValueDescriptorProto_level v) by (intros; unfold EnumValueDescriptorProto_level; max_le). split; [done| |].
  - intros v d. apply (encode_levelled _ EnumValueDescriptorProto_fields [λ _, 0; λ _, 0; λ m, h_opt EnumValueOptions_level (EnumValueDescriptorProto_options m)] EnumValueDescriptorProto_level EnumValueDescriptorProto_unknowns);
      [reflexivity|solve_runs|unfold EnumValueDescriptorProto_level; level_zeros|done].
  - intros r l e d t m r'. apply (decode_with_allowed EnumValueDescriptorProto_level d (EnumValueDescriptorProto_switch d)); [unfold EnumValueDescriptorProto_switch, EnumValueDescriptorProto_level; solve_keeps|done|done].
Qed.

(** ** [EnumDescriptorProto] *)

Definition EnumDescriptorProto_level (m : EnumDescriptorProto) : Z := Z.max (h_all EnumValueDescriptorProto_level (EnumDescriptorProto_value m)) (Z.max (h_opt EnumOptions_level (EnumDescriptorProto_options m)) (Z.max (h_all EnumReservedRange_level (EnumDescriptorProto_reservedRange m)) 0)).

#[export] Instance EnumDescriptorProto_levels : Levels EnumDescriptorProto_encode EnumDescriptorProto_decode EnumDescriptorProto_level.
Proof.
  assert (Hp : ∀ v, 0 ≤ EnumDescriptorProto_level v) by (intros; unfold EnumDescriptorProto_level; max_le). split; [done| |].
  - intros v d. apply (encode_levelled _ EnumDescriptorProto_fields [λ _, 0; λ m, h_all EnumValueDescriptorProto_level (EnumDescriptorProto_value m); λ m, h_opt EnumOptions_level (EnumDescriptorProto_options m); λ m, h_all EnumReservedRange_level (EnumDescriptorProto_reservedRange m); λ _, 0] EnumDescriptorProto_level EnumDescriptorProto_unknowns);
      [reflexivity|solve_runs|unfold EnumDescriptorProto_level; level_zeros|done].
  - intros r l e d t m r'. apply (decode_with_allowed EnumDescriptorProto_level d (EnumDescriptorProto_switch d)); [unfold EnumDescriptorProto_switch, EnumDescriptorProto_level; solve_keeps|done|done].
Qed.

(** ** [DescriptorProto] *)

Fixpoint DescriptorProto_level (m : DescriptorProto) : Z := Z.max (h_all FieldDescriptorProto_level (DescriptorProto_field m)) (Z.max (h_all DescriptorProto_level (DescriptorProto_nestedType m)) (Z.max (h_all EnumDescriptorProto_level (DescriptorProto_enumType m)) (Z.max (h_all ExtensionRange_level (DescriptorProto_extensionRange m)) (Z.max (h_all FieldDescriptorProto_level (DescriptorProto_extension m)) (Z.max (h_opt MessageOptions_level (DescriptorProto_options m)) (Z.max (h_all OneofDescriptorProto_level (DescriptorProto_oneofDecl m)) (Z.max (h_all ReservedRange_level (DescriptorProto_reservedRange m)) 0))))))).

Lemma DescriptorProto_deep_ind (P : DescriptorProto → Prop) :
  (∀ m, Forall P (DescriptorProto_nestedType m) → P m) → ∀ m, P m.
Proof.
  intros H. fix IH 1. intros m. apply H. destruct m. simpl.
  match goal with |- Forall P ?l => induction l; constructor; [apply IH|assumption] end.
Qed.

Lemma DescriptorProto_level_unfold m : DescriptorProto_level m = Z.max (h_all FieldDescriptorProto_level (DescriptorProto_field m)) (Z.max (h_all DescriptorProto_level (DescriptorProto_nestedType m)) (Z.max (h_all EnumDescriptorProto_level (DescriptorProto_enumType m)) (Z.max (h_all ExtensionRange_level (DescriptorProto_extensionRange m)) (Z.max (h_all FieldDescriptorProto_level (DescriptorProto_extension m)) (Z.max (h_opt MessageOptions_level (DescriptorProto_options m)) (Z.max (h_all OneofDescriptorProto_level (DescriptorProto_oneofDecl m)) (Z.max (h_all ReservedRange_level (DescriptorProto_reservedRange m)) 0))))))).
Proof. by destruct m. Qed.

Lemma DescriptorProto_level_nonneg m : 0 ≤ DescriptorProto_level m.
Proof. rewrite DescriptorProto_level_unfold. max_le. Qed.

Lemma DescriptorProto_encode_levelled v : ∀ d, levelled d (DescriptorProto_level v) (λ w, DescriptorProto_encode v (Some w) (Some d)).
Proof.
  induction v as [v Hv] using DescriptorProto_deep_ind. intros d.
  apply (encode_levelled _ (DescriptorProto_fields (DescriptorProto_codec O)) [λ _, 0; λ m, h_all FieldDescriptorProto_level (DescriptorProto_field m); λ m, h_all DescriptorProto_level (DescriptorProto_nestedType m); λ m, h_all EnumDescriptorProto_level (DescriptorProto_enumType m); λ m, h_all ExtensionRange_level (DescriptorProto_extensionRange m); λ m, h_all FieldDescriptorProto_level (DescriptorProto_extension m); λ m, h_opt MessageOptions_level (DescriptorProto_options m); λ m, h_all OneofDescriptorProto_level (DescriptorProto_oneofDecl m); λ m, h_all ReservedRange_level (DescriptorProto_reservedRange m); λ _, 0] DescriptorProto_level DescriptorProto_unknowns);
    [by intros []|solve_runs|rewrite DescriptorProto_level_unfold; level_zeros|apply DescriptorProto_level_nonneg].
Qed.

Lemma DescriptorProto_decode_allowed (n : nat) : ∀ r l e d t m r', Reader_recursionLimit + 1 - d ≤ Z.of_nat n →
  DescriptorProto_decode r l e (Some d) t = Ok (m, r') →
  (∀ x, t = Some x → d + DescriptorProto_level x ≤ Reader_recursionLimit) → d + DescriptorProto_level m ≤ Reader_recursionLimit.
Proof.
  induction n as [|n IH]; intros r l e d t m r' Hn; rewrite DescriptorProto_decode_unfold; cbn [from_option id].
  - unfold decode_with, depth_check. by rewrite (proj2 (Z.ltb_lt _ _)) by lia.
  - assert (IH' : ∀ r l e t m r', DescriptorProto_decode r l e (Some (d + 1)) t = Ok (m, r') →
      (∀ x, t = Some x → d + 1 + DescriptorProto_level x ≤ Reader_recursionLimit) → d + 1 + DescriptorProto_level m ≤ Reader_recursionLimit)
      by (intros; eapply IH; [|done|done]; lia).
    apply (decode_with_allowed DescriptorProto_level d (DescriptorProto_switch DescriptorProto_decode d)); [|by intros b []|done].
    unfold DescriptorProto_switch. solve_keeps.
Qed.

#[export] Instance DescriptorProto_levels : Levels DescriptorProto_encode DescriptorProto_decode DescriptorProto_level.
Proof.
  split; [apply DescriptorProto_level_nonneg|apply DescriptorProto_encode_levelled|].
  intros r l e d t m r'. apply (DescriptorProto_decode_allowed (Z.to_nat (Reader_recursionLimit + 1 - d))). lia.
Qed.

(** ** [MethodDescriptorProto] *)

Definition MethodDescriptorProto_level (m : MethodDescriptorProto) : Z := Z.max (h_opt MethodOptions_level (MethodDescriptorProto_options m)) 0.

#[export] Instance MethodDescriptorProto_levels : Levels MethodDescriptorProto_encode MethodDescriptorProto_decode MethodDescriptorProto_level.
Proof.
  assert (Hp : ∀ v, 0 ≤ MethodDescriptorProto_level v) by (intros; unfold MethodDescriptorProto_level; max_le). split; [done| |].
  - intros v d. apply (encode_levelled _ (MethodDescriptorProto_fields O) [λ _, 0; λ _, 0; λ _, 0; λ m, h_opt MethodOptions_level (MethodDescriptorProto_options m); λ _, 0; λ _, 0] MethodDescriptorProto_level MethodDescriptorProto_unknowns);
      [reflexivity|solve_runs|unfold MethodDescriptorProto_level; level_zeros|done].
  - intros r l e d t m r'. apply (decode_with_allowed MethodDescriptorProto_level d (MethodDescriptorProto_switch d)); [unfold MethodDescriptorProto_switch, MethodDescriptorProto_level; solve_keeps|done|done].
Qed.

(** ** [ServiceDescriptorProto] *)

Definition ServiceDescriptorProto_level (m : ServiceDescriptorProto) : Z := Z.max (h_all MethodDescriptorProto_level (ServiceDescriptorProto_method m)) (Z.max (h_opt ServiceOptions_level (ServiceDescriptorProto_options m)) 0).

#[export] Instance ServiceDescriptorProto_levels : Levels ServiceDescriptorProto_encode ServiceDescriptorProto_decode ServiceDescriptorProto_level.
Proof.
  assert (Hp : ∀ v, 0 ≤ ServiceDescriptorProto_level v) by (intros; unfold ServiceDescriptorProto_level; max_le). split; [done| |].
  - intros v d. apply (encode_levelled _ (ServiceDescriptorProto_fields O) [λ _, 0; λ m, h_all MethodDescriptorProto_level (ServiceDescriptorProto_method m); λ m, h_opt ServiceOptions_level (ServiceDescriptorProto_options m)] ServiceDescriptorProto_level ServiceDescriptorProto_unknowns);
      [reflexivity|solve_runs|unfold ServiceDescriptorProto_level; level_zeros|done].
  - intros r l e d t m r'. apply (decode_with_allowed ServiceDescriptorProto_level d (ServiceDescriptorProto_switch d)); [unfold ServiceDescriptorProto_switch, ServiceDescriptorProto_level; solve_keeps|done|done].
Qed.

(** ** [Location] *)

Definition Location_level (m : Location) : Z := 0.

#[export] Instance Location_levels : Levels Location_encode Location_decode Location_level.
Proof.
  assert (Hp : ∀ v, 0 ≤ Location_level v) by (intros; unfold Location_level; max_le). split; [done| |].
  - intros v d. apply (encode_levelled _ Location_fields [λ _, 0; λ _, 0; λ _, 0; λ _, 0; λ _, 0] Location_level Location_unknowns);
      [reflexivity|solve_runs|unfold Location_level; level_zeros|done].
  - intros r l e d t m r'. apply (decode_with_allowed Location_level d (Location_switch d)); [unfold Location_switch, Location_level; solve_keeps|done|done].
Qed.

(** ** [SourceCodeInfo] *)

Definition SourceCodeInfo_level (m : SourceCodeInfo) : Z := Z.max (h_all Location_level (SourceCodeInfo_location m)) 0.

#[export] Instance SourceCodeInfo_levels : Levels SourceCodeInfo_encode SourceCodeInfo_decode SourceCodeInfo_level.
Proof.
  assert (Hp : ∀ v, 0 ≤ SourceCodeInfo_level v) by (intros; unfold SourceCodeInfo_level; max_le). split; [done| |].
  - intros v d. apply (encode_levelled _ SourceCodeInfo_fields [λ m, h_all Location_level (SourceCodeInfo_location m)] SourceCodeInfo_level SourceCodeInfo_unknowns);
      [reflexivity|solve_runs|unfold SourceCodeInfo_level; level_zeros|done].
  - intros r l e d t m r'. apply (decode_with_allowed SourceCodeInfo_level d (SourceCodeInfo_switch d)); [unfold SourceCodeInfo_switch, SourceCodeInfo_level; solve_keeps|done|done].
Qed.

(** ** [Annotation] *)

Definition Annotation_level (m : Annotation) : Z := 0.

#[export] Instance Annotation_levels : Levels Annotation_encode Annotation_decode Annotation_level.
Proof.
  assert (Hp : ∀ v, 0 ≤ Annotation_level v) by (intros; unfold Annotation_level; max_le). split; [done| |].
  - intros v d. apply (encode_levelled _ Annotation_fields [λ _, 0; λ _, 0; λ _, 0; λ _, 0] Annotation_level Annotation_unknowns);
      [reflexivity|solve_runs|unfold Annotation_level; level_zeros|done].
  - intros r l e d t m r'. apply (decode_with_allowed Annotation_level d (Annotation_switch d)); [unfold Annotation_switch, Annotation_level; solve_keeps|done|done].
Qed.

(** ** [GeneratedCodeInfo] *)

Definition GeneratedCodeInfo_level (m : GeneratedCodeInfo) : Z := Z.max (h_all Annotation_level (GeneratedCodeInfo_annotation m)) 0.

#[export] Instance GeneratedCodeInfo_levels : Levels GeneratedCodeInfo_encode GeneratedCodeInfo_decode GeneratedCodeInfo_level.
Proof.
  assert (Hp : ∀ v, 0 ≤ GeneratedCodeInfo_level v) by (intros; unfold GeneratedCodeInfo_level; max_le). split; [done| |].
  - intros v d. apply (encode_levelled _ GeneratedCodeInfo_fields [λ m, h_all Annotation_level (GeneratedCodeInfo_annotation m)] GeneratedCodeInfo_level GeneratedCodeInfo_unknowns);
      [reflexivity|solve_runs|unfold GeneratedCodeInfo_level; level_zeros|done].
  - intros r l e d t m r'. apply (decode_with_allowed GeneratedCodeInfo_level d (GeneratedCodeInfo_switch d)); [unfold GeneratedCodeInfo_switch, GeneratedCodeInfo_level; solve_keeps|done|done].
Qed.

(** ** [FileDescriptorProto] *)

Definition FileDescriptorProto_level (m : FileDescriptorProto) : Z := Z.max (h_all DescriptorProto_level (FileDescriptorProto_messageType m)) (Z.max (h_all EnumDescriptorProto_level (FileDescriptorProto_enumType m)) (Z.max (h_all ServiceDescriptorProto_level (FileDescriptorProto_service m)) (Z.max (h_all FieldDescriptorProto_level (FileDescriptorProto_extension m)) (Z.max (h_opt FileOptions_level (FileDescriptorProto_options m)) (Z.max (h_opt SourceCodeInfo_level (FileDescriptorProto_sourceCodeInfo m)) 0))))).

#[export] Instance FileDescriptorProto_levels : Levels FileDescriptorProto_encode FileDescriptorProto_decode FileDescriptorProto_level.
Proof.
  assert (Hp : ∀ v, 0 ≤ FileDescriptorProto_level v) by (intros; unfold FileDescriptorProto_level; max_le). split; [done| |].
  - intros v d. apply (encode_levelled _ (FileDescriptorProto_fields O) [λ _, 0; λ _, 0; λ _, 0; λ m, h_all DescriptorProto_level (FileDescriptorProto_messageType m); λ m, h_all EnumDescriptorProto_level (FileDescriptorProto_enumType m); λ m, h_all ServiceDescriptorProto_level (FileDescriptorProto_service m); λ m, h_all FieldDescriptorProto_level (FileDescriptorProto_extension m); λ m, h_opt FileOptions_level (FileDescriptorProto_options m); λ m, h_opt SourceCodeInfo_level (FileDescriptorProto_sourceCodeInfo m); λ _, 0; λ _, 0; λ _, 0] FileDescriptorProto_level FileDescriptorProto_unknowns);
      [reflexivity|solve_runs|unfold FileDescriptorProto_level; level_zeros|done].
  - intros r l e d t m r'. apply (decode_with_allowed FileDescriptorProto_level d (FileDescriptorProto_switch d)); [unfold FileDescriptorProto_switch, FileDescriptorProto_level; solve_keeps|done|done].
Qed.

(** ** [FileDescriptorSet] *)

Definition FileDescriptorSet_level (m : FileDescriptorSet) : Z := Z.max (h_all FileDescriptorProto_level (FileDescriptorSet_file m)) 0.

#[export] Instance FileDescriptorSet_levels : Levels FileDescriptorSet_encode FileDescriptorSet_decode FileDescriptorSet_level.
Proof.
  assert (Hp : ∀ v, 0 ≤ FileDescriptorSet_level v) by (intros; unfold FileDescriptorSet_level; max_le). split; [done| |].
  - intros v d. apply (encode_levelled _ (FileDescriptorSet_fields O) [λ m, h_all FileDescriptorProto_level (FileDescriptorSet_file m)] FileDescriptorSet_level FileDescriptorSet_unknowns);
      [reflexivity|solve_runs|unfold FileDescriptorSet_level; level_zeros|done].
  - intros r l e d t m r'. apply (decode_with_allowed FileDescriptorSet_level d (FileDescriptorSet_switch d)); [unfold FileDescriptorSet_switch, FileDescriptorSet_level; solve_keeps|done|done].
Qed.

End Instances.
