(* ===== verification/DescClasses.v ===== *)
(** * The descriptor classes together

    The classes of [DescHttp], [DescOptions] and [DescProtos] as values, each
    with what its schema proves of it.  [descriptor_classes n] lists them, for
    messages with at most [n] levels of rules and of message descriptors, and
    the theorems hold for each member: round trips of messages and streams,
    the recursion limit on both sides, and that whatever was decoded can be
    encoded again.  Required fields and the oneof of a rule follow. *)

From S2P Require Import Prelude JsNum ProtoRuntime ProtoLaws ProtoSchema ProtoWire DescHttp DescOptions DescProtos DescCodecs DescLevels.
From Stdlib Require Import Strings.Byte.
From Stdlib Require Floats.SpecFloat.
Open Scope Z_scope.

Ltac solve_static :=
  match goal with |- 1 + ?x ≤ _ => let y := eval vm_compute in x in change x with y; lia end.

Section Classes.
Context `{RL : RuntimeLaws}.

(** ** Levels of the schemas *)

Lemma schema_height_le {M} (fs : list (field M)) h : 0 ≤ h → Forall (λ f, f_height f ≤ h) fs → schema_height fs ≤ h.
Proof. intros Hh. unfold schema_height. induction 1; simpl; lia. Qed.

Lemma HttpRule_height n : c_height (Codec := HttpRule_codec n) ≤ Z.of_nat n.
Proof.
  induction n as [|n IH]; [done|]. apply (schema_height_le (HttpRule_fields (HttpRule_codec n))); [lia|].
  repeat (apply Forall_cons; split); try apply Forall_nil_2;
    cbn [f_height opt_field rep_field nums_field msg_field msgs_field oneof_field oneof_msg_field]; try lia; solve_static.
Qed.

Lemma Http_height n : c_height (Codec := Http_codec n) ≤ Z.of_nat n + 1.
Proof.
  pose proof (HttpRule_height n : c_height (Codec := HttpRule_at n) ≤ _).
  unfold Http_codec. cbn [c_height schema_codec]. apply schema_height_le; [lia|].
  repeat (apply Forall_cons; split); try apply Forall_nil_2;
    cbn [f_height opt_field rep_field nums_field msg_field msgs_field oneof_field oneof_msg_field]; try lia; solve_static.
Qed.

Lemma MethodOptions_height n : c_height (Codec := MethodOptions_codec n) ≤ Z.of_nat n + 2.
Proof.
  pose proof (HttpRule_height n : c_height (Codec := HttpRule_at n) ≤ _).
  unfold MethodOptions_codec. cbn [c_height schema_codec]. apply schema_height_le; [lia|].
  repeat (apply Forall_cons; split); try apply Forall_nil_2;
    cbn [f_height opt_field rep_field nums_field msg_field msgs_field oneof_field oneof_msg_field]; try lia; solve_static.
Qed.

Lemma DescriptorProto_height n : c_height (Codec := DescriptorProto_codec n) ≤ Z.of_nat n + 4.
Proof.
  induction n as [|n IH]; [done|]. apply (schema_height_le (DescriptorProto_fields (DescriptorProto_codec n))); [lia|].
  repeat (apply Forall_cons; split); try apply Forall_nil_2;
    cbn [f_height opt_field rep_field nums_field msg_field msgs_field oneof_field oneof_msg_field]; try lia; solve_static.
Qed.

Lemma MethodDescriptorProto_height n : c_height (Codec := MethodDescriptorProto_codec n) ≤ Z.of_nat n + 3.
Proof.
  pose proof (MethodOptions_height n).
  unfold MethodDescriptorProto_codec. cbn [c_height schema_codec]. apply schema_height_le; [lia|].
  repeat (apply Forall_cons; split); try apply Forall_nil_2;
    cbn [f_height opt_field rep_field nums_field msg_field msgs_field oneof_field oneof_msg_field]; try lia; solve_static.
Qed.

Lemma ServiceDescriptorProto_height n : c_height (Codec := ServiceDescriptorProto_codec n) ≤ Z.of_nat n + 4.
Proof.
  pose proof (MethodDescriptorProto_height n).
  unfold ServiceDescriptorProto_codec. cbn [c_height schema_codec]. apply schema_height_le; [lia|].
  repeat (apply Forall_cons; split); try apply Forall_nil_2;
    cbn [f_height opt_field rep_field nums_field msg_field msgs_field oneof_field oneof_msg_field]; try lia; solve_static.
Qed.

Lemma FileDescriptorProto_height n : c_height (Codec := FileDescriptorProto_codec n) ≤ Z.of_nat n + 5.
Proof.
  pose proof (DescriptorProto_height n : c_height (Codec := DescriptorProto_at n) ≤ _).
  pose proof (ServiceDescriptorProto_height n).
  unfold FileDescriptorProto_codec. cbn [c_height schema_codec]. apply schema_height_le; [lia|].
  repeat (apply Forall_cons; split); try apply Forall_nil_2;
    cbn [f_height opt_field rep_field nums_field msg_field msgs_field oneof_field oneof_msg_field]; try lia; solve_static.
Qed.

Lemma FileDescriptorSet_height n : c_height (Codec := FileDescriptorSet_codec n) ≤ Z.of_nat n + 6.
Proof.
  pose proof (FileDescriptorProto_height n).
  unfold FileDescriptorSet_codec. cbn [c_height schema_codec]. apply schema_height_le; [lia|].
  repeat (apply Forall_cons; split); try apply Forall_nil_2;
    cbn [f_height opt_field rep_field nums_field msg_field msgs_field oneof_field oneof_msg_field]; try lia; solve_static.
Qed.

(** ** The classes *)

Record descriptor_class := DescriptorClass {
  dc_name : string;
  dc_type : Type;
  dc_encode : dc_type → option Writer → option Z → res Writer;
  dc_encodeDelimited : dc_type → option Writer → res Writer;
  dc_decode : decoder dc_type;
  dc_decodeDelimited : Reader → res (dc_type * Reader);
  dc_getTypeUrl : option string → string;
  dc_level : dc_type → Z;
  dc_levels : Levels dc_encode dc_decode dc_level;
  dc_codec : Codec dc_encode dc_decode;
  dc_delimited : dc_encodeDelimited = delimited dc_encode ∧ dc_decodeDelimited = decode_delimited dc_decode;
}.

Context (levels : nat).

Definition CustomHttpPattern_class : descriptor_class :=
  DescriptorClass "google.api.CustomHttpPattern" CustomHttpPattern CustomHttpPattern_encode CustomHttpPattern_encodeDelimited CustomHttpPattern_decode CustomHttpPattern_decodeDelimited CustomHttpPattern_getTypeUrl
    CustomHttpPattern_level CustomHttpPattern_levels CustomHttpPattern_codec (conj eq_refl eq_refl).
Definition HttpRule_class : descriptor_class :=
  DescriptorClass "google.api.HttpRule" HttpRule HttpRule_encode HttpRule_encodeDelimited HttpRule_decode HttpRule_decodeDelimited HttpRule_getTypeUrl
    HttpRule_level HttpRule_levels (HttpRule_codec levels) (conj eq_refl eq_refl).
Definition Http_class : descriptor_class :=
  DescriptorClass "google.api.Http" Http Http_encode Http_encodeDelimited Http_decode Http_decodeDelimited Http_getTypeUrl
    Http_level Http_levels (Http_codec levels) (conj eq_refl eq_refl).
Definition NamePart_class : descriptor_class :=
  DescriptorClass "google.protobuf.UninterpretedOption.NamePart" NamePart NamePart_encode NamePart_encodeDelimited NamePart_decode NamePart_decodeDelimited NamePart_getTypeUrl
    NamePart_level NamePart_levels NamePart_codec (conj eq_refl eq_refl).
Definition UninterpretedOption_class : descriptor_class :=
  DescriptorClass "google.protobuf.UninterpretedOption" UninterpretedOption UninterpretedOption_encode UninterpretedOption_encodeDelimited UninterpretedOption_decode UninterpretedOption_decodeDelimited UninterpretedOption_getTypeUrl
    UninterpretedOption_level UninterpretedOption_levels UninterpretedOption_codec (conj eq_refl eq_refl).
Definition ExtensionRangeOptions_class : descriptor_class :=
  DescriptorClass "google.protobuf.ExtensionRangeOptions" ExtensionRangeOptions ExtensionRangeOptions_encode ExtensionRangeOptions_encodeDelimited ExtensionRangeOptions_decode ExtensionRangeOptions_decodeDelimited ExtensionRangeOptions_getTypeUrl
    ExtensionRangeOptions_level ExtensionRangeOptions_levels ExtensionRangeOptions_codec (conj eq_refl eq_refl).
Definition FileOptions_class : descriptor_class :=
  DescriptorClass "google.protobuf.FileOptions" FileOptions FileOptions_encode FileOptions_encodeDelimited FileOptions_decode FileOptions_decodeDelimited FileOptions_getTypeUrl
    FileOptions_level FileOptions_levels FileOptions_codec (conj eq_refl eq_refl).
Definition MessageOptions_class : descriptor_class :=
  DescriptorClass "google.protobuf.MessageOptions" MessageOptions MessageOptions_encode MessageOptions_encodeDelimited MessageOptions_decode MessageOptions_decodeDelimited MessageOptions_getTypeUrl
    MessageOptions_level MessageOptions_levels MessageOptions_codec (conj eq_refl eq_refl).
Definition FieldOptions_class : descriptor_class :=
  DescriptorClass "google.protobuf.FieldOptions" FieldOptions FieldOptions_encode FieldOptions_encodeDelimited FieldOptions_decode FieldOptions_decodeDelimited FieldOptions_getTypeUrl
    FieldOptions_level FieldOptions_levels FieldOptions_codec (conj eq_refl eq_refl).
Definition OneofOptions_class : descriptor_class :=
  DescriptorClass "google.protobuf.OneofOptions" OneofOptions OneofOptions_encode OneofOptions_encodeDelimited OneofOptions_decode OneofOptions_decodeDelimited OneofOptions_getTypeUrl
    OneofOptions_level OneofOptions_levels OneofOptions_codec (conj eq_refl eq_refl).
Definition EnumOptions_class : descriptor_class :=
  DescriptorClass "google.protobuf.EnumOptions" EnumOptions EnumOptions_encode EnumOptions_encodeDelimited EnumOptions_decode EnumOptions_decodeDelimited EnumOptions_getTypeUrl
    EnumOptions_level EnumOptions_levels EnumOptions_codec (conj eq_refl eq_refl).
Definition EnumValueOptions_class : descriptor_class :=
  DescriptorClass "google.protobuf.EnumValueOptions" EnumValueOptions EnumValueOptions_encode EnumValueOptions_encodeDelimited EnumValueOptions_decode EnumValueOptions_decodeDelimited EnumValueOptions_getTypeUrl
    EnumValueOptions_level EnumValueOptions_levels EnumValueOptions_codec (conj eq_refl eq_refl).
Definition ServiceOptions_class : descriptor_class :=
  DescriptorClass "google.protobuf.ServiceOptions" ServiceOptions ServiceOptions_encode ServiceOptions_encodeDelimited ServiceOptions_decode ServiceOptions_decodeDelimited ServiceOptions_getTypeUrl
    ServiceOptions_level ServiceOptions_levels ServiceOptions_codec (conj eq_refl eq_refl).
Definition MethodOptions_class : descriptor_class :=
  DescriptorClass "google.protobuf.MethodOptions" MethodOptions MethodOptions_encode MethodOptions_encodeDelimited MethodOptions_decode MethodOptions_decodeDelimited MethodOptions_getTypeUrl
    MethodOptions_level MethodOptions_levels (MethodOptions_codec levels) (conj eq_refl eq_refl).
Definition ExtensionRange_class : descriptor_class :=
  DescriptorClass "google.protobuf.DescriptorProto.ExtensionRange" ExtensionRange ExtensionRange_encode ExtensionRange_encodeDelimited ExtensionRange_decode ExtensionRange_decodeDelimited ExtensionRange_getTypeUrl
    ExtensionRange_level ExtensionRange_levels ExtensionRange_codec (conj eq_refl eq_refl).
Definition ReservedRange_class : descriptor_class :=
  DescriptorClass "google.protobuf.DescriptorProto.ReservedRange" ReservedRange ReservedRange_encode ReservedRange_encodeDelimited ReservedRange_decode ReservedRange_decodeDelimited ReservedRange_getTypeUrl
    ReservedRange_level ReservedRange_levels ReservedRange_codec (conj eq_refl eq_refl).
Definition FieldDescriptorProto_class : descriptor_class :=
  DescriptorClass "google.protobuf.FieldDescriptorProto" FieldDescriptorProto FieldDescriptorProto_encode FieldDescriptorProto_encodeDelimited FieldDescriptorProto_decode FieldDescriptorProto_decodeDelimited FieldDescriptorProto_getTypeUrl
    FieldDescriptorProto_level FieldDescriptorProto_levels FieldDescriptorProto_codec (conj eq_refl eq_refl).
Definition OneofDescriptorProto_class : descriptor_class :=
  DescriptorClass "google.protobuf.OneofDescriptorProto" OneofDescriptorProto OneofDescriptorProto_encode OneofDescriptorProto_encodeDelimited OneofDescriptorProto_decode OneofDescriptorProto_decodeDelimited OneofDescriptorProto_getTypeUrl
    OneofDescriptorProto_level OneofDescriptorProto_levels OneofDescriptorProto_codec (conj eq_refl eq_refl).
Definition EnumReservedRange_class : descriptor_class :=
  DescriptorClass "google.protobuf.EnumDescriptorProto.EnumReservedRange" EnumReservedRange EnumReservedRange_encode EnumReservedRange_encodeDelimited EnumReservedRange_decode EnumReservedRange_decodeDelimited EnumReservedRange_getTypeUrl
    EnumReservedRange_level EnumReservedRange_levels EnumReservedRange_codec (conj eq_refl eq_refl).
Definition EnumValueDescriptorProto_class : descriptor_class :=
  DescriptorClass "google.protobuf.EnumValueDescriptorProto" EnumValueDescriptorProto EnumValueDescriptorProto_encode EnumValueDescriptorProto_encodeDelimited EnumValueDescriptorProto_decode EnumValueDescriptorProto_decodeDelimited EnumValueDescriptorProto_getTypeUrl
    EnumValueDescriptorProto_level EnumValueDescriptorProto_levels EnumValueDescriptorProto_codec (conj eq_refl eq_refl).
Definition EnumDescriptorProto_class : descriptor_class :=
  DescriptorClass "google.protobuf.EnumDescriptorProto" EnumDescriptorProto EnumDescriptorProto_encode EnumDescriptorProto_encodeDelimited EnumDescriptorProto_decode EnumDescriptorProto_decodeDelimited EnumDescriptorProto_getTypeUrl
    EnumDescriptorProto_level EnumDescriptorProto_levels EnumDescriptorProto_codec (conj eq_refl eq_refl).
Definition DescriptorProto_class : descriptor_class :=
  DescriptorClass "google.protobuf.DescriptorProto" DescriptorProto DescriptorProto_encode DescriptorProto_encodeDelimited DescriptorProto_decode DescriptorProto_decodeDelimited DescriptorProto_getTypeUrl
    DescriptorProto_level DescriptorProto_levels (DescriptorProto_codec levels) (conj eq_refl eq_refl).
Definition MethodDescriptorProto_class : descriptor_class :=
  DescriptorClass "google.protobuf.MethodDescriptorProto" MethodDescriptorProto MethodDescriptorProto_encode MethodDescriptorProto_encodeDelimited MethodDescriptorProto_decode MethodDescriptorProto_decodeDelimited MethodDescriptorProto_getTypeUrl
    MethodDescriptorProto_level MethodDescriptorProto_levels (MethodDescriptorProto_codec levels) (conj eq_refl eq_refl).
Definition ServiceDescriptorProto_class : descriptor_class :=
  DescriptorClass "google.protobuf.ServiceDescriptorProto" ServiceDescriptorProto ServiceDescriptorProto_encode ServiceDescriptorProto_encodeDelimited ServiceDescriptorProto_decode ServiceDescriptorProto_decodeDelimited ServiceDescriptorProto_getTypeUrl
    ServiceDescriptorProto_level ServiceDescriptorProto_levels (ServiceDescriptorProto_codec levels) (conj eq_refl eq_refl).
Definition Location_class : descriptor_class :=
  DescriptorClass "google.protobuf.SourceCodeInfo.Location" Location Location_encode Location_encodeDelimited Location_decode Location_decodeDelimited Location_getTypeUrl
    Location_level Location_levels Location_codec (conj eq_refl eq_refl).
Definition SourceCodeInfo_class : descriptor_class :=
  DescriptorClass "google.protobuf.SourceCodeInfo" SourceCodeInfo SourceCodeInfo_encode SourceCodeInfo_encodeDelimited SourceCodeInfo_decode SourceCodeInfo_decodeDelimited SourceCodeInfo_getTypeUrl
    SourceCodeInfo_level SourceCodeInfo_levels SourceCodeInfo_codec (conj eq_refl eq_refl).
Definition Annotation_class : descriptor_class :=
  DescriptorClass "google.protobuf.GeneratedCodeInfo.Annotation" Annotation Annotation_encode Annotation_encodeDelimited Annotation_decode Annotation_decodeDelimited Annotation_getTypeUrl
    Annotation_level Annotation_levels Annotation_codec (conj eq_refl eq_refl).
Definition GeneratedCodeInfo_class : descriptor_class :=
  DescriptorClass "google.protobuf.GeneratedCodeInfo" GeneratedCodeInfo GeneratedCodeInfo_encode GeneratedCodeInfo_encodeDelimited GeneratedCodeInfo_decode GeneratedCodeInfo_decodeDelimited GeneratedCodeInfo_getTypeUrl
    GeneratedCodeInfo_level GeneratedCodeInfo_levels GeneratedCodeInfo_codec (conj eq_refl eq_refl).
Definition FileDescriptorProto_class : descriptor_class :=
  DescriptorClass "google.protobuf.FileDescriptorProto" FileDescriptorProto FileDescriptorProto_encode FileDescriptorProto_encodeDelimited FileDescriptorProto_decode FileDescriptorProto_decodeDelimited FileDescriptorProto_getTypeUrl
    FileDescriptorProto_level FileDescriptorProto_levels (FileDescriptorProto_codec levels) (conj eq_refl eq_refl).
Definition FileDescriptorSet_class : descriptor_class :=
  DescriptorClass "google.protobuf.FileDescriptorSet" FileDescriptorSet FileDescriptorSet_encode FileDescriptorSet_encodeDelimited FileDescriptorSet_decode FileDescriptorSet_decodeDelimited FileDescriptorSet_getTypeUrl
    FileDescriptorSet_level FileDescriptorSet_levels (FileDescriptorSet_codec levels) (conj eq_refl eq_refl).

Definition descriptor_classes : list descriptor_class :=
  [CustomHttpPattern_class; HttpRule_class; Http_class; NamePart_class; UninterpretedOption_class;
   ExtensionRangeOptions_class; FileOptions_class; MessageOptions_class; FieldOptions_class;
   OneofOptions_class; EnumOptions_class; EnumValueOptions_class; ServiceOptions_class; MethodOptions_class;
   ExtensionRange_class; ReservedRange_class; FieldDescriptorProto_class; OneofDescriptorProto_class;
   EnumReservedRange_class; EnumValueDescriptorProto_class; EnumDescriptorProto_class; DescriptorProto_class;
   MethodDescriptorProto_class; ServiceDescriptorProto_class; Location_class; SourceCodeInfo_class;
   Annotation_class; GeneratedCodeInfo_class; FileDescriptorProto_class; FileDescriptorSet_class].

(** Every class has at most six levels besides those of rules and message
    descriptors. *)
Lemma descriptor_heights : Forall (λ c, c_height (Codec := dc_codec c) ≤ Z.of_nat levels + 6) descriptor_classes.
Proof.
  apply Forall_cons; split; [change (0 ≤ Z.of_nat levels + 6); lia|].
  apply Forall_cons; split; [etrans; [exact (HttpRule_height levels)|lia]|].
  apply Forall_cons; split; [etrans; [exact (Http_height levels)|lia]|].
  apply Forall_cons; split; [change (0 ≤ Z.of_nat levels + 6); lia|].
  apply Forall_cons; split; [change (1 ≤ Z.of_nat levels + 6); lia|].
  apply Forall_cons; split; [change (2 ≤ Z.of_nat levels + 6); lia|].
  apply Forall_cons; split; [change (2 ≤ Z.of_nat levels + 6); lia|].
  apply Forall_cons; split; [change (2 ≤ Z.of_nat levels + 6); lia|].
  apply Forall_cons; split; [change (2 ≤ Z.of_nat levels + 6); lia|].
  apply Forall_cons; split; [change (2 ≤ Z.of_nat levels + 6); lia|].
  apply Forall_cons; split; [change (2 ≤ Z.of_nat levels + 6); lia|].
  apply Forall_cons; split; [change (2 ≤ Z.of_nat levels + 6); lia|].
  apply Forall_cons; split; [change (2 ≤ Z.of_nat levels + 6); lia|].
  apply Forall_cons; split; [etrans; [exact (MethodOptions_height levels)|lia]|].
  apply Forall_cons; split; [change (3 ≤ Z.of_nat levels + 6); lia|].
  apply Forall_cons; split; [change (0 ≤ Z.of_nat levels + 6); lia|].
  apply Forall_cons; split; [change (3 ≤ Z.of_nat levels + 6); lia|].
  apply Forall_cons; split; [change (3 ≤ Z.of_nat levels + 6); lia|].
  apply Forall_cons; split; [change (0 ≤ Z.of_nat levels + 6); lia|].
  apply Forall_cons; split; [change (3 ≤ Z.of_nat levels + 6); lia|].
  apply Forall_cons; split; [change (4 ≤ Z.of_nat levels + 6); lia|].
  apply Forall_cons; split; [etrans; [exact (DescriptorProto_height levels)|lia]|].
  apply Forall_cons; split; [etrans; [exact (MethodDescriptorProto_height levels)|lia]|].
  apply Forall_cons; split; [etrans; [exact (ServiceDescriptorProto_height levels)|lia]|].
  apply Forall_cons; split; [change (0 ≤ Z.of_nat levels + 6); lia|].
  apply Forall_cons; split; [change (1 ≤ Z.of_nat levels + 6); lia|].
  apply Forall_cons; split; [change (0 ≤ Z.of_nat levels + 6); lia|].
  apply Forall_cons; split; [change (1 ≤ Z.of_nat levels + 6); lia|].
  apply Forall_cons; split; [etrans; [exact (FileDescriptorProto_height levels)|lia]|].
  apply Forall_cons; split; [etrans; [exact (FileDescriptorSet_height levels)|lia]|].
  apply Forall_nil_2.
Qed.

(** ** What holds for every class *)

(** The values of a message are in the ranges of their types, and it has at most
    [levels] levels of rules and of message descriptors. *)
Definition dc_valid (c : descriptor_class) (v : dc_type c) : Prop := c_ok (Codec := dc_codec c) v.

(** The message as the decoder of a peer returns it. *)
Definition dc_received (c : descriptor_class) (v : dc_type c) : dc_type c := c_norm (Codec := dc_codec c) v.

(** A length prefix can describe the message. *)
Definition dc_fits (c : descriptor_class) (v : dc_type c) : Prop := len_ok (c_bytes (Codec := dc_codec c) v).

(** The recursion limits leave room for the levels considered. *)
Definition room : Prop :=
  Z.of_nat levels + 6 ≤ util_recursionLimit ∧ Z.of_nat levels + 6 ≤ Reader_recursionLimit.

Lemma room_height c : room → c ∈ descriptor_classes →
  c_height (Codec := dc_codec c) ≤ util_recursionLimit ∧ c_height (Codec := dc_codec c) ≤ Reader_recursionLimit.
Proof. intros [Hu Hr] Hc. pose proof (proj1 (Forall_forall _ _) descriptor_heights c Hc) as Hh. simpl in Hh. lia. Qed.

(** C10: every descriptor class survives the wire, the classes that contain
    themselves included: encoding a message with values in range and a bounded
    number of levels succeeds, and decoding the bytes gives the message back. *)
Theorem descriptor_roundtrip c v : room → c ∈ descriptor_classes → dc_valid c v →
  ∃ b, to_wire (dc_encode c) v = Ok b ∧ decode_bytes (dc_decode c) b = Ok (dc_received c v).
Proof. intros Hroom Hc. destruct (room_height c Hroom Hc). by apply codec_roundtrip. Qed.

(** Messages written one after another with [encodeDelimited] are read back in
    order with [decodeDelimited], and nothing is left over. *)
Theorem descriptor_stream c vs : room → c ∈ descriptor_classes → Forall (λ v, dc_valid c v ∧ dc_fits c v) vs →
  ∃ w r, write_stream (dc_encodeDelimited c) vs W_create = Ok w ∧
    read_stream (dc_decodeDelimited c) (length vs) (R_create (W_finish w)) = Ok (dc_received c <$> vs, r) ∧ R_rest r = [].
Proof.
  intros Hroom Hc. destruct (room_height c Hroom Hc). destruct (dc_delimited c) as [-> ->].
  by apply (stream_roundtrip (dc_encode c) (dc_decode c)).
Qed.

(** Decoding any bytes as any class terminates. *)
Theorem descriptor_decode_terminates c b : c ∈ descriptor_classes → decode_bytes (dc_decode c) b ≠ NoFuel.
Proof. intros _. apply (codec_terminates (dc_encode c) (dc_decode c) (C := dc_codec c)). Qed.

Lemma encode_from_top c v w d :
  dc_encode c v w d = dc_encode c v (Some (default W_create w)) (Some (default 0 d)).
Proof. apply (c_encode_default (Codec := dc_codec c)). Qed.

Lemma encode_within c v : dc_level c v ≤ util_recursionLimit → ∃ b, to_wire (dc_encode c) v = Ok b.
Proof.
  intros Hv. unfold to_wire. rewrite encode_from_top. cbn [from_option id].
  destruct (lv_encode (Levels := dc_levels c) v 0 W_create) as [Hok _]. destruct Hok as [w ->]; [lia|]. by eexists.
Qed.

(** C11: the recursion limit, exactly: [encode] of any message of any descriptor
    class, at any depth, succeeds when the depth plus the levels inside the
    message are within [util.recursionLimit], and throws otherwise. *)
Theorem descriptor_depth_limit c v w d : c ∈ descriptor_classes →
  (default 0 d + dc_level c v ≤ util_recursionLimit ∧ ∃ w', dc_encode c v w d = Ok w') ∨
  (util_recursionLimit < default 0 d + dc_level c v ∧ dc_encode c v w d = Throw "max depth exceeded").
Proof.
  intros _. rewrite encode_from_top. destruct (lv_encode (Levels := dc_levels c) v (default 0 d) (default W_create w)) as [Hok Hdeep].
  destruct (Z.le_gt_cases (default 0 d + dc_level c v) util_recursionLimit); [left|right]; auto with lia.
Qed.

Lemma decoded_level c b m : decode_bytes (dc_decode c) b = Ok m → dc_level c m ≤ Reader_recursionLimit.
Proof.
  unfold decode_bytes. rewrite (c_decode_default (Codec := dc_codec c)). cbn [from_option id].
  destruct (dc_decode c _ _ _ _ _) as [[m' r]| |] eqn:Hm; simpl; [|done|done]. intros [= <-].
  pose proof (lv_decode (Levels := dc_levels c) _ _ _ _ _ _ _ Hm). naive_solver lia.
Qed.

(** C12: whatever was decoded can be passed on: when the reader's limit is not
    above the writer's, encoding a message that was decoded from any bytes, as
    any descriptor class, does not throw. *)
Theorem descriptor_reencodes c b m : c ∈ descriptor_classes → Reader_recursionLimit ≤ util_recursionLimit →
  decode_bytes (dc_decode c) b = Ok m → ∃ b', to_wire (dc_encode c) m = Ok b'.
Proof. intros _ Hlim Hm%decoded_level. apply encode_within. lia. Qed.

(** The type URL names the class. *)
Lemma descriptor_url c p : c ∈ descriptor_classes →
  dc_getTypeUrl c p = default "type.googleapis.com"%string p +:+ "/" +:+ dc_name c.
Proof.
  intros Hc. assert (H : Forall (λ c, dc_getTypeUrl c p = default "type.googleapis.com"%string p +:+ "/" +:+ dc_name c) descriptor_classes)
    by (repeat (apply Forall_cons; split; [reflexivity|]); apply Forall_nil_2).
  rewrite Forall_forall in H. by apply H.
Qed.

Lemma descriptor_names : NoDup (dc_name <$> descriptor_classes).
Proof. refine (bool_decide_unpack _ _). vm_compute. exact I. Qed.

End Classes.

(** ** Required fields *)

Section Required.
Context `{RL : RuntimeLaws}.

Definition complete (p : NamePart) : Prop := is_Some (NamePart_namePart p) ∧ is_Some (NamePart_isExtension p).

Lemma NamePart_decode_complete r l e d t m r' : NamePart_decode r l e d t = Ok (m, r') → complete m.
Proof.
  unfold NamePart_decode. destruct (NamePart_loop _ _ _ _ _) as [[m1 r1]| |]; simpl; [|done|done].
  unfold NamePart_missing, complete. destruct (NamePart_namePart m1) eqn:H1; [|done].
  destruct (NamePart_isExtension m1) eqn:H2; [|done]. intros [= <- <-]. rewrite H1, H2. eauto.
Qed.

(** Name parts are only added by decoding them. *)
Lemma UninterpretedOption_switch_complete d f w m r m' r' :
  Forall complete (UninterpretedOption_name m) → UninterpretedOption_switch d f w m r = Some (Ok (m', r')) →
  Forall complete (UninterpretedOption_name m').
Proof.
  intros Hm. unfold UninterpretedOption_switch.
  repeat match goal with |- context [match ?x with _ => _ end] => is_var x; destruct x; try discriminate end;
    intros Hc%switch_when; symmetry in Hc; revert Hc;
    first [ unfold dec_set; match goal with |- context [?read r] => destruct (read r) as [[x r1]| |]; simpl; [|done|done] end;
            by intros [= <- <-]
          | idtac ].
  unfold dec_push. destruct (R_uint32 r) as [[n r1]| |]; simpl; [|done|done].
  destruct (NamePart_decode _ _ _ _ _) as [[x r2]| |] eqn:Hx; simpl; [|done|done]. intros [= <- <-]. simpl.
  apply Forall_app. split; [done|]. constructor; [|done]. by eapply NamePart_decode_complete.
Qed.

(** A required field is never missing from what was decoded: every part of
    the name of a decoded option has its text and its extension flag, and a
    name part without one of them is rejected. *)
Theorem required_fields_present b m : decode_bytes UninterpretedOption_decode b = Ok m →
  Forall complete (UninterpretedOption_name m).
Proof.
  unfold decode_bytes, UninterpretedOption_decode, decode_with, depth_check. destruct (_ <? _); [done|].
  match goal with |- (let! '(_, _) := ?c in _) = _ → _ => destruct c as [[m' r']| |] eqn:Hm; simpl; [|done|done] end.
  intros [= <-]. revert Hm. apply (decode_loop_inv (λ m, Forall complete (UninterpretedOption_name m))); [|done|].
  - intros f w m1 r m2 r2. apply UninterpretedOption_switch_complete.
  - by constructor.
Qed.
End Required.

(** ** The oneof of a rule *)

Section Pattern.
Context `{RL : RuntimeLaws}.

(** The member [g] of the oneof [pattern] is set. *)
Definition HttpRule_has (g : string) (m : HttpRule) : bool :=
  if String.eqb g "get" then bool_decide (is_Some (HttpRule_get m))
  else if String.eqb g "put" then bool_decide (is_Some (HttpRule_put m))
  else if String.eqb g "post" then bool_decide (is_Some (HttpRule_post m))
  else if String.eqb g "delete" then bool_decide (is_Some (HttpRule_delete m))
  else if String.eqb g "patch" then bool_decide (is_Some (HttpRule_patch m))
  else if String.eqb g "custom" then bool_decide (is_Some (HttpRule_custom m))
  else false.

Lemma HttpRule_has_remove f g m : HttpRule_has g (HttpRule_remove f m) = HttpRule_has g m && negb (String.eqb f g).
Proof.
  unfold HttpRule_has, HttpRule_remove.
  repeat match goal with
  | |- context [String.eqb g ?s] => destruct (String.eqb_spec g s) as [->|?]
  end; (repeat match goal with |- context [String.eqb f ?s] => destruct (String.eqb_spec f s) as [->|?] end;
    simpl; by rewrite ?andb_true_r, ?andb_false_r).
Qed.

(** At most the member [name] is set. *)
Definition only_pattern (name : string) (m : HttpRule) : Prop :=
  ∀ g, g ∈ HttpRule_oneOfFields → g ≠ name → HttpRule_has g m = false.

Lemma HttpRule_set_pattern_only name m : only_pattern name (HttpRule_set_pattern name m).
Proof.
  intros g Hg Hne. unfold HttpRule_set_pattern. assert (Hin : g ∈ oneOfSetter HttpRule_oneOfFields name) by (by apply oneOfSetter_spec).
  revert Hin. generalize (oneOfSetter HttpRule_oneOfFields name). intros l. revert m.
  assert (Hstay : ∀ l m, HttpRule_has g m = false → HttpRule_has g (foldl (λ m f, HttpRule_remove f m) m l) = false).
  { clear. induction l as [|f l IH]; intros m Hm; simpl; [done|]. apply IH. by rewrite HttpRule_has_remove, Hm. }
  induction l as [|f l IH]; intros m Hin; [by apply not_elem_of_nil in Hin|]. simpl.
  destruct (String.eqb_spec f g) as [->|Hfg].
  - apply Hstay. rewrite HttpRule_has_remove, String.eqb_refl. apply andb_false_r.
  - apply IH. set_solver.
Qed.

(** One [case] leaves at most one member, if there was at most one before. *)
Lemma HttpRule_switch_pattern dec d f w m r m' r' :
  (∃ name, only_pattern name m) → HttpRule_switch dec d f w m r = Some (Ok (m', r')) → ∃ name, only_pattern name m'.
Proof.
  intros [name Hm]. unfold HttpRule_switch.
  repeat match goal with |- context [match ?x with _ => _ end] => is_var x; destruct x; try discriminate end;
    intros Hc%switch_when; symmetry in Hc; revert Hc; unfold dec_opt, dec_set, dec_msg, dec_push;
    repeat (match goal with |- context [res_bind ?c _] => destruct c as [[? ?]| |] end; simpl; [|done|done]);
    intros [= <- <-]; first [eexists; apply HttpRule_set_pattern_only | by exists name].
Qed.

(** Decoding leaves at most one pattern in a rule: the last one of the
    message deletes the others. *)
Theorem rule_pattern_unique b m : decode_bytes HttpRule_decode b = Ok m →
  (length (base.filter (λ g, HttpRule_has g m = true) HttpRule_oneOfFields) ≤ 1)%nat.
Proof.
  unfold decode_bytes. rewrite HttpRule_decode_unfold. unfold decode_with, depth_check. destruct (_ <? _); [done|].
  match goal with |- (let! '(_, _) := ?c in _) = _ → _ => destruct c as [[m' r']| |] eqn:Hm; simpl; [|done|done] end.
  intros [= <-]. assert (∃ name, only_pattern name m') as [name Hname].
  { revert Hm. apply (decode_loop_inv (λ m, ∃ name, only_pattern name m)).
    - intros f w m1 r m2 r2. apply HttpRule_switch_pattern.
    - done.
    - exists ""%string. intros g Hg _. unfold HttpRule_has. simpl. by repeat case_match. }
  assert (Hnd : NoDup HttpRule_oneOfFields) by (apply (bool_decide_unpack _); vm_compute; exact I).
  apply (NoDup_filter (λ g, HttpRule_has g m' = true)) in Hnd.
  assert (Hall : ∀ g, g ∈ base.filter (λ g, HttpRule_has g m' = true) HttpRule_oneOfFields → g = name).
  { intros g [Hg1 Hg2]%list_elem_of_filter. destruct (decide (g = name)); [done|]. by rewrite Hname in Hg1. }
  destruct (base.filter _ _) as [|x [|y l]]; simpl; [lia|lia|]. exfalso.
  apply NoDup_cons in Hnd as [Hn _]. apply Hn. rewrite (Hall x), (Hall y) by set_solver. set_solver.
Qed.

End Pattern.

(** ** The theorems at concrete messages *)

(** A message whose values are all given is valid: inner messages are checked
    the same way. *)
Ltac in_range := vm_compute; first [exact I | reflexivity | split; first [reflexivity | discriminate]].

Ltac valid_class :=
  hnf; split; [|reflexivity];
  repeat (apply Forall_cons; split); try apply Forall_nil_2;
  cbn [f_ok opt_field rep_field nums_field packed_field req_field oneof_field msg_field oneof_msg_field msgs_field];
  valid_field
with valid_field :=
  lazymatch goal with
  | |- opt_all (msg_ok _ _) _ => let x := fresh in intros x Hx; hnf in Hx; first [discriminate Hx | injection Hx as <-; valid_msg]
  | |- opt_all _ _ => let x := fresh in intros x Hx; hnf in Hx; first [discriminate Hx | injection Hx as <-; in_range]
  | |- msg_ok _ _ _ => valid_msg
  | |- Forall _ _ ∧ _ => split; [|vm_compute; reflexivity]; repeat (apply Forall_cons; split); try apply Forall_nil_2; in_range
  | |- _ => in_range
  end
with valid_msg := split; [valid_class|vm_compute; reflexivity].

Section Example.
#[local] Existing Instance wire.
#[local] Existing Instance wire_laws.

(** A rule with an additional binding that has a custom pattern. *)
Definition ex_rule : HttpRule :=
  mkHttpRule (Some "im.Send"%string) (Some "/v1/messages"%string) None None None None None (Some ""%string) None
    [mkHttpRule None None None None None None (Some (mkCustomHttpPattern (Some "HEAD"%string) (Some "/v1"%string) None)) None None [] None] None.

Lemma ex_rule_valid : dc_valid (HttpRule_class 2) ex_rule.
Proof. valid_class. Qed.

Lemma ex_room : room 2.
Proof. vm_compute. split; discriminate. Qed.

Lemma ex_rule_member : HttpRule_class 2 ∈ descriptor_classes 2.
Proof. apply (list_elem_of_lookup_2 _ 1%nat). reflexivity. Qed.

(** The empty body is not sent, the binding and its pattern are. *)
Example ex_rule_received : dc_received (HttpRule_class 2) ex_rule =
  mkHttpRule (Some "im.Send"%string) (Some "/v1/messages"%string) None None None None None None None
    [mkHttpRule None None None None None None (Some (mkCustomHttpPattern (Some "HEAD"%string) (Some "/v1"%string) None)) None None [] None] None.
Proof. vm_compute. reflexivity. Qed.

Lemma descriptor_roundtrip_witness : ∃ b, to_wire HttpRule_encode ex_rule = Ok b ∧
  decode_bytes HttpRule_decode b = Ok (dc_received (HttpRule_class 2) ex_rule).
Proof. apply (descriptor_roundtrip 2 (HttpRule_class 2) ex_rule ex_room ex_rule_member ex_rule_valid). Defined.

(** A file with a nested message, an option with a fraction and a location. *)
Definition ex_half : double := SpecFloat.S754_finite false (2 ^ 52)%positive (-53).

Definition ex_option : UninterpretedOption :=
  mkUninterpretedOption [mkNamePart (Some "opt"%string) (Some false) None] None None (Some (LNum (- 7))) (Some ex_half)
    (Some []) None None.

Definition ex_file : FileDescriptorProto :=
  mkFileDescriptorProto (Some "a.proto"%string) None ["b.proto"%string] [0; -1] []
    [mkDescriptorProto (Some "Outer"%string) [] [] [mkDescriptorProto (Some "Inner"%string) [] [] [] [] [] [] None [] [] None]
       [] [] [] (Some (mkMessageOptions None None (Some false) None [ex_option] None)) [] [] None]
    [] [] [] None (Some (mkSourceCodeInfo [mkLocation [4; 0] [1; 2; 3] None (Some ""%string) [] None] None)) None None.

Lemma ex_file_valid : dc_valid (FileDescriptorProto_class 2) ex_file.
Proof. valid_class. Qed.

(** Explicit presence: the empty comment, the empty byte string and the false
    flag arrive; the negative number is a [Long]. *)
Example ex_file_arrives : (let! b := to_wire FileDescriptorProto_encode ex_file in decode_bytes FileDescriptorProto_decode b) =
  Ok (mkFileDescriptorProto (Some "a.proto"%string) None ["b.proto"%string] [0; -1] []
    [mkDescriptorProto (Some "Outer"%string) [] [] [mkDescriptorProto (Some "Inner"%string) [] [] [] [] [] [] None [] [] None]
       [] [] [] (Some (mkMessageOptions None None (Some false) None
         [mkUninterpretedOption [mkNamePart (Some "opt"%string) (Some false) None] None None (Some (LLong (-7) (-1) false)) (Some ex_half)
            (Some []) None None] None)) [] [] None]
    [] [] [] None (Some (mkSourceCodeInfo [mkLocation [4; 0] [1; 2; 3] None (Some ""%string) [] None] None)) None None).
Proof. vm_compute. reflexivity. Qed.

Lemma descriptor_stream_witness : ∃ w r, write_stream HttpRule_encodeDelimited [ex_rule; ex_rule] W_create = Ok w ∧
  read_stream HttpRule_decodeDelimited 2 (R_create (W_finish w)) =
    Ok ([dc_received (HttpRule_class 2) ex_rule; dc_received (HttpRule_class 2) ex_rule], r) ∧ R_rest r = [].
Proof.
  apply (descriptor_stream 2 (HttpRule_class 2) [ex_rule; ex_rule] ex_room ex_rule_member).
  do 2 (constructor; [split; [exact ex_rule_valid|vm_compute; reflexivity]|]). constructor.
Defined.

(** [n] rules inside each other. *)
Fixpoint ex_chain (n : nat) : HttpRule :=
  set_HttpRule_additionalBindings (match n with O => [] | S n' => [ex_chain n'] end) HttpRule_new.

(** One hundred levels inside a rule are encoded, one more is too much. *)
Lemma descriptor_depth_limit_witness :
  (∃ w', HttpRule_encode (ex_chain 100) None None = Ok w') ∧ HttpRule_encode (ex_chain 101) None None = Throw "max depth exceeded".
Proof.
  split.
  - destruct (descriptor_depth_limit 2 (HttpRule_class 2) (ex_chain 100) None None ex_rule_member) as [[_ H]|[H _]]; [exact H|].
    vm_compute in H. discriminate H.
  - destruct (descriptor_depth_limit 2 (HttpRule_class 2) (ex_chain 101) None None ex_rule_member) as [[H _]|[_ H]]; [|exact H].
    vm_compute in H. exfalso. by apply H.
Defined.

Lemma descriptor_reencodes_witness : ∃ m b', decode_bytes HttpRule_decode [x5a; x02; x0a; x00] = Ok m ∧ to_wire HttpRule_encode m = Ok b'.
Proof.
  destruct (decode_bytes HttpRule_decode [x5a; x02; x0a; x00]) as [m| |] eqn:Hm; [|vm_compute in Hm; discriminate Hm..].
  destruct (descriptor_reencodes 2 (HttpRule_class 2) _ m ex_rule_member ltac:(done) Hm) as [b' H]. exists m, b'. split; [reflexivity|exact H].
Defined.

Lemma required_fields_present_witness : ∃ m, decode_bytes UninterpretedOption_decode [x12; x05; x0a; x01; x61; x10; x00] = Ok m ∧
  Forall complete (UninterpretedOption_name m).
Proof.
  destruct (decode_bytes UninterpretedOption_decode [x12; x05; x0a; x01; x61; x10; x00]) as [m| |] eqn:Hm; [|vm_compute in Hm; discriminate Hm..].
  exists m. split; [reflexivity|]. exact (required_fields_present _ m Hm).
Defined.

(** Without its flag the name part is rejected. *)
Example name_part_missing :
  decode_bytes UninterpretedOption_decode [x12; x03; x0a; x01; x61] = Throw "missing required 'isExtension'".
Proof. vm_compute. reflexivity. Qed.

(** Two patterns on the wire: the second one stays. *)
Lemma rule_pattern_unique_witness : ∃ m, decode_bytes HttpRule_decode [x12; x01; x61; x22; x01; x62] = Ok m ∧
  HttpRule_get m = None ∧ HttpRule_post m = Some "b"%string ∧
  (length (base.filter (λ g, HttpRule_has g m = true) HttpRule_oneOfFields) ≤ 1)%nat.
Proof.
  destruct (decode_bytes HttpRule_decode [x12; x01; x61; x22; x01; x62]) as [m| |] eqn:Hm; [|vm_compute in Hm; discriminate Hm..].
  exists m. pose proof (rule_pattern_unique _ m Hm). vm_compute in Hm. injection Hm as <-. by repeat split.
Defined.
End Example.
