(* ===== verification/DescConvert.v ===== *)
(** * Conversions of the HTTP annotation classes ([web/app/lib/proto/im.js])

    [verify] and [fromObject] with the fields in the order of their declaration,
    [toObject] in the order of their numbers, and [toJSON], of the classes of
    [DescHttp].  A [HttpRule] contains others of its
    class: [verify] and [fromObject] take the conversion of the inner objects as
    an argument, and [convert_nested] supplies it for the levels that are
    left. *)

From S2P Require Import Prelude JsNum JsMap ProtoRuntime ProtoObjects DescHttp.
Open Scope Z_scope.

Section Conversions.
Context {RT : Runtime} {CV : Conversions}.

(** ** [CustomHttpPattern] *)

Definition CustomHttpPattern_verify (message : jsval) (_depth : option Z) : option string :=
  verify_object message _depth (λ depth,
  check message "kind" (expect isString "kind: string expected") (
  check message "path" (expect isString "path: string expected") (
  None))).

Definition CustomHttpPattern_fromObject (object : jsval) (_depth : option Z) : res CustomHttpPattern :=
  from_object ".google.api.CustomHttpPattern" object _depth (λ depth,
  let message := CustomHttpPattern_new in
  let! message := from_field object "kind" from_string set_CustomHttpPattern_kind message in
  let! message := from_field object "path" from_string set_CustomHttpPattern_path message in
  Ok message).

Definition CustomHttpPattern_toObject (message : CustomHttpPattern) (options : Options) (_depth : option Z) : res jsval :=
  to_object _depth (λ depth,
  let object := [] in
  let object := if defaults options then
      put "path" (VStr "") (put "kind" (VStr "") object)
    else object in
  let object := put_own "kind" VStr (CustomHttpPattern_kind message) object in
  let object := put_own "path" VStr (CustomHttpPattern_path message) object in
  Ok object).

Definition CustomHttpPattern_toJSON (message : CustomHttpPattern) : res jsval := CustomHttpPattern_toObject message toJSONOptions None.

(** ** [HttpRule] *)

Definition HttpRule_verify_with (verify : jsval → option Z → option string) (message : jsval) (_depth : option Z) : option string :=
  verify_object message _depth (λ depth,
  check message "selector" (expect isString "selector: string expected") (
  check_member message "pattern" "get" (expect isString "get: string expected") false (λ seen,
  check_member message "pattern" "put" (expect isString "put: string expected") seen (λ seen,
  check_member message "pattern" "post" (expect isString "post: string expected") seen (λ seen,
  check_member message "pattern" "delete" (expect isString "delete: string expected") seen (λ seen,
  check_member message "pattern" "patch" (expect isString "patch: string expected") seen (λ seen,
  check_member message "pattern" "custom" (verify_nested "custom" CustomHttpPattern_verify depth) seen (λ seen,
  check message "body" (expect isString "body: string expected") (
  check message "responseBody" (expect isString "responseBody: string expected") (
  check message "additionalBindings" (expect_array "additionalBindings" (verify_nested "additionalBindings" verify depth)) (
  None))))))))))).

Definition HttpRule_verify : jsval → option Z → option string := convert_nested HttpRule_verify_with None.

Definition HttpRule_fromObject_with (fromObject : jsval → option Z → res HttpRule) (object : jsval) (_depth : option Z) : res HttpRule :=
  from_object ".google.api.HttpRule" object _depth (λ depth,
  let message := HttpRule_new in
  let! message := from_field object "selector" from_string set_HttpRule_selector message in
  let! message := from_field object "get" from_text set_HttpRule_get message in
  let! message := from_field object "put" from_text set_HttpRule_put message in
  let! message := from_field object "post" from_text set_HttpRule_post message in
  let! message := from_field object "delete" from_text set_HttpRule_delete message in
  let! message := from_field object "patch" from_text set_HttpRule_patch message in
  let! message := from_field object "custom" (from_message ".google.api.HttpRule" "custom" CustomHttpPattern_fromObject depth) set_HttpRule_custom message in
  let! message := from_field object "body" from_string set_HttpRule_body message in
  let! message := from_field object "responseBody" from_string set_HttpRule_responseBody message in
  let! message := from_array ".google.api.HttpRule" object "additionalBindings" (from_nested ".google.api.HttpRule" "additionalBindings" fromObject depth) set_HttpRule_additionalBindings message in
  Ok message).

Definition HttpRule_fromObject : jsval → option Z → res HttpRule := convert_nested HttpRule_fromObject_with (Throw "max depth exceeded").

Fixpoint HttpRule_toObject (message : HttpRule) (options : Options) (_depth : option Z) {struct message} : res jsval :=
  to_object _depth (λ depth,
  let object := [] in
  let object := if arrays options || defaults options then
      put "additionalBindings" (VArr []) object
    else object in
  let object := if defaults options then
      put "responseBody" (VStr "") (put "body" (VStr "") (put "selector" (VStr "") object))
    else object in
  let object := put_own "selector" VStr (HttpRule_selector message) object in
  let object := put_member options "pattern" "get" VStr (HttpRule_get message) object in
  let object := put_member options "pattern" "put" VStr (HttpRule_put message) object in
  let object := put_member options "pattern" "post" VStr (HttpRule_post message) object in
  let object := put_member options "pattern" "delete" VStr (HttpRule_delete message) object in
  let object := put_member options "pattern" "patch" VStr (HttpRule_patch message) object in
  let object := put_own "body" VStr (HttpRule_body message) object in
  let! object := put_nested options "pattern" "custom" CustomHttpPattern_toObject depth (HttpRule_custom message) object in
  let! object := put_msgs options "additionalBindings" HttpRule_toObject depth (HttpRule_additionalBindings message) object in
  let object := put_own "responseBody" VStr (HttpRule_responseBody message) object in
  Ok object).

Definition HttpRule_toJSON (message : HttpRule) : res jsval := HttpRule_toObject message toJSONOptions None.

(** ** [Http] *)

Definition Http_verify (message : jsval) (_depth : option Z) : option string :=
  verify_object message _depth (λ depth,
  check message "rules" (expect_array "rules" (verify_nested "rules" HttpRule_verify depth)) (
  check message "fullyDecodeReservedExpansion" (expect isBoolean "fullyDecodeReservedExpansion: boolean expected") (
  None))).

Definition Http_fromObject (object : jsval) (_depth : option Z) : res Http :=
  from_object ".google.api.Http" object _depth (λ depth,
  let message := Http_new in
  let! message := from_array ".google.api.Http" object "rules" (from_nested ".google.api.Http" "rules" HttpRule_fromObject depth) set_Http_rules message in
  let! message := from_field object "fullyDecodeReservedExpansion" from_bool set_Http_fullyDecodeReservedExpansion message in
  Ok message).

Definition Http_toObject (message : Http) (options : Options) (_depth : option Z) : res jsval :=
  to_object _depth (λ depth,
  let object := [] in
  let object := if arrays options || defaults options then
      put "rules" (VArr []) object
    else object in
  let object := if defaults options then
      put "fullyDecodeReservedExpansion" (VBool false) object
    else object in
  let! object := put_msgs options "rules" HttpRule_toObject depth (Http_rules message) object in
  let object := put_own "fullyDecodeReservedExpansion" VBool (Http_fullyDecodeReservedExpansion message) object in
  Ok object).

Definition Http_toJSON (message : Http) : res jsval := Http_toObject message toJSONOptions None.

End Conversions.
