(* ===== verification/DescConvertOptions.v ===== *)
(** * Conversions of the option classes of the descriptors ([web/app/lib/proto/im.js])

    [verify] and [fromObject] with the fields in the order of their declaration,
    [toObject] in the order of their numbers, and [toJSON], of the classes of
    [DescOptions]. *)

From S2P Require Import Prelude JsNum JsMap ProtoRuntime ProtoObjects DescHttp DescOptions DescConvert.
Open Scope Z_scope.

Section Conversions.
Context {RT : Runtime} {CV : Conversions}.

(** ** [NamePart] *)

Definition NamePart_verify (message : jsval) (_depth : option Z) : option string :=
  verify_object message _depth (λ depth,
  check_required message "namePart" isString "namePart: string expected" (
  check_required message "isExtension" isBoolean "isExtension: boolean expected" (
  None))).

Definition NamePart_fromObject (object : jsval) (_depth : option Z) : res NamePart :=
  from_object ".google.protobuf.UninterpretedOption.NamePart" object _depth (λ depth,
  let message := NamePart_new in
  let! message := from_field object "namePart" from_text set_NamePart_namePart message in
  let! message := from_field object "isExtension" from_flag set_NamePart_isExtension message in
  Ok message).

Definition NamePart_toObject (message : NamePart) (options : Options) (_depth : option Z) : res jsval :=
  to_object _depth (λ depth,
  let object := [] in
  let object := if defaults options then
      put "isExtension" (VBool false) (put "namePart" (VStr "") object)
    else object in
  let object := put_own "namePart" VStr (NamePart_namePart message) object in
  let object := put_own "isExtension" VBool (NamePart_isExtension message) object in
  Ok object).

Definition NamePart_toJSON (message : NamePart) : res jsval := NamePart_toObject message toJSONOptions None.

(** ** [UninterpretedOption] *)

Definition UninterpretedOption_verify (message : jsval) (_depth : option Z) : option string :=
  verify_object message _depth (λ depth,
  check message "name" (expect_array "name" (verify_nested "name" NamePart_verify depth)) (
  check message "identifierValue" (expect isString "identifierValue: string expected") (
  check message "positiveIntValue" (expect isLongLike "positiveIntValue: integer|Long expected") (
  check message "negativeIntValue" (expect isLongLike "negativeIntValue: integer|Long expected") (
  check message "doubleValue" (expect isNumber "doubleValue: number expected") (
  check message "stringValue" (expect isBuffer "stringValue: buffer expected") (
  check message "aggregateValue" (expect isString "aggregateValue: string expected") (
  None)))))))).

Definition UninterpretedOption_fromObject (object : jsval) (_depth : option Z) : res UninterpretedOption :=
  from_object ".google.protobuf.UninterpretedOption" object _depth (λ depth,
  let message := UninterpretedOption_new in
  let! message := from_array ".google.protobuf.UninterpretedOption" object "name" (from_nested ".google.protobuf.UninterpretedOption" "name" NamePart_fromObject depth) set_UninterpretedOption_name message in
  let! message := from_field object "identifierValue" from_text set_UninterpretedOption_identifierValue message in
  let! message := from_field object "positiveIntValue" (long_of true) set_UninterpretedOption_positiveIntValue message in
  let! message := from_field object "negativeIntValue" (long_of false) set_UninterpretedOption_negativeIntValue message in
  let! message := from_field object "doubleValue" from_double set_UninterpretedOption_doubleValue message in
  let! message := from_field object "stringValue" from_buffer set_UninterpretedOption_stringValue message in
  let! message := from_field object "aggregateValue" from_text set_UninterpretedOption_aggregateValue message in
  Ok message).

Definition UninterpretedOption_toObject (message : UninterpretedOption) (options : Options) (_depth : option Z) : res jsval :=
  to_object _depth (λ depth,
  let object := [] in
  let object := if arrays options || defaults options then
      put "name" (VArr []) object
    else object in
  let object := if defaults options then
      put "aggregateValue" (VStr "") (put "stringValue" (bytes_default options) (put "doubleValue" (VNum 0) (put "negativeIntValue" (long_default options false) (put "positiveIntValue" (long_default options true) (put "identifierValue" (VStr "") object)))))
    else object in
  let! object := put_msgs options "name" NamePart_toObject depth (UninterpretedOption_name message) object in
  let object := put_own "identifierValue" VStr (UninterpretedOption_identifierValue message) object in
  let object := put_own "positiveIntValue" (to_long options true) (UninterpretedOption_positiveIntValue message) object in
  let object := put_own "negativeIntValue" (to_long options false) (UninterpretedOption_negativeIntValue message) object in
  let object := put_own "doubleValue" (to_number options) (UninterpretedOption_doubleValue message) object in
  let object := put_own "stringValue" (to_bytes options) (UninterpretedOption_stringValue message) object in
  let object := put_own "aggregateValue" VStr (UninterpretedOption_aggregateValue message) object in
  Ok object).

Definition UninterpretedOption_toJSON (message : UninterpretedOption) : res jsval := UninterpretedOption_toObject message toJSONOptions None.

(** ** [ExtensionRangeOptions] *)

Definition ExtensionRangeOptions_verify (message : jsval) (_depth : option Z) : option string :=
  verify_object message _depth (λ depth,
  check message "uninterpretedOption" (expect_array "uninterpretedOption" (verify_nested "uninterpretedOption" UninterpretedOption_verify depth)) (
  None)).

Definition ExtensionRangeOptions_fromObject (object : jsval) (_depth : option Z) : res ExtensionRangeOptions :=
  from_object ".google.protobuf.ExtensionRangeOptions" object _depth (λ depth,
  let message := ExtensionRangeOptions_new in
  let! message := from_array ".google.protobuf.ExtensionRangeOptions" object "uninterpretedOption" (from_nested ".google.protobuf.ExtensionRangeOptions" "uninterpretedOption" UninterpretedOption_fromObject depth) set_ExtensionRangeOptions_uninterpretedOption message in
  Ok message).

Definition ExtensionRangeOptions_toObject (message : ExtensionRangeOptions) (options : Options) (_depth : option Z) : res jsval :=
  to_object _depth (λ depth,
  let object := [] in
  let object := if arrays options || defaults options then
      put "uninterpretedOption" (VArr []) object
    else object in
  let! object := put_msgs options "uninterpretedOption" UninterpretedOption_toObject depth (ExtensionRangeOptions_uninterpretedOption message) object in
  Ok object).

Definition ExtensionRangeOptions_toJSON (message : ExtensionRangeOptions) : res jsval := ExtensionRangeOptions_toObject message toJSONOptions None.

(** ** [FileOptions] *)

Definition FileOptions_OptimizeMode : list (Z * string) :=
  [(1, "SPEED"); (2, "CODE_SIZE"); (3, "LITE_RUNTIME")]%string.

Definition FileOptions_verify (message : jsval) (_depth : option Z) : option string :=
  verify_object message _depth (λ depth,
  check message "javaPackage" (expect isString "javaPackage: string expected") (
  check message "javaOuterClassname" (expect isString "javaOuterClassname: string expected") (
  check message "javaMultipleFiles" (expect isBoolean "javaMultipleFiles: boolean expected") (
  check message "javaGenerateEqualsAndHash" (expect isBoolean "javaGenerateEqualsAndHash: boolean expected") (
  check message "javaStringCheckUtf8" (expect isBoolean "javaStringCheckUtf8: boolean expected") (
  check message "optimizeFor" (expect (isEnum FileOptions_OptimizeMode) "optimizeFor: enum value expected") (
  check message "goPackage" (expect isString "goPackage: string expected") (
  check message "ccGenericServices" (expect isBoolean "ccGenericServices: boolean expected") (
  check message "javaGenericServices" (expect isBoolean "javaGenericServices: boolean expected") (
  check message "pyGenericServices" (expect isBoolean "pyGenericServices: boolean expected") (
  check message "phpGenericServices" (expect isBoolean "phpGenericServices: boolean expected") (
  check message "deprecated" (expect isBoolean "deprecated: boolean expected") (
  check message "ccEnableArenas" (expect isBoolean "ccEnableArenas: boolean expected") (
  check message "objcClassPrefix" (expect isString "objcClassPrefix: string expected") (
  check message "csharpNamespace" (expect isString "csharpNamespace: string expected") (
  check message "swiftPrefix" (expect isString "swiftPrefix: string expected") (
  check message "phpClassPrefix" (expect isString "phpClassPrefix: string expected") (
  check message "phpNamespace" (expect isString "phpNamespace: string expected") (
  check message "phpMetadataNamespace" (expect isString "phpMetadataNamespace: string expected") (
  check message "rubyPackage" (expect isString "rubyPackage: string expected") (
  check message "uninterpretedOption" (expect_array "uninterpretedOption" (verify_nested "uninterpretedOption" UninterpretedOption_verify depth)) (
  None)))))))))))))))))))))).

Definition FileOptions_fromObject (object : jsval) (_depth : option Z) : res FileOptions :=
  from_object ".google.protobuf.FileOptions" object _depth (λ depth,
  let message := FileOptions_new in
  let! message := from_field object "javaPackage" from_text set_FileOptions_javaPackage message in
  let! message := from_field object "javaOuterClassname" from_text set_FileOptions_javaOuterClassname message in
  let! message := from_field object "javaMultipleFiles" from_flag set_FileOptions_javaMultipleFiles message in
  let! message := from_field object "javaGenerateEqualsAndHash" from_flag set_FileOptions_javaGenerateEqualsAndHash message in
  let! message := from_field object "javaStringCheckUtf8" from_flag set_FileOptions_javaStringCheckUtf8 message in
  let! message := from_field object "optimizeFor" (from_value FileOptions_OptimizeMode) set_FileOptions_optimizeFor message in
  let! message := from_field object "goPackage" from_text set_FileOptions_goPackage message in
  let! message := from_field object "ccGenericServices" from_flag set_FileOptions_ccGenericServices message in
  let! message := from_field object "javaGenericServices" from_flag set_FileOptions_javaGenericServices message in
  let! message := from_field object "pyGenericServices" from_flag set_FileOptions_pyGenericServices message in
  let! message := from_field object "phpGenericServices" from_flag set_FileOptions_phpGenericServices message in
  let! message := from_field object "deprecated" from_flag set_FileOptions_deprecated message in
  let! message := from_field object "ccEnableArenas" from_flag set_FileOptions_ccEnableArenas message in
  let! message := from_field object "objcClassPrefix" from_text set_FileOptions_objcClassPrefix message in
  let! message := from_field object "csharpNamespace" from_text set_FileOptions_csharpNamespace message in
  let! message := from_field object "swiftPrefix" from_text set_FileOptions_swiftPrefix message in
  let! message := from_field object "phpClassPrefix" from_text set_FileOptions_phpClassPrefix message in
  let! message := from_field object "phpNamespace" from_text set_FileOptions_phpNamespace message in
  let! message := from_field object "phpMetadataNamespace" from_text set_FileOptions_phpMetadataNamespace message in
  let! message := from_field object "rubyPackage" from_text set_FileOptions_rubyPackage message in
  let! message := from_array ".google.protobuf.FileOptions" object "uninterpretedOption" (from_nested ".google.protobuf.FileOptions" "uninterpretedOption" UninterpretedOption_fromObject depth) set_FileOptions_uninterpretedOption message in
  Ok message).

Definition FileOptions_toObject (message : FileOptions) (options : Options) (_depth : option Z) : res jsval :=
  to_object _depth (λ depth,
  let object := [] in
  let object := if arrays options || defaults options then
      put "uninterpretedOption" (VArr []) object
    else object in
  let object := if defaults options then
      put "rubyPackage" (VStr "") (put "phpMetadataNamespace" (VStr "") (put "phpGenericServices" (VBool false) (put "phpNamespace" (VStr "") (put "phpClassPrefix" (VStr "") (put "swiftPrefix" (VStr "") (put "csharpNamespace" (VStr "") (put "objcClassPrefix" (VStr "") (put "ccEnableArenas" (VBool true) (put "javaStringCheckUtf8" (VBool false) (put "deprecated" (VBool false) (put "javaGenerateEqualsAndHash" (VBool false) (put "pyGenericServices" (VBool false) (put "javaGenericServices" (VBool false) (put "ccGenericServices" (VBool false) (put "goPackage" (VStr "") (put "javaMultipleFiles" (VBool false) (put "optimizeFor" (value_default options 1 "SPEED") (put "javaOuterClassname" (VStr "") (put "javaPackage" (VStr "") object)))))))))))))))))))
    else object in
  let object := put_own "javaPackage" VStr (FileOptions_javaPackage message) object in
  let object := put_own "javaOuterClassname" VStr (FileOptions_javaOuterClassname message) object in
  let object := put_own "optimizeFor" (to_enum options FileOptions_OptimizeMode) (FileOptions_optimizeFor message) object in
  let object := put_own "javaMultipleFiles" VBool (FileOptions_javaMultipleFiles message) object in
  let object := put_own "goPackage" VStr (FileOptions_goPackage message) object in
  let object := put_own "ccGenericServices" VBool (FileOptions_ccGenericServices message) object in
  let object := put_own "javaGenericServices" VBool (FileOptions_javaGenericServices message) object in
  let object := put_own "pyGenericServices" VBool (FileOptions_pyGenericServices message) object in
  let object := put_own "javaGenerateEqualsAndHash" VBool (FileOptions_javaGenerateEqualsAndHash message) object in
  let object := put_own "deprecated" VBool (FileOptions_deprecated message) object in
  let object := put_own "javaStringCheckUtf8" VBool (FileOptions_javaStringCheckUtf8 message) object in
  let object := put_own "ccEnableArenas" VBool (FileOptions_ccEnableArenas message) object in
  let object := put_own "objcClassPrefix" VStr (FileOptions_objcClassPrefix message) object in
  let object := put_own "csharpNamespace" VStr (FileOptions_csharpNamespace message) object in
  let object := put_own "swiftPrefix" VStr (FileOptions_swiftPrefix message) object in
  let object := put_own "phpClassPrefix" VStr (FileOptions_phpClassPrefix message) object in
  let object := put_own "phpNamespace" VStr (FileOptions_phpNamespace message) object in
  let object := put_own "phpGenericServices" VBool (FileOptions_phpGenericServices message) object in
  let object := put_own "phpMetadataNamespace" VStr (FileOptions_phpMetadataNamespace message) object in
  let object := put_own "rubyPackage" VStr (FileOptions_rubyPackage message) object in
  let! object := put_msgs options "uninterpretedOption" UninterpretedOption_toObject depth (FileOptions_uninterpretedOption message) object in
  Ok object).

Definition FileOptions_toJSON (message : FileOptions) : res jsval := FileOptions_toObject message toJSONOptions None.

(** ** [MessageOptions] *)

Definition MessageOptions_verify (message : jsval) (_depth : option Z) : option string :=
  verify_object message _depth (λ depth,
  check message "messageSetWireFormat" (expect isBoolean "messageSetWireFormat: boolean expected") (
  check message "noStandardDescriptorAccessor" (expect isBoolean "noStandardDescriptorAccessor: boolean expected") (
  check message "deprecated" (expect isBoolean "deprecated: boolean expected") (
  check message "mapEntry" (expect isBoolean "mapEntry: boolean expected") (
  check message "uninterpretedOption" (expect_array "uninterpretedOption" (verify_nested "uninterpretedOption" UninterpretedOption_verify depth)) (
  None)))))).

Definition MessageOptions_fromObject (object : jsval) (_depth : option Z) : res MessageOptions :=
  from_object ".google.protobuf.MessageOptions" object _depth (λ depth,
  let message := MessageOptions_new in
  let! message := from_field object "messageSetWireFormat" from_flag set_MessageOptions_messageSetWireFormat message in
  let! message := from_field object "noStandardDescriptorAccessor" from_flag set_MessageOptions_noStandardDescriptorAccessor message in
  let! message := from_field object "deprecated" from_flag set_MessageOptions_deprecated message in
  let! message := from_field object "mapEntry" from_flag set_MessageOptions_mapEntry message in
  let! message := from_array ".google.protobuf.MessageOptions" object "uninterpretedOption" (from_nested ".google.protobuf.MessageOptions" "uninterpretedOption" UninterpretedOption_fromObject depth) set_MessageOptions_uninterpretedOption message in
  Ok message).

Definition MessageOptions_toObject (message : MessageOptions) (options : Options) (_depth : option Z) : res jsval :=
  to_object _depth (λ depth,
  let object := [] in
  let object := if arrays options || defaults options then
      put "uninterpretedOption" (VArr []) object
    else object in
  let object := if defaults options then
      put "mapEntry" (VBool false) (put "deprecated" (VBool false) (put "noStandardDescriptorAccessor" (VBool false) (put "messageSetWireFormat" (VBool false) object)))
    else object in
  let object := put_own "messageSetWireFormat" VBool (MessageOptions_messageSetWireFormat message) object in
  let object := put_own "noStandardDescriptorAccessor" VBool (MessageOptions_noStandardDescriptorAccessor message) object in
  let object := put_own "deprecated" VBool (MessageOptions_deprecated message) object in
  let object := put_own "mapEntry" VBool (MessageOptions_mapEntry message) object in
  let! object := put_msgs options "uninterpretedOption" UninterpretedOption_toObject depth (MessageOptions_uninterpretedOption message) object in
  Ok object).

Definition MessageOptions_toJSON (message : MessageOptions) : res jsval := MessageOptions_toObject message toJSONOptions None.

(** ** [FieldOptions] *)

Definition FieldOptions_CType : list (Z * string) :=
  [(0, "STRING"); (1, "CORD"); (2, "STRING_PIECE")]%string.

Definition FieldOptions_JSType : list (Z * string) :=
  [(0, "JS_NORMAL"); (1, "JS_STRING"); (2, "JS_NUMBER")]%string.

Definition FieldOptions_verify (message : jsval) (_depth : option Z) : option string :=
  verify_object message _depth (λ depth,
  check message "ctype" (expect (isEnum FieldOptions_CType) "ctype: enum value expected") (
  check message "packed" (expect isBoolean "packed: boolean expected") (
  check message "jstype" (expect (isEnum FieldOptions_JSType) "jstype: enum value expected") (
  check message "lazy" (expect isBoolean "lazy: boolean expected") (
  check message "unverifiedLazy" (expect isBoolean "unverifiedLazy: boolean expected") (
  check message "deprecated" (expect isBoolean "deprecated: boolean expected") (
  check message "weak" (expect isBoolean "weak: boolean expected") (
  check message "uninterpretedOption" (expect_array "uninterpretedOption" (verify_nested "uninterpretedOption" UninterpretedOption_verify depth)) (
  None))))))))).

Definition FieldOptions_fromObject (object : jsval) (_depth : option Z) : res FieldOptions :=
  from_object ".google.protobuf.FieldOptions" object _depth (λ depth,
  let message := FieldOptions_new in
  let! message := from_field object "ctype" (from_value FieldOptions_CType) set_FieldOptions_ctype message in
  let! message := from_field object "packed" from_flag set_FieldOptions_packed message in
  let! message := from_field object "jstype" (from_value FieldOptions_JSType) set_FieldOptions_jstype message in
  let! message := from_field object "lazy" from_flag set_FieldOptions_lazy message in
  let! message := from_field object "unverifiedLazy" from_flag set_FieldOptions_unverifiedLazy message in
  let! message := from_field object "deprecated" from_flag set_FieldOptions_deprecated message in
  let! message := from_field object "weak" from_flag set_FieldOptions_weak message in
  let! message := from_array ".google.protobuf.FieldOptions" object "uninterpretedOption" (from_nested ".google.protobuf.FieldOptions" "uninterpretedOption" UninterpretedOption_fromObject depth) set_FieldOptions_uninterpretedOption message in
  Ok message).

Definition FieldOptions_toObject (message : FieldOptions) (options : Options) (_depth : option Z) : res jsval :=
  to_object _depth (λ depth,
  let object := [] in
  let object := if arrays options || defaults options then
      put "uninterpretedOption" (VArr []) object
    else object in
  let object := if defaults options then
      put "unverifiedLazy" (VBool false) (put "weak" (VBool false) (put "jstype" (value_default options 0 "JS_NORMAL") (put "lazy" (VBool false) (put "deprecated" (VBool false) (put "packed" (VBool false) (put "ctype" (value_default options 0 "STRING") object))))))
    else object in
  let object := put_own "ctype" (to_enum options FieldOptions_CType) (FieldOptions_ctype message) object in
  let object := put_own "packed" VBool (FieldOptions_packed message) object in
  let object := put_own "deprecated" VBool (FieldOptions_deprecated message) object in
  let object := put_own "lazy" VBool (FieldOptions_lazy message) object in
  let object := put_own "jstype" (to_enum options FieldOptions_JSType) (FieldOptions_jstype message) object in
  let object := put_own "weak" VBool (FieldOptions_weak message) object in
  let object := put_own "unverifiedLazy" VBool (FieldOptions_unverifiedLazy message) object in
  let! object := put_msgs options "uninterpretedOption" UninterpretedOption_toObject depth (FieldOptions_uninterpretedOption message) object in
  Ok object).

Definition FieldOptions_toJSON (message : FieldOptions) : res jsval := FieldOptions_toObject message toJSONOptions None.

(** ** [OneofOptions] *)

Definition OneofOptions_verify (message : jsval) (_depth : option Z) : option string :=
  verify_object message _depth (λ depth,
  check message "uninterpretedOption" (expect_array "uninterpretedOption" (verify_nested "uninterpretedOption" UninterpretedOption_verify depth)) (
  None)).

Definition OneofOptions_fromObject (object : jsval) (_depth : option Z) : res OneofOptions :=
  from_object ".google.protobuf.OneofOptions" object _depth (λ depth,
  let message := OneofOptions_new in
  let! message := from_array ".google.protobuf.OneofOptions" object "uninterpretedOption" (from_nested ".google.protobuf.OneofOptions" "uninterpretedOption" UninterpretedOption_fromObject depth) set_OneofOptions_uninterpretedOption message in
  Ok message).

Definition OneofOptions_toObject (message : OneofOptions) (options : Options) (_depth : option Z) : res jsval :=
  to_object _depth (λ depth,
  let object := [] in
  let object := if arrays options || defaults options then
      put "uninterpretedOption" (VArr []) object
    else object in
  let! object := put_msgs options "uninterpretedOption" UninterpretedOption_toObject depth (OneofOptions_uninterpretedOption message) object in
  Ok object).

Definition OneofOptions_toJSON (message : OneofOptions) : res jsval := OneofOptions_toObject message toJSONOptions None.

(** ** [EnumOptions] *)

Definition EnumOptions_verify (message : jsval) (_depth : option Z) : option string :=
  verify_object message _depth (λ depth,
  check message "allowAlias" (expect isBoolean "allowAlias: boolean expected") (
  check message "deprecated" (expect isBoolean "deprecated: boolean expected") (
  check message "uninterpretedOption" (expect_array "uninterpretedOption" (verify_nested "uninterpretedOption" UninterpretedOption_verify depth)) (
  None)))).

Definition EnumOptions_fromObject (object : jsval) (_depth : option Z) : res EnumOptions :=
  from_object ".google.protobuf.EnumOptions" object _depth (λ depth,
  let message := EnumOptions_new in
  let! message := from_field object "allowAlias" from_flag set_EnumOptions_allowAlias message in
  let! message := from_field object "deprecated" from_flag set_EnumOptions_deprecated message in
  let! message := from_array ".google.protobuf.EnumOptions" object "uninterpretedOption" (from_nested ".google.protobuf.EnumOptions" "uninterpretedOption" UninterpretedOption_fromObject depth) set_EnumOptions_uninterpretedOption message in
  Ok message).

Definition EnumOptions_toObject (message : EnumOptions) (options : Options) (_depth : option Z) : res jsval :=
  to_object _depth (λ depth,
  let object := [] in
  let object := if arrays options || defaults options then
      put "uninterpretedOption" (VArr []) object
    else object in
  let object := if defaults options then
      put "deprecated" (VBool false) (put "allowAlias" (VBool false) object)
    else object in
  let object := put_own "allowAlias" VBool (EnumOptions_allowAlias message) object in
  let object := put_own "deprecated" VBool (EnumOptions_deprecated message) object in
  let! object := put_msgs options "uninterpretedOption" UninterpretedOption_toObject depth (EnumOptions_uninterpretedOption message) object in
  Ok object).

Definition EnumOptions_toJSON (message : EnumOptions) : res jsval := EnumOptions_toObject message toJSONOptions None.

(** ** [EnumValueOptions] *)

Definition EnumValueOptions_verify (message : jsval) (_depth : option Z) : option string :=
  verify_object message _depth (λ depth,
  check message "deprecated" (expect isBoolean "deprecated: boolean expected") (
  check message "uninterpretedOption" (expect_array "uninterpretedOption" (verify_nested "uninterpretedOption" UninterpretedOption_verify depth)) (
  None))).

Definition EnumValueOptions_fromObject (object : jsval) (_depth : option Z) : res EnumValueOptions :=
  from_object ".google.protobuf.EnumValueOptions" object _depth (λ depth,
  let message := EnumValueOptions_new in
  let! message := from_field object "deprecated" from_flag set_EnumValueOptions_deprecated message in
  let! message := from_array ".google.protobuf.EnumValueOptions" object "uninterpretedOption" (from_nested ".google.protobuf.EnumValueOptions" "uninterpretedOption" UninterpretedOption_fromObject depth) set_EnumValueOptions_uninterpretedOption message in
  Ok message).

Definition EnumValueOptions_toObject (message : EnumValueOptions) (options : Options) (_depth : option Z) : res jsval :=
  to_object _depth (λ depth,
  let object := [] in
  let object := if arrays options || defaults options then
      put "uninterpretedOption" (VArr []) object
    else object in
  let object := if defaults options then
      put "deprecated" (VBool false) object
    else object in
  let object := put_own "deprecated" VBool (EnumValueOptions_deprecated message) object in
  let! object := put_msgs options "uninterpretedOption" UninterpretedOption_toObject depth (EnumValueOptions_uninterpretedOption message) object in
  Ok object).

Definition EnumValueOptions_toJSON (message : EnumValueOptions) : res jsval := EnumValueOptions_toObject message toJSONOptions None.

(** ** [ServiceOptions] *)

Definition ServiceOptions_verify (message : jsval) (_depth : option Z) : option string :=
  verify_object message _depth (λ depth,
  check message "deprecated" (expect isBoolean "deprecated: boolean expected") (
  check message "uninterpretedOption" (expect_array "uninterpretedOption" (verify_nested "uninterpretedOption" UninterpretedOption_verify depth)) (
  None))).

Definition ServiceOptions_fromObject (object : jsval) (_depth : option Z) : res ServiceOptions :=
  from_object ".google.protobuf.ServiceOptions" object _depth (λ depth,
  let message := ServiceOptions_new in
  let! message := from_field object "deprecated" from_flag set_ServiceOptions_deprecated message in
  let! message := from_array ".google.protobuf.ServiceOptions" object "uninterpretedOption" (from_nested ".google.protobuf.ServiceOptions" "uninterpretedOption" UninterpretedOption_fromObject depth) set_ServiceOptions_uninterpretedOption message in
  Ok message).

Definition ServiceOptions_toObject (message : ServiceOptions) (options : Options) (_depth : option Z) : res jsval :=
  to_object _depth (λ depth,
  let object := [] in
  let object := if arrays options || defaults options then
      put "uninterpretedOption" (VArr []) object
    else object in
  let object := if defaults options then
      put "deprecated" (VBool false) object
    else object in
  let object := put_own "deprecated" VBool (ServiceOptions_deprecated message) object in
  let! object := put_msgs options "uninterpretedOption" UninterpretedOption_toObject depth (ServiceOptions_uninterpretedOption message) object in
  Ok object).

Definition ServiceOptions_toJSON (message : ServiceOptions) : res jsval := ServiceOptions_toObject message toJSONOptions None.

(** ** [MethodOptions] *)

Definition MethodOptions_IdempotencyLevel : list (Z * string) :=
  [(0, "IDEMPOTENCY_UNKNOWN"); (1, "NO_SIDE_EFFECTS"); (2, "IDEMPOTENT")]%string.

Definition MethodOptions_verify (message : jsval) (_depth : option Z) : option string :=
  verify_object message _depth (λ depth,
  check message "deprecated" (expect isBoolean "deprecated: boolean expected") (
  check message "idempotencyLevel" (expect (isEnum MethodOptions_IdempotencyLevel) "idempotencyLevel: enum value expected") (
  check message "uninterpretedOption" (expect_array "uninterpretedOption" (verify_nested "uninterpretedOption" UninterpretedOption_verify depth)) (
  check message ".google.api.http" (verify_nested ".google.api.http" HttpRule_verify depth) (
  None))))).

Definition MethodOptions_fromObject (object : jsval) (_depth : option Z) : res MethodOptions :=
  from_object ".google.protobuf.MethodOptions" object _depth (λ depth,
  let message := MethodOptions_new in
  let! message := from_field object "deprecated" from_flag set_MethodOptions_deprecated message in
  let! message := from_field object "idempotencyLevel" (from_value MethodOptions_IdempotencyLevel) set_MethodOptions_idempotencyLevel message in
  let! message := from_array ".google.protobuf.MethodOptions" object "uninterpretedOption" (from_nested ".google.protobuf.MethodOptions" "uninterpretedOption" UninterpretedOption_fromObject depth) set_MethodOptions_uninterpretedOption message in
  let! message := from_field object ".google.api.http" (from_message ".google.protobuf.MethodOptions" ".google.api.http" HttpRule_fromObject depth) set_MethodOptions_google_api_http message in
  Ok message).

Definition MethodOptions_toObject (message : MethodOptions) (options : Options) (_depth : option Z) : res jsval :=
  to_object _depth (λ depth,
  let object := [] in
  let object := if arrays options || defaults options then
      put "uninterpretedOption" (VArr []) object
    else object in
  let object := if defaults options then
      put ".google.api.http" VNull (put "idempotencyLevel" (value_default options 0 "IDEMPOTENCY_UNKNOWN") (put "deprecated" (VBool false) object))
    else object in
  let object := put_own "deprecated" VBool (MethodOptions_deprecated message) object in
  let object := put_own "idempotencyLevel" (to_enum options MethodOptions_IdempotencyLevel) (MethodOptions_idempotencyLevel message) object in
  let! object := put_msgs options "uninterpretedOption" UninterpretedOption_toObject depth (MethodOptions_uninterpretedOption message) object in
  let! object := put_msg options ".google.api.http" HttpRule_toObject depth (MethodOptions_google_api_http message) object in
  Ok object).

Definition MethodOptions_toJSON (message : MethodOptions) : res jsval := MethodOptions_toObject message toJSONOptions None.

End Conversions.
