(* ===== verification/DescConvertProtos.v ===== *)
(** * Conversions of the descriptor classes ([web/app/lib/proto/im.js])

    [verify] and [fromObject] with the fields in the order of their declaration,
    [toObject] in the order of their numbers, and [toJSON], of the classes of
    [DescProtos].  A [DescriptorProto] contains others of its
    class: [verify] and [fromObject] take the conversion of the inner objects as
    an argument, and [convert_nested] supplies it for the levels that are
    left. *)

From S2P Require Import Prelude JsNum JsMap ProtoRuntime ProtoObjects DescHttp DescOptions DescProtos DescConvert DescConvertOptions.
Open Scope Z_scope.

Section Conversions.
Context {RT : Runtime} {CV : Conversions}.

(** ** [ExtensionRange] *)

Definition ExtensionRange_verify (message : jsval) (_depth : option Z) : option string :=
  verify_object message _depth (λ depth,
  check message "start" (expect isInteger "start: integer expected") (
  check message "end" (expect isInteger "end: integer expected") (
  check message "options" (verify_nested "options" ExtensionRangeOptions_verify depth) (
  None)))).

Definition ExtensionRange_fromObject (object : jsval) (_depth : option Z) : res ExtensionRange :=
  from_object ".google.protobuf.DescriptorProto.ExtensionRange" object _depth (λ depth,
  let message := ExtensionRange_new in
  let! message := from_field object "start" from_int set_ExtensionRange_start message in
  let! message := from_field object "end" from_int set_ExtensionRange_end message in
  let! message := from_field object "options" (from_message ".google.protobuf.DescriptorProto.ExtensionRange" "options" ExtensionRangeOptions_fromObject depth) set_ExtensionRange_options message in
  Ok message).

Definition ExtensionRange_toObject (message : ExtensionRange) (options : Options) (_depth : option Z) : res jsval :=
  to_object _depth (λ depth,
  let object := [] in
  let object := if defaults options then
      put "options" VNull (put "end" (VNum 0) (put "start" (VNum 0) object))
    else object in
  let object := put_own "start" VNum (ExtensionRange_start message) object in
  let object := put_own "end" VNum (ExtensionRange_end message) object in
  let! object := put_msg options "options" ExtensionRangeOptions_toObject depth (ExtensionRange_options message) object in
  Ok object).

Definition ExtensionRange_toJSON (message : ExtensionRange) : res jsval := ExtensionRange_toObject message toJSONOptions None.

(** ** [ReservedRange] *)

Definition ReservedRange_verify (message : jsval) (_depth : option Z) : option string :=
  verify_object message _depth (λ depth,
  check message "start" (expect isInteger "start: integer expected") (
  check message "end" (expect isInteger "end: integer expected") (
  None))).

Definition ReservedRange_fromObject (object : jsval) (_depth : option Z) : res ReservedRange :=
  from_object ".google.protobuf.DescriptorProto.ReservedRange" object _depth (λ depth,
  let message := ReservedRange_new in
  let! message := from_field object "start" from_int set_ReservedRange_start message in
  let! message := from_field object "end" from_int set_ReservedRange_end message in
  Ok message).

Definition ReservedRange_toObject (message : ReservedRange) (options : Options) (_depth : option Z) : res jsval :=
  to_object _depth (λ depth,
  let object := [] in
  let object := if defaults options then
      put "end" (VNum 0) (put "start" (VNum 0) object)
    else object in
  let object := put_own "start" VNum (ReservedRange_start message) object in
  let object := put_own "end" VNum (ReservedRange_end message) object in
  Ok object).

Definition ReservedRange_toJSON (message : ReservedRange) : res jsval := ReservedRange_toObject message toJSONOptions None.

(** ** [FieldDescriptorProto] *)

Definition FieldDescriptorProto_Label : list (Z * string) :=
  [(1, "LABEL_OPTIONAL"); (2, "LABEL_REQUIRED"); (3, "LABEL_REPEATED")]%string.

Definition FieldDescriptorProto_Type : list (Z * string) :=
  [(1, "TYPE_DOUBLE"); (2, "TYPE_FLOAT"); (3, "TYPE_INT64"); (4, "TYPE_UINT64"); (5, "TYPE_INT32"); (6, "TYPE_FIXED64"); (7, "TYPE_FIXED32"); (8, "TYPE_BOOL"); (9, "TYPE_STRING"); (10, "TYPE_GROUP"); (11, "TYPE_MESSAGE"); (12, "TYPE_BYTES"); (13, "TYPE_UINT32"); (14, "TYPE_ENUM"); (15, "TYPE_SFIXED32"); (16, "TYPE_SFIXED64"); (17, "TYPE_SINT32"); (18, "TYPE_SINT64")]%string.

Definition FieldDescriptorProto_verify (message : jsval) (_depth : option Z) : option string :=
  verify_object message _depth (λ depth,
  check message "name" (expect isString "name: string expected") (
  check message "number" (expect isInteger "number: integer expected") (
  check message "label" (expect (isEnum FieldDescriptorProto_Label) "label: enum value expected") (
  check message "type" (expect (isEnum FieldDescriptorProto_Type) "type: enum value expected") (
  check message "typeName" (expect isString "typeName: string expected") (
  check message "extendee" (expect isString "extendee: string expected") (
  check message "defaultValue" (expect isString "defaultValue: string expected") (
  check message "oneofIndex" (expect isInteger "oneofIndex: integer expected") (
  check message "jsonName" (expect isString "jsonName: string expected") (
  check message "options" (verify_nested "options" FieldOptions_verify depth) (
  check message "proto3Optional" (expect isBoolean "proto3Optional: boolean expected") (
  None)))))))))))).

Definition FieldDescriptorProto_fromObject (object : jsval) (_depth : option Z) : res FieldDescriptorProto :=
  from_object ".google.protobuf.FieldDescriptorProto" object _depth (λ depth,
  let message := FieldDescriptorProto_new in
  let! message := from_field object "name" from_text set_FieldDescriptorProto_name message in
  let! message := from_field object "number" from_int set_FieldDescriptorProto_number message in
  let! message := from_field object "label" (from_value FieldDescriptorProto_Label) set_FieldDescriptorProto_label message in
  let! message := from_field object "type" (from_value FieldDescriptorProto_Type) set_FieldDescriptorProto_type message in
  let! message := from_field object "typeName" from_text set_FieldDescriptorProto_typeName message in
  let! message := from_field object "extendee" from_text set_FieldDescriptorProto_extendee message in
  let! message := from_field object "defaultValue" from_text set_FieldDescriptorProto_defaultValue message in
  let! message := from_field object "oneofIndex" from_int set_FieldDescriptorProto_oneofIndex message in
  let! message := from_field object "jsonName" from_text set_FieldDescriptorProto_jsonName message in
  let! message := from_field object "options" (from_message ".google.protobuf.FieldDescriptorProto" "options" FieldOptions_fromObject depth) set_FieldDescriptorProto_options message in
  let! message := from_field object "proto3Optional" from_flag set_FieldDescriptorProto_proto3Optional message in
  Ok message).

Definition FieldDescriptorProto_toObject (message : FieldDescriptorProto) (options : Options) (_depth : option Z) : res jsval :=
  to_object _depth (λ depth,
  let object := [] in
  let object := if defaults options then
      put "proto3Optional" (VBool false) (put "jsonName" (VStr "") (put "oneofIndex" (VNum 0) (put "options" VNull (put "defaultValue" (VStr "") (put "typeName" (VStr "") (put "type" (value_default options 1 "TYPE_DOUBLE") (put "label" (value_default options 1 "LABEL_OPTIONAL") (put "number" (VNum 0) (put "extendee" (VStr "") (put "name" (VStr "") object))))))))))
    else object in
  let object := put_own "name" VStr (FieldDescriptorProto_name message) object in
  let object := put_own "extendee" VStr (FieldDescriptorProto_extendee message) object in
  let object := put_own "number" VNum (FieldDescriptorProto_number message) object in
  let object := put_own "label" (to_enum options FieldDescriptorProto_Label) (FieldDescriptorProto_label message) object in
  let object := put_own "type" (to_enum options FieldDescriptorProto_Type) (FieldDescriptorProto_type message) object in
  let object := put_own "typeName" VStr (FieldDescriptorProto_typeName message) object in
  let object := put_own "defaultValue" VStr (FieldDescriptorProto_defaultValue message) object in
  let! object := put_msg options "options" FieldOptions_toObject depth (FieldDescriptorProto_options message) object in
  let object := put_own "oneofIndex" VNum (FieldDescriptorProto_oneofIndex message) object in
  let object := put_own "jsonName" VStr (FieldDescriptorProto_jsonName message) object in
  let object := put_own "proto3Optional" VBool (FieldDescriptorProto_proto3Optional message) object in
  Ok object).

Definition FieldDescriptorProto_toJSON (message : FieldDescriptorProto) : res jsval := FieldDescriptorProto_toObject message toJSONOptions None.

(** ** [OneofDescriptorProto] *)

Definition OneofDescriptorProto_verify (message : jsval) (_depth : option Z) : option string :=
  verify_object message _depth (λ depth,
  check message "name" (expect isString "name: string expected") (
  check message "options" (verify_nested "options" OneofOptions_verify depth) (
  None))).

Definition OneofDescriptorProto_fromObject (object : jsval) (_depth : option Z) : res OneofDescriptorProto :=
  from_object ".google.protobuf.OneofDescriptorProto" object _depth (λ depth,
  let message := OneofDescriptorProto_new in
  let! message := from_field object "name" from_text set_OneofDescriptorProto_name message in
  let! message := from_field object "options" (from_message ".google.protobuf.OneofDescriptorProto" "options" OneofOptions_fromObject depth) set_OneofDescriptorProto_options message in
  Ok message).

Definition OneofDescriptorProto_toObject (message : OneofDescriptorProto) (options : Options) (_depth : option Z) : res jsval :=
  to_object _depth (λ depth,
  let object := [] in
  let object := if defaults options then
      put "options" VNull (put "name" (VStr "") object)
    else object in
  let object := put_own "name" VStr (OneofDescriptorProto_name message) object in
  let! object := put_msg options "options" OneofOptions_toObject depth (OneofDescriptorProto_options message) object in
  Ok object).

Definition OneofDescriptorProto_toJSON (message : OneofDescriptorProto) : res jsval := OneofDescriptorProto_toObject message toJSONOptions None.

(** ** [EnumReservedRange] *)

Definition EnumReservedRange_verify (message : jsval) (_depth : option Z) : option string :=
  verify_object message _depth (λ depth,
  check message "start" (expect isInteger "start: integer expected") (
  check message "end" (expect isInteger "end: integer expected") (
  None))).

Definition EnumReservedRange_fromObject (object : jsval) (_depth : option Z) : res EnumReservedRange :=
  from_object ".google.protobuf.EnumDescriptorProto.EnumReservedRange" object _depth (λ depth,
  let message := EnumReservedRange_new in
  let! message := from_field object "start" from_int set_EnumReservedRange_start message in
  let! message := from_field object "end" from_int set_EnumReservedRange_end message in
  Ok message).

Definition EnumReservedRange_toObject (message : EnumReservedRange) (options : Options) (_depth : option Z) : res jsval :=
  to_object _depth (λ depth,
  let object := [] in
  let object := if defaults options then
      put "end" (VNum 0) (put "start" (VNum 0) object)
    else object in
  let object := put_own "start" VNum (EnumReservedRange_start message) object in
  let object := put_own "end" VNum (EnumReservedRange_end message) object in
  Ok object).

Definition EnumReservedRange_toJSON (message : EnumReservedRange) : res jsval := EnumReservedRange_toObject message toJSONOptions None.

(** ** [EnumValueDescriptorProto] *)

Definition EnumValueDescriptorProto_verify (message : jsval) (_depth : option Z) : option string :=
  verify_object message _depth (λ depth,
  check message "name" (expect isString "name: string expected") (
  check message "number" (expect isInteger "number: integer expected") (
  check message "options" (verify_nested "options" EnumValueOptions_verify depth) (
  None)))).

Definition EnumValueDescriptorProto_fromObject (object : jsval) (_depth : option Z) : res EnumValueDescriptorProto :=
  from_object ".google.protobuf.EnumValueDescriptorProto" object _depth (λ depth,
  let message := EnumValueDescriptorProto_new in
  let! message := from_field object "name" from_text set_EnumValueDescriptorProto_name message in
  let! message := from_field object "number" from_int set_EnumValueDescriptorProto_number message in
  let! message := from_field object "options" (from_message ".google.protobuf.EnumValueDescriptorProto" "options" EnumValueOptions_fromObject depth) set_EnumValueDescriptorProto_options message in
  Ok message).

Definition EnumValueDescriptorProto_toObject (message : EnumValueDescriptorProto) (options : Options) (_depth : option Z) : res jsval :=
  to_object _depth (λ depth,
  let object := [] in
  let object := if defaults options then
      put "options" VNull (put "number" (VNum 0) (put "name" (VStr "") object))
    else object in
  let object := put_own "name" VStr (EnumValueDescriptorProto_name message) object in
  let object := put_own "number" VNum (EnumValueDescriptorProto_number message) object in
  let! object := put_msg options "options" EnumValueOptions_toObject depth (EnumValueDescriptorProto_options message) object in
  Ok object).

Definition EnumValueDescriptorProto_toJSON (message : EnumValueDescriptorProto) : res jsval := EnumValueDescriptorProto_toObject message toJSONOptions None.

(** ** [EnumDescriptorProto] *)

Definition EnumDescriptorProto_verify (message : jsval) (_depth : option Z) : option string :=
  verify_object message _depth (λ depth,
  check message "name" (expect isString "name: string expected") (
  check message "value" (expect_array "value" (verify_nested "value" EnumValueDescriptorProto_verify depth)) (
  check message "options" (verify_nested "options" EnumOptions_verify depth) (
  check message "reservedRange" (expect_array "reservedRange" (verify_nested "reservedRange" EnumReservedRange_verify depth)) (
  check message "reservedName" (expect_array "reservedName" (expect isString "reservedName: string[] expected")) (
  None)))))).

Definition EnumDescriptorProto_fromObject (object : jsval) (_depth : option Z) : res EnumDescriptorProto :=
  from_object ".google.protobuf.EnumDescriptorProto" object _depth (λ depth,
  let message := EnumDescriptorProto_new in
  let! message := from_field object "name" from_text set_EnumDescriptorProto_name message in
  let! message := from_array ".google.protobuf.EnumDescriptorProto" object "value" (from_nested ".google.protobuf.EnumDescriptorProto" "value" EnumValueDescriptorProto_fromObject depth) set_EnumDescriptorProto_value message in
  let! message := from_field object "options" (from_message ".google.protobuf.EnumDescriptorProto" "options" EnumOptions_fromObject depth) set_EnumDescriptorProto_options message in
  let! message := from_array ".google.protobuf.EnumDescriptorProto" object "reservedRange" (from_nested ".google.protobuf.EnumDescriptorProto" "reservedRange" EnumReservedRange_fromObject depth) set_EnumDescriptorProto_reservedRange message in
  let! message := from_array ".google.protobuf.EnumDescriptorProto" object "reservedName" from_string_element set_EnumDescriptorProto_reservedName message in
  Ok message).

Definition EnumDescriptorProto_toObject (message : EnumDescriptorProto) (options : Options) (_depth : option Z) : res jsval :=
  to_object _depth (λ depth,
  let object := [] in
  let object := if arrays options || defaults options then
      put "reservedName" (VArr []) (put "reservedRange" (VArr []) (put "value" (VArr []) object))
    else object in
  let object := if defaults options then
      put "options" VNull (put "name" (VStr "") object)
    else object in
  let object := put_own "name" VStr (EnumDescriptorProto_name message) object in
  let! object := put_msgs options "value" EnumValueDescriptorProto_toObject depth (EnumDescriptorProto_value message) object in
  let! object := put_msg options "options" EnumOptions_toObject depth (EnumDescriptorProto_options message) object in
  let! object := put_msgs options "reservedRange" EnumReservedRange_toObject depth (EnumDescriptorProto_reservedRange message) object in
  let object := put_array "reservedName" (VStr <$> (EnumDescriptorProto_reservedName message)) object in
  Ok object).

Definition EnumDescriptorProto_toJSON (message : EnumDescriptorProto) : res jsval := EnumDescriptorProto_toObject message toJSONOptions None.

(** ** [DescriptorProto] *)

Definition DescriptorProto_verify_with (verify : jsval → option Z → option string) (message : jsval) (_depth : option Z) : option string :=
  verify_object message _depth (λ depth,
  check message "name" (expect isString "name: string expected") (
  check message "field" (expect_array "field" (verify_nested "field" FieldDescriptorProto_verify depth)) (
  check message "extension" (expect_array "extension" (verify_nested "extension" FieldDescriptorProto_verify depth)) (
  check message "nestedType" (expect_array "nestedType" (verify_nested "nestedType" verify depth)) (
  check message "enumType" (expect_array "enumType" (verify_nested "enumType" EnumDescriptorProto_verify depth)) (
  check message "extensionRange" (expect_array "extensionRange" (verify_nested "extensionRange" ExtensionRange_verify depth)) (
  check message "oneofDecl" (expect_array "oneofDecl" (verify_nested "oneofDecl" OneofDescriptorProto_verify depth)) (
  check message "options" (verify_nested "options" MessageOptions_verify depth) (
  check message "reservedRange" (expect_array "reservedRange" (verify_nested "reservedRange" ReservedRange_verify depth)) (
  check message "reservedName" (expect_array "reservedName" (expect isString "reservedName: string[] expected")) (
  None))))))))))).

Definition DescriptorProto_verify : jsval → option Z → option string := convert_nested DescriptorProto_verify_with None.

Definition DescriptorProto_fromObject_with (fromObject : jsval → option Z → res DescriptorProto) (object : jsval) (_depth : option Z) : res DescriptorProto :=
  from_object ".google.protobuf.DescriptorProto" object _depth (λ depth,
  let message := DescriptorProto_new in
  let! message := from_field object "name" from_text set_DescriptorProto_name message in
  let! message := from_array ".google.protobuf.DescriptorProto" object "field" (from_nested ".google.protobuf.DescriptorProto" "field" FieldDescriptorProto_fromObject depth) set_DescriptorProto_field message in
  let! message := from_array ".google.protobuf.DescriptorProto" object "extension" (from_nested ".google.protobuf.DescriptorProto" "extension" FieldDescriptorProto_fromObject depth) set_DescriptorProto_extension message in
  let! message := from_array ".google.protobuf.DescriptorProto" object "nestedType" (from_nested ".google.protobuf.DescriptorProto" "nestedType" fromObject depth) set_DescriptorProto_nestedType message in
  let! message := from_array ".google.protobuf.DescriptorProto" object "enumType" (from_nested ".google.protobuf.DescriptorProto" "enumType" EnumDescriptorProto_fromObject depth) set_DescriptorProto_enumType message in
  let! message := from_array ".google.protobuf.DescriptorProto" object "extensionRange" (from_nested ".google.protobuf.DescriptorProto" "extensionRange" ExtensionRange_fromObject depth) set_DescriptorProto_extensionRange message in
  let! message := from_array ".google.protobuf.DescriptorProto" object "oneofDecl" (from_nested ".google.protobuf.DescriptorProto" "oneofDecl" OneofDescriptorProto_fromObject depth) set_DescriptorProto_oneofDecl message in
  let! message := from_field object "options" (from_message ".google.protobuf.DescriptorProto" "options" MessageOptions_fromObject depth) set_DescriptorProto_options message in
  let! message := from_array ".google.protobuf.DescriptorProto" object "reservedRange" (from_nested ".google.protobuf.DescriptorProto" "reservedRange" ReservedRange_fromObject depth) set_DescriptorProto_reservedRange message in
  let! message := from_array ".google.protobuf.DescriptorProto" object "reservedName" from_string_element set_DescriptorProto_reservedName message in
  Ok message).

Definition DescriptorProto_fromObject : jsval → option Z → res DescriptorProto := convert_nested DescriptorProto_fromObject_with (Throw "max depth exceeded").

Fixpoint DescriptorProto_toObject (message : DescriptorProto) (options : Options) (_depth : option Z) {struct message} : res jsval :=
  to_object _depth (λ depth,
  let object := [] in
  let object := if arrays options || defaults options then
      put "reservedName" (VArr []) (put "reservedRange" (VArr []) (put "oneofDecl" (VArr []) (put "extension" (VArr []) (put "extensionRange" (VArr []) (put "enumType" (VArr []) (put "nestedType" (VArr []) (put "field" (VArr []) object)))))))
    else object in
  let object := if defaults options then
      put "options" VNull (put "name" (VStr "") object)
    else object in
  let object := put_own "name" VStr (DescriptorProto_name message) object in
  let! object := put_msgs options "field" FieldDescriptorProto_toObject depth (DescriptorProto_field message) object in
  let! object := put_msgs options "nestedType" DescriptorProto_toObject depth (DescriptorProto_nestedType message) object in
  let! object := put_msgs options "enumType" EnumDescriptorProto_toObject depth (DescriptorProto_enumType message) object in
  let! object := put_msgs options "extensionRange" ExtensionRange_toObject depth (DescriptorProto_extensionRange message) object in
  let! object := put_msgs options "extension" FieldDescriptorProto_toObject depth (DescriptorProto_extension message) object in
  let! object := put_msg options "options" MessageOptions_toObject depth (DescriptorProto_options message) object in
  let! object := put_msgs options "oneofDecl" OneofDescriptorProto_toObject depth (DescriptorProto_oneofDecl message) object in
  let! object := put_msgs options "reservedRange" ReservedRange_toObject depth (DescriptorProto_reservedRange message) object in
  let object := put_array "reservedName" (VStr <$> (DescriptorProto_reservedName message)) object in
  Ok object).

Definition DescriptorProto_toJSON (message : DescriptorProto) : res jsval := DescriptorProto_toObject message toJSONOptions None.

(** ** [MethodDescriptorProto] *)

Definition MethodDescriptorProto_verify (message : jsval) (_depth : option Z) : option string :=
  verify_object message _depth (λ depth,
  check message "name" (expect isString "name: string expected") (
  check message "inputType" (expect isString "inputType: string expected") (
  check message "outputType" (expect isString "outputType: string expected") (
  check message "options" (verify_nested "options" MethodOptions_verify depth) (
  check message "clientStreaming" (expect isBoolean "clientStreaming: boolean expected") (
  check message "serverStreaming" (expect isBoolean "serverStreaming: boolean expected") (
  None))))))).

Definition MethodDescriptorProto_fromObject (object : jsval) (_depth : option Z) : res MethodDescriptorProto :=
  from_object ".google.protobuf.MethodDescriptorProto" object _depth (λ depth,
  let message := MethodDescriptorProto_new in
  let! message := from_field object "name" from_text set_MethodDescriptorProto_name message in
  let! message := from_field object "inputType" from_text set_MethodDescriptorProto_inputType message in
  let! message := from_field object "outputType" from_text set_MethodDescriptorProto_outputType message in
  let! message := from_field object "options" (from_message ".google.protobuf.MethodDescriptorProto" "options" MethodOptions_fromObject depth) set_MethodDescriptorProto_options message in
  let! message := from_field object "clientStreaming" from_flag set_MethodDescriptorProto_clientStreaming message in
  let! message := from_field object "serverStreaming" from_flag set_MethodDescriptorProto_serverStreaming message in
  Ok message).

Definition MethodDescriptorProto_toObject (message : MethodDescriptorProto) (options : Options) (_depth : option Z) : res jsval :=
  to_object _depth (λ depth,
  let object := [] in
  let object := if defaults options then
      put "serverStreaming" (VBool false) (put "clientStreaming" (VBool false) (put "options" VNull (put "outputType" (VStr "") (put "inputType" (VStr "") (put "name" (VStr "") object)))))
    else object in
  let object := put_own "name" VStr (MethodDescriptorProto_name message) object in
  let object := put_own "inputType" VStr (MethodDescriptorProto_inputType message) object in
  let object := put_own "outputType" VStr (MethodDescriptorProto_outputType message) object in
  let! object := put_msg options "options" MethodOptions_toObject depth (MethodDescriptorProto_options message) object in
  let object := put_own "clientStreaming" VBool (MethodDescriptorProto_clientStreaming message) object in
  let object := put_own "serverStreaming" VBool (MethodDescriptorProto_serverStreaming message) object in
  Ok object).

Definition MethodDescriptorProto_toJSON (message : MethodDescriptorProto) : res jsval := MethodDescriptorProto_toObject message toJSONOptions None.

(** ** [ServiceDescriptorProto] *)

Definition ServiceDescriptorProto_verify (message : jsval) (_depth : option Z) : option string :=
  verify_object message _depth (λ depth,
  check message "name" (expect isString "name: string expected") (
  check message "method" (expect_array "method" (verify_nested "method" MethodDescriptorProto_verify depth)) (
  check message "options" (verify_nested "options" ServiceOptions_verify depth) (
  None)))).

Definition ServiceDescriptorProto_fromObject (object : jsval) (_depth : option Z) : res ServiceDescriptorProto :=
  from_object ".google.protobuf.ServiceDescriptorProto" object _depth (λ depth,
  let message := ServiceDescriptorProto_new in
  let! message := from_field object "name" from_text set_ServiceDescriptorProto_name message in
  let! message := from_array ".google.protobuf.ServiceDescriptorProto" object "method" (from_nested ".google.protobuf.ServiceDescriptorProto" "method" MethodDescriptorProto_fromObject depth) set_ServiceDescriptorProto_method message in
  let! message := from_field object "options" (from_message ".google.protobuf.ServiceDescriptorProto" "options" ServiceOptions_fromObject depth) set_ServiceDescriptorProto_options message in
  Ok message).

Definition ServiceDescriptorProto_toObject (message : ServiceDescriptorProto) (options : Options) (_depth : option Z) : res jsval :=
  to_object _depth (λ depth,
  let object := [] in
  let object := if arrays options || defaults options then
      put "method" (VArr []) object
    else object in
  let object := if defaults options then
      put "options" VNull (put "name" (VStr "") object)
    else object in
  let object := put_own "name" VStr (ServiceDescriptorProto_name message) object in
  let! object := put_msgs options "method" MethodDescriptorProto_toObject depth (ServiceDescriptorProto_method message) object in
  let! object := put_msg options "options" ServiceOptions_toObject depth (ServiceDescriptorProto_options message) object in
  Ok object).

Definition ServiceDescriptorProto_toJSON (message : ServiceDescriptorProto) : res jsval := ServiceDescriptorProto_toObject message toJSONOptions None.

(** ** [Location] *)

Definition Location_verify (message : jsval) (_depth : option Z) : option string :=
  verify_object message _depth (λ depth,
  check message "path" (expect_array "path" (expect isInteger "path: integer[] expected")) (
  check message "span" (expect_array "span" (expect isInteger "span: integer[] expected")) (
  check message "leadingComments" (expect isString "leadingComments: string expected") (
  check message "trailingComments" (expect isString "trailingComments: string expected") (
  check message "leadingDetachedComments" (expect_array "leadingDetachedComments" (expect isString "leadingDetachedComments: string[] expected")) (
  None)))))).

Definition Location_fromObject (object : jsval) (_depth : option Z) : res Location :=
  from_object ".google.protobuf.SourceCodeInfo.Location" object _depth (λ depth,
  let message := Location_new in
  let! message := from_array ".google.protobuf.SourceCodeInfo.Location" object "path" from_int_element set_Location_path message in
  let! message := from_array ".google.protobuf.SourceCodeInfo.Location" object "span" from_int_element set_Location_span message in
  let! message := from_field object "leadingComments" from_text set_Location_leadingComments message in
  let! message := from_field object "trailingComments" from_text set_Location_trailingComments message in
  let! message := from_array ".google.protobuf.SourceCodeInfo.Location" object "leadingDetachedComments" from_string_element set_Location_leadingDetachedComments message in
  Ok message).

Definition Location_toObject (message : Location) (options : Options) (_depth : option Z) : res jsval :=
  to_object _depth (λ depth,
  let object := [] in
  let object := if arrays options || defaults options then
      put "leadingDetachedComments" (VArr []) (put "span" (VArr []) (put "path" (VArr []) object))
    else object in
  let object := if defaults options then
      put "trailingComments" (VStr "") (put "leadingComments" (VStr "") object)
    else object in
  let object := put_array "path" (VNum <$> (Location_path message)) object in
  let object := put_array "span" (VNum <$> (Location_span message)) object in
  let object := put_own "leadingComments" VStr (Location_leadingComments message) object in
  let object := put_own "trailingComments" VStr (Location_trailingComments message) object in
  let object := put_array "leadingDetachedComments" (VStr <$> (Location_leadingDetachedComments message)) object in
  Ok object).

Definition Location_toJSON (message : Location) : res jsval := Location_toObject message toJSONOptions None.

(** ** [SourceCodeInfo] *)

Definition SourceCodeInfo_verify (message : jsval) (_depth : option Z) : option string :=
  verify_object message _depth (λ depth,
  check message "location" (expect_array "location" (verify_nested "location" Location_verify depth)) (
  None)).

Definition SourceCodeInfo_fromObject (object : jsval) (_depth : option Z) : res SourceCodeInfo :=
  from_object ".google.protobuf.SourceCodeInfo" object _depth (λ depth,
  let message := SourceCodeInfo_new in
  let! message := from_array ".google.protobuf.SourceCodeInfo" object "location" (from_nested ".google.protobuf.SourceCodeInfo" "location" Location_fromObject depth) set_SourceCodeInfo_location message in
  Ok message).

Definition SourceCodeInfo_toObject (message : SourceCodeInfo) (options : Options) (_depth : option Z) : res jsval :=
  to_object _depth (λ depth,
  let object := [] in
  let object := if arrays options || defaults options then
      put "location" (VArr []) object
    else object in
  let! object := put_msgs options "location" Location_toObject depth (SourceCodeInfo_location message) object in
  Ok object).

Definition SourceCodeInfo_toJSON (message : SourceCodeInfo) : res jsval := SourceCodeInfo_toObject message toJSONOptions None.

(** ** [Annotation] *)

Definition Annotation_verify (message : jsval) (_depth : option Z) : option string :=
  verify_object message _depth (λ depth,
  check message "path" (expect_array "path" (expect isInteger "path: integer[] expected")) (
  check message "sourceFile" (expect isString "sourceFile: string expected") (
  check message "begin" (expect isInteger "begin: integer expected") (
  check message "end" (expect isInteger "end: integer expected") (
  None))))).

Definition Annotation_fromObject (object : jsval) (_depth : option Z) : res Annotation :=
  from_object ".google.protobuf.GeneratedCodeInfo.Annotation" object _depth (λ depth,
  let message := Annotation_new in
  let! message := from_array ".google.protobuf.GeneratedCodeInfo.Annotation" object "path" from_int_element set_Annotation_path message in
  let! message := from_field object "sourceFile" from_text set_Annotation_sourceFile message in
  let! message := from_field object "begin" from_int set_Annotation_begin message in
  let! message := from_field object "end" from_int set_Annotation_end message in
  Ok message).

Definition Annotation_toObject (message : Annotation) (options : Options) (_depth : option Z) : res jsval :=
  to_object _depth (λ depth,
  let object := [] in
  let object := if arrays options || defaults options then
      put "path" (VArr []) object
    else object in
  let object := if defaults options then
      put "end" (VNum 0) (put "begin" (VNum 0) (put "sourceFile" (VStr "") object))
    else object in
  let object := put_array "path" (VNum <$> (Annotation_path message)) object in
  let object := put_own "sourceFile" VStr (Annotation_sourceFile message) object in
  let object := put_own "begin" VNum (Annotation_begin message) object in
  let object := put_own "end" VNum (Annotation_end message) object in
  Ok object).

Definition Annotation_toJSON (message : Annotation) : res jsval := Annotation_toObject message toJSONOptions None.

(** ** [GeneratedCodeInfo] *)

Definition GeneratedCodeInfo_verify (message : jsval) (_depth : option Z) : option string :=
  verify_object message _depth (λ depth,
  check message "annotation" (expect_array "annotation" (verify_nested "annotation" Annotation_verify depth)) (
  None)).

Definition GeneratedCodeInfo_fromObject (object : jsval) (_depth : option Z) : res GeneratedCodeInfo :=
  from_object ".google.protobuf.GeneratedCodeInfo" object _depth (λ depth,
  let message := GeneratedCodeInfo_new in
  let! message := from_array ".google.protobuf.GeneratedCodeInfo" object "annotation" (from_nested ".google.protobuf.GeneratedCodeInfo" "annotation" Annotation_fromObject depth) set_GeneratedCodeInfo_annotation message in
  Ok message).

Definition GeneratedCodeInfo_toObject (message : GeneratedCodeInfo) (options : Options) (_depth : option Z) : res jsval :=
  to_object _depth (λ depth,
  let object := [] in
  let object := if arrays options || defaults options then
      put "annotation" (VArr []) object
    else object in
  let! object := put_msgs options "annotation" Annotation_toObject depth (GeneratedCodeInfo_annotation message) object in
  Ok object).

Definition GeneratedCodeInfo_toJSON (message : GeneratedCodeInfo) : res jsval := GeneratedCodeInfo_toObject message toJSONOptions None.

(** ** [FileDescriptorProto] *)

Definition FileDescriptorProto_verify (message : jsval) (_depth : option Z) : option string :=
  verify_object message _depth (λ depth,
  check message "name" (expect isString "name: string expected") (
  check message "package" (expect isString "package: string expected") (
  check message "dependency" (expect_array "dependency" (expect isString "dependency: string[] expected")) (
  check message "publicDependency" (expect_array "publicDependency" (expect isInteger "publicDependency: integer[] expected")) (
  check message "weakDependency" (expect_array "weakDependency" (expect isInteger "weakDependency: integer[] expected")) (
  check message "messageType" (expect_array "messageType" (verify_nested "messageType" DescriptorProto_verify depth)) (
  check message "enumType" (expect_array "enumType" (verify_nested "enumType" EnumDescriptorProto_verify depth)) (
  check message "service" (expect_array "service" (verify_nested "service" ServiceDescriptorProto_verify depth)) (
  check message "extension" (expect_array "extension" (verify_nested "extension" FieldDescriptorProto_verify depth)) (
  check message "options" (verify_nested "options" FileOptions_verify depth) (
  check message "sourceCodeInfo" (verify_nested "sourceCodeInfo" SourceCodeInfo_verify depth) (
  check message "syntax" (expect isString "syntax: string expected") (
  None))))))))))))).

Definition FileDescriptorProto_fromObject (object : jsval) (_depth : option Z) : res FileDescriptorProto :=
  from_object ".google.protobuf.FileDescriptorProto" object _depth (λ depth,
  let message := FileDescriptorProto_new in
  let! message := from_field object "name" from_text set_FileDescriptorProto_name message in
  let! message := from_field object "package" from_text set_FileDescriptorProto_package message in
  let! message := from_array ".google.protobuf.FileDescriptorProto" object "dependency" from_string_element set_FileDescriptorProto_dependency message in
  let! message := from_array ".google.protobuf.FileDescriptorProto" object "publicDependency" from_int_element set_FileDescriptorProto_publicDependency message in
  let! message := from_array ".google.protobuf.FileDescriptorProto" object "weakDependency" from_int_element set_FileDescriptorProto_weakDependency message in
  let! message := from_array ".google.protobuf.FileDescriptorProto" object "messageType" (from_nested ".google.protobuf.FileDescriptorProto" "messageType" DescriptorProto_fromObject depth) set_FileDescriptorProto_messageType message in
  let! message := from_array ".google.protobuf.FileDescriptorProto" object "enumType" (from_nested ".google.protobuf.FileDescriptorProto" "enumType" EnumDescriptorProto_fromObject depth) set_FileDescriptorProto_enumType message in
  let! message := from_array ".google.protobuf.FileDescriptorProto" object "service" (from_nested ".google.protobuf.FileDescriptorProto" "service" ServiceDescriptorProto_fromObject depth) set_FileDescriptorProto_service message in
  let! message := from_array ".google.protobuf.FileDescriptorProto" object "extension" (from_nested ".google.protobuf.FileDescriptorProto" "extension" FieldDescriptorProto_fromObject depth) set_FileDescriptorProto_extension message in
  let! message := from_field object "options" (from_message ".google.protobuf.FileDescriptorProto" "options" FileOptions_fromObject depth) set_FileDescriptorProto_options message in
  let! message := from_field object "sourceCodeInfo" (from_message ".google.protobuf.FileDescriptorProto" "sourceCodeInfo" SourceCodeInfo_fromObject depth) set_FileDescriptorProto_sourceCodeInfo message in
  let! message := from_field object "syntax" from_text set_FileDescriptorProto_syntax message in
  Ok message).

Definition FileDescriptorProto_toObject (message : FileDescriptorProto) (options : Options) (_depth : option Z) : res jsval :=
  to_object _depth (λ depth,
  let object := [] in
  let object := if arrays options || defaults options then
      put "weakDependency" (VArr []) (put "publicDependency" (VArr []) (put "extension" (VArr []) (put "service" (VArr []) (put "enumType" (VArr []) (put "messageType" (VArr []) (put "dependency" (VArr []) object))))))
    else object in
  let object := if defaults options then
      put "syntax" (VStr "") (put "sourceCodeInfo" VNull (put "options" VNull (put "package" (VStr "") (put "name" (VStr "") object))))
    else object in
  let object := put_own "name" VStr (FileDescriptorProto_name message) object in
  let object := put_own "package" VStr (FileDescriptorProto_package message) object in
  let object := put_array "dependency" (VStr <$> (FileDescriptorProto_dependency message)) object in
  let! object := put_msgs options "messageType" DescriptorProto_toObject depth (FileDescriptorProto_messageType message) object in
  let! object := put_msgs options "enumType" EnumDescriptorProto_toObject depth (FileDescriptorProto_enumType message) object in
  let! object := put_msgs options "service" ServiceDescriptorProto_toObject depth (FileDescriptorProto_service message) object in
  let! object := put_msgs options "extension" FieldDescriptorProto_toObject depth (FileDescriptorProto_extension message) object in
  let! object := put_msg options "options" FileOptions_toObject depth (FileDescriptorProto_options message) object in
  let! object := put_msg options "sourceCodeInfo" SourceCodeInfo_toObject depth (FileDescriptorProto_sourceCodeInfo message) object in
  let object := put_array "publicDependency" (VNum <$> (FileDescriptorProto_publicDependency message)) object in
  let object := put_array "weakDependency" (VNum <$> (FileDescriptorProto_weakDependency message)) object in
  let object := put_own "syntax" VStr (FileDescriptorProto_syntax message) object in
  Ok object).

Definition FileDescriptorProto_toJSON (message : FileDescriptorProto) : res jsval := FileDescriptorProto_toObject message toJSONOptions None.

(** ** [FileDescriptorSet] *)

Definition FileDescriptorSet_verify (message : jsval) (_depth : option Z) : option string :=
  verify_object message _depth (λ depth,
  check message "file" (expect_array "file" (verify_nested "file" FileDescriptorProto_verify depth)) (
  None)).

Definition FileDescriptorSet_fromObject (object : jsval) (_depth : option Z) : res FileDescriptorSet :=
  from_object ".google.protobuf.FileDescriptorSet" object _depth (λ depth,
  let message := FileDescriptorSet_new in
  let! message := from_array ".google.protobuf.FileDescriptorSet" object "file" (from_nested ".google.protobuf.FileDescriptorSet" "file" FileDescriptorProto_fromObject depth) set_FileDescriptorSet_file message in
  Ok message).

Definition FileDescriptorSet_toObject (message : FileDescriptorSet) (options : Options) (_depth : option Z) : res jsval :=
  to_object _depth (λ depth,
  let object := [] in
  let object := if arrays options || defaults options then
      put "file" (VArr []) object
    else object in
  let! object := put_msgs options "file" FileDescriptorProto_toObject depth (FileDescriptorSet_file message) object in
  Ok object).

Definition FileDescriptorSet_toJSON (message : FileDescriptorSet) : res jsval := FileDescriptorSet_toObject message toJSONOptions None.

End Conversions.
