(* ===== verification/DescRuleObjects.v ===== *)
(** * The conversions of rules as schemas

    What the conversions of [CustomHttpPattern] and [HttpRule] do with their
    fields, and that they fit together.  A rule contains rules: it is treated
    level by level, like its codec.  Its oneof is the reason it has a proof of
    its own: [verify] refuses a second member, and a rule that was decoded has
    at most one.  The tactics here serve [DescConverters] too. *)

From S2P Require Import Prelude JsNum JsMap ProtoRuntime ProtoLaws ProtoObjects ProtoConvertLaws ProtoSchema ProtoSchemaConvert DescHttp DescCodecs DescConvert.
Open Scope Z_scope.

(** ** Known enumeration values *)

Definition known_value (table : list (Z * string)) (o : option Z) : bool :=
  match o with Some z => bool_decide (z ∈ table.*1) | None => true end.
Definition known_in {V} (known : V → bool) (o : option V) : bool := match o with Some x => known x | None => true end.

Lemma known_value_all table o : known_value table o = true → opt_all (λ z, z ∈ table.*1) o.
Proof. intros H z ->. by apply bool_decide_eq_true_1 in H. Qed.
Lemma known_in_all {V} (known : V → bool) o : known_in known o = true → opt_all (λ x, known x = true) o.
Proof. by intros H x ->. Qed.
Lemma known_list_all {V} (known : V → bool) l : forallb known l = true → Forall (λ x, known x = true) l.
Proof. rewrite forallb_forall, Forall_forall. intros H x Hx. by apply H, list_elem_of_In. Qed.

(** The obligation of [schema_converter_on] about known values. *)
Ltac solve_knowns :=
  each_field ltac:(first
    [ exact I | intros x _; exact I | apply Forall_true; done
    | eapply known_kind; [reflexivity|apply known_value_all; assumption]
    | eapply known_msg; [reflexivity|assumption|first [apply known_in_all; assumption | done]]
    | eapply known_msgs; [reflexivity|assumption|first [apply known_list_all; assumption | by apply Forall_true]] ]).
(** [body rec] depends on [rec] one level deeper only. *)
Ltac solve_deeper H :=
  repeat first
    [ apply check_ext; [first [done | intros ?; apply expect_array_ext; intros ?; unfold verify_nested; by rewrite H]|]
    | apply check_member_ext; intros ?
    | apply bind_ext; [first [done | apply from_array_ext; intros ?; unfold from_nested; by rewrite H]|intros ?]
    | done ].
Ltac split_known := repeat match goal with H : _ && _ = true |- _ => apply andb_true_iff in H as [? ?] end.
Ltac split_ok H := hnf in H; repeat (apply Forall_cons in H as [? H]).

Section Converters.
Context `{RL : RuntimeLaws} `{CL : ConversionLaws}.

(** ** [CustomHttpPattern] *)

Definition CustomHttpPattern_cfields : list (cfield CustomHttpPattern) := [
    copt "kind" cString CustomHttpPattern_kind set_CustomHttpPattern_kind;
    copt "path" cString CustomHttpPattern_path set_CustomHttpPattern_path].

#[export] Instance CustomHttpPattern_converter : ConverterOn exact_options CustomHttpPattern_codec CustomHttpPattern_toObject CustomHttpPattern_fromObject CustomHttpPattern_verify (λ _, True).
Proof. apply (schema_converter_on exact_options _ _ _ _ _ ".google.api.CustomHttpPattern" CustomHttpPattern_cfields CustomHttpPattern_cfields CustomHttpPattern_new CustomHttpPattern_unknowns);
  [reflexivity..|solve_order|solve_names|solve_cfields|solve_untouched|solve_heights_of CustomHttpPattern_fields
  |intros v [Hok _]; revert Hok; unfold schema_ok, CustomHttpPattern_fields; solve_normals|intros v [Hok _] Hv; split_ok Hok; solve_knowns|solve_copy|reflexivity]. Qed.

(** ** [HttpRule] *)

Definition HttpRule_cfields (C : Codec HttpRule_encode HttpRule_decode) : list (cfield HttpRule) := [
    copt "selector" cString HttpRule_selector set_HttpRule_selector;
    cin "pattern" (λ m, bool_decide (is_Some (HttpRule_get m))) (copt "get" cText HttpRule_get set_HttpRule_get);
    cin "pattern" (λ m, bool_decide (is_Some (HttpRule_put m))) (copt "put" cText HttpRule_put set_HttpRule_put);
    cin "pattern" (λ m, bool_decide (is_Some (HttpRule_post m))) (copt "post" cText HttpRule_post set_HttpRule_post);
    cin "pattern" (λ m, bool_decide (is_Some (HttpRule_delete m))) (copt "delete" cText HttpRule_delete set_HttpRule_delete);
    cin "pattern" (λ m, bool_decide (is_Some (HttpRule_patch m))) (copt "patch" cText HttpRule_patch set_HttpRule_patch);
    cin "pattern" (λ m, bool_decide (is_Some (HttpRule_custom m))) (cmsg "custom" (C := CustomHttpPattern_codec) CustomHttpPattern_toObject CustomHttpPattern_fromObject CustomHttpPattern_verify (λ _, True) HttpRule_custom set_HttpRule_custom);
    copt "body" cString HttpRule_body set_HttpRule_body;
    copt "responseBody" cString HttpRule_responseBody set_HttpRule_responseBody;
    cmsgs "additionalBindings" (C := C) HttpRule_toObject HttpRule_fromObject HttpRule_verify (λ _, True) HttpRule_additionalBindings set_HttpRule_additionalBindings].

Definition HttpRule_printed (C : Codec HttpRule_encode HttpRule_decode) : list (cfield HttpRule) := [
    copt "selector" cString HttpRule_selector set_HttpRule_selector;
    cin "pattern" (λ m, bool_decide (is_Some (HttpRule_get m))) (copt "get" cText HttpRule_get set_HttpRule_get);
    cin "pattern" (λ m, bool_decide (is_Some (HttpRule_put m))) (copt "put" cText HttpRule_put set_HttpRule_put);
    cin "pattern" (λ m, bool_decide (is_Some (HttpRule_post m))) (copt "post" cText HttpRule_post set_HttpRule_post);
    cin "pattern" (λ m, bool_decide (is_Some (HttpRule_delete m))) (copt "delete" cText HttpRule_delete set_HttpRule_delete);
    cin "pattern" (λ m, bool_decide (is_Some (HttpRule_patch m))) (copt "patch" cText HttpRule_patch set_HttpRule_patch);
    copt "body" cString HttpRule_body set_HttpRule_body;
    cin "pattern" (λ m, bool_decide (is_Some (HttpRule_custom m))) (cmsg "custom" (C := CustomHttpPattern_codec) CustomHttpPattern_toObject CustomHttpPattern_fromObject CustomHttpPattern_verify (λ _, True) HttpRule_custom set_HttpRule_custom);
    cmsgs "additionalBindings" (C := C) HttpRule_toObject HttpRule_fromObject HttpRule_verify (λ _, True) HttpRule_additionalBindings set_HttpRule_additionalBindings;
    copt "responseBody" cString HttpRule_responseBody set_HttpRule_responseBody].

Lemma HttpRule_verify_unfold x d : HttpRule_verify x d = HttpRule_verify_with HttpRule_verify x d.
Proof.
  apply convert_nested_unfold; [|intros rec rec' y e H; by apply verify_object_deep].
  intros rec rec' y e H. apply verify_object_ext. solve_deeper H.
Qed.

Lemma HttpRule_fromObject_unfold x d : HttpRule_fromObject x d = HttpRule_fromObject_with HttpRule_fromObject x d.
Proof.
  apply convert_nested_unfold; [|intros rec rec' y e H; by apply from_object_deep].
  intros rec rec' y e H. apply from_object_ext. solve_deeper H.
Qed.

(** [message.pattern = name] leaves the member [name]. *)
Definition HttpRule_keep (name : string) (m : HttpRule) : HttpRule :=
  let only {A} (f : string) (o : option A) : option A := if String.eqb f name then o else None in
  mkHttpRule (HttpRule_selector m) (only "get" (HttpRule_get m)) (only "put" (HttpRule_put m)) (only "post" (HttpRule_post m))
    (only "delete" (HttpRule_delete m)) (only "patch" (HttpRule_patch m)) (only "custom" (HttpRule_custom m))
    (HttpRule_body m) (HttpRule_responseBody m) (HttpRule_additionalBindings m) (HttpRule_unknowns m).

Lemma HttpRule_remove_all l m : foldl (λ m f, HttpRule_remove f m) m l =
  let left {A} (f : string) (o : option A) : option A := if bool_decide (f ∈ l) then None else o in
  mkHttpRule (HttpRule_selector m) (left "get" (HttpRule_get m)) (left "put" (HttpRule_put m)) (left "post" (HttpRule_post m))
    (left "delete" (HttpRule_delete m)) (left "patch" (HttpRule_patch m)) (left "custom" (HttpRule_custom m))
    (HttpRule_body m) (HttpRule_responseBody m) (HttpRule_additionalBindings m) (HttpRule_unknowns m).
Proof.
  revert m. induction l as [|f l IH]; intros m; [by destruct m|]. cbn [foldl]. rewrite IH. cbv zeta.
  assert (Hl : ∀ A g (o : option A), (if bool_decide (g ∈ f :: l) then None else o) =
    if bool_decide (g ∈ l) then None else if String.eqb f g then None else o).
  { intros A g o. destruct (String.eqb_spec f g) as [->|Hne]; [rewrite bool_decide_eq_true_2 by (by left); by case_bool_decide|].
    rewrite (bool_decide_ext (g ∈ f :: l) (g ∈ l)); [done|]. rewrite elem_of_cons. naive_solver. }
  rewrite !Hl. unfold HttpRule_remove.
  repeat match goal with |- context [String.eqb f ?g] => destruct (String.eqb_spec f g) as [->|_]; [reflexivity|] end. done.
Qed.

Lemma HttpRule_set_pattern_keep name m : HttpRule_set_pattern name m = HttpRule_keep name m.
Proof.
  unfold HttpRule_set_pattern. rewrite HttpRule_remove_all. unfold HttpRule_keep. cbv zeta.
  assert (Hl : ∀ A g (o : option A), g ∈ HttpRule_oneOfFields →
    (if bool_decide (g ∈ oneOfSetter HttpRule_oneOfFields name) then None else o) = if String.eqb g name then o else None).
  { intros A g o Hg. rewrite (bool_decide_ext _ (g ≠ name)) by (rewrite oneOfSetter_spec; tauto).
    destruct (String.eqb_spec g name); by case_bool_decide. }
  rewrite !Hl by (unfold HttpRule_oneOfFields; set_solver). done.
Qed.

(** A rule as its decoder returns it: of the members of the oneof, the last one
    written is left. *)
Lemma HttpRule_received C v : c_norm (Codec := HttpRule_step C) v =
  let '(mkHttpRule selector get put post delete patch custom body responseBody bindings _) := v in
  let unless {A B} (o : option A) (x : option B) : option B := match o with Some _ => None | None => x end in
  mkHttpRule (norm_opt id string_present selector)
    (unless custom (unless patch (unless delete (unless post (unless put get)))))
    (unless custom (unless patch (unless delete (unless post put))))
    (unless custom (unless patch (unless delete post)))
    (unless custom (unless patch delete))
    (unless custom patch)
    (c_norm <$> custom)
    (norm_opt id string_present body) (norm_opt id string_present responseBody) (c_norm (Codec := C) <$> bindings) None.
Proof.
  change (c_norm v) with (schema_norm (HttpRule_fields C) v HttpRule_new).
  destruct v as [? [] [] [] [] [] [] ? ? ? ?]; cbn -[HttpRule_set_pattern]; rewrite ?HttpRule_set_pattern_keep; reflexivity.
Qed.

(** The members of the oneof that are set. *)
Definition HttpRule_members (m : HttpRule) : list bool :=
  [bool_decide (is_Some (HttpRule_get m)); bool_decide (is_Some (HttpRule_put m)); bool_decide (is_Some (HttpRule_post m));
   bool_decide (is_Some (HttpRule_delete m)); bool_decide (is_Some (HttpRule_patch m)); bool_decide (is_Some (HttpRule_custom m))].

Lemma HttpRule_received_members C v : (length (List.filter id (HttpRule_members (c_norm (Codec := HttpRule_step C) v))) ≤ 1)%nat.
Proof. rewrite HttpRule_received. destruct v as [? [] [] [] [] [] [] ? ? ? ?]; simpl; lia. Qed.

Lemma HttpRule_toObject_fields C m o d : HttpRule_toObject m o d =
  to_object d (λ depth, schema_put_all (HttpRule_printed C) o depth m (schema_base (HttpRule_printed C) o)).
Proof.
  assert (Hext : ∀ k k', k (default 0 d) = k' (default 0 d) → to_object d k = to_object d k') by (intros k k' H; unfold to_object; by rewrite H).
  destruct m as [? [] [] [] [] [] custom ? ? ? ?]; apply Hext; destruct (oneofs o) eqn:E, custom as [c|];
    cbn -[CustomHttpPattern_toObject]; rewrite ?E; try reflexivity; by destruct (CustomHttpPattern_toObject c o _).
Qed.

(** At most one member is there, so none is refused for being the second. *)
Lemma check_absent l f t rest : prop (VObj l) f = None → check (VObj l) f t rest = rest.
Proof. intros H. unfold check. by rewrite H. Qed.
Lemma member_absent l g f t seen rest : prop (VObj l) f = None → check_member (VObj l) g f t seen rest = rest seen.
Proof. intros H. unfold check_member. by rewrite H. Qed.
Lemma member_first l g f t rest v : prop (VObj l) f = Some v →
  check_member (VObj l) g f t false rest = check (VObj l) f t (rest true).
Proof. intros H. unfold check_member, check. by rewrite H. Qed.

Lemma HttpRule_verify_fields C l d :
  (length (List.filter (λ n, bool_decide (is_Some (prop (VObj l) n))) HttpRule_oneOfFields) ≤ 1)%nat →
  d ≤ util_recursionLimit → HttpRule_verify (VObj l) (Some d) = schema_verify (HttpRule_cfields C) d (VObj l).
Proof.
  intros Hone Hd. rewrite HttpRule_verify_unfold. unfold HttpRule_verify_with. rewrite verify_object_enter by done.
  unfold schema_verify, HttpRule_cfields. cbn [foldr cf_check cin copt cmsg cmsgs carray]. apply check_ext; [done|].
  unfold HttpRule_oneOfFields in Hone.
  destruct (prop (VObj l) "get") eqn:H1, (prop (VObj l) "put") eqn:H2, (prop (VObj l) "post") eqn:H3,
    (prop (VObj l) "delete") eqn:H4, (prop (VObj l) "patch") eqn:H5, (prop (VObj l) "custom") eqn:H6;
    cbn [List.filter] in Hone; rewrite ?H1, ?H2, ?H3, ?H4, ?H5, ?H6 in Hone; cbn in Hone; try lia;
    repeat first [rewrite member_absent by assumption | erewrite member_first by eassumption];
    repeat match goal with H : prop (VObj l) ?n = None |- context [check (VObj l) ?n ?t ?r] => rewrite (check_absent l n t r H) end;
    reflexivity.
Qed.

Lemma count_filter {A} (p : A → bool) l : length (List.filter p l) = length (List.filter id (p <$> l)).
Proof. induction l as [|x l IH]; [done|]. csimpl. destruct (p x); simpl; by rewrite IH. Qed.

Lemma count_le (bs cs : list bool) : Forall2 (λ b c, b = false → c = false) bs cs →
  (length (List.filter id cs) ≤ length (List.filter id bs))%nat.
Proof. induction 1 as [|b c bs cs Hbc _ IH]; [done|]. destruct b, c; simpl; lia || (by specialize (Hbc eq_refl)). Qed.

(** The object has no more members than the rule. *)
Lemma HttpRule_shown C m o d l : Forall (displays exact_options o d m l) (HttpRule_cfields C) →
  (length (List.filter (λ n, bool_decide (is_Some (prop (VObj l) n))) HttpRule_oneOfFields) ≤
   length (List.filter id (HttpRule_members m)))%nat.
Proof.
  unfold HttpRule_cfields. rewrite !Forall_cons. intros (_ & H1 & H2 & H3 & H4 & H5 & H6 & _).
  assert (Hno : ∀ A (x : option A) (c : cfield HttpRule) has, displays exact_options o d m l (cin "pattern" has c) →
    has m = bool_decide (is_Some x) → (x = None → ∀ l, cf_put c o d m l = Ok l) →
    bool_decide (is_Some x) = false → bool_decide (is_Some (prop (VObj l) (cf_name c))) = false).
  { intros A x c has (r & Hf & Hs) Hh Hp Hx. rewrite (cin_absent exact_options "pattern" has c o d m l) with (r := r); [done|congruence| |done|done].
    destruct x; [done|]. by apply Hp. }
  rewrite count_filter. apply count_le. unfold HttpRule_oneOfFields, HttpRule_members.
  repeat (apply Forall2_cons; split); [..|apply Forall2_nil; done].
  - apply (Hno _ _ _ _ H1 eq_refl). intros Hx l'. simpl. by rewrite Hx.
  - apply (Hno _ _ _ _ H2 eq_refl). intros Hx l'. simpl. by rewrite Hx.
  - apply (Hno _ _ _ _ H3 eq_refl). intros Hx l'. simpl. by rewrite Hx.
  - apply (Hno _ _ _ _ H4 eq_refl). intros Hx l'. simpl. by rewrite Hx.
  - apply (Hno _ _ _ _ H5 eq_refl). intros Hx l'. simpl. by rewrite Hx.
  - apply (Hno _ _ _ _ H6 eq_refl). intros Hx l'. simpl. by rewrite Hx.
Qed.

Lemma HttpRule_step_converter C :
  ConverterOn exact_options C HttpRule_toObject HttpRule_fromObject HttpRule_verify (λ _, True) →
  ConverterOn exact_options (HttpRule_step C) HttpRule_toObject HttpRule_fromObject HttpRule_verify (λ _, True).
Proof.
  intros HC. apply (schema_converter_with exact_options _ _ _ _ _ ".google.api.HttpRule" (HttpRule_cfields C) (HttpRule_printed C) HttpRule_new HttpRule_unknowns).
  - apply HttpRule_toObject_fields.
  - intros obj d. by rewrite HttpRule_fromObject_unfold.
  - intros x. by rewrite !HttpRule_verify_unfold.
  - intros v o d l Hv Hd Ho _ Hl Hk. rewrite (HttpRule_verify_fields C) by (done || (etrans; [by eapply HttpRule_shown|apply HttpRule_received_members])).
    by eapply schema_accepts.
  - unfold HttpRule_cfields, HttpRule_printed. solve_order.
  - solve_names.
  - unfold HttpRule_printed. each_field ltac:(first
      [ solve_cfield
      | apply cin_laws; [done|done|]; intros o d m Hn Hd; eexists; apply copt_bare; [apply cText_bare|done]
      | apply cin_laws_of; [done|done|solve_cfield] ]).
  - solve_untouched.
  - solve_heights_of (HttpRule_fields C).
  - intros v [Hok _]. revert Hok. unfold schema_ok, HttpRule_fields. rewrite HttpRule_received. intros Hok. split_ok Hok.
    destruct v. each_field solve_normal.
  - intros v [Hok _] _. rewrite HttpRule_received. split_ok Hok. destruct v. solve_knowns.
  - solve_copy.
  - intros v. rewrite HttpRule_received. by destruct v.
Qed.

Lemma HttpRule_converter_at n :
  ConverterOn exact_options (HttpRule_codec n) HttpRule_toObject HttpRule_fromObject HttpRule_verify (λ _, True).
Proof.
  induction n as [|n IH]; [|by apply HttpRule_step_converter]. split; [done|by intros []| |]; intros x.
  - by rewrite !HttpRule_fromObject_unfold.
  - by rewrite !HttpRule_verify_unfold.
Qed.

#[export] Instance HttpRule_converter levels :
  ConverterOn exact_options (HttpRule_codec levels) HttpRule_toObject HttpRule_fromObject HttpRule_verify (λ _, True) :=
  HttpRule_converter_at levels.

End Converters.
