(* ===== verification/DescConverters.v ===== *)
(** * The conversions of the descriptor classes as schemas

    What [verify], [fromObject] and [toObject] of [DescConvert],
    [DescConvertOptions] and [DescConvertProtos] do with the fields of each
    class, and that they fit together.  [verify] and [fromObject] go through
    the fields as declared, [toObject] by number.  Where presence is explicit a
    printed default would be read back as a value, so the options must not ask
    for defaults ([exact_explicit]).  [X_known] says that every enumeration
    value inside a message is one of its type. *)

From S2P Require Import Prelude JsNum JsMap ProtoRuntime ProtoLaws ProtoObjects ProtoConvertLaws ProtoSchema ProtoSchemaConvert DescHttp DescOptions DescProtos DescCodecs DescConvert DescConvertOptions DescConvertProtos DescRuleObjects.
Open Scope Z_scope.

Section Converters.
Context `{RL : RuntimeLaws} `{CL : ConversionLaws}.

Context (levels : nat).

(** ** [Http] *)

Definition Http_cfields : list (cfield Http) := [
    cmsgs "rules" (C := (HttpRule_codec levels)) HttpRule_toObject HttpRule_fromObject HttpRule_verify (λ _, True) Http_rules set_Http_rules;
    copt "fullyDecodeReservedExpansion" cBool Http_fullyDecodeReservedExpansion set_Http_fullyDecodeReservedExpansion].

#[export] Instance Http_converter : ConverterOn exact_options (Http_codec levels) Http_toObject Http_fromObject Http_verify (λ _, True).
Proof. apply (schema_converter_on exact_options _ _ _ _ _ ".google.api.Http" Http_cfields Http_cfields Http_new Http_unknowns);
  [reflexivity..|solve_order|solve_names|solve_cfields|solve_untouched|solve_heights_of (Http_fields levels)
  |intros v [Hok _]; revert Hok; unfold schema_ok, Http_fields; solve_normals|intros v [Hok _] Hv; split_ok Hok; solve_knowns|solve_copy|reflexivity]. Qed.

(** ** [NamePart] *)

Definition NamePart_cfields : list (cfield NamePart) := [
    creq "namePart" cText NamePart_namePart set_NamePart_namePart;
    creq "isExtension" (cFlag false) NamePart_isExtension set_NamePart_isExtension].

#[export] Instance NamePart_converter : ConverterOn exact_explicit NamePart_codec NamePart_toObject NamePart_fromObject NamePart_verify (λ _, True).
Proof. apply (schema_converter_on exact_explicit _ _ _ _ _ ".google.protobuf.UninterpretedOption.NamePart" NamePart_cfields NamePart_cfields NamePart_new NamePart_unknowns);
  [reflexivity..|solve_order|solve_names|solve_cfields|solve_untouched|solve_heights_of NamePart_fields
  |intros v [Hok _]; revert Hok; unfold schema_ok, NamePart_fields; solve_normals|intros v [Hok _] Hv; split_ok Hok; solve_knowns|solve_copy|reflexivity]. Qed.

(** ** [UninterpretedOption] *)

Definition UninterpretedOption_cfields : list (cfield UninterpretedOption) := [
    cmsgs "name" (C := NamePart_codec) NamePart_toObject NamePart_fromObject NamePart_verify (λ _, True) UninterpretedOption_name set_UninterpretedOption_name;
    copt "identifierValue" cText UninterpretedOption_identifierValue set_UninterpretedOption_identifierValue;
    copt "positiveIntValue" (cWide true) UninterpretedOption_positiveIntValue set_UninterpretedOption_positiveIntValue;
    copt "negativeIntValue" (cWide false) UninterpretedOption_negativeIntValue set_UninterpretedOption_negativeIntValue;
    copt "doubleValue" cNumber UninterpretedOption_doubleValue set_UninterpretedOption_doubleValue;
    copt "stringValue" cBuffer UninterpretedOption_stringValue set_UninterpretedOption_stringValue;
    copt "aggregateValue" cText UninterpretedOption_aggregateValue set_UninterpretedOption_aggregateValue].

#[export] Instance UninterpretedOption_converter : ConverterOn exact_explicit UninterpretedOption_codec UninterpretedOption_toObject UninterpretedOption_fromObject UninterpretedOption_verify (λ _, True).
Proof. apply (schema_converter_on exact_explicit _ _ _ _ _ ".google.protobuf.UninterpretedOption" UninterpretedOption_cfields UninterpretedOption_cfields UninterpretedOption_new UninterpretedOption_unknowns);
  [reflexivity..|solve_order|solve_names|solve_cfields|solve_untouched|solve_heights_of UninterpretedOption_fields
  |intros v [Hok _]; revert Hok; unfold schema_ok, UninterpretedOption_fields; solve_normals|intros v [Hok _] Hv; split_ok Hok; solve_knowns|solve_copy|reflexivity]. Qed.

(** ** [ExtensionRangeOptions] *)

Definition ExtensionRangeOptions_cfields : list (cfield ExtensionRangeOptions) := [
    cmsgs "uninterpretedOption" (C := UninterpretedOption_codec) UninterpretedOption_toObject UninterpretedOption_fromObject UninterpretedOption_verify (λ _, True) ExtensionRangeOptions_uninterpretedOption set_ExtensionRangeOptions_uninterpretedOption].

#[export] Instance ExtensionRangeOptions_converter : ConverterOn exact_explicit ExtensionRangeOptions_codec ExtensionRangeOptions_toObject ExtensionRangeOptions_fromObject ExtensionRangeOptions_verify (λ _, True).
Proof. apply (schema_converter_on exact_explicit _ _ _ _ _ ".google.protobuf.ExtensionRangeOptions" ExtensionRangeOptions_cfields ExtensionRangeOptions_cfields ExtensionRangeOptions_new ExtensionRangeOptions_unknowns);
  [reflexivity..|solve_order|solve_names|solve_cfields|solve_untouched|solve_heights_of ExtensionRangeOptions_fields
  |intros v [Hok _]; revert Hok; unfold schema_ok, ExtensionRangeOptions_fields; solve_normals|intros v [Hok _] Hv; split_ok Hok; solve_knowns|solve_copy|reflexivity]. Qed.

(** ** [FileOptions] *)

Definition FileOptions_known (m : FileOptions) : bool :=
  known_value FileOptions_OptimizeMode (FileOptions_optimizeFor m) && true.

Definition FileOptions_cfields : list (cfield FileOptions) := [
    copt "javaPackage" cText FileOptions_javaPackage set_FileOptions_javaPackage;
    copt "javaOuterClassname" cText FileOptions_javaOuterClassname set_FileOptions_javaOuterClassname;
    copt "javaMultipleFiles" (cFlag false) FileOptions_javaMultipleFiles set_FileOptions_javaMultipleFiles;
    copt "javaGenerateEqualsAndHash" (cFlag false) FileOptions_javaGenerateEqualsAndHash set_FileOptions_javaGenerateEqualsAndHash;
    copt "javaStringCheckUtf8" (cFlag false) FileOptions_javaStringCheckUtf8 set_FileOptions_javaStringCheckUtf8;
    copt "optimizeFor" (cValue FileOptions_OptimizeMode 1 "SPEED") FileOptions_optimizeFor set_FileOptions_optimizeFor;
    copt "goPackage" cText FileOptions_goPackage set_FileOptions_goPackage;
    copt "ccGenericServices" (cFlag false) FileOptions_ccGenericServices set_FileOptions_ccGenericServices;
    copt "javaGenericServices" (cFlag false) FileOptions_javaGenericServices set_FileOptions_javaGenericServices;
    copt "pyGenericServices" (cFlag false) FileOptions_pyGenericServices set_FileOptions_pyGenericServices;
    copt "phpGenericServices" (cFlag false) FileOptions_phpGenericServices set_FileOptions_phpGenericServices;
    copt "deprecated" (cFlag false) FileOptions_deprecated set_FileOptions_deprecated;
    copt "ccEnableArenas" (cFlag true) FileOptions_ccEnableArenas set_FileOptions_ccEnableArenas;
    copt "objcClassPrefix" cText FileOptions_objcClassPrefix set_FileOptions_objcClassPrefix;
    copt "csharpNamespace" cText FileOptions_csharpNamespace set_FileOptions_csharpNamespace;
    copt "swiftPrefix" cText FileOptions_swiftPrefix set_FileOptions_swiftPrefix;
    copt "phpClassPrefix" cText FileOptions_phpClassPrefix set_FileOptions_phpClassPrefix;
    copt "phpNamespace" cText FileOptions_phpNamespace set_FileOptions_phpNamespace;
    copt "phpMetadataNamespace" cText FileOptions_phpMetadataNamespace set_FileOptions_phpMetadataNamespace;
    copt "rubyPackage" cText FileOptions_rubyPackage set_FileOptions_rubyPackage;
    cmsgs "uninterpretedOption" (C := UninterpretedOption_codec) UninterpretedOption_toObject UninterpretedOption_fromObject UninterpretedOption_verify (λ _, True) FileOptions_uninterpretedOption set_FileOptions_uninterpretedOption].

Definition FileOptions_printed : list (cfield FileOptions) := [
    copt "javaPackage" cText FileOptions_javaPackage set_FileOptions_javaPackage;
    copt "javaOuterClassname" cText FileOptions_javaOuterClassname set_FileOptions_javaOuterClassname;
    copt "optimizeFor" (cValue FileOptions_OptimizeMode 1 "SPEED") FileOptions_optimizeFor set_FileOptions_optimizeFor;
    copt "javaMultipleFiles" (cFlag false) FileOptions_javaMultipleFiles set_FileOptions_javaMultipleFiles;
    copt "goPackage" cText FileOptions_goPackage set_FileOptions_goPackage;
    copt "ccGenericServices" (cFlag false) FileOptions_ccGenericServices set_FileOptions_ccGenericServices;
    copt "javaGenericServices" (cFlag false) FileOptions_javaGenericServices set_FileOptions_javaGenericServices;
    copt "pyGenericServices" (cFlag false) FileOptions_pyGenericServices set_FileOptions_pyGenericServices;
    copt "javaGenerateEqualsAndHash" (cFlag false) FileOptions_javaGenerateEqualsAndHash set_FileOptions_javaGenerateEqualsAndHash;
    copt "deprecated" (cFlag false) FileOptions_deprecated set_FileOptions_deprecated;
    copt "javaStringCheckUtf8" (cFlag false) FileOptions_javaStringCheckUtf8 set_FileOptions_javaStringCheckUtf8;
    copt "ccEnableArenas" (cFlag true) FileOptions_ccEnableArenas set_FileOptions_ccEnableArenas;
    copt "objcClassPrefix" cText FileOptions_objcClassPrefix set_FileOptions_objcClassPrefix;
    copt "csharpNamespace" cText FileOptions_csharpNamespace set_FileOptions_csharpNamespace;
    copt "swiftPrefix" cText FileOptions_swiftPrefix set_FileOptions_swiftPrefix;
    copt "phpClassPrefix" cText FileOptions_phpClassPrefix set_FileOptions_phpClassPrefix;
    copt "phpNamespace" cText FileOptions_phpNamespace set_FileOptions_phpNamespace;
    copt "phpGenericServices" (cFlag false) FileOptions_phpGenericServices set_FileOptions_phpGenericServices;
    copt "phpMetadataNamespace" cText FileOptions_phpMetadataNamespace set_FileOptions_phpMetadataNamespace;
    copt "rubyPackage" cText FileOptions_rubyPackage set_FileOptions_rubyPackage;
    cmsgs "uninterpretedOption" (C := UninterpretedOption_codec) UninterpretedOption_toObject UninterpretedOption_fromObject UninterpretedOption_verify (λ _, True) FileOptions_uninterpretedOption set_FileOptions_uninterpretedOption].

#[export] Instance FileOptions_converter : ConverterOn exact_explicit FileOptions_codec FileOptions_toObject FileOptions_fromObject FileOptions_verify (λ v, FileOptions_known v = true).
Proof. apply (schema_converter_on exact_explicit _ _ _ _ _ ".google.protobuf.FileOptions" FileOptions_cfields FileOptions_printed FileOptions_new FileOptions_unknowns);
  [reflexivity..|solve_order|solve_names|solve_cfields|solve_untouched|solve_heights_of FileOptions_fields
  |intros v [Hok _]; revert Hok; unfold schema_ok, FileOptions_fields; solve_normals|intros v [Hok _] Hv; split_ok Hok; unfold FileOptions_known in Hv; split_known; solve_knowns|solve_copy|reflexivity]. Qed.

(** ** [MessageOptions] *)

Definition MessageOptions_cfields : list (cfield MessageOptions) := [
    copt "messageSetWireFormat" (cFlag false) MessageOptions_messageSetWireFormat set_MessageOptions_messageSetWireFormat;
    copt "noStandardDescriptorAccessor" (cFlag false) MessageOptions_noStandardDescriptorAccessor set_MessageOptions_noStandardDescriptorAccessor;
    copt "deprecated" (cFlag false) MessageOptions_deprecated set_MessageOptions_deprecated;
    copt "mapEntry" (cFlag false) MessageOptions_mapEntry set_MessageOptions_mapEntry;
    cmsgs "uninterpretedOption" (C := UninterpretedOption_codec) UninterpretedOption_toObject UninterpretedOption_fromObject UninterpretedOption_verify (λ _, True) MessageOptions_uninterpretedOption set_MessageOptions_uninterpretedOption].

#[export] Instance MessageOptions_converter : ConverterOn exact_explicit MessageOptions_codec MessageOptions_toObject MessageOptions_fromObject MessageOptions_verify (λ _, True).
Proof. apply (schema_converter_on exact_explicit _ _ _ _ _ ".google.protobuf.MessageOptions" MessageOptions_cfields MessageOptions_cfields MessageOptions_new MessageOptions_unknowns);
  [reflexivity..|solve_order|solve_names|solve_cfields|solve_untouched|solve_heights_of MessageOptions_fields
  |intros v [Hok _]; revert Hok; unfold schema_ok, MessageOptions_fields; solve_normals|intros v [Hok _] Hv; split_ok Hok; solve_knowns|solve_copy|reflexivity]. Qed.

(** ** [FieldOptions] *)

Definition FieldOptions_known (m : FieldOptions) : bool :=
  known_value FieldOptions_CType (FieldOptions_ctype m) && known_value FieldOptions_JSType (FieldOptions_jstype m) && true.

Definition FieldOptions_cfields : list (cfield FieldOptions) := [
    copt "ctype" (cValue FieldOptions_CType 0 "STRING") FieldOptions_ctype set_FieldOptions_ctype;
    copt "packed" (cFlag false) FieldOptions_packed set_FieldOptions_packed;
    copt "jstype" (cValue FieldOptions_JSType 0 "JS_NORMAL") FieldOptions_jstype set_FieldOptions_jstype;
    copt "lazy" (cFlag false) FieldOptions_lazy set_FieldOptions_lazy;
    copt "unverifiedLazy" (cFlag false) FieldOptions_unverifiedLazy set_FieldOptions_unverifiedLazy;
    copt "deprecated" (cFlag false) FieldOptions_deprecated set_FieldOptions_deprecated;
    copt "weak" (cFlag false) FieldOptions_weak set_FieldOptions_weak;
    cmsgs "uninterpretedOption" (C := UninterpretedOption_codec) UninterpretedOption_toObject UninterpretedOption_fromObject UninterpretedOption_verify (λ _, True) FieldOptions_uninterpretedOption set_FieldOptions_uninterpretedOption].

Definition FieldOptions_printed : list (cfield FieldOptions) := [
    copt "ctype" (cValue FieldOptions_CType 0 "STRING") FieldOptions_ctype set_FieldOptions_ctype;
    copt "packed" (cFlag false) FieldOptions_packed set_FieldOptions_packed;
    copt "deprecated" (cFlag false) FieldOptions_deprecated set_FieldOptions_deprecated;
    copt "lazy" (cFlag false) FieldOptions_lazy set_FieldOptions_lazy;
    copt "jstype" (cValue FieldOptions_JSType 0 "JS_NORMAL") FieldOptions_jstype set_FieldOptions_jstype;
    copt "weak" (cFlag false) FieldOptions_weak set_FieldOptions_weak;
    copt "unverifiedLazy" (cFlag false) FieldOptions_unverifiedLazy set_FieldOptions_unverifiedLazy;
    cmsgs "uninterpretedOption" (C := UninterpretedOption_codec) UninterpretedOption_toObject UninterpretedOption_fromObject UninterpretedOption_verify (λ _, True) FieldOptions_uninterpretedOption set_FieldOptions_uninterpretedOption].

#[export] Instance FieldOptions_converter : ConverterOn exact_explicit FieldOptions_codec FieldOptions_toObject FieldOptions_fromObject FieldOptions_verify (λ v, FieldOptions_known v = true).
Proof. apply (schema_converter_on exact_explicit _ _ _ _ _ ".google.protobuf.FieldOptions" FieldOptions_cfields FieldOptions_printed FieldOptions_new FieldOptions_unknowns);
  [reflexivity..|solve_order|solve_names|solve_cfields|solve_untouched|solve_heights_of FieldOptions_fields
  |intros v [Hok _]; revert Hok; unfold schema_ok, FieldOptions_fields; solve_normals|intros v [Hok _] Hv; split_ok Hok; unfold FieldOptions_known in Hv; split_known; solve_knowns|solve_copy|reflexivity]. Qed.

(** ** [OneofOptions] *)

Definition OneofOptions_cfields : list (cfield OneofOptions) := [
    cmsgs "uninterpretedOption" (C := UninterpretedOption_codec) UninterpretedOption_toObject UninterpretedOption_fromObject UninterpretedOption_verify (λ _, True) OneofOptions_uninterpretedOption set_OneofOptions_uninterpretedOption].

#[export] Instance OneofOptions_converter : ConverterOn exact_explicit OneofOptions_codec OneofOptions_toObject OneofOptions_fromObject OneofOptions_verify (λ _, True).
Proof. apply (schema_converter_on exact_explicit _ _ _ _ _ ".google.protobuf.OneofOptions" OneofOptions_cfields OneofOptions_cfields OneofOptions_new OneofOptions_unknowns);
  [reflexivity..|solve_order|solve_names|solve_cfields|solve_untouched|solve_heights_of OneofOptions_fields
  |intros v [Hok _]; revert Hok; unfold schema_ok, OneofOptions_fields; solve_normals|intros v [Hok _] Hv; split_ok Hok; solve_knowns|solve_copy|reflexivity]. Qed.

(** ** [EnumOptions] *)

Definition EnumOptions_cfields : list (cfield EnumOptions) := [
    copt "allowAlias" (cFlag false) EnumOptions_allowAlias set_EnumOptions_allowAlias;
    copt "deprecated" (cFlag false) EnumOptions_deprecated set_EnumOptions_deprecated;
    cmsgs "uninterpretedOption" (C := UninterpretedOption_codec) UninterpretedOption_toObject UninterpretedOption_fromObject UninterpretedOption_verify (λ _, True) EnumOptions_uninterpretedOption set_EnumOptions_uninterpretedOption].

#[export] Instance EnumOptions_converter : ConverterOn exact_explicit EnumOptions_codec EnumOptions_toObject EnumOptions_fromObject EnumOptions_verify (λ _, True).
Proof. apply (schema_converter_on exact_explicit _ _ _ _ _ ".google.protobuf.EnumOptions" EnumOptions_cfields EnumOptions_cfields EnumOptions_new EnumOptions_unknowns);
  [reflexivity..|solve_order|solve_names|solve_cfields|solve_untouched|solve_heights_of EnumOptions_fields
  |intros v [Hok _]; revert Hok; unfold schema_ok, EnumOptions_fields; solve_normals|intros v [Hok _] Hv; split_ok Hok; solve_knowns|solve_copy|reflexivity]. Qed.

(** ** [EnumValueOptions] *)

Definition EnumValueOptions_cfields : list (cfield EnumValueOptions) := [
    copt "deprecated" (cFlag false) EnumValueOptions_deprecated set_EnumValueOptions_deprecated;
    cmsgs "uninterpretedOption" (C := UninterpretedOption_codec) UninterpretedOption_toObject UninterpretedOption_fromObject UninterpretedOption_verify (λ _, True) EnumValueOptions_uninterpretedOption set_EnumValueOptions_uninterpretedOption].

#[export] Instance EnumValueOptions_converter : ConverterOn exact_explicit EnumValueOptions_codec EnumValueOptions_toObject EnumValueOptions_fromObject EnumValueOptions_verify (λ _, True).
Proof. apply (schema_converter_on exact_explicit _ _ _ _ _ ".google.protobuf.EnumValueOptions" EnumValueOptions_cfields EnumValueOptions_cfields EnumValueOptions_new EnumValueOptions_unknowns);
  [reflexivity..|solve_order|solve_names|solve_cfields|solve_untouched|solve_heights_of EnumValueOptions_fields
  |intros v [Hok _]; revert Hok; unfold schema_ok, EnumValueOptions_fields; solve_normals|intros v [Hok _] Hv; split_ok Hok; solve_knowns|solve_copy|reflexivity]. Qed.

(** ** [ServiceOptions] *)

Definition ServiceOptions_cfields : list (cfield ServiceOptions) := [
    copt "deprecated" (cFlag false) ServiceOptions_deprecated set_ServiceOptions_deprecated;
    cmsgs "uninterpretedOption" (C := UninterpretedOption_codec) UninterpretedOption_toObject UninterpretedOption_fromObject UninterpretedOption_verify (λ _, True) ServiceOptions_uninterpretedOption set_ServiceOptions_uninterpretedOption].

#[export] Instance ServiceOptions_converter : ConverterOn exact_explicit ServiceOptions_codec ServiceOptions_toObject ServiceOptions_fromObject ServiceOptions_verify (λ _, True).
Proof. apply (schema_converter_on exact_explicit _ _ _ _ _ ".google.protobuf.ServiceOptions" ServiceOptions_cfields ServiceOptions_cfields ServiceOptions_new ServiceOptions_unknowns);
  [reflexivity..|solve_order|solve_names|solve_cfields|solve_untouched|solve_heights_of ServiceOptions_fields
  |intros v [Hok _]; revert Hok; unfold schema_ok, ServiceOptions_fields; solve_normals|intros v [Hok _] Hv; split_ok Hok; solve_knowns|solve_copy|reflexivity]. Qed.

(** ** [MethodOptions] *)

Definition MethodOptions_known (m : MethodOptions) : bool :=
  known_value MethodOptions_IdempotencyLevel (MethodOptions_idempotencyLevel m) && true.

Definition MethodOptions_cfields : list (cfield MethodOptions) := [
    copt "deprecated" (cFlag false) MethodOptions_deprecated set_MethodOptions_deprecated;
    copt "idempotencyLevel" (cValue MethodOptions_IdempotencyLevel 0 "IDEMPOTENCY_UNKNOWN") MethodOptions_idempotencyLevel set_MethodOptions_idempotencyLevel;
    cmsgs "uninterpretedOption" (C := UninterpretedOption_codec) UninterpretedOption_toObject UninterpretedOption_fromObject UninterpretedOption_verify (λ _, True) MethodOptions_uninterpretedOption set_MethodOptions_uninterpretedOption;
    cmsg ".google.api.http" (C := (HttpRule_codec levels)) HttpRule_toObject HttpRule_fromObject HttpRule_verify (λ _, True) MethodOptions_google_api_http set_MethodOptions_google_api_http].

#[export] Instance MethodOptions_converter : ConverterOn exact_explicit (MethodOptions_codec levels) MethodOptions_toObject MethodOptions_fromObject MethodOptions_verify (λ v, MethodOptions_known v = true).
Proof. apply (schema_converter_on exact_explicit _ _ _ _ _ ".google.protobuf.MethodOptions" MethodOptions_cfields MethodOptions_cfields MethodOptions_new MethodOptions_unknowns);
  [reflexivity..|solve_order|solve_names|solve_cfields|solve_untouched|solve_heights_of (MethodOptions_fields levels)
  |intros v [Hok _]; revert Hok; unfold schema_ok, MethodOptions_fields; solve_normals|intros v [Hok _] Hv; split_ok Hok; unfold MethodOptions_known in Hv; split_known; solve_knowns|solve_copy|reflexivity]. Qed.

(** ** [ExtensionRange] *)

Definition ExtensionRange_cfields : list (cfield ExtensionRange) := [
    copt "start" (cInt 0) ExtensionRange_start set_ExtensionRange_start;
    copt "end" (cInt 0) ExtensionRange_end set_ExtensionRange_end;
    cmsg "options" (C := ExtensionRangeOptions_codec) ExtensionRangeOptions_toObject ExtensionRangeOptions_fromObject ExtensionRangeOptions_verify (λ _, True) ExtensionRange_options set_ExtensionRange_options].

#[export] Instance ExtensionRange_converter : ConverterOn exact_explicit ExtensionRange_codec ExtensionRange_toObject ExtensionRange_fromObject ExtensionRange_verify (λ _, True).
Proof. apply (schema_converter_on exact_explicit _ _ _ _ _ ".google.protobuf.DescriptorProto.ExtensionRange" ExtensionRange_cfields ExtensionRange_cfields ExtensionRange_new ExtensionRange_unknowns);
  [reflexivity..|solve_order|solve_names|solve_cfields|solve_untouched|solve_heights_of ExtensionRange_fields
  |intros v [Hok _]; revert Hok; unfold schema_ok, ExtensionRange_fields; solve_normals|intros v [Hok _] Hv; split_ok Hok; solve_knowns|solve_copy|reflexivity]. Qed.

(** ** [ReservedRange] *)

Definition ReservedRange_cfields : list (cfield ReservedRange) := [
    copt "start" (cInt 0) ReservedRange_start set_ReservedRange_start;
    copt "end" (cInt 0) ReservedRange_end set_ReservedRange_end].

#[export] Instance ReservedRange_converter : ConverterOn exact_explicit ReservedRange_codec ReservedRange_toObject ReservedRange_fromObject ReservedRange_verify (λ _, True).
Proof. apply (schema_converter_on exact_explicit _ _ _ _ _ ".google.protobuf.DescriptorProto.ReservedRange" ReservedRange_cfields ReservedRange_cfields ReservedRange_new ReservedRange_unknowns);
  [reflexivity..|solve_order|solve_names|solve_cfields|solve_untouched|solve_heights_of ReservedRange_fields
  |intros v [Hok _]; revert Hok; unfold schema_ok, ReservedRange_fields; solve_normals|intros v [Hok _] Hv; split_ok Hok; solve_knowns|solve_copy|reflexivity]. Qed.

(** ** [FieldDescriptorProto] *)

Definition FieldDescriptorProto_known (m : FieldDescriptorProto) : bool :=
  known_value FieldDescriptorProto_Label (FieldDescriptorProto_label m) && known_value FieldDescriptorProto_Type (FieldDescriptorProto_type m) && known_in FieldOptions_known (FieldDescriptorProto_options m) && true.

Definition FieldDescriptorProto_cfields : list (cfield FieldDescriptorProto) := [
    copt "name" cText FieldDescriptorProto_name set_FieldDescriptorProto_name;
    copt "number" (cInt 0) FieldDescriptorProto_number set_FieldDescriptorProto_number;
    copt "label" (cValue FieldDescriptorProto_Label 1 "LABEL_OPTIONAL") FieldDescriptorProto_label set_FieldDescriptorProto_label;
    copt "type" (cValue FieldDescriptorProto_Type 1 "TYPE_DOUBLE") FieldDescriptorProto_type set_FieldDescriptorProto_type;
    copt "typeName" cText FieldDescriptorProto_typeName set_FieldDescriptorProto_typeName;
    copt "extendee" cText FieldDescriptorProto_extendee set_FieldDescriptorProto_extendee;
    copt "defaultValue" cText FieldDescriptorProto_defaultValue set_FieldDescriptorProto_defaultValue;
    copt "oneofIndex" (cInt 0) FieldDescriptorProto_oneofIndex set_FieldDescriptorProto_oneofIndex;
    copt "jsonName" cText FieldDescriptorProto_jsonName set_FieldDescriptorProto_jsonName;
    cmsg "options" (C := FieldOptions_codec) FieldOptions_toObject FieldOptions_fromObject FieldOptions_verify (λ v, FieldOptions_known v = true) FieldDescriptorProto_options set_FieldDescriptorProto_options;
    copt "proto3Optional" (cFlag false) FieldDescriptorProto_proto3Optional set_FieldDescriptorProto_proto3Optional].

Definition FieldDescriptorProto_printed : list (cfield FieldDescriptorProto) := [
    copt "name" cText FieldDescriptorProto_name set_FieldDescriptorProto_name;
    copt "extendee" cText FieldDescriptorProto_extendee set_FieldDescriptorProto_extendee;
    copt "number" (cInt 0) FieldDescriptorProto_number set_FieldDescriptorProto_number;
    copt "label" (cValue FieldDescriptorProto_Label 1 "LABEL_OPTIONAL") FieldDescriptorProto_label set_FieldDescriptorProto_label;
    copt "type" (cValue FieldDescriptorProto_Type 1 "TYPE_DOUBLE") FieldDescriptorProto_type set_FieldDescriptorProto_type;
    copt "typeName" cText FieldDescriptorProto_typeName set_FieldDescriptorProto_typeName;
    copt "defaultValue" cText FieldDescriptorProto_defaultValue set_FieldDescriptorProto_defaultValue;
    cmsg "options" (C := FieldOptions_codec) FieldOptions_toObject FieldOptions_fromObject FieldOptions_verify (λ v, FieldOptions_known v = true) FieldDescriptorProto_options set_FieldDescriptorProto_options;
    copt "oneofIndex" (cInt 0) FieldDescriptorProto_oneofIndex set_FieldDescriptorProto_oneofIndex;
    copt "jsonName" cText FieldDescriptorProto_jsonName set_FieldDescriptorProto_jsonName;
    copt "proto3Optional" (cFlag false) FieldDescriptorProto_proto3Optional set_FieldDescriptorProto_proto3Optional].

#[export] Instance FieldDescriptorProto_converter : ConverterOn exact_explicit FieldDescriptorProto_codec FieldDescriptorProto_toObject FieldDescriptorProto_fromObject FieldDescriptorProto_verify (λ v, FieldDescriptorProto_known v = true).
Proof. apply (schema_converter_on exact_explicit _ _ _ _ _ ".google.protobuf.FieldDescriptorProto" FieldDescriptorProto_cfields FieldDescriptorProto_printed FieldDescriptorProto_new FieldDescriptorProto_unknowns);
  [reflexivity..|solve_order|solve_names|solve_cfields|solve_untouched|solve_heights_of FieldDescriptorProto_fields
  |intros v [Hok _]; revert Hok; unfold schema_ok, FieldDescriptorProto_fields; solve_normals|intros v [Hok _] Hv; split_ok Hok; unfold FieldDescriptorProto_known in Hv; split_known; solve_knowns|solve_copy|reflexivity]. Qed.

(** ** [OneofDescriptorProto] *)

Definition OneofDescriptorProto_cfields : list (cfield OneofDescriptorProto) := [
    copt "name" cText OneofDescriptorProto_name set_OneofDescriptorProto_name;
    cmsg "options" (C := OneofOptions_codec) OneofOptions_toObject OneofOptions_fromObject OneofOptions_verify (λ _, True) OneofDescriptorProto_options set_OneofDescriptorProto_options].

#[export] Instance OneofDescriptorProto_converter : ConverterOn exact_explicit OneofDescriptorProto_codec OneofDescriptorProto_toObject OneofDescriptorProto_fromObject OneofDescriptorProto_verify (λ _, True).
Proof. apply (schema_converter_on exact_explicit _ _ _ _ _ ".google.protobuf.OneofDescriptorProto" OneofDescriptorProto_cfields OneofDescriptorProto_cfields OneofDescriptorProto_new OneofDescriptorProto_unknowns);
  [reflexivity..|solve_order|solve_names|solve_cfields|solve_untouched|solve_heights_of OneofDescriptorProto_fields
  |intros v [Hok _]; revert Hok; unfold schema_ok, OneofDescriptorProto_fields; solve_normals|intros v [Hok _] Hv; split_ok Hok; solve_knowns|solve_copy|reflexivity]. Qed.

(** ** [EnumReservedRange] *)

Definition EnumReservedRange_cfields : list (cfield EnumReservedRange) := [
    copt "start" (cInt 0) EnumReservedRange_start set_EnumReservedRange_start;
    copt "end" (cInt 0) EnumReservedRange_end set_EnumReservedRange_end].

#[export] Instance EnumReservedRange_converter : ConverterOn exact_explicit EnumReservedRange_codec EnumReservedRange_toObject EnumReservedRange_fromObject EnumReservedRange_verify (λ _, True).
Proof. apply (schema_converter_on exact_explicit _ _ _ _ _ ".google.protobuf.EnumDescriptorProto.EnumReservedRange" EnumReservedRange_cfields EnumReservedRange_cfields EnumReservedRange_new EnumReservedRange_unknowns);
  [reflexivity..|solve_order|solve_names|solve_cfields|solve_untouched|solve_heights_of EnumReservedRange_fields
  |intros v [Hok _]; revert Hok; unfold schema_ok, EnumReservedRange_fields; solve_normals|intros v [Hok _] Hv; split_ok Hok; solve_knowns|solve_copy|reflexivity]. Qed.

(** ** [EnumValueDescriptorProto] *)

Definition EnumValueDescriptorProto_cfields : list (cfield EnumValueDescriptorProto) := [
    copt "name" cText EnumValueDescriptorProto_name set_EnumValueDescriptorProto_name;
    copt "number" (cInt 0) EnumValueDescriptorProto_number set_EnumValueDescriptorProto_number;
    cmsg "options" (C := EnumValueOptions_codec) EnumValueOptions_toObject EnumValueOptions_fromObject EnumValueOptions_verify (λ _, True) EnumValueDescriptorProto_options set_EnumValueDescriptorProto_options].

#[export] Instance EnumValueDescriptorProto_converter : ConverterOn exact_explicit EnumValueDescriptorProto_codec EnumValueDescriptorProto_toObject EnumValueDescriptorProto_fromObject EnumValueDescriptorProto_verify (λ _, True).
Proof. apply (schema_converter_on exact_explicit _ _ _ _ _ ".google.protobuf.EnumValueDescriptorProto" EnumValueDescriptorProto_cfields EnumValueDescriptorProto_cfields EnumValueDescriptorProto_new EnumValueDescriptorProto_unknowns);
  [reflexivity..|solve_order|solve_names|solve_cfields|solve_untouched|solve_heights_of EnumValueDescriptorProto_fields
  |intros v [Hok _]; revert Hok; unfold schema_ok, EnumValueDescriptorProto_fields; solve_normals|intros v [Hok _] Hv; split_ok Hok; solve_knowns|solve_copy|reflexivity]. Qed.

(** ** [EnumDescriptorProto] *)

Definition EnumDescriptorProto_cfields : list (cfield EnumDescriptorProto) := [
    copt "name" cText EnumDescriptorProto_name set_EnumDescriptorProto_name;
    cmsgs "value" (C := EnumValueDescriptorProto_codec) EnumValueDescriptorProto_toObject EnumValueDescriptorProto_fromObject EnumValueDescriptorProto_verify (λ _, True) EnumDescriptorProto_value set_EnumDescriptorProto_value;
    cmsg "options" (C := EnumOptions_codec) EnumOptions_toObject EnumOptions_fromObject EnumOptions_verify (λ _, True) EnumDescriptorProto_options set_EnumDescriptorProto_options;
    cmsgs "reservedRange" (C := EnumReservedRange_codec) EnumReservedRange_toObject EnumReservedRange_fromObject EnumReservedRange_verify (λ _, True) EnumDescriptorProto_reservedRange set_EnumDescriptorProto_reservedRange;
    cstrings "reservedName" EnumDescriptorProto_reservedName set_EnumDescriptorProto_reservedName].

#[export] Instance EnumDescriptorProto_converter : ConverterOn exact_explicit EnumDescriptorProto_codec EnumDescriptorProto_toObject EnumDescriptorProto_fromObject EnumDescriptorProto_verify (λ _, True).
Proof. apply (schema_converter_on exact_explicit _ _ _ _ _ ".google.protobuf.EnumDescriptorProto" EnumDescriptorProto_cfields EnumDescriptorProto_cfields EnumDescriptorProto_new EnumDescriptorProto_unknowns);
  [reflexivity..|solve_order|solve_names|solve_cfields|solve_untouched|solve_heights_of EnumDescriptorProto_fields
  |intros v [Hok _]; revert Hok; unfold schema_ok, EnumDescriptorProto_fields; solve_normals|intros v [Hok _] Hv; split_ok Hok; solve_knowns|solve_copy|reflexivity]. Qed.

(** ** [DescriptorProto] *)

Fixpoint DescriptorProto_known (m : DescriptorProto) : bool :=
  forallb FieldDescriptorProto_known (DescriptorProto_field m) && forallb DescriptorProto_known (DescriptorProto_nestedType m) && forallb FieldDescriptorProto_known (DescriptorProto_extension m) && true.

Lemma DescriptorProto_known_unfold m : DescriptorProto_known m =
  (forallb FieldDescriptorProto_known (DescriptorProto_field m) && forallb DescriptorProto_known (DescriptorProto_nestedType m) && forallb FieldDescriptorProto_known (DescriptorProto_extension m) && true).
Proof. by destruct m. Qed.

Definition DescriptorProto_cfields (C : Codec DescriptorProto_encode DescriptorProto_decode) : list (cfield DescriptorProto) := [
    copt "name" cText DescriptorProto_name set_DescriptorProto_name;
    cmsgs "field" (C := FieldDescriptorProto_codec) FieldDescriptorProto_toObject FieldDescriptorProto_fromObject FieldDescriptorProto_verify (λ v, FieldDescriptorProto_known v = true) DescriptorProto_field set_DescriptorProto_field;
    cmsgs "extension" (C := FieldDescriptorProto_codec) FieldDescriptorProto_toObject FieldDescriptorProto_fromObject FieldDescriptorProto_verify (λ v, FieldDescriptorProto_known v = true) DescriptorProto_extension set_DescriptorProto_extension;
    cmsgs "nestedType" (C := C) DescriptorProto_toObject DescriptorProto_fromObject DescriptorProto_verify (λ v, DescriptorProto_known v = true) DescriptorProto_nestedType set_DescriptorProto_nestedType;
    cmsgs "enumType" (C := EnumDescriptorProto_codec) EnumDescriptorProto_toObject EnumDescriptorProto_fromObject EnumDescriptorProto_verify (λ _, True) DescriptorProto_enumType set_DescriptorProto_enumType;
    cmsgs "extensionRange" (C := ExtensionRange_codec) ExtensionRange_toObject ExtensionRange_fromObject ExtensionRange_verify (λ _, True) DescriptorProto_extensionRange set_DescriptorProto_extensionRange;
    cmsgs "oneofDecl" (C := OneofDescriptorProto_codec) OneofDescriptorProto_toObject OneofDescriptorProto_fromObject OneofDescriptorProto_verify (λ _, True) DescriptorProto_oneofDecl set_DescriptorProto_oneofDecl;
    cmsg "options" (C := MessageOptions_codec) MessageOptions_toObject MessageOptions_fromObject MessageOptions_verify (λ _, True) DescriptorProto_options set_DescriptorProto_options;
    cmsgs "reservedRange" (C := ReservedRange_codec) ReservedRange_toObject ReservedRange_fromObject ReservedRange_verify (λ _, True) DescriptorProto_reservedRange set_DescriptorProto_reservedRange;
    cstrings "reservedName" DescriptorProto_reservedName set_DescriptorProto_reservedName].

Definition DescriptorProto_printed (C : Codec DescriptorProto_encode DescriptorProto_decode) : list (cfield DescriptorProto) := [
    copt "name" cText DescriptorProto_name set_DescriptorProto_name;
    cmsgs "field" (C := FieldDescriptorProto_codec) FieldDescriptorProto_toObject FieldDescriptorProto_fromObject FieldDescriptorProto_verify (λ v, FieldDescriptorProto_known v = true) DescriptorProto_field set_DescriptorProto_field;
    cmsgs "nestedType" (C := C) DescriptorProto_toObject DescriptorProto_fromObject DescriptorProto_verify (λ v, DescriptorProto_known v = true) DescriptorProto_nestedType set_DescriptorProto_nestedType;
    cmsgs "enumType" (C := EnumDescriptorProto_codec) EnumDescriptorProto_toObject EnumDescriptorProto_fromObject EnumDescriptorProto_verify (λ _, True) DescriptorProto_enumType set_DescriptorProto_enumType;
    cmsgs "extensionRange" (C := ExtensionRange_codec) ExtensionRange_toObject ExtensionRange_fromObject ExtensionRange_verify (λ _, True) DescriptorProto_extensionRange set_DescriptorProto_extensionRange;
    cmsgs "extension" (C := FieldDescriptorProto_codec) FieldDescriptorProto_toObject FieldDescriptorProto_fromObject FieldDescriptorProto_verify (λ v, FieldDescriptorProto_known v = true) DescriptorProto_extension set_DescriptorProto_extension;
    cmsg "options" (C := MessageOptions_codec) MessageOptions_toObject MessageOptions_fromObject MessageOptions_verify (λ _, True) DescriptorProto_options set_DescriptorProto_options;
    cmsgs "oneofDecl" (C := OneofDescriptorProto_codec) OneofDescriptorProto_toObject OneofDescriptorProto_fromObject OneofDescriptorProto_verify (λ _, True) DescriptorProto_oneofDecl set_DescriptorProto_oneofDecl;
    cmsgs "reservedRange" (C := ReservedRange_codec) ReservedRange_toObject ReservedRange_fromObject ReservedRange_verify (λ _, True) DescriptorProto_reservedRange set_DescriptorProto_reservedRange;
    cstrings "reservedName" DescriptorProto_reservedName set_DescriptorProto_reservedName].

Lemma DescriptorProto_verify_unfold x d : DescriptorProto_verify x d = DescriptorProto_verify_with DescriptorProto_verify x d.
Proof.
  apply convert_nested_unfold; [|intros rec rec' y e H; by apply verify_object_deep].
  intros rec rec' y e H. apply verify_object_ext. solve_deeper H.
Qed.

Lemma DescriptorProto_fromObject_unfold x d : DescriptorProto_fromObject x d = DescriptorProto_fromObject_with DescriptorProto_fromObject x d.
Proof.
  apply convert_nested_unfold; [|intros rec rec' y e H; by apply from_object_deep].
  intros rec rec' y e H. apply from_object_ext. solve_deeper H.
Qed.

Lemma DescriptorProto_step_converter C :
  ConverterOn exact_explicit C DescriptorProto_toObject DescriptorProto_fromObject DescriptorProto_verify (λ v, DescriptorProto_known v = true) →
  ConverterOn exact_explicit (DescriptorProto_step C) DescriptorProto_toObject DescriptorProto_fromObject DescriptorProto_verify (λ v, DescriptorProto_known v = true).
Proof.
  intros HC. apply (schema_converter_on exact_explicit _ _ _ _ _ ".google.protobuf.DescriptorProto" (DescriptorProto_cfields C) (DescriptorProto_printed C) DescriptorProto_new DescriptorProto_unknowns).
  - by intros [] o d.
  - intros obj d. by rewrite DescriptorProto_fromObject_unfold.
  - intros obj d. by rewrite DescriptorProto_verify_unfold.
  - unfold DescriptorProto_cfields, DescriptorProto_printed. solve_order.
  - solve_names.
  - solve_cfields.
  - solve_untouched.
  - solve_heights_of (DescriptorProto_fields C).
  - intros v [Hok _]. revert Hok. unfold schema_ok, DescriptorProto_fields. solve_normals.
  - intros v [Hok _] Hv. split_ok Hok. rewrite DescriptorProto_known_unfold in Hv. split_known. solve_knowns.
  - solve_copy.
  - reflexivity.
Qed.

Lemma DescriptorProto_converter_at n :
  ConverterOn exact_explicit (DescriptorProto_codec n) DescriptorProto_toObject DescriptorProto_fromObject DescriptorProto_verify (λ v, DescriptorProto_known v = true).
Proof.
  induction n as [|n IH]; [|by apply DescriptorProto_step_converter]. split; [done|by intros []| |]; intros x.
  - by rewrite !DescriptorProto_fromObject_unfold.
  - by rewrite !DescriptorProto_verify_unfold.
Qed.

#[export] Instance DescriptorProto_converter :
  ConverterOn exact_explicit (DescriptorProto_codec levels) DescriptorProto_toObject DescriptorProto_fromObject DescriptorProto_verify (λ v, DescriptorProto_known v = true) :=
  DescriptorProto_converter_at levels.

(** ** [MethodDescriptorProto] *)

Definition MethodDescriptorProto_known (m : MethodDescriptorProto) : bool :=
  known_in MethodOptions_known (MethodDescriptorProto_options m) && true.

Definition MethodDescriptorProto_cfields : list (cfield MethodDescriptorProto) := [
    copt "name" cText MethodDescriptorProto_name set_MethodDescriptorProto_name;
    copt "inputType" cText MethodDescriptorProto_inputType set_MethodDescriptorProto_inputType;
    copt "outputType" cText MethodDescriptorProto_outputType set_MethodDescriptorProto_outputType;
    cmsg "options" (C := (MethodOptions_codec levels)) MethodOptions_toObject MethodOptions_fromObject MethodOptions_verify (λ v, MethodOptions_known v = true) MethodDescriptorProto_options set_MethodDescriptorProto_options;
    copt "clientStreaming" (cFlag false) MethodDescriptorProto_clientStreaming set_MethodDescriptorProto_clientStreaming;
    copt "serverStreaming" (cFlag false) MethodDescriptorProto_serverStreaming set_MethodDescriptorProto_serverStreaming].

#[export] Instance MethodDescriptorProto_converter : ConverterOn exact_explicit (MethodDescriptorProto_codec levels) MethodDescriptorProto_toObject MethodDescriptorProto_fromObject MethodDescriptorProto_verify (λ v, MethodDescriptorProto_known v = true).
Proof. apply (schema_converter_on exact_explicit _ _ _ _ _ ".google.protobuf.MethodDescriptorProto" MethodDescriptorProto_cfields MethodDescriptorProto_cfields MethodDescriptorProto_new MethodDescriptorProto_unknowns);
  [reflexivity..|solve_order|solve_names|solve_cfields|solve_untouched|solve_heights_of (MethodDescriptorProto_fields levels)
  |intros v [Hok _]; revert Hok; unfold schema_ok, MethodDescriptorProto_fields; solve_normals|intros v [Hok _] Hv; split_ok Hok; unfold MethodDescriptorProto_known in Hv; split_known; solve_knowns|solve_copy|reflexivity]. Qed.

(** ** [ServiceDescriptorProto] *)

Definition ServiceDescriptorProto_known (m : ServiceDescriptorProto) : bool :=
  forallb MethodDescriptorProto_known (ServiceDescriptorProto_method m) && true.

Definition ServiceDescriptorProto_cfields : list (cfield ServiceDescriptorProto) := [
    copt "name" cText ServiceDescriptorProto_name set_ServiceDescriptorProto_name;
    cmsgs "method" (C := (MethodDescriptorProto_codec levels)) MethodDescriptorProto_toObject MethodDescriptorProto_fromObject MethodDescriptorProto_verify (λ v, MethodDescriptorProto_known v = true) ServiceDescriptorProto_method set_ServiceDescriptorProto_method;
    cmsg "options" (C := ServiceOptions_codec) ServiceOptions_toObject ServiceOptions_fromObject ServiceOptions_verify (λ _, True) ServiceDescriptorProto_options set_ServiceDescriptorProto_options].

#[export] Instance ServiceDescriptorProto_converter : ConverterOn exact_explicit (ServiceDescriptorProto_codec levels) ServiceDescriptorProto_toObject ServiceDescriptorProto_fromObject ServiceDescriptorProto_verify (λ v, ServiceDescriptorProto_known v = true).
Proof. apply (schema_converter_on exact_explicit _ _ _ _ _ ".google.protobuf.ServiceDescriptorProto" ServiceDescriptorProto_cfields ServiceDescriptorProto_cfields ServiceDescriptorProto_new ServiceDescriptorProto_unknowns);
  [reflexivity..|solve_order|solve_names|solve_cfields|solve_untouched|solve_heights_of (ServiceDescriptorProto_fields levels)
  |intros v [Hok _]; revert Hok; unfold schema_ok, ServiceDescriptorProto_fields; solve_normals|intros v [Hok _] Hv; split_ok Hok; unfold ServiceDescriptorProto_known in Hv; split_known; solve_knowns|solve_copy|reflexivity]. Qed.

(** ** [Location] *)

Definition Location_cfields : list (cfield Location) := [
    cints "path" Location_path set_Location_path;
    cints "span" Location_span set_Location_span;
    copt "leadingComments" cText Location_leadingComments set_Location_leadingComments;
    copt "trailingComments" cText Location_trailingComments set_Location_trailingComments;
    cstrings "leadingDetachedComments" Location_leadingDetachedComments set_Location_leadingDetachedComments].

#[export] Instance Location_converter : ConverterOn exact_explicit Location_codec Location_toObject Location_fromObject Location_verify (λ _, True).
Proof. apply (schema_converter_on exact_explicit _ _ _ _ _ ".google.protobuf.SourceCodeInfo.Location" Location_cfields Location_cfields Location_new Location_unknowns);
  [reflexivity..|solve_order|solve_names|solve_cfields|solve_untouched|solve_heights_of Location_fields
  |intros v [Hok _]; revert Hok; unfold schema_ok, Location_fields; solve_normals|intros v [Hok _] Hv; split_ok Hok; solve_knowns|solve_copy|reflexivity]. Qed.

(** ** [SourceCodeInfo] *)

Definition SourceCodeInfo_cfields : list (cfield SourceCodeInfo) := [
    cmsgs "location" (C := Location_codec) Location_toObject Location_fromObject Location_verify (λ _, True) SourceCodeInfo_location set_SourceCodeInfo_location].

#[export] Instance SourceCodeInfo_converter : ConverterOn exact_explicit SourceCodeInfo_codec SourceCodeInfo_toObject SourceCodeInfo_fromObject SourceCodeInfo_verify (λ _, True).
Proof. apply (schema_converter_on exact_explicit _ _ _ _ _ ".google.protobuf.SourceCodeInfo" SourceCodeInfo_cfields SourceCodeInfo_cfields SourceCodeInfo_new SourceCodeInfo_unknowns);
  [reflexivity..|solve_order|solve_names|solve_cfields|solve_untouched|solve_heights_of SourceCodeInfo_fields
  |intros v [Hok _]; revert Hok; unfold schema_ok, SourceCodeInfo_fields; solve_normals|intros v [Hok _] Hv; split_ok Hok; solve_knowns|solve_copy|reflexivity]. Qed.

(** ** [Annotation] *)

Definition Annotation_cfields : list (cfield Annotation) := [
    cints "path" Annotation_path set_Annotation_path;
    copt "sourceFile" cText Annotation_sourceFile set_Annotation_sourceFile;
    copt "begin" (cInt 0) Annotation_begin set_Annotation_begin;
    copt "end" (cInt 0) Annotation_end set_Annotation_end].

#[export] Instance Annotation_converter : ConverterOn exact_explicit Annotation_codec Annotation_toObject Annotation_fromObject Annotation_verify (λ _, True).
Proof. apply (schema_converter_on exact_explicit _ _ _ _ _ ".google.protobuf.GeneratedCodeInfo.Annotation" Annotation_cfields Annotation_cfields Annotation_new Annotation_unknowns);
  [reflexivity..|solve_order|solve_names|solve_cfields|solve_untouched|solve_heights_of Annotation_fields
  |intros v [Hok _]; revert Hok; unfold schema_ok, Annotation_fields; solve_normals|intros v [Hok _] Hv; split_ok Hok; solve_knowns|solve_copy|reflexivity]. Qed.

(** ** [GeneratedCodeInfo] *)

Definition GeneratedCodeInfo_cfields : list (cfield GeneratedCodeInfo) := [
    cmsgs "annotation" (C := Annotation_codec) Annotation_toObject Annotation_fromObject Annotation_verify (λ _, True) GeneratedCodeInfo_annotation set_GeneratedCodeInfo_annotation].

#[export] Instance GeneratedCodeInfo_converter : ConverterOn exact_explicit GeneratedCodeInfo_codec GeneratedCodeInfo_toObject GeneratedCodeInfo_fromObject GeneratedCodeInfo_verify (λ _, True).
Proof. apply (schema_converter_on exact_explicit _ _ _ _ _ ".google.protobuf.GeneratedCodeInfo" GeneratedCodeInfo_cfields GeneratedCodeInfo_cfields GeneratedCodeInfo_new GeneratedCodeInfo_unknowns);
  [reflexivity..|solve_order|solve_names|solve_cfields|solve_untouched|solve_heights_of GeneratedCodeInfo_fields
  |intros v [Hok _]; revert Hok; unfold schema_ok, GeneratedCodeInfo_fields; solve_normals|intros v [Hok _] Hv; split_ok Hok; solve_knowns|solve_copy|reflexivity]. Qed.

(** ** [FileDescriptorProto] *)

Definition FileDescriptorProto_known (m : FileDescriptorProto) : bool :=
  forallb DescriptorProto_known (FileDescriptorProto_messageType m) && forallb ServiceDescriptorProto_known (FileDescriptorProto_service m) && forallb FieldDescriptorProto_known (FileDescriptorProto_extension m) && known_in FileOptions_known (FileDescriptorProto_options m) && true.

Definition FileDescriptorProto_cfields : list (cfield FileDescriptorProto) := [
    copt "name" cText FileDescriptorProto_name set_FileDescriptorProto_name;
    copt "package" cText FileDescriptorProto_package set_FileDescriptorProto_package;
    cstrings "dependency" FileDescriptorProto_dependency set_FileDescriptorProto_dependency;
    cints "publicDependency" FileDescriptorProto_publicDependency set_FileDescriptorProto_publicDependency;
    cints "weakDependency" FileDescriptorProto_weakDependency set_FileDescriptorProto_weakDependency;
    cmsgs "messageType" (C := (DescriptorProto_codec levels)) DescriptorProto_toObject DescriptorProto_fromObject DescriptorProto_verify (λ v, DescriptorProto_known v = true) FileDescriptorProto_messageType set_FileDescriptorProto_messageType;
    cmsgs "enumType" (C := EnumDescriptorProto_codec) EnumDescriptorProto_toObject EnumDescriptorProto_fromObject EnumDescriptorProto_verify (λ _, True) FileDescriptorProto_enumType set_FileDescriptorProto_enumType;
    cmsgs "service" (C := (ServiceDescriptorProto_codec levels)) ServiceDescriptorProto_toObject ServiceDescriptorProto_fromObject ServiceDescriptorProto_verify (λ v, ServiceDescriptorProto_known v = true) FileDescriptorProto_service set_FileDescriptorProto_service;
    cmsgs "extension" (C := FieldDescriptorProto_codec) FieldDescriptorProto_toObject FieldDescriptorProto_fromObject FieldDescriptorProto_verify (λ v, FieldDescriptorProto_known v = true) FileDescriptorProto_extension set_FileDescriptorProto_extension;
    cmsg "options" (C := FileOptions_codec) FileOptions_toObject FileOptions_fromObject FileOptions_verify (λ v, FileOptions_known v = true) FileDescriptorProto_options set_FileDescriptorProto_options;
    cmsg "sourceCodeInfo" (C := SourceCodeInfo_codec) SourceCodeInfo_toObject SourceCodeInfo_fromObject SourceCodeInfo_verify (λ _, True) FileDescriptorProto_sourceCodeInfo set_FileDescriptorProto_sourceCodeInfo;
    copt "syntax" cText FileDescriptorProto_syntax set_FileDescriptorProto_syntax].

Definition FileDescriptorProto_printed : list (cfield FileDescriptorProto) := [
    copt "name" cText FileDescriptorProto_name set_FileDescriptorProto_name;
    copt "package" cText FileDescriptorProto_package set_FileDescriptorProto_package;
    cstrings "dependency" FileDescriptorProto_dependency set_FileDescriptorProto_dependency;
    cmsgs "messageType" (C := (DescriptorProto_codec levels)) DescriptorProto_toObject DescriptorProto_fromObject DescriptorProto_verify (λ v, DescriptorProto_known v = true) FileDescriptorProto_messageType set_FileDescriptorProto_messageType;
    cmsgs "enumType" (C := EnumDescriptorProto_codec) EnumDescriptorProto_toObject EnumDescriptorProto_fromObject EnumDescriptorProto_verify (λ _, True) FileDescriptorProto_enumType set_FileDescriptorProto_enumType;
    cmsgs "service" (C := (ServiceDescriptorProto_codec levels)) ServiceDescriptorProto_toObject ServiceDescriptorProto_fromObject ServiceDescriptorProto_verify (λ v, ServiceDescriptorProto_known v = true) FileDescriptorProto_service set_FileDescriptorProto_service;
    cmsgs "extension" (C := FieldDescriptorProto_codec) FieldDescriptorProto_toObject FieldDescriptorProto_fromObject FieldDescriptorProto_verify (λ v, FieldDescriptorProto_known v = true) FileDescriptorProto_extension set_FileDescriptorProto_extension;
    cmsg "options" (C := FileOptions_codec) FileOptions_toObject FileOptions_fromObject FileOptions_verify (λ v, FileOptions_known v = true) FileDescriptorProto_options set_FileDescriptorProto_options;
    cmsg "sourceCodeInfo" (C := SourceCodeInfo_codec) SourceCodeInfo_toObject SourceCodeInfo_fromObject SourceCodeInfo_verify (λ _, True) FileDescriptorProto_sourceCodeInfo set_FileDescriptorProto_sourceCodeInfo;
    cints "publicDependency" FileDescriptorProto_publicDependency set_FileDescriptorProto_publicDependency;
    cints "weakDependency" FileDescriptorProto_weakDependency set_FileDescriptorProto_weakDependency;
    copt "syntax" cText FileDescriptorProto_syntax set_FileDescriptorProto_syntax].

#[export] Instance FileDescriptorProto_converter : ConverterOn exact_explicit (FileDescriptorProto_codec levels) FileDescriptorProto_toObject FileDescriptorProto_fromObject FileDescriptorProto_verify (λ v, FileDescriptorProto_known v = true).
Proof. apply (schema_converter_on exact_explicit _ _ _ _ _ ".google.protobuf.FileDescriptorProto" FileDescriptorProto_cfields FileDescriptorProto_printed FileDescriptorProto_new FileDescriptorProto_unknowns);
  [reflexivity..|solve_order|solve_names|solve_cfields|solve_untouched|solve_heights_of (FileDescriptorProto_fields levels)
  |intros v [Hok _]; revert Hok; unfold schema_ok, FileDescriptorProto_fields; solve_normals|intros v [Hok _] Hv; split_ok Hok; unfold FileDescriptorProto_known in Hv; split_known; solve_knowns|solve_copy|reflexivity]. Qed.

(** ** [FileDescriptorSet] *)

Definition FileDescriptorSet_known (m : FileDescriptorSet) : bool :=
  forallb FileDescriptorProto_known (FileDescriptorSet_file m) && true.

Definition FileDescriptorSet_cfields : list (cfield FileDescriptorSet) := [
    cmsgs "file" (C := (FileDescriptorProto_codec levels)) FileDescriptorProto_toObject FileDescriptorProto_fromObject FileDescriptorProto_verify (λ v, FileDescriptorProto_known v = true) FileDescriptorSet_file set_FileDescriptorSet_file].

#[export] Instance FileDescriptorSet_converter : ConverterOn exact_explicit (FileDescriptorSet_codec levels) FileDescriptorSet_toObject FileDescriptorSet_fromObject FileDescriptorSet_verify (λ v, FileDescriptorSet_known v = true).
Proof. apply (schema_converter_on exact_explicit _ _ _ _ _ ".google.protobuf.FileDescriptorSet" FileDescriptorSet_cfields FileDescriptorSet_cfields FileDescriptorSet_new FileDescriptorSet_unknowns);
  [reflexivity..|solve_order|solve_names|solve_cfields|solve_untouched|solve_heights_of (FileDescriptorSet_fields levels)
  |intros v [Hok _]; revert Hok; unfold schema_ok, FileDescriptorSet_fields; solve_normals|intros v [Hok _] Hv; split_ok Hok; unfold FileDescriptorSet_known in Hv; split_known; solve_knowns|solve_copy|reflexivity]. Qed.

End Converters.
