(* ===== verification/DescObjects.v ===== *)
(** * The descriptor classes through plain objects

    [all_objects n] lists the descriptor classes of [DescClasses] with their
    conversions, for messages with at most [n] levels of rules and of message
    descriptors.  What [toObject] prints of a message that arrived,
    [fromObject] reads back and [verify] accepts, for every member; so does the
    JSON form.  [verify] of a rule admits one pattern. *)

From S2P Require Import Prelude JsNum JsMap ProtoRuntime ProtoLaws ProtoWire ProtoObjects ProtoConvertLaws ProtoSchema ProtoSchemaConvert ProtoConvertProps DescHttp DescOptions DescProtos DescCodecs DescClasses DescConvert DescConvertOptions DescConvertProtos DescRuleObjects DescConverters.
From Stdlib Require Floats.SpecFloat.
Open Scope Z_scope.

Section Classes.
Context `{RL : RuntimeLaws} `{CL : ConversionLaws}.

(** ** The classes *)

Record descriptor_objects := DescriptorObjects {
  do_class : descriptor_class;
  do_toObject : dc_type do_class → Options → option Z → res jsval;
  do_fromObject : jsval → option Z → res (dc_type do_class);
  do_verify : jsval → option Z → option string;
  do_toJSON : dc_type do_class → res jsval;
  do_known : dc_type do_class → Prop;
  do_converter : ConverterOn exact_explicit (dc_codec do_class) do_toObject do_fromObject do_verify do_known;
  do_json : ∀ v, do_toJSON v = do_toObject v toJSONOptions None;
}.

(** What reads back under more options reads back under fewer. *)
Lemma converter_explicit {V} {enc : V → option Writer → option Z → res Writer} {dec : decoder V} (C : Codec enc dec)
    toObject fromObject verify known :
  ConverterOn exact_options C toObject fromObject verify known → ConverterOn exact_explicit C toObject fromObject verify known.
Proof.
  intros H. split; [|apply conv_to_default|apply conv_from_default|apply conv_verify_default].
  intros v o d Hv Hd. destruct (conv_ok v o d Hv Hd) as (l & H1 & H2 & H3). exists l. split; [done|]. split; [|done].
  intros [Ho _]. by apply H2.
Qed.

Context (levels : nat).

Definition CustomHttpPattern_objects : descriptor_objects :=
  DescriptorObjects CustomHttpPattern_class CustomHttpPattern_toObject CustomHttpPattern_fromObject CustomHttpPattern_verify CustomHttpPattern_toJSON (λ _, True) (converter_explicit _ _ _ _ _ CustomHttpPattern_converter) (λ _, eq_refl).
Definition HttpRule_objects : descriptor_objects :=
  DescriptorObjects (HttpRule_class levels) HttpRule_toObject HttpRule_fromObject HttpRule_verify HttpRule_toJSON (λ _, True) (converter_explicit _ _ _ _ _ (HttpRule_converter levels)) (λ _, eq_refl).
Definition Http_objects : descriptor_objects :=
  DescriptorObjects (Http_class levels) Http_toObject Http_fromObject Http_verify Http_toJSON (λ _, True) (converter_explicit _ _ _ _ _ (Http_converter levels)) (λ _, eq_refl).
Definition NamePart_objects : descriptor_objects :=
  DescriptorObjects NamePart_class NamePart_toObject NamePart_fromObject NamePart_verify NamePart_toJSON (λ _, True) NamePart_converter (λ _, eq_refl).
Definition UninterpretedOption_objects : descriptor_objects :=
  DescriptorObjects UninterpretedOption_class UninterpretedOption_toObject UninterpretedOption_fromObject UninterpretedOption_verify UninterpretedOption_toJSON (λ _, True) UninterpretedOption_converter (λ _, eq_refl).
Definition ExtensionRangeOptions_objects : descriptor_objects :=
  DescriptorObjects ExtensionRangeOptions_class ExtensionRangeOptions_toObject ExtensionRangeOptions_fromObject ExtensionRangeOptions_verify ExtensionRangeOptions_toJSON (λ _, True) ExtensionRangeOptions_converter (λ _, eq_refl).
Definition FileOptions_objects : descriptor_objects :=
  DescriptorObjects FileOptions_class FileOptions_toObject FileOptions_fromObject FileOptions_verify FileOptions_toJSON (λ v, FileOptions_known v = true) FileOptions_converter (λ _, eq_refl).
Definition MessageOptions_objects : descriptor_objects :=
  DescriptorObjects MessageOptions_class MessageOptions_toObject MessageOptions_fromObject MessageOptions_verify MessageOptions_toJSON (λ _, True) MessageOptions_converter (λ _, eq_refl).
Definition FieldOptions_objects : descriptor_objects :=
  DescriptorObjects FieldOptions_class FieldOptions_toObject FieldOptions_fromObject FieldOptions_verify FieldOptions_toJSON (λ v, FieldOptions_known v = true) FieldOptions_converter (λ _, eq_refl).
Definition OneofOptions_objects : descriptor_objects :=
  DescriptorObjects OneofOptions_class OneofOptions_toObject OneofOptions_fromObject OneofOptions_verify OneofOptions_toJSON (λ _, True) OneofOptions_converter (λ _, eq_refl).
Definition EnumOptions_objects : descriptor_objects :=
  DescriptorObjects EnumOptions_class EnumOptions_toObject EnumOptions_fromObject EnumOptions_verify EnumOptions_toJSON (λ _, True) EnumOptions_converter (λ _, eq_refl).
Definition EnumValueOptions_objects : descriptor_objects :=
  DescriptorObjects EnumValueOptions_class EnumValueOptions_toObject EnumValueOptions_fromObject EnumValueOptions_verify EnumValueOptions_toJSON (λ _, True) EnumValueOptions_converter (λ _, eq_refl).
Definition ServiceOptions_objects : descriptor_objects :=
  DescriptorObjects ServiceOptions_class ServiceOptions_toObject ServiceOptions_fromObject ServiceOptions_verify ServiceOptions_toJSON (λ _, True) ServiceOptions_converter (λ _, eq_refl).
Definition MethodOptions_objects : descriptor_objects :=
  DescriptorObjects (MethodOptions_class levels) MethodOptions_toObject MethodOptions_fromObject MethodOptions_verify MethodOptions_toJSON (λ v, MethodOptions_known v = true) (MethodOptions_converter levels) (λ _, eq_refl).
Definition ExtensionRange_objects : descriptor_objects :=
  DescriptorObjects ExtensionRange_class ExtensionRange_toObject ExtensionRange_fromObject ExtensionRange_verify ExtensionRange_toJSON (λ _, True) ExtensionRange_converter (λ _, eq_refl).
Definition ReservedRange_objects : descriptor_objects :=
  DescriptorObjects ReservedRange_class ReservedRange_toObject ReservedRange_fromObject ReservedRange_verify ReservedRange_toJSON (λ _, True) ReservedRange_converter (λ _, eq_refl).
Definition FieldDescriptorProto_objects : descriptor_objects :=
  DescriptorObjects FieldDescriptorProto_class FieldDescriptorProto_toObject FieldDescriptorProto_fromObject FieldDescriptorProto_verify FieldDescriptorProto_toJSON (λ v, FieldDescriptorProto_known v = true) FieldDescriptorProto_converter (λ _, eq_refl).
Definition OneofDescriptorProto_objects : descriptor_objects :=
  DescriptorObjects OneofDescriptorProto_class OneofDescriptorProto_toObject OneofDescriptorProto_fromObject OneofDescriptorProto_verify OneofDescriptorProto_toJSON (λ _, True) OneofDescriptorProto_converter (λ _, eq_refl).
Definition EnumReservedRange_objects : descriptor_objects :=
  DescriptorObjects EnumReservedRange_class EnumReservedRange_toObject EnumReservedRange_fromObject EnumReservedRange_verify EnumReservedRange_toJSON (λ _, True) EnumReservedRange_converter (λ _, eq_refl).
Definition EnumValueDescriptorProto_objects : descriptor_objects :=
  DescriptorObjects EnumValueDescriptorProto_class EnumValueDescriptorProto_toObject EnumValueDescriptorProto_fromObject EnumValueDescriptorProto_verify EnumValueDescriptorProto_toJSON (λ _, True) EnumValueDescriptorProto_converter (λ _, eq_refl).
Definition EnumDescriptorProto_objects : descriptor_objects :=
  DescriptorObjects EnumDescriptorProto_class EnumDescriptorProto_toObject EnumDescriptorProto_fromObject EnumDescriptorProto_verify EnumDescriptorProto_toJSON (λ _, True) EnumDescriptorProto_converter (λ _, eq_refl).
Definition DescriptorProto_objects : descriptor_objects :=
  DescriptorObjects (DescriptorProto_class levels) DescriptorProto_toObject DescriptorProto_fromObject DescriptorProto_verify DescriptorProto_toJSON (λ v, DescriptorProto_known v = true) (DescriptorProto_converter levels) (λ _, eq_refl).
Definition MethodDescriptorProto_objects : descriptor_objects :=
  DescriptorObjects (MethodDescriptorProto_class levels) MethodDescriptorProto_toObject MethodDescriptorProto_fromObject MethodDescriptorProto_verify MethodDescriptorProto_toJSON (λ v, MethodDescriptorProto_known v = true) (MethodDescriptorProto_converter levels) (λ _, eq_refl).
Definition ServiceDescriptorProto_objects : descriptor_objects :=
  DescriptorObjects (ServiceDescriptorProto_class levels) ServiceDescriptorProto_toObject ServiceDescriptorProto_fromObject ServiceDescriptorProto_verify ServiceDescriptorProto_toJSON (λ v, ServiceDescriptorProto_known v = true) (ServiceDescriptorProto_converter levels) (λ _, eq_refl).
Definition Location_objects : descriptor_objects :=
  DescriptorObjects Location_class Location_toObject Location_fromObject Location_verify Location_toJSON (λ _, True) Location_converter (λ _, eq_refl).
Definition SourceCodeInfo_objects : descriptor_objects :=
  DescriptorObjects SourceCodeInfo_class SourceCodeInfo_toObject SourceCodeInfo_fromObject SourceCodeInfo_verify SourceCodeInfo_toJSON (λ _, True) SourceCodeInfo_converter (λ _, eq_refl).
Definition Annotation_objects : descriptor_objects :=
  DescriptorObjects Annotation_class Annotation_toObject Annotation_fromObject Annotation_verify Annotation_toJSON (λ _, True) Annotation_converter (λ _, eq_refl).
Definition GeneratedCodeInfo_objects : descriptor_objects :=
  DescriptorObjects GeneratedCodeInfo_class GeneratedCodeInfo_toObject GeneratedCodeInfo_fromObject GeneratedCodeInfo_verify GeneratedCodeInfo_toJSON (λ _, True) GeneratedCodeInfo_converter (λ _, eq_refl).
Definition FileDescriptorProto_objects : descriptor_objects :=
  DescriptorObjects (FileDescriptorProto_class levels) FileDescriptorProto_toObject FileDescriptorProto_fromObject FileDescriptorProto_verify FileDescriptorProto_toJSON (λ v, FileDescriptorProto_known v = true) (FileDescriptorProto_converter levels) (λ _, eq_refl).
Definition FileDescriptorSet_objects : descriptor_objects :=
  DescriptorObjects (FileDescriptorSet_class levels) FileDescriptorSet_toObject FileDescriptorSet_fromObject FileDescriptorSet_verify FileDescriptorSet_toJSON (λ v, FileDescriptorSet_known v = true) (FileDescriptorSet_converter levels) (λ _, eq_refl).

Definition all_objects : list descriptor_objects :=
  [CustomHttpPattern_objects; HttpRule_objects; Http_objects; NamePart_objects; UninterpretedOption_objects;
   ExtensionRangeOptions_objects; FileOptions_objects; MessageOptions_objects; FieldOptions_objects;
   OneofOptions_objects; EnumOptions_objects; EnumValueOptions_objects; ServiceOptions_objects;
   MethodOptions_objects; ExtensionRange_objects; ReservedRange_objects; FieldDescriptorProto_objects;
   OneofDescriptorProto_objects; EnumReservedRange_objects; EnumValueDescriptorProto_objects;
   EnumDescriptorProto_objects; DescriptorProto_objects; MethodDescriptorProto_objects;
   ServiceDescriptorProto_objects; Location_objects; SourceCodeInfo_objects; Annotation_objects;
   GeneratedCodeInfo_objects; FileDescriptorProto_objects; FileDescriptorSet_objects].

(** They are the descriptor classes. *)
Lemma objects_complete : do_class <$> all_objects = descriptor_classes levels.
Proof. reflexivity. Qed.

Lemma objects_class c : c ∈ all_objects → do_class c ∈ descriptor_classes levels.
Proof. rewrite <-objects_complete. apply list_elem_of_fmap_2. Qed.

Lemma objects_convert c v o : room levels → c ∈ all_objects → dc_valid (do_class c) v →
  ∃ x, do_toObject c (dc_received (do_class c) v) o None = Ok x ∧
    (exact_explicit o → do_fromObject c x None = Ok (dc_received (do_class c) v)) ∧
    (typed_options o → do_known c v → do_verify c x None = None).
Proof.
  intros Hroom Hc Hv. destruct (room_height levels _ Hroom (objects_class c Hc)) as [Hh _]. pose proof (do_converter c) as H.
  destruct (conv_ok (ConverterOn := H) v o 0 Hv ltac:(lia)) as (l & H1 & H2 & H3).
  exists (VObj l). rewrite (conv_to_default (ConverterOn := H)), (conv_from_default (ConverterOn := H)), (conv_verify_default (ConverterOn := H)).
  done.
Qed.

(** C13: every descriptor class survives plain objects, the classes that contain
    themselves included: what [toObject] prints of a message that arrived,
    [fromObject] reads back under every option that keeps 64-bit values exact
    and prints no defaults, and [verify] accepts under the options that keep
    types when the enumeration values are known. *)
Theorem descriptor_objects_convert c v o : room levels → c ∈ all_objects → dc_valid (do_class c) v →
  ∃ x, do_toObject c (dc_received (do_class c) v) o None = Ok x ∧
    (exact_explicit o → do_fromObject c x None = Ok (dc_received (do_class c) v)) ∧
    (typed_options o → do_known c v → do_verify c x None = None).
Proof. apply objects_convert. Qed.

(** The JSON form of a message is read back too, where 64-bit integers are
    objects of long.js: doubles that are not finite travel as strings. *)
Theorem descriptor_json c v : room levels → c ∈ all_objects → dc_valid (do_class c) v → has_Long = true →
  ∃ x, do_toJSON c (dc_received (do_class c) v) = Ok x ∧ do_fromObject c x None = Ok (dc_received (do_class c) v).
Proof.
  intros Hroom Hc Hv HL. rewrite do_json. destruct (objects_convert c v toJSONOptions Hroom Hc Hv) as (x & H1 & H2 & _).
  exists x. split; [done|]. apply H2. split; [by right|done].
Qed.
End Classes.

(** ** One pattern *)
Section Pattern.
Context `{RT : Runtime} `{CV : Conversions}.

Lemma member_accepted l g f t seen rest : check_member (VObj l) g f t seen rest = None →
  if bool_decide (is_Some (prop (VObj l) f)) then seen = false ∧ rest true = None else rest seen = None.
Proof.
  unfold check_member. destruct (prop (VObj l) f) as [v|]; simpl; [|done]. destruct seen; [done|]. by destruct (t v).
Qed.

Lemma check_accepted l f t rest : check (VObj l) f t rest = None → rest = None.
Proof. unfold check. destruct (prop _ f); [|done]. by destruct (t _). Qed.

(** [verify] admits at most one pattern in a rule. *)
Theorem rule_verify_pattern l d : HttpRule_verify (VObj l) d = None →
  (length (List.filter (λ n, bool_decide (is_Some (prop (VObj l) n))) HttpRule_oneOfFields) ≤ 1)%nat.
Proof.
  rewrite HttpRule_verify_unfold. unfold HttpRule_verify_with, verify_object, HttpRule_oneOfFields. cbn [negb].
  destruct (_ <? _); [done|]. intros H%check_accepted. cbn [List.filter].
  repeat (apply member_accepted in H; case_bool_decide; [destruct H as [? H]; try discriminate|]); simpl; lia.
Qed.
End Pattern.

(** ** The theorems at concrete messages *)
Section Example.
#[local] Existing Instance wire.
#[local] Existing Instance wire_laws.
#[local] Existing Instance plain.
#[local] Existing Instance plain_laws.

Lemma ex_file_objects : FileDescriptorProto_objects 2 ∈ all_objects 2.
Proof. apply (list_elem_of_lookup_2 _ 28%nat). reflexivity. Qed.

Lemma descriptor_objects_convert_witness : let c := FileDescriptorProto_objects 2 in ∃ x,
  do_toObject c (dc_received (do_class c) ex_file) no_options None = Ok x ∧
  do_fromObject c x None = Ok (dc_received (do_class c) ex_file) ∧ do_verify c x None = None.
Proof.
  intros c. destruct (descriptor_objects_convert 2 (FileDescriptorProto_objects 2) ex_file no_options ex_room ex_file_objects ex_file_valid)
    as (x & H1 & H2 & H3).
  exists x. split; [exact H1|]. split.
  - apply H2. split; [left|]; reflexivity.
  - apply H3; [|vm_compute; reflexivity]. split; [reflexivity|]. split; [reflexivity|left; reflexivity].
Defined.

Lemma descriptor_json_witness : let c := FileDescriptorProto_objects 2 in ∃ x,
  do_toJSON c (dc_received (do_class c) ex_file) = Ok x ∧ do_fromObject c x None = Ok (dc_received (do_class c) ex_file).
Proof. intros c. apply (descriptor_json 2 (FileDescriptorProto_objects 2) ex_file ex_room ex_file_objects ex_file_valid). reflexivity. Defined.

(** As JSON: the fraction stays a number, an infinity would be a string. *)
Example ex_option_json : UninterpretedOption_toJSON (set_UninterpretedOption_name [] ex_option) =
  Ok (VObj [("negativeIntValue", VStr "-7"); ("doubleValue", VDouble ex_half); ("stringValue", VStr "")]%string).
Proof. vm_compute. reflexivity. Qed.

Example ex_infinity_json :
  UninterpretedOption_toJSON (set_UninterpretedOption_doubleValue (Some (SpecFloat.S754_infinity true)) UninterpretedOption_new) =
  Ok (VObj [("doubleValue", VStr "-Infinity")]%string).
Proof. vm_compute. reflexivity. Qed.

(** Why no defaults may be printed: a range without bounds comes back with
    bounds. *)
Example printed_defaults_stay :
  (let! x := EnumReservedRange_toObject EnumReservedRange_new (mkOptions LongsKeep false BytesKeep true false false false) None in
   EnumReservedRange_fromObject x None) = Ok (mkEnumReservedRange (Some 0) (Some 0) None).
Proof. vm_compute. reflexivity. Qed.

(** A rule object with two patterns is refused. *)
Example two_patterns :
  HttpRule_verify (VObj [("get", VStr "/a"); ("post", VStr "/b")]%string) None = Some "pattern: multiple values"%string.
Proof. vm_compute. reflexivity. Qed.

Lemma rule_verify_pattern_witness :
  HttpRule_verify (VObj [("post", VStr "/b"); ("additionalBindings", VArr [VObj [("get", VStr "/a")]])]%string) None = None ∧
  (length (List.filter (λ n, bool_decide (is_Some (prop (VObj [("post", VStr "/b"); ("additionalBindings", VArr [VObj [("get", VStr "/a")]])]%string) n)))
    HttpRule_oneOfFields) ≤ 1)%nat.
Proof.
  assert (H : HttpRule_verify (VObj [("post", VStr "/b"); ("additionalBindings", VArr [VObj [("get", VStr "/a")]])]%string) None = None)
    by (vm_compute; reflexivity).
  split; [exact H|]. exact (rule_verify_pattern _ _ H).
Defined.
End Example.
