(* ===== verification/Mentions.v ===== *)
(** * Group mentions ([web/app/lib/mentions.ts])

    Text is a list of UTF-16 code units.  The regular expressions of the
    source are written as scanners: greedy classes as the longest run, the
    global searches as loops over [lastIndex].  [toLowerCase] of the language
    depends on the Unicode tables and is a variable; every theorem holds for
    any such function.  [tokens] is the reference: the names that follow an
    "@" at a word boundary. *)

From S2P Require Import Prelude JsNum JsMap.
Open Scope Z_scope.

Module Mentions.

Abbreviation text := (list Z).

(** ["@"]. *)
Definition at_sign : Z := 64.

(** [\s]. *)
Definition is_space (c : Z) : bool :=
  (9 <=? c) && (c <=? 13) || (c =? 32) || (c =? 160) || (c =? 5760) || (8192 <=? c) && (c <=? 8202)
  || (c =? 8232) || (c =? 8233) || (c =? 8239) || (c =? 8287) || (c =? 12288) || (c =? 65279).

(** [[^\s@]]. *)
Definition is_name (c : Z) : bool := negb (is_space c) && negb (c =? at_sign).

(** The longest prefix of [[^\s@]], and the rest. *)
Fixpoint span_name (l : text) : text * text :=
  match l with
  | c :: l' => if is_name c then let '(n, r) := span_name l' in (c :: n, r) else ([], l)
  | [] => ([], [])
  end.

(** [@([^\s@]+)] at the start of [l]: the name and what follows. *)
Definition mention_at (l : text) : option (text * text) :=
  match l with
  | c :: l' =>
      if c =? at_sign then
        match span_name l' with ([], _) => None | (n, r) => Some (n, r) end
      else None
  | [] => None
  end.

(** [interface MentionMember]. *)
Record MentionMember := mkMember { mm_userId : jsnum; mm_username : text }.

(** [interface TextSegment]. *)
Record TextSegment := mkSegment { seg_text : text; mentionedUserId : option jsnum }.

(** [activeMentionQuery]: the run of name characters before the caret, when an
    "@" at a word boundary precedes it. *)
Definition activeMentionQuery (t : text) (caret : nat) : option (text * nat) :=
  let before := take caret t in
  let '(q, rest) := span_name (reverse before) in
  match rest with
  | c :: rest' =>
      if (c =? at_sign) && match rest' with [] => true | p :: _ => is_space p end
      then Some (reverse q, caret - length q - 1)%nat else None
  | [] => None
  end.

Section Lower.
Context (toLowerCase : text → text).

(** [filterMembers]. *)
Fixpoint startsWith (q s : text) : bool :=
  match q, s with
  | [], _ => true
  | a :: q', b :: s' => (a =? b) && startsWith q' s'
  | _, [] => false
  end.

Definition filterMembers (members : list MentionMember) (query : text) : list MentionMember :=
  let q := toLowerCase query in
  take 6 (filter (λ m, startsWith q (toLowerCase (mm_username m)) = true) members).

(** [new Map(members.map((m) => [m.username.toLowerCase(), m.userId]))]. *)
Definition byName (members : list MentionMember) : list (text * jsnum) :=
  foldl (λ map m, map_set (toLowerCase (mm_username m)) (mm_userId m) map) [] members.

(** [re.exec(text)] for [/(?:^|\s)@([^\s@]+)/g] at the suffix [l]; [start] says
    that the suffix is the whole text. *)
Fixpoint exec_mention (start : bool) (l : text) : option (text * text) :=
  match (if start then mention_at l else None) with
  | Some x => Some x
  | None =>
      match l with
      | [] => None
      | c :: l' =>
          match (if is_space c then mention_at l' else None) with
          | Some x => Some x
          | None => exec_mention false l'
          end
      end
  end.

Fixpoint extract_loop (fuel : nat) (names : list (text * jsnum)) (start : bool) (l : text) (ids : list jsnum) : res (list jsnum) :=
  match exec_mention start l with
  | None => Ok ids
  | Some (n, r) =>
      match fuel with
      | O => NoFuel
      | S f => extract_loop f names false r
                 (match map_get (toLowerCase n) names with Some id => set_add id ids | None => ids end)
      end
  end.

(** [extractMentionIds]: every match takes at least two code units. *)
Definition extractMentionIds (t : text) (members : list MentionMember) : res (list jsnum) :=
  match members with
  | [] => Ok []
  | _ => extract_loop (length t) (byName members) true t []
  end.

(** [re.exec(text)] for [/@([^\s@]+)/g] from [lastIndex = idx], where [l] is
    the text from there: the index of the match and the name. *)
Fixpoint exec_name (l : text) (idx : nat) : option (nat * text) :=
  match mention_at l with
  | Some (n, _) => Some (idx, n)
  | None => match l with [] => None | _ :: l' => exec_name l' (S idx) end
  end.

(** [text.slice(from, to)] for [from <= to]. *)
Definition slice (t : text) (from to_ : nat) : text := take (to_ - from) (drop from t).

(** [m.index > 0 && !/\s/.test(text[m.index - 1])]. *)
Definition not_boundary (t : text) (i : nat) : bool :=
  match i with
  | O => false
  | S j => match t !! j with Some c => negb (is_space c) | None => true end
  end.

Fixpoint segment_loop (fuel : nat) (names : list (text * jsnum)) (t : text) (lst lastIndex : nat)
    (segs : list TextSegment) : res (list TextSegment * nat) :=
  match exec_name (drop lastIndex t) lastIndex with
  | None => Ok (segs, lst)
  | Some (i, n) =>
      match fuel with
      | O => NoFuel
      | S f =>
          let next := (i + 1 + length n)%nat in
          if not_boundary t i then segment_loop f names t lst next segs
          else match map_get (toLowerCase n) names with
               | None => segment_loop f names t lst next segs
               | Some id =>
                   let segs := if (lst <? i)%nat then segs ++ [mkSegment (slice t lst i) None] else segs in
                   segment_loop f names t next next (segs ++ [mkSegment (at_sign :: n) (Some id)])
               end
      end
  end.

(** [segmentMentions]. *)
Definition segmentMentions (t : text) (members : list MentionMember) : res (list TextSegment) :=
  match members with
  | [] => Ok [mkSegment t None]
  | _ =>
      let! '(segs, lst) := segment_loop (length t) (byName members) t 0 0 [] in
      let segs := if (lst <? length t)%nat then segs ++ [mkSegment (drop lst t) None] else segs in
      Ok (match segs with [] => [mkSegment t None] | _ => segs end)
  end.

(** ** The reference: names after an "@" at a word boundary *)

(** [b] says whether the position before [l] is a boundary. *)
Fixpoint tokens (b : bool) (l : text) : list text :=
  match l with
  | [] => []
  | c :: l' =>
      (if b then match mention_at l with Some (n, _) => [n] | None => [] end else [])
      ++ tokens (is_space c) l'
  end.

(** Declaratively: [name] is a maximal run of name characters after an "@" that
    starts the text or follows white space. *)
Definition mentions (t name : text) : Prop :=
  ∃ pre post, t = pre ++ at_sign :: name ++ post ∧
    match last pre with Some c => is_space c = true | None => True end ∧
    name ≠ [] ∧ Forall (λ c, is_name c = true) name ∧
    match post with c :: _ => is_name c = false | [] => True end.

Lemma span_name_spec l n r :
  span_name l = (n, r) ↔
  l = n ++ r ∧ Forall (λ c, is_name c = true) n ∧ match r with c :: _ => is_name c = false | [] => True end.
Proof.
  revert n r. induction l as [|c l IH]; intros n r; simpl.
  - split; [intros [= <- <-]; done|]. intros (H & _ & _). by destruct n, r.
  - destruct (is_name c) eqn:Hc.
    + destruct (span_name l) as [n' r']. destruct (IH n' r') as [(Hl & Hn & Hr) _]; [done|].
      split.
      * intros [= <- <-]. subst. split; [done|]. split; [by constructor|done].
      * intros (Heq & Hn' & Hr'). destruct n as [|c' n]; simpl in Heq.
        { subst r. by rewrite Hc in Hr'. }
        injection Heq as <- Heq. apply Forall_cons in Hn' as [_ Hn'].
        destruct (IH n r) as [_ H]. rewrite H in * by done. by injection (H (conj Heq (conj Hn' Hr'))) as -> ->.
    + split; [intros [= <- <-]; done|]. intros (Heq & Hn' & Hr'). destruct n as [|c' n]; simpl in *; [by subst|].
      injection Heq as <- _. apply Forall_cons in Hn' as [? _]. congruence.
Qed.

Lemma mention_at_spec l n r :
  mention_at l = Some (n, r) ↔
  l = at_sign :: n ++ r ∧ n ≠ [] ∧ Forall (λ c, is_name c = true) n ∧
  match r with c :: _ => is_name c = false | [] => True end.
Proof.
  unfold mention_at. destruct l as [|c l]; [split; [done|by intros [? _]]|].
  destruct (Z.eqb_spec c at_sign) as [->|Hc]; [|split; [done|intros [[= ? _] _]; congruence]].
  destruct (span_name l) as [n' r'] eqn:Hs. pose proof (proj1 (span_name_spec l n' r') Hs) as (Hl & Hn & Hr).
  split.
  - destruct n'; [done|]. intros [= <- <-]. subst. done.
  - intros ([= Heq] & Hne & Hn' & Hr'). rewrite (proj2 (span_name_spec l n r)) in Hs by done.
    injection Hs as <- <-. by destruct n.
Qed.

Lemma is_name_not_space c : is_name c = true → is_space c = false.
Proof. unfold is_name. intros [? _]%andb_true_iff. by apply negb_true_iff. Qed.

(** No mention starts inside a run of name characters. *)
Lemma tokens_skip n r : Forall (λ c, is_name c = true) n → tokens false (n ++ r) = tokens false r.
Proof.
  induction 1 as [|c n Hc Hn IH]; [done|]. simpl. by rewrite is_name_not_space.
Qed.

Lemma tokens_mention l n r : mention_at l = Some (n, r) → tokens true l = n :: tokens false r.
Proof.
  intros Hm. pose proof (proj1 (mention_at_spec _ _ _) Hm) as (-> & _ & Hn & _).
  cbn [tokens]. rewrite Hm. change (is_space at_sign) with false. by rewrite tokens_skip.
Qed.

Lemma tokens_no_mention b l : mention_at l = None → tokens b l = tokens false l.
Proof. intros H. destruct l; [done|]. cbn [tokens]. rewrite H. by destruct b. Qed.

Lemma exec_mention_tokens b l :
  match exec_mention b l with
  | Some (n, r) => tokens b l = n :: tokens false r ∧ (length r < length l)%nat
  | None => tokens b l = []
  end.
Proof.
  assert (Hlen : ∀ l n r, mention_at l = Some (n, r) → (length r < length l)%nat).
  { intros l' n r (-> & _)%mention_at_spec. simpl. rewrite length_app. lia. }
  revert b. induction l as [|c l IH]; intros b; [by destruct b|]. cbn [exec_mention].
  destruct (if b then mention_at (c :: l) else None) as [[n r]|] eqn:Hb.
  { destruct b; [|done]. split; [by apply tokens_mention|eauto]. }
  assert (Ht : tokens b (c :: l) = tokens (is_space c) l).
  { cbn [tokens]. destruct b; [by rewrite Hb|done]. }
  rewrite Ht. destruct (if is_space c then mention_at l else None) as [[n r]|] eqn:Hs.
  { destruct (is_space c); [|done]. split; [by apply tokens_mention|]. apply Hlen in Hs. simpl. lia. }
  assert (tokens (is_space c) l = tokens false l) as ->
    by (destruct (is_space c); [by apply tokens_no_mention|done]).
  specialize (IH false). destruct (exec_mention false l) as [[n r]|]; [|done].
  destruct IH. split; [done|]. simpl. lia.
Qed.

Lemma elem_of_tokens n b l :
  n ∈ tokens b l ↔ ∃ pre post, l = pre ++ at_sign :: n ++ post ∧
    match last pre with Some c => is_space c = true | None => b = true end ∧
    n ≠ [] ∧ Forall (λ c, is_name c = true) n ∧ match post with c :: _ => is_name c = false | [] => True end.
Proof.
  revert b. induction l as [|c l IH]; intros b.
  - split; [by intros ?%elem_of_nil|]. intros (pre & post & H & _). by destruct pre.
  - cbn [tokens]. rewrite elem_of_app, IH. split.
    + intros [Hin|(pre & post & -> & Hb & H)].
      * destruct b; [|by apply elem_of_nil in Hin].
        destruct (mention_at (c :: l)) as [[n' r]|] eqn:Hm; [|by apply elem_of_nil in Hin].
        apply list_elem_of_singleton in Hin as ->. apply mention_at_spec in Hm as (-> & H).
        by exists [], r.
      * exists (c :: pre), post. split; [done|]. split; [|done]. rewrite last_cons. by destruct (last pre).
    + intros (pre & post & Heq & Hb & H). destruct pre as [|c' pre]; simpl in Heq.
      * left. simpl in Hb. subst b. rewrite (proj2 (mention_at_spec (c :: l) n post)) by done. set_solver.
      * injection Heq as -> ->. right. exists pre, post. split; [done|]. split; [|done].
        rewrite last_cons in Hb. by destruct (last pre).
Qed.

Lemma elem_of_tokens_mentions t n : n ∈ tokens true t ↔ mentions t n.
Proof.
  rewrite elem_of_tokens. unfold mentions.
  split; intros (pre & post & H1 & H2 & H3); exists pre, post; (split; [done|]; split; [|done]); by destruct (last pre).
Qed.

(** The ids of the known names, in order. *)
Definition lookup_ids (members : list MentionMember) (ns : list text) : list jsnum :=
  omap (λ n, map_get (toLowerCase n) (byName members)) ns.

Lemma extract_loop_tokens fuel names b l ids :
  (length l ≤ fuel)%nat →
  extract_loop fuel names b l ids =
  Ok (foldl (λ s k, set_add k s) ids (omap (λ n, map_get (toLowerCase n) names) (tokens b l))).
Proof.
  revert b l ids. induction fuel as [|fuel IH]; intros b l ids Hf; cbn [extract_loop];
    pose proof (exec_mention_tokens b l) as He; destruct (exec_mention b l) as [[n r]|];
    [destruct He; lia|by rewrite He| |by rewrite He].
  destruct He as [-> Hr]. rewrite IH by lia. csimpl. by destruct (map_get (toLowerCase n) names).
Qed.

Lemma extractMentionIds_tokens t members :
  extractMentionIds t members = Ok (set_of (lookup_ids members (tokens true t))).
Proof.
  destruct members as [|m ms].
  - cbn. f_equal. unfold lookup_ids, byName. cbn. by induction (tokens true t).
  - unfold extractMentionIds. by rewrite extract_loop_tokens.
Qed.

(** The member a name stands for: the last one whose user name agrees with it up
    to case. *)
Definition member_named (members : list MentionMember) (n : text) : option MentionMember :=
  last (filter (λ m, toLowerCase (mm_username m) = toLowerCase n) members).

Lemma foldl_names_get k members : ∀ map,
  map_get k (foldl (λ map m, map_set (toLowerCase (mm_username m)) (mm_userId m) map) map members) =
  match last (filter (λ m, toLowerCase (mm_username m) = k) members) with
  | Some m => Some (mm_userId m)
  | None => map_get k map
  end.
Proof.
  induction members as [|m ms IH]; intros map; [done|]. simpl foldl. rewrite IH, filter_cons. case_decide as Hk.
  - subst k. rewrite last_cons. rewrite map_get_set_eq. by destruct (last _).
  - by rewrite map_get_set_ne.
Qed.

(** The map by name holds the member a name stands for. *)
Lemma byName_get members n : map_get (toLowerCase n) (byName members) = mm_userId <$> member_named members n.
Proof. unfold byName, member_named. rewrite foldl_names_get. by destruct (last _). Qed.

Lemma member_named_elem members n m :
  member_named members n = Some m → m ∈ members ∧ toLowerCase (mm_username m) = toLowerCase n.
Proof. intros H%last_Some_elem_of. by apply list_elem_of_filter in H as [??]. Qed.

(** If no two user names agree up to case, it is the only such member. *)
Lemma member_named_unique members n m :
  NoDup ((λ m, toLowerCase (mm_username m)) <$> members) → m ∈ members → toLowerCase (mm_username m) = toLowerCase n →
  member_named members n = Some m.
Proof.
  intros Hd Hm Hn. unfold member_named.
  assert (Hin : m ∈ filter (λ m, toLowerCase (mm_username m) = toLowerCase n) members) by (by apply list_elem_of_filter).
  destruct (last _) as [m'|] eqn:Hl; [|apply last_None in Hl; rewrite Hl in Hin; by apply elem_of_nil in Hin].
  apply last_Some_elem_of, list_elem_of_filter in Hl as [Hn' Hm']. f_equal.
  apply list_elem_of_lookup in Hm as [i Hi], Hm' as [j Hj].
  assert (i = j) as ->; [|congruence].
  eapply NoDup_lookup; [exact Hd| |]; rewrite list_lookup_fmap, ?Hi, ?Hj; cbn; [done|]. f_equal. congruence.
Qed.

(** The ids that are reported. *)
Lemma extract_reports t members ids : extractMentionIds t members = Ok ids →
  ∀ id, id ∈ ids ↔ ∃ name m, mentions t name ∧ member_named members name = Some m ∧ mm_userId m = id.
Proof.
  rewrite extractMentionIds_tokens. intros [= <-] id. rewrite elem_of_set_of. unfold lookup_ids. rewrite list_elem_of_omap.
  setoid_rewrite elem_of_tokens_mentions. setoid_rewrite byName_get. setoid_rewrite fmap_Some.
  split; [intros (n & Hn & m & H1 & H2)|intros (n & m & Hn & H1 & H2)]; by eauto.
Qed.

(** C34: [extractMentionIds] terminates and returns, each once, exactly the ids
    of the members that the names after an "@" at a word boundary stand for: of
    the members whose user name agrees with such a name up to case, the last.
    If no two user names agree up to case, these are all such members. *)
Theorem extractMentionIds_spec t members :
  ∃ ids, extractMentionIds t members = Ok ids ∧ NoDup ids ∧
    (∀ id, id ∈ ids ↔ ∃ name m, mentions t name ∧ mm_userId m = id ∧
       last (filter (λ m, toLowerCase (mm_username m) = toLowerCase name) members) = Some m) ∧
    (NoDup ((λ m, toLowerCase (mm_username m)) <$> members) →
     ∀ id, id ∈ ids ↔ ∃ name m, mentions t name ∧ mm_userId m = id ∧
       m ∈ members ∧ toLowerCase (mm_username m) = toLowerCase name).
Proof.
  eexists. split; [apply extractMentionIds_tokens|].
  pose proof (extract_reports t members _ (extractMentionIds_tokens t members)) as Hids. split; [|split].
  - unfold set_of. generalize (lookup_ids members (tokens true t)), (@NoDup_nil_2 jsnum).
    intros l. generalize (@nil jsnum). induction l as [|x l IH]; intros s Hs; simpl; [done|].
    apply IH. auto with nonoka.
  - intros id. rewrite Hids. split; intros (n & m & ? & ? & ?); by exists n, m.
  - intros Hd id. rewrite Hids. split; intros (n & m & Hn & H); exists n, m; (split; [done|]).
    + destruct H as [H1 H2]. split; [done|]. by apply member_named_elem.
    + destruct H as (H1 & H2 & H3). split; [|done]. by apply member_named_unique.
Qed.

(** ** Segments *)

(** The next match, what the scan skipped, and the tokens it accounts for. *)
Lemma exec_name_tokens l idx :
  match exec_name l idx with
  | Some (i, n) => ∃ pre r, l = pre ++ at_sign :: n ++ r ∧ i = (idx + length pre)%nat ∧
      Forall (λ c, is_name c = true) n ∧
      ∀ b, tokens b l =
        (if match last pre with Some c => is_space c | None => b end then [n] else []) ++ tokens false r
  | None => ∀ b, tokens b l = []
  end.
Proof.
  revert idx. induction l as [|c l IH]; intros idx; [done|]. cbn [exec_name].
  destruct (mention_at (c :: l)) as [[n r]|] eqn:Hm.
  - exists [], r. pose proof (proj1 (mention_at_spec _ _ _) Hm) as (Hl & _ & Hn & _).
    split; [done|]. split; [simpl; lia|]. split; [done|]. intros b. rewrite Hl in *. destruct b; [by rewrite (tokens_mention _ n r)|].
    cbn [tokens]. simpl. by rewrite tokens_skip.
  - specialize (IH (S idx)). destruct (exec_name l (S idx)) as [[i n]|].
    + destruct IH as (pre & r & -> & -> & Hn & Ht). exists (c :: pre), r. split; [done|]. split; [simpl; lia|]. split; [done|].
      intros b. cbn [tokens]. rewrite Hm, Ht, last_cons. by destruct b, (last pre).
    + intros b. cbn [tokens]. rewrite Hm, IH. by destruct b.
Qed.

Lemma slice_app t a b c : (a ≤ b)%nat → (b ≤ c)%nat → slice t a b ++ slice t b c = slice t a c.
Proof.
  intros Hab Hbc. unfold slice.
  replace (drop b t) with (drop (b - a) (drop a t)) by (rewrite drop_drop; f_equal; lia).
  rewrite <-(take_drop (b - a) (take (c - a) (drop a t))), take_take, skipn_firstn_comm.
  f_equal; f_equal; lia.
Qed.

Lemma slice_nil t a : slice t a a = [].
Proof. unfold slice. by rewrite Nat.sub_diag. Qed.

(** The boundary test looks at the code unit before the index. *)
Lemma not_boundary_last t i :
  (i ≤ length t)%nat →
  negb (not_boundary t i) = match last (take i t) with Some c => is_space c | None => true end.
Proof.
  intros Hi. destruct i as [|i]; [done|]. simpl. destruct (lookup_lt_is_Some_2 t i ltac:(lia)) as [c Hc].
  rewrite Hc, (take_S_r _ _ _ Hc), last_snoc. by rewrite negb_involutive.
Qed.

Lemma not_boundary_app X Y :
  negb (not_boundary (X ++ Y) (length X)) = match last X with Some c => is_space c | None => true end.
Proof. rewrite not_boundary_last by (rewrite length_app; lia). by rewrite take_app_length. Qed.

(** What an iteration knows about the match it found. *)
Lemma match_position t li i n :
  (li ≤ length t)%nat → exec_name (drop li t) li = Some (i, n) →
  (li ≤ i)%nat ∧ (i + 1 + length n ≤ length t)%nat ∧ slice t i (i + 1 + length n) = at_sign :: n ∧
  tokens (negb (not_boundary t li)) (drop li t) =
    (if not_boundary t i then [] else [n]) ++
    tokens (negb (not_boundary t (i + 1 + length n))) (drop (i + 1 + length n) t).
Proof.
  intros Hli He. pose proof (exec_name_tokens (drop li t) li) as H. rewrite He in H.
  destruct H as (pre & r & Hd & -> & Hn & Ht).
  assert (∃ A, t = (A ++ pre) ++ (at_sign :: n) ++ r ∧ li = length A) as (A & -> & ->).
  { exists (take li t). rewrite length_take. split; [|lia]. rewrite <-app_assoc. simpl. by rewrite <-Hd, take_drop. }
  replace (length A + length pre)%nat with (length (A ++ pre)) by apply length_app.
  replace (length (A ++ pre) + 1 + length n)%nat with (length ((A ++ pre) ++ at_sign :: n))
    by (rewrite length_app; simpl; lia).
  split; [rewrite length_app; lia|]. split; [rewrite !length_app; simpl; lia|]. split.
  - unfold slice. rewrite drop_app_length, (length_app (A ++ pre) (at_sign :: n)).
    rewrite Nat.add_comm, Nat.add_sub. apply take_app_length.
  - rewrite Ht. f_equal.
    + rewrite <-(negb_involutive (not_boundary _ (length (A ++ pre)))), not_boundary_app, <-app_assoc, not_boundary_app.
      rewrite last_app. destruct (last pre) as [c|]; [by destruct (is_space c)|].
      by destruct (match last A with Some c => is_space c | None => true end).
    + rewrite (app_assoc (A ++ pre)), not_boundary_app, drop_app_length, last_app_cons.
      assert (match last (at_sign :: n) with Some c => is_space c | None => true end = false) as ->; [|done].
      rewrite last_cons. destruct (last n) as [c|] eqn:Hc; [|done].
      apply is_name_not_space. rewrite Forall_forall in Hn. apply Hn. by apply last_Some_elem_of.
Qed.

Lemma segment_loop_spec names t fuel : ∀ lst li segs,
  (lst ≤ li)%nat → (li ≤ length t)%nat → (length t - li ≤ fuel)%nat →
  ∃ segs' lst', segment_loop fuel names t lst li segs = Ok (segs ++ segs', lst') ∧
    (lst ≤ lst' ≤ length t)%nat ∧ concat (seg_text <$> segs') = slice t lst lst' ∧
    omap mentionedUserId segs' =
    omap (λ n, map_get (toLowerCase n) names) (tokens (negb (not_boundary t li)) (drop li t)).
Proof.
  induction fuel as [|fuel IH]; intros lst li segs Hl Hli Hf; cbn [segment_loop];
    destruct (exec_name (drop li t) li) as [[i n]|] eqn:He.
  2, 4: exists [], lst; pose proof (exec_name_tokens (drop li t) li) as Ht; rewrite He in Ht; rewrite Ht;
    rewrite app_nil_r, slice_nil; split; [done|]; split; [lia|done].
  all: destruct (match_position t li i n Hli He) as (Hi & Hnext & Hs & Ht).
  { lia. }
  rewrite Ht. clear Ht. set (next := (i + 1 + length n)%nat) in *.
  destruct (not_boundary t i); simpl.
  { destruct (IH lst next segs) as (segs' & lst' & H); [lia..|]. by exists segs', lst'. }
  destruct (map_get (toLowerCase n) names) as [id|].
  2:{ destruct (IH lst next segs) as (segs' & lst' & H); [lia..|]. by exists segs', lst'. }
  set (pre := if (lst <? i)%nat then [mkSegment (slice t lst i) None] else []).
  assert (Hpre : (if (lst <? i)%nat then segs ++ [mkSegment (slice t lst i) None] else segs) = segs ++ pre)
    by (unfold pre; destruct (lst <? i)%nat; by rewrite ?app_nil_r).
  assert (Hcat : concat (seg_text <$> pre) = slice t lst i).
  { unfold pre. destruct (Nat.ltb_spec lst i); csimpl; [by rewrite app_nil_r|].
    replace i with lst by lia. by rewrite slice_nil. }
  assert (Hid : omap mentionedUserId pre = []) by (unfold pre; by destruct (lst <? i)%nat).
  rewrite Hpre. destruct (IH next next ((segs ++ pre) ++ [mkSegment (at_sign :: n) (Some id)]))
    as (segs' & lst' & H & Hb & Hc & Ho); [lia..|].
  exists (pre ++ mkSegment (at_sign :: n) (Some id) :: segs'), lst'.
  rewrite H. split; [by rewrite <-!app_assoc|]. split; [lia|]. split.
  - rewrite fmap_app, concat_app, Hcat.
    change (concat (seg_text <$> _ :: segs')) with ((at_sign :: n) ++ concat (seg_text <$> segs')).
    by rewrite Hc, <-Hs, !slice_app by lia.
  - rewrite omap_app, Hid. csimpl. by rewrite Ho.
Qed.

Lemma segmentMentions_tokens t members :
  ∃ segs, segmentMentions t members = Ok segs ∧ concat (seg_text <$> segs) = t ∧
    omap mentionedUserId segs = lookup_ids members (tokens true t).
Proof.
  destruct members as [|m ms].
  - exists [mkSegment t None]. csimpl. rewrite app_nil_r. split; [done|]. split; [done|].
    unfold lookup_ids, byName. simpl. by induction (tokens true t).
  - unfold segmentMentions. destruct (segment_loop_spec (byName (m :: ms)) t (length t) 0 0 []) as (segs & lst & H & Hb & Hc & Ho); [lia..|].
    rewrite H. simpl. simpl in Ho.
    assert (Ht : t = concat (seg_text <$> segs) ++ drop lst t).
    { rewrite Hc. unfold slice. by rewrite Nat.sub_0_r, take_drop. }
    destruct (Nat.ltb_spec lst (length t)).
    + exists (segs ++ [mkSegment (drop lst t) None]). split; [by destruct segs|].
      rewrite fmap_app, concat_app, omap_app. csimpl. rewrite !app_nil_r, <-Ht. done.
    + rewrite drop_ge, app_nil_r in Ht by lia. destruct segs as [|s segs].
      * exists [mkSegment t None]. csimpl. rewrite app_nil_r. done.
      * exists (s :: segs). rewrite <-Ht. done.
Qed.

(** C35: the segments of a message, put together, are the message, and the
    highlighted mentions are those [extractMentionIds] reports. *)
Theorem segmentMentions_spec t members :
  ∃ segs ids, segmentMentions t members = Ok segs ∧ extractMentionIds t members = Ok ids ∧
    concat (seg_text <$> segs) = t ∧ set_of (omap mentionedUserId segs) = ids.
Proof.
  destruct (segmentMentions_tokens t members) as (segs & H & Hc & Ho).
  exists segs, (set_of (lookup_ids members (tokens true t))).
  rewrite extractMentionIds_tokens, Ho. done.
Qed.

(** ** The query under the caret *)

(** A completion is offered exactly when the text before the caret ends in
    "@query" at a word boundary, and the start it reports is the index of the
    "@". *)
Theorem activeMentionQuery_spec t caret q start :
  (caret ≤ length t)%nat →
  activeMentionQuery t caret = Some (q, start) ↔
  ∃ pre, take caret t = pre ++ at_sign :: q ∧ start = length pre ∧
    Forall (λ c, is_name c = true) q ∧
    match last pre with Some c => is_space c = true | None => True end.
Proof.
  intros Hcaret. unfold activeMentionQuery.
  destruct (span_name (reverse (take caret t))) as [rq rest] eqn:Hs.
  apply span_name_spec in Hs as (Hr & Hq & Hrest).
  assert (Hlen : length (take caret t) = caret) by (rewrite length_take; lia).
  split.
  - destruct rest as [|c rest]; [done|]. destruct (Z.eqb_spec c at_sign) as [->|]; [|done]. simpl.
    destruct (match rest with [] => true | p :: _ => is_space p end) eqn:Hsp; [|done]. intros [= <- <-].
    apply (f_equal reverse) in Hr. rewrite reverse_involutive, reverse_app, reverse_cons, <-app_assoc in Hr.
    exists (reverse rest). split; [exact Hr|]. split.
    + apply (f_equal length) in Hr. rewrite Hlen, !length_app, !length_reverse in Hr. simpl in Hr.
      rewrite ?length_reverse in *. lia.
    + split; [by apply Forall_reverse|]. destruct rest as [|p rest]; [done|]. by rewrite reverse_cons, last_snoc.
  - intros (pre & Ht & -> & Hq' & Hp). rewrite Ht, reverse_app, reverse_cons, <-app_assoc in Hr. simpl in Hr.
    assert (span_name (reverse q ++ at_sign :: reverse pre) = (rq, rest)) as H1
      by (by apply span_name_spec).
    rewrite (proj2 (span_name_spec _ (reverse q) (at_sign :: reverse pre))) in H1
      by (split; [done|]; split; [by apply Forall_reverse|done]).
    injection H1 as <- <-. simpl. 
    assert (match reverse pre with [] => true | p :: _ => is_space p end = true) as ->.
    { destruct pre as [|x pre _] using rev_ind; [done|]. rewrite last_snoc in Hp. by rewrite reverse_snoc. }
    rewrite reverse_involutive, length_reverse. rewrite <-Hlen, Ht, length_app. simpl. do 2 f_equal. lia.
Qed.

End Lower.

(** "@a" with two members of that name, up to case: the last is reported. *)
Example colliding_names :
  extractMentionIds (λ t, (λ c, if (65 <=? c) && (c <=? 90) then c + 32 else c) <$> t) [64; 97]
    [mkMember (Num 1) [97]; mkMember (Num 2) [65]] = Ok [Num 2].
Proof. reflexivity. Qed.

(** "hi @al", caret at the end. *)
Lemma activeMentionQuery_spec_witness :
  let t := [104; 105; 32; 64; 97; 108] in
  activeMentionQuery t 6 = Some ([97; 108], 3%nat) ∧
  ∃ pre, take 6 t = pre ++ at_sign :: [97; 108] ∧ 3%nat = length pre ∧
    Forall (λ c, is_name c = true) [97; 108] ∧
    match last pre with Some c => is_space c = true | None => True end.
Proof.
  intros t. assert (H : activeMentionQuery t 6 = Some ([97; 108], 3%nat)) by reflexivity.
  split; [exact H|]. apply (activeMentionQuery_spec t 6 [97; 108] 3); [simpl; lia|exact H].
Defined.

End Mentions.
