(* ===== verification/Realtime.v ===== *)
(** * The real-time client ([web/app/lib/realtime.ts])

    [RealtimeClient] as a state machine.  [Client] holds the fields of the
    class, the sockets it created with their listeners, and the asynchronous
    calls in flight (gateway lookups, token refreshes, authentication
    promises).  Every method is an [act]: it transforms the state and emits
    outputs in order.  [step] runs one callback or public call to completion,
    then the reactions of the authentication promises it settled; the order in
    which callbacks arrive is the list of events given to [run]. *)

From S2P Require Import Prelude JsNum JsMap ProtoRuntime ProtoMessages ProtoPacket ProtoPacketProps.
From Stdlib Require Import Ascii.
Open Scope Z_scope.

Module Realtime.

(** ** Data *)

(** [WebSocket.readyState]. *)
Inductive ReadyState := CONNECTING | OPEN | CLOSING | CLOSED.

#[export] Instance ReadyState_eq_dec : EqDecision ReadyState.
Proof. solve_decision. Defined.

(** A socket and whether the four listeners of [doConnect] are attached. *)
Record Socket := mkSocket { readyState : ReadyState; listening : bool }.

(** [interface RealtimeMessage] and the payloads of the other events. *)
Record RealtimeMessage := mkRtMessage {
  rm_msgId : Z;
  rm_topic : string;
  rm_senderId : Z;
  rm_msgType : Z;
  rm_content : string;
  rm_timestamp : Z;
  rm_topicSeq : Z;
  rm_clientMsgId : string;
  rm_mentionedUserIds : list Z;
}.

Record SendReceiptPayload := mkSendReceiptPayload {
  sr_clientMsgId : string;
  sr_msgId : Z;
  sr_topic : string;
  sr_topicSeq : Z;
  sr_timestamp : Z;
}.

Record DeliveryReceiptPayload := mkDeliveryReceiptPayload {
  dr_topic : string;
  dr_topicSeq : Z;
  dr_msgId : Z;
}.

Record ReadReceiptPayload := mkReadReceiptPayload {
  rr_topic : string;
  rr_upToSeq : Z;
  rr_readerId : Z;
}.

Record RecallPayload := mkRecallPayload {
  rc_topic : string;
  rc_topicSeq : Z;
  rc_msgId : Z;
  rc_senderId : Z;
  rc_recalledAt : Z;
}.

(** [RealtimeEventType], with the [detail] each event carries. *)
Inductive RealtimeEvent :=
| EvConnected
| EvAuthed
| EvDisconnected
| EvReconnecting
| EvMessage (m : RealtimeMessage)
| EvSendReceipt (r : SendReceiptPayload)
| EvDeliveryReceipt (r : DeliveryReceiptPayload)
| EvReadReceipt (r : ReadReceiptPayload)
| EvRecall (r : RecallPayload)
| EvError (msg : string).

Inductive Output :=
| Dispatch (e : RealtimeEvent)
| NewSocket (id : nat) (url : string)
| SendFrame (id : nat) (data : bytes)
| CloseSocket (id : nat)
| GetGateway (userId : Z)
| RefreshAuth
| ForceReLogin
(** [resolve] or [reject] of the promise of a [connect] call is called. *)
| Resolved
| Rejected (msg : string).

(** The fields of [RealtimeClient].  An authentication attempt is named by the
    sequence number of its packet: [pending] maps a sequence number to the
    attempt whose closures it holds, [auth_timers] are the attempts whose
    ten-second timer runs, [authResolver] is the attempt [authResolver] and
    [authRejecter] belong to (the source sets and clears the two together).
    [heartbeatTimer] and [reconnectTimer] are cleared before they are replaced,
    so the variable tells whether the timer runs; a heartbeat time-out can
    outlive its variable and is named. *)
Record Client := mkClient {
  ws : option nat;
  sockets : list Socket;
  token : option string;
  userId : option Z;
  seq : Z;
  pending : list (Z * Z);
  auth_timers : list Z;
  heartbeatTimer : bool;
  heartbeatTimeoutTimer : option nat;
  hb_timeouts : list nat;
  hb_next : nat;
  reconnectTimer : option Z;
  reconnectAttempt : Z;
  closed : bool;
  didTokenRefresh : bool;
  authResolver : option Z;
  (** unsettled authentication promises, with the socket of their [onOpen] *)
  attempts : list (Z * nat);
  (** settled ones whose [then]/[catch] has not run: [None] is success *)
  microtasks : list (nat * option string);
  (** [doConnect] calls suspended at [await dispatchApi.getGateway] *)
  gateway_calls : nat;
  (** failed authentications suspended at [refreshAuth()] *)
  refresh_calls : nat;
  (** [sessionStorage]: [None] when it throws *)
  session : option (option string);
  (** what the listeners of [message] do to the client while the event is
      dispatched: the read receipts they send *)
  listeners : RealtimeMessage → list (string * Z);
}.

Definition new_client (storage : option (option string)) : Client :=
  mkClient None [] None None 0 [] [] false None [] 0 None 0 false false None [] [] 0 0 storage (λ _, []).

(** ** Field updates *)

Definition set_ws v c := mkClient v (sockets c) (token c) (userId c) (seq c) (pending c) (auth_timers c) (heartbeatTimer c) (heartbeatTimeoutTimer c) (hb_timeouts c) (hb_next c) (reconnectTimer c) (reconnectAttempt c) (closed c) (didTokenRefresh c) (authResolver c) (attempts c) (microtasks c) (gateway_calls c) (refresh_calls c) (session c) (listeners c).
Definition set_sockets v c := mkClient (ws c) v (token c) (userId c) (seq c) (pending c) (auth_timers c) (heartbeatTimer c) (heartbeatTimeoutTimer c) (hb_timeouts c) (hb_next c) (reconnectTimer c) (reconnectAttempt c) (closed c) (didTokenRefresh c) (authResolver c) (attempts c) (microtasks c) (gateway_calls c) (refresh_calls c) (session c) (listeners c).
Definition set_token v c := mkClient (ws c) (sockets c) v (userId c) (seq c) (pending c) (auth_timers c) (heartbeatTimer c) (heartbeatTimeoutTimer c) (hb_timeouts c) (hb_next c) (reconnectTimer c) (reconnectAttempt c) (closed c) (didTokenRefresh c) (authResolver c) (attempts c) (microtasks c) (gateway_calls c) (refresh_calls c) (session c) (listeners c).
Definition set_userId v c := mkClient (ws c) (sockets c) (token c) v (seq c) (pending c) (auth_timers c) (heartbeatTimer c) (heartbeatTimeoutTimer c) (hb_timeouts c) (hb_next c) (reconnectTimer c) (reconnectAttempt c) (closed c) (didTokenRefresh c) (authResolver c) (attempts c) (microtasks c) (gateway_calls c) (refresh_calls c) (session c) (listeners c).
Definition set_seq v c := mkClient (ws c) (sockets c) (token c) (userId c) v (pending c) (auth_timers c) (heartbeatTimer c) (heartbeatTimeoutTimer c) (hb_timeouts c) (hb_next c) (reconnectTimer c) (reconnectAttempt c) (closed c) (didTokenRefresh c) (authResolver c) (attempts c) (microtasks c) (gateway_calls c) (refresh_calls c) (session c) (listeners c).
Definition set_pending v c := mkClient (ws c) (sockets c) (token c) (userId c) (seq c) v (auth_timers c) (heartbeatTimer c) (heartbeatTimeoutTimer c) (hb_timeouts c) (hb_next c) (reconnectTimer c) (reconnectAttempt c) (closed c) (didTokenRefresh c) (authResolver c) (attempts c) (microtasks c) (gateway_calls c) (refresh_calls c) (session c) (listeners c).
Definition set_auth_timers v c := mkClient (ws c) (sockets c) (token c) (userId c) (seq c) (pending c) v (heartbeatTimer c) (heartbeatTimeoutTimer c) (hb_timeouts c) (hb_next c) (reconnectTimer c) (reconnectAttempt c) (closed c) (didTokenRefresh c) (authResolver c) (attempts c) (microtasks c) (gateway_calls c) (refresh_calls c) (session c) (listeners c).
Definition set_heartbeat ht htt hbs n c := mkClient (ws c) (sockets c) (token c) (userId c) (seq c) (pending c) (auth_timers c) ht htt hbs n (reconnectTimer c) (reconnectAttempt c) (closed c) (didTokenRefresh c) (authResolver c) (attempts c) (microtasks c) (gateway_calls c) (refresh_calls c) (session c) (listeners c).
Definition set_reconnectTimer v c := mkClient (ws c) (sockets c) (token c) (userId c) (seq c) (pending c) (auth_timers c) (heartbeatTimer c) (heartbeatTimeoutTimer c) (hb_timeouts c) (hb_next c) v (reconnectAttempt c) (closed c) (didTokenRefresh c) (authResolver c) (attempts c) (microtasks c) (gateway_calls c) (refresh_calls c) (session c) (listeners c).
Definition set_reconnectAttempt v c := mkClient (ws c) (sockets c) (token c) (userId c) (seq c) (pending c) (auth_timers c) (heartbeatTimer c) (heartbeatTimeoutTimer c) (hb_timeouts c) (hb_next c) (reconnectTimer c) v (closed c) (didTokenRefresh c) (authResolver c) (attempts c) (microtasks c) (gateway_calls c) (refresh_calls c) (session c) (listeners c).
Definition set_closed v c := mkClient (ws c) (sockets c) (token c) (userId c) (seq c) (pending c) (auth_timers c) (heartbeatTimer c) (heartbeatTimeoutTimer c) (hb_timeouts c) (hb_next c) (reconnectTimer c) (reconnectAttempt c) v (didTokenRefresh c) (authResolver c) (attempts c) (microtasks c) (gateway_calls c) (refresh_calls c) (session c) (listeners c).
Definition set_didTokenRefresh v c := mkClient (ws c) (sockets c) (token c) (userId c) (seq c) (pending c) (auth_timers c) (heartbeatTimer c) (heartbeatTimeoutTimer c) (hb_timeouts c) (hb_next c) (reconnectTimer c) (reconnectAttempt c) (closed c) v (authResolver c) (attempts c) (microtasks c) (gateway_calls c) (refresh_calls c) (session c) (listeners c).
Definition set_authResolver v c := mkClient (ws c) (sockets c) (token c) (userId c) (seq c) (pending c) (auth_timers c) (heartbeatTimer c) (heartbeatTimeoutTimer c) (hb_timeouts c) (hb_next c) (reconnectTimer c) (reconnectAttempt c) (closed c) (didTokenRefresh c) v (attempts c) (microtasks c) (gateway_calls c) (refresh_calls c) (session c) (listeners c).
Definition set_attempts v mt c := mkClient (ws c) (sockets c) (token c) (userId c) (seq c) (pending c) (auth_timers c) (heartbeatTimer c) (heartbeatTimeoutTimer c) (hb_timeouts c) (hb_next c) (reconnectTimer c) (reconnectAttempt c) (closed c) (didTokenRefresh c) (authResolver c) v mt (gateway_calls c) (refresh_calls c) (session c) (listeners c).
Definition set_calls g r c := mkClient (ws c) (sockets c) (token c) (userId c) (seq c) (pending c) (auth_timers c) (heartbeatTimer c) (heartbeatTimeoutTimer c) (hb_timeouts c) (hb_next c) (reconnectTimer c) (reconnectAttempt c) (closed c) (didTokenRefresh c) (authResolver c) (attempts c) (microtasks c) g r (session c) (listeners c).
Definition set_session v c := mkClient (ws c) (sockets c) (token c) (userId c) (seq c) (pending c) (auth_timers c) (heartbeatTimer c) (heartbeatTimeoutTimer c) (hb_timeouts c) (hb_next c) (reconnectTimer c) (reconnectAttempt c) (closed c) (didTokenRefresh c) (authResolver c) (attempts c) (microtasks c) (gateway_calls c) (refresh_calls c) v (listeners c).
Definition set_listeners v c := mkClient (ws c) (sockets c) (token c) (userId c) (seq c) (pending c) (auth_timers c) (heartbeatTimer c) (heartbeatTimeoutTimer c) (hb_timeouts c) (hb_next c) (reconnectTimer c) (reconnectAttempt c) (closed c) (didTokenRefresh c) (authResolver c) (attempts c) (microtasks c) (gateway_calls c) (refresh_calls c) (session c) v.

(** ** Effects *)

Definition act : Type := Client → Client * list Output.

Definition upd (f : Client → Client) : act := λ c, (f c, []).
Definition emit (o : Output) : act := λ c, (c, [o]).
Definition skip : act := λ c, (c, []).
Definition bind (f g : act) : act := λ c,
  let '(c1, o1) := f c in let '(c2, o2) := g c1 in (c2, o1 ++ o2).
Definition get (k : Client → act) : act := λ c, k c c.
Definition when (b : bool) (f : act) : act := if b then f else skip.

Notation "f >>> g" := (bind f g) (at level 60, right associativity) : js_scope.

Definition MAX_RECONNECT_DELAY_MS : Z := 30000.

(** ** Strings *)

Definition ascii_lower (a : ascii) : ascii :=
  let n := N_of_ascii a in
  if ((65 <=? n) && (n <=? 90))%N then ascii_of_N (n + 32) else a.

Fixpoint string_lower (s : string) : string :=
  match s with String a s' => String (ascii_lower a) (string_lower s') | EmptyString => EmptyString end.

(** [isTokenError]. *)
Definition isTokenError (msg : string) : bool :=
  let m := string_lower msg in
  includes "invalid token" m || includes "auth failed" m || includes "unauthorized" m || includes "401" m.

(** [getDeviceId]: the id kept for the tab, or a fresh one that is stored;
    [fresh] is what [crypto.randomUUID] or the clock gives. *)
Definition getDeviceId (storage : option (option string)) (fresh : string) : string * option (option string) :=
  match storage with
  | None => (("web-" +:+ fresh)%string, None)
  | Some (Some existing) =>
      if negb (String.eqb existing "") then (existing, storage)
      else (("web-" +:+ fresh)%string, Some (Some ("web-" +:+ fresh)%string))
  | Some None => (("web-" +:+ fresh)%string, Some (Some ("web-" +:+ fresh)%string))
  end.

(** [Number] of an optional 64-bit field of a decoded message, whose default
    is zero. *)
Definition Number_long (o : option long) : Z :=
  match o with
  | None => 0
  | Some (LNum z) => z
  | Some l => to_double (long_val l)
  end.

Section Client.
Context {RT : Runtime}.
(** [TextDecoder] and [TextEncoder] of the platform, the API origin, and
    [Number(JSON.parse(atob(payload)).user_id)], [None] when it throws or is
    not a number. *)
Context (TextDecoder_decode : bytes → string) (TextEncoder_encode : string → bytes).
Context (API_BASE_URL : string) (payload_user_id : string → option Z).

(** ** Helpers of the class *)

(** [token.split(".")[1]]. *)
Fixpoint after_dot (s : string) : option string :=
  match s with
  | String "." s' => Some s'
  | String _ s' => after_dot s'
  | EmptyString => None
  end.

Fixpoint before_dot (s : string) : string :=
  match s with
  | String "." _ => EmptyString
  | String a s' => String a (before_dot s')
  | EmptyString => EmptyString
  end.

(** [extractUserId]. *)
Definition extractUserId (t : option string) : Z :=
  match t ≫= after_dot with
  | Some rest => default 0 (payload_user_id (before_dot rest))
  | None => 0
  end.

(** [inferGatewayUrl]. *)
Definition inferGatewayUrl : string :=
  ((if String.prefix "http" API_BASE_URL
    then "ws" +:+ String.substring 4 (String.length API_BASE_URL - 4) API_BASE_URL
    else API_BASE_URL) +:+ "/ws")%string.

(** [nextSeq]: the new value is the argument of the continuation. *)
Definition nextSeq (k : Z → act) : act :=
  upd (λ c, set_seq (seq c + 1) c) >>> get (λ c, k (seq c)).

(** [this.ws] when it is open. *)
Definition open_socket (c : Client) : option nat :=
  match ws c with
  | Some id => match sockets c !! id with
               | Some s => if bool_decide (readyState s = OPEN) then Some id else None
               | None => None
               end
  | None => None
  end.

(** [isConnected]. *)
Definition isConnected (c : Client) : bool := bool_decide (is_Some (open_socket c)).

(** [send]; encoding cannot fail at the nesting depth of a packet. *)
Definition send (pkt : Packet) : act := get (λ c,
  match open_socket c with
  | None => skip
  | Some id => match Packet_encode pkt None None with
               | Ok w => emit (SendFrame id (W_finish w))
               | _ => skip
               end
  end).

Definition packet (cmd : Z) (n : Z) (p : option Payload) : Packet :=
  packet_of (Some cmd) (Some (LNum n)) p.

(** ** Public operations *)

(** [sendMessage]; [ok] of the result is [isConnected] at the call. *)
Definition sendMessage (topic : string) (msgType : Z) (data : bytes) (clientMsgId : string)
    (mentionedUserIds : list Z) : act :=
  nextSeq (λ n, send (packet CMD_PUBLISH n (Some (P_sendReq
    (mkSendMessageRequest (Some topic) (Some msgType) (Some data) (Some clientMsgId)
       (LNum <$> mentionedUserIds) None))))).

Definition sendText (topic text : string) (clientMsgId : string) (mentionedUserIds : list Z) : act :=
  sendMessage topic 1 (TextEncoder_encode text) clientMsgId mentionedUserIds.

Definition pullMessages (topic : string) (lastSeq limit : Z) : act :=
  nextSeq (λ n, send (packet CMD_PULL n (Some (P_pullReq
    (mkPullRequest (Some topic) (Some (LNum lastSeq)) (Some limit) None None))))).

Definition sendReadReceipt (topic : string) (upToSeq : Z) : act :=
  nextSeq (λ n, get (λ c, send (packet CMD_READ_RECEIPT n (Some (P_readReceipt
    (mkReadReceipt (Some topic) (Some (LNum upToSeq)) (Some (LNum (default 0 (userId c)))) None)))))).

Definition recallMessage (topic : string) (topicSeq msgId : Z) : act :=
  nextSeq (λ n, send (packet CMD_RECALL n (Some (P_recallReq
    (mkRecallRequest (Some topic) (Some (LNum topicSeq)) (Some (LNum msgId)) None))))).

Definition sendAck (msgId : Z) (topic : string) (topicSeq : Z) : act :=
  nextSeq (λ n, send (packet CMD_ACK n (Some (P_ackReq
    (mkAckRequest (Some (LNum msgId)) (Some topic) (Some (LNum topicSeq)) None))))).

(** The calls the listeners of a [message] event make before [dispatch]
    returns. *)
Fixpoint send_receipts (rs : list (string * Z)) : act :=
  match rs with
  | [] => skip
  | (topic, upToSeq) :: rs' => sendReadReceipt topic upToSeq >>> send_receipts rs'
  end.

Definition dispatch_message (m : RealtimeMessage) : act :=
  emit (Dispatch (EvMessage m)) >>> get (λ c, send_receipts (listeners c m)).

(** ** Heartbeat *)

(** [stopHeartbeat]. *)
Definition stopHeartbeat : act := upd (λ c,
  set_heartbeat false None
    (match heartbeatTimeoutTimer c with Some i => set_delete i (hb_timeouts c) | None => hb_timeouts c end)
    (hb_next c) c).

Definition startHeartbeat : act :=
  stopHeartbeat >>> upd (λ c, set_heartbeat true (heartbeatTimeoutTimer c) (hb_timeouts c) (hb_next c) c).

(** The interval's callback. *)
Definition heartbeat_tick : act := get (λ c,
  match open_socket c with
  | None => skip
  | Some _ =>
      nextSeq (λ n, send (packet CMD_HEARTBEAT n None)) >>>
      upd (λ c, set_heartbeat (heartbeatTimer c) (Some (hb_next c)) (set_add (hb_next c) (hb_timeouts c))
                  (S (hb_next c)) c)
  end).

(** [handleHeartbeatAck]. *)
Definition handleHeartbeatAck : act := upd (λ c,
  match heartbeatTimeoutTimer c with
  | Some i => set_heartbeat (heartbeatTimer c) None (set_delete i (hb_timeouts c)) (hb_next c) c
  | None => c
  end).

(** [ws.close()] on socket [id]. *)
Definition closing (s : Socket) : Socket :=
  match readyState s with CLOSED => s | _ => mkSocket CLOSING (listening s) end.

Definition close_socket (id : nat) : act :=
  upd (λ c, set_sockets (alter closing id (sockets c)) c) >>> emit (CloseSocket id).

(** [this.ws?.close()]. *)
Definition close_ws : act := get (λ c, match ws c with Some id => close_socket id | None => skip end).

(** [cleanup] of a [doConnect] call. *)
Definition cleanup (id : nat) : act :=
  upd (λ c, set_sockets (alter (λ s, mkSocket (readyState s) false) id (sockets c)) c).

(** ** Authentication *)

(** Calling the [resolve] or [reject] of attempt [a]: the first call settles
    the promise. *)
Definition settle (a : Z) (r : option string) : act := upd (λ c,
  match map_get a (attempts c) with
  | Some id => set_attempts (map_delete a (attempts c)) (microtasks c ++ [(id, r)]) c
  | None => c
  end).

Definition clear_auth_timer (a : Z) : act := upd (λ c, set_auth_timers (set_delete a (auth_timers c)) c).

(** [sendAuth] of the [onOpen] of socket [id]. *)
Definition sendAuth (id : nat) (fresh : string) : act :=
  nextSeq (λ n,
    upd (λ c, set_authResolver (Some n) (set_attempts (map_set n id (attempts c)) (microtasks c) c)) >>>
    upd (λ c, set_auth_timers (set_add n (auth_timers c)) (set_pending (map_set n n (pending c)) c)) >>>
    get (λ c,
      let '(device, storage) := getDeviceId (session c) fresh in
      upd (set_session storage) >>>
      send (packet CMD_AUTH n (Some (P_authReq (mkAuthRequest (token c) (Some device) None)))))).

(** [pending.get(k).reject(err)], which also removes the entry. *)
Definition reject_entry (a : Z) (err : string) : act :=
  upd (λ c, set_pending (map_delete a (pending c)) c) >>> settle a (Some err).

(** [rejectPending]. *)
Fixpoint reject_all (err : string) (entries : list (Z * Z)) : act :=
  match entries with
  | [] => skip
  | (_, a) :: entries' => clear_auth_timer a >>> reject_entry a err >>> reject_all err entries'
  end.

Definition rejectPending (err : string) : act :=
  get (λ c, reject_all err (pending c)) >>>
  upd (set_pending []) >>>
  get (λ c, match authResolver c with
            | Some a => settle a (Some err) >>> upd (set_authResolver None)
            | None => skip
            end).

(** ** Connecting *)

(** [scheduleReconnect]. *)
Definition scheduleReconnect : act := get (λ c,
  if closed c || bool_decide (is_Some (reconnectTimer c)) then skip
  else
    emit (Dispatch EvReconnecting) >>>
    upd (λ c, set_reconnectTimer (Some (Z.min (1000 * 2 ^ reconnectAttempt c) MAX_RECONNECT_DELAY_MS)) c) >>>
    upd (λ c, set_reconnectAttempt (reconnectAttempt c + 1) c)).

(** [doConnect], up to the gateway lookup. *)
Definition doConnect : act := get (λ c,
  if closed c then emit Resolved
  else
    upd (λ c, set_userId (Some (extractUserId (token c))) c) >>>
    emit (GetGateway (extractUserId (token c))) >>>
    upd (λ c, set_calls (S (gateway_calls c)) (refresh_calls c) c)).

(** Its continuation with the gateway's address: no field is looked at again. *)
Definition gateway_reply (gatewayUrl : string) : act := get (λ c,
  let url := if String.eqb gatewayUrl "" then inferGatewayUrl else gatewayUrl in
  let id := length (sockets c) in
  upd (λ c, set_ws (Some id) (set_sockets (sockets c ++ [mkSocket CONNECTING true]) c)) >>>
  emit (NewSocket id url)).

(** Its [catch], for a failed lookup. *)
Definition gateway_error (err : string) : act :=
  get (λ c, when (negb (closed c)) scheduleReconnect) >>> emit (Rejected err).

Definition connect (t : string) : act := get (λ c,
  if isConnected c then emit Resolved
  else
    upd (λ c, set_didTokenRefresh false (set_closed false (set_token (Some t) c))) >>>
    doConnect).

(** [clearTimers]. *)
Definition clearTimers : act := stopHeartbeat >>> upd (set_reconnectTimer None).

Definition disconnect : act :=
  upd (set_closed true) >>>
  clearTimers >>>
  rejectPending "disconnected" >>>
  get (λ c, match ws c with
            | Some id => close_socket id >>> upd (set_ws None)
            | None => skip
            end) >>>
  upd (set_reconnectTimer None).

(** [handleDisconnect]. *)
Definition handleDisconnect : act :=
  stopHeartbeat >>>
  rejectPending "disconnected" >>>
  upd (set_ws None) >>>
  emit (Dispatch EvDisconnected) >>>
  get (λ c, when (negb (closed c)) scheduleReconnect).

(** The [then] and [catch] of the authentication promise of socket [id]. *)
Definition auth_settled (id : nat) (r : option string) : act :=
  match r with
  | None =>
      upd (set_reconnectAttempt 0) >>> startHeartbeat >>> emit (Dispatch EvAuthed) >>> emit Resolved
  | Some err => get (λ c,
      if negb (didTokenRefresh c) && isTokenError err then
        upd (set_didTokenRefresh true) >>> cleanup id >>> close_socket id >>> upd (set_ws None) >>>
        emit RefreshAuth >>> upd (λ c, set_calls (gateway_calls c) (S (refresh_calls c)) c)
      else emit (Rejected err))
  end.

(** [refreshAuth().then(...).catch(...)]. *)
Definition refresh_done (newToken : string) : act := upd (set_token (Some newToken)) >>> doConnect.
Definition refresh_failed (err : string) : act :=
  upd (set_closed true) >>> emit ForceReLogin >>> emit (Rejected err).

(** ** Incoming frames *)

Definition notify_detail (n : MessagePush) : RealtimeMessage :=
  mkRtMessage (Number_long (MessagePush_msgId n)) (default "" (MessagePush_topic n))
    (Number_long (MessagePush_senderId n)) (default 0 (MessagePush_msgType n))
    (TextDecoder_decode (default [] (MessagePush_content n))) (Number_long (MessagePush_timestamp n))
    (Number_long (MessagePush_topicSeq n)) (default "" (MessagePush_clientMsgId n))
    ((λ l, Number_long (Some l)) <$> MessagePush_mentionedUserIds n).

(** The message of [new Error(pkt.error.message || `error ${pkt.error.code}`)]. *)
Definition error_text (e : ErrorResponse) : string :=
  match ErrorResponse_message e with
  | Some m => if String.eqb m "" then ("error " +:+ pretty (default 0 (ErrorResponse_code e)))%string else m
  | None => ("error " +:+ pretty (default 0 (ErrorResponse_code e)))%string
  end.

(** [if (Number(pkt.cmd) === command && payload) { ...; return; }]. *)
Definition on_payload {A} (pkt : Packet) (command : Z) (payload : option A) (k : A → act) (rest : act) : act :=
  match payload with
  | Some x => if default 0 (Packet_cmd pkt) =? command then k x else rest
  | None => rest
  end.

(** The server pushes, in the order of the source. *)
Definition handle_push (pkt : Packet) : act :=
  on_payload pkt CMD_NOTIFY (Packet_notify pkt) (λ n,
    dispatch_message (notify_detail n) >>>
    sendAck (Number_long (MessagePush_msgId n)) (default "" (MessagePush_topic n)) (Number_long (MessagePush_topicSeq n))) (
  on_payload pkt CMD_SEND_RECEIPT (Packet_sendReceipt pkt) (λ r,
    emit (Dispatch (EvSendReceipt
      (mkSendReceiptPayload (default "" (SendReceipt_clientMsgId r)) (Number_long (SendReceipt_msgId r))
         (default "" (SendReceipt_topic r)) (Number_long (SendReceipt_topicSeq r)) (Number_long (SendReceipt_timestamp r)))))) (
  on_payload pkt CMD_DELIVERY_RECEIPT (Packet_deliveryReceipt pkt) (λ r,
    emit (Dispatch (EvDeliveryReceipt
      (mkDeliveryReceiptPayload (default "" (DeliveryReceipt_topic r)) (Number_long (DeliveryReceipt_topicSeq r))
         (Number_long (DeliveryReceipt_msgId r)))))) (
  on_payload pkt CMD_READ_RECEIPT (Packet_readReceipt pkt) (λ r,
    emit (Dispatch (EvReadReceipt
      (mkReadReceiptPayload (default "" (ReadReceipt_topic r)) (Number_long (ReadReceipt_upToSeq r))
         (Number_long (ReadReceipt_readerId r)))))) (
  on_payload pkt CMD_RECALL (Packet_recallNotice pkt) (λ r,
    emit (Dispatch (EvRecall
      (mkRecallPayload (default "" (RecallNotice_topic r)) (Number_long (RecallNotice_topicSeq r))
         (Number_long (RecallNotice_msgId r)) (Number_long (RecallNotice_senderId r)) (Number_long (RecallNotice_recalledAt r))))))
  skip)))).

(** An entry of [pending] gets its answer: [resolve(pkt)] or [reject]. *)
Definition resolve_entry (a : Z) (pkt : Packet) : act :=
  upd (λ c, set_pending (map_delete a (pending c)) c) >>>
  settle a (if default false (Packet_authResp pkt ≫= AuthResponse_success) then None else Some "auth failed"%string).

Definition handle_packet (pkt : Packet) : act :=
  if default 0 (Packet_cmd pkt) =? CMD_HEARTBEAT then handleHeartbeatAck
  else
    on_payload pkt CMD_AUTH (Packet_authResp pkt) (λ r, get (λ c,
      match authResolver c with
      | Some a =>
          settle a (if default false (AuthResponse_success r) then None else Some "auth failed"%string) >>>
          upd (set_authResolver None)
      | None => skip
      end)) (
    get (λ c,
      let n := Number_long (Packet_seq pkt) in
      match map_get n (pending c) with
      | Some a =>
          clear_auth_timer a >>>
          upd (λ c, set_pending (map_delete n (pending c)) c) >>>
          match Packet_error pkt with
          | Some e => reject_entry a (error_text e)
          | None => resolve_entry a pkt
          end
      | None => handle_push pkt
      end)).

(** [handleMessage]; decoding always ends (ProtoPacketProps). *)
Definition handleMessage (data : bytes) : act :=
  match decode_bytes Packet_decode data with
  | Ok pkt => handle_packet pkt
  | Throw err => emit (Dispatch (EvError err))
  | NoFuel => skip
  end.

(** ** Events and steps *)

Inductive Event :=
(** public calls *)
| Connect (t : string)
| Disconnect
| SendMessage (topic : string) (msgType : Z) (data : bytes) (clientMsgId : string) (mentioned : list Z)
| SendText (topic text clientMsgId : string) (mentioned : list Z)
| PullMessages (topic : string) (lastSeq limit : Z)
| SendReadReceipt (topic : string) (upToSeq : Z)
| RecallMessage (topic : string) (topicSeq msgId : Z)
(** the listeners change *)
| Listen (f : RealtimeMessage → list (string * Z))
(** answers of asynchronous calls *)
| GatewayReply (url : string)
| GatewayError (err : string)
| RefreshDone (newToken : string)
| RefreshFailed (err : string)
(** socket events *)
| WsOpen (id : nat) (fresh : string)
| WsMessage (id : nat) (data : bytes)
| WsClose (id : nat)
| WsError (id : nat)
(** timers *)
| AuthTimer (a : Z)
| HeartbeatTick
| HeartbeatTimeout (i : nat)
| ReconnectTimer.

Definition set_readyState (st : ReadyState) (id : nat) : act :=
  upd (λ c, set_sockets (alter (λ s, mkSocket st (listening s)) id (sockets c)) c).

(** Run [k] if socket [id] may deliver the event, i.e. is in one of the states
    [from]; a listener runs only while it is attached. *)
Definition on_socket (id : nat) (from : list ReadyState) (always : act) (k : act) : act := get (λ c,
  match sockets c !! id with
  | Some s => if bool_decide (readyState s ∈ from) then always >>> when (listening s) k else skip
  | None => skip
  end).

(** The callback of an event.  An event whose source is not there (no such
    call in flight, timer not running, socket closed) does nothing. *)
Definition callback (e : Event) : act :=
  match e with
  | Connect t => connect t
  | Disconnect => disconnect
  | SendMessage topic ty data cid ms => sendMessage topic ty data cid ms
  | SendText topic text cid ms => sendText topic text cid ms
  | PullMessages topic lastSeq limit => pullMessages topic lastSeq limit
  | SendReadReceipt topic upTo => sendReadReceipt topic upTo
  | RecallMessage topic ts mid => recallMessage topic ts mid
  | Listen f => upd (set_listeners f)
  | GatewayReply url => get (λ c,
      match gateway_calls c with
      | O => skip
      | S g => upd (λ c, set_calls g (refresh_calls c) c) >>> gateway_reply url
      end)
  | GatewayError err => get (λ c,
      match gateway_calls c with
      | O => skip
      | S g => upd (λ c, set_calls g (refresh_calls c) c) >>> gateway_error err
      end)
  | RefreshDone t => get (λ c,
      match refresh_calls c with
      | O => skip
      | S r => upd (λ c, set_calls (gateway_calls c) r c) >>> refresh_done t
      end)
  | RefreshFailed err => get (λ c,
      match refresh_calls c with
      | O => skip
      | S r => upd (λ c, set_calls (gateway_calls c) r c) >>> refresh_failed err
      end)
  | WsOpen id fresh =>
      on_socket id [CONNECTING] (set_readyState OPEN id) (emit (Dispatch EvConnected) >>> sendAuth id fresh)
  | WsMessage id data => on_socket id [OPEN] skip (handleMessage data)
  | WsClose id =>
      on_socket id [CONNECTING; OPEN; CLOSING] (set_readyState CLOSED id) (cleanup id >>> handleDisconnect)
  | WsError id =>
      on_socket id [CONNECTING; OPEN; CLOSING] skip (cleanup id >>> emit (Rejected "websocket error"))
  | AuthTimer a => get (λ c,
      if set_has a (auth_timers c) then
        clear_auth_timer a >>> upd (λ c, set_pending (map_delete a (pending c)) c) >>> settle a (Some "auth timeout"%string)
      else skip)
  | HeartbeatTick => get (λ c, when (heartbeatTimer c) heartbeat_tick)
  | HeartbeatTimeout i => get (λ c,
      if set_has i (hb_timeouts c) then
        upd (λ c, set_heartbeat (heartbeatTimer c) (heartbeatTimeoutTimer c) (set_delete i (hb_timeouts c)) (hb_next c) c) >>> close_ws
      else skip)
  | ReconnectTimer => get (λ c,
      if bool_decide (is_Some (reconnectTimer c)) then upd (set_reconnectTimer None) >>> doConnect else skip)
  end.

(** The reactions of the promises settled by the callback. *)
Definition run_microtasks : act := get (λ c,
  upd (λ c, set_attempts (attempts c) [] c) >>>
  foldr (λ t k, auth_settled t.1 t.2 >>> k) skip (microtasks c)).

Definition step (e : Event) : act := callback e >>> run_microtasks.

Fixpoint run (es : list Event) : act :=
  match es with
  | [] => skip
  | e :: es' => step e >>> run es'
  end.

End Client.
End Realtime.
