(* ===== verification/RealtimeProps.v ===== *)
(** * Correctness of the real-time client

    Properties of [Realtime.step] and [Realtime.run] over every order of calls,
    socket events, timers and replies: the representation invariant, the
    numbering of frames, what [disconnect] guarantees, reconnection and its
    back-off, the token refresh, heartbeats, and the treatment of pushes and
    errors. *)

From S2P Require Import Prelude JsNum JsMap ProtoRuntime ProtoLaws ProtoSchema ProtoMessages ProtoCodecs ProtoPacket ProtoPacketProps ProtoWire Realtime.
From Stdlib Require Strings.Byte Strings.String.
Import Realtime.
Open Scope Z_scope.

(** ** Relations between the state before, the outputs, and the state after *)

(** A relation that holds of doing nothing and of doing one thing after
    another. *)
Class Composable (R : Client → list Output → Client → Prop) := {
  R_skip c : R c [] c;
  R_bind c o c' o' c'' : R c o c' → R c' o' c'' → R c (o ++ o') c'';
}.

Definition holds_at (R : Client → list Output → Client → Prop) (f : act) (c : Client) : Prop :=
  R c (f c).2 (f c).1.

Definition holds (R : Client → list Output → Client → Prop) (f : act) : Prop := ∀ c, holds_at R f c.

Lemma bind_fst f g c : ((f >>> g) c).1 = (g (f c).1).1.
Proof. unfold bind. destruct (f c) as [c1 o1]. simpl. by destruct (g c1). Qed.

Lemma bind_snd f g c : ((f >>> g) c).2 = (f c).2 ++ (g (f c).1).2.
Proof. unfold bind. destruct (f c) as [c1 o1]. simpl. by destruct (g c1). Qed.

Lemma bind_assoc f g h c : ((f >>> g) >>> h) c = (f >>> (g >>> h)) c.
Proof.
  unfold bind. destruct (f c) as [c1 o1]. destruct (g c1) as [c2 o2]. destruct (h c2) as [c3 o3]. by rewrite app_assoc.
Qed.

Lemma bind_skip f c : (skip >>> f) c = f c.
Proof. unfold bind, skip. by destruct (f c). Qed.

Section Composable.
Context `{HR : Composable R}.


Lemma holds_skip : holds R skip.
Proof. intros c. apply R_skip. Qed.

Lemma holds_bind_at f g c : holds_at R f c → holds_at R g (f c).1 → holds_at R (f >>> g) c.
Proof.
  unfold holds_at, bind. destruct (f c) as [c1 o1]; simpl. destruct (g c1) as [c2 o2]; simpl.
  apply R_bind.
Qed.

Lemma holds_bind f g : holds R f → holds R g → holds R (f >>> g).
Proof. intros Hf Hg c. apply holds_bind_at; [apply Hf|apply Hg]. Qed.

Lemma holds_get k : (∀ c, holds_at R (k c) c) → holds R (get k).
Proof. intros H c. apply H. Qed.

Lemma holds_when b f : holds R f → holds R (when b f).
Proof. intros H. destruct b; [done|apply holds_skip]. Qed.

Lemma holds_foldr {A} (g : A → act → act) l :
  (∀ x k, holds R k → holds R (g x k)) → holds R (foldr g skip l).
Proof. intros H. induction l; simpl; [apply holds_skip|auto]. Qed.

Lemma holds_reject_all err l :
  (∀ a, holds R (clear_auth_timer a)) → (∀ a, holds R (reject_entry a err)) → holds R (reject_all err l).
Proof.
  intros H1 H2. induction l as [|[k a] l IH]; simpl; [apply holds_skip|].
  apply holds_bind; [apply H1|]. by apply holds_bind.
Qed.

Lemma holds_send_receipts `{RT : Runtime} rs :
  (∀ topic upToSeq, holds R (sendReadReceipt topic upToSeq)) → holds R (send_receipts rs).
Proof.
  intros H. induction rs as [|[topic upToSeq] rs IH]; simpl; [apply holds_skip|]. by apply holds_bind.
Qed.

End Composable.

Lemma holds_of R f c : holds R f → holds_at R f c.
Proof. intros H. apply H. Qed.

Ltac head t := lazymatch t with ?f _ => head f | _ => t end.

(** Walk through the structure of an operation down to its assignments and
    outputs. *)
Ltac walk :=
  try solve [auto 3 with nonoka nocore];
  lazymatch goal with
  | |- holds _ (_ >>> _) => apply holds_bind; walk
  | |- holds _ (get _) => apply holds_get; intros ?c; cbv beta; walk
  | |- holds _ (when _ _) => apply holds_when; walk
  | |- holds _ skip => apply holds_skip
  | |- holds _ (reject_all _ _) => apply holds_reject_all; intros ?; walk
  | |- holds _ (send_receipts _) => apply holds_send_receipts; intros ? ?; walk
  | |- holds _ (foldr _ skip _) => apply holds_foldr; intros ? ? ?; cbv beta; walk
  | |- holds _ (match ?x with _ => _ end) => destruct x eqn:?; walk
  | |- holds_at _ (match ?x with _ => _ end) _ => destruct x eqn:?; walk
  | |- holds_at _ _ _ => apply holds_of; walk
  | |- holds _ (upd _) => idtac
  | |- holds _ (emit _) => idtac
  | |- holds _ ?f => first [eassumption | solve [auto with nonoka] | let h := head f in unfold h; cbv beta zeta; walk]
  end.

Section Props.
Context `{RL : RuntimeLaws}.
Context (TextDecoder_decode : bytes → string) (TextEncoder_encode : string → bytes).
Context (API_BASE_URL : string) (payload_user_id : string → option Z).

Abbreviation step := (step TextDecoder_decode TextEncoder_encode API_BASE_URL payload_user_id).
Abbreviation run := (run TextDecoder_decode TextEncoder_encode API_BASE_URL payload_user_id).
Abbreviation callback := (callback TextDecoder_decode TextEncoder_encode API_BASE_URL payload_user_id).

Lemma run_holds R `{!Composable R} es : (∀ e, e ∈ es → holds R (step e)) → holds R (run es).
Proof.
  induction es as [|e es IH]; intros H; simpl; [apply holds_skip|].
  apply holds_bind; [apply H; left|]. apply IH. intros e' He'. apply H. by right.
Qed.

(** ** A closed client stays closed *)

Definition opens (o : Output) : bool :=
  match o with NewSocket _ _ | GetGateway _ | Dispatch EvReconnecting => true | _ => false end.

(** From a closed client with no lookup in flight: closed afterwards, and no
    socket, lookup or reconnection on the way. *)
Definition stays_closed (c : Client) (o : list Output) (c' : Client) : Prop :=
  closed c = true → gateway_calls c = 0%nat →
  closed c' = true ∧ gateway_calls c' = 0%nat ∧ Forall (λ x, opens x = false) o.

#[local] Instance stays_closed_composable : Composable stays_closed.
Proof.
  split.
  - intros c H1 H2. auto.
  - intros c o c' o' c'' H1 H2 Hc Hg. destruct (H1 Hc Hg) as (Hc' & Hg' & Ho).
    destruct (H2 Hc' Hg') as (? & ? & ?). rewrite Forall_app. auto.
Qed.

Lemma stays_closed_doConnect : holds stays_closed (doConnect payload_user_id).
Proof. intros c Hc Hg. unfold doConnect, get. rewrite Hc. cbn. auto. Qed.

Lemma stays_closed_schedule : holds stays_closed scheduleReconnect.
Proof. intros c Hc Hg. unfold scheduleReconnect, get. rewrite Hc. cbn. auto. Qed.

#[local] Hint Resolve stays_closed_doConnect stays_closed_schedule : nonoka.

Lemma stays_closed_callback e : (∀ t, e ≠ Connect t) → holds stays_closed (callback e).
Proof.
  intros He. destruct e; try (exfalso; by eapply He); cbn [Realtime.callback];
    try (intros c Hc Hg; unfold get; rewrite Hg; cbn; auto; fail);
    walk; intros c' Hc' Hg'; cbn; repeat case_match; auto.
Qed.

Lemma stays_closed_microtasks : holds stays_closed run_microtasks.
Proof. walk; intros c' Hc' Hg'; cbn; repeat case_match; auto. Qed.

(** C15: once the client is closed and no gateway lookup is in flight, no
    order of events short of a new [connect] makes it open a socket, look for
    a gateway or announce a reconnection. *)
Theorem closed_stays_closed es c :
  closed c = true → gateway_calls c = 0%nat → Forall (λ e, ∀ t, e ≠ Connect t) es →
  closed (run es c).1 = true ∧ gateway_calls (run es c).1 = 0%nat ∧
  Forall (λ o, opens o = false) (run es c).2.
Proof.
  intros Hc Hg Hes. apply (run_holds stays_closed es); [|done|done].
  intros e He. apply holds_bind; [|apply stays_closed_microtasks].
  apply stays_closed_callback. rewrite Forall_forall in Hes. auto.
Qed.

(** Without the proviso it fails: a lookup that is in flight when
    [disconnect] is called still opens a socket, and the closed client keeps
    it. *)
Theorem disconnect_race t url storage :
  let r := run [Connect t; Disconnect; GatewayReply url] (new_client storage) in
  closed r.1 = true ∧ ws r.1 = Some 0%nat ∧ some opens (drop 1 r.2) = true.
Proof. done. Qed.

(** ** Frames are numbered *)

Definition is_frame (o : Output) : bool := match o with SendFrame _ _ => true | _ => false end.

(** Every frame is the encoding of a packet whose number is larger than [lo]
    and than those before it, and at most [hi]. *)
Inductive frames : Z → list Output → Z → Prop :=
| frames_nil lo hi : lo ≤ hi → frames lo [] hi
| frames_send lo n id cmd p w os hi :
    lo < n → Packet_encode (packet cmd n p) None None = Ok w →
    frames n os hi → frames lo (SendFrame id (W_finish w) :: os) hi
| frames_other lo o os hi : is_frame o = false → frames lo os hi → frames lo (o :: os) hi.

Definition numbered (c : Client) (o : list Output) (c' : Client) : Prop := frames (seq c) o (seq c').

Lemma frames_le lo os hi : frames lo os hi → lo ≤ hi.
Proof. induction 1; lia. Qed.

Lemma frames_weaken lo lo' os hi : lo' ≤ lo → frames lo os hi → frames lo' os hi.
Proof.
  intros Hle Hf. revert lo' Hle. induction Hf; intros lo' Hle;
    [constructor; lia|eapply frames_send; [|eassumption|eassumption]; lia|constructor; auto].
Qed.

Lemma frames_app lo os mid os' hi : frames lo os mid → frames mid os' hi → frames lo (os ++ os') hi.
Proof.
  induction 1 as [lo mid Hle| |]; intros Hf; simpl;
    [by eapply frames_weaken|econstructor; eauto|constructor; auto].
Qed.

#[local] Instance numbered_composable : Composable numbered.
Proof.
  split; [intros c; constructor; lia|]. intros c o c' o' c'' H1 H2. by eapply frames_app.
Qed.

(** What [send] emits for packet number [n]. *)
Lemma send_frames cmd n p c : frames (n - 1) (send (packet cmd n p) c).2 n ∧ (send (packet cmd n p) c).1 = c.
Proof.
  unfold send, get. destruct (open_socket c) as [id|]; [|split; [constructor; lia|done]].
  destruct (Packet_encode (packet cmd n p) None None) as [w| |] eqn:He;
    [|split; [constructor; lia|done]..].
  split; [|done]. apply (frames_send (n - 1) n id cmd p w [] n); [lia|exact He|constructor; lia].
Qed.

(** Taking a number and sending under it. *)
Lemma numbered_next cmd (p : Client → option Payload) :
  holds numbered (nextSeq (λ n, get (λ c, send (packet cmd n (p c))))).
Proof.
  intros c. unfold holds_at, numbered, nextSeq, bind, upd, get. simpl.
  set (c1 := set_seq (seq c + 1) c).
  destruct (send_frames cmd (seq c + 1) (p c1) c1) as [Hf Hc].
  destruct (send _ c1) as [c2 o2]. simpl in *. subst c2. simpl.
  by replace (seq c + 1 - 1) with (seq c) in Hf by lia.
Qed.

Lemma numbered_next_const cmd p : holds numbered (nextSeq (λ n, send (packet cmd n p))).
Proof. exact (numbered_next cmd (λ _, p)). Qed.

Lemma numbered_sendAuth id fresh : holds numbered (sendAuth id fresh).
Proof.
  intros c. unfold holds_at, numbered, sendAuth, nextSeq, bind, upd, get. cbn -[packet send Z.add].
  destruct (getDeviceId (session c) fresh) as [device storage].
    match goal with |- context [send (packet CMD_AUTH ?n ?q) ?c1] =>
    destruct (send_frames CMD_AUTH n q c1) as [Hf Hc]; destruct (send (packet CMD_AUTH n q) c1) as [c2 o2] end.
  simpl in *. subst c2. simpl. by replace (seq c + 1 - 1) with (seq c) in Hf by lia.
Qed.

#[local] Hint Resolve numbered_next numbered_next_const numbered_sendAuth : nonoka.

Lemma numbered_callback e : holds numbered (callback e).
Proof.
  destruct e; cbn [Realtime.callback]; walk.
  all: intros c'; cbn; repeat case_match; repeat constructor; cbn; repeat case_match; cbn; lia.
Qed.

Lemma numbered_microtasks : holds numbered run_microtasks.
Proof. walk; intros c'; cbn; repeat case_match; repeat constructor; cbn; repeat case_match; cbn; lia. Qed.

Lemma numbered_step e : holds numbered (step e).
Proof. apply holds_bind; [apply numbered_callback|apply numbered_microtasks]. Qed.

(** C23: over any sequence of events the frames sent carry strictly increasing
    packet numbers, each the encoding of a packet with that number. *)
Theorem frames_numbered es c : frames (seq c) (run es c).2 (seq (run es c).1).
Proof. apply (run_holds numbered es). intros e _. apply numbered_step. Qed.

(** ** One token refresh per connection *)

Fixpoint count_refresh (os : list Output) : nat :=
  match os with
  | [] => 0
  | RefreshAuth :: os' => S (count_refresh os')
  | _ :: os' => count_refresh os'
  end.

Lemma count_refresh_app os os' : count_refresh (os ++ os') = (count_refresh os + count_refresh os')%nat.
Proof. induction os as [|[] os IH]; simpl; lia. Qed.

(** [1] when a refresh is still allowed. *)
Definition refresh_budget (c : Client) : nat := if didTokenRefresh c then 0 else 1.

Definition refresh_bounded (c : Client) (o : list Output) (c' : Client) : Prop :=
  (count_refresh o + refresh_budget c' ≤ refresh_budget c)%nat.

#[local] Instance refresh_bounded_composable : Composable refresh_bounded.
Proof.
  split; unfold refresh_bounded; [intros c; simpl; lia|].
  intros c o c' o' c'' H1 H2. rewrite count_refresh_app. lia.
Qed.

Lemma refresh_auth_settled id r : holds refresh_bounded (auth_settled id r).
Proof.
  intros c. unfold holds_at, refresh_bounded, refresh_budget, auth_settled. destruct r as [err|].
  - unfold get. destruct (didTokenRefresh c) eqn:Hd; simpl; [by rewrite Hd|].
    destruct (isTokenError err); [done|]. cbn. by rewrite Hd.
  - cbn. by destruct (didTokenRefresh c).
Qed.

#[local] Hint Resolve refresh_auth_settled : nonoka.

Lemma refresh_send pkt : holds refresh_bounded (send pkt).
Proof. unfold send. walk; intros c'; unfold holds_at, refresh_bounded; cbn; lia. Qed.

#[local] Hint Resolve refresh_send : nonoka.

Lemma refresh_step e : (∀ t, e ≠ Connect t) → holds refresh_bounded (step e).
Proof.
  intros He. destruct e; try (exfalso; by eapply He); unfold Realtime.step; cbn [Realtime.callback]; walk.
  all: intros c'; unfold holds_at, refresh_bounded, refresh_budget; cbn; repeat case_match; cbn in *; try lia; congruence.
Qed.

(** C24: after a [connect] the client asks for at most one token refresh,
    whatever the gateway answers, and none once it has. *)
Theorem refresh_at_most_once es c :
  Forall (λ e, ∀ t, e ≠ Connect t) es →
  (count_refresh (run es c).2 ≤ if didTokenRefresh c then 0 else 1)%nat.
Proof.
  intros Hes. enough (refresh_bounded c (run es c).2 (run es c).1) as H
    by (unfold refresh_bounded in H; unfold refresh_budget at 2 in H; lia).
  apply (run_holds refresh_bounded es). intros e He. apply refresh_step.
  rewrite Forall_forall in Hes. auto.
Qed.

(** ** The representation invariant *)

Record Inv (c : Client) : Prop := {
  inv_seq : 0 ≤ seq c;
  inv_pending_wf : map_wf (pending c);
  inv_pending : Forall (λ kv, kv.1 = kv.2 ∧ 1 ≤ kv.1 ≤ seq c) (pending c);
  inv_timers : ∀ a, a ∈ auth_timers c → a ∈ map_keys (pending c);
  inv_attempts : Forall (λ kv, 1 ≤ kv.1 ≤ seq c) (attempts c);
  inv_resolver : ∀ a, authResolver c = Some a → 1 ≤ a ≤ seq c;
  inv_ws : ∀ id, ws c = Some id → (id < length (sockets c))%nat;
  inv_attempt : 0 ≤ reconnectAttempt c;
  inv_delay : ∀ d, reconnectTimer c = Some d → 1000 ≤ d ≤ MAX_RECONNECT_DELAY_MS;
}.

Definition keeps_inv (c : Client) (_ : list Output) (c' : Client) : Prop := Inv c → Inv c'.

#[local] Instance keeps_inv_composable : Composable keeps_inv.
Proof. split; unfold keeps_inv; auto. Qed.

(** Updates of fields the invariant does not constrain. *)
Lemma keeps_inv_upd (f : Client → Client) :
  (∀ c, Inv c → Inv (f c)) → holds keeps_inv (upd f).
Proof. intros H c. exact (H c). Qed.

Lemma inv_next c : Inv c → Inv (set_seq (seq c + 1) c).
Proof.
  intros []. constructor; simpl; try done; try lia.
  - eapply Forall_impl; [done|]. intros x [? ?]. split; [done|lia].
  - eapply Forall_impl; [done|]. intros x ?. simpl in *. lia.
  - intros a Ha. specialize (inv_resolver0 a Ha). lia.
Qed.

Lemma inv_settle a r c : Inv c → Inv (settle a r c).1.
Proof.
  intros Hi. unfold settle, upd. simpl. destruct (map_get a (attempts c)); [|done].
  destruct Hi. constructor; simpl; try done. by apply map_delete_Forall.
Qed.

(** Removing an entry together with its timer. *)
Lemma inv_drop_entry a c : Inv c →
  Inv (set_pending (map_delete a (pending c)) (set_auth_timers (set_delete a (auth_timers c)) c)).
Proof.
  intros []. constructor; simpl; try done; auto with nonoka.
  - by apply map_delete_Forall.
  - intros b [Hne Hb]%elem_of_set_delete. apply inv_timers0, map_get_keys in Hb.
    apply map_get_keys. by rewrite map_get_delete_ne.
Qed.

Lemma inv_clear_timer a c : Inv c → Inv (clear_auth_timer a c).1.
Proof.
  intros []. constructor; simpl; try done. intros b [_ Hb]%elem_of_set_delete. auto.
Qed.

Lemma inv_delete_entry a c : Inv c → a ∉ auth_timers c → Inv (set_pending (map_delete a (pending c)) c).
Proof.
  intros [] Ha. constructor; simpl; try done; auto with nonoka.
  - by apply map_delete_Forall.
  - intros b Hb. apply map_get_keys. rewrite map_get_delete_ne by (intros ->; done). by apply map_get_keys, inv_timers0.
Qed.

Lemma inv_reject_entry a err c : Inv c → a ∉ auth_timers c → Inv (reject_entry a err c).1.
Proof. intros Hi Ha. unfold reject_entry. rewrite bind_fst. by apply inv_settle, inv_delete_entry. Qed.

(** The loop of [rejectPending]. *)
Lemma reject_loop (l : list (Z * Z)) err : ∀ c, Inv c →
  let c' := (reject_all err l c).1 in
  Inv c' ∧ (∀ a, a ∈ auth_timers c' → a ∈ auth_timers c ∧ a ∉ l.*2) ∧ authResolver c' = authResolver c.
Proof.
  induction l as [|[k a] l IH]; intros c Hi; csimpl; [split; [done|]; split; [set_solver+|done]|].
  rewrite !bind_fst. set (c1 := (clear_auth_timer a c).1). set (c2 := (reject_entry a err c1).1).
  assert (Ha : a ∉ auth_timers c1) by (simpl; rewrite elem_of_set_delete; clear; naive_solver).
  pose proof (inv_reject_entry a err _ (inv_clear_timer a c Hi) Ha) as Hc2.
  destruct (IH c2 Hc2) as (Hi' & Ht & Hr).
  assert (auth_timers c2 = set_delete a (auth_timers c) ∧ authResolver c2 = authResolver c) as [Ht2 Hr2]
    by (unfold c2; cbn; by case_match).
  split; [done|]. split; [|congruence]. intros b [Hb Hn]%Ht. rewrite Ht2, elem_of_set_delete in Hb.
  set_solver+Hb Hn.
Qed.

Lemma inv_no_pending c : Inv c → auth_timers c = [] → Inv (set_pending [] c).
Proof.
  intros [] Ht. constructor; simpl; try done; try (by constructor). rewrite Ht. set_solver+.
Qed.

(** [rejectPending] leaves nothing pending. *)
Lemma rejectPending_spec err c : Inv c →
  let c' := (rejectPending err c).1 in
  Inv c' ∧ pending c' = [] ∧ auth_timers c' = [] ∧ authResolver c' = None.
Proof.
  intros Hi. unfold rejectPending. rewrite !bind_fst. cbv zeta.
  change ((get (λ c, reject_all err (pending c)) c).1) with (reject_all err (pending c) c).1.
  destruct (reject_loop (pending c) err c Hi) as (Hi1 & Ht & Hr). cbv zeta in *.
  set (c1 := (reject_all err (pending c) c).1) in *.
  assert (Ht1 : auth_timers c1 = []).
  { destruct (auth_timers c1) as [|a l] eqn:E; [done|]. destruct (Ht a) as [H1 H2]; [left|].
    destruct Hi. apply inv_timers0, list_elem_of_fmap in H1 as ([k b] & -> & Hin).
    rewrite Forall_forall in inv_pending0. destruct (inv_pending0 _ Hin) as [Heq _]. simpl in *. subst b.
    exfalso. apply H2, list_elem_of_fmap. by exists (k, k). }
  pose proof (inv_no_pending _ Hi1 Ht1) as Hi2. cbn [upd fst]. set (c2 := set_pending [] c1) in *.
  unfold get. destruct (authResolver c2) as [a|] eqn:Ha; [|done].
  rewrite bind_fst. pose proof (inv_settle a (Some err) c2 Hi2) as H3. cbn in *.
  split; [destruct H3; by constructor|by case_match].
Qed.

(** An assignment or output that leaves the invariant alone. *)
Ltac inv_prim :=
  intros ?c ?Hi; first
    [ exact Hi
    | destruct Hi; cbn; repeat case_match; constructor; cbn; try done;
      try (intros ? [=]; fail); try (intros; rewrite ?length_alter; auto; fail) ].

Lemma keeps_inv_settle a r : holds keeps_inv (settle a r).
Proof. intros c Hi. by apply inv_settle. Qed.

Lemma keeps_inv_next (k : Z → act) : (∀ n, holds keeps_inv (k n)) → holds keeps_inv (nextSeq k).
Proof.
  intros Hk. unfold nextSeq. apply holds_bind; [apply keeps_inv_upd, inv_next|].
  apply holds_get. intros c. apply holds_of, Hk.
Qed.

Lemma keeps_inv_seq : holds keeps_inv (upd (λ c, set_seq (seq c + 1) c)).
Proof. apply keeps_inv_upd, inv_next. Qed.

Lemma keeps_inv_send pkt : holds keeps_inv (send pkt).
Proof. unfold send. walk; inv_prim. Qed.

Lemma keeps_inv_rejectPending err : holds keeps_inv (rejectPending err).
Proof. intros c Hi. by apply rejectPending_spec. Qed.

Lemma keeps_inv_schedule : holds keeps_inv scheduleReconnect.
Proof.
  intros c Hi. unfold scheduleReconnect, get. destruct (closed c || _); [done|].
  cbn -[Z.min Z.mul Z.pow]. destruct Hi. constructor; simpl; try done; try lia.
  intros d [= <-]. unfold MAX_RECONNECT_DELAY_MS.
  pose proof (Z.pow_pos_nonneg 2 (reconnectAttempt c)). lia.
Qed.

Lemma keeps_inv_gateway_reply url : holds keeps_inv (gateway_reply API_BASE_URL url).
Proof.
  intros c []. cbn. constructor; simpl; try done.
  intros id [= <-]. rewrite length_app. simpl. lia.
Qed.

Lemma keeps_inv_sendAuth id fresh : holds keeps_inv (sendAuth id fresh).
Proof.
  intros c Hi. unfold sendAuth, nextSeq. unfold keeps_inv, holds_at. rewrite bind_fst. unfold get at 1.
  set (c1 := (upd (λ c, set_seq (seq c + 1) c) c).1).
  assert (Hi1 : Inv c1) by (by apply inv_next). assert (Hs : 1 ≤ seq c1) by (destruct Hi; simpl; lia).
  clearbody c1. rewrite !bind_fst. cbn [upd fst].
  set (c2 := set_auth_timers _ _). assert (Hi2 : Inv c2).
  { destruct Hi1. unfold c2. constructor; simpl; try done; auto with nonoka.
    - apply map_set_Forall; [done|naive_solver lia|simpl; lia].
    - intros a Ha. apply map_get_keys. rewrite map_get_set. case_decide; [done|].
      apply map_get_keys, inv_timers0. apply elem_of_set_add in Ha as [->|]; [done|done].
    - apply map_set_Forall; [done|naive_solver lia|simpl; lia].
    - intros a [= <-]. lia. }
  clearbody c2. unfold get. destruct (getDeviceId (session c2) fresh) as [device storage].
  rewrite bind_fst. apply (keeps_inv_send _ _). cbn. destruct Hi2. by constructor.
Qed.

#[local] Hint Resolve keeps_inv_seq keeps_inv_settle keeps_inv_next keeps_inv_send keeps_inv_rejectPending
  keeps_inv_schedule keeps_inv_gateway_reply keeps_inv_sendAuth : nonoka.

Lemma keeps_inv_handle_push pkt : holds keeps_inv (handle_push TextDecoder_decode pkt).
Proof.
  unfold handle_push, on_payload. repeat case_match; walk; inv_prim.
Qed.

Lemma keeps_inv_handle_packet pkt : holds keeps_inv (handle_packet TextDecoder_decode pkt).
Proof.
  unfold handle_packet, on_payload. set (n := Number_long (Packet_seq pkt)).
  assert (Hp : holds keeps_inv (get (λ c,
    match map_get n (pending c) with
    | Some a => clear_auth_timer a >>> upd (λ c, set_pending (map_delete n (pending c)) c) >>>
        match Packet_error pkt with Some e => reject_entry a (error_text e) | None => resolve_entry a pkt end
    | None => handle_push TextDecoder_decode pkt
    end))).
  { intros c Hi. unfold get. destruct (map_get n (pending c)) as [a|] eqn:Hn; [|by apply keeps_inv_handle_push].
    assert (n = a) as <-.
    { destruct Hi. apply map_get_elem in Hn. rewrite Forall_forall in inv_pending0.
      by destruct (inv_pending0 _ Hn). }
    rewrite !bind_fst. cbn [upd fst clear_auth_timer].
    pose proof (inv_drop_entry n c Hi) as H1. cbn in H1.
    set (c1 := set_pending _ _) in *.
    assert (Hn1 : n ∉ auth_timers c1) by (simpl; rewrite elem_of_set_delete; naive_solver).
    destruct (Packet_error pkt); [by apply inv_reject_entry|].
    unfold resolve_entry. rewrite bind_fst. by apply inv_settle, inv_delete_entry. }
  repeat case_match; walk; inv_prim.
Qed.

Lemma keeps_inv_handleMessage data : holds keeps_inv (handleMessage TextDecoder_decode data).
Proof. unfold handleMessage. case_match; [apply keeps_inv_handle_packet|inv_prim..]. Qed.

#[local] Hint Resolve keeps_inv_handleMessage : nonoka.

Lemma keeps_inv_auth_timer a : holds keeps_inv
  (clear_auth_timer a >>> upd (λ c, set_pending (map_delete a (pending c)) c) >>> settle a (Some "auth timeout"%string)).
Proof.
  intros c Hi. unfold holds_at. rewrite !bind_fst. apply inv_settle, inv_delete_entry.
  - by apply inv_clear_timer.
  - simpl. rewrite elem_of_set_delete. naive_solver.
Qed.

#[local] Hint Resolve keeps_inv_auth_timer : nonoka.

Lemma keeps_inv_callback e : holds keeps_inv (callback e).
Proof. destruct e; cbn [Realtime.callback]; walk; inv_prim. Qed.

Lemma keeps_inv_microtasks : holds keeps_inv run_microtasks.
Proof. walk; inv_prim. Qed.

Lemma keeps_inv_step e : holds keeps_inv (step e).
Proof. apply holds_bind; [apply keeps_inv_callback|apply keeps_inv_microtasks]. Qed.

Lemma new_client_inv storage : Inv (new_client storage).
Proof. constructor; simpl; try done; try lia; try (by constructor). Qed.

Lemma run_inv es c : Inv c → Inv (run es c).1.
Proof. apply (run_holds keeps_inv es). intros e _. apply keeps_inv_step. Qed.

(** C14: every state the client can reach is well formed: pending entries and
    authentication attempts carry numbers already given out, every running
    authentication timer has its entry, the current socket exists, and a
    scheduled reconnection waits between one and thirty seconds. *)
Theorem reachable_inv es storage : Inv (run es (new_client storage)).1.
Proof. apply run_inv, new_client_inv. Qed.

(** ** Disconnecting *)

(** The promises a callback settles are rejected with [err]. *)
Definition rejects (err : string) (c : Client) (_ : list Output) (c' : Client) : Prop :=
  ∀ t, t ∈ microtasks c' → t ∈ microtasks c ∨ t.2 = Some err.

#[local] Instance rejects_composable err : Composable (rejects err).
Proof.
  split; [by left|]. intros c o c' o' c'' H1 H2 t [Ht|Ht]%H2; [|by right]. by apply H1.
Qed.

Lemma rejects_settle err a : holds (rejects err) (settle a (Some err)).
Proof.
  intros c t. cbn. case_match; [|by left]. cbn. intros [Ht|Ht]%elem_of_app; [by left|].
  apply list_elem_of_singleton in Ht as ->. by right.
Qed.

#[local] Hint Resolve rejects_settle : nonoka.

Lemma disconnect_rejects : holds (rejects "disconnected") disconnect.
Proof. unfold disconnect. walk; intros c' t; cbn; by left. Qed.

(** Rejections that are not about the token only reach the caller. *)
Lemma settled_plain err ts c :
  isTokenError err = false → (∀ t, t ∈ ts → t.2 = Some err) →
  (foldr (λ t k, auth_settled t.1 t.2 >>> k) skip ts c).1 = c.
Proof.
  intros He. revert c. induction ts as [|[id r] ts IH]; intros c Hts; [done|]. simpl foldr.
  rewrite bind_fst. assert (r = Some err) as -> by (apply (Hts (id, r)); left).
  assert (Hc : (auth_settled id (Some err) c).1 = c).
  { unfold auth_settled, get. by rewrite He, andb_false_r. }
  cbn [fst snd]. rewrite Hc. apply IH. set_solver+Hts.
Qed.

Lemma rejects_then_tasks f err c :
  isTokenError err = false → microtasks c = [] → holds (rejects err) f →
  ((f >>> run_microtasks) c).1 = set_attempts (attempts (f c).1) [] (f c).1.
Proof.
  intros He Hm Hr. rewrite bind_fst. set (c1 := (f c).1).
  unfold run_microtasks, get. rewrite bind_fst. apply (settled_plain err); [done|].
  intros t Ht. destruct (Hr c t Ht) as [H|H]; [|done]. rewrite Hm in H. by apply elem_of_nil in H.
Qed.

(** The fields [rejectPending] does not touch. *)
Definition connection (c : Client) : bool * option nat * list Socket * (bool * option nat * list nat) * (option Z * Z * bool) * (nat * nat) :=
  (closed c, ws c, sockets c, (heartbeatTimer c, heartbeatTimeoutTimer c, hb_timeouts c),
   (reconnectTimer c, reconnectAttempt c, didTokenRefresh c), (gateway_calls c, refresh_calls c)).

Definition same_connection (c : Client) (_ : list Output) (c' : Client) : Prop := connection c' = connection c.

#[local] Instance same_connection_composable : Composable same_connection.
Proof. split; unfold same_connection; congruence. Qed.

Lemma rejectPending_connection err c : connection (rejectPending err c).1 = connection c.
Proof.
  apply (holds_of same_connection). unfold rejectPending. walk; intros c'; unfold holds_at, same_connection; cbn;
    by repeat case_match.
Qed.

(** The client is closed and none of its fields refers to a socket, a request
    or a timer.  Sockets and time-outs it no longer refers to may still exist. *)
Record unattached (c : Client) : Prop := {
  unattached_closed : closed c = true;
  unattached_ws : ws c = None;
  unattached_pending : pending c = [];
  unattached_auth_timers : auth_timers c = [];
  unattached_resolver : authResolver c = None;
  unattached_heartbeat : heartbeatTimer c = false;
  unattached_timeout : heartbeatTimeoutTimer c = None;
  unattached_reconnect : reconnectTimer c = None;
}.

(** What giving up the connection does, from [c] to [c']: the client refers to
    nothing any more; the socket in use is closing and the current heartbeat
    time-out is cancelled; every other socket and heartbeat time-out, and the
    calls in flight, are as they were. *)
Record released (c c' : Client) : Prop := {
  released_unattached : unattached c';
  released_sockets : sockets c' = match ws c with Some id => alter closing id (sockets c) | None => sockets c end;
  released_timeouts : hb_timeouts c' =
    match heartbeatTimeoutTimer c with Some i => set_delete i (hb_timeouts c) | None => hb_timeouts c end;
  released_calls : gateway_calls c' = gateway_calls c ∧ refresh_calls c' = refresh_calls c;
}.

(** The client still refers to everything that runs: the socket in use is the
    only one connecting or open, and the current heartbeat time-out the only
    one running. *)
Definition tracked (c : Client) : Prop :=
  (∀ id s, sockets c !! id = Some s → readyState s ∈ [CONNECTING; OPEN] → ws c = Some id) ∧
  (∀ i, i ∈ hb_timeouts c → heartbeatTimeoutTimer c = Some i).

Lemma disconnect_released c : Inv c → released c (disconnect c).1.
Proof.
  intros Hi. unfold disconnect. rewrite !bind_fst.
  set (c1 := (clearTimers (upd (set_closed true) c).1).1).
  assert (Hi1 : Inv c1) by (destruct Hi; by constructor).
  destruct (rejectPending_spec "disconnected" c1 Hi1) as (_ & Hp & Ht & Hr).
  pose proof (rejectPending_connection "disconnected" c1) as Hcn.
  set (c2 := (rejectPending "disconnected" c1).1) in *. clearbody c2.
  injection Hcn as H1 H2 H3 H4 H5 H6 H7 H8 H9 H10 H11. unfold get.
  change (ws c1) with (ws c) in H2. change (sockets c1) with (sockets c) in H3. rewrite H2.
  destruct (ws c) eqn:Hw; (split; [constructor|..]); cbn -[alter]; rewrite ?Hw, ?H3; try done; by rewrite ?H6.
Qed.

Lemma disconnect_unattached c : Inv c → unattached (disconnect c).1.
Proof. intros Hi. apply (released_unattached c), disconnect_released, Hi. Qed.

(** A client that still refers to everything that runs leaves nothing running. *)
Lemma released_all c c' : tracked c → released c c' →
  (∀ id s, sockets c' !! id = Some s → readyState s ∈ [CLOSING; CLOSED]) ∧ hb_timeouts c' = [].
Proof.
  intros [Hs Ht] [_ Hs' Ht' _]. split.
  - intros id s Hid. rewrite Hs' in Hid.
    assert (Hany : ∀ s0, readyState s0 ∉ [CONNECTING; OPEN] → readyState s0 ∈ [CLOSING; CLOSED])
      by (intros s0; destruct (readyState s0); set_solver).
    destruct (ws c) as [i|] eqn:Hw; [|apply Hany; intros Hr; by specialize (Hs _ _ Hid Hr)].
    rewrite list_lookup_alter in Hid. destruct (decide (i = id)) as [->|Hne].
    + apply fmap_Some in Hid as (s0 & _ & ->). unfold closing. destruct (readyState s0) eqn:E; simpl; rewrite ?E; set_solver.
    + apply Hany. intros Hr. specialize (Hs _ _ Hid Hr). congruence.
  - rewrite Ht'. apply elem_of_nil_inv. intros i. destruct (heartbeatTimeoutTimer c) as [j|] eqn:E.
    + rewrite elem_of_set_delete. intros [Hne Hi]. specialize (Ht _ Hi). congruence.
    + intros Hi. specialize (Ht _ Hi). congruence.
Qed.

(** The socket in use is told to close. *)
Lemma disconnect_closes c id : ws c = Some id → CloseSocket id ∈ (disconnect c).2.
Proof.
  intros Hw. unfold disconnect. rewrite !bind_snd. do 3 (apply elem_of_app; right). apply elem_of_app; left.
  set (c1 := (clearTimers (upd (set_closed true) c).1).1).
  pose proof (rejectPending_connection "disconnected" c1) as Hcn.
  assert (H : ws (rejectPending "disconnected" c1).1 = Some id) by (injection Hcn as _ -> _; exact Hw).
  unfold get. rewrite H. cbn. by left.
Qed.

Lemma unattached_attempts l l' c : unattached c → unattached (set_attempts l l' c).
Proof. intros []. by constructor. Qed.

Lemma released_attempts l l' c c' : released c c' → released c (set_attempts l l' c').
Proof. intros [?%(unattached_attempts l l') ???]. by constructor. Qed.

(** No reaction settles another promise: a step leaves none waiting. *)
Definition no_tasks (c : Client) (_ : list Output) (c' : Client) : Prop := microtasks c = [] → microtasks c' = [].

#[local] Instance no_tasks_composable : Composable no_tasks.
Proof. split; unfold no_tasks; auto. Qed.

Lemma tasks_done f c : microtasks ((f >>> run_microtasks) c).1 = [].
Proof.
  rewrite bind_fst. set (c1 := (f c).1). unfold run_microtasks, get.
  rewrite bind_fst. refine ((_ : holds no_tasks _) _ _); [|done].
  walk; intros c'; unfold holds_at, no_tasks; cbn; by repeat case_match.
Qed.

Lemma run_snoc es e c : (run (es ++ [e]) c).1 = (step e (run es c).1).1.
Proof.
  revert c. induction es as [|e' es IH]; intros c; cbn [app Realtime.run]; rewrite !bind_fst; [done|]. by rewrite IH.
Qed.

Lemma run_no_tasks es c : microtasks c = [] → microtasks (run es c).1 = [].
Proof.
  intros Hc. destruct es as [|e es _] using rev_ind; [done|]. rewrite run_snoc. apply tasks_done.
Qed.

(** A callback that settles no promise is the whole step. *)
Lemma step_quiet e c :
  microtasks c = [] → microtasks (callback e c).1 = [] →
  step e c = (set_attempts (attempts (callback e c).1) [] (callback e c).1, (callback e c).2).
Proof.
  intros Hc He. unfold Realtime.step, bind. destruct (callback e c) as [c1 o1]. simpl in *.
  unfold run_microtasks, get, bind, upd. simpl. rewrite He. simpl. by rewrite app_nil_r.
Qed.

(** The [Disconnect] step from any state the client reaches. *)
Lemma disconnect_step c : Inv c → microtasks c = [] → released c (step Disconnect c).1.
Proof.
  intros Hi Hm. unfold Realtime.step.
  rewrite (rejects_then_tasks _ "disconnected"); [|done|done|apply disconnect_rejects].
  by apply released_attempts, disconnect_released.
Qed.

(** C16: what [disconnect] does, after any history: the client is closed and
    refers to no socket, request, heartbeat, reconnection or authentication
    timer; the socket in use is closing, the current heartbeat time-out is
    cancelled, and every socket or time-out it had lost track of, and every
    lookup or refresh in flight, is left as it was.  If it had lost track of
    none, then no socket is connecting or open and no time-out is left. *)
Theorem disconnect_clean es storage :
  let c := (run es (new_client storage)).1 in
  let c' := (run (es ++ [Disconnect]) (new_client storage)).1 in
  released c c' ∧
  (tracked c → (∀ id s, sockets c' !! id = Some s → readyState s ∈ [CLOSING; CLOSED]) ∧ hb_timeouts c' = []).
Proof.
  rewrite run_snoc. intros c c'.
  assert (Hr : released c c').
  { apply disconnect_step; [apply run_inv, new_client_inv|by apply run_no_tasks]. }
  split; [done|]. intros Ht. by apply released_all in Hr.
Qed.

Lemma send_unconnected pkt c : ws c = None → send pkt c = (c, []).
Proof. intros H. unfold send, get, open_socket. by rewrite H. Qed.

(** [sendAuth] with no socket in use: an attempt that waits for its time-out. *)
Lemma sendAuth_unsent id fresh c : ws c = None → pending c = [] → auth_timers c = [] →
  let r := sendAuth id fresh c in
  r.2 = [] ∧ closed r.1 = closed c ∧ ws r.1 = None ∧ pending r.1 = [(seq c + 1, seq c + 1)] ∧
  auth_timers r.1 = [seq c + 1] ∧ microtasks r.1 = microtasks c.
Proof.
  intros Hw Hp Ha r.
  assert (Hr : ∃ pkt c', r = send pkt c' ∧ (ws c', pending c', auth_timers c', closed c', microtasks c') =
    (None, [(seq c + 1, seq c + 1)], [seq c + 1], closed c, microtasks c)).
  { unfold r, sendAuth, nextSeq, get, bind, upd. cbn -[send packet getDeviceId].
    destruct (getDeviceId _ fresh) as [dev st]. cbn -[send packet].
    match goal with |- context [send ?p ?c'] => exists p, c'; destruct (send p c') end.
    split; [done|]. destruct c; simpl in *; by subst. }
  destruct Hr as (pkt & c' & -> & [= Hw' Hp' Ha' Hc' Hm']). rewrite send_unconnected by done. cbn. by rewrite Hc', Hw', Hp', Ha', Hm'.
Qed.

(** A closed client with no socket in use hears of a socket that opens. *)
Lemma orphan_opens c id fresh :
  unattached c → microtasks c = [] → sockets c !! id = Some (mkSocket CONNECTING true) →
  let r := step (WsOpen id fresh) c in
  r.2 = [Dispatch EvConnected] ∧ closed r.1 = true ∧ ws r.1 = None ∧
  pending r.1 = [(seq c + 1, seq c + 1)] ∧ auth_timers r.1 = [seq c + 1].
Proof.
  intros [Hc Hw Hp Ha _ _ _ _] Hm Hid r. set (c2 := (set_readyState OPEN id c).1).
  destruct (sendAuth_unsent id fresh c2 Hw Hp Ha) as (Ho & Hc2 & Hw2 & Hp2 & Ha2 & Hm2).
  assert (Hcb : callback (WsOpen id fresh) c = ((sendAuth id fresh c2).1, [Dispatch EvConnected])).
  { cbn [Realtime.callback]. unfold on_socket, get at 1. rewrite Hid.
    rewrite bool_decide_eq_true_2 by (simpl; set_solver+). cbn [listening when].
    unfold bind. change (set_readyState OPEN id c) with (c2, @nil Output). cbn [emit].
    destruct (sendAuth id fresh c2) as [c3 o3]. cbn in Ho. by subst o3. }
  assert (Hr : r = (set_attempts (attempts (sendAuth id fresh c2).1) [] (sendAuth id fresh c2).1, [Dispatch EvConnected])).
  { unfold r. rewrite step_quiet; rewrite ?Hcb; [done|done|]. cbn [fst]. by rewrite Hm2. }
  rewrite Hr. clear Hr Hcb r Ho. revert Hc2 Hw2 Hp2 Ha2. generalize (sendAuth id fresh c2).1. intros c3 Hc2 Hw2 Hp2 Ha2.
  cbn. by rewrite Hc2, Hw2, Hp2, Ha2.
Qed.

(** A socket the client lost track of outlives [disconnect]: it goes on
    connecting with its listeners, and when it opens the closed client reports
    a connection and starts an authentication attempt, with its ten-second
    timer, whose packet cannot be sent. *)
Theorem orphan_outlives_disconnect c id fresh :
  Inv c → microtasks c = [] → sockets c !! id = Some (mkSocket CONNECTING true) → ws c ≠ Some id →
  let c1 := (step Disconnect c).1 in
  let r := step (WsOpen id fresh) c1 in
  sockets c1 !! id = Some (mkSocket CONNECTING true) ∧
  r.2 = [Dispatch EvConnected] ∧ closed r.1 = true ∧ ws r.1 = None ∧
  pending r.1 = [(seq c1 + 1, seq c1 + 1)] ∧ auth_timers r.1 = [seq c1 + 1].
Proof.
  intros Hi Hm Hid Hne. cbv zeta. destruct (disconnect_step c Hi Hm) as [Hq Hs _ _].
  assert (Hm1 : microtasks (step Disconnect c).1 = []) by (unfold Realtime.step; apply tasks_done).
  assert (Hid1 : sockets (step Disconnect c).1 !! id = Some (mkSocket CONNECTING true)).
  { rewrite Hs. destruct (ws c) as [i|]; [|done]. rewrite list_lookup_alter, decide_False; [done|congruence]. }
  split; [done|]. by apply orphan_opens.
Qed.

(** ** Reconnecting *)

(** The delay before attempt [n]. *)
Definition backoff (n : Z) : Z := Z.min (1000 * 2 ^ n) MAX_RECONNECT_DELAY_MS.

(** Waiting for a gateway with [n] failed attempts behind. *)
Definition looking (n : Z) (c : Client) : Prop :=
  closed c = false ∧ gateway_calls c = 1%nat ∧ reconnectTimer c = None ∧ reconnectAttempt c = n ∧ microtasks c = [].

Lemma reconnect_fires d c :
  closed c = false → reconnectTimer c = Some d → microtasks c = [] →
  (step ReconnectTimer c).1 =
  set_attempts (attempts c) [] (set_calls (S (gateway_calls c)) (refresh_calls c)
    (set_userId (Some (extractUserId payload_user_id (token c))) (set_reconnectTimer None c))).
Proof.
  intros Hc Ht Hm.
  assert (H : callback ReconnectTimer c = (set_calls (S (gateway_calls c)) (refresh_calls c)
    (set_userId (Some (extractUserId payload_user_id (token c))) (set_reconnectTimer None c)),
    [GetGateway (extractUserId payload_user_id (token c))])).
  { cbn [Realtime.callback]. unfold get. rewrite Ht. unfold doConnect, get, bind, upd. simpl. by rewrite Hc. }
  rewrite step_quiet; rewrite ?H; done.
Qed.

Lemma failed_lookup n err c : looking n c →
  let c1 := (step (GatewayError err) c).1 in
  reconnectTimer c1 = Some (backoff n) ∧ closed c1 = false ∧ looking (n + 1) (step ReconnectTimer c1).1.
Proof.
  intros (Hc & Hg & Ht & Ha & Hm).
  assert (H1 : (step (GatewayError err) c).1 =
    set_attempts (attempts c) [] (set_reconnectAttempt (n + 1) (set_reconnectTimer (Some (backoff n))
      (set_calls 0 (refresh_calls c) c)))).
  { rewrite step_quiet; [|done|]; cbn [Realtime.callback]; unfold get, gateway_error, scheduleReconnect, bind, when, upd, get;
      rewrite Hg; cbn -[Z.pow Z.mul Z.min]; rewrite Hc; cbn -[Z.pow Z.mul Z.min]; rewrite ?Hc, ?Ht; cbn -[Z.pow Z.mul Z.min]; rewrite ?Ha; done. }
  rewrite H1. split; [done|]. split; [done|].
  rewrite (reconnect_fires (backoff n)) by done. done.
Qed.

(** [n] failed lookups, each followed by the timer. *)
Fixpoint failures (n : nat) (err : string) : list Event :=
  match n with
  | O => []
  | S n' => GatewayError err :: ReconnectTimer :: failures n' err
  end.

Lemma failures_looking n err : ∀ k c, looking k c → looking (k + Z.of_nat n) (run (failures n err) c).1.
Proof.
  induction n as [|n IH]; intros k c Hl; cbn [failures Realtime.run].
  - by rewrite Z.add_0_r.
  - rewrite !bind_fst. destruct (failed_lookup k err c Hl) as (_ & _ & H). apply IH in H.
    by replace (k + Z.of_nat (S n)) with (k + 1 + Z.of_nat n) by lia.
Qed.

(** C25: while the gateway lookup fails the client keeps trying: after [n]
    failed rounds the next failure schedules attempt [n + 1] after
    min(1000 * 2^n, 30000) milliseconds, and when that timer fires a new lookup
    is on its way. *)
Theorem reconnect_backoff n err t storage :
  let c := (run (Connect t :: failures n err ++ [GatewayError err]) (new_client storage)).1 in
  reconnectTimer c = Some (Z.min (1000 * 2 ^ Z.of_nat n) 30000) ∧
  closed c = false ∧ gateway_calls (step ReconnectTimer c).1 = 1%nat.
Proof.
  cbv zeta. change (Connect t :: failures n err ++ [GatewayError err])
    with ((Connect t :: failures n err) ++ [GatewayError err]). rewrite run_snoc.
  assert (Hl : looking (Z.of_nat n) (run (Connect t :: failures n err) (new_client storage)).1).
  { cbn [Realtime.run]. rewrite bind_fst. apply (failures_looking n err 0). done. }
  by destruct (failed_lookup _ err _ Hl) as (H1 & Hc & (_ & H2 & _)).
Qed.

(** The socket [id] is connected or connecting and its listeners are attached. *)
Definition live_socket (c : Client) (id : nat) : Prop :=
  ∃ s, sockets c !! id = Some s ∧ readyState s ≠ CLOSED ∧ listening s = true.

Lemma live_from s : readyState s ≠ CLOSED → bool_decide (readyState s ∈ [CONNECTING; OPEN; CLOSING]) = true.
Proof. intros H. apply bool_decide_eq_true. destruct (readyState s); set_solver. Qed.

Lemma handleDisconnect_rejects : holds (rejects "disconnected") handleDisconnect.
Proof. unfold handleDisconnect. walk; intros c' t; cbn; by left. Qed.

#[local] Hint Resolve handleDisconnect_rejects : nonoka.

Lemma on_socket_live c id always k :
  live_socket c id → on_socket id [CONNECTING; OPEN; CLOSING] always k c = (always >>> k) c.
Proof.
  intros (s & Hs & Hst & Hl). unfold on_socket, get. by rewrite Hs, live_from, Hl by done.
Qed.

Lemma schedule_timer c : closed c = false →
  let c' := (scheduleReconnect c).1 in
  ws c' = ws c ∧ pending c' = pending c ∧ heartbeatTimer c' = heartbeatTimer c ∧ is_Some (reconnectTimer c').
Proof.
  intros Hc. unfold scheduleReconnect, get. rewrite Hc. simpl.
  case_bool_decide as Ht; cbn -[Z.min Z.mul Z.pow]; eauto.
Qed.

Lemma handleDisconnect_spec c : Inv c → closed c = false →
  let c' := (handleDisconnect c).1 in
  ws c' = None ∧ pending c' = [] ∧ heartbeatTimer c' = false ∧ is_Some (reconnectTimer c').
Proof.
  intros Hi Hc. unfold handleDisconnect. rewrite !bind_fst. set (c2 := (stopHeartbeat c).1).
  assert (Hi2 : Inv c2) by (destruct Hi; by constructor).
  destruct (rejectPending_spec "disconnected" c2 Hi2) as (_ & Hp & _ & _).
  pose proof (rejectPending_connection "disconnected" c2) as Hcn.
  set (c3 := (rejectPending "disconnected" c2).1) in *. clearbody c3.
  injection Hcn as H1 H2 H3 H4 H5 H6 H7 H8. cbn [upd emit fst].
  assert (Hc4 : closed (set_ws None c3) = false) by (simpl; congruence).
  unfold get. rewrite Hc4. cbn [negb when].
  destruct (schedule_timer _ Hc4) as (-> & -> & -> & Ht). cbn [ws pending heartbeatTimer set_ws].
  rewrite H4. done.
Qed.

Lemma close_callback c id :
  Inv c → live_socket c id → closed c = false →
  let c' := (callback (WsClose id) c).1 in
  ws c' = None ∧ pending c' = [] ∧ heartbeatTimer c' = false ∧ is_Some (reconnectTimer c').
Proof.
  intros Hi Hs Hc. cbn [Realtime.callback]. rewrite on_socket_live by done.
  rewrite !bind_fst. apply handleDisconnect_spec; [|done].
  destruct Hi. constructor; cbn; rewrite ?length_alter; auto.
Qed.

(** C26: when the connection of an open client is lost (a close event), the
    client forgets the socket, rejects what is pending and schedules a
    reconnection. *)
Theorem close_reconnects c id :
  Inv c → microtasks c = [] → live_socket c id → closed c = false →
  let c' := (step (WsClose id) c).1 in
  ws c' = None ∧ pending c' = [] ∧ heartbeatTimer c' = false ∧ is_Some (reconnectTimer c').
Proof.
  intros Hi Hm Hs Hc. unfold Realtime.step at 1; rewrite (rejects_then_tasks _ "disconnected");
    [|reflexivity|done|cbn [Realtime.callback]; walk; intros c' t; cbn; by left].
  by apply (close_callback c id).
Qed.

(** An error event ends reconnection: it removes the listener that
    [close] would run, so after the error and the close that follows it there
    is no reconnection, no event and no change of [ws], although the client is
    not closed. *)
Theorem error_no_reconnect c id :
  microtasks c = [] → live_socket c id →
  let r := run [WsError id; WsClose id] c in
  r.2 = [Rejected "websocket error"] ∧ reconnectTimer r.1 = reconnectTimer c ∧ ws r.1 = ws c ∧ closed r.1 = closed c.
Proof.
  intros Hm Hlive. pose proof Hlive as (s & Hs & Hst & Hl).
  set (c1 := set_attempts (attempts c) [] (cleanup id c).1).
  assert (H1 : step (WsError id) c = (c1, [Rejected "websocket error"])).
  { rewrite step_quiet; cbn [Realtime.callback]; rewrite ?on_socket_live by done; done. }
  assert (Hs1 : sockets c1 !! id = Some (mkSocket (readyState s) false))
    by (unfold c1; cbn -[alter]; rewrite list_lookup_alter_eq, Hs; reflexivity).
  assert (H2 : callback (WsClose id) c1 = ((set_readyState CLOSED id c1).1, [])).
  { cbn [Realtime.callback]. unfold on_socket, get. rewrite Hs1. by rewrite live_from. }
  assert (H3 : step (WsClose id) c1 = (set_attempts (attempts c1) [] (set_readyState CLOSED id c1).1, []))
    by (rewrite step_quiet; rewrite ?H2; done).
  cbn [Realtime.run]. unfold bind. rewrite H1, H3. done.
Qed.

(** ** A stale close *)

Lemma run_app es es' c : run (es ++ es') c = (run es >>> run es') c.
Proof.
  revert c. induction es as [|e es IH]; intros c; cbn [app Realtime.run]; [by rewrite bind_skip|].
  unfold bind in *. destruct (step e c) as [c1 o1]. rewrite IH. destruct (run es c1) as [c2 o2].
  destruct (run es' c2) as [c3 o3]. by rewrite app_assoc.
Qed.

(** An authenticated connection in which nothing is pending. *)
Record steady (c : Client) (id : nat) : Prop := {
  steady_ws : ws c = Some id;
  steady_socket : sockets c !! id = Some (mkSocket OPEN true);
  steady_pending : pending c = [];
  steady_resolver : authResolver c = None;
  steady_microtasks : microtasks c = [];
  steady_calls : gateway_calls c = 0%nat;
}.

(** [disconnect] and [connect] in a row: the old socket is closing, a gateway
    is looked up. *)
Lemma steady_renew c id t : steady c id →
  ∃ c', run [Disconnect; Connect t] c = (c', [CloseSocket id; GetGateway (extractUserId payload_user_id (Some t))]) ∧
    (ws c' = None ∧ sockets c' = alter closing id (sockets c) ∧ pending c' = [] ∧ authResolver c' = None) ∧
    microtasks c' = [] ∧ gateway_calls c' = 1%nat ∧ closed c' = false ∧ reconnectTimer c' = None ∧ token c' = Some t.
Proof.
  intros [Hw Hs Hp Ha Hm Hg].
  destruct c; simpl in *; subst. eexists. split; [lazy -[extractUserId alter closing set_delete]; reflexivity|]. repeat split.
Qed.

(** The close event of the old socket: the reconnection is scheduled. *)
Lemma stale_close c id :
  sockets c !! id = Some (mkSocket CLOSING true) → pending c = [] → authResolver c = None →
  microtasks c = [] → closed c = false → reconnectTimer c = None →
  ∃ c', step (WsClose id) c = (c', [Dispatch EvDisconnected; Dispatch EvReconnecting]) ∧
    length (sockets c') = length (sockets c) ∧ is_Some (reconnectTimer c') ∧
    microtasks c' = [] ∧ gateway_calls c' = gateway_calls c ∧ closed c' = false ∧ token c' = token c.
Proof.
  intros Hs Hp Ha Hm Hc Hr. unfold Realtime.step, bind at 1. cbn [Realtime.callback]. unfold on_socket, get at 1.
  rewrite Hs. destruct c; simpl in *; subst. eexists. split; [lazy -[extractUserId alter closing set_delete Z.min Z.mul Z.pow Z.add length app list_alter]; reflexivity|]. simpl. rewrite !length_alter. repeat split; eauto.
Qed.

(** The answer of a gateway lookup opens a socket, whatever else goes on. *)
Lemma lookup_opens c g u : gateway_calls c = S g → microtasks c = [] → u ≠ ""%string →
  ∃ c', step (GatewayReply u) c = (c', [NewSocket (length (sockets c)) u]) ∧
    ws c' = Some (length (sockets c)) ∧ sockets c' = sockets c ++ [mkSocket CONNECTING true] ∧
    microtasks c' = [] ∧ gateway_calls c' = g ∧ closed c' = closed c ∧ token c' = token c ∧ reconnectTimer c' = reconnectTimer c.
Proof.
  intros Hg Hm Hu%String.eqb_neq. destruct c; simpl in *; subst. eexists. split.
  - unfold Realtime.step, bind. cbn. rewrite Hu. lazy -[extractUserId alter closing set_delete Z.min Z.mul Z.pow Z.add length app list_alter]; reflexivity.
  - repeat split.
Qed.

(** C40: a new token makes [useRealtime] disconnect and connect again; the
    close event of the old socket arrives after that and is taken for the loss
    of the new connection, so a reconnection is scheduled and the client ends up
    with two sockets that both listen. *)
Theorem stale_close_reconnects c id t u u' :
  steady c id → u ≠ ""%string → u' ≠ ""%string →
  let n := length (sockets c) in
  let uid := extractUserId payload_user_id (Some t) in
  let r := run [Disconnect; Connect t; WsClose id; GatewayReply u; ReconnectTimer; GatewayReply u'] c in
  r.2 = [CloseSocket id; GetGateway uid; Dispatch EvDisconnected; Dispatch EvReconnecting; NewSocket n u;
         GetGateway uid; NewSocket (S n) u'] ∧
  ws r.1 = Some (S n) ∧
  sockets r.1 !! n = Some (mkSocket CONNECTING true) ∧ sockets r.1 !! S n = Some (mkSocket CONNECTING true).
Proof.
  intros Hst Hu Hu' n uid r.
  destruct (steady_renew c id t Hst) as (c2 & H2 & (_ & Hs2 & Hp2 & Ha2) & Hm2 & Hg2 & Hc2 & Hr2 & Ht2).
  destruct (stale_close c2 id) as (c3 & H3 & Hs3 & [dl Hr3] & Hm3 & Hg3 & Hc3 & Ht3); try done.
  { rewrite Hs2, list_lookup_alter, (steady_socket _ _ Hst). by rewrite decide_True. }
  destruct (lookup_opens c3 0 u) as (c4 & H4 & _ & Hs4 & Hm4 & Hg4 & Hc4 & Ht4 & Hr4); [congruence|done|done|].
  assert (H5 : ∃ c5, step ReconnectTimer c4 = (c5, [GetGateway uid]) ∧
    sockets c5 = sockets c4 ∧ gateway_calls c5 = 1%nat ∧ microtasks c5 = []).
  { clear -Hr4 Hr3 Hm4 Hg4 Hc4 Hc3 Ht4 Ht3 Ht2. rewrite Hr3 in Hr4. rewrite Hc3 in Hc4. rewrite Ht3, Ht2 in Ht4.
    destruct c4; simpl in *; subst. eexists. split; [lazy -[extractUserId alter closing set_delete Z.min Z.mul Z.pow Z.add length app list_alter]; reflexivity|]. done. }
  destruct H5 as (c5 & H5 & Hs5 & Hg5 & Hm5).
  destruct (lookup_opens c5 0 u' Hg5 Hm5 Hu') as (c6 & H6 & Hw6 & Hs6 & _).
  assert (Hn : length (sockets c3) = n) by (rewrite Hs3, Hs2; apply length_alter).
  assert (Hr : r = (c6, [CloseSocket id; GetGateway uid] ++ [Dispatch EvDisconnected; Dispatch EvReconnecting] ++
    [NewSocket n u] ++ [GetGateway uid] ++ [NewSocket (length (sockets c5)) u'] ++ [])).
  { unfold r. change [Disconnect; Connect t; WsClose id; GatewayReply u; ReconnectTimer; GatewayReply u']
      with ([Disconnect; Connect t] ++ [WsClose id; GatewayReply u; ReconnectTimer; GatewayReply u']).
    rewrite run_app. unfold bind at 1. rewrite H2. cbn [Realtime.run]. unfold bind at 1. rewrite H3. unfold bind at 1. rewrite H4, Hn.
    unfold bind at 1. rewrite H5. unfold bind. rewrite H6. done. }
  assert (Hl : length (sockets c5) = S n) by (rewrite Hs5, Hs4, length_app, Hn; simpl; lia).
  rewrite Hr, Hl. cbn [fst snd app]. split; [done|]. split; [by rewrite Hw6, Hl|].
  rewrite Hs6, Hs5, Hs4. split.
  - rewrite lookup_app_l, <-Hn by (rewrite length_app; simpl; lia). apply list_lookup_middle. done.
  - apply list_lookup_middle. rewrite length_app; simpl; lia.
Qed.

(** ** Frames received *)

(** The socket in use is [id], it is open and its listeners are attached. *)
Definition receiving (c : Client) (id : nat) : Prop :=
  ws c = Some id ∧ sockets c !! id = Some (mkSocket OPEN true).

Lemma receiving_open c id : receiving c id → open_socket c = Some id.
Proof. intros [Hw Hs]. unfold open_socket. by rewrite Hw, Hs. Qed.

Lemma message_callback c id data pkt :
  receiving c id → decode_bytes Packet_decode data = Ok pkt →
  callback (WsMessage id data) c = handle_packet TextDecoder_decode pkt c.
Proof.
  intros [_ Hs] Hd. cbn [Realtime.callback]. unfold on_socket, get. rewrite Hs.
  rewrite bool_decide_eq_true_2 by (simpl; set_solver). cbn [listening when]. rewrite bind_skip.
  unfold handleMessage. by rewrite Hd.
Qed.

(** Acknowledgements always encode. *)
Lemma ack_encodes n mid topic ts :
  ∃ w, Packet_encode (packet CMD_ACK n (Some (P_ackReq
         (mkAckRequest (Some (LNum mid)) (Some topic) (Some (LNum ts)) None)))) None None = Ok w.
Proof.
  destruct recursionLimits as [Hlim _].
  change (Packet_encode ?p None None) with (Packet_encode p (Some W_create) None).
  unfold packet. rewrite Packet_encode_eq. cbn [payload_encode].
  unfold nested, AckRequest_encode, depth_check. cbn [from_option id].
  rewrite (proj2 (Z.ltb_ge _ _)) by lia. by eexists.
Qed.

(** A packet number the server never received is not pending; pushes carry
    number zero. *)
Lemma push_not_pending c : Inv c → map_get 0 (pending c) = None.
Proof.
  intros []. apply map_get_None. intros (kv & Heq & Hin)%list_elem_of_fmap.
  rewrite Forall_forall in inv_pending0. destruct (inv_pending0 _ Hin) as [_ H]. rewrite <-Heq in H. lia.
Qed.

Lemma handle_packet_push pkt c :
  default 0 (Packet_cmd pkt) ≠ CMD_HEARTBEAT → default 0 (Packet_cmd pkt) ≠ CMD_AUTH →
  map_get (Number_long (Packet_seq pkt)) (pending c) = None →
  handle_packet TextDecoder_decode pkt c = handle_push TextDecoder_decode pkt c.
Proof.
  intros H1 H2 Hp. unfold handle_packet, on_payload.
  rewrite (proj2 (Z.eqb_neq _ _) H1), (proj2 (Z.eqb_neq _ _) H2).
  unfold get. destruct (Packet_authResp pkt); by rewrite Hp.
Qed.

(** The read receipt for [r] under packet number [n]. *)
Definition receipt (uid : option Z) (n : Z) (r : string * Z) : Packet :=
  packet CMD_READ_RECEIPT n (Some (P_readReceipt
    (mkReadReceipt (Some r.1) (Some (LNum r.2)) (Some (LNum (default 0 uid))) None))).

Lemma receipt_encodes uid n r : ∃ w, Packet_encode (receipt uid n r) None None = Ok w.
Proof.
  destruct recursionLimits as [Hlim _].
  change (Packet_encode ?p None None) with (Packet_encode p (Some W_create) None).
  unfold receipt, packet. rewrite Packet_encode_eq. cbn [payload_encode].
  unfold nested, ReadReceipt_encode, depth_check. cbn [from_option id].
  rewrite (proj2 (Z.ltb_ge _ _)) by lia. by eexists.
Qed.

(** The frames of the receipts [rs], numbered from [n]. *)
Fixpoint receipts_encode (uid : option Z) (n : Z) (rs : list (string * Z)) (ws : list Writer) : Prop :=
  match rs, ws with
  | [], [] => True
  | r :: rs', w :: ws' => Packet_encode (receipt uid (n + 1) r) None None = Ok w ∧ receipts_encode uid (n + 1) rs' ws'
  | _, _ => False
  end.

Lemma send_receipts_run id rs : ∀ c, open_socket c = Some id →
  ∃ ws, receipts_encode (userId c) (seq c) rs ws ∧
    send_receipts rs c = (set_seq (seq c + Z.of_nat (length rs)) c, (λ w, SendFrame id (W_finish w)) <$> ws).
Proof.
  induction rs as [|[topic q] rs IH]; intros c Ho.
  - exists []. split; [done|]. simpl. rewrite Z.add_0_r. by destruct c.
  - destruct (receipt_encodes (userId c) (seq c + 1) (topic, q)) as [w Hw].
    destruct (IH (set_seq (seq c + 1) c) Ho) as (ws & Hws & Hrun). exists (w :: ws). split; [done|].
    assert (H1 : sendReadReceipt topic q c = (set_seq (seq c + 1) c, [SendFrame id (W_finish w)])).
    { unfold sendReadReceipt, nextSeq, send, get, bind, upd, emit. cbn -[packet Packet_encode].
      change (open_socket (set_seq (seq c + 1) c)) with (open_socket c). rewrite Ho.
      unfold receipt in Hw. cbn [fst snd] in Hw. by rewrite Hw. }
    cbn [send_receipts]. unfold bind at 1. rewrite H1, Hrun.
    cbn [length fmap list_fmap]. rewrite Nat2Z.inj_succ.
    change (set_seq ?n (set_seq _ c)) with (set_seq n c). change (seq (set_seq ?n c)) with n.
    replace (seq c + Z.succ (Z.of_nat (length rs))) with (seq c + 1 + Z.of_nat (length rs)) by lia. done.
Qed.

(** A push that only makes the client dispatch an event. *)
Lemma push_dispatches c id data pkt e :
  Inv c → microtasks c = [] → receiving c id → decode_bytes Packet_decode data = Ok pkt →
  default 0 (Packet_cmd pkt) ≠ CMD_HEARTBEAT → default 0 (Packet_cmd pkt) ≠ CMD_AUTH → Number_long (Packet_seq pkt) = 0 →
  handle_push TextDecoder_decode pkt c = (c, [Dispatch e]) →
  step (WsMessage id data) c = (c, [Dispatch e]).
Proof.
  intros Hi Hm Hr Hd H1 H2 Hq Hp.
  assert (H : callback (WsMessage id data) c = (c, [Dispatch e])).
  { rewrite (message_callback c id data pkt Hr Hd), handle_packet_push; [done..|by rewrite Hq; apply push_not_pending]. }
  rewrite step_quiet; rewrite ?H; [|done..]. cbn [fst snd]. f_equal. destruct c; simpl in *; by subst.
Qed.

(** The acknowledgement of push [push] under packet number [n]. *)
Definition acknowledgement (n : Z) (push : MessagePush) : Packet :=
  packet CMD_ACK n (Some (P_ackReq
    (mkAckRequest (Some (LNum (Number_long (MessagePush_msgId push)))) (Some (default "" (MessagePush_topic push)))
       (Some (LNum (Number_long (MessagePush_topicSeq push)))) None))).

(** A pushed message is handed to the listeners, whose read receipts go out
    first, and is then acknowledged on the same socket with its own ids under
    the next packet number. *)
Theorem notify_acknowledged c id data pkt n :
  Inv c → microtasks c = [] → receiving c id →
  decode_bytes Packet_decode data = Ok pkt →
  Packet_cmd pkt = Some CMD_NOTIFY → Packet_notify pkt = Some n → Number_long (Packet_seq pkt) = 0 →
  let rs := listeners c (notify_detail TextDecoder_decode n) in
  ∃ ws w, receipts_encode (userId c) (seq c) rs ws ∧
    Packet_encode (acknowledgement (seq c + Z.of_nat (length rs) + 1) n) None None = Ok w ∧
    step (WsMessage id data) c =
    (set_seq (seq c + Z.of_nat (length rs) + 1) c,
     Dispatch (EvMessage (notify_detail TextDecoder_decode n)) ::
       ((λ w, SendFrame id (W_finish w)) <$> ws) ++ [SendFrame id (W_finish w)]).
Proof.
  intros Hi Hm Hr Hd Hcmd Hn Hq rs. pose proof (receiving_open c id Hr) as Ho.
  destruct (send_receipts_run id rs c Ho) as (ws & Hws & Hrun).
  destruct (ack_encodes (seq c + Z.of_nat (length rs) + 1) (Number_long (MessagePush_msgId n)) (default "" (MessagePush_topic n))
              (Number_long (MessagePush_topicSeq n))) as [w Hw].
  exists ws, w. split; [exact Hws|]. split; [exact Hw|].
  assert (H : callback (WsMessage id data) c = (set_seq (seq c + Z.of_nat (length rs) + 1) c,
    Dispatch (EvMessage (notify_detail TextDecoder_decode n)) ::
      ((λ w, SendFrame id (W_finish w)) <$> ws) ++ [SendFrame id (W_finish w)])).
  { rewrite (message_callback c id data pkt Hr Hd), handle_packet_push;
      [|by rewrite Hcmd|by rewrite Hcmd|by rewrite Hq; apply push_not_pending].
    unfold handle_push, on_payload. rewrite Hn, Hcmd. change (default 0 (Some CMD_NOTIFY) =? CMD_NOTIFY) with true.
    cbv iota. unfold dispatch_message, sendAck, nextSeq, send, get, bind, upd, emit. cbn -[packet Packet_encode].
    fold rs. rewrite Hrun. cbn -[packet Packet_encode].
    change (open_socket (set_seq _ (set_seq _ c))) with (open_socket c). rewrite Ho, Hw. done. }
  rewrite step_quiet; rewrite ?H; [|done..]. clear -Hm. cbn [fst snd]. f_equal. destruct c; simpl in *; by subst.
Qed.

(** An error the server reports for a request that is not pending (a
    publish it refused, for instance) changes nothing and reaches no listener. *)
Theorem error_dropped c id data cmd sq e :
  microtasks c = [] → receiving c id →
  decode_bytes Packet_decode data = Ok (packet_of (Some cmd) sq (Some (P_error e))) →
  cmd ≠ CMD_HEARTBEAT → cmd ≠ CMD_AUTH → map_get (Number_long sq) (pending c) = None →
  step (WsMessage id data) c = (set_attempts (attempts c) [] c, []).
Proof.
  intros Hm Hr Hd H1 H2 Hp.
  assert (H : callback (WsMessage id data) c = (c, [])).
  { rewrite (message_callback c id data _ Hr Hd), handle_packet_push by done. done. }
  rewrite step_quiet; rewrite ?H; done.
Qed.

(** ** Heartbeats *)

(** An unanswered heartbeat closes the socket, an answered one does not. *)
Theorem heartbeat_detects c id data pkt :
  microtasks c = [] → receiving c id → heartbeatTimer c = true →
  decode_bytes Packet_decode data = Ok pkt → Packet_cmd pkt = Some CMD_HEARTBEAT →
  let c1 := (step HeartbeatTick c).1 in
  (step (HeartbeatTimeout (hb_next c)) c1).2 = [CloseSocket id] ∧
  (step (HeartbeatTimeout (hb_next c)) (step (WsMessage id data) c1).1).2 = [].
Proof.
  intros Hm Hr Hh Hd Hcmd.
  set (n := hb_next c) in *.
  assert (H1 : ∃ c1, (step HeartbeatTick c).1 = c1 ∧ microtasks c1 = [] ∧ receiving c1 id ∧
    heartbeatTimeoutTimer c1 = Some n ∧ n ∈ hb_timeouts c1).
  { pose proof (receiving_open c id Hr) as Ho.
    assert (∃ o, callback HeartbeatTick c =
      ((upd (λ c, set_heartbeat (heartbeatTimer c) (Some (hb_next c)) (set_add (hb_next c) (hb_timeouts c)) (S (hb_next c)) c)
         (set_seq (seq c + 1) c)).1, o)) as [o Hcb].
    { cbn [Realtime.callback]. unfold get, when, heartbeat_tick, get. rewrite Hh, Ho.
      destruct (send_frames CMD_HEARTBEAT (seq c + 1) None (set_seq (seq c + 1) c)) as [_ Hs].
      unfold nextSeq, bind, upd, get. cbn -[packet send Z.add]. cbn -[packet send Z.add] in Hs.
      destruct (send _ _) as [c2 o2]. simpl in *. subst c2. by eexists. }
    eexists. split; [reflexivity|]. rewrite step_quiet; rewrite ?Hcb; try done.
    cbn. split; [done|]. split; [exact Hr|]. split; [done|]. apply elem_of_set_add. by left. }
  destruct H1 as (c1 & -> & Hm1 & Hr1 & Ht1 & Hin). cbv zeta.
  split.
  - destruct Hr1 as [Hw Hs]. rewrite step_quiet; try done; cbn [Realtime.callback]; unfold get;
      rewrite (proj2 (set_has_true _ _) Hin); unfold bind, close_ws, get, upd; cbn; by rewrite Hw.
  - set (c2 := set_heartbeat (heartbeatTimer c1) None (set_delete n (hb_timeouts c1)) (hb_next c1) c1).
    assert (Hcb : callback (WsMessage id data) c1 = (c2, [])).
    { rewrite (message_callback c1 id data pkt Hr1 Hd). unfold handle_packet. rewrite Hcmd.
      change (default 0 (Some CMD_HEARTBEAT) =? CMD_HEARTBEAT) with true. cbv iota.
      unfold handleHeartbeatAck, upd. by rewrite Ht1. }
    rewrite (step_quiet (WsMessage id data)); rewrite ?Hcb; [|done|done]. cbn [fst].
    assert (Hno : set_has n (set_delete n (hb_timeouts c1)) = false)
      by (apply bool_decide_eq_false; rewrite elem_of_set_delete; naive_solver).
    rewrite step_quiet; try done; cbn [Realtime.callback]; unfold get; cbn; by rewrite Hno.
Qed.

End Props.

(** ** The theorems at concrete runs *)

Section Example.
#[local] Existing Instance wire.
#[local] Existing Instance wire_laws.

Definition ex_decode (b : bytes) : string := String.string_of_list_byte b.
Definition ex_encode (s : string) : bytes := String.list_byte_of_string s.
Definition ex_user (_ : string) : option Z := Some 7.
Definition ex_base : string := "http://h".

Definition frame (pkt : Packet) : bytes :=
  match Packet_encode pkt None None with Ok w => W_finish w | _ => [] end.

Abbreviation ex_run := (Realtime.run ex_decode ex_encode ex_base ex_user).
Abbreviation ex_step := (Realtime.step ex_decode ex_encode ex_base ex_user).

(** Connected and authenticated on socket 0. *)
Definition ex_auth : bytes :=
  frame (packet_of (Some CMD_AUTH) (Some (LNum 1)) (Some (P_authResp (mkAuthResponse (Some true) (Some (LNum 7)) None None)))).
Definition ex_open : list Event := [Connect "a.b.c"; GatewayReply "ws://g"; WsOpen 0 "u"; WsMessage 0 ex_auth].
Definition ex_client : Client := (ex_run ex_open (new_client (Some None))).1.

Lemma ex_client_inv : Inv ex_client ∧ microtasks ex_client = [] ∧ receiving ex_client 0 ∧ live_socket ex_client 0 ∧
  closed ex_client = false ∧ heartbeatTimer ex_client = true.
Proof.
  split; [apply run_inv, new_client_inv|]. split; [vm_compute; reflexivity|].
  split; [split; vm_compute; reflexivity|]. split; [|split; vm_compute; reflexivity].
  exists (mkSocket OPEN true). repeat split; vm_compute; (reflexivity || discriminate).
Qed.

Lemma closed_stays_closed_witness :
  let c := (ex_step Disconnect ex_client).1 in
  let es := [WsClose 0; ReconnectTimer; WsMessage 0 ex_auth] in
  closed c = true ∧ gateway_calls c = 0%nat ∧ Forall (λ o, opens o = false) (ex_run es c).2.
Proof.
  intros c es. assert (Hc : closed c = true) by (vm_compute; reflexivity).
  assert (Hg : gateway_calls c = 0%nat) by (vm_compute; reflexivity).
  split; [exact Hc|]. split; [exact Hg|].
  apply (closed_stays_closed ex_decode ex_encode ex_base ex_user es c Hc Hg).
  repeat constructor; discriminate.
Defined.

(** A refused token: one refresh, and none for the second refusal. *)
Definition ex_refused : bytes :=
  frame (packet_of (Some CMD_AUTH) (Some (LNum 1)) (Some (P_error (mkErrorResponse (Some 4003) (Some "invalid token"%string) None None None)))).

Lemma refresh_at_most_once_witness :
  let c := (ex_run [Connect "a.b.c"; GatewayReply "ws://g"; WsOpen 0 "u"] (new_client (Some None))).1 in
  let es := [WsMessage 0 ex_refused; RefreshDone "d.e.f"; GatewayReply "ws://g"; WsOpen 1 "u"] in
  count_refresh (ex_run es c).2 = 1%nat ∧ (count_refresh (ex_run es c).2 ≤ 1)%nat.
Proof.
  intros c es. split; [vm_compute; reflexivity|].
  apply (refresh_at_most_once ex_decode ex_encode ex_base ex_user es c).
  repeat constructor; discriminate.
Defined.

Lemma close_reconnects_witness :
  let c' := (ex_step (WsClose 0) ex_client).1 in
  ws c' = None ∧ pending c' = [] ∧ heartbeatTimer c' = false ∧ is_Some (reconnectTimer c').
Proof.
  destruct ex_client_inv as (Hi & Hm & _ & Hl & Hc & _).
  exact (close_reconnects ex_decode ex_encode ex_base ex_user ex_client 0 Hi Hm Hl Hc).
Defined.

Lemma error_no_reconnect_witness :
  let r := ex_run [WsError 0; WsClose 0] ex_client in
  r.2 = [Rejected "websocket error"] ∧ reconnectTimer r.1 = None ∧ closed r.1 = false.
Proof.
  destruct ex_client_inv as (_ & Hm & _ & Hl & Hc & _). intros r.
  destruct (error_no_reconnect ex_decode ex_encode ex_base ex_user ex_client 0 Hm Hl) as (H1 & H2 & _ & H4).
  split; [exact H1|]. split; [|vm_compute; reflexivity]. vm_compute; reflexivity.
Defined.

Definition ex_push : MessagePush :=
  mkMessagePush (Some (LNum 99)) (Some "p2p_1_7"%string) (Some (LNum 1)) (Some 1) (Some [Byte.x68; Byte.x69]) (Some (LNum 5)) (Some (LNum 3)) None None [] None.
Definition ex_notify : bytes := frame (packet_of (Some CMD_NOTIFY) None (Some (P_notify ex_push))).

Lemma notify_acknowledged_witness :
  ∃ pkt n w, decode_bytes Packet_decode ex_notify = Ok pkt ∧ Packet_notify pkt = Some n ∧
    (ex_step (WsMessage 0 ex_notify) ex_client).2 = [Dispatch (EvMessage (notify_detail ex_decode n)); SendFrame 0 (W_finish w)].
Proof.
  destruct ex_client_inv as (Hi & Hm & Hr & _).
  destruct (decode_bytes Packet_decode ex_notify) as [pkt| |] eqn:Hd; [|vm_compute in Hd; discriminate Hd..].
  destruct (Packet_notify pkt) as [n|] eqn:Hn; [|vm_compute in Hd; injection Hd as <-; discriminate Hn].
  assert (Hc : Packet_cmd pkt = Some CMD_NOTIFY) by (vm_compute in Hd; injection Hd as <-; reflexivity).
  assert (Hs : Number_long (Packet_seq pkt) = 0) by (vm_compute in Hd; injection Hd as <-; reflexivity).
  destruct (notify_acknowledged ex_decode ex_encode ex_base ex_user ex_client 0 ex_notify pkt n Hi Hm Hr Hd Hc Hn Hs) as (ws & w & Hws & _ & H).
  change (listeners ex_client (notify_detail ex_decode n)) with (@nil (string * Z)) in Hws. destruct ws; [|done].
  exists pkt, n, w. split; [reflexivity|]. split; [exact Hn|exact (f_equal snd H)].
Defined.

Definition ex_limited : ErrorResponse := mkErrorResponse (Some 4290) (Some "rate limit exceeded"%string) None None None.

Lemma error_dropped_witness :
  ∃ data sq, decode_bytes Packet_decode data = Ok (packet_of (Some CMD_PUBLISH) sq (Some (P_error ex_limited))) ∧
    (ex_step (WsMessage 0 data) ex_client).2 = [].
Proof.
  destruct ex_client_inv as (_ & Hm & Hr & _).
  exists (frame (packet_of (Some CMD_PUBLISH) (Some (LNum 2)) (Some (P_error ex_limited)))), (Some (LLong 2 0 true)).
  assert (Hd : decode_bytes Packet_decode (frame (packet_of (Some CMD_PUBLISH) (Some (LNum 2)) (Some (P_error ex_limited))))
    = Ok (packet_of (Some CMD_PUBLISH) (Some (LLong 2 0 true)) (Some (P_error ex_limited)))) by (vm_compute; reflexivity).
  split; [exact Hd|].
  rewrite (error_dropped ex_decode ex_encode ex_base ex_user ex_client 0 _ CMD_PUBLISH _ _ Hm Hr Hd);
    [reflexivity|discriminate|discriminate|vm_compute; reflexivity].
Defined.

Lemma heartbeat_detects_witness :
  let c1 := (ex_step HeartbeatTick ex_client).1 in
  (ex_step (HeartbeatTimeout 0) c1).2 = [CloseSocket 0] ∧
  (ex_step (HeartbeatTimeout 0) (ex_step (WsMessage 0 (frame (packet_of (Some CMD_HEARTBEAT) (Some (LNum 2)) None))) c1).1).2 = [].
Proof.
  destruct ex_client_inv as (_ & Hm & Hr & _ & _ & Hh).
  apply (heartbeat_detects ex_decode ex_encode ex_base ex_user ex_client 0 _
    (packet_of (Some CMD_HEARTBEAT) (Some (LLong 2 0 true)) None) Hm Hr Hh); vm_compute; reflexivity.
Defined.

(** Some time after authentication. *)
Definition ex_steady : Client := (ex_step (AuthTimer 1) ex_client).1.

Lemma stale_close_reconnects_witness :
  let r := ex_run [Disconnect; Connect "a.b.d"; WsClose 0; GatewayReply "ws://g"; ReconnectTimer; GatewayReply "ws://h"] ex_steady in
  sockets r.1 !! 1%nat = Some (mkSocket CONNECTING true) ∧ sockets r.1 !! 2%nat = Some (mkSocket CONNECTING true).
Proof.
  assert (H : steady ex_steady 0) by (split; vm_compute; reflexivity).
  refine (proj2 (proj2 (stale_close_reconnects ex_decode ex_encode ex_base ex_user ex_steady 0 "a.b.d" "ws://g" "ws://h" H _ _)));
    discriminate.
Defined.

(** The connected client has one socket and no time-out: nothing is left. *)
Lemma disconnect_clean_witness :
  let c := (ex_run ex_open (new_client (Some None))).1 in
  let c' := (ex_run (ex_open ++ [Disconnect]) (new_client (Some None))).1 in
  tracked c ∧ released c c' ∧ (∀ id s, sockets c' !! id = Some s → readyState s ∈ [CLOSING; CLOSED]) ∧ hb_timeouts c' = [].
Proof.
  destruct (disconnect_clean ex_decode ex_encode ex_base ex_user ex_open (Some None)) as [H1 H2].
  set (c := (ex_run ex_open (new_client (Some None))).1) in *. intros c0 c'.
  assert (Ht : tracked c).
  { assert (Hs : sockets c = [mkSocket OPEN true]) by (vm_compute; reflexivity).
    assert (Hw : ws c = Some 0%nat) by (vm_compute; reflexivity).
    assert (Hh : hb_timeouts c = []) by (vm_compute; reflexivity).
    clearbody c. unfold tracked. rewrite Hs, Hw, Hh. split; [|intros i Hi; by apply elem_of_nil in Hi].
    intros [|[|id]] s H _; [reflexivity|discriminate H..]. }
  exact (conj Ht (conj H1 (H2 Ht))).
Defined.

(** After the stale close socket 1 is such a socket. *)
Lemma orphan_outlives_disconnect_witness :
  let c := (ex_run [Disconnect; Connect "a.b.d"; WsClose 0; GatewayReply "ws://g"; ReconnectTimer; GatewayReply "ws://h"] ex_steady).1 in
  let r := ex_step (WsOpen 1 "u") (ex_step Disconnect c).1 in
  r.2 = [Dispatch EvConnected] ∧ closed r.1 = true ∧ pending r.1 = [(2, 2)] ∧ auth_timers r.1 = [2].
Proof.
  intros c r. assert (Hi : Inv c) by (apply run_inv; apply keeps_inv_step, ex_client_inv).
  assert (Hm : microtasks c = []) by (vm_compute; reflexivity).
  assert (Hs : sockets c !! 1%nat = Some (mkSocket CONNECTING true)) by (vm_compute; reflexivity).
  assert (Hw : ws c ≠ Some 1%nat) by (vm_compute; discriminate).
  destruct (orphan_outlives_disconnect ex_decode ex_encode ex_base ex_user c 1 "u" Hi Hm Hs Hw) as (_ & H1 & H2 & _ & H3 & H4).
  assert (Hn : seq (ex_step Disconnect c).1 = 1) by (vm_compute; reflexivity). rewrite Hn in H3, H4.
  exact (conj H1 (conj H2 (conj H3 H4))).
Defined.

End Example.
