(* ===== verification/Api.v ===== *)
(** * HTTP access ([web/app/lib/api.ts])

    [request] with its retry after a token refresh, over a world made of
    [localStorage], the page location, the requests sent so far and the state
    of the server.  The server ([fetch]) and the parts of [JSON] the code uses
    are variables.  The endpoints
    are data: method, path and body. *)

From S2P Require Import Prelude JsNum Types.
From Stdlib Require Import Ascii.
Open Scope Z_scope.

Module Api.

(** The three keys of [localStorage] the client uses. *)
Record Storage := mkStorage { ls_token : option string; ls_refresh : option string; ls_user : option string }.

(** A field of a JSON object, as far as the code looks at it. *)
Inductive Scalar := SUndefined | SNull | SStr (s : string) | SNum (z : Z).

Definition truthy_scalar (v : Scalar) : bool :=
  match v with SStr s => nonempty s | SNum z => negb (z =? 0) | _ => false end.

(** [v || d]. *)
Definition scalar_or (v d : Scalar) : Scalar := if truthy_scalar v then v else d.

(** [String(v)]. *)
Definition to_text (v : Scalar) : string :=
  match v with SUndefined => "undefined" | SNull => "null" | SStr s => s | SNum z => number_to_string z end.

(** [class AppError], whose code is what the server sent (a string or a
    number), a plain [Error], the rejection of [fetch] itself, the exception of
    reading a field of [undefined] or [null] and that of invalid JSON. *)
Inductive Error :=
| AppError (code : Scalar) (message : string) (status : Z)
| PlainError (message : string)
| NetworkError
| TypeError
| SyntaxError.

Inductive outcome (A : Type) := Done (a : A) | Fail (e : Error) | OutOfFuel.
Arguments Done {_} _.
Arguments Fail {_} _.
Arguments OutOfFuel {_}.

Record Request := mkRequest { rq_url : string; rq_method : string; rq_body : string; rq_auth : option string }.

Section Api.
(** JSON values: the empty object, the test for [null], and the fields. *)
Context {Json : Type} (empty_object : Json) (is_null : Json → bool) (field : Json → string → Scalar).

(** A parsed body: JSON, [{ message: text }], or [undefined]. *)
Inductive Body := BJson (j : Json) | BText (t : string) | BUndefined.

(** A response; [rs_json] is [None] when its body is not valid JSON. *)
Record Response := mkResponse {
  rs_status : Z;
  rs_statusText : string;
  rs_contentType : string;
  rs_json : option Json;
  rs_text : string;
}.

Definition rs_ok (r : Response) : bool := (200 <=? rs_status r) && (rs_status r <? 300).

Context {Server : Type} (fetch : Server → Request → Server * option Response).
Context (API_BASE_URL : string).
(** [JSON.parse] of a stored user ([None]: it throws; [Some None]: no object),
    and the body of the refresh request. *)
Context (JSON_parse_user : string → option (option User)) (refresh_body : User → string → string).

Record World := mkWorld {
  storage : Storage;
  pathname : string;
  sent : list Request;
  server : Server;
}.

Definition set_storage (s : Storage) (w : World) : World := mkWorld s (pathname w) (sent w) (server w).

(** [getStoredUser]. *)
Definition getStoredUser (w : World) : option User :=
  match ls_user (storage w) with
  | Some raw => if String.eqb raw "" then None else default None (JSON_parse_user raw)
  | None => None
  end.

(** [setAuthTokens]. *)
Definition setAuthTokens (token refreshToken : string) (w : World) : World :=
  set_storage (mkStorage (Some token)
    (if nonempty refreshToken then Some refreshToken else ls_refresh (storage w)) (ls_user (storage w))) w.

(** [forceReLogin]. *)
Definition forceReLogin (w : World) : World :=
  mkWorld (mkStorage None None None)
    (if String.prefix "/login" (pathname w) then pathname w else "/login"%string) (sent w) (server w).

Definition AUTH_PUBLIC_PATHS : list string := ["/v1/auth/login"%string; "/v1/auth/register"%string; "/v1/auth/refresh"%string].

Definition is_public (path : string) : bool := some (λ p, String.prefix p path) AUTH_PUBLIC_PATHS.

(** [API_BASE_URL.replace(/\/$/, "")]. *)
Fixpoint drop_slash (s : string) : string :=
  match s with
  | String "/"%char EmptyString => EmptyString
  | String a s' => String a (drop_slash s')
  | EmptyString => EmptyString
  end.

(** [buildURL]. *)
Definition buildURL (path : string) : string :=
  (drop_slash API_BASE_URL +:+ (if String.prefix "/" path then path else "/" +:+ path))%string.

(** The body of a response, by its content type. *)
Definition parse_body (r : Response) : Body :=
  if includes "application/json" (rs_contentType r) then BJson (default empty_object (rs_json r))
  else if negb (rs_status r =? 204) then BText (rs_text r)
  else BUndefined.

(** [body.f]; [None] when it throws, since there is nothing to read from. *)
Definition body_field (b : Body) (f : string) : option Scalar :=
  match b with
  | BJson j => if is_null j then None else Some (field j f)
  | BText t => Some (if String.eqb f "message" then SStr t else SUndefined)
  | BUndefined => None
  end.

(** [fileApi.upload]: [body.message] of an error response, if it is JSON that
    has one.  The form goes out as [file]; the token is not refreshed. *)
Definition upload (file : string) (w : World) : World * outcome Json :=
  let rq := mkRequest (API_BASE_URL +:+ "/v1/files")%string "POST" file
              (Some ("Bearer " +:+ opt_str_or (ls_token (storage w)) "")%string) in
  let '(srv, res) := fetch (server w) rq in
  let w' := mkWorld (storage w) (pathname w) (sent w ++ [rq]) srv in
  match res with
  | None => (w', Fail NetworkError)
  | Some r =>
      if negb (rs_ok r)
      then let message := match rs_json r with
                          | Some j => if is_null j then SUndefined else field j "message"
                          | None => SUndefined
                          end in
           (w', Fail (PlainError (to_text (scalar_or message (SStr ("upload failed (" +:+ pretty (rs_status r) +:+ ")"))))))
      else match rs_json r with Some j => (w', Done j) | None => (w', Fail SyntaxError) end
  end.

(** The error thrown for a response that is not ok; a body with no fields to
    read, such as a JSON [null], makes it a [TypeError]. *)
Definition response_error (r : Response) (b : Body) : Error :=
  match body_field b "code", body_field b "message", body_field b "reason" with
  | Some code, Some message, Some reason =>
      AppError (scalar_or code (SStr ("HTTP_" +:+ pretty (rs_status r))))
        (to_text (scalar_or message (scalar_or reason (SStr (str_or (rs_statusText r) "request failed")))))
        (rs_status r)
  | _, _, _ => TypeError
  end.

(** The request [request] makes: the token is read at the time of the call. *)
Definition request_of (path method body : string) (w : World) : Request :=
  mkRequest (buildURL path) method body
    (match ls_token (storage w) with
     | Some t => if nonempty t then Some ("Bearer " +:+ t)%string else None
     | None => None
     end).

(** Its [fetch]. *)
Definition send_request (path method body : string) (w : World) : World * option Response :=
  let rq := request_of path method body w in
  let '(s, r) := fetch (server w) rq in
  (mkWorld (storage w) (pathname w) (sent w ++ [rq]) s, r).

(** What [refreshAuth] does with its reply: the storage takes the text of
    whatever stands for the token, also of [undefined]. *)
Definition store_reply (b : Body) (w : World) : World * outcome string :=
  match body_field b "token", body_field b "refreshToken" with
  | Some token, Some refreshToken =>
      (setAuthTokens (to_text token) (if truthy_scalar refreshToken then to_text refreshToken else ""%string) w,
       Done (to_text token))
  | _, _ => (w, Fail TypeError)
  end.

(** [request] and [refreshAuth] call each other; [fuel] bounds the calls. *)
Fixpoint request (fuel : nat) (path method body : string) (allowAuthRetry : bool) (w : World) : World * outcome Body :=
  match fuel with
  | O => (w, OutOfFuel)
  | S f =>
      let '(w, r) := send_request path method body w in
      match r with
      | None => (w, Fail NetworkError)
      | Some r =>
          let b := parse_body r in
          if rs_ok r then (w, Done b)
          else if (rs_status r =? 401) && allowAuthRetry && negb (is_public path) then
            (* await refreshAuth() *)
            let '(w, o) :=
              match ls_refresh (storage w), getStoredUser w with
              | Some rt, Some user =>
                  if nonempty rt then
                    let '(w, o) := request f "/v1/auth/refresh" "POST" (refresh_body user rt) true w in
                    match o with
                    | Done b => store_reply b w
                    | Fail e => (w, Fail e)
                    | OutOfFuel => (w, OutOfFuel)
                    end
                  else (w, Fail (AppError (SStr "NO_REFRESH_TOKEN") "no refresh token" 401))
              | _, _ => (w, Fail (AppError (SStr "NO_REFRESH_TOKEN") "no refresh token" 401))
              end in
            match o with
            | Done _ => request f path method body false w
            | Fail _ => (forceReLogin w, Fail (AppError (SStr "SESSION_EXPIRED") "session expired" 401))
            | OutOfFuel => (w, OutOfFuel)
            end
          else (w, Fail (response_error r b))
      end
  end.

(** One round trip, with no refresh. *)
Definition request_once (path method body : string) (w : World) : World * outcome Body :=
  let '(w, r) := send_request path method body w in
  match r with
  | None => (w, Fail NetworkError)
  | Some r => (w, if rs_ok r then Done (parse_body r) else Fail (response_error r (parse_body r)))
  end.

(** [refreshAuth] on its own, when no refresh is in flight (the sharing of one
    that is in flight is in [ApiCalls]). *)
Definition refreshAuth (w : World) : World * outcome string :=
  match ls_refresh (storage w), getStoredUser w with
  | Some rt, Some user =>
      if nonempty rt then
        let '(w, o) := request_once "/v1/auth/refresh" "POST" (refresh_body user rt) w in
        match o with
        | Done b => store_reply b w
        | Fail e => (w, Fail e)
        | OutOfFuel => (w, OutOfFuel)
        end
      else (w, Fail (AppError (SStr "NO_REFRESH_TOKEN") "no refresh token" 401))
  | _, _ => (w, Fail (AppError (SStr "NO_REFRESH_TOKEN") "no refresh token" 401))
  end.

(** ** Endpoints *)

(** The fields of a request body, and a call of [api] with its method, path and
    body. *)
Inductive Value := VStr (s : string) | VNum (n : jsnum) | VNums (l : list jsnum).

Record Endpoint := mkEndpoint { ep_method : string; ep_path : string; ep_body : option (list (string * Value)) }.

Context (encodeURIComponent : string → string) (JSON_stringify : list (string * Value) → string).

(** [api.get], [api.post], [api.put] and [api.del]. *)
Definition api_get (path : string) : Endpoint := mkEndpoint "GET" path None.
Definition api_post (path : string) (body : list (string * Value)) : Endpoint := mkEndpoint "POST" path (Some body).
Definition api_put (path : string) (body : list (string * Value)) : Endpoint := mkEndpoint "PUT" path (Some body).
Definition api_del (path : string) : Endpoint := mkEndpoint "DELETE" path None.

(** The request of an endpoint; a call with no body sends the empty text. *)
Definition call (e : Endpoint) (w : World) : World * outcome Body :=
  request 2 (ep_path e) (ep_method e) (from_option JSON_stringify ""%string (ep_body e)) true w.

Definition DEVICE_ID : string := "web".

Definition auth_login (username password : string) : Endpoint :=
  api_post "/v1/auth/login" [("username", VStr username); ("password", VStr password); ("deviceId", VStr DEVICE_ID)]%string.
Definition auth_register (username password : string) : Endpoint :=
  api_post "/v1/auth/register" [("username", VStr username); ("password", VStr password)]%string.
Definition auth_refresh (userId : jsnum) (deviceId refreshToken : string) : Endpoint :=
  api_post "/v1/auth/refresh" [("userId", VNum userId); ("deviceId", VStr deviceId); ("refreshToken", VStr refreshToken)]%string.
Definition auth_logout : Endpoint := api_post "/v1/auth/logout" [].

Definition searchUsers (username : string) (limit : Z) : Endpoint :=
  api_get ("/v1/users/search?username=" +:+ encodeURIComponent username +:+ "&limit=" +:+ number_to_string limit).
Definition getPresence (userId : jsnum) : Endpoint :=
  api_get ("/v1/users/" +:+ interpolate userId +:+ "/presence").

Definition listConversations (limit offset : Z) : Endpoint :=
  api_get ("/v1/conversations?limit=" +:+ number_to_string limit +:+ "&offset=" +:+ number_to_string offset).
Definition markRead (topic : string) : Endpoint :=
  api_post ("/v1/conversations/" +:+ encodeURIComponent topic +:+ "/read") [].

Definition getGateway (userId : jsnum) : Endpoint :=
  api_get ("/v1/dispatch/gateway?userId=" +:+ interpolate userId).

Definition pullMessages (topic : string) (lastSeq : jsnum) (limit : Z) (endSeq : jsnum) : Endpoint :=
  api_get ("/v1/message/pull?topic=" +:+ encodeURIComponent topic +:+ "&lastSeq=" +:+ interpolate lastSeq
    +:+ "&limit=" +:+ number_to_string limit +:+ "&endSeq=" +:+ interpolate endSeq).

Definition createGroup (name : string) (memberIds : list jsnum) : Endpoint :=
  api_post "/v1/groups" [("name", VStr name); ("member_ids", VNums memberIds)]%string.
Definition listMyGroups : Endpoint := api_get "/v1/groups".
Definition getGroup (groupId : string) : Endpoint := api_get ("/v1/groups/" +:+ groupId).
Definition addMember (groupId : string) (userId : jsnum) : Endpoint :=
  api_post ("/v1/groups/" +:+ groupId +:+ "/members") [("user_id"%string, VNum userId)].
Definition removeMember (groupId : string) (userId : jsnum) : Endpoint :=
  api_del ("/v1/groups/" +:+ groupId +:+ "/members/" +:+ interpolate userId).
Definition listMembers (groupId : string) : Endpoint := api_get ("/v1/groups/" +:+ groupId +:+ "/members").

(** Of all endpoints exactly login, registration and refresh are exempt
    from the refresh after a 401, whatever the arguments. *)
Theorem protected_endpoints username password rt topic groupId name ids userId lastSeq endSeq limit offset :
  Forall (λ e, is_public (ep_path e) = true)
    [auth_login username password; auth_register username password; auth_refresh userId DEVICE_ID rt] ∧
  Forall (λ e, is_public (ep_path e) = false)
    [auth_logout; searchUsers username limit; getPresence userId; listConversations limit offset; markRead topic;
     getGateway userId; pullMessages topic lastSeq limit endSeq; createGroup name ids; listMyGroups; getGroup groupId;
     addMember groupId userId; removeMember groupId userId; listMembers groupId].
Proof. split; repeat constructor. Qed.

(** ** Requests *)

(** A public path, or a retry, is one round trip. *)
Lemma request_plain f path method body allow w :
  allow = false ∨ is_public path = true →
  request (S f) path method body allow w = request_once path method body w.
Proof.
  intros H. cbn [request]. unfold request_once. destruct (send_request path method body w) as [w1 [r|]]; [|done].
  destruct (rs_ok r); [done|].
  replace ((rs_status r =? 401) && allow && negb (is_public path)) with false; [done|].
  destruct H as [-> | ->]; by rewrite ?andb_false_r.
Qed.

(** What [request] does, in terms of single round trips. *)
Definition request_spec (path method body : string) (w : World) : World * outcome Body :=
  let '(w1, r) := send_request path method body w in
  match r with
  | None => (w1, Fail NetworkError)
  | Some r =>
      if rs_ok r then (w1, Done (parse_body r))
      else if (rs_status r =? 401) && negb (is_public path) then
        match refreshAuth w1 with
        | (w2, Done _) => request_once path method body w2
        | (w2, _) => (forceReLogin w2, Fail (AppError (SStr "SESSION_EXPIRED") "session expired" 401))
        end
      else (w1, Fail (response_error r (parse_body r)))
  end.

Lemma request_once_ends path method body w : (request_once path method body w).2 ≠ OutOfFuel.
Proof.
  unfold request_once. destruct (send_request path method body w) as [w1 [r|]]; simpl; [|done].
  by destruct (rs_ok r).
Qed.

Lemma request_refines f path method body w :
  request (S (S f)) path method body true w = request_spec path method body w.
Proof.
  unfold request_spec. remember (S f) as g eqn:Hg. cbn [request].
  destruct (send_request path method body w) as [w1 [r|]]; [|done].
  destruct (rs_ok r); [done|]. rewrite andb_true_r. destruct ((rs_status r =? 401) && negb (is_public path)); [|done].
  unfold refreshAuth. destruct (ls_refresh (storage w1)) as [rt|]; [|done].
  destruct (getStoredUser w1) as [user|]; [|done]. destruct (nonempty rt); [|done]. subst g.
  rewrite request_plain by (right; reflexivity).
  pose proof (request_once_ends "/v1/auth/refresh" "POST" (refresh_body user rt) w1) as He.
  destruct (request_once "/v1/auth/refresh" "POST" (refresh_body user rt) w1) as [w2 [b|e|]]; [|done|done].
  unfold store_reply. destruct (body_field b "token"), (body_field b "refreshToken"); try done. apply request_plain; by left.
Qed.

(** C27: [request] terminates with two levels of calls, and is one round trip,
    followed, when an access token is refused on a path that is not public, by
    one refresh and one retry; a failed refresh ends the session. *)
Theorem request_refinement f path method body w :
  request (S (S f)) path method body true w = request_spec path method body w ∧
  (request (S (S f)) path method body true w).2 ≠ OutOfFuel.
Proof.
  rewrite request_refines. split; [done|]. unfold request_spec.
  destruct (send_request path method body w) as [w1 [r|]]; [|done].
  destruct (rs_ok r); [done|]. destruct ((rs_status r =? 401) && negb (is_public path)); [|done].
  destruct (refreshAuth w1) as [w2 [t|e|]]; [apply request_once_ends|done|done].
Qed.

Lemma send_request_sent path method body w :
  ∃ rq, sent (send_request path method body w).1 = sent w ++ [rq] ∧
    storage (send_request path method body w).1 = storage w.
Proof. unfold send_request. destruct (fetch _ _) as [s r]. simpl. eauto. Qed.

Lemma request_once_sent path method body w :
  length (sent (request_once path method body w).1) = S (length (sent w)).
Proof.
  unfold request_once. destruct (send_request_sent path method body w) as (rq & Hs & _).
  destruct (send_request path method body w) as [w1 [r|]]; simpl in *; rewrite Hs, length_app; simpl; lia.
Qed.

Lemma store_reply_sent b w : sent (store_reply b w).1 = sent w.
Proof. unfold store_reply. by repeat case_match. Qed.

Lemma refreshAuth_sent w : (length (sent (refreshAuth w).1) ≤ S (length (sent w)))%nat.
Proof.
  unfold refreshAuth. destruct (ls_refresh (storage w)) as [rt|]; simpl; [|lia].
  destruct (getStoredUser w) as [user|]; simpl; [|lia]. destruct (nonempty rt); simpl; [|lia].
  pose proof (request_once_sent "/v1/auth/refresh" "POST" (refresh_body user rt) w) as H.
  destruct (request_once _ _ _ w) as [w2 [b|e|]]; rewrite ?store_reply_sent; simpl in *; lia.
Qed.

(** A call sends at most three requests, and exactly one on a public path. *)
Theorem request_sends path method body w :
  (length (sent (request 2 path method body true w).1) ≤ 3 + length (sent w))%nat ∧
  (is_public path = true → length (sent (request 2 path method body true w).1) = S (length (sent w))).
Proof.
  split.
  - rewrite request_refines. unfold request_spec.
    destruct (send_request_sent path method body w) as (rq & Hs & _).
    destruct (send_request path method body w) as [w1 [r|]]; simpl in *; [|rewrite Hs, length_app; simpl; lia].
    assert (Hl : length (sent w1) = S (length (sent w))) by (rewrite Hs, length_app; simpl; lia).
    destruct (rs_ok r); simpl; [lia|]. destruct ((rs_status r =? 401) && negb (is_public path)); simpl; [|lia].
    pose proof (refreshAuth_sent w1). destruct (refreshAuth w1) as [w2 [t|e|]]; simpl in *; [|lia|lia].
    rewrite request_once_sent. lia.
  - intros Hp. rewrite request_plain by (by right). apply request_once_sent.
Qed.

(** The retry after a refresh carries the token the refresh returned, and
    the new pair is stored. *)
Theorem retry_uses_new_token path method body w w1 r w2 t :
  send_request path method body w = (w1, Some r) → rs_status r = 401 → is_public path = false →
  refreshAuth w1 = (w2, Done t) → nonempty t = true →
  ls_token (storage w2) = Some t ∧
  last (sent (request 2 path method body true w).1) =
    Some (mkRequest (buildURL path) method body (Some ("Bearer " +:+ t)%string)).
Proof.
  intros Hs Hst Hp Hr Ht.
  assert (Htok : ls_token (storage w2) = Some t).
  { unfold refreshAuth in Hr. unfold store_reply in Hr. repeat case_match; simplify_eq; done. }
  split; [exact Htok|]. rewrite request_refines. unfold request_spec. rewrite Hs.
  unfold rs_ok. rewrite Hst, Hp, Hr. simpl. unfold request_once, send_request, request_of. rewrite Htok, Ht.
  destruct (fetch _ _) as [s [r'|]]; simpl; apply last_snoc.
Qed.

(** C28: when the refresh fails, for whatever reason - no refresh token, a
    refused one, but also a network failure or an error of the server - the
    credentials are dropped, the page is the login page, and the caller sees
    SESSION_EXPIRED. *)
Theorem refresh_failure_ends_session path method body w w1 r w2 e :
  send_request path method body w = (w1, Some r) → rs_status r = 401 → is_public path = false →
  refreshAuth w1 = (w2, Fail e) →
  let '(w', o) := request 2 path method body true w in
  o = Fail (AppError (SStr "SESSION_EXPIRED") "session expired" 401) ∧
  storage w' = mkStorage None None None ∧ String.prefix "/login" (pathname w') = true.
Proof.
  intros Hs Hst Hp Hr. rewrite request_refines. unfold request_spec. rewrite Hs.
  unfold rs_ok. rewrite Hst, Hp, Hr. simpl. split; [done|]. split; [done|].
  by destruct (String.prefix "/login" (pathname w2)) eqn:He.
Qed.

(** So a refresh that never reached the server ends the session too, although
    the refresh token may be good: nothing says it was refused. *)
Theorem offline_refresh_ends_session path method body w w1 r rt user :
  send_request path method body w = (w1, Some r) → rs_status r = 401 → is_public path = false →
  ls_refresh (storage w1) = Some rt → nonempty rt = true → getStoredUser w1 = Some user →
  (send_request "/v1/auth/refresh" "POST" (refresh_body user rt) w1).2 = None →
  storage (request 2 path method body true w).1 = mkStorage None None None.
Proof.
  intros Hs Hst Hp Hrt Hne Hu Hf. rewrite request_refines. unfold request_spec. rewrite Hs.
  unfold rs_ok. rewrite Hst, Hp. simpl. unfold refreshAuth. rewrite Hrt, Hu, Hne. unfold request_once.
  destruct (send_request _ _ _ w1) as [w2 [r2|]]; [done|]. done.
Qed.

(** An upload does not use [request]: with an expired access token it fails
    after one request, although the refresh token is still there; every other
    call would be retried ([retry_uses_new_token]). *)
Theorem upload_not_refreshed file w srv r :
  fetch (server w) (mkRequest (API_BASE_URL +:+ "/v1/files")%string "POST" file
    (Some ("Bearer " +:+ opt_str_or (ls_token (storage w)) "")%string)) = (srv, Some r) →
  rs_status r = 401 →
  let '(w', o) := upload file w in
  (∃ msg, o = Fail (PlainError msg)) ∧ storage w' = storage w ∧ length (sent w') = S (length (sent w)).
Proof.
  intros Hf Hs. unfold upload. rewrite Hf. unfold rs_ok. rewrite Hs. simpl.
  split; [by eexists|]. split; [done|]. rewrite length_app. simpl. lia.
Qed.

End Api.

(** ** The theorems at a concrete server *)

Section Example.

(** Refuses the first request, refreshes, then accepts. *)
Definition ex_fetch (n : nat) (rq : Request) : nat * option (@Response (list (string * Scalar))) :=
  (S n, Some (match n with
              | O => mkResponse 401 "" "application/json" (Some []) ""
              | 1%nat => mkResponse 200 "" "application/json" (Some [("token", SStr "T2"); ("refreshToken", SStr "R2")]%string) ""
              | _ => mkResponse 200 "" "application/json" (Some []) ""
              end)).

(** Refuses everything. *)
Definition ex_refuse (n : nat) (rq : Request) : nat * option (@Response (list (string * Scalar))) :=
  (S n, Some (mkResponse 401 "" "application/json" (Some []) "")).

Definition ex_null (j : list (string * Scalar)) : bool := false.
Definition ex_field (j : list (string * Scalar)) (f : string) : Scalar :=
  default SUndefined (snd <$> find (λ kv, String.eqb kv.1 f) j).
Definition ex_parse (_ : string) : option (option User) := Some (Some (mkUser (Num 1) "ann")).
Definition ex_body (_ : User) (rt : string) : string := rt.
Definition ex_world : World := mkWorld (mkStorage (Some "T1") (Some "R1") (Some "{}"))%string "/chat" [] 0%nat.

Lemma upload_not_refreshed_witness :
  storage (upload ex_null ex_field ex_refuse "http://h" "form" ex_world).1 = storage ex_world ∧
  length (sent (upload ex_null ex_field ex_refuse "http://h" "form" ex_world).1) = 1%nat.
Proof.
  exact (proj2 (upload_not_refreshed ex_null ex_field ex_refuse "http://h" "form" ex_world 1%nat
    (mkResponse 401 "" "application/json" (Some []) "") eq_refl eq_refl)).
Defined.

Lemma retry_uses_new_token_witness :
  last (sent (request [] ex_null ex_field ex_fetch "http://h/" ex_parse ex_body 2 "/v1/groups" "GET" "" true ex_world).1) =
    Some (mkRequest "http://h/v1/groups" "GET" "" (Some "Bearer T2"%string)).
Proof.
  refine (proj2 (retry_uses_new_token [] ex_null ex_field ex_fetch "http://h/" ex_parse ex_body
    "/v1/groups" "GET" "" ex_world _ _ _ "T2" _ _ _ _ _)); reflexivity.
Defined.

Lemma refresh_failure_ends_session_witness :
  let '(w', o) := request [] ex_null ex_field ex_refuse "http://h/" ex_parse ex_body 2 "/v1/groups" "GET" "" true ex_world in
  o = Fail (AppError (SStr "SESSION_EXPIRED") "session expired" 401) ∧
  storage w' = mkStorage None None None ∧ String.prefix "/login" (pathname w') = true.
Proof.
  refine (refresh_failure_ends_session [] ex_null ex_field ex_refuse "http://h/" ex_parse ex_body
    "/v1/groups" "GET" "" ex_world _ _ _ _ _ _ _ _); reflexivity.
Defined.

(** Refuses the first request; then the connection is lost. *)
Definition ex_lost (n : nat) (rq : Request) : nat * option (@Response (list (string * Scalar))) :=
  (S n, match n with O => Some (mkResponse 401 "" "application/json" (Some []) "") | _ => None end).

Lemma offline_refresh_ends_session_witness :
  storage (request [] ex_null ex_field ex_lost "http://h/" ex_parse ex_body 2 "/v1/groups" "GET" "" true ex_world).1 = mkStorage None None None.
Proof.
  refine (offline_refresh_ends_session [] ex_null ex_field ex_lost "http://h/" ex_parse ex_body
    "/v1/groups" "GET" "" ex_world _ _ "R1" (mkUser (Num 1) "ann") _ _ _ _ _ _ _); reflexivity.
Defined.

Lemma request_sends_witness :
  length (sent (request [] ex_null ex_field ex_refuse "http://h/" ex_parse ex_body 2 "/v1/auth/login" "POST" "" true ex_world).1) = 1%nat.
Proof.
  refine (proj2 (request_sends [] ex_null ex_field ex_refuse "http://h/" ex_parse ex_body "/v1/auth/login" "POST" "" ex_world) _).
  reflexivity.
Defined.

End Example.
End Api.
