(* ===== verification/ApiCalls.v ===== *)
(** * Concurrent calls ([request] and [refreshAuth] of [web/app/lib/api.ts])

    [Api] follows one call from beginning to end.  Here any number of calls are
    under way: each is cut at its [await]s, and the order in which the answers
    arrive is the list of events.  The calls share [localStorage], the page and
    [refreshInflight], by which those that need a new token wait for one refresh
    together.  A call that is alone does what [Api.request] does. *)

From S2P Require Import Prelude JsNum Types Api.
Import Api.
Open Scope Z_scope.

Module ApiCalls.

Section Calls.
Context {Json : Type} (empty_object : Json) (is_null : Json → bool) (field : Json → string → Scalar).
Context {Server : Type} (API_BASE_URL : string).
Context (JSON_parse_user : string → option (option User)) (refresh_body : User → string → string).

(** A call of [request], and a call of [refreshAuth] by the real-time client. *)
Inductive Job :=
| JRequest (path method body : string) (allowAuthRetry : bool)
| JRefresh.

(** Where a call is: at the [fetch], at [await refreshAuth()], or at its end. *)
Inductive Phase :=
| Fetching
| Waiting
| Settled (o : outcome (@Body Json))
| Refreshed (o : outcome string).

Record Calls := mkCalls {
  world : @World Server;
  refreshInflight : bool;
  jobs : list (Job * Phase);
}.

Abbreviation Response := (@Response Json).
Abbreviation World := (@World Server).

(** ** Operations *)

(** A request goes out. *)
Definition issue (path method body : string) (w : World) : World :=
  mkWorld (storage w) (pathname w) (sent w ++ [request_of API_BASE_URL path method body w]) (server w).

Definition NO_REFRESH_TOKEN : Error := AppError (SStr "NO_REFRESH_TOKEN") "no refresh token" 401.
Definition SESSION_EXPIRED : Error := AppError (SStr "SESSION_EXPIRED") "session expired" 401.

(** A call goes on after [await refreshAuth()]. *)
Definition resume (o : outcome string) (j : Job) (w : World) : World * (Job * Phase) :=
  match j with
  | JRefresh => (w, (j, Refreshed o))
  | JRequest path method body _ =>
      match o with
      | Done _ => (issue path method body w, (JRequest path method body false, Fetching))
      | _ => (forceReLogin w, (j, Settled (Fail SESSION_EXPIRED)))
      end
  end.

(** Those that wait go on, in the order of their calls. *)
Fixpoint resume_all (o : outcome string) (js : list (Job * Phase)) (w : World) : World * list (Job * Phase) :=
  match js with
  | [] => (w, [])
  | (j, Waiting) :: js' =>
      let '(w, jp) := resume o j w in
      let '(w, js'') := resume_all o js' w in (w, jp :: js'')
  | jp :: js' => let '(w, js'') := resume_all o js' w in (w, jp :: js'')
  end.

(** [refreshAuth], called by a job that now waits: it joins the refresh in
    flight, or starts one, which fails at once without the credentials. *)
Definition refreshAuth (s : Calls) : Calls :=
  if refreshInflight s then s
  else
    let fail := let '(w, js) := resume_all (Fail NO_REFRESH_TOKEN) (jobs s) (world s) in mkCalls w false js in
    match ls_refresh (storage (world s)), getStoredUser JSON_parse_user (world s) with
    | Some rt, Some user =>
        if nonempty rt then mkCalls (issue "/v1/auth/refresh" "POST" (refresh_body user rt) (world s)) true (jobs s)
        else fail
    | _, _ => fail
    end.

(** What the refresh promise settles with, from the answer to its request: the
    path is public, so the request is not retried. *)
Definition refresh_outcome (r : option Response) (w : World) : World * outcome string :=
  match r with
  | None => (w, Fail NetworkError)
  | Some r =>
      if rs_ok r then store_reply is_null field (parse_body empty_object r) w
      else (w, Fail (response_error is_null field r (parse_body empty_object r)))
  end.

Inductive Event :=
(** a call begins *)
| Start (j : Job)
(** the answer to the [fetch] of call [i] ([None]: it is rejected) *)
| Reply (i : nat) (r : option Response)
(** the answer to the refresh *)
| RefreshReply (r : option Response).

Definition set_phase (i : nat) (ph : Phase) (s : Calls) : Calls :=
  mkCalls (world s) (refreshInflight s) (alter (λ jp, (jp.1, ph)) i (jobs s)).

(** [request] after its [fetch]. *)
Definition reply (i : nat) (path : string) (allowAuthRetry : bool) (r : option Response) (s : Calls) : Calls :=
  match r with
  | None => set_phase i (Settled (Fail NetworkError)) s
  | Some r =>
      let b := parse_body empty_object r in
      if rs_ok r then set_phase i (Settled (Done b)) s
      else if (rs_status r =? 401) && allowAuthRetry && negb (is_public path) then refreshAuth (set_phase i Waiting s)
      else set_phase i (Settled (Fail (response_error is_null field r b))) s
  end.

Definition step (e : Event) (s : Calls) : Calls :=
  match e with
  | Start (JRequest path method body allow) =>
      mkCalls (issue path method body (world s)) (refreshInflight s) (jobs s ++ [(JRequest path method body allow, Fetching)])
  | Start JRefresh => refreshAuth (mkCalls (world s) (refreshInflight s) (jobs s ++ [(JRefresh, Waiting)]))
  | Reply i r =>
      match jobs s !! i with
      | Some (JRequest path _ _ allow, Fetching) => reply i path allow r s
      | _ => s
      end
  | RefreshReply r =>
      if refreshInflight s then
        let '(w, o) := refresh_outcome r (world s) in
        let '(w, js) := resume_all o (jobs s) w in mkCalls w false js
      else s
  end.

Definition run (es : list Event) (s : Calls) : Calls := foldl (λ s e, step e s) s es.

(** ** Waiting *)

(** Calls wait only while a refresh is in flight. *)
Definition waits_ok (s : Calls) : Prop :=
  refreshInflight s = true ∨ Forall (λ jp, jp.2 ≠ Waiting) (jobs s).

Lemma resume_phase o j w : (resume o j w).2.2 ≠ Waiting.
Proof. destruct j; [destruct o|]; done. Qed.

Lemma resume_all_settles o js : ∀ w, Forall (λ jp, jp.2 ≠ Waiting) (resume_all o js w).2.
Proof.
  induction js as [|[j ph] js IH]; intros w; [constructor|]. cbn [resume_all].
  destruct ph; try (specialize (IH w); destruct (resume_all o js w); by constructor).
  pose proof (resume_phase o j w) as Hp. destruct (resume o j w) as [w1 jp].
  specialize (IH w1). destruct (resume_all o js w1). by constructor.
Qed.

Lemma refreshAuth_waits s : waits_ok (refreshAuth s).
Proof.
  unfold refreshAuth, waits_ok. destruct (refreshInflight s) eqn:Hi; [by left|]. cbv zeta.
  pose proof (resume_all_settles (Fail NO_REFRESH_TOKEN) (jobs s) (world s)) as H.
  destruct (resume_all _ _ _) as [w js]. repeat case_match; simpl; auto.
Qed.

Lemma set_phase_waits i ph s : ph ≠ Waiting → waits_ok s → waits_ok (set_phase i ph s).
Proof.
  intros Hp [Hi|Hf]; [by left|right]. cbn [jobs set_phase]. rewrite Forall_lookup in *. intros k [j q] Hk.
  rewrite list_lookup_alter in Hk. case_decide; [|by apply (Hf k)].
  apply fmap_Some in Hk as ([j' q'] & _ & [= -> ->]). done.
Qed.

Lemma step_waits e s : waits_ok s → waits_ok (step e s).
Proof.
  intros Hw. destruct e as [[path method body allow|]|i r|r]; cbn [step].
  - destruct Hw as [Hw|Hw]; [by left|right]. cbn. apply Forall_app. split; [done|]. by repeat constructor.
  - apply refreshAuth_waits.
  - destruct (jobs s !! i) as [[[path method body allow|] []]|]; try done. unfold reply.
    destruct r as [r|]; [|by apply set_phase_waits]. destruct (rs_ok r); [by apply set_phase_waits|].
    destruct (_ && _ && _); [apply refreshAuth_waits|by apply set_phase_waits].
  - destruct (refreshInflight s); [|done]. destruct (refresh_outcome r (world s)) as [w o].
    pose proof (resume_all_settles o (jobs s) w) as H. destruct (resume_all o (jobs s) w) as [w' js]. by right.
Qed.

Lemma run_waits es : ∀ s, waits_ok s → waits_ok (run es s).
Proof. induction es as [|e es IH]; intros s Hs; [done|]. by apply IH, step_waits. Qed.

(** ** Sharing a refresh *)














(** ** A call that is alone *)

Section Alone.
Context (fetch : Server → Request → Server * option Response).

Definition set_server (srv : Server) (s : Calls) : Calls :=
  mkCalls (mkWorld (storage (world s)) (pathname (world s)) (sent (world s)) srv) (refreshInflight s) (jobs s).

(** The server answers the last request before anything else happens. *)
Fixpoint serve (n : nat) (s : Calls) : Calls :=
  match n with
  | O => s
  | S n' =>
      match jobs s !! 0%nat, last (sent (world s)) with
      | Some (_, Fetching), Some rq =>
          let '(srv, r) := fetch (server (world s)) rq in serve n' (step (Reply 0 r) (set_server srv s))
      | Some (_, Waiting), Some rq =>
          let '(srv, r) := fetch (server (world s)) rq in serve n' (step (RefreshReply r) (set_server srv s))
      | _, _ => s
      end
  end.

Abbreviation request := (Api.request empty_object is_null field fetch API_BASE_URL JSON_parse_user refresh_body).
Abbreviation request_once := (Api.request_once empty_object is_null field fetch API_BASE_URL).
Abbreviation send_request := (Api.send_request fetch API_BASE_URL).

Lemma serve_settled n w b j o : serve n (mkCalls w b [(j, Settled o)]) = mkCalls w b [(j, Settled o)].
Proof. by destruct n. Qed.

Lemma serve_fetch n path method body b j w :
  serve (S n) (mkCalls (issue path method body w) b [(j, Fetching)]) =
  let '(w', r) := send_request path method body w in serve n (step (Reply 0 r) (mkCalls w' b [(j, Fetching)])).
Proof.
  cbn [serve jobs world issue sent lookup list_lookup]. rewrite last_snoc. cbn [server issue]. unfold Api.send_request.
  change (server (issue path method body w)) with (server w). by destruct (fetch (server w) _).
Qed.

Lemma serve_refresh n path method body b j w :
  serve (S n) (mkCalls (issue path method body w) b [(j, Waiting)]) =
  let '(w', r) := send_request path method body w in serve n (step (RefreshReply r) (mkCalls w' b [(j, Waiting)])).
Proof.
  cbn [serve jobs world issue sent lookup list_lookup]. rewrite last_snoc. cbn [server issue]. unfold Api.send_request.
  change (server (issue path method body w)) with (server w). by destruct (fetch (server w) _).
Qed.

(** A retry is one round trip. *)
Lemma serve_retry n path method body w :
  serve (S n) (mkCalls (issue path method body w) false [(JRequest path method body false, Fetching)]) =
  mkCalls (request_once path method body w).1 false [(JRequest path method body false, Settled (request_once path method body w).2)].
Proof.
  rewrite serve_fetch. unfold Api.request_once. destruct (send_request path method body w) as [w1 [r|]]; [|apply serve_settled].
  cbn [step jobs lookup list_lookup reply]. rewrite andb_false_r. destruct (rs_ok r); apply serve_settled.
Qed.

(** Alone, a call does what [Api.request] says it does. *)
Theorem alone_refines path method body w :
  ∃ allow, serve 3 (step (Start (JRequest path method body true)) (mkCalls w false [])) =
    mkCalls (request 2 path method body true w).1 false
      [(JRequest path method body allow, Settled (request 2 path method body true w).2)].
Proof.
  rewrite request_refines. unfold request_spec. cbn [step world refreshInflight jobs app]. rewrite serve_fetch.
  destruct (send_request path method body w) as [w1 [r|]]; [|exists true; apply serve_settled].
  cbn [step jobs lookup list_lookup reply]. destruct (rs_ok r); [exists true; apply serve_settled|].
  rewrite andb_true_r. destruct ((rs_status r =? 401) && negb (is_public path)); [|exists true; apply serve_settled].
  change (set_phase 0 Waiting _) with (mkCalls w1 false [(JRequest path method body true, Waiting)]). unfold refreshAuth, Api.refreshAuth.
  cbn [refreshInflight world jobs resume_all resume].
  destruct (ls_refresh (storage w1)) as [rt|]; [|exists true; apply serve_settled].
  destruct (getStoredUser JSON_parse_user w1) as [user|]; [|exists true; apply serve_settled].
  destruct (nonempty rt); [|exists true; apply serve_settled]. rewrite serve_refresh.
  assert (Hro : request_once "/v1/auth/refresh" "POST" (refresh_body user rt) w1 =
    let '(w, r) := send_request "/v1/auth/refresh" "POST" (refresh_body user rt) w1 in
    match r with
    | None => (w, Fail NetworkError)
    | Some r => (w, if rs_ok r then Done (parse_body empty_object r) else Fail (response_error is_null field r (parse_body empty_object r)))
    end) by done.
  rewrite !Hro. clear Hro.
  destruct (send_request "/v1/auth/refresh" "POST" (refresh_body user rt) w1) as [w2 r2]. cbn [step refreshInflight].
  assert (Ho : refresh_outcome r2 w2 = match r2 with
    | None => (w2, Fail NetworkError)
    | Some r2 => if rs_ok r2 then store_reply is_null field (parse_body empty_object r2) w2
                 else (w2, Fail (response_error is_null field r2 (parse_body empty_object r2))) end) by done.
  cbn [world]. destruct r2 as [r2|]; rewrite Ho; clear Ho; [|exists true; apply serve_settled].
  destruct (rs_ok r2); [|exists true; apply serve_settled]. unfold store_reply.
  destruct (body_field is_null field (parse_body empty_object r2) "token"), (body_field is_null field (parse_body empty_object r2) "refreshToken");
    cbn [jobs resume_all resume];
    [exists false; apply serve_retry|exists true; apply serve_settled..].
Qed.

End Alone.
End Calls.

(** ** At a concrete run *)

Section Example.

Abbreviation ex_step := (step (Server := nat) [] ex_null ex_field "http://h" ex_parse ex_body).
Abbreviation ex_run := (run (Server := nat) [] ex_null ex_field "http://h" ex_parse ex_body).




End Example.
End ApiCalls.
