(* ===== verification/AuthStore.v ===== *)
(** * The authentication store ([web/app/stores/authStore.ts])

    Login, logout and the restoration of a session from [localStorage], over
    the storage of [Api]. *)

From S2P Require Import Prelude JsNum Types Api.

Module AuthStore.

Definition initialState : AuthState := mkAuthState None None false.

Section Store.
(** [JSON.stringify] and [JSON.parse] of a user ([None]: it throws, [Some None]:
    no object); [has_window] is [typeof window !== "undefined"]. *)
Context (JSON_stringify_user : User → string) (JSON_parse_user : string → option (option User)).
Context (has_window : bool).

Definition login (token refreshToken : string) (user : User) (st : Api.Storage) : Api.Storage * AuthState :=
  (if has_window then Api.mkStorage (Some token) (Some refreshToken) (Some (JSON_stringify_user user)) else st,
   mkAuthState (Some user) (Some token) true).

Definition logout (st : Api.Storage) : Api.Storage * AuthState :=
  (if has_window then Api.mkStorage None None None else st, initialState).

(** [restoreFromStorage]; the state is unchanged on the server. *)
Definition restoreFromStorage (st : Api.Storage) (s : AuthState) : AuthState :=
  if has_window then
    let user := match Api.ls_user st with
                | Some raw => if nonempty raw then default None (JSON_parse_user raw) else None
                | None => None
                end in
    match Api.ls_token st, user with
    | Some t, Some u => if nonempty t then mkAuthState (Some u) (Some t) true else initialState
    | _, _ => initialState
    end
  else s.

(** [isAuthenticated] is set exactly when a user and a token are known. *)
Definition auth_ok (s : AuthState) : Prop :=
  isAuthenticated s = true ↔ is_Some (auth_user s) ∧ is_Some (auth_token s).

Lemma initial_ok : auth_ok initialState.
Proof. split; [done|]. intros [H _]. by apply is_Some_None in H. Qed.

(** A restored session is consistent whatever the storage holds (missing
    keys, malformed JSON), and is the session of the stored token. *)
Theorem restore_consistent st s :
  auth_ok s →
  auth_ok (restoreFromStorage st s) ∧
  (has_window = true → auth_token (restoreFromStorage st s) ≠ None →
   auth_token (restoreFromStorage st s) = Api.ls_token st).
Proof.
  intros Hs. unfold restoreFromStorage. destruct has_window; [|by split].
  destruct (Api.ls_token st) as [t|]; [|split; [apply initial_ok|done]].
  destruct (match Api.ls_user st with Some _ => _ | None => _ end) as [u|]; [|split; [apply initial_ok|done]].
  destruct (nonempty t); [|split; [apply initial_ok|done]]. split; [|done]. split; [intros _; simpl; eauto|done].
Qed.

(** Reloading the page keeps the session: what [login] stores,
    [restoreFromStorage] reads back, and after [logout] there is none. *)
Theorem login_restore token refreshToken user st s :
  has_window = true → nonempty token = true → JSON_stringify_user user ≠ EmptyString →
  JSON_parse_user (JSON_stringify_user user) = Some (Some user) →
  restoreFromStorage (login token refreshToken user st).1 s = (login token refreshToken user st).2 ∧
  restoreFromStorage (logout (login token refreshToken user st).1).1 s = initialState.
Proof.
  intros Hw Ht Hne Hp. unfold restoreFromStorage, logout, login. rewrite Hw. simpl.
  assert (nonempty (JSON_stringify_user user) = true) as ->
    by (unfold nonempty; by rewrite (proj2 (String.eqb_neq _ _))).
  by rewrite Hp, Ht.
Qed.

End Store.

Lemma restore_consistent_witness :
  auth_ok initialState ∧
  auth_ok (restoreFromStorage (λ _, None) true (Api.mkStorage (Some "T") None (Some "{"))%string initialState).
Proof.
  split; [apply initial_ok|]. apply (restore_consistent (λ _, None) true _ _ initial_ok).
Defined.

Lemma login_restore_witness :
  let u := mkUser (Num 1) "ann" in
  restoreFromStorage (λ _, Some (Some u)) true (login (λ _, "u"%string) true "T" "R" u (Api.mkStorage None None None)).1 initialState
  = mkAuthState (Some u) (Some "T"%string) true.
Proof.
  intros u. apply (login_restore (λ _, "u"%string) (λ _, Some (Some u)) true "T" "R" u); [reflexivity|reflexivity|discriminate|reflexivity].
Defined.

End AuthStore.
