(* ===== verification/Media.v ===== *)
(** * Media messages ([web/app/lib/media.ts])

    The metadata carried as JSON in image and file messages, the address of a
    stored file and the display of sizes. *)

From S2P Require Import Prelude JsNum Types Api.
Open Scope Z_scope.

Module Media.

(** [interface MediaMeta]. *)
Record MediaMeta := mkMeta { meta_url : string; meta_name : string; meta_size : Z; meta_mime : string }.

(** A field of a parsed JSON object, by its [typeof]. *)
Inductive Field := FString (s : string) | FNumber (n : Z) | FOther.

Section Media.
(** [JSON.parse] as the fields of the object it returns; [None] when it throws
    or returns [null]. *)
Context (JSON_parse : string → option (string → Field)).
Context (API_BASE_URL : string).

(** [parseMediaContent]. *)
Definition parseMediaContent (content : string) : option MediaMeta :=
  match JSON_parse content with
  | None => None
  | Some obj =>
      match obj "url"%string with
      | FString url =>
          if String.eqb url "" then None
          else Some (mkMeta url
            (match obj "name"%string with FString s => s | _ => "file"%string end)
            (match obj "size"%string with FNumber n => n | _ => 0 end)
            (match obj "mime"%string with FString s => s | _ => ""%string end))
      | _ => None
      end
  end.

(** [absoluteFileUrl]. *)
Definition is_absolute (url : string) : bool := String.prefix "http://" url || String.prefix "https://" url.

Definition absoluteFileUrl (url : string) : string :=
  if is_absolute url then url
  else (Api.drop_slash API_BASE_URL +:+ (if String.prefix "/" url then url else "/" +:+ url))%string.

(** The fields [sendFileMessage] puts in the content of a message. *)
Definition meta_fields (m : MediaMeta) (f : string) : Field :=
  if String.eqb f "url" then FString (meta_url m)
  else if String.eqb f "name" then FString (meta_name m)
  else if String.eqb f "size" then FNumber (meta_size m)
  else if String.eqb f "mime" then FString (meta_mime m)
  else FOther.

(** The metadata a client puts in a file message is what the other clients
    read from it, when [JSON.parse] gives back the fields that were written. *)
Theorem media_roundtrip m content :
  nonempty (meta_url m) = true → JSON_parse content = Some (meta_fields m) →
  parseMediaContent content = Some m.
Proof.
  intros Hu Hp. unfold parseMediaContent. rewrite Hp. simpl. unfold nonempty in Hu.
  destruct (String.eqb (meta_url m) ""); [done|]. by destruct m.
Qed.

End Media.

(** [(num / den).toFixed(1)] for non-negative integers whose quotient is a
    double: the tenths nearest to it, the larger of two. *)
Definition toFixed1 (num den : Z) : string :=
  let tenths := (20 * num + den) / (2 * den) in
  (pretty (tenths / 10) +:+ "." +:+ pretty (tenths mod 10))%string.

(** [formatSize]. *)
Definition formatSize (bytes : Z) : string :=
  if bytes <? 1024 then (number_to_string bytes +:+ " B")%string
  else if bytes <? 1024 * 1024 then (toFixed1 bytes 1024 +:+ " KB")%string
  else (toFixed1 bytes (1024 * 1024) +:+ " MB")%string.

Example formatSize_examples :
  formatSize 1023 = "1023 B"%string ∧ formatSize 1536 = "1.5 KB"%string ∧ formatSize 5000000 = "4.8 MB"%string.
Proof. vm_compute. auto. Qed.

Lemma media_roundtrip_witness :
  let m := mkMeta "/v1/files/7" "a.png" 1536 "image/png" in
  parseMediaContent (λ _, Some (meta_fields m)) "{}" = Some m.
Proof. intros m. apply media_roundtrip; reflexivity. Defined.

End Media.
