(* ===== verification/Session.v ===== *)
(** * Signing in and out ([web/app/hooks/useAuth.ts])

    The operations of [useAuth] over the storage, the authentication store and
    the page, and the effect that keeps a page in step with the session. *)

From S2P Require Import Prelude JsNum Types Api AuthStore.

Module Session.

(** What the hook acts on; [page] is the current path. *)
Record App := mkApp { app_storage : Api.Storage; app_auth : AuthState; page : string; isReady : bool }.

(** [authApi.login]'s answer: the reply's user id and tokens, or the message of
    the error. *)
Inductive LoginResult := LoginOk (userId : jsnum) (token refreshToken : string) | LoginError (msg : string).

Inductive Notice := Success (text : string) | Failure (text : string).

Section Session.
Context (JSON_stringify_user : User → string) (JSON_parse_user : string → option (option User)).

(** The mount effect. *)
Definition restore (a : App) : App :=
  mkApp (app_storage a) (AuthStore.restoreFromStorage JSON_parse_user true (app_storage a) (app_auth a)) (page a) true.

Definition login (username : string) (reply : LoginResult) (a : App) : App * bool * list Notice :=
  match reply with
  | LoginOk uid token refreshToken =>
      let '(st, auth) := AuthStore.login JSON_stringify_user true token refreshToken (mkUser uid username) (app_storage a) in
      (mkApp st auth "/chat" (isReady a), true, [Success "Login successful"])
  | LoginError msg => (a, false, [Failure msg])
  end.

(** [register]: [None] is an accepted registration, followed by a login. *)
Definition register (username : string) (registered : option string) (reply : LoginResult) (a : App) : App * bool * list Notice :=
  match registered with
  | Some msg => (a, false, [Failure msg])
  | None => let '(a, ok, ns) := login username reply a in (a, ok, Success "Registration successful" :: ns)
  end.

(** [logout]: the store and the page change before the answer of the server
    arrives; the revocation request is left out. *)
Definition logout (a : App) : App :=
  let '(st, auth) := AuthStore.logout true (app_storage a) in mkApp st auth "/login" (isReady a).

Definition is_public_page (p : string) : bool := String.eqb p "/login" || String.eqb p "/register".

(** The guard effect: where it sends the page, in the order of its tests. *)
Definition guard (a : App) : option string :=
  if negb (isReady a) then None
  else if isAuthenticated (app_auth a) && is_public_page (page a) then Some "/chat"%string
  else if negb (isAuthenticated (app_auth a)) && negb (is_public_page (page a)) then Some "/login"%string
  else None.

Definition follow (a : App) : App :=
  match guard a with Some p => mkApp (app_storage a) (app_auth a) p (isReady a) | None => a end.

(** The guard settles after one redirection, and then a page that needs a
    session has one. *)
Theorem guard_settles a :
  guard (follow a) = None ∧
  (isReady a = true → is_public_page (page (follow a)) = negb (isAuthenticated (app_auth a))).
Proof.
  unfold follow, guard. destruct a as [st au p [|]]; simpl; [|done].
  destruct (isAuthenticated au) eqn:Ha, (is_public_page p) eqn:Hp; simpl; rewrite ?Ha, ?Hp; simpl; rewrite ?Hp; done.
Qed.

(** A failed sign-in or registration changes neither the session nor the
    page; after a sign-out the store restored from storage has no session. *)
Theorem sign_in_out username msg reply a :
  (login username (LoginError msg) a).1 = (a, false) ∧
  (register username (Some msg) reply a).1 = (a, false) ∧
  app_auth (restore (logout a)) = AuthStore.initialState ∧ page (logout a) = "/login"%string.
Proof. done. Qed.

End Session.
End Session.
