(* ===== verification/Hooks.v ===== *)
(** * The hooks that drive the store ([web/app/hooks/*.ts])

    The handlers of real-time events ([useRealtime]), the operations of an open
    conversation ([useConversation]) and the list refresh ([useConversations]),
    as transformations of the chat store together with the calls they make on
    the real-time client and the server ([Effect]).  A call into the client
    that reports success or failure takes that answer as an argument; an
    [await] splits an operation in the part before and the part after it. *)

From S2P Require Import Prelude JsNum JsMap Types ChatStore Realtime Topic Mentions.
Import ChatStore.

Module Hooks.

Definition MSG_TYPE_TEXT : Z := 1.
Definition MSG_TYPE_IMAGE : Z := 2.
Definition MSG_TYPE_FILE : Z := 3.

(** Calls out of the hooks, in order; a toast is its title, without the text of
    the error that caused it or a description. *)
Inductive Effect :=
| RefreshConversations
| WsReadReceipt (topic : string) (upToSeq : jsnum)
| WsSend (topic : string) (msgType : Z) (content : string) (clientMsgId : string) (mentioned : option (list jsnum))
| WsRecall (topic : string) (topicSeq msgId : jsnum)
| HttpMarkRead (topic : string)
| HttpPull (topic : string) (lastSeq limit endSeq : Z)
| Toast (text : string).

(** ** Real-time events ([useRealtime]) *)

Definition my_id (currentUser : option User) : Z :=
  match currentUser with Some u => Number (user_userId u) | None => 0 end.

(** The [ChatMessage] built from a push. *)
Definition message_of_push (d : Realtime.RealtimeMessage) (myId : Z) : ChatMessage :=
  mkMsg
    (if nonempty (Realtime.rm_clientMsgId d) then Realtime.rm_clientMsgId d
     else (number_to_string (Realtime.rm_topicSeq d) +:+ "-" +:+ number_to_string (Realtime.rm_msgId d))%string)
    (Some (Num (Realtime.rm_msgId d))) (Realtime.rm_topic d) (Num (Realtime.rm_senderId d))
    (Realtime.rm_content d) (Some (Realtime.rm_msgType d)) (TsWire (Num (Realtime.rm_timestamp d)))
    (Some (Num (Realtime.rm_topicSeq d)))
    (if (Realtime.rm_senderId d =? myId)%Z then sent else delivered) None.

(** [peerUsername] or [name] is known. *)
Definition has_name (c : option Conversation) : bool :=
  match c with Some c => nonempty (peerUsername c) || opt_nonempty (conv_name c) | None => false end.

Definition unread_patch (topic : string) (n : Z) : ConvPatch :=
  mkConvPatch topic None None None None None None None None (Some n) None None None.

(** [handleIncomingMessage].  [chatStore] is the snapshot taken on entry: the
    lookups after [appendMessage] still read it, while the actions act on the
    current state. *)
Definition handleIncomingMessage (d : Realtime.RealtimeMessage) (currentUser : option User) (chatStore : State)
    : State * list Effect :=
  let topic := Realtime.rm_topic d in
  let myId := my_id currentUser in
  let msg := message_of_push d myId in
  let mentionsMe := negb (myId =? 0)%Z && bool_decide (myId ∈ Realtime.rm_mentionedUserIds d) in
  let isActive := bool_decide (activeTopic chatStore = Some topic) in
  let s := appendMessage topic msg chatStore in
  let conv := map_get topic (conversations chatStore) in
  let e1 := if has_name conv then [] else [RefreshConversations] in
  let '(s, e2) :=
    if negb isActive then
      match conv with
      | Some c => (upsertConversation (unread_patch topic (unreadCount c + 1)) s, [])
      | None => (s, [])
      end
    else (markTopicRead topic (Num (Realtime.rm_topicSeq d)) s,
          [WsReadReceipt topic (Num (Realtime.rm_topicSeq d))]) in
  let '(s, e3) :=
    if mentionsMe && negb (Realtime.rm_senderId d =? myId)%Z then
      let senderName :=
        opt_str_or (map_get topic (memberNames chatStore) ≫= map_get (Realtime.rm_senderId d))
          (opt_str_or (peerUsername <$> conv) ("User " +:+ number_to_string (Realtime.rm_senderId d))) in
      let convName := opt_str_or (conv ≫= conv_name) senderName in
      (if negb isActive then markTopicMentioned topic s else s,
       [Toast (senderName +:+ " @了你（" +:+ convName +:+ "）")%string])
    else (s, []) in
  (s, e1 ++ e2 ++ e3).

Definition sent_patch (mid seq : Z) : MsgPatch :=
  mkMsgPatch None (Some (Num mid)) None None None None None (Some (Num seq)) (Some sent) None.

(** The handler table of [useRealtime]. *)
Definition on_realtime (e : Realtime.RealtimeEvent) (user : option User) (s : State) : State * list Effect :=
  match e with
  | Realtime.EvConnected => (updateConnectionState connected s, [])
  | Realtime.EvAuthed => (updateConnectionState authed s, [])
  | Realtime.EvDisconnected => (updateConnectionState disconnected s, [])
  | Realtime.EvReconnecting => (updateConnectionState reconnecting s, [])
  | Realtime.EvMessage d => handleIncomingMessage d user s
  | Realtime.EvSendReceipt r =>
      (updateMessageStatus (Realtime.sr_topic r) (Realtime.sr_clientMsgId r)
         (sent_patch (Realtime.sr_msgId r) (Realtime.sr_topicSeq r)) s, [])
  | Realtime.EvDeliveryReceipt r =>
      match map_get (Realtime.dr_topic r) (conversations s) with
      | None => (s, [])
      | Some conv =>
          match find (λ m, match topicSeq m with
                           | Some q => strict_eq q (Num (Realtime.dr_topicSeq r))
                           | None => false
                           end) (messages conv) with
          | Some msg =>
              if bool_decide (status msg = read) then (s, [])
              else (updateMessageStatus (Realtime.dr_topic r) (clientMsgId msg) (status_patch delivered) s, [])
          | None => (s, [])
          end
      end
  | Realtime.EvReadReceipt r => (markTopicRead (Realtime.rr_topic r) (Num (Realtime.rr_upToSeq r)) s, [])
  | Realtime.EvRecall r => (recallMessage (Realtime.rc_topic r) (Realtime.rc_topicSeq r) (Some (Realtime.rc_msgId r)) s, [])
  | Realtime.EvError _ => (s, [])
  end.

(** ** An open conversation ([useConversation]) *)

(** A message of a pull reply, in proto-JSON. *)
Record Pulled := mkPulled {
  pl_msgId : jsnum;
  pl_topic : string;
  pl_senderId : jsnum;
  pl_msgType : Z;
  pl_content : string;
  pl_timestamp : jsnum;
  pl_topicSeq : jsnum;
  pl_clientMsgId : option string;
  pl_recalled : option bool;
}.

(** The references the hook keeps. *)
Record Refs := mkRefs { loadedRef : list string; inFlightRef : list string; loadingMoreRef : bool }.

Section Conversation.
(** [atob] ([None]: it throws), [TextDecoder], [JSON.stringify(JSON.parse(x))]
    ([None]: it throws) and [String.prototype.trim]. *)
Context (atob : string → option string) (decode_utf8 : string → string).
Context (json_normal : string → option string) (trim : string → string).
(** The code units of a string, and [toLowerCase] on them. *)
Context (utf16 : string → Mentions.text) (toLowerCase : Mentions.text → Mentions.text).

(** [decodeMessageContent] on the string content of a pull reply. *)
Definition decodeMessageContent (content : string) (msgType : Z) : string :=
  match atob content with
  | None => content
  | Some binary =>
      let decoded := decode_utf8 binary in
      if negb (msgType =? MSG_TYPE_TEXT)%Z then default decoded (json_normal decoded) else decoded
  end.

(** The callback that turns a pulled message into a [ChatMessage]. *)
Definition message_of_pull (userId : option jsnum) (m : Pulled) : ChatMessage :=
  let recalled := default false (pl_recalled m) in
  mkMsg (opt_str_or (pl_clientMsgId m) (interpolate (pl_topicSeq m) +:+ "-" +:+ interpolate (pl_msgId m))%string)
    (Some (pl_msgId m)) (pl_topic m) (pl_senderId m) (decodeMessageContent (pl_content m) (pl_msgType m))
    (Some (pl_msgType m)) (TsWire (pl_timestamp m)) (Some (pl_topicSeq m))
    (if recalled then recalled_status
     else if match userId with Some u => strict_eq (pl_senderId m) u | None => false end then sent else delivered)
    (if recalled then Some true else None).

Definition page_patch (topic : string) (msgs : list ChatMessage) (more : bool) : ConvPatch :=
  mkConvPatch topic None None None None None None None None None (Some msgs) (Some more) None.

(** [loadLatest], up to its [await]. *)
Definition loadLatest_start (topic : string) (user : option User) (r : Refs) (s : State)
    : Refs * State * list Effect :=
  match user with
  | None => (r, s, [])
  | Some _ =>
      if set_has topic (loadedRef r) || set_has topic (inFlightRef r) then (r, s, [])
      else (mkRefs (loadedRef r) (set_add topic (inFlightRef r)) (loadingMoreRef r),
            setMessagesLoading topic true s, [HttpPull topic 0 20 0])
  end.

(** The rest of it, with the reply ([None]: the pull failed). *)
Definition loadLatest_reply (topic : string) (user : User) (reply : option (list Pulled * bool)) (r : Refs) (s : State)
    : Refs * State * list Effect :=
  let '(s, e) :=
    match reply with
    | Some (msgs, more) =>
        (upsertConversation (page_patch topic (message_of_pull (Some (user_userId user)) <$> msgs) more) s, [])
    | None => (s, [Toast "Failed to load messages"])
    end in
  (mkRefs (set_add topic (loadedRef r)) (set_delete topic (inFlightRef r)) (loadingMoreRef r),
   setMessagesLoading topic false s, e).

(** The exclusive upper bound [loadMore] pages back from. *)
Definition oldest_seq (c : Conversation) : Z :=
  match head (messages c) with
  | Some m => default 0%Z (seq_of m)
  | None => 0%Z
  end.

(** [loadMore], up to its [await]; [conversation] is the one of the rendering
    that made the callback. *)
Definition loadMore_start (conversation : option Conversation) (topic : string) (r : Refs) : Refs * list Effect :=
  match conversation with
  | None => (r, [])
  | Some c =>
      if isLoading c || negb (hasMore c) then (r, [])
      else if (oldest_seq c <=? 0)%Z then (r, [])
      else if loadingMoreRef r then (r, [])
      else (mkRefs (loadedRef r) (inFlightRef r) true, [HttpPull topic 0 20 (oldest_seq c)])
  end.

Definition loadMore_reply (topic : string) (user : option User) (reply : option (list Pulled * bool)) (r : Refs) (s : State)
    : Refs * State * list Effect :=
  let '(s, e) :=
    match reply with
    | Some (msgs, more) => (prependMessages topic (message_of_pull (user_userId <$> user) <$> msgs) more s, [])
    | None => (s, [Toast "Failed to load older messages"])
    end in
  (mkRefs (loadedRef r) (inFlightRef r) false, s, e).

(** The optimistic message of [sendMessage] and [sendFileMessage]. *)
Definition local_message (cid topic content : string) (msgType now : Z) (user : option User) (ok : bool) : ChatMessage :=
  mkMsg cid None topic
    (match user with Some u => if truthy (user_userId u) then user_userId u else Num 0 | None => Num 0 end)
    content (Some msgType) (TsNow now) None (if ok then sending else failed) None.

Definition failed_toast (ok : bool) : list Effect :=
  if ok then [] else [Toast "Message failed to send — click the warning icon to retry"].

(** [sendMessage]: [cid] is the generated id, [now] the clock and [ok] the
    answer of [realtimeClient.sendText]. *)
Definition sendMessage (topic text : string) (mentioned : list jsnum) (cid : string) (now : Z) (user : option User)
    (ok : bool) (s : State) : State * list Effect :=
  if negb (nonempty (trim text)) then (s, [])
  else (appendMessage topic (local_message cid topic (trim text) MSG_TYPE_TEXT now user ok) s,
        WsSend topic MSG_TYPE_TEXT (trim text) cid (match mentioned with [] => None | _ => Some mentioned end)
          :: failed_toast ok).

(** [mentionMembers]: the members of the topic, in UTF-16 as [lib/mentions.ts]
    scans them; none when the table has not arrived. *)
Definition mentionMembers (topic : string) (s : State) : list Mentions.MentionMember :=
  match map_get topic (memberNames s) with
  | Some names => (λ kv, Mentions.mkMember (Num kv.1) (utf16 kv.2)) <$> names
  | None => []
  end.

(** [sendTextWithMentions]. *)
Definition sendTextWithMentions (topic text cid : string) (now : Z) (user : option User) (ok : bool) (s : State)
    : res (State * list Effect) :=
  let! ids := Mentions.extractMentionIds toLowerCase (utf16 text) (mentionMembers topic s) in
  Ok (sendMessage topic text ids cid now user ok s).

(** [sendFileMessage]; [fileType] is the type of the file, [uploaded] the
    metadata the upload returned, in JSON, or [None] when it failed. *)
Definition sendFileMessage (topic fileType : string) (uploaded : option string) (cid : string) (now : Z)
    (user : option User) (ok : bool) (s : State) : State * list Effect :=
  let msgType := if String.prefix "image/" fileType then MSG_TYPE_IMAGE else MSG_TYPE_FILE in
  match uploaded with
  | None => (s, [Toast "Upload failed"])
  | Some content =>
      (appendMessage topic (local_message cid topic content msgType now user ok) s,
       WsSend topic msgType content cid None :: failed_toast ok)
  end.

(** [retryMessage]: the mentions of the message are not sent again. *)
Definition retryMessage (topic : string) (msg : ChatMessage) (ok : bool) (s : State) : State * list Effect :=
  if negb (bool_decide (status msg = failed)) then (s, [])
  else
    let s := updateMessageStatus topic (clientMsgId msg) (status_patch sending) s in
    let e := WsSend topic (default MSG_TYPE_TEXT (msgType msg)) (content msg) (clientMsgId msg) None in
    if ok then (s, [e])
    else (updateMessageStatus topic (clientMsgId msg) (status_patch failed) s,
          [e; Toast "Still disconnected — message not sent"]).

(** [markRead]. *)
Definition markRead (topic : string) (s : State) : State * list Effect :=
  match map_get topic (conversations s) with
  | None => (s, [])
  | Some c =>
      if strict_eq (lastSeq c) (Num 0) || (unreadCount c =? 0)%Z then (s, [])
      else (markTopicRead topic (lastSeq c) s, [HttpMarkRead topic; WsReadReceipt topic (lastSeq c)])
  end.

(** The [recallMessage] the hook returns. *)
Definition recall (topic : string) (msg : ChatMessage) : list Effect :=
  match topicSeq msg with
  | Some q => if truthy q then [WsRecall topic q (default (Num 0) (msgId msg))] else []
  | None => []
  end.

(** Opening and leaving a conversation. *)
Definition open_topic (topic : string) (user : option User) (r : Refs) (s : State) : Refs * State * list Effect :=
  let '(r, s, e1) := loadLatest_start topic user r (setActiveTopic (Some topic) s) in
  let '(s, e2) := markRead topic s in
  (r, s, e1 ++ e2).

Definition leave_topic (s : State) : State := setActiveTopic None s.

(** Unread messages that arrive while the topic is open are marked read. *)
Definition unread_effect (topic : string) (s : State) : State * list Effect :=
  match map_get topic (conversations s) with
  | Some c => if (0 <? unreadCount c)%Z then markRead topic s else (s, [])
  | None => (s, [])
  end.

(** The member table of a group conversation: the group whose members are
    fetched, and the reply ([None]: it failed) unless the effect was cleaned up
    in the meantime. *)
Definition members_effect (topic : string) (s : State) : option Group :=
  match map_get topic (conversations s) with
  | Some c => if bool_decide (conv_type c = group) then map_get topic (groups s) else None
  | None => None
  end.

Definition members_arrived (cancelled : bool) (topic : string) (reply : option (list GroupMember)) (s : State) : State :=
  match reply with
  | Some ms => if cancelled then s else setMemberNames topic ms s
  | None => s
  end.

End Conversation.

(** [getConversationTitle]. *)
Definition getConversationTitle (c : option Conversation) : string :=
  match c with
  | None => ""
  | Some c =>
      if opt_nonempty (conv_name c) then default "" (conv_name c)
      else match conv_type c with
           | p2p => str_or (peerUsername c) ("User " +:+ interpolate (peerId c))%string
           | group => "Group"
           end
  end.

(** ** The conversation list ([useConversations]) *)

Record ConversationReply := mkConvReply {
  cr_topic : string;
  cr_type : string;
  cr_peerId : jsnum;
  cr_peerUsername : string;
  cr_lastMsgPreview : option string;
  cr_lastMsgAt : option jsnum;
  cr_lastSeq : jsnum;
  cr_lastReadSeq : jsnum;
  cr_unreadCount : Z;
}.

Definition conversation_of_reply (gs : list Group) (c : ConversationReply) : Conversation :=
  let is_group := String.eqb (cr_type c) "group" in
  mkConv (cr_topic c) (if is_group then group else p2p) (cr_peerId c) (cr_peerUsername c)
    (Some (if is_group
           then opt_str_or (group_name <$> find (λ g, String.eqb (group_topic g) (cr_topic c)) gs) (cr_peerUsername c)
           else cr_peerUsername c))
    (cr_lastMsgPreview c) (TsWire <$> cr_lastMsgAt c) (cr_lastSeq c) (cr_lastReadSeq c) (cr_unreadCount c)
    [] true false.

Definition empty_group_conversation (g : Group) : Conversation :=
  mkConv (group_topic g) group (Num 0) "" (Some (group_name g)) None None (Num 0) (Num 0) 0 [] true false.

(** The list built from the two replies: groups without messages are added. *)
Definition merged_list (cs : list ConversationReply) (gs : list Group) : list Conversation :=
  foldl (λ l g, if some (λ c, String.eqb (conv_topic c) (group_topic g)) l then l else l ++ [empty_group_conversation g])
    (conversation_of_reply gs <$> cs) gs.

(** [refreshConversations] with its replies; [listMyGroups] failing counts as
    no groups. *)
Definition refreshConversations (user : option User) (convs : option (list ConversationReply))
    (groups : option (list Group)) (s : State) : State * list Effect :=
  match user, convs with
  | None, _ => (s, [])
  | Some _, None => (s, [Toast "Failed to load conversations"])
  | Some _, Some cs =>
      let gs := default [] groups in
      (setConversations (merged_list cs gs) (setGroups gs s), [])
  end.

End Hooks.
