(* ===== verification/HooksProps.v ===== *)
(** * How the hooks keep the store

    What a user sees after sends, receipts, pushes and page loads, in the
    orders in which they can arrive. *)

From S2P Require Import Prelude JsNum JsMap Types ChatStore ChatStoreProps Realtime Hooks.
Import ChatStore Hooks.

(** ** Lemmas on the store *)

Lemma append_as_update topic m s : appendMessage topic m s = update_ensured (λ c, append_to c m) topic s.
Proof. done. Qed.

Lemma upsert_as_update p s : upsertConversation p s = update_ensured (apply_conv_patch p) (p_topic p) s.
Proof. done. Qed.

(** The conversation of a topic, a stub if there is none. *)
Definition conv_of (topic : string) (s : State) : Conversation :=
  default (new_conversation topic) (map_get topic (conversations s)).

Lemma conv_of_append topic m s : conv_of topic (appendMessage topic m s) = append_to (conv_of topic s) m.
Proof. unfold conv_of. by rewrite append_as_update, update_ensured_get. Qed.

Lemma get_append topic m s :
  map_get topic (conversations (appendMessage topic m s)) = Some (append_to (conv_of topic s) m).
Proof. by rewrite append_as_update, update_ensured_get. Qed.

Lemma conv_of_upsert p s : conv_of (p_topic p) (upsertConversation p s) = apply_conv_patch p (conv_of (p_topic p) s).
Proof. unfold conv_of. by rewrite upsert_as_update, update_ensured_get. Qed.

Lemma active_append topic m s : activeTopic (appendMessage topic m s) = activeTopic s.
Proof. unfold appendMessage. by destruct (ensureConversation _ _). Qed.

Lemma active_update topic cid p s : activeTopic (updateMessageStatus topic cid p s) = activeTopic s.
Proof. unfold updateMessageStatus. by repeat case_match. Qed.

Lemma append_known c m :
  clientMsgId m ∈ (clientMsgId <$> messages c) → messages (append_to c m) = messages c.
Proof.
  intros Hin. simpl. destruct (some (same_message m) (messages c)) eqn:E; [done|].
  apply same_message_false in E as [E _]. done.
Qed.

(** Patching the message with a fresh client id at the end of a conversation. *)
Lemma findIndex_snoc cid l m :
  cid ∉ (clientMsgId <$> l) → clientMsgId m = cid →
  findIndex (λ m, String.eqb (clientMsgId m) cid) (l ++ [m]) = Some (length l).
Proof.
  intros Hl Hm. induction l as [|x l IH]; simpl; [by rewrite (proj2 (String.eqb_eq _ _) Hm)|].
  rewrite fmap_cons, not_elem_of_cons in Hl. destruct Hl as [Hx Hl].
  rewrite (proj2 (String.eqb_neq _ _)) by congruence. by rewrite IH.
Qed.

Lemma conv_of_patch_last topic cid p s l m :
  messages (conv_of topic s) = l ++ [m] →
  cid ∉ (clientMsgId <$> l) → clientMsgId m = cid →
  messages (conv_of topic (updateMessageStatus topic cid p s)) = l ++ [apply_msg_patch p m].
Proof.
  intros Hm Hl Hcid. unfold conv_of in *.
  destruct (map_get topic (conversations s)) as [c|] eqn:Hc; simpl in Hm; [|by destruct l].
  unfold updateMessageStatus. rewrite Hc, Hm, findIndex_snoc by done.
  simpl. rewrite map_get_set_eq. simpl.
  replace (length l) with (length l + 0)%nat by lia. by rewrite alter_app_r.
Qed.

(** The messages after an incoming push on a conversation that is not open. *)
Lemma incoming_inactive d user s :
  activeTopic s ≠ Some (Realtime.rm_topic d) →
  messages (conv_of (Realtime.rm_topic d) (handleIncomingMessage d user s).1) =
  messages (append_to (conv_of (Realtime.rm_topic d) s) (message_of_push d (my_id user))).
Proof.
  intros Ha. unfold handleIncomingMessage. rewrite (bool_decide_eq_false_2 _ Ha). simpl negb.
  set (topic := Realtime.rm_topic d) in *. set (m := message_of_push d (my_id user)).
  assert (Hmt : ∀ s', messages (conv_of topic (markTopicMentioned topic s')) = messages (conv_of topic s')).
  { intros s'. unfold markTopicMentioned. by destruct (set_has _ _). }
  destruct (map_get topic (conversations s)) as [c|] eqn:Hc;
    destruct (negb _ && _ && negb _); cbn [fst]; rewrite ?Hmt; try by rewrite conv_of_append.
  all: change topic with (p_topic (unread_patch topic (unreadCount c + 1))) at 1;
    rewrite conv_of_upsert; simpl; by rewrite conv_of_append.
Qed.

Lemma conv_of_markRead topic q st :
  messages (conv_of topic (markTopicRead topic q st)) =
  mark_read_one (peerId (conv_of topic st)) q <$> messages (conv_of topic st).
Proof.
  unfold conv_of, markTopicRead. destruct (map_get topic (conversations st)) as [c|] eqn:Hc; [|by rewrite Hc].
  cbn [conversations]. by rewrite map_get_set_eq.
Qed.

(** The messages after an incoming push on the open conversation: read up to
    the push, by [markTopicRead]. *)
Lemma incoming_active d user s :
  activeTopic s = Some (Realtime.rm_topic d) →
  messages (conv_of (Realtime.rm_topic d) (handleIncomingMessage d user s).1) =
  mark_read_one (peerId (conv_of (Realtime.rm_topic d) s)) (Num (Realtime.rm_topicSeq d)) <$>
    messages (append_to (conv_of (Realtime.rm_topic d) s) (message_of_push d (my_id user))).
Proof.
  intros Ha. unfold handleIncomingMessage. rewrite (bool_decide_eq_true_2 _ Ha). cbv zeta. simpl negb.
  destruct (negb _ && _ && negb _); cbn [fst]; by rewrite conv_of_markRead, conv_of_append.
Qed.

Lemma peer_append c m : peerId (append_to c m) = peerId c.
Proof. done. Qed.

Lemma peer_update topic cid p s : peerId (conv_of topic (updateMessageStatus topic cid p s)) = peerId (conv_of topic s).
Proof.
  unfold updateMessageStatus, conv_of. destruct (map_get topic (conversations s)) as [c|] eqn:Hc; [|by rewrite Hc].
  case_match; cbn [conversations set_conversations]; [by rewrite map_get_set_eq|by rewrite Hc].
Qed.

(** ** Sending *)

Section Sending.
Context (trim : string → string).

Lemma send_messages topic text ms cid now user s :
  nonempty (trim text) = true → cid ∉ (clientMsgId <$> messages (conv_of topic s)) →
  let s' := (Hooks.sendMessage trim topic text ms cid now user true s).1 in
  messages (conv_of topic s') =
    messages (conv_of topic s) ++ [local_message cid topic (trim text) MSG_TYPE_TEXT now user true] ∧
  activeTopic s' = activeTopic s ∧ peerId (conv_of topic s') = peerId (conv_of topic s).
Proof.
  intros Ht Hc. unfold Hooks.sendMessage. rewrite Ht. cbn [negb fst]. rewrite conv_of_append, active_append.
  split; [|done]. simpl. set (m := local_message _ _ _ _ _ _ _).
  assert (E : some (same_message m) (messages (conv_of topic s)) = false).
  { apply some_false, Forall_forall. intros x Hx. unfold same_message. rewrite orb_false_r.
    apply String.eqb_neq. intros Heq. apply Hc, list_elem_of_fmap. by exists x. }
  by rewrite E.
Qed.

(** C29: a message sent from the open conversation appears once, with the
    server's ids, whichever of the receipt and the echo of the message arrives
    first.  If the user leaves the conversation before the echo, it ends as
    sent.  If the conversation is still open, the echo marks what was there read
    up to its number, and the order shows: the message ends as read, though
    nobody has read it, when the receipt came first, and as sent when the echo
    came first. *)
Theorem echo_and_receipt topic text ms cid now user s r d :
  nonempty (trim text) = true → nonempty cid = true →
  cid ∉ (clientMsgId <$> messages (conv_of topic s)) → activeTopic s = Some topic →
  Realtime.sr_topic r = topic → Realtime.sr_clientMsgId r = cid →
  Realtime.rm_topic d = topic → Realtime.rm_clientMsgId d = cid → Realtime.rm_topicSeq d = Realtime.sr_topicSeq r →
  let mine := local_message cid topic (trim text) MSG_TYPE_TEXT now user true in
  strict_eq (senderId mine) (peerId (conv_of topic s)) = false →
  let s1 := (Hooks.sendMessage trim topic text ms cid now user true s).1 in
  let receipt s := (on_realtime (Realtime.EvSendReceipt r) user s).1 in
  let echo s := (on_realtime (Realtime.EvMessage d) user s).1 in
  let sent_message := apply_msg_patch (sent_patch (Realtime.sr_msgId r) (Realtime.sr_topicSeq r)) mine in
  let old := messages (conv_of topic s) in
  let old_read := mark_read_one (peerId (conv_of topic s)) (Num (Realtime.sr_topicSeq r)) <$> old in
  messages (conv_of topic (echo (receipt s1))) = old_read ++ [with_status read sent_message] ∧
  messages (conv_of topic (receipt (echo s1))) = old_read ++ [sent_message] ∧
  messages (conv_of topic (echo (leave_topic (receipt s1)))) = old ++ [sent_message] ∧
  messages (conv_of topic (receipt (echo (leave_topic s1)))) = old ++ [sent_message].
Proof.
  intros Ht Hne Hfresh Ha Hr1 Hr2 Hd1 Hd2 Hq mine Hpeer s1 receipt echo sm old old_read.
  destruct (send_messages topic text ms cid now user s Ht Hfresh) as (Hm1 & Ha1 & Hp1). fold s1 mine old in Hm1, Ha1, Hp1.
  assert (Hcid : clientMsgId (message_of_push d (my_id user)) = cid) by (simpl; by rewrite Hd2, Hne).
  assert (Hrec : ∀ s' l m, messages (conv_of topic s') = l ++ [m] →
    cid ∉ (clientMsgId <$> l) → clientMsgId m = cid →
    messages (conv_of topic (receipt s')) =
    l ++ [apply_msg_patch (sent_patch (Realtime.sr_msgId r) (Realtime.sr_topicSeq r)) m]).
  { intros s' l m. unfold receipt, on_realtime. cbn [fst]. rewrite Hr1, Hr2. apply conv_of_patch_last. }
  assert (Hrest : ∀ s', activeTopic (receipt s') = activeTopic s' ∧ peerId (conv_of topic (receipt s')) = peerId (conv_of topic s')).
  { intros s'. unfold receipt, on_realtime. cbn [fst]. by rewrite active_update, Hr1, peer_update. }
  assert (Hknown : ∀ s' l m, messages (conv_of topic s') = l ++ [m] → clientMsgId m = cid →
    messages (append_to (conv_of topic s') (message_of_push d (my_id user))) = l ++ [m]).
  { intros s' l m Hm Hid. rewrite append_known, Hm; [done|]. rewrite Hcid, Hm, fmap_app. simpl. set_solver. }
  assert (Hon : ∀ s' l m, messages (conv_of topic s') = l ++ [m] → clientMsgId m = cid → activeTopic s' = Some topic →
    messages (conv_of topic (echo s')) = mark_read_one (peerId (conv_of topic s')) (Num (Realtime.sr_topicSeq r)) <$> (l ++ [m])).
  { intros s' l m Hm Hid Has. unfold echo, on_realtime. rewrite <-Hd1 at 1. rewrite incoming_active by (by rewrite Hd1).
    by rewrite Hd1, Hq, (Hknown s' l m). }
  assert (Hoff : ∀ s' l m, messages (conv_of topic s') = l ++ [m] → clientMsgId m = cid →
    messages (conv_of topic (echo (leave_topic s'))) = l ++ [m]).
  { intros s' l m Hm Hid. unfold echo, on_realtime. rewrite <-Hd1 at 1. rewrite incoming_inactive by done.
    rewrite Hd1. by apply (Hknown (leave_topic s')). }
  pose proof (Hrec s1 _ _ Hm1 Hfresh eq_refl) as Hm2. destruct (Hrest s1) as [Ha2 Hp2].
  assert (Hold : old_read ++ [mine] = mark_read_one (peerId (conv_of topic s)) (Num (Realtime.sr_topicSeq r)) <$> (old ++ [mine])).
  { rewrite fmap_app. unfold old_read. f_equal. simpl. unfold mark_read_one. by rewrite andb_false_r. }
  assert (Hids : cid ∉ (clientMsgId <$> old_read)).
  { unfold old_read. rewrite <-list_fmap_compose. erewrite list_fmap_ext; [exact Hfresh|].
    intros ? x _. simpl. unfold mark_read_one. by destruct (negb _ && _). }
  split; [|split; [|split]].
  - rewrite (Hon _ _ _ Hm2) by (done || congruence). rewrite Hp2, Hp1, fmap_app. unfold old_read. f_equal. simpl.
    unfold mark_read_one. change (senderId (apply_msg_patch _ mine)) with (senderId mine). rewrite Hpeer. simpl.
    by rewrite Z.leb_refl.
  - apply Hrec; [|done|done]. rewrite (Hon _ _ _ Hm1) by (done || congruence). by rewrite Hp1.
  - by apply Hoff.
  - by apply Hrec; [apply Hoff|..].
Qed.

(** Retrying a failed message sends it without the mentions it was written
    with, so the mentioned members are not notified. *)
Theorem retry_drops_mentions topic text ms cid now user s :
  ms ≠ [] → nonempty (trim text) = true →
  let msg := local_message cid topic (trim text) MSG_TYPE_TEXT now user false in
  head (Hooks.sendMessage trim topic text ms cid now user false s).2 = Some (WsSend topic MSG_TYPE_TEXT (trim text) cid (Some ms)) ∧
  (retryMessage topic msg true s).2 = [WsSend topic MSG_TYPE_TEXT (trim text) cid None].
Proof.
  intros Hms Ht msg. unfold Hooks.sendMessage. rewrite Ht. simpl. split; [by destruct ms|done].
Qed.
End Sending.

(** ** Receiving *)

Lemma apply_unread topic n c : unreadCount (apply_conv_patch (unread_patch topic n) c) = n.
Proof. done. Qed.

(** The unread counter after an incoming push on a conversation that is not
    open: it is raised from the value before the push, if the conversation was
    known. *)
Lemma incoming_unread d user s :
  activeTopic s ≠ Some (Realtime.rm_topic d) →
  unreadCount (conv_of (Realtime.rm_topic d) (handleIncomingMessage d user s).1) =
  match map_get (Realtime.rm_topic d) (conversations s) with Some c => (unreadCount c + 1)%Z | None => 0%Z end.
Proof.
  intros Ha. unfold handleIncomingMessage. rewrite (bool_decide_eq_false_2 _ Ha). simpl negb.
  set (topic := Realtime.rm_topic d) in *. set (m := message_of_push d (my_id user)).
  assert (Hmt : ∀ s', unreadCount (conv_of topic (markTopicMentioned topic s')) = unreadCount (conv_of topic s')).
  { intros s'. unfold markTopicMentioned. by destruct (set_has _ _). }
  destruct (map_get topic (conversations s)) as [c|] eqn:Hc;
    destruct (negb _ && _ && negb _); cbn [fst]; rewrite ?Hmt.
  1, 2: change topic with (p_topic (unread_patch topic (unreadCount c + 1))) at 1; by rewrite conv_of_upsert.
  all: rewrite conv_of_append; unfold conv_of; by rewrite Hc.
Qed.

(** A push for a conversation that is not open adds the message and raises
    the unread counter by one. *)
Theorem incoming_push d user s c :
  activeTopic s ≠ Some (Realtime.rm_topic d) →
  map_get (Realtime.rm_topic d) (conversations s) = Some c →
  let m := message_of_push d (my_id user) in
  let c' := conv_of (Realtime.rm_topic d) (handleIncomingMessage d user s).1 in
  unreadCount c' = (unreadCount c + 1)%Z ∧
  (some (same_message m) (messages c) = false → messages c' ≡ₚ m :: messages c).
Proof.
  intros Ha Hc m c'. unfold c'. rewrite incoming_unread, Hc by done. split; [done|].
  intros Hn. rewrite incoming_inactive by done. unfold conv_of. rewrite Hc. simpl. fold m. rewrite Hn.
  apply insertBySeq_perm.
Qed.

(** The counter is wrong twice over: a push delivered again raises it
    although the message is already there, and the first push of an unknown
    conversation does not raise it. *)
Theorem incoming_miscounts d user s :
  activeTopic s ≠ Some (Realtime.rm_topic d) →
  let topic := Realtime.rm_topic d in
  let s' := (handleIncomingMessage d user s).1 in
  (∀ c, map_get topic (conversations s) = Some c →
     clientMsgId (message_of_push d (my_id user)) ∈ (clientMsgId <$> messages c) →
     messages (conv_of topic s') = messages c ∧ unreadCount (conv_of topic s') = (unreadCount c + 1)%Z) ∧
  (map_get topic (conversations s) = None →
     messages (conv_of topic s') = [message_of_push d (my_id user)] ∧ unreadCount (conv_of topic s') = 0%Z).
Proof.
  intros Ha topic s'. unfold s', topic. rewrite incoming_unread, incoming_inactive by done. unfold conv_of. split.
  - intros c Hc Hin. rewrite Hc. split; [by apply append_known|done].
  - intros Hc. by rewrite Hc.
Qed.

(** ** Loading *)

Section Loading.
Context (atob : string → option string) (decode_utf8 : string → string) (json_normal : string → option string).

(** The reply of the initial load replaces the conversation's messages: a
    message pushed while the pull was in flight and not in the reply is gone. *)
Theorem loadLatest_replaces topic user page more r s :
  let s' := (loadLatest_reply atob decode_utf8 json_normal topic user (Some (page, more)) r s).1.2 in
  messages (conv_of topic s') = message_of_pull atob decode_utf8 json_normal (Some (user_userId user)) <$> page.
Proof.
  intros s'. unfold s', loadLatest_reply. cbn [fst snd].
  set (p := page_patch _ _ _). set (s1 := upsertConversation p s).
  assert (H : ∀ b, messages (conv_of topic (setMessagesLoading topic b s1)) = messages (conv_of topic s1)).
  { intros b. unfold setMessagesLoading, ensureConversation, conv_of.
    destruct (map_get topic (conversations s1)); simpl; by rewrite map_get_set_eq. }
  rewrite H. change topic with (p_topic p) at 1. unfold s1. by rewrite conv_of_upsert.
Qed.

(** An initial load starts at most one pull per topic: not while one is in
    flight, and not after one has finished. *)
Theorem loadLatest_once topic user r s :
  let '(r1, s1, e1) := loadLatest_start topic (Some user) r s in
  (loadLatest_start topic (Some user) r1 s1).2 = [] ∧
  ∀ reply, let '(r2, s2, e2) := loadLatest_reply atob decode_utf8 json_normal topic user reply r1 s1 in
    (loadLatest_start topic (Some user) r2 s2).2 = [].
Proof.
  assert (Hdone : ∀ r s, set_has topic (loadedRef r) || set_has topic (inFlightRef r) = true →
    (loadLatest_start topic (Some user) r s).2 = []).
  { intros r' s' H. unfold loadLatest_start. by rewrite H. }
  unfold loadLatest_start at 1.
  destruct (set_has topic (loadedRef r) || set_has topic (inFlightRef r)) eqn:E.
  - split; [by apply Hdone|]. intros reply. unfold loadLatest_reply.
    destruct reply as [[msgs more]|]; apply Hdone; simpl;
      rewrite (proj2 (set_has_true _ _)); done || (apply elem_of_set_add; by left).
  - split.
    + apply Hdone. simpl. rewrite (proj2 (set_has_true topic (set_add _ _))); [apply orb_true_r|].
      apply elem_of_set_add. by left.
    + intros reply. unfold loadLatest_reply.
      destruct reply as [[msgs more]|]; apply Hdone; simpl;
        rewrite (proj2 (set_has_true _ _)); done || (apply elem_of_set_add; by left).
Qed.

(** With an unconfirmed message in the conversation, loading one older page
    blocks the next: the unconfirmed message is now the first, and [loadMore]
    takes it for the beginning of the history although more is available. *)
Theorem loadMore_blocked topic user page r s c m :
  map_get topic (conversations s) = Some c → m ∈ messages c → topicSeq m = None →
  let '(r1, s1, _) := loadMore_reply atob decode_utf8 json_normal topic user (Some (page, true)) r s in
  hasMore (conv_of topic s1) = true ∧ (loadMore_start (map_get topic (conversations s1)) topic r1).2 = [].
Proof.
  intros Hc Hm Hq. cbn [loadMore_reply]. set (msgs := message_of_pull _ _ _ _ <$> page).
  assert (Hg : map_get topic (conversations (prependMessages topic msgs true s)) = Some (prepend_to c msgs true)).
  { unfold prependMessages, ensureConversation. rewrite Hc. simpl. by rewrite map_get_set_eq. }
  unfold conv_of, loadMore_start. rewrite Hg. split; [done|]. simpl.
  set (l := messages (prepend_to c msgs true)). assert (Hin : m ∈ l).
  { unfold l. cbn [messages prepend_to]. rewrite sort_by_perm. apply elem_of_app. by right. }
  assert (Ho : (oldest_seq (prepend_to c msgs true) <= 0)%Z).
  { unfold oldest_seq. change (messages (prepend_to c msgs true)) with l.
    pose proof (sort_by_sorted sort_key (base.filter (λ m, is_new_message (messages c) m = true) msgs ++ messages c)) as Hs.
    change (sort_by sort_key _) with l in Hs. destruct l as [|h l']; [by apply elem_of_nil in Hin|]. simpl.
    change (default 0%Z (seq_of h)) with (sort_key h).
    assert (Hk : sort_key m = 0%Z) by (unfold sort_key, seq_of; by rewrite Hq).
    apply elem_of_cons in Hin as [->|Hin]; [lia|]. inversion Hs as [|? ? _ Hf]; subst.
    rewrite Forall_forall in Hf. specialize (Hf m Hin). unfold key_le in Hf. lia. }
  rewrite (proj2 (Z.leb_le _ _) Ho). by destruct (isLoading c).
Qed.

End Loading.

(** ** Read marks *)

(** An incoming message in the open conversation marks the user's own
    earlier messages read: the peer's message counts as their read receipt. *)
Theorem incoming_marks_own_read d user s c m q :
  activeTopic s = Some (Realtime.rm_topic d) →
  map_get (Realtime.rm_topic d) (conversations s) = Some c →
  m ∈ messages c → strict_eq (senderId m) (peerId c) = false →
  topicSeq m = Some q → (Number q <= Realtime.rm_topicSeq d)%Z →
  with_status read m ∈ messages (conv_of (Realtime.rm_topic d) (handleIncomingMessage d user s).1).
Proof.
  intros Ha Hc Hm Hs Hq Hle. set (topic := Realtime.rm_topic d) in *.
  set (msg := message_of_push d (my_id user)).
  set (s1 := appendMessage topic msg s).
  assert (Hm1 : m ∈ messages (append_to c msg)).
  { simpl. destruct (some _ _); [done|]. rewrite insertBySeq_perm. by right. }
  assert (Hg : map_get topic (conversations s1) = Some (append_to c msg))
    by (unfold s1; rewrite get_append; unfold conv_of; by rewrite Hc).
  assert (Hr : with_status read m ∈ messages (conv_of topic (markTopicRead topic (Num (Realtime.rm_topicSeq d)) s1))).
  { unfold conv_of, markTopicRead. rewrite Hg. cbn [conversations]. rewrite map_get_set_eq. cbn [default messages].
    apply list_elem_of_fmap. exists m. split; [|exact Hm1]. unfold mark_read_one.
    change (peerId (append_to c msg)) with (peerId c). rewrite Hs, Hq. simpl.
    assert (Hj : js_le q (Num (Realtime.rm_topicSeq d)) = true)
      by (destruct q; simpl in *; by apply Z.leb_le).
    by rewrite Hj. }
  unfold handleIncomingMessage. fold topic. rewrite (bool_decide_eq_true_2 _ Ha). simpl negb.
  destruct (negb _ && _ && negb _); exact Hr.
Qed.

(** ** The conversation list *)

Lemma merged_list_groups cs gs g :
  g ∈ gs → group_topic g ∈ (conv_topic <$> merged_list cs gs).
Proof.
  unfold merged_list. generalize (conversation_of_reply gs <$> cs). revert g.
  assert (Hmono : ∀ gs l t, t ∈ (conv_topic <$> l) → t ∈ (conv_topic <$> foldl (λ l g,
    if some (λ c, String.eqb (conv_topic c) (group_topic g)) l then l else l ++ [empty_group_conversation g]) l gs)).
  { induction gs0 as [|g gs0 IH]; intros l t Ht; simpl; [done|]. apply IH.
    destruct (some _ l); [done|]. rewrite fmap_app. set_solver. }
  induction gs as [|g' gs IH]; intros g l Hg; [by apply elem_of_nil in Hg|]. simpl.
  apply elem_of_cons in Hg as [->|Hg]; [|by apply IH].
  apply Hmono. destruct (some _ l) eqn:E; [|rewrite fmap_app; simpl; set_solver].
  unfold some in E. apply existsb_exists in E as (c & Hin & Heq%String.eqb_eq).
  apply list_elem_of_fmap. exists c. split; [done|]. by apply list_elem_of_In.
Qed.

(** After a refresh every group of the user is listed and known, and no
    conversation loses the messages already loaded. *)
Theorem refresh_lists_groups user cs gs s :
  wf s →
  let s' := (refreshConversations (Some user) (Some cs) (Some gs) s).1 in
  (∀ g, g ∈ gs → is_Some (map_get (group_topic g) (conversations s'))) ∧
  (∀ t c, map_get t (conversations s) = Some c →
     ∃ c', map_get t (conversations s') = Some c' ∧ messages c' = messages c).
Proof.
  intros Hw. cbn [refreshConversations fst from_option id].
  assert (Hw' : wf (setGroups gs s)) by exact (dispatch_wf (ASetGroups gs) s Hw).
  split.
  - intros g Hg. rewrite setConversations_lookup by done.
    apply (merged_list_groups cs) in Hg. apply list_elem_of_fmap in Hg as (c & Heq & Hin).
    destruct (last _) eqn:Hl; [by eauto|]. apply last_None in Hl.
    assert (c ∈ base.filter (λ c, conv_topic c = group_topic g) (merged_list cs gs)) as H
      by (by apply list_elem_of_filter).
    rewrite Hl in H. by apply elem_of_nil in H.
  - intros t c Hc. by apply (setConversations_messages _ (setGroups gs s)).
Qed.

(** ** The theorems at concrete values *)

Definition ex_user : User := mkUser (Dec 1) "ann".
Definition ex_push (topic cid : string) (sender q : Z) : Realtime.RealtimeMessage :=
  Realtime.mkRtMessage 77 topic sender 1 "hi" 5 q cid [].
Definition ex_receipt : Realtime.SendReceiptPayload := Realtime.mkSendReceiptPayload "k1" 77 "p2p_1_2" 10 5.

(** Ann has the conversation open, writes, and gets the receipt, then the echo. *)
Definition ex_open : State := setActiveTopic (Some "p2p_1_2"%string) state0.

Lemma echo_and_receipt_witness :
  let s1 := (Hooks.sendMessage id "p2p_1_2" "hi" [] "k1" 5000 (Some ex_user) true ex_open).1 in
  let s2 := (on_realtime (Realtime.EvSendReceipt ex_receipt) (Some ex_user) s1).1 in
  (λ m, (clientMsgId m, status m)) <$> messages (conv_of "p2p_1_2"
    (on_realtime (Realtime.EvMessage (ex_push "p2p_1_2" "k1" 1 10)) (Some ex_user) s2).1) =
  [("c3", read); ("c9", read); ("k1", read)]%string.
Proof.
  intros s1 s2.
  assert (Hf : "k1"%string ∉ (clientMsgId <$> messages (conv_of "p2p_1_2" ex_open)))
    by (apply (bool_decide_unpack _); vm_compute; exact I).
  unfold s2, s1. rewrite (proj1 (echo_and_receipt id "p2p_1_2" "hi" [] "k1" 5000 (Some ex_user) ex_open ex_receipt
    (ex_push "p2p_1_2" "k1" 1 10) eq_refl eq_refl Hf eq_refl eq_refl eq_refl eq_refl eq_refl eq_refl eq_refl)).
  reflexivity.
Defined.

Lemma retry_drops_mentions_witness :
  (retryMessage "grp_1" (local_message "k1" "grp_1" "hi @bob" MSG_TYPE_TEXT 5000 None false) true initialState).2 =
  [WsSend "grp_1" MSG_TYPE_TEXT "hi @bob" "k1" None].
Proof.
  refine (proj2 (retry_drops_mentions id "grp_1" "hi @bob" [Num 2] "k1" 5000 None initialState _ _));
    [discriminate|reflexivity].
Defined.

Lemma incoming_push_witness :
  let c' := conv_of "p2p_1_2" (handleIncomingMessage (ex_push "p2p_1_2" "k2" 2 10) (Some ex_user) state0).1 in
  unreadCount c' = 1%Z ∧ messages c' ≡ₚ message_of_push (ex_push "p2p_1_2" "k2" 2 10) 1 :: messages conv0.
Proof.
  destruct (incoming_push (ex_push "p2p_1_2" "k2" 2 10) (Some ex_user) state0 conv0) as [H1 H2];
    [discriminate|reflexivity|].
  split; [exact H1|]. apply H2. reflexivity.
Defined.

Lemma incoming_miscounts_witness :
  let s' := (handleIncomingMessage (ex_push "p2p_1_2" "c9" 2 9) (Some ex_user) state0).1 in
  messages (conv_of "p2p_1_2" s') = messages conv0 ∧ unreadCount (conv_of "p2p_1_2" s') = 1%Z.
Proof.
  apply (proj1 (incoming_miscounts (ex_push "p2p_1_2" "c9" 2 9) (Some ex_user) state0 ltac:(discriminate)) conv0);
    [reflexivity|]. apply (bool_decide_unpack _). vm_compute. exact I.
Defined.

Definition ex_pulled : Pulled := mkPulled (Dec 60) "p2p_1_2" (Dec 2) 1 "aGk=" (Dec 4) (Dec 2) None None.
Definition ex_sending : State :=
  appendMessage "p2p_1_2" (local_message "k1" "p2p_1_2" "hi" 1 5000 (Some ex_user) true) state0.

Lemma loadMore_blocked_witness :
  let '(r1, s1, _) := loadMore_reply (λ _, None) id (λ _, None) "p2p_1_2" (Some ex_user) (Some ([ex_pulled], true))
                        (mkRefs [] [] true) ex_sending in
  hasMore (conv_of "p2p_1_2" s1) = true ∧ (loadMore_start (map_get "p2p_1_2"%string (conversations s1)) "p2p_1_2" r1).2 = [].
Proof.
  refine (loadMore_blocked (λ _, None) id (λ _, None) "p2p_1_2" (Some ex_user) [ex_pulled] (mkRefs [] [] true) ex_sending
    _ (local_message "k1" "p2p_1_2" "hi" 1 5000 (Some ex_user) true) _ _ _); [reflexivity| |reflexivity].
  apply (bool_decide_unpack _). vm_compute. exact I.
Defined.

Lemma incoming_marks_own_read_witness :
  with_status read m3 ∈ messages (conv_of "p2p_1_2" (handleIncomingMessage (ex_push "p2p_1_2" "k2" 2 10) (Some ex_user) ex_open).1).
Proof.
  apply (incoming_marks_own_read (ex_push "p2p_1_2" "k2" 2 10) (Some ex_user) ex_open conv0 m3 (Num 3));
    [reflexivity|reflexivity| |reflexivity|reflexivity|simpl; lia].
  apply (bool_decide_unpack _). vm_compute. exact I.
Defined.

Lemma refresh_lists_groups_witness :
  let g := mkGroup "9" "grp_9" "team" (Num 1) (Num 0) in
  let s' := (refreshConversations (Some ex_user) (Some []) (Some [g]) state0).1 in
  is_Some (map_get "grp_9" (conversations s')) ∧ ∃ c', map_get "p2p_1_2" (conversations s') = Some c' ∧ messages c' = [m3; m9].
Proof.
  intros g s'. destruct (refresh_lists_groups ex_user [] [g] state0 state0_wf) as [H1 H2].
  split; [apply (H1 g); left|exact (H2 "p2p_1_2"%string conv0 eq_refl)].
Defined.
