(* ===== verification/System.v ===== *)
(** * The client put together

    The real-time client, the hooks and the chat store as one state machine:
    what [useRealtime] subscribes, what the user's calls put on the wire, and
    what a frame on the wire does to the store.  The environment (sockets,
    timers, HTTP replies, the user) chooses the sequence of [Action]s. *)

From S2P Require Import Prelude JsNum JsMap Types ChatStore ChatStoreProps.
From S2P Require Import ProtoRuntime ProtoLaws ProtoSchema ProtoMessages ProtoCodecs ProtoPacket ProtoWire ProtoPacketProps.
From S2P Require Import Mentions Realtime RealtimeProps Hooks HooksProps.
Import ChatStore Hooks.
Import (notations) Realtime.

Module System.

(** The singletons of a tab.  [attached] tells whether the effect of
    [useRealtime] has its handlers on the client; [currentUser] is [userRef]. *)
Record Sys := mkSys {
  client : Realtime.Client;
  store : State;
  currentUser : option User;
  refs : Refs;
  attached : bool;
}.

Definition new_system (storage : option (option string)) : Sys :=
  mkSys (Realtime.new_client storage) initialState None (mkRefs [] [] false) false.

Definition with_store (st : State) (s : Sys) : Sys := mkSys (client s) st (currentUser s) (refs s) (attached s).

(** The integer of an id, as the wire encoder reads it. *)
Definition int_of (q : jsnum) : Z := match q with Num z | Dec z => z end.

(** The read receipts among the calls of a handler. *)
Definition receipts_of (es : list Effect) : list (string * Z) :=
  omap (λ e, match e with WsReadReceipt t q => Some (t, int_of q) | _ => None end) es.

(** What the subscribed handler of [message] sends while an event is
    dispatched. *)
Definition listener (s : Sys) (d : Realtime.RealtimeMessage) : list (string * Z) :=
  if attached s then receipts_of (handleIncomingMessage d (currentUser s) (store s)).2 else [].

(** The handler table applied to the events among the outputs of the client. *)
Fixpoint deliver (os : list Realtime.Output) (user : option User) (st : State) : State * list Effect :=
  match os with
  | [] => (st, [])
  | Realtime.Dispatch e :: os' =>
      let '(st, es) := on_realtime e user st in
      let '(st, es') := deliver os' user st in (st, es ++ es')
  | _ :: os' => deliver os' user st
  end.

Section System.
Context {RT : Runtime}.
Context (TextDecoder_decode : bytes → string) (TextEncoder_encode : string → bytes).
Context (API_BASE_URL : string) (payload_user_id : string → option Z).
Context (atob : string → option string) (decode_utf8 : string → string) (json_normal : string → option string).
Context (trim : string → string) (utf16 : string → Mentions.text) (toLowerCase : Mentions.text → Mentions.text).

(** Let the client do [f] while the handlers listen. *)
Definition on_client (f : Realtime.act) (s : Sys) : Sys * list Realtime.Output * list Effect :=
  let '(c, os) := f (Realtime.set_listeners (listener s) (client s)) in
  let '(st, es) := if attached s then deliver os (currentUser s) (store s) else (store s, []) in
  (mkSys c st (currentUser s) (refs s) (attached s), os, es).

(** A call of a hook on the client. *)
Definition perform (e : Effect) : Realtime.act :=
  match e with
  | WsReadReceipt topic q => Realtime.sendReadReceipt topic (int_of q)
  | WsSend topic ty content cid ms =>
      Realtime.sendMessage topic ty (TextEncoder_encode content) cid (int_of <$> default [] ms)
  | WsRecall topic q mid => Realtime.recallMessage topic (int_of q) (int_of mid)
  | _ => Realtime.skip
  end.

Fixpoint perform_all (es : list Effect) : Realtime.act :=
  match es with
  | [] => Realtime.skip
  | e :: es' => (perform e >>> perform_all es')%js
  end.

(** An operation of a hook; the client's [send] answers whether it is
    connected. *)
Definition hook (f : bool → State → State * list Effect) (s : Sys) : Sys * list Realtime.Output * list Effect :=
  let '(st, es) := f (Realtime.isConnected (client s)) (store s) in
  let '(c, os) := perform_all es (client s) in
  (mkSys c st (currentUser s) (refs s) (attached s), os, es).

(** One that also changes the references of [useConversation]. *)
Definition hook_refs (f : Refs → State → Refs * State * list Effect) (s : Sys)
    : Sys * list Realtime.Output * list Effect :=
  let '(r, st, es) := f (refs s) (store s) in
  let '(c, os) := perform_all es (client s) in
  (mkSys c st (currentUser s) r (attached s), os, es).

(** The effect of [useRealtime] for a new token: the clean-up of the previous
    run, if it subscribed handlers, then the body. *)
Definition realtime_cleanup (s : Sys) : Realtime.act :=
  if attached s then Realtime.disconnect else Realtime.skip.

Definition token_effect (token : option string) (s : Sys) : Sys * list Realtime.Output * list Effect :=
  let t := match token with Some t => if nonempty t then Some t else None | None => None end in
  let body := match t with
              | None => Realtime.disconnect
              | Some t => Realtime.connect payload_user_id t
              end in
  on_client (realtime_cleanup s >>> body >>> Realtime.run_microtasks)%js
    (mkSys (client s) (match t with Some _ => updateConnectionState connecting (store s) | None => store s end)
       (currentUser s) (refs s) (bool_decide (is_Some t))).

(** The clean-up alone, when the layout that uses the hook is unmounted. *)
Definition unmount_effect (s : Sys) : Sys * list Realtime.Output * list Effect :=
  on_client (realtime_cleanup s >>> Realtime.run_microtasks)%js
    (mkSys (client s) (store s) (currentUser s) (refs s) false).

(** The reactions to the promise of [connect]. *)
Definition connect_settled (r : option string) (s : Sys) : Sys * list Realtime.Output * list Effect :=
  match r with
  | None => (with_store (updateConnectionState authed (store s)) s, [], [])
  | Some err => (with_store (updateConnectionState disconnected (store s)) s, [],
                 [Toast ("Connection failed: " +:+ err)])
  end.

(** ** Actions *)

Inductive Action :=
| TokenChanged (token : option string)
| UserChanged (u : option User)
| ConnectSettled (r : option string)
(** a callback of a socket or timer, or the answer of a lookup or refresh *)
| Net (e : Realtime.Event)
(** the operations of an open conversation *)
| SendTextWithMentions (topic text cid : string) (now : Z)
| SendFile (topic fileType : string) (uploaded : option string) (cid : string) (now : Z)
| Retry (topic : string) (msg : ChatMessage)
| MarkRead (topic : string)
| Recall (topic : string) (msg : ChatMessage)
| OpenTopic (topic : string)
| LeaveTopic
| UnreadEffect (topic : string)
| MembersArrived (cancelled : bool) (topic : string) (reply : option (list GroupMember))
| LatestReply (topic : string) (user : User) (reply : option (list Pulled * bool))
(** with the conversation of the rendering that made the callback *)
| LoadMore (topic : string) (conversation : option Conversation)
| MoreReply (topic : string) (reply : option (list Pulled * bool))
| RefreshReply (convs : option (list ConversationReply)) (gs : option (list Group))
(** an action dispatched by a component *)
| Store (a : ChatStoreProps.Action)
(** the chat pages are left *)
| Unmounted.

Definition step (a : Action) (s : Sys) : Sys * list Realtime.Output * list Effect :=
  match a with
  | TokenChanged token => token_effect token s
  | UserChanged u => (mkSys (client s) (store s) u (refs s) (attached s), [], [])
  | ConnectSettled r => connect_settled r s
  | Net e => on_client (Realtime.step TextDecoder_decode TextEncoder_encode API_BASE_URL payload_user_id e) s
  | SendTextWithMentions topic text cid now =>
      hook (λ ok st, match sendTextWithMentions trim utf16 toLowerCase topic text cid now (currentUser s) ok st with
                     | Ok r => r | _ => (st, [])
                     end) s
  | SendFile topic fileType uploaded cid now =>
      hook (sendFileMessage topic fileType uploaded cid now (currentUser s)) s
  | Retry topic msg => hook (retryMessage topic msg) s
  | MarkRead topic => hook (λ _, markRead topic) s
  | Recall topic msg => hook (λ _ st, (st, recall topic msg)) s
  | OpenTopic topic => hook_refs (open_topic topic (currentUser s)) s
  | LeaveTopic => (with_store (leave_topic (store s)) s, [], [])
  | UnreadEffect topic => hook (λ _, unread_effect topic) s
  | MembersArrived cancelled topic reply => (with_store (members_arrived cancelled topic reply (store s)) s, [], [])
  | LatestReply topic user reply => hook_refs (loadLatest_reply atob decode_utf8 json_normal topic user reply) s
  | LoadMore topic conversation => hook_refs (λ r st, let '(r, es) := loadMore_start conversation topic r in (r, st, es)) s
  | MoreReply topic reply =>
      hook_refs (loadMore_reply atob decode_utf8 json_normal topic (currentUser s) reply) s
  | RefreshReply convs gs => hook (λ _, refreshConversations (currentUser s) convs gs) s
  | Store a => (with_store (ChatStoreProps.dispatch a (store s)) s, [], [])
  | Unmounted => unmount_effect s
  end.

Fixpoint run (acts : list Action) (s : Sys) : Sys :=
  match acts with
  | [] => s
  | a :: acts' => run acts' (step a s).1.1
  end.

End System.
End System.
