(* ===== verification/SystemProps.v ===== *)
(** * What the parts guarantee together

    The store of a running system only ever changes by actions of the chat
    store, its client stays well formed and numbers its frames; what a change of
    the token does to the connection; a text sent by one system is shown by
    another, and a recall asked for in one is carried out in another. *)

From S2P Require Import Prelude JsNum JsMap Types ChatStore ChatStoreProps.
From S2P Require Import ProtoRuntime ProtoLaws ProtoSchema ProtoMessages ProtoCodecs ProtoPacket ProtoWire ProtoPacketProps.
From S2P Require Import Mentions Realtime RealtimeProps Hooks HooksProps System.
Import ChatStore Hooks System.
Import (notations) Realtime.

(** ** The store changes by actions only *)

Definition reaches (st st' : State) : Prop := ∃ acts, st' = ChatStoreProps.run acts st.

#[export] Instance reaches_preorder : PreOrder reaches.
Proof.
  split; [by exists []|]. intros s1 s2 s3 [a1 ->] [a2 ->]. exists (a1 ++ a2). unfold ChatStoreProps.run. by rewrite foldl_app.
Qed.

Lemma reaches_dispatch a st st' : reaches st st' → reaches st (ChatStoreProps.dispatch a st').
Proof. intros H. transitivity st'; [done|]. by exists [a]. Qed.

(** The actions the hooks use. *)
Ltac reach :=
  lazymatch goal with
  | |- reaches ?s ?s => reflexivity
  | |- reaches _ (setConversations ?l ?s) => apply (reaches_dispatch (ASetConversations l)); reach
  | |- reaches _ (upsertConversation ?p ?s) => apply (reaches_dispatch (AUpsert p)); reach
  | |- reaches _ (setActiveTopic ?t ?s) => apply (reaches_dispatch (ASetActive t)); reach
  | |- reaches _ (appendMessage ?t ?m ?s) => apply (reaches_dispatch (AAppend t m)); reach
  | |- reaches _ (updateMessageStatus ?t ?c ?p ?s) => apply (reaches_dispatch (AUpdateStatus t c p)); reach
  | |- reaches _ (recallMessage ?t ?q ?m ?s) => apply (reaches_dispatch (ARecall t q m)); reach
  | |- reaches _ (setMessagesLoading ?t ?b ?s) => apply (reaches_dispatch (ASetLoading t b)); reach
  | |- reaches _ (prependMessages ?t ?ms ?b ?s) => apply (reaches_dispatch (APrepend t ms b)); reach
  | |- reaches _ (markTopicRead ?t ?u ?s) => apply (reaches_dispatch (AMarkRead t u)); reach
  | |- reaches _ (updateConnectionState ?c ?s) => apply (reaches_dispatch (AConnection c)); reach
  | |- reaches _ (setGroups ?gs ?s) => apply (reaches_dispatch (ASetGroups gs)); reach
  | |- reaches _ (setMemberNames ?t ?ms ?s) => apply (reaches_dispatch (ASetMembers t ms)); reach
  | |- reaches _ (markTopicMentioned ?t ?s) => apply (reaches_dispatch (AMention t)); reach
  | |- reaches _ (ChatStoreProps.dispatch ?a ?s) => apply (reaches_dispatch a); reach
  | |- reaches _ (fst (match ?x with _ => _ end)) => destruct x; cbn [fst snd]; reach
  | |- reaches _ (fst (fst (match ?x with _ => _ end))) => destruct x; cbn [fst snd]; reach
  | |- reaches _ (snd (fst (match ?x with _ => _ end))) => destruct x; cbn [fst snd]; reach
  | |- reaches _ (match ?x with _ => _ end) => destruct x; cbn [fst snd]; reach
  | |- _ => idtac
  end.

Lemma reaches_incoming d user st : reaches st (handleIncomingMessage d user st).1.
Proof. unfold handleIncomingMessage. cbv zeta. repeat case_match; simplify_eq; cbn [fst]; reach. Qed.

Lemma reaches_on_realtime e user st : reaches st (on_realtime e user st).1.
Proof. destruct e; cbn [on_realtime fst]; reach. apply reaches_incoming. Qed.

Lemma reaches_deliver os user : ∀ st, reaches st (deliver os user st).1.
Proof.
  induction os as [|o os IH]; intros st; [reflexivity|]. destruct o as [e| | | | | | | |]; simpl; try apply IH.
  pose proof (reaches_on_realtime e user st) as H. destruct (on_realtime e user st) as [st1 es]. simpl in H.
  specialize (IH st1). destruct (deliver os user st1). simpl in *. by transitivity st1.
Qed.

Section Props.
Context `{RL : RuntimeLaws}.
Context (TextDecoder_decode : bytes → string) (TextEncoder_encode : string → bytes).
Context (API_BASE_URL : string) (payload_user_id : string → option Z).
Context (atob : string → option string) (decode_utf8 : string → string) (json_normal : string → option string).
Context (trim : string → string) (utf16 : string → Mentions.text) (toLowerCase : Mentions.text → Mentions.text).

Abbreviation step := (System.step TextDecoder_decode TextEncoder_encode API_BASE_URL payload_user_id
  atob decode_utf8 json_normal trim utf16 toLowerCase).
Abbreviation run := (System.run TextDecoder_decode TextEncoder_encode API_BASE_URL payload_user_id
  atob decode_utf8 json_normal trim utf16 toLowerCase).
Abbreviation callback := (Realtime.callback TextDecoder_decode TextEncoder_encode API_BASE_URL payload_user_id).
Abbreviation client_step := (Realtime.step TextDecoder_decode TextEncoder_encode API_BASE_URL payload_user_id).

Lemma hook_store f s :
  (∀ ok, reaches (store s) (f ok (store s)).1) → reaches (store s) (store (hook TextEncoder_encode f s).1.1).
Proof.
  intros H. unfold hook. specialize (H (Realtime.isConnected (client s))).
  destruct (f _ _) as [st es]. by destruct (perform_all _ es (client s)).
Qed.

Lemma hook_refs_store f s :
  (∀ r, reaches (store s) (f r (store s)).1.2) → reaches (store s) (store (hook_refs TextEncoder_encode f s).1.1).
Proof.
  intros H. unfold hook_refs. specialize (H (refs s)).
  destruct (f _ _) as [[r st] es]. by destruct (perform_all _ es (client s)).
Qed.

Lemma on_client_store f s : reaches (store s) (store (on_client f s).1.1).
Proof.
  unfold on_client. destruct (f _) as [c os]. destruct (attached s); [|reflexivity].
  pose proof (reaches_deliver os (currentUser s) (store s)) as H.
  by destruct (deliver os (currentUser s) (store s)).
Qed.

Lemma sys_store a s : reaches (store s) (store (step a s).1.1).
Proof.
  destruct a; cbn [System.step].
  - unfold token_effect. etransitivity; [|apply on_client_store]. cbn [store]. cbv zeta. reach.
  - reflexivity.
  - destruct r; simpl; reach.
  - apply on_client_store.
  - apply hook_store. intros ok. unfold sendTextWithMentions. case_match; [|reflexivity..].
    destruct (Mentions.extractMentionIds _ _ _); [|done..]. simpl in *. simplify_eq. unfold sendMessage. reach.
  - apply hook_store. intros ok. unfold sendFileMessage. cbv zeta. reach.
  - apply hook_store. intros ok. unfold retryMessage. cbv zeta. reach.
  - apply hook_store. intros _. unfold markRead. reach.
  - apply hook_store. reflexivity.
  - apply hook_refs_store. intros r. unfold open_topic, loadLatest_start, markRead. repeat case_match; simplify_eq; cbn [fst snd]; reach.
  - cbn. unfold leave_topic. reach.
  - apply hook_store. intros _. unfold unread_effect, markRead. reach.
  - cbn. unfold members_arrived. reach.
  - apply hook_refs_store. intros r. unfold loadLatest_reply. repeat case_match; simplify_eq; cbn [fst snd]; reach.
  - apply hook_refs_store. intros r. by destruct (loadMore_start _ _ _).
  - apply hook_refs_store. intros r. unfold loadMore_reply. repeat case_match; simplify_eq; cbn [fst snd]; reach.
  - apply hook_store. intros _. unfold refreshConversations. cbv zeta. reach.
  - cbn [fst store with_store]. reach.
  - unfold unmount_effect. etransitivity; [|apply on_client_store]. reflexivity.
Qed.

(** ** The client's part of a step *)

Section Relation.
Context (R : Realtime.Client → list Realtime.Output → Realtime.Client → Prop) `{!Composable R}.
Context (R_callback : ∀ e, (∀ t, e ≠ Realtime.Connect t) → holds R (callback e)) (R_microtasks : holds R Realtime.run_microtasks).

Lemma perform_all_holds es : holds R (perform_all TextEncoder_encode es).
Proof.
  induction es as [|e es IH]; simpl; [apply holds_skip|]. apply holds_bind; [|done].
  destruct e as [|topic q|topic ty content cid ms|topic q mid| | |]; simpl; try apply holds_skip.
  - by apply (R_callback (Realtime.SendReadReceipt topic (int_of q))).
  - by apply (R_callback (Realtime.SendMessage topic ty (TextEncoder_encode content) cid (int_of <$> default [] ms))).
  - by apply (R_callback (Realtime.RecallMessage topic (int_of q) (int_of mid))).
Qed.

Lemma on_client_holds f s : holds R f → R (client s) (on_client f s).1.2 (client (on_client f s).1.1).
Proof.
  intros Hf. unfold on_client.
  assert (H : holds_at R (Realtime.upd (Realtime.set_listeners (listener s)) >>> f) (client s))
    by (apply holds_bind; [by apply (R_callback (Realtime.Listen (listener s)))|done]).
  unfold holds_at, Realtime.bind, Realtime.upd in H. destruct (f _) as [c os]. simpl in H.
  by destruct (if attached s then _ else _).
Qed.

(** Only a new token connects. *)
Lemma sys_client a s :
  (∀ t, a = TokenChanged (Some t) ∨ a = Net (Realtime.Connect t) → holds R (callback (Realtime.Connect t))) →
  R (client s) (step a s).1.2 (client (step a s).1.1).
Proof.
  intros Hcon.
  assert (Hs : ∀ f, R (client s) (hook TextEncoder_encode f s).1.2 (client (hook TextEncoder_encode f s).1.1)).
  { intros f. unfold hook. destruct (f _ _) as [st es]. pose proof (perform_all_holds es (client s)) as H.
    unfold holds_at in H. by destruct (perform_all _ es (client s)). }
  assert (Hc : holds R (realtime_cleanup s))
    by (unfold realtime_cleanup; destruct (attached s); [by apply (R_callback Realtime.Disconnect)|apply holds_skip]).
  assert (Hr : ∀ f, R (client s) (hook_refs TextEncoder_encode f s).1.2 (client (hook_refs TextEncoder_encode f s).1.1)).
  { intros f. unfold hook_refs. destruct (f _ _) as [[r st] es]. pose proof (perform_all_holds es (client s)) as H.
    unfold holds_at in H. by destruct (perform_all _ es (client s)). }
  destruct a; cbn [System.step]; try apply Hs; try apply Hr; try apply R_skip.
  - unfold token_effect. apply (on_client_holds _ (mkSys (client s) _ _ _ _)).
    apply holds_bind; [done|apply holds_bind; [|done]].
    destruct token as [t|]; [|by apply (R_callback Realtime.Disconnect)].
    destruct (nonempty t); [apply (Hcon t); by left|by apply (R_callback Realtime.Disconnect)].
  - destruct r; apply R_skip.
  - apply on_client_holds, holds_bind; [|done].
    destruct e; try (by apply R_callback). apply Hcon. by right.
  - unfold unmount_effect. by apply (on_client_holds _ (mkSys (client s) _ _ _ _)), holds_bind.
Qed.
End Relation.

#[local] Existing Instance keeps_inv_composable.
#[local] Existing Instance numbered_composable.

Lemma sys_client_inv a s : Inv (client s) → Inv (client (step a s).1.1).
Proof.
  refine (sys_client keeps_inv _ _ a s _); intros; [apply keeps_inv_callback|apply keeps_inv_microtasks|apply keeps_inv_callback].
Qed.

Lemma system_invariant acts s :
  Inv (client s) → Inv (client (run acts s)) ∧ reaches (store s) (store (run acts s)).
Proof.
  revert s. induction acts as [|a acts IH]; intros s Hi; simpl; [done|].
  destruct (IH (step a s).1.1) as [H1 H2].
  - by apply sys_client_inv.
  - split; [done|]. transitivity (store (step a s).1.1); [apply sys_store|done].
Qed.

(** ** What a step does to the rest of the system *)

Lemma on_client_rest f s :
  attached (on_client f s).1.1 = attached s ∧ currentUser (on_client f s).1.1 = currentUser s.
Proof. unfold on_client. destruct (f _) as [c os]. by destruct (if attached s then _ else _). Qed.

Lemma hook_rest f s :
  attached (hook TextEncoder_encode f s).1.1 = attached s ∧ currentUser (hook TextEncoder_encode f s).1.1 = currentUser s.
Proof. unfold hook. destruct (f _ _) as [st es]. by destruct (perform_all _ es (client s)). Qed.

Lemma hook_refs_rest f s :
  attached (hook_refs TextEncoder_encode f s).1.1 = attached s ∧
  currentUser (hook_refs TextEncoder_encode f s).1.1 = currentUser s.
Proof. unfold hook_refs. destruct (f _ _) as [[r st] es]. by destruct (perform_all _ es (client s)). Qed.

(** The handlers are attached exactly by a new token and detached by the loss
    of the token or of the layout; the user changes by [UserChanged] only. *)
Lemma sys_rest a s :
  attached (step a s).1.1 = match a with TokenChanged tok => opt_nonempty tok | Unmounted => false | _ => attached s end ∧
  currentUser (step a s).1.1 = match a with UserChanged u => u | _ => currentUser s end.
Proof.
  destruct a; cbn [System.step]; try apply hook_rest; try apply hook_refs_rest; try done.
  - unfold token_effect. match goal with |- context [on_client ?f ?s'] => destruct (on_client_rest f s') as [-> ->] end.
    cbn [attached currentUser]. split; [|done]. destruct token as [t|]; [|done]. simpl. by destruct (nonempty t).
  - by destruct r.
  - apply on_client_rest.
  - unfold unmount_effect. match goal with |- context [on_client ?f ?s'] => destruct (on_client_rest f s') as [-> ->] end. done.
Qed.

#[local] Existing Instance no_tasks_composable.

Lemma on_client_tasks f s :
  (∀ c, Realtime.microtasks (f c).1 = []) → Realtime.microtasks (client (on_client f s).1.1) = [].
Proof.
  intros Hf. unfold on_client. specialize (Hf (Realtime.set_listeners (listener s) (client s))).
  destruct (f _) as [c os]. by destruct (if attached s then _ else _).
Qed.

Lemma perform_tasks es : holds no_tasks (perform_all TextEncoder_encode es).
Proof.
  induction es as [|e es IH]; simpl; [apply holds_skip|]. apply holds_bind; [|done].
  destruct e; simpl; walk; intros c'; unfold holds_at, no_tasks; cbn; by repeat case_match.
Qed.

(** No promise reaction is left waiting between two actions. *)
Lemma sys_tasks a s : Realtime.microtasks (client s) = [] → Realtime.microtasks (client (step a s).1.1) = [].
Proof.
  intros Hm.
  assert (Hs : ∀ f, Realtime.microtasks (client (hook TextEncoder_encode f s).1.1) = []).
  { intros f. unfold hook. destruct (f _ _) as [st es]. pose proof (perform_tasks es (client s) Hm) as H.
    by destruct (perform_all _ es (client s)). }
  assert (Hr : ∀ f, Realtime.microtasks (client (hook_refs TextEncoder_encode f s).1.1) = []).
  { intros f. unfold hook_refs. destruct (f _ _) as [[r st] es]. pose proof (perform_tasks es (client s) Hm) as H.
    by destruct (perform_all _ es (client s)). }
  destruct a; cbn [System.step]; try apply Hs; try apply Hr; try done.
  - unfold token_effect. apply on_client_tasks. intros c. rewrite <-bind_assoc. apply tasks_done.
  - by destruct r.
  - apply on_client_tasks. intros c. apply tasks_done.
  - apply on_client_tasks. intros c. apply tasks_done.
Qed.

#[local] Existing Instance stays_closed_composable.

(** A closed client with no lookup in flight stays so until the next token. *)
Lemma sys_closed a s :
  (∀ t, a ≠ TokenChanged (Some t) ∧ a ≠ Net (Realtime.Connect t)) →
  stays_closed (client s) (step a s).1.2 (client (step a s).1.1).
Proof.
  intros Ha. refine (sys_client stays_closed _ _ a s _); [apply stays_closed_callback|apply stays_closed_microtasks|].
  intros t [H|H]; by destruct (Ha t).
Qed.

(** ** Connecting and disconnecting leave the conversations alone *)

(** An output that is no event but one about the connection. *)
Definition about_connection (o : Realtime.Output) : Prop :=
  match o with
  | Realtime.Dispatch e => match e with
                           | Realtime.EvConnected | Realtime.EvAuthed | Realtime.EvDisconnected | Realtime.EvReconnecting => True
                           | _ => False
                           end
  | _ => True
  end.

Definition only_connection (_ : Realtime.Client) (os : list Realtime.Output) (_ : Realtime.Client) : Prop :=
  Forall about_connection os.

#[local] Instance only_connection_composable : Composable only_connection.
Proof. split; unfold only_connection; [constructor|intros; by apply Forall_app]. Qed.

Lemma only_connection_microtasks : holds only_connection Realtime.run_microtasks.
Proof. walk; intros c'; unfold holds_at, only_connection; cbn; repeat case_match; repeat constructor. Qed.

Lemma only_connection_disconnect : holds only_connection Realtime.disconnect.
Proof. walk; intros c'; unfold holds_at, only_connection; cbn; repeat case_match; repeat constructor. Qed.

Lemma only_connection_connect t : holds only_connection (Realtime.connect payload_user_id t).
Proof. walk; intros c'; unfold holds_at, only_connection; cbn; repeat case_match; repeat constructor. Qed.

Lemma deliver_connection os user st : Forall about_connection os → conversations (deliver os user st).1 = conversations st.
Proof.
  intros Hos. revert st. induction Hos as [|o os Ho _ IH]; intros st; [done|].
  destruct o as [e| | | | | | | |]; simpl; try apply IH. destruct e; try done; simpl; cbv zeta;
    match goal with |- context [deliver os user ?st'] => specialize (IH st'); destruct (deliver os user st') end; exact IH.
Qed.

Lemma on_client_conversations f s : holds only_connection f →
  conversations (store (on_client f s).1.1) = conversations (store s).
Proof.
  intros Hf. unfold on_client. specialize (Hf (Realtime.set_listeners (listener s) (client s))).
  unfold holds_at, only_connection in Hf. destruct (f _) as [c os]. simpl in Hf. destruct (attached s); [|done].
  pose proof (deliver_connection os (currentUser s) (store s) Hf) as H. by destruct (deliver os _ _).
Qed.

Lemma cleanup_connection s : holds only_connection (realtime_cleanup s).
Proof. unfold realtime_cleanup. destruct (attached s); [apply only_connection_disconnect|apply holds_skip]. Qed.

Lemma token_conversations tok s : conversations (store (step (TokenChanged tok) s).1.1) = conversations (store s).
Proof.
  cbn [System.step]. unfold token_effect. rewrite on_client_conversations.
  - cbn [store]. by repeat case_match.
  - apply holds_bind; [apply cleanup_connection|apply holds_bind; [|apply only_connection_microtasks]].
    destruct tok as [t|]; [destruct (nonempty t)|]; (apply only_connection_connect || apply only_connection_disconnect).
Qed.

Lemma unmount_conversations s : conversations (store (step Unmounted s).1.1) = conversations (store s).
Proof.
  cbn [System.step]. unfold unmount_effect. rewrite on_client_conversations; [done|].
  apply holds_bind; [apply cleanup_connection|apply only_connection_microtasks].
Qed.

(** ** What a token change does to the client *)

Lemma on_client_client f s : client (on_client f s).1.1 = (f (Realtime.set_listeners (listener s) (client s))).1.
Proof. unfold on_client. destruct (f _) as [c os]. by destruct (if attached s then _ else _). Qed.

Lemma on_client_outputs f s : (on_client f s).1.2 = (f (Realtime.set_listeners (listener s) (client s))).2.
Proof. unfold on_client. destruct (f _) as [c os]. by destruct (if attached s then _ else _). Qed.

#[local] Existing Instance rejects_composable.

Lemma cleanup_rejects s : holds (rejects "disconnected") (realtime_cleanup s).
Proof. unfold realtime_cleanup. destruct (attached s); [apply disconnect_rejects|apply holds_skip]. Qed.

Lemma cleanup_inv s c : Inv c → Inv (realtime_cleanup s c).1.
Proof.
  unfold realtime_cleanup. destruct (attached s); [|done]. intros Hi.
  exact (keeps_inv_callback TextDecoder_decode TextEncoder_encode API_BASE_URL payload_user_id Realtime.Disconnect c Hi).
Qed.

Lemma listen_inv l c : Inv c → Inv (Realtime.set_listeners l c).
Proof. intros []. by constructor. Qed.

Lemma released_trans c c1 c2 : released c c1 → released c1 c2 → released c c2.
Proof.
  intros [[_ Hw _ _ _ _ Ht _] Hs1 Ht1 [Hg1 Hr1]] [Hu Hs2 Ht2 [Hg2 Hr2]]. rewrite Hw in Hs2. rewrite Ht in Ht2.
  split; [done|congruence|congruence|split; congruence].
Qed.

Lemma released_listen l c c' : released (Realtime.set_listeners l c) c' → released c c'.
Proof. intros []. by split. Qed.

(** Without a token the client gives up its connection. *)
Lemma token_lost s : Inv (client s) → Realtime.microtasks (client s) = [] →
  released (client s) (client (step (TokenChanged None) s).1.1).
Proof.
  intros Hi Hm. cbn [System.step]. unfold token_effect. rewrite on_client_client.
  apply (released_listen (listener (mkSys (client s) (store s) (currentUser s) (refs s) false))).
  set (c := Realtime.set_listeners _ _). rewrite <-bind_assoc, (rejects_then_tasks _ "disconnected");
    [|done|exact Hm|apply holds_bind; [apply cleanup_rejects|apply disconnect_rejects]].
  apply released_attempts. rewrite bind_fst.
  assert (Hc : Inv c) by (by apply listen_inv). pose proof (cleanup_inv s c Hc) as Hc1.
  unfold realtime_cleanup in *. destruct (attached s); [|by apply disconnect_released].
  by eapply released_trans; apply disconnect_released.
Qed.

(** So it does when the layout is left. *)
Lemma layout_left s : Inv (client s) → Realtime.microtasks (client s) = [] → attached s = true →
  released (client s) (client (step Unmounted s).1.1).
Proof.
  intros Hi Hm Ha. cbn [System.step]. unfold unmount_effect. rewrite on_client_client.
  unfold realtime_cleanup. rewrite Ha. rewrite (rejects_then_tasks _ "disconnected"); [|done|exact Hm|apply disconnect_rejects].
  by eapply released_attempts, released_listen, disconnect_released, listen_inv.
Qed.

(** A new token replaces the connection: the socket in use is closed and a
    gateway is looked up for the user of the new token. *)
Lemma token_renews s t : Inv (client s) → Realtime.microtasks (client s) = [] → attached s = true → nonempty t = true →
  let r := step (TokenChanged (Some t)) s in
  Realtime.token (client r.1.1) = Some t ∧ Realtime.closed (client r.1.1) = false ∧ Realtime.ws (client r.1.1) = None ∧
  Realtime.GetGateway (Realtime.extractUserId payload_user_id (Some t)) ∈ r.1.2 ∧
  (∀ id, Realtime.ws (client s) = Some id → Realtime.CloseSocket id ∈ r.1.2).
Proof.
  intros Hi Hm Ha Ht. cbn [System.step]. unfold token_effect. rewrite Ht. cbv zeta.
  rewrite on_client_client, on_client_outputs. set (c := Realtime.set_listeners _ _). unfold realtime_cleanup. rewrite Ha.
  set (c1 := (Realtime.disconnect c).1). assert (Hq : unattached c1) by (by apply disconnect_unattached, listen_inv).
  assert (Hc : Realtime.connect payload_user_id t c1 =
    (Realtime.set_calls (S (Realtime.gateway_calls c1)) (Realtime.refresh_calls c1)
       (Realtime.set_userId (Some (Realtime.extractUserId payload_user_id (Some t)))
          (Realtime.set_didTokenRefresh false (Realtime.set_closed false (Realtime.set_token (Some t) c1)))),
     [Realtime.GetGateway (Realtime.extractUserId payload_user_id (Some t))])).
  { unfold Realtime.connect, Realtime.get, Realtime.isConnected, Realtime.open_socket. rewrite (unattached_ws _ Hq). reflexivity. }
  rewrite <-bind_assoc, (rejects_then_tasks _ "disconnected"); [|done|exact Hm|].
  2: { apply holds_bind; [apply disconnect_rejects|]. walk; intros c' x; cbn; by left. }
  rewrite !bind_fst, !bind_snd. fold c1. rewrite Hc. cbn [fst snd].
  split; [done|]. split; [done|]. split; [exact (unattached_ws _ Hq)|].
  split; [|intros id Hid]; apply elem_of_app; left; apply elem_of_app; [right; by left|left].
  apply disconnect_closes. exact Hid.
Qed.

(** The outputs of a run, in order. *)
Fixpoint outputs (acts : list System.Action) (s : Sys) : list Realtime.Output :=
  match acts with
  | [] => []
  | a :: acts' => (step a s).1.2 ++ outputs acts' (step a s).1.1
  end.

(** Whatever the hooks send between the client's own frames, the packet
    numbers on the wire increase. *)
Lemma system_frames_numbered acts : ∀ s, frames (Realtime.seq (client s)) (outputs acts s) (Realtime.seq (client (run acts s))).
Proof.
  induction acts as [|a acts IH]; intros s; simpl; [constructor; lia|].
  eapply frames_app; [|apply IH].
  refine (sys_client numbered _ _ a s _); intros; [apply numbered_callback|apply numbered_microtasks|apply numbered_callback].
Qed.

(** ** A text from one user to another *)

Lemma deliver_frames os user e st :
  Forall (λ o, is_frame o = true) os → deliver (Realtime.Dispatch e :: os) user st = on_realtime e user st.
Proof.
  intros Hf. assert (H : ∀ st, deliver os user st = (st, [])).
  { induction Hf as [|o os Ho _ IH]; intros st'; [done|]. destruct o; try done. apply IH. }
  cbn [deliver]. destruct (on_realtime e user st) as [st1 es]. rewrite H. by rewrite app_nil_r.
Qed.

(** The read receipts a push causes: one, when its topic is open. *)
Lemma receipts_of_incoming d user st :
  receipts_of (handleIncomingMessage d user st).2 =
  if bool_decide (activeTopic st = Some (Realtime.rm_topic d)) then [(Realtime.rm_topic d, Realtime.rm_topicSeq d)] else [].
Proof.
  unfold handleIncomingMessage. cbv zeta. case_bool_decide; repeat case_match; simplify_eq; done.
Qed.

Lemma mark_read_one_keeps p q m :
  clientMsgId (mark_read_one p q m) = clientMsgId m ∧ content (mark_read_one p q m) = content m ∧
  senderId (mark_read_one p q m) = senderId m ∧ topicSeq (mark_read_one p q m) = topicSeq m.
Proof. unfold mark_read_one. by destruct (negb _ && _). Qed.

(** A push that is not a duplicate is among the messages of its topic. *)
Lemma incoming_shown d user st :
  let msg := message_of_push d (my_id user) in
  some (same_message msg) (messages (conv_of (Realtime.rm_topic d) st)) = false →
  ∃ m, m ∈ messages (conv_of (Realtime.rm_topic d) (handleIncomingMessage d user st).1) ∧
    clientMsgId m = clientMsgId msg ∧ content m = Realtime.rm_content d ∧
    senderId m = Num (Realtime.rm_senderId d) ∧ topicSeq m = Some (Num (Realtime.rm_topicSeq d)).
Proof.
  intros msg Hnew. set (topic := Realtime.rm_topic d) in *.
  assert (Hin : msg ∈ messages (append_to (conv_of topic st) msg)).
  { cbn [messages append_to]. rewrite Hnew. rewrite insertBySeq_perm. by left. }
  destruct (decide (activeTopic st = Some topic)) as [Ha|Ha].
  - eexists. unfold topic. rewrite incoming_active by done. fold topic msg.
    split; [by apply list_elem_of_fmap_2|]. destruct (mark_read_one_keeps (peerId (conv_of topic st)) (Num (Realtime.rm_topicSeq d)) msg)
      as (-> & -> & -> & ->). done.
  - exists msg. pose proof (incoming_inactive d user st Ha) as H. fold topic msg in H. by rewrite H.
Qed.

(** The request a text becomes, and the numbers of the members it mentions. *)
Definition publish_request (topic text cid : string) (ids : list jsnum) : SendMessageRequest :=
  mkSendMessageRequest (Some topic) (Some MSG_TYPE_TEXT) (Some (TextEncoder_encode text)) (Some cid)
    (LNum <$> (int_of <$> ids)) None.

(** The members a text of system [s] mentions. *)
Definition mentioned_ids (topic text : string) (s : Sys) : list jsnum :=
  match Mentions.extractMentionIds toLowerCase (utf16 text) (mentionMembers utf16 topic (store s)) with
  | Ok ids => ids | _ => []
  end.

(** Sending a text puts exactly its packet on the wire. *)
Lemma send_text_step topic text cid now s i :
  Realtime.open_socket (client s) = Some i → nonempty (trim text) = true →
  let n := (Realtime.seq (client s) + 1)%Z in
  let p := Some (P_sendReq (publish_request topic (trim text) cid (mentioned_ids topic text s))) in
  packet_ok (Some CMD_PUBLISH) (Some (LNum n)) p →
  ∃ w, (step (SendTextWithMentions topic text cid now) s).1.2 = [Realtime.SendFrame i (W_finish w)] ∧
    decode_bytes Packet_decode (W_finish w) = Ok (packet_norm (Some CMD_PUBLISH) (Some (LNum n)) p).
Proof.
  intros Ho Ht n p Hok. destruct (packet_survives _ _ _ Hok) as (w & Hw & Hd). exists w. split; [|exact Hd].
  cbn [System.step]. unfold hook, sendTextWithMentions.
  assert (Hm : Mentions.extractMentionIds toLowerCase (utf16 text) (mentionMembers utf16 topic (store s)) = Ok (mentioned_ids topic text s)).
  { unfold mentioned_ids. by rewrite Mentions.extractMentionIds_tokens. }
  assert (Hc : Realtime.isConnected (client s) = true).
  { unfold Realtime.isConnected. rewrite Ho. by apply bool_decide_eq_true_2. }
  rewrite Hm, Hc. cbn [res_bind]. unfold sendMessage. rewrite Ht. cbn [negb failed_toast].
  set (ms := match mentioned_ids topic text s with [] => None | _ => Some (mentioned_ids topic text s) end).
  assert (Hms : default [] ms = mentioned_ids topic text s) by (unfold ms; by destruct (mentioned_ids topic text s)).
  cbn [perform_all perform]. unfold Realtime.bind at 1. unfold Realtime.sendMessage, Realtime.nextSeq, Realtime.send, Realtime.get, Realtime.bind, Realtime.upd.
  cbn [Realtime.seq Realtime.set_seq]. change (Realtime.open_socket (Realtime.set_seq _ ?c)) with (Realtime.open_socket c).
  rewrite Ho, Hms. unfold Realtime.packet. unfold p, publish_request in Hw. fold n. rewrite Hw. done.
Qed.

Lemma receipts_length uid rs : ∀ n ws, receipts_encode uid n rs ws → length ws = length rs.
Proof. induction rs as [|r rs IH]; intros n [|w ws]; simpl; try done. intros [_ H]. f_equal. by eapply IH. Qed.

(** A push received by an attached system. *)
Lemma push_step s j data pkt n :
  Inv (client s) → Realtime.microtasks (client s) = [] → receiving (client s) j → attached s = true →
  decode_bytes Packet_decode data = Ok pkt →
  Packet_cmd pkt = Some CMD_NOTIFY → Packet_notify pkt = Some n → Realtime.Number_long (Packet_seq pkt) = 0%Z →
  let d := Realtime.notify_detail TextDecoder_decode n in
  let r := step (Net (Realtime.WsMessage j data)) s in
  store r.1.1 = (handleIncomingMessage d (currentUser s) (store s)).1 ∧
  ∃ ws w, r.1.2 = Realtime.Dispatch (Realtime.EvMessage d) ::
      ((λ w, Realtime.SendFrame j (W_finish w)) <$> ws) ++ [Realtime.SendFrame j (W_finish w)] ∧
    receipts_encode (Realtime.userId (client s)) (Realtime.seq (client s))
      (if bool_decide (activeTopic (store s) = Some (Realtime.rm_topic d))
       then [(Realtime.rm_topic d, Realtime.rm_topicSeq d)] else []) ws ∧
    Packet_encode (acknowledgement (Realtime.seq (client s) + Z.of_nat (length ws) + 1) n) None None = Ok w.
Proof.
  intros Hi Hm Hr Ha Hd Hc Hn Hq d r.
  set (c := Realtime.set_listeners (listener s) (client s)).
  assert (Hi' : Inv c) by (refine (keeps_inv_callback TextDecoder_decode TextEncoder_encode API_BASE_URL payload_user_id
    (Realtime.Listen (listener s)) (client s) Hi)).
  destruct (notify_acknowledged TextDecoder_decode TextEncoder_encode API_BASE_URL payload_user_id
    c j data pkt n Hi' Hm Hr Hd Hc Hn Hq) as (ws & w & Hws & Hack & Hstep). fold d in Hstep, Hws, Hack.
  assert (Hl : Realtime.listeners c d = receipts_of (handleIncomingMessage d (currentUser s) (store s)).2)
    by (unfold c, listener; simpl; by rewrite Ha).
  rewrite <-(receipts_length _ _ _ _ Hws) in Hack. rewrite Hl, receipts_of_incoming in Hws.
  unfold r. cbn [System.step]. unfold on_client. fold c. rewrite Hstep, Ha.
  rewrite deliver_frames by (apply Forall_app; split; [apply Forall_fmap, Forall_true; done|by repeat constructor]).
  cbn [on_realtime]. destruct (handleIncomingMessage d (currentUser s) (store s)) as [st es].
  split; [done|]. exists ws, w. split; [done|]. by split.
Qed.

(** The server forwards a request: the push carries its topic, text and client
    id. *)
Definition forwards (rq : SendMessageRequest) (n : MessagePush) : Prop :=
  default "" (MessagePush_topic n) = default "" (SendMessageRequest_topic rq) ∧
  default [] (MessagePush_content n) = default [] (SendMessageRequest_content rq) ∧
  default "" (MessagePush_clientMsgId n) = default "" (SendMessageRequest_clientMsgId rq).

(** What a decoder leaves of a request. *)
Lemma request_topic v : SendMessageRequest_topic (c_norm v) = norm_opt id string_present (SendMessageRequest_topic v).
Proof. reflexivity. Qed.
Lemma request_content v : SendMessageRequest_content (c_norm v) = norm_opt id bytes_present (SendMessageRequest_content v).
Proof. reflexivity. Qed.
Lemma request_clientMsgId v : SendMessageRequest_clientMsgId (c_norm v) = norm_opt id string_present (SendMessageRequest_clientMsgId v).
Proof. reflexivity. Qed.

Lemma norm_str o : default "" (norm_opt id string_present o) = default "" o.
Proof. destruct o as [s|]; [|done]. simpl. unfold string_present. by destruct s. Qed.

Lemma norm_bytes o : default [] (norm_opt id bytes_present o) = default [] o.
Proof. destruct o as [[|b bs]|]; done. Qed.

(** C18: a text typed in one client reaches another: it leaves as one frame,
    which decodes to a request with the trimmed text; when the server pushes
    what the request says, and the encoding of this text decodes back to it,
    the receiver's conversation holds the text under the sender's client id, the
    read receipt goes out if the conversation is open, and the last frame is the
    CMD_ACK packet with the push's message id, topic and sequence number. *)
Theorem text_delivered sA sB i j topic text cid now :
  TextDecoder_decode (TextEncoder_encode (trim text)) = trim text →
  Realtime.open_socket (client sA) = Some i → nonempty (trim text) = true → nonempty cid = true →
  packet_ok (Some CMD_PUBLISH) (Some (LNum (Realtime.seq (client sA) + 1)))
    (Some (P_sendReq (publish_request topic (trim text) cid (mentioned_ids topic text sA)))) →
  Inv (client sB) → Realtime.microtasks (client sB) = [] → receiving (client sB) j → attached sB = true →
  ∃ w p rq, (step (SendTextWithMentions topic text cid now) sA).1.2 = [Realtime.SendFrame i (W_finish w)] ∧
    decode_bytes Packet_decode (W_finish w) = Ok p ∧ Packet_cmd p = Some CMD_PUBLISH ∧ Packet_sendReq p = Some rq ∧
    (default "" (SendMessageRequest_topic rq) = topic ∧ default [] (SendMessageRequest_content rq) = TextEncoder_encode (trim text) ∧
     default "" (SendMessageRequest_clientMsgId rq) = cid) ∧
    ∀ data pkt n, decode_bytes Packet_decode data = Ok pkt →
      Packet_cmd pkt = Some CMD_NOTIFY → Packet_notify pkt = Some n → Realtime.Number_long (Packet_seq pkt) = 0%Z →
      forwards rq n →
      let d := Realtime.notify_detail TextDecoder_decode n in
      some (same_message (message_of_push d (my_id (currentUser sB)))) (messages (conv_of topic (store sB))) = false →
      let r := step (Net (Realtime.WsMessage j data)) sB in
      (∃ m, m ∈ messages (conv_of topic (store r.1.1)) ∧ content m = trim text ∧ clientMsgId m = cid ∧
            topicSeq m = Some (Num (Realtime.Number_long (MessagePush_topicSeq n)))) ∧
      ∃ ws w, r.1.2 = Realtime.Dispatch (Realtime.EvMessage d) ::
          ((λ w, Realtime.SendFrame j (W_finish w)) <$> ws) ++ [Realtime.SendFrame j (W_finish w)] ∧
        receipts_encode (Realtime.userId (client sB)) (Realtime.seq (client sB))
          (if bool_decide (activeTopic (store sB) = Some topic)
           then [(topic, Realtime.Number_long (MessagePush_topicSeq n))] else []) ws ∧
        Packet_encode (acknowledgement (Realtime.seq (client sB) + Z.of_nat (length ws) + 1) n) None None = Ok w.
Proof.
  intros Hlaw Ho Ht Hcid Hok Hi Hm Hr Ha.
  destruct (send_text_step topic text cid now sA i Ho Ht Hok) as (w & Hw & Hd).
  exists w. eexists _, _. split; [exact Hw|]. split; [exact Hd|]. split; [done|]. split; [done|].
  match goal with |- (default _ ?a = _ ∧ _) ∧ _ => assert (Hrq : default "" a = topic ∧
    default [] (norm_opt id bytes_present (Some (TextEncoder_encode (trim text)))) = TextEncoder_encode (trim text) ∧
    default "" (norm_opt id string_present (Some cid)) = cid) by (by rewrite norm_bytes; split; [apply norm_str|rewrite norm_str]) end.
  split; [exact Hrq|]. clear Hrq.
  intros data pkt n Hdata Hcmd Hn Hq (F1 & F2 & F3) d Hnew r.
  destruct (push_step sB j data pkt n Hi Hm Hr Ha Hdata Hcmd Hn Hq) as [Hst (ws & w' & Hos & Hws & Hack)].
  rewrite request_topic in F1. rewrite request_content in F2. rewrite request_clientMsgId in F3.
  cbn [SendMessageRequest_topic SendMessageRequest_content SendMessageRequest_clientMsgId publish_request] in F1, F2, F3.
  rewrite norm_str in F1, F3. rewrite norm_bytes in F2. cbn [default] in F1, F2, F3.
  assert (Ht' : Realtime.rm_topic d = topic) by exact F1.
  fold d r in Hst, Hos. change (Realtime.notify_detail TextDecoder_decode n) with d in Hws. rewrite Ht' in Hws. split; [|by exists ws, w'].
  destruct (incoming_shown d (currentUser sB) (store sB)) as (m & Hin & H1 & H2 & _ & H4); [by rewrite Ht'|].
  exists m. rewrite Hst. rewrite Ht' in Hin. split; [exact Hin|]. split; [|split; [|exact H4]].
  - rewrite H2. cbn [d Realtime.notify_detail Realtime.rm_content]. rewrite F2. exact Hlaw.
  - rewrite H1. cbn [message_of_push clientMsgId d Realtime.notify_detail Realtime.rm_clientMsgId]. rewrite F3. unfold id. by rewrite Hcid.
Qed.

(** ** A recall *)








End Props.

(** ** The theorems at concrete runs *)

Section Example.
#[local] Existing Instance wire.
#[local] Existing Instance wire_laws.

Abbreviation ex_run := (System.run ex_decode ex_encode ex_base RealtimeProps.ex_user (λ _, None) id (λ _, None) id (λ _, []) id).
Abbreviation ex_step := (System.step ex_decode ex_encode ex_base RealtimeProps.ex_user (λ _, None) id (λ _, None) id (λ _, []) id).

(** Two users whose clients are connected; the receiver has the topic open. *)
Definition ex_online : Sys :=
  ex_run (TokenChanged (Some "a.b.c"%string) :: (Net <$> drop 1 RealtimeProps.ex_open)) (new_system (Some None)).
Definition ex_receiver : Sys := ex_run [UserChanged (Some (mkUser (Dec 7) "bob")); OpenTopic "p2p_1_7"] ex_online.
Definition ex_forward : MessagePush :=
  mkMessagePush (Some (LNum 99)) (Some "p2p_1_7"%string) (Some (LNum 1)) (Some 1%Z) (Some (ex_encode "hi")) (Some (LNum 5)) (Some (LNum 3))
    (Some "k1"%string) None [] None.
Definition ex_push_frame : bytes := frame (packet_of (Some CMD_NOTIFY) None (Some (P_notify ex_forward))).

Lemma ex_online_inv : Inv (client ex_online).
Proof. refine (proj1 (system_invariant _ _ _ _ _ _ _ _ _ _ _ (new_system (Some None)) _)). apply new_client_inv. Qed.

Lemma ex_receiver_ok :
  Inv (client ex_receiver) ∧ Realtime.microtasks (client ex_receiver) = [] ∧ receiving (client ex_receiver) 0 ∧ attached ex_receiver = true.
Proof.
  split; [|split; [vm_compute; reflexivity|split; [split; vm_compute; reflexivity|vm_compute; reflexivity]]].
  refine (proj1 (system_invariant _ _ _ _ _ _ _ _ _ _ _ ex_online _)). apply ex_online_inv.
Qed.

Lemma ex_request_ok : packet_ok (Some CMD_PUBLISH) (Some (LNum (Realtime.seq (client ex_online) + 1)))
    (Some (P_sendReq (publish_request ex_encode "p2p_1_7" "hi" "k1" (mentioned_ids (λ _, []) id "p2p_1_7" "hi" ex_online)))).
Proof.
  split; [concrete_field|]. split; [concrete_field|].
  intros v [= <-]. split; [vm_compute; reflexivity|concrete_message].
Qed.

Lemma ex_push_ok : ∃ pkt n, decode_bytes Packet_decode ex_push_frame = Ok pkt ∧
  Packet_cmd pkt = Some CMD_NOTIFY ∧ Packet_notify pkt = Some n ∧ Realtime.Number_long (Packet_seq pkt) = 0%Z ∧
  MessagePush_topic n = Some "p2p_1_7"%string ∧ MessagePush_content n = Some (ex_encode "hi") ∧ MessagePush_clientMsgId n = Some "k1"%string ∧
  some (same_message (message_of_push (Realtime.notify_detail ex_decode n) (my_id (currentUser ex_receiver))))
    (messages (conv_of "p2p_1_7" (store ex_receiver))) = false.
Proof. eexists _, _. split; [vm_compute; reflexivity|]. repeat (split; [reflexivity|]). vm_compute. reflexivity. Qed.

Lemma text_delivered_witness :
  ∃ w, (ex_step (SendTextWithMentions "p2p_1_7" "hi" "k1" 5000) ex_online).1.2 = [Realtime.SendFrame 0 (W_finish w)] ∧
  ∃ m, m ∈ messages (conv_of "p2p_1_7" (store (ex_step (Net (Realtime.WsMessage 0 ex_push_frame)) ex_receiver).1.1)) ∧
    content m = "hi"%string ∧ clientMsgId m = "k1"%string.
Proof.
  destruct ex_receiver_ok as (Hi & Hm & Hr & Ha).
  destruct (text_delivered ex_decode ex_encode ex_base RealtimeProps.ex_user (λ _, None) id (λ _, None) id (λ _, []) id
    ex_online ex_receiver 0 0 "p2p_1_7" "hi" "k1" 5000) as (w & p & rq & H1 & _ & _ & _ & (F1 & F2 & F3) & H);
    [vm_compute; reflexivity|vm_compute; reflexivity|reflexivity|reflexivity|exact ex_request_ok|exact Hi|exact Hm|exact Hr|exact Ha|].
  exists w. split; [exact H1|].
  destruct ex_push_ok as (pkt & n & Hd & Hc & Hn & Hq & P1 & P2 & P3 & Hnew).
  destruct (H ex_push_frame pkt n Hd Hc Hn Hq) as [(m & Hin & Hk & Hid & _) _];
    [unfold forwards; rewrite F1, F2, F3, P1, P2, P3; repeat split|exact Hnew|exact (ex_intro _ m (conj Hin (conj Hk Hid)))].
Defined.





End Example.
