(* ===== verification/Composer.v ===== *)
(** * The message composer ([web/app/components/chat/MessageInput.tsx])

    The text area with its completion of mentions, as a state machine over the
    user's actions.  React state, the selection of the text area and the value
    of the [useMemo] are kept apart: the memo is computed while rendering, from
    the selection the text area has at that moment, and only when the text, the
    members or the dismissal changed; the text area takes the new text after
    the rendering, which moves its caret to the end, and an animation frame
    moves the caret to its place later. *)

From S2P Require Import Prelude JsNum JsMap Mentions.
Import Mentions.
Open Scope Z_scope.

Module Composer.

(** [text.trim()]. *)
Fixpoint trim_start (t : text) : text :=
  match t with c :: t' => if is_space c then trim_start t' else t | [] => [] end.
Definition trim (t : text) : text := reverse (trim_start (reverse (trim_start t))).

(** [!text.trim()]. *)
Definition blank (t : text) : bool := match trim t with [] => true | _ => false end.

Definition space : Z := 32.

(** The value of the memo: [{ ...active, candidates }]. *)
Record MentionState := mkMention { ms_query : text; ms_start : nat; candidates : list MentionMember }.

(** The component: its state, the memo, the selection of the text area, the
    caret positions that wait for an animation frame, and its properties. *)
Record Input := mkInput {
  in_text : text;
  emojiOpen : bool;
  mentionIndex : nat;
  mentionDismissed : bool;
  mentionState : option MentionState;
  selection : nat * nat;
  frames : list nat;
  members : option (list MentionMember);
  disabled : bool;
}.

Definition new_input (ms : option (list MentionMember)) (dis : bool) : Input :=
  mkInput [] false 0 false None (0, 0)%nat [] ms dis.

Inductive Key := ArrowDown | ArrowUp | Enter | Tab | Escape | OtherKey.

Inductive Output := OnSend (t : text) | OnSendFile (name : string).

Section Input.
Context (toLowerCase : text → text).

(** The function given to [useMemo]. *)
Definition mention_state (ms : option (list MentionMember)) (dismissed : bool) (t : text) (caret : nat)
    : option MentionState :=
  match ms with
  | None | Some [] => None
  | Some ms =>
      if dismissed then None
      else match activeMentionQuery t caret with
           | None => None
           | Some (q, start) =>
               match filterMembers toLowerCase ms q with
               | [] => None
               | cs => Some (mkMention q start cs)
               end
           end
  end.

(** Rendering after the state became [t], [idx] and [dismissed]: the memo is
    kept when its dependencies are, and the text area gets the text. *)
Definition render (t : text) (idx : nat) (dismissed : bool) (s : Input) : Input :=
  let memo := if decide (t = in_text s) then
                if Bool.eqb dismissed (mentionDismissed s) then mentionState s
                else mention_state (members s) dismissed t (selection s).1
              else mention_state (members s) dismissed t (selection s).1 in
  mkInput t (emojiOpen s) idx dismissed memo
    (if decide (t = in_text s) then selection s else (length t, length t)) (frames s) (members s) (disabled s).

Definition queue_frame (pos : nat) (s : Input) : Input :=
  mkInput (in_text s) (emojiOpen s) (mentionIndex s) (mentionDismissed s) (mentionState s) (selection s)
    (frames s ++ [pos]) (members s) (disabled s).

(** [applyMention]; the caret is the one at the call. *)
Definition applyMention (username : text) (s : Input) : Input :=
  match mentionState s with
  | None => s
  | Some m =>
      let caret := (selection s).1 in
      let next := take (ms_start m) (in_text s) ++ (at_sign :: username ++ [space]) ++ drop caret (in_text s) in
      queue_frame (ms_start m + length username + 2) (render next 0 false s)
  end.

(** [handleSubmit]. *)
Definition handleSubmit (s : Input) : Input * list Output :=
  if blank (in_text s) || disabled s then (s, [])
  else (render [] (mentionIndex s) (mentionDismissed s) s, [OnSend (in_text s)]).

(** [handleKeyDown]: an index beyond the candidates reads a field of
    [undefined].  [n] is positive, so [i - 1 + n] is [i + n - 1]. *)
Definition handleKeyDown (k : Key) (shift : bool) (s : Input) : res (Input * list Output) :=
  let rest := match k with
              | Enter => if shift then Ok (s, []) else Ok (handleSubmit s)
              | _ => Ok (s, [])
              end in
  match mentionState s with
  | None => rest
  | Some m =>
      let n := length (candidates m) in
      match k with
      | ArrowDown => Ok (render (in_text s) ((mentionIndex s + 1) mod n) (mentionDismissed s) s, [])
      | ArrowUp => Ok (render (in_text s) ((mentionIndex s + n - 1) mod n) (mentionDismissed s) s, [])
      | Enter | Tab =>
          match candidates m !! mentionIndex s with
          | Some c => Ok (applyMention (mm_username c) s, [])
          | None => Throw "Cannot read properties of undefined (reading 'username')"
          end
      | Escape => Ok (render (in_text s) (mentionIndex s) true s, [])
      | OtherKey => rest
      end
  end.

(** [insertEmoji]. *)
Definition insertEmoji (emoji : text) (s : Input) : Input :=
  let '(start, end_) := selection s in
  let next := take start (in_text s) ++ emoji ++ drop end_ (in_text s) in
  queue_frame (start + length emoji) (render next (mentionIndex s) (mentionDismissed s) s).

(** [onChange]: the text area already holds the text and its selection. *)
Definition onChange (t : text) (sel : nat * nat) (s : Input) : Input :=
  let s := mkInput (in_text s) (emojiOpen s) (mentionIndex s) (mentionDismissed s) (mentionState s) sel
             (frames s) (members s) (disabled s) in
  let s' := render t (mentionIndex s) false s in
  mkInput (in_text s') (emojiOpen s') (mentionIndex s') (mentionDismissed s') (mentionState s') sel
    (frames s') (members s') (disabled s').

(** [handleFileChange]. *)
Definition handleFileChange (file : option string) (hasHandler : bool) : list Output :=
  match file with Some f => if hasHandler then [OnSendFile f] else [] | None => [] end.

(** [Pick i]: a mouse press on the [i]-th candidate shown. *)
Inductive Action :=
| Change (t : text) (start end_ : nat)
| Select (start end_ : nat)
| KeyDown (k : Key) (shift : bool)
| Pick (i : nat)
| Emoji (e : text)
| ToggleEmoji
| CloseEmoji
| Submit
| PickFile (file : option string) (hasHandler : bool)
| Frame
| Props (ms : option (list MentionMember)) (dis : bool).

Definition set_emoji (b : bool) (s : Input) : Input :=
  mkInput (in_text s) b (mentionIndex s) (mentionDismissed s) (mentionState s) (selection s) (frames s) (members s) (disabled s).

Definition set_selection (sel : nat * nat) (s : Input) : Input :=
  mkInput (in_text s) (emojiOpen s) (mentionIndex s) (mentionDismissed s) (mentionState s) sel (frames s) (members s) (disabled s).

(** [setSelectionRange(pos, pos)] clamps to the text. *)
Definition run_frames (s : Input) : Input :=
  let s' := foldl (λ s pos, set_selection (Nat.min pos (length (in_text s)), Nat.min pos (length (in_text s))) s) s (frames s) in
  mkInput (in_text s') (emojiOpen s') (mentionIndex s') (mentionDismissed s') (mentionState s') (selection s') []
    (members s') (disabled s').

(** New properties from the parent; every rendering of the parent builds a new
    array of members. *)
Definition new_props (ms : option (list MentionMember)) (dis : bool) (s : Input) : Input :=
  mkInput (in_text s) (emojiOpen s) (mentionIndex s) (mentionDismissed s)
    (mention_state ms (mentionDismissed s) (in_text s) (selection s).1) (selection s) (frames s) ms dis.

Definition step (a : Action) (s : Input) : res (Input * list Output) :=
  match a with
  | Change t start end_ => Ok (onChange t (start, end_) s, [])
  | Select start end_ => Ok (set_selection (start, end_) s, [])
  | KeyDown k shift => handleKeyDown k shift s
  | Pick i => Ok (match mentionState s ≫= λ m, candidates m !! i with
                  | Some c => applyMention (mm_username c) s
                  | None => s
                  end, [])
  | Emoji e => Ok (insertEmoji e s, [])
  | ToggleEmoji => Ok (set_emoji (negb (emojiOpen s)) s, [])
  | CloseEmoji => Ok (set_emoji false s, [])
  | Submit => Ok (handleSubmit s)
  | PickFile file hasHandler => Ok (s, handleFileChange file hasHandler)
  | Frame => Ok (run_frames s, [])
  | Props ms dis => Ok (new_props ms dis s, [])
  end.

Fixpoint run (acts : list Action) (s : Input) : res (Input * list Output) :=
  match acts with
  | [] => Ok (s, [])
  | a :: acts' =>
      let! '(s1, o1) := step a s in
      let! '(s2, o2) := run acts' s1 in
      Ok (s2, o1 ++ o2)
  end.


(** ** The memo belongs to the text *)

(** What a memo says: some caret position in the text gave the query, and the
    candidates are one to six members. *)
Definition memo_ok (s : Input) : Prop :=
  match mentionState s with
  | None => True
  | Some m =>
      mentionDismissed s = false ∧
      (∃ caret, activeMentionQuery (in_text s) caret = Some (ms_query m, ms_start m)) ∧
      (0 < length (candidates m) ≤ 6)%nat ∧ candidates m ⊆ default [] (members s)
  end.

Definition inv (s : Input) : Prop := memo_ok s ∧ (mentionIndex s < 6)%nat.

Lemma mention_state_Some ms dismissed t caret m :
  mention_state ms dismissed t caret = Some m →
  dismissed = false ∧ activeMentionQuery t caret = Some (ms_query m, ms_start m) ∧
  candidates m = filterMembers toLowerCase (default [] ms) (ms_query m) ∧ candidates m ≠ [].
Proof.
  unfold mention_state. destruct ms as [[|x ms]|]; [done| |done]. destruct dismissed; [done|].
  destruct (activeMentionQuery t caret) as [[q start]|]; [|done].
  destruct (filterMembers _ _ _) eqn:Hf; [done|]. intros [= <-]. simpl. by rewrite Hf.
Qed.

Lemma filterMembers_bounds ms q :
  (length (filterMembers toLowerCase ms q) ≤ 6)%nat ∧ filterMembers toLowerCase ms q ⊆ ms.
Proof.
  unfold filterMembers. rewrite length_take. split; [lia|].
  intros x Hx. apply elem_of_take in Hx as (i & Hx & _). by apply list_elem_of_lookup_2, list_elem_of_filter in Hx as [_ Hx].
Qed.

(** A memo computed for the text of the state satisfies the invariant. *)
Lemma memo_ok_computed s ms dismissed caret :
  members s = ms → mentionDismissed s = dismissed →
  mentionState s = mention_state ms dismissed (in_text s) caret → memo_ok s.
Proof.
  intros Hm Hd Hs. unfold memo_ok. destruct (mentionState s) as [m|]; [|done]. symmetry in Hs.
  apply mention_state_Some in Hs as (-> & Ha & Hc & Hne). split; [done|]. split; [by exists caret|].
  rewrite Hm. destruct (filterMembers_bounds (default [] ms) (ms_query m)) as [Hl Hsub]. rewrite <-Hc in *.
  destruct (candidates m); [done|]. split; [simpl in *; lia|done].
Qed.

Lemma render_memo_ok t idx dismissed s : memo_ok s → memo_ok (render t idx dismissed s).
Proof.
  intros Hs. destruct (decide (t = in_text s ∧ dismissed = mentionDismissed s)) as [[-> ->]|Hne].
  - unfold render, memo_ok in *. by rewrite decide_True, Bool.eqb_reflx.
  - eapply memo_ok_computed; [reflexivity..|]. unfold render. cbn [members mentionDismissed mentionState in_text].
    destruct (decide (t = in_text s)) as [->|]; [|reflexivity].
    destruct (Bool.eqb dismissed (mentionDismissed s)) eqn:He; [|reflexivity].
    apply Bool.eqb_prop in He. naive_solver.
Qed.

Lemma render_inv t idx dismissed s : inv s → (idx < 6)%nat → inv (render t idx dismissed s).
Proof. intros [Hm _] Hi. split; [by apply render_memo_ok|done]. Qed.

Lemma queue_frame_inv pos s : inv s → inv (queue_frame pos s).
Proof. done. Qed.

Lemma set_selection_inv sel s : inv s → inv (set_selection sel s).
Proof. done. Qed.

Lemma applyMention_inv username s : inv s → inv (applyMention username s).
Proof.
  intros Hs. unfold applyMention. destruct (mentionState s); [|done].
  apply queue_frame_inv, render_inv; [done|lia].
Qed.

Lemma handleSubmit_inv s : inv s → inv (handleSubmit s).1.
Proof.
  intros Hs. unfold handleSubmit. destruct (_ || _); [done|]. apply render_inv; [done|apply Hs].
Qed.

Lemma handleKeyDown_inv k shift s s' o :
  inv s → handleKeyDown k shift s = Ok (s', o) → inv s'.
Proof.
  intros Hs H. pose proof Hs as [Hm Hi]. unfold memo_ok in Hm. unfold handleKeyDown in H.
  assert (Hsub := handleSubmit_inv s Hs).
  destruct (mentionState s) as [m|];
    [|destruct k; try destruct shift; injection H as H; try (rewrite H in Hsub); by simplify_eq].
  destruct Hm as (_ & _ & [Hn0 Hn6] & _).
  assert (∀ a, a mod length (candidates m) < 6)%nat as Hmod
    by (intros a; pose proof (Nat.mod_upper_bound a (length (candidates m)) ltac:(lia)); lia).
  destruct k; try destruct (candidates m !! mentionIndex s); simplify_eq;
    eauto using render_inv, applyMention_inv; by apply render_inv.
Qed.

Lemma run_frames_text s :
  in_text (run_frames s) = in_text s ∧ mentionState (run_frames s) = mentionState s ∧
  (mentionDismissed (run_frames s) = mentionDismissed s ∧ members (run_frames s) = members s) ∧
  mentionIndex (run_frames s) = mentionIndex s ∧ disabled (run_frames s) = disabled s.
Proof.
  unfold run_frames. simpl. generalize (frames s). intros l. revert s.
  induction l as [|p l IH]; intros s; [done|]. simpl. apply (IH (set_selection _ s)).
Qed.

Lemma step_inv a s s' o : inv s → step a s = Ok (s', o) → inv s'.
Proof.
  intros Hs. destruct a; simpl.
  - intros [= <- _]. apply (set_selection_inv (start, end_)), render_inv; [done|apply Hs].
  - by intros [= <- _].
  - by apply handleKeyDown_inv.
  - intros [= <- _]. destruct (mentionState s ≫= _); [by apply applyMention_inv|done].
  - intros [= <- _]. unfold insertEmoji. destruct (selection s). apply queue_frame_inv, render_inv; [done|apply Hs].
  - by intros [= <- _].
  - by intros [= <- _].
  - intros [= Hh]. pose proof (handleSubmit_inv s Hs) as H. by rewrite Hh in H.
  - by intros [= <- _].
  - intros [= <- _]. destruct (run_frames_text s) as (Ht & Hm & (Hd & Hms) & Hi & _).
    destruct Hs as [Hs Hx]. unfold inv, memo_ok in *. by rewrite Ht, Hm, Hd, Hms, Hi.
  - intros [= <- _]. split; [|apply Hs]. by eapply memo_ok_computed.
Qed.

(** What leaves the component: a text that is not blank, and only while the
    composer is enabled. *)
Definition sendable (s : Input) (o : Output) : Prop :=
  match o with OnSend t => blank t = false ∧ t = in_text s ∧ disabled s = false | OnSendFile _ => True end.

Lemma handleSubmit_sendable s : Forall (sendable s) (handleSubmit s).2.
Proof.
  unfold handleSubmit. destruct (blank (in_text s) || disabled s) eqn:H; simpl; [constructor|].
  apply orb_false_iff in H as [H1 H2]. by repeat constructor.
Qed.

Lemma step_sendable a s s' o : step a s = Ok (s', o) → Forall (sendable s) o.
Proof.
  destruct a; simpl; try (intros [= <- <-]; constructor).
  - unfold handleKeyDown. pose proof (handleSubmit_sendable s) as Hs.
    destruct (mentionState s) as [m|]; destruct k; try destruct shift; try destruct (candidates m !! mentionIndex s);
      intros [= Hh]; try (by rewrite Hh in Hs); by simplify_eq.
  - intros [= Hh]. pose proof (handleSubmit_sendable s) as Hs. by rewrite Hh in Hs.
  - intros [= <- <-]. unfold handleFileChange. destruct file, hasHandler; by repeat constructor.
Qed.
Lemma run_Ok a acts s s' o :
  run (a :: acts) s = Ok (s', o) →
  ∃ s1 o1 o2, step a s = Ok (s1, o1) ∧ run acts s1 = Ok (s', o2) ∧ o = o1 ++ o2.
Proof.
  simpl. destruct (step a s) as [[s1 o1]| |]; simpl; [|done|done].
  destruct (run acts s1) as [[s2 o2]| |] eqn:Hr; simpl; [|done|done]. intros [= <- <-]. eauto 10.
Qed.

(** C36: over any sequence of actions the completion menu belongs to the text
    that is shown and lists one to six members, the highlighted index stays
    below six, and nothing blank is ever sent. *)
Theorem composer_inv acts ms dis s o :
  run acts (new_input ms dis) = Ok (s, o) →
  inv s ∧ ∀ t, OnSend t ∈ o → blank t = false.
Proof.
  assert (H0 : inv (new_input ms dis)) by (split; simpl; [done|lia]).
  revert H0. generalize (new_input ms dis). revert o.
  induction acts as [|a acts IH]; intros o s0 H0 Hr; [by injection Hr as <- <-; split; [|set_solver]|].
  apply run_Ok in Hr as (s1 & o1 & o2 & Hs & Hr & ->).
  destruct (IH _ _ (step_inv _ _ _ _ H0 Hs) Hr) as [Hi Ho]. split; [done|].
  intros t [Ht|Ht]%elem_of_app; [|by apply Ho].
  apply step_sendable in Hs. rewrite Forall_forall in Hs. by destruct (Hs _ Ht).
Qed.

(** ** Completing a mention *)

(** The menu was computed for the caret where it still is. *)
Definition fresh (s : Input) : Prop :=
  ((selection s).1 ≤ length (in_text s))%nat ∧
  mentionState s = mention_state (members s) (mentionDismissed s) (in_text s) (selection s).1.

Lemma fresh_decompose s m :
  fresh s → mentionState s = Some m →
  ∃ pre, take (selection s).1 (in_text s) = pre ++ at_sign :: ms_query m ∧ ms_start m = length pre ∧
    Forall (λ c, is_name c = true) (ms_query m) ∧
    match last pre with Some c => is_space c = true | None => True end.
Proof.
  intros [Hlen Hf] Hm. rewrite Hm in Hf. symmetry in Hf.
  apply mention_state_Some in Hf as (_ & Ha & _ & _). by apply activeMentionQuery_spec in Ha.
Qed.

(** The text and the caret after [applyMention] on a fresh menu. *)
Lemma applyMention_text s m pre username :
  mentionState s = Some m → take (selection s).1 (in_text s) = pre ++ at_sign :: ms_query m →
  ms_start m = length pre →
  in_text (applyMention username s) =
    pre ++ (at_sign :: username ++ [space]) ++ drop (selection s).1 (in_text s).
Proof.
  intros Hm Ht Hs. unfold applyMention. rewrite Hm. simpl. f_equal.
  rewrite <-(take_drop (selection s).1 (in_text s)), Ht, <-app_assoc, Hs. apply take_app_length.
Qed.

Lemma foldl_selection_last l pos s :
  foldl (λ s pos, set_selection (Nat.min pos (length (in_text s)), Nat.min pos (length (in_text s))) s) s (l ++ [pos]) =
  set_selection (Nat.min pos (length (in_text s)), Nat.min pos (length (in_text s)))
    (foldl (λ s pos, set_selection (Nat.min pos (length (in_text s)), Nat.min pos (length (in_text s))) s) s l).
Proof.
  rewrite foldl_app. simpl. revert s. induction l as [|p l IH]; intros s; [done|]. simpl. by rewrite IH.
Qed.

(** The caret an animation frame leaves is the one queued last. *)
Lemma run_frames_queue pos s :
  selection (run_frames (queue_frame pos s)) = (Nat.min pos (length (in_text s)), Nat.min pos (length (in_text s))).
Proof. unfold run_frames. simpl. by rewrite foldl_selection_last. Qed.

Lemma applyMention_caret s m username :
  mentionState s = Some m →
  selection (run_frames (applyMention username s)) =
    let n := Nat.min (ms_start m + length username + 2) (length (in_text (applyMention username s))) in (n, n).
Proof. intros Hm. unfold applyMention. rewrite Hm. by rewrite run_frames_queue. Qed.

(** Completing a mention from a menu that belongs to the caret replaces the
    query by the chosen name and a space, puts the caret behind them, and the
    message then mentions the member that name stands for. *)
Theorem complete_mention s ms m c c' :
  fresh s → members s = Some ms → mentionState s = Some m → candidates m !! mentionIndex s = Some c →
  mm_username c ≠ [] → Forall (λ x, is_name x = true) (mm_username c) →
  member_named toLowerCase ms (mm_username c) = Some c' →
  ∃ s' pre ids, handleKeyDown Enter false s = Ok (s', []) ∧
    take (selection s).1 (in_text s) = pre ++ at_sign :: ms_query m ∧
    in_text s' = pre ++ (at_sign :: mm_username c ++ [space]) ++ drop (selection s).1 (in_text s) ∧
    (let n := length (pre ++ at_sign :: mm_username c ++ [space]) in selection (run_frames s') = (n, n)) ∧
    extractMentionIds toLowerCase (in_text s') ms = Ok ids ∧ mm_userId c' ∈ ids.
Proof.
  intros Hf Hms Hm Hc Hne Hn Hid. destruct (fresh_decompose s m Hf Hm) as (pre & Ht & Hs & Hq & Hp).
  pose proof (applyMention_text s m pre (mm_username c) Hm Ht Hs) as Htext.
  pose proof (extractMentionIds_tokens toLowerCase (in_text (applyMention (mm_username c) s)) ms) as He.
  eexists (applyMention (mm_username c) s), pre, _.
  split; [unfold handleKeyDown; by rewrite Hm, Hc|]. split; [done|]. split; [done|]. split; [|split; [exact He|]].
  - rewrite (applyMention_caret s m) by done. simpl. rewrite Htext, Hs, !length_app. simpl. rewrite !length_app. simpl.
    f_equal; lia.
  - apply (extract_reports _ _ _ _ He). exists (mm_username c), c'. split; [|done]. rewrite Htext. unfold mentions.
    exists pre, ([space] ++ drop (selection s).1 (in_text s)).
    split; [by simpl; rewrite <-app_assoc|]. split; [done|]. done.
Qed.

(** The rendering after a completion still sees the caret where it was, inside
    the name: the menu is offered again. *)
Lemma applyMention_reoffers s ms m pre username :
  members s = Some ms → mentionState s = Some m → mentionDismissed s = false →
  take (selection s).1 (in_text s) = pre ++ at_sign :: ms_query m → ms_start m = length pre →
  match last pre with Some c => is_space c = true | None => True end →
  ((selection s).1 ≤ length (in_text s))%nat →
  Forall (λ c, is_name c = true) username → (length (ms_query m) ≤ length username)%nat →
  in_text (applyMention username s) ≠ in_text s →
  filterMembers toLowerCase ms (take (length (ms_query m)) username) ≠ [] →
  mentionState (applyMention username s) =
    Some (mkMention (take (length (ms_query m)) username) (ms_start m)
      (filterMembers toLowerCase ms (take (length (ms_query m)) username))).
Proof.
  intros Hms Hm Hd Ht Hs Hp Hcaret Hu Hlen Hne Hf.
  pose proof (applyMention_text s m pre username Hm Ht Hs) as Htext.
  assert (Hmemo : mentionState (applyMention username s) =
    mention_state (members s) false (in_text (applyMention username s)) (selection s).1).
  { revert Hne. unfold applyMention. rewrite Hm. unfold queue_frame, render.
    cbn [in_text mentionState members mentionDismissed]. intros Hne. by rewrite decide_False. }
  rewrite Hmemo, Hms. unfold mention_state. destruct ms as [|x ms]; [done|].
  assert (Hsel : (selection s).1 = (length pre + 1 + length (ms_query m))%nat).
  { apply (f_equal length) in Ht. rewrite length_take, length_app in Ht. simpl in Ht. lia. }
  assert (activeMentionQuery (in_text (applyMention username s)) (selection s).1 =
    Some (take (length (ms_query m)) username, length pre)) as ->.
  { apply activeMentionQuery_spec.
    - rewrite Htext, !length_app. simpl. rewrite !length_app. simpl. lia.
    - exists pre. split; [|split; [done|]; split; [by apply Forall_take|done]].
      rewrite Htext, Hsel, <-Nat.add_assoc, take_app_add. f_equal. simpl. f_equal.
      rewrite <-app_assoc, take_app_le by lia. done. }
  rewrite Hs. by destruct (filterMembers _ (x :: ms) _).
Qed.

Lemma filterMembers_elem ms q c :
  c ∈ ms → startsWith (toLowerCase q) (toLowerCase (mm_username c)) = true → filterMembers toLowerCase ms q ≠ [].
Proof.
  intros Hc Hs. unfold filterMembers.
  assert (Hin : c ∈ base.filter (λ m, startsWith (toLowerCase q) (toLowerCase (mm_username m)) = true) ms)
    by (by apply list_elem_of_filter).
  destruct (base.filter _ ms) as [|x l]; [by apply elem_of_nil in Hin|done].
Qed.

(** After a completion the menu is open, with its first entry selected. *)
Lemma completion_menu_open s ms m c :
  fresh s → members s = Some ms → mentionState s = Some m → c ∈ candidates m →
  Forall (λ x, is_name x = true) (mm_username c) → (length (ms_query m) ≤ length (mm_username c))%nat →
  startsWith (toLowerCase (take (length (ms_query m)) (mm_username c))) (toLowerCase (mm_username c)) = true →
  mentionIndex (applyMention (mm_username c) s) = 0%nat ∧
  ∃ m' c', mentionState (applyMention (mm_username c) s) = Some m' ∧ candidates m' !! 0%nat = Some c'.
Proof.
  intros Hf Hms Hm Hc Hn Hlen Hsw. split; [unfold applyMention; by rewrite Hm|].
  destruct (fresh_decompose s m Hf Hm) as (pre & Ht & Hs & _ & Hp).
  pose proof Hf as [Hcaret Hmemo]. rewrite Hm in Hmemo. symmetry in Hmemo.
  apply mention_state_Some in Hmemo as (Hd & _ & Hcs & Hne). rewrite Hms in Hcs. simpl in Hcs.
  assert (Hin : c ∈ ms) by (rewrite Hcs in Hc; by apply filterMembers_bounds in Hc).
  destruct (decide (in_text (applyMention (mm_username c) s) = in_text s)) as [Heq|Hneq].
  - exists m. destruct (candidates m) as [|c' cs] eqn:Hcand; [done|]. exists c'. split; [|done].
    revert Heq. unfold applyMention. rewrite Hm. unfold queue_frame, render. cbn [in_text mentionState mentionDismissed].
    intros Heq. rewrite decide_True by done. by rewrite Hd.
  - pose proof (filterMembers_elem _ _ _ Hin Hsw) as Hfm.
    rewrite (applyMention_reoffers s ms m pre) by done.
    clear Hcs. destruct (filterMembers _ _ _) as [|c' cs]; [done|]. by eexists _, c'.
Qed.

(** Pressing Enter right after a completion does not send the message: the
    menu the completion should have closed takes the key. *)
Theorem enter_after_completion s ms m c :
  fresh s → members s = Some ms → mentionState s = Some m → candidates m !! mentionIndex s = Some c →
  Forall (λ x, is_name x = true) (mm_username c) → (length (ms_query m) ≤ length (mm_username c))%nat →
  startsWith (toLowerCase (take (length (ms_query m)) (mm_username c))) (toLowerCase (mm_username c)) = true →
  ∃ s', run [KeyDown Enter false; Frame; KeyDown Enter false] s = Ok (s', []).
Proof.
  intros Hf Hms Hm Hc Hn Hlen Hsw.
  destruct (completion_menu_open s ms m c) as (Hi & m' & c' & Hm' & Hc'); [by eauto using list_elem_of_lookup_2..|].
  cbn [run step]. unfold handleKeyDown at 1. rewrite Hm, Hc. cbn [res_bind].
  destruct (run_frames_text (applyMention (mm_username c) s)) as (_ & Hmf & _ & Hif & _).
  unfold handleKeyDown. rewrite Hmf, Hm', Hif, Hi, Hc'. cbn [res_bind]. by eexists.
Qed.

(** The highlighted index is not adjusted when typing narrows the
    candidates: Enter then reads a candidate that is not there and throws. *)
Theorem narrowing_throws s t start end_ m :
  t ≠ in_text s → mention_state (members s) false t start = Some m →
  (length (candidates m) ≤ mentionIndex s)%nat →
  run [Change t start end_; KeyDown Enter false] s =
    Throw "Cannot read properties of undefined (reading 'username')".
Proof.
  intros Ht Hm Hlen. cbn [run step res_bind]. unfold handleKeyDown, onChange, render.
  cbn [mentionState mentionIndex in_text mentionDismissed members selection fst].
  rewrite decide_False by done. rewrite Hm. by rewrite lookup_ge_None_2.
Qed.

(** A caret moved in front of the query is not noticed by the menu: completing
    repeats the text between the caret and the query. *)
Lemma moved_caret_duplicates s m pre k username :
  mentionState s = Some m → take (selection s).1 (in_text s) = pre ++ at_sign :: ms_query m →
  ms_start m = length pre → (k ≤ length pre)%nat →
  in_text (applyMention username (set_selection (k, k) s)) =
    pre ++ (at_sign :: username ++ [space]) ++ drop k pre ++ at_sign :: ms_query m ++ drop (selection s).1 (in_text s).
Proof.
  intros Hm Ht Hs Hk. unfold applyMention. cbn [mentionState set_selection]. rewrite Hm. simpl.
  assert (Htext : in_text s = pre ++ at_sign :: ms_query m ++ drop (selection s).1 (in_text s)).
  { rewrite <-(take_drop (selection s).1 (in_text s)) at 1. by rewrite Ht, <-app_assoc. }
  rewrite Hs, Htext at 1. rewrite take_app_length. f_equal. simpl. f_equal. f_equal.
  rewrite Htext at 1. by rewrite drop_app_le.
Qed.

(** An emoji replaces the selection and the caret ends behind it. *)
Lemma insertEmoji_spec emoji s :
  let '(a, b) := selection s in
  (a ≤ b)%nat → (b ≤ length (in_text s))%nat →
  in_text (insertEmoji emoji s) = take a (in_text s) ++ emoji ++ drop b (in_text s) ∧
  (let n := length (take a (in_text s) ++ emoji) in selection (run_frames (insertEmoji emoji s)) = (n, n)).
Proof.
  destruct (selection s) as [a b] eqn:Hsel. intros Ha Hb. unfold insertEmoji. rewrite Hsel. split; [done|].
  rewrite run_frames_queue. simpl. rewrite !length_app, length_take, length_drop. f_equal; lia.
Qed.

End Input.

(** ** Concrete members *)

Section Example.
(** "alice", "alan" and "bob", with ids 1, 2 and 3; all names are lower case. *)
Definition alice : text := [97; 108; 105; 99; 101].
Definition ex_members : list MentionMember :=
  [mkMember (Num 1) alice; mkMember (Num 2) [97; 108; 97; 110]; mkMember (Num 3) [98; 111; 98]].

(** "hi @al" with the caret at its end. *)
Definition ex_hi_al : text := [104; 105; 32; 64; 97; 108].
Definition ex_typed : Input := onChange id ex_hi_al (6, 6)%nat (new_input (Some ex_members) false).

Lemma composer_inv_witness :
  ∃ s o, run id [Change [104; 105] 2 2; KeyDown Enter false; Submit] (new_input (Some ex_members) false) = Ok (s, o) ∧
    inv s ∧ o = [OnSend [104; 105]] ∧ ∀ t, OnSend t ∈ o → blank t = false.
Proof.
  eexists _, _. split; [vm_compute; reflexivity|].
  destruct (composer_inv id [Change [104; 105] 2 2; KeyDown Enter false; Submit] (Some ex_members) false _ _ eq_refl) as [H1 H2].
  split; [exact H1|]. split; [reflexivity|exact H2].
Defined.

Lemma ex_typed_fresh : fresh id ex_typed.
Proof. split; [vm_compute; lia|reflexivity]. Qed.

Lemma complete_mention_witness :
  ∃ s' pre ids, handleKeyDown id Enter false ex_typed = Ok (s', []) ∧
    take 6 ex_hi_al = pre ++ at_sign :: [97; 108] ∧
    in_text s' = pre ++ (at_sign :: alice ++ [space]) ++ [] ∧
    (let n := length (pre ++ at_sign :: alice ++ [space]) in selection (run_frames s') = (n, n)) ∧
    extractMentionIds id (in_text s') ex_members = Ok ids ∧ Num 1 ∈ ids.
Proof.
  apply (complete_mention id ex_typed ex_members
    (mkMention [97; 108] 3 (take 2 ex_members)) (mkMember (Num 1) alice) (mkMember (Num 1) alice));
    [apply ex_typed_fresh|reflexivity|reflexivity|reflexivity|done| |reflexivity].
  repeat constructor.
Defined.

Lemma enter_after_completion_witness :
  ∃ s', run id [KeyDown Enter false; Frame; KeyDown Enter false] ex_typed = Ok (s', []) ∧
    in_text s' = [104; 105; 32; 64] ++ alice ++ [32].
Proof.
  destruct (enter_after_completion id ex_typed ex_members (mkMention [97; 108] 3 (take 2 ex_members)) (mkMember (Num 1) alice))
    as [s' Hs']; [apply ex_typed_fresh|reflexivity|reflexivity|reflexivity|repeat constructor|simpl; lia|reflexivity|].
  exists s'. split; [exact Hs'|]. vm_compute in Hs'. injection Hs' as <-. reflexivity.
Defined.

(** "@" offers three members; two arrows select the third; "@a" leaves two. *)
Definition ex_third : Input :=
  match run id [Change [64] 1 1; KeyDown ArrowDown false; KeyDown ArrowDown false] (new_input (Some ex_members) false) with
  | Ok (s, _) => s
  | _ => new_input None false
  end.

Lemma narrowing_throws_witness :
  run id [Change [64; 97] 2 2; KeyDown Enter false] ex_third =
    Throw "Cannot read properties of undefined (reading 'username')".
Proof.
  apply (narrowing_throws id ex_third [64; 97] 2 2 (mkMention [97] 0 (take 2 ex_members)));
    [vm_compute; congruence|reflexivity|vm_compute; lia].
Defined.
End Example.
End Composer.
