(* ===== verification/MessageView.v ===== *)
(** * What the chat shows ([web/app/components/chat])

    The decisions behind the rendering: the order of the conversation list, the
    days of a message list and its scrolling, what a bubble displays and
    offers, and the labels of the header and the connection bar.  Dates of the
    platform are a variable. *)

From S2P Require Import Prelude JsNum JsMap Types ChatStore ChatStoreProps Realtime Mentions Api Media Hooks HooksProps.
Import ChatStore Hooks.

Module MessageView.

(** ** [ConversationList.tsx] *)

(** [lastMsgAt || 0], as an instant. *)
Definition activity (c : Conversation) : Z := from_option ts_millis 0%Z (lastMsgAt c).

(** [Array.from(conversations.values()).sort((a, b) => b - a)]. *)
Definition conversation_list (s : State) : list Conversation :=
  sort_by (λ c, (- activity c)%Z) (map_values (conversations s)).

(** [ConversationItem]. *)
Definition item_title (c : Conversation) : string := opt_str_or (conv_name c) (str_or (peerUsername c) "Unknown").
Definition item_preview (c : Conversation) : string := opt_str_or (lastMsgPreview c) "No messages yet".
Definition item_badge (c : Conversation) : option string :=
  if (0 <? unreadCount c)%Z then Some (if (99 <? unreadCount c)%Z then "99+"%string else pretty (unreadCount c)) else None.
Definition item_mentioned (c : Conversation) (s : State) : bool := set_has (conv_topic c) (mentionedTopics s).

(** ** [ChatHeader.tsx] and [ConnectionBar.tsx] *)

Definition header_title (c : option Conversation) : string :=
  match c with
  | Some c => opt_str_or (conv_name c) (match conv_type c with p2p => str_or (peerUsername c) "Unknown" | group => "Group" end)
  | None => "Chat"
  end.

Definition getConnectionLabel (st : ConnectionState) : string :=
  match st with
  | connecting => "Connecting..."
  | connected => "Authenticating..."
  | authed => "Connected"
  | reconnecting => "Reconnecting..."
  | disconnected => "Offline"
  end.

Definition is_group (c : option Conversation) : bool :=
  match c with Some c => bool_decide (conv_type c = group) | None => false end.

Definition getSubtitle (c : option Conversation) (st : ConnectionState) (peerOnline : option bool) (memberCount : option nat) : string :=
  if negb (bool_decide (st = authed)) then getConnectionLabel st
  else if is_group c then
    match memberCount with
    | Some n => (pretty n +:+ " member" +:+ (if (n =? 1)%nat then "" else "s"))%string
    | None => "Group conversation"
    end
  else match peerOnline with
       | None => "Checking status..."
       | Some true => "Online"
       | Some false => "Offline"
       end.

Definition isPeerOnline (c : option Conversation) (st : ConnectionState) (peerOnline : option bool) : bool :=
  match c with
  | Some c => bool_decide (conv_type c = p2p) && bool_decide (st = authed) && bool_decide (peerOnline = Some true)
  | None => false
  end.

(** [ConnectionBar]: nothing is shown while the socket is up. *)
Definition connection_bar (st : ConnectionState) : option string :=
  match st with
  | authed | connected => None
  | connecting => Some "Connecting..."%string
  | reconnecting => Some "Reconnecting..."%string
  | disconnected => Some "Disconnected"%string
  end.

(** ** [MessageList.tsx] *)

Section Dates.
(** [new Date(ms).toLocaleDateString()]. *)
Context (toLocaleDateString : Z → string).

Definition date_of (m : ChatMessage) : string := toLocaleDateString (ts_millis (msg_timestamp m)).

(** One iteration of [groupByDate]: [groups.get(date)!.push(msg)]. *)
Definition group_step (groups : list (string * list ChatMessage)) (msg : ChatMessage) : list (string * list ChatMessage) :=
  let date := date_of msg in
  let groups := if map_has date groups then groups else map_set date [] groups in
  map_set date (default [] (map_get date groups) ++ [msg]) groups.

Definition groupByDate (msgs : list ChatMessage) : list (string * list ChatMessage) := foldl group_step [] msgs.
End Dates.

Definition is_me (user : option User) (m : ChatMessage) : bool :=
  match user with Some u => strict_eq (senderId m) (user_userId u) | None => false end.

Definition getSenderName (sender : jsnum) (c : Conversation) (memberNames : option (list (Z * string))) : string :=
  match conv_type c with
  | group => opt_str_or (memberNames ≫= map_get (Number sender)) "Unknown"
  | p2p => if strict_eq sender (peerId c) then str_or (peerUsername c) "Unknown" else "Unknown"
  end.

(** [showSender] of the message after [prev] in its day. *)
Definition show_sender (c : Conversation) (user : option User) (prev : option ChatMessage) (m : ChatMessage) : bool :=
  bool_decide (conv_type c = group) && negb (is_me user m) &&
  match prev with None => true | Some p => negb (strict_eq (senderId p) (senderId m)) end.

(** The references of the list and the geometry of its viewport. *)
Record Scroll := mkScroll {
  nearBottom : bool;
  prevFirstKey : option string;
  prevLastKey : option string;
  prevCount : nat;
  prevHeight : Z;
}.

Record Viewport := mkViewport { scrollHeight : Z; scrollTop : Z; clientHeight : Z }.

Definition NEAR_BOTTOM_PX : Z := 100.

Definition new_scroll : Scroll := mkScroll true None None 0 0.

(** [onScroll]. *)
Definition onScroll (v : Viewport) (s : Scroll) : Scroll :=
  mkScroll (scrollHeight v - scrollTop v - clientHeight v <? NEAR_BOTTOM_PX)%Z
    (prevFirstKey s) (prevLastKey s) (prevCount s) (prevHeight s).

Inductive ScrollAction := Keep | SetTop (top : Z) | IntoView.

(** The layout effect that runs when the messages change; [v] is the viewport
    after the rendering, [None] when it is not mounted. *)
Definition layout_effect (msgs : list ChatMessage) (user : option User) (v : option Viewport) (s : Scroll) : Scroll * ScrollAction :=
  let firstKey := clientMsgId <$> head msgs in
  let lastKey := clientMsgId <$> last msgs in
  let '(near, act) :=
    match v with
    | None => (nearBottom s, Keep)
    | Some v =>
        let hadContent := (0 <? prevCount s)%nat in
        let prepended := hadContent && negb (bool_decide (firstKey = prevFirstKey s)) && (prevCount s <? length msgs)%nat in
        let lastChanged := negb (bool_decide (lastKey = prevLastKey s)) in
        let isOwn := match last msgs with Some m => is_me user m | None => false end in
        if prepended then (nearBottom s, SetTop (scrollTop v + (scrollHeight v - prevHeight s)))
        else if lastChanged && (nearBottom s || isOwn) then (true, IntoView)
        else (nearBottom s, Keep)
    end in
  (mkScroll near firstKey lastKey (length msgs) (match v with Some v => scrollHeight v | None => prevHeight s end), act).

(** The observer of the top of the list. *)
Definition on_top_visible (isIntersecting loadingMore : bool) : bool := isIntersecting && negb loadingMore.

(** ** [MessageBubble.tsx] *)

Definition can_recall (isMe hasHandler : bool) (m : ChatMessage) : bool :=
  isMe && hasHandler && negb (bool_decide (status m = recalled_status)) && negb (default false (recalled m)).

Definition is_media (m : ChatMessage) : bool :=
  bool_decide (msgType m = Some 2%Z) || bool_decide (msgType m = Some 3%Z).

Definition can_copy (m : ChatMessage) : bool := negb (default false (recalled m)) && negb (is_media m).

Inductive Icon := Spinner | RetryButton | DoubleCheck | SingleCheck.

Definition StatusIcon (st : MessageStatus) : Icon :=
  match st with sending => Spinner | failed => RetryButton | read => DoubleCheck | _ => SingleCheck end.

(** What the body of a bubble displays; a segment is emphasised when it
    mentions the current user. *)
Inductive BubbleBody :=
| RecalledNotice
| PlainText (t : string)
| ImageBody (href name : string)
| FileBody (href name size : string)
| TextBody (segments : list (Mentions.TextSegment * bool)).

Section Body.
Context (JSON_parse : string → option (string → Media.Field)) (API_BASE_URL : string).
Context (toLowerCase : list Z → list Z) (utf16 : string → list Z).

Definition emphasised (currentUserId : option Z) (seg : Mentions.TextSegment) : bool :=
  match Mentions.mentionedUserId seg, currentUserId with
  | Some id, Some me => strict_eq id (Num me)
  | _, _ => false
  end.

Definition MessageBody (m : ChatMessage) (members : list Mentions.MentionMember) (currentUserId : option Z) : res BubbleBody :=
  if default false (recalled m) then Ok RecalledNotice
  else if is_media m then
    match Media.parseMediaContent JSON_parse (content m) with
    | None => Ok (PlainText (content m))
    | Some meta =>
        let href := Media.absoluteFileUrl API_BASE_URL (Media.meta_url meta) in
        if bool_decide (msgType m = Some 2%Z) then Ok (ImageBody href (Media.meta_name meta))
        else Ok (FileBody href (Media.meta_name meta) (Media.formatSize (Media.meta_size meta)))
    end
  else
    let! segs := Mentions.segmentMentions toLowerCase (utf16 (content m)) members in
    Ok (TextBody ((λ seg, (seg, emphasised currentUserId seg)) <$> segs)).
End Body.

(** ** Days *)

Section DatesProps.
Context (toLocaleDateString : Z → string).
Local Abbreviation date := (date_of toLocaleDateString).
Local Abbreviation group_by := (groupByDate toLocaleDateString).

(** The messages of a day. *)
Definition on_day (msgs : list ChatMessage) (d : string) : list ChatMessage := base.filter (λ m, date m = d) msgs.

Lemma on_day_snoc msgs m d : on_day (msgs ++ [m]) d = on_day msgs d ++ (if decide (date m = d) then [m] else []).
Proof. unfold on_day. rewrite filter_app, filter_cons. by destruct (decide (date m = d)). Qed.

Lemma on_day_nil msgs d : (∀ m, m ∈ msgs → date m ≠ d) → on_day msgs d = [].
Proof.
  unfold on_day. induction msgs as [|m msgs IH]; intros Hm; [done|].
  rewrite filter_cons, decide_False by (apply Hm; left). apply IH. intros x Hx. apply Hm. by right.
Qed.

Lemma groupByDate_tabulate msgs : group_by msgs = map_tabulate (on_day msgs) (set_of (date <$> msgs)).
Proof.
  induction msgs as [|m msgs IH] using rev_ind; [done|].
  unfold groupByDate in *. rewrite foldl_app, fmap_app. csimpl. rewrite set_of_snoc, IH. clear IH.
  pose proof (set_of_NoDup (date <$> msgs)) as Hnd. set (ks := set_of (date <$> msgs)) in *.
  unfold group_step, map_has, set_add. rewrite map_get_tabulate.
  assert (Hon : on_day msgs (date m) ++ [m] = on_day (msgs ++ [m]) (date m)).
  { rewrite on_day_snoc. by rewrite decide_True. }
  assert (Hother : ∀ k, k ∈ ks → k ≠ date m → on_day (msgs ++ [m]) k = on_day msgs k).
  { intros k _ Hk. rewrite on_day_snoc, decide_False by congruence. apply app_nil_r. }
  destruct (decide (date m ∈ ks)) as [Hin|Hin].
  - rewrite map_get_tabulate, decide_True by done. cbn [default]. simpl. rewrite Hon. by apply map_set_tabulate.
  - rewrite map_get_set_eq. simpl. rewrite map_set_tabulate_new by done.
    assert (Hnil : on_day msgs (date m) = []).
    { apply on_day_nil. intros x Hx Heq. apply Hin, elem_of_set_of. rewrite <-Heq. by apply list_elem_of_fmap_2. }
    replace (map_tabulate (on_day msgs) ks ++ [(date m, [])])
      with (map_tabulate (on_day msgs) (ks ++ [date m])) by (unfold map_tabulate; rewrite fmap_app; csimpl; by rewrite Hnil).
    rewrite Hnil in Hon. simpl in Hon. rewrite Hon at 1. apply map_set_tabulate; [|set_solver|].
    + apply NoDup_app. split; [done|]. split; [set_solver|apply NoDup_singleton].
    + intros k Hk Hne. apply Hother; [|done]. set_solver.
Qed.

(** Grouping by a key loses nothing. *)
Lemma concat_filter_perm (ks : list string) msgs :
  NoDup ks → (∀ m, m ∈ msgs → date m ∈ ks) → concat (on_day msgs <$> ks) ≡ₚ msgs.
Proof.
  revert msgs. induction ks as [|k ks IH]; intros msgs Hnd Hin; csimpl.
  - destruct msgs as [|m msgs]; [done|]. specialize (Hin m ltac:(left)). set_solver.
  - apply NoDup_cons in Hnd as [Hk Hnd].
    transitivity (on_day msgs k ++ base.filter (λ m, ¬ date m = k) msgs); [|apply filter_app_complement].
    apply Permutation_app_head.
    transitivity (concat (on_day (base.filter (λ m, ¬ date m = k) msgs) <$> ks)); [|apply IH; [done|]].
    + apply Permutation_refl'. f_equal. apply list_fmap_ext. intros i d Hd%list_elem_of_lookup_2. unfold on_day.
      rewrite list_filter_filter. apply list_filter_iff. intros x. split; [|naive_solver].
      intros ->. split; [done|]. intros ->. done.
    + intros m [Hm Hmm]%list_elem_of_filter. specialize (Hin m Hmm). set_solver.
Qed.

(** C37: the list is cut into days: the days are distinct and in the order in
    which they first appear, every day holds exactly its messages in their
    order, and no message is lost or repeated. *)
Theorem groupByDate_spec msgs :
  (group_by msgs).*1 = set_of (date <$> msgs) ∧ NoDup (group_by msgs).*1 ∧
  (∀ d l, (d, l) ∈ group_by msgs → l = base.filter (λ m, date m = d) msgs ∧ l ≠ []) ∧
  concat (group_by msgs).*2 ≡ₚ msgs.
Proof.
  rewrite groupByDate_tabulate. pose proof (set_of_NoDup (date <$> msgs)) as Hnd.
  pose proof (map_keys_tabulate (on_day msgs) (set_of (date <$> msgs))) as Hk. unfold map_keys in Hk.
  rewrite Hk. split; [done|]. split; [done|]. split.
  - intros d l (d' & [= -> ->] & Hd)%list_elem_of_fmap. split; [done|].
    apply elem_of_set_of, list_elem_of_fmap in Hd as (m & -> & Hm). intros Hnil.
    assert (m ∈ on_day msgs (date m)) as Hx by (by apply list_elem_of_filter). rewrite Hnil in Hx. set_solver.
  - unfold map_tabulate. rewrite <-list_fmap_compose. apply concat_filter_perm; [done|].
    intros m Hm. apply elem_of_set_of. by apply list_elem_of_fmap_2.
Qed.

(** With days in ascending order the groups, put together, are the list. *)
Lemma groupByDate_contiguous (day : ChatMessage → Z) msgs :
  (∀ a b, a ∈ msgs → b ∈ msgs → (date a = date b ↔ day a = day b)) →
  StronglySorted (λ a b, (day a ≤ day b)%Z) msgs → concat (group_by msgs).*2 = msgs.
Proof.
  rewrite groupByDate_tabulate. unfold map_tabulate. rewrite <-list_fmap_compose. unfold compose. simpl.
  intros Hd Hs. induction Hs as [|x l Hs IH Hx]; [done|]. csimpl. rewrite set_of_cons. csimpl.
  unfold on_day at 1. rewrite filter_cons, decide_True by done. cbn [app]. f_equal. fold (on_day l (date x)).
  set (K := base.filter (λ d, d ≠ date x) (set_of (date <$> l))).
  rewrite (list_fmap_ext _ (on_day l) K).
  2:{ intros i k [Hk _]%list_elem_of_lookup_2%list_elem_of_filter. unfold on_day. by rewrite filter_cons, decide_False. }
  rewrite <-IH at 3 by (intros a b Ha Hb; apply Hd; set_solver). unfold K.
  destruct l as [|y l]; [done|]. csimpl. rewrite set_of_cons. csimpl.
  destruct (decide (date y = date x)) as [Hy|Hy].
  - rewrite Hy, filter_cons, decide_False by naive_solver. f_equal. f_equal. f_equal.
    apply filter_accept_all. intros k [? _]%list_elem_of_filter. done.
  - rewrite filter_cons, decide_True by done. csimpl.
    assert (Hnone : ∀ z, z ∈ y :: l → date z ≠ date x).
    { intros z Hz Heq. apply Hy. apply Hd; [set_solver..|]. apply Hd in Heq; [|set_solver..].
      apply StronglySorted_inv in Hs as [_ Hyl]. rewrite Forall_forall in Hx, Hyl.
      pose proof (Hx y ltac:(left)). apply elem_of_cons in Hz as [->|Hz]; [lia|]. specialize (Hyl z Hz). simpl in *. lia. }
    rewrite (on_day_nil (y :: l)) by done.
    simpl. f_equal. f_equal. f_equal. apply filter_accept_all.
    intros k [_ Hk]%list_elem_of_filter. apply elem_of_set_of, list_elem_of_fmap in Hk as (z & -> & Hz).
    apply Hnone. by right.
Qed.
End DatesProps.

(** ** The conversation list *)

(** The list shows every conversation once, the latest activity first. *)
Lemma conversation_list_sorted s :
  conversation_list s ≡ₚ map_values (conversations s) ∧
  StronglySorted (λ a b, (activity b ≤ activity a)%Z) (conversation_list s).
Proof.
  split; [apply sort_by_perm|]. pose proof (sort_by_sorted (λ c, (- activity c)%Z) (map_values (conversations s))) as H.
  unfold conversation_list. induction H as [|x l Hs IH Hx]; constructor; [done|].
  eapply Forall_impl; [exact Hx|]. unfold key_le. simpl. intros. lia.
Qed.

Lemma elem_of_append_values topic m s c :
  wf s → c ∈ map_values (conversations (appendMessage topic m s)) →
  c = append_to (conv_of topic s) m ∨ c ∈ map_values (conversations s) ∧ conv_topic c ≠ topic.
Proof.
  intros Hwf [[k c'] [-> Hin]]%list_elem_of_fmap.
  pose proof (dispatch_wf (AAppend topic m) s Hwf) as ((Hnd & Hkey) & _).
  cbn [dispatch] in *. pose proof (map_wf_get _ _ _ Hnd Hin) as Hg. rewrite Forall_forall in Hkey. simpl.
  destruct (decide (k = topic)) as [->|Hk].
  - left. rewrite get_append in Hg. by injection Hg.
  - right. specialize (Hkey _ Hin). simpl in Hkey. split; [|congruence]. apply list_elem_of_fmap. exists (k, c'). split; [done|].
    rewrite append_as_update, update_ensured_get_ne in Hg by done. by apply map_get_elem.
Qed.

(** A message newer than anything shown moves its conversation to the top
    of the list, which still holds every conversation once. *)
Theorem append_moves_to_top topic m s :
  wf s →
  (∀ c, c ∈ map_values (conversations s) → conv_topic c ≠ topic → (activity c < ts_millis (msg_timestamp m))%Z) →
  head (conversation_list (appendMessage topic m s)) = Some (append_to (conv_of topic s) m) ∧
  conversation_list (appendMessage topic m s) ≡ₚ map_values (conversations (appendMessage topic m s)).
Proof.
  intros Hwf Hold. set (s' := appendMessage topic m s). destruct (conversation_list_sorted s') as [Hperm Hsort].
  split; [|done].
  assert (Hin : append_to (conv_of topic s) m ∈ conversation_list s').
  { rewrite Hperm. apply list_elem_of_fmap. exists (topic, append_to (conv_of topic s) m). split; [done|].
    apply map_get_elem, get_append. }
  destruct (conversation_list s') as [|h l]; [by apply elem_of_nil in Hin|]. simpl. f_equal.
  assert (Hh : h ∈ map_values (conversations s')) by (rewrite <-Hperm; left).
  apply elem_of_append_values in Hh as [->|[Hh Ht]]; [done| |done].
  apply StronglySorted_inv in Hsort as [_ Hall]. rewrite Forall_forall in Hall. specialize (Hold h Hh Ht).
  apply elem_of_cons in Hin as [->|Hin]; [done|]. specialize (Hall _ Hin). simpl in Hall.
  unfold activity at 1 in Hall. simpl in Hall. lia.
Qed.

(** ** Scrolling *)

(** The references after the effect ran for [msgs] in viewport [v]. *)
Lemma layout_effect_refs msgs user v s :
  let s' := (layout_effect msgs user (Some v) s).1 in
  prevFirstKey s' = clientMsgId <$> head msgs ∧ prevLastKey s' = clientMsgId <$> last msgs ∧
  prevCount s' = length msgs ∧ prevHeight s' = scrollHeight v.
Proof. unfold layout_effect. by repeat case_match; simplify_eq/=. Qed.

(** The scroll position after the list was shown once: older messages put
    in front leave the distance to the bottom as it was; a new message at the
    end scrolls into view exactly when the user was near the bottom or sent it;
    a status update moves nothing. *)
Theorem scroll_policy msgs user v0 v near s0 :
  msgs ≠ [] →
  let s := onScroll v0 (layout_effect msgs user (Some v0) s0).1 in
  near = (scrollHeight v0 - scrollTop v0 - clientHeight v0 <? NEAR_BOTTOM_PX)%Z →
  (∀ page, page ≠ [] → (clientMsgId <$> head page) ≠ (clientMsgId <$> head msgs) →
     ∃ top, (layout_effect (page ++ msgs) user (Some v) s).2 = SetTop top ∧
       (scrollHeight v - top = scrollHeight v0 - scrollTop v)%Z) ∧
  (∀ m, Some (clientMsgId m) ≠ (clientMsgId <$> last msgs) →
     (layout_effect (msgs ++ [m]) user (Some v) s).2 = if near || is_me user m then IntoView else Keep) ∧
  (∀ msgs', (clientMsgId <$> msgs') = (clientMsgId <$> msgs) → (layout_effect msgs' user (Some v) s).2 = Keep).
Proof.
  intros Hne s Hnear. destruct (layout_effect_refs msgs user v0 s0) as (Hf & Hl & Hc & Hh). fold s in Hf.
  change (prevFirstKey s = clientMsgId <$> head msgs) in Hf.
  assert (Hs : s = mkScroll near (clientMsgId <$> head msgs) (clientMsgId <$> last msgs) (length msgs) (scrollHeight v0)).
  { unfold s, onScroll. by rewrite Hnear, Hl, Hc, Hh, (proj1 (layout_effect_refs msgs user v0 s0)). }
  rewrite Hs. clear s Hs Hf Hl Hc Hh Hnear.
  assert (Hlen : (0 < length msgs)%nat) by (destruct msgs; [done|simpl; lia]).
  unfold layout_effect. simpl. rewrite (proj2 (Nat.ltb_lt _ _) Hlen). simpl. split; [|split].
  - intros page Hp Hkey. assert (head (page ++ msgs) = head page) as -> by (by destruct page).
    rewrite bool_decide_eq_false_2 by done. rewrite (proj2 (Nat.ltb_lt _ _)).
    + simpl. eexists. split; [done|]. lia.
    + rewrite length_app. destruct page; [done|simpl; lia].
  - intros m Hm. assert (head (msgs ++ [m]) = head msgs) as -> by (by destruct msgs).
    rewrite bool_decide_eq_true_2 by done. simpl. rewrite last_snoc. simpl.
    rewrite bool_decide_eq_false_2 by done. simpl. by destruct (near || is_me user m).
  - intros msgs' Heq.
    assert (Hh : clientMsgId <$> head msgs' = clientMsgId <$> head msgs)
      by (destruct msgs', msgs; try done; injection Heq as Heq _; simpl; by rewrite Heq).
    assert (Hl : clientMsgId <$> last msgs' = clientMsgId <$> last msgs)
      by (apply (f_equal last) in Heq; by rewrite !fmap_last in Heq).
    rewrite !bool_decide_eq_true_2 by done. done.
Qed.

(** ** Bubbles *)

(** The user's own messages are recognised by comparing ids without
    conversion, and the session holds the id as text: what the user sent from
    another device is shown as someone else's when it arrives as a push and as
    the user's own when it is pulled, although the store marks both as sent. *)
Theorem own_push_not_mine atob decode_utf8 json_normal d p uid name :
  safe_integer uid → Realtime.rm_senderId d = uid → pl_senderId p = Dec uid → pl_recalled p = None →
  let user := mkUser (Dec uid) name in
  let pushed := message_of_push d (my_id (Some user)) in
  let pulled := message_of_pull atob decode_utf8 json_normal (Some (user_userId user)) p in
  status pushed = sent ∧ status pulled = sent ∧
  is_me (Some user) pushed = false ∧ is_me (Some user) pulled = true.
Proof.
  intros Hs Hd Hp Hr user pushed pulled. unfold pushed, pulled, message_of_push, message_of_pull, my_id.
  cbn [status user_userId user Number]. rewrite Hd, Hp, Hr, to_double_safe, Z.eqb_refl by done. simpl.
  by rewrite Z.eqb_refl.
Qed.

Section BodyProps.
Context (JSON_parse : string → option (string → Media.Field)) (API_BASE_URL : string).
Context (toLowerCase : list Z → list Z) (utf16 : string → list Z).
Local Abbreviation body := (MessageBody JSON_parse API_BASE_URL toLowerCase utf16).

(** What a bubble displays is total: a recalled message shows only the
    notice and can be neither copied nor recalled again; a media message shows
    its metadata or, when that is malformed, its text; any other message shows
    segments that spell its text. *)
Theorem MessageBody_spec m members me isMe h :
  (recalled m = Some true → body m members me = Ok RecalledNotice ∧ can_copy m = false ∧ can_recall isMe h m = false) ∧
  (default false (recalled m) = false → is_media m = true →
     match Media.parseMediaContent JSON_parse (content m) with
     | None => body m members me = Ok (PlainText (content m))
     | Some meta => ∃ href, href = Media.absoluteFileUrl API_BASE_URL (Media.meta_url meta) ∧
         (body m members me = Ok (ImageBody href (Media.meta_name meta)) ∨
          body m members me = Ok (FileBody href (Media.meta_name meta) (Media.formatSize (Media.meta_size meta))))
     end) ∧
  (default false (recalled m) = false → is_media m = false →
     ∃ segs, body m members me = Ok (TextBody segs) ∧ concat (Mentions.seg_text <$> segs.*1) = utf16 (content m)).
Proof.
  unfold MessageBody. split; [|split].
  - intros Hr. rewrite Hr. unfold can_copy, can_recall. rewrite Hr. simpl. by rewrite andb_false_r.
  - intros Hr Hm. rewrite Hr, Hm. destruct (Media.parseMediaContent _ _) as [meta|]; [|done].
    eexists. split; [done|]. destruct (bool_decide _); [by left|by right].
  - intros Hr Hm. rewrite Hr, Hm. destruct (Mentions.segmentMentions_tokens toLowerCase (utf16 (content m)) members) as (segs & -> & Hc & _).
    eexists. split; [done|]. by rewrite <-!list_fmap_compose.
Qed.
End BodyProps.

(** "Online" is shown when the client is authenticated and the peer was reported
    online, and for nothing else. *)
Lemma subtitle_online c st online n :
  is_group c = false → getSubtitle c st online n = "Online"%string ↔ st = authed ∧ online = Some true.
Proof.
  intros Hg. unfold getSubtitle. rewrite Hg. destruct (bool_decide_reflect (st = authed)) as [->|Hst]; simpl.
  - destruct online as [[]|]; naive_solver.
  - split; [|naive_solver]. destruct st; simpl; congruence.
Qed.

(** ** Witnesses *)

Section Example.
Definition ex_msg (id : string) (who ms : Z) : ChatMessage :=
  mkMsg id (Some (Num 1)) "p2p_1_2" (Num who) "hi" (Some 1%Z) (TsNow ms) (Some (Num 1)) sent None.

(** Two conversations; the older one gets a new message. *)
Definition ex_two : State :=
  appendMessage "p2p_1_3" (ex_msg "b" 3 2000) (appendMessage "p2p_1_2" (ex_msg "a" 2 1000) initialState).

Lemma ex_two_wf : wf ex_two.
Proof. apply (dispatch_wf (AAppend _ _)), (dispatch_wf (AAppend _ _)). repeat split; constructor. Qed.

Lemma append_moves_to_top_witness :
  conv_topic <$> conversation_list ex_two = ["p2p_1_3"; "p2p_1_2"]%string ∧
  (conv_topic <$> head (conversation_list (appendMessage "p2p_1_2" (ex_msg "c" 2 3000) ex_two))) = Some "p2p_1_2"%string.
Proof.
  split; [reflexivity|].
  destruct (append_moves_to_top "p2p_1_2" (ex_msg "c" 2 3000) ex_two) as [-> _]; [apply ex_two_wf| |reflexivity].
  intros c Hc _. vm_compute in Hc. repeat (apply elem_of_cons in Hc as [->|Hc]; [vm_compute; reflexivity|]).
  by apply elem_of_nil in Hc.
Defined.

(** The user has scrolled away from the bottom when a page arrives. *)
Lemma scroll_policy_witness :
  let v0 := mkViewport 1000 100 300 in
  let msgs := [ex_msg "b" 2 1000] in
  let s := onScroll v0 (layout_effect msgs None (Some v0) new_scroll).1 in
  ∃ top, (layout_effect (ex_msg "a" 2 0 :: msgs) None (Some (mkViewport 1400 100 300)) s).2 = SetTop top ∧
    (1400 - top = 1000 - 100)%Z.
Proof.
  intros v0 msgs s. apply (scroll_policy msgs None v0 (mkViewport 1400 100 300) false new_scroll) with (page := [ex_msg "a" 2 0]);
    [done|reflexivity|done|vm_compute; congruence].
Defined.

Lemma own_push_not_mine_witness :
  let user := mkUser (Dec 7) "ann" in
  let d := Realtime.mkRtMessage 5 "p2p_2_7" 7 1 "hi" 0 9 "k" [] in
  is_me (Some user) (message_of_push d (my_id (Some user))) = false.
Proof.
  intros user d.
  refine (proj1 (proj2 (proj2 (own_push_not_mine (λ _, None) id (λ _, None) d
    (mkPulled (Dec 5) "p2p_2_7" (Dec 7) 1 "hi" (Dec 0) (Dec 9) None None) 7 "ann" _ _ _ _))));
    [unfold safe_integer; lia|reflexivity|reflexivity|reflexivity].
Defined.

(** A malformed image shows its text. *)
Lemma MessageBody_spec_witness :
  MessageBody (λ _, None) "http://h" id (λ _, []) (mkMsg "k" None "t" (Num 1) "x" (Some 2%Z) (TsNow 0) None sent None) [] None
  = Ok (PlainText "x").
Proof.
  exact (proj1 (proj2 (MessageBody_spec (λ _, None) "http://h" id (λ _, [])
    (mkMsg "k" None "t" (Num 1) "x" (Some 2%Z) (TsNow 0) None sent None) [] None true true)) eq_refl eq_refl).
Defined.
End Example.
End MessageView.
