(* ===== verification/Dialogs.v ===== *)
(** * The dialogs ([web/app/components/chat/*Dialog.tsx], [web/app/hooks/useDebounce.ts])

    Searching for users, starting a chat, creating a group and managing its
    members, each as a state machine over what the user does, the timers and
    the replies of the server, which may arrive in any order. *)

From S2P Require Import Prelude JsNum JsMap Types ChatStore ChatStoreProps Topic Api Hooks HooksProps MessageView.
Import ChatStore.

Module Dialogs.

(** The answer to a request; a failure carries the message of the error, if it
    is an [Error]. *)
Inductive Reply (A : Type) := Replied (a : A) | Failed (message : option string).
Arguments Replied {_} _.
Arguments Failed {_} _.

Section Dialogs.
(** [String.prototype.trim] and [encodeURIComponent]. *)
Context (trim encodeURIComponent : string → string).

Definition blank (q : string) : bool := negb (nonempty (trim q)).

(** The double quote. *)
Definition dquote : string := String (Ascii.ascii_of_nat 34) "".

Inductive Output :=
| Http (e : Api.Endpoint)
| Toast (text : string)
| Push (path : string)
| CloseDialog.

(** [`${what}: ${err instanceof Error ? err.message : "unknown"}`]. *)
Definition failure (what : string) (message : option string) : Output :=
  Toast (what +:+ ": " +:+ default "unknown" message)%string.

(** ** The debounced search of [NewChatDialog] and [NewGroupDialog] *)

(** [useDebounce] keeps at most one timer, for the current query; a request is
    named by the text it asks for. *)
Record Search := mkSearch {
  query : string;
  debounced : string;
  timer : bool;
  loading : bool;
  results : list User;
  inflight : list string;
}.

Definition new_search : Search := mkSearch "" "" true false [] [].

(** The dialog that searches: the one for a new group knows
    [currentUser?.userId]. *)
Inductive Dialog := ChatDialog | GroupDialog (me : option jsnum).

(** The users found that are shown: the dialog for a new group leaves out those
    with [u.userId !== currentUser?.userId] false. *)
Definition shown (d : Dialog) (users : list User) : list User :=
  match d with
  | ChatDialog => users
  | GroupDialog me =>
      base.filter (λ u, match me with Some id => negb (strict_eq (user_userId u) id) | None => true end = true) users
  end.

(** The effect of [useDebounce]: a new value restarts the timer. *)
Definition type_query (q : string) (s : Search) : Search :=
  if decide (q = query s) then s
  else mkSearch q (debounced s) true (loading s) (results s) (inflight s).

(** [search], up to its [await]. *)
Definition search (q : string) (s : Search) : Search * list Output :=
  if blank q then (mkSearch (query s) (debounced s) (timer s) (loading s) [] (inflight s), [])
  else (mkSearch (query s) (debounced s) (timer s) true (results s) (inflight s ++ [trim q]),
        [Http (Api.searchUsers encodeURIComponent (trim q) 20)]).

(** The timer of [useDebounce], and the effect on the debounced value. *)
Definition debounce_fires (s : Search) : Search * list Output :=
  if negb (timer s) then (s, [])
  else
    let s' := mkSearch (query s) (query s) false (loading s) (results s) (inflight s) in
    if decide (query s = debounced s) then (s', []) else search (query s) s'.

(** The rest of [search], for the [i]-th request in flight. *)
Definition search_reply (d : Dialog) (i : nat) (users : Reply (list User)) (s : Search) : Search * list Output :=
  match inflight s !! i with
  | None => (s, [])
  | Some _ =>
      let '(rs, o) := match users with
                      | Replied us => (shown d us, [])
                      | Failed message => (results s, [failure "Search failed" message])
                      end in
      (mkSearch (query s) (debounced s) (timer s) false rs (delete i (inflight s)), o)
  end.

Inductive SearchEvent := TypeQuery (q : string) | DebounceFires | SearchReply (i : nat) (users : Reply (list User)).

Definition search_step (d : Dialog) (e : SearchEvent) (s : Search) : Search * list Output :=
  match e with
  | TypeQuery q => (type_query q s, [])
  | DebounceFires => debounce_fires s
  | SearchReply i users => search_reply d i users s
  end.

Definition search_run (d : Dialog) (es : list SearchEvent) (s : Search) : Search := foldl (λ s e, (search_step d e s).1) s es.

(** ** [NewChatDialog] *)

(** [handleSelect]. *)
Definition handleSelect (current : option User) (target : User) (s : State) : State * list Output :=
  let currentUserId := match current with Some u => if truthy (user_userId u) then user_userId u else Num 0 | None => Num 0 end in
  let topic := Topic.getP2PTopic currentUserId (user_userId target) in
  (upsertConversation (mkConvPatch topic (Some p2p) (Some (user_userId target)) (Some (user_username target))
     None None None None None None None None None) s,
   [CloseDialog; Push ("/chat/" +:+ encodeURIComponent topic)%string]).

(** ** [NewGroupDialog] *)

Record NewGroup := mkNewGroup { ng_name : string; selected : list User; creating : bool; ng_search : Search }.

Definition same_user (u v : User) : bool := strict_eq (user_userId u) (user_userId v).

(** [toggleUser]. *)
Definition toggleUser (user : User) (prev : list User) : list User :=
  match find (same_user user) prev with
  | Some _ => base.filter (λ u, same_user u user = false) prev
  | None => prev ++ [user]
  end.

(** [handleCreate], up to its [await]. *)
Definition handleCreate (s : NewGroup) : NewGroup * list Output :=
  if blank (ng_name s) || match selected s with [] => true | _ => false end then (s, [])
  else (mkNewGroup (ng_name s) (selected s) true (ng_search s),
        [Http (Api.createGroup (trim (ng_name s)) (user_userId <$> selected s))]).

(** The rest of it; [reply] is the topic of the new group. *)
Definition create_reply (reply : Reply string) (s : NewGroup) : NewGroup * list Output :=
  (mkNewGroup (ng_name s) (selected s) false (ng_search s),
   match reply with
   | Replied topic => [Toast ("Group " +:+ dquote +:+ trim (ng_name s) +:+ dquote +:+ " created"); CloseDialog;
                    Push ("/chat/" +:+ encodeURIComponent topic)]%string
   | Failed message => [failure "Create group failed" message]
   end).

(** The effect of closing the dialog. *)
Definition close_group (s : NewGroup) : NewGroup :=
  let sr := type_query "" (ng_search s) in
  mkNewGroup "" [] (creating s) (mkSearch (query sr) (debounced sr) (timer sr) (loading sr) [] (inflight sr)).

Inductive GroupEvent :=
| SetName (name : string)
| ToggleUser (u : User)
| Create
| CreateReply (reply : Reply string)
| CloseGroup
| InSearch (e : SearchEvent).

(** [useAuthStore((s) => s.user)] of the dialog. *)
Context (currentUser : option User).

(** A user can be toggled where the dialog shows it. *)
Definition group_step (e : GroupEvent) (s : NewGroup) : NewGroup * list Output :=
  match e with
  | SetName n => (mkNewGroup n (selected s) (creating s) (ng_search s), [])
  | ToggleUser u =>
      if decide (u ∈ results (ng_search s) ∨ u ∈ selected s)
      then (mkNewGroup (ng_name s) (toggleUser u (selected s)) (creating s) (ng_search s), []) else (s, [])
  | Create => handleCreate s
  | CreateReply reply => create_reply reply s
  | CloseGroup => (close_group s, [])
  | InSearch e => let '(sr, o) := search_step (GroupDialog (user_userId <$> currentUser)) e (ng_search s) in (mkNewGroup (ng_name s) (selected s) (creating s) sr, o)
  end.

Definition new_group : NewGroup := mkNewGroup "" [] false new_search.

Fixpoint group_run (es : list GroupEvent) (s : NewGroup) : NewGroup * list Output :=
  match es with
  | [] => (s, [])
  | e :: es' => let '(s1, o1) := group_step e s in let '(s2, o2) := group_run es' s1 in (s2, o1 ++ o2)
  end.

(** ** [GroupMembersDialog] *)

(** [gm_timer] is the pending timer with the query and the members its closure
    captured, [gm_searches] the requests in flight with the same. *)
Record Members := mkMembers {
  gm_members : list GroupMember;
  gm_loading : bool;
  gm_query : string;
  gm_candidates : list User;
  searching : bool;
  gm_timer : option (string * list GroupMember);
  gm_searches : list (string * list GroupMember);
}.

Definition new_members : Members := mkMembers [] false "" [] false None [].

(** The debounced effect, run when the query or the members change. *)
Definition candidates_effect (s : Members) : Members :=
  if blank (gm_query s)
  then mkMembers (gm_members s) (gm_loading s) (gm_query s) [] (searching s) None (gm_searches s)
  else mkMembers (gm_members s) (gm_loading s) (gm_query s) (gm_candidates s) true
         (Some (gm_query s, gm_members s)) (gm_searches s).

Definition set_gm_query (q : string) (s : Members) : Members :=
  if decide (q = gm_query s) then s
  else candidates_effect (mkMembers (gm_members s) (gm_loading s) q (gm_candidates s) (searching s) (gm_timer s) (gm_searches s)).

Definition set_gm_candidates (cs : list User) (s : Members) : Members :=
  mkMembers (gm_members s) (gm_loading s) (gm_query s) cs (searching s) (gm_timer s) (gm_searches s).

Definition set_gm_loading (b : bool) (s : Members) : Members :=
  mkMembers (gm_members s) b (gm_query s) (gm_candidates s) (searching s) (gm_timer s) (gm_searches s).

(** The timer: the request, and its reply filtered by the captured members. *)
Definition gm_timer_fires (s : Members) : Members * list Output :=
  match gm_timer s with
  | None => (s, [])
  | Some (q, ms) =>
      (mkMembers (gm_members s) (gm_loading s) (gm_query s) (gm_candidates s) (searching s) None (gm_searches s ++ [(q, ms)]),
       [Http (Api.searchUsers encodeURIComponent (trim q) 10)])
  end.

Definition is_member (ms : list GroupMember) (u : User) : bool :=
  some (λ m, strict_eq (member_userId m) (user_userId u)) ms.

Definition gm_search_reply (i : nat) (users : Reply (list User)) (s : Members) : Members :=
  match gm_searches s !! i with
  | None => s
  | Some (_, ms) =>
      mkMembers (gm_members s) (gm_loading s) (gm_query s)
        (match users with Replied us => base.filter (λ u, is_member ms u = false) us | Failed _ => [] end)
        false (gm_timer s) (delete i (gm_searches s))
  end.

(** [loadMembers], up to its [await] and after it; the store gets the names, and
    a caller that waited for it shows [success]. *)
Definition loadMembers (g : Group) (s : Members) : Members * list Output :=
  (set_gm_loading true s, [Http (Api.listMembers (group_groupId g))]).

Definition members_reply (g : Group) (success : list Output) (reply : Reply (list GroupMember)) (s : Members) (st : State)
    : Members * State * list Output :=
  match reply with
  | Replied ms =>
      (set_gm_loading false (candidates_effect (mkMembers ms (gm_loading s) (gm_query s) (gm_candidates s) (searching s)
         (gm_timer s) (gm_searches s))),
       setMemberNames (group_topic g) ms st, success)
  | Failed message => (set_gm_loading false s, st, failure "Failed to load members" message :: success)
  end.

(** Opening the dialog. *)
Definition open_members (g : Group) (s : Members) : Members * list Output :=
  loadMembers g (set_gm_candidates [] (set_gm_query "" s)).

(** [addMember] and [removeMember]: the request, and what follows its reply; the notice
    of success is shown when
    the members have been loaded again, also if that failed. *)
Definition addMember (g : Group) (userId : jsnum) : list Output := [Http (Api.addMember (group_groupId g) userId)].

Definition add_reply (g : Group) (reply : Reply unit) (s : Members) : Members * list Output :=
  match reply with
  | Replied _ => loadMembers g (set_gm_candidates [] (set_gm_query "" s))
  | Failed message => (s, [failure "Failed to add member" message])
  end.

Definition added : list Output := [Toast "Member added"].

Definition removeMember (g : Group) (m : GroupMember) : list Output :=
  [Http (Api.removeMember (group_groupId g) (member_userId m))].

Definition remove_reply (g : Group) (reply : Reply unit) (s : Members) : Members * list Output :=
  match reply with
  | Replied _ => loadMembers g s
  | Failed message => (s, [failure "Failed to remove member" message])
  end.

(** The notice after a removal, and who can be removed. *)
Definition removed (m : GroupMember) : list Output :=
  [Toast (if match currentUser with Some u => strict_eq (member_userId m) (user_userId u) | None => false end
          then "Left group" else "Member removed")].

Definition can_remove (g : Group) (m : GroupMember) : bool := negb (strict_eq (member_userId m) (group_ownerId g)).

(** ** Searching *)

(** Replies in the order of the requests, given by a server [answer]. *)
Definition in_order (answer : string → list User) (s : Search) (e : SearchEvent) : Prop :=
  match e with
  | SearchReply i users => i = 0%nat ∧ ∀ q, inflight s !! 0%nat = Some q → users = Replied (answer q)
  | _ => True
  end.

Inductive ordered_run (d : Dialog) (answer : string → list User) : Search → Search → Prop :=
| ordered_nil s : ordered_run d answer s s
| ordered_step s e s' : in_order answer s e → ordered_run d answer (search_step d e s).1 s' → ordered_run d answer s s'.

(** The last request asks for the debounced query, and when all are answered
    the results are its answer. *)
Definition search_inv (d : Dialog) (answer : string → list User) (s : Search) : Prop :=
  blank (debounced s) = false →
  match last (inflight s) with
  | Some q => q = trim (debounced s)
  | None => results s = shown d (answer (trim (debounced s)))
  end.

Lemma search_step_inv d answer e s :
  in_order answer s e → search_inv d answer s → search_inv d answer (search_step d e s).1.
Proof.
  intros He Hs. destruct e as [q| |i users]; simpl.
  - unfold type_query. by destruct (decide _).
  - unfold debounce_fires. destruct (timer s); [|done]. simpl. destruct (decide _) as [Heq|Hne].
    + unfold search_inv in *. simpl. by rewrite Heq.
    + unfold search. destruct (blank (query s)) eqn:Hb; unfold search_inv; simpl; intros Hb'; [congruence|].
      by rewrite last_snoc.
  - destruct He as [-> He]. unfold search_reply. destruct (inflight s) as [|q qs] eqn:Hq; [done|].
    simpl. rewrite (He q) by done. unfold search_inv in *. simpl. intros Hb. specialize (Hs Hb).
    rewrite Hq, last_cons in Hs. destruct (last qs) as [q'|]; [done|]. by rewrite Hs.
Qed.

(** When the replies arrive in order, the results shown are the answer to
    the last query that was searched for. *)
Theorem search_latest d answer s :
  nonempty (trim "") = false → ordered_run d answer new_search s → inflight s = [] → blank (debounced s) = false →
  results s = shown d (answer (trim (debounced s))).
Proof.
  intros Htrim Hrun Hin Hb.
  assert (H0 : search_inv d answer new_search) by (unfold search_inv, blank; simpl; by rewrite Htrim).
  assert (search_inv d answer s) as H.
  { clear Hin Hb. induction Hrun as [|s e s' He Hrun IH]; [done|]. by apply IH, search_step_inv. }
  specialize (H Hb). by rewrite Hin in H.
Qed.

(** Nothing ties a reply to the query it answers: the older of two requests,
    answered last, decides what is shown; and a request still in flight when the
    query is emptied fills the list again. *)
Theorem stale_search_wins d s q1 q2 us1 us2 :
  inflight s = [q1; q2] →
  let s' := search_run d [SearchReply 1 (Replied us2); SearchReply 0 (Replied us1)] s in
  results s' = shown d us1 ∧ inflight s' = [] ∧ debounced s' = debounced s ∧ loading s' = false.
Proof. intros Hi. unfold search_run. simpl. unfold search_reply. rewrite Hi. simpl. done. Qed.

(** ** Creating a group *)

Lemma find_None_not {A} (p : A → bool) l : find p l = None → ∀ x, x ∈ l → p x = false.
Proof.
  induction l as [|y l IH]; simpl; [set_solver|]. destruct (p y) eqn:Hy; [done|].
  intros H x [->|Hx]%elem_of_cons; [done|auto].
Qed.

Lemma same_user_refl u : same_user u u = true.
Proof. by apply strict_eq_true. Qed.

Lemma toggleUser_ids user prev :
  NoDup (user_userId <$> prev) → NoDup (user_userId <$> toggleUser user prev).
Proof.
  intros Hnd. unfold toggleUser. destruct (find _ _) as [u|] eqn:Hf.
  - clear Hf. induction prev as [|x l IH]; [done|]. rewrite fmap_cons in Hnd. apply NoDup_cons in Hnd as [Hx Hnd].
    rewrite filter_cons. case_decide; [|auto]. csimpl. constructor; [|auto].
    intros (y & Hy & [_ Hin]%list_elem_of_filter)%list_elem_of_fmap. apply Hx. rewrite Hy. by apply list_elem_of_fmap_2.
  - rewrite fmap_app. apply NoDup_app. split; [done|]. split; [|apply NoDup_singleton].
    intros x Hx Heq%list_elem_of_singleton. subst x. apply list_elem_of_fmap in Hx as (y & Hy & Hin).
    pose proof (find_None_not _ _ Hf y Hin) as Hs. unfold same_user in Hs.
    assert (strict_eq (user_userId user) (user_userId y) = true) by (by apply strict_eq_true). congruence.
Qed.

Lemma elem_of_toggleUser user prev u : u ∈ toggleUser user prev → u = user ∨ u ∈ prev.
Proof.
  unfold toggleUser. destruct (find _ _); [intros [_ ?]%list_elem_of_filter; by right|].
  intros [?|?%list_elem_of_singleton]%elem_of_app; [by right|by left].
Qed.

(** Toggling a user who is not selected twice leaves the selection alone. *)
Lemma toggleUser_twice user prev :
  user_userId user ∉ (user_userId <$> prev) → toggleUser user (toggleUser user prev) = prev.
Proof.
  intros Hn.
  assert (Hall : ∀ y, y ∈ prev → strict_eq (user_userId y) (user_userId user) = false ∧
                              strict_eq (user_userId user) (user_userId y) = false).
  { intros y Hy. split; apply not_true_iff_false; rewrite strict_eq_true; intros Heq; apply Hn;
      [rewrite <-Heq|rewrite Heq]; by apply list_elem_of_fmap_2. }
  assert (Hf : find (same_user user) prev = None).
  { clear Hn. induction prev as [|y l IH]; [done|]. simpl. unfold same_user at 1.
    rewrite (proj2 (Hall y ltac:(left))). apply IH. intros z Hz. apply Hall. by right. }
  unfold toggleUser at 2. rewrite Hf. unfold toggleUser.
  assert (find (same_user user) (prev ++ [user]) = Some user) as ->.
  { clear Hn Hall. induction prev as [|y l IH]; simpl in *.
    - by rewrite same_user_refl.
    - destruct (same_user user y); [done|auto]. }
  rewrite filter_app, filter_cons, decide_False by (by rewrite same_user_refl).
  rewrite app_nil_r. apply filter_accept_all. intros y Hy. apply Hall, Hy.
Qed.

(** The dialog shows everyone but the user. *)
Lemma shown_not_me me us u : u ∈ shown (GroupDialog (Some me)) us → user_userId u ≠ me.
Proof. intros [Hu%negb_true_iff _]%list_elem_of_filter Heq. by apply strict_eq_true in Heq; congruence. Qed.

(** The selection holds distinct users, and never the user who creates. *)
Definition group_inv (me : jsnum) (s : NewGroup) : Prop :=
  NoDup (user_userId <$> selected s) ∧
  Forall (λ u, user_userId u ≠ me) (selected s) ∧ Forall (λ u, user_userId u ≠ me) (results (ng_search s)).

Lemma search_step_results me e s :
  Forall (λ u, user_userId u ≠ me) (results s) →
  Forall (λ u, user_userId u ≠ me) (results (search_step (GroupDialog (Some me)) e s).1).
Proof.
  intros Hr. destruct e as [q| |i users]; simpl.
  - unfold type_query. by destruct (decide _).
  - unfold debounce_fires, search. by repeat case_match; simplify_eq/=.
  - unfold search_reply. destruct (inflight s !! i); [|done]. destruct users as [us|]; simpl; [|done].
    apply Forall_forall. intros u Hu. by eapply shown_not_me.
Qed.

Lemma group_step_inv me e s : user_userId <$> currentUser = Some me → group_inv me s → group_inv me (group_step e s).1.
Proof.
  intros Hk (Hnd & Hsel & Hres). destruct e as [n|u| |topic| |e]; simpl; try done.
  - case_decide as Hu; [|done]. split; [by apply toggleUser_ids|]. split; [|done]. apply Forall_forall. simpl.
    rewrite Forall_forall in Hsel, Hres. intros v [->|Hv]%elem_of_toggleUser; [|auto]. destruct Hu; auto.
  - unfold handleCreate. by destruct (_ || _).
  - split; [constructor|]. split; constructor.
  - rewrite Hk. pose proof (search_step_results me e (ng_search s) Hres) as H. by destruct (search_step _ e (ng_search s)).
Qed.

(** A creation request asks for a non-blank name and the selected users. *)
Lemma group_step_create e s name ids :
  Http (Api.createGroup name ids) ∈ (group_step e s).2 →
  ids = user_userId <$> selected s ∧ ids ≠ [] ∧ name = trim (ng_name s) ∧ nonempty name = true.
Proof.
  destruct e as [n|u| |topic| |e]; simpl; try set_solver.
  - case_decide; set_solver.
  - unfold handleCreate. destruct (blank (ng_name s)) eqn:Hb; simpl; [set_solver|].
    destruct (selected s) as [|u us]; [set_solver|]. intros Heq%list_elem_of_singleton.
    unfold Api.createGroup, Api.api_post in Heq. injection Heq as -> ->.
    unfold blank in Hb. by apply negb_false_iff in Hb.
  - destruct topic; set_solver.
  - intros Hin. exfalso. destruct e as [q| |i users]; simpl in Hin; [set_solver| |].
    + unfold debounce_fires, search, Api.searchUsers, Api.createGroup in Hin. repeat case_match; simplify_eq/=; set_solver.
    + unfold search_reply in Hin. repeat case_match; simplify_eq/=; set_solver.
Qed.

(** C38: whatever the signed-in user does in the dialog and in whatever order the
    searches answer, a group is only created with a name that is not blank and
    at least one member, no member id twice, and never with the id of the
    creator, as the store holds it, among the members. *)
Theorem create_group_members me es name ids :
  user_userId <$> currentUser = Some me → Http (Api.createGroup name ids) ∈ (group_run es new_group).2 →
  nonempty name = true ∧ ids ≠ [] ∧ NoDup ids ∧ me ∉ ids.
Proof.
  intros Hk. assert (H0 : group_inv me new_group) by (split; [constructor|split; constructor]).
  revert H0. generalize new_group. induction es as [|e es IH]; intros s Hs; simpl; [set_solver|].
  pose proof (group_step_inv me e s Hk Hs) as Hs'. pose proof (group_step_create e s name ids) as Hc.
  destruct (group_step e s) as [s1 o1]. simpl in *. specialize (IH s1 Hs'). destruct (group_run es s1) as [s2 o2].
  intros [Hin|Hin]%elem_of_app; [|by apply IH]. destruct (Hc Hin) as (-> & Hne & -> & Hn).
  destruct Hs as (Hnd & Hsel & _). split; [done|]. split; [done|]. split; [done|].
  intros (u & Heq & Hu)%list_elem_of_fmap. rewrite Forall_forall in Hsel. by apply (Hsel u Hu).
Qed.

(** ** Selecting a user *)

(** The conversation a selection opens is with the user selected; the messages
    it already had stay. *)
Lemma handleSelect_opens current target s :
  let topic := Topic.getP2PTopic (match current with Some u => if truthy (user_userId u) then user_userId u else Num 0 | None => Num 0 end)
                 (user_userId target) in
  let s' := (handleSelect current target s).1 in
  conv_type (conv_of topic s') = p2p ∧ peerId (conv_of topic s') = user_userId target ∧
  peerUsername (conv_of topic s') = user_username target ∧ messages (conv_of topic s') = messages (conv_of topic s).
Proof.
  intros topic s'. unfold s', handleSelect. cbn [fst]. fold topic.
  set (p := mkConvPatch _ _ _ _ _ _ _ _ _ _ _ _ _). change topic with (p_topic p). by rewrite conv_of_upsert.
Qed.

(** ** Group members *)

(** A query that is emptied before its timer fires leaves the spinner on,
    with no timer and no request that could turn it off. *)
Theorem spinner_stuck s q :
  nonempty (trim "") = false → blank q = false → q ≠ gm_query s → gm_searches s = [] →
  let s' := set_gm_query "" (set_gm_query q s) in
  searching s' = true ∧ gm_timer s' = None ∧ gm_searches s' = [] ∧
  (∀ i users, gm_search_reply i users s' = s') ∧ gm_timer_fires s' = (s', []).
Proof.
  intros Htrim Hb Hq Hs s'.
  assert (Hne : q ≠ ""%string) by (intros ->; unfold blank in Hb; by rewrite Htrim in Hb).
  assert (Hs' : s' = mkMembers (gm_members s) (gm_loading s) "" [] true None []).
  { unfold s', set_gm_query. rewrite (decide_False _ _ Hq). unfold candidates_effect. simpl. rewrite Hb. simpl.
    rewrite decide_False by done. unfold blank. rewrite Htrim. simpl. by rewrite Hs. }
  rewrite Hs'. done.
Qed.

(** A candidate is never a member of the list the search started with. *)
Lemma candidates_not_members i users q ms s :
  gm_searches s !! i = Some (q, ms) →
  Forall (λ u, is_member ms u = false) (gm_candidates (gm_search_reply i users s)).
Proof.
  intros Hi. unfold gm_search_reply. rewrite Hi. simpl. destruct users as [us|]; [|constructor].
  apply Forall_forall. by intros u [Hu _]%list_elem_of_filter.
Qed.

(** Once the members of a group are loaded, a message of any of them is
    shown with their name, whether its sender id is a number or text. *)
Theorem member_names_shown g ms s st c m sender success :
  NoDup ((λ m, Number (member_userId m)) <$> ms) → m ∈ ms → nonempty (member_username m) = true →
  Number sender = Number (member_userId m) → conv_type c = group →
  let st' := (members_reply g success (Replied ms) s st).1.2 in
  MessageView.getSenderName sender c (map_get (group_topic g) (memberNames st')) = member_username m.
Proof.
  intros Hnd Hm Hne Hs Hc st'. unfold st', members_reply, setMemberNames. cbn [fst snd memberNames].
  rewrite map_get_set_eq. unfold MessageView.getSenderName. rewrite Hc. simpl. rewrite Hs.
  rewrite (map_get_foldl_set (λ m, Number (member_userId m)) member_username) by done.
  simpl. unfold str_or. by rewrite Hne.
Qed.
End Dialogs.

(** ** Witnesses *)

Section Example.
Definition ann : User := mkUser (Dec 1) "ann".
Definition bob : User := mkUser (Dec 2) "bob".
Definition cat : User := mkUser (Dec 3) "cat".

Definition ex_answer (q : string) : list User := if String.eqb q "b" then [bob; ann] else [cat].
Definition ex_group : Dialog := GroupDialog (Some (Dec 1)).

Lemma search_latest_witness :
  let s := search_run id id ex_group [TypeQuery "b"; DebounceFires; SearchReply 0 (Replied [bob; ann])] new_search in
  inflight s = [] ∧ results s = [bob].
Proof.
  intros s. split; [reflexivity|].
  transitivity (shown ex_group (ex_answer "b")); [|reflexivity].
  apply (search_latest id id ex_group ex_answer s); [reflexivity| |reflexivity|reflexivity].
  apply (ordered_step id id ex_group ex_answer _ (TypeQuery "b")); [done|].
  apply (ordered_step id id ex_group ex_answer _ DebounceFires); [done|].
  apply (ordered_step id id ex_group ex_answer _ (SearchReply 0 (Replied [bob; ann]))); [|constructor].
  split; [done|]. intros q Hq. vm_compute in Hq. by injection Hq as <-.
Defined.

(** "b", then "c" while "b" is still searched for; the answers cross. *)
Lemma stale_search_wins_witness :
  let s := search_run id id ChatDialog [TypeQuery "b"; DebounceFires; TypeQuery "c"; DebounceFires] new_search in
  inflight s = ["b"; "c"]%string ∧
  results (search_run id id ChatDialog [SearchReply 1 (Replied [cat]); SearchReply 0 (Replied [bob])] s) = [bob] ∧
  debounced s = "c"%string.
Proof.
  intros s. split; [reflexivity|]. split; [|reflexivity].
  exact (proj1 (stale_search_wins id id ChatDialog s "b" "c" [bob] [cat] eq_refl)).
Defined.

Lemma create_group_members_witness :
  let es := [SetName "team"; InSearch (TypeQuery "b"); InSearch DebounceFires; InSearch (SearchReply 0 (Replied [bob; ann]));
             ToggleUser bob; ToggleUser ann; Create] in
  Http (Api.createGroup "team" [Dec 2]) ∈ (group_run id id (Some ann) es new_group).2 ∧ Dec 1 ∉ [Dec 2].
Proof.
  intros es. assert (H : Http (Api.createGroup "team" [Dec 2]) ∈ (group_run id id (Some ann) es new_group).2)
    by (apply list_elem_of_In; vm_compute; tauto).
  split; [exact H|]. exact (proj2 (proj2 (proj2 (create_group_members id id (Some ann) (Dec 1) es "team" [Dec 2] eq_refl H)))).
Defined.

Lemma spinner_stuck_witness :
  searching (set_gm_query id "" (set_gm_query id "b" new_members)) = true.
Proof. refine (proj1 (spinner_stuck id id new_members "b" _ _ _ _)); done. Defined.

Lemma member_names_shown_witness :
  let g := mkGroup "g" "grp_1" "team" (Dec 1) (Dec 0) in
  let st' := (members_reply id g [] (Replied [mkGroupMember (Dec 2) "bob"]) new_members initialState).1.2 in
  MessageView.getSenderName (Num 2) (mkConv "grp_1" group (Num 0) "" None None None (Num 0) (Num 0) 0 [] true false)
    (map_get "grp_1" (memberNames st')) = "bob"%string.
Proof.
  intros g st'. apply (member_names_shown id g [mkGroupMember (Dec 2) "bob"] new_members initialState _ (mkGroupMember (Dec 2) "bob") (Num 2) []);
    [apply NoDup_singleton|left|reflexivity|reflexivity|reflexivity].
Defined.
End Example.
End Dialogs.
