(* ===== verification/Presence.v ===== *)
(** * Presence and pages ([web/app/hooks/usePresence.ts], [web/app/components/auth],
      [web/app/components/AuthInitializer.tsx], [web/app/app/chat])

    The polling of a peer's presence while peers are switched and replies
    arrive late; the sign-in forms; the guards of the chat pages. *)

From S2P Require Import Prelude JsNum JsMap Types ChatStore Api AuthStore Session.

Module Presence.

(** ** [usePresence] *)

(** The arguments of the hook, its state, the running effect (a closure with
    its own [active] flag, named by a number) and the requests in flight, each
    with the effect and the user it was made for. *)
Record Presence := mkPresence {
  pr_user : option jsnum;
  pr_enabled : bool;
  presence : option (jsnum * bool);
  effect : option nat;
  next_effect : nat;
  polls : list (nat * jsnum);
}.

Definition new_presence : Presence := mkPresence None false None None 0 [].

(** A request for a user's presence, or an accepted reply. *)
Inductive Output := GetPresence (user : jsnum) | Accepted (user : jsnum) (online : bool).

(** The user an effect polls: [enabled] and a truthy id. *)
Definition polled (user : option jsnum) (enabled : bool) : option jsnum :=
  match user with Some u => if enabled && truthy u then Some u else None | None => None end.

(** Rendering with new arguments: the old effect is cleaned up, and a new one
    starts and asks at once. *)
Definition render (user : option jsnum) (enabled : bool) (s : Presence) : Presence * list Output :=
  if decide (user = pr_user s ∧ enabled = pr_enabled s) then (s, [])
  else match polled user enabled with
       | None => (mkPresence user enabled (presence s) None (next_effect s) (polls s), [])
       | Some u =>
           (mkPresence user enabled (presence s) (Some (next_effect s)) (S (next_effect s)) (polls s ++ [(next_effect s, u)]),
            [GetPresence u])
       end.

(** The interval of the running effect. *)
Definition tick (s : Presence) : Presence * list Output :=
  match effect s, polled (pr_user s) (pr_enabled s) with
  | Some e, Some u =>
      (mkPresence (pr_user s) (pr_enabled s) (presence s) (effect s) (next_effect s) (polls s ++ [(e, u)]), [GetPresence u])
  | _, _ => (s, [])
  end.

(** The [i]-th request is answered; a failure keeps the last known state. *)
Definition reply (i : nat) (online : option bool) (s : Presence) : Presence * list Output :=
  match polls s !! i with
  | None => (s, [])
  | Some (e, u) =>
      let '(p, o) :=
        match online with
        | Some b => if bool_decide (effect s = Some e) then (Some (u, b), [Accepted u b]) else (presence s, [])
        | None => (presence s, [])
        end in
      (mkPresence (pr_user s) (pr_enabled s) p (effect s) (next_effect s) (delete i (polls s)), o)
  end.

(** What the hook returns. *)
Definition shown (s : Presence) : option bool :=
  match polled (pr_user s) (pr_enabled s), presence s with
  | Some u, Some (v, b) => if strict_eq v u then Some b else None
  | _, _ => None
  end.

Inductive Event := Render (user : option jsnum) (enabled : bool) | Tick | Reply (i : nat) (online : option bool).

Definition step (e : Event) (s : Presence) : Presence * list Output :=
  match e with Render u en => render u en s | Tick => tick s | Reply i on => reply i on s end.

Fixpoint run (es : list Event) (s : Presence) : Presence * list Output :=
  match es with
  | [] => (s, [])
  | e :: es' => let '(s1, o1) := step e s in let '(s2, o2) := run es' s1 in (s2, o1 ++ o2)
  end.

(** The last reply accepted. *)
Definition accepted (os : list Output) : list (jsnum * bool) :=
  omap (λ o, match o with Accepted u b => Some (u, b) | GetPresence _ => None end) os.

(** An effect polls the user of the current arguments; older requests belong to
    older effects. *)
Definition inv (s : Presence) : Prop :=
  Forall (λ p, (p.1 < next_effect s)%nat) (polls s) ∧
  ∀ e, effect s = Some e →
    (e < next_effect s)%nat ∧ is_Some (polled (pr_user s) (pr_enabled s)) ∧
    ∀ u, (e, u) ∈ polls s → polled (pr_user s) (pr_enabled s) = Some u.

Lemma inv_new : inv new_presence.
Proof. split; [constructor|done]. Qed.

Lemma presence_step_inv e s : inv s → inv (step e s).1.
Proof.
  intros Hs. pose proof Hs as [Hp He]. destruct e as [user en| |i online]; simpl.
  - unfold render. case_decide as Hd; [done|]. destruct (polled user en) as [u|] eqn:Hu; [|by split].
    split; simpl.
    + apply Forall_app. split; [|repeat constructor; simpl; lia].
      eapply Forall_impl; [exact Hp|]. simpl. intros. lia.
    + intros e [= <-]. split; [lia|]. rewrite Hu. split; [done|].
      intros v [Hv|[= ->]%list_elem_of_singleton]%elem_of_app; [|done].
      rewrite Forall_forall in Hp. specialize (Hp _ Hv). simpl in Hp. lia.
  - unfold tick. destruct (effect s) as [e|] eqn:Hef; [|done].
    destruct (polled _ _) as [u|] eqn:Hu; [|done]. destruct (He e eq_refl) as (Hlt & _ & Hv). split; simpl.
    + apply Forall_app. split; [done|]. repeat constructor. done.
    + intros ? [= <-]. split; [done|]. rewrite Hu. split; [done|].
      intros v [Hin|[= ->]%list_elem_of_singleton]%elem_of_app; [by apply Hv|done].
  - unfold reply. destruct (polls s !! i) as [[e u]|] eqn:Hi; [|done].
    assert (inv (mkPresence (pr_user s) (pr_enabled s) (presence s) (effect s) (next_effect s) (delete i (polls s)))) as [H1 H2].
    { split; simpl; [by apply Forall_delete|]. intros e' He'. destruct (He e' He') as (? & ? & Hv).
      split; [done|]. split; [done|]. intros v Hin. apply Hv. rewrite list_elem_of_lookup in Hin.
      destruct Hin as [j Hj]. destruct (decide (j < i)%nat).
      - rewrite list_lookup_delete_lt in Hj by done. by eapply list_elem_of_lookup_2.
      - rewrite list_lookup_delete_ge in Hj by lia. by eapply list_elem_of_lookup_2. }
    destruct online as [b|]; [|done]. by destruct (bool_decide _).
Qed.

(** An accepted reply is for the user the hook is showing, and is what the
    state holds. *)
Lemma step_presence e s :
  inv s →
  match accepted (step e s).2 with
  | [] => presence (step e s).1 = presence s
  | [(u, b)] => presence (step e s).1 = Some (u, b) ∧ polled (pr_user s) (pr_enabled s) = Some u
  | _ => False
  end.
Proof.
  intros [_ He]. destruct e as [user en| |i online]; simpl.
  - unfold render. by repeat case_match.
  - unfold tick. by repeat case_match.
  - unfold reply. destruct (polls s !! i) as [[e u]|] eqn:Hi; [|done].
    destruct online as [b|]; [|done]. case_bool_decide as Hef; [|done]. simpl.
    split; [done|]. destruct (He e Hef) as (_ & _ & Hv). apply Hv. by eapply list_elem_of_lookup_2.
Qed.

Lemma run_presence es s :
  inv s → presence (run es s).1 = (match last (accepted (run es s).2) with Some p => Some p | None => presence s end).
Proof.
  revert s. induction es as [|e es IH]; intros s Hs; simpl; [done|].
  pose proof (step_presence e s Hs) as Hp. pose proof (presence_step_inv e s Hs) as Hi.
  destruct (step e s) as [s1 o1]. simpl in *. specialize (IH s1 Hi). destruct (run es s1) as [s2 o2]. simpl in *.
  unfold accepted in *. rewrite omap_app, last_app. destruct (last (omap _ o2)) as [p|]; [done|]. rewrite IH.
  destruct (omap _ o1) as [|[u b] [|? ?]]; [done| |done]. by destruct Hp as [-> _].
Qed.

(** The status shown for a peer is the last one the server reported for
    that peer: switching peers, late answers and failed polls never show the
    status of somebody else. *)
Theorem presence_shown es b :
  let '(s, os) := run es new_presence in
  shown s = Some b →
  ∃ u, pr_user s = Some u ∧ pr_enabled s = true ∧ last (accepted os) = Some (u, b).
Proof.
  pose proof (run_presence es new_presence inv_new) as H. destruct (run es new_presence) as [s os]. simpl in *.
  unfold shown, polled. destruct (pr_user s) as [u|]; [|done]. destruct (pr_enabled s); [|done]. simpl.
  destruct (truthy u); [|done]. rewrite H. destruct (last (accepted os)) as [[v c]|]; simpl; [|done].
  destruct (strict_eq v u) eqn:Hv; [|done]. apply strict_eq_true in Hv as ->. intros [= ->]. by exists u.
Qed.

(** A reply that arrives after the peer was switched changes nothing. *)
Lemma late_reply_ignored i online e u s :
  polls s !! i = Some (e, u) → effect s ≠ Some e → presence (reply i online s).1 = presence s ∧ (reply i online s).2 = [].
Proof.
  intros Hi He. unfold reply. rewrite Hi. destruct online; simpl; [|done]. by rewrite (bool_decide_eq_false_2 _ He).
Qed.

(** ** Forms *)

Section Forms.
Context (trim : string → string).

Definition blank (s : string) : bool := negb (nonempty (trim s)).

(** [handleSubmit] of [LoginForm]: the arguments of [login], if it is called. *)
Definition login_form (username password : string) : option (string * string) :=
  if blank username || blank password then None else Some (trim username, trim password).

(** [handleSubmit] of [RegisterForm]. *)
Definition register_form (username password confirm : string) : option (string * string) :=
  if blank username || blank password then None
  else if negb (String.eqb password confirm) then None
  else Some (trim username, trim password).

(** The button of [RegisterForm] and its hint. *)
Definition register_disabled (loading : bool) (password confirm : string) : bool :=
  loading || (nonempty confirm && negb (String.eqb password confirm)).
Definition register_hint (password confirm : string) : bool := nonempty confirm && negb (String.eqb password confirm).

(** [handleSubmit] of the login page: the request, or the toast shown
    instead. *)
Definition login_page (username password : string) : (string * string) + string :=
  if blank username || negb (nonempty password) then inr "Please enter username and password"%string
  else inl (trim username, password).

(** [handleSubmit] of the registration page. *)
Definition register_page (username password confirm : string) : (string * string) + string :=
  if blank username || negb (nonempty password) then inr "Please enter username and password"%string
  else if negb (String.eqb password confirm) then inr "Passwords do not match"%string
  else inl (trim username, password).

(** The pages hand on the same credentials; the forms, which trim the password,
    do not accept every password the pages do. *)
Lemma pages_agree username password confirm cred :
  register_page username password confirm = inl cred → login_page username password = inl cred ∧ password = confirm.
Proof.
  unfold register_page, login_page. destruct (_ || _); [done|]. destruct (String.eqb_spec password confirm); simpl; [|done].
  by intros [= <-].
Qed.

Lemma form_trims_password username password cred :
  trim password ≠ password → login_page username password = inl cred → login_form username password ≠ Some cred.
Proof.
  unfold login_page, login_form. intros Ht. destruct (blank username || _); [done|]. intros [= <-].
  destruct (blank username || blank password); [done|]. congruence.
Qed.

(** Who registers can sign in with what was typed: the forms hand on the same
    credentials. *)
Lemma forms_agree username password confirm cred :
  register_form username password confirm = Some cred → login_form username password = Some cred ∧ password = confirm.
Proof.
  unfold register_form, login_form. destruct (_ || _); [done|]. destruct (String.eqb_spec password confirm); simpl; [|done].
  by intros [= <-].
Qed.
End Forms.

(** ** Pages *)

Inductive PageView := PageSpinner | PageContent.

(** The chat page: a redirection when there is no token, a spinner until it is
    mounted with one. *)
Definition chat_page (mounted : bool) (st : Api.Storage) : PageView :=
  if negb mounted || negb (opt_nonempty (Api.ls_token st)) then PageSpinner else PageContent.

Definition chat_page_redirect (st : Api.Storage) : option string :=
  if opt_nonempty (Api.ls_token st) then None else Some "/login"%string.

(** The page of a topic; [topic] is the decoded path segment. *)
Definition topic_page (mounted : bool) (st : Api.Storage) (topic : string) : PageView :=
  if negb mounted || negb (opt_nonempty (Api.ls_token st)) || negb (nonempty topic) then PageSpinner else PageContent.

(** The arguments it gives to [usePresence] and the composer. *)
Definition topic_presence (c : option Conversation) (st : ConnectionState) : option jsnum * bool :=
  (match c with Some c => if bool_decide (conv_type c = p2p) then Some (peerId c) else None | None => None end,
   bool_decide (st = authed)).
Definition composer_disabled (st : ConnectionState) : bool := negb (bool_decide (st = authed)).

(** [AuthInitializer]: restoration on the first rendering, a reset of the chat
    when it is unmounted. *)
Definition initialize (JSON_parse_user : string → option (option User)) (initialized : bool) (st : Api.Storage) (a : AuthState) : AuthState :=
  if initialized then a else AuthStore.restoreFromStorage JSON_parse_user true st a.
Definition unmount (s : ChatStore.State) : ChatStore.State := ChatStore.reset s.

(** ** [generateClientMsgId] *)

(** [uuid] is [crypto.randomUUID()] where the platform has it. *)
Definition generateClientMsgId (uuid : option string) (now : Z) (random36 : string) : string :=
  match uuid with Some u => u | None => (pretty now +:+ "-" +:+ random36)%string end.

(** ** Witnesses *)

(** The peer is switched while a poll is in flight; the late answer is for the
    first peer, the second peer's own answer is shown. *)
Example presence_switch :
  let '(s, os) := run [Render (Some (Dec 2)) true; Render (Some (Dec 3)) true; Reply 0 (Some true); Reply 0 (Some false)] new_presence in
  shown s = Some false ∧ accepted os = [(Dec 3, false)].
Proof. vm_compute. auto. Qed.

Lemma presence_shown_witness :
  let '(s, os) := run [Render (Some (Dec 2)) true; Reply 0 (Some true)] new_presence in
  shown s = Some true ∧ ∃ u, pr_user s = Some u ∧ pr_enabled s = true ∧ last (accepted os) = Some (u, true).
Proof.
  split; [reflexivity|]. exact (presence_shown [Render (Some (Dec 2)) true; Reply 0 (Some true)] true eq_refl).
Defined.

End Presence.
