(* ===== verification/Tab.v ===== *)
(** * A browser tab

    The session, the pages and the chat together: the authentication store, the
    storage that the tabs of a browser share, the page shown, and the effects
    that run when one of them changes - those of [useAuth] (in
    [ConversationList]), of the chat pages and of [useRealtime] (in the layout
    of the chat pages).  The environment chooses what happens: answers of the
    sign-in request, clicks, navigations, timers, other tabs, and everything
    that can happen in [System]. *)

From S2P Require Import Prelude JsNum JsMap Types ChatStore ChatStoreProps.
From S2P Require Import ProtoRuntime ProtoLaws ProtoWire Mentions Realtime RealtimeProps Api AuthStore Session Hooks System SystemProps Presence.
Import ChatStore Hooks System.
Import (notations) Realtime.

Module Tab.

(** The pages; [topic] is the decoded path segment. *)
Inductive Route := LoginPage | RegisterPage | ChatPage | TopicPage (topic : string).

#[export] Instance Route_eq_dec : EqDecision Route.
Proof. solve_decision. Defined.

(** [app/chat/layout.tsx] is around these. *)
Definition in_chat (r : Route) : bool := match r with ChatPage | TopicPage _ => true | _ => false end.

(** [useAuth] of a mounted [ConversationList]: the store object and the values
    its two effects last ran with, whether the timer of the first is pending,
    and [isReady]. *)
Record UseAuth := mkUseAuth {
  seen : option nat;
  timer : bool;
  isReady : bool;
  guarded : option (bool * bool * Route);
}.

Definition new_useAuth : UseAuth := mkUseAuth None false false None.

(** [version] tells apart the objects the authentication store has been: every
    [set] makes a new one.  [next_route] is what the router was last asked for.
    [listed] is the conversation list, when the page shows it; the two [deps]
    are the values the effects of the page and of [useRealtime] last ran with,
    while they are mounted. *)
Record Tab := mkTab {
  storage : Api.Storage;
  auth : AuthState;
  version : nat;
  route : Route;
  next_route : option Route;
  listed : option UseAuth;
  page_deps : option (Route * option string);
  realtime_deps : option (option string);
  chat : Sys;
}.

Definition set_storage st t := mkTab st (auth t) (version t) (route t) (next_route t) (listed t) (page_deps t) (realtime_deps t) (chat t).
(** [set] of the authentication store. *)
Definition set_auth a t := mkTab (storage t) a (S (version t)) (route t) (next_route t) (listed t) (page_deps t) (realtime_deps t) (chat t).
Definition go r t := mkTab (storage t) (auth t) (version t) r (next_route t) (listed t) (page_deps t) (realtime_deps t) (chat t).
Definition set_next n t := mkTab (storage t) (auth t) (version t) (route t) n (listed t) (page_deps t) (realtime_deps t) (chat t).
Definition set_listed l t := mkTab (storage t) (auth t) (version t) (route t) (next_route t) l (page_deps t) (realtime_deps t) (chat t).
Definition set_page_deps d t := mkTab (storage t) (auth t) (version t) (route t) (next_route t) (listed t) d (realtime_deps t) (chat t).
Definition set_chat d s t := mkTab (storage t) (auth t) (version t) (route t) (next_route t) (listed t) (page_deps t) d s.

(** [router.replace] or [router.push]. *)
Definition ask (r : Route) (t : Tab) : Tab := set_next (Some r) t.

Section Tab.
Context {RT : Runtime}.
Context (TextDecoder_decode : bytes → string) (TextEncoder_encode : string → bytes).
Context (API_BASE_URL : string) (payload_user_id : string → option Z).
Context (atob : string → option string) (decode_utf8 : string → string) (json_normal : string → option string).
Context (trim : string → string) (utf16 : string → Mentions.text) (toLowerCase : Mentions.text → Mentions.text).
Context (JSON_stringify_user : User → string) (JSON_parse_user : string → option (option User)).
Context (encodeURIComponent : string → string).

Abbreviation sys_step := (System.step TextDecoder_decode TextEncoder_encode API_BASE_URL payload_user_id
  atob decode_utf8 json_normal trim utf16 toLowerCase).

(** ** Effects *)

Definition pathname (r : Route) : string :=
  match r with
  | LoginPage => "/login"
  | RegisterPage => "/register"
  | ChatPage => "/chat"
  | TopicPage topic => "/chat/" +:+ encodeURIComponent topic
  end.

(** The targets of redirections. *)
Definition redirect_to (path : string) : Route := if String.eqb path "/login" then LoginPage else ChatPage.

(** Does the page show the conversation list? *)
Definition shows_list (r : Route) (st : Api.Storage) : bool :=
  match r with
  | ChatPage => match Presence.chat_page true st with Presence.PageContent => true | _ => false end
  | TopicPage topic => match Presence.topic_page true st topic with Presence.PageContent => true | _ => false end
  | _ => false
  end.

(** The effects of [useAuth] after a rendering: a new timer when the store is
    another object, and the guard when one of its dependencies changed. *)
Definition useAuth_effects (h : UseAuth) (t : Tab) : Tab :=
  let timer' := if decide (seen h = Some (version t)) then timer h else true in
  let deps := (isReady h, isAuthenticated (auth t), route t) in
  let t' := set_listed (Some (mkUseAuth (Some (version t)) timer' (isReady h) (Some deps))) t in
  if decide (guarded h = Some deps) then t'
  else match Session.guard (Session.mkApp (storage t) (auth t) (pathname (route t)) (isReady h)) with
       | Some path => ask (redirect_to path) t'
       | None => t'
       end.

(** The list: mounted, kept or unmounted, which clears the timer. *)
Definition list_effects (shown : bool) (kept : option UseAuth) (t : Tab) : Tab :=
  if shown then useAuth_effects (default new_useAuth kept) t else set_listed None t.

(** The effect of the two chat pages, on [token]. *)
Definition page_effect (deps : option (Route * option string)) (t : Tab) : Tab :=
  if decide (page_deps t = deps) then t
  else
    let t' := set_page_deps deps t in
    match deps, Presence.chat_page_redirect (storage t) with
    | Some _, Some path => ask (redirect_to path) t'
    | _, _ => t'
    end.

(** The effects of [useRealtime] in the layout: [userRef], then the one on
    [token]; the clean-up when the chat pages are left. *)
Definition layout_effect (t : Tab) : Tab * list Realtime.Output * list Effect :=
  let token := auth_token (auth t) in
  if in_chat (route t) then
    let s := (sys_step (UserChanged (auth_user (auth t))) (chat t)).1.1 in
    if decide (realtime_deps t = Some token) then (set_chat (Some token) s t, [], [])
    else let '(s, os, es) := sys_step (TokenChanged token) s in (set_chat (Some token) s t, os, es)
  else if decide (realtime_deps t = None) then (t, [], [])
  else let '(s, os, es) := sys_step Unmounted (chat t) in (set_chat None s t, os, es).

(** A rendering and its effects, children first.  A page reads the storage when
    it is rendered, which is when its route or token changed. *)
Definition commit (t : Tab) : Tab * list Realtime.Output * list Effect :=
  let deps := if in_chat (route t) then Some (route t, auth_token (auth t)) else None in
  let kept := if decide (fst <$> page_deps t = Some (route t)) then listed t else None in
  let shown := if decide (page_deps t = deps) then bool_decide (is_Some (listed t)) else shows_list (route t) (storage t) in
  layout_effect (page_effect deps (list_effects shown kept t)).

(** ** Actions *)

Inductive Action :=
(** the answer to the request of the login page *)
| SignIn (username : string) (reply : Session.LoginResult)
(** the answer to that of the registration page *)
| SignUp (err : option string)
(** the menu of the conversation list *)
| LogOut
(** the timer of [useAuth] *)
| RestoreTimer
(** the page of a topic is rendered again because the chat store changed *)
| Rerender
(** the router goes where it was asked to go, or the user goes to a page *)
| Navigated
| Goto (r : Route)
(** another tab signs in or out, or [refreshAuth] stores new tokens *)
| StorageChanged (st : Api.Storage)
(** a new document, in the same browser session *)
| Reload (r : Route)
| Chat (a : System.Action).

(** What the effects do is not up to the environment. *)
Definition external (a : System.Action) : bool :=
  match a with
  | TokenChanged _ | UserChanged _ | Unmounted => false
  | Net (Realtime.Connect _) | Net Realtime.Disconnect | Net (Realtime.Listen _) => false
  | _ => true
  end.

(** A fresh document: [AuthInitializer] restores the session before the first
    effects run. *)
Definition open_tab (st : Api.Storage) (r : Route) (session : option (option string)) : Tab * list Realtime.Output * list Effect :=
  commit (mkTab st (Presence.initialize JSON_parse_user false st AuthStore.initialState) 1 r None None None None (new_system session)).

(** A notice before what follows. *)
Definition toast (text : string) (r : Tab * list Realtime.Output * list Effect) : Tab * list Realtime.Output * list Effect :=
  (r.1, Toast text :: r.2).

(** The submission of the login page, when the answer arrives (the [isLoading]
    of its button is left out). *)
Definition login_answered (username : string) (reply : Session.LoginResult) (t : Tab) : Tab * list Realtime.Output * list Effect :=
  match reply with
  | Session.LoginOk uid token refreshToken =>
      let '(st, au) := AuthStore.login JSON_stringify_user true token refreshToken (mkUser uid (trim username)) (storage t) in
      toast "Welcome back!" (commit (ask ChatPage (set_auth au (set_storage st t))))
  | Session.LoginError msg => toast ("Login failed: " +:+ msg) (t, [], [])
  end.

(** That of the registration page; [None] is success. *)
Definition register_answered (err : option string) (t : Tab) : Tab * list Realtime.Output * list Effect :=
  match err with
  | None => toast "Account created! Please sign in." (ask LoginPage t, [], [])
  | Some msg => toast ("Registration failed: " +:+ msg) (t, [], [])
  end.

(** [logout] of [useAuth], from the menu of the list. *)
Definition log_out (t : Tab) : Tab * list Realtime.Output * list Effect :=
  match listed t with
  | Some _ => let '(st, au) := AuthStore.logout true (storage t) in
              commit (ask LoginPage (set_auth au (set_storage st t)))
  | None => (t, [], [])
  end.

(** The timer of [useAuth] fires, if it is pending. *)
Definition restore_tick (t : Tab) : Tab * list Realtime.Output * list Effect :=
  match listed t with
  | Some h =>
      if timer h then
        let t := set_auth (AuthStore.restoreFromStorage JSON_parse_user true (storage t) (auth t)) t in
        commit (set_listed (Some (mkUseAuth (seen h) false true (guarded h))) t)
      else (t, [], [])
  | None => (t, [], [])
  end.

Definition step (a : Action) (t : Tab) : Tab * list Realtime.Output * list Effect :=
  match a with
  | SignIn username reply => login_answered username reply t
  | SignUp err => register_answered err t
  | LogOut => log_out t
  | RestoreTimer => restore_tick t
  | Rerender =>
      match route t with
      | TopicPage _ => (list_effects (shows_list (route t) (storage t)) (listed t) t, [], [])
      | _ => (t, [], [])
      end
  | Navigated => match next_route t with Some r => commit (set_next None (go r t)) | None => (t, [], []) end
  | Goto r => commit (go r t)
  | StorageChanged st => (set_storage st t, [], [])
  | Reload r => open_tab (storage t) r (Realtime.session (client (chat t)))
  | Chat a =>
      if external a then let '(s, os, es) := sys_step a (chat t) in (set_chat (realtime_deps t) s t, os, es)
      else (t, [], [])
  end.

Fixpoint run (acts : list Action) (t : Tab) : Tab :=
  match acts with
  | [] => t
  | a :: acts' => run acts' (step a t).1.1
  end.

(** The outputs of the real-time client on the way. *)
Fixpoint outputs (acts : list Action) (t : Tab) : list Realtime.Output :=
  match acts with
  | [] => []
  | a :: acts' => (step a t).1.2 ++ outputs acts' (step a t).1.1
  end.

End Tab.
End Tab.
