(* ===== verification/TabProps.v ===== *)
(** * What a tab guarantees

    The invariant of a tab over every sequence of events, what signing out
    leaves behind, and how a tab follows the storage it shares with others. *)

From S2P Require Import Prelude JsNum JsMap Types ChatStore ChatStoreProps.
From S2P Require Import ProtoRuntime ProtoLaws ProtoWire Mentions Realtime RealtimeProps Api AuthStore Session Hooks HooksProps System SystemProps Presence Tab.
Import ChatStore Hooks System Tab.

Section Props.
Context `{RL : RuntimeLaws}.
Context (TextDecoder_decode : bytes → string) (TextEncoder_encode : string → bytes).
Context (API_BASE_URL : string) (payload_user_id : string → option Z).
Context (atob : string → option string) (decode_utf8 : string → string) (json_normal : string → option string).
Context (trim : string → string) (utf16 : string → Mentions.text) (toLowerCase : Mentions.text → Mentions.text).
Context (JSON_stringify_user : User → string) (JSON_parse_user : string → option (option User)).
Context (encodeURIComponent : string → string).

Abbreviation sys_step := (System.step TextDecoder_decode TextEncoder_encode API_BASE_URL payload_user_id
  atob decode_utf8 json_normal trim utf16 toLowerCase).
Abbreviation commit := (Tab.commit TextDecoder_decode TextEncoder_encode API_BASE_URL payload_user_id
  atob decode_utf8 json_normal trim utf16 toLowerCase encodeURIComponent).
Abbreviation layout_effect := (Tab.layout_effect TextDecoder_decode TextEncoder_encode API_BASE_URL payload_user_id
  atob decode_utf8 json_normal trim utf16 toLowerCase).
Abbreviation list_effects := (Tab.list_effects encodeURIComponent).
Abbreviation open_tab := (Tab.open_tab TextDecoder_decode TextEncoder_encode API_BASE_URL payload_user_id
  atob decode_utf8 json_normal trim utf16 toLowerCase JSON_parse_user encodeURIComponent).
Abbreviation step := (Tab.step TextDecoder_decode TextEncoder_encode API_BASE_URL payload_user_id
  atob decode_utf8 json_normal trim utf16 toLowerCase JSON_stringify_user JSON_parse_user encodeURIComponent).
Abbreviation run := (Tab.run TextDecoder_decode TextEncoder_encode API_BASE_URL payload_user_id
  atob decode_utf8 json_normal trim utf16 toLowerCase JSON_stringify_user JSON_parse_user encodeURIComponent).
Abbreviation outputs := (Tab.outputs TextDecoder_decode TextEncoder_encode API_BASE_URL payload_user_id
  atob decode_utf8 json_normal trim utf16 toLowerCase JSON_stringify_user JSON_parse_user encodeURIComponent).

Abbreviation sys_rest := (SystemProps.sys_rest TextDecoder_decode TextEncoder_encode API_BASE_URL payload_user_id
  atob decode_utf8 json_normal trim utf16 toLowerCase).
Abbreviation token_conversations := (SystemProps.token_conversations TextDecoder_decode TextEncoder_encode API_BASE_URL payload_user_id
  atob decode_utf8 json_normal trim utf16 toLowerCase).
Abbreviation unmount_conversations := (SystemProps.unmount_conversations TextDecoder_decode TextEncoder_encode API_BASE_URL payload_user_id
  atob decode_utf8 json_normal trim utf16 toLowerCase).
Abbreviation token_renews := (SystemProps.token_renews TextDecoder_decode TextEncoder_encode API_BASE_URL payload_user_id
  atob decode_utf8 json_normal trim utf16 toLowerCase).

(** ** The invariant *)

(** A well-formed chat. *)
Record chat_ok (s : Sys) : Prop := {
  chat_client : Inv (client s);
  chat_tasks : Realtime.microtasks (client s) = [];
  chat_store : reaches initialState (store s);
}.

Record tab_ok (t : Tab) : Prop := {
  ok_chat : chat_ok (chat t);
  ok_auth : AuthStore.auth_ok (auth t);
  (** the effects have seen the current token *)
  ok_realtime : realtime_deps t = if in_chat (route t) then Some (auth_token (auth t)) else None;
  ok_page : page_deps t = if in_chat (route t) then Some (route t, auth_token (auth t)) else None;
  (** the client has handlers exactly on the chat pages of a signed-in user *)
  ok_attached : attached (chat t) = in_chat (route t) && opt_nonempty (auth_token (auth t));
  (** and they act for that user *)
  ok_user : in_chat (route t) = true → currentUser (chat t) = auth_user (auth t);
  (** the restoration timer of the conversation list is always pending *)
  ok_listed : ∀ h, listed t = Some h → in_chat (route t) = true ∧ seen h = Some (version t) ∧ timer h = true;
}.

(** What holds when a rendering begins. *)
Record ready (t : Tab) : Prop := {
  ready_chat : chat_ok (chat t);
  ready_auth : AuthStore.auth_ok (auth t);
  ready_attached : attached (chat t) = match realtime_deps t with Some tok => opt_nonempty tok | None => false end;
  ready_listed : ∀ h, listed t = Some h → page_deps t ≠ None ∧ (seen h = Some (version t) → timer h = true);
}.

Lemma sys_step_ok a s : chat_ok s → chat_ok (sys_step a s).1.1.
Proof.
  intros []. split; [by apply sys_client_inv|by apply sys_tasks|]. etransitivity; [done|]. apply sys_store.
Qed.

Lemma new_system_ok session : chat_ok (new_system session).
Proof. split; [apply new_client_inv|done|reflexivity]. Qed.

(** The part of a tab the effects of the list and the page leave alone. *)
Definition core (t : Tab) := (storage t, auth t, version t, route t, (realtime_deps t, chat t)).

Lemma list_effects_core b k t : core (list_effects b k t) = core t.
Proof. unfold Tab.list_effects, useAuth_effects. by repeat case_match. Qed.

Lemma page_effect_core d t : core (page_effect d t) = core t.
Proof. unfold page_effect. by repeat case_match. Qed.

Lemma list_effects_page b k t : page_deps (list_effects b k t) = page_deps t.
Proof. unfold Tab.list_effects, useAuth_effects. by repeat case_match. Qed.

Lemma page_effect_listed d t : listed (page_effect d t) = listed t ∧ page_deps (page_effect d t) = d.
Proof. unfold page_effect. case_decide; [done|]. by repeat case_match. Qed.

Lemma list_effects_listed b k t h : listed (list_effects b k t) = Some h →
  b = true ∧ seen h = Some (version t) ∧
  timer h = if decide (seen (default new_useAuth k) = Some (version t)) then timer (default new_useAuth k) else true.
Proof.
  unfold Tab.list_effects, useAuth_effects. destruct b; [|done].
  repeat case_match; cbn; intros [= <-]; repeat split; done.
Qed.

(** The tab after the list and the page. *)
Definition children (t : Tab) : Tab :=
  let deps := if in_chat (route t) then Some (route t, auth_token (auth t)) else None in
  let kept := if decide (fst <$> page_deps t = Some (route t)) then listed t else None in
  let shown := if decide (page_deps t = deps) then bool_decide (is_Some (listed t)) else shows_list (route t) (storage t) in
  page_effect deps (list_effects shown kept t).

Lemma commit_children t : commit t = layout_effect (children t).
Proof. done. Qed.

Lemma children_core t : core (children t) = core t.
Proof. unfold children. cbv zeta. by rewrite page_effect_core, list_effects_core. Qed.

Lemma children_page t : page_deps (children t) = if in_chat (route t) then Some (route t, auth_token (auth t)) else None.
Proof. apply page_effect_listed. Qed.

Lemma shows_list_chat r st : shows_list r st = true → in_chat r = true.
Proof. by destruct r. Qed.

Lemma children_listed t h : ready t → listed (children t) = Some h →
  in_chat (route t) = true ∧ seen h = Some (version t) ∧ timer h = true.
Proof.
  intros Hr Hl. unfold children in Hl. cbv zeta in Hl. rewrite (proj1 (page_effect_listed _ _)) in Hl.
  apply list_effects_listed in Hl as (Hb & Hs & Ht). split; [|split; [done|]].
  - clear Ht. case_decide as Hd; [|by apply shows_list_chat in Hb]. apply bool_decide_eq_true in Hb as [h' Hh'].
    destruct (ready_listed _ Hr _ Hh') as [Hp _]. rewrite Hd in Hp. by destruct (in_chat (route t)).
  - rewrite Ht. case_decide as Hv; [|done]. revert Hv. case_decide; [|done].
    destruct (listed t) as [h'|] eqn:Hh'; [|done]. simpl. by apply (ready_listed _ Hr).
Qed.

(** Unfold one step of a tab. *)
Ltac tab_step := cbn [Tab.step]; unfold login_answered, register_answered, log_out, restore_tick; cbn [toast fst].

Ltac same_core H := unfold core in H; injection H as ?Hst ?Hau ?Hve ?Hro ?Hrt ?Hch.

(** The layout sees to the connection. *)
Lemma layout_ok t : ready t → let t' := (layout_effect t).1.1 in
  chat_ok (chat t') ∧ realtime_deps t' = (if in_chat (route t) then Some (auth_token (auth t)) else None) ∧
  attached (chat t') = in_chat (route t) && opt_nonempty (auth_token (auth t)) ∧
  (in_chat (route t) = true → currentUser (chat t') = auth_user (auth t)) ∧
  (storage t', auth t', version t', route t', (listed t', page_deps t', next_route t')) =
  (storage t, auth t, version t, route t, (listed t, page_deps t, next_route t)).
Proof.
  intros Hr. unfold Tab.layout_effect. cbv zeta.
  set (s := (sys_step (UserChanged (auth_user (auth t))) (chat t)).1.1).
  assert (Hs : chat_ok s) by apply sys_step_ok, Hr.
  destruct (in_chat (route t)); case_decide as Hd.
  - split; [exact Hs|]. split; [done|]. split; [|done].
    pose proof (ready_attached _ Hr) as Ha. rewrite Hd in Ha. exact Ha.
  - pose proof (sys_step_ok (TokenChanged (auth_token (auth t))) s Hs) as H1.
    destruct (sys_rest (TokenChanged (auth_token (auth t))) s) as [H2 H3].
    destruct (sys_step (TokenChanged _) s) as [[s' os] es]. split; [exact H1|]. split; [done|]. split; [exact H2|].
    split; [intros _; exact H3|done].
  - split; [apply Hr|]. split; [exact Hd|]. split; [|by split].
    pose proof (ready_attached _ Hr) as Ha. rewrite Hd in Ha. exact Ha.
  - pose proof (sys_step_ok Unmounted (chat t) (ready_chat _ Hr)) as H1.
    destruct (sys_rest Unmounted (chat t)) as [H2 _].
    destruct (sys_step Unmounted (chat t)) as [[s' os] es]. split; [exact H1|]. split; [done|]. by split.
Qed.

Lemma children_ready t : ready t → ready (children t).
Proof.
  intros Hr. pose proof (children_core t) as Hc. same_core Hc. split.
  - rewrite Hch. apply Hr.
  - rewrite Hau. apply Hr.
  - rewrite Hch, Hrt. apply Hr.
  - intros h Hh. destruct (children_listed t h Hr Hh) as (H1 & H2 & H3). split; [|done]. by rewrite children_page, H1.
Qed.

Lemma commit_ok t : ready t → tab_ok (commit t).1.1.
Proof.
  intros Hr. rewrite commit_children. pose proof (children_core t) as Hc. same_core Hc.
  destruct (layout_ok _ (children_ready t Hr)) as (H1 & H2 & H3 & H4 & H5).
  set (t' := (layout_effect (children t)).1.1) in *. injection H5 as Hst' Hau' Hve' Hro' Hli' Hpa' Hne'.
  rewrite Hau, Hro in *. split; rewrite ?Hau', ?Hro'; try done.
  - apply Hr.
  - by rewrite Hpa', children_page.
  - intros h. rewrite Hli', Hve', Hve. by apply children_listed.
Qed.

(** Between renderings a tab is ready for the next. *)
Lemma tab_ready t : tab_ok t → ready t.
Proof.
  intros []. split; try done.
  - rewrite ok_attached0, ok_realtime0. by destruct (in_chat (route t)).
  - intros h Hh. destruct (ok_listed0 h Hh) as (H1 & H2 & H3). split; [|done]. by rewrite ok_page0, H1.
Qed.

Lemma set_chat_ok d s t : tab_ok t → d = realtime_deps t → chat_ok s →
  attached s = attached (chat t) → currentUser s = currentUser (chat t) → tab_ok (set_chat d s t).
Proof. intros [] -> Hs Ha Hu. split; cbn; rewrite ?Ha, ?Hu; done. Qed.

Lemma open_tab_ok st r session : tab_ok (open_tab st r session).1.1.
Proof.
  apply commit_ok. split; [apply new_system_ok| |done|done].
  apply (AuthStore.restore_consistent JSON_parse_user true), AuthStore.initial_ok.
Qed.

(** A change of the store, and of what was asked of the router, may be rendered. *)
Lemma ready_set_auth au st n t : tab_ok t → AuthStore.auth_ok au →
  ready (set_next n (set_auth au (set_storage st t))).
Proof.
  intros Ht Ha. pose proof (tab_ready t Ht) as []. destruct Ht. split; try done.
  cbn. intros h Hh. split; [by apply (ready_listed0 h)|]. destruct (ok_listed0 h Hh) as (_ & -> & _). intros [= He]. lia.
Qed.

Lemma list_effects_ok b t : tab_ok t → in_chat (route t) = true → tab_ok (list_effects b (listed t) t).
Proof.
  intros Ht Hi. pose proof (list_effects_core b (listed t) t) as Hc. same_core Hc. destruct Ht as [H1 H2 H3 H4 H5 H6 H7].
  split; rewrite ?Hch, ?Hau, ?Hro, ?Hrt, ?list_effects_page; try done.
  intros h (_ & Hs & Ht)%list_effects_listed. rewrite Hve. split; [done|]. split; [done|]. rewrite Ht.
  case_decide as Hd; [|done]. destruct (listed t) as [h'|]; [|done]. by apply (H7 h').
Qed.

Lemma step_ok a t : tab_ok t → tab_ok (step a t).1.1.
Proof.
  intros Ht. destruct a as [username [uid tok ref|msg]|[msg|]| | | | |r|st|r|a]; tab_step; try done.
  - apply commit_ok, ready_set_auth; [done|]. split; [|done]. intros _. cbn. eauto.
  - by destruct Ht.
  - destruct (listed t); [|done]. apply commit_ok, ready_set_auth; [done|apply AuthStore.initial_ok].
  - destruct (listed t) as [h|] eqn:Hl; [|done]. destruct (timer h); [|done].
    apply commit_ok. pose proof (tab_ready t Ht) as []. split; try done.
    + apply (AuthStore.restore_consistent JSON_parse_user true), Ht.
    + cbn. intros h' [= <-]. split; [by apply (ready_listed0 h)|]. cbn.
      destruct (ok_listed _ Ht h Hl) as (_ & -> & _). intros [= He]. lia.
  - pose proof (list_effects_ok (shows_list (route t) (storage t)) t Ht) as H.
    destruct (route t) eqn:Hro; try done. by apply H.
  - destruct (next_route t); [|done]. apply commit_ok. by destruct (tab_ready t Ht).
  - apply commit_ok. by destruct (tab_ready t Ht).
  - by destruct Ht.
  - apply open_tab_ok.
  - destruct (external a) eqn:He; [|done]. pose proof (sys_step_ok a (chat t) (ok_chat _ Ht)) as Hs.
    destruct (sys_rest a (chat t)) as [Ha Hu].
    destruct (sys_step a (chat t)) as [[s os] es]. cbn in *. apply set_chat_ok; try done.
    + rewrite Ha. by destruct a.
    + rewrite Hu. by destruct a.
Qed.

Lemma run_ok acts : ∀ t, tab_ok t → tab_ok (run acts t).
Proof. induction acts as [|a acts IH]; intros t Ht; [done|]. by apply IH, step_ok. Qed.

(** C19: over any sequence of sign-ins, sign-outs, navigations, reloads, timers,
    changes made by other tabs and events of the chat: the chat stays well
    formed, the real-time handlers are attached exactly while a chat page is
    shown for a session with a token, they act for the user of the session, and
    the effects of the page and the layout have seen the current token.  The
    last part is a defect: while the conversation list is shown, the timer that
    restores the session is always pending, because the effect that starts it
    depends on the store object, which each restoration replaces. *)
Theorem tab_inv acts st r session : tab_ok (run acts (open_tab st r session).1.1).
Proof. apply run_ok, open_tab_ok. Qed.

(** ** What a rendering does *)

Lemma commit_frame t : let t' := (commit t).1.1 in
  storage t' = storage t ∧ auth t' = auth t ∧ version t' = version t ∧ route t' = route t ∧ listed t' = listed (children t).
Proof.
  intros t'. pose proof (children_core t) as Hc. same_core Hc.
  assert (H : storage t' = storage (children t) ∧ auth t' = auth (children t) ∧ version t' = version (children t) ∧
    route t' = route (children t) ∧ listed t' = listed (children t)).
  { unfold t'. rewrite commit_children. unfold Tab.layout_effect. repeat case_match; done. }
  destruct H as (-> & -> & -> & -> & ->). done.
Qed.

Lemma commit_conversations t : conversations (store (chat (commit t).1.1)) = conversations (store (chat t)).
Proof.
  rewrite commit_children. pose proof (children_core t) as Hc. same_core Hc. unfold Tab.layout_effect. rewrite Hch.
  destruct (in_chat _); case_decide as Hd; [done| | |].
  - match goal with |- context [sys_step (TokenChanged ?tok) ?s] =>
      pose proof (token_conversations tok s) as H; destruct (sys_step (TokenChanged tok) s) as [[s' os] es] end. exact H.
  - cbn. by rewrite Hch.
  - pose proof (unmount_conversations (chat t)) as H. destruct (sys_step Unmounted (chat t)) as [[s' os] es]. exact H.
Qed.

(** The layout of a chat page with another token than before. *)
Lemma commit_token t tok : in_chat (route t) = true → realtime_deps t ≠ Some tok → auth_token (auth t) = tok →
  let r := sys_step (TokenChanged tok) (sys_step (UserChanged (auth_user (auth t))) (chat t)).1.1 in
  chat (commit t).1.1 = r.1.1 ∧ (commit t).1.2 = r.1.2.
Proof.
  intros Hi Hd <-. rewrite commit_children. pose proof (children_core t) as Hc. same_core Hc. cbv zeta. unfold Tab.layout_effect.
  rewrite Hro, Hrt, Hch, Hau, Hi, decide_False by done. by destruct (sys_step (TokenChanged _) _) as [[s os] es].
Qed.

Lemma page_redirects deps t : page_deps t ≠ deps → is_Some deps → opt_nonempty (Api.ls_token (storage t)) = false →
  next_route (page_effect deps t) = Some LoginPage.
Proof.
  intros Hd [d ->] Ht. unfold page_effect, Presence.chat_page_redirect. rewrite decide_False by done. cbn. by rewrite Ht.
Qed.

Lemma shows_list_token r st : opt_nonempty (Api.ls_token st) = false → shows_list r st = false.
Proof. intros H. destruct r; try done; simpl; unfold Presence.chat_page, Presence.topic_page; by rewrite H. Qed.

(** The session ends on a chat page: the client gives up its connection, the
    list is gone and the page asks for the login page. *)
Lemma commit_signed_out t old :
  chat_ok (chat t) → in_chat (route t) = true → realtime_deps t = Some (Some old) → page_deps t = Some (route t, Some old) →
  auth t = AuthStore.initialState → opt_nonempty (Api.ls_token (storage t)) = false →
  let t' := (commit t).1.1 in
  released (client (chat t)) (client (chat t')) ∧ attached (chat t') = false ∧ listed t' = None ∧ next_route t' = Some LoginPage.
Proof.
  intros [H1 H2 H3] Hi Hrt Hpd Hau Hst t'.
  destruct (commit_token t None) as [Hc _]; [done|by rewrite Hrt|by rewrite Hau|]. unfold t'. rewrite Hc.
  split; [by apply (token_lost _ _ _ _ _ _ _ _ _ _ (sys_step (UserChanged (auth_user (auth t))) (chat t)).1.1)|]. split; [apply sys_rest|].
  assert (Hch : listed (children t) = None ∧ next_route (children t) = Some LoginPage).
  { unfold children. rewrite Hi, Hau, Hpd. cbn [auth_token AuthStore.initialState]. rewrite (decide_False (P := Some (route t, Some old) = _)) by done.
    rewrite shows_list_token by done. split; [by rewrite (proj1 (page_effect_listed _ _))|].
    apply page_redirects; cbn; [by rewrite Hpd|by eauto|done]. }
  destruct Hch as [Hl Hn]. split; [by rewrite (proj2 (proj2 (proj2 (proj2 (commit_frame t)))))|].
  rewrite <-Hn, commit_children. unfold Tab.layout_effect. by repeat case_match.
Qed.

(** ** Signing out *)

(** The storage holds a session that [restoreFromStorage] would take up: a
    token and a user that parses. *)
Definition holds_session (st : Api.Storage) : bool :=
  isAuthenticated (AuthStore.restoreFromStorage JSON_parse_user true st AuthStore.initialState).

Lemma no_session st au : holds_session st = false →
  AuthStore.restoreFromStorage JSON_parse_user true st au = AuthStore.initialState.
Proof. unfold holds_session, AuthStore.restoreFromStorage. by repeat case_match. Qed.

(** Nobody is signed in, here or in the storage, and the client is closed. *)
Record off (t : Tab) : Prop := {
  off_storage : holds_session (storage t) = false;
  off_auth : auth t = AuthStore.initialState;
  off_closed : Realtime.closed (client (chat t)) = true;
  off_lookups : Realtime.gateway_calls (client (chat t)) = 0%nat;
}.

(** The events that start a session: a sign-in here, a storage that another tab
    filled with a token and a user, and a new document, which has a new client.
    Other changes of the storage (a sign-out, or the tokens of a refresh that
    ends after the sign-out) do not. *)
Definition starts_session (a : Action) : bool :=
  match a with
  | SignIn _ (Session.LoginOk _ _ _) | Reload _ => true
  | StorageChanged st => holds_session st
  | _ => false
  end.

Definition opens_nothing (os : list Realtime.Output) : Prop := Forall (λ o, opens o = false) os.

Lemma off_sys a s : (∀ tok, a ≠ TokenChanged (Some tok) ∧ a ≠ Net (Realtime.Connect tok)) →
  Realtime.closed (client s) = true → Realtime.gateway_calls (client s) = 0%nat →
  Realtime.closed (client (sys_step a s).1.1) = true ∧ Realtime.gateway_calls (client (sys_step a s).1.1) = 0%nat ∧
  opens_nothing (sys_step a s).1.2.
Proof. intros Ha H1 H2. exact (sys_closed _ _ _ _ _ _ _ _ _ _ a s Ha H1 H2). Qed.

Lemma layout_off t : off t → off (layout_effect t).1.1 ∧ opens_nothing (layout_effect t).1.2.
Proof.
  intros [H1 H2 H3 H4]. unfold Tab.layout_effect. cbv zeta. rewrite H2.
  destruct (in_chat (route t)); case_decide as Hd; try (by repeat constructor).
  - set (s := (sys_step (UserChanged _) (chat t)).1.1). destruct (off_sys (TokenChanged None) s) as (H5 & H6 & H7); [done..|].
    destruct (sys_step (TokenChanged _) s) as [[s' os] es]. by split.
  - destruct (off_sys Unmounted (chat t)) as (H5 & H6 & H7); [done..|].
    destruct (sys_step Unmounted _) as [[s' os] es]. by split.
Qed.

Lemma commit_off t : off t → off (commit t).1.1 ∧ opens_nothing (commit t).1.2.
Proof.
  intros [H1 H2 H3 H4]. rewrite commit_children. apply layout_off. pose proof (children_core t) as Hc. same_core Hc.
  split; rewrite ?Hst, ?Hau, ?Hch; done.
Qed.

Lemma step_off a t : starts_session a = false → off t → off (step a t).1.1 ∧ opens_nothing (step a t).1.2.
Proof.
  intros Hs Ho. assert (Hskip : off t ∧ opens_nothing []) by (split; [done|constructor]).
  destruct a as [username [uid tok ref|msg]|[msg|]| | | | |r|st|r|a]; try done; tab_step.
  - split; [by destruct Ho|constructor].
  - destruct (listed t); [|done]. apply commit_off. by destruct Ho.
  - destruct (listed t) as [h|]; [|done]. destruct (timer h); [|done]. apply commit_off.
    destruct Ho as [H1 H2 H3 H4]. split; try done. exact (no_session _ (auth t) H1).
  - assert (H : ∀ b k, off (list_effects b k t) ∧ opens_nothing []).
    { intros b k. split; [|constructor]. pose proof (list_effects_core b k t) as Hc. same_core Hc.
      destruct Ho. split; rewrite ?Hst, ?Hau, ?Hch; done. }
    destruct (route t); try done. apply H.
  - destruct (next_route t); [|done]. apply commit_off. by destruct Ho.
  - apply commit_off. by destruct Ho.
  - split; [by destruct Ho|constructor].
  - destruct (external a) eqn:He; [|done]. destruct Ho as [H1 H2 H3 H4].
    destruct (off_sys a (chat t)) as (H5 & H6 & H7); [|done|done|].
    { intros tok. split; intros ->; done. }
    destruct (sys_step a (chat t)) as [[s os] es]. by split.
Qed.

Lemma run_off acts : ∀ t, Forall (λ a, starts_session a = false) acts → off t →
  off (run acts t) ∧ opens_nothing (outputs acts t).
Proof.
  induction acts as [|a acts IH]; intros t; [intros _ Ho; split; [done|apply Forall_nil_2]|]. intros [Ha Hacts]%Forall_cons Ho.
  destruct (step_off a t Ha Ho) as [H1 H2]. destruct (IH _ Hacts H1) as [H3 H4]. split; [done|]. by apply Forall_app.
Qed.

(** C20: signing out from the menu.  The credentials are gone from the storage
    and the store; the client gives up its connection: it is closed, refers to
    no socket, request or timer, and the socket in use is closing (sockets it
    had lost track of are not closed); the handlers and the conversation list
    are gone and the login page is asked for.  If no gateway lookup was in
    flight, then whatever happens next - changes of the storage included, unless
    they bring a token and a user - short of another sign-in or a new document,
    no socket is opened, no gateway looked up, and no session comes back. *)
Theorem sign_out t : tab_ok t → is_Some (listed t) → opt_nonempty (auth_token (auth t)) = true →
  let t' := (step LogOut t).1.1 in
  storage t' = Api.mkStorage None None None ∧ auth t' = AuthStore.initialState ∧
  released (client (chat t)) (client (chat t')) ∧ attached (chat t') = false ∧ listed t' = None ∧ next_route t' = Some LoginPage ∧
  (Realtime.gateway_calls (client (chat t')) = 0%nat →
   ∀ acts, Forall (λ a, starts_session a = false) acts →
     opens_nothing (outputs acts t') ∧ auth (run acts t') = AuthStore.initialState).
Proof.
  intros Ht [h Hl] Htok t'. destruct (auth_token (auth t)) as [old|] eqn:Hold; [|done].
  destruct (ok_listed _ Ht h Hl) as [Hi _]. unfold t'. tab_step. rewrite Hl. cbn [AuthStore.logout].
  set (t0 := ask LoginPage _).
  destruct (commit_signed_out t0 old) as (H1 & H2 & H3 & H4); try done; try apply Ht.
  { unfold t0; cbn. by rewrite (ok_realtime _ Ht), Hi, Hold. } { unfold t0; cbn. by rewrite (ok_page _ Ht), Hi, Hold. }
  destruct (commit_frame t0) as (H5 & H6 & _). repeat (split; [done|]). intros Hg acts Hacts.
  destruct (run_off acts (commit t0).1.1 Hacts) as [H7 H8]; [|split; [done|apply H7]].
  split; [by rewrite H5|done|apply H1|done].
Qed.

(** ** Following the storage *)

(** C21: a tab with the conversation list open follows the storage at the next
    tick of the restoration timer.  When another tab signed out, the session
    ends here as after a sign-out.  When a refresh stored a new token, the
    session takes it, the socket in use is closed and a gateway is looked up for
    the new token. *)
Theorem storage_followed t st : tab_ok t → is_Some (listed t) → opt_nonempty (auth_token (auth t)) = true →
  let r := step RestoreTimer (step (StorageChanged st) t).1.1 in
  let t' := r.1.1 in
  (opt_nonempty (Api.ls_token st) = false →
    auth t' = AuthStore.initialState ∧ released (client (chat t)) (client (chat t')) ∧ attached (chat t') = false ∧ listed t' = None ∧
    next_route t' = Some LoginPage) ∧
  (∀ tok raw u, Api.ls_token st = Some tok → nonempty tok = true → Some tok ≠ auth_token (auth t) →
    Api.ls_user st = Some raw → nonempty raw = true → JSON_parse_user raw = Some (Some u) →
    auth t' = mkAuthState (Some u) (Some tok) true ∧ currentUser (chat t') = Some u ∧ attached (chat t') = true ∧
    Realtime.token (client (chat t')) = Some tok ∧
    Realtime.GetGateway (Realtime.extractUserId payload_user_id (Some tok)) ∈ r.1.2 ∧
    (∀ id, Realtime.ws (client (chat t)) = Some id → Realtime.CloseSocket id ∈ r.1.2)).
Proof.
  intros Ht [h Hl] Htok. destruct (auth_token (auth t)) as [old|] eqn:Hold; [|done].
  destruct (ok_listed _ Ht h Hl) as (Hi & Hseen & Htimer). cbv zeta. tab_step; cbn [fst snd set_storage listed].
  rewrite Hl, Htimer. cbn [storage auth set_storage]. set (au := AuthStore.restoreFromStorage _ _ _ _).
  set (t0 := set_listed _ _). destruct (commit_frame t0) as (_ & H6 & _).
  assert (Hrt : realtime_deps t0 = Some (Some old)) by (unfold t0; cbn; by rewrite (ok_realtime _ Ht), Hi, Hold). split.
  - intros Hst. assert (Hau : au = AuthStore.initialState).
    { unfold au, AuthStore.restoreFromStorage. destruct (Api.ls_token st) as [tk|]; [|done]. simpl in Hst. rewrite Hst. by repeat case_match. }
    rewrite H6. split; [exact Hau|]. apply (commit_signed_out t0 old); try done; try apply Ht.
    unfold t0; cbn. by rewrite (ok_page _ Ht), Hi, Hold.
  - intros tok raw u H1 H2 Hne H3 H4 H5.
    assert (Hau : au = mkAuthState (Some u) (Some tok) true)
      by (unfold au, AuthStore.restoreFromStorage; by rewrite H1, H3, H4, H5, H2).
    destruct (commit_token t0 (Some tok)) as [Hc Ho]; [done|rewrite Hrt; congruence|exact (f_equal auth_token Hau)|].
    set (s := (sys_step (UserChanged _) (chat t0)).1.1) in *.
    destruct (token_renews s tok) as (R1 & _ & _ & R4 & R5); [apply Ht|apply Ht| |done|].
    { change (attached s) with (attached (chat t)). by rewrite (ok_attached _ Ht), Hi, Hold. }
    destruct (sys_rest (TokenChanged (Some tok)) s) as [R6 R7].
    rewrite H6, Hc, Ho. split; [exact Hau|]. split; [rewrite R7; exact (f_equal auth_user Hau)|].
    split; [by rewrite R6|]. split; [exact R1|]. split; [exact R4|exact R5].
Qed.

(** The restoration never settles: with a valid session in the storage, any
    number of ticks leaves the session as it was, each has made a new store
    object, and the timer is pending again. *)
Theorem restore_never_settles n : ∀ t, tab_ok t → is_Some (listed t) →
  AuthStore.restoreFromStorage JSON_parse_user true (storage t) (auth t) = auth t →
  let t' := run (replicate n RestoreTimer) t in
  auth t' = auth t ∧ version t' = (n + version t)%nat ∧ ∃ h, listed t' = Some h ∧ timer h = true.
Proof.
  induction n as [|n IH]; intros t Ht [h Hl] Ha; cbn [replicate Tab.run].
  - split; [done|]. split; [done|]. exists h. split; [done|]. by apply (ok_listed _ Ht).
  - destruct (ok_listed _ Ht h Hl) as (Hi & Hseen & Htimer).
    assert (Hs : (step RestoreTimer t).1.1 = (commit (set_listed (Some (mkUseAuth (seen h) false true (guarded h))) (set_auth (auth t) t))).1.1)
      by (tab_step; by rewrite Hl, Htimer, Ha).
    pose proof (step_ok RestoreTimer t Ht) as Ht1. rewrite Hs in *. set (t0 := set_listed _ _) in *.
    destruct (commit_frame t0) as (F1 & F2 & F3 & _ & F5).
    assert (Hl1 : is_Some (listed (commit t0).1.1)).
    { rewrite F5. unfold children. rewrite (proj1 (page_effect_listed _ _)). cbn [t0 set_listed set_auth route auth page_deps listed storage].
      rewrite (ok_page _ Ht), decide_True by done. cbn. unfold Tab.list_effects, useAuth_effects. repeat case_match; eauto. }
    destruct (IH (commit t0).1.1 Ht1 Hl1) as (I1 & I2 & I3); [by rewrite F1, F2|].
    rewrite I1, F2. split; [done|]. split; [|done]. rewrite I2, F3. cbn. lia.
Qed.

(** ** The next user of a tab *)

(** A redirection of a signed-out tab goes to the login page. *)
Lemma list_next b k t : auth t = AuthStore.initialState → next_route t = Some LoginPage →
  next_route (list_effects b k t) = Some LoginPage.
Proof.
  intros Ha Hn. unfold Tab.list_effects, useAuth_effects, Session.guard. rewrite Ha. cbn.
  by repeat (case_match; simplify_eq; try done).
Qed.

Lemma page_next d t : next_route t = Some LoginPage → next_route (page_effect d t) = Some LoginPage.
Proof.
  intros Hn. unfold page_effect, Presence.chat_page_redirect. by repeat (case_match; simplify_eq; try done).
Qed.

Lemma commit_next t : next_route (commit t).1.1 = next_route (children t).
Proof. rewrite commit_children. unfold Tab.layout_effect. by repeat case_match. Qed.

(** Outside the chat pages a rendering asks the router for nothing. *)
Lemma public_next t : ready t → in_chat (route t) = false → next_route (commit t).1.1 = next_route t.
Proof.
  intros Hr Hi. rewrite commit_next. unfold children. cbv zeta. rewrite Hi.
  set (b := if decide (page_deps t = None) then _ else _).
  assert (b = false) as ->.
  { unfold b. case_decide as Hd.
    - apply bool_decide_eq_false. intros [h Hh]. by apply (ready_listed _ Hr) in Hh as [? _].
    - destruct (shows_list _ _) eqn:Hs; [|done]. apply shows_list_chat in Hs. congruence. }
  unfold page_effect. by repeat case_match.
Qed.

Lemma reaches_wf st : reaches initialState st → wf st.
Proof. intros [acts ->]. apply run_keeps_wf, initial_wf. Qed.

(** A refresh for a signed-in user keeps the messages of every topic. *)
Lemma refresh_keeps topic c u convs gs s : chat_ok s → currentUser s = Some u →
  map_get topic (conversations (store s)) = Some c →
  ∃ c', map_get topic (conversations (store (sys_step (RefreshReply (Some convs) gs) s).1.1)) = Some c' ∧ messages c' = messages c.
Proof.
  intros Hs Hu Hc. cbn [System.step]. unfold hook, refreshConversations. rewrite Hu.
  cbn [perform_all]. unfold Realtime.skip. cbn [fst store]. apply setConversations_messages; [|done].
  apply (dispatch_wf (ASetGroups (default [] gs))), reaches_wf, Hs.
Qed.

(** C22: the next user of a tab sees the conversations of the previous one: a
    sign-out does not reset the chat store, and the list of conversations the
    server sends to the new user does not remove the others. *)
Theorem chats_survive_logout t topic c name uid tok ref convs gs :
  tab_ok t → is_Some (listed t) → map_get topic (conversations (store (chat t))) = Some c →
  let t' := run [LogOut; Navigated; SignIn name (Session.LoginOk uid tok ref); Navigated; Chat (RefreshReply (Some convs) gs)] t in
  auth_user (auth t') = Some (mkUser uid (trim name)) ∧
  ∃ c', map_get topic (conversations (store (chat t'))) = Some c' ∧ messages c' = messages c.
Proof.
  intros Ht [h Hl] Hc. cbn [Tab.run]. set (t1 := (step LogOut t).1.1). set (t2 := (step Navigated t1).1.1).
  set (t3 := (step (SignIn _ _) t2).1.1). set (t4 := (step Navigated t3).1.1).
  assert (Ht1 : tab_ok t1) by (by apply step_ok). assert (Ht2 : tab_ok t2) by (by apply step_ok).
  assert (Ht3 : tab_ok t3) by (by apply step_ok). assert (Ht4 : tab_ok t4) by (by apply step_ok).
  assert (E1 : conversations (store (chat t1)) = conversations (store (chat t)) ∧ next_route t1 = Some LoginPage).
  { unfold t1. tab_step. rewrite Hl. cbn [AuthStore.logout]. rewrite commit_conversations, commit_next. split; [done|].
    by apply page_next, list_next. }
  destruct E1 as [C1 N1].
  assert (E2 : conversations (store (chat t2)) = conversations (store (chat t1)) ∧ route t2 = LoginPage).
  { unfold t2. tab_step. rewrite N1. rewrite commit_conversations.
    by rewrite (proj1 (proj2 (proj2 (proj2 (commit_frame _))))). }
  destruct E2 as [C2 R2].
  assert (E3 : conversations (store (chat t3)) = conversations (store (chat t2)) ∧ next_route t3 = Some ChatPage ∧
    auth t3 = mkAuthState (Some (mkUser uid (trim name))) (Some tok) true).
  { unfold t3. tab_step; cbn [AuthStore.login toast fst]. rewrite commit_conversations, public_next, (proj1 (proj2 (commit_frame _))); try done.
    - apply ready_set_auth; [done|]. split; [|done]. intros _. cbn. eauto.
    - cbn. by rewrite R2. }
  destruct E3 as (C3 & N3 & A3).
  assert (E4 : conversations (store (chat t4)) = conversations (store (chat t3)) ∧ route t4 = ChatPage ∧ auth t4 = auth t3).
  { unfold t4. tab_step. rewrite N3. rewrite commit_conversations.
    destruct (commit_frame (set_next None (go ChatPage t3))) as (_ & -> & _ & -> & _). done. }
  destruct E4 as (C4 & R4 & A4). cbn [Tab.step external].
  destruct (refresh_keeps topic c (mkUser uid (trim name)) convs gs (chat t4)) as (c' & H1 & H2).
  - apply Ht4.
  - rewrite (ok_user _ Ht4) by (by rewrite R4). by rewrite A4, A3.
  - by rewrite C4, C3, C2, C1.
  - destruct (sys_step _ (chat t4)) as [[s os] es]. cbn in *. split; [by rewrite A4, A3|]. by exists c'.
Qed.

End Props.

(** ** The theorems at a concrete tab *)

Section Example.
#[local] Existing Instance wire.
#[local] Existing Instance wire_laws.

Definition ex_bob : User := mkUser (Dec 7) "bob".
Definition ex_stored (tok : string) : Api.Storage := Api.mkStorage (Some tok) (Some "R"%string) (Some "{user}"%string).

Abbreviation ex_step := (Tab.step ex_decode ex_encode ex_base RealtimeProps.ex_user (λ _, None) id (λ _, None) id (λ _, []) id
  (λ _, "{user}"%string) (λ _, Some (Some ex_bob)) id).
Abbreviation ex_run := (Tab.run ex_decode ex_encode ex_base RealtimeProps.ex_user (λ _, None) id (λ _, None) id (λ _, []) id
  (λ _, "{user}"%string) (λ _, Some (Some ex_bob)) id).
Abbreviation ex_open_tab := (Tab.open_tab ex_decode ex_encode ex_base RealtimeProps.ex_user (λ _, None) id (λ _, None) id (λ _, []) id
  (λ _, Some (Some ex_bob)) id).

(** Bob reloads the chat page, the client connects and he writes a message. *)
Definition ex_tab : Tab :=
  ex_run ((Chat <$> (Net <$> drop 1 RealtimeProps.ex_open)) ++ [Chat (SendTextWithMentions "p2p_1_7" "hi" "k1" 5000)])
    (ex_open_tab (ex_stored "a.b.c") ChatPage (Some None)).1.1.

Lemma ex_tab_ok : tab_ok ex_tab.
Proof. apply run_ok, open_tab_ok. Qed.

Lemma ex_tab_listed : is_Some (listed ex_tab).
Proof. eexists. vm_compute. reflexivity. Qed.

Lemma sign_out_witness :
  let t := (ex_step LogOut ex_tab).1.1 in
  Realtime.isConnected (client (chat ex_tab)) = true ∧ Realtime.isConnected (client (chat t)) = false ∧
  auth (ex_run [StorageChanged (Api.mkStorage (Some "x.y.z"%string) (Some "R2"%string) None); Navigated;
    Chat (Net Realtime.ReconnectTimer)] t) = AuthStore.initialState.
Proof.
  split; [vm_compute; reflexivity|]. split; [vm_compute; reflexivity|].
  apply (sign_out ex_decode ex_encode ex_base RealtimeProps.ex_user (λ _, None) id (λ _, None) id (λ _, []) id
    (λ _, "{user}"%string) (λ _, Some (Some ex_bob)) id ex_tab ex_tab_ok ex_tab_listed); [vm_compute; reflexivity..|by repeat constructor].
Defined.

Lemma storage_followed_witness :
  let t := (ex_step RestoreTimer (ex_step (StorageChanged (ex_stored "d.e.f")) ex_tab).1.1).1.1 in
  auth_token (auth t) = Some "d.e.f"%string ∧ Realtime.token (client (chat t)) = Some "d.e.f"%string.
Proof.
  destruct (storage_followed ex_decode ex_encode ex_base RealtimeProps.ex_user (λ _, None) id (λ _, None) id (λ _, []) id
    (λ _, "{user}"%string) (λ _, Some (Some ex_bob)) id ex_tab (ex_stored "d.e.f") ex_tab_ok ex_tab_listed) as [_ H]; [vm_compute; reflexivity|].
  destruct (H "d.e.f"%string "{user}"%string ex_bob) as (H1 & _ & _ & H4 & _); [reflexivity|reflexivity|vm_compute; discriminate|reflexivity..|].
  split; [exact (f_equal auth_token H1)|exact H4].
Defined.

Lemma chats_survive_logout_witness :
  let t := ex_run [LogOut; Navigated; SignIn "eve" (Session.LoginOk (Dec 8) "g.h.i" "S"); Navigated; Chat (RefreshReply (Some []) None)] ex_tab in
  auth_user (auth t) = Some (mkUser (Dec 8) "eve") ∧
  ∃ c, map_get "p2p_1_7"%string (conversations (store (chat t))) = Some c ∧ content <$> messages c = ["hi"%string].
Proof.
  destruct (map_get "p2p_1_7"%string (conversations (store (chat ex_tab)))) as [c|] eqn:Hc; [|vm_compute in Hc; discriminate].
  destruct (chats_survive_logout ex_decode ex_encode ex_base RealtimeProps.ex_user (λ _, None) id (λ _, None) id (λ _, []) id
    (λ _, "{user}"%string) (λ _, Some (Some ex_bob)) id ex_tab "p2p_1_7" c "eve" (Dec 8) "g.h.i" "S" [] None ex_tab_ok ex_tab_listed Hc)
    as (H1 & c' & H2 & H3).
  split; [exact H1|]. exists c'. split; [exact H2|]. rewrite H3. vm_compute in Hc. injection Hc as <-. reflexivity.
Defined.

End Example.
